(* ===== verification/_CoqProject ===== *)
-Q . S2P
Prelude.v
Layout.v
Time.v
Names.v
Kernel.v
Device.v
Cls.v
Fat.v
Demo.v
Alloc.v
Chain.v
Free.v
Cache.v
File.v
Truncate.v
Access.v
Boot.v
Io.v
IoSpec.v
WriteSpec.v
Dir.v
DirSpec.v
LfnSpec.v
Vnode.v
Nameops.v
Vnops.v
Readdir.v
Listing.v
Remove.v
VnodeSpec.v
VnopsSpec.v
DirDemo.v
AttrSpec.v
Mount.v
Command.v
MountSpec.v
Slots.v
Insert.v
CreateSpec.v
RenameSpec.v
ReaddirSpec.v
MkdirSpec.v
Grow.v
MoveSpec.v
OpenSpec.v
ReleaseSpec.v
Integrity.v
IntegritySpec.v
OpenDirs.v
WalkOps.v
WalkRename.v
VolumeSpec.v
PersistSpec.v
ValidSpec.v
