(* ===== verification/Prelude.v ===== *)
(** * Verification of the FAT32 file system driver for IRIX

    This development models the kernel driver in [src/] (about 6,000 lines of C)
    and proves its operations correct.  It needs no other document than the
    source.

    ** The program

    - [fat32.h] describes the structures on disk, [fat32fs.h] those in memory.
    - [fat32_util.c] holds the pure helpers (FAT time, names, inode numbers,
      checksums) and the life cycle of vnode structures.
    - [fat32_cls.c] reads and writes the FAT: allocation, freeing, walking and
      extending cluster chains, and the cluster cache of a vnode.
    - [fat32_file.c] has truncation, timestamps, permissions and the making of
      vnodes; [fat32_dir.c] the operations on directory entries.
    - [fat32_vnode.c] implements the vnode operations, [fat32_vfs.c] the mount.
    - [fat32fs.c] registers the module, [mount_fat32.c] is the mount command.

    A call of a vnode operation runs on the mount structure ([fat32fs_info_t]),
    the vnode structures ([fat32fs_vnode_t]) and the buffer cache of the kernel.
    All blocks of files and directories go through buffers of whole clusters,
    all blocks of the FAT through buffers of one sector.

    ** The model

    A function of the driver is a program of the monad [M S] of this file: from
    a state to a state and a result, which is a value, an error code, or one of
    the bad ends: a fault (a memory access outside an object, a lock that is
    released but not held), a wait for ever ([Blocked]) or a loop without end
    ([Spin]).  [try] catches an error code and nothing else.  [wp m s Q] says
    that [m], started in [s], ends with a result and a state in [Q]; as [Q] names
    the results, each theorem excludes the bad ends that it does not mention,
    so that it also says that the call returns.

    Fixed-width integers are [Z] with their reduction written out ([u8], [u16],
    [u32], [s32]); bytes are [Z] below 256; buffers are lists of bytes with
    checked accesses ([bget], [bsub], [bput]); a packed structure is a list of
    fields ([Layout]).

    The driver state [st] (file [Kernel]) is the kernel [K], the mount structure
    [fsi], the vnode structures by address [fvs], so that aliases are the same
    object, and the locks the calling thread holds.  What the driver calls of
    IRIX is a class, its documented behaviour a class of laws, and each has a
    concrete instance that satisfies the laws, on which the witnesses run:

    - [Kernel], [KernelLaws]: buffer cache, clock, locks; instance [Device].  The
      laws say nothing about chunks that overlap: the cache of IRIX does not keep
      them coherent (README, "Important Implementation Notes").
    - [Uio], [UioLaws] (files [Io], [IoSpec]): transfer descriptors, [uiomove].
    - [Vnodes], [VnodesLaws] (files [Vnode], [VnodeSpec]): reference counts and
      behaviours of vnodes, the allocator; instance [vntable].
    - [Vfs], [VfsLaws] (files [Mount], [MountSpec]): the device, the [vfs_t].
    - [Os], [OsLaws] (file [Command]): what the mount command calls.
    - [DirentAbi], [DirentAbiLaws] (files [Readdir], [ReaddirSpec]): the records
      of [getdents].

    Programs that reach another layer run on a pair of states, and [lift] embeds
    those that do not.

    ** Files

    Definitions:
    - [Layout], [Time], [Names]: [fat32.h] and the pure part of [fat32_util.c].
    - [Kernel]: [fat32fs.h], error codes, locks, buffers.
    - [Cls]: [fat32_cls.c].  [File]: [fat32_file.c] but [fat32_make_vnode].
    - [Boot]: [fat32_read_boot] and the mount options.  [Mount]: the rest of
      [fat32_vfs.c].  [Command]: [mount_fat32.c], with its theorem.
    - [Io]: [fat32_read], [fat32_write].
    - [Dir]: [fat32_dir.c] but creation and emission of entries, which are in
      [Nameops] and [Readdir].
    - [Vnode]: the life cycle of vnode structures, the operations on one vnode.
      [Nameops], [Vnops]: the operations on names.  [Readdir]: [fat32_readdir].
    - [Integrity]: [fat32_check_dir_integrity], the driver's own check of a
      directory, which debugging builds make after each change of one.

    Theorems, bottom up:
    - [Time], [Names], [Layout]: round trips of times and inode numbers, the
      grammar of 8.3 names, access to packed structures.
    - [Fat]: a volume's FAT as a function from clusters to values, [fs_wf] (the
      geometry is well formed) and the entry update.  [Alloc], [Chain], [Free]:
      a file is a chain, a list of clusters; allocation, extension, freeing, the
      free count as an invariant, termination on damaged FATs.  [ready] is what
      all operations keep: geometry, readable FAT and FSInfo, free locks.
      [keeps] and [data_keeps] say that other chains and contents stay.
    - [Cache]: the cached seek refines the walk.  [Truncate], [Access].
    - [IoSpec], [WriteSpec]: a file's bytes are the concatenation of its
      clusters; reading is a slice, writing a splice with growth.
    - [DirSpec], [LfnSpec]: entries are 32-byte slices of a directory's bytes;
      update of metadata; encoding of long names.
    - [Listing]: a directory is the list of entries that a pure scan of its
      bytes yields; [fat32_get_dirent] and [fat32_find_dirent] against it.
    - [Remove]: marking slots, emptiness.  [VnodeSpec]: making and freeing vnode
      structures.  [VnopsSpec]: lookup, removal, and the rename that blocks.
    - [AttrSpec]: reading and setting attributes, synchronisation.  [Boot],
      [MountSpec]: mounting.
    - [Slots]: the place that is found for new entries.  [Insert]: the slots of a
      name as a list, and that the scan of a directory that holds them finds the
      name.  [CreateSpec]: creation, and lookup of what was created.
    - [RenameSpec]: renaming within a directory.  [MoveSpec]: renaming from one
      directory to another.  [OpenSpec]: creating a name that exists.
      [MkdirSpec]: making directories.  [ReaddirSpec]: the records that a user
      reads are those of the listing.
    - [ReleaseSpec]: the last reference to a vnode goes away, and with it the
      structures up to the first ancestor in use.
    - [IntegritySpec]: a format of slots, defined without the check; that the
      check decides it; and the change of the slots of a directory by each
      operation.
    - [Grow]: creations in a directory that has to grow.  [OpenDirs]: the
      invariant of the open directories ([sound]: well formed, with clusters of
      their own) and of the vnodes ([typed]), the progress of an operation
      between two such states ([walk]) and its end ([outcome]).  [WalkOps]: that
      creations, makings of directories and look-ups of "." and ".." have such an
      end, whatever they return; [WalkRename]: the same for renames.
    - [VolumeSpec]: the steps of a volume ([dir_step]): the calls of the operations
      on names in open directories, with any result; the open directories pass
      the check after any sequence of them.  [ValidSpec]: the structures behind
      the vnodes stay valid and linked.
    - [PersistSpec]: a write, a synchronisation, a look-up and a read composed:
      the bytes and the size are on disk, under the name.
    - [Demo], [DirDemo]: a small volume for the witnesses.

    ** Fuel

    Loops are [iter] with fuel; running out of it is [Spin], which no theorem
    admits.  The bounds are those of the data: the walk of a chain and the search
    of a free cluster visit at most [fsi_cluster_count] clusters (a chain has no
    duplicates, [Chain]); a transfer moves a byte per round; a search for a name
    advances by an entry of 32 bytes; a cyclic chain makes the C code loop for
    ever and the model run out of fuel.  [fat32_free_clusters] ends on every FAT,
    as it frees what it visits ([Free]); the release of a vnode ends because each
    level of it frees one of the structures there are ([ReleaseSpec]).

    ** Not modelled

    - Console messages; of the code under the [FAT32_DBG] macros the three checks
      [fat32_check_dir_integrity], [fat32_vnode_validate] and
      [fat32_bhv_to_fv_checked] are modelled, as functions of their own.
    - [fat32fs.c]: registration of the module, no logic.
    - Concurrency between threads: locks are modelled for the calling thread,
      which shows that they are balanced and where a thread waits for itself.
    - Output parameters after an error return, which no caller reads. *)
From Stdlib Require Export ZArith Lia.
From stdpp Require Export base numbers decidable list option sets gmap.

#[global] Open Scope Z_scope.

(** ** Machine integers *)

(** Unsigned and signed fixed-width values are [Z] with the reduction that C
    performs on conversion written out. *)
Definition u8 (x : Z) : Z := x mod 2 ^ 8.
Definition u16 (x : Z) : Z := x mod 2 ^ 16.
Definition u32 (x : Z) : Z := x mod 2 ^ 32.
Definition u64 (x : Z) : Z := x mod 2 ^ 64.
Definition swrap (w x : Z) : Z := (x + 2 ^ (w - 1)) mod 2 ^ w - 2 ^ (w - 1).
Definition s32 (x : Z) : Z := swrap 32 x.

(** [flag x b] is the C test [x & b] for a mask [b]. *)
Definition flag (x b : Z) : bool := negb (Z.land x b =? 0).

(** ** Byte buffers *)

Definition is_byte (b : Z) : Prop := 0 <= b < 256.

(** [bget l i] is [l[i]]; [None] when [i] is outside the object. *)
Definition bget (l : list Z) (i : Z) : option Z :=
  if decide (0 <= i) then l !! Z.to_nat i else None.

(** [bsub l i n] are the [n] bytes of [l] from offset [i]. *)
Definition bsub (l : list Z) (i n : Z) : option (list Z) :=
  if decide (0 <= i /\ 0 <= n /\ i + n <= Z.of_nat (length l))
  then Some (take (Z.to_nat n) (drop (Z.to_nat i) l)) else None.

(** [bput l i new] overwrites the bytes of [l] from offset [i] with [new]. *)
Definition bput (l : list Z) (i : Z) (new : list Z) : option (list Z) :=
  if decide (0 <= i /\ i + Z.of_nat (length new) <= Z.of_nat (length l))
  then Some (take (Z.to_nat i) l ++ new ++ drop (Z.to_nat i + length new)%nat l) else None.

(** ** The state and error monad of the driver code *)

(** A C function that returns [0] or an error code is a computation that ends
    in [Ok] or [Err].  [Fault] is an access outside an object or through an
    invalid pointer, [Blocked] a thread that waits for a lock it holds itself,
    [Spin] a loop that has used up its fuel. *)
Inductive res (A : Type) : Type :=
| Ok (a : A)
| Err (e : Z)
| Fault
| Blocked
| Spin.
Arguments Ok {A} a.
Arguments Err {A} e.
Arguments Fault {A}.
Arguments Blocked {A}.
Arguments Spin {A}.

Definition M (S A : Type) : Type := S -> S * res A.

Definition ret {S A} (a : A) : M S A := fun s => (s, Ok a).
Definition throw {S A} (e : Z) : M S A := fun s => (s, Err e).
Definition fault {S A} : M S A := fun s => (s, Fault).
Definition blocked {S A} : M S A := fun s => (s, Blocked).
Definition spin {S A} : M S A := fun s => (s, Spin).

Definition res_bind {S A B} (r : S * res A) (k : A -> M S B) : S * res B :=
  match r with
  | (s, Ok a) => k a s
  | (s, Err e) => (s, Err e)
  | (s, Fault) => (s, Fault)
  | (s, Blocked) => (s, Blocked)
  | (s, Spin) => (s, Spin)
  end.

Definition bind {S A B} (m : M S A) (k : A -> M S B) : M S B :=
  fun s => res_bind (m s) k.

(** [try m] hands the error code to the caller as a value. *)
Definition try {S A} (m : M S A) : M S (Z + A) :=
  fun s => match m s with
           | (s', Ok a) => (s', Ok (inr a))
           | (s', Err e) => (s', Ok (inl e))
           | (s', Fault) => (s', Fault)
           | (s', Blocked) => (s', Blocked)
           | (s', Spin) => (s', Spin)
           end.

Definition rethrow {S A} (r : Z + A) : M S A :=
  match r with inl e => throw e | inr a => ret a end.

Definition of_opt {S A} (o : option A) : M S A :=
  match o with Some a => ret a | None => fault end.

Definition gets {S A} (f : S -> A) : M S A := fun s => (s, Ok (f s)).
Definition modify {S} (f : S -> S) : M S unit := fun s => (f s, Ok tt).

(** A C loop: the body says whether to go on ([inl]) or to leave ([inr]). *)
Fixpoint iter {S X R} (fuel : nat) (body : X -> M S (X + R)) (x : X) : M S R :=
  match fuel with
  | O => spin
  | S n => bind (body x) (fun r => match r with
                                   | inl x' => iter n body x'
                                   | inr v => ret v
                                   end)
  end.

(** A computation on one part of a larger state. *)
Definition lift {S U A} (m : M S A) : M (S * U) A :=
  fun su => let '(s', r) := m (fst su) in ((s', snd su), r).

Declare Scope fat32_scope.
Delimit Scope fat32_scope with fat32.
Notation "'let*' x := m 'in' k" := (bind m (fun x => k))
  (at level 10, x name, m at level 100, k at level 200) : fat32_scope.
Notation "'do*' m 'in' k" := (bind m (fun _ => k))
  (at level 10, m at level 100, k at level 200) : fat32_scope.
#[global] Open Scope fat32_scope.

(** ** Weakest preconditions *)

(** [wp m s Q]: started in [s], [m] ends with a result and a state in [Q]. *)
Definition wp {S A} (m : M S A) (s : S) (Q : res A -> S -> Prop) : Prop :=
  Q (snd (m s)) (fst (m s)).

(** [okp Q] is the postcondition of a run that must return a value. *)
Definition okp {S A} (Q : A -> S -> Prop) : res A -> S -> Prop :=
  fun r s => match r with Ok a => Q a s | _ => False end.

(** [wpk Q k] is the postcondition of [m] in [let* x := m in k x]. *)
Definition wpk {S A B} (k : A -> M S B) (Q : res B -> S -> Prop)
  : res A -> S -> Prop :=
  fun r s => match r with
             | Ok a => wp (k a) s Q
             | Err e => Q (Err e) s
             | Fault => Q Fault s
             | Blocked => Q Blocked s
             | Spin => Q Spin s
             end.

Section wp.
Context {S : Type}.

Lemma wp_mono {A} (m : M S A) s (P Q : res A -> S -> Prop) :
  wp m s P -> (forall r s', P r s' -> Q r s') -> wp m s Q.
Proof. unfold wp. auto. Qed.

(** Two postconditions of one run. *)
Lemma wp_and {A} (m : M S A) s (P Q : res A -> S -> Prop) :
  wp m s P -> wp m s Q -> wp m s (fun r s' => P r s' /\ Q r s').
Proof. by split. Qed.

Lemma wp_both {A} (m : M S A) s (P Q : A -> S -> Prop) :
  wp m s (okp P) -> wp m s (okp Q) -> wp m s (okp (fun a s' => P a s' /\ Q a s')).
Proof. unfold wp, okp. by destruct (m s).2. Qed.

Lemma wp_bind {A B} (m : M S A) (k : A -> M S B) s Q :
  wp m s (wpk k Q) -> wp (bind m k) s Q.
Proof. unfold wp, bind, res_bind, wpk. destruct (m s) as [s' []]; auto. Qed.

(** The form used to step over a call whose specification is known. *)
Lemma wp_call {A B} (m : M S A) (k : A -> M S B) s (P : res A -> S -> Prop) Q :
  wp m s P -> (forall r s', P r s' -> wpk k Q r s') -> wp (bind m k) s Q.
Proof. intros H HP. apply wp_bind. by eapply wp_mono. Qed.

Lemma wp_call_ok {A B} (m : M S A) (k : A -> M S B) s (P : A -> S -> Prop) Q :
  wp m s (okp P) -> (forall a s', P a s' -> wp (k a) s' Q) -> wp (bind m k) s Q.
Proof. intros H HP. eapply wp_call; [done|]. intros [] s'; simpl; (auto || done). Qed.

Lemma wp_bind_assoc {A B C} (m1 : M S A) (m2 : A -> M S B) (k : B -> M S C) s Q :
  wp (bind (bind m1 m2) k) s Q -> wp (bind m1 (fun a => bind (m2 a) k)) s Q.
Proof. unfold wp, bind, res_bind. by destruct (m1 s) as [s' []]. Qed.

Lemma wp_ret {A} (a : A) s (Q : res A -> S -> Prop) : Q (Ok a) s -> wp (ret a) s Q.
Proof. done. Qed.

Lemma wp_throw {A} e s (Q : res A -> S -> Prop) : Q (Err e) s -> wp (throw e) s Q.
Proof. done. Qed.

Lemma wp_gets {A} (f : S -> A) s (Q : res A -> S -> Prop) :
  Q (Ok (f s)) s -> wp (gets f) s Q.
Proof. done. Qed.

Lemma wp_modify (f : S -> S) s (Q : res unit -> S -> Prop) :
  Q (Ok tt) (f s) -> wp (modify f) s Q.
Proof. done. Qed.

Lemma wp_of_opt {A} (o : option A) a s (Q : res A -> S -> Prop) :
  o = Some a -> Q (Ok a) s -> wp (of_opt o) s Q.
Proof. intros ->. done. Qed.

Lemma wp_try {A} (m : M S A) s Q :
  wp m s (fun r s' => match r with
                      | Ok a => Q (Ok (inr a)) s'
                      | Err e => Q (Ok (inl e)) s'
                      | Fault => Q Fault s'
                      | Blocked => Q Blocked s'
                      | Spin => Q Spin s'
                      end) -> wp (try m) s Q.
Proof. unfold wp, try. destruct (m s) as [s' []]; auto. Qed.

(** Total correctness of a loop: an invariant and a measure below the fuel. *)
Lemma wp_iter {X R} (body : X -> M S (X + R)) (I : X -> S -> Prop) (mu : X -> S -> nat) Q :
  (forall x s, I x s ->
     wp (body x) s (fun r s' => match r with
                                | Ok (inl x') => I x' s' /\ (mu x' s' < mu x s)%nat
                                | Ok (inr v) => Q (Ok v) s'
                                | Err e => Q (Err e) s'
                                | Fault => Q Fault s'
                                | Blocked => Q Blocked s'
                                | Spin => Q Spin s'
                                end)) ->
  forall fuel x s, I x s -> (mu x s < fuel)%nat -> wp (iter fuel body x) s Q.
Proof.
  intros Hbody fuel. induction fuel as [|n IH]; intros x s HI Hmu; [lia|].
  cbn [iter]. eapply wp_call; [by apply Hbody|].
  intros r s' Hr. destruct r as [[x'|v]| | | |]; try exact Hr.
  destruct Hr as [HI' Hlt]. simpl. apply IH; [done|lia].
Qed.

(** More fuel does not change a run that has ended. *)
Lemma iter_more {X R} (body : X -> M S (X + R)) n k x s :
  snd (iter n body x s) <> Spin ->
  iter (n + k) body x s = iter n body x s.
Proof.
  revert x s. induction n as [|n IH]; intros x s Hs; [done|].
  cbn [iter Nat.add] in *. unfold bind, res_bind in *.
  destruct (body x s) as [s' [[x'|v]| | | |]]; try done. by apply IH.
Qed.

End wp.

Lemma wp_lift {S U A} (m : M S A) s (u : U) (Q : res A -> S * U -> Prop) :
  wp m s (fun r s' => Q r (s', u)) -> wp (lift m) (s, u) Q.
Proof. unfold wp, lift. cbn. destruct (m s) as [s' r]. done. Qed.

Lemma wp_lift_call {S U A B} (m : M S A) (k : A -> M (S * U) B) s (u : U) P Q :
  wp m s (okp P) -> (forall a s', P a s' -> wp (k a) (s', u) Q) -> wp (bind (lift m) k) (s, u) Q.
Proof.
  intros Hm Hk. apply wp_bind, wp_lift. eapply wp_mono; [exact Hm|].
  intros [] s'; cbn; try done. apply Hk.
Qed.

(** ** Integer lemmas *)

Lemma u8_small x : 0 <= x < 2 ^ 8 -> u8 x = x.
Proof. apply Z.mod_small. Qed.
Lemma u16_small x : 0 <= x < 2 ^ 16 -> u16 x = x.
Proof. apply Z.mod_small. Qed.
Lemma u32_small x : 0 <= x < 2 ^ 32 -> u32 x = x.
Proof. apply Z.mod_small. Qed.
Lemma u64_small x : 0 <= x < 2 ^ 64 -> u64 x = x.
Proof. apply Z.mod_small. Qed.
Lemma u8_range x : 0 <= u8 x < 2 ^ 8.
Proof. by apply Z.mod_pos_bound. Qed.
Lemma u16_range x : 0 <= u16 x < 2 ^ 16.
Proof. by apply Z.mod_pos_bound. Qed.
Lemma u32_range x : 0 <= u32 x < 2 ^ 32.
Proof. by apply Z.mod_pos_bound. Qed.

Lemma swrap_small w x : 0 < w -> - 2 ^ (w - 1) <= x < 2 ^ (w - 1) -> swrap w x = x.
Proof.
  intros Hw Hx. unfold swrap. rewrite Z.mod_small; [lia|].
  replace (2 ^ w) with (2 * 2 ^ (w - 1)); [lia|].
  rewrite <- Z.pow_succ_r by lia. f_equal; lia.
Qed.

(** Disjoint bit fields add up. *)
Lemma lor_shiftl_add a b n : 0 <= n -> 0 <= a < 2 ^ n -> Z.lor a (Z.shiftl b n) = a + b * 2 ^ n.
Proof.
  intros Hn Ha.
  assert (Z.land a (Z.shiftl b n) = 0) as Hl.
  { apply Z.bits_inj'. intros i Hi. rewrite Z.land_spec, Z.bits_0.
    destruct (Z.ltb_spec i n) as [Hin|Hin].
    - rewrite Z.shiftl_spec_low by lia. apply andb_false_r.
    - rewrite <- (Z.mod_small a (2 ^ n)) by done.
      rewrite Z.mod_pow2_bits_high by lia. done. }
  pose proof (Z.add_lor_land a (Z.shiftl b n)) as Hadd.
  rewrite Z.shiftl_mul_pow2 in * by lia. lia.
Qed.

Lemma land_ones_mod x n : 0 <= n -> Z.land x (2 ^ n - 1) = x mod 2 ^ n.
Proof. intros Hn. rewrite <- Z.land_ones by done. by rewrite Z.ones_equiv, <- Z.sub_1_r. Qed.

Lemma land_255 x : Z.land x 255 = x mod 256.
Proof. apply (land_ones_mod x 8). lia. Qed.

Lemma shiftr_div x n : 0 <= n -> Z.shiftr x n = x / 2 ^ n.
Proof. apply Z.shiftr_div_pow2. Qed.

(** Three adjacent bit fields. *)
Lemma pack_fields a b c p q :
  0 <= q <= p -> 0 <= c < 2 ^ q -> 0 <= b < 2 ^ (p - q) ->
  Z.lor (Z.lor (Z.shiftl a p) (Z.shiftl b q)) c = a * 2 ^ p + b * 2 ^ q + c.
Proof.
  intros Hpq Hc Hb.
  assert (2 ^ p = 2 ^ (p - q) * 2 ^ q) as Hp by (rewrite <- Z.pow_add_r by lia; f_equal; lia).
  assert (Z.lor (Z.shiftl a p) (Z.shiftl b q) = Z.shiftl (b + a * 2 ^ (p - q)) q) as ->.
  { rewrite Z.lor_comm, lor_shiftl_add by (rewrite ?Z.shiftl_mul_pow2 by lia; nia).
    rewrite !Z.shiftl_mul_pow2 by lia. rewrite Hp. ring. }
  rewrite Z.lor_comm, lor_shiftl_add by lia. rewrite Hp. ring.
Qed.

(** ** Buffer lemmas *)

Lemma bsub_length l i n r : bsub l i n = Some r -> Z.of_nat (length r) = n.
Proof.
  unfold bsub. case_decide as Hd; [|done]. intros [= <-].
  rewrite length_take, length_drop. lia.
Qed.

Lemma bput_length l i new l' : bput l i new = Some l' -> length l' = length l.
Proof.
  unfold bput. case_decide as Hd; [|done]. intros [= <-].
  rewrite !length_app, length_take, length_drop. lia.
Qed.

Lemma bsub_Some l i n :
  0 <= i -> 0 <= n -> i + n <= Z.of_nat (length l) ->
  bsub l i n = Some (take (Z.to_nat n) (drop (Z.to_nat i) l)).
Proof. intros. unfold bsub. rewrite decide_True by lia. done. Qed.

Lemma bput_Some l i new :
  0 <= i -> i + Z.of_nat (length new) <= Z.of_nat (length l) ->
  exists l', bput l i new = Some l'.
Proof. intros. unfold bput. rewrite decide_True by lia. eauto. Qed.

(** Reading back what was written, and reading beside it. *)
Lemma bsub_bput_same l i new l' :
  bput l i new = Some l' -> bsub l' i (Z.of_nat (length new)) = Some new.
Proof.
  intros Hp. pose proof (bput_length _ _ _ _ Hp) as Hlen. revert Hp.
  unfold bput. case_decide as Hd; [|done]. intros [= <-].
  rewrite bsub_Some by lia. f_equal.
  rewrite drop_app_length' by (rewrite length_take; lia).
  rewrite Nat2Z.id. by rewrite take_app_length.
Qed.

Lemma bput_lookup_ne l i new l' (j : nat) :
  bput l i new = Some l' ->
  (Z.of_nat j < i \/ i + Z.of_nat (length new) <= Z.of_nat j) -> l' !! j = l !! j.
Proof.
  unfold bput. case_decide as Hd; [|done]. intros [= <-] [Hj|Hj].
  - rewrite lookup_app_l by (rewrite length_take; lia).
    by rewrite lookup_take_lt by lia.
  - rewrite lookup_app_r by (rewrite length_take; lia). rewrite length_take.
    rewrite lookup_app_r by lia. rewrite lookup_drop. f_equal. lia.
Qed.

Lemma bsub_bput_other l i new l' j n :
  bput l i new = Some l' ->
  (j + n <= i \/ i + Z.of_nat (length new) <= j) -> bsub l' j n = bsub l j n.
Proof.
  intros Hp Hj. unfold bsub. rewrite (bput_length _ _ _ _ Hp).
  case_decide as Hd; [|done]. f_equal. apply list_eq. intros k.
  destruct (decide (k < Z.to_nat n)%nat).
  - rewrite !lookup_take_lt by lia. rewrite !lookup_drop.
    apply (bput_lookup_ne _ _ _ _ _ Hp). lia.
  - by rewrite !lookup_take_ge by lia.
Qed.

Lemma bput_bytes l i new l' :
  bput l i new = Some l' -> Forall is_byte l -> Forall is_byte new -> Forall is_byte l'.
Proof.
  unfold bput. case_decide; [|done]. intros [= <-] Hl Hn.
  repeat apply Forall_app_2; auto using Forall_take, Forall_drop.
Qed.

Lemma bsub_bytes l i n r : bsub l i n = Some r -> Forall is_byte l -> Forall is_byte r.
Proof.
  unfold bsub. case_decide; [|done]. intros [= <-] Hl.
  auto using Forall_take, Forall_drop.
Qed.

(** ** Hints *)

Create HintDb fat32.
#[export] Hint Resolve u8_range u16_range u32_range bput_bytes bsub_bytes : fat32.
Create HintDb fat32_wrap.
Create Rewrite HintDb fat32_wrap.
#[export] Hint Rewrite u8_small u16_small u32_small u64_small using lia : fat32_wrap.

(** Removes reductions that provably do nothing. *)
Ltac wrap_small := autorewrite with fat32_wrap in *.

(** One step of symbolic execution of a monadic program: primitive computations
    are executed, calls are left to their specifications. *)
Ltac wp_step :=
  match goal with
  | |- wp (bind (ret _) _) _ _ => apply wp_bind, wp_ret
  | |- wp (bind (throw _) _) _ _ => apply wp_bind, wp_throw
  | |- wp (bind (gets _) _) _ _ => apply wp_bind, wp_gets
  | |- wp (bind (modify _) _) _ _ => apply wp_bind, wp_modify
  | |- wp (bind (try _) _) _ _ => apply wp_bind, wp_try
  | |- wp (bind (bind _ _) _) _ _ => apply wp_bind
  | |- wp (ret _) _ _ => apply wp_ret
  | |- wp (throw _) _ _ => apply wp_throw
  | |- wp (gets _) _ _ => apply wp_gets
  | |- wp (modify _) _ _ => apply wp_modify
  | |- wp (try _) _ _ => apply wp_try
  | |- wpk _ _ _ _ => unfold wpk
  end; cbn beta iota.
