(* ===== verification/Layout.v ===== *)
(** * On-disk layout ([fat32.h])

    The constants of [fat32.h], the little-endian accessor macros, and the five
    packed structures.  A C structure of [uint8_t] members is a list of fields
    with their sizes; casting a buffer to the structure and reading or writing a
    member is [get_field] and [set_field] on its bytes. *)
From S2P Require Import Prelude.

(** ** Constants *)

Definition FAT32_CLUSTER_FREE : Z := 0x00000000.
Definition FAT32_CLUSTER_MIN : Z := 0x00000002.
Definition FAT32_CLUSTER_MAX : Z := 0x0FFFFFEF.
Definition FAT32_CLUSTER_BAD : Z := 0x0FFFFFF7.
Definition FAT32_CLUSTER_EOC_MIN : Z := 0x0FFFFFF8.
Definition FAT32_CLUSTER_EOC : Z := 0x0FFFFFFF.
Definition FAT32_CLUSTER_MASK : Z := 0x0FFFFFFF.

Definition FAT32_ATTR_READ_ONLY : Z := 0x01.
Definition FAT32_ATTR_HIDDEN : Z := 0x02.
Definition FAT32_ATTR_SYSTEM : Z := 0x04.
Definition FAT32_ATTR_VOLUME_ID : Z := 0x08.
Definition FAT32_ATTR_DIRECTORY : Z := 0x10.
Definition FAT32_ATTR_ARCHIVE : Z := 0x20.
Definition FAT32_ATTR_LONG_NAME : Z := 0x0F.

Definition FAT32_LFN_LAST : Z := 0x40.
Definition FAT32_LFN_DELETED : Z := 0xE5.
Definition FAT32_LFN_SEQ_MASK : Z := 0x1F.
Definition FAT32_LFN_FILL : Z := 0xFFFF.
Definition FAT32_MAX_NAME : Z := 255.

Definition FAT32_DENTRY_SIZE : Z := 32.
Definition FAT32_FSINFO_LEAD_SIG : Z := 0x41615252.
Definition FAT32_FSINFO_STRUCT_SIG : Z := 0x61417272.
Definition FAT32_FSINFO_TRAIL_SIG : Z := 0xAA550000.
Definition FAT32_BOOT_SIGNATURE : Z := 0x29.
Definition FAT32_SECTOR_SIGNATURE : Z := 0xAA55.

(** ** Little-endian accessors *)

Definition RLE16 (bytes : list Z) : Z :=
  Z.lor (nth 0 bytes 0) (Z.shiftl (nth 1 bytes 0) 8).

Definition WLE16 (val : Z) : list Z :=
  [Z.land val 0xFF; Z.land (Z.shiftr val 8) 0xFF].

Definition RLE32 (bytes : list Z) : Z :=
  Z.lor (Z.lor (Z.lor (nth 0 bytes 0) (Z.shiftl (nth 1 bytes 0) 8))
               (Z.shiftl (nth 2 bytes 0) 16))
        (Z.shiftl (nth 3 bytes 0) 24).

Definition WLE32 (val : Z) : list Z :=
  [Z.land val 0xFF; Z.land (Z.shiftr val 8) 0xFF;
   Z.land (Z.shiftr val 16) 0xFF; Z.land (Z.shiftr val 24) 0xFF].

(** ** Packed structures *)

Section layout.
Context {F : Type} `{EqDecision F}.

(** A structure: its members in order, with their sizes in bytes. *)
Definition layout : Type := list (F * nat).

Fixpoint sizeof (l : layout) : nat :=
  match l with [] => 0 | (_, n) :: l' => n + sizeof l' end.

Fixpoint offsetof (l : layout) (f : F) : nat :=
  match l with
  | [] => 0
  | (g, n) :: l' => if decide (f = g) then 0 else n + offsetof l' f
  end.

Fixpoint fieldsize (l : layout) (f : F) : nat :=
  match l with
  | [] => 0
  | (g, n) :: l' => if decide (f = g) then n else fieldsize l' f
  end.

Definition get_field (l : layout) (bs : list Z) (f : F) : list Z :=
  take (fieldsize l f) (drop (offsetof l f) bs).

Definition set_field (l : layout) (bs : list Z) (f : F) (v : list Z) : list Z :=
  take (offsetof l f) bs ++ v ++ drop (offsetof l f + fieldsize l f) bs.

(** A member of type [uint8_t]. *)
Definition get_byte (l : layout) (bs : list Z) (f : F) : Z :=
  nth 0 (get_field l bs f) 0.

End layout.
Arguments layout F : clear implicits.

Module Mbr.
Inductive field := boot_code | partition (i : nat) | signature.
#[global] Instance field_eq_dec : EqDecision field.
Proof. solve_decision. Defined.
Definition fat32_mbr : layout field :=
  [(boot_code, 446); (partition 0, 16); (partition 1, 16); (partition 2, 16);
   (partition 3, 16); (signature, 2)]%nat.
Inductive pfield := boot_indicator | start_head | start_sector | start_cylinder
  | system_id | end_head | end_sector | end_cylinder | relative_sector | total_sectors.
#[global] Instance pfield_eq_dec : EqDecision pfield.
Proof. solve_decision. Defined.
Definition fat32_mbr_partition : layout pfield :=
  [(boot_indicator, 1); (start_head, 1); (start_sector, 1); (start_cylinder, 1);
   (system_id, 1); (end_head, 1); (end_sector, 1); (end_cylinder, 1);
   (relative_sector, 4); (total_sectors, 4)]%nat.
End Mbr.

Module Br.
Inductive field := jmp_boot | oem_name | bytes_per_sector | sectors_per_cluster
  | reserved_sectors | num_fats | root_entries | total_sectors_16 | media_type
  | fat_size_16 | sectors_per_track | num_heads | hidden_sectors | total_sectors_32
  | fat_size_32 | ext_flags | fs_version | root_cluster | fs_info
  | backup_boot_sector | reserved | drive_number | reserved1 | boot_signature
  | volume_id | volume_label | fs_type | boot_code | signature.
#[global] Instance field_eq_dec : EqDecision field.
Proof. solve_decision. Defined.
Definition fat32_br : layout field :=
  [(jmp_boot, 3); (oem_name, 8); (bytes_per_sector, 2); (sectors_per_cluster, 1);
   (reserved_sectors, 2); (num_fats, 1); (root_entries, 2); (total_sectors_16, 2);
   (media_type, 1); (fat_size_16, 2); (sectors_per_track, 2); (num_heads, 2);
   (hidden_sectors, 4); (total_sectors_32, 4); (fat_size_32, 4); (ext_flags, 2);
   (fs_version, 2); (root_cluster, 4); (fs_info, 2); (backup_boot_sector, 2);
   (reserved, 12); (drive_number, 1); (reserved1, 1); (boot_signature, 1);
   (volume_id, 4); (volume_label, 11); (fs_type, 8); (boot_code, 420);
   (signature, 2)]%nat.
End Br.

Module FsInfo.
Inductive field := lead_signature | reserved1 | struct_signature | free_count
  | next_free | reserved2 | trail_signature.
#[global] Instance field_eq_dec : EqDecision field.
Proof. solve_decision. Defined.
Definition fat32_fsinfo : layout field :=
  [(lead_signature, 4); (reserved1, 480); (struct_signature, 4); (free_count, 4);
   (next_free, 4); (reserved2, 12); (trail_signature, 4)]%nat.
End FsInfo.

Module D83.
Inductive field := name | attr | nt_reserved | create_time_tenth | create_time
  | create_date | last_access_date | first_cluster_hi | write_time | write_date
  | first_cluster_lo | file_size.
#[global] Instance field_eq_dec : EqDecision field.
Proof. solve_decision. Defined.
Definition fat32_dirent83 : layout field :=
  [(name, 11); (attr, 1); (nt_reserved, 1); (create_time_tenth, 1); (create_time, 2);
   (create_date, 2); (last_access_date, 2); (first_cluster_hi, 2); (write_time, 2);
   (write_date, 2); (first_cluster_lo, 2); (file_size, 4)]%nat.
End D83.

Module Lfn.
Inductive field := sequence | name1 | attr | type | checksum | name2
  | first_cluster | name3.
#[global] Instance field_eq_dec : EqDecision field.
Proof. solve_decision. Defined.
Definition fat32_dirent_lfn : layout field :=
  [(sequence, 1); (name1, 10); (attr, 1); (type, 1); (checksum, 1); (name2, 12);
   (first_cluster, 2); (name3, 4)]%nat.
End Lfn.

(** ** Accessor lemmas *)

Lemma RLE16_arith b0 b1 l : is_byte b0 -> RLE16 (b0 :: b1 :: l) = b0 + b1 * 256.
Proof. intros. unfold RLE16. cbn [nth]. by rewrite lor_shiftl_add by (unfold is_byte in *; lia). Qed.

Lemma RLE32_arith b0 b1 b2 b3 l :
  is_byte b0 -> is_byte b1 -> is_byte b2 -> is_byte b3 ->
  RLE32 (b0 :: b1 :: b2 :: b3 :: l) = b0 + b1 * 256 + b2 * 65536 + b3 * 16777216.
Proof.
  intros. unfold is_byte in *. unfold RLE32. cbn [nth].
  rewrite (lor_shiftl_add b0 b1 8) by lia.
  rewrite (lor_shiftl_add _ b2 16) by lia.
  rewrite (lor_shiftl_add _ b3 24) by lia. lia.
Qed.

Lemma WLE16_bytes v : Forall is_byte (WLE16 v).
Proof.
  unfold WLE16. rewrite !land_255.
  repeat constructor; apply Z.mod_pos_bound; lia.
Qed.

Lemma WLE32_bytes v : Forall is_byte (WLE32 v).
Proof.
  unfold WLE32. rewrite !land_255.
  repeat constructor; apply Z.mod_pos_bound; lia.
Qed.

Lemma RLE16_WLE16 v : RLE16 (WLE16 v) = u16 v.
Proof.
  pose proof (WLE16_bytes v) as Hb. unfold WLE16, u16 in *.
  rewrite !land_255, shiftr_div in * by lia.
  rewrite RLE16_arith by (by inversion Hb).
  change (2 ^ 8) with 256. change (2 ^ 16) with (256 * 256).
  rewrite Z.rem_mul_r by lia. lia.
Qed.

Lemma RLE32_WLE32 v : RLE32 (WLE32 v) = u32 v.
Proof.
  pose proof (WLE32_bytes v) as Hb. unfold WLE32, u32 in *.
  rewrite !land_255, !shiftr_div in * by lia.
  rewrite RLE32_arith by (by repeat (inversion Hb as [|??? Hb']; clear Hb; rename Hb' into Hb; subst)).
  change (2 ^ 32) with (256 * (256 * (256 * 256))).
  rewrite !Z.rem_mul_r by lia. rewrite !Z.div_div by lia.
  change (2 ^ 8) with 256. change (2 ^ 16) with (256 * 256). change (2 ^ 24) with (256 * 256 * 256).
  lia.
Qed.

Lemma WLE32_RLE32 b0 b1 b2 b3 :
  Forall is_byte [b0; b1; b2; b3] -> WLE32 (RLE32 [b0; b1; b2; b3]) = [b0; b1; b2; b3].
Proof.
  intros Hb. apply Forall_cons_1 in Hb as [H0 Hb]. apply Forall_cons_1 in Hb as [H1 Hb].
  apply Forall_cons_1 in Hb as [H2 Hb]. apply Forall_cons_1 in Hb as [H3 _].
  rewrite RLE32_arith by done. unfold WLE32, is_byte in *.
  rewrite !land_255, !shiftr_div by lia.
  change (2 ^ 8) with 256. change (2 ^ 16) with 65536. change (2 ^ 24) with 16777216.
  repeat f_equal; Z.div_mod_to_equations; lia.
Qed.

Lemma RLE32_range bs : Forall is_byte bs -> 0 <= RLE32 bs < 2 ^ 32.
Proof.
  intros Hb.
  assert (forall i, is_byte (nth i bs 0)) as Hn.
  { intros i. destruct (decide (i < length bs)%nat).
    - by apply Forall_nth.
    - rewrite nth_overflow by lia. unfold is_byte; lia. }
  pose proof (Hn 0%nat); pose proof (Hn 1%nat); pose proof (Hn 2%nat); pose proof (Hn 3%nat).
  unfold is_byte in *. unfold RLE32.
  rewrite (lor_shiftl_add _ (nth 1 bs 0) 8) by lia.
  rewrite (lor_shiftl_add _ (nth 2 bs 0) 16) by lia.
  rewrite (lor_shiftl_add _ (nth 3 bs 0) 24) by lia. lia.
Qed.

Section layout_lemmas.
Context {F : Type} `{EqDecision F}.
Implicit Types l : layout F.

Lemma field_in_struct l f : (offsetof l f + fieldsize l f <= sizeof l)%nat.
Proof. induction l as [|[g n] l IH]; simpl; [lia|]. case_decide; lia. Qed.

Lemma fields_disjoint l f g :
  f <> g -> fieldsize l f <> 0%nat -> fieldsize l g <> 0%nat ->
  (offsetof l f + fieldsize l f <= offsetof l g)%nat \/
  (offsetof l g + fieldsize l g <= offsetof l f)%nat.
Proof.
  intros Hfg. induction l as [|[h n] l IH]; simpl; [lia|].
  repeat case_decide; subst; try done; try lia.
Qed.

Lemma set_field_length l bs f v :
  length bs = sizeof l -> length v = fieldsize l f ->
  length (set_field l bs f v) = sizeof l.
Proof.
  intros Hb Hv. pose proof (field_in_struct l f). unfold set_field.
  rewrite !length_app, length_take, length_drop. lia.
Qed.

Lemma get_field_length l bs f : length bs = sizeof l -> length (get_field l bs f) = fieldsize l f.
Proof.
  intros Hb. pose proof (field_in_struct l f). unfold get_field.
  rewrite length_take, length_drop. lia.
Qed.

Lemma get_set_same l bs f v :
  length bs = sizeof l -> length v = fieldsize l f ->
  get_field l (set_field l bs f v) f = v.
Proof.
  intros Hb Hv. pose proof (field_in_struct l f). unfold get_field, set_field.
  rewrite drop_app_length' by (rewrite length_take; lia).
  rewrite <- Hv. by rewrite take_app_length.
Qed.

Lemma set_field_lookup_ne l bs f v j :
  length bs = sizeof l -> length v = fieldsize l f ->
  (j < offsetof l f \/ offsetof l f + fieldsize l f <= j)%nat ->
  set_field l bs f v !! j = bs !! j.
Proof.
  intros Hb Hv Hj. pose proof (field_in_struct l f). unfold set_field.
  destruct Hj.
  - rewrite lookup_app_l by (rewrite length_take; lia). by rewrite lookup_take_lt by lia.
  - rewrite lookup_app_r by (rewrite length_take; lia). rewrite length_take.
    rewrite lookup_app_r by lia. rewrite lookup_drop. f_equal. lia.
Qed.

Lemma get_set_other l bs f g v :
  f <> g -> length bs = sizeof l -> length v = fieldsize l f ->
  get_field l (set_field l bs f v) g = get_field l bs g.
Proof.
  intros Hfg Hb Hv. unfold get_field at 1 2.
  destruct (decide (fieldsize l g = 0%nat)) as [->|Hg]; [done|].
  apply list_eq. intros k.
  destruct (decide (k < fieldsize l g)%nat); [|by rewrite !lookup_take_ge by lia].
  rewrite !lookup_take_lt by lia. rewrite !lookup_drop.
  destruct (decide (fieldsize l f = 0%nat)) as [|Hf].
  - apply set_field_lookup_ne; lia.
  - apply set_field_lookup_ne; [done..|].
    destruct (fields_disjoint l f g Hfg Hf Hg); lia.
Qed.

Lemma set_field_bytes l bs f v :
  Forall is_byte bs -> Forall is_byte v -> Forall is_byte (set_field l bs f v).
Proof. intros. unfold set_field. repeat apply Forall_app_2; auto using Forall_take, Forall_drop. Qed.

Lemma get_field_bytes l bs f : Forall is_byte bs -> Forall is_byte (get_field l bs f).
Proof. intros. unfold get_field. auto using Forall_take, Forall_drop. Qed.

(** A list of assignments to members, the first one last, and what a member
    holds afterwards. *)
Definition assign l (ws : list (F * list Z)) (e : list Z) : list Z :=
  foldr (fun w e => set_field l e w.1 w.2) e ws.

Fixpoint assigned (ws : list (F * list Z)) (f : F) : option (list Z) :=
  match ws with
  | [] => None
  | w :: ws' => if decide (f = w.1) then Some w.2 else assigned ws' f
  end.

Definition sized l (ws : list (F * list Z)) : Prop := Forall (fun w => length w.2 = fieldsize l w.1) ws.

Lemma assign_spec l ws e f :
  length e = sizeof l -> sized l ws ->
  length (assign l ws e) = sizeof l /\ get_field l (assign l ws e) f = default (get_field l e f) (assigned ws f).
Proof.
  intros He Hws. induction Hws as [|[g v] ws Hv Hws [IHl IH]]; [done|].
  cbn [assign foldr assigned fst snd] in *. fold (assign l ws e). split.
  - by apply set_field_length.
  - destruct (decide (f = g)) as [->|]; [by apply get_set_same|by rewrite get_set_other].
Qed.

Lemma assign_bytes l ws e :
  Forall is_byte e -> Forall (fun w => Forall is_byte w.2) ws -> Forall is_byte (assign l ws e).
Proof. intros He Hws. induction Hws; [done|]. by apply set_field_bytes. Qed.

End layout_lemmas.

#[export] Hint Resolve WLE16_bytes WLE32_bytes set_field_bytes get_field_bytes : fat32.
