(* ===== verification/Time.v ===== *)
(** * FAT date and time ([fat32_util.c])

    The conversions between [timespec_t] and the packed FAT date, time and
    tenths fields.  The width of [time_t] belongs to the platform and is the
    parameter [tb] of the conversion that adds up a [time_t]. *)
From S2P Require Import Prelude.

Record timespec : Type := mkTimespec { tv_sec : Z; tv_nsec : Z }.

Definition days_in_month : list Z := [0; 31; 28; 31; 30; 31; 30; 31; 31; 30; 31; 30; 31].

(** Every year the driver passes is at least 1980, so C's [%] is [mod]. *)
Definition is_leap (year : Z) : bool :=
  (year mod 4 =? 0) && (negb (year mod 100 =? 0) || (year mod 400 =? 0)).

Definition year_days (year : Z) : Z := if is_leap year then 366 else 365.

(** [int dim = days_in_month[i]; if (i == 2 && is_leap(year)) dim++;] *)
Definition month_days (year i : Z) : Z :=
  nth (Z.to_nat i) days_in_month 0 + (if (i =? 2) && is_leap year then 1 else 0).

(** The [while (1)] loop over years. *)
Fixpoint year_loop (fuel : nat) (year day : Z) : option (Z * Z) :=
  match fuel with
  | O => None
  | S n => if day <? year_days year then Some (year, day)
           else year_loop n (year + 1) (day - year_days year)
  end.

(** The [for (i = 1; i <= 12; i++)] loop; [n] iterations are left. *)
Fixpoint month_loop (n : nat) (year i month day : Z) : Z * Z :=
  match n with
  | O => (month, day)
  | S n' => if day <? month_days year i then (month, day)
            else month_loop n' year (i + 1) (month + 1) (day - month_days year i)
  end.

(** The outputs [date], [time] and [tenths]; [None] when the year loop is out
    of fuel, which it never is ([unix_to_fat_total]). *)
Definition fat32_unix_to_fat_time (ts : timespec) : option (Z * Z * Z) :=
  if tv_sec ts <? 315532800 then Some (u16 (Z.lor (Z.shiftl 1 5) 1), 0, 0) else
  let seconds := tv_sec ts - 315532800 in
  let sec := seconds mod 60 in
  let min := (seconds / 60) mod 60 in
  let hour := (seconds / 3600) mod 24 in
  let day := s32 (seconds / 86400) in
  match year_loop (S (Z.to_nat (day / 365))) 1980 day with
  | None => None
  | Some (year, yday) =>
      let '(month, mday0) := month_loop 12 year 1 1 yday in
      let mday := mday0 + 1 in
      Some (u16 (Z.lor (Z.lor (Z.shiftl (year - 1980) 9) (Z.shiftl month 5)) mday),
            u16 (Z.lor (Z.lor (Z.shiftl hour 11) (Z.shiftl min 5)) (sec / 2)),
            u8 (tv_nsec ts / 10000000 + (sec mod 2) * 100))
  end.

Definition fat32_fat_to_unix_time (tb date time tenths : Z) : timespec :=
  let year := 1980 + Z.land (Z.shiftr date 9) 0x7F in
  let month := Z.land (Z.shiftr date 5) 0x0F in
  let day := Z.land date 0x1F in
  let hour := Z.land (Z.shiftr time 11) 0x1F in
  let min := Z.land (Z.shiftr time 5) 0x3F in
  let sec := Z.land time 0x1F * 2 in
  let tenths := if 199 <? tenths then 199 else tenths in
  let sec := sec + tenths / 100 in
  let nsec := (tenths mod 100) * 10000000 in
  let month := if month <? 1 then 1 else month in
  let month := if 12 <? month then 12 else month in
  let day := if day <? 1 then 1 else day in
  let seconds := 0 in
  let seconds := foldl (fun s i => swrap tb (s + year_days i * 86400)) seconds
                       (seqZ 1980 (year - 1980)) in
  let seconds := foldl (fun s i => swrap tb (s + month_days year i * 86400)) seconds
                       (seqZ 1 (month - 1)) in
  let seconds := swrap tb (seconds + (day - 1) * 86400) in
  let seconds := swrap tb (seconds + (hour * 3600 + min * 60 + sec)) in
  mkTimespec (swrap tb (seconds + 315532800)) nsec.

(** ** Calendar lemmas *)

(** Reference: the number of days in the years [[y0, y0 + n)], and in the
    months [[1, 1 + n)] of a year. *)
Definition years_sum (y0 n : Z) : Z := foldr (fun i a => year_days i + a) 0 (seqZ y0 n).
Definition months_sum (year m0 n : Z) : Z :=
  foldr (fun i a => month_days year i + a) 0 (seqZ m0 n).

Lemma year_days_bounds y : 365 <= year_days y <= 366.
Proof. unfold year_days. destruct (is_leap y); lia. Qed.

Lemma years_sum_cons y n : 0 < n -> years_sum y n = year_days y + years_sum (y + 1) (n - 1).
Proof. intros. unfold years_sum. rewrite seqZ_cons by done. simpl. by rewrite Z.sub_1_r. Qed.

Lemma years_sum_app y a b : 0 <= a -> 0 <= b -> years_sum y (a + b) = years_sum y a + years_sum (y + a) b.
Proof.
  intros Ha Hb. revert y. pattern a. apply natlike_ind; [|intros m Hm IH y|done].
  - intros y. unfold years_sum at 2. simpl. by rewrite Z.add_0_r.
  - rewrite (years_sum_cons y (_ + b)), (years_sum_cons y (Z.succ m)) by lia.
    replace (Z.succ m + b - 1) with (m + b) by lia. replace (Z.succ m - 1) with m by lia.
    rewrite IH. replace (y + 1 + m) with (y + Z.succ m) by lia. lia.
Qed.

Lemma years_sum_lower y n : 0 <= n -> 365 * n <= years_sum y n.
Proof.
  intros Hn. revert y. pattern n. apply natlike_ind; [|intros m Hm IH y|done].
  - intros y. unfold years_sum. simpl. lia.
  - rewrite years_sum_cons by lia. replace (Z.succ m - 1) with m by lia.
    pose proof (year_days_bounds y). specialize (IH (y + 1)). lia.
Qed.

Lemma year_loop_spec fuel y0 n yday :
  0 <= n < Z.of_nat fuel -> 0 <= yday < year_days (y0 + n) ->
  year_loop fuel y0 (years_sum y0 n + yday) = Some (y0 + n, yday).
Proof.
  revert y0 n. induction fuel as [|f IH]; intros y0 n Hn Hy; [lia|].
  cbn [year_loop]. destruct (decide (n = 0)) as [->|Hn0].
  - unfold years_sum. simpl. rewrite Z.add_0_r in *.
    by rewrite (proj2 (Z.ltb_lt _ _)) by lia.
  - pose proof (years_sum_lower (y0 + 1) (n - 1)).
    rewrite years_sum_cons by lia.
    rewrite (proj2 (Z.ltb_ge _ _)) by lia.
    replace (_ + _ + yday - _) with (years_sum (y0 + 1) (n - 1) + yday) by lia.
    replace (y0 + n) with (y0 + 1 + (n - 1)) in * by lia. by rewrite IH by lia.
Qed.

(** Every day count is a number of whole years and a day of the next year. *)
Lemma day_in_year day : 0 <= day -> forall y0, exists n yday,
  0 <= n /\ 365 * n <= day /\ 0 <= yday < year_days (y0 + n) /\ day = years_sum y0 n + yday.
Proof.
  intros Hd. apply (Z_lt_induction (fun d => 0 <= d -> forall y0, exists n yday,
    0 <= n /\ 365 * n <= d /\ 0 <= yday < year_days (y0 + n) /\ d = years_sum y0 n + yday));
    [|done..].
  clear day Hd. intros day IH Hd y0.
  destruct (decide (day < year_days y0)) as [Hlt|Hge].
  - exists 0, day. unfold years_sum; simpl. rewrite Z.add_0_r. lia.
  - pose proof (year_days_bounds y0).
    destruct (IH (day - year_days y0) ltac:(lia) ltac:(lia) (y0 + 1))
      as (n & yday & Hn & Hle & Hy & Heq).
    exists (n + 1), yday. rewrite years_sum_cons by lia.
    replace (y0 + (n + 1)) with (y0 + 1 + n) by lia.
    replace (n + 1 - 1) with n by lia. lia.
Qed.

Lemma year_loop_total day : 0 <= day -> exists n yday,
  year_loop (S (Z.to_nat (day / 365))) 1980 day = Some (1980 + n, yday) /\
  0 <= n /\ 0 <= yday < year_days (1980 + n) /\ day = years_sum 1980 n + yday.
Proof.
  intros Hd. destruct (day_in_year day Hd 1980) as (n & yday & Hn & Hle & Hy & Heq).
  exists n, yday. split; [|done]. rewrite Heq at 2. apply year_loop_spec; [|done].
  assert (n <= day / 365) by (apply Z.div_le_lower_bound; lia). lia.
Qed.

Lemma months_sum_cons y m n : 0 < n -> months_sum y m n = month_days y m + months_sum y (m + 1) (n - 1).
Proof. intros. unfold months_sum. rewrite seqZ_cons by done. simpl. by rewrite Z.sub_1_r. Qed.

Lemma month_days_bounds y i : 1 <= i <= 12 -> 28 <= month_days y i <= 31.
Proof.
  intros Hi. unfold month_days.
  assert (i = 1 \/ i = 2 \/ i = 3 \/ i = 4 \/ i = 5 \/ i = 6 \/ i = 7 \/ i = 8 \/
          i = 9 \/ i = 10 \/ i = 11 \/ i = 12) as Hc by lia.
  repeat destruct Hc as [->|Hc]; [..|subst i]; simpl; destruct (is_leap y); lia.
Qed.

Lemma months_sum_year y : months_sum y 1 12 = year_days y.
Proof. unfold months_sum, year_days, month_days. simpl. by destruct (is_leap y). Qed.

Lemma months_sum_nonneg y n : 0 <= n -> forall m, 1 <= m -> m + n <= 13 -> 0 <= months_sum y m n.
Proof.
  intros Hn. pattern n. apply natlike_ind; [|intros k Hk IH m Hm Hmk|done].
  - intros. unfold months_sum. simpl. lia.
  - rewrite months_sum_cons by lia. replace (Z.succ k - 1) with k by lia.
    pose proof (month_days_bounds y m ltac:(lia)). specialize (IH (m + 1)). lia.
Qed.

Lemma months_sum_app y m a b : 0 <= a -> 0 <= b -> months_sum y m (a + b) = months_sum y m a + months_sum y (m + a) b.
Proof.
  intros Ha Hb. revert m. pattern a. apply natlike_ind; [|intros k Hk IH m|done].
  - intros m. unfold months_sum at 2. simpl. by rewrite Z.add_0_r.
  - rewrite (months_sum_cons y m (_ + b)), (months_sum_cons y m (Z.succ k)) by lia.
    replace (Z.succ k + b - 1) with (k + b) by lia. replace (Z.succ k - 1) with k by lia.
    rewrite IH. replace (m + 1 + k) with (m + Z.succ k) by lia. lia.
Qed.

Lemma month_loop_spec f y i n mday :
  0 <= n < Z.of_nat f -> 1 <= i -> i + n <= 12 -> 0 <= mday < month_days y (i + n) ->
  forall month, month_loop f y i month (months_sum y i n + mday) = (month + n, mday).
Proof.
  revert i n. induction f as [|f IH]; intros i n Hn Hi Hin Hm month; [lia|].
  cbn [month_loop]. destruct (decide (n = 0)) as [->|Hn0].
  - unfold months_sum. simpl. rewrite Z.add_0_r in *.
    rewrite (proj2 (Z.ltb_lt _ _)) by lia. f_equal; lia.
  - pose proof (months_sum_nonneg y (n - 1) ltac:(lia) (i + 1) ltac:(lia) ltac:(lia)).
    rewrite months_sum_cons by lia.
    rewrite (proj2 (Z.ltb_ge _ _)) by lia.
    replace (_ + _ + mday - _) with (months_sum y (i + 1) (n - 1) + mday) by lia.
    replace (i + n) with (i + 1 + (n - 1)) in Hm by lia.
    rewrite IH by lia. f_equal; lia.
Qed.

Lemma day_of_month y k : 0 <= k -> forall i d,
  1 <= i -> i + k <= 13 -> 0 <= d < months_sum y i k -> exists n mday,
  0 <= n < k /\ 0 <= mday < month_days y (i + n) /\ d = months_sum y i n + mday.
Proof.
  intros Hk. pattern k. apply natlike_ind; [|intros m Hm IH i d Hi Him Hd|done].
  - intros i d _ _ Hd. unfold months_sum in Hd. simpl in Hd. lia.
  - rewrite months_sum_cons in Hd by lia. replace (Z.succ m - 1) with m in Hd by lia.
    destruct (decide (d < month_days y i)).
    + exists 0, d. unfold months_sum. simpl. rewrite Z.add_0_r. lia.
    + destruct (IH (i + 1) (d - month_days y i)) as (q & mday & Hn & Hd' & Heq); [lia..|].
      exists (q + 1), mday. rewrite months_sum_cons by lia.
      replace (i + (q + 1)) with (i + 1 + q) by lia. replace (q + 1 - 1) with q by lia. lia.
Qed.

Lemma month_loop_total y yday : 0 <= yday < year_days y -> exists n mday,
  month_loop 12 y 1 1 yday = (1 + n, mday) /\
  0 <= n < 12 /\ 0 <= mday < month_days y (1 + n) /\ yday = months_sum y 1 n + mday.
Proof.
  intros Hy. rewrite <- months_sum_year in Hy.
  destruct (day_of_month y 12 ltac:(lia) 1 yday ltac:(lia) ltac:(lia) Hy) as (n & mday & Hn & Hm & Heq).
  exists n, mday. split; [|done]. rewrite Heq at 1. apply month_loop_spec; simpl in *; lia.
Qed.

(** The additive loops of the inverse conversion compute the reference sums as
    long as [time_t] does not overflow. *)
Lemma foldl_swrap tb (f : Z -> Z) l s0 :
  0 < tb -> (forall i, i ∈ l -> 0 <= f i) -> 0 <= s0 ->
  s0 + foldr (fun i a => f i + a) 0 l * 86400 < 2 ^ (tb - 1) ->
  foldl (fun s i => swrap tb (s + f i * 86400)) s0 l
  = s0 + foldr (fun i a => f i + a) 0 l * 86400.
Proof.
  intros Htb. revert s0. induction l as [|i l IH]; intros s0 Hf Hs Hlt; simpl in *; [lia|].
  assert (0 <= f i) by (apply Hf; set_solver).
  assert (0 <= foldr (fun i a => f i + a) 0 l).
  { clear IH Hlt. induction l as [|j l IHl]; simpl; [lia|].
    assert (0 <= f j) by (apply Hf; set_solver).
    assert (0 <= foldr (fun i a => f i + a) 0 l) by (apply IHl; set_solver). lia. }
  rewrite swrap_small by lia. rewrite IH; [lia| |lia|lia].
  intros j Hj. apply Hf. set_solver.
Qed.

(** ** Packing *)

Definition pack_date (y m d : Z) : Z := Z.lor (Z.lor (Z.shiftl (y - 1980) 9) (Z.shiftl m 5)) d.
Definition pack_time (h m s2 : Z) : Z := Z.lor (Z.lor (Z.shiftl h 11) (Z.shiftl m 5)) s2.

Lemma date_fields y m d :
  0 <= y < 128 -> 0 <= m < 16 -> 0 <= d < 32 ->
  let date := u16 (Z.lor (Z.lor (Z.shiftl y 9) (Z.shiftl m 5)) d) in
  Z.land (Z.shiftr date 9) 0x7F = y /\ Z.land (Z.shiftr date 5) 0x0F = m /\ Z.land date 0x1F = d.
Proof.
  intros Hy Hm Hd. cbn zeta. rewrite pack_fields by (simpl; lia). rewrite u16_small by lia.
  rewrite (land_ones_mod _ 7), (land_ones_mod _ 4), (land_ones_mod _ 5), !shiftr_div by lia.
  change (2 ^ 9) with 512. change (2 ^ 5) with 32. change (2 ^ 7) with 128. change (2 ^ 4) with 16.
  repeat split; Z.div_mod_to_equations; lia.
Qed.

Lemma time_fields h m s :
  0 <= h < 32 -> 0 <= m < 64 -> 0 <= s < 32 ->
  let time := u16 (Z.lor (Z.lor (Z.shiftl h 11) (Z.shiftl m 5)) s) in
  Z.land (Z.shiftr time 11) 0x1F = h /\ Z.land (Z.shiftr time 5) 0x3F = m /\ Z.land time 0x1F = s.
Proof.
  intros Hh Hm Hs. cbn zeta. rewrite pack_fields by (simpl; lia). rewrite u16_small by lia.
  rewrite (land_ones_mod _ 6), !(land_ones_mod _ 5), !shiftr_div by lia.
  change (2 ^ 11) with 2048. change (2 ^ 5) with 32. change (2 ^ 6) with 64.
  repeat split; Z.div_mod_to_equations; lia.
Qed.

(** The inverse conversion of the fields of a calendar day and a time of day. *)
Lemma fat_to_unix_fields tb y m d h mi s2 t :
  0 <= y < 128 -> 0 <= m < 12 -> 0 <= d < month_days (1980 + y) (1 + m) ->
  0 <= h < 24 -> 0 <= mi < 60 -> 0 <= s2 < 30 -> 0 <= t < 200 -> 0 < tb ->
  let secs := (years_sum 1980 y + months_sum (1980 + y) 1 m + d) * 86400
              + (h * 3600 + mi * 60 + s2 * 2 + t / 100) in
  secs + 315532800 < 2 ^ (tb - 1) ->
  fat32_fat_to_unix_time tb
    (u16 (Z.lor (Z.lor (Z.shiftl y 9) (Z.shiftl (1 + m) 5)) (d + 1)))
    (u16 (Z.lor (Z.lor (Z.shiftl h 11) (Z.shiftl mi 5)) s2)) t
  = mkTimespec (secs + 315532800) ((t mod 100) * 10000000).
Proof.
  intros Hy Hm Hd Hh Hmi Hs Ht Htb. cbn zeta. intros Hlt.
  pose proof (month_days_bounds (1980 + y) (1 + m) ltac:(lia)).
  destruct (date_fields y (1 + m) (d + 1)) as (Ey & Em & Ed); [lia..|].
  destruct (time_fields h mi s2) as (Eh & Emi & Es); [lia..|].
  unfold fat32_fat_to_unix_time. rewrite Ey, Em, Ed, Eh, Emi, Es.
  rewrite (proj2 (Z.ltb_ge 199 t)), (proj2 (Z.ltb_ge (1 + m) 1)), (proj2 (Z.ltb_ge 12 (1 + m))),
    (proj2 (Z.ltb_ge (d + 1) 1)) by lia.
  replace (1980 + y - 1980) with y by lia. replace (1 + m - 1) with m by lia.
  pose proof (years_sum_lower 1980 y ltac:(lia)).
  pose proof (months_sum_nonneg (1980 + y) m ltac:(lia) 1 ltac:(lia) ltac:(lia)).
  assert (0 <= t / 100 <= 1) by (Z.div_mod_to_equations; lia).
  rewrite (foldl_swrap tb year_days); [|lia| |lia|].
  2: { intros i _. pose proof (year_days_bounds i). lia. }
  2: { fold (years_sum 1980 y). lia. }
  fold (years_sum 1980 y).
  rewrite (foldl_swrap tb (month_days (1980 + y))); [|lia| |lia|].
  2: { intros i Hi. apply elem_of_seqZ in Hi. pose proof (month_days_bounds (1980 + y) i). lia. }
  2: { fold (months_sum (1980 + y) 1 m). lia. }
  fold (months_sum (1980 + y) 1 m).
  rewrite (swrap_small tb (_ + (d + 1 - 1) * 86400)) by lia.
  rewrite (swrap_small tb (_ + (h * 3600 + _ + _))) by lia.
  rewrite swrap_small by lia.
  f_equal; lia.
Qed.

(** The forward conversion, with its calendar fields named. *)
Lemma unix_to_fat_fields ts :
  315532800 <= tv_sec ts < 4354819200 -> exists y m d h mi s o,
  0 <= y < 128 /\ 0 <= m < 12 /\ 0 <= d < month_days (1980 + y) (1 + m) /\
  0 <= h < 24 /\ 0 <= mi < 60 /\ 0 <= s < 30 /\ 0 <= o < 2 /\
  tv_sec ts = (years_sum 1980 y + months_sum (1980 + y) 1 m + d) * 86400
              + (h * 3600 + mi * 60 + s * 2 + o) + 315532800 /\
  fat32_unix_to_fat_time ts =
    Some (u16 (Z.lor (Z.lor (Z.shiftl y 9) (Z.shiftl (1 + m) 5)) (d + 1)),
          u16 (Z.lor (Z.lor (Z.shiftl h 11) (Z.shiftl mi 5)) s),
          u8 (tv_nsec ts / 10000000 + o * 100)).
Proof.
  intros Hs. set (secs := tv_sec ts - 315532800).
  assert (0 <= secs / 86400 < 46751) as Hday by (unfold secs; Z.div_mod_to_equations; lia).
  destruct (year_loop_total (secs / 86400)) as (y & yday & Ey & Hy & Hyd & Hday'); [lia|].
  destruct (month_loop_total (1980 + y) yday Hyd) as (m & d & Em & Hm & Hd & Hyday).
  assert (y < 128).
  { destruct (decide (y < 128)) as [|Hge]; [done|].
    assert (years_sum 1980 y = years_sum 1980 128 + years_sum (1980 + 128) (y - 128)) as Hsplit.
    { rewrite <- years_sum_app by lia. f_equal; lia. }
    pose proof (years_sum_lower (1980 + 128) (y - 128) ltac:(lia)).
    assert (years_sum 1980 128 = 46751) as E128 by (vm_compute; done). lia. }
  exists y, m, d, ((secs / 3600) mod 24), ((secs / 60) mod 60), ((secs mod 60) / 2), ((secs mod 60) mod 2).
  repeat match goal with |- _ /\ _ => split end; try lia;
    try (unfold secs; Z.div_mod_to_equations; lia).
  unfold fat32_unix_to_fat_time. rewrite (proj2 (Z.ltb_ge _ _)) by lia. fold secs. cbn zeta.
  unfold s32. rewrite swrap_small by lia. rewrite Ey, Em.
  replace (1980 + y - 1980) with y by lia. done.
Qed.

(** A valid calendar day is inside its year and inside the FAT range, and the
    loops find it again from its day number. *)
Lemma civil_day_range y m d :
  0 <= y < 128 -> 0 <= m < 12 -> 0 <= d < month_days (1980 + y) (1 + m) ->
  let day := years_sum 1980 y + months_sum (1980 + y) 1 m + d in
  0 <= day < 46751 /\ 0 <= months_sum (1980 + y) 1 m + d < year_days (1980 + y).
Proof.
  intros Hy Hm Hd. cbn zeta.
  pose proof (years_sum_lower 1980 y ltac:(lia)).
  pose proof (months_sum_nonneg (1980 + y) m ltac:(lia) 1 ltac:(lia) ltac:(lia)).
  assert (months_sum (1980 + y) 1 m + d < year_days (1980 + y)) as Hlt.
  { rewrite <- months_sum_year. replace 12 with (m + (1 + (11 - m))) by lia.
    rewrite (months_sum_app (1980 + y) 1 m), (months_sum_cons _ (1 + m)) by lia.
    pose proof (months_sum_nonneg (1980 + y) (1 + (11 - m) - 1) ltac:(lia) (1 + m + 1) ltac:(lia) ltac:(lia)).
    lia. }
  assert (years_sum 1980 y + year_days (1980 + y) <= 46751); [|lia].
  assert (46751 = years_sum 1980 (y + (1 + (127 - y)))) as ->
    by (replace (y + (1 + (127 - y))) with 128 by lia; vm_compute; done).
  rewrite (years_sum_app 1980 y), (years_sum_cons (1980 + y)) by lia.
  pose proof (years_sum_lower (1980 + y + 1) (1 + (127 - y) - 1) ltac:(lia)). lia.
Qed.

Lemma civil_of_day y m d :
  0 <= y < 128 -> 0 <= m < 12 -> 0 <= d < month_days (1980 + y) (1 + m) ->
  let day := years_sum 1980 y + months_sum (1980 + y) 1 m + d in
  year_loop (S (Z.to_nat (day / 365))) 1980 day = Some (1980 + y, months_sum (1980 + y) 1 m + d) /\
  month_loop 12 (1980 + y) 1 1 (months_sum (1980 + y) 1 m + d) = (1 + m, d).
Proof.
  intros Hy Hm Hd. destruct (civil_day_range y m d Hy Hm Hd) as [Hday Hyd]. cbn zeta in *.
  pose proof (years_sum_lower 1980 y ltac:(lia)). split.
  - rewrite <- Z.add_assoc. apply year_loop_spec; [|lia].
    assert (y <= (years_sum 1980 y + (months_sum (1980 + y) 1 m + d)) / 365)
      by (apply Z.div_le_lower_bound; lia). lia.
  - apply month_loop_spec; lia.
Qed.

(** ** Properties *)

Lemma unix_to_fat_some (ts : timespec) : is_Some (fat32_unix_to_fat_time ts).
Proof.
  unfold fat32_unix_to_fat_time. destruct (tv_sec ts <? 315532800); [done|]. cbn zeta.
  set (day := s32 _). destruct (decide (0 <= day)) as [Hd|Hd].
  - destruct (year_loop_total day Hd) as (n & yday & -> & _). by destruct (month_loop _ _ _ _ _).
  - cbn [year_loop]. pose proof (year_days_bounds 1980).
    rewrite (proj2 (Z.ltb_lt _ _)) by lia. by destruct (month_loop _ _ _ _ _).
Qed.

(** the loops of [fat32_unix_to_fat_time] terminate: every [timespec] has
    a date, a time and tenths. *)
Theorem unix_to_fat_total (ts : timespec) : is_Some (fat32_unix_to_fat_time ts).
Proof. apply unix_to_fat_some. Qed.

Lemma unix_to_fat_tenths ts d m c : fat32_unix_to_fat_time ts = Some (d, m, c) -> 0 <= c < 256.
Proof.
  unfold fat32_unix_to_fat_time. destruct (tv_sec ts <? 315532800).
  - intros [= _ _ <-]. lia.
  - cbn zeta. destruct (year_loop _ _ _) as [[y yd]|]; [|done]. destruct (month_loop _ _ _ _ _).
    intros [= _ _ <-]. apply u8_range.
Qed.

(** a UNIX time in the FAT range [1980-01-01, 2108-01-01) survives the
    conversion to date, time and tenths and back, to the 10 ms the tenths hold,
    whatever the width of [time_t] as long as it can hold the time. *)
Theorem unix_fat_roundtrip (tb : Z) (ts : timespec) :
  315532800 <= tv_sec ts < 4354819200 -> 0 <= tv_nsec ts < 1000000000 ->
  0 < tb -> tv_sec ts < 2 ^ (tb - 1) ->
  exists date time tenths,
    fat32_unix_to_fat_time ts = Some (date, time, tenths) /\
    fat32_fat_to_unix_time tb date time tenths
    = mkTimespec (tv_sec ts) (tv_nsec ts / 10000000 * 10000000).
Proof.
  intros Hs Hn Htb Hlt.
  destruct (unix_to_fat_fields ts Hs)
    as (y & m & d & h & mi & s & o & Hy & Hm & Hd & Hh & Hmi & Hs2 & Ho & Esec & E).
  rewrite E. do 3 eexists. split; [done|].
  assert (0 <= tv_nsec ts / 10000000 < 100) by (Z.div_mod_to_equations; lia).
  rewrite u8_small by (simpl; lia).
  assert ((tv_nsec ts / 10000000 + o * 100) / 100 = o) as Eo by (Z.div_mod_to_equations; lia).
  rewrite fat_to_unix_fields by (rewrite ?Eo; lia). rewrite Eo. f_equal; [lia|].
  f_equal. Z.div_mod_to_equations; lia.
Qed.

Lemma unix_fat_roundtrip_witness :
  exists date time tenths,
    fat32_unix_to_fat_time (mkTimespec 1709210097 987654321) = Some (date, time, tenths) /\
    fat32_fat_to_unix_time 32 date time tenths = mkTimespec 1709210097 980000000.
Proof. apply (unix_fat_roundtrip 32 (mkTimespec 1709210097 987654321)); simpl; lia. Defined.

(** every valid FAT timestamp (a calendar day of 1980-2107, a time of day in
    two-second units, 0-199 tenths) survives the conversion to UNIX time and
    back: the two conversions are mutually inverse. *)
Theorem fat_unix_roundtrip (tb y m d h mi s2 t : Z) :
  0 <= y < 128 -> 0 <= m < 12 -> 0 <= d < month_days (1980 + y) (1 + m) ->
  0 <= h < 24 -> 0 <= mi < 60 -> 0 <= s2 < 30 -> 0 <= t < 200 ->
  34 <= tb ->
  let date := Z.lor (Z.lor (Z.shiftl y 9) (Z.shiftl (1 + m) 5)) (d + 1) in
  let time := Z.lor (Z.lor (Z.shiftl h 11) (Z.shiftl mi 5)) s2 in
  fat32_unix_to_fat_time (fat32_fat_to_unix_time tb date time t) = Some (date, time, t).
Proof.
  intros Hy Hm Hd Hh Hmi Hs Ht Htb. cbn zeta.
  pose proof (month_days_bounds (1980 + y) (1 + m) ltac:(lia)).
  assert (u16 (Z.lor (Z.lor (Z.shiftl y 9) (Z.shiftl (1 + m) 5)) (d + 1))
          = Z.lor (Z.lor (Z.shiftl y 9) (Z.shiftl (1 + m) 5)) (d + 1)) as Edate.
  { rewrite pack_fields by (simpl; lia). rewrite u16_small; lia. }
  assert (u16 (Z.lor (Z.lor (Z.shiftl h 11) (Z.shiftl mi 5)) s2)
          = Z.lor (Z.lor (Z.shiftl h 11) (Z.shiftl mi 5)) s2) as Etime.
  { rewrite pack_fields by (simpl; lia). rewrite u16_small; lia. }
  rewrite <- Edate, <- Etime.
  destruct (civil_day_range y m d Hy Hm Hd) as [Hday Hyd].
  destruct (civil_of_day y m d Hy Hm Hd) as [Ey Em]. cbn zeta in Hday, Ey.
  set (day := years_sum 1980 y + _ + d) in *.
  assert (0 <= t / 100 < 2) by (Z.div_mod_to_equations; lia).
  assert (2 ^ 33 <= 2 ^ (tb - 1)) by (apply Z.pow_le_mono_r; lia).
  rewrite fat_to_unix_fields by (fold day; lia). fold day.
  unfold fat32_unix_to_fat_time. cbn [tv_sec tv_nsec].
  rewrite (proj2 (Z.ltb_ge _ _)) by lia. cbn zeta.
  replace (_ + 315532800 - 315532800)
    with (day * 86400 + (h * 3600 + mi * 60 + s2 * 2 + t / 100)) by lia.
  set (secs := _ + _).
  assert (secs / 86400 = day) as -> by (unfold secs; Z.div_mod_to_equations; lia).
  assert ((secs / 3600) mod 24 = h /\ (secs / 60) mod 60 = mi /\ secs mod 60 = s2 * 2 + t / 100)
    as (-> & -> & ->) by (unfold secs; repeat split; Z.div_mod_to_equations; lia).
  unfold s32. rewrite swrap_small by lia. rewrite Ey, Em.
  replace (1980 + y - 1980) with y by lia.
  assert ((s2 * 2 + t / 100) / 2 = s2 /\ (s2 * 2 + t / 100) mod 2 = t / 100)
    as [-> ->] by (split; Z.div_mod_to_equations; lia).
  rewrite u8_small by (simpl; Z.div_mod_to_equations; lia).
  do 2 f_equal. Z.div_mod_to_equations; lia.
Qed.

Lemma fat_unix_roundtrip_witness :
  fat32_unix_to_fat_time (fat32_fat_to_unix_time 64 (pack_date 2024 2 29) (pack_time 23 59 29) 199)
  = Some (pack_date 2024 2 29, pack_time 23 59 29, 199).
Proof.
  apply (fat_unix_roundtrip 64 44 1 28 23 59 29 199);
    first [vm_compute; split; [discriminate | reflexivity] | lia].
Defined.
