(* ===== verification/Names.v ===== *)
(** * Inode numbers, names and checksums ([fat32_util.c], [fat32fs.h])

    Characters are their codes in [[0, 256)]; a C string is the list of its
    characters without the terminating NUL, so [nth i name 0] is [name[i]] up to
    and including the terminator. *)
From S2P Require Import Prelude Layout.

(** [while (n > 1) { n >>= 1; bit++; }]: 32 rounds are enough for 32 bits. *)
Fixpoint log2_loop (fuel : nat) (n bit : Z) : Z :=
  match fuel with
  | O => bit
  | S f => if 1 <? n then log2_loop f (Z.shiftr n 1) (u32 (bit + 1)) else bit
  end.

Definition fat32_log2 (n : Z) : Z := log2_loop 32 n 0.

(** ** Inode numbers *)

Definition fat32_pack_ino (dir_cluster offset num_slots : Z) : Z :=
  let slot_index := offset / 32 in
  Z.lor (Z.lor (u64 (Z.shiftl (Z.land dir_cluster 0x0FFFFFFF) 36))
               (u64 (Z.shiftl (Z.land slot_index 0x0FFFFFFF) 8)))
        (Z.land num_slots 0xFF).

Definition fat32_unpack_ino (ino : Z) : Z * Z * Z :=
  (u32 (Z.land (Z.shiftr ino 36) 0x0FFFFFFF),
   u32 (Z.land (Z.shiftr ino 8) 0x0FFFFFFF * 32),
   u32 (Z.land ino 0xFF)).

(** ** Characters of a long name *)

Definition fat32_toupper (c : Z) : Z := if (97 <=? c) && (c <=? 122) then c - 32 else c.

Definition fat32_chrcmp (c1 c2 : Z) : bool := negb (fat32_toupper c1 =? fat32_toupper c2).

(** [dname] is the caller's buffer and [d_name_size] the in-out size. *)
Definition fat32_set_dname (pos s : Z) (dname : list Z) (d_name_size : Z)
  : option (list Z * Z) :=
  if d_name_size <=? pos then Some (dname, d_name_size) else
  if s =? FAT32_LFN_FILL then Some (dname, d_name_size) else
  let c := if 128 <=? s then 63 else s in
  match bput dname pos [c] with
  | None => None
  | Some dname' => Some (dname', if c =? 0 then pos else d_name_size)
  end.

(** ** Short names *)

(** A character the scan of [fat32_name_is_short] lets pass. *)
Definition short_char (c : Z) : bool :=
  negb ((97 <=? c) && (c <=? 122)) &&
  ((128 <=? c) || ((65 <=? c) && (c <=? 90)) || ((48 <=? c) && (c <=? 57)) ||
   existsb (Z.eqb c) [36; 37; 39; 45; 95; 64; 126; 96; 33; 40; 41; 123; 125; 94; 35; 38]).

(** The scan: [None] is an early [return 0], [Some dot_pos] its end. *)
Fixpoint short_scan (cs : list Z) (i dot_pos : Z) : option Z :=
  match cs with
  | [] => Some dot_pos
  | c :: cs' =>
      if c =? 46 then
        if negb (dot_pos =? -1) then None else short_scan cs' (i + 1) i
      else if short_char c then short_scan cs' (i + 1) dot_pos else None
  end.

Definition fat32_name_is_short (name : list Z) : bool :=
  let name_len := Z.of_nat (length name) in
  if nth 0 name 0 =? 46 then
    (name_len =? 1) || ((name_len =? 2) && (nth 1 name 0 =? 46))
  else if 12 <? name_len then false else
  match short_scan name 0 (-1) with
  | None => false
  | Some dot_pos =>
      if dot_pos =? -1 then negb (8 <? name_len) else
      let base_len := dot_pos in
      let ext_len := name_len - dot_pos - 1 in
      negb ((base_len =? 0) || (8 <? base_len)) && negb ((ext_len =? 0) || (3 <? ext_len))
  end.

(** One round of the checksum: rotate right, add, keep 8 bits. *)
Definition checksum_step (sum c : Z) : Z :=
  u8 (Z.lor (Z.shiftl (Z.land sum 1) 7) (Z.shiftr (Z.land sum 0xFE) 1) + c).

Definition fat32_checksum (name : list Z) : Z := foldl checksum_step 0 (take 11 name).

Definition hex : list Z := [48; 49; 50; 51; 52; 53; 54; 55; 56; 57; 65; 66; 67; 68; 69; 70].

(** [x_nib[i]], filled by [x_nib[6 - i] = (x >> (i * 4)) & 0xF]. *)
Definition nib (x i : Z) : Z := Z.land (Z.shiftr x ((6 - i) * 4)) 0xF.

(** [res_nib]: four high nibbles of the cluster, three mixed, four of the slot. *)
Definition short_name_nibs (cluster slot : Z) : list Z :=
    [nib cluster 0; nib cluster 1; nib cluster 2; nib cluster 3;
     Z.lxor (nib cluster 4) (nib slot 0); Z.lxor (nib cluster 5) (nib slot 1);
     Z.lxor (nib cluster 6) (nib slot 2);
     nib slot 3; nib slot 4; nib slot 5; nib slot 6].

Definition hex_digit (r : Z) : Z := nth (Z.to_nat r) hex 0.

Definition fat32_generate_short_name (cluster offset : Z) : list Z :=
  map hex_digit (short_name_nibs cluster (offset / 32)).

(** ** Lemmas *)

Lemma nib_range x i : 0 <= nib x i < 16.
Proof. unfold nib. rewrite (land_ones_mod _ 4) by lia. by apply Z.mod_pos_bound. Qed.

(** A 28-bit number is determined by its seven nibbles. *)
Lemma nibs_inj x y :
  0 <= x < 2 ^ 28 -> 0 <= y < 2 ^ 28 ->
  (forall i, 0 <= i < 7 -> nib x i = nib y i) -> x = y.
Proof.
  intros Hx Hy Hn.
  assert (forall z, 0 <= z < 2 ^ 28 ->
    z = nib z 0 * 2 ^ 24 + nib z 1 * 2 ^ 20 + nib z 2 * 2 ^ 16 + nib z 3 * 2 ^ 12
        + nib z 4 * 2 ^ 8 + nib z 5 * 2 ^ 4 + nib z 6) as Hz.
  { intros z Hz. unfold nib. rewrite !(land_ones_mod _ 4), !shiftr_div by lia.
    simpl. Z.div_mod_to_equations. lia. }
  rewrite (Hz x Hx), (Hz y Hy). by rewrite !Hn by lia.
Qed.

Lemma nibs_high z : 0 <= z < 2 ^ 28 ->
  Z.shiftr z 12 = nib z 0 * 2 ^ 12 + nib z 1 * 2 ^ 8 + nib z 2 * 2 ^ 4 + nib z 3.
Proof.
  intros Hz. unfold nib. rewrite !(land_ones_mod _ 4), !shiftr_div by lia.
  simpl. Z.div_mod_to_equations. lia.
Qed.

Lemma slot_range offset : 0 <= offset < 2 ^ 32 -> 0 <= offset / 32 < 2 ^ 28.
Proof. intros. Z.div_mod_to_equations. lia. Qed.

Lemma hex_inj a b :
  0 <= a < 16 -> 0 <= b < 16 -> hex_digit a = hex_digit b -> a = b.
Proof.
  intros Ha Hb H. unfold hex_digit in H. apply (NoDup_nth hex 0) in H; try (simpl; lia).
  apply NoDup_ListNoDup, (bool_decide_unpack _). by vm_compute.
Qed.

Lemma hex_map_inj l l' :
  Forall (fun a => 0 <= a < 16) l -> Forall (fun a => 0 <= a < 16) l' ->
  map hex_digit l = map hex_digit l' -> l = l'.
Proof.
  intros Hl. revert l'. induction Hl as [|a l Ha Hl IH]; intros l' Hl' H.
  - by destruct l'.
  - destruct Hl' as [|b l' Hb Hl']; [done|]. cbn [map] in H.
    injection H as H Hm. f_equal; [by apply hex_inj|by apply IH].
Qed.

Lemma lxor_range a b : 0 <= a < 16 -> 0 <= b < 16 -> 0 <= Z.lxor a b < 16.
Proof.
  intros Ha Hb. rewrite <- (Z.mod_small a 16), <- (Z.mod_small b 16) by lia.
  change 16 with (2 ^ 4). rewrite <- !Z.land_ones by lia.
  assert (Z.lxor (Z.land a (Z.ones 4)) (Z.land b (Z.ones 4)) = Z.land (Z.lxor a b) (Z.ones 4)) as ->.
  { apply Z.bits_inj'. intros n Hn. rewrite !Z.lxor_spec, !Z.land_spec, Z.lxor_spec.
    by destruct (Z.testbit a n), (Z.testbit b n), (Z.testbit (Z.ones 4) n). }
  rewrite Z.land_ones by lia. by apply Z.mod_pos_bound.
Qed.

(** The rotation of a byte. *)
Lemma checksum_step_arith s c :
  0 <= s < 256 -> checksum_step s c = u8 (s / 2 + (s mod 2) * 128 + c).
Proof.
  intros Hs. unfold checksum_step. f_equal. f_equal.
  assert (Forall (fun x => Z.lor (Z.shiftl (Z.land x 1) 7) (Z.shiftr (Z.land x 0xFE) 1)
                           = x / 2 + (x mod 2) * 128) (seqZ 0 256)) as Hall
    by (apply (bool_decide_unpack _); by vm_compute).
  rewrite Forall_forall in Hall. apply Hall, elem_of_seqZ. lia.
Qed.

(** What the scan accepts: valid characters and at most one dot, whose position
    it returns. *)
Definition short_ok (c : Z) : Prop := c <> 46 /\ short_char c = true.

Lemma short_scan_after_dot cs i d r :
  d <> -1 -> short_scan cs i d = Some r <-> Forall short_ok cs /\ r = d.
Proof.
  intros Hd. revert i. induction cs as [|c cs IH]; intros i; cbn [short_scan].
  - split; [intros [= <-]; eauto|by intros [_ ->]].
  - rewrite Forall_cons. unfold short_ok at 1. destruct (Z.eqb_spec c 46) as [->|Hc].
    + rewrite (proj2 (Z.eqb_neq _ _)) by done. naive_solver.
    + destruct (short_char c); [|naive_solver]. rewrite IH. naive_solver.
Qed.

Lemma short_scan_spec cs i r :
  0 <= i ->
  short_scan cs i (-1) = Some r <->
  (Forall short_ok cs /\ r = -1) \/
  (exists base ext, cs = base ++ 46 :: ext /\ r = i + Z.of_nat (length base) /\
     Forall short_ok base /\ Forall short_ok ext).
Proof.
  revert i. induction cs as [|c cs IH]; intros i Hi; cbn [short_scan].
  - split; [intros [= <-]; by left|].
    intros [[_ ->]|(base & ext & H & _)]; [done|]. by destruct base.
  - destruct (Z.eqb_spec c 46) as [->|Hc].
    + rewrite Z.eqb_refl. cbn [negb]. rewrite short_scan_after_dot by lia. split.
      * intros [Hf ->]. right. exists [], cs. simpl. rewrite Z.add_0_r. auto.
      * intros [[Hf _]|(base & ext & H & Hr & Hb & He)].
        { apply Forall_cons_1 in Hf as [[? _] _]. done. }
        destruct base as [|b base]; simplify_eq/=; [split; [done|lia]|].
        apply Forall_cons_1 in Hb as [[? _] _]. done.
    + destruct (short_char c) eqn:Ec.
      * rewrite IH by lia. split.
        { intros [[Hf ->]|(base & ext & -> & -> & Hb & He)]; [left|right].
          - split; [by constructor|done].
          - exists (c :: base), ext. simpl. repeat split; [lia|by constructor|done]. }
        intros [[Hf ->]|(base & ext & H & -> & Hb & He)]; [left|right].
        { by apply Forall_cons_1 in Hf as [_ Hf]. }
        destruct base as [|b base]; simplify_eq/=.
        apply Forall_cons_1 in Hb as [_ Hb]. exists base, ext. repeat split; [lia|done..].
      * split; [done|]. intros [[Hf _]|(base & ext & H & _ & Hb & _)]; exfalso.
        { apply Forall_cons_1 in Hf as [[_ ?] _]. congruence. }
        destruct base as [|b base]; simplify_eq/=.
        apply Forall_cons_1 in Hb as [[_ ?] _]. congruence.
Qed.

(** The names the driver stores without long-name entries, as a grammar. *)
Definition short_name (name : list Z) : Prop :=
  name = [46] \/ name = [46; 46] \/
  (Forall short_ok name /\ (length name <= 8)%nat) \/
  (exists base ext, name = base ++ 46 :: ext /\ Forall short_ok base /\ Forall short_ok ext /\
     (1 <= length base <= 8)%nat /\ (1 <= length ext <= 3)%nat).

Lemma dot_split_unique base ext base' ext' :
  Forall short_ok base -> Forall short_ok base' ->
  base ++ 46 :: ext = base' ++ 46 :: ext' -> base = base' /\ ext = ext'.
Proof.
  intros Hb. revert base'. induction Hb as [|b base [Hb _] Hbs IH]; intros base' Hb' Heq.
  - destruct Hb' as [|b' base' [Hb' _] ?]; simplify_eq/=; done.
  - destruct Hb' as [|b' base' [Hb' _] ?]; simplify_eq/=. by edestruct IH as [-> ->].
Qed.

Lemma short_ok_no_dot base ext : ~ Forall short_ok (base ++ 46 :: ext).
Proof. intros Hf. apply Forall_app in Hf as [_ Hf]. apply Forall_cons_1 in Hf as [[? _] _]. done. Qed.

Lemma short_name_head_dot cs : nth 0 cs 0 = 46 -> exists cs', cs = 46 :: cs'.
Proof. destruct cs as [|c cs]; simpl; [done|]. intros ->. eauto. Qed.

(** Two sums with the same added byte that agree were equal before. *)
Lemma checksum_step_inj s s' c :
  0 <= s < 256 -> 0 <= s' < 256 -> checksum_step s c = checksum_step s' c -> s = s'.
Proof.
  intros Hs Hs'. rewrite !checksum_step_arith by done. unfold u8. change (2 ^ 8) with 256.
  intros H. Z.div_mod_to_equations. lia.
Qed.

Lemma checksum_step_range s c : 0 <= checksum_step s c < 256.
Proof. unfold checksum_step. apply u8_range. Qed.

Lemma checksum_fold_inj l s s' :
  0 <= s < 256 -> 0 <= s' < 256 -> foldl checksum_step s l = foldl checksum_step s' l -> s = s'.
Proof.
  revert s s'. induction l as [|c l IH]; simpl; [done|]. intros s s' Hs Hs' H.
  apply IH in H; [|apply checksum_step_range..]. by eapply checksum_step_inj.
Qed.

Lemma checksum_fold_range l s : 0 <= s < 256 -> 0 <= foldl checksum_step s l < 256.
Proof.
  revert s. induction l as [|c l IH]; simpl; [done|]. intros s Hs.
  apply IH, checksum_step_range.
Qed.

(** ** Properties *)

(** [fat32_log2] is the integer logarithm on all of [uint32_t], in
    particular the exponent of a power of two. *)
Theorem log2_correct (n : Z) : 0 <= n < 2 ^ 32 -> fat32_log2 n = Z.log2 n.
Proof.
  intros Hn. unfold fat32_log2.
  assert (forall f n b, 0 <= n < 2 ^ Z.of_nat f -> (f <= 32)%nat -> 0 <= b <= 32 - Z.of_nat f ->
    log2_loop f n b = b + Z.log2 n) as H; [|rewrite (H 32%nat n 0) by (simpl; lia); done].
  clear n Hn. induction f as [|f IH]; intros n b Hn Hf Hb.
  - simpl in *. replace n with 0 by lia. simpl. lia.
  - cbn [log2_loop]. destruct (Z.ltb_spec 1 n) as [H1|H1].
    + rewrite u32_small by lia. rewrite IH; [|rewrite shiftr_div by lia|lia..].
      * rewrite Z.log2_shiftr by lia. pose proof (Z.log2_pos n H1). lia.
      * rewrite Nat2Z.inj_succ, Z.pow_succ_r in Hn by lia.
        change (2 ^ 1) with 2. Z.div_mod_to_equations; lia.
    + assert (n = 0 \/ n = 1) as [-> | ->] by lia; simpl; lia.
Qed.

Lemma log2_correct_witness : fat32_log2 32768 = 15.
Proof. rewrite (log2_correct 32768); [reflexivity | lia]. Defined.

(** unpacking an inode number returns the directory cluster, the byte
    offset and the slot count it was packed from, for every 28-bit cluster,
    every slot-aligned 32-bit offset and up to 255 slots; so distinct directory
    entries have distinct inode numbers. *)
Theorem unpack_pack_ino (dir_cluster offset num_slots : Z) :
  0 <= dir_cluster < 2 ^ 28 -> 0 <= offset < 2 ^ 32 -> offset mod 32 = 0 ->
  0 <= num_slots < 256 ->
  fat32_unpack_ino (fat32_pack_ino dir_cluster offset num_slots) = (dir_cluster, offset, num_slots).
Proof.
  intros Hc Ho Hal Hn. unfold fat32_pack_ino. cbn zeta.
  assert (0 <= offset / 32 < 2 ^ 27) as Hs by (Z.div_mod_to_equations; lia).
  rewrite !(land_ones_mod _ 28), (land_ones_mod _ 8), !Z.mod_small by lia.
  rewrite !u64_small by (rewrite Z.shiftl_mul_pow2 by lia; lia).
  rewrite pack_fields by (simpl; lia). unfold fat32_unpack_ino.
  rewrite !(land_ones_mod _ 28), !(land_ones_mod _ 8), !shiftr_div by lia.
  change (2 ^ 36) with 68719476736. change (2 ^ 8) with 256. change (2 ^ 28) with 268435456 in *.
  set (v := _ + num_slots).
  assert (v / 68719476736 = dir_cluster) as -> by (unfold v; Z.div_mod_to_equations; lia).
  assert ((v / 256) mod 268435456 = offset / 32) as -> by (unfold v; Z.div_mod_to_equations; lia).
  assert (v mod 256 = num_slots) as -> by (unfold v; Z.div_mod_to_equations; lia).
  rewrite Z.mod_small by lia. rewrite !u32_small by (Z.div_mod_to_equations; lia).
  f_equal; f_equal. Z.div_mod_to_equations; lia.
Qed.

Lemma unpack_pack_ino_witness :
  fat32_unpack_ino (fat32_pack_ino 0x0FFFFFEF 4294967264 21) = (0x0FFFFFEF, 4294967264, 21).
Proof. apply (unpack_pack_ino 0x0FFFFFEF 4294967264 21); first [lia | reflexivity]. Defined.

Lemma name_is_short_spec (name : list Z) :
  fat32_name_is_short name = true <-> short_name name.
Proof.
  unfold fat32_name_is_short, short_name. cbn zeta.
  destruct (Z.eqb_spec (nth 0 name 0) 46) as [Hdot|Hdot].
  - apply short_name_head_dot in Hdot as [cs ->]. split.
    + destruct cs as [|c [|c' cs]]; [by left| |].
      * simpl. destruct (Z.eqb_spec c 46) as [->|]; [auto|done].
      * rewrite (proj2 (Z.eqb_neq _ 1)), (proj2 (Z.eqb_neq _ 2)) by (cbn [length]; lia). done.
    + intros [[= ->]|[[= ->]|[[Hf _]|(base & ext & H & Hb & _ & Hl & _)]]]; [done..| |].
      * apply Forall_cons_1 in Hf as [[? _] _]. done.
      * destruct base as [|b base]; simplify_eq/=; [lia|].
        apply Forall_cons_1 in Hb as [[? _] _]. done.
  - assert (name <> [46] /\ name <> [46; 46]) as [Hn1 Hn2] by (split; intros ->; done).
    destruct (Z.ltb_spec 12 (Z.of_nat (length name))) as [Hlen|Hlen].
    { split; [done|]. intros [?|[?|[[_ ?]|(base & ext & -> & _ & _ & ? & ?)]]]; [done..|lia|].
      rewrite length_app in Hlen. simpl in Hlen. lia. }
    destruct (short_scan name 0 (-1)) as [d|] eqn:E.
    + pose proof E as E'. apply short_scan_spec in E' as [[Hf ->]|(base & ext & -> & -> & Hb & He)]; [| |lia].
      * simpl. rewrite negb_true_iff, Z.ltb_ge. split; [intros; right; right; left; split; [done|lia]|].
        intros [?|[?|[[_ ?]|(base & ext & -> & _)]]]; [done..|lia|].
        by apply short_ok_no_dot in Hf.
      * rewrite (proj2 (Z.eqb_neq _ (-1))) by lia. rewrite length_app. simpl.
        rewrite andb_true_iff, !negb_true_iff, !orb_false_iff, !Z.eqb_neq, !Z.ltb_ge. split.
        { intros. right; right; right. exists base, ext. repeat split; (done || lia). }
        intros [?|[?|[[Hf _]|(base' & ext' & Heq & Hb' & He' & ? & ?)]]]; [done..| |].
        { by apply short_ok_no_dot in Hf. }
        destruct (dot_split_unique base ext base' ext') as [-> ->]; [done..|lia].
    + split; [done|]. intros Hs. exfalso.
      assert (exists r, short_scan name 0 (-1) = Some r) as [r Hr]; [|congruence].
      destruct Hs as [?|[?|[[Hf _]|(base & ext & -> & Hb & He & _)]]]; [done..| |].
      * exists (-1). apply short_scan_spec; [lia|]. by left.
      * eexists. apply short_scan_spec; [lia|]. right. by exists base, ext.
Qed.

(** [fat32_name_is_short] accepts exactly the 8.3 grammar: dot, dot-dot, up
    to eight valid characters, or a base of one to eight and an extension of one
    to three separated by the only dot. *)
Theorem name_is_short_correct (name : list Z) :
  fat32_name_is_short name = true <-> short_name name.
Proof. apply name_is_short_spec. Qed.

(** the checksum of an 8.3 name fits a byte and detects the change of any
    single character of the eleven. *)
Theorem checksum_detects (pre post : list Z) (c c' : Z) :
  is_byte c -> is_byte c' -> length (pre ++ c :: post) = 11%nat ->
  0 <= fat32_checksum (pre ++ c :: post) < 256 /\
  (fat32_checksum (pre ++ c :: post) = fat32_checksum (pre ++ c' :: post) -> c = c').
Proof.
  intros Hc Hc' Hlen. unfold fat32_checksum, is_byte in *.
  rewrite length_app in Hlen. simpl in Hlen.
  rewrite !take_ge by (rewrite length_app; simpl; lia). split.
  - apply checksum_fold_range. lia.
  - rewrite !foldl_app. simpl. intros H.
    apply checksum_fold_inj in H; [|apply checksum_step_range..].
    assert (0 <= foldl checksum_step 0 pre < 256) as Hs by (apply checksum_fold_range; lia).
    revert H Hs. generalize (foldl checksum_step 0 pre). intros s H Hs.
    rewrite !checksum_step_arith in H by done. unfold u8 in H. change (2 ^ 8) with 256 in H.
    Z.div_mod_to_equations. lia.
Qed.

(** "README  TXT" against "README  TXS". *)
Lemma checksum_detects_witness :
  0 <= fat32_checksum [82; 69; 65; 68; 77; 69; 32; 32; 84; 88; 84] < 256 /\
  (fat32_checksum [82; 69; 65; 68; 77; 69; 32; 32; 84; 88; 84]
   = fat32_checksum [82; 69; 65; 68; 77; 69; 32; 32; 84; 88; 83] -> 84 = 83).
Proof.
  apply (checksum_detects [82; 69; 65; 68; 77; 69; 32; 32; 84; 88] [] 84 83);
    unfold is_byte; first [lia | reflexivity].
Defined.

Lemma short_name_nibs_range cluster slot :
  Forall (fun a => 0 <= a < 16) (short_name_nibs cluster slot).
Proof. repeat constructor; first [apply nib_range | apply lxor_range; apply nib_range]. Qed.

Lemma generate_short_name_nibs cluster offset cluster' offset' :
  fat32_generate_short_name cluster offset = fat32_generate_short_name cluster' offset' ->
  let s := offset / 32 in let s' := offset' / 32 in
  (forall i, 0 <= i < 4 -> nib cluster i = nib cluster' i) /\
  (forall i, 0 <= i < 3 ->
     Z.lxor (nib cluster (4 + i)) (nib s i) = Z.lxor (nib cluster' (4 + i)) (nib s' i)) /\
  (forall i, 3 <= i < 7 -> nib s i = nib s' i).
Proof.
  intros H. apply hex_map_inj in H; [|apply short_name_nibs_range..].
  pose proof (fun k => f_equal (fun l => nth k l 0) H) as Hk. clear H. cbn zeta.
  repeat split; intros i Hi.
  - assert (i = 0 \/ i = 1 \/ i = 2 \/ i = 3) as [->|[->|[->| ->]]] by lia;
      [apply (Hk 0%nat)|apply (Hk 1%nat)|apply (Hk 2%nat)|apply (Hk 3%nat)].
  - assert (i = 0 \/ i = 1 \/ i = 2) as [->|[->| ->]] by lia;
      [apply (Hk 4%nat)|apply (Hk 5%nat)|apply (Hk 6%nat)].
  - assert (i = 3 \/ i = 4 \/ i = 5 \/ i = 6) as [->|[->|[->| ->]]] by lia;
      [apply (Hk 7%nat)|apply (Hk 8%nat)|apply (Hk 9%nat)|apply (Hk 10%nat)].
Qed.

(** within one directory the synthesised 8.3 names are unique: entries at
    different slots get different names, over the whole 32-bit offset range; and
    equal names never come from directories that differ in the high 16 bits of
    their 28-bit cluster. *)
Theorem generate_short_name_unique (cluster offset cluster' offset' : Z) :
  0 <= offset < 2 ^ 32 -> 0 <= offset' < 2 ^ 32 ->
  fat32_generate_short_name cluster offset = fat32_generate_short_name cluster' offset' ->
  (cluster = cluster' -> offset / 32 = offset' / 32) /\
  (0 <= cluster < 2 ^ 28 -> 0 <= cluster' < 2 ^ 28 -> Z.shiftr cluster 12 = Z.shiftr cluster' 12).
Proof.
  intros Ho Ho' H. apply generate_short_name_nibs in H as (Hc & Hx & Hs). split.
  - intros ->. apply nibs_inj; [by apply slot_range..|].
    intros i Hi. destruct (decide (i < 3)) as [H3|H3]; [|by apply Hs; lia].
    specialize (Hx i ltac:(lia)).
    apply (f_equal (Z.lxor (nib cluster' (4 + i)))) in Hx.
    by rewrite <- !Z.lxor_assoc, Z.lxor_nilpotent, !Z.lxor_0_l in Hx.
  - intros Hcl Hcl'. rewrite (nibs_high cluster), (nibs_high cluster') by done.
    by rewrite !Hc by lia.
Qed.

Lemma generate_short_name_unique_witness :
  (5 = 5 -> 96 / 32 = 96 / 32) /\
  (0 <= 5 < 2 ^ 28 -> 0 <= 5 < 2 ^ 28 -> Z.shiftr 5 12 = Z.shiftr 5 12).
Proof. apply (generate_short_name_unique 5 96 5 96); first [lia | reflexivity]. Defined.
