(* ===== verification/Kernel.v ===== *)
(** * Kernel interface and driver state ([fat32fs.h])

    The IRIX buffer cache, the clock and the locks are not part of the driver:
    they are the operations of the class [Kernel], and [KernelLaws] states what
    the driver relies on.  The state of a driver call is the kernel, the mount
    structure, the vnodes by address, and the locks the calling thread holds. *)
From S2P Require Import Prelude Layout Time.

(** ** Error codes and constants of the IRIX headers *)

Definition ENOENT : Z := 2.
Definition EIO : Z := 5.
Definition ENOMEM : Z := 12.
Definition EACCES : Z := 13.
Definition EFAULT : Z := 14.
Definition ENOTBLK : Z := 15.
Definition EBUSY : Z := 16.
Definition EEXIST : Z := 17.
Definition ENOTDIR : Z := 20.
Definition EISDIR : Z := 21.
Definition EINVAL : Z := 22.
Definition ENOSPC : Z := 28.
Definition EROFS : Z := 30.
Definition ENOSYS : Z := 89.
Definition ENOTEMPTY : Z := 93.

Definition VFS_RDONLY : Z := 0x1.
Definition VREAD : Z := 0x100.
Definition VWRITE : Z := 0x80.
Definition VEXEC : Z := 0x40.
Definition S_IFDIR : Z := 0x4000.
Definition S_IFREG : Z := 0x8000.

(** ** Buffers *)

(** A locked buffer of [b_bcount] 512-byte blocks from [b_blkno]. *)
Record buf : Type := mkBuf {
  b_blkno : Z;
  b_bcount : Z;
  b_is_error : bool;
  b_error : Z;
  b_addr : list Z
}.

Definition set_b_addr (x : list Z) (b : buf) : buf :=
  mkBuf (b_blkno b) (b_bcount b) (b_is_error b) (b_error b) x.

Record cred : Type := mkCred { cr_uid : Z; cr_groups : list Z }.

Inductive lkmode := MrAccess | MrUpdate.
#[global] Instance lkmode_eq_dec : EqDecision lkmode.
Proof. solve_decision. Defined.

(** ** The kernel *)

Class Kernel (K : Type) := {
  bread : Z -> Z -> K -> K * buf;
  getblk : Z -> Z -> K -> K * buf;
  clrbuf : buf -> buf;
  bdwrite : buf -> K -> K;
  brelse : buf -> K -> K;
  nanotime : K -> K * timespec;
  groupmember : Z -> cred -> bool;
  (** [mr_grant held m]: the mode in which the calling thread holds a lock after
      it asks for [m]; [None] when it sleeps for ever. *)
  mr_grant : option lkmode -> lkmode -> option lkmode;
  (** What a successful [bread] of a chunk returns now; [None] when the device
      reports an error. *)
  view : K -> Z -> Z -> option (list Z)
}.

Definition chunks_disjoint (b n b' n' : Z) : Prop := b + n <= b' \/ b' + n' <= b.

(** A buffer cache keyed by chunk: a chunk reads back what was last written to
    it, and writes do not disturb chunks that share no block.  Nothing is said
    about different chunks that overlap: the cache does not keep them coherent
    (README, "Important Implementation Notes"). *)
Class KernelLaws (K : Type) `{Kernel K} : Prop := {
  view_length k b n d : view k b n = Some d -> Z.of_nat (length d) = 512 * n;
  view_bytes k b n d : view k b n = Some d -> Forall is_byte d;
  bread_view k b n b' n' : view (fst (bread b n k)) b' n' = view k b' n';
  bread_blkno k b n : b_blkno (snd (bread b n k)) = b;
  bread_bcount k b n : b_bcount (snd (bread b n k)) = n;
  bread_ok k b n d : view k b n = Some d ->
    b_is_error (snd (bread b n k)) = false /\ b_addr (snd (bread b n k)) = d;
  bread_fail k b n : view k b n = None -> b_is_error (snd (bread b n k)) = true;
  getblk_view k b n b' n' : view (fst (getblk b n k)) b' n' = view k b' n';
  getblk_blkno k b n : b_blkno (snd (getblk b n k)) = b;
  getblk_bcount k b n : b_bcount (snd (getblk b n k)) = n;
  clrbuf_blkno bp : b_blkno (clrbuf bp) = b_blkno bp;
  clrbuf_bcount bp : b_bcount (clrbuf bp) = b_bcount bp;
  clrbuf_addr bp : b_addr (clrbuf bp) = replicate (Z.to_nat (512 * b_bcount bp)) 0;
  (** Releasing a buffer that failed to read, or that has not been modified. *)
  brelse_view k bp b' n' :
    b_is_error bp = true \/ view k (b_blkno bp) (b_bcount bp) = Some (b_addr bp) ->
    view (brelse bp k) b' n' = view k b' n';
  nanotime_view k b' n' : view (fst (nanotime k)) b' n' = view k b' n';
  bdwrite_same k bp d : view k (b_blkno bp) (b_bcount bp) = Some d ->
    length (b_addr bp) = length d -> Forall is_byte (b_addr bp) ->
    view (bdwrite bp k) (b_blkno bp) (b_bcount bp) = Some (b_addr bp);
  bdwrite_other k bp b' n' : 0 < b_bcount bp -> chunks_disjoint (b_blkno bp) (b_bcount bp) b' n' ->
    view (bdwrite bp k) b' n' = view k b' n';
  mr_grant_free m : mr_grant None m = Some m
}.

(** ** Driver state *)

(** [fat32fs_info_t]; [fsi_vfs_flag] is [fsi_vfsp->vfs_flag]. *)
Record fat32fs_info : Type := mkFsi {
  fsi_vfs_flag : Z;
  fsi_dev : Z;
  fsi_devvp : option nat;
  fsi_rootvp : option nat;
  fsi_partition_offset : Z;
  fsi_partition_num : Z;
  fsi_uid : Z;
  fsi_gid : Z;
  fsi_fsinfo_sector : Z;
  fsi_fat_start : Z;
  fsi_bytes_per_sector : Z;
  fsi_sectors_per_cluster : Z;
  fsi_bytes_per_cluster : Z;
  fsi_reserved_sectors : Z;
  fsi_sector_shift : Z;
  fsi_sector_mask : Z;
  fsi_cluster_shift : Z;
  fsi_cluster_mask : Z;
  fsi_spc_shift : Z;
  fsi_num_fats : Z;
  fsi_fat_size : Z;
  fsi_root_cluster : Z;
  fsi_total_sectors : Z;
  fsi_data_start : Z;
  fsi_cluster_count : Z;
  fsi_free_count : Z;
  fsi_next_free : Z
}.

Inductive vtype := VNON | VREG | VDIR.
#[global] Instance vtype_eq_dec : EqDecision vtype.
Proof. solve_decision. Defined.

Definition FAT32_CLS_CACHE_SIZE : Z := 16.

(** [fat32fs_vnode_t]; a cache entry is the pair of its [index] and [cluster]. *)
Record fat32fs_vnode : Type := mkFv {
  fv_magic : list Z;
  fv_structsize : Z;
  fv_vnode : option nat;
  fv_cluster : Z;
  fv_type : vtype;
  fv_mode : Z;
  fv_uid : Z;
  fv_gid : Z;
  fv_size : Z;
  fv_atime : timespec;
  fv_mtime : timespec;
  fv_ctime : timespec;
  fv_attr : Z;
  fv_diroff : Z;
  fv_dirsz : Z;
  fv_parent_cluster : Z;
  fv_parent_vp : option nat;
  fv_cls_cache : list (Z * Z);
  fv_flags : Z
}.

Definition FV_MODIFIED : Z := 0x0001.
Definition FV_ROOT : Z := 0x0002.
Definition FV_ATIME_DIRTY : Z := 0x0004.
Definition FV_MTIME_DIRTY : Z := 0x0008.
Definition FV_SIZE_DIRTY : Z := 0x0010.
Definition FV_CLUSTER_DIRTY : Z := 0x0020.
Definition FV_CTIME_DIRTY : Z := 0x0040.
Definition FV_ATTR_DIRTY : Z := 0x0080.
Definition FV_DIRTY_MASK : Z :=
  Z.lor FV_ATIME_DIRTY (Z.lor FV_MTIME_DIRTY (Z.lor FV_SIZE_DIRTY
    (Z.lor FV_CLUSTER_DIRTY (Z.lor FV_CTIME_DIRTY FV_ATTR_DIRTY)))).

Definition NC_ALLOC : Z := 0x0001.
Definition NC_CLEAR : Z := 0x0002.

Definition FAT32_CRE_DIR : Z := 0x01.
Definition FAT32_CRE_RENAME : Z := 0x02.
Definition FAT32_CRE_REUSE : Z := 0x04.

(** Locks: [fsi_lock], and [fv_lock] and [fv_cache_lock] of the vnode at an
    address. *)
Inductive lock := FsiLock | FvLock (p : nat) | CacheLock (p : nat).
#[global] Instance lock_eq_dec : EqDecision lock.
Proof. solve_decision. Defined.
#[global] Instance lock_countable : Countable lock.
Proof.
  refine (inj_countable'
    (fun l => match l with FsiLock => inl tt | FvLock p => inr (inl p) | CacheLock p => inr (inr p) end)
    (fun x => match x with inl _ => FsiLock | inr (inl p) => FvLock p | inr (inr p) => CacheLock p end) _).
  by intros [].
Defined.

Record st (K : Type) : Type := mkSt {
  kst : K;
  fsi : fat32fs_info;
  fvs : gmap nat fat32fs_vnode;
  held : gmap lock lkmode
}.
Arguments mkSt {K} _ _ _ _.
Arguments kst {K} _.
Arguments fsi {K} _.
Arguments fvs {K} _.
Arguments held {K} _.

(** Assignment to one member. *)
Definition set_fsi_free_count (x : Z) (v : fat32fs_info) : fat32fs_info :=
  mkFsi (fsi_vfs_flag v) (fsi_dev v) (fsi_devvp v) (fsi_rootvp v) (fsi_partition_offset v) (fsi_partition_num v) (fsi_uid v) (fsi_gid v)
    (fsi_fsinfo_sector v) (fsi_fat_start v) (fsi_bytes_per_sector v)
    (fsi_sectors_per_cluster v) (fsi_bytes_per_cluster v) (fsi_reserved_sectors v)
    (fsi_sector_shift v) (fsi_sector_mask v) (fsi_cluster_shift v) (fsi_cluster_mask v)
    (fsi_spc_shift v) (fsi_num_fats v) (fsi_fat_size v) (fsi_root_cluster v)
    (fsi_total_sectors v) (fsi_data_start v) (fsi_cluster_count v) x (fsi_next_free v).
Definition set_fsi_next_free (x : Z) (v : fat32fs_info) : fat32fs_info :=
  mkFsi (fsi_vfs_flag v) (fsi_dev v) (fsi_devvp v) (fsi_rootvp v) (fsi_partition_offset v) (fsi_partition_num v) (fsi_uid v) (fsi_gid v)
    (fsi_fsinfo_sector v) (fsi_fat_start v) (fsi_bytes_per_sector v)
    (fsi_sectors_per_cluster v) (fsi_bytes_per_cluster v) (fsi_reserved_sectors v)
    (fsi_sector_shift v) (fsi_sector_mask v) (fsi_cluster_shift v) (fsi_cluster_mask v)
    (fsi_spc_shift v) (fsi_num_fats v) (fsi_fat_size v) (fsi_root_cluster v)
    (fsi_total_sectors v) (fsi_data_start v) (fsi_cluster_count v) (fsi_free_count v) x.
Definition set_fv_structsize (x : Z) (v : fat32fs_vnode) : fat32fs_vnode :=
  mkFv (fv_magic v) x (fv_vnode v) (fv_cluster v) (fv_type v) (fv_mode v) (fv_uid v) (fv_gid v)
    (fv_size v) (fv_atime v) (fv_mtime v) (fv_ctime v) (fv_attr v) (fv_diroff v) (fv_dirsz v)
    (fv_parent_cluster v) (fv_parent_vp v) (fv_cls_cache v) (fv_flags v).
Definition set_fv_vnode (x : option nat) (v : fat32fs_vnode) : fat32fs_vnode :=
  mkFv (fv_magic v) (fv_structsize v) x (fv_cluster v) (fv_type v) (fv_mode v) (fv_uid v)
    (fv_gid v) (fv_size v) (fv_atime v) (fv_mtime v) (fv_ctime v) (fv_attr v) (fv_diroff v)
    (fv_dirsz v) (fv_parent_cluster v) (fv_parent_vp v) (fv_cls_cache v) (fv_flags v).
Definition set_fv_cluster (x : Z) (v : fat32fs_vnode) : fat32fs_vnode :=
  mkFv (fv_magic v) (fv_structsize v) (fv_vnode v) x (fv_type v) (fv_mode v) (fv_uid v)
    (fv_gid v) (fv_size v) (fv_atime v) (fv_mtime v) (fv_ctime v) (fv_attr v) (fv_diroff v)
    (fv_dirsz v) (fv_parent_cluster v) (fv_parent_vp v) (fv_cls_cache v) (fv_flags v).
Definition set_fv_type (x : vtype) (v : fat32fs_vnode) : fat32fs_vnode :=
  mkFv (fv_magic v) (fv_structsize v) (fv_vnode v) (fv_cluster v) x (fv_mode v) (fv_uid v)
    (fv_gid v) (fv_size v) (fv_atime v) (fv_mtime v) (fv_ctime v) (fv_attr v) (fv_diroff v)
    (fv_dirsz v) (fv_parent_cluster v) (fv_parent_vp v) (fv_cls_cache v) (fv_flags v).
Definition set_fv_mode (x : Z) (v : fat32fs_vnode) : fat32fs_vnode :=
  mkFv (fv_magic v) (fv_structsize v) (fv_vnode v) (fv_cluster v) (fv_type v) x (fv_uid v)
    (fv_gid v) (fv_size v) (fv_atime v) (fv_mtime v) (fv_ctime v) (fv_attr v) (fv_diroff v)
    (fv_dirsz v) (fv_parent_cluster v) (fv_parent_vp v) (fv_cls_cache v) (fv_flags v).
Definition set_fv_uid (x : Z) (v : fat32fs_vnode) : fat32fs_vnode :=
  mkFv (fv_magic v) (fv_structsize v) (fv_vnode v) (fv_cluster v) (fv_type v) (fv_mode v) x
    (fv_gid v) (fv_size v) (fv_atime v) (fv_mtime v) (fv_ctime v) (fv_attr v) (fv_diroff v)
    (fv_dirsz v) (fv_parent_cluster v) (fv_parent_vp v) (fv_cls_cache v) (fv_flags v).
Definition set_fv_gid (x : Z) (v : fat32fs_vnode) : fat32fs_vnode :=
  mkFv (fv_magic v) (fv_structsize v) (fv_vnode v) (fv_cluster v) (fv_type v) (fv_mode v)
    (fv_uid v) x (fv_size v) (fv_atime v) (fv_mtime v) (fv_ctime v) (fv_attr v) (fv_diroff v)
    (fv_dirsz v) (fv_parent_cluster v) (fv_parent_vp v) (fv_cls_cache v) (fv_flags v).
Definition set_fv_size (x : Z) (v : fat32fs_vnode) : fat32fs_vnode :=
  mkFv (fv_magic v) (fv_structsize v) (fv_vnode v) (fv_cluster v) (fv_type v) (fv_mode v)
    (fv_uid v) (fv_gid v) x (fv_atime v) (fv_mtime v) (fv_ctime v) (fv_attr v) (fv_diroff v)
    (fv_dirsz v) (fv_parent_cluster v) (fv_parent_vp v) (fv_cls_cache v) (fv_flags v).
Definition set_fv_atime (x : timespec) (v : fat32fs_vnode) : fat32fs_vnode :=
  mkFv (fv_magic v) (fv_structsize v) (fv_vnode v) (fv_cluster v) (fv_type v) (fv_mode v)
    (fv_uid v) (fv_gid v) (fv_size v) x (fv_mtime v) (fv_ctime v) (fv_attr v) (fv_diroff v)
    (fv_dirsz v) (fv_parent_cluster v) (fv_parent_vp v) (fv_cls_cache v) (fv_flags v).
Definition set_fv_mtime (x : timespec) (v : fat32fs_vnode) : fat32fs_vnode :=
  mkFv (fv_magic v) (fv_structsize v) (fv_vnode v) (fv_cluster v) (fv_type v) (fv_mode v)
    (fv_uid v) (fv_gid v) (fv_size v) (fv_atime v) x (fv_ctime v) (fv_attr v) (fv_diroff v)
    (fv_dirsz v) (fv_parent_cluster v) (fv_parent_vp v) (fv_cls_cache v) (fv_flags v).
Definition set_fv_ctime (x : timespec) (v : fat32fs_vnode) : fat32fs_vnode :=
  mkFv (fv_magic v) (fv_structsize v) (fv_vnode v) (fv_cluster v) (fv_type v) (fv_mode v)
    (fv_uid v) (fv_gid v) (fv_size v) (fv_atime v) (fv_mtime v) x (fv_attr v) (fv_diroff v)
    (fv_dirsz v) (fv_parent_cluster v) (fv_parent_vp v) (fv_cls_cache v) (fv_flags v).
Definition set_fv_attr (x : Z) (v : fat32fs_vnode) : fat32fs_vnode :=
  mkFv (fv_magic v) (fv_structsize v) (fv_vnode v) (fv_cluster v) (fv_type v) (fv_mode v)
    (fv_uid v) (fv_gid v) (fv_size v) (fv_atime v) (fv_mtime v) (fv_ctime v) x (fv_diroff v)
    (fv_dirsz v) (fv_parent_cluster v) (fv_parent_vp v) (fv_cls_cache v) (fv_flags v).
Definition set_fv_diroff (x : Z) (v : fat32fs_vnode) : fat32fs_vnode :=
  mkFv (fv_magic v) (fv_structsize v) (fv_vnode v) (fv_cluster v) (fv_type v) (fv_mode v)
    (fv_uid v) (fv_gid v) (fv_size v) (fv_atime v) (fv_mtime v) (fv_ctime v) (fv_attr v) x
    (fv_dirsz v) (fv_parent_cluster v) (fv_parent_vp v) (fv_cls_cache v) (fv_flags v).
Definition set_fv_dirsz (x : Z) (v : fat32fs_vnode) : fat32fs_vnode :=
  mkFv (fv_magic v) (fv_structsize v) (fv_vnode v) (fv_cluster v) (fv_type v) (fv_mode v)
    (fv_uid v) (fv_gid v) (fv_size v) (fv_atime v) (fv_mtime v) (fv_ctime v) (fv_attr v)
    (fv_diroff v) x (fv_parent_cluster v) (fv_parent_vp v) (fv_cls_cache v) (fv_flags v).
Definition set_fv_parent_cluster (x : Z) (v : fat32fs_vnode) : fat32fs_vnode :=
  mkFv (fv_magic v) (fv_structsize v) (fv_vnode v) (fv_cluster v) (fv_type v) (fv_mode v)
    (fv_uid v) (fv_gid v) (fv_size v) (fv_atime v) (fv_mtime v) (fv_ctime v) (fv_attr v)
    (fv_diroff v) (fv_dirsz v) x (fv_parent_vp v) (fv_cls_cache v) (fv_flags v).
Definition set_fv_parent_vp (x : option nat) (v : fat32fs_vnode) : fat32fs_vnode :=
  mkFv (fv_magic v) (fv_structsize v) (fv_vnode v) (fv_cluster v) (fv_type v) (fv_mode v)
    (fv_uid v) (fv_gid v) (fv_size v) (fv_atime v) (fv_mtime v) (fv_ctime v) (fv_attr v)
    (fv_diroff v) (fv_dirsz v) (fv_parent_cluster v) x (fv_cls_cache v) (fv_flags v).
Definition set_fv_cls_cache (x : list (Z * Z)) (v : fat32fs_vnode) : fat32fs_vnode :=
  mkFv (fv_magic v) (fv_structsize v) (fv_vnode v) (fv_cluster v) (fv_type v) (fv_mode v)
    (fv_uid v) (fv_gid v) (fv_size v) (fv_atime v) (fv_mtime v) (fv_ctime v) (fv_attr v)
    (fv_diroff v) (fv_dirsz v) (fv_parent_cluster v) (fv_parent_vp v) x (fv_flags v).
Definition set_fv_flags (x : Z) (v : fat32fs_vnode) : fat32fs_vnode :=
  mkFv (fv_magic v) (fv_structsize v) (fv_vnode v) (fv_cluster v) (fv_type v) (fv_mode v)
    (fv_uid v) (fv_gid v) (fv_size v) (fv_atime v) (fv_mtime v) (fv_ctime v) (fv_attr v)
    (fv_diroff v) (fv_dirsz v) (fv_parent_cluster v) (fv_parent_vp v) (fv_cls_cache v) x.

Section state.
Context {K : Type}.

Definition set_kst (x : K) (s : st K) : st K := mkSt x (fsi s) (fvs s) (held s).
Definition set_fsi (x : fat32fs_info) (s : st K) : st K := mkSt (kst s) x (fvs s) (held s).
Definition set_fvs (x : gmap nat fat32fs_vnode) (s : st K) : st K := mkSt (kst s) (fsi s) x (held s).
Definition set_held (x : gmap lock lkmode) (s : st K) : st K := mkSt (kst s) (fsi s) (fvs s) x.

(** [*fv]: a fault when the address is not that of a live vnode. *)
Definition get_fv (p : nat) : M (st K) fat32fs_vnode :=
  let* o := gets (fun s => fvs s !! p) in of_opt o.

Definition upd_fv (p : nat) (f : fat32fs_vnode -> fat32fs_vnode) : M (st K) unit :=
  let* v := get_fv p in modify (fun s => set_fvs (<[p := f v]> (fvs s)) s).

End state.

(** ** Kernel calls *)

Section calls.
Context {K : Type} `{!Kernel K}.

Definition do_bread (b n : Z) : M (st K) buf :=
  fun s => let '(k, bp) := bread b n (kst s) in (set_kst k s, Ok bp).
Definition do_getblk (b n : Z) : M (st K) buf :=
  fun s => let '(k, bp) := getblk b n (kst s) in (set_kst k s, Ok bp).
Definition do_bdwrite (bp : buf) : M (st K) unit :=
  modify (fun s => set_kst (bdwrite bp (kst s)) s).
Definition do_brelse (bp : buf) : M (st K) unit :=
  modify (fun s => set_kst (brelse bp (kst s)) s).
Definition do_nanotime : M (st K) timespec :=
  fun s => let '(k, t) := nanotime (kst s) in (set_kst k s, Ok t).

(** [error = bp->b_error ? bp->b_error : EIO]. *)
Definition buf_error (bp : buf) : Z := if b_error bp =? 0 then EIO else b_error bp.

(** The recurring test [if (bp->b_flags & B_ERROR) { ...; brelse(bp); return error; }]. *)
Definition check_buf (bp : buf) : M (st K) unit :=
  if b_is_error bp then do* do_brelse bp in throw (buf_error bp) else ret tt.

Definition lock_acquire (l : lock) (m : lkmode) : M (st K) unit :=
  let* h := gets held in
  match mr_grant (h !! l) m with
  | Some m' => modify (fun s => set_held (<[l := m']> (held s)) s)
  | None => blocked
  end.

Definition lock_release (l : lock) : M (st K) unit :=
  let* h := gets held in
  match h !! l with
  | Some _ => modify (fun s => set_held (delete l (held s)) s)
  | None => fault
  end.

Definition mrupdate (l : lock) : M (st K) unit := lock_acquire l MrUpdate.
Definition mraccess (l : lock) : M (st K) unit := lock_acquire l MrAccess.
Definition mrunlock (l : lock) : M (st K) unit := lock_release l.
Definition mraccunlock (l : lock) : M (st K) unit := lock_release l.
Definition mutex_lock (l : lock) : M (st K) unit := lock_acquire l MrUpdate.
Definition mutex_unlock (l : lock) : M (st K) unit := lock_release l.
Definition mrdemote (l : lock) : M (st K) unit :=
  let* h := gets held in
  match h !! l with
  | Some MrUpdate => modify (fun s => set_held (<[l := MrAccess]> (held s)) s)
  | _ => fault
  end.

End calls.
