(* ===== verification/Device.v ===== *)
(** * A concrete kernel

    An executable instance of [Kernel] that satisfies [KernelLaws]: a disk of
    512-byte blocks behind a write-back cache keyed by chunk.  It shows that the
    laws can hold, carries the witnesses, and behaves like the IRIX cache for
    overlapping chunks: a write to one is not seen through the other. *)
From S2P Require Import Prelude Layout Time Kernel.

Record device : Type := mkDevice {
  d_cache : gmap (Z * Z) (list Z);
  d_disk : gmap Z (list Z);
  d_time : timespec
}.

(** The blocks [[b, b + n)] as they are on the medium. *)
Definition read_blocks (disk : gmap Z (list Z)) (b n : Z) : option (list Z) :=
  foldr (fun i acc => match disk !! i, acc with
                      | Some d, Some r => Some (d ++ r)
                      | _, _ => None
                      end) (Some []) (seqZ b n).

Definition well_sized (n : Z) (d : list Z) : bool :=
  (Z.of_nat (length d) =? 512 * n) && forallb (fun b => (0 <=? b) && (b <? 256)) d.

Definition dev_raw (k : device) (b n : Z) : option (list Z) :=
  match d_cache k !! (b, n) with
  | Some d => Some d
  | None => read_blocks (d_disk k) b n
  end.

Definition dev_view (k : device) (b n : Z) : option (list Z) :=
  match dev_raw k b n with
  | Some d => if well_sized n d then Some d else None
  | None => None
  end.

Definition dev_put (b n : Z) (d : list Z) (k : device) : device :=
  mkDevice (<[(b, n) := d]> (d_cache k)) (d_disk k) (d_time k).

#[global] Instance device_kernel : Kernel device := {
  bread b n k := match dev_view k b n with
                 | Some d => (dev_put b n d k, mkBuf b n false 0 d)
                 | None => (k, mkBuf b n true 0 [])
                 end;
  getblk b n k := (k, mkBuf b n false 0 (replicate (Z.to_nat (512 * n)) 255));
  clrbuf bp := set_b_addr (replicate (Z.to_nat (512 * b_bcount bp)) 0) bp;
  bdwrite bp k := dev_put (b_blkno bp) (b_bcount bp) (b_addr bp) k;
  brelse bp k := if b_is_error bp then k else dev_put (b_blkno bp) (b_bcount bp) (b_addr bp) k;
  nanotime k := (k, d_time k);
  groupmember g cr := existsb (Z.eqb g) (cr_groups cr);
  mr_grant h m := match h, m with
                  | None, _ => Some m
                  | Some MrAccess, MrAccess => Some MrAccess
                  | _, _ => None
                  end;
  view := dev_view
}.

Lemma well_sized_spec n d :
  well_sized n d = true <-> Z.of_nat (length d) = 512 * n /\ Forall is_byte d.
Proof.
  unfold well_sized. rewrite andb_true_iff, Z.eqb_eq, forallb_forall, List.Forall_forall.
  unfold is_byte. setoid_rewrite andb_true_iff. setoid_rewrite Z.leb_le. setoid_rewrite Z.ltb_lt.
  naive_solver.
Qed.

Lemma dev_view_Some k b n d :
  dev_view k b n = Some d -> Z.of_nat (length d) = 512 * n /\ Forall is_byte d.
Proof.
  unfold dev_view. intros H. destruct (dev_raw k b n) as [d'|]; [|done].
  destruct (well_sized n d') eqn:E; [|done]. simplify_eq. by apply well_sized_spec.
Qed.

Lemma dev_view_put_same b n d k :
  Z.of_nat (length d) = 512 * n -> Forall is_byte d -> dev_view (dev_put b n d k) b n = Some d.
Proof.
  intros Hl Hb. unfold dev_view, dev_raw, dev_put. cbn [d_cache]. rewrite lookup_insert_eq.
  by rewrite (proj2 (well_sized_spec n d)).
Qed.

Lemma dev_view_put_other b n d k b' n' :
  (b, n) <> (b', n') -> dev_view (dev_put b n d k) b' n' = dev_view k b' n'.
Proof.
  intros H. unfold dev_view, dev_raw, dev_put. cbn [d_cache d_disk]. by rewrite lookup_insert_ne.
Qed.

#[global] Instance device_laws : KernelLaws device.
Proof.
  split.
  - intros k b n d H. by apply dev_view_Some in H as [? _].
  - intros k b n d H. by apply dev_view_Some in H as [_ ?].
  - intros k b n b' n'. cbn. destruct (dev_view k b n) as [d|] eqn:E; [|done]. cbn.
    destruct (decide ((b, n) = (b', n'))) as [[= <- <-]|Hne].
    + rewrite E. apply dev_view_Some in E as [? ?]. by apply dev_view_put_same.
    + by apply dev_view_put_other.
  - intros k b n. cbn. by destruct (dev_view k b n).
  - intros k b n. cbn. by destruct (dev_view k b n).
  - intros k b n d H. cbn in *. by rewrite H.
  - intros k b n H. cbn in *. by rewrite H.
  - done.
  - done.
  - done.
  - done.
  - done.
  - done.
  - intros k bp b' n' H. cbn in *. destruct (b_is_error bp); [done|]. destruct H as [|H]; [done|].
    destruct (decide ((b_blkno bp, b_bcount bp) = (b', n'))) as [[= <- <-]|Hne].
    + rewrite H. apply dev_view_Some in H as [? ?]. by apply dev_view_put_same.
    + by apply dev_view_put_other.
  - done.
  - intros k bp d H Hl Hb. cbn in *. apply dev_view_Some in H as [? _].
    apply dev_view_put_same; [congruence|done].
  - intros k bp b' n' Hpos H. cbn in *.
    destruct (decide ((b_blkno bp, b_bcount bp) = (b', n'))) as [[= <- <-]|Hne];
      [|by apply dev_view_put_other].
    destruct H; lia.
  - by intros [].
Qed.
