(* ===== verification/Cls.v ===== *)
(** * The FAT and cluster chains ([fat32_cls.c]): definitions

    One definition per function.  A C function with an [int] result and an
    output parameter is a computation that ends in [Err] or in [Ok] of the
    output; no caller reads an output parameter after an error return. *)
From S2P Require Import Prelude Layout Time Kernel.

Section cls.
Context {K : Type} `{!Kernel K}.

Definition fat32_cluster_to_sector (f : fat32fs_info) (cluster : Z) : Z :=
  u32 (fsi_data_start f + u32 (Z.shiftl (u32 (cluster - FAT32_CLUSTER_MIN)) (fsi_spc_shift f))).

Definition fat32_read_cluster (cluster : Z) : M (st K) buf :=
  let* f := gets fsi in
  do_bread (fat32_cluster_to_sector f cluster) (fsi_sectors_per_cluster f).

(** The body of the loop over the FAT copies and its repetition: [n] copies are
    left, [fat_num] is the current one, [bp] the buffer read last. *)
Fixpoint rmw_write_fats (n : nat) (fat_num fat_sector entry_offset nv : Z) (bp : buf)
  : M (st K) unit :=
  match n with
  | O => ret tt
  | S n' =>
      let* f := gets fsi in
      let* bp := (if fat_num =? 0 then ret bp else do_bread fat_sector 1) in
      do* check_buf bp in
      let* d := of_opt (bput (b_addr bp) entry_offset (WLE32 nv)) in
      do* do_bdwrite (set_b_addr d bp) in
      rmw_write_fats n' (u32 (fat_num + 1)) (u32 (fat_sector + fsi_fat_size f)) entry_offset nv bp
  end.

(** The result is [*old_value]; [new_value] is [None] for a NULL pointer. *)
Definition fat32_rmw_cluster (cluster : Z) (new_value : option Z) : M (st K) Z :=
  let* f := gets fsi in
  if (cluster <? FAT32_CLUSTER_MIN) || (u32 (fsi_cluster_count f + 1) <? cluster)
  then throw EINVAL else
  let fat_offset := u32 (cluster * 4) in
  let fat_sector := u32 (fsi_fat_start f + Z.shiftr fat_offset (fsi_sector_shift f)) in
  let entry_offset := Z.land fat_offset (fsi_sector_mask f) in
  let* bp := do_bread fat_sector 1 in
  do* check_buf bp in
  let* bs := of_opt (bsub (b_addr bp) entry_offset 4) in
  let value := Z.land (RLE32 bs) FAT32_CLUSTER_MASK in
  match new_value with
  | None => do* do_brelse bp in ret value
  | Some nv =>
      do* rmw_write_fats (Z.to_nat (fsi_num_fats f)) 0 fat_sector entry_offset nv bp in
      ret value
  end.

(** [for (i = 0; i < fsi_sectors_per_cluster; i++)]: one block at a time. *)
Fixpoint clear_loop (n : nat) (sector i : Z) : M (st K) unit :=
  match n with
  | O => ret tt
  | S n' =>
      let* bp := do_getblk (u32 (sector + i)) 1 in
      do* do_bdwrite (clrbuf bp) in
      clear_loop n' sector (i + 1)
  end.

Definition fat32_clear_cluster (cluster : Z) : M (st K) unit :=
  let* f := gets fsi in
  let sector := fat32_cluster_to_sector f cluster in
  clear_loop (Z.to_nat (fsi_sectors_per_cluster f)) sector 0.

(** One round of the search loop of [fat32_allocate_cluster]; the state is
    [(new_cluster, clusters_searched)]. *)
Definition alloc_search_step (f : fat32fs_info) (start_search max_cluster : Z) (x : Z * Z)
  : M (st K) (Z * Z + Z * Z) :=
  let '(new_cluster, clusters_searched) := x in
  if negb (clusters_searched <? fsi_cluster_count f) then ret (inr (new_cluster, clusters_searched)) else
  let* cluster_value := fat32_rmw_cluster new_cluster None in
  if cluster_value =? FAT32_CLUSTER_FREE then ret (inr (new_cluster, clusters_searched)) else
  let new_cluster := u32 (new_cluster + 1) in
  let clusters_searched := u32 (clusters_searched + 1) in
  let new_cluster := if max_cluster <? new_cluster then FAT32_CLUSTER_MIN else new_cluster in
  if (new_cluster =? start_search) && (0 <? clusters_searched) then throw ENOSPC
  else ret (inl (new_cluster, clusters_searched)).

(** The tail of the allocation: FSInfo sector, cached counters. *)
Definition alloc_update_fsinfo (free_count new_cluster max_cluster : Z) : M (st K) unit :=
  let* f := gets fsi in
  let* bp := do_bread (fsi_fsinfo_sector f) 1 in
  do* check_buf bp in
  let new_free_count := u32 (free_count - 1) in
  let new_next_free := u32 (new_cluster + 1) in
  let new_next_free := if max_cluster <? new_next_free then FAT32_CLUSTER_MIN else new_next_free in
  let* d := of_opt (bsub (b_addr bp) 0 512) in
  let d := set_field FsInfo.fat32_fsinfo d FsInfo.free_count (WLE32 new_free_count) in
  let d := set_field FsInfo.fat32_fsinfo d FsInfo.next_free (WLE32 new_next_free) in
  do* do_bdwrite (set_b_addr d bp) in
  modify (fun s => set_fsi (set_fsi_next_free new_next_free
                             (set_fsi_free_count new_free_count (fsi s))) s).

Definition fat32_allocate_cluster (parent flags : Z) : M (st K) Z :=
  let* f := gets fsi in
  let free_count := fsi_free_count f in
  let start_search := fsi_next_free f in
  if (free_count =? 0) || (free_count =? 0xFFFFFFFF) then throw ENOSPC else
  let max_cluster := u32 (fsi_cluster_count f + 1) in
  let start_search :=
    if (start_search <? FAT32_CLUSTER_MIN) || (max_cluster <? start_search)
    then FAT32_CLUSTER_MIN else start_search in
  let* found := iter (S (Z.to_nat (fsi_cluster_count f)))
                     (alloc_search_step f start_search max_cluster) (start_search, 0) in
  let '(new_cluster, clusters_searched) := found in
  if fsi_cluster_count f <=? clusters_searched then throw ENOSPC else
  do* fat32_rmw_cluster new_cluster (Some FAT32_CLUSTER_EOC) in
  do* (if negb (parent =? 0) then
         let* r := try (fat32_rmw_cluster parent (Some new_cluster)) in
         match r with
         | inl error =>
             do* try (fat32_rmw_cluster new_cluster (Some FAT32_CLUSTER_FREE)) in throw error
         | inr _ => ret tt
         end
       else ret tt) in
  do* alloc_update_fsinfo free_count new_cluster max_cluster in
  do* (if flag flags NC_CLEAR then do* try (fat32_clear_cluster new_cluster) in ret tt else ret tt) in
  ret new_cluster.

(** The label [allocate_new] of [fat32_next_cluster]. *)
Definition next_allocate_new (current flags : Z) : M (st K) Z :=
  do* mrupdate FsiLock in
  let* r := try (fat32_allocate_cluster current flags) in
  do* mrunlock FsiLock in
  rethrow r.

Definition fat32_next_cluster (current flags : Z) : M (st K) Z :=
  let* f := gets fsi in
  if current =? 0 then
    if negb (flag flags NC_ALLOC) then throw EINVAL else next_allocate_new current flags
  else
  if (current <? FAT32_CLUSTER_MIN) || (u32 (fsi_cluster_count f + 1) <? current)
  then throw EINVAL else
  do* mraccess FsiLock in
  let* r := try (fat32_rmw_cluster current None) in
  do* mraccunlock FsiLock in
  let* next_cluster := rethrow r in
  if FAT32_CLUSTER_EOC_MIN <=? next_cluster then
    if negb (flag flags NC_ALLOC) then throw ENOSPC else next_allocate_new current flags
  else if next_cluster =? FAT32_CLUSTER_BAD then throw EIO
  else if next_cluster =? FAT32_CLUSTER_FREE then throw EIO
  else if (next_cluster <? FAT32_CLUSTER_MIN) || (u32 (fsi_cluster_count f + 1) <? next_cluster)
  then throw EIO
  else ret next_cluster.

(** One round of the loop that frees a chain; the state is
    [(current_cluster, freed_count)]. *)
Definition free_step (x : Z * Z) : M (st K) (Z * Z + Z) :=
  let '(current_cluster, freed_count) := x in
  if (FAT32_CLUSTER_MIN <=? current_cluster) && (current_cluster <? FAT32_CLUSTER_EOC_MIN) then
    let* next_cluster := fat32_rmw_cluster current_cluster (Some FAT32_CLUSTER_FREE) in
    ret (inl (next_cluster, u32 (freed_count + 1)))
  else ret (inr freed_count).

(** The FSInfo update that ends [fat32_free_clusters]. *)
Definition free_update_fsinfo (freed_count : Z) : M (st K) unit :=
  if 0 <? freed_count then
    let* f := gets fsi in
    let* bp := do_bread (fsi_fsinfo_sector f) 1 in
    if b_is_error bp then do_brelse bp else
    if negb (fsi_free_count f =? 0xFFFFFFFF) then
      let new_free_count := u32 (fsi_free_count f + freed_count) in
      let* d := of_opt (bsub (b_addr bp) 0 512) in
      let d := set_field FsInfo.fat32_fsinfo d FsInfo.free_count (WLE32 new_free_count) in
      do* do_bdwrite (set_b_addr d bp) in
      modify (fun s => set_fsi (set_fsi_free_count new_free_count (fsi s)) s)
    else do_brelse bp
  else ret tt.

(** The part of [fat32_free_clusters] that runs under [fsi_lock].  Each round of
    the loop turns a non-free entry into a free one or is the last but one, so
    [cluster_count + 3] rounds are enough ([free_clusters_terminates]). *)
Definition free_clusters_locked (start_cluster : Z) (free_start : bool) : M (st K) unit :=
  let* f := gets fsi in
  let* first := (if free_start then ret (Some start_cluster) else
                   let* next_cluster := fat32_rmw_cluster start_cluster (Some FAT32_CLUSTER_EOC) in
                   ret (if FAT32_CLUSTER_EOC_MIN <=? next_cluster then None else Some next_cluster)) in
  match first with
  | None => ret tt
  | Some current_cluster =>
      let* freed_count := iter (Z.to_nat (fsi_cluster_count f + 3)) free_step (current_cluster, 0) in
      free_update_fsinfo freed_count
  end.

Definition fat32_free_clusters (start_cluster : Z) (free_start : bool) : M (st K) unit :=
  let* f := gets fsi in
  if (start_cluster <? FAT32_CLUSTER_MIN) || (u32 (fsi_cluster_count f + 1) <? start_cluster)
  then throw EINVAL else
  do* mrupdate FsiLock in
  let* r := try (free_clusters_locked start_cluster free_start) in
  do* mrunlock FsiLock in
  rethrow r.

(** [for (i = 0; i < skip_clusters; i++)] *)
Fixpoint seek_loop (n : nat) (current_cluster flags : Z) : M (st K) Z :=
  match n with
  | O => ret current_cluster
  | S n' => let* next := fat32_next_cluster current_cluster flags in seek_loop n' next flags
  end.

Definition fat32_seek_cluster (start skip_clusters flags : Z) : M (st K) Z :=
  if skip_clusters =? 0 then ret start else seek_loop (Z.to_nat skip_clusters) start flags.

(** ** The cluster cache of a vnode *)

(** The first slot that is unused or holds [index]; slot 0 when there is none. *)
Definition cache_slot (cache : list (Z * Z)) (index : Z) : nat :=
  match list_find (fun e => e.2 = 0 \/ e.1 = index) cache with
  | Some (k, _) => k
  | None => 0
  end.

(** Shift the entries behind the slot down and put the new one at the end. *)
Definition cache_insert (cache : list (Z * Z)) (index cluster : Z) : list (Z * Z) :=
  delete (cache_slot cache index) cache ++ [(index, cluster)].

Definition fat32_vnode_update_cache (fv : nat) (index cluster : Z) : M (st K) unit :=
  do* mutex_lock (CacheLock fv) in
  do* upd_fv fv (fun v => set_fv_cls_cache (cache_insert (fv_cls_cache v) index cluster) v) in
  mutex_unlock (CacheLock fv).

(** The entry with the highest index that does not exceed the target. *)
Definition cache_best (cache : list (Z * Z)) (skip_clusters cluster0 : Z) : Z * Z :=
  foldl (fun best e =>
           if e.2 =? 0 then best
           else if (e.1 <=? skip_clusters) && (best.1 <? e.1) then e else best)
        (0, cluster0) cache.

Definition fat32_vnode_seek_cluster (fv : nat) (skip_clusters flags : Z) : M (st K) Z :=
  let* v := get_fv fv in
  do* mutex_lock (CacheLock fv) in
  let best := cache_best (fv_cls_cache v) skip_clusters (fv_cluster v) in
  do* mutex_unlock (CacheLock fv) in
  let remaining_skip := u32 (skip_clusters - best.1) in
  let* found_cluster := (if 0 <? remaining_skip
                         then fat32_seek_cluster best.2 remaining_skip flags
                         else ret best.2) in
  do* fat32_vnode_update_cache fv skip_clusters found_cluster in
  ret found_cluster.

End cls.
