(* ===== verification/Fat.v ===== *)
(** * The FAT as a map, and the entry update ([fat32_rmw_cluster])

    The geometry of a mounted volume, the value of an entry in each copy of the
    FAT as a function of the kernel state, and the specification of
    [fat32_rmw_cluster] in these terms, on which the rest of the cluster code is
    verified. *)
From S2P Require Import Prelude Layout Time Kernel Cls.

(** The geometry [fat32_read_boot] caches for a volume with 512-byte sectors:
    FSInfo before the FATs, every copy long enough for all clusters, the data
    area behind them, cluster numbers below the reserved values. *)
Record fs_wf (f : fat32fs_info) : Prop := {
  wf_sector_shift : fsi_sector_shift f = 9;
  wf_sector_mask : fsi_sector_mask f = 511;
  wf_num_fats : 1 <= fsi_num_fats f <= 255;
  wf_fsinfo : 0 <= fsi_fsinfo_sector f < fsi_fat_start f;
  wf_fat_size : 4 * (fsi_cluster_count f + 2) <= 512 * fsi_fat_size f;
  wf_data_start : fsi_fat_start f + fsi_num_fats f * fsi_fat_size f <= fsi_data_start f;
  wf_spc_shift : 0 <= fsi_spc_shift f <= 7;
  wf_spc : fsi_sectors_per_cluster f = 2 ^ fsi_spc_shift f;
  wf_end : fsi_data_start f + fsi_cluster_count f * fsi_sectors_per_cluster f < 2 ^ 32;
  wf_cluster_count : 0 <= fsi_cluster_count f <= 0x0FFFFFF5;
  wf_bytes_per_cluster : fsi_bytes_per_cluster f = 512 * fsi_sectors_per_cluster f;
  wf_cluster_shift : fsi_cluster_shift f = 9 + fsi_spc_shift f;
  wf_cluster_mask : fsi_cluster_mask f = fsi_bytes_per_cluster f - 1
}.

Definition in_range (f : fat32fs_info) (c : Z) : Prop := 2 <= c <= fsi_cluster_count f + 1.
#[global] Instance in_range_dec f c : Decision (in_range f c).
Proof. unfold in_range. apply _. Defined.

(** The block of entry [c] in copy [k], and the offset in it. *)
Definition fat_block (f : fat32fs_info) (k c : Z) : Z :=
  fsi_fat_start f + k * fsi_fat_size f + (c * 4) / 512.
Definition fat_off (c : Z) : Z := (c * 4) mod 512.

Section fat.
Context {K : Type} `{!Kernel K}.

(** The 32 bits of entry [c] in copy [k], and the value the driver reads. *)
Definition raw (s : st K) (k c : Z) : Z :=
  match view (kst s) (fat_block (fsi s) k c) 1 with
  | Some d => match bsub d (fat_off c) 4 with Some b => RLE32 b | None => 0 end
  | None => 0
  end.
Definition fat (s : st K) (c : Z) : Z := Z.land (raw s 0 c) FAT32_CLUSTER_MASK.

Definition fat_readable (s : st K) : Prop :=
  forall k c, 0 <= k < fsi_num_fats (fsi s) -> in_range (fsi s) c ->
    is_Some (view (kst s) (fat_block (fsi s) k c) 1).

(** The copies agree. *)
Definition mirrored (s : st K) : Prop :=
  forall k c, 0 <= k < fsi_num_fats (fsi s) -> in_range (fsi s) c -> raw s k c = raw s 0 c.

Definition outside_fat (f : fat32fs_info) (b n : Z) : Prop :=
  chunks_disjoint (fsi_fat_start f) (fsi_num_fats f * fsi_fat_size f) b n.

(** States that differ only in what the buffer cache holds. *)
#[export] Instance st_equiv : Equiv (st K) := fun s s' =>
  fsi s' = fsi s /\ fvs s' = fvs s /\ held s' = held s /\
  forall b n, view (kst s') b n = view (kst s) b n.

#[export] Instance st_equivalence : Equivalence (≡@{st K}).
Proof.
  split.
  - done.
  - intros s s' (? & ? & ? & ?). unfold equiv, st_equiv. auto.
  - intros s1 s2 s3 (? & ? & ? & H) (? & ? & ? & H'). unfold equiv, st_equiv.
    split_and!; [congruence..|]. intros. by rewrite H'.
Qed.

#[export] Instance fsi_proper : Proper ((≡) ==> eq) (@fsi K).
Proof. by intros s s' (Hf & _). Qed.
#[export] Instance fvs_proper : Proper ((≡) ==> eq) (@fvs K).
Proof. by intros s s' (_ & Hv & _). Qed.
#[export] Instance held_proper : Proper ((≡) ==> eq) (@held K).
Proof. by intros s s' (_ & _ & Hh & _). Qed.

#[export] Instance raw_proper : Proper ((≡) ==> eq ==> eq ==> eq) raw.
Proof.
  intros s s' (Hf & _ & _ & Hv) k ? <- c ? <-. unfold raw. by rewrite Hf, Hv.
Qed.

#[export] Instance fat_proper : Proper ((≡) ==> eq ==> eq) fat.
Proof. intros s s' Hs c ? <-. unfold fat. by rewrite Hs. Qed.

#[export] Instance fat_readable_proper : Proper ((≡) ==> iff) fat_readable.
Proof.
  intros s s' (Hf & _ & _ & Hv). unfold fat_readable. rewrite Hf.
  split; intros H k c Hk Hc; [rewrite Hv|rewrite <- Hv]; auto.
Qed.

#[export] Instance mirrored_proper : Proper ((≡) ==> iff) mirrored.
Proof.
  intros s s' Hs. pose proof Hs as (Hf & _). unfold mirrored. rewrite Hf.
  split; intros H k c Hk Hc; [rewrite <- !Hs|rewrite !Hs]; auto.
Qed.

(** Writes confined to the FAT. *)
Definition fat_frame (s s' : st K) : Prop :=
  fsi s' = fsi s /\ fvs s' = fvs s /\ held s' = held s /\
  (forall b n, outside_fat (fsi s) b n -> view (kst s') b n = view (kst s) b n) /\
  (forall b, is_Some (view (kst s) b 1) -> is_Some (view (kst s') b 1)).

(** [s'] is [s] with entry [c] of every copy set to [nv]. *)
Definition fat_upd (s : st K) (c nv : Z) (s' : st K) : Prop :=
  fat_frame s s' /\
  forall k c', 0 <= k < fsi_num_fats (fsi s) -> in_range (fsi s) c' ->
    raw s' k c' = if decide (c' = c) then u32 nv else raw s k c'.

End fat.

(** ** Kernel calls *)

Section calls.
Context {K : Type} `{!Kernel K, !KernelLaws K}.

Lemma set_kst_equiv (s : st K) k :
  (forall b n, view k b n = view (kst s) b n) -> s ≡ set_kst k s.
Proof. done. Qed.

Lemma wp_do_bread (s : st K) b n d :
  view (kst s) b n = Some d ->
  wp (do_bread b n) s (okp (fun bp s' =>
    b_blkno bp = b /\ b_bcount bp = n /\ b_is_error bp = false /\ b_addr bp = d /\ s ≡ s')).
Proof.
  intros H. pose proof (bread_blkno (kst s) b n) as H1. pose proof (bread_bcount (kst s) b n) as H2.
  pose proof (bread_ok (kst s) b n d H) as [H3 H4].
  pose proof (bread_view (kst s) b n) as H5.
  unfold wp, do_bread. destruct (bread b n (kst s)) as [k bp]. cbn in *.
  repeat split; auto.
Qed.

Lemma wp_bread_any (s : st K) b n :
  wp (do_bread b n) s (okp (fun bp s' =>
    (view (kst s) b n = None -> b_is_error bp = true) /\ s ≡ s')).
Proof.
  pose proof (bread_fail (kst s) b n) as H. pose proof (bread_view (kst s) b n) as H5.
  unfold wp, do_bread. destruct (bread b n (kst s)) as [k bp]. cbn in *. by split_and!.
Qed.

(** A buffer as [bread] returned it, or one that failed to read. *)
Definition clean (s : st K) (bp : buf) : Prop :=
  b_is_error bp = true \/ view (kst s) (b_blkno bp) (b_bcount bp) = Some (b_addr bp).

Lemma wp_do_brelse (s : st K) bp :
  clean s bp -> wp (do_brelse bp) s (okp (fun _ s' => s ≡ s')).
Proof. intros H. unfold wp. cbn. apply set_kst_equiv. intros. by apply brelse_view. Qed.

Lemma bread_clean (s s1 : st K) bp b n d :
  view (kst s) b n = Some d -> b_blkno bp = b -> b_bcount bp = n -> b_addr bp = d -> s ≡ s1 -> clean s1 bp.
Proof. intros Hd Eb En Ea (_ & _ & _ & Hw). right. by rewrite Eb, En, Ea, Hw. Qed.

Lemma clean_equiv s s' bp : s ≡ s' -> clean s bp -> clean s' bp.
Proof. intros (_ & _ & _ & Hw) [?|?]; [by left|right]. by rewrite Hw. Qed.

Lemma wp_check_buf_ok (s : st K) bp :
  b_is_error bp = false -> wp (check_buf bp) s (okp (fun _ s' => s' = s)).
Proof. intros H. unfold check_buf. rewrite H. done. Qed.

Lemma wp_do_bdwrite (s : st K) bp d :
  view (kst s) (b_blkno bp) (b_bcount bp) = Some d ->
  length (b_addr bp) = length d -> Forall is_byte (b_addr bp) -> 0 < b_bcount bp ->
  wp (do_bdwrite bp) s (okp (fun _ s' =>
    fsi s' = fsi s /\ fvs s' = fvs s /\ held s' = held s /\
    view (kst s') (b_blkno bp) (b_bcount bp) = Some (b_addr bp) /\
    forall b n, chunks_disjoint (b_blkno bp) (b_bcount bp) b n ->
      view (kst s') b n = view (kst s) b n)).
Proof.
  intros. unfold wp. cbn. repeat split.
  - by eapply bdwrite_same.
  - intros. by apply bdwrite_other.
Qed.

Lemma wp_do_bdwrite_any (s : st K) bp :
  0 < b_bcount bp ->
  wp (do_bdwrite bp) s (okp (fun _ s' =>
    fsi s' = fsi s /\ fvs s' = fvs s /\ held s' = held s /\
    (forall d, view (kst s) (b_blkno bp) (b_bcount bp) = Some d ->
       length (b_addr bp) = length d -> Forall is_byte (b_addr bp) ->
       view (kst s') (b_blkno bp) (b_bcount bp) = Some (b_addr bp)) /\
    forall b n, chunks_disjoint (b_blkno bp) (b_bcount bp) b n ->
      view (kst s') b n = view (kst s) b n)).
Proof.
  intros. unfold wp. cbn. repeat split.
  - intros. by eapply bdwrite_same.
  - intros. by apply bdwrite_other.
Qed.

Lemma wp_do_getblk (s : st K) b n :
  wp (do_getblk b n) s (okp (fun bp s' => b_blkno bp = b /\ b_bcount bp = n /\ s ≡ s')).
Proof.
  pose proof (getblk_blkno (kst s) b n). pose proof (getblk_bcount (kst s) b n).
  pose proof (getblk_view (kst s) b n). unfold wp, do_getblk.
  destruct (getblk b n (kst s)) as [k bp]. cbn in *. by repeat split.
Qed.

(** Leaving a critical section: the lock is no longer held, all else stays. *)
Definition release (l : lock) (s : st K) : st K := set_held (delete l (held s)) s.

(** The pattern [mr..(l); error = m; mr..unlock(l); return error]. *)
Lemma wp_locked {A} (l : lock) (mode : lkmode) (m : M (st K) A) (s : st K) Q :
  held s !! l = None ->
  wp m (set_held (<[l := mode]> (held s)) s) (fun r s' =>
    is_Some (held s' !! l) /\ Q r (release l s') /\
    match r with Ok _ | Err _ => True | _ => False end) ->
  wp (do* lock_acquire l mode in let* r := try m in do* lock_release l in rethrow r) s Q.
Proof.
  intros Hl H. unfold lock_acquire. repeat wp_step. rewrite Hl, mr_grant_free. repeat wp_step.
  eapply wp_mono; [exact H|]. intros r s' ([x Hx] & HQ & Hr). unfold lock_release.
  destruct r; try done; repeat wp_step; rewrite Hx; repeat wp_step; apply HQ.
Qed.

End calls.

(** ** Geometry *)

Section geometry.
Context (f : fat32fs_info) (Hwf : fs_wf f).

Lemma fat_block_range k c :
  0 <= k < fsi_num_fats f -> in_range f c ->
  fsi_fat_start f <= fat_block f k c < fsi_fat_start f + fsi_num_fats f * fsi_fat_size f /\
  fat_block f k c < 2 ^ 32.
Proof.
  destruct Hwf. unfold in_range, fat_block. intros Hk Hc.
  assert (0 <= (c * 4) / 512 < fsi_fat_size f) by (Z.div_mod_to_equations; lia).
  assert (0 <= k * fsi_fat_size f) by nia.
  assert (k * fsi_fat_size f + fsi_fat_size f <= fsi_num_fats f * fsi_fat_size f) by nia.
  assert (0 <= fsi_cluster_count f * fsi_sectors_per_cluster f).
  { rewrite wf_spc0. pose proof (Z.pow_pos_nonneg 2 (fsi_spc_shift f)). nia. }
  lia.
Qed.

Lemma fat_block_ne k c k' c' :
  0 <= k < fsi_num_fats f -> 0 <= k' < fsi_num_fats f -> in_range f c -> in_range f c' ->
  k <> k' -> fat_block f k c <> fat_block f k' c'.
Proof.
  destruct Hwf. unfold in_range, fat_block. intros Hk Hk' Hc Hc' Hne.
  assert (0 <= (c * 4) / 512 < fsi_fat_size f) by (Z.div_mod_to_equations; lia).
  assert (0 <= (c' * 4) / 512 < fsi_fat_size f) by (Z.div_mod_to_equations; lia).
  intros Heq. assert ((k - k') * fsi_fat_size f = (c' * 4) / 512 - (c * 4) / 512) by lia.
  assert (k - k' <= -1 \/ 1 <= k - k') as [?|?] by lia; nia.
Qed.

Lemma fat_off_range c : 0 <= fat_off c /\ fat_off c + 4 <= 512.
Proof. unfold fat_off. Z.div_mod_to_equations. lia. Qed.

Lemma fat_off_ne k c c' :
  c <> c' -> fat_block f k c = fat_block f k c' ->
  fat_off c' + 4 <= fat_off c \/ fat_off c + 4 <= fat_off c'.
Proof. unfold fat_block, fat_off. intros Hne H. Z.div_mod_to_equations. lia. Qed.

Lemma max_cluster_eq : u32 (fsi_cluster_count f + 1) = fsi_cluster_count f + 1.
Proof. destruct Hwf. apply u32_small. lia. Qed.

(** The location [fat32_rmw_cluster] computes. *)
Lemma rmw_location c :
  in_range f c ->
  u32 (fsi_fat_start f + Z.shiftr (u32 (c * 4)) (fsi_sector_shift f)) = fat_block f 0 c /\
  Z.land (u32 (c * 4)) (fsi_sector_mask f) = fat_off c.
Proof.
  intros Hc. pose proof (fat_block_range 0 c) as Hb. destruct Hwf.
  destruct Hb as [Hb1 Hb2]; [lia|done|]. unfold in_range in Hc.
  rewrite (u32_small (c * 4)) by lia. rewrite wf_sector_shift0, wf_sector_mask0.
  rewrite shiftr_div by lia. change (2 ^ 9) with 512. unfold fat_block in *.
  rewrite u32_small by lia. rewrite (land_ones_mod _ 9) by lia. split; [lia|done].
Qed.

Lemma range_check_true c :
  in_range f c ->
  (c <? FAT32_CLUSTER_MIN) || (u32 (fsi_cluster_count f + 1) <? c) = false.
Proof.
  unfold in_range, FAT32_CLUSTER_MIN. rewrite max_cluster_eq. intros.
  apply orb_false_iff. rewrite !Z.ltb_ge. lia.
Qed.

Lemma range_check_false c :
  ~ in_range f c ->
  (c <? FAT32_CLUSTER_MIN) || (u32 (fsi_cluster_count f + 1) <? c) = true.
Proof.
  unfold in_range, FAT32_CLUSTER_MIN. rewrite max_cluster_eq. intros.
  apply orb_true_iff. rewrite !Z.ltb_lt. lia.
Qed.

End geometry.

(** ** [fat32_rmw_cluster] *)

Section rmw.
Context {K : Type} `{!Kernel K, !KernelLaws K}.
Implicit Types s : st K.

Lemma fat_range s c : 0 <= fat s c < 2 ^ 28.
Proof.
  unfold fat, FAT32_CLUSTER_MASK. rewrite (land_ones_mod _ 28) by lia.
  by apply Z.mod_pos_bound.
Qed.

Lemma block_bytes s b d :
  view (kst s) b 1 = Some d -> length d = 512%nat /\ Forall is_byte d.
Proof.
  intros H. pose proof (view_length _ _ _ _ H). pose proof (view_bytes _ _ _ _ H). split; [lia|done].
Qed.

(** Reading the four bytes of an entry. *)
Lemma entry_sub s k c d :
  view (kst s) (fat_block (fsi s) k c) 1 = Some d ->
  exists b, bsub d (fat_off c) 4 = Some b /\ RLE32 b = raw s k c.
Proof.
  intros H. destruct (block_bytes _ _ _ H) as [Hl _]. pose proof (fat_off_range c).
  eexists. split; [apply bsub_Some; lia|]. unfold raw. by rewrite H, bsub_Some by lia.
Qed.

Lemma wp_rmw_read s c :
  fs_wf (fsi s) -> in_range (fsi s) c -> is_Some (view (kst s) (fat_block (fsi s) 0 c) 1) ->
  wp (fat32_rmw_cluster c None) s (okp (fun v s' => v = fat s c /\ s ≡ s')).
Proof.
  intros Hwf Hc [d Hd]. unfold fat32_rmw_cluster.
  repeat wp_step. rewrite range_check_true by done. cbn zeta.
  destruct (rmw_location _ Hwf c Hc) as [-> ->].
  eapply wp_call_ok; [by apply wp_do_bread|]. intros bp s1 (Eb & En & He & Hb & Hs1).
  eapply wp_call_ok; [by apply wp_check_buf_ok|]. intros [] ? ->.
  destruct (entry_sub s 0 c d Hd) as (b & Hsub & Hr).
  rewrite Hb, Hsub. cbn [of_opt]. repeat wp_step.
  eapply wp_call_ok; [apply wp_do_brelse; by eapply bread_clean|].
  intros [] s2 Hs2. apply wp_ret.
  split; [|by etrans]. unfold fat. by rewrite Hr.
Qed.

(** The form the callers use: the state may differ from [s] by buffer cache contents. *)
Lemma wp_rmw_get s s1 c :
  fs_wf (fsi s) -> fat_readable s -> in_range (fsi s) c -> s ≡ s1 ->
  wp (fat32_rmw_cluster c None) s1 (okp (fun v s' => v = fat s c /\ s ≡ s')).
Proof.
  intros Hwf Hread Hc Hs1. pose proof Hs1 as (Hf & _ & _ & Hv).
  eapply wp_mono; [apply wp_rmw_read; rewrite Hf; [done..|]|].
  - rewrite Hv. apply Hread; [destruct Hwf; lia|done].
  - intros [v| | | |] s'; try done. intros [-> Hs']. split; [by rewrite Hs1|by etrans].
Qed.

(** The entry after one copy has been written. *)
Lemma raw_after_write s s' k c nv d d' k' c' :
  fs_wf (fsi s) -> 0 <= k < fsi_num_fats (fsi s) -> in_range (fsi s) c ->
  view (kst s) (fat_block (fsi s) k c) 1 = Some d ->
  bput d (fat_off c) (WLE32 nv) = Some d' ->
  fsi s' = fsi s ->
  view (kst s') (fat_block (fsi s) k c) 1 = Some d' ->
  (forall b n, chunks_disjoint (fat_block (fsi s) k c) 1 b n -> view (kst s') b n = view (kst s) b n) ->
  0 <= k' < fsi_num_fats (fsi s) -> in_range (fsi s) c' ->
  raw s' k' c' = if decide (k' = k /\ c' = c) then u32 nv else raw s k' c'.
Proof.
  intros Hwf Hk Hc Hd Hput Hf Hd' Hoth Hk' Hc'. unfold raw at 1. rewrite Hf.
  destruct (decide (fat_block (fsi s) k' c' = fat_block (fsi s) k c)) as [Heq|Hne].
  - assert (k' = k) as -> by (destruct (decide (k' = k)); [done|]; by apply fat_block_ne in Heq).
    rewrite Heq, Hd'. case_decide as Hdec.
    + destruct Hdec as [_ ->]. apply bsub_bput_same in Hput. change (Z.of_nat _) with 4 in Hput.
      rewrite Hput. apply RLE32_WLE32.
    + unfold raw. rewrite Heq, Hd.
      rewrite (bsub_bput_other _ _ _ _ (fat_off c') 4 Hput); [done|].
      change (Z.of_nat _) with 4. apply (fat_off_ne (fsi s) k); [|done]. naive_solver.
  - rewrite Hoth by (unfold chunks_disjoint; lia). rewrite decide_False; [done|]. naive_solver.
Qed.

(** After the copies below [k] have been written. *)
Definition fat_upd_below (s : st K) (k c nv : Z) (s' : st K) : Prop :=
  fat_frame s s' /\
  forall k' c', 0 <= k' < fsi_num_fats (fsi s) -> in_range (fsi s) c' ->
    raw s' k' c' = if decide (c' = c /\ k' < k) then u32 nv else raw s k' c'.

Lemma fat_frame_refl s s' : s ≡ s' -> fat_frame s s'.
Proof. intros (? & ? & ? & Hv). repeat split; auto. intros b [d Hd]. rewrite Hv. eauto. Qed.

Lemma fat_frame_trans s1 s2 s3 : fat_frame s1 s2 -> fat_frame s2 s3 -> fat_frame s1 s3.
Proof.
  intros (Hf1 & ? & ? & Ho1 & Hr1) (Hf2 & ? & ? & Ho2 & Hr2). rewrite Hf1 in *.
  split_and!; try congruence; [|auto]. intros b n Hb. rewrite Ho2, Ho1; auto.
Qed.

Lemma fat_upd_below_step s0 s k c nv d d' s' :
  fs_wf (fsi s0) -> 0 <= k < fsi_num_fats (fsi s0) -> in_range (fsi s0) c ->
  fat_upd_below s0 k c nv s ->
  view (kst s) (fat_block (fsi s0) k c) 1 = Some d ->
  bput d (fat_off c) (WLE32 nv) = Some d' ->
  fsi s' = fsi s -> fvs s' = fvs s -> held s' = held s ->
  view (kst s') (fat_block (fsi s0) k c) 1 = Some d' ->
  (forall b n, chunks_disjoint (fat_block (fsi s0) k c) 1 b n -> view (kst s') b n = view (kst s) b n) ->
  fat_upd_below s0 (k + 1) c nv s'.
Proof.
  intros Hwf Hk Hc [Hfr Hraw] Hd Hput Hf Hv Hh Hd' Hoth.
  assert (fsi s = fsi s0) as Hf0 by apply Hfr. split.
  - eapply fat_frame_trans; [done|]. split_and!; [done..| |].
    + intros b n Hb. apply Hoth. rewrite Hf0 in Hb.
      destruct (fat_block_range _ Hwf k c Hk Hc). unfold outside_fat, chunks_disjoint in *. lia.
    + intros b Hb. destruct (decide (b = fat_block (fsi s0) k c)) as [->|]; [eauto|].
      rewrite Hoth; [done|]. unfold chunks_disjoint. lia.
  - intros k' c' Hk' Hc'. rewrite <- Hf0 in *.
    rewrite (raw_after_write s s' k c nv d d' k' c') by done. rewrite Hraw by done.
    repeat case_decide; try done; naive_solver lia.
Qed.

Lemma wp_rmw_write_fats s0 c nv n s k sec bp :
  fs_wf (fsi s0) -> in_range (fsi s0) c -> fat_readable s0 ->
  Z.of_nat n + k = fsi_num_fats (fsi s0) -> 0 <= k ->
  ((n <> 0)%nat -> sec = fat_block (fsi s0) k c) ->
  (k = 0 -> b_blkno bp = sec /\ b_bcount bp = 1 /\ b_is_error bp = false /\
            view (kst s) sec 1 = Some (b_addr bp)) ->
  fat_upd_below s0 k c nv s ->
  wp (rmw_write_fats n k sec (fat_off c) nv bp) s (okp (fun _ s' => fat_upd s0 c nv s')).
Proof.
  intros Hwf Hc Hread. revert s k sec bp.
  induction n as [|n IH]; intros s k sec bp Hn Hk Hsec Hbp Hu.
  - apply wp_ret. destruct Hu as [Hfr Hraw]. split; [done|]. intros k' c' Hk' Hc'.
    rewrite Hraw by done. repeat case_decide; try done; naive_solver lia.
  - specialize (Hsec ltac:(lia)). subst sec.
    assert (fsi s = fsi s0) as Hf0 by apply Hu.
    assert (is_Some (view (kst s) (fat_block (fsi s0) k c) 1)) as [d Hd]
      by (apply Hu, Hread; [lia|done]).
    cbn [rmw_write_fats]. repeat wp_step.
    eapply (wp_call_ok _ _ _ (fun bp' s1 => b_blkno bp' = fat_block (fsi s0) k c /\
      b_bcount bp' = 1 /\ b_is_error bp' = false /\ b_addr bp' = d /\ s ≡ s1)).
    { destruct (Z.eqb_spec k 0) as [H0|H0]; [|by apply wp_do_bread].
      destruct (Hbp H0) as (? & ? & ? & ?). apply wp_ret. cbn. split_and!; try done; congruence. }
    intros bp' s1 (Eb & En & Ee & Ea & Hs1).
    eapply wp_call_ok; [by apply wp_check_buf_ok|]. intros [] ? ->.
    destruct (block_bytes _ _ _ Hd) as [Hl Hby]. pose proof (fat_off_range c).
    destruct (bput_Some d (fat_off c) (WLE32 nv)) as [d' Hput]; [lia|simpl length; lia|].
    rewrite Ea, Hput. cbn [of_opt]. repeat wp_step.
    destruct Hs1 as (Ef1 & Ev1 & Eh1 & Evw1).
    eapply wp_call_ok; [apply (wp_do_bdwrite s1 (set_b_addr d' bp') d)|].
    { cbn. rewrite Eb, En, Evw1. done. }
    { cbn. by eapply bput_length. }
    { cbn. eauto with fat32. }
    { cbn. lia. }
    cbn. rewrite Eb, En. intros [] s2 (Ef & Ev & Eh & Hsame & Hoth).
    assert (fat_upd_below s0 (k + 1) c nv s2) as Hu2.
    { eapply (fat_upd_below_step s0 s k c nv d d'); eauto; try congruence; [lia|].
      intros b n' Hb. rewrite Hoth by done. apply Evw1. }
    rewrite u32_small by (destruct Hwf; lia).
    apply IH; [lia|lia| |lia|done].
    intros Hn0. rewrite Hf0.
    destruct (fat_block_range _ Hwf (k + 1) c) as [? ?]; [lia|done|].
    unfold fat_block in *. rewrite u32_small; destruct Hwf; lia.
Qed.

Lemma wp_rmw_write s c nv :
  fs_wf (fsi s) -> in_range (fsi s) c -> fat_readable s ->
  wp (fat32_rmw_cluster c (Some nv)) s (okp (fun v s' => v = fat s c /\ fat_upd s c nv s')).
Proof.
  intros Hwf Hc Hread. unfold fat32_rmw_cluster.
  repeat wp_step. rewrite range_check_true by done. cbn zeta.
  destruct (rmw_location _ Hwf c Hc) as [-> ->].
  assert (0 <= 0 < fsi_num_fats (fsi s)) as H0 by (destruct Hwf; lia).
  destruct (Hread 0 c H0 Hc) as [d Hd].
  eapply wp_call_ok; [by apply wp_do_bread|]. intros bp s1 (Eb & En & Ee & Ea & Hs1).
  eapply wp_call_ok; [by apply wp_check_buf_ok|]. intros [] ? ->.
  destruct (entry_sub s 0 c d Hd) as (b & Hsub & Hr).
  rewrite Ea, Hsub. cbn [of_opt]. repeat wp_step.
  eapply wp_call_ok; [apply (wp_rmw_write_fats s c nv _ s1 0 _ bp)|]; try done.
  - destruct Hwf; lia.
  - intros _. split_and!; [done..|]. rewrite Ea. destruct Hs1 as (_ & _ & _ & ->). done.
  - split; [by apply fat_frame_refl|]. intros k' c' Hk' Hc'. rewrite <- Hs1.
    rewrite decide_False; [done|]. lia.
  - intros [] s2 Hu. apply wp_ret. split; [|done]. unfold fat. by rewrite Hr.
Qed.

Lemma wp_rmw_invalid s c nv :
  fs_wf (fsi s) -> ~ in_range (fsi s) c ->
  wp (fat32_rmw_cluster c nv) s (fun r s' => r = Err EINVAL /\ s' = s).
Proof.
  intros Hwf Hc. unfold fat32_rmw_cluster. repeat wp_step. by rewrite range_check_false.
Qed.

(** What an update means for the values the driver reads. *)
Lemma fat_upd_fat s c nv s' c' :
  fs_wf (fsi s) -> fat_upd s c nv s' -> in_range (fsi s) c' ->
  fat s' c' = if decide (c' = c) then Z.land (u32 nv) FAT32_CLUSTER_MASK else fat s c'.
Proof.
  intros Hwf [_ Hr] Hc'. unfold fat. rewrite Hr; [by case_decide| |done]. destruct Hwf; lia.
Qed.

Lemma fat_upd_readable s c nv s' : fat_upd s c nv s' -> fat_readable s -> fat_readable s'.
Proof.
  intros [(Hf & _ & _ & _ & Hs) _] Hread k c'. rewrite Hf. auto.
Qed.

Lemma fat_upd_mirrored s c nv s' : fs_wf (fsi s) -> fat_upd s c nv s' -> mirrored s -> mirrored s'.
Proof.
  intros Hwf [(Hf & _) Hr] Hm k c' Hk Hc'. rewrite Hf in *.
  rewrite !Hr by (try done; destruct Hwf; lia). case_decide; [done|]. auto.
Qed.

(** [fat32_rmw_cluster] returns the 28-bit value of an entry in range; with
    a new value it also stores it at that entry of every FAT copy and at no
    other entry or block, so copies that agree keep agreeing; out of range it
    reports EINVAL and does nothing. *)
Theorem rmw_cluster_correct s c new_value :
  fs_wf (fsi s) -> fat_readable s ->
  wp (fat32_rmw_cluster c new_value) s (fun r s' =>
    if decide (in_range (fsi s) c) then
      r = Ok (fat s c) /\
      match new_value with
      | None => s ≡ s'
      | Some nv => fat_upd s c nv s' /\ (mirrored s -> mirrored s')
      end
    else r = Err EINVAL /\ s' = s).
Proof.
  intros Hwf Hread. case_decide as Hc; [|by apply wp_rmw_invalid].
  destruct new_value as [nv|].
  - eapply wp_mono; [by apply wp_rmw_write|]. intros [v| | | |] s'; try done. intros [-> Hu].
    split_and!; try done. by eapply fat_upd_mirrored.
  - eapply wp_mono; [by apply wp_rmw_get|]. by intros [v| | | |] s'; try done; intros [-> ?].
Qed.

End rmw.

(** ** States with the same FAT *)

(** The mount structure without its two counters. *)
Definition geom (f : fat32fs_info) : fat32fs_info := set_fsi_next_free 0 (set_fsi_free_count 0 f).

Lemma geom_wf f f' : geom f' = geom f -> fs_wf f -> fs_wf f'.
Proof.
  intros Hg Hwf. assert (fs_wf (geom f)) as H by (destruct Hwf; by constructor).
  rewrite <- Hg in H. destruct H. by constructor.
Qed.

Lemma geom_in_range f f' c : geom f' = geom f -> in_range f' c <-> in_range f c.
Proof. intros Hg. change (in_range (geom f') c <-> in_range (geom f) c). by rewrite Hg. Qed.

Section same.
Context {K : Type} `{!Kernel K, !KernelLaws K}.
Implicit Types s : st K.

Definition fat_same s s' : Prop :=
  geom (fsi s') = geom (fsi s) /\
  forall b, fsi_fat_start (fsi s) <= b < fsi_fat_start (fsi s) + fsi_num_fats (fsi s) * fsi_fat_size (fsi s) ->
    view (kst s') b 1 = view (kst s) b 1.

Lemma fat_same_block s s' k c :
  geom (fsi s') = geom (fsi s) -> fat_block (fsi s') k c = fat_block (fsi s) k c.
Proof. intros Hg. change (fat_block (geom (fsi s')) k c = fat_block (geom (fsi s)) k c). by rewrite Hg. Qed.

Lemma fat_same_raw s s' k c :
  fs_wf (fsi s) -> fat_same s s' -> 0 <= k < fsi_num_fats (fsi s) -> in_range (fsi s) c ->
  raw s' k c = raw s k c.
Proof.
  intros Hwf [Hg Hv] Hk Hc. unfold raw. rewrite (fat_same_block s s') by done.
  destruct (fat_block_range _ Hwf k c Hk Hc). by rewrite Hv by lia.
Qed.

Lemma fat_same_fat s s' c :
  fs_wf (fsi s) -> fat_same s s' -> in_range (fsi s) c -> fat s' c = fat s c.
Proof. intros. unfold fat. rewrite (fat_same_raw s s'); try done. destruct H; lia. Qed.

Lemma fat_same_num s s' : geom (fsi s') = geom (fsi s) -> fsi_num_fats (fsi s') = fsi_num_fats (fsi s).
Proof. intros Hg. change (fsi_num_fats (geom (fsi s')) = fsi_num_fats (geom (fsi s))). by rewrite Hg. Qed.

Lemma fat_same_readable s s' : fs_wf (fsi s) -> fat_same s s' -> fat_readable s -> fat_readable s'.
Proof.
  intros Hwf [Hg Hv] Hr k c. rewrite (fat_same_num s s'), (geom_in_range (fsi s)) by done. intros Hk Hc.
  rewrite (fat_same_block s s') by done. destruct (fat_block_range _ Hwf k c Hk Hc).
  rewrite Hv by lia. by apply Hr.
Qed.

Lemma fat_same_mirrored s s' : fs_wf (fsi s) -> fat_same s s' -> mirrored s -> mirrored s'.
Proof.
  intros Hwf Hs Hm k c. destruct Hs as [Hg Hv].
  rewrite (fat_same_num s s'), (geom_in_range (fsi s)) by done. intros Hk Hc.
  rewrite !(fat_same_raw s s') by (done || destruct Hwf; lia). by apply Hm.
Qed.

Lemma fat_same_refl s s' : s ≡ s' -> fat_same s s'.
Proof. intros (Hf & _ & _ & Hv). split; [by rewrite Hf|auto]. Qed.

Lemma fat_same_trans s1 s2 s3 : fat_same s1 s2 -> fat_same s2 s3 -> fat_same s1 s3.
Proof.
  intros [Hg Hv] [Hg' Hv']. split; [congruence|]. intros b Hb. rewrite Hv'; [auto|].
  change (fsi_fat_start (geom (fsi s2)) <= b < fsi_fat_start (geom (fsi s2)) +
    fsi_num_fats (geom (fsi s2)) * fsi_fat_size (geom (fsi s2))). by rewrite Hg.
Qed.

End same.

#[export] Hint Resolve fat_upd_readable fat_upd_mirrored : fat32.
