(* ===== verification/Demo.v ===== *)
(** * A small volume

    A concrete volume on the concrete device: two FAT copies of one block, 20
    clusters of one block, a root directory in cluster 2, a file in the clusters
    3, 5, 6 and one in cluster 4.  The witnesses of the theorems run on it. *)
From S2P Require Import Prelude Layout Time Kernel Device Cls Fat.

Definition zeros (n : nat) : list Z := replicate n 0.

Definition demo_fat : list Z :=
  concat (map WLE32 [0x0FFFFFF8; 0x0FFFFFFF; 0x0FFFFFFF; 5; 0x0FFFFFFF; 6; 0x0FFFFFFF]) ++ zeros 484.

Definition demo_fsinfo : list Z :=
  WLE32 FAT32_FSINFO_LEAD_SIG ++ zeros 480 ++ WLE32 FAT32_FSINFO_STRUCT_SIG ++
  WLE32 15 ++ WLE32 7 ++ zeros 12 ++ WLE32 FAT32_FSINFO_TRAIL_SIG.

Definition demo_disk : gmap Z (list Z) :=
  <[1 := demo_fsinfo]> (<[2 := demo_fat]> (<[3 := demo_fat]>
    (list_to_map (map (fun i => (i, zeros 512)) (seqZ 4 20))))).

Definition demo_fsi : fat32fs_info :=
  mkFsi 0 0 None None 0 0 0 0 1 2 512 1 512 2 9 511 9 511 0 2 1 2 24 4 20 15 7.

Definition demo_device : device := mkDevice ∅ demo_disk (mkTimespec 1700000000 0).

(** A vnode for the file in the clusters 3, 5, 6. *)
Definition demo_fv : fat32fs_vnode :=
  mkFv [70; 84; 51; 50] 300 (Some 1%nat) 3 VREG 0 0 0 1300 (mkTimespec 0 0) (mkTimespec 0 0) (mkTimespec 0 0) 0 0 32 2 None
    (replicate 16 (0, 0)) 0.

Definition demo : st device := mkSt demo_device demo_fsi {[ 1%nat := demo_fv ]} ∅.

Lemma demo_wf : fs_wf (fsi demo).
Proof. constructor; cbn; lia. Qed.

Lemma demo_view b : b = 1 \/ b = 2 \/ b = 3 -> is_Some (view (kst demo) b 1).
Proof. intros [->|[->| ->]]; (eexists; vm_compute; reflexivity). Qed.

Lemma demo_readable : fat_readable demo.
Proof.
  intros k c Hk Hc. apply demo_view. unfold fat_block. unfold in_range in Hc. cbn in *.
  assert (c * 4 / 512 = 0) as E by (apply Z.div_small; lia). rewrite E. lia.
Qed.

Lemma rmw_cluster_correct_witness :
  wp (fat32_rmw_cluster 5 (Some 9)) demo (fun r s' =>
    if decide (in_range (fsi demo) 5) then
      r = Ok (fat demo 5) /\ fat_upd demo 5 9 s' /\ (mirrored demo -> mirrored s')
    else r = Err EINVAL /\ s' = demo).
Proof. apply (rmw_cluster_correct demo 5 (Some 9)); [apply demo_wf|apply demo_readable]. Defined.
