(* ===== verification/Alloc.v ===== *)
(** * Allocation ([fat32_clear_cluster], [fat32_allocate_cluster])

    The specification of the allocator in terms of the FAT as a map: the first
    free cluster in cyclic order from the hint becomes the end of the parent's
    chain, no other entry changes, and the counters are updated. *)
From S2P Require Import Prelude Layout Time Kernel Device Cls Fat Demo.

Lemma cluster_to_sector_eq f c :
  fs_wf f -> in_range f c ->
  fat32_cluster_to_sector f c = fsi_data_start f + (c - 2) * fsi_sectors_per_cluster f.
Proof.
  intros Hwf Hc. destruct Hwf. unfold in_range in Hc.
  unfold fat32_cluster_to_sector, FAT32_CLUSTER_MIN.
  assert (0 < 2 ^ fsi_spc_shift f) by (apply Z.pow_pos_nonneg; lia).
  assert (0 <= fsi_fat_start f + fsi_num_fats f * fsi_fat_size f) by nia.
  assert (0 <= (c - 2) * fsi_sectors_per_cluster f <= fsi_cluster_count f * fsi_sectors_per_cluster f)
    by (rewrite wf_spc; nia).
  rewrite (u32_small (c - 2)), Z.shiftl_mul_pow2, <- wf_spc by lia.
  rewrite (u32_small (_ * _)) by lia. rewrite u32_small; lia.
Qed.

(** Clusters lie in the data area, apart from each other. *)
Lemma cluster_chunk f c :
  fs_wf f -> in_range f c ->
  fsi_fat_start f + fsi_num_fats f * fsi_fat_size f <= fat32_cluster_to_sector f c /\
  fat32_cluster_to_sector f c + fsi_sectors_per_cluster f < 2 ^ 32 /\
  0 < fsi_sectors_per_cluster f.
Proof.
  intros Hwf Hc. rewrite cluster_to_sector_eq by done. destruct Hwf. unfold in_range in Hc.
  assert (0 < 2 ^ fsi_spc_shift f) by (apply Z.pow_pos_nonneg; lia).
  rewrite wf_spc in *. nia.
Qed.

Section clear.
Context {K : Type} `{!Kernel K, !KernelLaws K}.
Implicit Types s : st K.

Definition zero_block : list Z := replicate 512 0.

(** The readable ones of [n] blocks from [b] hold zeros, every disjoint chunk is
    as before. *)
Definition cleared (s : st K) (b n : Z) (s' : st K) : Prop :=
  fsi s' = fsi s /\ fvs s' = fvs s /\ held s' = held s /\
  (forall i, 0 <= i < n -> is_Some (view (kst s) (b + i) 1) ->
     view (kst s') (b + i) 1 = Some zero_block) /\
  (forall b' n', chunks_disjoint b n b' n' -> view (kst s') b' n' = view (kst s) b' n').

Lemma zero_block_bytes : Forall is_byte zero_block.
Proof. unfold zero_block. apply Forall_replicate. unfold is_byte. lia. Qed.

Lemma wp_clear_loop s b i n :
  0 <= b -> 0 <= i -> b + i + Z.of_nat n < 2 ^ 32 ->
  wp (clear_loop n b i) s (okp (fun _ s' => cleared s (b + i) (Z.of_nat n) s')).
Proof.
  revert s i. induction n as [|n IH]; intros s i Hb Hi Hsum.
  - apply wp_ret. cbn. unfold cleared. split_and!; auto. lia.
  - cbn [clear_loop]. rewrite u32_small by lia.
    eapply wp_call_ok; [apply wp_do_getblk|]. intros bp s1 (Eb & En & Ef & Ev & Eh & Ew).
    eapply wp_call_ok; [apply (wp_do_bdwrite_any s1 (clrbuf bp))|];
      rewrite ?clrbuf_blkno, ?clrbuf_bcount, ?clrbuf_addr, ?Eb, ?En; [lia|].
    intros [] s2 (Ef2 & Ev2 & Eh2 & Hsame & Hoth).
    eapply wp_mono; [apply IH; lia|].
    intros [[]| | | |] s3; try done. cbn. intros (Ef3 & Ev3 & Eh3 & Hz & Ho).
    split_and!; try congruence.
    + intros j Hj [d Hd]. destruct (decide (j = 0)) as [->|].
      * rewrite Z.add_0_r in *. rewrite Ho by (unfold chunks_disjoint; lia).
        pose proof (view_length _ _ _ _ Hd).
        apply (Hsame d); [by rewrite Ew|rewrite length_replicate; lia|apply zero_block_bytes].
      * replace (b + i + j) with (b + (i + 1) + (j - 1)) in * by lia. apply Hz; [lia|].
        rewrite Hoth by (unfold chunks_disjoint; lia). rewrite Ew. eauto.
    + intros b' n' Hd'. rewrite Ho, Hoth, Ew; [done|unfold chunks_disjoint in *; lia..].
Qed.

Lemma wp_clear_cluster s c :
  fs_wf (fsi s) -> in_range (fsi s) c ->
  wp (fat32_clear_cluster c) s (okp (fun _ s' =>
    cleared s (fat32_cluster_to_sector (fsi s) c) (fsi_sectors_per_cluster (fsi s)) s')).
Proof.
  intros Hwf Hc. unfold fat32_clear_cluster. repeat wp_step. cbn zeta.
  pose proof (cluster_chunk _ _ Hwf Hc).
  assert (0 <= fsi_fat_start (fsi s) + fsi_num_fats (fsi s) * fsi_fat_size (fsi s)).
  { destruct Hwf. nia. }
  eapply wp_mono; [apply wp_clear_loop; lia|].
  intros [[]| | | |] s'; try done. cbn. rewrite Z.add_0_r, Z2Nat.id by lia. done.
Qed.

End clear.

(** ** The search *)

(** The cluster the search visits in round [i], and where it starts. *)
Definition alloc_pos (f : fat32fs_info) (start i : Z) : Z :=
  if start + i <=? fsi_cluster_count f + 1 then start + i else start + i - fsi_cluster_count f.
Definition alloc_hint (f : fat32fs_info) : Z :=
  if decide (in_range f (fsi_next_free f)) then fsi_next_free f else 2.

Lemma alloc_pos_range f start i :
  in_range f start -> 0 <= i < fsi_cluster_count f -> in_range f (alloc_pos f start i).
Proof. unfold in_range, alloc_pos. intros. destruct (Z.leb_spec (start + i) (fsi_cluster_count f + 1)); lia. Qed.

(** Every cluster is visited. *)
Lemma alloc_pos_surj f start c :
  in_range f start -> in_range f c ->
  exists i, 0 <= i < fsi_cluster_count f /\ alloc_pos f start i = c.
Proof.
  unfold in_range, alloc_pos. intros Hs Hc. destruct (decide (start <= c)).
  - exists (c - start). split; [lia|]. destruct (Z.leb_spec (start + (c - start)) (fsi_cluster_count f + 1)); lia.
  - exists (c - start + fsi_cluster_count f). split; [lia|].
    destruct (Z.leb_spec (start + (c - start + fsi_cluster_count f)) (fsi_cluster_count f + 1)); lia.
Qed.

Lemma alloc_pos_next f start i :
  fs_wf f -> in_range f start -> 0 <= i < fsi_cluster_count f ->
  (if fsi_cluster_count f + 1 <? u32 (alloc_pos f start i + 1) then FAT32_CLUSTER_MIN
   else u32 (alloc_pos f start i + 1)) = alloc_pos f start (i + 1) /\
  (alloc_pos f start (i + 1) = start <-> i + 1 = fsi_cluster_count f).
Proof.
  intros Hwf Hs Hi. pose proof (alloc_pos_range f start i Hs Hi) as Hp.
  destruct Hwf. unfold in_range in *. rewrite u32_small by lia.
  unfold alloc_pos, FAT32_CLUSTER_MIN in *.
  destruct (Z.leb_spec (start + i) (fsi_cluster_count f + 1));
  destruct (Z.leb_spec (start + (i + 1)) (fsi_cluster_count f + 1));
  case_match eqn:E; rewrite ?Z.ltb_lt, ?Z.ltb_ge in E; lia.
Qed.

Lemma alloc_hint_eq f :
  fs_wf f ->
  (if (fsi_next_free f <? FAT32_CLUSTER_MIN) || (fsi_cluster_count f + 1 <? fsi_next_free f)
   then FAT32_CLUSTER_MIN else fsi_next_free f) = alloc_hint f.
Proof.
  intros Hwf. rewrite <- max_cluster_eq by done. unfold alloc_hint. case_decide.
  - by rewrite range_check_true.
  - by rewrite range_check_false.
Qed.

Lemma alloc_hint_range f : 0 < fsi_cluster_count f -> in_range f (alloc_hint f).
Proof. intros. unfold alloc_hint. case_decide; [done|]. unfold in_range. lia. Qed.

Section alloc.
Context {K : Type} `{!Kernel K, !KernelLaws K}.
Implicit Types s : st K.

(** [c] is the first free cluster in cyclic order from [start]. *)
Definition first_free (s : st K) (start c : Z) : Prop :=
  exists i, 0 <= i < fsi_cluster_count (fsi s) /\ c = alloc_pos (fsi s) start i /\
    fat s c = FAT32_CLUSTER_FREE /\
    forall j, 0 <= j < i -> fat s (alloc_pos (fsi s) start j) <> FAT32_CLUSTER_FREE.

Definition no_free (s : st K) : Prop :=
  forall c, in_range (fsi s) c -> fat s c <> FAT32_CLUSTER_FREE.

(** The result of the search. *)
Definition search_post (s : st K) (start : Z) (r : res (Z * Z)) (s' : st K) : Prop :=
  s ≡ s' /\
  match r with
  | Ok (c, n) => first_free s start c /\ n < fsi_cluster_count (fsi s)
  | Err e => e = ENOSPC /\ no_free s
  | _ => False
  end.

Lemma wp_alloc_search_step s start i s1 :
  fs_wf (fsi s) -> fat_readable s -> in_range (fsi s) start -> 0 <= i < fsi_cluster_count (fsi s) ->
  s ≡ s1 ->
  (forall j, 0 <= j < i -> fat s (alloc_pos (fsi s) start j) <> FAT32_CLUSTER_FREE) ->
  wp (alloc_search_step (fsi s) start (fsi_cluster_count (fsi s) + 1) (alloc_pos (fsi s) start i, i)) s1
    (fun r s' => match r with
     | Ok (inl x) => x = (alloc_pos (fsi s) start (i + 1), i + 1) /\ i + 1 < fsi_cluster_count (fsi s) /\
         s ≡ s' /\ (forall j, 0 <= j < i + 1 -> fat s (alloc_pos (fsi s) start j) <> FAT32_CLUSTER_FREE)
     | Ok (inr x) => search_post s start (Ok x) s'
     | Err e => search_post s start (Err e) s'
     | _ => False
     end).
Proof.
  intros Hwf Hread Hs Hi Hs1 Hold. unfold alloc_search_step.
  rewrite (proj2 (Z.ltb_lt _ _)) by lia. cbn [negb].
  pose proof (alloc_pos_range _ _ _ Hs Hi) as Hr.
  eapply wp_call_ok; [by apply wp_rmw_get|]. intros v s2 [-> Hs2].
  destruct (Z.eqb_spec (fat s (alloc_pos (fsi s) start i)) FAT32_CLUSTER_FREE) as [Hfree|Hused].
  { repeat wp_step. split; [done|]. split; [|lia]. by exists i. }
  cbn zeta. destruct (alloc_pos_next _ _ i Hwf Hs Hi) as [-> Hback].
  assert (forall j, 0 <= j < i + 1 -> fat s (alloc_pos (fsi s) start j) <> FAT32_CLUSTER_FREE) as Hall.
  { intros j Hj. destruct (decide (j = i)) as [->|]; [done|]. apply Hold. lia. }
  rewrite (u32_small (i + 1)) by (destruct Hwf; lia). rewrite (proj2 (Z.ltb_lt 0 (i + 1))) by lia.
  rewrite andb_true_r. destruct (Z.eqb_spec (alloc_pos (fsi s) start (i + 1)) start) as [He|He].
  - repeat wp_step. split; [done|]. split; [done|]. intros c Hc.
    destruct (alloc_pos_surj _ _ _ Hs Hc) as (j & Hj & <-). apply Hall. apply Hback in He. lia.
  - repeat wp_step. split_and!; try done. assert (i + 1 <> fsi_cluster_count (fsi s)) by tauto. lia.
Qed.

Lemma wp_alloc_search s start :
  fs_wf (fsi s) -> fat_readable s -> in_range (fsi s) start ->
  wp (iter (S (Z.to_nat (fsi_cluster_count (fsi s))))
        (alloc_search_step (fsi s) start (fsi_cluster_count (fsi s) + 1)) (start, 0)) s
     (search_post s start).
Proof.
  intros Hwf Hread Hs.
  apply (wp_iter _ (fun x s1 => s ≡ s1 /\ x = (alloc_pos (fsi s) start x.2, x.2) /\
      0 <= x.2 < fsi_cluster_count (fsi s) /\
      forall j, 0 <= j < x.2 -> fat s (alloc_pos (fsi s) start j) <> FAT32_CLUSTER_FREE)
    (fun x _ => Z.to_nat (fsi_cluster_count (fsi s) - x.2))).
  - intros [c i] s1 (Hs1 & [= ->] & Hi & Hold). cbn [snd] in *.
    eapply wp_mono; [by apply wp_alloc_search_step|].
    intros [[x|x]| | | |] s'; try done. intros (-> & Hi' & Hs' & Hold'). cbn [snd].
    split_and!; try done; lia.
  - unfold in_range in Hs. cbn [snd]. split_and!; try done; [|lia..].
    f_equal. unfold alloc_pos. by rewrite Z.add_0_r, (proj2 (Z.leb_le _ _)) by lia.
  - cbn [snd]. lia.
Qed.

(** ** FSInfo *)

Lemma bsub_all d : length d = 512%nat -> bsub d 0 512 = Some d.
Proof. intros H. rewrite bsub_Some by lia. change (Z.to_nat 0) with 0%nat. by rewrite drop_0, take_ge by lia. Qed.

(** [s'] is [s] with the FSInfo sector rewritten by [upd] and the mount
    structure by [g]. *)
Definition fsinfo_upd (s : st K) (upd : list Z -> list Z) (g : fat32fs_info -> fat32fs_info)
    (s' : st K) : Prop :=
  fsi s' = g (fsi s) /\ fvs s' = fvs s /\ held s' = held s /\
  (exists d, view (kst s) (fsi_fsinfo_sector (fsi s)) 1 = Some d /\
             view (kst s') (fsi_fsinfo_sector (fsi s)) 1 = Some (upd d)) /\
  (forall b n, chunks_disjoint (fsi_fsinfo_sector (fsi s)) 1 b n ->
     view (kst s') b n = view (kst s) b n).

(** The bytes the allocator writes. *)
Definition fsinfo_alloc (free next : Z) (d : list Z) : list Z :=
  set_field FsInfo.fat32_fsinfo
    (set_field FsInfo.fat32_fsinfo d FsInfo.free_count (WLE32 free)) FsInfo.next_free (WLE32 next).

Lemma fsinfo_alloc_fields free next d :
  length d = 512%nat -> Forall is_byte d ->
  length (fsinfo_alloc free next d) = 512%nat /\ Forall is_byte (fsinfo_alloc free next d).
Proof.
  intros Hl Hb. unfold fsinfo_alloc. split; [|eauto with fat32].
  rewrite set_field_length; [done| |done]. by rewrite set_field_length.
Qed.

Lemma wp_alloc_update_fsinfo s free c :
  fs_wf (fsi s) -> in_range (fsi s) c ->
  is_Some (view (kst s) (fsi_fsinfo_sector (fsi s)) 1) ->
  wp (alloc_update_fsinfo free c (fsi_cluster_count (fsi s) + 1)) s (okp (fun _ s' =>
    fsinfo_upd s (fsinfo_alloc (u32 (free - 1)) (alloc_pos (fsi s) c 1))
      (fun f => set_fsi_next_free (alloc_pos (fsi s) c 1) (set_fsi_free_count (u32 (free - 1)) f)) s')).
Proof.
  intros Hwf Hc [d Hd]. unfold alloc_update_fsinfo. repeat wp_step.
  eapply wp_call_ok; [by apply wp_do_bread|]. intros bp s1 (Eb & En & Ee & Ea & Hs1).
  eapply wp_call_ok; [by apply wp_check_buf_ok|]. intros [] ? ->. cbn zeta.
  destruct (block_bytes _ _ _ Hd) as [Hl Hby]. rewrite Ea, bsub_all by done. cbn [of_opt].
  repeat wp_step.
  destruct (alloc_pos_next _ c 0 Hwf Hc) as [Hpos _]; [unfold in_range in Hc; lia|].
  replace (alloc_pos (fsi s) c 0) with c in Hpos.
  2:{ unfold alloc_pos, in_range in *. by rewrite Z.add_0_r, (proj2 (Z.leb_le _ _)) by lia. }
  rewrite Hpos. fold (fsinfo_alloc (u32 (free - 1)) (alloc_pos (fsi s) c (0 + 1)) d).
  change (0 + 1) with 1.
  destruct (fsinfo_alloc_fields (u32 (free - 1)) (alloc_pos (fsi s) c 1) d) as [Hl' Hby']; [done..|].
  destruct Hs1 as (Ef1 & Ev1 & Eh1 & Ew1).
  eapply wp_call_ok; [apply (wp_do_bdwrite s1 (set_b_addr _ bp) d)|];
    cbn [b_blkno b_bcount b_addr set_b_addr]; rewrite ?Eb, ?En, ?Ew1; try (done || congruence || lia).
  intros [] s2 (Ef2 & Ev2 & Eh2 & Hsame & Hoth). repeat wp_step.
  split_and!; cbn [fsi fvs held kst set_fsi]; try congruence; [eauto|]. intros b n Hb. rewrite Hoth by done. apply Ew1.
Qed.

Lemma fsinfo_upd_same s upd g s' :
  fs_wf (fsi s) -> (forall f, geom (g f) = geom f) -> fsinfo_upd s upd g s' -> fat_same s s'.
Proof.
  intros Hwf Hg (Hf & _ & _ & _ & Hv). split; [by rewrite Hf|]. intros b Hb. apply Hv.
  destruct Hwf. unfold chunks_disjoint. lia.
Qed.

Lemma cleared_same s c s' :
  fs_wf (fsi s) -> in_range (fsi s) c ->
  cleared s (fat32_cluster_to_sector (fsi s) c) (fsi_sectors_per_cluster (fsi s)) s' -> fat_same s s'.
Proof.
  intros Hwf Hc (Hf & _ & _ & _ & Hv). split; [by rewrite Hf|]. intros b Hb. apply Hv.
  pose proof (cluster_chunk _ _ Hwf Hc). unfold chunks_disjoint. lia.
Qed.

(** ** The allocator *)

(** Entry [c] ends a chain, entry [parent] (if there is one) points to [c]. *)
Definition linked (s : st K) (parent c : Z) (s' : st K) : Prop :=
  fat_frame s s' /\ (mirrored s -> mirrored s') /\
  forall c', in_range (fsi s) c' ->
    fat s' c' = if decide (c' = parent) then c
                else if decide (c' = c) then FAT32_CLUSTER_EOC else fat s c'.

Lemma small_mask f c : fs_wf f -> in_range f c -> Z.land (u32 c) FAT32_CLUSTER_MASK = c.
Proof.
  intros Hwf Hc. destruct Hwf. unfold in_range in Hc. rewrite u32_small by lia.
  unfold FAT32_CLUSTER_MASK. rewrite (land_ones_mod _ 28) by lia. apply Z.mod_small. lia.
Qed.

Lemma not_in_range_0 f : ~ in_range f 0.
Proof. unfold in_range. lia. Qed.

Lemma fat_upd_linked s c s1 :
  fs_wf (fsi s) -> fat_upd s c FAT32_CLUSTER_EOC s1 -> linked s 0 c s1.
Proof.
  intros Hwf Hu. split; [apply Hu|]. split; [by eapply fat_upd_mirrored|].
  intros c' Hc'. rewrite (fat_upd_fat _ _ _ _ _ Hwf Hu Hc').
  rewrite (decide_False (P := c' = 0)); [done|]. intros ->. by apply (not_in_range_0 (fsi s)).
Qed.

Lemma linked_parent s c s1 parent s2 :
  fs_wf (fsi s) -> in_range (fsi s) c -> linked s 0 c s1 -> fat_upd s1 parent c s2 ->
  linked s parent c s2.
Proof.
  intros Hwf Hc (Hfr & Hm & Hfat) Hu. assert (fsi s1 = fsi s) as Hf by apply Hfr.
  split; [eapply fat_frame_trans; [done|apply Hu]|].
  split. { intros. eapply fat_upd_mirrored; [|done|auto]. by rewrite Hf. }
  intros c' Hc'. rewrite (fat_upd_fat s1 parent c) by (done || by rewrite Hf).
  rewrite (small_mask (fsi s)) by done. case_decide; [done|]. rewrite Hfat by done.
  rewrite decide_False; [done|]. intros ->. by apply (not_in_range_0 (fsi s)).
Qed.

Lemma linked_equiv s s1 parent c s2 : s ≡ s1 -> linked s1 parent c s2 -> linked s parent c s2.
Proof.
  intros Hs (Hfr & Hm & Hfat). assert (fsi s1 = fsi s) as Hf by apply Hs.
  split; [eapply fat_frame_trans; [by apply fat_frame_refl|done]|].
  split; [by rewrite Hs|]. intros c' Hc'. rewrite Hfat by (by rewrite Hf).
  repeat case_decide; try done. by rewrite Hs.
Qed.

(** What a successful allocation does.  [NC_CLEAR] also writes the new cluster,
    one block at a time. *)
Definition alloc_post (s : st K) (parent flags c : Z) (s' : st K) : Prop :=
  first_free s (alloc_hint (fsi s)) c /\
  fsi s' = set_fsi_next_free (alloc_pos (fsi s) c 1)
             (set_fsi_free_count (u32 (fsi_free_count (fsi s) - 1)) (fsi s)) /\
  fvs s' = fvs s /\ held s' = held s /\
  (forall c', in_range (fsi s) c' ->
    fat s' c' = if decide (c' = parent) then c
                else if decide (c' = c) then FAT32_CLUSTER_EOC else fat s c') /\
  fat_readable s' /\ (mirrored s -> mirrored s') /\
  (forall b n, outside_fat (fsi s) b n -> chunks_disjoint (fsi_fsinfo_sector (fsi s)) 1 b n ->
    (flag flags NC_CLEAR = true ->
     chunks_disjoint (fat32_cluster_to_sector (fsi s) c) (fsi_sectors_per_cluster (fsi s)) b n) ->
    view (kst s') b n = view (kst s) b n) /\
  (flag flags NC_CLEAR = true -> forall i, 0 <= i < fsi_sectors_per_cluster (fsi s) ->
    is_Some (view (kst s) (fat32_cluster_to_sector (fsi s) c + i) 1) ->
    view (kst s') (fat32_cluster_to_sector (fsi s) c + i) 1 = Some zero_block) /\
  (exists d, view (kst s) (fsi_fsinfo_sector (fsi s)) 1 = Some d /\
     view (kst s') (fsi_fsinfo_sector (fsi s)) 1 =
       Some (fsinfo_alloc (u32 (fsi_free_count (fsi s) - 1)) (alloc_pos (fsi s) c 1) d)).

Lemma first_free_range s start c :
  in_range (fsi s) start -> first_free s start c -> in_range (fsi s) c.
Proof. intros Hs (i & Hi & -> & _). by apply alloc_pos_range. Qed.

(** The code after the search, up to the FSInfo update. *)
Lemma wp_alloc_link s c parent {A} (k : unit -> M (st K) A) Q :
  fs_wf (fsi s) -> fat_readable s -> in_range (fsi s) c -> parent = 0 \/ in_range (fsi s) parent ->
  (forall s', linked s parent c s' -> fat_readable s' -> wp (k tt) s' Q) ->
  wp (do* fat32_rmw_cluster c (Some FAT32_CLUSTER_EOC) in
      let* u := (if negb (parent =? 0) then
         let* r := try (fat32_rmw_cluster parent (Some c)) in
         match r with
         | inl error =>
             do* try (fat32_rmw_cluster c (Some FAT32_CLUSTER_FREE)) in throw error
         | inr _ => ret tt
         end
       else ret tt) in k u) s Q.
Proof.
  intros Hwf Hread Hc Hpar HQ.
  eapply wp_call_ok; [by apply wp_rmw_write|]. intros v s1 [_ Hu].
  pose proof (fat_upd_linked _ _ _ Hwf Hu) as Hl. assert (fsi s1 = fsi s) as Hf by apply Hl.
  assert (fat_readable s1) as Hr1 by eauto with fat32.
  destruct (Z.eqb_spec parent 0) as [->|Hne]; cbn [negb]; repeat wp_step; [by apply HQ|].
  destruct Hpar as [|Hpar]; [done|].
  eapply wp_mono; [apply wp_rmw_write; rewrite ?Hf; done|].
  intros [v'| | | |] s2; try done. cbn [okp wpk]. intros [_ Hu2]. repeat wp_step.
  apply HQ; [|eauto with fat32]. by eapply linked_parent.
Qed.

Lemma linked_geom s parent c s1 n m s2 :
  fs_wf (fsi s) -> in_range (fsi s) c -> linked s parent c s1 -> fat_readable s1 ->
  fsinfo_upd s1 (fsinfo_alloc m n) (fun f => set_fsi_next_free n (set_fsi_free_count m f)) s2 ->
  first_free s (alloc_hint (fsi s)) c ->
  n = alloc_pos (fsi s) c 1 -> m = u32 (fsi_free_count (fsi s) - 1) ->
  alloc_post s parent 0 c s2.
Proof.
  intros Hwf Hc ((Hf & Hv & Hh & Hw & _) & Hm & Hfat) Hr Hu Hff -> ->.
  assert (fs_wf (fsi s1)) as Hwf1 by (by rewrite Hf).
  assert (fat_same s1 s2) as Hsame by (by eapply fsinfo_upd_same; [| |exact Hu]).
  destruct Hu as (Hf2 & Hv2 & Hh2 & (d & Hd & Hd2) & Hw2). rewrite Hf in Hd, Hd2.
  split_and!; try congruence.
  - intros c' Hc'. rewrite (fat_same_fat s1 s2) by (done || by rewrite Hf). auto.
  - by eapply fat_same_readable.
  - intros. eapply fat_same_mirrored; [..|auto]; done.
  - intros b n' Hb1 Hb2 _. rewrite Hw2 by (by rewrite Hf). auto.
  - done.
  - exists d. split; [|done]. rewrite <- Hw; [done|].
    destruct Hwf. unfold outside_fat, chunks_disjoint. nia.
Qed.

Lemma alloc_post_clear s parent flags c s1 s2 :
  fs_wf (fsi s) -> in_range (fsi s) c -> alloc_post s parent 0 c s1 ->
  cleared s1 (fat32_cluster_to_sector (fsi s) c) (fsi_sectors_per_cluster (fsi s)) s2 ->
  flag flags NC_CLEAR = true -> alloc_post s parent flags c s2.
Proof.
  intros Hwf Hc (Hff & Hf & Hv & Hh & Hfat & Hr & Hm & Hw & _ & d & Hd & Hd2) Hcl Hflag.
  assert (geom (fsi s1) = geom (fsi s)) as Hg by (by rewrite Hf).
  assert (fat_same s1 s2) as Hsame.
  { apply (cleared_same s1 c); [by eapply geom_wf|by eapply geom_in_range|].
    replace (fat32_cluster_to_sector (fsi s1) c) with (fat32_cluster_to_sector (fsi s) c) by (by rewrite Hf).
    by rewrite Hf. }
  destruct Hcl as (Hf2 & Hv2 & Hh2 & Hz & Hw2).
  assert (fs_wf (fsi s1)) as Hwf1 by (by eapply geom_wf).
  pose proof (cluster_chunk _ _ Hwf Hc).
  split_and!; try congruence.
  - intros c' Hc'. rewrite (fat_same_fat s1 s2) by (done || by eapply geom_in_range). auto.
  - by eapply fat_same_readable.
  - intros. eapply fat_same_mirrored; [..|auto]; done.
  - intros b n Hb1 Hb2 Hb3. rewrite Hw2 by auto. by apply Hw.
  - intros _ i Hi Hs. apply Hz; [done|]. rewrite Hw; [done|..|done].
    + unfold outside_fat, chunks_disjoint. lia.
    + destruct Hwf. unfold chunks_disjoint. nia.
  - exists d. split; [done|]. rewrite Hw2; [done|].
    destruct Hwf. unfold chunks_disjoint. nia.
Qed.

(** The outcome of the allocator. *)
Definition alloc_result (s : st K) (parent flags : Z) (r : res Z) (s' : st K) : Prop :=
  match r with
  | Ok c => fsi_free_count (fsi s) <> 0 /\ fsi_free_count (fsi s) <> 0xFFFFFFFF /\
            alloc_post s parent flags c s'
  | Err e => e = ENOSPC /\ s ≡ s' /\
             (fsi_free_count (fsi s) = 0 \/ fsi_free_count (fsi s) = 0xFFFFFFFF \/ no_free s)
  | _ => False
  end.

Lemma wp_allocate_cluster s parent flags :
  fs_wf (fsi s) -> fat_readable s -> is_Some (view (kst s) (fsi_fsinfo_sector (fsi s)) 1) ->
  parent = 0 \/ in_range (fsi s) parent ->
  wp (fat32_allocate_cluster parent flags) s (alloc_result s parent flags).
Proof.
  intros Hwf Hread Hinfo Hpar. unfold fat32_allocate_cluster, alloc_result. repeat wp_step. cbn zeta.
  destruct (Z.eqb_spec (fsi_free_count (fsi s)) 0); [cbn [orb]; wp_step; auto|].
  destruct (Z.eqb_spec (fsi_free_count (fsi s)) 0xFFFFFFFF); [cbn [orb]; wp_step; auto|].
  cbn [orb]. rewrite max_cluster_eq, alloc_hint_eq by done.
  destruct (decide (fsi_cluster_count (fsi s) = 0)) as [E0|Hpos].
  { rewrite E0. cbn. unfold wp. cbn. rewrite E0. cbn. split_and!; try done. right; right.
    intros c Hc. unfold in_range in Hc. lia. }
  assert (in_range (fsi s) (alloc_hint (fsi s))) as Hs by (apply alloc_hint_range; destruct Hwf; lia).
  eapply wp_call; [by apply wp_alloc_search|].
  intros [[c m]| | | |] s1 [Hs1 Hr]; try done; [|cbn; naive_solver]. cbn [wpk].
  destruct Hr as [Hff Hn]. rewrite (proj2 (Z.leb_gt _ _)) by lia.
  pose proof (first_free_range _ _ _ Hs Hff) as Hc. assert (fsi s1 = fsi s) as Hf by apply Hs1.
  apply wp_alloc_link; rewrite ?Hf; [done|by eapply fat_readable_proper|done..|].
  intros s2 Hl Hr2. assert (fsi s2 = fsi s) as Hf2 by (rewrite <- Hf; apply Hl).
  assert (linked s parent c s2) as Hl'.
  { by eapply linked_equiv. }
  eapply wp_call_ok.
  { rewrite <- Hf2. apply wp_alloc_update_fsinfo; rewrite ?Hf2; [done..|].
    destruct Hl' as ((_ & _ & _ & Hw & _) & _). rewrite Hw; [done|].
    destruct Hwf. unfold outside_fat, chunks_disjoint. nia. }
  rewrite Hf2. intros [] s3 Hu.
  assert (alloc_post s parent 0 c s3) as Hpost by (eapply linked_geom; done).
  destruct (flag flags NC_CLEAR) eqn:Hflag; repeat wp_step.
  - assert (fs_wf (fsi s3)) as Hwf3 by (destruct Hpost as (_ & -> & _); by apply (geom_wf (fsi s))).
    assert (in_range (fsi s3) c) as Hc3 by (destruct Hpost as (_ & -> & _); done).
    eapply wp_mono; [by apply wp_clear_cluster|].
    intros [[]| | | |] s4; try done. cbn [okp wpk]. intros Hcl. repeat wp_step. split_and!; try done.
    eapply alloc_post_clear; [done..| |done].
    by destruct Hpost as (_ & Hf3 & _); rewrite Hf3 in Hcl.
  - split_and!; try done. destruct Hpost as (? & ? & ? & ? & ? & ? & ? & Hw & _ & Hi).
    split_and!; try done; [|congruence]. intros b b' Hb1 Hb2 _. by apply Hw.
Qed.

Lemma first_free_equiv s s1 start c : s ≡ s1 -> first_free s1 start c -> first_free s start c.
Proof.
  intros Hs (i & Hi & -> & H0 & Hj). pose proof Hs as (Hf & _). exists i. rewrite <- Hf.
  split_and!; [lia..|done| |].
  - by rewrite Hs.
  - intros j Hj'. rewrite Hs. auto.
Qed.

Lemma alloc_result_equiv s s1 parent flags r s' :
  s ≡ s1 -> alloc_result s1 parent flags r s' -> alloc_result s parent flags r s'.
Proof.
  intros Hs. pose proof Hs as (Hf & Hv & Hh & Hw). unfold alloc_result, alloc_post, no_free. rewrite Hf.
  destruct r as [c|e| | |]; try done.
  - intros (H0 & H1 & Hff & Hf' & Hv' & Hh' & Hfat & Hr & Hm & Hd & Hz & d & Hi1 & Hi2).
    split_and!; try done; try congruence.
    + by eapply first_free_equiv.
    + intros c' Hc'. rewrite Hfat by done. repeat case_decide; try done. by rewrite Hs.
    + intros. apply Hm. by rewrite <- Hs.
    + intros b n Hb1 Hb2 Hb3. rewrite <- Hw. by apply Hd.
    + intros Hfl i Hi Hsome. apply Hz; [done..|]. by rewrite Hw.
    + exists d. by rewrite <- Hw.
  - intros (-> & Hs' & Hwhy). split_and!; [done|by etrans|].
    destruct Hwhy as [|[|Hn]]; auto. right; right. intros c Hc. rewrite Hs. auto.
Qed.

(** C2: [fat32_allocate_cluster] takes the first free cluster in cyclic order
    from the cached hint, marks it as the end of a chain in every copy of the
    FAT, links it behind [parent], changes no other entry and no other block
    than FSInfo (and the cluster itself under [NC_CLEAR]), decrements the free
    count and moves the hint; it fails only with ENOSPC, changing nothing, and
    only when the count says so or every entry is in use. *)
Theorem allocate_cluster_correct (s : st K) (parent flags : Z) :
  fs_wf (fsi s) -> fat_readable s -> is_Some (view (kst s) (fsi_fsinfo_sector (fsi s)) 1) ->
  parent = 0 \/ in_range (fsi s) parent ->
  wp (fat32_allocate_cluster parent flags) s (alloc_result s parent flags).
Proof. apply wp_allocate_cluster. Qed.

End alloc.

Lemma allocate_cluster_correct_witness :
  wp (fat32_allocate_cluster 6 NC_CLEAR) demo (alloc_result demo 6 NC_CLEAR).
Proof.
  apply allocate_cluster_correct.
  - apply demo_wf.
  - apply demo_readable.
  - apply demo_view. by left.
  - right. unfold in_range. cbn. lia.
Defined.
