(* ===== verification/Chain.v ===== *)
(** * Cluster chains ([fat32_next_cluster], [fat32_seek_cluster])

    A file is a list of clusters linked through the FAT.  [chain] is this
    abstraction; the theorems relate the walk and the extension of a chain to
    operations on the list. *)
From S2P Require Import Prelude Layout Time Kernel Device Cls Fat Demo Alloc.

(** ** Chains in a FAT given as a function *)

Section chain.
Context (f : fat32fs_info).
Implicit Types (g : Z -> Z) (c : Z) (l : list Z).

(** From [c] the clusters in use by the file are [l]. *)
Inductive chain g : Z -> list Z -> Prop :=
| chain_end c : in_range f c -> FAT32_CLUSTER_EOC_MIN <= g c -> chain g c [c]
| chain_link c l : in_range f c -> in_range f (g c) -> chain g (g c) l -> chain g c (c :: l).

Lemma in_range_not_eoc c : fs_wf f -> in_range f c -> c < FAT32_CLUSTER_EOC_MIN.
Proof. intros Hwf Hc. destruct Hwf. unfold in_range, FAT32_CLUSTER_EOC_MIN in *. lia. Qed.

Lemma chain_head g c l : chain g c l -> exists l', l = c :: l'.
Proof. inversion 1; eauto. Qed.

Lemma chain_range g c l : chain g c l -> Forall (in_range f) l.
Proof. induction 1; auto. Qed.

Lemma chain_det g c l l' : fs_wf f -> chain g c l -> chain g c l' -> l = l'.
Proof.
  intros Hwf H. revert l'. induction H as [c Hc Heoc|c l Hc Hg Hch IH]; intros l' H'; inversion H'; subst.
  - done.
  - pose proof (in_range_not_eoc (g c) Hwf). exfalso. naive_solver lia.
  - pose proof (in_range_not_eoc (g c) Hwf). exfalso. naive_solver lia.
  - f_equal. by apply IH.
Qed.

(** The chain behind position [i]. *)
Lemma chain_drop g c l i x : chain g c l -> l !! i = Some x -> chain g x (drop i l).
Proof.
  intros H. revert i. induction H as [c Hc Heoc|c l Hc Hg Hch IH]; intros [|i] Hi; simplify_eq/=.
  - by apply chain_end.
  - by apply chain_link.
  - by apply IH.
Qed.

Lemma chain_lookup_next g c l i x y :
  chain g c l -> l !! i = Some x -> l !! S i = Some y -> g x = y.
Proof.
  intros H Hx Hy. pose proof (chain_drop g c l i x H Hx) as Hd.
  assert (drop i l !! 1%nat = Some y) as Hy' by (rewrite lookup_drop; by replace (i + 1)%nat with (S i) by lia).
  inversion Hd as [? ? ? E1 E2|? l' ? ? Hch E1 E2]; subst; rewrite <- E2 in Hy'; simplify_eq/=.
  destruct (chain_head _ _ _ Hch) as [l'' ->]. by simplify_eq/=.
Qed.

Lemma chain_last g c l x : chain g c l -> last l = Some x -> FAT32_CLUSTER_EOC_MIN <= g x.
Proof.
  intros H. revert x. induction H as [c Hc Heoc|c l Hc Hg Hch IH]; intros x Hx; simplify_eq/=; [done|].
  destruct (chain_head _ _ _ Hch) as [l' ->]. apply IH. done.
Qed.

Lemma chain_last_iff g c l i x :
  fs_wf f -> chain g c l -> l !! i = Some x ->
  FAT32_CLUSTER_EOC_MIN <= g x <-> S i = length l.
Proof.
  intros Hwf H Hi. pose proof (lookup_lt_Some _ _ _ Hi). split.
  - intros Heoc. destruct (l !! S i) as [y|] eqn:Hy; [|apply lookup_ge_None in Hy; lia].
    pose proof (chain_lookup_next _ _ _ _ _ _ H Hi Hy) as <-.
    pose proof (chain_range _ _ _ H) as Hr. rewrite Forall_lookup in Hr.
    apply Hr in Hy. apply in_range_not_eoc in Hy; [lia|done].
  - intros Hlen. eapply chain_last; [done|]. rewrite last_lookup, <- Hlen. done.
Qed.

(** A chain does not meet itself. *)
Lemma chain_NoDup g c l : fs_wf f -> chain g c l -> NoDup l.
Proof.
  intros Hwf H. apply NoDup_alt. intros i j x Hi Hj.
  pose proof (chain_drop _ _ _ _ _ H Hi) as H1. pose proof (chain_drop _ _ _ _ _ H Hj) as H2.
  pose proof (chain_det _ _ _ _ Hwf H1 H2) as E. apply (f_equal length) in E.
  rewrite !length_drop in E. apply lookup_lt_Some in Hi, Hj. lia.
Qed.

(** Only the entries of the chain matter. *)
Lemma chain_ext g g' c l : chain g c l -> (forall x, x ∈ l -> g' x = g x) -> chain g' c l.
Proof.
  intros H Hg. induction H as [c Hc Heoc|c l Hc Hr Hch IH].
  - apply chain_end; [done|]. rewrite Hg; [done|set_solver].
  - assert (g' c = g c) as E by (apply Hg; set_solver).
    apply chain_link; rewrite ?E; [done..|]. apply IH. set_solver.
Qed.

(** Linking a new end behind the last cluster. *)
Lemma chain_snoc g g' c l x n :
  chain g c l -> last l = Some x -> n ∉ l -> NoDup l -> in_range f n ->
  (forall y, in_range f y -> g' y = if decide (y = x) then n else if decide (y = n) then FAT32_CLUSTER_EOC else g y) ->
  chain g' c (l ++ [n]).
Proof.
  intros H Hx Hn Hnd Hr Hg. revert Hx Hn Hnd.
  induction H as [c Hc Heoc|c l Hc Hr' Hch IH]; intros Hx Hn Hnd; simplify_eq/=.
  - assert (g' x = n) as E by (by rewrite Hg, decide_True).
    apply chain_link; rewrite ?E; [done..|]. apply chain_end; [done|].
    rewrite Hg by done. rewrite decide_False by set_solver. by rewrite decide_True.
  - destruct (chain_head _ _ _ Hch) as [l' ->]. apply NoDup_cons in Hnd as [Hnot Hnd].
    assert (x ∈ g c :: l') as Hxl by (eapply last_Some_elem_of; done).
    assert (g' c = g c) as E.
    { rewrite Hg by done. rewrite decide_False by (by intros ->). rewrite decide_False by set_solver. done. }
    apply chain_link; rewrite ?E; [done..|]. apply IH; [done|set_solver|done].
Qed.

(** Cutting a chain behind position [i]. *)
Lemma chain_take g g' c l i x :
  chain g c l -> NoDup l -> l !! i = Some x -> FAT32_CLUSTER_EOC_MIN <= g' x ->
  (forall y, y ∈ take i l -> g' y = g y) -> chain g' c (take (S i) l).
Proof.
  intros H. revert i. induction H as [c Hc Heoc|c l Hc Hr' Hch IH]; intros [|i] Hnd Hi Hx Hg; simplify_eq/=.
  - by apply chain_end.
  - rewrite take_0. by apply chain_end.
  - apply NoDup_cons in Hnd as [Hnot Hnd].
    assert (g' c = g c) as E by (apply Hg; set_solver).
    apply chain_link; rewrite ?E; [done..|]. apply IH; [done..|]. set_solver.
Qed.

End chain.

(** The counters do not matter. *)
Lemma chain_geom f f' g c l : geom f' = geom f -> chain f g c l -> chain f' g c l.
Proof.
  intros Hg. induction 1; [apply chain_end|apply chain_link]; rewrite ?(geom_in_range f f') by done; done.
Qed.

(** ** [fat32_next_cluster] *)

Section next.
Context {K : Type} `{!Kernel K, !KernelLaws K}.
Implicit Types s : st K.

Lemma release_acquire (l : lock) (mode : lkmode) s s' :
  held s !! l = None -> held s' = <[l := mode]> (held s) -> held (release l s') = held s.
Proof. intros Hl Hh. unfold release. cbn. rewrite Hh. by rewrite delete_insert_id. Qed.

(** What the driver makes of the value of an entry. *)
Definition next_result (f : fat32fs_info) (v : Z) : res Z :=
  if decide (FAT32_CLUSTER_EOC_MIN <= v) then Err ENOSPC
  else if decide (in_range f v) then Ok v else Err EIO.

Lemma wp_next_read s c :
  fs_wf (fsi s) -> fat_readable s -> in_range (fsi s) c -> held s !! FsiLock = None ->
  wp (do* mraccess FsiLock in
      let* r := try (fat32_rmw_cluster c None) in
      do* mraccunlock FsiLock in rethrow r) s (okp (fun v s' => v = fat s c /\ s ≡ s')).
Proof.
  intros Hwf Hread Hc Hl. apply wp_locked; [done|].
  eapply wp_mono; [by apply (wp_rmw_get (set_held (<[FsiLock := MrAccess]> (held s)) s))|].
  intros [v| | | |] s'; try done. cbn [okp]. intros [-> Hs']. pose proof Hs' as (Hf & Hv & Hh & Hw).
  split_and!; [|done| |done].
  - rewrite Hh. cbn. rewrite lookup_insert_eq. eauto.
  - split_and!; try done. eapply (release_acquire _ MrAccess); [done|]. by rewrite Hh.
Qed.

Lemma in_range_nonzero f c : in_range f c -> (c =? 0) = false.
Proof. unfold in_range. intros. apply Z.eqb_neq. lia. Qed.

(** [rethrow] is the last step of [wp_next_read]; here it is followed by [k]. *)
Lemma bind_rethrow_assoc {A B C} (m1 : M (st K) A) (m2 : M (st K) (Z + B)) (m3 : M (st K) A)
    (k : B -> M (st K) C) s Q :
  wp (let* x := (do* m1 in let* r := m2 in do* m3 in rethrow r) in k x) s Q ->
  wp (do* m1 in let* r := m2 in do* m3 in let* x := rethrow r in k x) s Q.
Proof.
  unfold wp, bind, res_bind. destruct (m1 s) as [s1 []]; try done.
  destruct (m2 s1) as [s2 [r| | | |]]; try done. destruct (m3 s2) as [s3 []]; done.
Qed.

Lemma wp_next_cluster s c flags :
  fs_wf (fsi s) -> fat_readable s -> in_range (fsi s) c -> held s !! FsiLock = None ->
  flag flags NC_ALLOC = false \/ fat s c < FAT32_CLUSTER_EOC_MIN ->
  wp (fat32_next_cluster c flags) s (fun r s' => r = next_result (fsi s) (fat s c) /\ s ≡ s').
Proof.
  intros Hwf Hread Hc Hl Hno. unfold fat32_next_cluster. repeat wp_step.
  rewrite (in_range_nonzero (fsi s)), range_check_true by done. apply bind_rethrow_assoc.
  eapply wp_call_ok; [by apply wp_next_read|]. intros v s1 [-> Hs1]. unfold next_result.
  destruct (Z.leb_spec FAT32_CLUSTER_EOC_MIN (fat s c)) as [Heoc|Heoc].
  { destruct Hno as [->|]; [|lia]. rewrite decide_True by done. by apply wp_throw. }
  rewrite decide_False by lia.
  case_decide as Hr.
  - rewrite range_check_true by done. unfold in_range in Hr. destruct Hwf.
    rewrite (proj2 (Z.eqb_neq _ FAT32_CLUSTER_BAD)) by (unfold FAT32_CLUSTER_BAD; lia).
    rewrite (proj2 (Z.eqb_neq _ FAT32_CLUSTER_FREE)) by (unfold FAT32_CLUSTER_FREE; lia).
    by apply wp_ret.
  - rewrite range_check_false by done. repeat case_match; by apply wp_throw.
Qed.

Lemma wp_next_invalid s c flags :
  fs_wf (fsi s) -> ~ in_range (fsi s) c -> c <> 0 \/ flag flags NC_ALLOC = false ->
  wp (fat32_next_cluster c flags) s (fun r s' => r = Err EINVAL /\ s' = s).
Proof.
  intros Hwf Hc Hno. unfold fat32_next_cluster. repeat wp_step.
  destruct (Z.eqb_spec c 0).
  - destruct Hno as [Hc0|Hno]; [done|]. rewrite Hno. by apply wp_throw.
  - rewrite range_check_false by done. by apply wp_throw.
Qed.

Lemma wp_allocate_locked s parent flags :
  fs_wf (fsi s) -> fat_readable s -> is_Some (view (kst s) (fsi_fsinfo_sector (fsi s)) 1) ->
  held s !! FsiLock = None -> parent = 0 \/ in_range (fsi s) parent ->
  wp (next_allocate_new parent flags) s (alloc_result s parent flags).
Proof.
  intros Hwf Hread Hinfo Hl Hpar. apply wp_locked; [done|].
  eapply wp_mono; [by apply (wp_allocate_cluster (set_held (<[FsiLock := MrUpdate]> (held s)) s))|].
  intros [n|e| | |] s'; try done; cbn [alloc_result].
  - intros (H0 & Hm & Hff & Hf & Hv & Hh & Hpost). split_and!; try done.
    + rewrite Hh. cbn. rewrite lookup_insert_eq. eauto.
    + split_and!; try done; [|apply Hpost..]. eapply (release_acquire _ MrUpdate); [done|exact Hh].
  - intros (-> & Hs' & Hwhy). split_and!; try done.
    + destruct Hs' as (_ & _ & -> & _). cbn. rewrite lookup_insert_eq. eauto.
    + destruct Hs' as (Hf & Hv & Hh & Hw). split_and!; try done. eapply (release_acquire _ MrUpdate); [done|exact Hh].
Qed.

Lemma wp_next_grow s c flags :
  fs_wf (fsi s) -> fat_readable s -> is_Some (view (kst s) (fsi_fsinfo_sector (fsi s)) 1) ->
  held s !! FsiLock = None -> flag flags NC_ALLOC = true ->
  c = 0 \/ in_range (fsi s) c /\ FAT32_CLUSTER_EOC_MIN <= fat s c ->
  wp (fat32_next_cluster c flags) s (alloc_result s c flags).
Proof.
  intros Hwf Hread Hinfo Hl Hflag Hc. unfold fat32_next_cluster. repeat wp_step.
  destruct (Z.eqb_spec c 0) as [->|Hc0].
  { rewrite Hflag. apply wp_allocate_locked; auto. }
  destruct Hc as [|[Hc Heoc]]; [done|]. rewrite range_check_true by done.
  apply bind_rethrow_assoc.
  eapply wp_call_ok; [by apply wp_next_read|]. intros v s1 [-> Hs1].
  rewrite (proj2 (Z.leb_le _ _)) by done. rewrite Hflag. cbn [negb].
  pose proof Hs1 as (Hf & Hv & Hh & Hw).
  eapply wp_mono; [apply wp_allocate_locked; rewrite ?Hf, ?Hh, ?Hw; auto|].
  - by apply (fat_readable_proper _ _ Hs1).
  - intros r s'. by apply alloc_result_equiv.
Qed.

(** ** Chains of a state *)

Definition file_chain s (c : Z) (l : list Z) : Prop := chain (fsi s) (fat s) c l.

#[export] Instance file_chain_proper : Proper ((≡) ==> eq ==> eq ==> iff) file_chain.
Proof.
  assert (forall s s' c l, s ≡ s' -> file_chain s c l -> file_chain s' c l) as H.
  { intros s s' c l Hs Hch. unfold file_chain in *. destruct Hs as (Hf & Hs). rewrite Hf.
    eapply chain_ext; [done|]. intros x _. symmetry. by apply fat_proper. }
  intros s s' Hs c ? <- l ? <-. split; apply H; by auto.
Qed.

(** What the operations on chains need of a mounted volume; [ready] adds that
    the calling thread does not hold [fsi_lock]. *)
Record usable s : Prop := {
  usable_wf : fs_wf (fsi s);
  usable_fat : fat_readable s;
  usable_fsinfo : is_Some (view (kst s) (fsi_fsinfo_sector (fsi s)) 1)
}.
Record ready s : Prop := {
  ready_usable : usable s;
  ready_lock : held s !! FsiLock = None
}.

Lemma ready_wf s : ready s -> fs_wf (fsi s).
Proof. intros [[] _]. done. Qed.

#[export] Instance usable_proper : Proper ((≡) ==> iff) usable.
Proof.
  assert (forall s s', s ≡ s' -> usable s -> usable s') as H.
  { intros s s' Hs [H1 H2 H3]. pose proof Hs as (Hf & Hv & Hh & Hw).
    split; rewrite ?Hf, ?Hw; try done. by apply (fat_readable_proper _ _ Hs). }
  intros s s' Hs. split; apply H; by auto.
Qed.

#[export] Instance ready_proper : Proper ((≡) ==> iff) ready.
Proof.
  assert (forall s s', s ≡ s' -> ready s -> ready s') as H.
  { intros s s' Hs [H1 H2]. split; [by rewrite <- Hs|]. destruct Hs as (_ & _ & -> & _). done. }
  intros s s' Hs. split; apply H; by auto.
Qed.

Lemma alloc_post_ready s parent flags c s' : ready s -> alloc_post s parent flags c s' -> ready s'.
Proof.
  intros [[H1 H2 H3] H4] (Hff & Hf & Hv & Hh & Hfat & Hr & Hm & Hd & Hz & d & Hi1 & Hi2).
  split; [split|by rewrite Hh]; try done.
  - apply (geom_wf (fsi s)); [by rewrite Hf|done].
  - rewrite Hf. eexists. exact Hi2.
Qed.

Lemma fat_not_free s c l x : file_chain s c l -> x ∈ l -> fs_wf (fsi s) -> fat s x <> FAT32_CLUSTER_FREE.
Proof.
  intros Hch Hx Hwf. apply list_elem_of_lookup in Hx as [i Hi].
  destruct (l !! S i) as [y|] eqn:Hy.
  - rewrite (chain_lookup_next _ _ _ _ _ _ _ Hch Hi Hy).
    pose proof (chain_range _ _ _ _ Hch) as Hr. rewrite Forall_lookup in Hr. apply Hr in Hy.
    unfold in_range, FAT32_CLUSTER_FREE in *. lia.
  - apply lookup_ge_None in Hy. pose proof (lookup_lt_Some _ _ _ Hi).
    pose proof (proj2 (chain_last_iff _ _ _ _ _ _ Hwf Hch Hi)) as He.
    unfold FAT32_CLUSTER_EOC_MIN, FAT32_CLUSTER_FREE in *. lia.
Qed.

Lemma first_free_val s start c : first_free s start c -> fat s c = FAT32_CLUSTER_FREE.
Proof. by intros (? & _ & _ & ? & _). Qed.

Lemma chain_u32 s c l : ready s -> file_chain s c l -> 0 <= c < 2 ^ 32.
Proof.
  intros Hr Hch. destruct (chain_head _ _ _ _ Hch) as [l' El]. pose proof (chain_range _ _ _ _ Hch) as Hrg. rewrite El in Hrg.
  inversion Hrg as [|? ? Hx _]. pose proof (wf_cluster_count _ (ready_wf _ Hr)). unfold in_range in Hx. lia.
Qed.

(** Going from [s] to [s'], the file with clusters [l] has become [l']: every
    chain apart from [l] is still there, and apart from [l']. *)
Definition keeps s (l : list Z) s' (l' : list Z) : Prop :=
  forall c2 l2, file_chain s c2 l2 -> l2 ## l -> file_chain s' c2 l2 /\ l2 ## l'.

(** The contents of all clusters but those in [l] are as before. *)
Definition data_keeps s (l : list Z) s' : Prop :=
  forall x, in_range (fsi s) x -> x ∉ l ->
    view (kst s') (fat32_cluster_to_sector (fsi s) x) (fsi_sectors_per_cluster (fsi s)) =
    view (kst s) (fat32_cluster_to_sector (fsi s) x) (fsi_sectors_per_cluster (fsi s)).

(** The clusters whose contents an allocation may change. *)
Definition fresh (flags : Z) (ext : list Z) : list Z := if flag flags NC_CLEAR then ext else [].

Lemma fresh_app flags l l' : fresh flags (l ++ l') = fresh flags l ++ fresh flags l'.
Proof. unfold fresh. by destruct (flag _ _). Qed.

Lemma fresh_incl flags l x : x ∈ fresh flags l -> x ∈ l.
Proof. unfold fresh. destruct (flag _ _); [done|]. intros H. by apply not_elem_of_nil in H. Qed.

Lemma keeps_equiv s l s' : s ≡ s' -> keeps s l s' l.
Proof. intros Hs c2 l2 Hch Hd. by rewrite <- Hs. Qed.

Lemma keeps_trans s1 l1 s2 l2 s3 l3 : keeps s1 l1 s2 l2 -> keeps s2 l2 s3 l3 -> keeps s1 l1 s3 l3.
Proof. intros H1 H2 c l Hch Hd. destruct (H1 c l Hch Hd). auto. Qed.

Lemma keeps_from_equiv s s0 l s' l' : s ≡ s0 -> keeps s0 l s' l' -> keeps s l s' l'.
Proof. intros Hs H c2 l2. rewrite Hs. apply H. Qed.

Lemma data_keeps_from_equiv s s0 l s' : s ≡ s0 -> data_keeps s0 l s' -> data_keeps s l s'.
Proof. intros (Hf & _ & _ & Hw) H x Hx Hn. rewrite <- Hw, <- Hf. apply H; [by rewrite Hf|done]. Qed.

Lemma data_keeps_trans s1 l1 s2 l2 s3 :
  geom (fsi s2) = geom (fsi s1) ->
  data_keeps s1 l1 s2 -> data_keeps s2 l2 s3 -> data_keeps s1 (l1 ++ l2) s3.
Proof.
  intros Hg H1 H2 x Hx Hn. rewrite elem_of_app in Hn. rewrite <- H1 by tauto.
  specialize (H2 x). rewrite (geom_in_range (fsi s1)) in H2 by done.
  change (fat32_cluster_to_sector (fsi s2) x) with (fat32_cluster_to_sector (geom (fsi s2)) x) in H2.
  change (fsi_sectors_per_cluster (fsi s2)) with (fsi_sectors_per_cluster (geom (fsi s2))) in H2.
  rewrite Hg in H2. apply H2; [done|]. tauto.
Qed.

Lemma clusters_disjoint f c x :
  fs_wf f -> in_range f c -> in_range f x -> c <> x ->
  chunks_disjoint (fat32_cluster_to_sector f c) (fsi_sectors_per_cluster f)
    (fat32_cluster_to_sector f x) (fsi_sectors_per_cluster f).
Proof.
  intros Hwf Hc Hx Hne. pose proof (cluster_chunk _ _ Hwf Hc) as (_ & _ & Hpos).
  rewrite !cluster_to_sector_eq by done. unfold chunks_disjoint.
  assert (c + 1 <= x \/ x + 1 <= c) as [|] by lia; nia.
Qed.

Lemma alloc_post_range s parent flags n s' :
  0 < fsi_cluster_count (fsi s) -> alloc_post s parent flags n s' -> in_range (fsi s) n.
Proof. intros Hpos (Hff & _). eapply first_free_range; [by apply alloc_hint_range|done]. Qed.

Lemma alloc_post_count s parent flags n s' :
  alloc_post s parent flags n s' -> 0 < fsi_cluster_count (fsi s).
Proof. intros ((i & Hi & _) & _). lia. Qed.

Lemma alloc_post_data s parent flags n s' :
  usable s -> alloc_post s parent flags n s' -> data_keeps s (fresh flags [n]) s'.
Proof.
  intros [Hwf _ _] Hpost x Hx Hn. unfold fresh in Hn.
  pose proof (alloc_post_range _ _ _ _ _ (alloc_post_count _ _ _ _ _ Hpost) Hpost) as Hr.
  destruct Hpost as (_ & _ & _ & _ & _ & _ & _ & Hw & _). pose proof (cluster_chunk _ _ Hwf Hx).
  apply Hw.
  - unfold outside_fat, chunks_disjoint. lia.
  - destruct Hwf. unfold chunks_disjoint. nia.
  - intros Hfl. rewrite Hfl, list_elem_of_singleton in Hn. by apply clusters_disjoint.
Qed.

(** Blocks: those of the clusters in [lz] hold zeros if they can be read, those of
    all others what they held. *)
Definition blocks_after s (lz : list Z) s' : Prop :=
  forall x i, in_range (fsi s) x -> 0 <= i < fsi_sectors_per_cluster (fsi s) ->
    let b := fat32_cluster_to_sector (fsi s) x + i in
    (x ∉ lz -> view (kst s') b 1 = view (kst s) b 1) /\
    (x ∈ lz -> is_Some (view (kst s) b 1) -> view (kst s') b 1 = Some zero_block).

Lemma alloc_post_blocks s parent flags n s' :
  usable s -> alloc_post s parent flags n s' -> blocks_after s (fresh flags [n]) s'.
Proof.
  intros [Hwf _ _] Hpost x i Hx Hi. cbn zeta.
  pose proof (alloc_post_range _ _ _ _ _ (alloc_post_count _ _ _ _ _ Hpost) Hpost) as Hr.
  destruct Hpost as (_ & _ & _ & _ & _ & _ & _ & Hw & Hz & _). pose proof (cluster_chunk _ _ Hwf Hx). split; intros Hn.
  - apply Hw.
    + unfold outside_fat, chunks_disjoint. lia.
    + destruct Hwf. unfold chunks_disjoint. nia.
    + intros Hfl. unfold fresh in Hn. rewrite Hfl, list_elem_of_singleton in Hn.
      pose proof (clusters_disjoint _ _ _ Hwf Hr Hx (not_eq_sym Hn)) as Hd. unfold chunks_disjoint in *. lia.
  - unfold fresh in Hn. destruct (flag flags NC_CLEAR) eqn:Hfl; [|by apply not_elem_of_nil in Hn].
    apply list_elem_of_singleton in Hn as ->. by apply Hz.
Qed.

Lemma blocks_after_trans s1 l1 s2 l2 s3 :
  geom (fsi s2) = geom (fsi s1) -> blocks_after s1 l1 s2 -> blocks_after s2 l2 s3 -> blocks_after s1 (l1 ++ l2) s3.
Proof.
  intros Hg H1 H2 x i Hx Hi. cbn zeta. destruct (H1 x i Hx Hi) as [A1 B1]. specialize (H2 x i).
  rewrite (geom_in_range (fsi s1)) in H2 by done. cbn zeta in H2.
  change (fat32_cluster_to_sector (fsi s2) x) with (fat32_cluster_to_sector (geom (fsi s2)) x) in H2.
  change (fsi_sectors_per_cluster (fsi s2)) with (fsi_sectors_per_cluster (geom (fsi s2))) in H2.
  rewrite Hg in H2. change (fat32_cluster_to_sector (geom (fsi s1)) x) with (fat32_cluster_to_sector (fsi s1) x) in H2.
  destruct (H2 Hx Hi) as [A2 B2]. rewrite elem_of_app.
  destruct (decide (x ∈ l1)) as [Hl1|Hl1], (decide (x ∈ l2)) as [Hl2|Hl2]; split; try tauto; intros Hx'.
  - intros Hs. apply B2; [done|]. rewrite B1 by done. by eexists.
  - intros Hs. rewrite A2 by done. by apply B1.
  - intros Hs. apply B2; [done|]. by rewrite A1.
  - rewrite A2, A1 by done. done.
Qed.

Lemma blocks_after_from s s1 l s2 : s ≡ s1 -> blocks_after s1 l s2 -> blocks_after s l s2.
Proof.
  intros (Ef & _ & _ & Ew) H x i. specialize (H x i). cbn zeta in *. rewrite Ef in H. intros Hx Hi. destruct (H Hx Hi) as [A B].
  by rewrite <- !Ew.
Qed.

(** Allocation leaves every chain that does not end in [parent]. *)
Lemma alloc_post_other s parent flags n s' c2 l2 :
  usable s -> alloc_post s parent flags n s' -> file_chain s c2 l2 -> parent ∉ l2 ->
  file_chain s' c2 l2 /\ n ∉ l2.
Proof.
  intros [Hwf _ _] (Hff & Hf & _ & _ & Hfat & _) Hch2 Hp.
  pose proof (first_free_val _ _ _ Hff) as Hfree.
  assert (n ∉ l2) as Hn by (intros Hin; by eapply fat_not_free in Hin).
  split; [|done]. apply (chain_geom (fsi s)); [by rewrite Hf|]. eapply chain_ext; [exact Hch2|].
  intros y Hy. pose proof (chain_range _ _ _ _ Hch2) as Hr. rewrite Forall_forall in Hr.
  rewrite Hfat by auto. rewrite decide_False by (by intros ->). by rewrite decide_False by (by intros ->).
Qed.

(** Appending to one chain. *)
Lemma alloc_post_chain s flags c l x n s' :
  usable s -> file_chain s c l -> last l = Some x -> alloc_post s x flags n s' ->
  file_chain s' c (l ++ [n]) /\ n ∉ l /\ keeps s l s' (l ++ [n]).
Proof.
  intros Hs Hch Hlast Hpost. pose proof (usable_wf _ Hs) as Hwf.
  pose proof (alloc_post_range _ _ _ _ _ (alloc_post_count _ _ _ _ _ Hpost) Hpost) as Hn.
  assert (x ∈ l) as Hx by (by apply last_Some_elem_of).
  assert (n ∉ l) as Hnot.
  { destruct Hpost as (Hff & _). intros Hin. eapply fat_not_free in Hin; [|done..].
    by apply first_free_val in Hff. }
  split_and!; [|done|].
  - destruct Hpost as (_ & Hf & _ & _ & Hfat & _).
    apply (chain_geom (fsi s)); [by rewrite Hf|].
    eapply chain_snoc; [done..|by eapply chain_NoDup|done|done].
  - intros c2 l2 Hch2 Hd. destruct (alloc_post_other s x flags n s' c2 l2); try done.
    { intros Hx2. by apply (Hd x). }
    split; [done|]. intros y Hy. rewrite elem_of_app, list_elem_of_singleton.
    intros [?| ->]; [by apply (Hd y)|done].
Qed.

(** A new file. *)
Lemma alloc_post_new s flags n s' :
  usable s -> alloc_post s 0 flags n s' -> file_chain s' n [n] /\ keeps s [] s' [n].
Proof.
  intros Hs Hpost.
  pose proof (alloc_post_range _ _ _ _ _ (alloc_post_count _ _ _ _ _ Hpost) Hpost) as Hn.
  split.
  - destruct Hpost as (_ & Hf & _ & _ & Hfat & _). apply (chain_geom (fsi s)); [by rewrite Hf|].
    apply chain_end; [done|]. rewrite Hfat by done.
    rewrite decide_False by (intros ->; by apply (not_in_range_0 (fsi s))).
    by rewrite decide_True.
  - intros c2 l2 Hch2 _. destruct (alloc_post_other s 0 flags n s' c2 l2); try done.
    { intros H0. apply chain_range in Hch2. rewrite Forall_forall in Hch2. apply Hch2 in H0.
      by apply not_in_range_0 in H0. }
    split; [done|]. intros y Hy ->%list_elem_of_singleton. done.
Qed.

(** without [NC_ALLOC], [fat32_next_cluster] refuses a cluster number out of
    range with EINVAL, reports the end of the chain as ENOSPC, a free, bad or
    out-of-range link as EIO, and otherwise returns the link; it changes nothing
    and gives the lock back on every path. *)
Theorem next_cluster_correct s c flags :
  ready s -> flag flags NC_ALLOC = false ->
  wp (fat32_next_cluster c flags) s (fun r s' =>
    s ≡ s' /\ r = if decide (in_range (fsi s) c) then next_result (fsi s) (fat s c) else Err EINVAL).
Proof.
  intros [[Hwf Hr _] Hl] Hflag. case_decide.
  - eapply wp_mono; [apply wp_next_cluster; auto|]. by intros r s' [-> ?].
  - eapply wp_mono; [apply wp_next_invalid; auto|]. by intros r s' [-> ->].
Qed.

(** The link inside a chain, with or without [NC_ALLOC]. *)
Lemma wp_next_in_chain s c l i x y flags :
  ready s -> file_chain s c l -> l !! i = Some x -> l !! S i = Some y ->
  wp (fat32_next_cluster x flags) s (okp (fun v s' => v = y /\ s ≡ s')).
Proof.
  intros [[Hwf Hr _] Hl] Hch Hx Hy.
  pose proof (chain_lookup_next _ _ _ _ _ _ _ Hch Hx Hy) as Hv.
  pose proof (chain_range _ _ _ _ Hch) as Hrg. rewrite Forall_lookup in Hrg.
  assert (in_range (fsi s) y) as Hyr by eauto.
  pose proof (in_range_not_eoc _ _ Hwf Hyr).
  eapply wp_mono; [apply wp_next_cluster; eauto; right; lia|].
  intros r s' [-> Hs']. rewrite Hv. unfold next_result.
  rewrite decide_False by lia. by rewrite decide_True.
Qed.

Lemma wp_next_at_end s c l i x flags :
  ready s -> file_chain s c l -> l !! i = Some x -> S i = length l ->
  wp (fat32_next_cluster x flags) s (fun r s' =>
    if flag flags NC_ALLOC then alloc_result s x flags r s' else r = Err ENOSPC /\ s ≡ s').
Proof.
  intros [[Hwf Hr Hinfo] Hl] Hch Hx Hlen.
  pose proof (proj2 (chain_last_iff _ _ _ _ _ _ Hwf Hch Hx) Hlen) as He.
  pose proof (chain_range _ _ _ _ Hch) as Hrg. rewrite Forall_lookup in Hrg.
  destruct (flag flags NC_ALLOC) eqn:Hflag.
  - apply wp_next_grow; eauto.
  - eapply wp_mono; [apply wp_next_cluster; eauto|]. intros r s' [-> Hs']. unfold next_result.
    by rewrite decide_True.
Qed.

(** with [NC_ALLOC], [fat32_next_cluster] on the last cluster of a file
    appends a cluster to that file's chain and leaves every other chain as it
    is; the new cluster belonged to no chain; if it fails, it fails with ENOSPC
    and nothing has changed. *)
Theorem next_cluster_appends s c l x flags :
  ready s -> file_chain s c l -> last l = Some x -> flag flags NC_ALLOC = true ->
  wp (fat32_next_cluster x flags) s (fun r s' =>
    match r with
    | Ok n => file_chain s' c (l ++ [n]) /\ n ∉ l /\ ready s' /\
              forall c2 l2, file_chain s c2 l2 -> x ∉ l2 -> file_chain s' c2 l2 /\ n ∉ l2
    | Err e => e = ENOSPC /\ s ≡ s'
    | _ => False
    end).
Proof.
  intros Hs Hch Hlast Hflag. rewrite last_lookup in Hlast.
  assert (length l <> 0)%nat by (destruct (chain_head _ _ _ _ Hch) as [? ->]; done).
  eapply wp_mono; [eapply wp_next_at_end; [done..|lia]|].
  rewrite Hflag. intros [n|e| | |] s'; try done; cbn [alloc_result].
  - intros (_ & _ & Hpost).
    destruct (alloc_post_chain s flags c l x n s') as (? & ? & ?); try done; [apply Hs|by rewrite last_lookup|].
    split_and!; try done; [by eapply alloc_post_ready|].
    intros c2 l2 Hch2 Hx2. eapply alloc_post_other; [apply Hs|done..].
  - tauto.
Qed.

Lemma wp_seek_loop s c l i x n flags :
  ready s -> file_chain s c l -> flag flags NC_ALLOC = false -> l !! i = Some x ->
  wp (seek_loop n x flags) s (fun r s' =>
    s ≡ s' /\ r = match l !! (i + n)%nat with Some y => Ok y | None => Err ENOSPC end).
Proof.
  intros Hs Hch Hflag. revert s i x Hs Hch. induction n as [|n IH]; intros s i x Hs Hch Hi.
  - apply wp_ret. by rewrite Nat.add_0_r, Hi.
  - cbn [seek_loop]. destruct (l !! S i) as [y|] eqn:Hy.
    + eapply wp_call_ok; [by eapply wp_next_in_chain|]. intros v s1 [-> Hs1].
      eapply wp_mono; [eapply IH; [..|exact Hy]; by rewrite <- Hs1|].
      intros r s' [Hs' ->]. split; [by etrans|]. by replace (i + S n)%nat with (S i + n)%nat by lia.
    + pose proof (lookup_lt_Some _ _ _ Hi). pose proof Hy as Hy'. apply lookup_ge_None in Hy'.
      eapply wp_call; [eapply (wp_next_at_end s c l i); [done..|lia]|].
      intros r s1. rewrite Hflag. intros [-> Hs1]. cbn [wpk]. split; [done|].
      by rewrite (proj2 (lookup_ge_None l (i + S n))) by lia.
Qed.

Lemma wp_seek_cluster s c l skip flags :
  ready s -> file_chain s c l -> flag flags NC_ALLOC = false -> 0 <= skip ->
  wp (fat32_seek_cluster c skip flags) s (fun r s' =>
    s ≡ s' /\ r = match l !! Z.to_nat skip with Some y => Ok y | None => Err ENOSPC end).
Proof.
  intros Hs Hch Hflag Hskip. destruct (chain_head _ _ _ _ Hch) as [l' ->]. unfold fat32_seek_cluster.
  destruct (Z.eqb_spec skip 0) as [->|]; [by apply wp_ret|].
  by apply (wp_seek_loop s c (c :: l') 0).
Qed.

(** [fat32_seek_cluster] without [NC_ALLOC] returns the [skip]-th cluster
    of the chain and ENOSPC beyond its end, and changes nothing. *)
Theorem seek_cluster_correct s c l skip flags :
  ready s -> file_chain s c l -> flag flags NC_ALLOC = false -> 0 <= skip ->
  wp (fat32_seek_cluster c skip flags) s (fun r s' =>
    s ≡ s' /\ r = match l !! Z.to_nat skip with Some y => Ok y | None => Err ENOSPC end).
Proof. apply wp_seek_cluster. Qed.

(** The outcome of a seek that may extend the chain [l], up to index [k]. *)
Definition extend_result s (c : Z) (l : list Z) (k : nat) (flags : Z) (r : res Z) (s' : st K) : Prop :=
  ready s' /\ fvs s' = fvs s /\ held s' = held s /\ geom (fsi s') = geom (fsi s) /\
  exists ext, file_chain s' c (l ++ ext) /\ keeps s l s' (l ++ ext) /\ data_keeps s (fresh flags ext) s' /\
    blocks_after s (fresh flags ext) s' /\
    match r with
    | Ok y => (l ++ ext) !! k = Some y /\ length (l ++ ext) = Nat.max (length l) (S k)
    | Err e => e = ENOSPC /\ (length (l ++ ext) <= k)%nat
    | _ => False
    end.

Lemma extend_result_snoc s s1 c l n k flags r s' :
  fvs s1 = fvs s -> held s1 = held s -> geom (fsi s1) = geom (fsi s) ->
  keeps s l s1 (l ++ [n]) -> data_keeps s (fresh flags [n]) s1 -> blocks_after s (fresh flags [n]) s1 ->
  (length l < S k)%nat -> extend_result s1 c (l ++ [n]) k flags r s' -> extend_result s c l k flags r s'.
Proof.
  intros Hv Hh Hg Hk Hd Hb Hlt (Hr & Hv' & Hh' & Hg' & ext & Hch & Hk' & Hd' & Hb' & Hres).
  split_and!; [done|congruence..|]. exists (n :: ext).
  assert (l ++ n :: ext = (l ++ [n]) ++ ext) as -> by (by rewrite <- app_assoc).
  split_and!; [done|by eapply keeps_trans| | |].
  { rewrite (fresh_app flags [n] ext : fresh flags (n :: ext) = _). by apply (data_keeps_trans s _ s1). }
  { rewrite (fresh_app flags [n] ext : fresh flags (n :: ext) = _). by apply (blocks_after_trans s _ s1). }
  destruct r; try done. destruct Hres as [? Hlen]. split; [done|].
  rewrite !length_app in *. cbn [length] in *. lia.
Qed.

Lemma extend_result_equiv s c l k flags r s0 s' :
  s ≡ s0 -> extend_result s0 c l k flags r s' -> extend_result s c l k flags r s'.
Proof.
  intros Hs (Hr & Hv & Hh & Hg & ext & Hch & Hk & Hd & Hb & Hres). pose proof Hs as (Ef & Ev & Eh & Ew).
  split_and!; [done|congruence..|]. exists ext. split_and!; [done| | |by eapply blocks_after_from|done].
  - intros c2 l2. rewrite Hs. apply Hk.
  - intros x Hx Hn. rewrite <- Ew, <- Ef. apply Hd; [by rewrite Ef|done].
Qed.

Lemma extend_result_refl s c l k flags r s' :
  ready s -> file_chain s c l -> s ≡ s' ->
  match r with
  | Ok y => l !! k = Some y /\ length l = Nat.max (length l) (S k)
  | Err e => e = ENOSPC /\ (length l <= k)%nat
  | _ => False
  end -> extend_result s c l k flags r s'.
Proof.
  intros Hr Hch Hs Hres. pose proof Hs as (Ef & Ev & Eh & Ew).
  split_and!; [by rewrite <- Hs|done..|by rewrite Ef|]. exists []. rewrite app_nil_r.
  split_and!; [by rewrite <- Hs|by apply keeps_equiv| | |done].
  - intros x _ _. apply Ew.
  - intros x i _ _. unfold fresh. split; intros Hx; [apply Ew|]. destruct (flag flags NC_CLEAR); by apply not_elem_of_nil in Hx.
Qed.

Lemma wp_seek_loop_alloc s c l i x n flags :
  ready s -> file_chain s c l -> flag flags NC_ALLOC = true -> l !! i = Some x ->
  wp (seek_loop n x flags) s (extend_result s c l (i + n) flags).
Proof.
  intros Hs Hch Hflag. revert s l i x Hs Hch. induction n as [|n IH]; intros s l i x Hs Hch Hi;
    pose proof (lookup_lt_Some _ _ _ Hi).
  - apply wp_ret. rewrite Nat.add_0_r. apply extend_result_refl; try done. split; [done|lia].
  - cbn [seek_loop]. replace (i + S n)%nat with (S i + n)%nat by lia.
    destruct (l !! S i) as [y|] eqn:Hy.
    + eapply wp_call_ok; [by eapply wp_next_in_chain|]. intros v s1 [-> Hs1].
      eapply wp_mono; [apply (IH s1 l (S i) y); [by rewrite <- Hs1..|done]|].
      intros r s2. by apply extend_result_equiv.
    + pose proof Hy as Hy'. apply lookup_ge_None in Hy'. assert (S i = length l) as Hlen by lia.
      eapply wp_call; [by eapply (wp_next_at_end s c l i)|].
      intros r s1. rewrite Hflag. destruct r as [m|e| | |]; try done; cbn [wpk alloc_result].
      * intros (_ & _ & Hpost).
        destruct (alloc_post_chain s flags c l x m s1) as (Hch1 & _ & Hk1); try done; [apply Hs| |].
        { rewrite last_lookup, <- Hlen. done. }
        eapply wp_mono; [eapply (IH s1 (l ++ [m]) (S i) m)|].
        -- by eapply alloc_post_ready.
        -- done.
        -- rewrite lookup_app_r, Hlen, Nat.sub_diag by lia. done.
        -- intros r s2. pose proof (alloc_post_data _ _ _ _ _ (ready_usable _ Hs) Hpost).
           pose proof (alloc_post_blocks _ _ _ _ _ (ready_usable _ Hs) Hpost).
           destruct Hpost as (_ & Hf & Hv & Hh & _).
           apply extend_result_snoc; [done..|by rewrite Hf|done|done|done|lia].
      * intros (-> & Hs1 & _). apply extend_result_refl; try done. split; [done|lia].
Qed.

(** C27: [fat32_seek_cluster] with [NC_ALLOC] returns the [skip]-th cluster,
    extending the chain by exactly the clusters that were missing; when the
    volume is full it reports ENOSPC and the chain, extended as far as there was
    room, is still well formed. *)
Theorem seek_cluster_extends s c l skip flags :
  ready s -> file_chain s c l -> flag flags NC_ALLOC = true -> 0 <= skip ->
  wp (fat32_seek_cluster c skip flags) s (extend_result s c l (Z.to_nat skip) flags).
Proof.
  intros Hs Hch Hflag Hskip. destruct (chain_head _ _ _ _ Hch) as [l' ->]. unfold fat32_seek_cluster.
  destruct (Z.eqb_spec skip 0) as [->|]; [|by apply (wp_seek_loop_alloc s c (c :: l') 0)].
  by apply (wp_seek_loop_alloc s c (c :: l') 0 c 0 flags).
Qed.

End next.

Lemma demo_ready : ready demo.
Proof. split; [split|done]; [apply demo_wf|apply demo_readable|]. apply demo_view. by left. Qed.

Lemma demo_chain : file_chain demo 3 [3; 5; 6].
Proof.
  assert (fat demo 3 = 5) as E3 by (vm_compute; reflexivity).
  assert (fat demo 5 = 6) as E5 by (vm_compute; reflexivity).
  assert (fat demo 6 = FAT32_CLUSTER_EOC) as E6 by (vm_compute; reflexivity).
  assert (forall c, 2 <= c <= 21 -> in_range (fsi demo) c) as Hr by (intros; unfold in_range; cbn; lia).
  apply chain_link; rewrite ?E3; [apply Hr; lia..|]. apply chain_link; rewrite ?E5; [apply Hr; lia..|].
  apply chain_end; [apply Hr; lia|]. by rewrite E6.
Qed.

Lemma next_cluster_correct_witness :
  wp (fat32_next_cluster 6 0) demo (fun r s' =>
    demo ≡ s' /\ r = if decide (in_range (fsi demo) 6) then next_result (fsi demo) (fat demo 6) else Err EINVAL).
Proof. apply next_cluster_correct; [apply demo_ready|reflexivity]. Defined.

Lemma next_cluster_appends_witness :
  wp (fat32_next_cluster 6 NC_ALLOC) demo (fun r s' =>
    match r with
    | Ok n => file_chain s' 3 ([3; 5; 6] ++ [n]) /\ n ∉ [3; 5; 6] /\ ready s' /\
              forall c2 l2, file_chain demo c2 l2 -> 6 ∉ l2 -> file_chain s' c2 l2 /\ n ∉ l2
    | Err e => e = ENOSPC /\ demo ≡ s'
    | _ => False
    end).
Proof. apply next_cluster_appends; [apply demo_ready|apply demo_chain|reflexivity..]. Defined.

Lemma seek_cluster_correct_witness :
  wp (fat32_seek_cluster 3 2 0) demo (fun r s' => demo ≡ s' /\ r = Ok 6).
Proof. apply (seek_cluster_correct demo 3 [3; 5; 6] 2 0); [apply demo_ready|apply demo_chain|reflexivity|lia]. Defined.

Lemma seek_cluster_extends_witness :
  wp (fat32_seek_cluster 3 4 NC_ALLOC) demo (extend_result demo 3 [3; 5; 6] 4 NC_ALLOC).
Proof. apply (seek_cluster_extends demo 3 [3; 5; 6] 4); [apply demo_ready|apply demo_chain|reflexivity|lia]. Defined.
