(* ===== verification/Free.v ===== *)
(** * Freeing chains ([fat32_free_clusters]) and the free count

    Termination on every FAT, cyclic and damaged ones included; the effect on a
    well-formed chain; and the agreement of the cached free count with the
    number of free entries as an invariant of allocation and freeing. *)
From S2P Require Import Prelude Layout Time Kernel Device Cls Fat Demo Alloc Chain.

(** ** Counting *)

Definition count_if (p : Z -> bool) (l : list Z) : Z :=
  foldr (fun x n => Z.b2z (p x) + n) 0 l.

Lemma count_if_range p l : 0 <= count_if p l <= Z.of_nat (length l).
Proof.
  induction l as [|x l IH]; [done|]. unfold count_if in *. cbn [foldr length].
  destruct (p x); cbn [Z.b2z]; lia.
Qed.

Lemma count_if_ext p q l : (forall x, x ∈ l -> p x = q x) -> count_if p l = count_if q l.
Proof.
  induction l as [|x l IH]; intros H; [done|]. unfold count_if in *. cbn [foldr]. rewrite (H x) by apply list_elem_of_here.
  rewrite IH; [done|]. intros y Hy. apply H. by apply list_elem_of_further.
Qed.

(** A predicate that changes at one point. *)
Lemma count_if_upd p q l c :
  NoDup l -> c ∈ l -> (forall x, x ∈ l -> x <> c -> q x = p x) ->
  count_if q l = count_if p l + Z.b2z (q c) - Z.b2z (p c).
Proof.
  induction l as [|x l IH]; intros Hnd Hc H; [by apply not_elem_of_nil in Hc|].
  apply NoDup_cons in Hnd as [Hx Hnd]. unfold count_if in *. cbn [foldr]. destruct (decide (x = c)) as [->|Hne].
  - fold (count_if q l) (count_if p l). rewrite (count_if_ext q p l); [lia|]. intros y Hy.
    apply H; [by apply list_elem_of_further|]. by intros ->.
  - apply elem_of_cons in Hc as [->|Hc]; [done|].
    rewrite (H x); [|apply list_elem_of_here|done]. rewrite IH; [lia|done..|].
    intros y Hy. apply H. by apply list_elem_of_further.
Qed.

Definition clusters (f : fat32fs_info) : list Z := seqZ 2 (fsi_cluster_count f).

Lemma elem_of_clusters f c : c ∈ clusters f <-> in_range f c.
Proof. unfold clusters, in_range. rewrite elem_of_seqZ. lia. Qed.

Section free.
Context {K : Type} `{!Kernel K, !KernelLaws K}.
Implicit Types s : st K.

(** The number of free entries. *)
Definition nfree s : Z := count_if (fun c => fat s c =? FAT32_CLUSTER_FREE) (clusters (fsi s)).

Lemma nfree_range s : fs_wf (fsi s) -> 0 <= nfree s <= fsi_cluster_count (fsi s).
Proof.
  intros Hwf. pose proof (count_if_range (fun c => fat s c =? FAT32_CLUSTER_FREE) (clusters (fsi s))) as H.
  replace (length (clusters (fsi s))) with (Z.to_nat (fsi_cluster_count (fsi s))) in H
    by (unfold clusters; by rewrite length_seqZ).
  destruct Hwf. unfold nfree. lia.
Qed.

Lemma nfree_upd s c s' :
  geom (fsi s') = geom (fsi s) -> in_range (fsi s) c ->
  (forall x, in_range (fsi s) x -> x <> c ->
     fat s' x = FAT32_CLUSTER_FREE <-> fat s x = FAT32_CLUSTER_FREE) ->
  nfree s' = nfree s + Z.b2z (fat s' c =? FAT32_CLUSTER_FREE) - Z.b2z (fat s c =? FAT32_CLUSTER_FREE).
Proof.
  intros Hg Hc H. unfold nfree.
  change (clusters (fsi s')) with (clusters (geom (fsi s'))). rewrite Hg.
  change (clusters (geom (fsi s))) with (clusters (fsi s)).
  rewrite (count_if_upd (fun x => fat s x =? FAT32_CLUSTER_FREE)
    (fun x => fat s' x =? FAT32_CLUSTER_FREE) (clusters (fsi s)) c); [done| | |].
  - apply NoDup_seqZ.
  - by apply elem_of_clusters.
  - intros x Hx Hne. apply elem_of_clusters in Hx. apply eq_true_iff_eq. rewrite !Z.eqb_eq. by apply H.
Qed.

(** ** One entry *)

Lemma fat_upd_free s c s' x :
  fs_wf (fsi s) -> fat_upd s c FAT32_CLUSTER_FREE s' -> in_range (fsi s) x ->
  fat s' x = if decide (x = c) then FAT32_CLUSTER_FREE else fat s x.
Proof. intros Hwf Hu Hx. by rewrite (fat_upd_fat _ _ _ _ _ Hwf Hu Hx). Qed.

Lemma fat_upd_fsi s c v s' : fat_upd s c v s' -> fsi s' = fsi s.
Proof. intros [(? & _) _]. done. Qed.

Lemma nfree_free s c s' :
  fs_wf (fsi s) -> fat_upd s c FAT32_CLUSTER_FREE s' -> in_range (fsi s) c ->
  nfree s' = nfree s + 1 - Z.b2z (fat s c =? FAT32_CLUSTER_FREE).
Proof.
  intros Hwf Hu Hc. rewrite (nfree_upd s c s'); [|by rewrite (fat_upd_fsi _ _ _ _ Hu)|done|].
  - rewrite (fat_upd_free s c s') by done. rewrite decide_True by done. cbn. lia.
  - intros x Hx Hne. rewrite (fat_upd_free s c s') by done. by rewrite decide_False.
Qed.

(** ** Termination *)

(** The loop has room for one more round while [current] is a data cluster. *)
Definition free_measure (x : Z * Z) s : nat :=
  Z.to_nat (fsi_cluster_count (fsi s) - nfree s +
            Z.b2z ((FAT32_CLUSTER_MIN <=? x.1) && (x.1 <? FAT32_CLUSTER_EOC_MIN))).

Lemma wp_free_step x s :
  fs_wf (fsi s) -> fat_readable s ->
  wp (free_step x) s (fun r s' => match r with
    | Ok (inl x') => fs_wf (fsi s') /\ fat_readable s' /\ fat_frame s s' /\
                     (free_measure x' s' < free_measure x s)%nat
    | Ok (inr _) => s' = s
    | Err e => e = EINVAL /\ s' = s
    | _ => False
    end).
Proof.
  intros Hwf Hread. destruct x as [c n]. unfold free_step.
  destruct ((FAT32_CLUSTER_MIN <=? c) && (c <? FAT32_CLUSTER_EOC_MIN)) eqn:Hb; [|by apply wp_ret].
  destruct (decide (in_range (fsi s) c)) as [Hc|Hc].
  - eapply wp_call_ok; [by apply wp_rmw_write|]. intros v s1 [-> Hu]. apply wp_ret.
    pose proof (fat_upd_fsi _ _ _ _ Hu) as Hf.
    split_and!; [by rewrite Hf|eauto with fat32|apply Hu|].
    pose proof (nfree_free _ _ _ Hwf Hu Hc) as Hn. pose proof (nfree_range _ Hwf).
    assert (0 <= nfree s1 <= fsi_cluster_count (fsi s)) as Hn1.
    { rewrite <- Hf. apply nfree_range. by rewrite Hf. }
    unfold free_measure. cbn [fst]. rewrite Hf, Hb. clear Hb.
    destruct (Z.eqb_spec (fat s c) FAT32_CLUSTER_FREE) as [E|E].
    + rewrite E. cbn in *. lia.
    + destruct (_ && _); cbn in *; lia.
  - eapply wp_call; [by apply wp_rmw_invalid|]. by intros r s1 [-> ->].
Qed.

Lemma wp_free_loop s x fuel :
  fs_wf (fsi s) -> fat_readable s -> fsi_cluster_count (fsi s) + 1 < Z.of_nat fuel ->
  wp (iter fuel free_step x) s (fun r s' => fat_frame s s' /\ fat_readable s' /\
    match r with Ok _ => True | Err e => e = EINVAL | _ => False end).
Proof.
  intros Hwf Hread Hfuel.
  apply (wp_iter _ (fun _ s1 => fs_wf (fsi s1) /\ fat_readable s1 /\ fat_frame s s1) free_measure).
  - intros x1 s1 (Hwf1 & Hr1 & Hfr1). eapply wp_mono; [by apply wp_free_step|].
    intros [[x'|v]|e| | |] s2; try done.
    + intros (? & ? & ? & ?). split_and!; try done. by eapply fat_frame_trans.
    + intros ->. done.
    + intros [-> ->]. done.
  - split_and!; done || by apply fat_frame_refl.
  - unfold free_measure. pose proof (nfree_range _ Hwf). destruct (_ && _); cbn; lia.
Qed.

(** ** The FSInfo update *)

Definition fsinfo_free (free : Z) (d : list Z) : list Z :=
  set_field FsInfo.fat32_fsinfo d FsInfo.free_count (WLE32 free).

Lemma wp_free_update_fsinfo s n :
  is_Some (view (kst s) (fsi_fsinfo_sector (fsi s)) 1) ->
  wp (free_update_fsinfo n) s (okp (fun _ s' =>
    if decide (0 < n /\ fsi_free_count (fsi s) <> 0xFFFFFFFF)
    then fsinfo_upd s (fsinfo_free (u32 (fsi_free_count (fsi s) + n)))
           (set_fsi_free_count (u32 (fsi_free_count (fsi s) + n))) s'
    else s ≡ s')).
Proof.
  intros [d Hd]. unfold free_update_fsinfo. destruct (Z.ltb_spec 0 n).
  2:{ apply wp_ret. cbn [okp]. by rewrite decide_False by lia. }
  repeat wp_step. eapply wp_call_ok; [by apply wp_do_bread|].
  intros bp s1 (Eb & En & Ee & Ea & Hs1). rewrite Ee.
  destruct (Z.eqb_spec (fsi_free_count (fsi s)) 0xFFFFFFFF) as [E|E]; cbn [negb].
  { eapply wp_mono; [apply wp_do_brelse; by eapply bread_clean|]. intros [[]| | | |] s2; try done. cbn [okp].
    intros Hs2. rewrite decide_False by tauto. by etrans. }
  cbn zeta. destruct (block_bytes _ _ _ Hd) as [Hl Hby]. rewrite Ea, bsub_all by done. cbn [of_opt].
  repeat wp_step. fold (fsinfo_free (u32 (fsi_free_count (fsi s) + n)) d).
  destruct Hs1 as (Ef1 & Ev1 & Eh1 & Ew1).
  eapply wp_call_ok; [apply (wp_do_bdwrite s1 (set_b_addr _ bp) d)|];
    cbn [b_blkno b_bcount b_addr set_b_addr]; rewrite ?Eb, ?En, ?Ew1; try (done || lia).
  { rewrite Hl. unfold fsinfo_free. by rewrite set_field_length. }
  { unfold fsinfo_free. eauto with fat32. }
  intros [] s2 (Ef2 & Ev2 & Eh2 & Hsame & Hoth). repeat wp_step. cbn [okp].
  rewrite decide_True by done.
  split_and!; cbn [fsi fvs held kst set_fsi]; try congruence; [eauto|].
  intros b n' Hb. rewrite Hoth by done. apply Ew1.
Qed.

(** ** A well-formed chain *)

(** The entries of [l] are free, all else in the FAT is as before. *)
Definition freed s (l : list Z) s' : Prop :=
  fat_frame s s' /\ fat_readable s' /\ (mirrored s -> mirrored s') /\
  forall x, in_range (fsi s) x -> fat s' x = if decide (x ∈ l) then FAT32_CLUSTER_FREE else fat s x.

Lemma wp_free_head s c n :
  fs_wf (fsi s) -> fat_readable s -> in_range (fsi s) c -> 0 <= n < 2 ^ 32 - 1 ->
  wp (free_step (c, n)) s (okp (fun r s' => r = inl (fat s c, n + 1) /\ freed s [c] s')).
Proof.
  intros Hwf Hread Hc Hn. unfold free_step. pose proof (in_range_not_eoc _ _ Hwf Hc).
  rewrite (proj2 (Z.leb_le FAT32_CLUSTER_MIN c)) by (unfold in_range, FAT32_CLUSTER_MIN in *; lia).
  rewrite (proj2 (Z.ltb_lt _ _)) by done. cbn [andb].
  eapply wp_call_ok; [by apply wp_rmw_write|]. intros v s1 [-> Hu]. apply wp_ret. cbn [okp].
  rewrite u32_small by lia. split; [done|].
  split_and!; [apply Hu|eauto with fat32|by eapply fat_upd_mirrored|].
  intros x Hx. rewrite (fat_upd_free s c s1) by done.
  destruct (decide (x = c)) as [->|Hne].
  - by rewrite decide_True by apply list_elem_of_here.
  - rewrite decide_False; [done|]. by rewrite list_elem_of_singleton.
Qed.

Lemma freed_trans s1 l1 s2 l2 s3 :
  freed s1 l1 s2 -> freed s2 l2 s3 -> freed s1 (l1 ++ l2) s3.
Proof.
  intros (Hf1 & Hr1 & Hm1 & H1) (Hf2 & Hr2 & Hm2 & H2).
  assert (fsi s2 = fsi s1) as Hf by apply Hf1.
  split_and!; [by eapply fat_frame_trans|done|auto|]. intros x Hx.
  rewrite H2 by (by rewrite Hf). rewrite H1 by done.
  destruct (decide (x ∈ l2)); [rewrite decide_True; [done|apply elem_of_app; auto]|].
  destruct (decide (x ∈ l1)); [rewrite decide_True; [done|apply elem_of_app; auto]|].
  rewrite decide_False; [done|]. rewrite elem_of_app. tauto.
Qed.

Lemma freed_chain s c s' c2 l2 :
  file_chain s c2 l2 -> freed s c s' -> (forall x, x ∈ l2 -> x ∉ c) -> file_chain s' c2 l2.
Proof.
  intros Hch (Hfr & _ & _ & Hfat) Hdis. unfold file_chain in *.
  assert (fsi s' = fsi s) as Hf by apply Hfr. rewrite Hf. eapply chain_ext; [done|].
  intros x Hx. pose proof (chain_range _ _ _ _ Hch) as Hr. rewrite Forall_forall in Hr.
  rewrite Hfat by auto. rewrite decide_False; auto.
Qed.

Lemma wp_free_chain s c l n fuel :
  fs_wf (fsi s) -> fat_readable s -> file_chain s c l -> NoDup l ->
  0 <= n -> n + Z.of_nat (length l) < 2 ^ 32 -> (length l < fuel)%nat ->
  wp (iter fuel free_step (c, n)) s (okp (fun m s' => m = n + Z.of_nat (length l) /\ freed s l s')).
Proof.
  revert s c n fuel. induction l as [|x l IH]; intros s c n fuel Hwf Hread Hch Hnd Hn Hlen Hfuel;
    [inversion Hch|].
  destruct fuel as [|fuel]; [lia|]. cbn [iter length] in *.
  pose proof (chain_head _ _ _ _ Hch) as [l' [= -> ->]].
  pose proof (chain_range _ _ _ _ Hch) as Hr. apply Forall_cons_1 in Hr as [Hc _].
  apply NoDup_cons in Hnd as [Hnot Hnd].
  eapply wp_call_ok; [apply wp_free_head; [done..|lia]|]. intros r s1 [-> Hfr].
  assert (fsi s1 = fsi s) as Hf by apply Hfr. inversion Hch as [? _ Heoc|? ? _ Hg Hch']; subst.
  - destruct fuel as [|fuel]; [cbn in *; lia|]. cbn [iter]. unfold free_step at 1.
    rewrite (proj2 (Z.ltb_ge _ _) Heoc), andb_false_r. repeat wp_step. done.
  - eapply wp_mono; [eapply (IH s1); try done|].
    + by rewrite Hf.
    + apply Hfr.
    + eapply freed_chain; [exact Hch'|done|]. intros x Hx ->%list_elem_of_singleton. done.
    + lia.
    + lia.
    + lia.
    + intros [m| | | |] s2; try done. cbn [okp]. intros [-> Hfr2]. split; [lia|].
      apply (freed_trans _ [c] _ _ _ Hfr Hfr2).
Qed.

(** ** The whole operation *)

(** The entries of [l] become free, those of [kept] end a chain. *)
Definition relinked s (kept l : list Z) s' : Prop :=
  fat_frame s s' /\ fat_readable s' /\ (mirrored s -> mirrored s') /\
  forall x, in_range (fsi s) x -> fat s' x =
    if decide (x ∈ l) then FAT32_CLUSTER_FREE
    else if decide (x ∈ kept) then FAT32_CLUSTER_EOC else fat s x.

Definition count_known s (l : list Z) : Prop := l <> [] /\ fsi_free_count (fsi s) <> 0xFFFFFFFF.

(** [relinked], with the counters of FSInfo and of the mount structure. *)
Definition free_post s (kept l : list Z) s' : Prop :=
  fvs s' = fvs s /\ held s' = held s /\ fat_readable s' /\ (mirrored s -> mirrored s') /\
  (forall x, in_range (fsi s) x -> fat s' x =
    if decide (x ∈ l) then FAT32_CLUSTER_FREE
    else if decide (x ∈ kept) then FAT32_CLUSTER_EOC else fat s x) /\
  (let free := u32 (fsi_free_count (fsi s) + Z.of_nat (length l)) in
   fsi s' = (if decide (count_known s l) then set_fsi_free_count free (fsi s) else fsi s) /\
   exists d, view (kst s) (fsi_fsinfo_sector (fsi s)) 1 = Some d /\
     view (kst s') (fsi_fsinfo_sector (fsi s)) 1 =
       Some (if decide (count_known s l) then fsinfo_free free d else d)) /\
  (forall b n, outside_fat (fsi s) b n -> chunks_disjoint (fsi_fsinfo_sector (fsi s)) 1 b n ->
    view (kst s') b n = view (kst s) b n).

Lemma fsinfo_outside f : fs_wf f -> outside_fat f (fsi_fsinfo_sector f) 1.
Proof. intros []. unfold outside_fat, chunks_disjoint. nia. Qed.

(** Bookkeeping after the FAT has been changed. *)
Lemma relinked_finish s kept l s1 s2 :
  usable s -> relinked s kept l s1 ->
  (if decide (0 < Z.of_nat (length l) /\ fsi_free_count (fsi s1) <> 0xFFFFFFFF)
   then fsinfo_upd s1 (fsinfo_free (u32 (fsi_free_count (fsi s1) + Z.of_nat (length l))))
          (set_fsi_free_count (u32 (fsi_free_count (fsi s1) + Z.of_nat (length l)))) s2
   else s1 ≡ s2) -> free_post s kept l s2.
Proof.
  intros [Hwf _ [d Hd]] ((Hf & Hv & Hh & Hw & _) & Hr & Hm & Hfat) Hupd.
  pose proof (fsinfo_outside _ Hwf) as Hout.
  assert (fs_wf (fsi s1)) as Hwf1 by (by rewrite Hf).
  assert (count_known s l <-> 0 < Z.of_nat (length l) /\ fsi_free_count (fsi s1) <> 0xFFFFFFFF) as Hiff.
  { unfold count_known. rewrite Hf. destruct l; cbn [length]; naive_solver lia. }
  unfold free_post. case_decide as Hdec.
  - apply Hiff in Hdec. assert (fat_same s1 s2) as Hsame by (by eapply fsinfo_upd_same; [| |exact Hupd]).
    destruct Hupd as (Hf2 & Hv2 & Hh2 & (d' & Hd' & Hd2) & Hw2). rewrite Hf in *.
    rewrite Hw, Hd in Hd' by done. injection Hd' as <-.
    rewrite !decide_True by done. split_and!; try congruence.
    + by eapply fat_same_readable; [|done|]; rewrite ?Hf.
    + intros. eapply fat_same_mirrored; [|done|]; rewrite ?Hf; auto.
    + intros x Hx. rewrite (fat_same_fat s1 s2) by (rewrite ?Hf; done). auto.
    + exists d. by rewrite decide_True.
    + intros b n Hb1 Hb2. rewrite Hw2 by done. by apply Hw.
  - rewrite <- Hiff in Hdec. destruct Hupd as (Hf2 & Hv2 & Hh2 & Hw2). assert (s1 ≡ s2) as Hs by done.
    rewrite !decide_False by done. split_and!; try congruence.
    + by apply (fat_readable_proper _ _ Hs).
    + intros. by apply (mirrored_proper _ _ Hs), Hm.
    + intros x Hx. rewrite <- Hs. auto.
    + exists d. rewrite Hw2, Hw by done. by rewrite decide_False.
    + intros b n Hb1 Hb2. rewrite Hw2. by apply Hw.
Qed.

Lemma chain_length_bound s c l :
  fs_wf (fsi s) -> file_chain s c l -> Z.of_nat (length l) <= fsi_cluster_count (fsi s).
Proof.
  intros Hwf Hch.
  assert (length l <= length (clusters (fsi s)))%nat as H.
  { apply submseteq_length, NoDup_submseteq; [by eapply chain_NoDup|].
    intros x Hx. apply elem_of_clusters. pose proof (chain_range _ _ _ _ Hch) as Hr.
    rewrite Forall_forall in Hr. auto. }
  unfold clusters in H. rewrite length_seqZ in H. destruct Hwf. lia.
Qed.

(** Freeing the chain [l] from [c], after entries [kept] have been cut off. *)
Lemma wp_free_from s0 s kept c l :
  usable s0 -> relinked s0 kept [] s -> file_chain s c l -> (forall x, x ∈ kept -> x ∉ l) ->
  wp (let* freed_count := iter (Z.to_nat (fsi_cluster_count (fsi s0) + 3)) free_step (c, 0) in
      free_update_fsinfo freed_count) s (okp (fun _ s' => free_post s0 kept l s')).
Proof.
  intros Hs0 Hre Hch Hdis. pose proof (usable_wf _ Hs0) as Hwf0.
  pose proof Hre as (Hfr & Hr & Hm & Hfat). assert (fsi s = fsi s0) as Hf by apply Hfr.
  assert (fs_wf (fsi s)) as Hwf by (by rewrite Hf).
  pose proof (chain_length_bound _ _ _ Hwf Hch) as Hlen. rewrite Hf in Hlen. pose proof Hwf0 as [].
  eapply wp_call_ok; [eapply wp_free_chain; try done; [by eapply chain_NoDup|lia..]|].
  intros m s1 [-> Hfreed].
  assert (relinked s0 kept l s1) as Hre1.
  { destruct Hfreed as (Hfr1 & Hr1 & Hm1 & Hfat1). rewrite Hf in Hfat1.
    split_and!; [by eapply fat_frame_trans|done|auto|]. intros x Hx. rewrite Hfat1, Hfat by done.
    case_decide; [done|]. rewrite decide_False; [done|]. apply not_elem_of_nil. }
  assert (fsi s1 = fsi s0) as Hf1 by apply Hre1.
  eapply wp_mono; [apply wp_free_update_fsinfo|].
  - destruct Hre1 as ((_ & _ & _ & Hw & _) & _). rewrite Hf1, Hw by (by apply fsinfo_outside).
    apply Hs0.
  - intros [[]| | | |] s2; try done. cbn [okp]. intros Hupd. eapply relinked_finish; done.
Qed.

Lemma relinked_nil s : fat_readable s -> relinked s [] [] s.
Proof.
  intros Hr. split_and!; [by apply fat_frame_refl|done|done|]. intros x Hx.
  by rewrite !decide_False by apply not_elem_of_nil.
Qed.

Lemma free_post_none s kept s' : usable s -> relinked s kept [] s' -> free_post s kept [] s'.
Proof. intros Hs Hre. eapply relinked_finish; [done..|]. rewrite decide_False; [done|]. cbn. lia. Qed.

Lemma wp_free_locked s c l (free_start : bool) :
  usable s -> file_chain s c l ->
  wp (free_clusters_locked c free_start) s (okp (fun _ s' =>
    if free_start then free_post s [] l s' else free_post s [c] (tail l) s')).
Proof.
  intros Hs Hch. unfold free_clusters_locked. repeat wp_step. destruct free_start; repeat wp_step.
  { eapply wp_free_from; [done|by apply relinked_nil, Hs|done|]. intros x Hx. by apply not_elem_of_nil in Hx. }
  pose proof (usable_wf _ Hs) as Hwf.
  pose proof (chain_NoDup _ _ _ _ Hwf Hch) as Hnd.
  destruct (chain_head _ _ _ _ Hch) as [l' ->]. apply NoDup_cons in Hnd as [Hnot Hnd].
  pose proof (chain_range _ _ _ _ Hch) as Hrg. apply Forall_cons_1 in Hrg as [Hc _].
  eapply wp_call_ok; [apply wp_rmw_write; try done; by apply Hs|].
  intros v s1 [-> Hu]. repeat wp_step.
  pose proof (fat_upd_linked _ _ _ Hwf Hu) as (Hfr & Hm & Hfat).
  assert (relinked s [c] [] s1) as Hre.
  { split_and!; [done|eapply fat_upd_readable; [done|by apply Hs]|done|]. intros x Hx.
    rewrite (fat_upd_fat _ _ _ _ _ Hwf Hu Hx). rewrite (decide_False (P := x ∈ [])) by apply not_elem_of_nil.
    destruct (decide (x = c)) as [->|].
    - rewrite decide_True; [done|apply list_elem_of_here].
    - rewrite decide_False; [done|]. by rewrite list_elem_of_singleton. }
  cbn [tail]. inversion Hch as [? _ Heoc|? ? _ Hg Hch']; subst.
  - rewrite (proj2 (Z.leb_le _ _) Heoc). apply wp_ret. by apply free_post_none.
  - pose proof (in_range_not_eoc _ _ Hwf Hg). rewrite (proj2 (Z.leb_gt _ _)) by done.
    eapply wp_free_from; [done..| |].
    + assert (fsi s1 = fsi s) as Hf by apply Hfr. unfold file_chain in *. rewrite Hf.
      eapply chain_ext; [done|]. intros x Hx. pose proof (chain_range _ _ _ _ Hch') as Hr'.
      rewrite Forall_forall in Hr'. rewrite (fat_upd_fat _ _ _ _ _ Hwf Hu) by auto.
      rewrite decide_False; [done|]. by intros ->.
    + by intros x ->%list_elem_of_singleton.
Qed.

Lemma free_clusters_unfold s c free_start Q :
  ready s ->
  (in_range (fsi s) c ->
   wp (free_clusters_locked c free_start) (set_held (<[FsiLock := MrUpdate]> (held s)) s) (fun r s' =>
     held s' = <[FsiLock := MrUpdate]> (held s) /\ Q r (release FsiLock s') /\
     match r with Ok _ | Err _ => True | _ => False end)) ->
  (~ in_range (fsi s) c -> Q (Err EINVAL) s) ->
  wp (fat32_free_clusters c free_start) s Q.
Proof.
  intros Hs Hin Hout. unfold fat32_free_clusters. repeat wp_step.
  destruct (decide (in_range (fsi s) c)) as [Hc|Hc].
  - rewrite range_check_true by (done || apply Hs). apply wp_locked; [apply Hs|].
    eapply wp_mono; [by apply Hin|]. intros r s' (Hh & HQ & Hr). split_and!; try done.
    rewrite Hh, lookup_insert_eq. eauto.
  - rewrite range_check_false by (done || apply Hs). apply wp_throw. auto.
Qed.

Lemma free_post_release s kept l s' :
  held s !! FsiLock = None ->
  free_post (set_held (<[FsiLock := MrUpdate]> (held s)) s) kept l s' ->
  free_post s kept l (release FsiLock s').
Proof.
  intros Hl (Hv & Hh & Hpost). split; [done|]. split; [|exact Hpost].
  eapply (release_acquire _ MrUpdate); [done|exact Hh].
Qed.

Lemma wp_free_clusters s c l free_start :
  ready s -> file_chain s c l ->
  wp (fat32_free_clusters c free_start) s (okp (fun _ s' =>
    if free_start then free_post s [] l s' else free_post s [c] (tail l) s')).
Proof.
  intros Hs Hch. apply free_clusters_unfold; [done| |].
  - intros Hc. destruct Hs as [Hu Hl].
    eapply wp_mono.
    { apply (wp_free_locked (set_held (<[FsiLock := MrUpdate]> (held s)) s) c l); [|exact Hch].
      by destruct Hu. }
    intros [[]| | | |] s'; try done. cbn [okp]. intros Hpost.
    split; [destruct free_start; apply Hpost|]. split; [|done].
    destruct free_start; by apply free_post_release.
  - intros Hc. destruct Hc. destruct (chain_head _ _ _ _ Hch) as [l' ->].
    apply chain_range in Hch. by apply Forall_cons_1 in Hch as [? _].
Qed.

(** C9: on a file's chain, [fat32_free_clusters] frees every cluster (or, with
    [free_start] false, every cluster but the first, which then ends the chain)
    in all copies of the FAT, and changes no other entry; the free count in the
    mount structure and in FSInfo grows by the number of freed clusters unless
    it is unknown; nothing outside the FAT and FSInfo is written. *)
Theorem free_clusters_correct s c l free_start :
  ready s -> file_chain s c l ->
  wp (fat32_free_clusters c free_start) s (okp (fun _ s' =>
    if free_start then free_post s [] l s' else free_post s [c] (tail l) s')).
Proof. apply wp_free_clusters. Qed.

Lemma wp_free_locked_any s c free_start :
  usable s -> in_range (fsi s) c ->
  wp (free_clusters_locked c free_start) s (fun r s' => held s' = held s /\
    match r with Ok _ => True | Err e => e = EINVAL | _ => False end).
Proof.
  intros Hs Hc. pose proof (usable_wf _ Hs) as Hwf. unfold free_clusters_locked. repeat wp_step.
  assert (forall s1 c1, fat_frame s s1 -> fat_readable s1 ->
    wp (let* freed_count := iter (Z.to_nat (fsi_cluster_count (fsi s) + 3)) free_step (c1, 0) in
        free_update_fsinfo freed_count) s1 (fun r s' => held s' = held s /\
    match r with Ok _ => True | Err e => e = EINVAL | _ => False end)) as Hgo.
  { intros s1 c1 Hfr Hr1. assert (fsi s1 = fsi s) as Hf by apply Hfr.
    eapply wp_call; [apply wp_free_loop; rewrite ?Hf; try done; destruct Hwf; lia|].
    intros r s2 (Hfr2 & Hr2 & Hres).
    assert (fat_frame s s2) as (Hf2 & _ & Hh2 & Hw2 & _) by (by eapply fat_frame_trans).
    destruct r; try done; cbn [wpk].
    eapply wp_mono; [apply wp_free_update_fsinfo|].
    { rewrite Hf2, Hw2 by (by apply fsinfo_outside). apply Hs. }
    intros [[]| | | |] s3; try done. cbn [okp]. intros Hupd. split; [|done].
    case_decide; destruct Hupd as (_ & _ & Hh & _); congruence. }
  destruct free_start; repeat wp_step.
  - apply Hgo; [by apply fat_frame_refl|apply Hs].
  - eapply wp_call_ok; [apply wp_rmw_write; try done; by apply Hs|].
    intros v s1 [-> Hu]. repeat wp_step. destruct (FAT32_CLUSTER_EOC_MIN <=? fat s c).
    + apply wp_ret. split; [apply Hu|done].
    + apply Hgo; [apply Hu|]. eapply fat_upd_readable; [done|apply Hs].
Qed.

(** C25: [fat32_free_clusters] returns on every FAT, cyclic chains, cross links
    and links out of range included: it succeeds or reports EINVAL, never
    exhausts the [cluster_count + 3] rounds of its loop, and always releases
    [fsi_lock]. *)
Theorem free_clusters_terminates s c free_start :
  ready s ->
  wp (fat32_free_clusters c free_start) s (fun r s' => held s' = held s /\
    match r with Ok _ => True | Err e => e = EINVAL | _ => False end).
Proof.
  intros Hs. apply free_clusters_unfold; [done| |done].
  intros Hc. destruct Hs as [Hu Hl].
  eapply wp_mono.
  { apply (wp_free_locked_any (set_held (<[FsiLock := MrUpdate]> (held s)) s)); [by destruct Hu|exact Hc]. }
  intros r s' [Hh Hr]. split; [exact Hh|]. split; [split; [|done]|by destruct r].
  eapply (release_acquire _ MrUpdate); [done|exact Hh].
Qed.

(** ** The free count *)

Lemma count_if_free h l (L : list Z) :
  NoDup L -> NoDup l -> (forall x, x ∈ l -> x ∈ L /\ h x <> FAT32_CLUSTER_FREE) ->
  count_if (fun x => (if decide (x ∈ l) then FAT32_CLUSTER_FREE else h x) =? FAT32_CLUSTER_FREE) L =
  count_if (fun x => h x =? FAT32_CLUSTER_FREE) L + Z.of_nat (length l).
Proof.
  intros HL. induction l as [|c l IH]; intros Hnd Hl.
  { cbn [length]. rewrite Z.add_0_r. apply count_if_ext. intros x _.
    by rewrite decide_False by apply not_elem_of_nil. }
  apply NoDup_cons in Hnd as [Hnot Hnd]. destruct (Hl c) as [Hc Hh]; [apply list_elem_of_here|].
  rewrite (count_if_upd
    (fun x => (if decide (x ∈ l) then FAT32_CLUSTER_FREE else h x) =? FAT32_CLUSTER_FREE) _ L c); [|done..|].
  - rewrite IH; [|done|intros; apply Hl; by apply list_elem_of_further].
    rewrite decide_True by apply list_elem_of_here. rewrite decide_False by done.
    rewrite (proj2 (Z.eqb_neq _ _) Hh). rewrite Z.eqb_refl. cbn [length Z.b2z]. lia.
  - intros x _ Hne. destruct (decide (x ∈ l)).
    + rewrite decide_True; [done|by apply list_elem_of_further].
    + rewrite decide_False; [done|]. rewrite elem_of_cons. tauto.
Qed.

Lemma nfree_free_post s kept l s' :
  fs_wf (fsi s) -> NoDup l -> (forall x, x ∈ kept ++ l -> in_range (fsi s) x /\ fat s x <> FAT32_CLUSTER_FREE) ->
  free_post s kept l s' -> nfree s' = nfree s + Z.of_nat (length l).
Proof.
  intros Hwf Hnd Hl (_ & _ & _ & _ & Hfat & (Hf & _) & _). unfold nfree.
  assert (clusters (fsi s') = clusters (fsi s)) as -> by (rewrite Hf; by case_decide).
  rewrite <- (count_if_free (fat s) l (clusters (fsi s))); [|apply NoDup_seqZ|done|].
  2:{ intros x Hx. rewrite elem_of_clusters. apply Hl. rewrite elem_of_app. auto. }
  apply count_if_ext. intros x Hx%elem_of_clusters. rewrite Hfat by done.
  clear Hf. repeat case_decide; try done.
  destruct (Hl x) as [_ Hne]; [rewrite elem_of_app; auto|].
  by rewrite (proj2 (Z.eqb_neq _ _) Hne).
Qed.

Lemma nfree_alloc s parent flags c s' :
  usable s -> 0 < fsi_cluster_count (fsi s) ->
  parent = 0 \/ in_range (fsi s) parent /\ fat s parent <> FAT32_CLUSTER_FREE ->
  alloc_post s parent flags c s' -> nfree s' = nfree s - 1.
Proof.
  intros [Hwf _ _] Hpos Hpar (Hff & Hf & _ & _ & Hfat & _).
  assert (in_range (fsi s) c) as Hc by (eapply first_free_range; [by apply alloc_hint_range|done]).
  pose proof (first_free_val _ _ _ Hff) as Hfree.
  assert (c <> parent) as Hne.
  { intros ->. destruct Hpar as [->|[_ ?]]; [|done]. by apply (not_in_range_0 (fsi s)). }
  rewrite (nfree_upd s c s'); [|by rewrite Hf|done|].
  - rewrite Hfree, Hfat by done. rewrite decide_False by done. rewrite decide_True by done.
    cbn. lia.
  - intros x Hx Hxc. rewrite Hfat by done. case_decide as Hp; [|by rewrite decide_False].
    subst x. unfold in_range, FAT32_CLUSTER_FREE in *. destruct Hpar as [->|[_ ?]]; [lia|].
    split; [lia|done].
Qed.

Lemma no_free_nfree s : no_free s <-> nfree s = 0.
Proof.
  unfold no_free, nfree. setoid_rewrite <- elem_of_clusters.
  induction (clusters (fsi s)) as [|x l IH].
  - split; [done|]. intros _ c Hc. by apply not_elem_of_nil in Hc.
  - change (count_if ?p (x :: l)) with (Z.b2z (p x) + count_if p l).
    pose proof (count_if_range (fun c => fat s c =? FAT32_CLUSTER_FREE) l).
    setoid_rewrite elem_of_cons. destruct (Z.eqb_spec (fat s x) FAT32_CLUSTER_FREE); cbn [Z.b2z].
    + split; [naive_solver|lia].
    + rewrite Z.add_0_l, <- IH. naive_solver.
Qed.

Lemma exact_count s : usable s -> fsi_free_count (fsi s) = nfree s -> fsi_free_count (fsi s) <> 0xFFFFFFFF.
Proof. intros [Hwf _ _] ->. pose proof (nfree_range s Hwf). destruct Hwf. lia. Qed.

#[export] Instance nfree_proper : Proper ((≡) ==> eq) nfree.
Proof.
  intros s s' Hs. unfold nfree. pose proof Hs as (-> & _).
  apply count_if_ext. intros x _. by rewrite Hs.
Qed.

Lemma chain_not_free s c l x :
  usable s -> file_chain s c l -> x ∈ l -> in_range (fsi s) x /\ fat s x <> FAT32_CLUSTER_FREE.
Proof.
  intros [Hwf _ _] Hch Hx. split; [|by eapply fat_not_free].
  apply chain_range in Hch. rewrite Forall_forall in Hch. auto.
Qed.

Lemma free_post_exact s kept l s' :
  usable s -> fsi_free_count (fsi s) = nfree s -> NoDup l ->
  (forall x, x ∈ kept ++ l -> in_range (fsi s) x /\ fat s x <> FAT32_CLUSTER_FREE) ->
  free_post s kept l s' -> fsi_free_count (fsi s') = nfree s'.
Proof.
  intros Hu Hex Hnd Hl Hpost. pose proof (usable_wf _ Hu) as Hwf. pose proof (exact_count s Hu Hex) as Hne.
  pose proof (nfree_free_post _ _ _ _ Hwf Hnd Hl Hpost) as Hn.
  assert (0 <= nfree s' <= fsi_cluster_count (fsi s)) as Hr.
  { destruct Hpost as (_ & _ & _ & _ & _ & (Hf & _) & _).
    assert (geom (fsi s') = geom (fsi s)) as Hg by (rewrite Hf; by case_decide).
    replace (fsi_cluster_count (fsi s)) with (fsi_cluster_count (fsi s')) by (rewrite Hf; by case_decide).
    apply nfree_range. by apply (geom_wf (fsi s)). }
  destruct Hpost as (_ & _ & _ & _ & _ & (-> & _) & _). case_decide as Hk.
  - cbn [fsi_free_count set_fsi_free_count]. rewrite Hex, <- Hn. apply u32_small. destruct Hwf. lia.
  - destruct l; [cbn [length] in Hn; lia|]. destruct Hk. by split.
Qed.

(** C26: once the cached free count equals the number of free entries of the
    FAT, it stays so: under every allocation, which then succeeds if and only if
    there is a free cluster, and under the freeing or truncation of every
    chain. *)
Theorem free_count_exact s :
  ready s -> fsi_free_count (fsi s) = nfree s ->
  (forall parent flags,
     parent = 0 \/ in_range (fsi s) parent /\ fat s parent <> FAT32_CLUSTER_FREE ->
     wp (fat32_allocate_cluster parent flags) s (fun r s' =>
       fsi_free_count (fsi s') = nfree s' /\
       match r with Ok _ => 0 < nfree s | Err e => nfree s = 0 | _ => False end)) /\
  (forall c l free_start, file_chain s c l ->
     wp (fat32_free_clusters c free_start) s (okp (fun _ s' => fsi_free_count (fsi s') = nfree s'))).
Proof.
  intros Hs Hex. pose proof (ready_usable _ Hs) as Hu. pose proof (usable_wf _ Hu) as Hwf.
  pose proof (nfree_range s Hwf) as Hn. pose proof (exact_count s Hu Hex) as Hne. split.
  - intros parent flags Hpar. eapply wp_mono; [apply wp_allocate_cluster; try apply Hu; tauto|].
    intros [c|e| | |] s'; try done; cbn [alloc_result].
    + intros (H0 & _ & Hpost). assert (0 < fsi_cluster_count (fsi s)) by lia.
      rewrite (nfree_alloc s parent flags c s') by done. destruct Hpost as (_ & -> & _).
      cbn [fsi_free_count set_fsi_next_free set_fsi_free_count].
      rewrite u32_small by (destruct Hwf; lia). lia.
    + intros (-> & Hs' & Hwhy). split; [by rewrite <- Hs'|].
      destruct Hwhy as [|[|Hno]]; [lia|done|by apply no_free_nfree].
  - intros c l free_start Hch. eapply wp_mono; [by apply wp_free_clusters|].
    intros [[]| | | |] s'; try done. cbn [okp].
    pose proof (chain_NoDup _ _ _ _ Hwf Hch) as Hnd.
    pose proof (fun x => chain_not_free s c l x Hu Hch) as Hl.
    destruct (chain_head _ _ _ _ Hch) as [l' ->].
    destruct free_start; intros Hpost.
    + by eapply (free_post_exact s [] (c :: l')).
    + apply NoDup_cons in Hnd as [_ Hnd]. by eapply (free_post_exact s [c] l').
Qed.

End free.

Lemma free_clusters_correct_witness :
  wp (fat32_free_clusters 3 false) demo (okp (fun _ s' => free_post demo [3] [5; 6] s')).
Proof. apply (free_clusters_correct demo 3 [3; 5; 6] false); [apply demo_ready|apply demo_chain]. Defined.

Lemma free_clusters_terminates_witness :
  wp (fat32_free_clusters 3 true) demo (fun r s' => held s' = held demo /\
    match r with Ok _ => True | Err e => e = EINVAL | _ => False end).
Proof. apply (free_clusters_terminates demo 3 true). apply demo_ready. Defined.

Lemma free_count_exact_witness :
  wp (fat32_free_clusters 3 true) demo (okp (fun _ s' => fsi_free_count (fsi s') = nfree s')).
Proof.
  refine (proj2 (free_count_exact demo _ _) 3 [3; 5; 6] true _).
  - apply demo_ready.
  - vm_compute. reflexivity.
  - apply demo_chain.
Defined.
