(* ===== verification/Cache.v ===== *)
(** * The cluster cache of a vnode ([fat32_vnode_update_cache], [fat32_vnode_seek_cluster])

    A cached seek returns what a walk from the first cluster returns, and keeps
    the cache truthful and of constant size. *)
From S2P Require Import Prelude Layout Time Kernel Device Cls Fat Demo Alloc Chain.

(** Every used slot names the cluster at its index in the chain. *)
Definition cache_ok (l : list Z) (cache : list (Z * Z)) : Prop :=
  Forall (fun e => e.2 = 0 \/ 0 <= e.1 /\ l !! Z.to_nat e.1 = Some e.2) cache.

Lemma cache_slot_lt cache index :
  cache <> [] -> (cache_slot cache index < length cache)%nat.
Proof.
  intros Hne. unfold cache_slot. destruct (list_find _ _) as [[k e]|] eqn:E.
  - apply list_find_Some in E as (Hk & _). by apply lookup_lt_Some in Hk.
  - destruct cache; [done|cbn; lia].
Qed.

Lemma length_cache_insert cache index cluster :
  cache <> [] -> length (cache_insert cache index cluster) = length cache.
Proof.
  intros Hne. pose proof (cache_slot_lt cache index Hne). unfold cache_insert.
  rewrite length_app, length_delete by (by apply lookup_lt_is_Some_2). cbn. lia.
Qed.

Lemma cache_ok_insert l cache index cluster :
  cache_ok l cache -> 0 <= index -> l !! Z.to_nat index = Some cluster ->
  cache_ok l (cache_insert cache index cluster).
Proof.
  unfold cache_ok, cache_insert. intros Hc Hi Hl. apply Forall_app_2.
  - rewrite Forall_forall in *. intros e He. apply Hc. rewrite delete_take_drop in He.
    apply elem_of_app in He as [He|He]; [by eapply subseteq_take|by eapply subseteq_drop].
  - apply Forall_singleton. by right.
Qed.

Lemma cache_ok_app l ext cache : cache_ok l cache -> cache_ok (l ++ ext) cache.
Proof.
  unfold cache_ok. rewrite !Forall_forall. intros H e He.
  destruct (H e He) as [|[? Hl]]; [by left|right]. split; [done|]. by apply lookup_app_l_Some.
Qed.

Lemma cache_best_ok l cache skip cluster0 :
  cache_ok l cache -> 0 <= skip -> l !! 0%nat = Some cluster0 ->
  let best := cache_best cache skip cluster0 in
  0 <= best.1 <= skip /\ l !! Z.to_nat best.1 = Some best.2.
Proof.
  intros Hc Hskip Hl. unfold cache_best.
  assert (forall b : Z * Z, 0 <= b.1 <= skip -> l !! Z.to_nat b.1 = Some b.2 ->
    let best := foldl (fun best e => if e.2 =? 0 then best
           else if (e.1 <=? skip) && (best.1 <? e.1) then e else best) b cache in
    0 <= best.1 <= skip /\ l !! Z.to_nat best.1 = Some best.2) as Hgen.
  { induction cache as [|e cache IH]; intros b Hb Hbl; [done|]. cbn [foldl].
    apply Forall_cons_1 in Hc as [He Hc]. apply IH; [done|..];
      (destruct (Z.eqb_spec e.2 0); [done|]; destruct He as [|[He1 He2]]; [done|];
       destruct (_ && _) eqn:E; [|done]; apply andb_prop in E as [E1 E2];
       apply Z.leb_le in E1; apply Z.ltb_lt in E2); [lia|done]. }
  apply Hgen; cbn; [lia|done].
Qed.

(** the cache keeps its size under [fat32_vnode_update_cache] (no slot is
    lost or gained), the inserted pair is the most recently used one, and no
    entry appears that was not there before; as long as a slot is unused, no
    used slot with another index is evicted. *)
Theorem cache_insert_lru (cache : list (Z * Z)) (index cluster : Z) :
  cache <> [] ->
  let cache' := cache_insert cache index cluster in
  length cache' = length cache /\ last cache' = Some (index, cluster) /\
  (forall e, e ∈ cache' -> e = (index, cluster) \/ e ∈ cache) /\
  (Exists (fun e => e.2 = 0) cache ->
   forall e, e ∈ cache -> e.2 <> 0 -> e.1 <> index -> e ∈ cache').
Proof.
  intros Hne. cbn zeta. split_and!.
  - by apply length_cache_insert.
  - unfold cache_insert. by rewrite last_snoc.
  - intros e. unfold cache_insert. rewrite elem_of_app, list_elem_of_singleton.
    intros [He|He]; [right|by left]. rewrite delete_take_drop in He.
    apply elem_of_app in He as [He|He]; [by eapply subseteq_take|by eapply subseteq_drop].
  - intros Hex e He He2 He1. unfold cache_insert, cache_slot. rewrite elem_of_app. left.
    destruct (list_find _ cache) as [[k x]|] eqn:E.
    + apply list_find_Some in E as (Hk & Hx & _).
      rewrite <- (take_drop_middle _ _ _ Hk) in He. rewrite delete_take_drop, elem_of_app.
      apply elem_of_app in He as [He|He]; [by left|]. apply elem_of_cons in He as [->|He]; [naive_solver|by right].
    + apply list_find_None in E. exfalso. apply Exists_exists in Hex as (x & Hx & Hx0).
      rewrite Forall_forall in E. apply (E x Hx). by left.
Qed.

Section cache.
Context {K : Type} `{!Kernel K, !KernelLaws K}.
Implicit Types s : st K.

Lemma wp_get_fv s p v : fvs s !! p = Some v -> wp (get_fv p) s (okp (fun x s' => x = v /\ s' = s)).
Proof. intros H. unfold get_fv. repeat wp_step. rewrite H. done. Qed.

Lemma set_held_id s : set_held (held s) s = s.
Proof. by destruct s. Qed.

Lemma wp_lock s l mode :
  held s !! l = None ->
  wp (lock_acquire l mode) s (okp (fun _ s' => s' = set_held (<[l := mode]> (held s)) s)).
Proof. intros H. unfold lock_acquire. repeat wp_step. by rewrite H, mr_grant_free. Qed.

Lemma wp_unlock s l mode h :
  held s = <[l := mode]> h -> h !! l = None ->
  wp (lock_release l) s (okp (fun _ s' => s' = set_held h s)).
Proof.
  intros Hh Hl. unfold lock_release. repeat wp_step. rewrite Hh, lookup_insert_eq.
  repeat wp_step. cbn [okp]. by rewrite Hh, delete_insert_id.
Qed.

Lemma wp_update_cache s p v index cluster :
  held s !! CacheLock p = None -> fvs s !! p = Some v ->
  wp (fat32_vnode_update_cache p index cluster) s (okp (fun _ s' =>
    s' = set_fvs (<[p := set_fv_cls_cache (cache_insert (fv_cls_cache v) index cluster) v]> (fvs s)) s)).
Proof.
  intros Hl Hv. unfold fat32_vnode_update_cache, upd_fv.
  eapply wp_call_ok; [by apply wp_lock|]. intros [] ? ->. repeat wp_step.
  eapply wp_call_ok; [by apply wp_get_fv|]. intros ? ? [-> ->]. repeat wp_step.
  eapply wp_mono; [by eapply (wp_unlock _ _ MrUpdate (held s))|].
  by intros [[]| | | |] s'.
Qed.

(** The part of the seek before the walk: the lock is taken and given back. *)
Lemma wp_vnode_seek s p v l skip flags Q :
  held s !! CacheLock p = None -> fvs s !! p = Some v -> cache_ok l (fv_cls_cache v) ->
  l !! 0%nat = Some (fv_cluster v) -> 0 <= skip < 2 ^ 32 ->
  (forall i x, l !! i = Some x -> (i <= Z.to_nat skip)%nat ->
     wp (seek_loop (Z.to_nat skip - i) x flags) s (fun r s1 =>
       match r with
       | Ok y => wp (do* fat32_vnode_update_cache p skip y in ret y) s1 Q
       | Err e => Q (Err e) s1
       | _ => False
       end)) ->
  wp (fat32_vnode_seek_cluster p skip flags) s Q.
Proof.
  intros Hl Hv Hc Hl0 Hskip HQ. unfold fat32_vnode_seek_cluster.
  eapply wp_call_ok; [by apply wp_get_fv|]. intros ? ? [-> ->].
  eapply wp_call_ok; [by apply wp_lock|]. intros [] ? ->. cbn zeta.
  destruct (cache_best_ok l (fv_cls_cache v) skip (fv_cluster v)) as [Hi Hx]; [done|lia|done|].
  destruct (cache_best _ _ _) as [i x]. cbn [fst snd] in *.
  eapply wp_call_ok; [by eapply (wp_unlock _ _ MrUpdate (held s))|]. intros [] ? ->.
  assert (set_held (held s) (set_held (<[CacheLock p:=MrUpdate]> (held s)) s) = s) as -> by (by destruct s).
  rewrite u32_small by lia.
  assert ((if 0 <? skip - i then fat32_seek_cluster x (skip - i) flags else ret x) =
          seek_loop (K := K) (Z.to_nat skip - Z.to_nat i) x flags) as ->.
  { unfold fat32_seek_cluster. rewrite <- Z2Nat.inj_sub by lia. destruct (Z.ltb_spec 0 (skip - i)).
    - by rewrite (proj2 (Z.eqb_neq _ _)) by lia.
    - by replace (skip - i) with 0 by lia. }
  eapply wp_call; [apply (HQ _ _ Hx); lia|]. intros [] s1; done.
Qed.

Lemma wp_vnode_seek_walk s p v l skip flags :
  ready s -> held s !! CacheLock p = None -> fvs s !! p = Some v ->
  file_chain s (fv_cluster v) l -> fv_cls_cache v <> [] -> cache_ok l (fv_cls_cache v) ->
  flag flags NC_ALLOC = false -> 0 <= skip < 2 ^ 32 ->
  wp (fat32_vnode_seek_cluster p skip flags) s (fun r s' =>
    r = match l !! Z.to_nat skip with Some y => Ok y | None => Err ENOSPC end /\
    exists cache, cache_ok l cache /\ length cache = length (fv_cls_cache v) /\
      set_fvs (<[p := set_fv_cls_cache cache v]> (fvs s)) s ≡ s').
Proof.
  intros Hs Hl Hv Hch Hne Hc Hflag Hskip.
  destruct (chain_head _ _ _ _ Hch) as [l' E].
  eapply wp_vnode_seek; [done..|by rewrite E|done|]. intros i x Hx Hi.
  eapply wp_mono; [by eapply wp_seek_loop|]. intros r s1 [Hs1 ->].
  replace (i + (Z.to_nat skip - i))%nat with (Z.to_nat skip) by lia.
  pose proof Hs1 as (Hf1 & Hv1 & Hh1 & Hw1).
  destruct (l !! Z.to_nat skip) as [y|] eqn:Hy.
  - eapply wp_call_ok; [apply (wp_update_cache _ _ v); congruence|]. intros [] ? ->. apply wp_ret.
    split; [done|]. eexists. split; [apply (cache_ok_insert l _ skip y Hc); [lia|done]|].
    split; [by apply length_cache_insert|]. split_and!; cbn; [done|by rewrite Hv1|done..].
  - split; [done|]. exists (fv_cls_cache v).
    rewrite insert_id by (rewrite Hv; by destruct v). done.
Qed.

(** C28: a cached seek refines the walk: with a truthful cache,
    [fat32_vnode_seek_cluster] returns exactly what following the chain from the
    first cluster returns, changes nothing but this vnode's cache, and leaves
    the cache truthful and of the same size. *)
Theorem vnode_seek_refines_walk s p v l skip flags :
  ready s -> held s !! CacheLock p = None -> fvs s !! p = Some v ->
  file_chain s (fv_cluster v) l -> fv_cls_cache v <> [] -> cache_ok l (fv_cls_cache v) ->
  flag flags NC_ALLOC = false -> 0 <= skip < 2 ^ 32 ->
  wp (fat32_vnode_seek_cluster p skip flags) s (fun r s' =>
    r = match l !! Z.to_nat skip with Some y => Ok y | None => Err ENOSPC end /\
    exists cache, cache_ok l cache /\ length cache = length (fv_cls_cache v) /\
      set_fvs (<[p := set_fv_cls_cache cache v]> (fvs s)) s ≡ s').
Proof. apply wp_vnode_seek_walk. Qed.

(** The outcome of a cached seek that may extend the chain [l] of [v]. *)
Definition vseek_result s (p : nat) (v : fat32fs_vnode) (l : list Z) (k : nat) (flags : Z) (r : res Z) s' : Prop :=
  ready s' /\ held s' = held s /\ geom (fsi s') = geom (fsi s) /\
  exists ext, file_chain s' (fv_cluster v) (l ++ ext) /\ keeps s l s' (l ++ ext) /\
    data_keeps s (fresh flags ext) s' /\
    match r with
    | Ok y => (l ++ ext) !! k = Some y /\ length (l ++ ext) = Nat.max (length l) (S k) /\
        exists cache, cache_ok (l ++ ext) cache /\ length cache = length (fv_cls_cache v) /\
          fvs s' = <[p := set_fv_cls_cache cache v]> (fvs s)
    | Err e => e = ENOSPC /\ (length (l ++ ext) <= k)%nat /\ fvs s' = fvs s
    | _ => False
    end.

Lemma wp_vnode_seek_extends s p v l skip flags :
  ready s -> held s !! CacheLock p = None -> fvs s !! p = Some v ->
  file_chain s (fv_cluster v) l -> fv_cls_cache v <> [] -> cache_ok l (fv_cls_cache v) ->
  flag flags NC_ALLOC = true -> 0 <= skip < 2 ^ 32 ->
  wp (fat32_vnode_seek_cluster p skip flags) s (vseek_result s p v l (Z.to_nat skip) flags).
Proof.
  intros Hs Hl Hv Hch Hne Hc Hflag Hskip.
  destruct (chain_head _ _ _ _ Hch) as [l' E].
  eapply wp_vnode_seek; [done..|by rewrite E|done|]. intros i x Hx Hi.
  eapply wp_mono; [by eapply wp_seek_loop_alloc|].
  intros r s1 (Hr1 & Hv1 & Hh1 & Hg1 & ext & Hch1 & Hk1 & Hd1 & _ & Hres).
  replace (i + (Z.to_nat skip - i))%nat with (Z.to_nat skip) in * by lia.
  destruct r as [y|e| | |]; try done.
  - destruct Hres as [Hy Hlen].
    eapply wp_call_ok; [apply (wp_update_cache _ _ v); congruence|]. intros [] ? ->. apply wp_ret.
    split_and!; try done; [by destruct Hr1 as [[] ?]|]. exists ext. split_and!; [exact Hch1|exact Hk1|done|done|done|].
    eexists.
    split; [eapply (cache_ok_insert (l ++ ext) _ skip y); [by apply cache_ok_app|lia|done]|].
    split; [by apply length_cache_insert|]. cbn. by rewrite Hv1.
  - destruct Hres as [-> ?]. split_and!; try done. by exists ext.
Qed.

(** with [NC_ALLOC] the cached seek extends the chain by what is missing,
    as [fat32_seek_cluster] does, and the cache is truthful for the new chain;
    on ENOSPC the vnode is untouched. *)
Theorem vnode_seek_extends s p v l skip flags :
  ready s -> held s !! CacheLock p = None -> fvs s !! p = Some v ->
  file_chain s (fv_cluster v) l -> fv_cls_cache v <> [] -> cache_ok l (fv_cls_cache v) ->
  flag flags NC_ALLOC = true -> 0 <= skip < 2 ^ 32 ->
  wp (fat32_vnode_seek_cluster p skip flags) s (vseek_result s p v l (Z.to_nat skip) flags).
Proof. apply wp_vnode_seek_extends. Qed.

End cache.

Lemma cache_insert_lru_witness :
  length (cache_insert (replicate 16 (0, 0)) 3 7) = 16%nat.
Proof. apply (cache_insert_lru (replicate 16 (0, 0)) 3 7). discriminate. Defined.

Lemma vnode_seek_refines_walk_witness :
  wp (fat32_vnode_seek_cluster 1 2 0) demo (fun r s' =>
    r = Ok 6 /\
    exists cache, cache_ok [3; 5; 6] cache /\ length cache = 16%nat /\
      set_fvs (<[1%nat := set_fv_cls_cache cache demo_fv]> (fvs demo)) demo ≡ s').
Proof.
  apply (vnode_seek_refines_walk demo 1 demo_fv [3; 5; 6] 2 0);
    [apply demo_ready|reflexivity|reflexivity|apply demo_chain|discriminate|
     by repeat constructor|reflexivity|lia].
Defined.

Lemma vnode_seek_extends_witness :
  wp (fat32_vnode_seek_cluster 1 4 NC_ALLOC) demo (vseek_result demo 1 demo_fv [3; 5; 6] 4 NC_ALLOC).
Proof.
  apply (vnode_seek_extends demo 1 demo_fv [3; 5; 6] 4 NC_ALLOC);
    [apply demo_ready|reflexivity|reflexivity|apply demo_chain|discriminate|
     by repeat constructor|reflexivity|lia].
Defined.
