(* ===== verification/File.v ===== *)
(** * File operations ([fat32_file.c]): definitions

    [fat32_truncate], [fat32_touch] and [fat32_faccess].  A vnode is named by its
    address; its members are read and assigned in the shared store. *)
From S2P Require Import Prelude Layout Time Kernel Cls.

Definition S_IRUSR : Z := 0x100.
Definition S_IWUSR : Z := 0x080.
Definition S_IXUSR : Z := 0x040.
Definition S_IRGRP : Z := 0x020.
Definition S_IWGRP : Z := 0x010.
Definition S_IXGRP : Z := 0x008.
Definition S_IROTH : Z := 0x004.
Definition S_IWOTH : Z := 0x002.
Definition S_IXOTH : Z := 0x001.

Section file.
Context {K : Type} `{!Kernel K}.

Definition or_flags (m : Z) (v : fat32fs_vnode) : fat32fs_vnode := set_fv_flags (Z.lor (fv_flags v) m) v.

(** The number of clusters for [size] bytes. *)
Definition needed_clusters (f : fat32fs_info) (size : Z) : Z :=
  if size =? 0 then 0
  else u32 (Z.shiftr (size + fsi_bytes_per_cluster f - 1) (fsi_cluster_shift f)).

(** Truncation to zero clusters. *)
Definition truncate_to_zero (fv : nat) : M (st K) unit :=
  let* v := get_fv fv in
  do* (if FAT32_CLUSTER_MIN <=? fv_cluster v then
         do* fat32_free_clusters (fv_cluster v) true in
         upd_fv fv (set_fv_cluster 0)
       else ret tt) in
  do* mutex_lock (CacheLock fv) in
  do* upd_fv fv (set_fv_cls_cache (replicate (Z.to_nat FAT32_CLS_CACHE_SIZE) (0, 0))) in
  do* mutex_unlock (CacheLock fv) in
  upd_fv fv (fun v => or_flags (Z.lor FV_SIZE_DIRTY (Z.lor FV_CLUSTER_DIRTY FV_MODIFIED)) (set_fv_size 0 v)).

(** Entries at or beyond the new end are marked unused. *)
Definition cache_cut (needed : Z) (cache : list (Z * Z)) : list (Z * Z) :=
  map (fun e => if negb (e.2 =? 0) && (needed <=? e.1) then (e.1, 0) else e) cache.

(** The chain behind the last needed cluster. *)
Definition truncate_tail (fv : nat) (needed cluster : Z) : M (st K) unit :=
  let* r := try (fat32_next_cluster cluster 0) in
  match r with
  | inl error => if error =? ENOSPC then ret tt else throw error
  | inr next_cluster =>
      if (FAT32_CLUSTER_MIN <=? next_cluster) && (next_cluster <? FAT32_CLUSTER_EOC_MIN) then
        do* fat32_free_clusters cluster false in
        do* mutex_lock (CacheLock fv) in
        do* upd_fv fv (fun v => set_fv_cls_cache (cache_cut needed (fv_cls_cache v)) v) in
        mutex_unlock (CacheLock fv)
      else ret tt
  end.

Definition fat32_truncate (fv : nat) (size : Z) : M (st K) unit :=
  let* f := gets fsi in
  let* v := get_fv fv in
  let needed := needed_clusters f size in
  if needed =? 0 then truncate_to_zero fv else
  let flags := if decide (fv_type v = VDIR) then Z.lor NC_ALLOC NC_CLEAR else NC_ALLOC in
  do* (if fv_cluster v =? 0 then
         let* cluster := fat32_next_cluster 0 flags in
         upd_fv fv (fun v => or_flags (Z.lor FV_CLUSTER_DIRTY FV_MODIFIED) (set_fv_cluster cluster v))
       else ret tt) in
  let* cluster := fat32_vnode_seek_cluster fv (u32 (needed - 1)) flags in
  do* truncate_tail fv needed cluster in
  upd_fv fv (fun v => or_flags (Z.lor FV_SIZE_DIRTY FV_MODIFIED)
                        (set_fv_size (if decide (fv_type v = VDIR) then 0 else size) v)).

Definition fat32_touch (fv : nat) (flags : Z) : M (st K) unit :=
  let* now := do_nanotime in
  if flags =? 0 then
    upd_fv fv (fun v => or_flags (Z.lor FV_MTIME_DIRTY (Z.lor FV_ATIME_DIRTY FV_MODIFIED))
                          (set_fv_atime now (set_fv_mtime now (set_fv_ctime now v))))
  else
    do* upd_fv fv (fun v => if flag flags FV_ATIME_DIRTY then set_fv_atime now v else v) in
    do* upd_fv fv (fun v => if flag flags FV_MTIME_DIRTY then set_fv_mtime now v else v) in
    upd_fv fv (or_flags (Z.lor (Z.land flags (Z.lor FV_ATIME_DIRTY FV_MTIME_DIRTY)) FV_MODIFIED)).

(** [denied_mode] for the permission bits [r], [w], [x] of one class. *)
Definition denied (mode fmode r w x : Z) : Z :=
  let d := 0 in
  let d := if flag mode VREAD && negb (flag fmode r) then Z.lor d VREAD else d in
  let d := if flag mode VWRITE && negb (flag fmode w) then Z.lor d VWRITE else d in
  if flag mode VEXEC && negb (flag fmode x) then Z.lor d VEXEC else d.

Definition fat32_faccess (f : fat32fs_info) (fv : fat32fs_vnode) (mode : Z) (cr : cred) : Z :=
  let fmode := fv_mode fv in
  if flag mode VWRITE && flag (fsi_vfs_flag f) VFS_RDONLY then EROFS else
  if flag mode VWRITE && flag (fv_attr fv) FAT32_ATTR_READ_ONLY then EACCES else
  if cr_uid cr =? 0 then 0 else
  let denied_mode :=
    if cr_uid cr =? fv_uid fv then denied mode fmode S_IRUSR S_IWUSR S_IXUSR
    else if groupmember (fv_gid fv) cr then denied mode fmode S_IRGRP S_IWGRP S_IXGRP
    else denied mode fmode S_IROTH S_IWOTH S_IXOTH in
  if negb (denied_mode =? 0) then EACCES else 0.

End file.
