(* ===== verification/Truncate.v ===== *)
(** * Correctness of [fat32_truncate]

    Truncation makes the chain of a file exactly as long as its size requires,
    in both directions, keeps the vnode and its cache consistent with the chain,
    and touches no other file. *)
From S2P Require Import Prelude Layout Time Kernel Device Cls Fat Demo Alloc Chain Free Cache File.

Lemma flag_lor x m b : flag (Z.lor x m) b = flag x b || flag m b.
Proof.
  unfold flag. rewrite Z.land_lor_distr_l, <- negb_andb. f_equal. apply eq_true_iff_eq.
  by rewrite andb_true_iff, !Z.eqb_eq, Z.lor_eq_0_iff.
Qed.

Lemma drop_S_tail {A} n (l : list A) : drop (S n) l = tail (drop n l).
Proof. revert l. induction n as [|n IH]; intros [|x l]; try done. apply IH. Qed.

(** The clusters [size] bytes occupy. *)
Definition clusters_for (f : fat32fs_info) (size : Z) : Z :=
  (size + fsi_bytes_per_cluster f - 1) / fsi_bytes_per_cluster f.

Lemma bytes_per_cluster_pow f :
  fs_wf f -> fsi_bytes_per_cluster f = 2 ^ fsi_cluster_shift f /\ 0 <= fsi_cluster_shift f.
Proof.
  intros []. rewrite wf_bytes_per_cluster, wf_spc, wf_cluster_shift. split; [|lia].
  rewrite Z.pow_add_r by lia. done.
Qed.

Lemma needed_clusters_eq f size :
  fs_wf f -> 0 <= size -> clusters_for f size < 2 ^ 32 -> needed_clusters f size = clusters_for f size.
Proof.
  intros Hwf Hsize Hlt. destruct (bytes_per_cluster_pow f Hwf) as [Hb Hs].
  assert (0 < fsi_bytes_per_cluster f) by (rewrite Hb; apply Z.pow_pos_nonneg; lia).
  unfold needed_clusters, clusters_for in *. destruct (Z.eqb_spec size 0) as [->|].
  - rewrite Z.div_small; lia.
  - rewrite shiftr_div, <- Hb by done. rewrite u32_small; [done|]. split; [|lia].
    apply Z.div_pos; lia.
Qed.

Lemma clusters_for_0 f size :
  fs_wf f -> 0 <= size -> 0 <= clusters_for f size /\ (clusters_for f size = 0 <-> size = 0).
Proof.
  intros Hwf Hsize. destruct (bytes_per_cluster_pow f Hwf) as [Hb Hs].
  assert (0 < fsi_bytes_per_cluster f) by (rewrite Hb; apply Z.pow_pos_nonneg; lia).
  unfold clusters_for. split; [apply Z.div_pos; lia|].
  rewrite Z.div_small_iff by lia. lia.
Qed.

Lemma cache_ok_zeros l n : cache_ok l (replicate n (0, 0)).
Proof. apply Forall_replicate. by left. Qed.

Lemma cache_ok_cut l cache n :
  cache_ok l cache -> cache_ok (take n l) (cache_cut (Z.of_nat n) cache).
Proof.
  unfold cache_ok, cache_cut. rewrite Forall_map. intros Hc. eapply Forall_impl; [exact Hc|].
  intros [i c] [H0|[Hi Hl]]; cbn [fst snd] in *.
  - subst c. cbn. by left.
  - destruct (Z.eqb_spec c 0); [by left|]. cbn [negb andb].
    destruct (Z.leb_spec (Z.of_nat n) i); [by left|]. right. cbn [fst snd]. split; [done|].
    rewrite lookup_take_lt by lia. done.
Qed.

Lemma cache_ok_nil_any l cache : cache_ok [] cache -> cache_ok l cache.
Proof.
  unfold cache_ok. intros Hc. eapply Forall_impl; [exact Hc|]. intros e [|[_ H]]; [by left|].
  by rewrite lookup_nil in H.
Qed.

Section truncate.
Context {K : Type} `{!Kernel K, !KernelLaws K}.
Implicit Types s : st K.

(** The clusters of vnode [v] are [l], and its cache agrees with them. *)
Definition file_ok s (v : fat32fs_vnode) (l : list Z) : Prop :=
  cache_ok l (fv_cls_cache v) /\ length (fv_cls_cache v) = 16%nat /\
  match l with [] => fv_cluster v = 0 | _ => file_chain s (fv_cluster v) l end.

#[export] Instance file_ok_proper : Proper ((≡) ==> eq ==> eq ==> iff) file_ok.
Proof. intros s s' Hs v ? <- l ? <-. unfold file_ok. destruct l; [done|]. by rewrite Hs. Qed.

(** Only the vnode at [p] may differ. *)
Definition only_fv (p : nat) s s' : Prop := forall q, q <> p -> fvs s' !! q = fvs s !! q.

Lemma wp_upd_fv s p v g :
  fvs s !! p = Some v -> wp (upd_fv p g) s (okp (fun _ s' => s' = set_fvs (<[p := g v]> (fvs s)) s)).
Proof.
  intros Hv. unfold upd_fv. eapply wp_call_ok; [by apply wp_get_fv|]. intros ? ? [-> ->].
  by repeat wp_step.
Qed.

(** A member of a vnode assigned under its cache lock. *)
Lemma wp_locked_upd s p v g :
  held s !! CacheLock p = None -> fvs s !! p = Some v ->
  wp (do* mutex_lock (CacheLock p) in do* upd_fv p g in mutex_unlock (CacheLock p)) s
    (okp (fun _ s' => s' = set_fvs (<[p := g v]> (fvs s)) s)).
Proof.
  intros Hl Hv. eapply wp_call_ok; [by apply wp_lock|]. intros [] ? ->.
  eapply wp_call_ok; [by apply wp_upd_fv|]. intros [] ? ->.
  eapply wp_mono; [by eapply (wp_unlock _ _ MrUpdate (held s))|]. by intros [[]| | | |] s'.
Qed.

Lemma wp_locked_upd_then {A} s p v g (k : M (st K) A) Q :
  held s !! CacheLock p = None -> fvs s !! p = Some v ->
  wp k (set_fvs (<[p := g v]> (fvs s)) s) Q ->
  wp (do* mutex_lock (CacheLock p) in do* upd_fv p g in do* mutex_unlock (CacheLock p) in k) s Q.
Proof.
  intros Hl Hv Hk. eapply wp_call_ok; [by apply wp_lock|]. intros [] ? ->.
  eapply wp_call_ok; [by apply wp_upd_fv|]. intros [] ? ->.
  eapply wp_call_ok; [by eapply (wp_unlock _ _ MrUpdate (held s))|]. by intros [] ? ->.
Qed.

(** ** Consequences of freeing *)

Lemma ready_set_fvs s x : ready s -> ready (set_fvs x s).
Proof. by intros [[] ?]. Qed.

Lemma free_post_geom s kept l s' : free_post s kept l s' -> geom (fsi s') = geom (fsi s).
Proof. intros (_ & _ & _ & _ & _ & (-> & _) & _). by case_decide. Qed.

Lemma free_post_ready s kept l s' : ready s -> free_post s kept l s' -> ready s'.
Proof.
  intros [[Hwf _ _] Hl] Hpost. pose proof (free_post_geom _ _ _ _ Hpost) as Hg.
  destruct Hpost as (_ & Hh & Hr & _ & _ & (Hf & d & _ & Hd) & _).
  split; [split|by rewrite Hh]; [by eapply geom_wf|done|].
  change (fsi_fsinfo_sector (fsi s')) with (fsi_fsinfo_sector (geom (fsi s'))). rewrite Hg.
  eexists. exact Hd.
Qed.

Lemma free_post_keeps s kept fr s' l l' :
  free_post s kept fr s' -> (forall x, x ∈ kept ++ fr -> x ∈ l) -> (forall x, x ∈ l' -> x ∈ l) ->
  keeps s l s' l'.
Proof.
  intros Hpost Hin Hsub c2 l2 Hch Hd. pose proof (free_post_geom _ _ _ _ Hpost) as Hg.
  destruct Hpost as (_ & _ & _ & _ & Hfat & _).
  split; [|intros x H2 H1; by apply (Hd x), Hsub].
  apply (chain_geom (fsi s)); [done|]. eapply chain_ext; [exact Hch|]. intros x Hx.
  pose proof (chain_range _ _ _ _ Hch) as Hr. rewrite Forall_forall in Hr. rewrite Hfat by auto.
  rewrite decide_False by (intros H; apply (Hd x Hx), Hin, elem_of_app; by right).
  by rewrite decide_False by (intros H; apply (Hd x Hx), Hin, elem_of_app; by left).
Qed.

Lemma free_post_data s kept fr s' : usable s -> free_post s kept fr s' -> data_keeps s [] s'.
Proof.
  intros [Hwf _ _] (_ & _ & _ & _ & _ & _ & Hw) x Hx _. pose proof (cluster_chunk _ _ Hwf Hx).
  apply Hw; destruct Hwf; unfold outside_fat, chunks_disjoint; nia.
Qed.

Lemma free_post_cut s c l i x s' :
  usable s -> file_chain s c l -> l !! i = Some x -> free_post s [x] (drop (S i) l) s' ->
  file_chain s' c (take (S i) l).
Proof.
  intros [Hwf _ _] Hch Hi Hpost. pose proof (free_post_geom _ _ _ _ Hpost) as Hg.
  pose proof (chain_NoDup _ _ _ _ Hwf Hch) as Hnd.
  pose proof (chain_range _ _ _ _ Hch) as Hr. rewrite Forall_forall in Hr.
  destruct Hpost as (_ & _ & _ & _ & Hfat & _).
  rewrite <- (take_drop_middle _ _ _ Hi) in Hnd. apply NoDup_app in Hnd as (_ & Hd1 & Hnd2).
  apply NoDup_cons in Hnd2 as [Hd2 _].
  assert (x ∈ l) as Hx by (by eapply list_elem_of_lookup_2).
  apply (chain_geom (fsi s)); [done|]. eapply chain_take; [exact Hch|by eapply chain_NoDup|exact Hi| |].
  - rewrite Hfat by auto. rewrite decide_False by done. by rewrite decide_True by apply list_elem_of_here.
  - intros y Hy. assert (y ∈ l) by (by eapply subseteq_take). specialize (Hd1 y Hy).
    rewrite Hfat by auto. rewrite elem_of_cons in Hd1.
    rewrite decide_False by tauto. rewrite decide_False; [done|]. rewrite list_elem_of_singleton. tauto.
Qed.

(** ** The outcome *)

(** [v'] is [v] with another size and other clusters. *)
Definition resized (v v' : fat32fs_vnode) : Prop :=
  exists c n cache mask, v' = or_flags mask (set_fv_size n (set_fv_cls_cache cache (set_fv_cluster c v))) /\
    flag mask FV_ROOT = false.

(** Success: [l] has become [needed] clusters long. *)
Definition truncate_done s (p : nat) (v : fat32fs_vnode) (l : list Z) (needed : nat) (size : Z) s' : Prop :=
  ready s' /\ held s' = held s /\ geom (fsi s') = geom (fsi s) /\ only_fv p s s' /\
  exists v' ext, fvs s' !! p = Some v' /\
    file_ok s' v' (take needed l ++ ext) /\ length (take needed l ++ ext) = needed /\
    keeps s l s' (take needed l ++ ext) /\ data_keeps s ext s' /\
    (forall x, x ∈ drop needed l -> fat s' x = FAT32_CLUSTER_FREE) /\
    fv_size v' = size /\ resized v v' /\ flag (fv_flags v') FV_SIZE_DIRTY = true /\
    (fv_cluster v' <> fv_cluster v -> flag (fv_flags v') FV_CLUSTER_DIRTY = true).

(** Failure for want of space: the chain may have grown, the size is the old one. *)
Definition truncate_nospace s (p : nat) (v : fat32fs_vnode) (l : list Z) s' : Prop :=
  ready s' /\ held s' = held s /\ geom (fsi s') = geom (fsi s) /\ only_fv p s s' /\
  exists v' ext, fvs s' !! p = Some v' /\ file_ok s' v' (l ++ ext) /\
    keeps s l s' (l ++ ext) /\ data_keeps s ext s' /\ fv_size v' = fv_size v /\ resized v v'.

Lemma resized_id v : resized v v.
Proof. exists (fv_cluster v), (fv_size v), (fv_cls_cache v), 0. unfold or_flags. rewrite Z.lor_0_r. by destruct v. Qed.

Lemma resized_flag v v' : resized v v' -> flag (fv_flags v') FV_ROOT = flag (fv_flags v) FV_ROOT.
Proof. intros (c & n & cache & mask & -> & H). cbn. by rewrite flag_lor, H, orb_false_r. Qed.

Lemma only_fv_insert p v s s' : fvs s' = <[p := v]> (fvs s) -> only_fv p s s'.
Proof. intros Hv q Hq. rewrite Hv. by apply lookup_insert_ne. Qed.

(** The part of the zero case that frees the chain. *)
Lemma wp_truncate_free s p v l :
  ready s -> fvs s !! p = Some v -> file_ok s v l ->
  wp (if FAT32_CLUSTER_MIN <=? fv_cluster v then
        do* fat32_free_clusters (fv_cluster v) true in upd_fv p (set_fv_cluster 0)
      else ret tt) s (okp (fun _ s' =>
    ready s' /\ held s' = held s /\ geom (fsi s') = geom (fsi s) /\
    fvs s' = <[p := set_fv_cluster 0 v]> (fvs s) /\ keeps s l s' [] /\ data_keeps s [] s' /\
    forall x, x ∈ l -> fat s' x = FAT32_CLUSTER_FREE)).
Proof.
  intros Hs Hv (Hc & Hlen & Hl). destruct l as [|c l].
  - rewrite Hl. apply wp_ret. split_and!; try done.
    + rewrite insert_id; [done|]. rewrite Hv, <- Hl. by destruct v.
    + intros x Hx. by apply not_elem_of_nil in Hx.
  - pose proof (chain_head _ _ _ _ Hl) as [l' [= -> ->]].
    assert (in_range (fsi s) (fv_cluster v)) as Hr.
    { apply chain_range in Hl. by apply Forall_cons_1 in Hl as [? _]. }
    rewrite (proj2 (Z.leb_le _ _)) by (unfold in_range, FAT32_CLUSTER_MIN in *; lia).
    eapply wp_call_ok; [by apply wp_free_clusters|]. cbn beta iota. intros [] s1 Hpost.
    assert (fvs s1 = fvs s) as Hv1 by apply Hpost.
    eapply wp_mono; [apply (wp_upd_fv _ _ v); by rewrite Hv1|].
    intros [[]| | | |] s2; try done. cbn [okp]. intros ->. cbn. rewrite Hv1.
    split_and!; [|by apply Hpost|by eapply free_post_geom|done| | |].
    + apply ready_set_fvs. by eapply free_post_ready.
    + apply (free_post_keeps s [] (fv_cluster v :: l') s1); [done..|].
      intros x Hx. by apply not_elem_of_nil in Hx.
    + apply (free_post_data s [] (fv_cluster v :: l') s1); [apply Hs|done].
    + intros x Hx. destruct Hpost as (_ & _ & _ & _ & Hfat & _).
      pose proof (chain_range _ _ _ _ Hl) as Hrg. rewrite Forall_forall in Hrg.
      change (fat s1 x = FAT32_CLUSTER_FREE). rewrite Hfat by auto. by rewrite decide_True.
Qed.

Lemma wp_truncate_to_zero s p v l :
  ready s -> held s !! CacheLock p = None -> fvs s !! p = Some v -> file_ok s v l ->
  wp (truncate_to_zero p) s (okp (fun _ s' => truncate_done s p v l 0 0 s')).
Proof.
  intros Hs Hlk Hv Hok. unfold truncate_to_zero.
  eapply wp_call_ok; [by apply wp_get_fv|]. intros ? ? [-> ->].
  eapply wp_call_ok; [by apply (wp_truncate_free s p v l)|].
  intros [] s1 (Hr1 & Hh1 & Hg1 & Hv1 & Hk1 & Hd1 & Hfree).
  eapply (wp_locked_upd_then s1 p (set_fv_cluster 0 v)); [by rewrite Hh1|by rewrite Hv1, lookup_insert_eq|].
  eapply wp_mono; [eapply wp_upd_fv; cbn; by rewrite lookup_insert_eq|].
  intros [[]| | | |] s2; try done. cbn [okp]. intros ->. cbn [fvs set_fvs].
  split_and!; [by do 2 apply ready_set_fvs|done..| |].
  { eapply only_fv_insert. cbn. by rewrite insert_insert_eq, Hv1, insert_insert_eq. }
  eexists _, []. split; [cbn; by rewrite lookup_insert_eq|]. rewrite app_nil_r, drop_0. cbn [take length].
  split_and!; try done.
  - split_and!; [apply cache_ok_zeros|done..].
  - by eexists 0, 0, _, _.
  - cbn. rewrite flag_lor. apply orb_true_r.
  - intros _. cbn. rewrite flag_lor. apply orb_true_r.
Qed.

Lemma file_ok_chain s v l :
  l <> [] -> file_ok s v l <->
  cache_ok l (fv_cls_cache v) /\ length (fv_cls_cache v) = 16%nat /\ file_chain s (fv_cluster v) l.
Proof. intros Hne. unfold file_ok. by destruct l. Qed.

(** The first cluster of an empty file. *)
Definition first_done s (p : nat) (v : fat32fs_vnode) (l : list Z) (flags : Z) s1 : Prop :=
  exists v1 ext, fvs s1 = <[p := v1]> (fvs s) /\ file_ok s1 v1 (l ++ ext) /\
    (ext = [] /\ l <> [] \/ length ext = 1%nat /\ l = []) /\
    keeps s l s1 (l ++ ext) /\ data_keeps s (fresh flags ext) s1 /\
    fv_size v1 = fv_size v /\ fv_type v1 = fv_type v /\
    (fv_cluster v1 <> fv_cluster v -> flag (fv_flags v1) FV_CLUSTER_DIRTY = true) /\
    (exists c mask, v1 = or_flags mask (set_fv_cluster c v) /\ flag mask FV_ROOT = false).

Lemma wp_truncate_first s p v l flags mask :
  ready s -> fvs s !! p = Some v -> file_ok s v l -> flag flags NC_ALLOC = true ->
  flag mask FV_CLUSTER_DIRTY = true -> flag mask FV_ROOT = false ->
  wp (if fv_cluster v =? 0 then
        let* cluster := fat32_next_cluster 0 flags in
        upd_fv p (fun v => or_flags mask (set_fv_cluster cluster v))
      else ret tt) s (fun r s1 => match r with
    | Ok _ => ready s1 /\ held s1 = held s /\ geom (fsi s1) = geom (fsi s) /\ first_done s p v l flags s1
    | Err e => e = ENOSPC /\ s ≡ s1
    | _ => False
    end).
Proof.
  intros Hs Hv Hok Hflag Hmask Hroot. destruct Hs as [[Hwf Hrd Hinfo] Hlk] eqn:E; clear E.
  destruct (decide (l = [])) as [->|Hne].
  - destruct Hok as (Hc & Hlen & H0). rewrite H0. cbn [Z.eqb].
    eapply wp_call; [apply wp_next_grow; auto|].
    intros [n|e| | |] s1; try done; cbn [alloc_result wpk]; [|tauto]. intros (_ & _ & Hpost).
    assert (fvs s1 = fvs s) as Hv1 by apply Hpost.
    eapply wp_mono; [apply (wp_upd_fv _ _ v); by rewrite Hv1|].
    intros [[]| | | |] s2; try done. cbn [okp]. intros ->.
    destruct (alloc_post_new s flags n s1) as [Hch Hk]; [apply Hs|done|].
    split_and!; [apply ready_set_fvs; by eapply alloc_post_ready|apply Hpost| |].
    { cbn. destruct Hpost as (_ & -> & _). done. }
    eexists _, [n]. split_and!; [cbn; by rewrite Hv1| |by right|done| |done|done| |].
    + apply file_ok_chain; [done|]. split_and!; [by apply cache_ok_nil_any|done|exact Hch].
    + apply (alloc_post_data s 0 flags n s1); [apply Hs|done].
    + intros _. cbn. rewrite flag_lor, Hmask. apply orb_true_r.
    + by eexists _, _.
  - apply file_ok_chain in Hok as Hok'; [|done]. destruct Hok' as (_ & _ & Hch).
    destruct (chain_head _ _ _ _ Hch) as [l' ->].
    pose proof (chain_range _ _ _ _ Hch) as Hrg. apply Forall_cons_1 in Hrg as [Hr _].
    rewrite (in_range_nonzero (fsi s)) by done. apply wp_ret. split_and!; [done..|].
    exists v, []. rewrite app_nil_r. split_and!; try done.
    + by rewrite insert_id.
    + by left.
    + exists (fv_cluster v), 0. unfold or_flags. rewrite Z.lor_0_r. by destruct v.
Qed.

(** Freeing what lies behind the last needed cluster [y]. *)
Definition tail_done s (p : nat) (v : fat32fs_vnode) (l : list Z) (n : nat) s' : Prop :=
  ready s' /\ held s' = held s /\ geom (fsi s') = geom (fsi s) /\
  exists cache, fvs s' = <[p := set_fv_cls_cache cache v]> (fvs s) /\
    cache_ok (take n l) cache /\ length cache = length (fv_cls_cache v) /\
    file_chain s' (fv_cluster v) (take n l) /\ keeps s l s' (take n l) /\ data_keeps s [] s' /\
    forall x, x ∈ drop n l -> fat s' x = FAT32_CLUSTER_FREE.

Lemma wp_truncate_tail s p v l n y :
  ready s -> held s !! CacheLock p = None -> fvs s !! p = Some v ->
  file_chain s (fv_cluster v) l -> cache_ok l (fv_cls_cache v) -> l !! n = Some y ->
  wp (truncate_tail p (Z.of_nat (S n)) y) s (okp (fun _ s' => tail_done s p v l (S n) s')).
Proof.
  intros Hs Hlk Hv Hch Hc Hy. unfold truncate_tail. repeat wp_step.
  pose proof (lookup_lt_Some _ _ _ Hy) as Hlt. destruct (l !! S n) as [z|] eqn:Hz.
  - eapply wp_mono; [by eapply (wp_next_in_chain s)|].
    intros [w| | | |] s1; try done. cbn [okp wpk]. intros [-> Hs1].
    pose proof (chain_range _ _ _ _ Hch) as Hrg. rewrite Forall_lookup in Hrg.
    pose proof (Hrg _ _ Hz) as Hzr. pose proof (in_range_not_eoc _ _ (ready_wf _ Hs) Hzr).
    rewrite (proj2 (Z.leb_le _ _)), (proj2 (Z.ltb_lt _ _)) by (unfold in_range, FAT32_CLUSTER_MIN in *; lia).
    assert (file_chain s1 y (drop n l)) as Hdrop by (rewrite <- Hs1; by eapply chain_drop).
    assert (ready s1) as Hr1 by (by rewrite <- Hs1).
    eapply wp_call_ok; [apply (wp_free_clusters s1 y (drop n l) false Hr1 Hdrop)|].
    cbn beta iota. replace (tail (drop n l)) with (drop (S n) l) by apply drop_S_tail.
    intros [] s2 Hpost. destruct Hpost as (Hv2 & Hh2 & Hpost') eqn:E; clear E.
    pose proof Hs1 as (_ & Hv1 & Hh1 & _).
    eapply wp_mono; [apply (wp_locked_upd s2 p v); congruence|].
    intros [[]| | | |] s3; try done. cbn [okp]. intros ->.
    split_and!; [apply ready_set_fvs; by eapply free_post_ready|cbn; congruence| |].
    { cbn. rewrite (free_post_geom _ _ _ _ Hpost). by rewrite Hs1. }
    exists (cache_cut (Z.of_nat (S n)) (fv_cls_cache v)). split_and!.
    + cbn. congruence.
    + by apply cache_ok_cut.
    + apply length_map.
    + apply (free_post_cut s1 _ l n y s2); [apply Hr1|by rewrite <- Hs1|done|done].
    + eapply keeps_from_equiv; [done|]. apply (free_post_keeps s1 [y] (drop (S n) l) s2); [done| |].
      * intros x. rewrite elem_of_app, list_elem_of_singleton.
        intros [->|Hx]; [by eapply list_elem_of_lookup_2|by eapply subseteq_drop].
      * intros x. apply subseteq_take.
    + eapply data_keeps_from_equiv; [done|]. apply (free_post_data s1 [y] (drop (S n) l) s2); [apply Hr1|done].
    + intros x Hx. destruct Hpost as (_ & _ & _ & _ & Hfat & _).
      change (fat s2 x = FAT32_CLUSTER_FREE). rewrite Hfat; [by rewrite decide_True|].
      assert (x ∈ l) as Hxl by (by eapply subseteq_drop). apply list_elem_of_lookup in Hxl as [k Hk].
      destruct Hs1 as (-> & _). by eapply Hrg.
  - apply lookup_ge_None in Hz.
    eapply wp_mono; [eapply (wp_next_at_end s _ l n); [done..|lia]|].
    intros r s1 [-> Hs1]. cbn [wpk]. change (ENOSPC =? ENOSPC) with true. apply wp_ret.
    pose proof Hs1 as (_ & Hv1 & _ & _).
    split_and!; [by rewrite <- Hs1..|]. exists (fv_cls_cache v).
    rewrite take_ge, drop_ge by lia. split_and!; try done.
    + rewrite insert_id by (rewrite Hv; by destruct v). done.
    + by rewrite <- Hs1.
    + by apply keeps_equiv.
    + intros x _ _. apply Hs1.
    + intros x Hx. by apply not_elem_of_nil in Hx.
Qed.

Lemma set_cache_type c v : fv_type (set_fv_cls_cache c v) = fv_type v.
Proof. done. Qed.

Lemma file_ok_set_cache s v c l :
  l <> [] -> cache_ok l c -> length c = 16%nat -> file_chain s (fv_cluster v) l ->
  file_ok s (set_fv_cls_cache c v) l.
Proof. intros. by apply file_ok_chain. Qed.

(** How the pieces [l], [ext0], [ext1] of the chain fit the needed length. *)
Lemma truncate_shape (l ext0 ext1 : list Z) (n : nat) :
  (ext0 = [] /\ l <> [] \/ length ext0 = 1%nat /\ l = []) -> (0 < n)%nat ->
  length ((l ++ ext0) ++ ext1) = Nat.max (length (l ++ ext0)) n ->
  exists ext, take n ((l ++ ext0) ++ ext1) = take n l ++ ext /\
    drop n ((l ++ ext0) ++ ext1) = drop n l /\ length (take n l ++ ext) = n /\
    (forall x, x ∉ ext -> x ∈ ext0 ++ ext1 -> False).
Proof.
  intros Hcase Hn Hlen. rewrite !length_app in Hlen. destruct (decide (n <= length l)%nat) as [Hle|Hgt].
  - assert (l <> []) by (intros ->; cbn in *; lia).
    destruct Hcase as [[-> _]|[_ ?]]; [|done]. cbn [length] in Hlen.
    assert (ext1 = []) as -> by (apply nil_length_inv; lia).
    exists []. rewrite !app_nil_r. split_and!; [done..| |].
    + rewrite length_take. lia.
    + intros x _ Hx. by apply not_elem_of_nil in Hx.
  - exists (ext0 ++ ext1). rewrite <- app_assoc.
    assert (length l + length ext0 <= n)%nat.
    { destruct Hcase as [[-> _]|[E ->]]; cbn [length] in *; lia. }
    rewrite (take_ge l), (drop_ge l) by lia.
    rewrite take_ge, drop_ge by (rewrite !length_app; lia).
    split_and!; [done..|rewrite !length_app; lia|tauto].
Qed.

Lemma data_keeps_weaken s l l' s' : (forall x, x ∈ l -> x ∈ l') -> data_keeps s l s' -> data_keeps s l' s'.
Proof. intros Hl H x Hx Hn. apply H; auto. Qed.

(** The seek, the tail and the final assignment, from a file with a cluster. *)
Lemma wp_truncate_rest s p v l n size flags :
  ready s -> held s !! CacheLock p = None -> fvs s !! p = Some v -> l <> [] -> file_ok s v l ->
  flag flags NC_ALLOC = true -> Z.of_nat (S n) < 2 ^ 32 ->
  wp (let* cluster := fat32_vnode_seek_cluster p (u32 (Z.of_nat (S n) - 1)) flags in
      do* truncate_tail p (Z.of_nat (S n)) cluster in
      upd_fv p (fun v => or_flags (Z.lor FV_SIZE_DIRTY FV_MODIFIED)
                           (set_fv_size (if decide (fv_type v = VDIR) then 0 else size) v))) s
    (fun r s' => ready s' /\ held s' = held s /\ geom (fsi s') = geom (fsi s) /\
     exists ext, keeps s l s' (match r with Ok _ => take (S n) (l ++ ext) | _ => l ++ ext end) /\
       data_keeps s ext s' /\ match r with
     | Ok _ => exists cache, length (l ++ ext) = Nat.max (length l) (S n) /\
         (let v' := or_flags (Z.lor FV_SIZE_DIRTY FV_MODIFIED)
            (set_fv_size (if decide (fv_type v = VDIR) then 0 else size) (set_fv_cls_cache cache v)) in
          fvs s' = <[p := v']> (fvs s) /\ file_ok s' v' (take (S n) (l ++ ext))) /\
         forall x, x ∈ drop (S n) (l ++ ext) -> fat s' x = FAT32_CLUSTER_FREE
     | Err e => e = ENOSPC /\ fvs s' = fvs s /\ file_ok s' v (l ++ ext)
     | _ => False
     end).
Proof.
  intros Hs Hlk Hv Hne Hok Hflag Hn. apply file_ok_chain in Hok as (Hc & Hlen & Hch); [|done].
  rewrite u32_small by lia. replace (Z.of_nat (S n) - 1) with (Z.of_nat n) by lia.
  eapply wp_call.
  { apply wp_vnode_seek_extends; try done; [|lia]. intros E. by rewrite E in Hlen. }
  rewrite Nat2Z.id. intros r s1 (Hr1 & Hh1 & Hg1 & ext & Hch1 & Hk1 & Hd1 & Hres).
  apply (data_keeps_weaken _ _ ext) in Hd1; [|intros ?; apply fresh_incl].
  destruct r as [y|e| | |]; try done; cbn [wpk].
  2:{ destruct Hres as (-> & _ & Hv1). split_and!; try done. exists ext. split_and!; try done.
      apply file_ok_chain; [by destruct l|]. split_and!; [by apply cache_ok_app|done..]. }
  destruct Hres as (Hy & Hl1 & cache & Hc1 & Hcl & Hv1).
  eapply wp_call_ok.
  { apply (wp_truncate_tail s1 p (set_fv_cls_cache cache v) (l ++ ext)); try done; [by rewrite Hh1|].
    by rewrite Hv1, lookup_insert_eq. }
  intros [] s2 (Hr2 & Hh2 & Hg2 & cache2 & Hv2 & Hc2 & Hcl2 & Hch2 & Hk2 & Hd2 & Hfree).
  rewrite Hv1, insert_insert_eq in Hv2.
  eapply wp_mono; [eapply wp_upd_fv; by rewrite Hv2, lookup_insert_eq|].
  intros [[]| | | |] s3; try done. cbn [okp]. intros ->.
  split_and!; [by apply ready_set_fvs|cbn; congruence..|]. exists ext.
  split_and!; [by eapply keeps_trans| |].
  { eapply data_keeps_weaken; [|by eapply (data_keeps_trans s ext s1 [])]. intros x. by rewrite app_nil_r. }
  exists cache2. split_and!; [done| | |exact Hfree].
  - cbn. by rewrite Hv2, insert_insert_eq.
  - apply file_ok_chain; [by destruct l|]. cbn in *. split_and!; [done|congruence|exact Hch2].
Qed.

Lemma truncate_nospace_refl s p v l s1 :
  ready s -> fvs s !! p = Some v -> file_ok s v l -> s ≡ s1 -> truncate_nospace s p v l s1.
Proof.
  intros Hs Hv Hok Hs1. pose proof Hs1 as (Hf1 & Hv1 & Hh1 & Hw1).
  split_and!; [by rewrite <- Hs1|done|by rewrite Hf1|by intros q _; rewrite Hv1|].
  exists v, []. rewrite app_nil_r. split_and!; try done.
  - by rewrite Hv1.
  - destruct l; [done|]. split_and!; [apply Hok..|]. rewrite <- Hs1. apply Hok.
  - by apply keeps_equiv.
  - intros x _ _. apply Hw1.
  - apply resized_id.
Qed.

(** The size needs a cluster. *)
Lemma wp_truncate_grow s p v l n size flags :
  ready s -> held s !! CacheLock p = None -> fvs s !! p = Some v -> file_ok s v l ->
  flag flags NC_ALLOC = true -> Z.of_nat (S n) < 2 ^ 32 ->
  wp (do* (if fv_cluster v =? 0 then
             let* cluster := fat32_next_cluster 0 flags in
             upd_fv p (fun v => or_flags (Z.lor FV_CLUSTER_DIRTY FV_MODIFIED) (set_fv_cluster cluster v))
           else ret tt) in
      let* cluster := fat32_vnode_seek_cluster p (u32 (Z.of_nat (S n) - 1)) flags in
      do* truncate_tail p (Z.of_nat (S n)) cluster in
      upd_fv p (fun v => or_flags (Z.lor FV_SIZE_DIRTY FV_MODIFIED)
                           (set_fv_size (if decide (fv_type v = VDIR) then 0 else size) v))) s
    (fun r s' => match r with
    | Ok _ => truncate_done s p v l (S n) (if decide (fv_type v = VDIR) then 0 else size) s'
    | Err e => e = ENOSPC /\ truncate_nospace s p v l s'
    | _ => False
    end).
Proof.
  intros Hs Hlk Hv Hok Hflag Hlt.
  eapply wp_call; [by apply (wp_truncate_first s p v l flags (Z.lor FV_CLUSTER_DIRTY FV_MODIFIED))|].
  intros [[]|e| | |] s1; try done; cbn [wpk].
  2:{ intros [-> Hs1]. split; [done|]. by apply truncate_nospace_refl. }
  intros (Hr1 & Hh1 & Hg1 & v1 & ext0 & Hv1 & Hok1 & Hcase & Hk1 & Hd1 & Hsz1 & Hty1 & Hcl1 & c1 & m1 & E1 & Hm1).
  apply (data_keeps_weaken _ _ ext0) in Hd1; [|intros ?; apply fresh_incl].
  eapply wp_mono.
  { apply (wp_truncate_rest s1 p v1 (l ++ ext0) n size flags); try done.
    - by rewrite Hh1.
    - by rewrite Hv1, lookup_insert_eq.
    - destruct Hcase as [[_ ?]|[? _]]; [by destruct l|]. by destruct l, ext0. }
  intros r s2 (Hr2 & Hh2 & Hg2 & ext1 & Hk2 & Hd2 & Hres).
  assert (data_keeps s (ext0 ++ ext1) s2) as Hd by (by eapply data_keeps_trans).
  destruct r as [[]|e| | |]; try done.
  - destruct Hres as (cache & Hlen & (Hv2 & Hok2) & Hfree). rewrite Hv1, insert_insert_eq in Hv2.
    destruct (truncate_shape l ext0 ext1 (S n)) as (ext & Etake & Edrop & Hlen' & Hext); [done|lia|done|].
    rewrite Etake, Edrop in *. split_and!; [done|congruence..|by eapply only_fv_insert|].
    eexists _, ext. split; [by rewrite Hv2, lookup_insert_eq|].
    split_and!; try done; [by eapply keeps_trans| | | | |].
    + eapply data_keeps_weaken; [|exact Hd]. intros x Hx.
      destruct (decide (x ∈ ext)); [done|]. by destruct (Hext x).
    + cbn. by rewrite Hty1.
    + subst v1. exists c1, (if decide (fv_type v = VDIR) then 0 else size), cache, (Z.lor m1 (Z.lor FV_SIZE_DIRTY FV_MODIFIED)).
      split; [|by rewrite flag_lor, Hm1]. unfold or_flags. cbn. by rewrite <- Z.lor_assoc.
    + cbn. rewrite flag_lor. apply orb_true_r.
    + intros Hne. cbn in *. rewrite flag_lor, Hcl1 by done. done.
  - destruct Hres as (-> & Hv2 & Hok2). split; [done|]. rewrite <- app_assoc in *. rewrite Hv1 in Hv2.
    split_and!; [done|congruence..|by eapply only_fv_insert|].
    exists v1, (ext0 ++ ext1). split_and!; [by rewrite Hv2, lookup_insert_eq|done|by eapply keeps_trans|exact Hd|exact Hsz1|].
    subst v1. exists c1, (fv_size v), (fv_cls_cache v), m1. split; [by destruct v|done].
Qed.

Lemma wp_truncate s p v l size :
  ready s -> held s !! CacheLock p = None -> fvs s !! p = Some v -> file_ok s v l ->
  0 <= size -> clusters_for (fsi s) size < 2 ^ 32 ->
  wp (fat32_truncate p size) s (fun r s' => match r with
    | Ok _ => truncate_done s p v l (Z.to_nat (clusters_for (fsi s) size))
                (if decide (fv_type v = VDIR) then 0 else size) s'
    | Err e => e = ENOSPC /\ truncate_nospace s p v l s'
    | _ => False
    end).
Proof.
  intros Hs Hlk Hv Hok Hsize Hlt. pose proof (ready_wf _ Hs) as Hwf.
  destruct (clusters_for_0 _ _ Hwf Hsize) as [Hn0 Hn1].
  unfold fat32_truncate. repeat wp_step.
  eapply wp_call_ok; [by apply wp_get_fv|]. intros ? ? [-> ->]. cbn zeta.
  rewrite needed_clusters_eq by done. destruct (Z.eqb_spec (clusters_for (fsi s) size) 0) as [E|E].
  { rewrite E. apply Hn1 in E as ->.
    eapply wp_mono; [by apply wp_truncate_to_zero|]. intros [[]| | | |] s'; try done. cbn [okp].
    by case_decide. }
  destruct (Z.to_nat (clusters_for (fsi s) size)) as [|n] eqn:Hn; [lia|].
  replace (clusters_for (fsi s) size) with (Z.of_nat (S n)) by lia.
  apply wp_truncate_grow; try done; [by case_decide|lia].
Qed.

(** C6: [fat32_truncate] makes the chain of the file exactly as long as [size]
    requires: it keeps the first clusters, frees the rest or appends fresh
    clusters, zeroes the cluster number when no cluster remains, keeps the
    cluster cache truthful, records the new size (0 for a directory) and marks
    the changes dirty; every other file keeps its chain and no kept cluster
    changes its contents.  The only failure is ENOSPC, after which the chain is
    well formed and the recorded size is the old one. *)
Theorem truncate_correct s p v l size :
  ready s -> held s !! CacheLock p = None -> fvs s !! p = Some v -> file_ok s v l ->
  0 <= size -> clusters_for (fsi s) size < 2 ^ 32 ->
  wp (fat32_truncate p size) s (fun r s' => match r with
    | Ok _ => truncate_done s p v l (Z.to_nat (clusters_for (fsi s) size))
                (if decide (fv_type v = VDIR) then 0 else size) s'
    | Err e => e = ENOSPC /\ truncate_nospace s p v l s'
    | _ => False
    end).
Proof. apply wp_truncate. Qed.

End truncate.

Lemma demo_file_ok : file_ok demo demo_fv [3; 5; 6].
Proof. split_and!; [apply cache_ok_zeros|done|apply demo_chain]. Qed.

Lemma truncate_correct_witness :
  wp (fat32_truncate 1 600) demo (fun r s' => match r with
    | Ok _ => truncate_done demo 1 demo_fv [3; 5; 6] 2 600 s'
    | Err e => e = ENOSPC /\ truncate_nospace demo 1 demo_fv [3; 5; 6] s'
    | _ => False
    end).
Proof.
  apply (truncate_correct demo 1 demo_fv [3; 5; 6] 600);
    [apply demo_ready|reflexivity|reflexivity|apply demo_file_ok|lia|vm_compute; reflexivity].
Defined.
