(* ===== verification/Access.v ===== *)
(** * Permissions and timestamps ([fat32_faccess], [fat32_touch]) *)
From S2P Require Import Prelude Layout Time Kernel Device Cls Fat Demo Alloc Chain Free Cache File Truncate.

Lemma flag_bit x k : 0 <= k -> flag x (2 ^ k) = Z.testbit x k.
Proof.
  intros Hk. unfold flag.
  assert (Z.land x (2 ^ k) = if Z.testbit x k then 2 ^ k else 0) as ->.
  { apply Z.bits_inj'. intros i Hi. rewrite Z.land_spec, Z.pow2_bits_eqb by done.
    destruct (Z.eqb_spec k i) as [->|].
    - destruct (Z.testbit x i) eqn:E; [by rewrite Z.pow2_bits_true|by rewrite Z.bits_0].
    - rewrite andb_false_r. destruct (Z.testbit x k); [|by rewrite Z.bits_0].
      by rewrite Z.pow2_bits_eqb, (proj2 (Z.eqb_neq _ _)). }
  destruct (Z.testbit x k); [|done].
  apply negb_true_iff, Z.eqb_neq. pose proof (Z.pow_pos_nonneg 2 k). lia.
Qed.

Lemma land_bit x k : 0 <= k -> Z.land x (2 ^ k) = if flag x (2 ^ k) then 2 ^ k else 0.
Proof.
  intros Hk. rewrite flag_bit by done. apply Z.bits_inj'. intros i Hi.
  rewrite Z.land_spec, Z.pow2_bits_eqb by done. destruct (Z.eqb_spec k i) as [->|].
  - destruct (Z.testbit x i); [by rewrite Z.pow2_bits_true|by rewrite Z.bits_0].
  - rewrite andb_false_r. destruct (Z.testbit x k); [|by rewrite Z.bits_0].
    by rewrite Z.pow2_bits_eqb, (proj2 (Z.eqb_neq _ _)).
Qed.

(** The permission bits of a class, moved to the positions of the owner's. *)
Definition missing (mode fmode shift : Z) : Z :=
  Z.land (Z.land mode 0x1C0) (Z.lnot (Z.shiftl fmode shift)).

Lemma mask_bits i : 0 <= i -> Z.testbit 0x1C0 i = (6 <=? i) && (i <=? 8).
Proof.
  intros Hi. destruct (decide (i <= 8)) as [H|H].
  - assert (i = 0 \/ i = 1 \/ i = 2 \/ i = 3 \/ i = 4 \/ i = 5 \/ i = 6 \/ i = 7 \/ i = 8) as Hc by lia.
    by repeat destruct Hc as [->|Hc]; try subst i.
  - rewrite (proj2 (Z.leb_gt i 8)) by lia. rewrite andb_false_r.
    apply Z.bits_above_log2; [lia|]. change (Z.log2 0x1C0) with 8. lia.
Qed.

Lemma missing_0 mode fmode shift :
  0 <= shift <= 6 ->
  missing mode fmode shift = 0 <->
  forall i, 6 <= i <= 8 -> Z.testbit mode i = true -> Z.testbit fmode (i - shift) = true.
Proof.
  intros Hs. unfold missing. split.
  - intros H i Hi Hm. apply (f_equal (fun x => Z.testbit x i)) in H.
    rewrite !Z.land_spec, Z.lnot_spec, Z.shiftl_spec, mask_bits, Hm, Z.bits_0 in H by lia.
    rewrite (proj2 (Z.leb_le 6 i)), (proj2 (Z.leb_le i 8)) in H by lia. by destruct (Z.testbit fmode _).
  - intros H. apply Z.bits_inj'. intros i Hi.
    rewrite !Z.land_spec, Z.lnot_spec, Z.shiftl_spec, mask_bits, Z.bits_0 by lia.
    destruct (Z.leb_spec 6 i), (Z.leb_spec i 8); rewrite ?andb_false_r; try done.
    destruct (Z.testbit mode i) eqn:E; [|done]. by rewrite H.
Qed.

Lemma denied_0 mode fmode shift :
  0 <= shift <= 6 ->
  denied mode fmode (2 ^ (8 - shift)) (2 ^ (7 - shift)) (2 ^ (6 - shift)) = 0 <->
  missing mode fmode shift = 0.
Proof.
  intros Hs. rewrite missing_0 by done. unfold denied, VREAD, VWRITE, VEXEC.
  change 0x100 with (2 ^ 8). change 0x80 with (2 ^ 7). change 0x40 with (2 ^ 6).
  rewrite !flag_bit by lia. split.
  - intros H i Hi Hm. assert (i = 6 \/ i = 7 \/ i = 8) as [->|[->| ->]] by lia; rewrite Hm in H;
      repeat match type of H with context [Z.testbit ?a ?b] => destruct (Z.testbit a b) end; done.
  - intros H. pose proof (H 6 ltac:(lia)). pose proof (H 7 ltac:(lia)). pose proof (H 8 ltac:(lia)).
    destruct (Z.testbit mode 6), (Z.testbit mode 7), (Z.testbit mode 8);
      repeat match goal with H : true = true -> _ |- _ => rewrite (H eq_refl) end; try done;
      repeat match goal with |- context [Z.testbit ?a ?b] => destruct (Z.testbit a b) end; done.
Qed.

Section access.
Context {K : Type} `{!Kernel K, !KernelLaws K}.

(** The class of the caller, as the distance of its bits from the owner's. *)
Definition perm_class (v : fat32fs_vnode) (cr : cred) : Z :=
  if cr_uid cr =? fv_uid v then 0 else if groupmember (fv_gid v) cr then 3 else 6.

(** [fat32_faccess] grants access if and only if a write request meets
    neither a read-only mount nor the read-only attribute, and the caller is
    root or every requested permission is among the bits of the caller's class
    (owner, else group, else other); a write on a read-only mount is EROFS,
    every other refusal EACCES. *)
Theorem faccess_correct (f : fat32fs_info) (v : fat32fs_vnode) (mode : Z) (cr : cred) :
  let rdonly := flag mode VWRITE && flag (fsi_vfs_flag f) VFS_RDONLY in
  let e := fat32_faccess f v mode cr in
  (e = 0 <->
     rdonly = false /\ flag mode VWRITE && flag (fv_attr v) FAT32_ATTR_READ_ONLY = false /\
     (cr_uid cr = 0 \/ missing mode (fv_mode v) (perm_class v cr) = 0)) /\
  e = (if rdonly then EROFS else if e =? 0 then 0 else EACCES).
Proof.
  cbn zeta. unfold fat32_faccess, perm_class.
  destruct (flag mode VWRITE && flag (fsi_vfs_flag f) VFS_RDONLY); [split; [split; naive_solver|done]|].
  destruct (flag mode VWRITE && flag (fv_attr v) FAT32_ATTR_READ_ONLY); [split; [split; naive_solver|done]|].
  destruct (Z.eqb_spec (cr_uid cr) 0) as [|Hroot]; [split; [tauto|done]|].
  set (d := if cr_uid cr =? fv_uid v then _ else _).
  set (sh := if cr_uid cr =? fv_uid v then 0 else _).
  assert (d = 0 <-> missing mode (fv_mode v) sh = 0) as Hd.
  { unfold d, sh. destruct (cr_uid cr =? fv_uid v); [|destruct (groupmember _ _)];
      (rewrite <- denied_0 by lia; reflexivity). }
  destruct (Z.eqb_spec d 0) as [E|E]; cbn [negb].
  - split; [|done]. split; [|done]. intros _. split_and!; [done..|]. right. by apply Hd.
  - split; [|done]. split; [done|]. intros (_ & _ & [?|Hm]); [done|]. by apply Hd in Hm.
Qed.

Lemma wp_do_nanotime (s : st K) :
  wp do_nanotime s (okp (fun now s' => now = snd (nanotime (kst s)) /\ s ≡ s')).
Proof.
  pose proof (nanotime_view (kst s)) as Hview. unfold wp, do_nanotime.
  destruct (nanotime (kst s)) as [k now]. cbn in *. by split_and!.
Qed.

Lemma touch_flags flags :
  Z.lor (Z.land flags (Z.lor FV_ATIME_DIRTY FV_MTIME_DIRTY)) FV_MODIFIED =
  Z.lor (if flag flags FV_ATIME_DIRTY then FV_ATIME_DIRTY else 0)
    (Z.lor (if flag flags FV_MTIME_DIRTY then FV_MTIME_DIRTY else 0) FV_MODIFIED).
Proof.
  rewrite Z.land_lor_distr_r, <- Z.lor_assoc. f_equal; [apply (land_bit flags 2); lia|].
  f_equal. apply (land_bit flags 3). lia.
Qed.

Lemma wp_touch (s : st K) p v flags :
  fvs s !! p = Some v ->
  wp (fat32_touch p flags) s (okp (fun _ s' =>
    let now := snd (nanotime (kst s)) in
    let at' := (flags =? 0) || flag flags FV_ATIME_DIRTY in
    let mt := (flags =? 0) || flag flags FV_MTIME_DIRTY in
    set_fvs (<[p := or_flags
        (Z.lor (if at' then FV_ATIME_DIRTY else 0) (Z.lor (if mt then FV_MTIME_DIRTY else 0) FV_MODIFIED))
        (set_fv_atime (if at' then now else fv_atime v)
          (set_fv_mtime (if mt then now else fv_mtime v)
            (set_fv_ctime (if flags =? 0 then now else fv_ctime v) v)))]> (fvs s)) s ≡ s')).
Proof.
  intros Hv. unfold fat32_touch. cbn zeta.
  eapply wp_call_ok; [apply wp_do_nanotime|]. intros now s1 [-> Hs1].
  assert (fvs s1 !! p = Some v) as Hv1 by (by rewrite <- Hs1).
  destruct (flags =? 0); cbn [orb].
  - eapply wp_mono; [by apply wp_upd_fv|]. intros [[]| | | |] s2; try done. cbn [okp]. intros ->.
    destruct Hs1 as (Hf & Hvs & Hh & Hw). split_and!; try done. cbn [fvs set_fvs]. by rewrite Hvs.
  - eapply wp_call_ok; [by apply wp_upd_fv|]. intros [] ? ->.
    eapply wp_call_ok; [eapply wp_upd_fv; cbn; by rewrite lookup_insert_eq|]. intros [] ? ->.
    eapply wp_mono; [eapply wp_upd_fv; cbn; by rewrite lookup_insert_eq|].
    intros [[]| | | |] s2; try done. cbn [okp]. intros ->. cbn [fvs set_fvs].
    rewrite !insert_insert_eq, touch_flags.
    destruct Hs1 as (Hf & Hvs & Hh & Hw). split_and!; try done. cbn. rewrite Hvs. f_equal.
    by destruct v, (flag flags FV_ATIME_DIRTY), (flag flags FV_MTIME_DIRTY).
Qed.

(** [fat32_touch] sets the access and modification times that the flags
    name to the current time, all three times when the flags are 0, marks these
    (not the creation time) dirty and the vnode modified, and changes no other
    member, no other vnode and no block. *)
Theorem touch_correct (s : st K) p v flags :
  fvs s !! p = Some v ->
  wp (fat32_touch p flags) s (okp (fun _ s' =>
    let now := snd (nanotime (kst s)) in
    let at' := (flags =? 0) || flag flags FV_ATIME_DIRTY in
    let mt := (flags =? 0) || flag flags FV_MTIME_DIRTY in
    set_fvs (<[p := or_flags
        (Z.lor (if at' then FV_ATIME_DIRTY else 0) (Z.lor (if mt then FV_MTIME_DIRTY else 0) FV_MODIFIED))
        (set_fv_atime (if at' then now else fv_atime v)
          (set_fv_mtime (if mt then now else fv_mtime v)
            (set_fv_ctime (if flags =? 0 then now else fv_ctime v) v)))]> (fvs s)) s ≡ s')).
Proof. apply wp_touch. Qed.

End access.

Lemma touch_correct_witness :
  wp (fat32_touch 1 FV_MTIME_DIRTY) demo (okp (fun _ s' =>
    let now := snd (nanotime (kst demo)) in
    let at' := (FV_MTIME_DIRTY =? 0) || flag FV_MTIME_DIRTY FV_ATIME_DIRTY in
    let mt := (FV_MTIME_DIRTY =? 0) || flag FV_MTIME_DIRTY FV_MTIME_DIRTY in
    set_fvs (<[1%nat := or_flags
        (Z.lor (if at' then FV_ATIME_DIRTY else 0) (Z.lor (if mt then FV_MTIME_DIRTY else 0) FV_MODIFIED))
        (set_fv_atime (if at' then now else fv_atime demo_fv)
          (set_fv_mtime (if mt then now else fv_mtime demo_fv)
            (set_fv_ctime (if FV_MTIME_DIRTY =? 0 then now else fv_ctime demo_fv) demo_fv)))]>
      (fvs demo)) demo ≡ s')).
Proof. apply (touch_correct demo 1 demo_fv FV_MTIME_DIRTY). reflexivity. Defined.
