(* ===== verification/Boot.v ===== *)
(** * Mounting ([fat32_vfs.c]): boot sector, FSInfo and mount options

    [fat32_read_boot] and the option parser of [fat32_mount].  The theorems show
    that a boot record that follows the format yields the well-formed geometry
    the cluster code relies on, and which sectors are refused. *)
From S2P Require Import Prelude Layout Time Names Kernel Device Cls Fat Demo Alloc Chain.

(** ** Definitions *)

Definition partition_field (mbr : list Z) (i : nat) (fl : Mbr.pfield) : list Z :=
  get_field Mbr.fat32_mbr_partition (get_field Mbr.fat32_mbr mbr (Mbr.partition i)) fl.

Definition system_id (mbr : list Z) (i : nat) : Z := nth 0 (partition_field mbr i Mbr.system_id) 0.

Definition is_fat32_id (id : Z) : bool := (id =? 0x0C) || (id =? 0x0B).

(** [for (i = 0; i < 4; i++) ... break;]: the first FAT32 partition, or -1. *)
Definition auto_partition (mbr : list Z) : Z :=
  match list_find (fun i => is_fat32_id (system_id mbr i) = true) (seq 0 4) with
  | Some (_, i) => Z.of_nat i
  | None => -1
  end.

Definition part_to_use (f : fat32fs_info) (mbr : list Z) : Z :=
  if (0 <=? fsi_partition_num f) && (fsi_partition_num f <? 4)
  then fsi_partition_num f else auto_partition mbr.

(** [fs_type] starts with "FAT3". *)
Definition looks_like_fat32 (d : list Z) : bool :=
  let t := get_field Br.fat32_br d Br.fs_type in
  (nth 0 t 0 =? 70) && (nth 1 t 0 =? 65) && (nth 2 t 0 =? 84) && (nth 3 t 0 =? 51).

Definition set_partition_offset (x : Z) (v : fat32fs_info) : fat32fs_info :=
  mkFsi (fsi_vfs_flag v) (fsi_dev v) (fsi_devvp v) (fsi_rootvp v) x (fsi_partition_num v) (fsi_uid v) (fsi_gid v)
    (fsi_fsinfo_sector v) (fsi_fat_start v) (fsi_bytes_per_sector v)
    (fsi_sectors_per_cluster v) (fsi_bytes_per_cluster v) (fsi_reserved_sectors v)
    (fsi_sector_shift v) (fsi_sector_mask v) (fsi_cluster_shift v) (fsi_cluster_mask v)
    (fsi_spc_shift v) (fsi_num_fats v) (fsi_fat_size v) (fsi_root_cluster v)
    (fsi_total_sectors v) (fsi_data_start v) (fsi_cluster_count v) (fsi_free_count v) (fsi_next_free v).

(** The parameters computed from the boot record; [None] is the division by
    zero for a record with no sectors per cluster. *)
Definition parse_br (f : fat32fs_info) (br : list Z) : option fat32fs_info :=
  let le16 fl := RLE16 (get_field Br.fat32_br br fl) in
  let le32 fl := RLE32 (get_field Br.fat32_br br fl) in
  let off := fsi_partition_offset f in
  let bps := le16 Br.bytes_per_sector in
  let spc := get_byte Br.fat32_br br Br.sectors_per_cluster in
  let reserved := le16 Br.reserved_sectors in
  let num_fats := get_byte Br.fat32_br br Br.num_fats in
  let fat_size := le32 Br.fat_size_32 in
  let total := le32 Br.total_sectors_32 in
  let bpc := u32 (bps * spc) in
  let data_start := u32 (reserved + u32 (num_fats * fat_size)) in
  if spc =? 0 then None else
  let cluster_count := u32 (total - data_start) / spc in
  Some (mkFsi (fsi_vfs_flag f) (fsi_dev f) (fsi_devvp f) (fsi_rootvp f) off (fsi_partition_num f) (fsi_uid f) (fsi_gid f)
    (u32 (off + le16 Br.fs_info)) (u32 (off + reserved)) bps spc bpc reserved
    (fat32_log2 bps) (u32 (bps - 1)) (fat32_log2 bpc) (u32 (bpc - 1)) (fat32_log2 spc)
    num_fats fat_size (le32 Br.root_cluster) total (u32 (data_start + off)) cluster_count
    (fsi_free_count f) (fsi_next_free f)).

(** The counters read from the FSInfo sector. *)
Definition fsinfo_counters (d : list Z) : Z * Z :=
  let le32 fl := RLE32 (get_field FsInfo.fat32_fsinfo d fl) in
  if negb (le32 FsInfo.lead_signature =? FAT32_FSINFO_LEAD_SIG) ||
     negb (le32 FsInfo.struct_signature =? FAT32_FSINFO_STRUCT_SIG) ||
     negb (le32 FsInfo.trail_signature =? FAT32_FSINFO_TRAIL_SIG)
  then (0xFFFFFFFF, 0xFFFFFFFF)
  else (le32 FsInfo.free_count, le32 FsInfo.next_free).

Section boot.
Context {K : Type} `{!Kernel K}.

Definition set_counters (c : Z * Z) : M (st K) unit :=
  modify (fun s => set_fsi (set_fsi_next_free c.2 (set_fsi_free_count c.1 (fsi s))) s).

(** The buffer that holds the boot record: sector 0, or the first sector of the
    chosen partition. *)
Definition find_boot_record (bp : buf) : M (st K) buf :=
  let d := b_addr bp in
  if looks_like_fat32 d then ret bp else
  let* f := gets fsi in
  let part := part_to_use f d in
  if part <? 0 then do* do_brelse bp in throw EINVAL else
  if negb (is_fat32_id (system_id d (Z.to_nat part))) then do* do_brelse bp in throw EINVAL else
  let off := RLE32 (partition_field d (Z.to_nat part) Mbr.relative_sector) in
  do* modify (fun s => set_fsi (set_partition_offset off (fsi s)) s) in
  do* do_brelse bp in
  let* bp := do_bread off 1 in
  do* check_buf bp in
  ret bp.

Definition read_fsinfo : M (st K) unit :=
  let* f := gets fsi in
  let* bp := do_bread (fsi_fsinfo_sector f) 1 in
  if b_is_error bp then
    do* set_counters (0xFFFFFFFF, 0xFFFFFFFF) in do_brelse bp
  else
    do* set_counters (fsinfo_counters (b_addr bp)) in do_brelse bp.

Definition fat32_read_boot : M (st K) unit :=
  do* modify (fun s => set_fsi (set_partition_offset 0 (fsi s)) s) in
  let* bp := do_bread 0 1 in
  do* check_buf bp in
  let* sig := of_opt (bsub (b_addr bp) 510 2) in
  if negb (RLE16 sig =? FAT32_SECTOR_SIGNATURE) then do* do_brelse bp in throw EINVAL else
  let* bp := find_boot_record bp in
  let br := b_addr bp in
  if negb (RLE16 (get_field Br.fat32_br br Br.signature) =? FAT32_SECTOR_SIGNATURE)
  then do* do_brelse bp in throw EINVAL else
  let* f := gets fsi in
  let* f' := of_opt (parse_br f br) in
  do* modify (set_fsi f') in
  do* do_brelse bp in
  read_fsinfo.

End boot.

(** ** Mount options *)

Record mount_opts : Type := mkOpts { mo_partition : Z; mo_uid : Z; mo_gid : Z }.

(** [atoi] of the C library: blanks, a sign, digits; reduced to [int]. *)
Definition is_space (c : Z) : bool := (c =? 32) || ((9 <=? c) && (c <=? 13)).
Definition is_digit (c : Z) : bool := (48 <=? c) && (c <=? 57).

Fixpoint skip_spaces (cs : list Z) : list Z :=
  match cs with c :: cs' => if is_space c then skip_spaces cs' else cs | [] => [] end.

Fixpoint digits (acc : Z) (cs : list Z) : Z :=
  match cs with c :: cs' => if is_digit c then digits (10 * acc + (c - 48)) cs' else acc | [] => acc end.

Definition atoi (cs : list Z) : Z :=
  s32 (match skip_spaces cs with
       | 45 :: cs' => - digits 0 cs'
       | 43 :: cs' => digits 0 cs'
       | cs' => digits 0 cs'
       end).

(** [while ( *p && *p != ',') p++;]: the option and what follows it, without
    the comma. *)
Fixpoint next_option (p : list Z) : list Z * list Z :=
  match p with
  | [] => ([], [])
  | c :: p' => if c =? 44 then ([], p') else let '(o, r) := next_option p' in (c :: o, r)
  end.

(** [strncmp(opt, key, strlen(key)) == 0]. *)
Definition has_key (key opt : list Z) : bool := bool_decide (take (length key) opt = key).

Definition key_part : list Z := [112; 97; 114; 116; 61].
Definition key_uid : list Z := [117; 105; 100; 61].
Definition key_gid : list Z := [103; 105; 100; 61].

Definition apply_option (m : mount_opts) (opt : list Z) : res mount_opts :=
  if has_key key_part opt then
    let n := atoi (drop 5 opt) in
    if (n <? 0) || (3 <? n) then Err EINVAL else Ok (mkOpts n (mo_uid m) (mo_gid m))
  else if has_key key_uid opt then Ok (mkOpts (mo_partition m) (atoi (drop 4 opt)) (mo_gid m))
  else if has_key key_gid opt then Ok (mkOpts (mo_partition m) (mo_uid m) (atoi (drop 4 opt)))
  else Ok m.

(** The loop over the options; every round removes at least one character. *)
Fixpoint parse_loop (fuel : nat) (p : list Z) (m : mount_opts) : res mount_opts :=
  match fuel with
  | O => Spin
  | S n =>
      match p with
      | [] => Ok m
      | _ => let '(opt, p') := next_option p in
             match opt with
             | [] => parse_loop n p' m
             | _ => match apply_option m opt with
                    | Ok m' => parse_loop n p' m'
                    | e => e
                    end
             end
      end
  end.

(** The buffer is read up to its first NUL. *)
Definition c_string (d : list Z) : list Z :=
  match list_find (fun c => c = 0) d with Some (i, _) => take i d | None => d end.

Definition parse_options (data : list Z) : res mount_opts :=
  let p := c_string data in parse_loop (S (length p)) p (mkOpts (-1) 0 0).

(** ** The option parser is a fold over the comma-separated options *)

Definition join (opts : list (list Z)) : list Z :=
  match opts with [] => [] | o :: os => o ++ concat (map (cons 44) os) end.

Fixpoint apply_all (m : mount_opts) (opts : list (list Z)) : res mount_opts :=
  match opts with
  | [] => Ok m
  | o :: os => match o with
               | [] => apply_all m os
               | _ => match apply_option m o with Ok m' => apply_all m' os | e => e end
               end
  end.

Lemma next_option_app o r :
  44 ∉ o -> next_option (o ++ 44 :: r) = (o, r).
Proof.
  induction o as [|c o IH]; intros Ho; [done|]. cbn. apply not_elem_of_cons in Ho as [Hc Ho].
  rewrite (proj2 (Z.eqb_neq c 44)) by lia. by rewrite IH.
Qed.

Lemma next_option_last o : 44 ∉ o -> next_option o = (o, []).
Proof.
  induction o as [|c o IH]; intros Ho; [done|]. cbn. apply not_elem_of_cons in Ho as [Hc Ho].
  rewrite (proj2 (Z.eqb_neq c 44)) by lia. by rewrite IH.
Qed.

Lemma parse_loop_nil fuel m : (0 < fuel)%nat -> parse_loop fuel [] m = Ok m.
Proof. by destruct fuel; [lia|]. Qed.

Lemma parse_loop_join opts fuel m :
  Forall (fun o => 44 ∉ o) opts -> (length (join opts) < fuel)%nat ->
  parse_loop fuel (join opts) m = apply_all m opts.
Proof.
  intros Hall. revert fuel m. induction opts as [|o os IH]; intros fuel m Hf.
  { by apply parse_loop_nil; cbn in Hf; lia. }
  apply Forall_cons_1 in Hall as [Ho Hall]. destruct fuel as [|fuel]; [lia|].
  destruct os as [|o' os].
  - cbn [join map concat] in *. rewrite app_nil_r in *. cbn [parse_loop].
    destruct o as [|c o]; [done|]. rewrite next_option_last by done. cbn [apply_all].
    destruct (apply_option m (c :: o)) as [m'| | | |]; try done. apply parse_loop_nil. cbn in Hf. lia.
  - assert (join (o :: o' :: os) = o ++ 44 :: join (o' :: os)) as E by done. rewrite E in *.
    rewrite length_app in Hf. cbn [length] in Hf.
    assert (o ++ 44 :: join (o' :: os) <> []) by (by destruct o).
    change (parse_loop (S fuel) ?p m) with
      (match p with [] => Ok m | _ => let '(opt, p') := next_option p in
         match opt with [] => parse_loop fuel p' m
         | _ => match apply_option m opt with Ok m' => parse_loop fuel p' m' | e => e end end end).
    rewrite next_option_app by done.
    destruct (o ++ 44 :: join (o' :: os)); [done|].
    destruct o as [|c o]; [apply IH; [done|lia]|].
    cbn [apply_all]. destruct (apply_option m (c :: o)) as [m'| | | |]; try done.
    apply IH; [done|lia].
Qed.

Lemma c_string_id d : 0 ∉ d -> c_string d = d.
Proof.
  intros H. unfold c_string. rewrite (proj2 (list_find_None _ d)); [done|].
  apply Forall_forall. intros x Hx ->. done.
Qed.

(** the option parser of [fat32_mount] ends on every buffer and processes
    the comma-separated options one after the other, skipping empty and unknown
    ones, a later value replacing an earlier one; it fails with EINVAL exactly
    at a partition number outside 0 to 3. *)
Theorem parse_options_correct (opts : list (list Z)) :
  Forall (fun o => 44 ∉ o /\ 0 ∉ o) opts ->
  parse_options (join opts) = apply_all (mkOpts (-1) 0 0) opts.
Proof.
  intros H. unfold parse_options. rewrite c_string_id.
  - apply parse_loop_join; [|lia]. eapply Forall_impl; [exact H|]. naive_solver.
  - induction H as [|o os [_ Ho] Hos IH]; [apply not_elem_of_nil|]. cbn [join].
    rewrite elem_of_app. intros [?|Hin]; [done|].
    apply list_elem_of_In, in_concat in Hin as (x & Hx & Hin). apply in_map_iff in Hx as (y & <- & Hy).
    apply list_elem_of_In in Hy. apply list_elem_of_In, elem_of_cons in Hin as [?|Hin]; [done|].
    rewrite Forall_forall in Hos. by apply (Hos y Hy).
Qed.

(** "part=2,uid=100" *)
Lemma parse_options_correct_witness :
  parse_options (join [[112; 97; 114; 116; 61; 50]; [117; 105; 100; 61; 49; 48; 48]]) = Ok (mkOpts 2 100 0).
Proof.
  apply (parse_options_correct [[112; 97; 114; 116; 61; 50]; [117; 105; 100; 61; 49; 48; 48]]).
  apply (bool_decide_unpack _). vm_compute. exact I.
Defined.

(** ** The boot record *)

Definition br16 (br : list Z) (fl : Br.field) : Z := RLE16 (get_field Br.fat32_br br fl).
Definition br32 (br : list Z) (fl : Br.field) : Z := RLE32 (get_field Br.fat32_br br fl).
Definition br8 (br : list Z) (fl : Br.field) : Z := get_byte Br.fat32_br br fl.

(** The sectors before the data area, and the number of clusters in it. *)
Definition br_meta (br : list Z) : Z :=
  br16 br Br.reserved_sectors + br8 br Br.num_fats * br32 br Br.fat_size_32.
Definition br_clusters (br : list Z) : Z :=
  (br32 br Br.total_sectors_32 - br_meta br) / br8 br Br.sectors_per_cluster.

(** A record that follows the FAT32 format, with 512-byte sectors, for a
    partition at [off]. *)
Record valid_br (off : Z) (br : list Z) : Prop := {
  vb_signature : br16 br Br.signature = FAT32_SECTOR_SIGNATURE;
  vb_bps : br16 br Br.bytes_per_sector = 512;
  vb_spc : exists k, 0 <= k <= 7 /\ br8 br Br.sectors_per_cluster = 2 ^ k;
  vb_fats : 1 <= br8 br Br.num_fats <= 255;
  vb_fsinfo : 0 <= br16 br Br.fs_info < br16 br Br.reserved_sectors;
  vb_fat_size : 0 <= br32 br Br.fat_size_32 /\ 4 * (br_clusters br + 2) <= 512 * br32 br Br.fat_size_32;
  vb_total : br_meta br <= br32 br Br.total_sectors_32;
  vb_end : 0 <= off /\ off + br32 br Br.total_sectors_32 < 2 ^ 32;
  vb_clusters : br_clusters br <= 0x0FFFFFF5
}.

Lemma log2_pow k : 0 <= k <= 7 -> fat32_log2 (2 ^ k) = k /\ fat32_log2 (512 * 2 ^ k) = 9 + k.
Proof.
  intros Hk. assert (k = 0 \/ k = 1 \/ k = 2 \/ k = 3 \/ k = 4 \/ k = 5 \/ k = 6 \/ k = 7) as Hc by lia.
  repeat destruct Hc as [->|Hc]; try subst k; done.
Qed.

(** What is cached for a valid record. *)
Definition geometry_of (f : fat32fs_info) (off : Z) (br : list Z) (f' : fat32fs_info) : Prop :=
  fsi_partition_offset f' = off /\ fsi_fsinfo_sector f' = off + br16 br Br.fs_info /\
  fsi_fat_start f' = off + br16 br Br.reserved_sectors /\
  fsi_num_fats f' = br8 br Br.num_fats /\ fsi_fat_size f' = br32 br Br.fat_size_32 /\
  fsi_data_start f' = off + br_meta br /\ fsi_cluster_count f' = br_clusters br /\
  fsi_sectors_per_cluster f' = br8 br Br.sectors_per_cluster /\
  fsi_root_cluster f' = br32 br Br.root_cluster /\
  fsi_uid f' = fsi_uid f /\ fsi_gid f' = fsi_gid f /\ fsi_vfs_flag f' = fsi_vfs_flag f /\
  fsi_dev f' = fsi_dev f /\ fsi_devvp f' = fsi_devvp f.

Lemma parse_br_valid f br :
  valid_br (fsi_partition_offset f) br ->
  exists f', parse_br f br = Some f' /\ fs_wf f' /\ geometry_of f (fsi_partition_offset f) br f'.
Proof.
  intros [Hsig Hbps (k & Hk & Hspc) Hfats Hinfo [Hfs0 Hfs] Htot [Hoff Hend] Hcl].
  unfold br_clusters, br_meta, br16, br8, br32 in *. set (off := fsi_partition_offset f) in *.
  assert (0 < 2 ^ k <= 128) as Hpow.
  { split; [apply Z.pow_pos_nonneg; lia|]. change 128 with (2 ^ 7). apply Z.pow_le_mono_r; lia. }
  destruct (log2_pow k Hk) as [Hl1 Hl2].
  set (res := RLE16 (get_field Br.fat32_br br Br.reserved_sectors)) in *.
  set (nf := get_byte Br.fat32_br br Br.num_fats) in *.
  set (fs := RLE32 (get_field Br.fat32_br br Br.fat_size_32)) in *.
  set (tot := RLE32 (get_field Br.fat32_br br Br.total_sectors_32)) in *.
  set (fi := RLE16 (get_field Br.fat32_br br Br.fs_info)) in *.
  assert (0 <= nf * fs) by nia.
  unfold parse_br. fold off res nf fs tot fi. rewrite Hspc, Hbps in *.
  rewrite (proj2 (Z.eqb_neq (2 ^ k) 0)) by lia.
  rewrite (u32_small (512 * 2 ^ k)), (u32_small (nf * fs)), (u32_small (res + _)) by lia.
  rewrite (u32_small (tot - _)), (u32_small (off + res)), (u32_small (off + _)) by lia.
  rewrite (u32_small (512 - 1)), (u32_small (512 * _ - 1)), (u32_small (_ + off)) by lia.
  rewrite Hl1, Hl2. change (fat32_log2 512) with 9.
  eexists. split; [reflexivity|].
  pose proof (Z.div_pos (tot - (res + nf * fs)) (2 ^ k)) as Hdiv.
  pose proof (Z.mul_div_le (tot - (res + nf * fs)) (2 ^ k)) as Hmul.
  split.
  - clearbody off res nf fs tot fi. constructor; cbn; try (done || lia).
  - unfold geometry_of, br_clusters, br_meta, br16, br8, br32. fold res nf fs tot fi.
    set (rc := RLE32 _). rewrite Hspc. clearbody off res nf fs tot fi rc. cbn. split_and!; try done; lia.
Qed.

Section read_boot.
Context {K : Type} `{!Kernel K, !KernelLaws K}.
Implicit Types s : st K.

(** Where the boot record is: sector 0, or the partition chosen from the MBR. *)
Definition boot_at s (off : Z) (br : list Z) : Prop :=
  exists d, view (kst s) 0 1 = Some d /\ RLE16 (take 2 (drop 510 d)) = FAT32_SECTOR_SIGNATURE /\
    if looks_like_fat32 d then off = 0 /\ br = d
    else let part := part_to_use (fsi s) d in
         0 <= part /\ is_fat32_id (system_id d (Z.to_nat part)) = true /\
         off = RLE32 (partition_field d (Z.to_nat part) Mbr.relative_sector) /\
         view (kst s) off 1 = Some br.

(** All but the mount structure is as before. *)
Definition same_but_fsi s s' : Prop :=
  fvs s' = fvs s /\ held s' = held s /\ forall b n, view (kst s') b n = view (kst s) b n.

Lemma same_but_fsi_trans s1 s2 s3 : same_but_fsi s1 s2 -> same_but_fsi s2 s3 -> same_but_fsi s1 s3.
Proof.
  intros (Hv & Hh & Hw) (Hv' & Hh' & Hw'). split_and!; [congruence..|]. intros. by rewrite Hw'.
Qed.

Lemma same_but_fsi_equiv s s' : s ≡ s' -> same_but_fsi s s'.
Proof. by intros (_ & ? & ? & ?). Qed.

(** The signature of a sector. *)
Lemma sector_signature d : length d = 512%nat -> bsub d 510 2 = Some (take 2 (drop 510 d)).
Proof. intros. by rewrite bsub_Some by lia. Qed.

Lemma wp_find_boot_record s off br bp d :
  view (kst s) 0 1 = Some d -> b_addr bp = d -> clean s bp -> fsi_partition_offset (fsi s) = 0 ->
  (if looks_like_fat32 d then off = 0 /\ br = d
   else let part := part_to_use (fsi s) d in
        0 <= part /\ is_fat32_id (system_id d (Z.to_nat part)) = true /\
        off = RLE32 (partition_field d (Z.to_nat part) Mbr.relative_sector) /\
        view (kst s) off 1 = Some br) ->
  wp (find_boot_record bp) s (okp (fun bp' s' =>
    b_addr bp' = br /\ clean s' bp' /\ fsi s' = set_partition_offset off (fsi s) /\ same_but_fsi s s')).
Proof.
  intros Hd Hb Hcl Hoff. unfold find_boot_record. rewrite Hb. cbn zeta.
  destruct (looks_like_fat32 d).
  - intros [-> ->]. apply wp_ret. split_and!; try done. rewrite <- Hoff. by destruct (fsi s).
  - intros (Hp & Hid & -> & Hbr). repeat wp_step. rewrite (proj2 (Z.ltb_ge _ _) Hp), Hid. cbn [negb].
    repeat wp_step. eapply wp_call_ok; [by apply wp_do_brelse|]. intros [] s1 (Hf1 & Hv1 & Hh1 & Hw1).
    cbn in Hf1, Hv1, Hh1, Hw1.
    eapply wp_call_ok; [apply wp_do_bread; rewrite Hw1; exact Hbr|].
    intros bp' s2 (Eb & En & Ee & Ea & Hf2 & Hv2 & Hh2 & Hw2).
    eapply wp_call_ok; [by apply wp_check_buf_ok|]. intros [] ? ->. apply wp_ret.
    split_and!; [done|right; by rewrite Eb, En, Ea, Hw2, Hw1|by rewrite Hf2, Hf1|]. split_and!; [congruence..|]. intros. by rewrite Hw2, Hw1.
Qed.

(** The counters the mount starts with. *)
Definition initial_counters s (sector : Z) : Z * Z :=
  match view (kst s) sector 1 with
  | Some d => fsinfo_counters d
  | None => (0xFFFFFFFF, 0xFFFFFFFF)
  end.

Lemma wp_read_fsinfo s :
  wp read_fsinfo s (okp (fun _ s' =>
    let c := initial_counters s (fsi_fsinfo_sector (fsi s)) in
    fsi s' = set_fsi_next_free c.2 (set_fsi_free_count c.1 (fsi s)) /\ same_but_fsi s s')).
Proof.
  unfold read_fsinfo, initial_counters. repeat wp_step. cbn zeta.
  destruct (view (kst s) (fsi_fsinfo_sector (fsi s)) 1) as [d|] eqn:Hd.
  - eapply wp_call_ok; [by apply wp_do_bread|]. intros bp s1 (Eb & En & Ee & Ea & Hs1).
    pose proof (bread_clean _ _ _ _ _ _ Hd Eb En Ea Hs1) as Hcl.
    rewrite Ee, Ea. unfold set_counters. repeat wp_step.
    eapply wp_mono; [by apply wp_do_brelse|]. intros [[]| | | |] s2; try done. cbn [okp].
    intros (Hf & Hv & Hh & Hw). destruct Hs1 as (Hf1 & Hv1 & Hh1 & Hw1). cbn in *.
    split; [congruence|]. split_and!; [congruence..|]. intros. by rewrite Hw, Hw1.
  - eapply wp_call_ok; [apply (wp_bread_any s)|]. intros bp s1 [He Hs1]. rewrite He by done.
    unfold set_counters. repeat wp_step.
    eapply wp_mono; [apply wp_do_brelse; left; by apply He|]. intros [[]| | | |] s2; try done. cbn [okp].
    intros (Hf & Hv & Hh & Hw). destruct Hs1 as (Hf1 & Hv1 & Hh1 & Hw1). cbn in *.
    split; [congruence|]. split_and!; [congruence..|]. intros. by rewrite Hw, Hw1.
Qed.

Lemma wp_read_boot s off br :
  boot_at s off br -> valid_br off br ->
  wp fat32_read_boot s (okp (fun _ s' =>
    fs_wf (fsi s') /\ geometry_of (fsi s) off br (fsi s') /\
    (fsi_free_count (fsi s'), fsi_next_free (fsi s')) =
      initial_counters s (off + br16 br Br.fs_info) /\
    same_but_fsi s s')).
Proof.
  intros (d & Hd & Hsig & Hwhere) Hvb. unfold fat32_read_boot. repeat wp_step.
  eapply wp_call_ok; [by apply wp_do_bread|]. intros bp s1 (Eb & En & Ee & Ea & Hs1).
  assert (clean s1 bp) as Hcl by (refine (bread_clean _ _ _ _ _ _ _ Eb En Ea Hs1); exact Hd).
  eapply wp_call_ok; [by apply wp_check_buf_ok|]. intros [] ? ->.
  destruct (block_bytes _ _ _ Hd) as [Hl _]. rewrite Ea, sector_signature by done. cbn [of_opt].
  repeat wp_step. rewrite Hsig, Z.eqb_refl. cbn [negb].
  destruct Hs1 as (Hf1 & Hv1 & Hh1 & Hw1). cbn [fsi fvs held kst set_fsi] in Hf1, Hv1, Hh1, Hw1.
  eapply wp_call_ok.
  { apply (wp_find_boot_record s1 off br bp d); [by rewrite Hw1|done|done|by rewrite Hf1|].
    rewrite Hf1. destruct (looks_like_fat32 d); [done|]. by rewrite Hw1. }
  intros bp' s2 (Ea' & Hcl' & Hf2 & Hv2 & Hh2 & Hw2). rewrite Ea'.
  fold (br16 br Br.signature). rewrite (vb_signature _ _ Hvb), Z.eqb_refl. cbn [negb]. repeat wp_step.
  rewrite Hf2, Hf1.
  destruct (parse_br_valid (set_partition_offset off (set_partition_offset 0 (fsi s))) br) as (f' & -> & Hwf & Hgeo).
  { exact Hvb. }
  cbn [of_opt]. repeat wp_step.
  eapply wp_call_ok; [exact (wp_do_brelse (set_fsi f' s2) bp' Hcl')|]. intros [] s3 (Hf3 & Hv3 & Hh3 & Hw3).
  eapply wp_mono; [apply wp_read_fsinfo|]. intros [[]|e| | |] s4 H4; [|contradiction H4..].
  destruct H4 as (Hf4 & Hv4 & Hh4 & Hw4). cbn [okp]. cbn in Hf3, Hv3, Hh3.
  assert (fsi_fsinfo_sector f' = off + br16 br Br.fs_info) as Hsec by apply Hgeo.
  assert (initial_counters s3 (fsi_fsinfo_sector (fsi s3)) = initial_counters s (off + br16 br Br.fs_info)) as Hc.
  { unfold initial_counters. rewrite Hw3. cbn. by rewrite Hw2, Hw1, Hf3, Hsec. }
  rewrite Hc, Hf3 in Hf4. rewrite Hf4. unfold same_but_fsi. split_and!; try congruence.
  - by apply (geom_wf f').
  - exact Hgeo.
  - by destruct (initial_counters s _).
  - intros b n. rewrite Hw4, Hw3. cbn. by rewrite Hw2, Hw1.
Qed.

(** C29: on a device whose boot record follows the FAT32 format (in sector 0 or
    in the chosen MBR partition), [fat32_read_boot] succeeds and caches the
    well-formed geometry of that record, with all sector numbers relative to
    the device, and the counters of FSInfo, or 0xFFFFFFFF when FSInfo cannot be
    read or has wrong signatures; nothing is written. *)
Theorem read_boot_correct s off br :
  boot_at s off br -> valid_br off br ->
  wp fat32_read_boot s (okp (fun _ s' =>
    fs_wf (fsi s') /\ geometry_of (fsi s) off br (fsi s') /\
    (fsi_free_count (fsi s'), fsi_next_free (fsi s')) =
      initial_counters s (off + br16 br Br.fs_info) /\
    same_but_fsi s s')).
Proof. apply wp_read_boot. Qed.

(** on a valid volume whose FSInfo sector is unreadable, has wrong
    signatures or records the free count as unknown (0xFFFFFFFF), every
    allocation after the mount fails with ENOSPC, whatever the FAT holds. *)
Theorem unknown_count_means_full s off br parent flags :
  boot_at s off br -> valid_br off br ->
  fst (initial_counters s (off + br16 br Br.fs_info)) = 0xFFFFFFFF ->
  wp (do* fat32_read_boot in fat32_allocate_cluster parent flags) s (fun r s' =>
    r = Err ENOSPC /\ same_but_fsi s s').
Proof.
  intros Hb Hv Hc. eapply wp_call_ok; [by apply wp_read_boot|].
  intros [] s1 (_ & _ & Hcnt & Hsame). unfold fat32_allocate_cluster. repeat wp_step.
  assert (fsi_free_count (fsi s1) = 0xFFFFFFFF) as E by (rewrite <- Hcnt in Hc; exact Hc).
  rewrite E. by apply wp_throw.
Qed.

(** C40: [fat32_read_boot] refuses with EINVAL, without writing anything, a
    device whose first sector has no 0xAA55 signature, and an MBR in which the
    requested partition, or with automatic choice every partition, has a type
    other than 0x0B and 0x0C. *)
Theorem read_boot_refuses s d :
  view (kst s) 0 1 = Some d ->
  RLE16 (take 2 (drop 510 d)) <> FAT32_SECTOR_SIGNATURE \/
  looks_like_fat32 d = false /\
    (let part := part_to_use (fsi s) d in
     part < 0 \/ is_fat32_id (system_id d (Z.to_nat part)) = false) ->
  wp fat32_read_boot s (fun r s' => r = Err EINVAL /\ same_but_fsi s s').
Proof.
  intros Hd Hbad. unfold fat32_read_boot. repeat wp_step.
  eapply wp_call_ok; [by apply wp_do_bread|]. intros bp s1 (Eb & En & Ee & Ea & Hs1).
  assert (clean s1 bp) as Hcl by (refine (bread_clean _ _ _ _ _ _ _ Eb En Ea Hs1); exact Hd).
  eapply wp_call_ok; [by apply wp_check_buf_ok|]. intros [] ? ->.
  destruct (block_bytes _ _ _ Hd) as [Hl _]. rewrite Ea, sector_signature by done. cbn [of_opt].
  repeat wp_step. destruct Hs1 as (Hf1 & Hv1 & Hh1 & Hw1). cbn [fsi fvs held kst set_fsi] in Hf1, Hv1, Hh1, Hw1.
  assert (forall A, wp (do* do_brelse bp in throw EINVAL) s1
    (fun r s' => r = @Err A EINVAL /\ same_but_fsi s s')) as Hout.
  { intros A. eapply wp_call_ok; [by apply wp_do_brelse|]. intros [] s2 (Hf2 & Hv2 & Hh2 & Hw2).
    apply wp_throw. split; [done|]. split_and!; [congruence..|]. intros. by rewrite Hw2, Hw1. }
  destruct (Z.eqb_spec (RLE16 (take 2 (drop 510 d))) FAT32_SECTOR_SIGNATURE) as [Hs|Hs]; cbn [negb];
    [|by apply Hout].
  destruct Hbad as [|[Hlook Hpart]]; [done|]. cbn zeta in Hpart.
  unfold find_boot_record. rewrite Ea, Hlook. repeat wp_step. rewrite Hf1.
  change (part_to_use (set_partition_offset 0 (fsi s)) d) with (part_to_use (fsi s) d).
  destruct (Z.ltb_spec (part_to_use (fsi s) d) 0) as [Hneg|Hpos].
  - eapply wp_mono; [by apply Hout|]. by intros r s2 [-> ?].
  - destruct Hpart as [|Hid]; [lia|]. rewrite Hid. cbn [negb].
    eapply wp_mono; [by apply Hout|]. by intros r s2 [-> ?].
Qed.

End read_boot.

(** ** A device with an MBR and one FAT32 partition at sector 8 *)

Definition demo_br : list Z :=
  let set fl v d := set_field Br.fat32_br d fl v in
  set Br.bytes_per_sector (WLE16 512) (set Br.sectors_per_cluster [1]
    (set Br.reserved_sectors (WLE16 2) (set Br.num_fats [2]
      (set Br.total_sectors_32 (WLE32 24) (set Br.fat_size_32 (WLE32 1)
        (set Br.root_cluster (WLE32 2) (set Br.fs_info (WLE16 1)
          (set Br.boot_signature [0x29] (set Br.fs_type [70; 65; 84; 51; 50; 32; 32; 32]
            (set Br.signature (WLE16 0xAA55) (zeros 512))))))))))).

Definition demo_mbr : list Z :=
  let part := set_field Mbr.fat32_mbr_partition
    (set_field Mbr.fat32_mbr_partition (zeros 16) Mbr.system_id [0x0C]) Mbr.relative_sector (WLE32 8) in
  set_field Mbr.fat32_mbr (set_field Mbr.fat32_mbr (zeros 512) (Mbr.partition 1) part)
    Mbr.signature (WLE16 0xAA55).

Definition demo_boot_disk : gmap Z (list Z) :=
  <[0 := demo_mbr]> (<[8 := demo_br]> (<[9 := demo_fsinfo]> ∅)).

(** No partition number given: [fsi_partition_num] is -1. *)
Definition demo_boot : st device :=
  mkSt (mkDevice ∅ demo_boot_disk (mkTimespec 0 0))
    (mkFsi 0 0 None None 0 (-1) 0 0 0 0 0 0 0 0 0 0 0 0 0 0 0 0 0 0 0 0 0) ∅ ∅.

Lemma demo_valid_br : valid_br 8 demo_br.
Proof.
  constructor; try (vm_compute; split; congruence); try (vm_compute; reflexivity);
    try (vm_compute; congruence).
  exists 0. split; [lia|vm_compute; reflexivity].
Qed.

Lemma read_boot_correct_witness :
  wp fat32_read_boot demo_boot (okp (fun _ s' =>
    fs_wf (fsi s') /\ geometry_of (fsi demo_boot) 8 demo_br (fsi s') /\
    (fsi_free_count (fsi s'), fsi_next_free (fsi s')) =
      initial_counters demo_boot (8 + br16 demo_br Br.fs_info) /\
    same_but_fsi demo_boot s')).
Proof.
  apply (read_boot_correct demo_boot 8 demo_br); [|apply demo_valid_br].
  exists demo_mbr. repeat split; vm_compute; congruence.
Defined.

Lemma read_boot_refuses_witness :
  wp fat32_read_boot (set_kst (mkDevice ∅ {[ 0 := zeros 512 ]} (mkTimespec 0 0)) demo)
    (fun r s' => r = Err EINVAL /\
       same_but_fsi (set_kst (mkDevice ∅ {[ 0 := zeros 512 ]} (mkTimespec 0 0)) demo) s').
Proof.
  apply (read_boot_refuses (set_kst (mkDevice ∅ {[ 0 := zeros 512 ]} (mkTimespec 0 0)) demo) (zeros 512)).
  - vm_compute. reflexivity.
  - left. vm_compute. congruence.
Defined.

(** The same device without the FSInfo sector. *)
Definition demo_boot_noinfo : st device :=
  set_kst (mkDevice ∅ (delete 9 demo_boot_disk) (mkTimespec 0 0)) demo_boot.

Lemma unknown_count_means_full_witness :
  wp (do* fat32_read_boot in fat32_allocate_cluster 0 0) demo_boot_noinfo (fun r s' =>
    r = Err ENOSPC /\ same_but_fsi demo_boot_noinfo s').
Proof.
  apply (unknown_count_means_full demo_boot_noinfo 8 demo_br); [|apply demo_valid_br|vm_compute; reflexivity].
  exists demo_mbr. repeat split; vm_compute; congruence.
Defined.
