(* ===== verification/Io.v ===== *)
(** * Reading and writing files ([fat32_read], [fat32_write]): definitions

    The transfer descriptor of the kernel ([struct uio]) and [uiomove] are not
    part of the driver: they are the operations of the class [Uio], and [UioLaws]
    states their documented behaviour.  A transfer runs on the driver state
    together with the descriptor, which the caller sees afterwards, also when
    the call fails. *)
From S2P Require Import Prelude Layout Time Kernel Cls File.

Class Uio (U : Type) := {
  uio_offset : U -> Z;
  uio_resid : U -> Z;
  set_uio_offset : Z -> U -> U;
  (** [uiomove(addr, n, UIO_READ, uio)] for the [n] bytes at [addr]; the error. *)
  uiomove_read : list Z -> U -> U * Z;
  (** [uiomove(addr, n, UIO_WRITE, uio)]: the error and the bytes stored at
      [addr], fewer than [n] after an error. *)
  uiomove_write : Z -> U -> U * (Z * list Z);
  (** The buffers of the user are mapped; what they have received so far; what
      they have still to send. *)
  user_ok : U -> Prop;
  user_got : U -> list Z;
  user_data : U -> list Z
}.

Class UioLaws (U : Type) `{Uio U} : Prop := {
  uiomove_read_ok u bs u' e :
    user_ok u -> Z.of_nat (length bs) <= uio_resid u -> uiomove_read bs u = (u', e) ->
    e = 0 /\ user_ok u' /\ uio_resid u' = uio_resid u - Z.of_nat (length bs) /\
    uio_offset u' = uio_offset u + Z.of_nat (length bs) /\
    user_got u' = user_got u ++ bs;
  uiomove_write_ok u n u' e bs :
    user_ok u -> 0 <= n <= uio_resid u -> n <= Z.of_nat (length (user_data u)) ->
    uiomove_write n u = (u', (e, bs)) ->
    e = 0 /\ user_ok u' /\ uio_resid u' = uio_resid u - n /\ uio_offset u' = uio_offset u + n /\
    bs = take (Z.to_nat n) (user_data u) /\ user_data u' = drop (Z.to_nat n) (user_data u);
  set_uio_offset_ok u o : user_ok u -> user_ok (set_uio_offset o u);
  set_uio_offset_get u o : uio_offset (set_uio_offset o u) = o;
  set_uio_offset_resid u o : uio_resid (set_uio_offset o u) = uio_resid u;
  set_uio_offset_data u o : user_data (set_uio_offset o u) = user_data u;
  set_uio_offset_got u o : user_got (set_uio_offset o u) = user_got u
}.

Section io.
Context {K U : Type} `{!Kernel K, !Uio U}.

Definition do_uio_read (bs : list Z) : M (st K * U) Z :=
  fun su => let '(u', e) := uiomove_read bs (snd su) in ((fst su, u'), Ok e).
Definition do_uio_write (n : Z) : M (st K * U) (Z * list Z) :=
  fun su => let '(u', r) := uiomove_write n (snd su) in ((fst su, u'), Ok r).

(** The position of a transfer loop. *)
Record iopos : Type := mkIopos {
  remaining : Z;
  offset_in_cluster : Z;
  current_cluster : Z;
  skip_clusters : Z
}.

(** [bytes_to_copy] *)
Definition chunk (f : fat32fs_info) (x : iopos) : Z :=
  let n := u32 (fsi_bytes_per_cluster f - offset_in_cluster x) in
  if remaining x <? n then u32 (remaining x) else n.

(** One round of the read loop; the loop ends with its last position. *)
Definition read_step (x : iopos) : M (st K * U) (iopos + iopos) :=
  if negb (0 <? remaining x) then ret (inr x) else
  let* f := gets (fun su => fsi (fst su)) in
  let* bp := lift (fat32_read_cluster (current_cluster x)) in
  do* lift (check_buf bp) in
  let bytes_to_copy := chunk f x in
  let* bs := of_opt (bsub (b_addr bp) (offset_in_cluster x) bytes_to_copy) in
  let* error := do_uio_read bs in
  do* lift (do_brelse bp) in
  if negb (error =? 0) then throw error else
  let rem := remaining x - bytes_to_copy in
  if 0 <? rem then
    let* r := try (lift (fat32_next_cluster (current_cluster x) 0)) in
    match r with
    | inl _ => throw EIO
    | inr next => ret (inl (mkIopos rem 0 next (u32 (skip_clusters x + 1))))
    end
  else ret (inl (mkIopos rem 0 (current_cluster x) (skip_clusters x))).

(** The part of [fat32_read] under the demoted lock.  Each round moves at least
    one byte, so [remaining + 1] rounds are enough. *)
Definition read_body (fv : nat) (file_offset file_size : Z) : M (st K * U) unit :=
  let* f := gets (fun su => fsi (fst su)) in
  if file_offset <? 0 then throw EINVAL else
  if file_size <=? file_offset then ret tt else
  let* resid := gets (fun su => uio_resid (snd su)) in
  let rem := if file_size <? swrap 64 (file_offset + resid) then file_size - file_offset else resid in
  if rem =? 0 then ret tt else
  let skip := u32 (Z.shiftr file_offset (fsi_cluster_shift f)) in
  let off := u32 (Z.land file_offset (fsi_cluster_mask f)) in
  let* cluster := lift (fat32_vnode_seek_cluster fv skip 0) in
  let* last := iter (S (Z.to_nat rem)) read_step (mkIopos rem off cluster skip) in
  lift (fat32_vnode_update_cache fv (skip_clusters last) (current_cluster last)).

Definition fat32_read (fv : nat) : M (st K * U) unit :=
  let* v := lift (get_fv fv) in
  if negb (bool_decide (fv_type v = VREG)) then throw EISDIR else
  do* lift (mrupdate (FvLock fv)) in
  do* lift (fat32_touch fv FV_ATIME_DIRTY) in
  let* file_offset := gets (fun su => uio_offset (snd su)) in
  let* v := lift (get_fv fv) in
  do* lift (mrdemote (FvLock fv)) in
  let* r := try (read_body fv file_offset (fv_size v)) in
  do* lift (mraccunlock (FvLock fv)) in
  rethrow r.

(** The file grows with every round. *)
Definition write_size (fv : nat) : M (st K * U) unit :=
  let* offset := gets (fun su => uio_offset (snd su)) in
  let* v := lift (get_fv fv) in
  if fv_size v <? offset
  then lift (upd_fv fv (fun v => or_flags FV_SIZE_DIRTY (set_fv_size offset v)))
  else ret tt.

Definition write_step (fv : nat) (x : iopos) : M (st K * U) (iopos + iopos) :=
  if negb (0 <? remaining x) then ret (inr x) else
  let* f := gets (fun su => fsi (fst su)) in
  let* bp := lift (fat32_read_cluster (current_cluster x)) in
  do* lift (check_buf bp) in
  let bytes_to_copy := chunk f x in
  let* moved := do_uio_write bytes_to_copy in
  let* d := of_opt (bput (b_addr bp) (offset_in_cluster x) (snd moved)) in
  if negb (fst moved =? 0) then
    do* lift (do_brelse (set_b_addr d bp)) in throw (fst moved)
  else
  do* lift (do_bdwrite (set_b_addr d bp)) in
  do* write_size fv in
  let rem := remaining x - bytes_to_copy in
  if 0 <? rem then
    let* next := lift (fat32_next_cluster (current_cluster x) NC_ALLOC) in
    ret (inl (mkIopos rem 0 next (u32 (skip_clusters x + 1))))
  else ret (inl (mkIopos rem 0 (current_cluster x) (skip_clusters x))).

(** The part of [fat32_write] under the lock; [append] is [ioflag & IO_APPEND]. *)
Definition write_body (fv : nat) (append : bool) : M (st K * U) unit :=
  let* f := gets (fun su => fsi (fst su)) in
  do* lift (fat32_touch fv FV_MTIME_DIRTY) in
  let* file_offset := gets (fun su => uio_offset (snd su)) in
  let* rem := gets (fun su => uio_resid (snd su)) in
  if rem =? 0 then ret tt else
  let* v := lift (get_fv fv) in
  let* file_offset := (if append then
                         do* modify (fun su => (fst su, set_uio_offset (fv_size v) (snd su))) in ret (fv_size v)
                       else ret file_offset) in
  do* lift (if fv_cluster v =? 0 then
              let* cluster := fat32_next_cluster 0 NC_ALLOC in
              upd_fv fv (fun v => or_flags FV_CLUSTER_DIRTY (set_fv_cluster cluster v))
            else ret tt) in
  let skip := u32 (Z.shiftr file_offset (fsi_cluster_shift f)) in
  let off := u32 (Z.land file_offset (fsi_cluster_mask f)) in
  let* cluster := lift (fat32_vnode_seek_cluster fv skip NC_ALLOC) in
  let* last := iter (S (Z.to_nat rem)) (write_step fv) (mkIopos rem off cluster skip) in
  lift (fat32_vnode_update_cache fv (skip_clusters last) (current_cluster last)).

Definition fat32_write (fv : nat) (append : bool) : M (st K * U) unit :=
  let* v := lift (get_fv fv) in
  if negb (bool_decide (fv_type v = VREG)) then throw EISDIR else
  do* lift (mrupdate (FvLock fv)) in
  let* r := try (write_body fv append) in
  do* lift (mrunlock (FvLock fv)) in
  rethrow r.

End io.
