(* ===== verification/IoSpec.v ===== *)
(** * Correctness of [fat32_read] and [fat32_write]

    The bytes of a file are the bytes of its clusters in the order of the
    chain.  Reading returns a slice of them, writing replaces a slice and
    extends the chain as needed. *)
From S2P Require Import Prelude Layout Time Kernel Device Cls Fat Demo Alloc Chain Free Cache File Truncate Access Io.

(** ** Slices of a concatenation of equal parts *)

Definition slice {A} (l : list A) (i n : nat) : list A := take n (drop i l).

Lemma slice_concat {A} (m : nat) (ds : list (list A)) k d o n :
  Forall (fun d => length d = m) ds -> ds !! k = Some d -> (o + n <= m)%nat ->
  slice (concat ds) (k * m + o) n = slice d o n.
Proof.
  intros Hm. revert k. induction ds as [|e ds IH]; intros k Hk Hon; [done|].
  apply Forall_cons_1 in Hm as [He Hm]. unfold slice in *. cbn [concat]. destruct k as [|k]; cbn in Hk.
  - injection Hk as ->. cbn [Nat.mul Nat.add]. rewrite drop_app_le by lia.
    rewrite take_app_le; [done|]. rewrite length_drop. lia.
  - rewrite drop_app_ge by lia. replace (S k * m + o - length e)%nat with (k * m + o)%nat by lia. by apply IH.
Qed.

Lemma slice_app {A} (l : list A) i n m : slice l i (n + m) = slice l i n ++ slice l (i + n) m.
Proof. unfold slice. rewrite <- drop_drop. by rewrite take_take_drop. Qed.

(** Replacing a part in the middle. *)
Definition splice {A} (l : list A) (i : nat) (new : list A) : list A :=
  take i l ++ new ++ drop (i + length new) l.

Lemma splice_concat {A} (m : nat) (ds : list (list A)) k d o new :
  Forall (fun d => length d = m) ds -> ds !! k = Some d -> (o + length new <= m)%nat ->
  concat (<[k := splice d o new]> ds) = splice (concat ds) (k * m + o) new.
Proof.
  intros Hm. revert k. induction ds as [|e ds IH]; intros k Hk Hon; [done|].
  apply Forall_cons_1 in Hm as [He Hm]. unfold splice in *. destruct k as [|k]; cbn in Hk.
  - injection Hk as ->. cbn [Nat.mul Nat.add list_insert insert concat].
    rewrite take_app_le, drop_app_le by lia. by rewrite <- !app_assoc.
  - cbn [list_insert insert concat]. rewrite IH by done.
    rewrite take_app_ge, drop_app_ge by lia. rewrite <- app_assoc. repeat f_equal; lia.
Qed.

Lemma splice_splice {A} (l : list A) i new new' :
  (i + length new <= length l)%nat ->
  splice (splice l i new) (i + length new) new' = splice l i (new ++ new').
Proof.
  intros Hl. unfold splice. rewrite (app_assoc (take i l) new).
  rewrite take_app_length' by (rewrite length_app, length_take; lia).
  rewrite drop_app_ge by (rewrite length_app, length_take; lia).
  rewrite drop_drop, !length_app, length_take, <- !app_assoc. do 4 f_equal. lia.
Qed.

Lemma length_splice {A} (l : list A) i new :
  (i + length new <= length l)%nat -> length (splice l i new) = length l.
Proof. intros. unfold splice. rewrite !length_app, length_take, length_drop. lia. Qed.

(** What a splice holds, inside and outside the replaced part. *)
Lemma slice_splice {A} (l : list A) i new :
  (i + length new <= length l)%nat -> slice (splice l i new) i (length new) = new.
Proof.
  intros. unfold slice, splice. rewrite drop_app_length' by (rewrite length_take; lia).
  by rewrite take_app_length.
Qed.

Lemma splice_nil {A} (l : list A) i : splice l i [] = l.
Proof. unfold splice. cbn. rewrite Nat.add_0_r. apply take_drop. Qed.

Lemma splice_bput l i new :
  0 <= i -> i + Z.of_nat (length new) <= Z.of_nat (length l) ->
  bput l i new = Some (splice l (Z.to_nat i) new).
Proof. intros. unfold bput. by rewrite decide_True by lia. Qed.

(** ** The bytes of a file *)

Section contents.
Context {K : Type} `{!Kernel K, !KernelLaws K}.
Implicit Types s : st K.

Definition cluster_bytes s (x : Z) : option (list Z) :=
  view (kst s) (fat32_cluster_to_sector (fsi s) x) (fsi_sectors_per_cluster (fsi s)).

(** The clusters [l] hold the bytes [bs]. *)
Definition contents s (l : list Z) (bs : list Z) : Prop :=
  exists ds, Forall2 (fun x d => cluster_bytes s x = Some d) l ds /\ bs = concat ds.

(** Bytes per cluster, as a length. *)
Definition bpc (f : fat32fs_info) : nat := Z.to_nat (fsi_bytes_per_cluster f).

Lemma bpc_eq f : fs_wf f -> Z.of_nat (bpc f) = fsi_bytes_per_cluster f /\ 0 < fsi_bytes_per_cluster f < 2 ^ 32.
Proof.
  intros []. unfold bpc. assert (1 <= 2 ^ fsi_spc_shift f <= 2 ^ 7); [|lia].
  split; [apply (Z.pow_le_mono_r 2 0)|apply Z.pow_le_mono_r]; lia.
Qed.

Lemma cluster_bytes_length s x d : fs_wf (fsi s) -> cluster_bytes s x = Some d -> length d = bpc (fsi s).
Proof. intros Hwf Hd. apply view_length in Hd. pose proof (bpc_eq _ Hwf). destruct Hwf. lia. Qed.

#[export] Instance cluster_bytes_proper : Proper ((≡) ==> eq ==> eq) cluster_bytes.
Proof. intros s s' (Hf & _ & _ & Hw) x ? <-. unfold cluster_bytes. by rewrite Hf, Hw. Qed.

#[export] Instance contents_proper : Proper ((≡) ==> eq ==> eq ==> iff) contents.
Proof.
  intros s s' Hs l ? <- bs ? <-. unfold contents. f_equiv. intros ds.
  split; intros [HF ->]; (split; [|done]); (eapply Forall2_impl; [exact HF|]); intros x d;
    cbn; by rewrite Hs.
Qed.

Lemma contents_parts s l ds :
  fs_wf (fsi s) -> Forall2 (fun x d => cluster_bytes s x = Some d) l ds ->
  Forall (fun d => length d = bpc (fsi s)) ds.
Proof. intros Hwf HF. induction HF; constructor; eauto using cluster_bytes_length. Qed.

Lemma contents_length s l bs :
  fs_wf (fsi s) -> contents s l bs -> length bs = (length l * bpc (fsi s))%nat.
Proof.
  intros Hwf (ds & HF & ->). pose proof (contents_parts _ _ _ Hwf HF) as Hp.
  rewrite (Forall2_length _ _ _ HF). clear HF. induction Hp; cbn; [done|]. rewrite length_app. lia.
Qed.

(** The bytes of one cluster are a slice of the file. *)
Lemma contents_slice s l bs k x :
  fs_wf (fsi s) -> contents s l bs -> l !! k = Some x ->
  exists d, cluster_bytes s x = Some d /\ length d = bpc (fsi s) /\
    forall o n, (o + n <= bpc (fsi s))%nat -> slice bs (k * bpc (fsi s) + o) n = slice d o n.
Proof.
  intros Hwf (ds & HF & ->) Hx. pose proof (contents_parts _ _ _ Hwf HF) as Hp.
  destruct (Forall2_lookup_l _ _ _ _ _ HF Hx) as (d & Hd & Hc). exists d.
  split_and!; [done|by eapply cluster_bytes_length|]. intros. by apply slice_concat.
Qed.

Lemma wp_read_cluster s x d :
  cluster_bytes s x = Some d ->
  wp (fat32_read_cluster x) s (okp (fun bp s' =>
    b_blkno bp = fat32_cluster_to_sector (fsi s) x /\ b_bcount bp = fsi_sectors_per_cluster (fsi s) /\
    b_is_error bp = false /\ b_addr bp = d /\ s ≡ s' /\ clean s' bp)).
Proof.
  intros Hd. unfold fat32_read_cluster. repeat wp_step.
  eapply wp_mono; [by apply wp_do_bread|]. intros [bp| | | |] s'; try done. cbn [okp].
  intros (Eb & En & Ee & Ea & Hs). split_and!; try done. by eapply bread_clean.
Qed.

End contents.

(** ** Transfers *)

Section io.
Context {K U : Type} `{!Kernel K, !KernelLaws K, !Uio U, !UioLaws U}.
Implicit Types (s : st K) (u : U).

(** The size of the next copy is what fits in the cluster and is wanted. *)
Lemma chunk_eq f x :
  fs_wf f -> 0 <= offset_in_cluster x < fsi_bytes_per_cluster f -> 0 < remaining x ->
  chunk f x = Z.min (fsi_bytes_per_cluster f - offset_in_cluster x) (remaining x) /\ 0 < chunk f x.
Proof.
  intros Hwf Ho Hr. pose proof (bpc_eq _ Hwf). unfold chunk. rewrite (u32_small (_ - _)) by lia.
  destruct (Z.ltb_spec (remaining x) (fsi_bytes_per_cluster f - offset_in_cluster x)).
  - rewrite u32_small; lia.
  - lia.
Qed.

(** Where a transfer of [n] bytes from [off] stands on the chain [l]. *)
Record io_at (f : fat32fs_info) (l : list Z) (off n : Z) (x : iopos) : Prop := {
  io_rem : 0 <= remaining x <= n;
  io_skip : 0 <= skip_clusters x < 2 ^ 32;
  io_cluster : l !! Z.to_nat (skip_clusters x) = Some (current_cluster x);
  io_pos : 0 < remaining x ->
    off + (n - remaining x) = skip_clusters x * fsi_bytes_per_cluster f + offset_in_cluster x /\
    0 <= offset_in_cluster x < fsi_bytes_per_cluster f
}.

(** The position of a byte of the file. *)
Lemma io_start f l off n c :
  fs_wf f -> 0 <= off < 2 ^ 32 -> 0 <= n ->
  let skip := u32 (Z.shiftr off (fsi_cluster_shift f)) in
  l !! Z.to_nat skip = Some c ->
  io_at f l off n (mkIopos n (u32 (Z.land off (fsi_cluster_mask f))) c skip).
Proof.
  intros Hwf Hoff Hn skip. subst skip. pose proof (bytes_per_cluster_pow f Hwf) as [Hpow Hsh].
  pose proof (bpc_eq _ Hwf) as [_ Hb]. pose proof (wf_cluster_mask f Hwf) as Hm. clear Hwf.
  rewrite Hm, Hpow, land_ones_mod, shiftr_div in * by lia.
  assert (0 <= off / 2 ^ fsi_cluster_shift f <= off).
  { split; [apply Z.div_pos; lia|]. apply Z.div_le_upper_bound; nia. }
  pose proof (Z.mod_pos_bound off (2 ^ fsi_cluster_shift f)). pose proof (Z.div_mod off (2 ^ fsi_cluster_shift f)).
  rewrite !u32_small by lia. intros Hc. constructor; cbn; try done; lia.
Qed.

(** The next position. *)
Lemma io_next f l off n x y :
  fs_wf f -> io_at f l off n x -> 0 < remaining x -> off + n <= 2 ^ 32 ->
  let rem := remaining x - chunk f x in
  0 < rem -> l !! S (Z.to_nat (skip_clusters x)) = Some y ->
  io_at f l off n (mkIopos rem 0 y (u32 (skip_clusters x + 1))).
Proof.
  intros Hwf [Hrem Hskip Hcl Hpos] Hr Hon rem Hrem' Hy. destruct (Hpos Hr) as [Hp Ho]. subst rem.
  destruct (chunk_eq f x Hwf Ho Hr) as [Hc _]. pose proof (bpc_eq _ Hwf) as [_ Hb].
  assert (skip_clusters x + 1 < 2 ^ 32) by nia. rewrite u32_small by lia.
  constructor; cbn; try lia. by rewrite Z2Nat.inj_add, Nat.add_1_r by lia.
Qed.

Lemma io_last f l off n x :
  fs_wf f -> io_at f l off n x -> 0 < remaining x ->
  let rem := remaining x - chunk f x in
  rem <= 0 -> io_at f l off n (mkIopos rem 0 (current_cluster x) (skip_clusters x)).
Proof.
  intros Hwf [Hrem Hskip Hcl Hpos] Hr rem Hrem'. destruct (Hpos Hr) as [Hp Ho]. subst rem.
  destruct (chunk_eq f x Hwf Ho Hr) as [Hc _]. constructor; cbn; try lia. done.
Qed.

End io.

(** ** [fat32_read] *)

Section read.
Context {K U : Type} `{!Kernel K, !KernelLaws K, !Uio U, !UioLaws U}.
Implicit Types (s : st K) (u : U).

(** [m] of the [n] bytes from [off] have been handed to the user. *)
Definition delivered (u0 : U) (bs : list Z) (off m : Z) (u : U) : Prop :=
  user_ok u /\ uio_resid u = uio_resid u0 - m /\ uio_offset u = uio_offset u0 + m /\
  user_got u = user_got u0 ++ slice bs (Z.to_nat off) (Z.to_nat m).

Lemma wp_uio_read (u0 : U) s bs off m u part :
  delivered u0 bs off m u -> 0 <= off -> 0 <= m -> m + Z.of_nat (length part) <= uio_resid u0 ->
  part = slice bs (Z.to_nat (off + m)) (length part) ->
  wp (do_uio_read part) (s, u) (okp (fun e su =>
    e = 0 /\ fst su = s /\ delivered u0 bs off (m + Z.of_nat (length part)) (snd su))).
Proof.
  intros (Hok & Hr & Ho & Hg) Hoff Hm Hle Hpart. unfold wp, do_uio_read. cbn.
  destruct (uiomove_read part u) as [u' e] eqn:E.
  destruct (uiomove_read_ok u part u' e) as (-> & Hok' & Hr' & Ho' & Hg'); [done|lia|done|].
  cbn. split_and!; try done. split_and!; [done|lia..|].
  rewrite Hg', Hg, Z2Nat.inj_add, Nat2Z.id, slice_app, <- app_assoc by lia. do 2 f_equal.
  rewrite Hpart at 1. f_equal. lia.
Qed.

(** The invariant of the read loop. *)
Definition read_inv s0 u0 (l bs : list Z) (off n : Z) (x : iopos) (su : st K * U) : Prop :=
  s0 ≡ fst su /\ io_at (fsi s0) l off n x /\ delivered u0 bs off (n - remaining x) (snd su).

(** The bytes of a round. *)
Lemma read_part s l bs off n x :
  fs_wf (fsi s) -> contents s l bs -> io_at (fsi s) l off n x -> 0 < remaining x -> 0 <= off ->
  exists d part, cluster_bytes s (current_cluster x) = Some d /\
    bsub d (offset_in_cluster x) (chunk (fsi s) x) = Some part /\
    Z.of_nat (length part) = chunk (fsi s) x /\ chunk (fsi s) x <= remaining x /\ 0 < chunk (fsi s) x /\
    part = slice bs (Z.to_nat (off + (n - remaining x))) (length part).
Proof.
  intros Hwf Hc [Hrem Hskip Hcl Hpos] Hr Hoff. destruct (Hpos Hr) as [Hp Ho].
  destruct (chunk_eq _ x Hwf Ho Hr) as [Hch Hch0]. destruct (bpc_eq _ Hwf) as [Hb _].
  destruct (contents_slice s l bs _ _ Hwf Hc Hcl) as (d & Hd & Hlen & Hsl).
  eexists d, _. split; [done|]. rewrite bsub_Some by lia. split; [done|].
  assert (length (take (Z.to_nat (chunk (fsi s) x)) (drop (Z.to_nat (offset_in_cluster x)) d)) =
    Z.to_nat (chunk (fsi s) x)) as El by (rewrite length_take, length_drop; lia).
  rewrite El. split_and!; [lia..|].
  rewrite Hp, Z2Nat.inj_add, Z2Nat.inj_mul by lia. fold (bpc (fsi s)). rewrite Hsl; [done|lia].
Qed.

Lemma wp_read_step s0 u0 c l bs off n x su :
  ready s0 -> file_chain s0 c l -> contents s0 l bs ->
  0 <= off -> off + n <= Z.of_nat (length bs) -> off + n <= 2 ^ 32 -> n <= uio_resid u0 ->
  read_inv s0 u0 l bs off n x su ->
  wp (read_step x) su (okp (fun r su' =>
    match r with
    | inl x' => read_inv s0 u0 l bs off n x' su' /\ (Z.to_nat (remaining x') < Z.to_nat (remaining x))%nat
    | inr x' => x' = x /\ remaining x = 0 /\ su' = su
    end)).
Proof.
  intros Hr Hch Hc Hoff Hlen Hon Hres (Hs & Hat & Hdel). destruct su as [s u]. cbn [fst snd] in Hs, Hdel.
  unfold read_step. destruct (Z.ltb_spec 0 (remaining x)) as [Hrem|Hrem]; cbn [negb];
    [|apply wp_ret; destruct Hat; split_and!; [done|lia|done]].
  pose proof (ready_wf _ Hr) as Hwf.
  destruct (read_part s0 l bs off n x Hwf Hc Hat Hrem Hoff) as (d & part & Hd & Hsub & Hpl & Hle & Hpos & Hpart).
  pose proof (io_rem _ _ _ _ _ Hat) as Hrn.
  repeat wp_step. cbn [fst]. rewrite (proj1 Hs).
  eapply wp_lift_call; [apply (wp_read_cluster s _ d); by rewrite <- Hs|].
  intros bp s1 (_ & _ & Ee & -> & Hs1 & Hcl). assert (s0 ≡ s1) as Hs01 by (by rewrite Hs).
  eapply wp_lift_call; [by apply wp_check_buf_ok|]. intros [] ? ->.
  rewrite Hsub. cbn [of_opt]. repeat wp_step.
  eapply wp_call_ok; [apply (wp_uio_read u0 s1 bs off (n - remaining x) u part); try done; lia|].
  intros e [s2 u2] (-> & Es & Hdel2). cbn [fst snd] in Es, Hdel2. subst s2.
  eapply wp_lift_call; [by apply wp_do_brelse|]. intros [] s2 Hs2. cbn [Z.eqb negb].
  assert (s0 ≡ s2) as Hs02 by (by rewrite Hs01).
  replace (n - remaining x + Z.of_nat (length part)) with (n - (remaining x - chunk (fsi s0) x)) in Hdel2 by lia.
  destruct (Z.ltb_spec 0 (remaining x - chunk (fsi s0) x)) as [Hmore|Hdone].
  - assert (exists y, l !! S (Z.to_nat (skip_clusters x)) = Some y) as [y Hy].
    { apply lookup_lt_is_Some. rewrite (contents_length _ _ _ Hwf Hc) in Hlen.
      destruct (bpc_eq _ Hwf) as [Hb Hb0]. destruct Hat as [_ Hsk _ Hpp]. destruct (Hpp Hrem) as [Hpe Hoe].
      destruct (chunk_eq _ x Hwf Hoe Hrem) as [Hce _]. nia. }
    apply wp_bind, wp_try, wp_lift. eapply wp_mono.
    { eapply (wp_next_in_chain s2 c l _ (current_cluster x) y 0); [by rewrite <- Hs02..|apply Hat|done]. }
    intros [v| | | |] s3; try done. cbn [okp wpk]. intros [-> Hs3]. apply wp_ret. cbn [okp]. split; [|cbn; lia].
    split_and!; [cbn; by rewrite Hs02|by apply io_next|done].
  - apply wp_ret. cbn [okp]. split; [|cbn; lia]. split_and!; [done|by apply io_last|done].
Qed.

Lemma wp_read_loop s0 u0 c l bs off n x su fuel :
  ready s0 -> file_chain s0 c l -> contents s0 l bs ->
  0 <= off -> off + n <= Z.of_nat (length bs) -> off + n <= 2 ^ 32 -> n <= uio_resid u0 ->
  read_inv s0 u0 l bs off n x su -> (Z.to_nat (remaining x) < fuel)%nat ->
  wp (iter fuel read_step x) su (okp (fun last su' =>
    read_inv s0 u0 l bs off n last su' /\ remaining last = 0)).
Proof.
  intros Hr Hch Hc Hoff Hlen Hon Hres HI Hfuel.
  eapply (wp_iter _ (read_inv s0 u0 l bs off n) (fun x _ => Z.to_nat (remaining x))); [|done|done].
  intros y su' HI'. eapply wp_mono; [by eapply wp_read_step|].
  intros [[x'|x']| | | |] su''; try done. cbn [okp]. by intros (-> & ? & ->).
Qed.

End read.

Section read_file.
Context {K U : Type} `{!Kernel K, !KernelLaws K, !Uio U, !UioLaws U}.
Implicit Types (s : st K) (u : U).

Lemma delivered_0 u bs off : user_ok u -> delivered u bs off 0 u.
Proof. intros. split_and!; [done|lia..|]. cbn. by rewrite app_nil_r. Qed.

(** The number of bytes a read of [v] from the position of [u] delivers. *)
Definition read_count (v : fat32fs_vnode) (u : U) : Z :=
  Z.max 0 (Z.min (uio_resid u) (fv_size v - uio_offset u)).

(** What a read requires of the file and of the request. *)
Record readable s u (v : fat32fs_vnode) (l bs : list Z) : Prop := {
  rd_ok : file_ok s v l;
  rd_contents : contents s l bs;
  rd_size : fv_size v <= Z.of_nat (length bs) /\ fv_size v < 2 ^ 32;
  rd_offset : 0 <= uio_offset u < 2 ^ 62;
  rd_resid : 0 <= uio_resid u < 2 ^ 62;
  rd_user : user_ok u
}.

(** The index of the cluster of a byte. *)
Lemma skip_eq f off :
  fs_wf f -> 0 <= off < 2 ^ 32 ->
  u32 (Z.shiftr off (fsi_cluster_shift f)) = off / fsi_bytes_per_cluster f /\
  0 <= off / fsi_bytes_per_cluster f < 2 ^ 32.
Proof.
  intros Hwf Hoff. pose proof (bytes_per_cluster_pow f Hwf) as [Hpow Hsh].
  pose proof (bpc_eq _ Hwf) as [_ Hb]. rewrite shiftr_div, <- Hpow by lia.
  assert (0 <= off / fsi_bytes_per_cluster f <= off).
  { split; [apply Z.div_pos; lia|]. apply Z.div_le_upper_bound; nia. }
  rewrite u32_small by lia. lia.
Qed.

Lemma skip_lookup s l bs off :
  fs_wf (fsi s) -> contents s l bs -> 0 <= off < 2 ^ 32 -> off < Z.of_nat (length bs) ->
  is_Some (l !! Z.to_nat (u32 (Z.shiftr off (fsi_cluster_shift (fsi s))))).
Proof.
  intros Hwf Hc Hoff Hlt. rewrite (contents_length _ _ _ Hwf Hc) in Hlt.
  destruct (skip_eq _ off Hwf Hoff) as [-> ?]. destruct (bpc_eq _ Hwf) as [Hb Hb0].
  apply lookup_lt_is_Some. assert (off / fsi_bytes_per_cluster (fsi s) < Z.of_nat (length l)); [|lia].
  apply Z.div_lt_upper_bound; lia.
Qed.

(** The cache was replaced by [c1] and then by [c2]. *)
Lemma set_cache_equiv s s1 s2 p v c1 c2 :
  set_fvs (<[p := set_fv_cls_cache c1 v]> (fvs s)) s ≡ s1 ->
  set_fvs (<[p := set_fv_cls_cache c2 (set_fv_cls_cache c1 v)]> (fvs s1)) s1 ≡ s2 ->
  set_fvs (<[p := set_fv_cls_cache c2 v]> (fvs s)) s ≡ s2.
Proof.
  intros (Hf & Hv & Hh & Hw) (Hf' & Hv' & Hh' & Hw'). cbn in *.
  split_and!; cbn; [congruence| |congruence|]; [by rewrite Hv', Hv, insert_insert_eq|].
  intros. by rewrite Hw'.
Qed.

(** The loop and the cache update behind it. *)
Lemma wp_read_rest s u p v l bs n c :
  ready s -> held s !! CacheLock p = None -> fvs s !! p = Some v -> readable s u v l bs -> l <> [] ->
  0 < n <= uio_resid u -> uio_offset u + n <= fv_size v ->
  let skip := u32 (Z.shiftr (uio_offset u) (fsi_cluster_shift (fsi s))) in
  l !! Z.to_nat skip = Some c ->
  wp (let* last := iter (S (Z.to_nat n)) read_step
        (mkIopos n (u32 (Z.land (uio_offset u) (fsi_cluster_mask (fsi s)))) c skip) in
      lift (fat32_vnode_update_cache p (skip_clusters last) (current_cluster last))) (s, u) (okp (fun _ su' =>
    delivered u bs (uio_offset u) n (snd su') /\
    exists cache, cache_ok l cache /\ length cache = 16%nat /\
      set_fvs (<[p := set_fv_cls_cache cache v]> (fvs s)) s ≡ fst su')).
Proof.
  intros Hr Hlk Hv [Hok Hc [Hsz Hsz32] Ho Hres Hu] Hne Hn Hon skip Hcl. pose proof (ready_wf _ Hr) as Hwf.
  apply file_ok_chain in Hok as (Hca & Hcl16 & Hch); [|done].
  eapply wp_call_ok.
  { apply (wp_read_loop s u (fv_cluster v) l bs (uio_offset u) n); try done; try lia; [|cbn; lia].
    split_and!; [done|apply io_start; [done|lia|lia|done]|]. cbn. rewrite Z.sub_diag. by apply delivered_0. }
  intros last [s2 u2] [(Hs & Hat & Hdel) Hrem]. cbn [fst snd] in Hs, Hdel. rewrite Hrem, Z.sub_0_r in Hdel.
  apply wp_lift. pose proof Hs as (Hf2 & Hv2 & Hh2 & Hw2).
  eapply wp_mono; [apply (wp_update_cache _ _ v); congruence|].
  intros [[]| | | |] s3; try done. cbn [okp fst snd]. intros ->. split; [done|].
  eexists. split; [apply (cache_ok_insert l (fv_cls_cache v) (skip_clusters last) (current_cluster last)); [done|apply Hat..]|].
  split; [by rewrite length_cache_insert by (intros E; by rewrite E in Hcl16)|].
  split_and!; cbn; [done|by rewrite Hv2|done..].
Qed.

Lemma wp_read_body s u p v l bs :
  ready s -> held s !! CacheLock p = None -> fvs s !! p = Some v -> readable s u v l bs ->
  wp (read_body p (uio_offset u) (fv_size v)) (s, u) (okp (fun _ su' =>
    delivered u bs (uio_offset u) (read_count v u) (snd su') /\
    exists cache, cache_ok l cache /\ length cache = 16%nat /\
      set_fvs (<[p := set_fv_cls_cache cache v]> (fvs s)) s ≡ fst su')).
Proof.
  intros Hr Hlk Hv [Hok Hc [Hsz Hsz32] Ho Hres Hu]. pose proof (ready_wf _ Hr) as Hwf.
  assert (forall m, m = 0 -> exists cache, cache_ok l cache /\ length cache = 16%nat /\
    set_fvs (<[p := set_fv_cls_cache cache v]> (fvs s)) s ≡ s) as Hsame.
  { intros _ _. exists (fv_cls_cache v). destruct Hok as (? & ? & _). split_and!; [done..|].
    rewrite insert_id; [by destruct s|]. rewrite Hv. by destruct v. }
  unfold read_body, read_count. repeat wp_step. cbn [fst snd].
  rewrite (proj2 (Z.ltb_ge _ _)) by lia.
  destruct (Z.leb_spec (fv_size v) (uio_offset u)) as [Heof|Heof].
  { apply wp_ret. cbn [okp fst snd]. rewrite Z.max_l by lia. split; [by apply delivered_0|by apply (Hsame 0)]. }
  repeat wp_step. cbn [fst snd]. rewrite swrap_small by lia.
  assert ((if fv_size v <? uio_offset u + uio_resid u then fv_size v - uio_offset u else uio_resid u) =
    Z.min (uio_resid u) (fv_size v - uio_offset u)) as -> by (destruct (Z.ltb_spec (fv_size v) (uio_offset u + uio_resid u)); lia).
  rewrite Z.max_r by lia. set (n := Z.min _ _). assert (0 <= n) by lia.
  destruct (Z.eqb_spec n 0) as [->|Hn].
  { apply wp_ret. cbn [okp fst snd]. split; [by apply delivered_0|by apply (Hsame 0)]. }
  destruct (skip_lookup s l bs (uio_offset u)) as [c Hcl]; [done..|lia|lia|].
  destruct (skip_eq (fsi s) (uio_offset u)) as [_ Hsk]; [done|lia|].
  assert (l <> []) as Hne by (by intros ->). apply file_ok_chain in Hok as (Hca & Hcl16 & Hch); [|done].
  apply wp_bind, wp_lift. eapply wp_mono.
  { apply (wp_vnode_seek_walk s p v l); try done; [intros E; by rewrite E in Hcl16|].
    destruct (skip_eq (fsi s) (uio_offset u)) as [-> ?]; [done|lia|done]. }
  rewrite Hcl. intros r s1 (-> & cache & Hca1 & Hcl1 & Hs1). cbn [wpk].
  pose proof Hs1 as (Hf1 & Hv1 & Hh1 & _). cbn in Hf1, Hv1, Hh1. rewrite <- Hf1.
  eapply wp_mono.
  { apply (wp_read_rest s1 u p (set_fv_cls_cache cache v) l bs n c); try done; try (cbn; lia).
    - rewrite <- Hs1. by apply ready_set_fvs.
    - by rewrite Hh1.
    - by rewrite Hv1, lookup_insert_eq.
    - constructor; try done; [|by rewrite <- Hs1].
      rewrite <- Hs1. apply file_ok_set_cache; [done..|congruence|done].
    - rewrite Hf1. done. }
  intros [[]| | | |] [s2 u2]; try done. cbn [okp fst snd]. intros (Hdel & cache2 & ? & ? & Hs2).
  split; [done|]. exists cache2. split_and!; [done..|]. by eapply set_cache_equiv.
Qed.
Lemma wp_demote s p h :
  held s = <[FvLock p := MrUpdate]> h ->
  wp (mrdemote (FvLock p)) s (okp (fun _ s' => s' = set_held (<[FvLock p := MrAccess]> h) s)).
Proof.
  intros Hh. unfold mrdemote. repeat wp_step. rewrite Hh, lookup_insert_eq. repeat wp_step. cbn [okp].
  by rewrite Hh, insert_insert_eq.
Qed.

(** A vnode after [fat32_touch] with one flag. *)
Definition accessed (now : timespec) (v : fat32fs_vnode) : fat32fs_vnode :=
  or_flags (Z.lor FV_ATIME_DIRTY FV_MODIFIED) (set_fv_atime now v).
Definition modified (now : timespec) (v : fat32fs_vnode) : fat32fs_vnode :=
  or_flags (Z.lor FV_MTIME_DIRTY FV_MODIFIED) (set_fv_mtime now v).

Lemma wp_touch_atime s p v :
  fvs s !! p = Some v ->
  wp (fat32_touch p FV_ATIME_DIRTY) s (okp (fun _ s' =>
    set_fvs (<[p := accessed (snd (nanotime (kst s))) v]> (fvs s)) s ≡ s')).
Proof.
  intros Hv. eapply wp_mono; [by apply wp_touch|]. by intros [[]| | | |] s'.
Qed.

Lemma wp_touch_mtime s p v :
  fvs s !! p = Some v ->
  wp (fat32_touch p FV_MTIME_DIRTY) s (okp (fun _ s' =>
    set_fvs (<[p := modified (snd (nanotime (kst s))) v]> (fvs s)) s ≡ s')).
Proof.
  intros Hv. eapply wp_mono; [by apply wp_touch|]. by intros [[]| | | |] s'.
Qed.

Lemma ready_set_held s h :
  ready s -> h !! FsiLock = None -> ready (set_held h s).
Proof. intros [[] ?] Hh. by split. Qed.

Lemma wp_read s u p v l bs :
  ready s -> held s !! FvLock p = None -> held s !! CacheLock p = None ->
  fvs s !! p = Some v -> fv_type v = VREG -> readable s u v l bs ->
  wp (fat32_read p) (s, u) (okp (fun _ su' =>
    delivered u bs (uio_offset u) (read_count v u) (snd su') /\
    exists cache, cache_ok l cache /\ length cache = 16%nat /\
      set_fvs (<[p := set_fv_cls_cache cache (accessed (snd (nanotime (kst s))) v)]> (fvs s)) s ≡ fst su')).
Proof.
  intros Hr Hlf Hlc Hv Hty Hrd. unfold fat32_read.
  eapply wp_lift_call; [by apply wp_get_fv|]. intros ? ? [-> ->]. rewrite Hty, bool_decide_true by done. cbn [negb].
  eapply wp_lift_call; [by apply wp_lock|]. intros [] ? ->.
  eapply wp_lift_call; [by apply wp_touch_atime|]. intros [] s2 Hs2.
  pose proof Hs2 as (Hf2 & Hv2 & Hh2 & Hw2). cbn in Hf2, Hv2, Hh2, Hw2. set (v1 := accessed _ v) in *.
  repeat wp_step. cbn [fst snd].
  eapply wp_lift_call; [apply (wp_get_fv _ _ v1); by rewrite Hv2, lookup_insert_eq|]. intros ? ? [-> ->].
  eapply wp_lift_call; [by apply wp_demote|]. intros [] s3 Es3.
  apply wp_bind, wp_try. eapply wp_mono.
  { apply (wp_read_body s3 u p v1 l bs).
    - rewrite Es3. apply ready_set_held; [|by rewrite lookup_insert_ne; [apply Hr|]].
      rewrite <- Hs2. apply ready_set_fvs, ready_set_held; [done|]. by rewrite lookup_insert_ne; [apply Hr|].
    - rewrite Es3. cbn. by rewrite lookup_insert_ne.
    - rewrite Es3. cbn. by rewrite Hv2, lookup_insert_eq.
    - destruct Hrd. rewrite Es3. constructor; try done.
      + change (file_ok s2 v1 l). by rewrite <- Hs2.
      + change (contents s2 l bs). by rewrite <- Hs2. }
  intros [[]| | | |] [s4 u4]; try done. cbn [okp fst snd wpk]. intros (Hdel & cache & Hca & Hcl & Hs4).
  rewrite Es3 in Hs4. destruct Hs4 as (Hf4 & Hv4 & Hh4 & Hw4). cbn in Hf4, Hv4, Hh4, Hw4.
  eapply wp_lift_call; [by eapply (wp_unlock _ _ MrAccess (held s))|]. intros [] ? ->. apply wp_ret.
  cbn [okp fst snd]. split; [done|]. exists cache. split_and!; [done..|].
  split_and!; cbn; [congruence|by rewrite Hv4, Hv2, insert_insert_eq|done|]. intros. by rewrite Hw4, Hw2.
Qed.

(** C20: reading [uio_resid] bytes at [uio_offset] delivers exactly the bytes of
    the file from there up to its recorded size, advances the descriptor by
    their number, and changes nothing but the access time, its dirty flag and
    the cluster cache, which stays truthful; a read at or beyond the end
    delivers nothing. *)
Theorem read_correct s u p v l bs :
  ready s -> held s !! FvLock p = None -> held s !! CacheLock p = None ->
  fvs s !! p = Some v -> fv_type v = VREG -> readable s u v l bs ->
  wp (fat32_read p) (s, u) (okp (fun _ su' =>
    delivered u bs (uio_offset u) (read_count v u) (snd su') /\
    exists cache, cache_ok l cache /\ length cache = 16%nat /\
      set_fvs (<[p := set_fv_cls_cache cache (accessed (snd (nanotime (kst s))) v)]> (fvs s)) s ≡ fst su')).
Proof. apply wp_read. Qed.

End read_file.
