(* ===== verification/WriteSpec.v ===== *)
(** * Correctness of [fat32_write]

    A write replaces a slice of the bytes of a file; the chain grows as far as
    needed, every byte outside the slice and every other file stay as they are,
    and a write that runs out of space has written a prefix. *)
From S2P Require Import Prelude Layout Time Kernel Device Cls Fat Demo Alloc Chain Free Cache File Truncate Access Io IoSpec.

(** ** Writing one cluster *)

Section put.
Context {K : Type} `{!Kernel K, !KernelLaws K}.
Implicit Types s : st K.

Lemma cluster_bytes_geom s s' x :
  geom (fsi s') = geom (fsi s) ->
  cluster_bytes s' x = view (kst s') (fat32_cluster_to_sector (fsi s) x) (fsi_sectors_per_cluster (fsi s)).
Proof.
  intros Hg. unfold cluster_bytes.
  change (view (kst s') (fat32_cluster_to_sector (geom (fsi s')) x) (fsi_sectors_per_cluster (geom (fsi s'))) =
    view (kst s') (fat32_cluster_to_sector (geom (fsi s)) x) (fsi_sectors_per_cluster (geom (fsi s)))).
  by rewrite Hg.
Qed.

Lemma cluster_bytes_keeps s l s' x :
  geom (fsi s') = geom (fsi s) -> data_keeps s l s' -> in_range (fsi s) x -> x ∉ l ->
  cluster_bytes s' x = cluster_bytes s x.
Proof. intros Hg Hd Hx Hn. rewrite (cluster_bytes_geom s) by done. by apply Hd. Qed.

Lemma Forall2_agree {A B} (f g : A -> option B) l ds :
  (forall x, x ∈ l -> f x = g x) ->
  Forall2 (fun x d => f x = Some d) l ds -> Forall2 (fun x d => g x = Some d) l ds.
Proof.
  intros Hfg HF. induction HF as [|x d l ds Hx HF IH]; constructor.
  - rewrite <- Hfg by left. done.
  - apply IH. intros. apply Hfg. by right.
Qed.

Lemma contents_keeps s l s' l2 bs :
  geom (fsi s') = geom (fsi s) -> data_keeps s l s' -> Forall (in_range (fsi s)) l2 -> l2 ## l ->
  contents s l2 bs <-> contents s' l2 bs.
Proof.
  intros Hg Hd Hr Hdis. unfold contents. f_equiv. intros ds. rewrite Forall_forall in Hr.
  split; intros [HF ->]; (split; [|done]); (eapply Forall2_agree; [|exact HF]); intros x Hx; cbn;
    [symmetry|]; apply (cluster_bytes_keeps s l); auto; by intros ?; apply (Hdis x).
Qed.

Definition data_readable s : Prop := forall x, in_range (fsi s) x -> is_Some (cluster_bytes s x).

Lemma contents_exist s l : data_readable s -> Forall (in_range (fsi s)) l -> exists bs, contents s l bs.
Proof.
  intros Hd Hl. induction Hl as [|x l Hx Hl (bs & ds & HF & ->)].
  - by exists [], [].
  - destruct (Hd x Hx) as [d Hx']. eexists _, (d :: ds). split; [by constructor|done].
Qed.

Lemma contents_app s l1 l2 bs :
  contents s (l1 ++ l2) bs <-> exists b1 b2, contents s l1 b1 /\ contents s l2 b2 /\ bs = b1 ++ b2.
Proof.
  split.
  - intros (ds & HF & ->). apply Forall2_app_inv_l in HF as (d1 & d2 & H1 & H2 & ->).
    exists (concat d1), (concat d2). split_and!; [by exists d1|by exists d2|by rewrite concat_app].
  - intros (b1 & b2 & (d1 & H1 & ->) & (d2 & H2 & ->) & ->). exists (d1 ++ d2).
    split; [by apply Forall2_app|by rewrite concat_app].
Qed.

(** [s'] is [s] with the bytes of cluster [x] replaced. *)
Definition cluster_put s (x : Z) (d : list Z) s' : Prop :=
  fsi s' = fsi s /\ fvs s' = fvs s /\ held s' = held s /\ cluster_bytes s' x = Some d /\
  forall b n, chunks_disjoint (fat32_cluster_to_sector (fsi s) x) (fsi_sectors_per_cluster (fsi s)) b n ->
    view (kst s') b n = view (kst s) b n.

Lemma wp_write_cluster s bp x d d' :
  fs_wf (fsi s) -> in_range (fsi s) x -> cluster_bytes s x = Some d ->
  b_blkno bp = fat32_cluster_to_sector (fsi s) x -> b_bcount bp = fsi_sectors_per_cluster (fsi s) ->
  length d' = length d -> Forall is_byte d' ->
  wp (do_bdwrite (set_b_addr d' bp)) s (okp (fun _ s' => cluster_put s x d' s')).
Proof.
  intros Hwf Hx Hd Hb Hn Hl Hf. pose proof (cluster_chunk _ _ Hwf Hx) as (_ & _ & Hpos).
  eapply wp_mono; [apply (wp_do_bdwrite _ _ d); cbn; rewrite ?Hb, ?Hn; done|].
  intros [[]| | | |] s'; try done. cbn [okp b_addr b_blkno b_bcount set_b_addr]. rewrite Hb, Hn.
  intros (E & ? & ? & Hv & Hw). split_and!; try done. unfold cluster_bytes. by rewrite E.
Qed.

Section put_facts.
Context s x d s' (Hr : ready s) (Hx : in_range (fsi s) x) (Hput : cluster_put s x d s').

Lemma put_same : fat_same s s'.
Proof.
  destruct Hput as (Hf & _ & _ & _ & Hw). split; [by rewrite Hf|]. intros b Hb. apply Hw.
  pose proof (cluster_chunk _ _ (ready_wf _ Hr) Hx). unfold chunks_disjoint. lia.
Qed.

Lemma put_ready : ready s'.
Proof.
  destruct Hr as [[Hwf Hrd Hi] Hl]. pose proof put_same as Hsame. destruct Hput as (Hf & _ & Hh & _ & Hw).
  split; [split|by rewrite Hh]; [by rewrite Hf|by apply (fat_same_readable s)|].
  rewrite Hf, Hw; [done|]. pose proof (cluster_chunk _ _ Hwf Hx). destruct Hwf. unfold chunks_disjoint. nia.
Qed.

Lemma put_chain c l : file_chain s c l -> file_chain s' c l.
Proof.
  intros Hch. apply (chain_geom (fsi s)); [apply put_same|]. eapply chain_ext; [exact Hch|].
  intros y Hy. pose proof (chain_range _ _ _ _ Hch) as Hrg. rewrite Forall_forall in Hrg.
  apply fat_same_fat; [by apply ready_wf|apply put_same|auto].
Qed.

Lemma put_keeps l : keeps s l s' l.
Proof. intros c2 l2 Hch Hd. split; [by apply put_chain|done]. Qed.

Lemma put_data : data_keeps s [x] s'.
Proof.
  intros y Hy Hn. rewrite list_elem_of_singleton in Hn. apply Hput. apply clusters_disjoint; [by apply ready_wf|done..|].
  congruence.
Qed.

(** The bytes of a file one of whose clusters is written. *)
Lemma put_contents l bs k old o new :
  contents s l bs -> NoDup l -> Forall (in_range (fsi s)) l -> l !! k = Some x ->
  cluster_bytes s x = Some old -> d = splice old o new -> (o + length new <= bpc (fsi s))%nat ->
  contents s' l (splice bs (k * bpc (fsi s) + o) new).
Proof.
  intros (ds & HF & ->) Hnd Hrg Hk Hold Ed Hon.
  pose proof (contents_parts s l ds (ready_wf _ Hr) HF) as Hparts.
  destruct (Forall2_lookup_l _ _ _ _ _ HF Hk) as (d0 & Hd0 & E). rewrite E in Hold. injection Hold as ->.
  exists (<[k := splice old o new]> ds). split; [|by rewrite (splice_concat (bpc (fsi s)) ds k old)].
  apply Forall2_same_length_lookup. split; [rewrite length_insert; by eapply Forall2_length|].
  intros i y dy Hi Hdy. destruct (decide (i = k)) as [->|Hne].
  - rewrite list_lookup_insert_eq in Hdy by (by eapply lookup_lt_Some). injection Hdy as <-.
    assert (y = x) as -> by congruence. rewrite <- Ed. apply Hput.
  - rewrite list_lookup_insert_ne in Hdy by done.
    rewrite (cluster_bytes_keeps s [x]); [|by destruct Hput as (-> & _)|apply put_data| |].
    + destruct (Forall2_lookup_lr _ _ _ _ _ _ HF Hi Hdy). done.
    + rewrite Forall_lookup in Hrg. eauto.
    + rewrite list_elem_of_singleton. intros ->. apply Hne. by eapply NoDup_lookup.
Qed.

End put_facts.
End put.

(** ** The write loop *)

Section write.
Context {K U : Type} `{!Kernel K, !KernelLaws K, !Uio U, !UioLaws U}.
Implicit Types (s : st K) (u : U).

(** The vnode after [m] bytes have been written from [off]. *)
Definition grown (off m : Z) (v : fat32fs_vnode) : fat32fs_vnode :=
  if (0 <? m) && (fv_size v <? off + m) then or_flags FV_SIZE_DIRTY (set_fv_size (off + m) v) else v.

Lemma grown_step off m k v :
  0 <= m -> 0 < k ->
  (if fv_size (grown off m v) <? off + (m + k)
   then or_flags FV_SIZE_DIRTY (set_fv_size (off + (m + k)) (grown off m v)) else grown off m v) =
  grown off (m + k) v.
Proof.
  intros Hm Hk. unfold grown. rewrite (proj2 (Z.ltb_lt 0 (m + k))) by lia. cbn [andb].
  destruct (Z.ltb_spec 0 m); cbn [andb]; [|done].
  destruct (Z.ltb_spec (fv_size v) (off + m)) as [Hlt|Hge]; [|done].
  change (fv_size (or_flags FV_SIZE_DIRTY (set_fv_size (off + m) v))) with (off + m).
  rewrite !(proj2 (Z.ltb_lt _ _)) by lia. unfold or_flags, set_fv_flags, set_fv_size. cbn.
  by rewrite <- Z.lor_assoc, Z.lor_diag.
Qed.

Lemma grown_same off m v : fv_cluster (grown off m v) = fv_cluster v /\ fv_type (grown off m v) = fv_type v /\
  fv_cls_cache (grown off m v) = fv_cls_cache v.
Proof. unfold grown. by destruct (_ && _). Qed.

(** From [s0], where vnode [p] is [v0] with the clusters [l0], the first [m]
    bytes of the user have been written at [off], and the chain is now [l]. *)
Record written s0 u0 (p : nat) v0 (l0 : list Z) (off m : Z) (l : list Z) (su : st K * U) : Prop := {
  wr_ready : ready (fst su);
  wr_held : held (fst su) = held s0;
  wr_geom : geom (fsi (fst su)) = geom (fsi s0);
  wr_fvs : fvs (fst su) = <[p := grown off m v0]> (fvs s0);
  wr_chain : file_chain (fst su) (fv_cluster v0) l;
  wr_ext : exists ext, l = l0 ++ ext;
  wr_keeps : keeps s0 l0 (fst su) l;
  wr_data : data_keeps s0 l (fst su);
  wr_count : 0 <= m;
  wr_bytes : exists bs0, contents s0 l bs0 /\ off + m <= Z.of_nat (length bs0) /\
    contents (fst su) l (splice bs0 (Z.to_nat off) (take (Z.to_nat m) (user_data u0)));
  wr_user : user_ok (snd su) /\ uio_resid (snd su) = uio_resid u0 - m /\
    uio_offset (snd su) = off + m /\ user_data (snd su) = drop (Z.to_nat m) (user_data u0)
}.

(** What the loop assumes of its start. *)
Record write_pre s0 u0 (p : nat) v0 (l0 : list Z) (off n : Z) : Prop := {
  wp_ready : ready s0;
  wp_fv : fvs s0 !! p = Some v0;
  wp_data : data_readable s0;
  wp_off : 0 <= off;
  wp_end : off + n <= 2 ^ 32;
  wp_resid : n <= uio_resid u0;
  wp_user : n <= Z.of_nat (length (user_data u0));
  wp_bytes : Forall is_byte (user_data u0)
}.

Lemma written_equiv s0 u0 p v0 l0 off m l s s' u :
  s ≡ s' -> written s0 u0 p v0 l0 off m l (s, u) -> written s0 u0 p v0 l0 off m l (s', u).
Proof.
  intros Hs []. cbn [fst snd] in *. pose proof Hs as (Hf & Hv & Hh & Hw). constructor; cbn [fst snd].
  - by rewrite <- Hs.
  - congruence.
  - congruence.
  - congruence.
  - by rewrite <- Hs.
  - done.
  - intros c2 l2. rewrite <- Hs. apply wr_keeps0.
  - intros x Hx Hn. rewrite Hw. by apply wr_data0.
  - done.
  - destruct wr_bytes0 as (bs0 & ? & ? & ?). exists bs0. rewrite <- Hs. done.
  - done.
Qed.

(** One cluster written: the buffer of [x] and then the size. *)
Lemma written_put s0 u0 p v0 l0 off m l s u s1 u1 k x old o part :
  fvs s0 !! p = Some v0 -> 0 <= off ->
  written s0 u0 p v0 l0 off m l (s, u) -> l !! k = Some x -> cluster_bytes s x = Some old ->
  (0 < length part)%nat -> (o + length part <= bpc (fsi s))%nat ->
  off + m = Z.of_nat (k * bpc (fsi s) + o) ->
  part = take (length part) (drop (Z.to_nat m) (user_data u0)) ->
  cluster_put s x (splice old o part) s1 ->
  user_ok u1 /\ uio_resid u1 = uio_resid u - Z.of_nat (length part) /\
    uio_offset u1 = uio_offset u + Z.of_nat (length part) /\ user_data u1 = drop (length part) (user_data u) ->
  written s0 u0 p v0 l0 off (m + Z.of_nat (length part)) l
    (set_fvs (<[p := grown off (m + Z.of_nat (length part)) v0]> (fvs s1)) s1, u1).
Proof.
  intros Hv0 Hoff [Hr Hh Hg Hv Hch Hext Hk Hd Hm (bs0 & Hb0 & Hlen & Hb) (Hu1 & Hu2 & Hu3 & Hu4)]
    Hx Hold Hp0 Hp1 Hpos Hpart Hput (Hw1 & Hw2 & Hw3 & Hw4). cbn [fst snd] in *.
  pose proof (chain_range _ _ _ _ Hch) as Hrg. pose proof (ready_wf _ Hr) as Hwf.
  assert (in_range (fsi s) x) as Hxr by (rewrite Forall_lookup in Hrg; eauto).
  pose proof Hput as (Hf1 & Hv1 & Hh1 & _).
  constructor; cbn [fst snd]; try done; try lia.
  - apply ready_set_fvs. by eapply put_ready.
  - cbn. congruence.
  - cbn. congruence.
  - cbn. by rewrite Hv1, Hv, insert_insert_eq.
  - by apply (put_chain s x _ s1 Hr Hxr Hput).
  - eapply keeps_trans; [exact Hk|]. apply (put_keeps s x _ s1 Hr Hxr Hput).
  - eapply data_keeps_weaken; [|eapply data_keeps_trans; [exact Hg|exact Hd|apply (put_data s x _ s1 Hr Hxr Hput)]].
    intros y. rewrite elem_of_app, list_elem_of_singleton. intros [?| ->]; [done|by eapply list_elem_of_lookup_2].
  - assert (length part + Z.to_nat m <= length (user_data u0))%nat as Hud.
    { pose proof (f_equal length Hpart) as E. rewrite length_take, length_drop in E. lia. }
    set (w := take (Z.to_nat m) (user_data u0)) in *.
    assert (length w = Z.to_nat m) as Hwl by (unfold w; rewrite length_take; lia).
    assert (length (splice bs0 (Z.to_nat off) w) = length bs0) as Hsl by (apply length_splice; lia).
    pose proof (contents_length _ _ _ Hwf Hb) as Hl. rewrite Hsl in Hl. apply lookup_lt_Some in Hx as Hkl.
    exists bs0. split_and!; [done|nia|].
    replace (take (Z.to_nat (m + Z.of_nat (length part))) (user_data u0)) with (w ++ part).
    + rewrite <- splice_splice by lia.
      replace (Z.to_nat off + length w)%nat with (k * bpc (fsi s) + o)%nat by lia.
      eapply (put_contents s x _ s1 Hr Hxr Hput l); try done. by eapply chain_NoDup.
    + rewrite Hpart at 1. unfold w. rewrite take_take_drop. f_equal. lia.
  - split_and!; [done|lia|lia|]. rewrite Hw4, Hu4, drop_drop. f_equal. lia.
Qed.

Lemma splice_bytes l i new : Forall is_byte l -> Forall is_byte new -> Forall is_byte (splice l i new).
Proof. intros. unfold splice. repeat apply Forall_app_2; auto using Forall_take, Forall_drop. Qed.

Lemma splice_app_l {A} (l l' : list A) i new :
  (i + length new <= length l)%nat -> splice (l ++ l') i new = splice l i new ++ l'.
Proof. intros. unfold splice. rewrite take_app_le, drop_app_le, <- !app_assoc by lia. done. Qed.

(** A cluster appended: its bytes are those it had on the device. *)
Lemma written_extend s0 u0 p v0 l0 off n m l s u x y s' :
  write_pre s0 u0 p v0 l0 off n -> m <= n ->
  written s0 u0 p v0 l0 off m l (s, u) -> last l = Some x -> alloc_post s x NC_ALLOC y s' ->
  written s0 u0 p v0 l0 off m (l ++ [y]) (s', u).
Proof.
  intros Hpre Hmn [Hr Hh Hg Hv Hch [ext He] Hk Hd Hm (bs0 & Hb0 & Hlen & Hb) Hu] Hx Hpost.
  cbn [fst snd] in *. pose proof (ready_usable _ Hr) as Hus.
  destruct (alloc_post_chain s NC_ALLOC _ l x y s' Hus Hch Hx Hpost) as (Hch' & Hny & Hk').
  pose proof (alloc_post_data s x NC_ALLOC y s' Hus Hpost) as Hd'.
  pose proof (alloc_post_range _ _ _ _ _ (alloc_post_count _ _ _ _ _ Hpost) Hpost) as Hyr.
  pose proof (alloc_post_ready _ _ _ _ _ Hr Hpost) as Hr'.
  pose proof (chain_range _ _ _ _ Hch) as Hrg.
  destruct Hpost as (_ & Hf' & Hv' & Hh' & _).
  assert (geom (fsi s') = geom (fsi s)) as Hg' by (by rewrite Hf').
  assert (in_range (fsi s0) y) as Hy0 by (by apply (geom_in_range (fsi s))).
  destruct (wp_data _ _ _ _ _ _ _ Hpre y Hy0) as [dy Hdy].
  constructor; cbn [fst snd]; try done; try congruence.
  - rewrite He, <- app_assoc. by eexists.
  - by eapply keeps_trans.
  - eapply data_keeps_weaken; [|eapply data_keeps_trans; [exact Hg|exact Hd|exact Hd']].
    intros z. unfold fresh. cbn. rewrite app_nil_r, elem_of_app. auto.
  - exists (bs0 ++ dy). split_and!; [|rewrite length_app; lia|].
    + apply contents_app. exists bs0, dy. split_and!; [done| |done]. exists [dy]. split; [by repeat constructor|].
      cbn. by rewrite app_nil_r.
    + pose proof (wp_off _ _ _ _ _ _ _ Hpre). pose proof (wp_user _ _ _ _ _ _ _ Hpre).
      rewrite splice_app_l by (rewrite length_take; lia).
      apply (contents_keeps s (fresh NC_ALLOC [y]) s'); [done..| |by intros ? _ ?%not_elem_of_nil|].
      { by apply Forall_app_2; [|constructor]. }
      apply contents_app. eexists _, dy. split_and!; [exact Hb| |done]. exists [dy].
      split; [|cbn; by rewrite app_nil_r]. repeat constructor.
      rewrite (cluster_bytes_keeps s0 l); done.
Qed.


Lemma chunk_geom f f' x : geom f' = geom f -> chunk f' x = chunk f x.
Proof. intros Hg. change (chunk (geom f') x = chunk (geom f) x). by rewrite Hg. Qed.

Lemma bpc_geom f f' : geom f' = geom f -> bpc f' = bpc f.
Proof. intros Hg. change (bpc (geom f') = bpc (geom f)). by rewrite Hg. Qed.

Lemma wp_write_size s u p v :
  fvs s !! p = Some v ->
  wp (write_size p) (s, u) (okp (fun _ su => snd su = u /\
    fst su = set_fvs (<[p := if fv_size v <? uio_offset u
                             then or_flags FV_SIZE_DIRTY (set_fv_size (uio_offset u) v) else v]> (fvs s)) s)).
Proof.
  intros Hv. unfold write_size. repeat wp_step. cbn [fst snd].
  eapply wp_lift_call; [by apply wp_get_fv|]. intros ? ? [-> ->].
  destruct (Z.ltb_spec (fv_size v) (uio_offset u)).
  - apply wp_lift. eapply wp_mono; [by apply wp_upd_fv|]. by intros [[]| | | |] s' ?.
  - apply wp_ret. cbn [okp fst snd]. split; [done|]. rewrite insert_id by done. by destruct s.
Qed.

(** The bytes of a round: from the user into the buffer, to the device. *)
Lemma wp_write_part s0 u0 p v0 l0 off n l x s u {A} (k : M (st K * U) A) Q :
  write_pre s0 u0 p v0 l0 off n -> io_at (fsi s0) l off n x -> 0 < remaining x ->
  written s0 u0 p v0 l0 off (n - remaining x) l (s, u) ->
  (forall su', written s0 u0 p v0 l0 off (n - (remaining x - chunk (fsi s0) x)) l su' -> wp k su' Q) ->
  wp (let* bp := lift (fat32_read_cluster (current_cluster x)) in
      do* lift (check_buf bp) in
      let* moved := do_uio_write (chunk (fsi s0) x) in
      let* d := of_opt (bput (b_addr bp) (offset_in_cluster x) (snd moved)) in
      if negb (fst moved =? 0) then do* lift (do_brelse (set_b_addr d bp)) in throw (fst moved)
      else do* lift (do_bdwrite (set_b_addr d bp)) in do* write_size p in k) (s, u) Q.
Proof.
  intros Hpre [Hrem Hskip Hcl Hpos] Hr0 Hwr HQ. destruct (Hpos Hr0) as [Hp Ho].
  pose proof Hpre as [Hready0 Hv0 Hrd Hoff Hend Hres Hus Hby]. pose proof (ready_wf _ Hready0) as Hwf0.
  destruct (chunk_eq _ x Hwf0 Ho Hr0) as [Hch Hch0]. set (c := chunk (fsi s0) x) in *.
  pose proof Hwr as [Hr Hh Hg Hv Hchain _ _ _ Hm (bs0 & _ & _ & Hb) (Hu1 & Hu2 & Hu3 & Hu4)]. cbn [fst snd] in *.
  pose proof (ready_wf _ Hr) as Hwf. destruct (bpc_eq _ Hwf0) as [Hbpc _].
  pose proof (chain_range _ _ _ _ Hchain) as Hrg. rewrite Forall_lookup in Hrg.
  destruct (contents_slice s l _ _ _ Hwf Hb Hcl) as (d & Hd & Hdl & _). rewrite (bpc_geom (fsi s0)) in Hdl by done.
  eapply wp_lift_call; [by apply wp_read_cluster|]. intros bp s1 (Eb & En & Ee & -> & Hs1 & _).
  eapply wp_lift_call; [by apply wp_check_buf_ok|]. intros [] ? ->.
  apply wp_bind. unfold wp at 1, do_uio_write. cbn [fst snd].
  destruct (uiomove_write c u) as [u1 [e bs]] eqn:Em.
  destruct (uiomove_write_ok u c u1 e bs) as (-> & Hu1' & Hu2' & Hu3' & Ebs & Hu4'); [done|lia| |done|].
  { rewrite Hu4, length_drop. lia. }
  assert (length bs = Z.to_nat c) as Hbl by (rewrite Ebs, length_take, Hu4, length_drop; lia).
  cbn [fst snd wpk]. rewrite splice_bput by lia. cbn [of_opt]. repeat wp_step. cbn [Z.eqb negb].
  eapply written_equiv in Hwr; [|exact Hs1]. pose proof Hs1 as (Ef1 & _).
  eapply wp_lift_call.
  { apply (wp_write_cluster s1 bp (current_cluster x) d); rewrite ?Ef1; try done; [by eapply Hrg|by rewrite <- Hs1| |].
    - apply length_splice. lia.
    - apply splice_bytes; [by eapply view_bytes|]. rewrite Ebs, Hu4. by apply Forall_take, Forall_drop. }
  intros [] s2 Hput. pose proof Hput as (_ & Hv2 & _). pose proof (wr_fvs _ _ _ _ _ _ _ _ _ Hwr) as Hv1. cbn in Hv1.
  eapply wp_call_ok; [apply (wp_write_size _ _ _ (grown off (n - remaining x) v0)); by rewrite Hv2, Hv1, lookup_insert_eq|].
  intros [] [s3 u3] [E3 E4]. cbn [fst snd] in E3, E4. subst u3 s3. apply HQ.
  assert (n - (remaining x - c) = (n - remaining x) + Z.of_nat (length bs)) as -> by lia.
  rewrite Hu3', Hu3, <- Z.add_assoc, grown_step by lia. replace c with (Z.of_nat (length bs)) by lia.
  rewrite <- (bpc_geom (fsi s0) (fsi s1)) in Hbpc by (by rewrite Ef1).
  eapply written_put; try done; try lia.
  - by rewrite <- Hs1.
  - by rewrite Hbl, Ebs, Hu4.
  - split_and!; [done|lia|lia|]. by rewrite Hbl.
Qed.


Lemma io_at_app f l ext off n x : io_at f l off n x -> io_at f (l ++ ext) off n x.
Proof. intros [? ? Hc ?]. constructor; try done. by apply lookup_app_l_Some. Qed.

Definition write_inv s0 u0 p v0 l0 off n (x : iopos) (su : st K * U) : Prop :=
  exists l, written s0 u0 p v0 l0 off (n - remaining x) l su /\ io_at (fsi s0) l off n x.

(** The move to the next cluster, which may have to be allocated. *)
Lemma wp_write_next s0 u0 p v0 l0 off n l x s u :
  write_pre s0 u0 p v0 l0 off n -> io_at (fsi s0) l off n x -> 0 < remaining x ->
  let rem := remaining x - chunk (fsi s0) x in
  0 < rem -> written s0 u0 p v0 l0 off (n - rem) l (s, u) ->
  wp (let* next := lift (fat32_next_cluster (current_cluster x) NC_ALLOC) in
      ret (inl (B := iopos) (mkIopos rem 0 next (u32 (skip_clusters x + 1))))) (s, u) (fun r su' =>
    match r with
    | Ok (inl x') => write_inv s0 u0 p v0 l0 off n x' su' /\ remaining x' = rem
    | Err e => e = ENOSPC /\ written s0 u0 p v0 l0 off (n - rem) l su'
    | _ => False
    end).
Proof.
  intros Hpre Hat Hr0 rem Hrem Hwr. pose proof (ready_wf _ (wp_ready _ _ _ _ _ _ _ Hpre)) as Hwf.
  pose proof (wp_end _ _ _ _ _ _ _ Hpre) as Hend.
  pose proof (wr_ready _ _ _ _ _ _ _ _ _ Hwr) as Hr. pose proof (wr_chain _ _ _ _ _ _ _ _ _ Hwr) as Hch.
  pose proof (io_cluster _ _ _ _ _ Hat) as Hcl. cbn [fst] in *. apply wp_bind, wp_lift.
  destruct (l !! S (Z.to_nat (skip_clusters x))) as [y|] eqn:Hy.
  - eapply wp_mono; [by eapply wp_next_in_chain|]. intros [v| | | |] s1; try done. cbn [okp wpk]. intros [-> Hs1].
    apply wp_ret. cbn [remaining]. split; [|done]. exists l. cbn [remaining].
    split; [by eapply written_equiv|by apply io_next].
  - apply lookup_ge_None in Hy. apply lookup_lt_Some in Hcl as Hlt.
    assert (S (Z.to_nat (skip_clusters x)) = length l) as Hlen by lia.
    eapply wp_mono; [by eapply wp_next_at_end|]. cbn beta. intros [y|e| | |] s1; try done; cbn [wpk alloc_result].
    + intros (_ & _ & Hpost). apply wp_ret. cbn [remaining]. split; [|done]. exists (l ++ [y]). cbn [remaining]. split.
      * eapply written_extend; [done|lia|done| |done]. by rewrite last_lookup, <- Hlen.
      * apply io_next; [done|by apply io_at_app|done..|].
        by rewrite lookup_app_r, Hlen, Nat.sub_diag by lia.
    + intros (-> & Hs1 & _). split; [done|]. by eapply written_equiv.
Qed.

Lemma wp_write_step s0 u0 p v0 l0 off n x su :
  write_pre s0 u0 p v0 l0 off n -> write_inv s0 u0 p v0 l0 off n x su ->
  wp (write_step p x) su (fun r su' =>
    match r with
    | Ok (inl x') => write_inv s0 u0 p v0 l0 off n x' su' /\ (Z.to_nat (remaining x') < Z.to_nat (remaining x))%nat
    | Ok (inr x') => x' = x /\ remaining x = 0 /\ su' = su
    | Err e => e = ENOSPC /\ exists m l, 0 <= m < n /\ written s0 u0 p v0 l0 off m l su'
    | _ => False
    end).
Proof.
  intros Hpre (l & Hwr & Hat). destruct su as [s u]. unfold write_step.
  pose proof (io_rem _ _ _ _ _ Hat) as Hrn. pose proof (ready_wf _ (wp_ready _ _ _ _ _ _ _ Hpre)) as Hwf.
  destruct (Z.ltb_spec 0 (remaining x)) as [Hrem|Hrem]; cbn [negb];
    [|apply wp_ret; split_and!; [done|lia|done]].
  destruct (io_pos _ _ _ _ _ Hat Hrem) as [_ Ho]. destruct (chunk_eq _ x Hwf Ho Hrem) as [Hc Hc0].
  repeat wp_step. cbn [fst]. rewrite (chunk_geom (fsi s0) (fsi s)) by apply Hwr.
  eapply wp_write_part; [done..|]. intros [s1 u1] Hwr1.
  destruct (Z.ltb_spec 0 (remaining x - chunk (fsi s0) x)) as [Hmore|Hdone].
  - eapply wp_mono; [by eapply wp_write_next|]. intros [[x'|x']|e| | |] su'; try done.
    + intros [? E]. split; [done|lia].
    + intros [-> ?]. split; [done|]. eexists _, l. split; [|done]. lia.
  - apply wp_ret. cbn [remaining]. split; [|lia]. exists l. cbn [remaining]. split; [done|by apply io_last].
Qed.

Lemma wp_write_loop s0 u0 p v0 l0 off n x su fuel :
  write_pre s0 u0 p v0 l0 off n -> write_inv s0 u0 p v0 l0 off n x su ->
  (Z.to_nat (remaining x) < fuel)%nat ->
  wp (iter fuel (write_step p) x) su (fun r su' =>
    match r with
    | Ok last => exists l, written s0 u0 p v0 l0 off n l su' /\ io_at (fsi s0) l off n last
    | Err e => e = ENOSPC /\ exists m l, 0 <= m < n /\ written s0 u0 p v0 l0 off m l su'
    | _ => False
    end).
Proof.
  intros Hpre HI Hfuel.
  eapply (wp_iter _ (write_inv s0 u0 p v0 l0 off n) (fun x _ => Z.to_nat (remaining x))); [|done|done].
  intros y su' HI'. eapply wp_mono; [by eapply wp_write_step|].
  intros [[x'|x']| | | |] su''; try done. intros (-> & E & ->). destruct HI' as (l & Hw & Hat).
  exists l. by rewrite E, Z.sub_0_r in Hw.
Qed.

End write.

(** ** [fat32_write] *)

Section write_file.
Context {K U : Type} `{!Kernel K, !KernelLaws K, !Uio U, !UioLaws U}.
Implicit Types (s : st K) (u : U).

(** [v'] belongs to the same vnode and the same entry as [v]. *)
Definition same_place (v v' : fat32fs_vnode) : Prop :=
  fv_vnode v' = fv_vnode v /\ fv_parent_vp v' = fv_parent_vp v /\ fv_parent_cluster v' = fv_parent_cluster v /\
  fv_diroff v' = fv_diroff v /\ fv_dirsz v' = fv_dirsz v /\ fv_attr v' = fv_attr v /\
  flag (fv_flags v') FV_ROOT = flag (fv_flags v) FV_ROOT /\
  forall b, flag (fv_flags v) b = true -> flag (fv_flags v') b = true.

Lemma same_place_trans v1 v2 v3 : same_place v1 v2 -> same_place v2 v3 -> same_place v1 v3.
Proof.
  intros (A1 & A2 & A3 & A4 & A5 & A6 & A7 & A8) (B1 & B2 & B3 & B4 & B5 & B6 & B7 & B8).
  do 7 (split; [congruence|]). intros b Hb. by apply B8, A8.
Qed.

Lemma same_place_flags v m : flag m FV_ROOT = false -> same_place v (or_flags m v).
Proof.
  intros H. do 6 (split; [done|]). cbn. split; [by rewrite flag_lor, H, orb_false_r|]. intros b Hb. by rewrite flag_lor, Hb.
Qed.

(** The file of [p] has been touched and its chain extended by [ext], no byte
    has been written. *)
Record prepared s (p : nat) v (l : list Z) s' v' (ext : list Z) : Prop := {
  pr_ready : ready s';
  pr_held : held s' = held s;
  pr_geom : geom (fsi s') = geom (fsi s);
  pr_fvs : fvs s' = <[p := v']> (fvs s);
  pr_ok : file_ok s' v' (l ++ ext);
  pr_keeps : keeps s l s' (l ++ ext);
  pr_data : data_keeps s [] s';
  pr_size : fv_size v' = fv_size v;
  pr_type : fv_type v' = fv_type v;
  pr_mtime : fv_mtime v' = snd (nanotime (kst s)) /\ flag (fv_flags v') FV_MTIME_DIRTY = true;
  pr_cluster : fv_cluster v' <> fv_cluster v -> flag (fv_flags v') FV_CLUSTER_DIRTY = true;
  pr_place : same_place v v'
}.

(** The outcome of writing [m] of the user's bytes at [off]: the chain is
    extended by [ext], the bytes of its clusters were [bs0]. *)
Record write_post s u (p : nat) v (l : list Z) (off m : Z) (ext bs0 : list Z) (su' : st K * U) : Prop := {
  wo_ready : ready (fst su');
  wo_held : held (fst su') = held s;
  wo_geom : geom (fsi (fst su')) = geom (fsi s);
  wo_fv : exists v', fvs (fst su') = <[p := v']> (fvs s) /\ file_ok (fst su') v' (l ++ ext) /\
    fv_size v' = (if 0 <? m then Z.max (fv_size v) (off + m) else fv_size v) /\ fv_type v' = fv_type v /\
    fv_mtime v' = snd (nanotime (kst s)) /\ flag (fv_flags v') FV_MTIME_DIRTY = true /\
    (fv_size v' <> fv_size v -> flag (fv_flags v') FV_SIZE_DIRTY = true) /\
    (fv_cluster v' <> fv_cluster v -> flag (fv_flags v') FV_CLUSTER_DIRTY = true) /\ same_place v v';
  wo_keeps : keeps s l (fst su') (l ++ ext);
  wo_data : data_keeps s (l ++ ext) (fst su');
  wo_before : contents s (l ++ ext) bs0;
  wo_after : contents (fst su') (l ++ ext) (splice bs0 (Z.to_nat off) (take (Z.to_nat m) (user_data u)));
  wo_room : 0 < m -> off + m <= Z.of_nat (length bs0);
  wo_user : user_ok (snd su') /\ uio_resid (snd su') = uio_resid u - m /\
    uio_offset (snd su') = off + m /\ user_data (snd su') = drop (Z.to_nat m) (user_data u)
}.

Lemma modified_same s p v l s1 :
  ready s -> fvs s !! p = Some v -> file_ok s v l ->
  set_fvs (<[p := modified (snd (nanotime (kst s))) v]> (fvs s)) s ≡ s1 ->
  prepared s p v l s1 (modified (snd (nanotime (kst s))) v) [].
Proof.
  intros Hr Hv Hok Hs1. pose proof Hs1 as (Hf1 & Hv1 & Hh1 & Hw1). cbn in Hf1, Hv1, Hh1, Hw1.
  constructor; rewrite ?app_nil_r; try done.
  - rewrite <- Hs1. by apply ready_set_fvs.
  - by rewrite Hf1.
  - rewrite <- Hs1. done.
  - intros c2 l2. rewrite <- Hs1. done.
  - intros x _ _. apply Hw1.
  - split; [done|]. cbn. rewrite flag_lor. apply orb_true_r.
  - by apply (same_place_flags (set_fv_mtime _ v)).
Qed.

Lemma prepared_step s p v l s1 v1 e1 s2 v2 e2 :
  prepared s p v l s1 v1 e1 ->
  ready s2 -> held s2 = held s1 -> geom (fsi s2) = geom (fsi s1) -> fvs s2 = <[p := v2]> (fvs s1) ->
  file_ok s2 v2 ((l ++ e1) ++ e2) -> keeps s1 (l ++ e1) s2 ((l ++ e1) ++ e2) -> data_keeps s1 [] s2 ->
  (exists c mask cache, v2 = set_fv_cls_cache cache (or_flags mask (set_fv_cluster c v1)) /\ flag mask FV_ROOT = false) ->
  (fv_cluster v2 <> fv_cluster v1 -> flag (fv_flags v2) FV_CLUSTER_DIRTY = true) ->
  prepared s p v l s2 v2 (e1 ++ e2).
Proof.
  intros [Hr1 Hh1 Hg1 Hv1 Hok1 Hk1 Hd1 Hsz1 Hty1 [Hmt1 Hmf1] Hcl1 Hpl1] Hr Hh Hg Hv Hok Hk Hd (c & mask & cache & Ev2 & Hroot) Hcl.
  rewrite <- app_assoc in *. constructor; try done; try congruence.
  - by rewrite Hv, Hv1, insert_insert_eq.
  - by eapply keeps_trans.
  - by apply (data_keeps_trans s [] s1 []).
  - by rewrite Ev2.
  - by rewrite Ev2.
  - rewrite Ev2. split; [done|]. cbn. by rewrite flag_lor, Hmf1.
  - destruct (decide (fv_cluster v2 = fv_cluster v1)) as [E|E]; [|intros _; by apply Hcl].
    rewrite E. intros Hne. rewrite Ev2. cbn. by rewrite flag_lor, Hcl1.
  - eapply same_place_trans; [done|]. rewrite Ev2. by apply (same_place_flags (set_fv_cluster c v1)).
Qed.

(** Assigning the cache only. *)
Lemma cache_only cache v :
  exists c mask cache', set_fv_cls_cache cache v = set_fv_cls_cache cache' (or_flags mask (set_fv_cluster c v)) /\
    flag mask FV_ROOT = false.
Proof. exists (fv_cluster v), 0, cache. split; [|done]. unfold or_flags. rewrite Z.lor_0_r. by destruct v. Qed.

Lemma unchanged v : exists c mask cache, v = set_fv_cls_cache cache (or_flags mask (set_fv_cluster c v)) /\ flag mask FV_ROOT = false.
Proof. pose proof (cache_only (fv_cls_cache v) v) as H. by replace (set_fv_cls_cache (fv_cls_cache v) v) with v in H by (by destruct v). Qed.

(** The seek, on a prepared file that has a cluster. *)
Lemma wp_write_seek s p v l skip s2 v2 e2 :
  held s !! CacheLock p = None -> 0 <= skip < 2 ^ 32 -> prepared s p v l s2 v2 e2 -> l ++ e2 <> [] ->
  wp (fat32_vnode_seek_cluster p skip NC_ALLOC) s2 (fun r s' =>
    exists v' ext, prepared s p v l s' v' ext /\
      match r with
      | Ok y => (l ++ ext) !! Z.to_nat skip = Some y
      | Err e => e = ENOSPC
      | _ => False
      end).
Proof.
  intros Hlk Hskip Hp2 Hne. pose proof Hp2 as [Hr2 Hh2 _ Hv2 Hok2 _ _ _ _ _ _ _].
  apply file_ok_chain in Hok2 as (Hca2 & Hlen2 & Hch2); [|done].
  eapply wp_mono.
  { apply (wp_vnode_seek_extends s2 p v2 (l ++ e2)); try done; [by rewrite Hh2| |].
    - by rewrite Hv2, lookup_insert_eq.
    - intros E. by rewrite E in Hlen2. }
  intros r s3 (Hr3 & Hh3 & Hg3 & e3 & Hch3 & Hk3 & Hd3 & Hres).
  destruct r as [y|e| | |]; try done.
  - destruct Hres as (Hy & _ & cache & Hca3 & Hlen3 & Hv3). exists (set_fv_cls_cache cache v2), (e2 ++ e3).
    split; [|by rewrite app_assoc]. eapply (prepared_step s p v l s2 v2 e2); try done.
    + apply file_ok_set_cache; [by destruct l, e2|done|congruence|done].
    + apply cache_only.
  - destruct Hres as (-> & _ & Hv3). exists v2, (e2 ++ e3). split; [|done].
    eapply (prepared_step s p v l s2 v2 e2); try done.
    + by rewrite Hv3, Hv2, insert_insert_eq.
    + apply file_ok_chain; [by destruct l, e2|]. split_and!; [by apply cache_ok_app|done..].
    + apply unchanged.
Qed.

(** The first cluster, then the seek, on a touched file. *)
Lemma wp_write_prepare s p v l skip s1 v1 :
  held s !! CacheLock p = None -> 0 <= skip < 2 ^ 32 ->
  prepared s p v l s1 v1 [] ->
  wp (do* (if fv_cluster v1 =? 0 then
             let* cluster := fat32_next_cluster 0 NC_ALLOC in
             upd_fv p (fun v => or_flags FV_CLUSTER_DIRTY (set_fv_cluster cluster v))
           else ret tt) in
      fat32_vnode_seek_cluster p skip NC_ALLOC) s1 (fun r s' =>
    exists v' ext, prepared s p v l s' v' ext /\
      match r with
      | Ok y => (l ++ ext) !! Z.to_nat skip = Some y
      | Err e => e = ENOSPC
      | _ => False
      end).
Proof.
  intros Hlk Hskip Hp. pose proof Hp as [Hr1 Hh1 Hg1 Hv1 Hok1 Hk1 Hd1 Hsz1 Hty1 [Hmt1 Hmf1] Hcl1 Hpl1].
  rewrite app_nil_r in *.
  eapply wp_call; [apply (wp_truncate_first s1 p v1 l NC_ALLOC FV_CLUSTER_DIRTY); try done; by rewrite Hv1, lookup_insert_eq|].
  intros [[]|e| | |] s2; try done; cbn [wpk].
  2:{ intros [-> Hs2]. exists v1, []. split; [|done]. pose proof Hs2 as (Hf2 & Hv2 & Hh2 & Hw2).
      apply (prepared_step s p v l s1 v1 [] s2 v1 []); try done; rewrite ?app_nil_r.
      - by rewrite <- Hs2.
      - by rewrite Hf2.
      - by rewrite Hv2, Hv1, insert_insert_eq.
      - by rewrite <- Hs2.
      - by apply keeps_equiv.
      - intros x _ _. apply Hw2.
      - apply unchanged. }
  intros (Hr2 & Hh2 & Hg2 & v2 & e2 & Hv2 & Hok2 & Hcase & Hk2 & Hd2 & _ & _ & Hcl2 & c2 & m2 & Ev2 & Hm2).
  assert (prepared s p v l s2 v2 e2) as Hp2.
  { apply (prepared_step s p v l s1 v1 [] s2 v2 e2); rewrite ?app_nil_r; try done.
    exists c2, m2, (fv_cls_cache v2). rewrite Ev2. split; [by destruct v1|done]. }
  assert (l ++ e2 <> []) as Hne by (destruct Hcase as [[_ ?]|[? _]]; [by destruct l|by destruct l, e2]).
  by eapply wp_write_seek.
Qed.

Lemma prepared_contents s p v l s3 v3 ext l' bs :
  prepared s p v l s3 v3 ext -> Forall (in_range (fsi s3)) l' -> contents s l' bs <-> contents s3 l' bs.
Proof.
  intros [] Hl. apply (contents_keeps s []); [done..| |by intros ? _ ?%not_elem_of_nil].
  eapply Forall_impl; [exact Hl|]. intros x. by apply geom_in_range.
Qed.

Lemma prepared_readable s p v l s3 v3 ext : prepared s p v l s3 v3 ext -> data_readable s -> data_readable s3.
Proof.
  intros [] Hd x Hx. rewrite (cluster_bytes_keeps s []); [apply Hd|done|done| |by apply not_elem_of_nil];
    by apply (geom_in_range (fsi s3)).
Qed.

(** No byte written. *)
Lemma prepared_post s u u1 p v l off s3 v3 ext :
  prepared s p v l s3 v3 ext -> data_readable s -> fs_wf (fsi s) ->
  user_ok u1 -> uio_resid u1 = uio_resid u -> uio_offset u1 = off -> user_data u1 = user_data u ->
  exists bs0, write_post s u p v l off 0 ext bs0 (s3, u1).
Proof.
  intros Hp Hd Hwf Hu1 Hu2 Hu3 Hu4. pose proof Hp as [Hr3 Hh3 Hg3 Hv3 Hok3 Hk3 Hd3 Hsz3 Hty3 [Hmt3 Hmf3] Hcl3 Hpl3].
  assert (Forall (in_range (fsi s3)) (l ++ ext)) as Hrg.
  { destruct Hok3 as (_ & _ & Hch). destruct (l ++ ext) eqn:E; [done|]. by eapply chain_range. }
  destruct (contents_exist s3 (l ++ ext)) as [bs0 Hbs]; [by eapply prepared_readable|done|].
  exists bs0. constructor; cbn [fst snd]; try done; try lia.
  - exists v3. by split_and!.
  - eapply data_keeps_weaken; [|done]. by intros ? ?%not_elem_of_nil.
  - by eapply prepared_contents.
  - change (take (Z.to_nat 0) (user_data u)) with (@nil Z). by rewrite splice_nil.
  - split_and!; [done|lia|lia|done].
Qed.

Lemma grown_size off m v :
  0 <= m -> fv_size (grown off m v) = (if 0 <? m then Z.max (fv_size v) (off + m) else fv_size v) /\
  (fv_size (grown off m v) <> fv_size v -> flag (fv_flags (grown off m v)) FV_SIZE_DIRTY = true) /\
  (forall b, flag (fv_flags v) b = true -> flag (fv_flags (grown off m v)) b = true) /\
  fv_mtime (grown off m v) = fv_mtime v /\ same_place v (grown off m v).
Proof.
  intros Hm. unfold grown. destruct (Z.ltb_spec 0 m); cbn [andb]; [|by split_and!].
  destruct (Z.ltb_spec (fv_size v) (off + m)).
  - split; [cbn; lia|]. split; [|split; [|split; [done|by apply (same_place_flags (set_fv_size _ v))]]]; cbn.
    + intros _. rewrite flag_lor. apply orb_true_r.
    + intros b Hb. by rewrite flag_lor, Hb.
  - split; [lia|]. by split_and!.
Qed.

(** [m] bytes written, and the cache replaced. *)
Lemma written_post s u u1 p v l off m s3 v3 ext l' s4 u4 cache :
  prepared s p v l s3 v3 ext -> uio_resid u1 = uio_resid u -> user_data u1 = user_data u ->
  written s3 u1 p v3 (l ++ ext) off m l' (s4, u4) -> l' <> [] -> cache_ok l' cache -> length cache = 16%nat ->
  exists ext' bs0, write_post s u p v l off m ext' bs0
    (set_fvs (<[p := set_fv_cls_cache cache (grown off m v3)]> (fvs s4)) s4, u4).
Proof.
  intros Hp Hu2 Hu4 Hwr Hne Hca Hcl.
  pose proof Hp as [Hr3 Hh3 Hg3 Hv3 Hok3 Hk3 Hd3 Hsz3 Hty3 [Hmt3 Hmf3] Hcl3 Hpl3].
  destruct Hwr as [Hr4 Hh4 Hg4 Hv4 Hch4 [e He] Hk4 Hd4 Hm (bs0 & Hb0 & Hlen & Hb4) (Hw1 & Hw2 & Hw3 & Hw4)].
  cbn [fst snd] in *. rewrite <- app_assoc in He. subst l'.
  pose proof (chain_range _ _ _ _ Hch4) as Hrg.
  destruct (grown_size off m v3 Hm) as (Hgs & Hgd & Hgf & Hgm & Hgp). destruct (grown_same off m v3) as (Hgc & Hgt & _).
  exists (ext ++ e), bs0. constructor; cbn [fst snd]; try done; try (cbn; congruence).
  - by apply ready_set_fvs.
  - eexists. split; [cbn; by rewrite Hv4, Hv3, !insert_insert_eq|]. split.
    { apply file_ok_set_cache; [done..|]. by rewrite Hgc. }
    change (fv_size (set_fv_cls_cache cache (grown off m v3))) with (fv_size (grown off m v3)).
    cbn [fv_type fv_mtime fv_flags fv_cluster set_fv_cls_cache].
    rewrite Hgs, Hgt, Hgm, Hgc. rewrite Hgs in Hgd. rewrite Hsz3 in *.
    do 6 (split; [by auto|]). exact (same_place_trans _ _ _ Hpl3 Hgp).
  - by eapply keeps_trans.
  - by apply (data_keeps_trans s [] s3).
  - eapply prepared_contents; [done| |done]. eapply Forall_impl; [exact Hrg|]. intros x. by apply geom_in_range.
  - by rewrite <- Hu4.
  - split_and!; [done|lia|done|]. by rewrite Hw4, Hu4.
Qed.

Lemma wp_lift_seq {A B} (a : M (st K) unit) (b : M (st K) A) (k : A -> M (st K * U) B) su Q :
  wp (let* c := lift (do* a in b) in k c) su Q -> wp (do* lift a in let* c := lift b in k c) su Q.
Proof.
  unfold wp, bind, lift, res_bind. destruct (a (fst su)) as [s' []]; done.
Qed.

Lemma io_at_geom f f' l off n x : geom f' = geom f -> io_at f l off n x -> io_at f' l off n x.
Proof.
  intros Hg [? ? ? Hp]. constructor; try done.
  change (fsi_bytes_per_cluster f') with (fsi_bytes_per_cluster (geom f')). by rewrite Hg.
Qed.

(** What a write of the whole request at [off] requires. *)
Record writable s u v (l : list Z) (off : Z) : Prop := {
  wt_ok : file_ok s v l;
  wt_data : data_readable s;
  wt_off : 0 <= off;
  wt_resid : 0 < uio_resid u;
  wt_end : off + uio_resid u < 2 ^ 32;
  wt_user : user_ok u;
  wt_bytes : uio_resid u <= Z.of_nat (length (user_data u)) /\ Forall is_byte (user_data u)
}.

Definition write_outcome s u p v l off (r : res unit) (su' : st K * U) : Prop :=
  exists m ext bs0, write_post s u p v l off m ext bs0 su' /\
    match r with
    | Ok _ => m = uio_resid u
    | Err e => e = ENOSPC /\ 0 <= m < uio_resid u
    | _ => False
    end.

(** Where the loop starts. *)
Lemma written_start s u p v l off n x :
  write_pre s u p v l off n -> file_chain s (fv_cluster v) l -> io_at (fsi s) l off n x ->
  remaining x = n -> 0 < n -> user_ok u -> uio_offset u = off ->
  written s u p v l off 0 l (s, u).
Proof.
  intros [Hr Hv Hd Hoff _ _ _ _] Hch [_ Hsk Hcl Hpos] Hrem Hn Hu Ho. pose proof (ready_wf _ Hr) as Hwf.
  destruct (contents_exist s l Hd) as [bs Hb]; [by eapply chain_range|].
  constructor; cbn [fst snd]; try done.
  - rewrite insert_id; [done|]. by rewrite Hv.
  - exists []. by rewrite app_nil_r.
  - exists bs. split_and!; [done| |].
    + rewrite (contents_length _ _ _ Hwf Hb). destruct (bpc_eq _ Hwf) as [Hbp _].
      destruct Hpos as [Hp ?]; [lia|]. apply lookup_lt_Some in Hcl. nia.
    + change (take (Z.to_nat 0) (user_data u)) with (@nil Z). by rewrite splice_nil.
  - split_and!; [done|lia..|done].
Qed.

(** The loop and the cache update, on a prepared file. *)
Lemma wp_write_rest s u u1 p v l off s3 v3 ext c :
  writable s u v l off -> held s !! CacheLock p = None -> fs_wf (fsi s) -> prepared s p v l s3 v3 ext ->
  user_ok u1 -> uio_resid u1 = uio_resid u -> uio_offset u1 = off -> user_data u1 = user_data u ->
  let skip := u32 (Z.shiftr off (fsi_cluster_shift (fsi s))) in
  (l ++ ext) !! Z.to_nat skip = Some c ->
  wp (let* last := iter (S (Z.to_nat (uio_resid u))) (write_step p)
        (mkIopos (uio_resid u) (u32 (Z.land off (fsi_cluster_mask (fsi s)))) c skip) in
      lift (fat32_vnode_update_cache p (skip_clusters last) (current_cluster last))) (s3, u1)
    (write_outcome s u p v l off).
Proof.
  intros [Hok Hd Hoff Hres Hend Huok [Hul Hub]] Hlk Hwf Hp Hu1 Hu2 Hu3 Hu4 skip Hc.
  pose proof Hp as [Hr3 Hh3 Hg3 Hv3 Hok3 _ _ _ _ _ _].
  assert (l ++ ext <> []) as Hne by (intros E; by rewrite E in Hc).
  apply file_ok_chain in Hok3 as (Hca3 & Hcl3 & Hch3); [|done].
  pose proof (prepared_readable _ _ _ _ _ _ _ Hp Hd) as Hd3.
  assert (write_pre s3 u1 p v3 (l ++ ext) off (uio_resid u)) as Hpre.
  { constructor; try done; try lia; [by rewrite Hv3, lookup_insert_eq|by rewrite Hu4..]. }
  pose proof (io_start (fsi s) (l ++ ext) off (uio_resid u) c Hwf) as Hat. cbn zeta in Hat.
  assert (io_at (fsi s3) (l ++ ext) off (uio_resid u)
    (mkIopos (uio_resid u) (u32 (Z.land off (fsi_cluster_mask (fsi s)))) c skip)) as Hat3.
  { apply (io_at_geom (fsi s)); [done|]. apply Hat; [lia..|done]. }
  eapply wp_call.
  { apply (wp_write_loop s3 u1 p v3 (l ++ ext) off (uio_resid u)); [done| |cbn; lia].
    exists (l ++ ext). split; [|done]. cbn [remaining]. rewrite Z.sub_diag. by eapply written_start. }
  intros [last|e| | |] [s4 u4]; try done; cbn [wpk].
  - intros (l' & Hwr & Hat'). apply wp_lift.
    pose proof (wr_fvs _ _ _ _ _ _ _ _ _ Hwr) as Hv4. pose proof (wr_held _ _ _ _ _ _ _ _ _ Hwr) as Hh4. cbn in Hv4, Hh4.
    eapply wp_mono; [apply (wp_update_cache _ _ (grown off (uio_resid u) v3)); [by rewrite Hh4, Hh3|by rewrite Hv4, lookup_insert_eq]|].
    intros [[]| | | |] s5; try done. cbn [okp]. intros ->.
    destruct (wr_ext _ _ _ _ _ _ _ _ _ Hwr) as [e He]. destruct (grown_same off (uio_resid u) v3) as (_ & _ & Egc).
    edestruct (written_post s u u1 p v l off (uio_resid u)) as (ext' & bs0 & Hpost); [done..| | | |by exists (uio_resid u), ext', bs0].
    + rewrite He. by destruct l, ext.
    + rewrite Egc. apply cache_ok_insert; [rewrite He; by apply cache_ok_app|apply Hat'..].
    + rewrite Egc, length_cache_insert; [done|]. intros E. by rewrite E in Hcl3.
  - intros (-> & m & l' & Hm & Hwr). pose proof (wr_fvs _ _ _ _ _ _ _ _ _ Hwr) as Hv4. cbn in Hv4.
    destruct (wr_ext _ _ _ _ _ _ _ _ _ Hwr) as [e He]. destruct (grown_same off m v3) as (_ & _ & Egc).
    destruct (written_post s u u1 p v l off m s3 v3 ext l' s4 u4 (fv_cls_cache v3)) as (ext' & bs0 & Hpost); try done.
    + rewrite He. by destruct l, ext.
    + rewrite He. by apply cache_ok_app.
    + exists m, ext', bs0. split; [|done].
      replace s4 with (set_fvs (<[p := set_fv_cls_cache (fv_cls_cache v3) (grown off m v3)]> (fvs s4)) s4); [done|].
      rewrite insert_id; [by destruct s4|]. rewrite Hv4, lookup_insert_eq, <- Egc. by destruct (grown off m v3).
Qed.

(** The position of a write. *)
Definition write_at v u (append : bool) : Z := if append then fv_size v else uio_offset u.

Lemma wp_write_body s u p v l append :
  ready s -> held s !! CacheLock p = None -> fvs s !! p = Some v ->
  writable s u v l (write_at v u append) ->
  wp (write_body p append) (s, u) (write_outcome s u p v l (write_at v u append)).
Proof.
  intros Hr Hlk Hv Hw. pose proof Hw as [Hok Hd Hoff Hres Hend Huok [Hul Hub]]. pose proof (ready_wf _ Hr) as Hwf.
  set (off := write_at v u append) in *. unfold write_body. repeat wp_step. cbn [fst].
  eapply wp_lift_call; [by apply wp_touch_mtime|]. intros [] s1 Hs1.
  pose proof (modified_same s p v l s1 Hr Hv Hok Hs1) as Hp1. set (v1 := modified _ v) in *.
  repeat wp_step. cbn [snd]. rewrite (proj2 (Z.eqb_neq _ _)) by lia.
  eapply wp_lift_call; [apply (wp_get_fv _ _ v1); by rewrite (pr_fvs _ _ _ _ _ _ _ Hp1), lookup_insert_eq|].
  intros ? ? [-> ->].
  assert (exists u1, user_ok u1 /\ uio_resid u1 = uio_resid u /\ uio_offset u1 = off /\ user_data u1 = user_data u /\
    forall A (k : Z -> M (st K * U) A) Q, wp (k off) (s1, u1) Q ->
      wp (let* file_offset := (if append then
            do* modify (fun su => (fst su, set_uio_offset (fv_size v1) (snd su))) in ret (fv_size v1)
          else ret (uio_offset u)) in k file_offset) (s1, u) Q) as (u1 & Hu1 & Hu2 & Hu3 & Hu4 & Hk).
  { unfold off, write_at. destruct append.
    - exists (set_uio_offset (fv_size v) u). split_and!; [by apply set_uio_offset_ok|apply set_uio_offset_resid|
        apply set_uio_offset_get|apply set_uio_offset_data|]. intros A k Q HQ. repeat wp_step. exact HQ.
    - exists u. split_and!; [done..|]. intros A k Q HQ. repeat wp_step. exact HQ. }
  apply Hk. apply wp_lift_seq, wp_bind, wp_lift.
  destruct (skip_eq (fsi s) off Hwf) as [Esk Hsk]; [lia|].
  eapply wp_mono; [apply (wp_write_prepare s p v l _ s1 v1); [done|by rewrite Esk|done]|].
  intros r s3 (v3 & ext & Hp3 & Hres3). destruct r as [c|e| | |]; try done; cbn [wpk].
  - by eapply wp_write_rest.
  - subst e. destruct (prepared_post s u u1 p v l off s3 v3 ext) as [bs0 Hpost]; try done.
    exists 0, ext, bs0. split; [done|]. split; [done|lia].
Qed.

Lemma release_post s u p v l off m ext bs0 s' u' mode :
  held s !! FvLock p = None -> held s !! FsiLock = None ->
  write_post (set_held (<[FvLock p := mode]> (held s)) s) u p v l off m ext bs0 (s', u') ->
  write_post s u p v l off m ext bs0 (set_held (held s) s', u').
Proof.
  intros Hlk Hfl [Hr Hh Hg (v' & Hv) Hk Hd Hb Ha Hroom Hu]. cbn [fst snd] in *. constructor; cbn [fst snd]; try done.
  - by apply ready_set_held.
  - by exists v'.
Qed.

Lemma wp_write s u p v l append :
  ready s -> held s !! FvLock p = None -> held s !! CacheLock p = None ->
  fvs s !! p = Some v -> fv_type v = VREG -> writable s u v l (write_at v u append) ->
  wp (fat32_write p append) (s, u) (write_outcome s u p v l (write_at v u append)).
Proof.
  intros Hr Hlf Hlc Hv Hty Hw. unfold fat32_write.
  eapply wp_lift_call; [by apply wp_get_fv|]. intros ? ? [-> ->]. rewrite Hty, bool_decide_true by done. cbn [negb].
  eapply wp_lift_call; [by apply wp_lock|]. intros [] ? ->.
  apply wp_bind, wp_try. eapply wp_mono.
  { apply (wp_write_body _ u p v l append).
    - apply ready_set_held; [done|]. by rewrite lookup_insert_ne; [apply Hr|].
    - cbn. by rewrite lookup_insert_ne.
    - done.
    - by destruct Hw. }
  intros r [s1 u1] (m & ext & bs0 & Hpost & Hres). pose proof (wo_held _ _ _ _ _ _ _ _ _ _ Hpost) as Hh1. cbn in Hh1.
  apply release_post in Hpost; [|done|apply Hr].
  destruct r as [[]|e| | |]; try done; cbn [wpk].
  - eapply wp_lift_call; [by eapply (wp_unlock _ _ MrUpdate (held s))|]. intros [] ? ->. apply wp_ret.
    by exists m, ext, bs0.
  - eapply wp_lift_call; [by eapply (wp_unlock _ _ MrUpdate (held s))|]. intros [] ? ->. apply wp_throw.
    by exists m, ext, bs0.
Qed.

(** C1: a write of [uio_resid] bytes at [uio_offset], or at the end of the file
    in append mode, replaces exactly these bytes of the file by the user's,
    extends the chain by the clusters that are missing, records the larger size
    and the modification time and marks what changed dirty; all other bytes of
    the file and of the new clusters, every other cluster and every other
    chain stay as they are.  Its only failure is ENOSPC, after which a proper
    prefix of the request has been written in the same way and the descriptor
    says how long it is. *)
Theorem write_correct s u p v l append :
  ready s -> held s !! FvLock p = None -> held s !! CacheLock p = None ->
  fvs s !! p = Some v -> fv_type v = VREG -> writable s u v l (write_at v u append) ->
  wp (fat32_write p append) (s, u) (write_outcome s u p v l (write_at v u append)).
Proof. apply wp_write. Qed.

End write_file.

Section roundtrip.
Context {K U : Type} `{!Kernel K, !KernelLaws K, !Uio U, !UioLaws U}.
Implicit Types (s : st K) (u : U).

Lemma write_readable s u p v l append ext bs0 s' u' u2 :
  fs_wf (fsi s) -> writable s u v l (write_at v u append) ->
  fv_size v <= Z.of_nat (length l) * fsi_bytes_per_cluster (fsi s) -> fv_size v < 2 ^ 32 ->
  write_post s u p v l (write_at v u append) (uio_resid u) ext bs0 (s', u') ->
  user_ok u2 -> uio_offset u2 = write_at v u append -> uio_resid u2 = uio_resid u ->
  exists v', fvs s' !! p = Some v' /\ fv_type v' = fv_type v /\ read_count v' u2 = uio_resid u /\
    readable s' u2 v' (l ++ ext)
      (splice bs0 (Z.to_nat (write_at v u append)) (take (Z.to_nat (uio_resid u)) (user_data u))).
Proof.
  intros Hwf [Hok Hd Hoff Hres Hend Huok [Hul Hub]] Hsize Hsize32 [Hr Hh Hg (v' & Hv & Hok' & Hsz & Hty & _) _ _ Hb Ha Hroom Hu]
    Hu2 Ho2 Hr2. cbn [fst snd] in *. rewrite (proj2 (Z.ltb_lt _ _)) in Hsz by lia. specialize (Hroom Hres).
  exists v'. split_and!; [by rewrite Hv, lookup_insert_eq|done|unfold read_count; lia|].
  constructor; try done; try lia. split; [|lia].
  rewrite length_splice by (rewrite length_take; lia).
  rewrite (contents_length _ _ _ Hwf Hb), length_app in *. destruct (bpc_eq _ Hwf). nia.
Qed.

(** C21: what a successful [fat32_write] has stored, [fat32_read] of the same
    range returns: after writing [uio_resid] bytes, a read of as many bytes from
    the same position succeeds and hands exactly these bytes to the user; the
    pair fails only with ENOSPC of the write. *)
Theorem read_after_write s u u2 p v l append :
  ready s -> held s !! FvLock p = None -> held s !! CacheLock p = None ->
  fvs s !! p = Some v -> fv_type v = VREG -> writable s u v l (write_at v u append) ->
  fv_size v <= Z.of_nat (length l) * fsi_bytes_per_cluster (fsi s) -> fv_size v < 2 ^ 32 ->
  user_ok u2 -> uio_offset u2 = write_at v u append -> uio_resid u2 = uio_resid u ->
  wp (do* fat32_write p append in do* modify (fun su => (fst su, u2)) in fat32_read p) (s, u) (fun r su' =>
    match r with
    | Ok _ => user_got (snd su') = user_got u2 ++ take (Z.to_nat (uio_resid u)) (user_data u)
    | Err e => e = ENOSPC
    | _ => False
    end).
Proof.
  intros Hr Hlf Hlc Hv Hty Hw Hsize Hsize32 Hu2 Ho2 Hr2. pose proof (ready_wf _ Hr) as Hwf.
  eapply wp_call; [by apply wp_write|]. intros r [s1 u1] (m & ext & bs0 & Hpost & Hres).
  destruct r as [[]|e| | |]; try done; cbn [wpk]; [|by destruct Hres]. subst m.
  destruct (write_readable s u p v l append ext bs0 s1 u1 u2) as (v' & Hv' & Hty' & Hcnt & Hrd); try done.
  pose proof (wo_ready _ _ _ _ _ _ _ _ _ _ Hpost) as Hr1. pose proof (wo_held _ _ _ _ _ _ _ _ _ _ Hpost) as Hh1.
  pose proof (wo_room _ _ _ _ _ _ _ _ _ _ Hpost) as Hroom. cbn [fst] in Hr1, Hh1.
  repeat wp_step. cbn [fst].
  eapply wp_mono; [apply (wp_read s1 u2 p v' (l ++ ext)); try done; congruence|].
  intros [[]| | | |] [s2 u3]; try done. cbn [okp fst snd]. intros [(_ & _ & _ & ->) _]. f_equal. rewrite Hcnt, Ho2.
  destruct Hw as [_ _ Hoff Hpos _ _ [Hul _]]. specialize (Hroom Hpos).
  assert (length (take (Z.to_nat (uio_resid u)) (user_data u)) = Z.to_nat (uio_resid u)) as Hl
    by (rewrite length_take; lia).
  rewrite <- Hl at 2. apply slice_splice. lia.
Qed.

End roundtrip.

(** ** A transfer on the small volume *)

(** A descriptor with one user buffer. *)
Record demo_uio : Type := mkUio { du_offset : Z; du_resid : Z; du_ok : bool; du_got : list Z; du_data : list Z }.

Definition EFAULT : Z := 14.

#[global] Instance demo_uio_ops : Uio demo_uio := {
  uio_offset := du_offset;
  uio_resid := du_resid;
  set_uio_offset o u := mkUio o (du_resid u) (du_ok u) (du_got u) (du_data u);
  uiomove_read bs u :=
    if du_ok u then (mkUio (du_offset u + Z.of_nat (length bs)) (du_resid u - Z.of_nat (length bs)) true
                       (du_got u ++ bs) (du_data u), 0)
    else (u, EFAULT);
  uiomove_write n u :=
    if du_ok u then (mkUio (du_offset u + n) (du_resid u - n) true (du_got u) (drop (Z.to_nat n) (du_data u)),
                     (0, take (Z.to_nat n) (du_data u)))
    else (u, (EFAULT, []));
  user_ok u := du_ok u = true;
  user_got := du_got;
  user_data := du_data
}.

#[global] Instance demo_uio_laws : UioLaws demo_uio.
Proof.
  constructor; try done; cbn.
  - intros u bs u' e Hok _. rewrite Hok. by intros [= <- <-].
  - intros u n u' e bs Hok _ _. rewrite Hok. by intros [= <- <- <-].
Qed.

Definition demo_request (offset resid : Z) (data : list Z) : demo_uio := mkUio offset resid true [] data.

Lemma demo_data_readable : data_readable demo.
Proof.
  intros x Hx. assert (x ∈ seqZ 2 20) as Hin by (apply elem_of_seqZ; unfold in_range in Hx; cbn in Hx; lia).
  assert (forallb (fun x => match cluster_bytes demo x with Some _ => true | None => false end) (seqZ 2 20) = true)
    as Hall by (vm_compute; reflexivity).
  rewrite forallb_forall in Hall. apply list_elem_of_In, Hall in Hin. by destruct (cluster_bytes demo x).
Qed.

Definition demo_read : demo_uio := demo_request 500 1000 [].
Definition demo_write : demo_uio := demo_request 1000 2000 (replicate 2000 7).
Definition demo_reread : demo_uio := demo_request 1000 2000 [].

Lemma demo_contents : contents demo [3; 5; 6] (zeros 1536).
Proof. exists [zeros 512; zeros 512; zeros 512]. split; [|done]. repeat constructor; vm_compute; reflexivity. Qed.

Lemma demo_file_readable : readable demo demo_read demo_fv [3; 5; 6] (zeros 1536).
Proof. constructor; [apply demo_file_ok|apply demo_contents|vm_compute; split; congruence..|reflexivity]. Qed.

(** A request for 1000 bytes from offset 500 of a file of 1300 bytes. *)
Lemma read_correct_witness :
  read_count demo_fv demo_read = 800 /\
  wp (fat32_read 1) (demo, demo_read) (okp (fun _ su' =>
    delivered demo_read (zeros 1536) (uio_offset demo_read) (read_count demo_fv demo_read) (snd su') /\
    exists cache, cache_ok [3; 5; 6] cache /\ length cache = 16%nat /\
      set_fvs (<[1%nat := set_fv_cls_cache cache (accessed (snd (nanotime (kst demo))) demo_fv)]> (fvs demo)) demo
        ≡ fst su')).
Proof.
  split; [reflexivity|].
  apply (read_correct demo demo_read 1 demo_fv [3; 5; 6] (zeros 1536));
    [apply demo_ready|reflexivity|reflexivity|reflexivity|reflexivity|apply demo_file_readable].
Defined.

(** 2000 bytes from offset 1000: the chain grows by three clusters. *)
Lemma demo_writable : writable demo demo_write demo_fv [3; 5; 6] (write_at demo_fv demo_write false).
Proof.
  constructor; [apply demo_file_ok|apply demo_data_readable|cbn; lia..|reflexivity|].
  split; [cbn [demo_write demo_request user_data uio_resid demo_uio_ops du_data du_resid]|by apply Forall_replicate].
  rewrite length_replicate. lia.
Qed.

Lemma write_correct_witness :
  wp (fat32_write 1 false) (demo, demo_write)
    (write_outcome demo demo_write 1 demo_fv [3; 5; 6] (write_at demo_fv demo_write false)).
Proof.
  apply (write_correct demo demo_write 1 demo_fv [3; 5; 6] false);
    [apply demo_ready|reflexivity|reflexivity|reflexivity|reflexivity|apply demo_writable].
Defined.

Lemma read_after_write_witness :
  wp (do* fat32_write 1 false in do* modify (fun su => (fst su, demo_reread)) in fat32_read 1)
    (demo, demo_write) (fun r su' =>
    match r with
    | Ok _ => user_got (snd su') = user_got demo_reread ++ take (Z.to_nat (uio_resid demo_write)) (user_data demo_write)
    | Err e => e = ENOSPC
    | _ => False
    end).
Proof.
  apply (read_after_write demo demo_write demo_reread 1 demo_fv [3; 5; 6] false);
    [apply demo_ready|reflexivity|reflexivity|reflexivity|reflexivity|apply demo_writable
    |cbn; lia|cbn; lia|reflexivity|reflexivity|reflexivity].
Defined.

(** The same transfer evaluated: it succeeds and the bytes come back. *)
Lemma demo_transfer :
  let '((s, u), r) := (do* fat32_write 1 false in do* modify (fun su => (fst su, demo_reread)) in fat32_read 1)
                        (demo, demo_write) in
  r = Ok tt /\ du_got u = replicate 2000 7 /\ fv_size <$> fvs s !! 1%nat = Some 3000 /\
  fsi_free_count (fsi s) = 12.
Proof. vm_compute. done. Qed.
