(* ===== verification/Dir.v ===== *)
(** * Directories ([fat32_dir.c]): definitions

    A directory is a file of 32-byte entries.  The entries are read and written
    in the buffers of whole clusters.  [tb] is the width of [time_t]. *)
From S2P Require Import Prelude Layout Time Names Kernel Cls File.

(** ** Single entries *)

Section fdentry.
Context {K : Type} `{!Kernel K}.

(** [bcopy(b_addr + cluster_off, data, 32)] of the entry at [offset]. *)
Definition fat32_read_fdentry (dir_cluster offset : Z) : M (st K) (list Z) :=
  let* f := gets fsi in
  let skip_clusters := Z.shiftr offset (fsi_cluster_shift f) in
  let cluster_off := Z.land offset (fsi_cluster_mask f) in
  let* target_cluster := fat32_seek_cluster dir_cluster skip_clusters 0 in
  let* bp := fat32_read_cluster target_cluster in
  do* check_buf bp in
  let* data := of_opt (bsub (b_addr bp) cluster_off 32) in
  do* do_brelse bp in
  ret data.

Definition fat32_write_fdentry (dir_cluster offset : Z) (data : list Z) : M (st K) unit :=
  let* f := gets fsi in
  let skip_clusters := Z.shiftr offset (fsi_cluster_shift f) in
  let cluster_off := Z.land offset (fsi_cluster_mask f) in
  let* target_cluster := fat32_seek_cluster dir_cluster skip_clusters 0 in
  let* bp := fat32_read_cluster target_cluster in
  do* check_buf bp in
  let* d := of_opt (bput (b_addr bp) cluster_off data) in
  do_bdwrite (set_b_addr d bp).

End fdentry.

(** Assignment to a member of an 8.3 entry. *)
Definition set83 (fl : D83.field) (v : list Z) (e : list Z) : list Z :=
  set_field D83.fat32_dirent83 e fl v.
Definition get83 (e : list Z) (fl : D83.field) : list Z := get_field D83.fat32_dirent83 e fl.

(** [WLE16(x >> 16, first_cluster_hi); WLE16(x & 0xFFFF, first_cluster_lo);] *)
Definition set_first_cluster (x : Z) (e : list Z) : list Z :=
  set83 D83.first_cluster_lo (WLE16 (Z.land x 0xFFFF))
    (set83 D83.first_cluster_hi (WLE16 (u16 (Z.shiftr x 16))) e).

(** ** Writing back dirty metadata *)

(** The members of the entry that the dirty flags of [v] name. *)
Definition update_dentry (v : fat32fs_vnode) (e : list Z) : option (list Z) :=
  match fat32_unix_to_fat_time (fv_atime v), fat32_unix_to_fat_time (fv_mtime v),
        fat32_unix_to_fat_time (fv_ctime v) with
  | Some (adate, _, _), Some (mdate, mtime, _), Some (cdate, ctime, ctenths) =>
      let e := if flag (fv_flags v) FV_ATIME_DIRTY
               then set83 D83.last_access_date (WLE16 adate) e else e in
      let e := if flag (fv_flags v) FV_MTIME_DIRTY
               then set83 D83.write_time (WLE16 mtime) (set83 D83.write_date (WLE16 mdate) e) else e in
      let e := if flag (fv_flags v) FV_CTIME_DIRTY
               then set83 D83.create_time_tenth [ctenths]
                      (set83 D83.create_time (WLE16 ctime) (set83 D83.create_date (WLE16 cdate) e)) else e in
      let e := if flag (fv_flags v) FV_ATTR_DIRTY then set83 D83.attr [u8 (fv_attr v)] e else e in
      let e := if flag (fv_flags v) FV_SIZE_DIRTY
               then set83 D83.file_size (WLE32 (fv_size v)) e else e in
      Some (if flag (fv_flags v) FV_CLUSTER_DIRTY then set_first_cluster (fv_cluster v) e else e)
  | _, _, _ => None
  end.

(** [fv_flags &= ~m] *)
Definition clear_flags (m : Z) (v : fat32fs_vnode) : fat32fs_vnode :=
  set_fv_flags (Z.land (fv_flags v) (Z.lnot m)) v.

Section metadata.
Context {K : Type} `{!Kernel K}.

Definition fat32_update_fdentry (fv : nat) : M (st K) unit :=
  let* f := gets fsi in
  let* v := get_fv fv in
  if negb (flag (fv_flags v) FV_DIRTY_MASK) then ret tt else
  if flag (fv_flags v) FV_ROOT then upd_fv fv (clear_flags FV_DIRTY_MASK) else
  if fv_parent_cluster v =? FAT32_CLUSTER_BAD then
    do* upd_fv fv (clear_flags FV_DIRTY_MASK) in throw EINVAL
  else
  let parent_cluster := if fv_parent_cluster v =? 0 then fsi_root_cluster f else fv_parent_cluster v in
  let target_offset := u32 (fv_diroff v + u32 (u32 (fv_dirsz v - 1) * FAT32_DENTRY_SIZE)) in
  let skip_clusters := Z.shiftr target_offset (fsi_cluster_shift f) in
  let offset_in_cluster := Z.land target_offset (fsi_cluster_mask f) in
  let* target_cluster := fat32_seek_cluster parent_cluster skip_clusters 0 in
  let* bp := fat32_read_cluster target_cluster in
  do* check_buf bp in
  let* dentry := of_opt (bsub (b_addr bp) offset_in_cluster 32) in
  let* dentry := of_opt (update_dentry v dentry) in
  let* d := of_opt (bput (b_addr bp) offset_in_cluster dentry) in
  do* upd_fv fv (clear_flags FV_DIRTY_MASK) in
  do_bdwrite (set_b_addr d bp).

End metadata.

(** ** Long-name entries *)

Definition setlfn (fl : Lfn.field) (v : list Z) (e : list Z) : list Z :=
  set_field Lfn.fat32_dirent_lfn e fl v.
Definition getlfn (e : list Z) (fl : Lfn.field) : list Z := get_field Lfn.fat32_dirent_lfn e fl.

(** The two bytes of character [j] of a chunk: a character, the terminator, or
    the fill value. *)
Definition lfn_char (chunk : list Z) (j : nat) : list Z :=
  if decide (j < length chunk)%nat then [nth j chunk 0; 0]
  else if decide (j = length chunk) then [0; 0] else [0xFF; 0xFF].

(** Characters [from, from + n) of a chunk. *)
Definition lfn_chars (chunk : list Z) (from n : nat) : list Z :=
  concat (map (lfn_char chunk) (seq from n)).

(** The entry with sequence number [i] of [num_lfn]. *)
Definition lfn_entry (long_name : list Z) (checksum : Z) (num_lfn i : nat) : list Z :=
  let chunk := take 13 (drop ((i - 1) * 13) long_name) in
  let sequence := if decide (i = num_lfn) then Z.lor (Z.of_nat i) FAT32_LFN_LAST else Z.of_nat i in
  setlfn Lfn.name3 (lfn_chars chunk 11 2) (setlfn Lfn.name2 (lfn_chars chunk 5 6)
    (setlfn Lfn.name1 (lfn_chars chunk 0 5) (setlfn Lfn.sequence [u8 sequence]
      (setlfn Lfn.checksum [checksum] (setlfn Lfn.attr [FAT32_ATTR_LONG_NAME] (replicate 32 0)))))).

(** [(len + 12) / 13] *)
Definition num_lfn (long_name : list Z) : nat := (length long_name + 12) / 13.

Section lfn.
Context {K : Type} `{!Kernel K}.

(** [for (i = num_lfn; i > 0; i--)] *)
Fixpoint write_lfn_loop (dir_cluster start_offset : Z) (long_name : list Z) (checksum : Z) (num i : nat)
  : M (st K) unit :=
  match i with
  | O => ret tt
  | S i' =>
      do* fat32_write_fdentry dir_cluster (u32 (start_offset + Z.of_nat (num - i) * FAT32_DENTRY_SIZE))
            (lfn_entry long_name checksum num i) in
      write_lfn_loop dir_cluster start_offset long_name checksum num i'
  end.

Definition fat32_write_lfn_fdentry (dir_cluster start_offset : Z) (d83 long_name : list Z) : M (st K) unit :=
  let num := num_lfn long_name in
  do* write_lfn_loop dir_cluster start_offset long_name (fat32_checksum (get83 d83 D83.name)) num num in
  fat32_write_fdentry dir_cluster (u32 (start_offset + Z.of_nat num * FAT32_DENTRY_SIZE)) d83.

(** ** Initialising a directory *)

(** ".          " and "..         " *)
Definition dot_name : list Z := 46 :: replicate 10 32.
Definition dotdot_name : list Z := 46 :: 46 :: replicate 9 32.

Definition dot_entry (date time tenths cluster : Z) : list Z :=
  set_first_cluster cluster (set83 D83.last_access_date (WLE16 date) (set83 D83.write_time (WLE16 time)
    (set83 D83.write_date (WLE16 date) (set83 D83.create_time_tenth [tenths]
      (set83 D83.create_time (WLE16 time) (set83 D83.create_date (WLE16 date)
        (set83 D83.attr [FAT32_ATTR_DIRECTORY] (set83 D83.name dot_name (replicate 32 0))))))))).

Definition fat32_init_dir (new_cluster parent_cluster : Z) : M (st K) unit :=
  do* fat32_clear_cluster new_cluster in
  let* now := do_nanotime in
  let* t := of_opt (fat32_unix_to_fat_time now) in
  let '(date, time, tenths) := t in
  let dot := dot_entry date time tenths new_cluster in
  do* fat32_write_fdentry new_cluster 0 dot in
  let* f := gets fsi in
  let parent_cluster := if parent_cluster =? fsi_root_cluster f then 0 else parent_cluster in
  fat32_write_fdentry new_cluster 32 (set_first_cluster parent_cluster (set83 D83.name dotdot_name dot)).

(** ** Space for entries *)

(** The scan of [fat32_alloc_fdentry]: the run of free slots, where it starts,
    and whether the end marker has been met ([scanning] is its negation). *)
Record alloc_scan : Type := mkAlloc { consecutive_free : Z; start_free_offset : Z; end_found : bool }.

(** The entries of one cluster from [entry_offset]; [inr] is the offset of a
    run of [num_entries] deleted slots. *)
Fixpoint alloc_scan_entries (n : nat) (data : list Z) (num_entries current_offset entry_offset : Z)
    (x : alloc_scan) : option (alloc_scan + Z) :=
  match n with
  | O => Some (inl x)
  | S n' =>
      match bget data entry_offset with
      | None => None
      | Some first_char =>
          let start := if consecutive_free x =? 0 then u32 (current_offset + entry_offset) else start_free_offset x in
          if first_char =? 0x00 then Some (inl (mkAlloc (consecutive_free x) start true))
          else if first_char =? 0xE5 then
            let free := u32 (consecutive_free x + 1) in
            if free =? num_entries then Some (inr start)
            else alloc_scan_entries n' data num_entries current_offset (entry_offset + 32) (mkAlloc free start false)
          else alloc_scan_entries n' data num_entries current_offset (entry_offset + 32)
                 (mkAlloc 0 (start_free_offset x) false)
      end
  end.

(** One cluster of the chain; the state is the scan, [current_cluster] and
    [current_offset].  The loop ends with the slot found, or with the last
    cluster, the size of the directory and the scan. *)
Definition alloc_scan_step (num_entries : Z) (y : alloc_scan * Z * Z)
  : M (st K) (alloc_scan * Z * Z + (Z + (Z * Z * alloc_scan))) :=
  let '(x, current_cluster, current_offset) := y in
  let* f := gets fsi in
  let* r := (if end_found x then ret (inl x) else
               let* bp := fat32_read_cluster current_cluster in
               do* check_buf bp in
               let* r := of_opt (alloc_scan_entries (Z.to_nat ((fsi_bytes_per_cluster f + 31) / 32)) (b_addr bp)
                                   num_entries current_offset 0 x) in
               do* do_brelse bp in
               ret r) in
  match r with
  | inr offset => ret (inr (inl offset))
  | inl x =>
      let current_offset := u32 (current_offset + fsi_bytes_per_cluster f) in
      let* next := try (fat32_next_cluster current_cluster 0) in
      match next with
      | inl _ => ret (inr (inr (current_cluster, current_offset, x)))
      | inr next_cluster => ret (inl (x, next_cluster, current_offset))
      end
  end.

(** [for (i = 0; i < clusters_needed; i++)] *)
Fixpoint alloc_extend (n : nat) (last_cluster : Z) : M (st K) unit :=
  match n with
  | O => ret tt
  | S n' => let* new_cluster := fat32_next_cluster last_cluster (Z.lor NC_ALLOC NC_CLEAR) in
            alloc_extend n' new_cluster
  end.

(** A directory without a cluster gets one, with its first two entries. *)
Definition alloc_first (dir_fv : nat) : M (st K) Z :=
  let* v := get_fv dir_fv in
  let* new_cluster := fat32_next_cluster 0 (Z.lor NC_ALLOC NC_CLEAR) in
  if fv_parent_cluster v =? FAT32_CLUSTER_BAD then
    do* try (fat32_free_clusters new_cluster true) in throw EINVAL
  else
  let* r := try (fat32_init_dir new_cluster (fv_parent_cluster v)) in
  match r with
  | inl error => do* try (fat32_free_clusters new_cluster true) in throw error
  | inr _ =>
      do* upd_fv dir_fv (fun v => or_flags FV_CLUSTER_DIRTY (set_fv_cluster new_cluster v)) in
      ret 64
  end.

(** A chain of [cluster_count] clusters is the longest that ends. *)
Definition fat32_alloc_fdentry (dir_fv : nat) (num_entries : Z) : M (st K) Z :=
  let* f := gets fsi in
  let* v := get_fv dir_fv in
  if fv_cluster v =? 0 then alloc_first dir_fv else
  let* r := iter (S (Z.to_nat (fsi_cluster_count f))) (alloc_scan_step num_entries)
                 (mkAlloc 0 0 false, fv_cluster v, 0) in
  match r with
  | inl offset => ret offset
  | inr (last_cluster, current_offset, x) =>
      let start := if negb (end_found x) && (consecutive_free x =? 0) then current_offset
                   else start_free_offset x in
      let needed_end := u32 (start + u32 (num_entries * 32)) in
      do* (if current_offset <? needed_end then
             let bytes_needed := u32 (needed_end - current_offset) in
             alloc_extend (Z.to_nat (Z.shiftr (u32 (bytes_needed + fsi_bytes_per_cluster f - 1)) (fsi_cluster_shift f)))
               last_cluster
           else ret tt) in
      ret start
  end.

End lfn.

(** ** Reading entries *)

(** The members of [struct dirent] the driver computes. *)
Record dirent : Type := mkDirent { d_ino : Z; d_off : Z }.

(** The variables of the scan of [fat32_get_dirent]: the position in the
    directory, the caller's name buffer, its size so far, whether a long-name
    entry has been seen and where the sequence starts. *)
Record scan : Type := mkScan {
  current_offset : Z;
  d_name : list Z;
  name_size : Z;
  has_lfn : bool;
  entry_start_offset : Z
}.

(** The 13 characters of a long-name entry, in order. *)
Definition lfn_units (e : list Z) : list Z :=
  map (fun i => RLE16 (drop (2 * i) (getlfn e Lfn.name1))) (seq 0 5) ++
  map (fun i => RLE16 (drop (2 * i) (getlfn e Lfn.name2))) (seq 0 6) ++
  map (fun i => RLE16 (drop (2 * i) (getlfn e Lfn.name3))) (seq 0 2).

(** The calls of [fat32_set_dname] for the characters from [pos]. *)
Fixpoint set_dnames (pos : Z) (units : list Z) (name : list Z) (size : Z) : option (list Z * Z) :=
  match units with
  | [] => Some (name, size)
  | s :: units' =>
      match fat32_set_dname pos s name size with
      | None => None
      | Some (name', size') => set_dnames (pos + 1) units' name' size'
      end
  end.

(** A long-name entry; [size] is [*d_name_size]. *)
Definition lfn_scan (size : Z) (e : list Z) (x : scan) : option scan :=
  let sequence := nth 0 (getlfn e Lfn.sequence) 0 in
  let seq_no := Z.land sequence FAT32_LFN_SEQ_MASK in
  let first := flag sequence FAT32_LFN_LAST in
  let start := if first then current_offset x else entry_start_offset x in
  let full_len := seq_no * 13 in
  let cut := first && (full_len <? size) in
  match (if cut then bput (d_name x) full_len [0] else Some (d_name x)) with
  | None => None
  | Some name =>
      match set_dnames (u32 (u32 (seq_no - 1) * 13)) (lfn_units e) name (if cut then full_len else name_size x) with
      | None => None
      | Some (name', size') => Some (mkScan (u32 (current_offset x + FAT32_DENTRY_SIZE)) name' size' true start)
      end
  end.

(** The characters up to the first blank. *)
Fixpoint until_blank (cs : list Z) : list Z :=
  match cs with [] => [] | c :: cs' => if c =? 32 then [] else c :: until_blank cs' end.

(** "NAME.EXT" of the 11 characters of an 8.3 entry, as far as the buffer has room. *)
Definition short_to_name (name : list Z) (size : Z) : list Z :=
  take (Z.to_nat (u32 (size - 1)))
    (until_blank (take 8 name) ++
     (if nth 8 name 0 =? 32 then [] else 46 :: until_blank (take 3 (drop 8 name)))).

Inductive scan_result : Type :=
| ScanEnd                                    (* the end marker *)
| ScanNext (x : scan)                        (* the cluster is used up *)
| ScanFound (x : scan) (e : list Z).         (* an 8.3 entry *)

(** The entry found: its start when it has no long name, its short name when
    none has been collected. *)
Definition found_entry (size : Z) (e : list Z) (x : scan) : option scan :=
  let start := if has_lfn x then entry_start_offset x else current_offset x in
  match d_name x with
  | [] => None
  | c :: _ =>
      if c =? 0 then
        let cs := short_to_name (get83 e D83.name) size in
        match bput (d_name x) 0 (cs ++ [0]) with
        | None => None
        | Some name => Some (mkScan (current_offset x) name (Z.of_nat (length cs)) (has_lfn x) start)
        end
      else Some (mkScan (current_offset x) (d_name x) (name_size x) (has_lfn x) start)
  end.

(** A volume label: the collected name is dropped. *)
Definition volume_scan (size : Z) (x : scan) : option scan :=
  match bput (d_name x) 0 [0] with
  | None => None
  | Some name => Some (mkScan (u32 (current_offset x + FAT32_DENTRY_SIZE)) name size false 0)
  end.

(** The entries of one cluster from [cluster_offset]. *)
Fixpoint scan_cluster (n : nat) (bytes_per_cluster size : Z) (data : list Z) (cluster_offset : Z) (x : scan)
  : option scan_result :=
  if negb (cluster_offset <? bytes_per_cluster) then Some (ScanNext x) else
  match n with
  | O => None
  | S n' =>
      let go x := scan_cluster n' bytes_per_cluster size data (cluster_offset + FAT32_DENTRY_SIZE) x in
      match bsub data cluster_offset 32 with
      | None => None
      | Some e =>
          let first := nth 0 (get83 e D83.name) 0 in
          let attr := nth 0 (get83 e D83.attr) 0 in
          if first =? 0x00 then Some ScanEnd
          else if first =? 0xE5 then
            go (mkScan (u32 (current_offset x + FAT32_DENTRY_SIZE)) (d_name x) (name_size x) (has_lfn x)
                  (entry_start_offset x))
          else if attr =? FAT32_ATTR_LONG_NAME then
            match lfn_scan size e x with Some x' => go x' | None => None end
          else if flag attr FAT32_ATTR_VOLUME_ID then
            match volume_scan size x with Some x' => go x' | None => None end
          else match found_entry size e x with Some x' => Some (ScanFound x' e) | None => None end
      end
  end.

Definition first_cluster (e : list Z) : Z :=
  u32 (Z.lor (RLE16 (get83 e D83.first_cluster_lo)) (Z.shiftl (RLE16 (get83 e D83.first_cluster_hi)) 16)).

(** [(current_offset - entry_start_offset) / FAT32_DENTRY_SIZE + 1] *)
Definition num_slots (x : scan) : Z :=
  u32 (u32 (current_offset x - entry_start_offset x) / FAT32_DENTRY_SIZE + 1).

Section get_dirent.
Context {K : Type} `{!Kernel K}.
Context (tb : Z).

(** The vnode fields of an entry. *)
Definition populate (dir_cluster : Z) (x : scan) (e : list Z) (v : fat32fs_vnode) : fat32fs_vnode :=
  let attr := nth 0 (get83 e D83.attr) 0 in
  let le16 fl := RLE16 (get83 e fl) in
  let dir := flag attr FAT32_ATTR_DIRECTORY in
  let v := set_fv_cluster (first_cluster e) v in
  let v := set_fv_attr attr v in
  let v := set_fv_diroff (entry_start_offset x) v in
  let v := set_fv_dirsz (num_slots x) v in
  let v := set_fv_parent_cluster dir_cluster v in
  let v := set_fv_size (RLE32 (get83 e D83.file_size)) v in
  let v := set_fv_type (if dir then VDIR else VREG) v in
  let v := set_fv_mode (if dir then Z.lor S_IFDIR 0x1ED
                        else if flag attr FAT32_ATTR_READ_ONLY then Z.lor S_IFREG 0x124
                        else Z.lor S_IFREG 0x1A4) v in
  let v := set_fv_atime (fat32_fat_to_unix_time tb (le16 D83.last_access_date) 0 0) v in
  let v := set_fv_mtime (fat32_fat_to_unix_time tb (le16 D83.write_date) (le16 D83.write_time) 0) v in
  set_fv_ctime (fat32_fat_to_unix_time tb (le16 D83.create_date) (le16 D83.create_time)
                  (nth 0 (get83 e D83.create_time_tenth) 0)) v.

(** The loop over the clusters: the state is the scan, the offset in the
    cluster and [current_cluster]. *)
Definition get_dirent_step (size : Z) (y : scan * Z * Z) : M (st K) (scan * Z * Z + scan * list Z) :=
  let '(x, cluster_offset, current_cluster) := y in
  let* f := gets fsi in
  let* bp := fat32_read_cluster current_cluster in
  do* check_buf bp in
  let* r := of_opt (scan_cluster (Z.to_nat (fsi_bytes_per_cluster f)) (fsi_bytes_per_cluster f) size
                      (b_addr bp) cluster_offset x) in
  do* do_brelse bp in
  match r with
  | ScanEnd => throw ENOENT
  | ScanFound x' e => ret (inr (x', e))
  | ScanNext x' =>
      let* next := try (fat32_next_cluster current_cluster 0) in
      match next with
      | inl _ => throw ENOENT
      | inr next_cluster => ret (inl (x', 0, next_cluster))
      end
  end.

(** [name] is the caller's buffer and [size] the value of [*d_name_size].  The
    result is the new [*offset], the dirent, the buffer and the new size.  A
    chain of [cluster_count] clusters is the longest that ends. *)
Definition fat32_get_dirent (fv : nat) (offset : Z) (name : list Z) (size : Z) (entry_fv : option nat)
  : M (st K) (Z * dirent * list Z * Z) :=
  let* f := gets fsi in
  let* v := get_fv fv in
  if negb (bool_decide (fv_type v = VDIR)) then throw ENOTDIR else
  let skip_clusters := Z.shiftr offset (fsi_cluster_shift f) in
  let cluster_offset := Z.land offset (fsi_cluster_mask f) in
  let* sought := try (fat32_vnode_seek_cluster fv skip_clusters 0) in
  match sought with
  | inl _ => throw ENOENT
  | inr cluster =>
      let* r := iter (S (Z.to_nat (fsi_cluster_count f))) (get_dirent_step size)
                     (mkScan offset name size false 0, cluster_offset, cluster) in
      let '(x, e) := r in
      let* v := get_fv fv in
      do* (match entry_fv with
           | Some p => upd_fv p (populate (fv_cluster v) x e)
           | None => ret tt
           end) in
      let next := u32 (current_offset x + FAT32_DENTRY_SIZE) in
      ret (next, mkDirent (fat32_pack_ino (fv_cluster v) (entry_start_offset x) (num_slots x)) next,
           d_name x, name_size x)
  end.

(** [fat32_vnode_reset]: all members but the magic, the size, the locks, the
    mount and the cluster cache. *)
Definition vnode_reset (f : fat32fs_info) (v : fat32fs_vnode) : fat32fs_vnode :=
  mkFv (fv_magic v) (fv_structsize v) None FAT32_CLUSTER_BAD VNON 0 (fsi_uid f) (fsi_gid f) 0
    (mkTimespec 0 0) (mkTimespec 0 0) (mkTimespec 0 0) 0 0 0 FAT32_CLUSTER_BAD None (fv_cls_cache v) 0.

Definition fat32_vnode_reset (fv : nat) : M (st K) unit :=
  let* f := gets fsi in upd_fv fv (vnode_reset f).

(** The comparison of [fat32_find_dirent]. *)
Definition names_match (name d_name : list Z) : bool :=
  forallb (fun i => negb (fat32_chrcmp (nth i name 0) (nth i d_name 0))) (seq 0 (length name)).

Definition MAXNAMELEN : Z := 256.

(** [buf] is what the array [d_name] on the stack holds before. *)
Definition find_dirent_step (dir_fv : nat) (name : list Z) (entry_fv : option nat) (y : Z * list Z)
  : M (st K) (Z * list Z + unit) :=
  let '(offset, buf) := y in
  let size := FAT32_MAX_NAME + 1 in
  let* buf := of_opt (bput buf 0 [0]) in
  do* (match entry_fv with Some p => fat32_vnode_reset p | None => ret tt end) in
  let* r := fat32_get_dirent dir_fv offset buf size entry_fv in
  let '(offset', _, d_name, d_name_size) := r in
  let nm_len := Z.of_nat (length name) in
  if (d_name_size =? nm_len) && names_match name d_name then ret (inr tt)
  else ret (inl (offset', d_name)).

(** The name is cut at [MAXNAMELEN - 1] characters.  [offset] grows by at least
    one entry per round. *)
Definition fat32_find_dirent (dir_fv : nat) (name : list Z) (stack : list Z) (entry_fv : option nat)
  : M (st K) unit :=
  let* f := gets fsi in
  let* v := get_fv dir_fv in
  if negb (bool_decide (fv_type v = VDIR)) then throw ENOTDIR else
  let name := take (Z.to_nat (MAXNAMELEN - 1)) name in
  iter (S (Z.to_nat (fsi_cluster_count f * fsi_bytes_per_cluster f)))
    (find_dirent_step dir_fv name entry_fv) (0, stack).

End get_dirent.
