(* ===== verification/DirSpec.v ===== *)
(** * Correctness of the directory entry operations

    The entries of a directory are the 32-byte slices of the bytes of its
    clusters.  Reading and writing an entry are operations on these bytes;
    writing back metadata changes exactly the members that are dirty; a long
    name survives its encoding in entries. *)
From S2P Require Import Prelude Layout Time Names Kernel Device Cls Fat Demo Alloc Chain Free Cache File Truncate Access Io IoSpec WriteSpec Dir.

Section entries.
Context {K : Type} `{!Kernel K, !KernelLaws K}.
Implicit Types s : st K.

(** A directory: a chain with the bytes of its clusters. *)
Definition dir_at s (c : Z) (l bs : list Z) : Prop := file_chain s c l /\ contents s l bs.

Lemma slice_length {A} (l : list A) i n : (i + n <= length l)%nat -> length (slice l i n) = n.
Proof. intros. unfold slice. rewrite length_take, length_drop. lia. Qed.

(** An aligned entry lies in one cluster. *)
Lemma entry_in_cluster f off :
  fs_wf f -> 0 <= off -> off mod 32 = 0 ->
  let skip := Z.shiftr off (fsi_cluster_shift f) in
  let o := Z.land off (fsi_cluster_mask f) in
  off = skip * fsi_bytes_per_cluster f + o /\ 0 <= skip /\ 0 <= o /\ o + 32 <= fsi_bytes_per_cluster f.
Proof.
  intros Hwf Hoff Hal. pose proof (bytes_per_cluster_pow f Hwf) as [Hpow Hsh].
  pose proof (wf_cluster_mask f Hwf) as Hm. pose proof (bpc_eq _ Hwf) as [_ Hb]. cbn zeta.
  rewrite Hm, Hpow, land_ones_mod, shiftr_div, <- Hpow by lia.
  pose proof (Z.div_mod off (fsi_bytes_per_cluster f)). pose proof (Z.mod_pos_bound off (fsi_bytes_per_cluster f)).
  assert (0 <= off / fsi_bytes_per_cluster f) by (apply Z.div_pos; lia).
  assert (fsi_bytes_per_cluster f = 32 * (16 * fsi_sectors_per_cluster f)) as Hdiv.
  { rewrite (wf_bytes_per_cluster f Hwf). lia. }
  assert ((off mod fsi_bytes_per_cluster f) mod 32 = 0) as Hal'.
  { rewrite Z.mod_mod_divide; [done|]. exists (16 * fsi_sectors_per_cluster f). lia. }
  split_and!; [lia|lia|lia|]. Z.div_mod_to_equations. nia.
Qed.

(** The common part of reading and writing: the buffer of the cluster that
    holds the entry, or ENOSPC behind the end of the directory. *)
Lemma wp_entry_buffer s c l bs off {A} (k : buf -> M (st K) A) Q :
  ready s -> dir_at s c l bs -> 0 <= off -> off mod 32 = 0 ->
  (Z.of_nat (length bs) <= off -> forall s', s ≡ s' -> Q (Err ENOSPC) s') ->
  (forall x d bp s1, off + 32 <= Z.of_nat (length bs) ->
     l !! Z.to_nat (Z.shiftr off (fsi_cluster_shift (fsi s))) = Some x -> cluster_bytes s1 x = Some d ->
     length d = bpc (fsi s) ->
     slice d (Z.to_nat (Z.land off (fsi_cluster_mask (fsi s)))) 32 = slice bs (Z.to_nat off) 32 ->
     b_blkno bp = fat32_cluster_to_sector (fsi s) x -> b_bcount bp = fsi_sectors_per_cluster (fsi s) ->
     b_addr bp = d -> s ≡ s1 -> clean s1 bp -> wp (k bp) s1 Q) ->
  wp (let* target_cluster := fat32_seek_cluster c (Z.shiftr off (fsi_cluster_shift (fsi s))) 0 in
      let* bp := fat32_read_cluster target_cluster in do* check_buf bp in k bp) s Q.
Proof.
  intros Hr [Hch Hc] Hoff Hal Hend Hk. pose proof (ready_wf _ Hr) as Hwf.
  destruct (entry_in_cluster (fsi s) off Hwf Hoff Hal) as (Eoff & Hsk & Ho & Ho32).
  set (skip := Z.shiftr off _) in *. set (o := Z.land off _) in *.
  destruct (bpc_eq _ Hwf) as [Hb Hb0]. pose proof (contents_length _ _ _ Hwf Hc) as Hlen.
  eapply wp_call; [by apply (wp_seek_cluster s c l skip 0)|]. intros r s1 [Hs1 ->].
  destruct (l !! Z.to_nat skip) as [x|] eqn:Hx; cbn [wpk].
  2:{ apply Hend; [|done]. apply lookup_ge_None in Hx. nia. }
  apply lookup_lt_Some in Hx as Hlt.
  destruct (contents_slice s l bs _ _ Hwf Hc Hx) as (d & Hd & Hdl & Hsl).
  eapply wp_call_ok; [apply (wp_read_cluster s1 x d); by rewrite <- Hs1|].
  intros bp s2 (Eb & En & Ee & Ea & Hs2 & Hcl). pose proof Hs1 as (Ef1 & _).
  eapply wp_call_ok; [by apply wp_check_buf_ok|]. intros [] ? ->.
  apply (Hk x d); try done; [nia|by rewrite <- Hs2, <- Hs1| |congruence|congruence|by rewrite Hs1].
  rewrite <- (Hsl (Z.to_nat o) 32%nat) by lia. f_equal. nia.
Qed.

Lemma wp_read_fdentry s c l bs off :
  ready s -> dir_at s c l bs -> 0 <= off -> off mod 32 = 0 ->
  wp (fat32_read_fdentry c off) s (fun r s' => s ≡ s' /\
    r = if decide (off < Z.of_nat (length bs)) then Ok (slice bs (Z.to_nat off) 32) else Err ENOSPC).
Proof.
  intros Hr Hd Hoff Hal. unfold fat32_read_fdentry. repeat wp_step.
  destruct (entry_in_cluster (fsi s) off (ready_wf _ Hr) Hoff Hal) as (_ & _ & Ho & Ho32).
  destruct (bpc_eq _ (ready_wf _ Hr)) as [Hb _].
  eapply wp_entry_buffer; [done..| |].
  - intros Hlt s' Hs'. split; [done|]. by rewrite decide_False by lia.
  - intros x d bp s1 Hle Hx Hdx Hdl Hsl _ _ -> Hs1 Hcl. rewrite bsub_Some by lia. cbn [of_opt]. repeat wp_step.
    eapply wp_call_ok; [by apply wp_do_brelse|]. intros [] s2 Hs2. apply wp_ret.
    split; [by rewrite Hs1|]. rewrite decide_True by lia. f_equal. exact Hsl.
Qed.

(** What writing the bytes [data] at [off] of a directory does. *)
Definition entry_written s (c : Z) (l bs : list Z) (off : Z) (data : list Z) s' : Prop :=
  ready s' /\ fsi s' = fsi s /\ fvs s' = fvs s /\ held s' = held s /\
  dir_at s' c l (splice bs (Z.to_nat off) data) /\ keeps s l s' l /\ data_keeps s l s'.

Lemma wp_write_entry s s1 c l bs off x d bp data :
  ready s -> dir_at s c l bs -> 0 <= off -> off mod 32 = 0 -> length data = 32%nat -> Forall is_byte data ->
  l !! Z.to_nat (Z.shiftr off (fsi_cluster_shift (fsi s))) = Some x -> cluster_bytes s1 x = Some d ->
  length d = bpc (fsi s) -> b_blkno bp = fat32_cluster_to_sector (fsi s) x ->
  b_bcount bp = fsi_sectors_per_cluster (fsi s) -> s ≡ s1 ->
  wp (do_bdwrite (set_b_addr (splice d (Z.to_nat (Z.land off (fsi_cluster_mask (fsi s)))) data) bp)) s1
    (okp (fun _ s' => entry_written s c l bs off data s')).
Proof.
  intros Hr [Hch Hc] Hoff Hal Hdata Hby Hx Hdx Hdl Hbb Hbn Hs1. pose proof (ready_wf _ Hr) as Hwf.
  destruct (entry_in_cluster (fsi s) off Hwf Hoff Hal) as (Eoff & Hsk & Ho & Ho32).
  destruct (bpc_eq _ Hwf) as [Hb _]. pose proof Hs1 as (Ef1 & Ev1 & Eh1 & _).
  pose proof (chain_range _ _ _ _ Hch) as Hrg.
  assert (in_range (fsi s1) x) as Hxr by (rewrite Ef1; rewrite Forall_lookup in Hrg; eauto).
  assert (ready s1) as Hr1 by (by rewrite <- Hs1).
  eapply wp_mono.
  { apply (wp_write_cluster s1 bp x d); rewrite ?Ef1; try done.
    - by rewrite Ef1 in Hxr.
    - apply length_splice. lia.
    - apply splice_bytes; [by eapply view_bytes|done]. }
  intros [[]| | | |] s2; try done. cbn [okp]. intros Hput. pose proof Hput as (Ef2 & Ev2 & Eh2 & _).
  split; [by eapply put_ready|]. do 3 (split; [congruence|]). split; [split|split].
  - eapply (put_chain s1); [done..|]. by rewrite <- Hs1.
  - replace (Z.to_nat off) with (Z.to_nat (Z.shiftr off (fsi_cluster_shift (fsi s))) * bpc (fsi s1) +
      Z.to_nat (Z.land off (fsi_cluster_mask (fsi s))))%nat by (rewrite Ef1; nia).
    eapply (put_contents s1); try done; rewrite ?Ef1; [by rewrite <- Hs1|by eapply chain_NoDup|done|lia].
  - eapply keeps_from_equiv; [done|]. by eapply put_keeps.
  - eapply data_keeps_from_equiv; [done|]. eapply data_keeps_weaken; [|by eapply put_data].
    intros y ->%list_elem_of_singleton. by eapply list_elem_of_lookup_2.
Qed.

Lemma wp_write_fdentry s c l bs off data :
  ready s -> dir_at s c l bs -> 0 <= off -> off mod 32 = 0 -> length data = 32%nat -> Forall is_byte data ->
  wp (fat32_write_fdentry c off data) s (fun r s' =>
    if decide (off < Z.of_nat (length bs)) then r = Ok tt /\ entry_written s c l bs off data s'
    else r = Err ENOSPC /\ s ≡ s').
Proof.
  intros Hr Hd Hoff Hal Hdata Hby. unfold fat32_write_fdentry. repeat wp_step.
  destruct (entry_in_cluster (fsi s) off (ready_wf _ Hr) Hoff Hal) as (_ & _ & Ho & Ho32).
  destruct (bpc_eq _ (ready_wf _ Hr)) as [Hb _].
  eapply wp_entry_buffer; [done..| |].
  - intros Hlt s' Hs'. by rewrite decide_False by lia.
  - intros x d bp s1 Hle Hx Hdx Hdl Hsl Hbb Hbn -> Hs1 Hcl. rewrite splice_bput by lia. cbn [of_opt]. repeat wp_step.
    eapply wp_mono; [by eapply wp_write_entry|]. intros [[]| | | |] s2; try done. cbn [okp].
    intros H. by rewrite decide_True by lia.
Qed.


(** writing the 32 bytes of an aligned entry replaces exactly this slice
    of the directory's bytes; the chain, every other chain, every cluster of
    other files, the mount structure and the vnodes stay as they are.  Behind
    the end of the directory the write fails with ENOSPC and changes nothing. *)
Theorem write_fdentry_correct s c l bs off data :
  ready s -> dir_at s c l bs -> 0 <= off -> off mod 32 = 0 -> length data = 32%nat -> Forall is_byte data ->
  wp (fat32_write_fdentry c off data) s (fun r s' =>
    if decide (off < Z.of_nat (length bs)) then r = Ok tt /\ entry_written s c l bs off data s'
    else r = Err ENOSPC /\ s ≡ s').
Proof. apply wp_write_fdentry. Qed.

Lemma slice_splice_other {A} (l : list A) i new j n :
  (i + length new <= length l)%nat -> (j + n <= i \/ i + length new <= j)%nat ->
  slice (splice l i new) j n = slice l j n.
Proof.
  intros Hl Hj. unfold slice, splice. apply list_eq. intros k.
  destruct (decide (k < n)%nat); [|by rewrite !lookup_take_ge by lia].
  rewrite !lookup_take_lt, !lookup_drop by lia. destruct Hj.
  - rewrite lookup_app_l by (rewrite length_take; lia). by rewrite lookup_take_lt by lia.
  - rewrite lookup_app_r by (rewrite length_take; lia). rewrite length_take.
    rewrite lookup_app_r by lia. rewrite lookup_drop. f_equal. lia.
Qed.

Lemma entries_fit (off len : Z) (n : nat) :
  0 <= off < len -> off mod 32 = 0 -> len = Z.of_nat n -> len mod 32 = 0 -> (Z.to_nat off + 32 <= n)%nat.
Proof. intros ? ? -> ?. Z.div_mod_to_equations. lia. Qed.

Lemma dir_length_aligned s c l bs : ready s -> dir_at s c l bs -> Z.of_nat (length bs) mod 32 = 0.
Proof.
  intros Hr [_ Hc]. pose proof (ready_wf _ Hr) as Hwf. rewrite (contents_length _ _ _ Hwf Hc).
  destruct (bpc_eq _ Hwf) as [Hb _]. pose proof (wf_bytes_per_cluster _ Hwf).
  replace (Z.of_nat (length l * bpc (fsi s))) with ((Z.of_nat (length l) * (16 * fsi_sectors_per_cluster (fsi s))) * 32) by nia.
  by apply Z.mod_mul.
Qed.

(** an entry that has been written is read back unchanged, and every
    other entry of the directory reads as before. *)
Theorem fdentry_roundtrip s c l bs off off' data :
  ready s -> dir_at s c l bs -> 0 <= off < Z.of_nat (length bs) -> off mod 32 = 0 ->
  0 <= off' < Z.of_nat (length bs) -> off' mod 32 = 0 -> length data = 32%nat -> Forall is_byte data ->
  wp (do* fat32_write_fdentry c off data in fat32_read_fdentry c off') s (fun r _ =>
    r = Ok (if decide (off' = off) then data else slice bs (Z.to_nat off') 32)).
Proof.
  intros Hr Hd Hoff Hal Hoff' Hal' Hdata Hby.
  pose proof (dir_length_aligned _ _ _ _ Hr Hd) as Hlen.
  pose proof (entries_fit _ _ _ Hoff Hal eq_refl Hlen) as Hfit.
  eapply wp_call; [apply (wp_write_fdentry s c l bs off data); try done; lia|].
  intros r s1 H1. cbn beta in H1. rewrite decide_True in H1 by lia. destruct H1 as [-> (Hr1 & _ & _ & _ & Hd1 & _)]. cbn [wpk].
  eapply wp_mono; [apply (wp_read_fdentry s1 c l _ off' Hr1 Hd1); lia|]. intros r s2 [_ ->].
  rewrite length_splice by lia. rewrite (decide_True (Ok _)) by lia. f_equal. case_decide as E.
  - rewrite E, <- Hdata. by apply slice_splice; lia.
  - apply slice_splice_other; [lia|].
    assert (off' + 32 <= off \/ off + 32 <= off') by (clear - Hal Hal' E; Z.div_mod_to_equations; lia). lia.
Qed.

End entries.

(** ** Writing back metadata *)

(** The FAT date, time and tenths of a time. *)
Definition fat_stamp (ts : timespec) : Z * Z * Z := default (0, 0, 0) (fat32_unix_to_fat_time ts).

Definition when {A} (b : bool) (l : list A) : list A := if b then l else [].

(** The members that the dirty flags of a vnode name, with their new values. *)
Definition dirty_members (v : fat32fs_vnode) : list (D83.field * list Z) :=
  let dirty fl := flag (fv_flags v) fl in
  when (dirty FV_CLUSTER_DIRTY) [(D83.first_cluster_lo, WLE16 (Z.land (fv_cluster v) 0xFFFF));
                              (D83.first_cluster_hi, WLE16 (u16 (Z.shiftr (fv_cluster v) 16)))] ++
  when (dirty FV_SIZE_DIRTY) [(D83.file_size, WLE32 (fv_size v))] ++
  when (dirty FV_ATTR_DIRTY) [(D83.attr, [u8 (fv_attr v)])] ++
  when (dirty FV_CTIME_DIRTY) [(D83.create_time_tenth, [(fat_stamp (fv_ctime v)).2]);
                            (D83.create_time, WLE16 (fat_stamp (fv_ctime v)).1.2);
                            (D83.create_date, WLE16 (fat_stamp (fv_ctime v)).1.1)] ++
  when (dirty FV_MTIME_DIRTY) [(D83.write_time, WLE16 (fat_stamp (fv_mtime v)).1.2);
                            (D83.write_date, WLE16 (fat_stamp (fv_mtime v)).1.1)] ++
  when (dirty FV_ATIME_DIRTY) [(D83.last_access_date, WLE16 (fat_stamp (fv_atime v)).1.1)].

Lemma update_dentry_assign v e : update_dentry v e = Some (assign D83.fat32_dirent83 (dirty_members v) e).
Proof.
  unfold update_dentry, dirty_members, fat_stamp.
  destruct (unix_to_fat_some (fv_atime v)) as [[[? ?] ?] ->].
  destruct (unix_to_fat_some (fv_mtime v)) as [[[? ?] ?] ->].
  destruct (unix_to_fat_some (fv_ctime v)) as [[[? ?] ?] ->]. cbn zeta. unfold when.
  destruct (flag (fv_flags v) FV_CLUSTER_DIRTY), (flag (fv_flags v) FV_SIZE_DIRTY),
    (flag (fv_flags v) FV_ATTR_DIRTY), (flag (fv_flags v) FV_CTIME_DIRTY),
    (flag (fv_flags v) FV_MTIME_DIRTY), (flag (fv_flags v) FV_ATIME_DIRTY); reflexivity.
Qed.

Lemma Forall_when {A} (P : A -> Prop) b l : Forall P l -> Forall P (when b l).
Proof. by destruct b. Qed.

Lemma dirty_members_ok v : sized D83.fat32_dirent83 (dirty_members v) /\ Forall (fun a => Forall is_byte a.2) (dirty_members v).
Proof.
  assert (is_byte (fat_stamp (fv_ctime v)).2) as Hc.
  { unfold fat_stamp. destruct (unix_to_fat_some (fv_ctime v)) as [[[d t] c] E]. rewrite E.
    by eapply unix_to_fat_tenths. }
  split; unfold sized, dirty_members; rewrite !Forall_app; split_and!; apply Forall_when;
    rewrite ?Forall_cons; split_and!; try done; try (apply WLE16_bytes || apply WLE32_bytes).
  - apply Forall_singleton, u8_range.
  - by apply Forall_singleton.
Qed.

Lemma length_assign v e : length e = 32%nat -> length (assign D83.fat32_dirent83 (dirty_members v) e) = 32%nat.
Proof. intros He. by apply (assign_spec D83.fat32_dirent83 _ _ D83.name He), dirty_members_ok. Qed.

Section update.
Context {K : Type} `{!Kernel K, !KernelLaws K}.
Implicit Types s : st K.

(** Where the 8.3 entry of a file is: the first cluster of its directory, and
    the offset of the last slot of the entry in it. *)
Definition entry_dir s (v : fat32fs_vnode) : Z :=
  if fv_parent_cluster v =? 0 then fsi_root_cluster (fsi s) else fv_parent_cluster v.
Definition entry_off (v : fat32fs_vnode) : Z := fv_diroff v + (fv_dirsz v - 1) * 32.

Record entry_ok s (v : fat32fs_vnode) (l bs : list Z) : Prop := {
  eo_parent : fv_parent_cluster v <> FAT32_CLUSTER_BAD;
  eo_dir : dir_at s (entry_dir s v) l bs;
  eo_slots : 0 <= fv_diroff v /\ fv_diroff v mod 32 = 0 /\ 1 <= fv_dirsz v;
  eo_off : entry_off v < Z.of_nat (length bs) /\ entry_off v < 2 ^ 32
}.

Lemma entry_off_eq v :
  0 <= fv_diroff v -> 1 <= fv_dirsz v -> entry_off v < 2 ^ 32 -> fv_diroff v mod 32 = 0 ->
  u32 (fv_diroff v + u32 (u32 (fv_dirsz v - 1) * FAT32_DENTRY_SIZE)) = entry_off v /\
  0 <= entry_off v /\ entry_off v mod 32 = 0.
Proof.
  unfold entry_off, FAT32_DENTRY_SIZE. intros H1 H2 H3 H4. rewrite (u32_small (fv_dirsz v - 1)) by lia.
  rewrite (u32_small (_ * 32)), u32_small by lia. split_and!; [done|lia|].
  rewrite Z.mod_add by lia. done.
Qed.

Lemma set_fvs_equiv s s1 x : s ≡ s1 -> set_fvs x s ≡ set_fvs x s1.
Proof. intros (? & ? & ? & ?). by split_and!. Qed.

(** What [fat32_update_fdentry] leaves behind. *)
Definition metadata_written s (p : nat) (v : fat32fs_vnode) (l bs : list Z) s' : Prop :=
  exists e, length e = 32%nat /\ Forall is_byte e /\
    (forall fl, get83 e fl =
       default (get83 (slice bs (Z.to_nat (entry_off v)) 32) fl) (assigned (dirty_members v) fl)) /\
    entry_written (set_fvs (<[p := clear_flags FV_DIRTY_MASK v]> (fvs s)) s) (entry_dir s v) l bs (entry_off v) e s'.

Lemma wp_update_fdentry s p v l bs :
  ready s -> fvs s !! p = Some v -> flag (fv_flags v) FV_DIRTY_MASK = true ->
  flag (fv_flags v) FV_ROOT = false -> entry_ok s v l bs ->
  wp (fat32_update_fdentry p) s (okp (fun _ s' => metadata_written s p v l bs s')).
Proof.
  intros Hr Hv Hd Hroot [Hp Hdir (H1 & H2 & H3) [H4 H5]].
  destruct (entry_off_eq v) as (Eoff & Hoff & Hal); [done..|].
  unfold fat32_update_fdentry. repeat wp_step. eapply wp_call_ok; [by apply wp_get_fv|]. intros ? ? [-> ->].
  rewrite Hd, Hroot, (proj2 (Z.eqb_neq _ _)) by done. cbn [negb]. rewrite Eoff. fold (entry_dir s v).
  destruct (entry_in_cluster (fsi s) _ (ready_wf _ Hr) Hoff Hal) as (_ & _ & Ho & Ho32).
  destruct (bpc_eq _ (ready_wf _ Hr)) as [Hb _].
  eapply wp_entry_buffer; [done..|lia|].
  intros x d bp s1 Hle Hx Hdx Hdl Hsl Hbb Hbn -> Hs1 Hcl.
  rewrite bsub_Some by lia. cbn [of_opt]. repeat wp_step.
  change (take (Z.to_nat 32) (drop ?o d)) with (slice d o 32). rewrite Hsl, update_dentry_assign.
  set (e := slice bs _ 32). cbn [of_opt]. repeat wp_step.
  assert (length e = 32%nat) as He by (apply slice_length; lia).
  assert (Forall is_byte e) as Heb.
  { unfold e. rewrite <- Hsl. apply Forall_take, Forall_drop. by eapply view_bytes. }
  pose proof (length_assign v e He) as Hle'.
  assert (Forall is_byte (assign D83.fat32_dirent83 (dirty_members v) e)) as Hby by (by apply assign_bytes, dirty_members_ok).
  rewrite splice_bput by lia. cbn [of_opt]. repeat wp_step.
  pose proof Hs1 as (_ & Ev1 & _).
  eapply wp_call_ok; [apply (wp_upd_fv _ _ v); by rewrite Ev1|]. intros [] ? ->. rewrite Ev1.
  eapply wp_mono.
  { apply (wp_write_entry (set_fvs (<[p := clear_flags FV_DIRTY_MASK v]> (fvs s)) s) _ (entry_dir s v) l bs
      (entry_off v) x d bp); try done; [by apply ready_set_fvs|by apply set_fvs_equiv]. }
  intros [[]| | | |] s2; try done. cbn [okp]. intros Hw. exists (assign D83.fat32_dirent83 (dirty_members v) e).
  split_and!; try done. intros fl. apply (assign_spec D83.fat32_dirent83); [done|apply dirty_members_ok].
Qed.

(** for a dirty vnode other than the root, [fat32_update_fdentry] writes
    the last slot of the file's entry: exactly the members its dirty flags name
    get the vnode's values (times in FAT format), all other members of the
    entry, all other entries and all other clusters stay as they are, and the
    dirty flags are cleared. *)
Theorem update_fdentry_correct s p v l bs :
  ready s -> fvs s !! p = Some v -> flag (fv_flags v) FV_DIRTY_MASK = true ->
  flag (fv_flags v) FV_ROOT = false -> entry_ok s v l bs ->
  wp (fat32_update_fdentry p) s (okp (fun _ s' => metadata_written s p v l bs s')).
Proof. apply wp_update_fdentry. Qed.

End update.
