(* ===== verification/LfnSpec.v ===== *)
(** * Long names

    A name stored by [fat32_write_lfn_fdentry] is the name the scan of
    [fat32_get_dirent] collects from the same slots. *)
From S2P Require Import Prelude Layout Time Names Kernel Device Cls Fat Demo Alloc Chain Free Cache File Truncate Access Io IoSpec WriteSpec Dir DirSpec.

(** ** The characters of an entry *)

(** Character [j] of the padded chunk. *)
Definition lfn_unit (chunk : list Z) (j : nat) : Z :=
  if decide (j < length chunk)%nat then nth j chunk 0
  else if decide (j = length chunk) then 0 else FAT32_LFN_FILL.

Definition name_char (c : Z) : Prop := 1 <= c < 128.

Lemma lfn_char_unit chunk j rest : RLE16 (lfn_char chunk j ++ rest) = lfn_unit chunk j.
Proof.
  unfold lfn_char, lfn_unit. repeat case_decide; cbn; try done.
  unfold RLE16. cbn [nth app]. by rewrite Z.shiftl_0_l, Z.lor_0_r.
Qed.

Lemma lfn_char_length chunk j : length (lfn_char chunk j) = 2%nat.
Proof. unfold lfn_char. by repeat case_decide. Qed.

Lemma lfn_chars_length chunk from n : length (lfn_chars chunk from n) = (2 * n)%nat.
Proof.
  unfold lfn_chars. revert from. induction n as [|n IH]; intros from; [done|]. cbn [seq map concat].
  rewrite length_app, lfn_char_length, IH. lia.
Qed.

Lemma lfn_chars_units chunk from n :
  map (fun i => RLE16 (drop (2 * i) (lfn_chars chunk from n))) (seq 0 n) = map (lfn_unit chunk) (seq from n).
Proof.
  revert from. induction n as [|n IH]; intros from; [done|]. cbn [seq map]. f_equal.
  - cbn [Nat.mul Nat.add drop]. unfold lfn_chars. cbn [seq map concat]. apply lfn_char_unit.
  - rewrite <- IH, <- seq_shift, map_map. apply map_ext. intros i. f_equal.
    unfold lfn_chars. cbn [seq map concat]. rewrite drop_app_ge by (rewrite lfn_char_length; lia).
    rewrite lfn_char_length. f_equal. lia.
Qed.

(** ** The encoder's entry read back *)

(** The chunk of entry [i] and its sequence byte. *)
Definition lfn_chunk (name : list Z) (i : nat) : list Z := take 13 (drop ((i - 1) * 13) name).
Definition lfn_seq (num i : nat) : Z :=
  u8 (if decide (i = num) then Z.lor (Z.of_nat i) FAT32_LFN_LAST else Z.of_nat i).

(** Its members, the last one assigned first. *)
Definition lfn_members (name : list Z) (checksum : Z) (num i : nat) : list (Lfn.field * list Z) :=
  let chunk := lfn_chunk name i in
  [(Lfn.name3, lfn_chars chunk 11 2); (Lfn.name2, lfn_chars chunk 5 6); (Lfn.name1, lfn_chars chunk 0 5);
   (Lfn.sequence, [lfn_seq num i]); (Lfn.checksum, [checksum]); (Lfn.attr, [FAT32_ATTR_LONG_NAME])].

Lemma lfn_entry_get name checksum num i fl :
  length (lfn_entry name checksum num i) = 32%nat /\
  getlfn (lfn_entry name checksum num i) fl = default (getlfn (replicate 32 0) fl) (assigned (lfn_members name checksum num i) fl).
Proof.
  change (lfn_entry name checksum num i) with (assign Lfn.fat32_dirent_lfn (lfn_members name checksum num i) (replicate 32 0)).
  apply assign_spec; [done|]. unfold sized, lfn_members.
  repeat (apply Forall_cons_2; [cbn [fst snd]; rewrite ?lfn_chars_length; reflexivity|]). apply Forall_nil_2.
Qed.

Lemma lfn_entry_fields name checksum num i :
  let e := lfn_entry name checksum num i in
  length e = 32%nat /\ getlfn e Lfn.sequence = [lfn_seq num i] /\ getlfn e Lfn.attr = [FAT32_ATTR_LONG_NAME] /\
  lfn_units e = map (lfn_unit (lfn_chunk name i)) (seq 0 13).
Proof.
  cbn zeta. pose proof (lfn_entry_get name checksum num i) as H.
  split_and!; [apply (H Lfn.attr)|by rewrite (proj2 (H Lfn.sequence))|by rewrite (proj2 (H Lfn.attr))|]. unfold lfn_units.
  rewrite (proj2 (H Lfn.name1)), (proj2 (H Lfn.name2)), (proj2 (H Lfn.name3)).
  change (assigned (lfn_members name checksum num i) Lfn.name1) with (Some (lfn_chars (lfn_chunk name i) 0 5)).
  change (assigned (lfn_members name checksum num i) Lfn.name2) with (Some (lfn_chars (lfn_chunk name i) 5 6)).
  change (assigned (lfn_members name checksum num i) Lfn.name3) with (Some (lfn_chars (lfn_chunk name i) 11 2)).
  cbn [default from_option id].
  rewrite !lfn_chars_units, <- !map_app. done.
Qed.

(** ** Collecting the characters *)

Lemma lookup_splice {A} (l : list A) i new j :
  (i + length new <= length l)%nat ->
  splice l i new !! j = if decide (i <= j < i + length new)%nat then new !! (j - i)%nat else l !! j.
Proof.
  intros Hl. unfold splice. case_decide as Hj.
  - rewrite lookup_app_r by (rewrite length_take; lia). rewrite length_take.
    rewrite lookup_app_l by lia. f_equal. lia.
  - destruct (decide (j < i)%nat).
    + rewrite lookup_app_l by (rewrite length_take; lia). by rewrite lookup_take_lt by lia.
    + rewrite lookup_app_r by (rewrite length_take; lia). rewrite length_take, lookup_app_r by lia.
      rewrite lookup_drop. f_equal. lia.
Qed.

Lemma set_dnames_app pos u1 u2 name size :
  set_dnames pos (u1 ++ u2) name size =
  match set_dnames pos u1 name size with
  | Some (name', size') => set_dnames (pos + Z.of_nat (length u1)) u2 name' size'
  | None => None
  end.
Proof.
  revert pos name size. induction u1 as [|u u1 IH]; intros pos name size; cbn [app set_dnames length].
  - by rewrite Z.add_0_r.
  - destruct (fat32_set_dname pos u name size) as [[n s]|]; [|done]. rewrite IH.
    destruct (set_dnames (pos + 1) u1 n s) as [[n' s']|]; [|done]. f_equal. lia.
Qed.

(** Characters that fit. *)
Lemma set_dnames_chars pos cs name size :
  Forall name_char cs -> 0 <= pos -> pos + Z.of_nat (length cs) <= size ->
  size <= Z.of_nat (length name) ->
  set_dnames pos cs name size = Some (splice name (Z.to_nat pos) cs, size).
Proof.
  intros Hcs. revert pos name. induction Hcs as [|c cs Hc Hcs IH]; intros pos name Hpos Hlen Hsz; cbn [set_dnames].
  - by rewrite splice_nil.
  - cbn [length] in Hlen. unfold fat32_set_dname. rewrite (proj2 (Z.leb_gt _ _)) by lia.
    unfold name_char in Hc. rewrite (proj2 (Z.eqb_neq c FAT32_LFN_FILL)) by (unfold FAT32_LFN_FILL; lia).
    rewrite (proj2 (Z.leb_gt 128 c)), (proj2 (Z.eqb_neq c 0)), splice_bput by (cbn [length]; lia).
    rewrite IH; [|lia|lia|rewrite length_splice; cbn [length]; lia]. do 2 f_equal.
    replace (Z.to_nat (pos + 1)) with (Z.to_nat pos + length [c])%nat by (cbn [length]; lia).
    apply (splice_splice name _ [c] cs). cbn [length]. lia.
Qed.

(** What does not fit is ignored. *)
Lemma set_dnames_beyond pos us name size : size <= pos -> set_dnames pos us name size = Some (name, size).
Proof.
  revert pos. induction us as [|u us IH]; intros pos Hpos; cbn [set_dnames]; [done|].
  unfold fat32_set_dname. rewrite (proj2 (Z.leb_le _ _)) by lia. apply IH. lia.
Qed.

(** A full chunk, and a last chunk with its terminator. *)
Lemma units_full chunk : length chunk = 13%nat -> map (lfn_unit chunk) (seq 0 13) = chunk.
Proof.
  intros Hl. do 13 (destruct chunk as [|? chunk]; [done|]). destruct chunk; [done|done].
Qed.

Lemma units_part chunk :
  (length chunk < 13)%nat -> exists rest, map (lfn_unit chunk) (seq 0 13) = chunk ++ 0 :: rest.
Proof.
  intros Hl. exists (map (lfn_unit chunk) (seq (S (length chunk)) (12 - length chunk))).
  replace 13%nat with (length chunk + S (12 - length chunk))%nat by lia. rewrite seq_app, map_app. f_equal.
  - apply list_eq. intros k. rewrite list_lookup_fmap. destruct (decide (k < length chunk)%nat) as [Hk|Hk].
    + rewrite lookup_seq_lt by done. cbn. unfold lfn_unit. rewrite decide_True by lia.
      by rewrite (nth_lookup chunk k 0), (list_lookup_lookup_total_lt chunk k) by done.
    + rewrite lookup_seq_ge by lia. symmetry. cbn. apply lookup_ge_None. lia.
  - cbn [Nat.add seq map]. f_equal. unfold lfn_unit. by rewrite decide_False, decide_True by lia.
Qed.

Lemma set_dnames_part pos chunk rest name size :
  Forall name_char chunk -> 0 <= pos -> pos + Z.of_nat (length chunk) < size -> size <= Z.of_nat (length name) ->
  set_dnames pos (chunk ++ 0 :: rest) name size =
    Some (splice name (Z.to_nat pos) (chunk ++ [0]), pos + Z.of_nat (length chunk)).
Proof.
  intros Hc Hpos Hlt Hsz. rewrite set_dnames_app, set_dnames_chars by (done || lia). cbn [set_dnames].
  unfold fat32_set_dname at 1. rewrite (proj2 (Z.leb_gt _ _)) by lia. cbn [Z.eqb Z.leb Z.compare FAT32_LFN_FILL].
  rewrite splice_bput by (rewrite ?length_splice; cbn [length]; lia).
  rewrite set_dnames_beyond by lia. do 2 f_equal.
  replace (Z.to_nat (pos + Z.of_nat (length chunk))) with (Z.to_nat pos + length chunk)%nat by lia.
  apply splice_splice. lia.
Qed.

(** ** One long-name entry *)

Lemma lfn_seq_spec num i :
  (1 <= i <= 20)%nat ->
  Z.land (lfn_seq num i) FAT32_LFN_SEQ_MASK = Z.of_nat i /\
  flag (lfn_seq num i) FAT32_LFN_LAST = bool_decide (i = num) /\
  lfn_seq num i <> 0 /\ lfn_seq num i <> 0xE5.
Proof.
  intros Hi. unfold lfn_seq.
  assert (Forall (fun i => let n := u8 (Z.lor (Z.of_nat i) FAT32_LFN_LAST) in let m := u8 (Z.of_nat i) in
    Z.land n FAT32_LFN_SEQ_MASK = Z.of_nat i /\ Z.land m FAT32_LFN_SEQ_MASK = Z.of_nat i /\
    flag n FAT32_LFN_LAST = true /\ flag m FAT32_LFN_LAST = false /\ n <> 0 /\ m <> 0 /\ n <> 0xE5 /\ m <> 0xE5)
    (seq 1 20)) as Hall by (repeat constructor; vm_compute; congruence).
  rewrite Forall_forall in Hall. destruct (Hall i) as (? & ? & ? & ? & ? & ? & ? & ?); [apply elem_of_seq; lia|].
  destruct (decide (i = num)); [rewrite bool_decide_true by done|rewrite bool_decide_false by done]; by split_and!.
Qed.

Section name.
Context (name : list Z) (Hchars : Forall name_char name) (Hlen : (1 <= length name <= 255)%nat).
Context (checksum : Z).

Let n := num_lfn name.

Lemma num_lfn_bounds : (1 <= n <= 20)%nat /\ (13 * (n - 1) < length name <= 13 * n)%nat.
Proof.
  unfold n, num_lfn. pose proof (Nat.div_mod (length name + 12) 13). pose proof (Nat.mod_upper_bound (length name + 12) 13).
  lia.
Qed.

Lemma lfn_chunk_spec i : (1 <= i <= n)%nat ->
  Forall name_char (lfn_chunk name i) /\ length (lfn_chunk name i) = Nat.min 13 (length name - 13 * (i - 1)) /\
  forall j, (j < 13)%nat -> lfn_chunk name i !! j = name !! (13 * (i - 1) + j)%nat.
Proof.
  intros Hi. unfold lfn_chunk. split_and!.
  - by apply Forall_take, Forall_drop.
  - rewrite length_take, length_drop. lia.
  - intros j Hj. rewrite lookup_take_lt, lookup_drop by done. f_equal. lia.
Qed.

(** The buffer holds the name and its terminator from position [from]. *)
Definition agrees (b : list Z) (from : nat) : Prop :=
  length b = 256%nat /\ forall j, (from <= j <= length name)%nat -> b !! j = (name ++ [0]) !! j.

Lemma last_chunk_agrees b :
  length b = 256%nat -> (length (lfn_chunk name n) < 13)%nat ->
  agrees (splice b (Z.to_nat ((Z.of_nat n - 1) * 13)) (lfn_chunk name n ++ [0])) (13 * (n - 1)).
Proof.
  intros Hb Hl. pose proof num_lfn_bounds as [Hn Hnl]. destruct (lfn_chunk_spec n) as (_ & Hcl & Hcj); [lia|].
  assert (length (lfn_chunk name n ++ [0]) = S (length (lfn_chunk name n))) as Hl' by (rewrite length_app; cbn; lia).
  split; [rewrite length_splice; lia|]. intros j Hj. rewrite lookup_splice, decide_True by lia.
  destruct (decide (j < length name)%nat).
  - rewrite !lookup_app_l by lia. rewrite Hcj by lia. f_equal. lia.
  - rewrite !lookup_app_r by lia. f_equal. lia.
Qed.

Lemma full_chunk_agrees b i :
  length b = 256%nat -> (1 <= i <= n)%nat -> length (lfn_chunk name i) = 13%nat ->
  (forall j, (13 * i <= j <= length name)%nat -> b !! j = (name ++ [0]) !! j) ->
  agrees (splice b (Z.to_nat ((Z.of_nat i - 1) * 13)) (lfn_chunk name i)) (13 * (i - 1)).
Proof.
  intros Hb Hi Hl Hrest. destruct (lfn_chunk_spec i Hi) as (_ & Hcl & Hcj).
  split; [rewrite length_splice; lia|]. intros j Hj. rewrite lookup_splice by lia. case_decide as Hd.
  - rewrite lookup_app_l by lia. rewrite Hcj by lia. f_equal. lia.
  - apply Hrest. lia.
Qed.

(** The first entry in the directory, which has the highest number. *)
Lemma lfn_scan_first x :
  length (d_name x) = 256%nat -> name_size x = 256 ->
  exists b, lfn_scan 256 (lfn_entry name checksum n n) x =
    Some (mkScan (u32 (current_offset x + FAT32_DENTRY_SIZE)) b (Z.of_nat (length name)) true (current_offset x)) /\
    agrees b (13 * (n - 1)).
Proof.
  intros Hb Hs. pose proof num_lfn_bounds as [Hn Hnl].
  destruct (lfn_entry_fields name checksum n n) as (_ & Hseq & _ & Hunits).
  destruct (lfn_seq_spec n n) as (Hno & Hlast & _); [lia|]. rewrite bool_decide_true in Hlast by done.
  destruct (lfn_chunk_spec n) as (Hcc & Hcl & Hcj); [lia|].
  unfold lfn_scan. rewrite Hseq. cbn [nth]. rewrite Hno, Hlast, Hunits, Hs. cbn [andb].
  rewrite (u32_small (Z.of_nat n - 1)), u32_small by lia.
  destruct (Z.ltb_spec (Z.of_nat n * 13) 256) as [Hcut|Hcut]; cbn [andb].
  - rewrite splice_bput by (cbn [length]; lia).
    set (b1 := splice (d_name x) (Z.to_nat (Z.of_nat n * 13)) [0]).
    assert (length b1 = 256%nat) as Hb1 by (unfold b1; rewrite length_splice; cbn [length]; lia).
    assert (b1 !! (13 * n)%nat = Some 0) as Hz.
    { unfold b1. rewrite lookup_splice, decide_True by (cbn [length]; lia).
      by replace (13 * n - Z.to_nat (Z.of_nat n * 13))%nat with 0%nat by lia. }
    destruct (decide (length (lfn_chunk name n) = 13%nat)) as [E|E].
    + rewrite units_full, set_dnames_chars by (done || lia). eexists. split; [do 2 f_equal; lia|].
      apply full_chunk_agrees; [done|lia|done|]. intros j Hj. replace j with (13 * n)%nat by lia.
      rewrite Hz, lookup_app_r by lia. by replace (13 * n - length name)%nat with 0%nat by lia.
    + destruct (units_part (lfn_chunk name n)) as [rest ->]; [lia|]. rewrite set_dnames_part by (done || lia).
      eexists. split; [do 2 f_equal; lia|]. apply last_chunk_agrees; [done|lia].
  - destruct (units_part (lfn_chunk name n)) as [rest ->]; [lia|]. rewrite set_dnames_part by (done || lia).
    eexists. split; [do 2 f_equal; lia|]. apply last_chunk_agrees; [done|lia].
Qed.

(** The entries behind it. *)
Lemma lfn_scan_next i x :
  (1 <= i < n)%nat -> agrees (d_name x) (13 * i) -> name_size x = Z.of_nat (length name) ->
  exists b, lfn_scan 256 (lfn_entry name checksum n i) x =
    Some (mkScan (u32 (current_offset x + FAT32_DENTRY_SIZE)) b (name_size x) true (entry_start_offset x)) /\
    agrees b (13 * (i - 1)).
Proof.
  intros Hi [Hb Hag] Hs. pose proof num_lfn_bounds as [Hn Hnl].
  destruct (lfn_entry_fields name checksum n i) as (_ & Hseq & _ & Hunits).
  destruct (lfn_seq_spec n i) as (Hno & Hlast & _); [lia|]. rewrite bool_decide_false in Hlast by lia.
  destruct (lfn_chunk_spec i) as (Hcc & Hcl & Hcj); [lia|].
  unfold lfn_scan. rewrite Hseq. cbn [nth]. rewrite Hno, Hlast, Hunits. cbn [andb].
  rewrite (u32_small (Z.of_nat i - 1)), u32_small by lia.
  rewrite units_full, set_dnames_chars by (done || lia). eexists. split; [done|].
  apply full_chunk_agrees; [done|lia|lia|]. intros j Hj. by apply Hag.
Qed.

(** ** The slots of a name *)

Definition lfn_slots : list (list Z) := map (lfn_entry name checksum n) (rev (seq 1 n)).

Lemma nth_0_take (l : list Z) k : nth 0 (take (S k) l) 0 = nth 0 l 0.
Proof. by destruct l. Qed.

(** A long-name slot is met. *)
Lemma scan_lfn_slot fuel bpc data co i x :
  (1 <= i <= n)%nat -> co < bpc -> bsub data co 32 = Some (lfn_entry name checksum n i) ->
  scan_cluster (S fuel) bpc 256 data co x =
  match lfn_scan 256 (lfn_entry name checksum n i) x with
  | Some x' => scan_cluster fuel bpc 256 data (co + FAT32_DENTRY_SIZE) x'
  | None => None
  end.
Proof.
  intros Hi Hco Hsub. pose proof num_lfn_bounds as [Hn _].
  destruct (lfn_entry_fields name checksum n i) as (_ & Hseq & Hattr & _).
  destruct (lfn_seq_spec n i) as (_ & _ & H0 & HE5); [lia|].
  cbn [scan_cluster]. rewrite (proj2 (Z.ltb_lt _ _)) by lia. cbn [negb]. rewrite Hsub.
  set (e := lfn_entry name checksum n i) in *.
  assert (nth 0 (get83 e D83.name) 0 = lfn_seq n i) as ->.
  { change (get83 e D83.name) with (take 11 (drop 0 e)). rewrite nth_0_take.
    change (getlfn e Lfn.sequence) with (take 1 (drop 0 e)) in Hseq.
    rewrite <- (nth_0_take (drop 0 e) 0), Hseq. done. }
  assert (nth 0 (get83 e D83.attr) 0 = FAT32_ATTR_LONG_NAME) as ->.
  { change (get83 e D83.attr) with (getlfn e Lfn.attr). by rewrite Hattr. }
  by rewrite (proj2 (Z.eqb_neq _ _) H0), (proj2 (Z.eqb_neq _ _) HE5), Z.eqb_refl.
Qed.

(** An 8.3 entry in use that is neither a label nor a long-name entry. *)
Record in_use (d83 : list Z) : Prop := {
  iu_first : nth 0 (get83 d83 D83.name) 0 <> 0 /\ nth 0 (get83 d83 D83.name) 0 <> 0xE5;
  iu_attr : nth 0 (get83 d83 D83.attr) 0 <> FAT32_ATTR_LONG_NAME;
  iu_label : flag (nth 0 (get83 d83 D83.attr) 0) FAT32_ATTR_VOLUME_ID = false
}.

(** Where the slots of the name and the 8.3 entry lie in a cluster. *)
Record slots_at (d83 data : list Z) (bpc co0 : Z) : Prop := {
  sa_lfn : forall i, (1 <= i <= n)%nat ->
    bsub data (co0 + 32 * Z.of_nat (n - i)) 32 = Some (lfn_entry name checksum n i);
  sa_83 : bsub data (co0 + 32 * Z.of_nat n) 32 = Some d83;
  sa_fit : co0 + 32 * Z.of_nat (S n) <= bpc
}.

(** The outcome of scanning them. *)
Definition collected (off : Z) (x : scan) : Prop :=
  agrees (d_name x) 0 /\ name_size x = Z.of_nat (length name) /\ entry_start_offset x = off /\
  current_offset x = off + 32 * Z.of_nat n.

Lemma agrees_head b : agrees b 0 -> exists c b', b = c :: b' /\ c <> 0.
Proof.
  intros [Hl Hb]. destruct b as [|c b]; [done|]. exists c, b. split; [done|].
  specialize (Hb 0%nat ltac:(lia)). cbn in Hb. destruct name as [|a nm]; [cbn in Hlen; lia|].
  injection Hb as ->. apply Forall_cons_1 in Hchars as [Ha _]. unfold name_char in Ha. lia.
Qed.

Lemma scan_83_slot fuel d83 data bpc co0 off x :
  in_use d83 -> slots_at d83 data bpc co0 -> collected off x -> has_lfn x = true ->
  scan_cluster (S fuel) bpc 256 data (co0 + 32 * Z.of_nat n) x = Some (ScanFound x d83).
Proof.
  intros [[H0 HE5] Ha Hv] [_ Hsub Hfit] (Hag & Hs & Hst & Hc) Hh.
  cbn [scan_cluster]. rewrite (proj2 (Z.ltb_lt _ _)) by lia. cbn [negb]. rewrite Hsub.
  rewrite (proj2 (Z.eqb_neq _ _) H0), (proj2 (Z.eqb_neq _ _) HE5), (proj2 (Z.eqb_neq _ _) Ha), Hv.
  unfold found_entry. destruct (agrees_head _ Hag) as (c & b & E & Hc0). rewrite Hh, E, (proj2 (Z.eqb_neq c 0)) by done.
  rewrite <- E, <- Hh. by destruct x.
Qed.

Lemma scan_slots fuel d83 data bpc co0 off i x :
  in_use d83 -> slots_at d83 data bpc co0 -> 0 <= off -> off + 32 * Z.of_nat (S n) < 2 ^ 32 -> (i < n)%nat ->
  (i < fuel)%nat ->
  agrees (d_name x) (13 * i) -> name_size x = Z.of_nat (length name) -> has_lfn x = true ->
  entry_start_offset x = off -> current_offset x = off + 32 * Z.of_nat (n - i) ->
  exists x', scan_cluster fuel bpc 256 data (co0 + 32 * Z.of_nat (n - i)) x = Some (ScanFound x' d83) /\
    collected off x'.
Proof.
  intros Hu Hat Hoff Hend. revert fuel x. induction i as [|i IH]; intros fuel x Hi Hfuel Hag Hs Hh Hst Hc;
    (destruct fuel as [|fuel]; [lia|]).
  - exists x. rewrite Nat.sub_0_r in *. assert (collected off x) by done. split; [by apply (scan_83_slot _ _ _ _ _ off)|done].
  - pose proof (sa_fit _ _ _ _ Hat). rewrite (scan_lfn_slot _ _ _ _ (S i)) by (first [lia|apply Hat; lia]).
    destruct (lfn_scan_next (S i) x) as (b & -> & Hb); [lia|done..|].
    replace (co0 + 32 * Z.of_nat (n - S i) + FAT32_DENTRY_SIZE) with (co0 + 32 * Z.of_nat (n - i))
      by (unfold FAT32_DENTRY_SIZE; lia).
    apply IH; cbn [d_name name_size has_lfn entry_start_offset current_offset]; try done; try lia.
    + by replace (13 * i)%nat with (13 * (S i - 1))%nat by lia.
    + rewrite Hc. unfold FAT32_DENTRY_SIZE. rewrite u32_small; lia.
Qed.

Lemma scan_name fuel d83 data bpc co0 off buf :
  in_use d83 -> slots_at d83 data bpc co0 -> 0 <= off -> off + 32 * Z.of_nat (S n) < 2 ^ 32 ->
  (n < fuel)%nat -> length buf = 256%nat ->
  exists x, scan_cluster fuel bpc 256 data co0 (mkScan off buf 256 false 0) = Some (ScanFound x d83) /\ collected off x.
Proof.
  intros Hu Hat Hoff Hend Hfuel Hbuf. pose proof num_lfn_bounds as [Hn _]. pose proof (sa_fit _ _ _ _ Hat).
  destruct fuel as [|fuel]; [lia|].
  rewrite (scan_lfn_slot _ _ _ _ n) by (first [lia|rewrite <- (sa_lfn _ _ _ _ Hat n) by lia; f_equal; lia]).
  destruct (lfn_scan_first (mkScan off buf 256 false 0)) as (b & -> & Hb); [done..|]. cbn [current_offset] in *.
  replace (co0 + FAT32_DENTRY_SIZE) with (co0 + 32 * Z.of_nat (n - (n - 1))) by (unfold FAT32_DENTRY_SIZE; lia).
  apply scan_slots; cbn [d_name name_size has_lfn entry_start_offset current_offset]; try done; try lia.
  unfold FAT32_DENTRY_SIZE. rewrite u32_small; lia.
Qed.

(** The collected name is the one stored, also for [fat32_find_dirent]. *)
Lemma collected_name off x :
  collected off x ->
  take (S (length name)) (d_name x) = name ++ [0] /\ names_match name (d_name x) = true /\
  (off + 32 * Z.of_nat (S n) < 2 ^ 32 -> 0 <= off -> num_slots x = Z.of_nat (S n)).
Proof.
  intros ([Hl Hag] & Hs & Hst & Hc). split_and!.
  - apply list_eq. intros j. destruct (decide (j <= length name)%nat).
    + rewrite lookup_take_lt by lia. apply Hag. lia.
    + rewrite lookup_take_ge by lia. symmetry. apply lookup_ge_None. rewrite length_app. cbn. lia.
  - unfold names_match. apply forallb_forall. intros j Hj%in_seq. unfold fat32_chrcmp.
    assert (nth j name 0 = nth j (d_name x) 0) as ->; [|by rewrite Z.eqb_refl].
    specialize (Hag j ltac:(lia)). rewrite lookup_app_l in Hag by lia.
    rewrite !nth_lookup. by rewrite Hag.
  - intros Hend Hoff. unfold num_slots. rewrite Hc, Hst. unfold FAT32_DENTRY_SIZE.
    rewrite (u32_small (_ - _)) by lia. replace (off + 32 * Z.of_nat n - off) with (Z.of_nat n * 32) by lia.
    rewrite Z.div_mul by lia. rewrite u32_small; lia.
Qed.

End name.

(** ** Writing the slots *)

Section write_lfn.
Context {K : Type} `{!Kernel K, !KernelLaws K}.
Implicit Types s : st K.

(** The bytes of a directory have changed from those of [s] to [bs'], and
    nothing else has. *)
Definition dir_change s (c : Z) (l bs' : list Z) s' : Prop :=
  ready s' /\ fsi s' = fsi s /\ fvs s' = fvs s /\ held s' = held s /\
  dir_at s' c l bs' /\ keeps s l s' l /\ data_keeps s l s'.

Lemma dir_change_step s c l bs1 bs2 s1 s2 off data :
  dir_change s c l bs1 s1 -> entry_written s1 c l bs1 off data s2 ->
  bs2 = splice bs1 (Z.to_nat off) data -> dir_change s c l bs2 s2.
Proof.
  intros (_ & Hf1 & Hv1 & Hh1 & _ & Hk1 & Hd1) (Hr & Hf & Hv & Hh & Hd & Hk & Hdk) ->.
  split_and!; try done; try congruence; [by eapply keeps_trans|].
  eapply data_keeps_weaken; [|eapply data_keeps_trans; [by rewrite Hf1|exact Hd1|exact Hdk]].
  intros x. rewrite elem_of_app. tauto.
Qed.

Lemma dir_change_refl s c l bs : ready s -> dir_at s c l bs -> dir_change s c l bs s.
Proof. intros Hr Hd. split_and!; try done; by apply keeps_equiv. Qed.

Lemma lfn_entry_bytes name checksum num i :
  Forall is_byte name -> is_byte checksum -> Forall is_byte (lfn_entry name checksum num i).
Proof.
  intros Hn Hc. unfold lfn_entry, setlfn.
  assert (forall from n, Forall is_byte (lfn_chars (lfn_chunk name i) from n)) as Hcs.
  { intros from n. unfold lfn_chars. apply Forall_concat, Forall_map, Forall_forall. intros j _. cbn.
    unfold lfn_char. case_decide as Hj; [|by case_decide; repeat constructor].
    apply Forall_cons_2; [|by repeat constructor]. unfold lfn_chunk in *.
    apply Forall_nth; [by apply Forall_take, Forall_drop|done]. }
  repeat apply set_field_bytes; try apply Hcs; try (by repeat constructor); apply Forall_singleton; [done|apply u8_range].
Qed.

Lemma concat_lfn_length name checksum n ns :
  length (concat (map (lfn_entry name checksum n) ns)) = (32 * length ns)%nat.
Proof.
  induction ns as [|i ns IH]; [done|]. cbn [map concat length]. rewrite length_app, IH.
  rewrite (proj1 (lfn_entry_fields name checksum n i)). lia.
Qed.

(** The loop, with the slots [dn] already written. *)
Lemma wp_write_lfn_loop s0 s c l bs start name checksum num dn i :
  dir_at s0 c l bs -> 0 <= start -> start mod 32 = 0 ->
  start + 32 * Z.of_nat num <= Z.of_nat (length bs) -> start + 32 * Z.of_nat num < 2 ^ 32 ->
  Forall is_byte name -> is_byte checksum -> (i <= num)%nat ->
  length (concat dn) = (32 * (num - i))%nat -> dir_change s0 c l (splice bs (Z.to_nat start) (concat dn)) s ->
  wp (write_lfn_loop c start name checksum num i) s (okp (fun _ s' =>
    dir_change s0 c l (splice bs (Z.to_nat start) (concat (dn ++ map (lfn_entry name checksum num) (rev (seq 1 i))))) s')).
Proof.
  intros Hd0 Hst Hal Hfit Hfit32 Hnb Hcb. revert s dn. induction i as [|i IH]; intros s dn Hi Hdn Hch.
  - apply wp_ret. cbn [seq rev map okp]. by rewrite app_nil_r.
  - cbn [write_lfn_loop]. unfold FAT32_DENTRY_SIZE. rewrite u32_small by lia.
    pose proof Hch as (Hr & _ & _ & _ & Hd & _).
    set (e := lfn_entry name checksum num (S i)). assert (length e = 32%nat) as He by apply lfn_entry_fields.
    assert (length (splice bs (Z.to_nat start) (concat dn)) = length bs) as Hls by (apply length_splice; lia).
    eapply wp_call.
    { apply (wp_write_fdentry s c l (splice bs (Z.to_nat start) (concat dn)) (start + Z.of_nat (num - S i) * 32) e); try done;
        [lia|by rewrite Z.mod_add|by apply lfn_entry_bytes]. }
    intros r s1 H1. cbn beta in H1. rewrite decide_True in H1 by lia. destruct H1 as [-> Hw]. cbn [wpk].
    rewrite seq_S, rev_app_distr. cbn [rev app map Nat.add]. fold e.
    replace (dn ++ e :: map (lfn_entry name checksum num) (rev (seq 1 i)))
      with ((dn ++ [e]) ++ map (lfn_entry name checksum num) (rev (seq 1 i))) by (by rewrite <- app_assoc).
    assert (length (concat (dn ++ [e])) = (32 * (num - i))%nat) as Hl'.
    { rewrite concat_app, length_app, Hdn. cbn [concat]. rewrite app_nil_r, He. lia. }
    apply IH; [lia|done|]. eapply dir_change_step; [exact Hch|exact Hw|].
    rewrite concat_app. cbn [concat]. rewrite app_nil_r, <- splice_splice by lia. f_equal. lia.
Qed.

(** The slots of a name, in directory order. *)
Definition all_slots (name d83 : list Z) : list (list Z) :=
  lfn_slots name (fat32_checksum (get83 d83 D83.name)) ++ [d83].

Lemma all_slots_length name d83 : length d83 = 32%nat ->
  Forall (fun e => length e = 32%nat) (all_slots name d83) /\ length (all_slots name d83) = S (num_lfn name).
Proof.
  intros Hd. unfold all_slots, lfn_slots. split.
  - apply Forall_app_2; [|by repeat constructor]. apply Forall_map, Forall_forall. intros i _. apply lfn_entry_fields.
  - rewrite length_app, length_map, length_rev, length_seq. cbn. lia.
Qed.

Lemma wp_write_lfn s c l bs start name d83 :
  ready s -> dir_at s c l bs -> 0 <= start -> start mod 32 = 0 ->
  start + 32 * Z.of_nat (S (num_lfn name)) <= Z.of_nat (length bs) ->
  start + 32 * Z.of_nat (S (num_lfn name)) < 2 ^ 32 ->
  Forall is_byte name -> length d83 = 32%nat -> Forall is_byte d83 ->
  wp (fat32_write_lfn_fdentry c start d83 name) s (okp (fun _ s' =>
    dir_change s c l (splice bs (Z.to_nat start) (concat (all_slots name d83))) s')).
Proof.
  intros Hr Hd Hst Hal Hfit Hfit32 Hnb H83 H83b. unfold fat32_write_lfn_fdentry.
  set (cks := fat32_checksum (get83 d83 D83.name)). set (n := num_lfn name) in *.
  assert (is_byte cks) as Hcks.
  { unfold cks, fat32_checksum. destruct (take 11 _) using rev_ind; [done|]. rewrite foldl_app. apply u8_range. }
  eapply wp_call_ok.
  { apply (wp_write_lfn_loop s s c l bs start name cks n []); try done; try lia; [cbn; lia|].
    cbn [concat]. rewrite splice_nil. by apply dir_change_refl. }
  intros [] s1 Hch. cbn [app] in Hch. change (map (lfn_entry name cks n) (rev (seq 1 n))) with (lfn_slots name cks) in Hch.
  pose proof Hch as (Hr1 & _ & _ & _ & Hd1 & _).
  assert (length (concat (lfn_slots name cks)) = (32 * n)%nat) as Hl.
  { unfold lfn_slots. by rewrite concat_lfn_length, length_rev, length_seq. }
  unfold FAT32_DENTRY_SIZE. rewrite u32_small by lia.
  assert (length (splice bs (Z.to_nat start) (concat (lfn_slots name cks))) = length bs) as Hls by (apply length_splice; lia).
  eapply wp_mono.
  { apply (wp_write_fdentry s1 c l _ (start + Z.of_nat n * 32) d83 Hr1 Hd1); try done; [lia|by rewrite Z.mod_add]. }
  intros r s2 H2. cbn beta in H2. rewrite decide_True in H2 by lia. destruct H2 as [-> Hw]. cbn [okp].
  eapply dir_change_step; [exact Hch|exact Hw|]. unfold all_slots. fold cks.
  rewrite concat_app. cbn [concat]. rewrite app_nil_r, <- splice_splice by lia. f_equal. lia.
Qed.

End write_lfn.

(** ** Reading the slots back *)

Lemma rev_seq_lookup n i : (1 <= i <= n)%nat -> rev (seq 1 n) !! (n - i)%nat = Some i.
Proof.
  induction n as [|n IH]; intros Hi; [lia|]. rewrite seq_S, rev_app_distr. cbn [rev app Nat.add].
  destruct (decide (i = S n)) as [->|].
  - by rewrite Nat.sub_diag.
  - replace (S n - i)%nat with (S (n - i)) by lia. cbn. apply IH. lia.
Qed.

Lemma slice_splice_in {A} (l : list A) i new a b :
  (i + length new <= length l)%nat -> (a + b <= length new)%nat -> slice (splice l i new) (i + a) b = slice new a b.
Proof.
  intros Hl Hab. apply list_eq. intros k. unfold slice.
  destruct (decide (k < b)%nat); [|by rewrite !lookup_take_ge by lia].
  rewrite !lookup_take_lt, !lookup_drop, lookup_splice, decide_True by lia. f_equal. lia.
Qed.

(** Slot [k] of a name, in the bytes of the directory. *)
Lemma slot_slice bs start name d83 k e :
  length d83 = 32%nat -> (start + 32 * S (num_lfn name) <= length bs)%nat -> all_slots name d83 !! k = Some e ->
  slice (splice bs start (concat (all_slots name d83))) (start + 32 * k) 32 = e.
Proof.
  intros Hd Hfit Hk. destruct (all_slots_length name d83 Hd) as [Hall Hlen].
  assert (length (concat (all_slots name d83)) = 32 * S (num_lfn name))%nat as Hcl.
  { rewrite <- Hlen. clear -Hall. induction Hall as [|x l Hx _ IH]; [done|]. cbn [concat length]. rewrite length_app. lia. }
  apply lookup_lt_Some in Hk as Hlt.
  rewrite slice_splice_in by lia. replace (32 * k)%nat with (k * 32 + 0)%nat by lia.
  rewrite (slice_concat 32 _ k e) by (done || lia). unfold slice. rewrite drop_0.
  apply take_ge. rewrite Forall_lookup in Hall. by rewrite (Hall k e Hk).
Qed.

Section read_lfn.
Context {K : Type} `{!Kernel K, !KernelLaws K}.
Context (tb : Z).
Implicit Types s : st K.

(** A long name [name] with its 8.3 entry fits at [start] of the directory
    bytes [bs], inside one cluster. *)
Record name_fits s (bs : list Z) (start : Z) (name d83 : list Z) : Prop := {
  nf_start : 0 <= start /\ start mod 32 = 0;
  nf_room : start + 32 * Z.of_nat (S (num_lfn name)) <= Z.of_nat (length bs);
  nf_cluster : start mod fsi_bytes_per_cluster (fsi s) + 32 * Z.of_nat (S (num_lfn name)) <=
               fsi_bytes_per_cluster (fsi s);
  nf_width : start + 32 * Z.of_nat (S (num_lfn name)) < 2 ^ 32;
  nf_name : Forall name_char name /\ (1 <= length name <= 255)%nat;
  nf_83 : length d83 = 32%nat /\ Forall is_byte d83 /\ in_use d83
}.

Lemma slots_in_cluster s bs start name d83 d k :
  fs_wf (fsi s) -> name_fits s bs start name d83 ->
  (forall o m, (o + m <= bpc (fsi s))%nat ->
     slice (splice bs (Z.to_nat start) (concat (all_slots name d83))) (k * bpc (fsi s) + o) m = slice d o m) ->
  length d = bpc (fsi s) -> Z.of_nat k = start / fsi_bytes_per_cluster (fsi s) ->
  slots_at name (fat32_checksum (get83 d83 D83.name)) d83 d (fsi_bytes_per_cluster (fsi s))
    (start mod fsi_bytes_per_cluster (fsi s)).
Proof.
  intros Hwf [[Hst Hal] Hroom Hcl Hw [Hn Hnl] [Hd [Hdb _]]] Hsl Hdl Hk. destruct (bpc_eq _ Hwf) as [Hb Hb0].
  pose proof (Z.div_mod start (fsi_bytes_per_cluster (fsi s))) as Hdm.
  pose proof (Z.mod_pos_bound start (fsi_bytes_per_cluster (fsi s))) as Hmb.
  set (o := start mod fsi_bytes_per_cluster (fsi s)) in *.
  assert (forall j e, all_slots name d83 !! j = Some e -> bsub d (o + 32 * Z.of_nat j) 32 = Some e) as Hslot.
  { intros j e Hj. pose proof (lookup_lt_Some _ _ _ Hj) as Hlt. rewrite (proj2 (all_slots_length name d83 Hd)) in Hlt.
    rewrite bsub_Some by lia. f_equal. change (take ?m (drop ?i d)) with (slice d i m).
    rewrite <- Hsl by lia. rewrite <- (slot_slice bs (Z.to_nat start) name d83 j e Hd) by (done || lia).
    f_equal. nia. }
  pose proof (num_lfn_bounds name ltac:(lia)) as [Hnb _].
  constructor; [|apply Hslot|lia].
  - intros i Hi. apply Hslot. unfold all_slots, lfn_slots.
    rewrite lookup_app_l by (rewrite length_map, length_rev, length_seq; lia).
    by rewrite list_lookup_fmap, rev_seq_lookup.
  - unfold all_slots, lfn_slots. rewrite lookup_app_r by (rewrite length_map, length_rev, length_seq; lia).
    by rewrite length_map, length_rev, length_seq, Nat.sub_diag.
Qed.


(** The answer of [fat32_get_dirent] for that name. *)
Definition name_answer (v : fat32fs_vnode) (start : Z) (name : list Z) (r : Z * dirent * list Z * Z) : Prop :=
  let '(next, de, buf, size) := r in
  let slots := Z.of_nat (S (num_lfn name)) in
  next = start + 32 * slots /\ d_off de = next /\ d_ino de = fat32_pack_ino (fv_cluster v) start slots /\
  size = Z.of_nat (length name) /\ take (S (length name)) buf = name ++ [0] /\ names_match name buf = true.

(** The vnode it fills in. *)
Definition name_vnode (v : fat32fs_vnode) (start : Z) (name d83 : list Z) (w : fat32fs_vnode) : Prop :=
  fv_cluster w = first_cluster d83 /\ fv_size w = RLE32 (get83 d83 D83.file_size) /\
  fv_attr w = nth 0 (get83 d83 D83.attr) 0 /\ fv_diroff w = start /\
  fv_dirsz w = Z.of_nat (S (num_lfn name)) /\ fv_parent_cluster w = fv_cluster v.

Lemma position_eq f off :
  fs_wf f ->
  Z.shiftr off (fsi_cluster_shift f) = off / fsi_bytes_per_cluster f /\
  Z.land off (fsi_cluster_mask f) = off mod fsi_bytes_per_cluster f.
Proof.
  intros Hwf. destruct (bytes_per_cluster_pow f Hwf) as [Hpow Hsh]. rewrite (wf_cluster_mask f Hwf), Hpow.
  split; [by apply shiftr_div|by apply land_ones_mod].
Qed.

(** The round of the loop that meets the name. *)
Lemma wp_get_dirent_step_name s name d83 d c co start buf cks :
  ready s -> cluster_bytes s c = Some d -> in_use d83 ->
  slots_at name cks d83 d (fsi_bytes_per_cluster (fsi s)) co ->
  Forall name_char name -> (1 <= length name <= 255)%nat -> 0 <= co ->
  0 <= start -> start + 32 * Z.of_nat (S (num_lfn name)) < 2 ^ 32 -> length buf = 256%nat ->
  wp (get_dirent_step 256 (mkScan start buf 256 false 0, co, c)) s
    (okp (fun r s' => s ≡ s' /\ exists x, r = inr (x, d83) /\ collected name start x)).
Proof.
  intros Hr Hd Hu Hat Hn Hnl Hco Hst Hw Hbuf. pose proof (sa_fit _ _ _ _ _ _ Hat) as Hfit.
  destruct (scan_name name Hn Hnl cks (Z.to_nat (fsi_bytes_per_cluster (fsi s))) d83 d (fsi_bytes_per_cluster (fsi s)) co start buf)
    as (x & Hx & Hcol); [done..|lia|done|].
  unfold get_dirent_step. repeat wp_step.
  eapply wp_call_ok; [by apply wp_read_cluster|]. intros bp s1 (_ & _ & Ee & -> & Hs1 & Hcl).
  eapply wp_call_ok; [by apply wp_check_buf_ok|]. intros [] ? ->. rewrite Hx. cbn [of_opt]. repeat wp_step.
  eapply wp_call_ok; [by apply wp_do_brelse|]. intros [] s2 Hs2. apply wp_ret. cbn [okp].
  split; [by rewrite Hs1|]. by exists x.
Qed.

Lemma collected_vnode v start name d83 x w :
  collected name start x -> 0 <= start -> start + 32 * Z.of_nat (S (num_lfn name)) < 2 ^ 32 ->
  (1 <= length name <= 255)%nat -> name_vnode v start name d83 (populate tb (fv_cluster v) x d83 w).
Proof.
  intros Hcol Hst Hw Hnl. destruct (collected_name name Hnl start x Hcol) as (_ & _ & Hns).
  destruct Hcol as (_ & _ & Es & _). split_and!; [reflexivity|reflexivity|reflexivity|exact Es|exact (Hns Hw Hst)|reflexivity].
Qed.

Lemma wp_get_dirent_name s p v l bs start name d83 buf q w :
  ready s -> held s !! CacheLock p = None -> fvs s !! p = Some v -> fv_type v = VDIR -> file_ok s v l ->
  contents s l (splice bs (Z.to_nat start) (concat (all_slots name d83))) ->
  length (splice bs (Z.to_nat start) (concat (all_slots name d83))) = length bs ->
  name_fits s bs start name d83 -> length buf = 256%nat -> q <> p -> fvs s !! q = Some w ->
  wp (fat32_get_dirent tb p start buf 256 (Some q)) s (okp (fun r s' =>
    name_answer v start name r /\ exists w', fvs s' !! q = Some w' /\ name_vnode v start name d83 w')).
Proof.
  intros Hr Hlk Hv Hty Hok Hc Hls Hfit Hbuf Hqp Hq. pose proof (ready_wf _ Hr) as Hwf.
  pose proof Hfit as [[Hst Hal] Hroom Hcl Hw [Hn Hnl] [Hd83 [Hdb Hu]]]. destruct (bpc_eq _ Hwf) as [Hb Hb0].
  destruct (position_eq (fsi s) start Hwf) as [Esh Emo]. destruct (skip_eq (fsi s) start Hwf) as [Esk Hskr]; [lia|].
  destruct (skip_lookup s l _ start Hwf Hc) as [c Hclk]; [lia|lia|]. rewrite Esk in Hclk.
  unfold fat32_get_dirent. repeat wp_step. eapply wp_call_ok; [by apply wp_get_fv|]. intros ? ? [-> ->].
  rewrite Hty, bool_decide_true by done. cbn [negb]. rewrite Esh, Emo.
  assert (l <> []) as Hne by (by intros ->). apply file_ok_chain in Hok as (Hca & Hcl16 & Hch); [|done].
  apply wp_bind, wp_try. eapply wp_mono.
  { apply (wp_vnode_seek_walk s p v l (start / fsi_bytes_per_cluster (fsi s)) 0); try done. intros E. by rewrite E in Hcl16. }
  rewrite Hclk. intros r s1 (-> & cache & Hca1 & Hcl1 & Hs1). cbn [wpk]. pose proof Hs1 as (Hf1 & Hv1 & _). cbn in Hf1, Hv1.
  destruct (contents_slice s l _ _ _ Hwf Hc Hclk) as (d & Hd & Hdl & Hsl).
  cbn [iter]. apply wp_bind. eapply wp_call_ok.
  { apply (wp_get_dirent_step_name s1 name d83 d c _ start buf (fat32_checksum (get83 d83 D83.name))); try done.
    - rewrite <- Hs1. by apply ready_set_fvs.
    - by rewrite <- Hs1.
    - rewrite Hf1. eapply slots_in_cluster; [done|done|exact Hsl|done|]. lia.
    - apply Z.mod_pos_bound. lia. }
  intros r s2 (Hs2 & x & -> & Hcol). cbn [wpk]. repeat wp_step.
  destruct (collected_name name Hnl start x Hcol) as (Htake & Hmatch & Hns). pose proof Hs2 as (_ & Hv2 & _).
  eapply wp_call_ok; [apply (wp_get_fv _ _ (set_fv_cls_cache cache v)); by rewrite Hv2, Hv1, lookup_insert_eq|].
  intros ? ? [-> ->]. change (fv_cluster (set_fv_cls_cache cache v)) with (fv_cluster v).
  eapply wp_call_ok; [apply (wp_upd_fv _ _ w); by rewrite Hv2, Hv1, lookup_insert_ne|]. intros [] ? ->.
  apply wp_ret. cbn [okp name_answer]. pose proof Hcol as (_ & Es & Eo & Ec). rewrite (Hns Hw Hst), Es, Eo, Ec. split.
  - unfold FAT32_DENTRY_SIZE. rewrite u32_small by lia. split_and!; try done; try lia.
  - eexists. split; [apply lookup_insert_eq|]. exact (collected_vnode v start name d83 x w Hcol Hst Hw Hnl).
Qed.

(** C7: a long name written by [fat32_write_lfn_fdentry] into one cluster of a
    directory is what [fat32_get_dirent] finds at that position: it returns the
    name, its length and an inode number made of the directory, the position
    and the number of slots, moves behind the slots, and fills the vnode with
    the members of the 8.3 entry; and [fat32_find_dirent]'s comparison accepts
    the name. *)
Theorem long_name_roundtrip s p v l bs start name d83 buf q w :
  ready s -> held s !! CacheLock p = None -> fvs s !! p = Some v -> fv_type v = VDIR -> file_ok s v l ->
  dir_at s (fv_cluster v) l bs -> name_fits s bs start name d83 ->
  length buf = 256%nat -> q <> p -> fvs s !! q = Some w ->
  wp (do* fat32_write_lfn_fdentry (fv_cluster v) start d83 name in
      fat32_get_dirent tb p start buf 256 (Some q)) s (okp (fun r s' =>
    name_answer v start name r /\ exists w', fvs s' !! q = Some w' /\ name_vnode v start name d83 w')).
Proof.
  intros Hr Hlk Hv Hty Hok Hd Hfit Hbuf Hqp Hq. pose proof Hfit as [[Hst Hal] Hroom Hcl Hw [Hn Hnl] [Hd83 [Hdb Hu]]].
  assert (Forall is_byte name) as Hnb.
  { eapply Forall_impl; [exact Hn|]. intros x Hx. unfold name_char, is_byte in *. lia. }
  eapply wp_call_ok; [by apply (wp_write_lfn s (fv_cluster v) l bs)|].
  intros [] s1 (Hr1 & Hf1 & Hv1 & Hh1 & [Hch1 Hc1] & _).
  assert (length (splice bs (Z.to_nat start) (concat (all_slots name d83))) = length bs) as Hls.
  { rewrite (contents_length _ _ _ (ready_wf _ Hr1) Hc1), Hf1. symmetry. apply contents_length; [by apply ready_wf|apply Hd]. }
  eapply wp_get_dirent_name; try done.
  - by rewrite Hh1.
  - by rewrite Hv1.
  - destruct Hok as (? & ? & Hok). split_and!; [done..|]. by destruct l.
  - destruct Hfit. constructor; try done. by rewrite Hf1.
  - by rewrite Hv1.
Qed.

End read_lfn.

(** ** A directory on the small volume *)

Definition demo_dir_fv : fat32fs_vnode :=
  mkFv [70; 84; 51; 50] 300 (Some 2%nat) 2 VDIR 0 0 0 0 (mkTimespec 0 0) (mkTimespec 0 0) (mkTimespec 0 0) 0x10 0 1 0 None
    (replicate 16 (0, 0)) 0.

(** A file whose entry is the fourth slot, with a new size and a new cluster. *)
Definition demo_dirty_fv : fat32fs_vnode :=
  set_fv_flags (Z.lor FV_SIZE_DIRTY (Z.lor FV_CLUSTER_DIRTY FV_MTIME_DIRTY)) (set_fv_dirsz 3 (set_fv_diroff 32 demo_fv)).

Definition demo_dir : st device :=
  set_fvs (<[2%nat := demo_dir_fv]> (<[3%nat := demo_dirty_fv]> (fvs demo))) demo.

Definition demo_name : list Z := [72; 101; 108; 108; 111; 32; 119; 111; 114; 108; 100; 46; 116; 120; 116].
Definition demo_d83 : list Z := replicate 11 65 ++ [0x20] ++ replicate 16 0 ++ WLE32 1234.

Lemma demo_dir_ready : ready demo_dir.
Proof. apply ready_set_fvs, demo_ready. Qed.

Lemma demo_dir_at : dir_at demo_dir 2 [2] (zeros 512).
Proof.
  split.
  - apply chain_end; vm_compute; [split|]; congruence.
  - exists [zeros 512]. split; [|vm_compute; reflexivity]. repeat constructor.
Qed.

Lemma demo_d83_ok : length demo_d83 = 32%nat /\ Forall is_byte demo_d83 /\ in_use demo_d83.
Proof.
  split; [reflexivity|]. split.
  - repeat (apply Forall_cons_2; [split; [done|reflexivity]|]); try apply Forall_nil_2.
  - constructor; vm_compute; [split| |]; congruence.
Qed.

Lemma write_fdentry_correct_witness :
  wp (fat32_write_fdentry 2 64 demo_d83) demo_dir (fun r s' =>
    if decide (64 < Z.of_nat (length (zeros 512)))
    then r = Ok tt /\ entry_written demo_dir 2 [2] (zeros 512) 64 demo_d83 s'
    else r = Err ENOSPC /\ demo_dir ≡ s').
Proof.
  apply (write_fdentry_correct demo_dir 2 [2] (zeros 512) 64 demo_d83);
    [apply demo_dir_ready|apply demo_dir_at|lia|reflexivity|reflexivity|apply demo_d83_ok].
Defined.

Lemma fdentry_roundtrip_witness :
  wp (do* fat32_write_fdentry 2 64 demo_d83 in fat32_read_fdentry 2 96) demo_dir (fun r _ =>
    r = Ok (if decide (96 = 64) then demo_d83 else slice (zeros 512) (Z.to_nat 96) 32)).
Proof.
  apply (fdentry_roundtrip demo_dir 2 [2] (zeros 512) 64 96 demo_d83);
    [apply demo_dir_ready|apply demo_dir_at|split; [lia|reflexivity]|reflexivity|split; [lia|reflexivity]|reflexivity
    |reflexivity|apply demo_d83_ok].
Defined.

Lemma demo_entry_ok : entry_ok demo_dir demo_dirty_fv [2] (zeros 512).
Proof.
  constructor; [vm_compute; congruence|apply demo_dir_at|vm_compute; split_and!; congruence|].
  split; [reflexivity|reflexivity].
Qed.

Lemma update_fdentry_correct_witness :
  wp (fat32_update_fdentry 3) demo_dir (okp (fun _ s' =>
    metadata_written demo_dir 3 demo_dirty_fv [2] (zeros 512) s')).
Proof.
  apply (update_fdentry_correct demo_dir 3 demo_dirty_fv [2] (zeros 512));
    [apply demo_dir_ready|reflexivity|reflexivity|reflexivity|apply demo_entry_ok].
Defined.

Lemma demo_name_fits : name_fits demo_dir (zeros 512) 64 demo_name demo_d83.
Proof.
  constructor; [split; [lia|reflexivity]|vm_compute; congruence|vm_compute; congruence|reflexivity| |apply demo_d83_ok].
  split; [|cbn; lia]. repeat (apply Forall_cons_2; [split; [done|reflexivity]|]); try apply Forall_nil_2.
Qed.

(** "Hello world.txt" from slot 2 of the root directory. *)
Lemma long_name_roundtrip_witness :
  wp (do* fat32_write_lfn_fdentry (fv_cluster demo_dir_fv) 64 demo_d83 demo_name in
      fat32_get_dirent 32 2 64 (replicate 256 0) 256 (Some 3%nat)) demo_dir (okp (fun r s' =>
    name_answer demo_dir_fv 64 demo_name r /\
    exists w', fvs s' !! 3%nat = Some w' /\ name_vnode demo_dir_fv 64 demo_name demo_d83 w')).
Proof.
  apply (long_name_roundtrip 32 demo_dir 2 demo_dir_fv [2] (zeros 512) 64 demo_name demo_d83 (replicate 256 0) 3 demo_dirty_fv);
    [apply demo_dir_ready|reflexivity|reflexivity|reflexivity| |apply demo_dir_at|apply demo_name_fits|reflexivity
    |discriminate|reflexivity].
  split; [|split; [reflexivity|apply demo_dir_at]]. repeat constructor.
Defined.
