(* ===== verification/Vnode.v ===== *)
(** * Vnode structures ([fat32_util.c], [fat32_file.c]) and the operations on one
    vnode ([fat32_vnode.c]): definitions

    The IRIX vnodes, their reference counts and behaviours, and the memory
    allocator are not part of the driver: they are the operations of the class
    [Vnodes].  These programs run on the driver state together with that layer;
    code that does not reach it is lifted.  A [vnode_t] and the [fat32fs_vnode_t]
    attached to it have separate addresses. *)
From S2P Require Import Prelude Layout Time Names Kernel Cls File Dir.

Class Vnodes (V : Type) := {
  (** [kmem_zalloc(sizeof(fat32fs_vnode_t), KM_SLEEP)] with the addresses in use. *)
  kmem_zalloc : gset nat -> V -> V * option nat;
  (** [sizeof(fat32fs_vnode_t)] *)
  fv_sizeof : Z;
  vn_alloc : vtype -> V -> V * option nat;
  v_count : V -> nat -> Z;
  (** [BHV_PDATA(VNODE_TO_FIRST_BHV(vp))] *)
  first_bhv : V -> nat -> option nat;
  bhv_insert : nat -> nat -> V -> V;
  bhv_remove : nat -> nat -> V -> V;
  vn_hold : nat -> V -> V;
  (** [vn_rele]: drops a reference; whether VOP_INACTIVE has to be called now. *)
  vn_rele : nat -> V -> V * bool;
  (** What the kernel does with a vnode after VOP_INACTIVE; the flag is set for
      [VN_INACTIVE_NOCACHE]. *)
  vn_inactive : nat -> bool -> V -> V;
  (** [VN_FLAGSET] with [VINACTIVE_TEARDOWN] ([false]) or [VROOT] ([true]). *)
  vn_flagset : nat -> bool -> V -> V
}.

Definition time_zero : timespec := mkTimespec 0 0.

(** A structure of zero bytes. *)
Definition zeroed_fv : fat32fs_vnode :=
  mkFv [0; 0; 0; 0] 0 None 0 VNON 0 0 0 0 time_zero time_zero time_zero 0 0 0 0 None
    (replicate (Z.to_nat FAT32_CLS_CACHE_SIZE) (0, 0)) 0.

(** "FT32" *)
Definition fv_magic_bytes : list Z := [70; 84; 51; 50].

Section vnode.
Context {K V : Type} `{!Kernel K, !Vnodes V}.

Definition do_kmem_zalloc : M (st K * V) (option nat) := fun sw =>
  let '(w', o) := kmem_zalloc (dom (fvs (fst sw))) (snd sw) in
  match o with
  | Some p => ((set_fvs (<[p := zeroed_fv]> (fvs (fst sw))) (fst sw), w'), Ok (Some p))
  | None => ((fst sw, w'), Ok None)
  end.

Definition kmem_free (p : nat) : M (st K) unit :=
  do* get_fv p in modify (fun s => set_fvs (delete p (fvs s)) s).

(** A lock that is initialised or destroyed must not be held. *)
Definition lock_unheld (l : lock) : M (st K) unit :=
  let* h := gets held in
  match h !! l with Some _ => fault | None => ret tt end.
Definition mrinit (l : lock) : M (st K) unit := lock_unheld l.
Definition mrfree (l : lock) : M (st K) unit := lock_unheld l.
Definition mutex_destroy (l : lock) : M (st K) unit := lock_unheld l.

(** Operations of the vnode layer. *)
Definition vn_op (f : V -> V) : M (st K * V) unit := modify (fun sw => (fst sw, f (snd sw))).
Definition do_vn_alloc (t : vtype) : M (st K * V) (option nat) := fun sw =>
  let '(w', o) := vn_alloc t (snd sw) in ((fst sw, w'), Ok o).
Definition do_vn_rele (vp : nat) : M (st K * V) bool := fun sw =>
  let '(w', b) := vn_rele vp (snd sw) in ((fst sw, w'), Ok b).

Definition VNODE_TO_FV (vp : nat) : M (st K * V) nat :=
  let* o := gets (fun sw => first_bhv (snd sw) vp) in of_opt o.

(** ** The life cycle of a vnode structure *)

Definition vnode_init (f : fat32fs_info) (v : fat32fs_vnode) : fat32fs_vnode :=
  mkFv fv_magic_bytes fv_sizeof (fv_vnode v) FAT32_CLUSTER_BAD (fv_type v) (fv_mode v) (fsi_uid f) (fsi_gid f)
    (fv_size v) (fv_atime v) (fv_mtime v) (fv_ctime v) (fv_attr v) (fv_diroff v) (fv_dirsz v)
    FAT32_CLUSTER_BAD (fv_parent_vp v) (replicate (Z.to_nat FAT32_CLS_CACHE_SIZE) (0, 0)) (fv_flags v).

Definition fat32_vnode_init (fv : nat) : M (st K) unit :=
  let* f := gets fsi in upd_fv fv (vnode_init f).

Definition fat32_vnode_new : M (st K * V) (option nat) :=
  let* o := do_kmem_zalloc in
  match o with
  | Some fv => do* lift (fat32_vnode_init fv) in ret (Some fv)
  | None => ret None
  end.

(** The checks of debugging builds ([FAT32_DBG]).  A pointer may be NULL; a check
    that fails is a [CE_PANIC], which does not return. *)
Definition fat32_vnode_validate (fv : option nat) : M (st K * V) unit :=
  match fv with
  | None => fault
  | Some p =>
      let* v := lift (get_fv p) in
      if negb (bool_decide (fv_magic v = fv_magic_bytes)) then fault
      else if fv_structsize v =? 0 then fault
      else if negb (fv_structsize v =? fv_sizeof) then fault
      else ret tt
  end.

(** [bdp] is [BHV_PDATA] of the behaviour. *)
Definition fat32_bhv_to_fv_checked (bdp : option nat) : M (st K * V) nat :=
  match bdp with
  | None => fault
  | Some p =>
      let* v := lift (get_fv p) in
      if negb (bool_decide (fv_magic v = fv_magic_bytes)) then fault
      else if fv_structsize v =? 0 then fault
      else if negb (fv_structsize v =? fv_sizeof) then fault
      else ret p
  end.

(** [fat32_sync_metadata], with [fat32_update_fdentry] as a parameter. *)
Definition sync_metadata_with (update : nat -> M (st K) unit) (fv : nat) : M (st K * V) unit :=
  let* v := lift (get_fv fv) in
  let* parent_fv := (match fv_parent_vp v with
                     | Some vp => let* p := VNODE_TO_FV vp in
                                  do* lift (mrupdate (FvLock p)) in ret (Some p)
                     | None => ret None
                     end) in
  do* lift (mrupdate (FvLock fv)) in
  let* error := try (lift (update fv)) in
  do* lift (mrunlock (FvLock fv)) in
  do* (match parent_fv with Some p => lift (mrunlock (FvLock p)) | None => ret tt end) in
  rethrow error.
Definition fat32_sync_metadata (fv : nat) : M (st K * V) unit := sync_metadata_with fat32_update_fdentry fv.

(** [fat32_vnode_delete], with [FAT32_VN_RELE] as a parameter. *)
Definition vnode_delete_with (rele : nat -> M (st K * V) unit) (fv : nat) : M (st K * V) unit :=
  let* v := lift (get_fv fv) in
  do* (match fv_parent_vp v with
       | Some vp => do* rele vp in lift (upd_fv fv (set_fv_parent_vp None))
       | None => ret tt
       end) in
  do* lift (mrfree (FvLock fv)) in
  do* lift (mutex_destroy (CacheLock fv)) in
  do* lift (upd_fv fv (set_fv_structsize 0)) in
  lift (kmem_free fv).

(** [fat32_inactive]; the result is set for [VN_INACTIVE_NOCACHE]. *)
Definition inactive_with (rele : nat -> M (st K * V) unit) (fv : nat) : M (st K * V) bool :=
  let* v := lift (get_fv fv) in
  let* vp := of_opt (fv_vnode v) in
  let* n := gets (fun sw => v_count (snd sw) vp) in
  if 0 <? n then ret false else
  do* (if flag (fv_flags v) FV_DIRTY_MASK
       then do* try (fat32_sync_metadata fv) in ret tt else ret tt) in
  do* vn_op (bhv_remove vp fv) in
  do* vnode_delete_with rele fv in
  ret true.

(** [VN_RELE]: the last reference makes the kernel call [fat32_inactive], which
    releases the parent in turn.  [n] bounds the depth. *)
Fixpoint vn_release (n : nat) (vp : nat) : M (st K * V) unit :=
  match n with
  | O => spin
  | S n' =>
      let* last := do_vn_rele vp in
      if last then
        let* fv := VNODE_TO_FV vp in
        let* nocache := inactive_with (vn_release n') fv in
        vn_op (vn_inactive vp nocache)
      else ret tt
  end.

(** Every level of the release frees a structure. *)
Definition FAT32_VN_RELE (vp : nat) : M (st K * V) unit :=
  let* n := gets (fun sw => size (fvs (fst sw))) in vn_release (S n) vp.
Definition fat32_vnode_delete (fv : nat) : M (st K * V) unit := vnode_delete_with FAT32_VN_RELE fv.
Definition fat32_inactive (fv : nat) : M (st K * V) bool := inactive_with FAT32_VN_RELE fv.

(** The members [fat32_make_vnode] assigns; [parent] is the parent's vnode with
    its cluster. *)
Definition made_vnode (f : fat32fs_info) (cluster : Z) (type : vtype) (vp : nat)
    (parent : option (nat * Z)) (v : fat32fs_vnode) : fat32fs_vnode :=
  let v := set_fv_type type (set_fv_cluster cluster (set_fv_vnode (Some vp) v)) in
  let v := match parent with
           | Some (pvp, c) => set_fv_parent_cluster c (set_fv_parent_vp (Some pvp) v)
           | None => set_fv_parent_cluster 0 (set_fv_parent_vp None v)
           end in
  let v := if (cluster =? fsi_root_cluster f) && bool_decide (type = VDIR)
           then set_fv_mode (Z.lor S_IFDIR 0x1ED) (or_flags FV_ROOT v)
           else
             let v := set_fv_flags 0 v in
             if fv_mode v =? 0
             then set_fv_mode (if bool_decide (type = VDIR) then Z.lor S_IFDIR 0x1ED else Z.lor S_IFREG 0x1A4) v
             else v in
  set_fv_gid (fsi_gid f) (set_fv_uid (fsi_uid f) v).

(** The result is [*vpp]. *)
Definition fat32_make_vnode (cluster : Z) (type : vtype) (fv : nat) (parent_vp : option nat) : M (st K * V) nat :=
  do* lift (get_fv fv) in
  let* o := do_vn_alloc type in
  match o with
  | None => throw ENOMEM
  | Some vp =>
      do* lift (mrinit (FvLock fv)) in
      let* parent := (match parent_vp with
                      | Some pvp =>
                          let* pfv := VNODE_TO_FV pvp in
                          do* vn_op (vn_hold pvp) in
                          let* pv := lift (get_fv pfv) in
                          ret (Some (pvp, fv_cluster pv))
                      | None => ret None
                      end) in
      let* f := lift (gets fsi) in
      do* lift (upd_fv fv (made_vnode f cluster type vp parent)) in
      do* vn_op (bhv_insert vp fv) in
      do* vn_op (vn_flagset vp false) in
      ret vp
  end.

(** ** Operations on one vnode *)

(** [writing] is [mode & (FWRITE | FTRUNC)]. *)
Definition fat32_open (fv : nat) (writing : bool) : M (st K * V) unit :=
  let* v := lift (get_fv fv) in
  if bool_decide (fv_type v = VDIR) && writing then throw EISDIR else ret tt.

Definition fat32_close (fv : nat) (lastclose : bool) : M (st K * V) unit :=
  let* v := lift (get_fv fv) in
  if lastclose && flag (fv_flags v) FV_DIRTY_MASK
  then do* try (fat32_sync_metadata fv) in ret tt else ret tt.

Definition fat32_fsync (fv : nat) : M (st K * V) unit :=
  let* v := lift (get_fv fv) in
  if flag (fv_flags v) FV_DIRTY_MASK
  then do* try (fat32_sync_metadata fv) in ret tt else ret tt.

End vnode.

(** ** Attributes *)

Definition AT_TYPE : Z := 0x0001.
Definition AT_MODE : Z := 0x0002.
Definition AT_UID : Z := 0x0004.
Definition AT_GID : Z := 0x0008.
Definition AT_FSID : Z := 0x0010.
Definition AT_NODEID : Z := 0x0020.
Definition AT_NLINK : Z := 0x0040.
Definition AT_SIZE : Z := 0x0080.
Definition AT_ATIME : Z := 0x0100.
Definition AT_MTIME : Z := 0x0200.
Definition AT_CTIME : Z := 0x0400.
Definition AT_RDEV : Z := 0x0800.
Definition AT_BLKSIZE : Z := 0x1000.
Definition AT_NBLOCKS : Z := 0x2000.

(** [struct vattr]; the members for extended attributes are all set to 0. *)
Record vattr : Type := mkVattr {
  va_mask : Z;
  va_type : vtype;
  va_mode : Z;
  va_uid : Z;
  va_gid : Z;
  va_fsid : Z;
  va_nodeid : Z;
  va_nlink : Z;
  va_size : Z;
  va_atime : timespec;
  va_mtime : timespec;
  va_ctime : timespec;
  va_rdev : Z;
  va_blksize : Z;
  va_nblocks : Z
}.

Section attributes.
Context {K V : Type} `{!Kernel K, !Vnodes V}.

(** One round of the loop that counts the clusters of a directory; the state is
    [(current_cluster, num_clusters)]. *)
Definition count_step (x : Z * Z) : M (st K) (Z * Z + Z) :=
  let '(current_cluster, num_clusters) := x in
  if (FAT32_CLUSTER_MIN <=? current_cluster) && (current_cluster <? FAT32_CLUSTER_EOC_MIN) then
    let num_clusters := u32 (num_clusters + 1) in
    let* r := try (fat32_next_cluster current_cluster 0) in
    match r with
    | inl _ => ret (inr num_clusters)
    | inr next => ret (inl (next, num_clusters))
    end
  else ret (inr num_clusters).

(** [va_size] and [va_nblocks].  A chain of [cluster_count] clusters is the
    longest that ends. *)
Definition attr_size (f : fat32fs_info) (v : fat32fs_vnode) : M (st K) (Z * Z) :=
  if bool_decide (fv_type v = VDIR) then
    let* num_clusters := iter (S (Z.to_nat (fsi_cluster_count f))) count_step (fv_cluster v, 0) in
    let num_clusters := if num_clusters =? 0 then 1 else num_clusters in
    ret (u32 (num_clusters * fsi_bytes_per_cluster f), num_clusters)
  else ret (fv_size v, Z.shiftr (swrap 64 (fv_size v + fsi_bytes_per_cluster f - 1)) (fsi_cluster_shift f)).

Definition fat32_getattr (fv : nat) : M (st K) vattr :=
  let* v := get_fv fv in
  let* f := gets fsi in
  let* size := attr_size f v in
  ret (mkVattr
    (Z.lor AT_TYPE (Z.lor AT_MODE (Z.lor AT_UID (Z.lor AT_GID (Z.lor AT_FSID (Z.lor AT_NODEID
      (Z.lor AT_NLINK (Z.lor AT_SIZE (Z.lor AT_ATIME (Z.lor AT_MTIME (Z.lor AT_CTIME
        (Z.lor AT_RDEV (Z.lor AT_BLKSIZE AT_NBLOCKS)))))))))))))
    (fv_type v) (fv_mode v) (fv_uid v) (fv_gid v) (fsi_dev f) (fv_cluster v)
    (if bool_decide (fv_type v = VDIR) then 2 else 1) size.1
    (fv_atime v) (fv_mtime v) (fv_ctime v) 0 (fsi_bytes_per_cluster f) size.2).

(** The read-only attribute follows the owner's write permission. *)
Definition set_attr_mode (mode : Z) (v : fat32fs_vnode) : fat32fs_vnode :=
  let v := set_fv_mode mode v in
  if flag mode S_IWUSR then
    if flag (fv_attr v) FAT32_ATTR_READ_ONLY
    then or_flags FV_ATTR_DIRTY (set_fv_attr (Z.land (fv_attr v) (Z.lnot FAT32_ATTR_READ_ONLY)) v) else v
  else
    if negb (flag (fv_attr v) FAT32_ATTR_READ_ONLY)
    then or_flags FV_ATTR_DIRTY (set_fv_attr (Z.lor (fv_attr v) FAT32_ATTR_READ_ONLY) v) else v.

(** The members other than the size. *)
Definition set_attributes (vap : vattr) (v : fat32fs_vnode) : fat32fs_vnode :=
  let mask := va_mask vap in
  let v := if flag mask AT_MODE then set_attr_mode (va_mode vap) v else v in
  let v := if flag mask AT_UID then set_fv_uid (va_uid vap) v else v in
  let v := if flag mask AT_GID then set_fv_gid (va_gid vap) v else v in
  let v := if flag mask AT_ATIME then or_flags FV_ATIME_DIRTY (set_fv_atime (va_atime vap) v) else v in
  let v := if flag mask AT_MTIME then or_flags FV_MTIME_DIRTY (set_fv_mtime (va_mtime vap) v) else v in
  if flag mask AT_CTIME then or_flags FV_CTIME_DIRTY (set_fv_ctime (va_ctime vap) v) else v.

(** The part of [fat32_setattr] under the lock; the result is [sync_needed]. *)
Definition setattr_locked (fv : nat) (vap : vattr) : M (st K) bool :=
  let* v := get_fv fv in
  do* (if flag (va_mask vap) AT_SIZE then
         if bool_decide (fv_type v = VDIR) then throw EISDIR else fat32_truncate fv (va_size vap)
       else ret tt) in
  do* upd_fv fv (set_attributes vap) in
  let* v := get_fv fv in
  ret (flag (fv_flags v) FV_DIRTY_MASK).

Definition fat32_setattr (fv : nat) (vap : vattr) : M (st K * V) unit :=
  let* f := lift (gets fsi) in
  if flag (fsi_vfs_flag f) VFS_RDONLY then throw EROFS else
  do* lift (mrupdate (FvLock fv)) in
  let* r := try (lift (setattr_locked fv vap)) in
  do* lift (mrunlock (FvLock fv)) in
  match r with
  | inl error => throw error
  | inr sync_needed => if sync_needed then fat32_sync_metadata fv else ret tt
  end.

Definition fat32_access (fv : nat) (mode : Z) (cr : cred) : M (st K) unit :=
  let* f := gets fsi in
  let* v := get_fv fv in
  let error := fat32_faccess f v mode cr in
  if error =? 0 then ret tt else throw error.

Definition fat32_cmp (fv1 fv2 : nat) : M (st K) bool :=
  let* v1 := get_fv fv1 in
  let* v2 := get_fv fv2 in
  ret (if flag (fv_flags v1) FV_ROOT then flag (fv_flags v2) FV_ROOT
       else if flag (fv_flags v2) FV_ROOT then false
       else fat32_pack_ino (fv_parent_cluster v1) (fv_diroff v1) (fv_dirsz v1) =?
            fat32_pack_ino (fv_parent_cluster v2) (fv_diroff v2) (fv_dirsz v2)).

End attributes.

(** The new offset is checked only for its sign. *)
Definition fat32_seek (noff : Z) : Z := if noff <? 0 then EINVAL else 0.

(** ** Operations that are not implemented *)

Inductive stub_op : Type :=
| fat32_ioctl | fat32_link | fat32_symlink | fat32_readlink | fat32_fid | fat32_fid2 | fat32_frlock | fat32_realvp
| fat32_bmap | fat32_map | fat32_addmap | fat32_delmap | fat32_poll | fat32_dump | fat32_pathconf | fat32_allocstore
| fat32_fcntl | fat32_reclaim | fat32_attr_get | fat32_attr_set | fat32_attr_remove | fat32_attr_list | fat32_cover
| fat32_flush_pages | fat32_commit | fat32_readbuf | fat32_strgetmsg | fat32_strputmsg
(* without a result *)
| fat32_rwlock | fat32_rwunlock | fat32_strategy | fat32_link_removed | fat32_vnode_change | fat32_tosspages
| fat32_flushinval_pages | fat32_invalfree_pages | fat32_pages_sethole.

Definition stub {S} (op : stub_op) : M S unit :=
  match op with
  | fat32_rwlock | fat32_rwunlock | fat32_strategy | fat32_link_removed | fat32_vnode_change | fat32_tosspages
  | fat32_flushinval_pages | fat32_invalfree_pages | fat32_pages_sethole => ret tt
  | _ => throw ENOSYS
  end.
