(* ===== verification/Nameops.v ===== *)
(** * Creating, removing and renaming entries ([fat32_create_fdentry] of
    [fat32_dir.c], the operations on names of [fat32_vnode.c]): definitions

    [tb] is the width of [time_t].  Names are C strings without their NUL, and
    name pointers and output pointers are valid.  [stack] stands for what the
    uninitialised name buffer of [fat32_find_dirent] holds. *)
From S2P Require Import Prelude Layout Time Names Kernel Cls File Dir Vnode.

(** ** Removing entries *)

Section delete.
Context {K : Type} `{!Kernel K}.

(** The loop of [fat32_delete_fdentry_chain] with [n] rounds left, and the
    [bdwrite] that follows it. *)
Fixpoint delete_slots (n : nat) (current_cluster cluster_off : Z) (bp : buf) : M (st K) unit :=
  match n with
  | O => do_bdwrite bp
  | S n' =>
      let* f := gets fsi in
      let* y := (if fsi_bytes_per_cluster f <=? cluster_off then
                   do* do_bdwrite bp in
                   let* next := fat32_next_cluster current_cluster 0 in
                   let* bp := fat32_read_cluster next in
                   do* check_buf bp in
                   ret (next, 0, bp)
                 else ret (current_cluster, cluster_off, bp)) in
      let '(current_cluster, cluster_off, bp) := y in
      let* d := of_opt (bput (b_addr bp) cluster_off [FAT32_LFN_DELETED]) in
      delete_slots n' current_cluster (u32 (cluster_off + FAT32_DENTRY_SIZE)) (set_b_addr d bp)
  end.

Definition fat32_delete_fdentry_chain (dir_cluster offset count : Z) : M (st K) unit :=
  let* f := gets fsi in
  let skip_clusters := Z.shiftr offset (fsi_cluster_shift f) in
  let cluster_off := Z.land offset (fsi_cluster_mask f) in
  let* current_cluster := fat32_seek_cluster dir_cluster skip_clusters 0 in
  let* bp := fat32_read_cluster current_cluster in
  do* check_buf bp in
  delete_slots (Z.to_nat count) current_cluster cluster_off bp.

(** ** Emptiness *)

Inductive empty_result : Type :=
| EmptyEnd                                   (* the end marker *)
| EmptyNext                                  (* the cluster is used up *)
| EmptyNot.                                  (* an entry that counts *)

(** The entries of one cluster from [offset]. *)
Fixpoint empty_scan (n : nat) (bytes_per_cluster : Z) (data : list Z) (offset : Z) : option empty_result :=
  if negb (offset <? bytes_per_cluster) then Some EmptyNext else
  match n with
  | O => None
  | S n' =>
      match bsub data offset 32 with
      | None => None
      | Some e =>
          let first := nth 0 (get83 e D83.name) 0 in
          let attr := nth 0 (get83 e D83.attr) 0 in
          let continue := empty_scan n' bytes_per_cluster data (offset + 32) in
          if first =? 0x00 then Some EmptyEnd
          else if first =? FAT32_LFN_DELETED then continue
          else if flag attr FAT32_ATTR_VOLUME_ID then continue
          else if attr =? FAT32_ATTR_LONG_NAME then Some EmptyNot
          else if first =? 46 then continue
          else Some EmptyNot
      end
  end.

(** One cluster of the chain; the loop ends with the result of the function. *)
Definition dirempty_step (current_cluster : Z) : M (st K) (Z + Z) :=
  let* f := gets fsi in
  let* bp := fat32_read_cluster current_cluster in
  if b_is_error bp then do* do_brelse bp in ret (inr ENOTEMPTY) else
  let* r := of_opt (empty_scan (Z.to_nat (fsi_bytes_per_cluster f)) (fsi_bytes_per_cluster f) (b_addr bp) 0) in
  do* do_brelse bp in
  match r with
  | EmptyEnd => ret (inr 0)
  | EmptyNot => ret (inr ENOTEMPTY)
  | EmptyNext =>
      let* next := try (fat32_next_cluster current_cluster 0) in
      match next with
      | inl _ => ret (inr 0)
      | inr next_cluster => ret (inl next_cluster)
      end
  end.

(** The result is the error code.  A chain of [cluster_count] clusters is the
    longest that ends. *)
Definition fat32_dirempty (fv : nat) : M (st K) Z :=
  let* f := gets fsi in
  let* v := get_fv fv in
  if negb (bool_decide (fv_type v = VDIR)) then ret ENOTDIR else
  if fv_cluster v =? 0 then ret 0 else
  iter (S (Z.to_nat (fsi_cluster_count f))) dirempty_step (fv_cluster v).

End delete.

(** ** Creating an entry *)

(** The characters before the first dot. *)
Fixpoint before_dot (cs : list Z) : list Z :=
  match cs with [] => [] | c :: cs' => if c =? 46 then [] else c :: before_dot cs' end.

(** The 11 characters of a name that is an 8.3 name. *)
Definition format_short (name : list Z) : option (list Z) :=
  let base := before_dot name in
  match bput (replicate 11 32) 0 base with
  | None => None
  | Some b => match drop (length base) name with
              | _ :: ext => bput b 8 ext
              | [] => Some b
              end
  end.

(** The slots a name takes. *)
Definition dirsz_of (name : list Z) : Z :=
  if fat32_name_is_short name then 1 else Z.of_nat (num_lfn name) + 1.

(** The times of an entry: of the vnode for a rename, else [now]. *)
Definition entry_times (rename : bool) (now : timespec) (v : fat32fs_vnode) (e : list Z) : option (list Z) :=
  match fat32_unix_to_fat_time (if rename then fv_ctime v else now),
        fat32_unix_to_fat_time (if rename then fv_mtime v else now),
        fat32_unix_to_fat_time (if rename then fv_atime v else now) with
  | Some (cdate, ctime, ctenths), Some (mdate, mtime, _), Some (adate, _, _) =>
      Some (set83 D83.last_access_date (WLE16 adate)
              (set83 D83.write_time (WLE16 mtime) (set83 D83.write_date (WLE16 mdate)
                (set83 D83.create_time_tenth [ctenths]
                  (set83 D83.create_time (WLE16 ctime) (set83 D83.create_date (WLE16 cdate) e))))))
  | _, _, _ => None
  end.

(** The attributes of an entry. *)
Definition entry_attr (flags : Z) (v : fat32fs_vnode) : Z :=
  if flag flags FAT32_CRE_RENAME then fv_attr v else
  let a := if flag flags FAT32_CRE_DIR then FAT32_ATTR_DIRECTORY else 0 in
  if negb (flag (fv_mode v) S_IWUSR) then Z.lor a FAT32_ATTR_READ_ONLY else a.

Section create.
Context {K V : Type} `{!Kernel K, !Vnodes V}.

(** The cluster the new entry points to. *)
Definition entry_cluster (dir_fv fv : nat) (flags : Z) : M (st K) Z :=
  if flag flags FAT32_CRE_RENAME then let* v := get_fv fv in ret (fv_cluster v)
  else if flag flags FAT32_CRE_DIR then
    let* start_cluster := fat32_next_cluster 0 (Z.lor NC_ALLOC NC_CLEAR) in
    let* d := get_fv dir_fv in
    do* fat32_init_dir start_cluster (fv_cluster d) in
    ret start_cluster
  else ret 0.

(** The 8.3 entry. *)
Definition build_entry (dir_fv fv : nat) (name : list Z) (flags start_cluster : Z) : M (st K) (list Z) :=
  let* d := get_fv dir_fv in
  let* v := get_fv fv in
  let* name83 := (if fat32_name_is_short name then of_opt (format_short name)
                  else ret (fat32_generate_short_name (fv_cluster d) (fv_diroff v))) in
  let e := set83 D83.attr [u8 (entry_attr flags v)] (set83 D83.name name83 (replicate 32 0)) in
  let* now := (if flag flags FAT32_CRE_RENAME then ret time_zero else do_nanotime) in
  let* e := of_opt (entry_times (flag flags FAT32_CRE_RENAME) now v e) in
  ret (set_first_cluster start_cluster e).

Definition fat32_create_fdentry (dir_fv fv : nat) (name : list Z) (flags : Z) : M (st K * V) unit :=
  do* lift (upd_fv fv (set_fv_dirsz (dirsz_of name))) in
  do* (if flag flags FAT32_CRE_REUSE then ret tt else
         lift (let* offset := fat32_alloc_fdentry dir_fv (dirsz_of name) in upd_fv fv (set_fv_diroff offset))) in
  let* start_cluster := lift (entry_cluster dir_fv fv flags) in
  let* d83 := lift (build_entry dir_fv fv name flags start_cluster) in
  let* d := lift (get_fv dir_fv) in
  let* v := lift (get_fv fv) in
  do* lift (if fat32_name_is_short name
            then fat32_write_fdentry (fv_cluster d) (fv_diroff v) d83
            else fat32_write_lfn_fdentry (fv_cluster d) (fv_diroff v) d83 name) in
  if flag flags FAT32_CRE_RENAME then ret tt else
  do* fat32_make_vnode start_cluster (if flag flags FAT32_CRE_DIR then VDIR else VREG) fv (fv_vnode d) in
  ret tt.

End create.
