(* ===== verification/Vnops.v ===== *)
(** * The vnode operations on names ([fat32_lookup], [fat32_create],
    [fat32_remove], [fat32_rename], [fat32_mkdir], [fat32_rmdir]): definitions

    A vnode operation is called with the structure of its directory; vnodes that
    are passed as arguments are given by their own address. *)
From S2P Require Import Prelude Layout Time Names Kernel Cls File Dir Vnode Nameops.

Section vnops.
Context {K V : Type} `{!Kernel K, !Vnodes V}.
Context (tb : Z).

(** [goto]-style cleanup: runs [m], then [cleanup], then returns what [m] did. *)
Definition finally {S A} (m : M S A) (cleanup : M S unit) : M S A :=
  let* r := try m in do* cleanup in rethrow r.

Definition dot : list Z := [46].
Definition dotdot : list Z := [46; 46].

(** The result is the new value of [*vpp]; [None] when it is left alone. *)
Definition fat32_lookup (dir_fv : nat) (nm : list Z) (stack : list Z) : M (st K * V) (option nat) :=
  let* d := lift (get_fv dir_fv) in
  if negb (bool_decide (fv_type d = VDIR)) then throw ENOTDIR else
  if bool_decide (nm = dot) then
    let* vp := of_opt (fv_vnode d) in
    do* vn_op (vn_hold vp) in ret (Some vp)
  else if bool_decide (nm = dotdot) then
    if flag (fv_flags d) FV_ROOT then ret None else
    match fv_parent_vp d with
    | None => throw ENOENT
    | Some vp => do* vn_op (vn_hold vp) in ret (Some vp)
    end
  else
  let* o := fat32_vnode_new in
  match o with
  | None => throw ENOMEM
  | Some fv =>
      do* lift (mraccess (FvLock dir_fv)) in
      let* error := try (lift (fat32_find_dirent tb dir_fv nm stack (Some fv))) in
      do* lift (mraccunlock (FvLock dir_fv)) in
      match error with
      | inl error => do* fat32_vnode_delete fv in throw error
      | inr _ =>
          let* v := lift (get_fv fv) in
          let* r := try (fat32_make_vnode (fv_cluster v) (fv_type v) fv (fv_vnode d)) in
          match r with
          | inl error => do* fat32_vnode_delete fv in throw error
          | inr vp => ret (Some vp)
          end
      end
  end.

(** Unlocks the directory and frees the structure before an error return. *)
Definition drop_fv {A} (dir_fv fv : nat) (error : Z) : M (st K * V) A :=
  do* lift (mrunlock (FvLock dir_fv)) in do* fat32_vnode_delete fv in throw error.

(** The vnode for an entry that exists, with the directory locked. *)
Definition open_existing (dir_fv fv : nat) : M (st K * V) nat :=
  let* d := lift (get_fv dir_fv) in
  let* v := lift (get_fv fv) in
  let* r := try (fat32_make_vnode (fv_cluster v) (fv_type v) fv (fv_vnode d)) in
  do* lift (mrunlock (FvLock dir_fv)) in
  match r with
  | inl error => do* fat32_vnode_delete fv in throw error
  | inr vp => ret vp
  end.

(** The part of [fat32_create] for an entry that exists; [excl] is
    [flags & VEXCL]. *)
Definition create_existing (dir_fv fv : nat) (vap : vattr) (excl : bool) (mode : Z) (cr : cred)
  : M (st K * V) nat :=
  let* f := lift (gets fsi) in
  let* v := lift (get_fv fv) in
  if bool_decide (fv_type v = VDIR) then
    if flag mode VWRITE then drop_fv dir_fv fv EISDIR else open_existing dir_fv fv
  else if excl then drop_fv dir_fv fv EEXIST else
  let error := fat32_faccess f v mode cr in
  if negb (error =? 0) then drop_fv dir_fv fv error else
  let* r := try (if flag (va_mask vap) AT_SIZE then lift (fat32_truncate fv (va_size vap)) else ret tt) in
  match r with
  | inl error => drop_fv dir_fv fv error
  | inr _ =>
      do* lift (fat32_touch fv 0) in
      do* lift (fat32_touch dir_fv FV_MTIME_DIRTY) in
      open_existing dir_fv fv
  end.

(** The creation of an entry that does not exist, of [fat32_create] and
    [fat32_mkdir]; the result is [fv->fv_vnode]. *)
Definition create_new (dir_fv fv : nat) (name : list Z) (vap : vattr) (flags : Z) : M (st K * V) nat :=
  do* lift (upd_fv fv (set_fv_mode (va_mode vap))) in
  let* r := try (fat32_create_fdentry dir_fv fv name flags) in
  do* (match r with
       | inl _ => ret tt
       | inr _ => do* lift (fat32_touch fv 0) in lift (fat32_touch dir_fv FV_MTIME_DIRTY)
       end) in
  do* lift (mrunlock (FvLock dir_fv)) in
  match r with
  | inl error => do* fat32_vnode_delete fv in throw error
  | inr _ => let* v := lift (get_fv fv) in of_opt (fv_vnode v)
  end.

(** The checks that [fat32_create] and [fat32_mkdir] start with. *)
Definition dir_writable (dir_fv : nat) (cr : cred) : M (st K) unit :=
  let* f := gets fsi in
  let* d := get_fv dir_fv in
  let error := fat32_faccess f d (Z.lor VWRITE VEXEC) cr in
  if negb (error =? 0) then throw error else ret tt.

Definition fat32_create (dir_fv : nat) (name : list Z) (vap : vattr) (excl : bool) (mode : Z) (cr : cred)
    (stack : list Z) : M (st K * V) nat :=
  let* d := lift (get_fv dir_fv) in
  if negb (bool_decide (fv_type d = VDIR)) then throw ENOTDIR else
  do* lift (dir_writable dir_fv cr) in
  let* o := fat32_vnode_new in
  match o with
  | None => throw ENOMEM
  | Some fv =>
      do* lift (mrupdate (FvLock dir_fv)) in
      let* r := try (lift (fat32_find_dirent tb dir_fv name stack (Some fv))) in
      match r with
      | inr _ => create_existing dir_fv fv vap excl mode cr
      | inl error =>
          if negb (error =? ENOENT) then drop_fv dir_fv fv error
          else create_new dir_fv fv name vap 0
      end
  end.

Definition fat32_mkdir (dir_fv : nat) (dirname : list Z) (vap : vattr) (cr : cred) (stack : list Z)
  : M (st K * V) nat :=
  let* d := lift (get_fv dir_fv) in
  if negb (bool_decide (fv_type d = VDIR)) then throw ENOTDIR else
  do* lift (dir_writable dir_fv cr) in
  let* o := fat32_vnode_new in
  match o with
  | None => throw ENOMEM
  | Some fv =>
      do* lift (mrupdate (FvLock dir_fv)) in
      let* r := try (lift (fat32_find_dirent tb dir_fv dirname stack (Some fv))) in
      match r with
      | inr _ =>
          let* v := lift (get_fv fv) in
          drop_fv dir_fv fv (if bool_decide (fv_type v = VDIR) then EEXIST else ENOTDIR)
      | inl error =>
          if negb (error =? ENOENT) then drop_fv dir_fv fv error
          else create_new dir_fv fv dirname vap FAT32_CRE_DIR
      end
  end.

(** ** Removal *)

(** The checks on the entry that is to be removed; the error code. *)
Definition remove_check (fv : nat) (is_dir : bool) (cdir : option nat) : M (st K * V) Z :=
  let* v := lift (get_fv fv) in
  if is_dir then
    if negb (bool_decide (fv_type v = VDIR)) then ret ENOTDIR else
    let* current := (match cdir with
                     | Some vp => let* p := VNODE_TO_FV vp in
                                  let* c := lift (get_fv p) in ret (fv_cluster v =? fv_cluster c)
                     | None => ret false
                     end) in
    if current then ret EINVAL else lift (fat32_dirempty fv)
  else if bool_decide (fv_type v = VDIR) then ret EISDIR else ret 0.

(** Deletes the slots, frees the clusters and updates the directory; failures
    of the first two are only reported to the console. *)
Definition remove_entry (dir_fv fv : nat) : M (st K) unit :=
  let* v := get_fv fv in
  do* try (fat32_delete_fdentry_chain (fv_parent_cluster v) (fv_diroff v) (fv_dirsz v)) in
  do* (if negb (fv_cluster v =? 0) then do* try (fat32_free_clusters (fv_cluster v) true) in ret tt else ret tt) in
  fat32_touch dir_fv FV_MTIME_DIRTY.

Definition fat32_remove_common (dir_fv : nat) (name : list Z) (is_dir : bool) (cdir : option nat) (cr : cred)
    (stack : list Z) : M (st K * V) unit :=
  if bool_decide (name = dot) || bool_decide (name = dotdot) then throw EINVAL else
  do* lift (dir_writable dir_fv cr) in
  let* o := fat32_vnode_new in
  match o with
  | None => throw ENOMEM
  | Some fv =>
      do* lift (mrupdate (FvLock dir_fv)) in
      let* r := try (lift (fat32_find_dirent tb dir_fv name stack (Some fv))) in
      match r with
      | inl error => drop_fv dir_fv fv error
      | inr _ =>
          let* error := remove_check fv is_dir cdir in
          if negb (error =? 0) then drop_fv dir_fv fv error else
          let* v := lift (get_fv fv) in
          (* the directory stays locked and the structure allocated *)
          if fv_parent_cluster v =? FAT32_CLUSTER_BAD then throw EINVAL else
          do* lift (remove_entry dir_fv fv) in
          do* lift (mrunlock (FvLock dir_fv)) in
          fat32_vnode_delete fv
      end
  end.

Definition fat32_remove (dir_fv : nat) (nm : list Z) (cr : cred) (stack : list Z) : M (st K * V) unit :=
  fat32_remove_common dir_fv nm false None cr stack.
Definition fat32_rmdir (dir_fv : nat) (nm : list Z) (cdir : option nat) (cr : cred) (stack : list Z)
  : M (st K * V) unit :=
  fat32_remove_common dir_fv nm true cdir cr stack.

(** ** Renaming *)

(** The target of a rename, when it exists, is checked and removed. *)
Definition rename_target (td fv target_fv : nat) (tnm : list Z) (cr : cred) (stack1 stack2 : list Z)
  : M (st K * V) unit :=
  let* r := try (lift (fat32_find_dirent tb td tnm stack1 (Some target_fv))) in
  match r with
  | inr _ =>
      let* v := lift (get_fv fv) in
      let* t := lift (get_fv target_fv) in
      let dir := bool_decide (fv_type t = VDIR) in
      do* (if dir then
             if negb (bool_decide (fv_type t = fv_type v)) then throw EISDIR else
             let* e := lift (fat32_dirempty target_fv) in
             if e =? 0 then throw EEXIST else ret tt
           else if bool_decide (fv_type v = VDIR) then throw ENOTDIR else ret tt) in
      fat32_remove_common td tnm dir None cr stack2
  | inl error => if negb (error =? ENOENT) then throw error else ret tt
  end.

(** The new entry in the old slots, or in new ones. *)
Definition rename_entry (sd td fv : nat) (tnm : list Z) (same_dir : bool) : M (st K * V) unit :=
  let* v := lift (get_fv fv) in
  let* s := lift (get_fv sd) in
  let new_dirsz := dirsz_of tnm in
  let dir := if bool_decide (fv_type v = VDIR) then FAT32_CRE_DIR else 0 in
  if same_dir && (new_dirsz <=? fv_dirsz v) then
    do* fat32_create_fdentry sd fv tnm (Z.lor (Z.lor FAT32_CRE_RENAME FAT32_CRE_REUSE) dir) in
    if new_dirsz <? fv_dirsz v then
      let* s := lift (get_fv sd) in
      do* lift (try (fat32_delete_fdentry_chain (fv_cluster s) (u32 (fv_diroff v + new_dirsz * FAT32_DENTRY_SIZE))
                       (u32 (fv_dirsz v - new_dirsz)))) in ret tt
    else ret tt
  else
    do* lift (fat32_delete_fdentry_chain (fv_cluster s) (fv_diroff v) (fv_dirsz v)) in
    fat32_create_fdentry td fv tnm (Z.lor FAT32_CRE_RENAME dir).

(** The ".." entry of a directory that has moved; errors are ignored. *)
Definition rename_dotdot (td fv : nat) : M (st K) unit :=
  let* f := gets fsi in
  let* v := get_fv fv in
  let* t := get_fv td in
  if (fv_cluster v <? FAT32_CLUSTER_MIN) || (fv_cluster v =? FAT32_CLUSTER_BAD) then ret tt else
  let parent_clus := if fv_cluster t =? fsi_root_cluster f then 0 else fv_cluster t in
  let* r := try (fat32_read_fdentry (fv_cluster v) 32) in
  match r with
  | inl _ => ret tt
  | inr e => do* try (fat32_write_fdentry (fv_cluster v) 32 (set_first_cluster parent_clus e)) in ret tt
  end.

(** The part of [fat32_rename] between the label [out] and the allocation of
    [target_fv]. *)
Definition rename_found (sd td fv target_fv : nat) (tnm : list Z) (same_dir : bool) (cr : cred)
    (stack1 stack2 : list Z) : M (st K * V) unit :=
  do* rename_target td fv target_fv tnm cr stack1 stack2 in
  do* rename_entry sd td fv tnm same_dir in
  let* v := lift (get_fv fv) in
  do* (if bool_decide (fv_type v = VDIR) && negb same_dir then lift (rename_dotdot td fv) else ret tt) in
  do* lift (fat32_touch sd FV_MTIME_DIRTY) in
  if same_dir then ret tt else lift (fat32_touch td FV_MTIME_DIRTY).

(** [fat32_find_dirent] and the member accesses that follow fault on a NULL
    structure; [KM_SLEEP] allocations do not return one. *)
Definition fat32_rename (sd : nat) (snm : list Z) (tdvp : nat) (tnm : list Z) (cr : cred)
    (stack0 stack1 stack2 : list Z) : M (st K * V) unit :=
  let* td := VNODE_TO_FV tdvp in
  let* s := lift (get_fv sd) in
  let* t := lift (get_fv td) in
  let same_dir := fv_cluster s =? fv_cluster t in
  if same_dir && bool_decide (snm = tnm) then ret tt else
  do* lift (mrupdate (FvLock sd)) in
  do* (if same_dir then ret tt else lift (mrupdate (FvLock td))) in
  let* o := fat32_vnode_new in
  let* fv := of_opt o in
  finally
    (finally
       (do* lift (fat32_find_dirent tb sd snm stack0 (Some fv)) in
        let* o := fat32_vnode_new in
        let* target_fv := of_opt o in
        finally (rename_found sd td fv target_fv tnm same_dir cr stack1 stack2)
          (fat32_vnode_delete target_fv))
       (fat32_vnode_delete fv))
    (do* (if same_dir then ret tt else lift (mrunlock (FvLock td))) in
     lift (mrunlock (FvLock sd))).

End vnops.
