(* ===== verification/Readdir.v ===== *)
(** * Reading a directory ([fat32_emit_dirent], [fat32_readdir]): definitions

    The record that [getdents] returns, its header and its size depend on the
    ABI of the caller and are defined by the IRIX headers: they are the
    operations of the class [DirentAbi].  [tb] is the width of [time_t]. *)
From S2P Require Import Prelude Layout Time Names Kernel Cls File Io Dir.

Class DirentAbi (U : Type) := {
  (** [ABI_IS_IRIX5(GETDENTS_ABI(get_current_abi(), uiop))] *)
  is_irix5 : U -> bool;
  (** [IRIX5_DIRENTBASESIZE] and [DIRENTBASESIZE] *)
  direntbasesize : bool -> Z;
  (** [IRIX5_DIRENTSIZE(x)] and [DIRENTSIZE(x)] *)
  direntsize : bool -> Z -> Z;
  (** The first [direntbasesize] bytes of the structure with the given [d_ino]
      and [d_off] and the given [d_reclen]. *)
  dirent_header : bool -> dirent -> Z -> list Z
}.

Section readdir.
Context {K U : Type} `{!Kernel K, !Uio U, !DirentAbi U}.
Context (tb : Z).

(** [uiomove] of driver data; its error is returned. *)
Definition move_out (bs : list Z) : M (st K * U) unit :=
  let* error := do_uio_read bs in
  if negb (error =? 0) then throw error else ret tt.

Definition fat32_emit_dirent (d : dirent) (d_name : list Z) (d_name_size : Z) : M (st K * U) unit :=
  let* irix5 := gets (fun su => is_irix5 (snd su)) in
  let* resid := gets (fun su => uio_resid (snd su)) in
  let reclen := direntsize irix5 d_name_size in
  if resid <? reclen then throw EINVAL else
  do* move_out (dirent_header irix5 d (u16 reclen)) in
  let* name := of_opt (bsub d_name 0 (d_name_size + 1)) in
  do* move_out name in
  let padding := reclen - (direntbasesize irix5 + d_name_size + 1) in
  if padding =? 0 then ret tt else
  let* pad := of_opt (bsub (replicate 8 0) 0 padding) in move_out pad.

(** The variables of the loop; [rd_error] is [None] until [error] is assigned. *)
Record rdpos : Type := mkRd { rd_offset : Z; rd_name : list Z; rd_emitted : bool; rd_eof : bool; rd_error : option Z }.

(** Emits an entry and goes on at [next]; when it does not fit, the loop ends
    with success if something has been emitted. *)
Definition emit_step (x : rdpos) (d : dirent) (name : list Z) (size next : Z) : M (st K * U) (rdpos + rdpos) :=
  let* r := try (fat32_emit_dirent d name size) in
  match r with
  | inl error =>
      let error := if (error =? EINVAL) && rd_emitted x then 0 else error in
      ret (inr (mkRd (rd_offset x) name (rd_emitted x) (rd_eof x) (Some error)))
  | inr _ => ret (inl (mkRd next name true (rd_eof x) (Some 0)))
  end.

Definition readdir_step (dir_fv : nat) (x : rdpos) : M (st K * U) (rdpos + rdpos) :=
  let* resid := gets (fun su => uio_resid (snd su)) in
  if negb (0 <? resid) then ret (inr x) else
  let* v := lift (get_fv dir_fv) in
  let root := flag (fv_flags v) FV_ROOT in
  if (rd_offset x =? 0) && root then
    let* name := of_opt (bput (rd_name x) 0 [46; 0]) in
    emit_step x (mkDirent 0 1) name 1 1
  else if (rd_offset x =? 1) && root then
    let* name := of_opt (bput (rd_name x) 0 [46; 46; 0]) in
    emit_step x (mkDirent 0 2) name 2 2
  else
  let disk_offset := if root && (rd_offset x <? FAT32_DENTRY_SIZE) then 0 else rd_offset x in
  let* name := of_opt (bput (rd_name x) 0 [0]) in
  let* r := try (lift (fat32_get_dirent tb dir_fv disk_offset name (FAT32_MAX_NAME + 1) None)) in
  match r with
  | inl error =>
      if error =? ENOENT
      then ret (inr (mkRd (rd_offset x) name (rd_emitted x) true (Some 0)))
      else ret (inr (mkRd (rd_offset x) name (rd_emitted x) (rd_eof x) (Some error)))
  | inr (next, d, name, size) => emit_step x d name size next
  end.

(** The result is [*eofp]; [stack] is what the array [d_name] holds before.
    Every round but the last emits at least one byte.  Without a round the
    value of [error] is indeterminate. *)
Definition fat32_readdir (dir_fv : nat) (stack : list Z) : M (st K * U) bool :=
  let* v := lift (get_fv dir_fv) in
  if negb (bool_decide (fv_type v = VDIR)) then throw ENOTDIR else
  do* lift (mraccess (FvLock dir_fv)) in
  let* offset := gets (fun su => uio_offset (snd su)) in
  let* resid := gets (fun su => uio_resid (snd su)) in
  let* last := iter (S (Z.to_nat resid)) (readdir_step dir_fv) (mkRd (u32 offset) stack false false None) in
  do* lift (mraccunlock (FvLock dir_fv)) in
  do* modify (fun su => (fst su, set_uio_offset (rd_offset last) (snd su))) in
  let* error := of_opt (rd_error last) in
  if error =? 0 then ret (rd_eof last) else throw error.

End readdir.
