(* ===== verification/Listing.v ===== *)
(** * A directory as a list of entries

    [fat32_get_dirent] is a scan of the concatenated bytes of the directory's
    clusters: it never leaves the buffers, whatever the bytes are, and never
    fails to end.  [fat32_find_dirent] is a search in the list of the entries
    that this scan yields. *)
From S2P Require Import Prelude Layout Time Names Kernel Device Cls Fat Demo Alloc Chain Free Cache File Truncate Access Io IoSpec WriteSpec Dir DirSpec LfnSpec.

(** ** One entry *)

(** What the scan does with an entry: it goes on, or ends. *)
Definition scan_entry (size : Z) (e : list Z) (x : scan) : option (scan + scan_result) :=
  let first := nth 0 (get83 e D83.name) 0 in
  let attr := nth 0 (get83 e D83.attr) 0 in
  if first =? 0x00 then Some (inr ScanEnd)
  else if first =? 0xE5 then
    Some (inl (mkScan (u32 (current_offset x + FAT32_DENTRY_SIZE)) (d_name x) (name_size x) (has_lfn x)
                 (entry_start_offset x)))
  else if attr =? FAT32_ATTR_LONG_NAME then inl <$> lfn_scan size e x
  else if flag attr FAT32_ATTR_VOLUME_ID then inl <$> volume_scan size x
  else (fun x' => inr (ScanFound x' e)) <$> found_entry size e x.

Lemma scan_cluster_unfold n bytes_per_cluster size data co x :
  scan_cluster (S n) bytes_per_cluster size data co x =
  if negb (co <? bytes_per_cluster) then Some (ScanNext x) else
  match bsub data co 32 with
  | None => None
  | Some e => match scan_entry size e x with
              | None => None
              | Some (inl x') => scan_cluster n bytes_per_cluster size data (co + FAT32_DENTRY_SIZE) x'
              | Some (inr r) => Some r
              end
  end.
Proof.
  cbn [scan_cluster]. destruct (negb _); [done|]. destruct (bsub data co 32) as [e|]; [|done].
  unfold scan_entry. destruct (_ =? 0x00); [done|]. destruct (_ =? 0xE5); [done|].
  destruct (_ =? FAT32_ATTR_LONG_NAME); [by destruct (lfn_scan size e x)|].
  destruct (flag _ _); [by destruct (volume_scan size x)|]. by destruct (found_entry size e x).
Qed.

Lemma scan_cluster_end n bytes_per_cluster size data co x :
  bytes_per_cluster <= co -> scan_cluster n bytes_per_cluster size data co x = Some (ScanNext x).
Proof. intros H. destruct n; cbn [scan_cluster]; by rewrite (proj2 (Z.ltb_ge _ _)). Qed.

(** The name buffer has room for what its size says. *)
Definition scan_ok (x : scan) : Prop := length (d_name x) = 256%nat /\ 0 <= name_size x <= 256.

Lemma bput_total l i new :
  0 <= i -> i + Z.of_nat (length new) <= Z.of_nat (length l) ->
  exists l', bput l i new = Some l' /\ length l' = length l.
Proof. intros. destruct (bput_Some l i new) as [m Hm]; [done..|]. exists m. split; [done|by eapply bput_length]. Qed.

Lemma set_dnames_total units : forall pos name size, 0 <= pos ->
  length name = 256%nat -> 0 <= size <= 256 ->
  exists name' size', set_dnames pos units name size = Some (name', size') /\ length name' = 256%nat /\ 0 <= size' <= 256.
Proof.
  induction units as [|u units IH]; intros pos name size Hp Hl Hs; cbn [set_dnames]; [eauto|].
  unfold fat32_set_dname. destruct (size <=? pos) eqn:E; [apply IH; lia|].
  destruct (u =? FAT32_LFN_FILL); [apply IH; lia|]. apply Z.leb_gt in E.
  destruct (bput_total name pos [if 128 <=? u then 63 else u]) as (name' & -> & Hl'); [lia|cbn; lia|].
  destruct (_ =? 0); apply IH; lia.
Qed.

Lemma lfn_scan_total e x : scan_ok x ->
  exists x', lfn_scan 256 e x = Some x' /\ scan_ok x' /\ current_offset x' = u32 (current_offset x + FAT32_DENTRY_SIZE).
Proof.
  intros [Hl Hs]. unfold lfn_scan. set (seq_no := Z.land _ FAT32_LFN_SEQ_MASK).
  assert (0 <= seq_no) as Hseq by (apply Z.land_nonneg; right; done).
  set (cut := _ && (seq_no * 13 <? 256)).
  assert (exists name, (if cut then bput (d_name x) (seq_no * 13) [0] else Some (d_name x)) = Some name /\
    length name = 256%nat) as (name & -> & Hn).
  { destruct cut eqn:Ec; [|eauto]. apply andb_true_iff in Ec as [_ Ec%Z.ltb_lt].
    destruct (bput_total (d_name x) (seq_no * 13) [0]) as (name & -> & Hn); [lia|cbn; lia|]. exists name. split; congruence. }
  destruct (set_dnames_total (lfn_units e) (u32 (u32 (seq_no - 1) * 13)) name (if cut then seq_no * 13 else name_size x))
    as (name' & size' & -> & Hn' & Hs'); [apply u32_range|done| |].
  { destruct cut eqn:Ec; [|done]. apply andb_true_iff in Ec as [_ Ec%Z.ltb_lt]. lia. }
  eexists. split; [done|]. by split.
Qed.

Lemma until_blank_length cs : (length (until_blank cs) <= length cs)%nat.
Proof. induction cs as [|c cs IH]; cbn; [done|]. destruct (c =? 32); cbn; lia. Qed.

Lemma short_to_name_length name : (length (short_to_name name 256) <= 12)%nat.
Proof.
  unfold short_to_name. rewrite length_take, length_app.
  pose proof (until_blank_length (take 8 name)) as H1. pose proof (until_blank_length (take 3 (drop 8 name))) as H2.
  rewrite length_take in H1, H2. destruct (_ =? 32); cbn; lia.
Qed.

Lemma found_entry_total e x : scan_ok x ->
  exists x', found_entry 256 e x = Some x' /\ scan_ok x' /\ current_offset x' = current_offset x.
Proof.
  intros [Hl Hs]. unfold found_entry. destruct (d_name x) as [|c cs] eqn:E; [done|]. rewrite <- E in *.
  destruct (c =? 0).
  - pose proof (short_to_name_length (get83 e D83.name)). set (ns := short_to_name _ _) in *.
    destruct (bput_total (d_name x) 0 (ns ++ [0])) as (name & -> & Hn); [done|rewrite length_app; cbn; lia|].
    eexists. split; [done|]. split; [|done]. split; cbn [d_name name_size]; [congruence|lia].
  - eexists. split; [done|]. split; [by split|done].
Qed.

(** What one entry does to a scan that is inside its buffer. *)
Definition entry_step_ok (e : list Z) (x : scan) (r : scan + scan_result) : Prop :=
  match r with
  | inl x' => scan_ok x' /\ current_offset x' = u32 (current_offset x + FAT32_DENTRY_SIZE)
  | inr ScanEnd => True
  | inr (ScanNext _) => False
  | inr (ScanFound x' e') => e' = e /\ scan_ok x' /\ current_offset x' = current_offset x
  end.

Lemma scan_entry_total e x : scan_ok x -> exists r, scan_entry 256 e x = Some r /\ entry_step_ok e x r.
Proof.
  intros Hx. unfold scan_entry. destruct (_ =? 0x00); [by eexists|].
  destruct (_ =? 0xE5); [eexists; split; [done|]; by split|].
  destruct (_ =? FAT32_ATTR_LONG_NAME).
  { destruct (lfn_scan_total e x Hx) as (x' & -> & H). by eexists. }
  destruct (flag _ _).
  { unfold volume_scan. destruct Hx as [Hl Hs]. destruct (bput_total (d_name x) 0 [0]) as (name & -> & Hn); [done|cbn; lia|].
    eexists. split; [done|]. split; [|done]. split; [cbn [d_name]; congruence|cbn; lia]. }
  destruct (found_entry_total e x Hx) as (x' & -> & H). by eexists.
Qed.

(** ** The scan of a whole directory *)

(** The result of a scan that started at offset [co] of [len] bytes. *)
Definition scan_result_ok (data : list Z) (bytes_per_cluster co : Z) (x : scan) (r : scan_result) : Prop :=
  match r with
  | ScanEnd => True
  | ScanNext x' => scan_ok x' /\ current_offset x' = u32 (current_offset x + (bytes_per_cluster - co))
  | ScanFound x' e => scan_ok x' /\ exists k, 0 <= k /\ co + 32 * k < bytes_per_cluster /\
      current_offset x' = u32 (current_offset x + 32 * k) /\ bsub data (co + 32 * k) 32 = Some e
  end.

(** With a buffer of 256 bytes the scan of a cluster never leaves the cluster
    or the buffer, for any contents. *)
Lemma scan_cluster_total n bytes_per_cluster data co x :
  scan_ok x -> 0 <= co <= bytes_per_cluster -> (bytes_per_cluster - co) mod 32 = 0 ->
  bytes_per_cluster <= Z.of_nat (length data) -> bytes_per_cluster - co <= 32 * Z.of_nat n ->
  0 <= current_offset x < 2 ^ 32 ->
  exists r, scan_cluster n bytes_per_cluster 256 data co x = Some r /\ scan_result_ok data bytes_per_cluster co x r.
Proof.
  intros Hx Hco Hal Hlen. revert co x Hx Hco Hal. induction n as [|n IH]; intros co x Hx Hco Hal Hn Hoff.
  - rewrite scan_cluster_end by lia. eexists. split; [done|]. split; [done|].
    replace (bytes_per_cluster - co) with 0 by lia. rewrite Z.add_0_r. by rewrite u32_small by lia.
  - destruct (Z.le_gt_cases bytes_per_cluster co).
    { rewrite scan_cluster_end by lia. eexists. split; [done|]. split; [done|].
      replace (bytes_per_cluster - co) with 0 by lia. rewrite Z.add_0_r. by rewrite u32_small by lia. }
    assert (32 <= bytes_per_cluster - co) as Hroom by (Z.div_mod_to_equations; lia).
    rewrite scan_cluster_unfold, (proj2 (Z.ltb_lt _ _)) by lia. cbn [negb].
    set (e := take 32 (drop (Z.to_nat co) data)).
    assert (bsub data co 32 = Some e) as He by (rewrite bsub_Some by lia; done). rewrite He.
    destruct (scan_entry_total e x Hx) as ([x'|r] & -> & Hr).
    + destruct Hr as [Hx' Hc]. unfold FAT32_DENTRY_SIZE in *.
      destruct (IH (co + 32) x') as (r & -> & Hr); [done|lia|Z.div_mod_to_equations; lia|lia|rewrite Hc; apply u32_range|].
      eexists. split; [done|]. assert (forall d, u32 (u32 (current_offset x + 32) + d) = u32 (current_offset x + (32 + d))) as Hu.
      { intros d. unfold u32. rewrite Zplus_mod_idemp_l. f_equal. lia. }
      destruct r as [|y|y e']; [done| |].
      * destruct Hr as [Hy Hyc]. split; [done|]. rewrite Hyc, Hc, Hu. f_equal. lia.
      * destruct Hr as (Hy & k & Hk & Hk' & Hyc & Hyb). split; [done|]. exists (k + 1).
        split_and!; [lia|lia|rewrite Hyc, Hc, Hu; f_equal; lia|rewrite <- Hyb; f_equal; lia].
    + eexists. split; [done|]. destruct r as [|y|y e']; [done|done|]. destruct Hr as (-> & Hy & Hyc).
      split; [done|]. exists 0. rewrite Z.mul_0_r, !Z.add_0_r, u32_small by lia. by split_and!; [lia|lia|..].
Qed.

(** More fuel does not change the scan. *)
Lemma scan_cluster_fuel n m bytes_per_cluster data co x size :
  bytes_per_cluster - co <= 32 * Z.of_nat n -> bytes_per_cluster - co <= 32 * Z.of_nat m ->
  scan_cluster n bytes_per_cluster size data co x = scan_cluster m bytes_per_cluster size data co x.
Proof.
  revert m co x. induction n as [|n IH]; intros m co x Hn Hm; [by rewrite !scan_cluster_end by lia|].
  destruct m as [|m]; [by rewrite !scan_cluster_end by lia|]. rewrite !scan_cluster_unfold.
  destruct (negb _); [done|]. destruct (bsub data co 32) as [e|]; [|done].
  destruct (scan_entry size e x) as [[x'|r]|]; [|done..]. unfold FAT32_DENTRY_SIZE. apply IH; lia.
Qed.

Lemma scan_entry_not_next size e x y : scan_entry size e x <> Some (inr (ScanNext y)).
Proof.
  unfold scan_entry. destruct (_ =? 0x00); [done|]. destruct (_ =? 0xE5); [done|].
  destruct (_ =? FAT32_ATTR_LONG_NAME); [by destruct (lfn_scan size e x)|].
  destruct (flag _ _); [by destruct (volume_scan size x)|]. by destruct (found_entry size e x).
Qed.

(** A cluster of a directory is scanned like its bytes in the directory. *)
Lemma scan_cluster_embed n bytes_per_cluster total size data bs base co x :
  (forall o, 0 <= o -> o + 32 <= bytes_per_cluster -> bsub bs (base + o) 32 = bsub data o 32) ->
  0 <= co <= bytes_per_cluster -> (bytes_per_cluster - co) mod 32 = 0 -> base + bytes_per_cluster <= total ->
  total - (base + co) <= 32 * Z.of_nat n ->
  scan_cluster n total size bs (base + co) x =
  match scan_cluster n bytes_per_cluster size data co x with
  | Some (ScanNext x') => scan_cluster n total size bs (base + bytes_per_cluster) x'
  | r => r
  end.
Proof.
  intros Hsub Hco Hal Htot. revert co x Hco Hal. induction n as [|n IH]; intros co x Hco Hal Hn.
  - rewrite (scan_cluster_end 0 bytes_per_cluster) by lia. f_equal. lia.
  - destruct (Z.le_gt_cases bytes_per_cluster co).
    { rewrite (scan_cluster_end _ bytes_per_cluster) by lia. f_equal. lia. }
    assert (32 <= bytes_per_cluster - co) as Hroom by (Z.div_mod_to_equations; lia).
    rewrite !scan_cluster_unfold, !(proj2 (Z.ltb_lt _ _)) by lia. cbn [negb]. rewrite Hsub by lia.
    destruct (bsub data co 32) as [e|]; [|done]. pose proof (scan_entry_not_next size e x) as Hnn.
    destruct (scan_entry size e x) as [[x'|r]|].
    + rewrite <- Z.add_assoc. unfold FAT32_DENTRY_SIZE. rewrite IH by (lia || (Z.div_mod_to_equations; lia)).
      destruct (scan_cluster n bytes_per_cluster size data (co + 32) x') as [[|y|y e']|]; try done.
      apply scan_cluster_fuel; lia.
    + destruct r as [|y|y e']; [done| |done]. by destruct (Hnn y).
    + done.
Qed.

(** The scan of the bytes of a directory from offset [off]. *)
Definition scan_dir (bs : list Z) (off : Z) (x : scan) : option scan_result :=
  scan_cluster (length bs) (Z.of_nat (length bs)) 256 bs off x.

Section get_dirent.
Context {K : Type} `{!Kernel K, !KernelLaws K}.
Context (tb : Z).
Implicit Types s : st K.

Lemma wp_next_of_chain s c l k x :
  ready s -> file_chain s c l -> l !! k = Some x ->
  wp (fat32_next_cluster x 0) s (fun r s' =>
    r = match l !! S k with Some y => Ok y | None => Err ENOSPC end /\ s ≡ s').
Proof.
  intros Hr Hch Hx. destruct (l !! S k) as [y|] eqn:Hy.
  - eapply wp_mono; [by eapply wp_next_in_chain|]. intros [v| | | |] s' H; try done. by destruct H as [-> ?].
  - apply lookup_ge_None in Hy. apply lookup_lt_Some in Hx as Hlt.
    eapply wp_mono; [eapply (wp_next_at_end s c l k x 0); [done..|lia]|]. by intros r s' H.
Qed.

(** What the scan loop returns. *)
Definition scan_answer (r : option scan_result) : res (scan * list Z) :=
  match r with Some (ScanFound x e) => Ok (x, e) | _ => Err ENOENT end.

Lemma bpc_aligned f : fs_wf f -> fsi_bytes_per_cluster f mod 32 = 0.
Proof.
  intros Hwf. rewrite (wf_bytes_per_cluster f Hwf).
  replace (512 * fsi_sectors_per_cluster f) with (16 * fsi_sectors_per_cluster f * 32) by lia. by apply Z.mod_mul.
Qed.

(** Cluster [k] of a directory, in its bytes. *)
Lemma cluster_in_dir s l bs k d :
  fs_wf (fsi s) -> contents s l bs -> (k < length l)%nat -> length d = bpc (fsi s) ->
  (forall o n, (o + n <= bpc (fsi s))%nat -> slice bs (k * bpc (fsi s) + o) n = slice d o n) ->
  forall o, 0 <= o -> o + 32 <= fsi_bytes_per_cluster (fsi s) ->
    bsub bs (Z.of_nat k * fsi_bytes_per_cluster (fsi s) + o) 32 = bsub d o 32.
Proof.
  intros Hwf Hc Hk Hd Hsl o Ho Ho32. destruct (bpc_eq _ Hwf) as [Hb Hb0].
  pose proof (contents_length _ _ _ Hwf Hc) as Hlen.
  assert (Z.of_nat (length bs) = Z.of_nat (length l) * fsi_bytes_per_cluster (fsi s)) as Hlz by lia.
  rewrite !bsub_Some by (lia || nia). f_equal. change (slice bs (Z.to_nat (Z.of_nat k * fsi_bytes_per_cluster (fsi s) + o)) 32 =
    slice d (Z.to_nat o) 32). rewrite <- Hsl by lia. f_equal. nia.
Qed.

Lemma wp_get_dirent_loop s c l bs fuel k co x cl s1 :
  ready s -> file_chain s c l -> contents s l bs -> s ≡ s1 -> l !! k = Some cl ->
  scan_ok x -> 0 <= current_offset x < 2 ^ 32 -> 0 <= co <= fsi_bytes_per_cluster (fsi s) -> co mod 32 = 0 ->
  (length l - k <= fuel)%nat ->
  wp (iter fuel (get_dirent_step 256) (x, co, cl)) s1 (fun r s' => s ≡ s' /\
    r = scan_answer (scan_dir bs (Z.of_nat k * fsi_bytes_per_cluster (fsi s) + co) x)).
Proof.
  intros Hr Hch Hc. pose proof (ready_wf _ Hr) as Hwf. destruct (bpc_eq _ Hwf) as [Hb Hb0].
  pose proof (bpc_aligned _ Hwf) as Hba. pose proof (contents_length _ _ _ Hwf Hc) as Hlen.
  revert k co x cl s1. induction fuel as [|fuel IH]; intros k co x cl s1 Hs Hcl Hx Hoff Hco Hal Hfuel;
    apply lookup_lt_Some in Hcl as Hlt; [lia|].
  destruct (contents_slice s l bs k cl Hwf Hc Hcl) as (d & Hd & Hdl & Hsl).
  assert ((fsi_bytes_per_cluster (fsi s) - co) mod 32 = 0) as Hal' by (Z.div_mod_to_equations; lia).
  destruct (scan_cluster_total (Z.to_nat (fsi_bytes_per_cluster (fsi s))) (fsi_bytes_per_cluster (fsi s)) d co x) as (r & Hscan & Hrok);
    [done|done|done|lia|lia|done|].
  pose proof (scan_cluster_embed (length bs) (fsi_bytes_per_cluster (fsi s)) (Z.of_nat (length bs)) 256 d bs
    (Z.of_nat k * fsi_bytes_per_cluster (fsi s)) co x (cluster_in_dir s l bs k d Hwf Hc Hlt Hdl Hsl) Hco Hal') as Hemb.
  rewrite (scan_cluster_fuel (length bs) (Z.to_nat (fsi_bytes_per_cluster (fsi s))) _ d), Hscan in Hemb by nia.
  unfold scan_dir. rewrite Hemb by nia. clear Hemb.
  cbn [iter]. pose proof Hs as (Ef & _). apply wp_bind. unfold get_dirent_step. repeat wp_step.
  eapply wp_call_ok; [apply (wp_read_cluster s1 cl d); by rewrite <- Hs|].
  intros bp s2 (_ & _ & Ee & -> & Hs2 & Hclean). eapply wp_call_ok; [by apply wp_check_buf_ok|]. intros [] ? ->.
  rewrite Ef, Hscan. cbn [of_opt]. repeat wp_step.
  eapply wp_call_ok; [by apply wp_do_brelse|]. intros [] s3 Hs3. assert (s ≡ s3) as Hs03 by (by rewrite Hs, Hs2).
  destruct r as [|x'|x' e]; [by apply wp_throw| |by apply wp_ret].
  destruct Hrok as [Hx' Hcx]. apply wp_bind, wp_try. eapply wp_mono.
  { apply (wp_next_of_chain s3 c l k cl); by rewrite <- ?Hs03. }
  intros r s4 [-> Hs4]. assert (s ≡ s4) as Hs04 by (by rewrite Hs03). destruct (l !! S k) as [cl'|] eqn:Hcl'; cbn [wpk].
  - apply wp_ret. cbn [wpk]. replace (Z.of_nat k * fsi_bytes_per_cluster (fsi s) + fsi_bytes_per_cluster (fsi s))
      with (Z.of_nat (S k) * fsi_bytes_per_cluster (fsi s) + 0) by lia.
    apply IH; try done; [|lia|by apply lookup_lt_Some in Hcl' as ?; lia]. rewrite Hcx. apply u32_range.
  - apply wp_throw. cbn [wpk]. split; [done|]. apply lookup_ge_None in Hcl'. by rewrite scan_cluster_end by nia.
Qed.

(** The directory operations work on: the vnode at [p] is a directory with the
    clusters [l] that hold the bytes [bs], and its locks are free. *)
Record directory s (p : nat) (v : fat32fs_vnode) (l bs : list Z) : Prop := {
  dir_fv : fvs s !! p = Some v;
  dir_type : fv_type v = VDIR;
  dir_ok : file_ok s v l;
  dir_nonempty : l <> [];
  dir_contents : contents s l bs;
  dir_width : Z.of_nat (length bs) < 2 ^ 32;
  dir_cache_lock : held s !! CacheLock p = None
}.

Lemma directory_at s p d l bs : directory s p d l bs -> dir_at s (fv_cluster d) l bs.
Proof.
  intros [_ _ Hok Hne Hc _ _]. split; [|done]. by apply file_ok_chain in Hok as (_ & _ & ?).
Qed.

Lemma directory_equiv s s' p v l bs : s ≡ s' -> directory s p v l bs -> directory s' p v l bs.
Proof.
  intros Hs [H1 H2 H3 H4 H5 H6 H7]. pose proof Hs as (_ & Hv & Hh & _).
  constructor; try done; [by rewrite Hv|by rewrite <- Hs|by rewrite <- Hs|by rewrite Hh].
Qed.

(** Nothing but vnodes has changed, the directory's only in its cluster cache. *)
Lemma directory_set_fvs s p v l bs cache m :
  directory s p v l bs -> cache_ok l cache -> length cache = 16%nat ->
  m !! p = Some (set_fv_cls_cache cache v) -> directory (set_fvs m s) p (set_fv_cls_cache cache v) l bs.
Proof.
  intros [H1 H2 H3 H4 H5 H6 H7] Hca Hcl Hm. apply file_ok_chain in H3 as (_ & _ & Hch); [|done].
  constructor; try done. by apply file_ok_set_cache.
Qed.

(** The vnode at [entry_fv] filled in from an entry. *)
Definition fill (entry_fv : option nat) (dir_cluster : Z) (x : scan) (e : list Z) (m : gmap nat fat32fs_vnode) :=
  match entry_fv with
  | Some q => match m !! q with Some w => <[q := populate tb dir_cluster x e w]> m | None => m end
  | None => m
  end.

(** The answer of [fat32_get_dirent]. *)
Definition dirent_answer (c : Z) (x : scan) : Z * dirent * list Z * Z :=
  let next := u32 (current_offset x + FAT32_DENTRY_SIZE) in
  (next, mkDirent (fat32_pack_ino c (entry_start_offset x) (num_slots x)) next, d_name x, name_size x).

Definition get_dirent_post s (p : nat) (v : fat32fs_vnode) (l : list Z) (entry_fv : option nat)
    (answer : option scan_result) (r : res (Z * dirent * list Z * Z)) s' : Prop :=
  exists cache, cache_ok l cache /\ length cache = 16%nat /\
    let m := <[p := set_fv_cls_cache cache v]> (fvs s) in
    match answer with
    | Some (ScanFound x e) =>
        r = Ok (dirent_answer (fv_cluster v) x) /\ set_fvs (fill entry_fv (fv_cluster v) x e m) s ≡ s'
    | _ => r = Err ENOENT /\ set_fvs m s ≡ s'
    end.

(** The last step: the vnode is filled in. *)
Lemma wp_fill s p v entry_fv x e :
  fvs s !! p = Some v -> match entry_fv with Some q => is_Some (fvs s !! q) | None => True end ->
  wp (let* v := get_fv p in
      do* (match entry_fv with Some q => upd_fv q (populate tb (fv_cluster v) x e) | None => ret tt end) in
      let next := u32 (current_offset x + FAT32_DENTRY_SIZE) in
      ret (next, mkDirent (fat32_pack_ino (fv_cluster v) (entry_start_offset x) (num_slots x)) next,
           d_name x, name_size x)) s
    (okp (fun r s' => r = dirent_answer (fv_cluster v) x /\ s' = set_fvs (fill entry_fv (fv_cluster v) x e (fvs s)) s)).
Proof.
  intros Hv Hq. eapply wp_call_ok; [by apply wp_get_fv|]. intros ? ? [-> ->].
  destruct entry_fv as [q|]; cbn [fill].
  - destruct Hq as [w Hw]. eapply wp_call_ok; [by apply (wp_upd_fv _ _ w)|]. intros [] ? ->. apply wp_ret.
    split; [done|]. by rewrite Hw.
  - repeat wp_step. split; [done|]. by destruct s.
Qed.

Lemma wp_get_dirent s p v l bs off buf entry_fv :
  ready s -> directory s p v l bs -> 0 <= off < 2 ^ 32 -> off mod 32 = 0 -> length buf = 256%nat ->
  match entry_fv with Some q => q <> p /\ is_Some (fvs s !! q) | None => True end ->
  wp (fat32_get_dirent tb p off buf 256 entry_fv) s
    (get_dirent_post s p v l entry_fv (scan_dir bs off (mkScan off buf 256 false 0))).
Proof.
  intros Hr [Hv Hty Hok Hne Hc Hw Hlk] Hoff Hal Hbuf Hq. pose proof (ready_wf _ Hr) as Hwf.
  destruct (bpc_eq _ Hwf) as [Hb Hb0]. pose proof (contents_length _ _ _ Hwf Hc) as Hlen.
  destruct (position_eq (fsi s) off Hwf) as [Esh Emo]. destruct (skip_eq (fsi s) off Hwf) as [Esk Hskr]; [lia|].
  apply file_ok_chain in Hok as (Hca & Hcl16 & Hch); [|done].
  unfold fat32_get_dirent. repeat wp_step. eapply wp_call_ok; [by apply wp_get_fv|]. intros ? ? [-> ->].
  rewrite Hty, bool_decide_true by done. cbn [negb]. rewrite Esh, Emo.
  pose proof (Z.div_mod off (fsi_bytes_per_cluster (fsi s)) ltac:(lia)) as Hdm.
  pose proof (Z.mod_pos_bound off (fsi_bytes_per_cluster (fsi s)) ltac:(lia)) as Hmb.
  apply wp_bind, wp_try. eapply wp_mono.
  { apply (wp_vnode_seek_walk s p v l (off / fsi_bytes_per_cluster (fsi s)) 0); try done. intros E. by rewrite E in Hcl16. }
  intros r s1 (-> & cache & Hca1 & Hcl1 & Hs1). rewrite Hcl16 in Hcl1.
  destruct (l !! Z.to_nat (off / fsi_bytes_per_cluster (fsi s))) as [c|] eqn:Hclk; cbn [wpk].
  2:{ apply wp_throw. exists cache. split_and!; [done..|]. apply lookup_ge_None in Hclk.
      unfold scan_dir. by rewrite scan_cluster_end by nia. }
  pose proof Hs1 as (Hf1 & Hv1 & Hh1 & _). cbn in Hf1, Hv1, Hh1.
  pose proof (chain_length_bound s _ _ Hwf Hch) as Hlb.
  eapply wp_call.
  { apply (wp_get_dirent_loop (set_fvs (<[p := set_fv_cls_cache cache v]> (fvs s)) s) (fv_cluster v) l bs _
      (Z.to_nat (off / fsi_bytes_per_cluster (fsi s)))); try done; try lia.
    - by apply ready_set_fvs.
    - cbn. lia.
    - pose proof (bpc_aligned _ Hwf). Z.div_mod_to_equations. lia. }
  cbn [fsi set_fvs]. intros r s2 [Hs2 ->].
  replace (Z.of_nat (Z.to_nat (off / fsi_bytes_per_cluster (fsi s))) * fsi_bytes_per_cluster (fsi s) + off mod fsi_bytes_per_cluster (fsi s))
    with off by lia.
  destruct (scan_dir bs off (mkScan off buf 256 false 0)) as [[|x|x e]|]; cbn [scan_answer wpk];
    try (exists cache; by split_and!).
  pose proof Hs2 as (_ & Hv2 & _). cbn in Hv2. eapply wp_mono.
  { apply (wp_fill s2 p (set_fv_cls_cache cache v) entry_fv x e); rewrite Hv2; [apply lookup_insert_eq|].
    destruct entry_fv; [|done]. destruct Hq. by rewrite lookup_insert_ne. }
  intros [r| | | |] s3; try done. cbn [okp]. intros [-> ->]. exists cache. do 2 (split; [done|]).
  cbn zeta. split; [done|]. rewrite Hv2. exact (set_fvs_equiv _ _ _ Hs2).
Qed.

(** C18: [fat32_get_dirent] is a pure scan of the directory's bytes: whatever the
    bytes are, it reads no byte outside the clusters and writes none outside the
    name buffer, ends, and returns the first entry at or after the offset with
    its name, inode number and the offset behind it, or ENOENT.  Across clusters
    it sees one array of bytes.  Nothing changes but the cluster cache of the
    directory and the vnode that is to be filled in. *)
Theorem get_dirent_correct s p v l bs off buf entry_fv :
  ready s -> directory s p v l bs -> 0 <= off < 2 ^ 32 -> off mod 32 = 0 -> length buf = 256%nat ->
  match entry_fv with Some q => q <> p /\ is_Some (fvs s !! q) | None => True end ->
  wp (fat32_get_dirent tb p off buf 256 entry_fv) s
    (get_dirent_post s p v l entry_fv (scan_dir bs off (mkScan off buf 256 false 0))).
Proof. apply wp_get_dirent. Qed.

End get_dirent.

(** ** The entries of a directory and the search for a name *)

(** The entries from offset [off], each with the scan that found it; [buf] is
    what the name buffer holds before. *)
Fixpoint entries (n : nat) (bs : list Z) (off : Z) (buf : list Z) : list (scan * list Z) :=
  match n with
  | O => []
  | S n' =>
      match bput buf 0 [0] with
      | None => []
      | Some buf' =>
          match scan_dir bs off (mkScan off buf' 256 false 0) with
          | Some (ScanFound x e) => (x, e) :: entries n' bs (u32 (current_offset x + FAT32_DENTRY_SIZE)) (d_name x)
          | _ => []
          end
      end
  end.
Definition listing (bs : list Z) (buf : list Z) : list (scan * list Z) := entries (length bs) bs 0 buf.

(** The comparison of [fat32_find_dirent]. *)
Definition has_name (name : list Z) (y : scan * list Z) : bool :=
  (name_size y.1 =? Z.of_nat (length name)) && names_match name (d_name y.1).

(** The first entry with a name. *)
Definition lookup_name (bs buf name : list Z) : option (scan * list Z) := List.find (has_name name) (listing bs buf).

(** Where a found entry lies. *)
Lemma scan_dir_found bs off buf x e :
  0 <= off -> off mod 32 = 0 -> Z.of_nat (length bs) mod 32 = 0 -> Z.of_nat (length bs) < 2 ^ 32 -> length buf = 256%nat ->
  scan_dir bs off (mkScan off buf 256 false 0) = Some (ScanFound x e) ->
  scan_ok x /\ off <= current_offset x /\ current_offset x + 32 <= Z.of_nat (length bs) /\
  current_offset x mod 32 = 0 /\ bsub bs (current_offset x) 32 = Some e.
Proof.
  intros Hoff Hal Hlen Hw Hbuf Hscan. unfold scan_dir in Hscan.
  destruct (Z.le_gt_cases (Z.of_nat (length bs)) off); [by rewrite scan_cluster_end in Hscan|].
  destruct (scan_cluster_total (length bs) (Z.of_nat (length bs)) bs off (mkScan off buf 256 false 0)) as (r & Hr & Hok);
    [done|lia|Z.div_mod_to_equations; lia|lia|lia|cbn; lia|].
  rewrite Hscan in Hr. injection Hr as <-. destruct Hok as (Hx & k & Hk & Hkl & Hc & He). cbn [current_offset] in Hc.
  rewrite u32_small in Hc by lia. rewrite Hc. split_and!; try done; [lia|Z.div_mod_to_equations; lia|Z.div_mod_to_equations; lia].
Qed.

Lemma entries_fuel n m bs off buf :
  0 <= off -> off mod 32 = 0 -> Z.of_nat (length bs) mod 32 = 0 -> Z.of_nat (length bs) < 2 ^ 32 -> length buf = 256%nat ->
  Z.of_nat (length bs) - off <= 32 * Z.of_nat n -> Z.of_nat (length bs) - off <= 32 * Z.of_nat m ->
  entries n bs off buf = entries m bs off buf.
Proof.
  intros Hoff Hal Hlen Hw. revert m off buf Hoff Hal. induction n as [|n IH]; intros m off buf Hoff Hal Hbuf Hn Hm.
  - destruct m as [|m]; [done|]. cbn [entries]. destruct (bput buf 0 [0]) as [buf'|]; [|done].
    unfold scan_dir. by rewrite scan_cluster_end by lia.
  - destruct m as [|m].
    { cbn [entries]. destruct (bput buf 0 [0]) as [buf'|]; [|done]. unfold scan_dir. by rewrite scan_cluster_end by lia. }
    cbn [entries]. destruct (bput buf 0 [0]) as [buf'|] eqn:Hb; [|done]. apply bput_length in Hb.
    destruct (scan_dir bs off _) as [[|x|x e]|] eqn:Hs; try done.
    apply scan_dir_found in Hs as ([Hx _] & H1 & H2 & H3 & _); [|done..|congruence]. f_equal.
    unfold FAT32_DENTRY_SIZE. rewrite u32_small by lia. apply IH; try done; try lia. Z.div_mod_to_equations. lia.
Qed.

Section find_dirent.
Context {K : Type} `{!Kernel K, !KernelLaws K}.
Context (tb : Z).
Implicit Types s : st K.

(** The search has filled the vnode at [q] from the entry found, or left it
    empty; the directory has another cluster cache. *)
Definition find_post s (p : nat) (v : fat32fs_vnode) (l : list Z) (q : nat) (w : fat32fs_vnode)
    (found : option (scan * list Z)) (r : res unit) s' : Prop :=
  exists cache, cache_ok l cache /\ length cache = 16%nat /\
    let w' := vnode_reset (fsi s) w in
    let m := <[p := set_fv_cls_cache cache v]> (fvs s) in
    match found with
    | Some (x, e) => r = Ok tt /\ set_fvs (<[q := populate tb (fv_cluster v) x e w']> m) s ≡ s'
    | None => r = Err ENOENT /\ set_fvs (<[q := w']> m) s ≡ s'
    end.

Lemma reset_populate f c x e w : vnode_reset f (populate tb c x e w) = vnode_reset f w.
Proof. done. Qed.

(** The state between two rounds. *)
Definition find_inv s (p : nat) (v : fat32fs_vnode) (l : list Z) (q : nat) (w : fat32fs_vnode) s1 : Prop :=
  exists cache w1, cache_ok l cache /\ length cache = 16%nat /\ vnode_reset (fsi s) w1 = vnode_reset (fsi s) w /\
    set_fvs (<[q := w1]> (<[p := set_fv_cls_cache cache v]> (fvs s))) s ≡ s1.

Lemma set_fvs_again (s s1 : st K) m1 m : set_fvs m1 s ≡ s1 -> set_fvs m s ≡ set_fvs m s1.
Proof. exact (set_fvs_equiv _ _ m). Qed.

Lemma insert_cache (m : gmap nat fat32fs_vnode) p q a b c :
  q <> p -> <[p := a]> (<[q := b]> (<[p := c]> m)) = <[q := b]> (<[p := a]> m).
Proof. intros Hqp. rewrite (insert_insert_ne _ p q) by done. by rewrite insert_insert_eq. Qed.

(** The vnode is emptied and the next entry is read. *)
Lemma wp_find_round s p v l bs q w off buf s1 :
  ready s -> directory s p v l bs -> q <> p -> find_inv s p v l q w s1 ->
  0 <= off < 2 ^ 32 -> off mod 32 = 0 -> length buf = 256%nat ->
  wp (do* fat32_vnode_reset q in fat32_get_dirent tb p off buf 256 (Some q)) s1 (fun r s' =>
    exists cache, cache_ok l cache /\ length cache = 16%nat /\
    let w' := vnode_reset (fsi s) w in
    let m := <[p := set_fv_cls_cache cache v]> (fvs s) in
    match scan_dir bs off (mkScan off buf 256 false 0) with
    | Some (ScanFound x e) =>
        r = Ok (dirent_answer (fv_cluster v) x) /\ set_fvs (<[q := populate tb (fv_cluster v) x e w']> m) s ≡ s'
    | _ => r = Err ENOENT /\ set_fvs (<[q := w']> m) s ≡ s'
    end).
Proof.
  intros Hr Hdir Hqp (cache & w1 & Hca & Hcl & Hw1 & Hs1) Hoff Hal Hbuf. pose proof Hs1 as (Hf1 & Hv1 & Hh1 & _). cbn in Hf1, Hv1, Hh1.
  unfold fat32_vnode_reset. repeat wp_step.
  eapply wp_mono; [apply (wp_upd_fv _ _ w1); by rewrite Hv1, lookup_insert_eq|].
  intros [[]| | | |] ?; try done. cbn [okp wpk]. intros ->.
  rewrite Hv1, Hf1, Hw1, insert_insert_eq. set (w' := vnode_reset (fsi s) w). set (m := <[q := w']> _).
  assert (set_fvs m s ≡ set_fvs m s1) as Hs2 by (by eapply set_fvs_again).
  eapply wp_mono.
  { apply (wp_get_dirent tb (set_fvs m s1) p (set_fv_cls_cache cache v) l bs off buf (Some q)); try done.
    - rewrite <- Hs2. by apply ready_set_fvs.
    - apply (directory_equiv (set_fvs m s)); [done|]. apply directory_set_fvs; try done.
      unfold m. by rewrite lookup_insert_ne, lookup_insert_eq.
    - split; [done|]. unfold m. cbn [fvs set_fvs]. rewrite lookup_insert_eq. by eexists. }
  intros r s' (cache' & Hca' & Hcl' & H). cbn [fvs set_fvs] in H.
  exists cache'. split; [done|]. split; [done|]. cbn zeta.
  assert (forall m', set_fvs m' s ≡ set_fvs m' (set_fvs m s1)) as Hsm.
  { intros m'. by eapply set_fvs_again. }
  assert (<[p := set_fv_cls_cache cache' (set_fv_cls_cache cache v)]> m = <[q := w']> (<[p := set_fv_cls_cache cache' v]> (fvs s))) as Em
    by (by apply insert_cache).
  rewrite Em in H. destruct (scan_dir bs off (mkScan off buf 256 false 0)) as [[|x|x e]|]; destruct H as [-> H]; (split; [done|]);
    try (etrans; [apply Hsm|exact H]).
  cbn [fill] in H. rewrite lookup_insert_eq, insert_insert_eq in H. etrans; [apply Hsm|exact H].
Qed.

Lemma wp_find_loop s p v l bs q w name fuel n off buf s1 :
  ready s -> directory s p v l bs -> q <> p -> find_inv s p v l q w s1 ->
  0 <= off <= Z.of_nat (length bs) -> off mod 32 = 0 -> length buf = 256%nat ->
  Z.of_nat (length bs) - off < 32 * Z.of_nat fuel -> Z.of_nat (length bs) - off <= 32 * Z.of_nat n ->
  wp (iter fuel (find_dirent_step tb p name (Some q)) (off, buf)) s1
    (find_post s p v l q w (List.find (has_name name) (entries n bs off buf))).
Proof.
  intros Hr Hdir Hqp. pose proof Hdir as [_ _ Hok Hne Hc Hw _].
  apply file_ok_chain in Hok as (_ & _ & Hch); [|done].
  pose proof (dir_length_aligned s _ _ _ Hr (conj Hch Hc)) as Hlen.
  revert n off buf s1. induction fuel as [|fuel IH]; intros n off buf s1 Hinv Hoff Hal Hbuf Hfuel Hn; [lia|].
  rewrite (entries_fuel n (S n)) by (done || lia). cbn [iter entries]. apply wp_bind. unfold find_dirent_step.
  destruct (bput_total buf 0 [0]) as (buf' & -> & Hb'); [done|cbn; lia|]. rewrite Hbuf in Hb'. cbn [of_opt]. repeat wp_step.
  change (FAT32_MAX_NAME + 1) with 256. apply wp_bind_assoc.
  eapply wp_call; [by apply (wp_find_round s p v l bs q w off buf'); try lia|].
  intros r s2 (cache & Hca & Hcl & H). cbn zeta in H.
  destruct (scan_dir bs off (mkScan off buf' 256 false 0)) as [[|x|x e]|] eqn:Hscan;
    destruct H as [-> H]; cbn [wpk dirent_answer]; try (exists cache; by split_and!).
  apply scan_dir_found in Hscan as ([Hx _] & H1 & H2 & H3 & _); [|lia|done..].
  cbn [List.find]. unfold has_name at 1. cbn [fst snd]. destruct (_ && _) eqn:Hm; apply wp_ret; cbn [wpk].
  - exists cache. by split_and!.
  - unfold FAT32_DENTRY_SIZE. rewrite u32_small by lia.
    apply IH; [|lia|Z.div_mod_to_equations; lia|done|lia|lia].
    exists cache, (populate tb (fv_cluster v) x e (vnode_reset (fsi s) w)). by split_and!.
Qed.

(** [off]set 0 and the fuel of [fat32_find_dirent]. *)
Lemma wp_find_dirent s p v l bs q w name stack :
  ready s -> directory s p v l bs -> q <> p -> fvs s !! q = Some w ->
  length stack = 256%nat -> (length name <= 255)%nat ->
  wp (fat32_find_dirent tb p name stack (Some q)) s (find_post s p v l q w (lookup_name bs stack name)).
Proof.
  intros Hr Hdir Hqp Hq Hst Hname. pose proof Hdir as [Hv Hty Hok Hne Hc Hw _]. pose proof (ready_wf _ Hr) as Hwf.
  apply file_ok_chain in Hok as (Hca & Hcl & Hch); [|done]. destruct (bpc_eq _ Hwf) as [Hb Hb0].
  pose proof (contents_length _ _ _ Hwf Hc) as Hlen. pose proof (chain_length_bound s _ _ Hwf Hch) as Hlb.
  unfold fat32_find_dirent. repeat wp_step. eapply wp_call_ok; [by apply wp_get_fv|]. intros ? ? [-> ->].
  rewrite Hty, bool_decide_true by done. cbn [negb]. change (Z.to_nat (MAXNAMELEN - 1)) with 255%nat.
  rewrite take_ge by lia. apply wp_find_loop; try done; try nia.
  exists (fv_cls_cache v), w. split_and!; try done. cbn.
  rewrite (insert_id (fvs s) p) by (by destruct v). by rewrite insert_id.
Qed.

(** C19: [fat32_find_dirent] finds the first entry of the directory's listing
    whose name equals the given one up to the case of ASCII letters, and fills in
    the vnode from exactly this entry; if there is none it leaves an empty vnode
    and returns ENOENT.  It returns for every directory and changes nothing else
    but the directory's cluster cache. *)
Theorem find_dirent_correct s p v l bs q w name stack :
  ready s -> directory s p v l bs -> q <> p -> fvs s !! q = Some w ->
  length stack = 256%nat -> (length name <= 255)%nat ->
  wp (fat32_find_dirent tb p name stack (Some q)) s (find_post s p v l q w (lookup_name bs stack name)).
Proof. apply wp_find_dirent. Qed.

End find_dirent.
