(* ===== verification/Remove.v ===== *)
(** * Deleting entries and testing for emptiness

    [fat32_delete_fdentry_chain] marks exactly the slots it is given, also
    across clusters; [fat32_dirempty] answers by the entries before the end
    marker. *)
From S2P Require Import Prelude Layout Time Names Kernel Device Cls Fat Demo Alloc Chain Free Cache File Truncate Access Io IoSpec WriteSpec Dir DirSpec LfnSpec Vnode Nameops Listing.

(** The bytes of a directory with the [n] slots from [off] marked as deleted. *)
Definition mark_deleted (bs : list Z) (off : Z) (n : nat) : list Z :=
  imap (fun j b => if decide (off <= Z.of_nat j < off + 32 * Z.of_nat n /\ (Z.of_nat j - off) mod 32 = 0)
                   then FAT32_LFN_DELETED else b) bs.

Lemma mark_deleted_length bs off n : length (mark_deleted bs off n) = length bs.
Proof. apply length_imap. Qed.

Lemma mark_deleted_0 bs off : mark_deleted bs off 0 = bs.
Proof.
  apply list_eq. intros j. unfold mark_deleted. rewrite list_lookup_imap.
  destruct (bs !! j); cbn; [|done]. by rewrite decide_False by lia.
Qed.

(** One more slot. *)
Lemma mark_deleted_succ bs off n :
  0 <= off -> off + 32 * Z.of_nat n < Z.of_nat (length bs) ->
  mark_deleted bs off (S n) = splice (mark_deleted bs off n) (Z.to_nat (off + 32 * Z.of_nat n)) [FAT32_LFN_DELETED].
Proof.
  intros Hoff Hlt. apply list_eq. intros j.
  rewrite lookup_splice by (rewrite mark_deleted_length; cbn; lia). unfold mark_deleted. rewrite !list_lookup_imap. cbn [length].
  destruct (decide (Z.to_nat (off + 32 * Z.of_nat n) <= j < Z.to_nat (off + 32 * Z.of_nat n) + 1)%nat) as [Hj|Hj].
  - assert (j = Z.to_nat (off + 32 * Z.of_nat n)) as -> by lia. rewrite Nat.sub_diag. cbn.
    destruct (bs !! _) eqn:E; [|apply lookup_ge_None in E; lia]. cbn. rewrite decide_True; [done|].
    split; [lia|]. replace (_ - off) with (Z.of_nat n * 32) by lia. by apply Z.mod_mul.
  - destruct (bs !! j); [|done]. cbn. f_equal. apply decide_ext. split; intros [H1 H2]; (split; [|done]); [|lia].
    assert (Z.of_nat j <> off + 32 * Z.of_nat n) by lia.
    assert (Z.of_nat j - off < 32 * Z.of_nat n); [|lia]. Z.div_mod_to_equations. lia.
Qed.

(** Marking stops at the end of the directory. *)
Lemma mark_deleted_end bs off n m :
  (n <= m)%nat -> Z.of_nat (length bs) <= off + 32 * Z.of_nat n -> mark_deleted bs off m = mark_deleted bs off n.
Proof.
  intros Hnm Hend. apply list_eq. intros j. unfold mark_deleted. rewrite !list_lookup_imap.
  destruct (bs !! j) eqn:E; [|done]. apply lookup_lt_Some in E. cbn. f_equal. apply decide_ext. lia.
Qed.

Lemma mark_deleted_bytes bs off n : Forall is_byte bs -> Forall is_byte (mark_deleted bs off n).
Proof.
  rewrite !Forall_lookup. intros H j b. unfold mark_deleted. rewrite list_lookup_imap.
  destruct (bs !! j) as [c|] eqn:E; [|done]. cbn. intros [= <-]. case_decide; [done|eauto].
Qed.

Lemma splice_slice {A} (l : list A) i n : (i + n <= length l)%nat -> splice l i (slice l i n) = l.
Proof.
  intros Hl. apply list_eq. intros j. rewrite lookup_splice by (rewrite slice_length; lia). rewrite slice_length by lia.
  case_decide; [|done]. unfold slice. rewrite lookup_take_lt, lookup_drop by lia. f_equal. lia.
Qed.

(** A change inside the bytes that replace a part. *)
Lemma splice_nested {A} (l : list A) i new o x :
  (i + length new <= length l)%nat -> (o + length x <= length new)%nat ->
  splice l i (splice new o x) = splice (splice l i new) (i + o) x.
Proof.
  intros Hl Ho. assert (length (splice new o x) = length new) as Hn by (by apply length_splice).
  apply list_eq. intros j. rewrite lookup_splice by lia. rewrite Hn.
  rewrite (lookup_splice (splice l i new)) by (rewrite length_splice; lia).
  rewrite (lookup_splice l i new) by lia.
  case_decide as Hj; [|by rewrite decide_False by lia].
  rewrite (lookup_splice new) by lia. destruct (decide (o <= j - i < o + length x)%nat).
  - rewrite !decide_True by lia. f_equal. lia.
  - by rewrite !decide_False by lia.
Qed.

(** ** Marking the slots *)

Section delete.
Context {K : Type} `{!Kernel K, !KernelLaws K}.
Implicit Types s : st K.

(** The buffer of cluster [k] of a directory holds the bytes [d]. *)
Record dir_buffer s (l : list Z) (k : nat) (x : Z) (bp : buf) : Prop := {
  db_at : l !! k = Some x;
  db_blkno : b_blkno bp = fat32_cluster_to_sector (fsi s) x;
  db_bcount : b_bcount bp = fsi_sectors_per_cluster (fsi s);
  db_length : length (b_addr bp) = bpc (fsi s);
  db_bytes : Forall is_byte (b_addr bp)
}.

Lemma dir_buffer_addr s l k x bp d :
  dir_buffer s l k x bp -> length d = bpc (fsi s) -> Forall is_byte d -> dir_buffer s l k x (set_b_addr d bp).
Proof. intros []. by constructor. Qed.

Lemma dir_change_equiv s c l bs s1 s2 : s1 ≡ s2 -> dir_change s c l bs s1 -> dir_change s c l bs s2.
Proof.
  intros Hs (Hr & Hf & Hv & Hh & [Hch Hc] & Hk & Hd). pose proof Hs as (Ef & Ev & Eh & Ew).
  split_and!; [by rewrite <- Hs|congruence..|split; [by rewrite <- Hs|by rewrite <- Hs]| |].
  - intros c2 l2 H2 Hd2. destruct (Hk c2 l2 H2 Hd2). split; [by rewrite <- Hs|done].
  - intros x Hx Hn. rewrite Ew. by apply Hd.
Qed.

Lemma wp_write_dir_cluster s c l bs s1 k x bp :
  dir_change s c l bs s1 -> dir_buffer s l k x bp ->
  wp (do_bdwrite bp) s1 (okp (fun _ s' => dir_change s c l (splice bs (k * bpc (fsi s)) (b_addr bp)) s')).
Proof.
  intros (Hr1 & Hf1 & Hv1 & Hh1 & [Hch Hc] & Hk & Hdk) [Hx Hb Hn Hl Hby]. pose proof (ready_wf _ Hr1) as Hwf.
  destruct (contents_slice s1 l bs k x Hwf Hc Hx) as (d & Hd & Hdl & _).
  pose proof (chain_range _ _ _ _ Hch) as Hrg.
  assert (in_range (fsi s1) x) as Hxr by (rewrite Forall_lookup in Hrg; eauto).
  rewrite <- Hf1 in *. replace bp with (set_b_addr (b_addr bp) bp) at 1 by (by destruct bp).
  eapply wp_mono; [by apply (wp_write_cluster s1 bp x d (b_addr bp)); try congruence|].
  intros [[]| | | |] s2; try done. cbn [okp]. intros Hput. pose proof Hput as (Ef2 & Ev2 & Eh2 & _).
  split; [by eapply put_ready|]. split; [congruence|]. do 2 (split; [congruence|]). split; [split|split].
  - by eapply (put_chain s1).
  - replace (k * bpc (fsi s1))%nat with (k * bpc (fsi s1) + 0)%nat by lia.
    eapply (put_contents s1); try done; [by eapply chain_NoDup| |lia].
    unfold splice. cbn. rewrite drop_ge by lia. by rewrite app_nil_r.
  - eapply keeps_trans; [done|]. by eapply put_keeps.
  - eapply data_keeps_weaken; [|eapply (data_keeps_trans s l s1 [x] s2); [by rewrite Hf1|done|by eapply put_data]].
    intros y. rewrite elem_of_app, list_elem_of_singleton. intros [?| ->]; [done|]. by eapply list_elem_of_lookup_2.
Qed.

(** The buffer of cluster [k] as it is read from the directory. *)
Lemma wp_read_dir_cluster s c l bs s1 k x {A} (m : buf -> M (st K) A) Q :
  dir_change s c l bs s1 -> l !! k = Some x ->
  (forall bp s2, dir_buffer s l k x bp -> dir_change s c l bs s2 ->
     b_addr bp = slice bs (k * bpc (fsi s)) (bpc (fsi s)) -> wp (m bp) s2 Q) ->
  wp (let* bp := fat32_read_cluster x in do* check_buf bp in m bp) s1 Q.
Proof.
  intros Hch Hx Hm. pose proof Hch as (Hr1 & Hf1 & _ & _ & [_ Hc] & _). pose proof (ready_wf _ Hr1) as Hwf.
  destruct (contents_slice s1 l bs k x Hwf Hc Hx) as (d & Hd & Hdl & Hsl). rewrite Hf1 in *.
  eapply wp_call_ok; [by apply wp_read_cluster|]. intros bp s2 (Eb & En & Ee & Ea & Hs2 & Hcl). rewrite Hf1 in *.
  eapply wp_call_ok; [by apply wp_check_buf_ok|]. intros [] ? ->. apply Hm.
  - constructor; try congruence. rewrite Ea. by eapply view_bytes.
  - by eapply dir_change_equiv.
  - rewrite <- (Nat.add_0_r (k * _)), Hsl, Ea by lia. unfold slice. rewrite drop_0, take_ge; [done|lia].
Qed.

(** Between two rounds: [m] slots are marked, the last of them perhaps only in
    the buffer of cluster [k]; the next one is at [co] of it. *)
Definition delete_inv s (c : Z) (l bs : list Z) (off : Z) (m k : nat) (x co : Z) (bp : buf) s1 : Prop :=
  exists B, dir_change s c l B s1 /\ dir_buffer s l k x bp /\
    splice B (k * bpc (fsi s)) (b_addr bp) = mark_deleted bs off m /\
    off + 32 * Z.of_nat m = Z.of_nat k * fsi_bytes_per_cluster (fsi s) + co /\
    0 <= co <= fsi_bytes_per_cluster (fsi s) /\ co mod 32 = 0.

Lemma dir_change_length s c l bs bs' s' :
  ready s -> dir_at s c l bs -> dir_change s c l bs' s' -> length bs' = length bs.
Proof.
  intros Hr [_ Hc] (Hr' & Hf & _ & _ & [_ Hc'] & _).
  rewrite (contents_length _ _ _ (ready_wf _ Hr) Hc), (contents_length _ _ _ (ready_wf _ Hr') Hc'). by rewrite Hf.
Qed.

(** The buffer is written and the next cluster is read when it is used up. *)
Lemma wp_delete_advance s c l bs off m k x co bp s1 :
  ready s -> dir_at s c l bs -> delete_inv s c l bs off m k x co bp s1 ->
  wp (if fsi_bytes_per_cluster (fsi s) <=? co then
        do* do_bdwrite bp in
        let* next := fat32_next_cluster x 0 in
        let* bp := fat32_read_cluster next in
        do* check_buf bp in
        ret (next, 0, bp)
      else ret (x, co, bp)) s1 (fun r s2 =>
    match r with
    | Ok (x', co', bp') => exists k', delete_inv s c l bs off m k' x' co' bp' s2 /\ co' < fsi_bytes_per_cluster (fsi s)
    | Err e => e = ENOSPC /\ off + 32 * Z.of_nat m = Z.of_nat (length bs) /\ dir_change s c l (mark_deleted bs off m) s2
    | _ => False
    end).
Proof.
  intros Hr Hd Hinv. pose proof (ready_wf _ Hr) as Hwf. destruct (bpc_eq _ Hwf) as [Hb Hb0].
  pose proof (contents_length _ _ _ Hwf (proj2 Hd)) as Hlen.
  destruct (Z.leb_spec (fsi_bytes_per_cluster (fsi s)) co); [|apply wp_ret; eauto].
  destruct Hinv as (B & Hch & Hbuf & Hm & Hpos & Hco & Hal). pose proof (db_at _ _ _ _ _ Hbuf) as Hx.
  eapply wp_call_ok; [by apply (wp_write_dir_cluster s c l B s1 k x)|]. rewrite Hm. intros [] s2 Hch2.
  pose proof Hch2 as (Hr2 & _ & _ & _ & [Hc2 _] & _). apply lookup_lt_Some in Hx as Hlt.
  eapply wp_call; [by apply (wp_next_of_chain s2 c l k x)|]. intros r s3 [-> Hs3].
  apply (dir_change_equiv _ _ _ _ _ _ Hs3) in Hch2. destruct (l !! S k) as [y|] eqn:Hy; cbn [wpk].
  - apply lookup_lt_Some in Hy as Hlt'.
    eapply (wp_read_dir_cluster s c l (mark_deleted bs off m) s3 (S k) y); [done|done|].
    intros bp' s4 Hbuf' Hch4 Ea. apply wp_ret. exists (S k). split; [|lia]. exists (mark_deleted bs off m).
    split_and!; try done; try lia. rewrite Ea. apply splice_slice. rewrite mark_deleted_length. nia.
  - apply lookup_ge_None in Hy. split_and!; [done|nia|done].
Qed.

Lemma wp_delete_slots s c l bs off n m k x co bp s1 :
  ready s -> dir_at s c l bs -> 0 <= off -> delete_inv s c l bs off m k x co bp s1 ->
  wp (delete_slots n x co bp) s1 (fun r s' =>
    r = (if decide (off + 32 * Z.of_nat (m + n) <= Z.of_nat (length bs)) then Ok tt else Err ENOSPC) /\
    dir_change s c l (mark_deleted bs off (m + n)) s').
Proof.
  intros Hr Hd Hoff. pose proof (ready_wf _ Hr) as Hwf. destruct (bpc_eq _ Hwf) as [Hb Hb0].
  pose proof (contents_length _ _ _ Hwf (proj2 Hd)) as Hlen. pose proof (wf_spc_shift _ Hwf) as Hsh.
  revert m k x co bp s1. induction n as [|n IH]; intros m k x co bp s1 Hinv.
  - destruct Hinv as (B & Hch & Hbuf & Hm & Hpos & Hco & Hal). pose proof (lookup_lt_Some _ _ _ (db_at _ _ _ _ _ Hbuf)).
    cbn [delete_slots]. eapply wp_mono; [by apply (wp_write_dir_cluster s c l B s1 k x)|]. rewrite Hm, Nat.add_0_r.
    intros [[]| | | |] s2 Hch2; try done. split; [|done]. by rewrite decide_True by nia.
  - cbn [delete_slots]. repeat wp_step. destruct Hinv as (B & Hch & Hrest). pose proof Hch as (_ & Hf1 & _). rewrite Hf1.
    eapply wp_call; [apply (wp_delete_advance s c l bs off m k x co bp s1 Hr Hd); by exists B|].
    intros [[[x' co'] bp']|e| | |] s2 H; try done; cbn [wpk].
    2:{ destruct H as (-> & Hend & Hch2). rewrite decide_False by lia. split; [done|].
        by rewrite (mark_deleted_end bs off m) by lia. }
    destruct H as (k' & (B' & Hch2 & Hbuf & Hm & Hpos & Hco & Hal) & Hlt). pose proof (db_length _ _ _ _ _ Hbuf) as Hbl.
    pose proof (lookup_lt_Some _ _ _ (db_at _ _ _ _ _ Hbuf)) as Hk.
    assert (length B' = length bs) as HB by (by eapply dir_change_length).
    assert (co' + 32 <= fsi_bytes_per_cluster (fsi s)) as Hco' by (pose proof (bpc_aligned _ Hwf); Z.div_mod_to_equations; lia).
    rewrite splice_bput by (cbn; lia). cbn [of_opt]. repeat wp_step.
    replace (m + S n)%nat with (S m + n)%nat by lia. unfold FAT32_DENTRY_SIZE. rewrite u32_small by lia.
    apply (IH (S m) k'). exists B'. split_and!; try done; try lia.
    + apply dir_buffer_addr; [done|by rewrite length_splice by (cbn; lia)|].
      apply splice_bytes; [apply Hbuf|by repeat constructor].
    + cbn [b_addr set_b_addr]. rewrite splice_nested, Hm by (cbn; nia).
      rewrite mark_deleted_succ by nia. f_equal. nia.
    + Z.div_mod_to_equations. lia.
Qed.

Lemma wp_delete_chain s c l bs off count :
  ready s -> dir_at s c l bs -> 0 <= off -> off mod 32 = 0 -> 0 <= count ->
  wp (fat32_delete_fdentry_chain c off count) s (fun r s' =>
    if decide (off < Z.of_nat (length bs)) then
      r = (if decide (off + 32 * count <= Z.of_nat (length bs)) then Ok tt else Err ENOSPC) /\
      dir_change s c l (mark_deleted bs off (Z.to_nat count)) s'
    else r = Err ENOSPC /\ s ≡ s').
Proof.
  intros Hr Hd Hoff Hal Hcount. pose proof (ready_wf _ Hr) as Hwf. destruct (bpc_eq _ Hwf) as [Hb Hb0].
  pose proof (contents_length _ _ _ Hwf (proj2 Hd)) as Hlen.
  destruct (entry_in_cluster (fsi s) off Hwf Hoff Hal) as (Eoff & Hsk & Ho & Ho32).
  unfold fat32_delete_fdentry_chain. repeat wp_step. set (k := Z.to_nat (Z.shiftr off (fsi_cluster_shift (fsi s)))).
  set (co := Z.land off (fsi_cluster_mask (fsi s))) in *.
  eapply wp_call; [by apply (wp_seek_cluster s c l (Z.shiftr off (fsi_cluster_shift (fsi s))) 0); try apply Hd|].
  fold k. intros r s1 [Hs1 ->]. destruct (l !! k) as [x|] eqn:Hx; cbn [wpk].
  2:{ apply lookup_ge_None in Hx. by rewrite decide_False by nia. }
  apply lookup_lt_Some in Hx as Hlt. assert (off < Z.of_nat (length bs)) as Hin by nia.
  eapply (wp_read_dir_cluster s c l bs s1 k x); [by apply (dir_change_equiv _ _ _ _ s), dir_change_refl|done|].
  intros bp s2 Hbuf Hch Ea.
  eapply wp_mono.
  { apply (wp_delete_slots s c l bs off (Z.to_nat count) 0 k x co bp s2 Hr Hd Hoff). exists bs. split_and!; try done; try lia.
    - rewrite Ea, mark_deleted_0. apply splice_slice. nia.
    - pose proof (bpc_aligned _ Hwf) as Hba. Z.div_mod_to_equations. nia. }
  intros r s' [-> H]. rewrite (decide_True _ _ Hin), Nat.add_0_l, Z2Nat.id in * by lia. by split.
Qed.

(** C24: [fat32_delete_fdentry_chain] overwrites the first byte of each of the
    [count] slots from an aligned offset with the deletion mark, across
    clusters, and changes no other byte of the directory, no chain, no other
    file and no vnode.  If the directory ends before that, the slots up to its
    end are marked and the error is ENOSPC; from behind the end nothing
    happens. *)
Theorem delete_chain_correct s c l bs off count :
  ready s -> dir_at s c l bs -> 0 <= off -> off mod 32 = 0 -> 0 <= count ->
  wp (fat32_delete_fdentry_chain c off count) s (fun r s' =>
    if decide (off < Z.of_nat (length bs)) then
      r = (if decide (off + 32 * count <= Z.of_nat (length bs)) then Ok tt else Err ENOSPC) /\
      dir_change s c l (mark_deleted bs off (Z.to_nat count)) s'
    else r = Err ENOSPC /\ s ≡ s').
Proof. apply wp_delete_chain. Qed.

End delete.

(** ** Emptiness *)

(** The slots from [off] up to the end marker, at most [n]. *)
Fixpoint live_slots (n : nat) (bs : list Z) (off : nat) : list (list Z) :=
  match n with
  | O => []
  | S n' => let e := slice bs off 32 in
            if nth 0 (get83 e D83.name) 0 =? 0 then [] else e :: live_slots n' bs (off + 32)
  end.
Definition dir_slots (bs : list Z) : list (list Z) := live_slots (length bs / 32) bs 0.

(** A slot that makes a directory non-empty: not deleted, no volume label or
    long-name slot, and not "." or "..". *)
Definition counts (e : list Z) : bool :=
  negb (nth 0 (get83 e D83.name) 0 =? FAT32_LFN_DELETED) &&
  negb (flag (nth 0 (get83 e D83.attr) 0) FAT32_ATTR_VOLUME_ID) &&
  negb (nth 0 (get83 e D83.name) 0 =? 46).
Definition occupied (bs : list Z) : bool := existsb counts (dir_slots bs).

(** The test for long-name slots comes after one that they all pass. *)
Lemma empty_scan_unfold n bytes_per_cluster data off e :
  off < bytes_per_cluster -> bsub data off 32 = Some e ->
  empty_scan (S n) bytes_per_cluster data off =
  if nth 0 (get83 e D83.name) 0 =? 0 then Some EmptyEnd
  else if counts e then Some EmptyNot else empty_scan n bytes_per_cluster data (off + 32).
Proof.
  intros Hlt He. cbn [empty_scan]. rewrite (proj2 (Z.ltb_lt _ _) Hlt). cbn [negb]. rewrite He. unfold counts.
  destruct (_ =? 0x00); [done|]. destruct (_ =? FAT32_LFN_DELETED); [done|].
  destruct (flag _ FAT32_ATTR_VOLUME_ID) eqn:Hv; [done|].
  destruct (_ =? FAT32_ATTR_LONG_NAME) eqn:Hl; [apply Z.eqb_eq in Hl; by rewrite Hl in Hv|].
  by destruct (_ =? 46).
Qed.

Lemma empty_scan_live n N bytes_per_cluster data bs base co :
  (forall o, 0 <= o -> o + 32 <= bytes_per_cluster -> bsub data o 32 = Some (slice bs (base + Z.to_nat o) 32)) ->
  0 <= co <= bytes_per_cluster -> (bytes_per_cluster - co) mod 32 = 0 -> bytes_per_cluster - co <= 32 * Z.of_nat n ->
  bytes_per_cluster - co <= 32 * Z.of_nat N ->
  exists r, empty_scan n bytes_per_cluster data co = Some r /\
    existsb counts (live_slots N bs (base + Z.to_nat co)) =
    match r with
    | EmptyEnd => false
    | EmptyNot => true
    | EmptyNext => existsb counts (live_slots (N - Z.to_nat ((bytes_per_cluster - co) / 32)) bs
                                     (base + Z.to_nat bytes_per_cluster))
    end.
Proof.
  intros Hsub. revert N co. induction n as [|n IH]; intros N co Hco Hal Hn HN.
  - exists EmptyNext. cbn [empty_scan]. rewrite (proj2 (Z.ltb_ge _ _)) by lia. split; [done|].
    replace co with bytes_per_cluster by lia. by rewrite Z.sub_diag, Nat.sub_0_r.
  - destruct (Z.le_gt_cases bytes_per_cluster co).
    { exists EmptyNext. cbn [empty_scan]. rewrite (proj2 (Z.ltb_ge _ _)) by lia. split; [done|].
      replace co with bytes_per_cluster by lia. by rewrite Z.sub_diag, Nat.sub_0_r. }
    assert (32 <= bytes_per_cluster - co) as Hroom by (Z.div_mod_to_equations; lia).
    rewrite (empty_scan_unfold n bytes_per_cluster data co _ ltac:(lia) (Hsub co ltac:(lia) ltac:(lia))).
    destruct N as [|N]; [lia|]. cbn [live_slots]. set (e := slice bs _ 32).
    destruct (_ =? 0); [by eexists|]. cbn [existsb]. destruct (counts e); [by eexists|]. cbn [orb].
    destruct (IH N (co + 32)) as (r & -> & Hr); [lia|Z.div_mod_to_equations; lia|lia|lia|].
    exists r. split; [done|]. replace (base + Z.to_nat co + 32)%nat with (base + Z.to_nat (co + 32))%nat by lia.
    rewrite Hr. destruct r; [done| |done]. do 2 f_equal.
    replace (bytes_per_cluster - co) with (bytes_per_cluster - (co + 32) + 1 * 32) by lia. rewrite Z.div_add by lia.
    assert (0 <= (bytes_per_cluster - (co + 32)) / 32) by (apply Z.div_pos; lia). lia.
Qed.

Section dirempty.
Context {K : Type} `{!Kernel K, !KernelLaws K}.
Implicit Types s : st K.

Lemma wp_dirempty_loop s c l bs fuel k x s1 :
  ready s -> dir_at s c l bs -> s ≡ s1 -> l !! k = Some x -> (length l - k <= fuel)%nat ->
  wp (iter fuel dirempty_step x) s1 (okp (fun r s' => s ≡ s' /\
    r = if existsb counts (live_slots (length bs / 32 - k * (bpc (fsi s) / 32)) bs (k * bpc (fsi s)))
        then ENOTEMPTY else 0)).
Proof.
  intros Hr [Hch Hc]. pose proof (ready_wf _ Hr) as Hwf. destruct (bpc_eq _ Hwf) as [Hb Hb0].
  pose proof (bpc_aligned _ Hwf) as Hba. pose proof (contents_length _ _ _ Hwf Hc) as Hlen.
  assert (exists u, bpc (fsi s) = u * 32)%nat as [u Hu].
  { exists (Z.to_nat (fsi_bytes_per_cluster (fsi s) / 32)). Z.div_mod_to_equations. lia. }
  assert (length bs / 32 = length l * u)%nat as Hlu by (rewrite Hlen, Hu, Nat.mul_assoc; by apply Nat.div_mul).
  assert (bpc (fsi s) / 32 = u)%nat as Hbu by (rewrite Hu; by apply Nat.div_mul).
  rewrite Hlu, Hbu. revert k x s1. induction fuel as [|fuel IH]; intros k x s1 Hs Hx Hfuel; apply lookup_lt_Some in Hx as Hlt; [lia|].
  destruct (contents_slice s l bs k x Hwf Hc Hx) as (d & Hd & Hdl & Hsl).
  destruct (empty_scan_live (bpc (fsi s)) (length l * u - k * u) (fsi_bytes_per_cluster (fsi s)) d bs (k * bpc (fsi s)) 0)
    as (r & Hscan & Hlive); [|lia|by rewrite Z.sub_0_r|lia|nia|].
  { intros o Ho Ho32. rewrite bsub_Some by lia. f_equal. symmetry. apply Hsl. lia. }
  replace (length l * u - k * u - Z.to_nat ((fsi_bytes_per_cluster (fsi s) - 0) / 32))%nat
    with (length l * u - S k * u)%nat in Hlive.
  2:{ rewrite Z.sub_0_r. replace (fsi_bytes_per_cluster (fsi s)) with (Z.of_nat u * 32) by lia. rewrite Z.div_mul by lia. lia. }
  replace (k * bpc (fsi s) + Z.to_nat (fsi_bytes_per_cluster (fsi s)))%nat with (S k * bpc (fsi s))%nat in Hlive by (unfold bpc; lia).
  rewrite Nat.add_0_r in Hlive. rewrite Hlive. pose proof Hs as (Ef & _).
  cbn [iter]. apply wp_bind. unfold dirempty_step at 1. repeat wp_step.
  eapply wp_call_ok; [apply (wp_read_cluster s1 x d); by rewrite <- Hs|].
  intros bp s2 (_ & _ & Ee & -> & Hs2 & Hcl). rewrite Ee, Ef. change (Z.to_nat (fsi_bytes_per_cluster (fsi s))) with (bpc (fsi s)).
  rewrite Hscan. cbn [of_opt]. repeat wp_step.
  eapply wp_call_ok; [by apply wp_do_brelse|]. intros [] s3 Hs3. assert (s ≡ s3) as Hs03 by (by rewrite Hs, Hs2).
  destruct r; [by apply wp_ret| |by apply wp_ret]. apply wp_bind, wp_try.
  eapply wp_mono; [by apply (wp_next_of_chain s3 c l k x); rewrite <- ?Hs03|].
  intros r s4 [-> Hs4]. assert (s ≡ s4) as Hs04 by (by rewrite Hs03). destruct (l !! S k) as [y|] eqn:Hy; cbn [wpk].
  - apply wp_ret. cbn [wpk]. apply IH; [done|done|lia].
  - apply wp_ret. cbn [okp]. split; [done|]. apply lookup_ge_None in Hy.
    by replace (length l * u - S k * u)%nat with 0%nat by nia.
Qed.

Lemma wp_dirempty s p v l bs :
  ready s -> fvs s !! p = Some v -> fv_type v = VDIR -> file_ok s v l -> contents s l bs ->
  wp (fat32_dirempty p) s (okp (fun r s' => s ≡ s' /\ r = if occupied bs then ENOTEMPTY else 0)).
Proof.
  intros Hr Hv Hty Hok Hc. pose proof (ready_wf _ Hr) as Hwf. unfold fat32_dirempty. repeat wp_step.
  eapply wp_call_ok; [by apply wp_get_fv|]. intros ? ? [-> ->]. rewrite Hty, bool_decide_true by done. cbn [negb].
  pose proof (contents_length _ _ _ Hwf Hc) as Hlen. destruct (decide (l = [])) as [->|Hne].
  - destruct Hok as (_ & _ & ->). apply wp_ret. split; [done|]. destruct bs; [done|done].
  - apply file_ok_chain in Hok as (_ & _ & Hch); [|done]. destruct (chain_head _ _ _ _ Hch) as [l' El].
    pose proof (chain_range _ _ _ _ Hch) as Hrg. rewrite El in Hrg. inversion Hrg as [|? ? Hx _].
    rewrite (in_range_nonzero (fsi s)) by done. pose proof (chain_length_bound s _ _ Hwf Hch).
    eapply wp_mono; [apply (wp_dirempty_loop s (fv_cluster v) l bs _ 0 (fv_cluster v) s Hr (conj Hch Hc)); [done|by rewrite El|lia]|].
    intros [r| | | |] s'; try done. by rewrite Nat.mul_0_l, Nat.sub_0_r.
Qed.

(** C30: [fat32_dirempty] decides whether a directory is empty: it returns 0 if
    none of the slots before the end marker, over all clusters, counts as an
    entry, else ENOTEMPTY, and changes nothing. *)
Theorem dirempty_correct s p v l bs :
  ready s -> fvs s !! p = Some v -> fv_type v = VDIR -> file_ok s v l -> contents s l bs ->
  wp (fat32_dirempty p) s (okp (fun r s' => s ≡ s' /\ r = if occupied bs then ENOTEMPTY else 0)).
Proof. apply wp_dirempty. Qed.

End dirempty.
