(* ===== verification/VnodeSpec.v ===== *)
(** * The life cycle of a vnode structure

    [VnodesLaws] states what the driver relies on of the IRIX vnode layer; a
    table of reference counts and behaviours is a concrete instance.  New
    structures are fresh, [fat32_make_vnode] links a structure with a vnode and
    holds the parent, and a structure without parent is freed with no other
    effect. *)
From S2P Require Import Prelude Layout Time Names Kernel Device Cls Fat Demo Alloc Chain Free Cache File Truncate Access Io IoSpec WriteSpec Dir DirSpec LfnSpec Vnode.

(** Operations that concern the vnode [vp] leave the others alone. *)
Definition others_same {V} `{!Vnodes V} (vp : nat) (w w' : V) : Prop :=
  forall q, q <> vp -> v_count w' q = v_count w q /\ first_bhv w' q = first_bhv w q.
Definition layer_same {V} `{!Vnodes V} (w w' : V) : Prop :=
  forall q, v_count w' q = v_count w q /\ first_bhv w' q = first_bhv w q.

Class VnodesLaws (V : Type) `{!Vnodes V} : Prop := {
  fv_sizeof_pos : 0 < fv_sizeof;
  (** A [KM_SLEEP] allocation waits for memory. *)
  kmem_zalloc_ok used w w' o :
    kmem_zalloc used w = (w', o) -> layer_same w w' /\ exists p, o = Some p /\ p ∉ used;
  vn_alloc_some t w w' vp : vn_alloc t w = (w', Some vp) ->
    v_count w vp = 0 /\ first_bhv w vp = None /\ v_count w' vp = 1 /\ first_bhv w' vp = None /\ others_same vp w w';
  vn_alloc_none t w w' : vn_alloc t w = (w', None) -> layer_same w w';
  bhv_insert_ok vp fv w :
    v_count (bhv_insert vp fv w) vp = v_count w vp /\ first_bhv (bhv_insert vp fv w) vp = Some fv /\
    others_same vp w (bhv_insert vp fv w);
  bhv_remove_ok vp fv w :
    v_count (bhv_remove vp fv w) vp = v_count w vp /\ first_bhv (bhv_remove vp fv w) vp = None /\
    others_same vp w (bhv_remove vp fv w);
  vn_hold_ok vp w :
    v_count (vn_hold vp w) vp = v_count w vp + 1 /\ first_bhv (vn_hold vp w) vp = first_bhv w vp /\
    others_same vp w (vn_hold vp w);
  vn_rele_ok vp w w' b : vn_rele vp w = (w', b) ->
    b = (v_count w vp =? 1) /\ v_count w' vp = v_count w vp - 1 /\ first_bhv w' vp = first_bhv w vp /\
    others_same vp w w';
  vn_inactive_ok vp b w : others_same vp w (vn_inactive vp b w);
  vn_flagset_ok vp b w : layer_same w (vn_flagset vp b w)
}.

#[export] Instance layer_same_preorder {V} `{!Vnodes V} : PreOrder (@layer_same V _).
Proof.
  split; [done|]. intros w1 w2 w3 H1 H2 q. destruct (H1 q), (H2 q). split; congruence.
Qed.

(** ** A concrete vnode layer *)

Record vntable : Type := mkVntable { vt_count : gmap nat Z; vt_bhv : gmap nat nat }.

#[global] Instance vntable_vnodes : Vnodes vntable := {
  kmem_zalloc used w := (w, Some (base.fresh used));
  fv_sizeof := 300;
  vn_alloc t w := let vp := base.fresh (dom (vt_count w) ∪ dom (vt_bhv w)) in
                  (mkVntable (<[vp := 1]> (vt_count w)) (vt_bhv w), Some vp);
  v_count w vp := default 0 (vt_count w !! vp);
  first_bhv w vp := vt_bhv w !! vp;
  bhv_insert vp fv w := mkVntable (vt_count w) (<[vp := fv]> (vt_bhv w));
  bhv_remove vp fv w := mkVntable (vt_count w) (delete vp (vt_bhv w));
  vn_hold vp w := mkVntable (<[vp := default 0 (vt_count w !! vp) + 1]> (vt_count w)) (vt_bhv w);
  vn_rele vp w := (mkVntable (<[vp := default 0 (vt_count w !! vp) - 1]> (vt_count w)) (vt_bhv w),
                   default 0 (vt_count w !! vp) =? 1);
  vn_inactive vp b w := if b then mkVntable (delete vp (vt_count w)) (vt_bhv w) else w;
  vn_flagset vp b w := w
}.

#[global] Instance vntable_laws : VnodesLaws vntable.
Proof.
  split.
  - done.
  - intros used w w' o [= <- <-]. split; [done|]. eexists. split; [done|]. apply is_fresh.
  - intros t w w' vp. cbn. set (p := base.fresh _). assert (p ∉ dom (vt_count w) ∪ dom (vt_bhv w)) as Hp by apply is_fresh.
    intros [= <- <-]. apply not_elem_of_union in Hp as [H1%not_elem_of_dom H2%not_elem_of_dom]. cbn.
    rewrite H1, H2, lookup_insert_eq. split_and!; try done. intros q Hq. cbn. by rewrite lookup_insert_ne.
  - done.
  - intros vp fv w. cbn. rewrite lookup_insert_eq. split_and!; try done. intros q Hq. cbn. by rewrite lookup_insert_ne.
  - intros vp fv w. cbn. rewrite lookup_delete_eq. split_and!; try done. intros q Hq. cbn. by rewrite lookup_delete_ne.
  - intros vp w. cbn. rewrite lookup_insert_eq. split_and!; try done. intros q Hq. cbn. by rewrite lookup_insert_ne.
  - intros vp w w' b [= <- <-]. cbn. rewrite lookup_insert_eq. split_and!; try done. intros q Hq. cbn. by rewrite lookup_insert_ne.
  - intros vp [] w q Hq; cbn; [by rewrite lookup_delete_ne|done].
  - done.
Qed.

(** ** Structures *)

Section vnode.
Context {K V : Type} `{!Kernel K, !KernelLaws K, !Vnodes V, !VnodesLaws V}.
Implicit Types (s : st K) (w : V).

(** A new structure. *)
Definition fresh_fv (f : fat32fs_info) : fat32fs_vnode := vnode_init f zeroed_fv.

(** Locks are held only in structures that exist. *)
Definition locks_live s : Prop :=
  forall q, fvs s !! q = None -> held s !! FvLock q = None /\ held s !! CacheLock q = None.

Lemma wp_vnode_new s w :
  wp fat32_vnode_new (s, w) (okp (fun o sw => exists q, o = Some q /\ fvs s !! q = None /\
    fst sw = set_fvs (<[q := fresh_fv (fsi s)]> (fvs s)) s /\ layer_same w (snd sw))).
Proof.
  unfold fat32_vnode_new. destruct (kmem_zalloc (dom (fvs s)) w) as [w' o] eqn:Ha.
  destruct (kmem_zalloc_ok _ _ _ _ Ha) as [Hw (q & -> & Hq%not_elem_of_dom)].
  eapply (wp_call_ok _ _ _ (fun o sw => o = Some q /\ sw = (set_fvs (<[q := zeroed_fv]> (fvs s)) s, w'))).
  { unfold wp, do_kmem_zalloc. cbn [fst snd]. rewrite Ha. done. }
  intros o sw [-> ->]. unfold fat32_vnode_init.
  eapply wp_call_ok.
  { apply wp_lift. repeat wp_step. eapply wp_mono; [apply (wp_upd_fv _ q zeroed_fv); cbn; apply lookup_insert_eq|].
    intros [[]| | | |] s'; try done. cbn [okp wpk]. intros ->.
    instantiate (1 := fun _ sw => sw = (set_fvs (<[q := fresh_fv (fsi s)]> (fvs s)) s, w')).
    cbn. by rewrite insert_insert_eq. }
  intros [] sw ->. apply wp_ret. exists q. by split_and!.
Qed.

(** The kernel calls it makes. *)
Lemma wp_vnode_new_layer s w : wp fat32_vnode_new (s, w) (okp (fun o sw => kmem_zalloc (dom (fvs s)) w = (snd sw, o))).
Proof.
  unfold fat32_vnode_new. destruct (kmem_zalloc (dom (fvs s)) w) as [w' o] eqn:Ha.
  destruct (kmem_zalloc_ok _ _ _ _ Ha) as [_ (q & -> & _)].
  eapply (wp_call_ok _ _ _ (fun o sw => o = Some q /\ sw = (set_fvs (<[q := zeroed_fv]> (fvs s)) s, w'))).
  { unfold wp, do_kmem_zalloc. cbn [fst snd]. by rewrite Ha. }
  intros o sw [-> ->]. unfold fat32_vnode_init. eapply (wp_call_ok _ _ _ (fun _ sw => snd sw = w')).
  { apply wp_lift. repeat wp_step. eapply wp_mono; [apply (wp_upd_fv _ q zeroed_fv); cbn; apply lookup_insert_eq|].
    by intros [[]| | | |] s'. }
  intros [] sw E. apply wp_ret. cbn [okp]. by rewrite E.
Qed.

Lemma wp_lock_unheld s l : held s !! l = None -> wp (lock_unheld l) s (okp (fun _ s' => s' = s)).
Proof. intros H. unfold lock_unheld. repeat wp_step. by rewrite H. Qed.

(** A structure that holds no parent is freed, with no other effect. *)
Lemma wp_vnode_delete s w q v :
  fvs s !! q = Some v -> fv_parent_vp v = None -> held s !! FvLock q = None -> held s !! CacheLock q = None ->
  wp (fat32_vnode_delete q) (s, w) (okp (fun _ sw => sw = (set_fvs (delete q (fvs s)) s, w))).
Proof.
  intros Hq Hp H1 H2. unfold fat32_vnode_delete, vnode_delete_with.
  eapply wp_lift_call; [by apply wp_get_fv|]. intros ? ? [-> ->]. rewrite Hp. repeat wp_step.
  eapply wp_lift_call; [by apply wp_lock_unheld|]. intros [] ? ->.
  eapply wp_lift_call; [by apply wp_lock_unheld|]. intros [] ? ->.
  eapply wp_lift_call; [by apply (wp_upd_fv _ _ v)|]. intros [] ? ->.
  apply wp_lift. unfold kmem_free. eapply wp_call_ok; [apply wp_get_fv; cbn; apply lookup_insert_eq|].
  intros ? ? [-> ->]. repeat wp_step. cbn. by rewrite delete_insert_eq.
Qed.

(** ** Linking a structure and a vnode *)

(** The parent of a vnode that is made, with its cluster. *)
Definition parent_of s w (parent_vp : option nat) (parent : option (nat * Z)) : Prop :=
  match parent_vp, parent with
  | Some pvp, Some (pvp', c) => pvp' = pvp /\ exists pfv pv, first_bhv w pvp = Some pfv /\
      fvs s !! pfv = Some pv /\ c = fv_cluster pv
  | None, None => True
  | _, _ => False
  end.

(** What a new vnode [vp] for the structure [fv] changes in the layer. *)
Definition vnode_linked w (vp fv : nat) (parent_vp : option nat) w' : Prop :=
  v_count w vp = 0 /\ first_bhv w vp = None /\ v_count w' vp = 1 /\ first_bhv w' vp = Some fv /\
  (forall q, q <> vp -> first_bhv w' q = first_bhv w q /\
    v_count w' q = v_count w q + (if decide (parent_vp = Some q) then 1 else 0)).

Lemma wp_hold_parent s w parent_vp parent :
  parent_of s w parent_vp parent ->
  wp (match parent_vp with
      | Some pvp =>
          let* pfv := VNODE_TO_FV pvp in
          do* vn_op (vn_hold pvp) in
          let* pv := lift (get_fv pfv) in
          ret (Some (pvp, fv_cluster pv))
      | None => ret None
      end) (s, w) (okp (fun o sw => o = parent /\
        sw = (s, match parent_vp with Some pvp => vn_hold pvp w | None => w end))).
Proof.
  intros Hp. destruct parent_vp as [pvp|], parent as [[pvp' c]|]; try done.
  destruct Hp as (-> & pfv & pv & Hb & Hpv & ->). unfold VNODE_TO_FV, vn_op. repeat wp_step. cbn [snd]. rewrite Hb.
  cbn [of_opt]. repeat wp_step. eapply wp_lift_call; [by apply wp_get_fv|]. intros ? ? [-> ->]. by apply wp_ret.
Qed.

Lemma wp_make_vnode s w cluster type fv v parent_vp parent :
  fvs s !! fv = Some v -> held s !! FvLock fv = None -> parent_of s w parent_vp parent ->
  (forall pvp, parent_vp = Some pvp -> v_count w pvp <> 0) ->
  wp (fat32_make_vnode cluster type fv parent_vp) (s, w) (fun r sw =>
    match r with
    | Ok vp =>
        fst sw = set_fvs (<[fv := made_vnode (fsi s) cluster type vp parent v]> (fvs s)) s /\
        vnode_linked w vp fv parent_vp (snd sw)
    | Err e => e = ENOMEM /\ fst sw = s /\ layer_same w (snd sw)
    | _ => False
    end).
Proof.
  intros Hv Hl Hp Hcnt. unfold fat32_make_vnode.
  eapply wp_lift_call; [by apply wp_get_fv|]. intros ? ? [-> ->].
  destruct (vn_alloc type w) as [w1 [vp|]] eqn:Ha.
  2:{ eapply (wp_call_ok _ _ _ (fun o sw => o = None /\ sw = (s, w1))); [unfold wp, do_vn_alloc; cbn; by rewrite Ha|].
      intros ? ? [-> ->]. apply wp_throw. split_and!; try done. by eapply vn_alloc_none. }
  eapply (wp_call_ok _ _ _ (fun o sw => o = Some vp /\ sw = (s, w1))); [unfold wp, do_vn_alloc; cbn; by rewrite Ha|].
  intros ? ? [-> ->]. destruct (vn_alloc_some _ _ _ _ Ha) as (C0 & B0 & C1 & B1 & Ho1).
  assert (parent_vp <> Some vp) as Hne by (intros ->; by apply (Hcnt vp)).
  assert (parent_of s w1 parent_vp parent) as Hp1.
  { destruct parent_vp as [pvp|], parent as [[pvp' c]|]; try done. destruct Hp as (-> & pfv & pv & Hb & Hrest).
    split; [done|]. exists pfv, pv. split; [|done]. rewrite <- Hb. apply Ho1. congruence. }
  eapply wp_lift_call; [by apply wp_lock_unheld|]. intros [] ? ->.
  eapply wp_call_ok; [by apply wp_hold_parent|]. intros ? ? [-> ->]. set (w2 := match parent_vp with Some _ => _ | None => _ end).
  apply wp_bind, wp_lift. repeat wp_step. apply wp_bind, wp_lift.
  eapply wp_mono; [by apply (wp_upd_fv _ _ v)|]. intros [[]| | | |] s'; try done. cbn [okp wpk]. intros ->.
  unfold vn_op. repeat wp_step. cbn [fst snd]. split; [done|].
  destruct (bhv_insert_ok vp fv w2) as (C3 & B3 & Ho3). destruct (vn_flagset_ok vp false (bhv_insert vp fv w2) vp) as [C4 B4].
  assert (v_count w2 vp = 1 /\ first_bhv w2 vp = None) as [C2 B2].
  { unfold w2. destruct parent_vp as [pvp|]; [|done]. destruct (vn_hold_ok pvp w1) as (_ & _ & Ho).
    destruct (Ho vp) as [-> ->]; [congruence|done]. }
  unfold vnode_linked. rewrite C4, B4, C3, B3, C2. split_and!; try done.
  intros q Hq. destruct (vn_flagset_ok vp false (bhv_insert vp fv w2) q) as [-> ->]. destruct (Ho3 q Hq) as [-> ->].
  destruct (Ho1 q Hq) as [<- <-]. unfold w2. destruct parent_vp as [pvp|].
  - destruct (vn_hold_ok pvp w1) as (Hc & Hb & Ho). destruct (decide (q = pvp)) as [->|Hqp].
    * by rewrite decide_True.
    * destruct (Ho q Hqp) as [-> ->]. rewrite decide_False by congruence. split; [done|lia].
  - rewrite decide_False by done. split; [done|lia].
Qed.

(** [fat32_make_vnode] links the structure with a new kernel vnode in both
    directions, sets the members of [made_vnode], and takes one reference on the
    parent's vnode, whose cluster it records; no other vnode or structure
    changes.  Without a free vnode it returns ENOMEM and nothing changes. *)
Theorem make_vnode_correct s w cluster type fv v parent_vp parent :
  fvs s !! fv = Some v -> held s !! FvLock fv = None -> parent_of s w parent_vp parent ->
  (forall pvp, parent_vp = Some pvp -> v_count w pvp <> 0) ->
  wp (fat32_make_vnode cluster type fv parent_vp) (s, w) (fun r sw =>
    match r with
    | Ok vp =>
        fst sw = set_fvs (<[fv := made_vnode (fsi s) cluster type vp parent v]> (fvs s)) s /\
        vnode_linked w vp fv parent_vp (snd sw)
    | Err e => e = ENOMEM /\ fst sw = s /\ layer_same w (snd sw)
    | _ => False
    end).
Proof. apply wp_make_vnode. Qed.

(** The kernel calls for a vnode without parent. *)
Lemma wp_make_vnode_layer s w cluster type fv v :
  fvs s !! fv = Some v -> held s !! FvLock fv = None ->
  wp (fat32_make_vnode cluster type fv None) (s, w) (fun r sw => exists w1 o, vn_alloc type w = (w1, o) /\
    match r with
    | Ok vp => o = Some vp /\ snd sw = vn_flagset vp false (bhv_insert vp fv w1)
    | _ => o = None /\ snd sw = w1
    end).
Proof.
  intros Hv Hl. unfold fat32_make_vnode. eapply wp_lift_call; [by apply wp_get_fv|]. intros ? ? [-> ->].
  destruct (vn_alloc type w) as [w1 o] eqn:Ha. eapply (wp_call_ok _ _ _ (fun x sw => x = o /\ sw = (s, w1))).
  { unfold wp, do_vn_alloc. cbn [fst snd]. by rewrite Ha. }
  intros ? ? [-> ->]. destruct o as [vp|]; [|apply wp_throw; by exists w1, None].
  eapply wp_lift_call; [by apply wp_lock_unheld|]. intros [] ? ->. apply wp_bind, wp_ret. cbn [wpk].
  apply wp_bind, wp_lift. repeat wp_step. apply wp_bind, wp_lift.
  eapply wp_mono; [by apply (wp_upd_fv _ _ v)|]. intros [[]| | | |] s'; try done. cbn [okp wpk]. intros ->.
  unfold vn_op. repeat wp_step. by exists w1, (Some vp).
Qed.

(** The flags of the structure are dropped: what was dirty before is never
    written. *)
Lemma made_vnode_clean f cluster type vp parent v :
  (cluster <> fsi_root_cluster f \/ type <> VDIR) -> fv_flags (made_vnode f cluster type vp parent v) = 0.
Proof.
  intros H. unfold made_vnode. destruct ((cluster =? fsi_root_cluster f) && bool_decide (type = VDIR)) eqn:E.
  - apply andb_true_iff in E as [E1%Z.eqb_eq E2%bool_decide_eq_true]. by destruct H.
  - destruct parent as [[pvp c]|]; cbn; by destruct (fv_mode v =? 0).
Qed.

End vnode.
