(* ===== verification/VnopsSpec.v ===== *)
(** * Correctness of the operations on names

    The operations compose the search in a directory, the life cycle of vnode
    structures and the operations on entries and clusters.  Each starts with a
    search by a fresh structure while the directory is locked. *)
From S2P Require Import Prelude Layout Time Names Kernel Device Cls Fat Demo Alloc Chain Free Cache File Truncate Access Io IoSpec WriteSpec Dir DirSpec LfnSpec Vnode Nameops Vnops Listing Remove VnodeSpec.

(** ** The place of an entry *)

(** The first slot of an entry lies before its last one. *)
Definition start_ok (x : scan) : Prop :=
  0 <= entry_start_offset x <= current_offset x /\ entry_start_offset x mod 32 = 0.

Lemma scan_entry_start e x r :
  scan_entry 256 e x = Some r ->
  match r with
  | inl x' | inr (ScanFound x' _) => entry_start_offset x' = 0 \/ entry_start_offset x' = entry_start_offset x \/
      entry_start_offset x' = current_offset x
  | _ => True
  end.
Proof.
  unfold scan_entry. destruct (_ =? 0x00); [by intros [= <-]|]. destruct (_ =? 0xE5); [intros [= <-]; cbn; auto|].
  destruct (_ =? FAT32_ATTR_LONG_NAME).
  { unfold lfn_scan. destruct (if _ && _ then _ else _) as [name|]; [|done].
    destruct (set_dnames _ _ _ _) as [[name' size']|]; [|done]. intros [= <-]. cbn. destruct (flag _ _); auto. }
  destruct (flag _ _).
  { unfold volume_scan. destruct (bput _ _ _); [|done]. intros [= <-]. cbn. auto. }
  unfold found_entry. destruct (d_name x) as [|c cs]; [done|]. destruct (c =? 0).
  - destruct (bput _ _ _); [|done]. intros [= <-]. cbn. destruct (has_lfn x); auto.
  - intros [= <-]. cbn. destruct (has_lfn x); auto.
Qed.

Lemma scan_start n bytes_per_cluster data co x x' e :
  scan_cluster n bytes_per_cluster 256 data co x = Some (ScanFound x' e) ->
  scan_ok x -> start_ok x -> 0 <= current_offset x -> current_offset x mod 32 = 0 -> co <= bytes_per_cluster ->
  current_offset x + (bytes_per_cluster - co) < 2 ^ 32 -> (bytes_per_cluster - co) mod 32 = 0 -> start_ok x'.
Proof.
  revert co x. induction n as [|n IH]; intros co x Hs Hx Hst Hc Hal Hco Hw Hb.
  { cbn [scan_cluster] in Hs. by destruct (negb _). }
  rewrite scan_cluster_unfold in Hs. destruct (negb (co <? bytes_per_cluster)) eqn:Hlt; [done|].
  apply negb_false_iff, Z.ltb_lt in Hlt. assert (32 <= bytes_per_cluster - co) by (Z.div_mod_to_equations; lia).
  destruct (bsub data co 32) as [e'|]; [|done].
  destruct (scan_entry_total e' x Hx) as (r & Hr & Hok). pose proof (scan_entry_start _ _ _ Hr) as Hse. rewrite Hr in Hs.
  destruct Hst as [Hst1 Hst2]. destruct r as [x1|r].
  - destruct Hok as [Hx1 Hc1]. unfold FAT32_DENTRY_SIZE in *. rewrite u32_small in Hc1 by lia.
    apply (IH _ _ Hs); rewrite ?Hc1; try done; try lia; [|Z.div_mod_to_equations; lia..].
    unfold start_ok. rewrite Hc1. destruct Hse as [->|[->| ->]]; split; (done || lia).
  - injection Hs as ->. destruct Hok as (-> & Hx' & Hc'). unfold start_ok. rewrite Hc'.
    destruct Hse as [->|[->| ->]]; split; (done || lia).
Qed.

(** An entry of a directory lies inside it, from an aligned offset. *)
Lemma entries_place n bs off buf x e :
  0 <= off -> off mod 32 = 0 -> Z.of_nat (length bs) mod 32 = 0 -> Z.of_nat (length bs) < 2 ^ 32 -> length buf = 256%nat ->
  (x, e) ∈ entries n bs off buf ->
  start_ok x /\ 1 <= num_slots x /\ entry_start_offset x + 32 * num_slots x = current_offset x + 32 /\
  current_offset x + 32 <= Z.of_nat (length bs) /\ bsub bs (current_offset x) 32 = Some e.
Proof.
  intros Hoff Hal Hlen Hw. revert off buf Hoff Hal. induction n as [|n IH]; intros off buf Hoff Hal Hbuf Hin;
    [by apply not_elem_of_nil in Hin|]. cbn [entries] in Hin.
  destruct (bput buf 0 [0]) as [buf'|] eqn:Hb; [|by apply not_elem_of_nil in Hin]. apply bput_length in Hb.
  destruct (scan_dir bs off (mkScan off buf' 256 false 0)) as [[|y|y e']|] eqn:Hs; try by apply not_elem_of_nil in Hin.
  pose proof (scan_dir_found _ _ _ _ _ Hoff Hal Hlen Hw (eq_trans Hb Hbuf) Hs) as ([Hy1 Hy2] & H1 & H2 & H3 & H4).
  apply elem_of_cons in Hin as [[= -> ->]|Hin].
  - assert (start_ok y) as Hst.
    { apply (scan_start _ _ _ _ _ _ _ Hs); cbn [current_offset].
      - split; cbn [d_name name_size]; [by rewrite Hb, Hbuf|lia].
      - split; cbn [entry_start_offset current_offset]; [lia|done].
      - lia.
      - done.
      - lia.
      - lia.
      - Z.div_mod_to_equations. lia. }
    split; [done|]. destruct Hst as [Hst1 Hst2]. unfold num_slots, FAT32_DENTRY_SIZE.
    rewrite (u32_small (_ - _)) by lia. rewrite u32_small by (Z.div_mod_to_equations; lia).
    split_and!; try done; Z.div_mod_to_equations; lia.
  - unfold FAT32_DENTRY_SIZE in Hin. rewrite u32_small in Hin by lia. apply (IH (current_offset y + 32) (d_name y)); try done; [lia|].
    Z.div_mod_to_equations. lia.
Qed.

Lemma lookup_name_place bs buf name x e :
  Z.of_nat (length bs) mod 32 = 0 -> Z.of_nat (length bs) < 2 ^ 32 -> length buf = 256%nat ->
  lookup_name bs buf name = Some (x, e) ->
  start_ok x /\ 1 <= num_slots x /\ entry_start_offset x + 32 * num_slots x = current_offset x + 32 /\
  current_offset x + 32 <= Z.of_nat (length bs) /\ bsub bs (current_offset x) 32 = Some e.
Proof.
  intros Hlen Hw Hbuf Hf. apply List.find_some in Hf as [Hin%list_elem_of_In _].
  by apply (entries_place _ _ _ _ _ _ (Z.le_refl 0) eq_refl Hlen Hw Hbuf Hin).
Qed.

(** ** Removing an entry *)

Section remove.
Context {K : Type} `{!Kernel K, !KernelLaws K}.
Implicit Types s : st K.

(** The clusters an entry points to. *)
Definition target_chain s (c : Z) (lf : list Z) : Prop := c = 0 /\ lf = [] \/ file_chain s c lf.

(** The entry with the slots [[start, start + 32 * n)] of a directory is gone and
    its clusters [lf] are free; every chain and the contents of every cluster
    outside the directory and the removed file are as before. *)
Definition entry_removed s (c : Z) (l bs : list Z) (start n : Z) (lf : list Z) s' : Prop :=
  ready s' /\ geom (fsi s') = geom (fsi s) /\
  dir_at s' c l (mark_deleted bs start (Z.to_nat n)) /\
  (forall y, y ∈ lf -> fat s' y = FAT32_CLUSTER_FREE) /\ keeps s (l ++ lf) s' l /\ data_keeps s l s'.

Lemma in_range_not_bad f c : fs_wf f -> in_range f c -> c <> FAT32_CLUSTER_BAD.
Proof. intros Hwf Hc ->. destruct Hwf. unfold in_range, FAT32_CLUSTER_BAD in *. lia. Qed.

Lemma wp_free_target s c lf :
  ready s -> target_chain s c lf ->
  wp (if negb (c =? 0) then do* try (fat32_free_clusters c true) in ret tt else ret tt) s
    (okp (fun _ s' => ready s' /\ held s' = held s /\ fvs s' = fvs s /\ geom (fsi s') = geom (fsi s) /\
      (forall y, y ∈ lf -> fat s' y = FAT32_CLUSTER_FREE) /\ keeps s lf s' [] /\ data_keeps s [] s')).
Proof.
  intros Hr [[-> ->]|Hch].
  - apply wp_ret. split_and!; try done. intros y Hy. by apply not_elem_of_nil in Hy.
  - destruct (chain_head _ _ _ _ Hch) as [l' El]. pose proof (chain_range _ _ _ _ Hch) as Hrg.
    assert (in_range (fsi s) c) as Hc by (rewrite El in Hrg; by inversion Hrg).
    rewrite (in_range_nonzero (fsi s)) by done. cbn [negb]. apply wp_bind, wp_try.
    eapply wp_mono; [by apply (wp_free_clusters s c lf true)|]. intros [[]| | | |] s'; try done. cbn [okp wpk]. intros Hpost.
    apply wp_ret. pose proof Hpost as (Hv & Hh & _ & _ & Hfat & _). split_and!; try done.
    + by eapply free_post_ready.
    + by eapply free_post_geom.
    + intros y Hy. rewrite Hfat; [by rewrite decide_True|]. rewrite Forall_forall in Hrg. by apply Hrg.
    + apply (free_post_keeps s [] lf s'); [done|done|]. by intros y ?%not_elem_of_nil.
    + by eapply free_post_data; [apply Hr|].
Qed.

Lemma wp_remove_entry s p d q v c l bs lf :
  ready s -> fvs s !! p = Some d -> fvs s !! q = Some v -> fv_parent_cluster v = c -> dir_at s c l bs ->
  0 <= fv_diroff v -> fv_diroff v mod 32 = 0 -> 1 <= fv_dirsz v ->
  fv_diroff v + 32 * fv_dirsz v <= Z.of_nat (length bs) -> target_chain s (fv_cluster v) lf -> lf ## l ->
  wp (remove_entry p q) s (okp (fun _ s' => entry_removed s c l bs (fv_diroff v) (fv_dirsz v) lf s' /\
    held s' = held s /\ exists now, fvs s' = <[p := modified now d]> (fvs s))).
Proof.
  intros Hr Hp Hq Hc Hd H0 Hal Hn Hend Ht Hdis. unfold remove_entry.
  eapply wp_call_ok; [by apply wp_get_fv|]. intros ? ? [-> ->]. rewrite Hc.
  apply wp_bind, wp_try. eapply wp_mono; [apply (wp_delete_chain s c l bs (fv_diroff v) (fv_dirsz v)); try done; lia|].
  intros r s1 H. rewrite !decide_True in H by lia. destruct H as [-> (Hr1 & Hf1 & Hv1 & Hh1 & [Hch1 Hc1] & Hk1 & Hd1)]. cbn [wpk].
  assert (target_chain s1 (fv_cluster v) lf) as Ht1.
  { destruct Ht as [?|Ht]; [by left|right]. by apply (Hk1 _ _ Ht). }
  eapply wp_call_ok; [by apply (wp_free_target s1 _ lf)|].
  intros [] s2 (Hr2 & Hh2 & Hv2 & Hg2 & Hfree & Hk2 & Hd2).
  eapply wp_mono; [apply (wp_touch_mtime s2 p d); by rewrite Hv2, Hv1|].
  intros [[]| | | |] s3; try done. cbn [okp]. intros Hs3. pose proof Hs3 as (Ef3 & Ev3 & Eh3 & Ew3). cbn in Ef3, Ev3, Eh3, Ew3.
  split; [|split; [congruence|eexists; by rewrite Ev3, Hv2, Hv1]]. set (m := <[p := _]> (fvs s2)) in *.
  assert (forall c2 l2, file_chain s2 c2 l2 -> file_chain s3 c2 l2) as Hch3 by (intros c2 l2 H; by rewrite <- Hs3).
  assert (contents s2 l (mark_deleted bs (fv_diroff v) (Z.to_nat (fv_dirsz v)))) as Hc2.
  { apply (contents_keeps s1 [] s2); try done; [by eapply chain_range|by intros ? _ ?%not_elem_of_nil]. }
  assert (ready s3) as Hr3 by (rewrite <- Hs3; apply ready_set_fvs; exact Hr2).
  assert (contents s3 l (mark_deleted bs (fv_diroff v) (Z.to_nat (fv_dirsz v)))) as Hc3 by by rewrite <- Hs3.
  assert (file_chain s3 c l) as Hchl by (apply Hch3, (Hk2 c l Hch1); set_solver).
  split; [done|]. split; [by rewrite Ef3, Hg2, Hf1|]. split; [by split|]. split_and!.
  - intros y Hy. rewrite <- (Hfree y Hy). symmetry. exact (fat_proper _ _ Hs3 y y eq_refl).
  - intros c2 l2 H2 Hdis2. destruct (Hk1 c2 l2 H2) as [H21 _]; [set_solver|].
    destruct (Hk2 c2 l2 H21) as [H22 _]; [set_solver|]. split; [by apply Hch3|set_solver].
  - intros y Hy Hnot. rewrite Ew3. rewrite <- Hd1 by done. rewrite <- Hf1. apply Hd2; [by rewrite Hf1|by apply not_elem_of_nil].
Qed.

(** Locks and vnodes do not matter to what is on the volume. *)
Lemma entry_removed_from s s1 h m c l bs start n lf s' :
  set_held h (set_fvs m s) ≡ s1 -> entry_removed s1 c l bs start n lf s' -> entry_removed s c l bs start n lf s'.
Proof.
  intros Hs (H1 & H2 & H3 & H4 & H5 & H6). pose proof Hs as (Hf & _ & _ & Hw). cbn in Hf, Hw.
  split; [done|]. split; [by rewrite H2, Hf|]. split; [done|]. split; [done|]. split.
  - intros c2 l2 H. apply H5. rewrite <- Hs. exact H.
  - intros y Hy Hn. rewrite <- Hw, <- Hf. apply H6; [by rewrite Hf|done].
Qed.

Lemma entry_removed_to s c l bs start n lf s' h m :
  entry_removed s c l bs start n lf s' -> h !! FsiLock = None -> entry_removed s c l bs start n lf (set_held h (set_fvs m s')).
Proof. intros (H1 & H2) Hh. split; [by apply ready_set_held, Hh; apply ready_set_fvs|exact H2]. Qed.

End remove.

(** ** The search that the operations start with *)

Section search.
Context {K V : Type} `{!Kernel K, !KernelLaws K, !Vnodes V, !VnodesLaws V}.
Context (tb : Z).
Implicit Types (s : st K) (w : V).

(** The directory is locked, its cluster cache is [cache], and there is a new
    structure [q] with the contents [v]. *)
Definition searched s (p : nat) (d : fat32fs_vnode) (mode : lkmode) (q : nat) (v : fat32fs_vnode)
    (cache : list (Z * Z)) s1 : Prop :=
  set_held (<[FvLock p := mode]> (held s)) (set_fvs (<[q := v]> (<[p := set_fv_cls_cache cache d]> (fvs s))) s) ≡ s1.

(** What the search leaves in the new structure. *)
Definition found_fv s (d : fat32fs_vnode) (found : option (scan * list Z)) : fat32fs_vnode :=
  let v := vnode_reset (fsi s) (fresh_fv (fsi s)) in
  match found with Some (x, e) => populate tb (fv_cluster d) x e v | None => v end.

Definition search_result (found : option (scan * list Z)) : Z + unit :=
  match found with Some _ => inr tt | None => inl ENOENT end.

(** The search in the locked directory. *)
Lemma wp_find_new s p d l bs mode q name stack :
  ready s -> directory s p d l bs -> fvs s !! q = None -> length stack = 256%nat -> (length name <= 255)%nat ->
  wp (fat32_find_dirent tb p name stack (Some q))
     (set_held (<[FvLock p := mode]> (held s)) (set_fvs (<[q := fresh_fv (fsi s)]> (fvs s)) s)) (fun r s1 =>
    r = match lookup_name bs stack name with Some _ => Ok tt | None => Err ENOENT end /\
    exists cache, cache_ok l cache /\ length cache = 16%nat /\
      searched s p d mode q (found_fv s d (lookup_name bs stack name)) cache s1).
Proof.
  intros Hr Hd Hq Hst Hn. pose proof (dir_fv _ _ _ _ _ Hd) as Hp. assert (q <> p) as Hqp by congruence.
  set (s1 := set_held _ _).
  assert (directory s1 p d l bs) as Hd1.
  { destruct Hd. constructor; try done; cbn; [by rewrite lookup_insert_ne|by rewrite lookup_insert_ne]. }
  assert (ready s1) as Hr1.
  { apply ready_set_held; [by apply ready_set_fvs|]. rewrite lookup_insert_ne by done. apply Hr. }
  eapply wp_mono; [apply (wp_find_dirent tb s1 p d l bs q (fresh_fv (fsi s)) name stack); try done; cbn; by rewrite lookup_insert_eq|].
  intros r s2 (cache & Hc1 & Hc2 & H). cbn [fsi fvs s1 set_held set_fvs] in H. unfold found_fv.
  destruct (lookup_name bs stack name) as [[x e]|]; destruct H as [-> H]; (split; [done|]); exists cache;
    (split; [done|split; [done|]]); rewrite insert_insert_ne, insert_insert_eq, insert_insert_ne in H by done; exact H.
Qed.

Lemma wp_search {A} s w p d l bs mode q name stack (k : Z + unit -> M (st K * V) A) Q :
  ready s -> directory s p d l bs -> held s !! FvLock p = None -> fvs s !! q = None ->
  length stack = 256%nat -> (length name <= 255)%nat ->
  (forall cache s1, cache_ok l cache -> length cache = 16%nat ->
     searched s p d mode q (found_fv s d (lookup_name bs stack name)) cache s1 ->
     wp (k (search_result (lookup_name bs stack name))) (s1, w) Q) ->
  wp (do* lift (lock_acquire (FvLock p) mode) in
      let* r := try (lift (fat32_find_dirent tb p name stack (Some q))) in k r)
     (set_fvs (<[q := fresh_fv (fsi s)]> (fvs s)) s, w) Q.
Proof.
  intros Hr Hd Hl Hq Hst Hn Hk. eapply wp_lift_call; [by apply wp_lock|]. intros [] ? ->. apply wp_bind, wp_try, wp_lift.
  eapply wp_mono; [by apply (wp_find_new s p d l bs)|]. intros r s2 (-> & cache & Hc1 & Hc2 & H).
  specialize (Hk cache s2 Hc1 Hc2 H). by destruct (lookup_name bs stack name).
Qed.

(** The structure of an error return is freed after the directory is unlocked. *)
Lemma wp_drop_fv {A} s w p d l bs mode q v cache e s1 :
  directory s p d l bs -> held s !! FvLock p = None -> fvs s !! q = None -> locks_live s ->
  searched s p d mode q v cache s1 -> fv_parent_vp v = None ->
  wp (A := A) (drop_fv p q e) (s1, w) (fun r sw => r = Err e /\ snd sw = w /\
    set_fvs (<[p := set_fv_cls_cache cache d]> (fvs s)) s ≡ fst sw).
Proof.
  intros Hd Hl Hq Hlv (Hf & Hv & Hh & Hw) Hpar. cbn in Hf, Hv, Hh, Hw. pose proof (dir_fv _ _ _ _ _ Hd) as Hp.
  assert (q <> p) as Hqp by congruence. destruct (Hlv q Hq) as [Hq1 Hq2]. unfold drop_fv.
  eapply wp_lift_call; [by apply (wp_unlock _ _ mode (held s))|]. intros [] ? ->.
  eapply wp_call_ok; [apply (wp_vnode_delete _ _ q v); try done; cbn; by rewrite Hv, lookup_insert_eq|].
  intros [] ? ->. apply wp_throw. split; [done|]. split; [done|]. split_and!; cbn; try done.
  rewrite Hv. rewrite delete_insert_id; [done|]. by rewrite lookup_insert_ne.
Qed.

(** ** Removal *)

(** The cluster of the current directory that [rmdir] is given. *)
Definition cdir_cluster s w (cdir : option nat) (cc : option Z) : Prop :=
  match cdir with
  | Some vp => exists pf cv, first_bhv w vp = Some pf /\ fvs s !! pf = Some cv /\ cc = Some (fv_cluster cv)
  | None => cc = None
  end.

(** Why an entry is not removed, as an error code. *)
Definition refusal (is_dir : bool) (cc : option Z) (v : fat32fs_vnode) (occ : bool) : Z :=
  if is_dir then
    if bool_decide (fv_type v <> VDIR) then ENOTDIR
    else if bool_decide (cc = Some (fv_cluster v)) then EINVAL
    else if occ then ENOTEMPTY else 0
  else if bool_decide (fv_type v = VDIR) then EISDIR else 0.

Lemma wp_remove_check s w q v is_dir cdir cc lf fbs :
  ready s -> fvs s !! q = Some v -> cdir_cluster s w cdir cc -> file_ok s v lf -> contents s lf fbs ->
  wp (remove_check q is_dir cdir) (s, w) (okp (fun r sw => snd sw = w /\ s ≡ fst sw /\ r = refusal is_dir cc v (occupied fbs))).
Proof.
  intros Hr Hq Hcd Hok Hc. unfold remove_check, refusal.
  eapply wp_lift_call; [by apply wp_get_fv|]. intros ? ? [-> ->]. destruct is_dir.
  2:{ destruct (bool_decide _); by apply wp_ret. }
  destruct (decide (fv_type v = VDIR)) as [Ht|Ht].
  2:{ rewrite bool_decide_false, bool_decide_true by done. by apply wp_ret. }
  rewrite bool_decide_true, (bool_decide_false (_ <> _)) by tauto. cbn [negb].
  eapply (wp_call_ok _ _ _ (fun b sw => b = bool_decide (cc = Some (fv_cluster v)) /\ sw = (s, w))).
  - destruct cdir as [vp|]; cbn in Hcd.
    + destruct Hcd as (pf & cv & Hb & Hcv & ->). unfold VNODE_TO_FV. repeat wp_step. cbn [snd]. rewrite Hb. cbn [of_opt].
      repeat wp_step. eapply wp_lift_call; [by apply wp_get_fv|]. intros ? ? [-> ->]. apply wp_ret. split; [|done].
      destruct (Z.eqb_spec (fv_cluster v) (fv_cluster cv)) as [->|]; [by rewrite bool_decide_true|].
      rewrite bool_decide_false; [done|congruence].
    + subst cc. by apply wp_ret.
  - intros ? ? [-> ->]. destruct (bool_decide _); [by apply wp_ret|]. apply wp_lift.
    eapply wp_mono; [by eapply wp_dirempty|]. intros [r| | | |] s'; try done.
Qed.

(** What [fat32_remove_common] is called with: the clusters of the entry it
    finds are [lf], with the bytes [fbs], and not those of the directory. *)
Record removal s w (p : nat) (d : fat32fs_vnode) (l bs : list Z) (name stack : list Z) (cdir : option nat)
    (cc : option Z) (lf fbs : list Z) : Prop := {
  rm_ready : ready s;
  rm_dir : directory s p d l bs;
  rm_lock : held s !! FvLock p = None;
  rm_live : locks_live s;
  rm_cdir : cdir_cluster s w cdir cc;
  rm_stack : length stack = 256%nat;
  rm_name : (length name <= 255)%nat;
  rm_target x e : lookup_name bs stack name = Some (x, e) -> target_chain s (first_cluster e) lf;
  rm_contents : contents s lf fbs;
  rm_disjoint : lf ## l
}.

(** The error code of a removal, 0 for success. *)
Definition remove_answer s (d : fat32fs_vnode) (name : list Z) (is_dir : bool) (cr : cred) (cc : option Z)
    (found : option (scan * list Z)) (occ : bool) : Z :=
  if bool_decide (name = dot \/ name = dotdot) then EINVAL
  else if decide (fat32_faccess (fsi s) d (Z.lor VWRITE VEXEC) cr <> 0) then fat32_faccess (fsi s) d (Z.lor VWRITE VEXEC) cr
  else match found with
       | Some _ => refusal is_dir cc (found_fv s d found) occ
       | None => ENOENT
       end.

(** The directory's vnode differs only in its cluster cache. *)
Definition cache_moved s (p : nat) (d : fat32fs_vnode) (l : list Z) s' : Prop :=
  exists cache, cache_ok l cache /\ length cache = 16%nat /\
    set_fvs (<[p := set_fv_cls_cache cache d]> (fvs s)) s ≡ s'.

(** The entry [found] is gone, with its clusters, and the directory's
    modification time is new. *)
Definition remove_done s (p : nat) (d : fat32fs_vnode) (l bs : list Z) (found : option (scan * list Z))
    (lf : list Z) s' : Prop :=
  exists x e cache now, found = Some (x, e) /\ cache_ok l cache /\ length cache = 16%nat /\
    entry_removed s (fv_cluster d) l bs (entry_start_offset x) (num_slots x) lf s' /\ held s' = held s /\
    fvs s' = <[p := modified now (set_fv_cls_cache cache d)]> (fvs s).

(** The removal itself, from the locked directory with the entry found. *)
Lemma wp_remove_found s w p d l bs name stack cdir cc lf fbs q cache x e s1 s2 :
  removal s w p d l bs name stack cdir cc lf fbs -> fvs s !! q = None ->
  lookup_name bs stack name = Some (x, e) -> cache_ok l cache -> length cache = 16%nat ->
  searched s p d MrUpdate q (found_fv s d (Some (x, e))) cache s1 -> s1 ≡ s2 ->
  wp (let* v := lift (get_fv q) in
      if fv_parent_cluster v =? FAT32_CLUSTER_BAD then throw EINVAL else
      do* lift (remove_entry p q) in
      do* lift (mrunlock (FvLock p)) in
      fat32_vnode_delete q) (s2, w) (okp (fun _ sw =>
    layer_same w (snd sw) /\ remove_done s p d l bs (Some (x, e)) lf (fst sw))).
Proof.
  intros [Hr Hd Hl Hlv _ Hst Hn Ht Hc Hdis] Hq Hfound Hca Hcl Hs1 Hs12. specialize (Ht _ _ Hfound).
  pose proof (dir_fv _ _ _ _ _ Hd) as Hp. assert (q <> p) as Hqp by congruence.
  assert (searched s p d MrUpdate q (found_fv s d (Some (x, e))) cache s2) as Hs2 by (unfold searched; by etrans).
  pose proof Hs2 as (Hf2 & Hv2 & Hh2 & Hw2). cbn [fsi fvs held set_held set_fvs] in Hf2, Hv2, Hh2.
  set (v := found_fv s d (Some (x, e))) in *.
  assert (set_held (<[FvLock p := MrUpdate]> (held s)) (set_fvs (<[q := v]> (<[p := set_fv_cls_cache cache d]> (fvs s))) s) ≡ s2)
    as He by exact Hs2.
  pose proof (dir_ok _ _ _ _ _ Hd) as Hok. apply file_ok_chain in Hok as (_ & _ & Hch); [|by destruct Hd].
  destruct (chain_head _ _ _ _ Hch) as [l' El]. pose proof (chain_range _ _ _ _ Hch) as Hrg. rewrite El in Hrg.
  inversion Hrg as [|? ? Hx _]. pose proof (ready_wf _ Hr) as Hwf.
  assert (dir_at s (fv_cluster d) l bs) as Hat by (split; [exact Hch|by destruct Hd]).
  destruct (lookup_name_place bs stack name x e) as ([Hx1 Hx2] & Hx3 & Hx4 & Hx5 & _); try done;
    [by apply (dir_length_aligned s (fv_cluster d) l)|by destruct Hd|].
  assert (ready s2) as Hr2.
  { rewrite <- He. apply ready_set_held; [by apply ready_set_fvs|]. rewrite lookup_insert_ne by done. apply Hr. }
  eapply wp_lift_call; [apply (wp_get_fv _ _ v); by rewrite Hv2, lookup_insert_eq|]. intros ? ? [-> ->].
  change (fv_parent_cluster v) with (fv_cluster d). rewrite (proj2 (Z.eqb_neq (fv_cluster d) FAT32_CLUSTER_BAD)) by (by apply (in_range_not_bad (fsi s))).
  eapply wp_lift_call.
  { apply (wp_remove_entry s2 p (set_fv_cls_cache cache d) q v (fv_cluster d) l bs lf); try done.
    - by rewrite Hv2, lookup_insert_ne, lookup_insert_eq.
    - by rewrite Hv2, lookup_insert_eq.
    - split; rewrite <- He; apply Hat.
    - cbn. lia.
    - cbn [v found_fv populate]. cbn. lia.
    - destruct Ht as [?|Ht]; [by left|right]. rewrite <- He. exact Ht. }
  intros [] s3 (H3 & Hh3 & now & Hv3).
  eapply wp_lift_call; [eapply (wp_unlock _ _ MrUpdate (held s)); [by rewrite Hh3|done]|]. intros [] ? ->.
  destruct (Hlv q Hq) as [Hq1 Hq2].
  eapply wp_mono; [apply (wp_vnode_delete _ _ q v); try done; cbn [fvs set_held]; by rewrite Hv3, lookup_insert_ne, Hv2, lookup_insert_eq|].
  intros [[]| | | |] sw; try done. cbn [okp]. intros ->. split; [done|]. exists x, e, cache, now. split_and!; try done.
  - apply (entry_removed_from s s2 _ _ _ _ _ _ _ _ _ He).
    exact (entry_removed_to s2 _ _ _ _ _ _ s3 (held s) _ H3 (ready_lock _ Hr)).
  - cbn [fst fvs set_held set_fvs]. rewrite Hv3, Hv2, insert_cache by done. rewrite delete_insert_id; [done|].
    by rewrite lookup_insert_ne.
Qed.

Lemma cdir_cluster_searched s w w1 p d mode q v cache s1 cdir cc :
  cdir_cluster s w cdir cc -> fvs s !! p = Some d -> fvs s !! q = None -> layer_same w w1 ->
  searched s p d mode q v cache s1 -> cdir_cluster s1 w1 cdir cc.
Proof.
  intros Hcd Hp Hq Hw (_ & Hv & _). destruct cdir as [vp|]; [|done]. destruct Hcd as (pf & cv & Hb & Hcv & ->).
  exists pf. rewrite (proj2 (Hw vp)), Hb, Hv. cbn. rewrite lookup_insert_ne by congruence.
  destruct (decide (p = pf)) as [->|Hne].
  - rewrite lookup_insert_eq. assert (cv = d) as -> by congruence. by eexists.
  - rewrite lookup_insert_ne by done. by eexists.
Qed.

Lemma removal_layer s w w1 p d l bs name stack cdir cc lf fbs :
  removal s w p d l bs name stack cdir cc lf fbs -> layer_same w w1 -> removal s w1 p d l bs name stack cdir cc lf fbs.
Proof.
  intros [] Hw. constructor; try done. destruct cdir as [vp|]; [|done]. destruct rm_cdir0 as (pf & cv & Hb & H).
  exists pf, cv. by rewrite (proj2 (Hw vp)).
Qed.

Lemma cache_moved_refl s p d l bs : directory s p d l bs -> cache_moved s p d l s.
Proof.
  intros [Hp _ (H1 & H2 & _) _ _ _ _]. exists (fv_cls_cache d). split_and!; try done. cbn.
  rewrite insert_id; [done|]. rewrite Hp. by destruct d.
Qed.

(** The rest of a removal after the search. *)
Lemma wp_remove_rest s w p d l bs name stack cdir cc lf fbs q cache x e is_dir s1 :
  removal s w p d l bs name stack cdir cc lf fbs -> fvs s !! q = None ->
  lookup_name bs stack name = Some (x, e) -> cache_ok l cache -> length cache = 16%nat ->
  searched s p d MrUpdate q (found_fv s d (Some (x, e))) cache s1 ->
  let a := refusal is_dir cc (found_fv s d (Some (x, e))) (occupied fbs) in
  wp (let* error := remove_check q is_dir cdir in
      if negb (error =? 0) then drop_fv p q error else
      let* v := lift (get_fv q) in
      if fv_parent_cluster v =? FAT32_CLUSTER_BAD then throw EINVAL else
      do* lift (remove_entry p q) in
      do* lift (mrunlock (FvLock p)) in
      fat32_vnode_delete q) (s1, w) (fun r sw =>
    r = (if a =? 0 then Ok tt else Err a) /\ layer_same w (snd sw) /\
    if a =? 0 then remove_done s p d l bs (Some (x, e)) lf (fst sw) else cache_moved s p d l (fst sw)).
Proof.
  intros Hrm Hq Hfound Hca Hcl Hs1. cbn zeta. pose proof Hrm as [Hr Hd Hl Hlv Hcd Hst Hn Ht Hc Hdis].
  pose proof (dir_fv _ _ _ _ _ Hd) as Hp. specialize (Ht _ _ Hfound). set (v := found_fv s d (Some (x, e))) in *.
  assert (set_held (<[FvLock p := MrUpdate]> (held s)) (set_fvs (<[q := v]> (<[p := set_fv_cls_cache cache d]> (fvs s))) s) ≡ s1)
    as He by exact Hs1.
  pose proof Hs1 as (_ & Hv1 & _). cbn in Hv1.
  assert (ready s1) as Hr1.
  { rewrite <- He. apply ready_set_held; [by apply ready_set_fvs|]. rewrite lookup_insert_ne by done. apply Hr. }
  eapply wp_call_ok.
  { apply (wp_remove_check s1 w q v is_dir cdir cc lf fbs Hr1).
    - by rewrite Hv1, lookup_insert_eq.
    - by eapply cdir_cluster_searched.
    - rewrite <- He. split_and!; [apply cache_ok_zeros|done|]. destruct Ht as [[Hc0 ->]|Ht]; [exact Hc0|].
      destruct (chain_head _ _ _ _ Ht) as [l' ->]. exact Ht.
    - rewrite <- He. exact Hc. }
  intros a [s2 w2] (Ew & Hs2 & ->). cbn [snd fst] in Ew, Hs2. subst w2.
  set (a := refusal is_dir cc v (occupied fbs)). destruct (Z.eqb_spec a 0) as [Ha|Ha]; cbn [negb].
  - eapply wp_mono; [by eapply wp_remove_found|]. intros [[]| | | |] sw; try done.
  - eapply wp_mono; [eapply (wp_drop_fv s w p d l bs MrUpdate q v cache a s2); try done; unfold searched; by etrans|].
    intros r sw (-> & -> & H). split_and!; try done. by exists cache.
Qed.

Lemma wp_remove_common s w p d l bs name is_dir cdir cc cr stack lf fbs :
  removal s w p d l bs name stack cdir cc lf fbs ->
  let found := lookup_name bs stack name in
  let a := remove_answer s d name is_dir cr cc found (occupied fbs) in
  wp (fat32_remove_common tb p name is_dir cdir cr stack) (s, w) (fun r sw =>
    r = (if a =? 0 then Ok tt else Err a) /\ layer_same w (snd sw) /\
    if a =? 0 then remove_done s p d l bs found lf (fst sw) else cache_moved s p d l (fst sw)).
Proof.
  intros Hrm. cbn zeta. pose proof Hrm as [Hr Hd Hl Hlv Hcd Hst Hn Ht Hc Hdis].
  pose proof (dir_fv _ _ _ _ _ Hd) as Hp. unfold fat32_remove_common, remove_answer.
  rewrite <- bool_decide_or. destruct (bool_decide (_ \/ _)).
  { apply wp_throw. split_and!; [done..|]. by eapply cache_moved_refl. }
  eapply (wp_call _ _ _ (fun r sw => let acc := fat32_faccess (fsi s) d (Z.lor VWRITE VEXEC) cr in
    r = (if decide (acc <> 0) then Err acc else Ok tt) /\ sw = (s, w))).
  { apply wp_lift. unfold dir_writable. repeat wp_step. eapply wp_call_ok; [by apply wp_get_fv|]. intros ? ? [-> ->].
    destruct (Z.eqb_spec (fat32_faccess (fsi s) d (Z.lor VWRITE VEXEC) cr) 0); cbn [negb];
      [apply wp_ret; by rewrite decide_False by lia|apply wp_throw; by rewrite decide_True]. }
  cbn zeta. intros r sw [-> ->]. destruct (decide _) as [Hacc|Hacc]; cbn [wpk].
  { rewrite (proj2 (Z.eqb_neq _ _) Hacc). split_and!; [done..|]. by eapply cache_moved_refl. }
  eapply wp_call_ok; [apply wp_vnode_new|]. intros ? [s0 w0] (q & -> & Hq & E & Hw). cbn [fst snd] in E, Hw. subst s0.
  apply (wp_search s w0 p d l bs); try done. intros cache s1 Hca Hcl Hs1.
  destruct (lookup_name bs stack name) as [[x e]|] eqn:Hfound; cbn [search_result].
  - eapply wp_mono; [eapply wp_remove_rest; [by eapply removal_layer|done..]|]. cbn beta. intros r sw (-> & Hw' & H).
    split_and!; [done| by etrans|done].
  - eapply wp_mono; [by eapply wp_drop_fv|]. intros r sw (-> & -> & H). split_and!; try done. by exists cache.
Qed.

(** C5: [fat32_remove] and [fat32_rmdir] refuse "." and "..", a directory the
    caller may not write, a name that is not there, an entry of the wrong kind,
    the current directory and a directory that is not empty, each with its error
    code and nothing changed but the directory's cluster cache.  Otherwise
    exactly the slots of the entry are marked as deleted, exactly its clusters
    are freed, and the directory gets a new modification time; every other
    chain and file stays as it is.  In all cases the locks are released and the
    temporary structure is freed. *)
Theorem remove_common_correct s w p d l bs name is_dir cdir cc cr stack lf fbs :
  removal s w p d l bs name stack cdir cc lf fbs ->
  let found := lookup_name bs stack name in
  let a := remove_answer s d name is_dir cr cc found (occupied fbs) in
  wp (fat32_remove_common tb p name is_dir cdir cr stack) (s, w) (fun r sw =>
    r = (if a =? 0 then Ok tt else Err a) /\ layer_same w (snd sw) /\
    if a =? 0 then remove_done s p d l bs found lf (fst sw) else cache_moved s p d l (fst sw)).
Proof. apply wp_remove_common. Qed.

(** ** Lookup *)

(** The vnode that a lookup makes for the entry it has found: the structure is
    filled in from the entry, the vnode holds the directory's. *)
Definition looked_up s w (p : nat) (d : fat32fs_vnode) (dvp : nat) (l : list Z) (x : scan) (e : list Z) (vp : nat)
    (sw : st K * V) : Prop :=
  exists q cache, fvs s !! q = None /\ cache_ok l cache /\ length cache = 16%nat /\
    let v := found_fv s d (Some (x, e)) in
    let v' := made_vnode (fsi s) (fv_cluster v) (fv_type v) vp (Some (dvp, fv_cluster d)) v in
    set_fvs (<[q := v']> (<[p := set_fv_cls_cache cache d]> (fvs s))) s ≡ fst sw /\
    vnode_linked w vp q (Some dvp) (snd sw).

Definition lookup_post s w p d dvp l (found : option (scan * list Z)) (r : res (option nat)) (sw : st K * V) : Prop :=
  match r, found with
  | Ok (Some vp), Some (x, e) => looked_up s w p d dvp l x e vp sw
  | Err error, _ => error = (if found then ENOMEM else ENOENT) /\ cache_moved s p d l (fst sw) /\ layer_same w (snd sw)
  | _, _ => False
  end.

Lemma vnode_linked_layer w w1 vp fv parent_vp w' :
  layer_same w w1 -> vnode_linked w1 vp fv parent_vp w' -> vnode_linked w vp fv parent_vp w'.
Proof.
  intros Hw (H1 & H2 & H3 & H4 & H5). destruct (Hw vp) as [E1 E2]. split_and!; [by rewrite <- E1|by rewrite <- E2|done..|].
  intros q Hq. destruct (Hw q) as [<- <-]. by apply H5.
Qed.

(** The directory's structure belongs to the vnode [dvp], which is in use. *)
Record linked w (p : nat) (d : fat32fs_vnode) (dvp : nat) : Prop := {
  linked_vnode : fv_vnode d = Some dvp;
  linked_bhv : first_bhv w dvp = Some p;
  linked_count : v_count w dvp <> 0
}.

(** The vnode of an entry found, after the directory is unlocked. *)
Lemma wp_lookup_found s w p d dvp l bs q cache mode x e s1 :
  directory s p d l bs -> held s !! FvLock p = None -> locks_live s -> linked w p d dvp -> fvs s !! q = None ->
  cache_ok l cache -> length cache = 16%nat ->
  searched s p d mode q (found_fv s d (Some (x, e))) cache s1 ->
  wp (let* v := lift (get_fv q) in
      let* r := try (fat32_make_vnode (fv_cluster v) (fv_type v) q (fv_vnode d)) in
      match r with
      | inl error => do* fat32_vnode_delete q in throw error
      | inr vp => ret (Some vp)
      end) (set_held (held s) s1, w) (lookup_post s w p d dvp l (Some (x, e))).
Proof.
  intros Hd Hl Hlv [L1 L2 L3] Hq Hca Hcl (Hf & Hv & Hh & Hw). cbn in Hf, Hv, Hh, Hw.
  pose proof (dir_fv _ _ _ _ _ Hd) as Hp. assert (q <> p) as Hqp by congruence. destruct (Hlv q Hq) as [Hq1 Hq2].
  set (v := found_fv s d (Some (x, e))) in *.
  eapply wp_lift_call; [apply (wp_get_fv _ _ v); cbn; by rewrite Hv, lookup_insert_eq|]. intros ? ? [-> ->].
  rewrite L1. apply wp_bind, wp_try.
  eapply wp_mono; [apply (wp_make_vnode _ w _ _ q v (Some dvp) (Some (dvp, fv_cluster d)))|].
  - cbn. by rewrite Hv, lookup_insert_eq.
  - done.
  - split; [done|]. exists p, (set_fv_cls_cache cache d). split; [done|]. cbn.
    by rewrite Hv, lookup_insert_ne, lookup_insert_eq.
  - by intros ? [= <-].
  - intros [vp|err| | |] [s2 w2]; try done; cbn [wpk fst snd].
    + intros [-> Hlk]. apply wp_ret. exists q, cache. split_and!; try done. cbn. by rewrite Hv, Hf, insert_insert_eq.
    + intros (-> & -> & Hw2). eapply wp_call_ok; [apply (wp_vnode_delete _ _ q v); try done; cbn; by rewrite Hv, lookup_insert_eq|].
      intros [] ? ->. apply wp_throw. split_and!; try done. exists cache. split_and!; try done. cbn.
      rewrite Hv, delete_insert_id; [done|]. by rewrite lookup_insert_ne.
Qed.

Lemma wp_lookup s w p d dvp l bs name stack :
  ready s -> directory s p d l bs -> held s !! FvLock p = None -> locks_live s -> linked w p d dvp ->
  length stack = 256%nat -> (length name <= 255)%nat -> name <> dot -> name <> dotdot ->
  wp (fat32_lookup tb p name stack) (s, w) (lookup_post s w p d dvp l (lookup_name bs stack name)).
Proof.
  intros Hr Hd Hl Hlv Hlk Hst Hn Hn1 Hn2. pose proof (dir_fv _ _ _ _ _ Hd) as Hp. unfold fat32_lookup.
  eapply wp_lift_call; [by apply wp_get_fv|]. intros ? ? [-> ->].
  rewrite bool_decide_true by by destruct Hd. rewrite !bool_decide_false by done. cbn [negb].
  eapply wp_call_ok; [apply wp_vnode_new|]. intros ? [s0 w0] (q & -> & Hq & E & Hw). cbn [fst snd] in E, Hw. subst s0.
  assert (linked w0 p d dvp) as Hlk0 by (destruct Hlk; constructor; [done|by rewrite (proj2 (Hw dvp))|by rewrite (proj1 (Hw dvp))]).
  apply (wp_search s w0 p d l bs MrAccess); try done. intros cache s1 Hca Hcl Hs1. destruct (Hlv q Hq) as [Hq1 Hq2].
  assert (held s1 = <[FvLock p := MrAccess]> (held s)) as Hh1 by apply Hs1.
  eapply wp_lift_call; [by apply (wp_unlock _ _ MrAccess (held s))|]. intros [] ? ->.
  destruct (lookup_name bs stack name) as [[x e]|] eqn:Hfound; cbn [search_result].
  - eapply wp_mono; [by eapply wp_lookup_found|]. intros [[vp|]|err| | |] sw; try done.
    + intros (q' & cache' & H1 & H2 & H3 & H4 & H5). exists q', cache'. do 3 (split; [done|]). split; [done|by eapply vnode_linked_layer].
    + intros (-> & H & Hw2). split_and!; [done..|by etrans].
  - destruct Hs1 as (Hf & Hv & _ & Hw1). cbn in Hf, Hv, Hw1.
    eapply wp_call_ok; [eapply (wp_vnode_delete _ _ q); cbn; [by rewrite Hv, lookup_insert_eq|done..]|].
    intros [] ? ->. apply wp_throw. split_and!; try done. exists cache. split_and!; try done. cbn.
    rewrite Hv, delete_insert_id; [done|]. rewrite lookup_insert_ne by congruence. done.
Qed.

(** C10: [fat32_lookup] of a name other than "." and ".." finds the entry that
    [fat32_find_dirent] finds, and returns a new vnode for it with one
    reference: a fresh structure holds exactly what the entry's slot says, its
    parent is the directory, whose vnode is held once more.  If there is no such
    entry the error is ENOENT, if the kernel has no vnode left it is ENOMEM; then
    the temporary structure is freed and no reference is kept.  Nothing else
    changes but the directory's cluster cache. *)
Theorem lookup_correct s w p d dvp l bs name stack :
  ready s -> directory s p d l bs -> held s !! FvLock p = None -> locks_live s -> linked w p d dvp ->
  length stack = 256%nat -> (length name <= 255)%nat -> name <> dot -> name <> dotdot ->
  wp (fat32_lookup tb p name stack) (s, w) (lookup_post s w p d dvp l (lookup_name bs stack name)).
Proof. apply wp_lookup. Qed.

(** ** Renaming onto a name that exists *)

(** The directory is locked for update by the caller. *)
Lemma wp_remove_locked s w p d name is_dir cdir cr stack :
  mr_grant (Some MrUpdate) MrUpdate = None -> held s !! FvLock p = Some MrUpdate -> fvs s !! p = Some d ->
  name <> dot -> name <> dotdot -> fat32_faccess (fsi s) d (Z.lor VWRITE VEXEC) cr = 0 ->
  wp (fat32_remove_common tb p name is_dir cdir cr stack) (s, w) (fun r _ => r = Blocked).
Proof.
  intros Hg Hl Hp Hn1 Hn2 Hacc. unfold fat32_remove_common. rewrite !bool_decide_false by done. cbn [orb].
  eapply (wp_lift_call _ _ _ _ (fun _ s' => s' = s)).
  { unfold dir_writable. repeat wp_step. eapply wp_call_ok; [by apply wp_get_fv|]. intros ? ? [-> ->]. rewrite Hacc. by apply wp_ret. }
  intros [] ? ->. eapply wp_call_ok; [apply wp_vnode_new|]. intros ? [s0 w0] (q & -> & Hq & E & Hw). cbn [fst snd] in E, Hw. subst s0.
  apply wp_bind, wp_lift. unfold mrupdate, lock_acquire. repeat wp_step. cbn [held set_fvs]. rewrite Hl, Hg. done.
Qed.

(** The state after a second search, with a structure [q2] of its own. *)
Definition searched_twice s (p : nat) (d : fat32fs_vnode) (mode : lkmode) (q : nat) (v : fat32fs_vnode) (q2 : nat)
    (v2 : fat32fs_vnode) (cache : list (Z * Z)) s1 : Prop :=
  set_fvs (<[q2 := v2]> (<[q := v]> (<[p := set_fv_cls_cache cache d]> (fvs s))))
    (set_held (<[FvLock p := mode]> (held s)) s) ≡ s1.

(** A second search while the directory is locked. *)
Lemma wp_find_locked s p d l bs mode q v cache s1 name stack q2 :
  ready s -> directory s p d l bs -> q <> p -> cache_ok l cache -> length cache = 16%nat ->
  searched s p d mode q v cache s1 -> q2 <> p -> q2 <> q -> length stack = 256%nat -> (length name <= 255)%nat ->
  wp (fat32_find_dirent tb p name stack (Some q2)) (set_fvs (<[q2 := fresh_fv (fsi s1)]> (fvs s1)) s1) (fun r s2 =>
    r = match lookup_name bs stack name with Some _ => Ok tt | None => Err ENOENT end /\
    exists cache', cache_ok l cache' /\ length cache' = 16%nat /\
      searched_twice s p d mode q v q2 (found_fv s d (lookup_name bs stack name)) cache' s2).
Proof.
  intros Hr Hd Hqp Hca Hcl Hs1 Hq2p Hq2q Hst Hn. pose proof Hs1 as (Hf1 & Hv1 & Hh1 & _). cbn in Hf1, Hv1, Hh1.
  set (s2 := set_fvs _ _). assert (set_fvs (fvs s2) (set_held (<[FvLock p := mode]> (held s)) s) ≡ s2) as He.
  { exact (set_fvs_equiv _ _ (fvs s2) Hs1). }
  assert (fvs s2 !! p = Some (set_fv_cls_cache cache d)) as Hp2.
  { cbn. by rewrite lookup_insert_ne, Hv1, lookup_insert_ne, lookup_insert_eq. }
  assert (directory s2 p (set_fv_cls_cache cache d) l bs) as Hd2.
  { apply (directory_equiv _ _ _ _ _ _ He). apply directory_set_fvs; [|done..]. destruct Hd.
    constructor; try done. cbn. by rewrite lookup_insert_ne. }
  assert (ready s2) as Hr2.
  { rewrite <- He. apply ready_set_fvs, ready_set_held; [done|]. rewrite lookup_insert_ne by done. apply Hr. }
  eapply wp_mono; [apply (wp_find_dirent tb s2 p (set_fv_cls_cache cache d) l bs q2 (fresh_fv (fsi s1)) name stack); try done; cbn; by rewrite lookup_insert_eq|].
  assert (forall v2 cache', <[q2 := v2]> (<[p := set_fv_cls_cache cache' (set_fv_cls_cache cache d)]> (fvs s2)) =
    <[q2 := v2]> (<[q := v]> (<[p := set_fv_cls_cache cache' d]> (fvs s)))) as Hm.
  { intros v2 cache'. cbn. rewrite Hv1. rewrite (insert_insert_ne _ q2 p), insert_insert_eq, (insert_insert_ne _ p q2) by done.
    f_equal. by rewrite insert_cache. }
  intros r s3 (cache' & H1 & H2 & H). unfold found_fv, searched_twice.
  change (fsi s2) with (fsi s1) in H. rewrite Hf1 in H.
  destruct (lookup_name bs stack name) as [[x e]|]; destruct H as [-> H]; (split; [done|]); exists cache';
    (split; [done|split; [done|]]); rewrite Hm in H; (etrans; [|exact H]); exact (set_fvs_again _ _ _ _ He).
Qed.

Lemma wp_finally_blocked {S A} (m : M S A) (cleanup : M S unit) x :
  wp m x (fun r _ => r = Blocked) -> wp (finally m cleanup) x (fun r _ => r = Blocked).
Proof. intros H. unfold finally. apply wp_bind, wp_try. eapply wp_mono; [exact H|]. by intros r s' ->. Qed.

Lemma wp_rename_blocks s w p d l bs dvp snm tnm cr st0 st1 st2 x e x' e' :
  mr_grant (Some MrUpdate) MrUpdate = None ->
  ready s -> directory s p d l bs -> held s !! FvLock p = None -> linked w p d dvp ->
  length st0 = 256%nat -> length st1 = 256%nat -> (length snm <= 255)%nat -> (length tnm <= 255)%nat ->
  snm <> tnm -> tnm <> dot -> tnm <> dotdot ->
  fat32_faccess (fsi s) d (Z.lor VWRITE VEXEC) cr = 0 ->
  lookup_name bs st0 snm = Some (x, e) -> lookup_name bs st1 tnm = Some (x', e') ->
  fv_type (found_fv s d (Some (x, e))) = VREG -> fv_type (found_fv s d (Some (x', e'))) = VREG ->
  wp (fat32_rename tb p snm dvp tnm cr st0 st1 st2) (s, w) (fun r _ => r = Blocked).
Proof.
  intros Hg Hr Hd Hl [L1 L2 L3] Hst0 Hst1 Hn1 Hn2 Hne Ht1 Ht2 Hacc Hf1 Hf2 Hty1 Hty2.
  pose proof (dir_fv _ _ _ _ _ Hd) as Hp. unfold fat32_rename, VNODE_TO_FV. repeat wp_step. cbn [snd]. rewrite L2.
  cbn [of_opt]. repeat wp_step. eapply wp_lift_call; [by apply wp_get_fv|]. intros ? ? [-> ->].
  eapply wp_lift_call; [by apply wp_get_fv|]. intros ? ? [-> ->]. rewrite Z.eqb_refl, bool_decide_false by done. cbn [andb].
  eapply wp_lift_call; [by apply wp_lock|]. intros [] ? ->. repeat wp_step.
  eapply wp_call_ok; [apply wp_vnode_new|]. intros ? [s0 w0] (q & -> & Hq & E & Hw). cbn [fst snd] in E, Hw. subst s0.
  cbn [of_opt]. repeat wp_step. do 2 apply wp_finally_blocked. cbn [fvs fsi set_held] in Hq |- *.
  assert (q <> p) as Hqp by congruence. apply wp_bind, wp_lift.
  eapply wp_mono; [by apply (wp_find_new s p d l bs MrUpdate q snm st0)|]. intros r s1 (-> & cache & Hca & Hcl & Hs1).
  rewrite Hf1 in Hs1 |- *. cbn [wpk]. pose proof Hs1 as (Ef1 & Ev1 & Eh1 & _). cbn in Ef1, Ev1, Eh1.
  eapply wp_call_ok; [apply wp_vnode_new|]. intros ? [s0 w1] (q2 & -> & Hq2 & E & Hw1). cbn [fst snd] in E, Hw1. subst s0.
  assert (q2 <> q) as Hq2q by (intros ->; by rewrite Ev1, lookup_insert_eq in Hq2).
  assert (q2 <> p) as Hq2p by (intros ->; by rewrite Ev1, lookup_insert_ne, lookup_insert_eq in Hq2).
  cbn [of_opt]. repeat wp_step. apply wp_finally_blocked. unfold rename_found. apply wp_bind. unfold rename_target.
  apply wp_bind, wp_try, wp_lift.
  eapply wp_mono; [by eapply (wp_find_locked s p d l bs MrUpdate q _ cache s1 tnm st1 q2)|]. rewrite Hf2.
  intros r s2 (-> & cache' & _ & _ & (Hfs2 & Ev2 & Hh2 & _)). cbn in Hfs2, Ev2, Hh2. cbn [wpk].
  assert (fvs s2 !! q = Some (found_fv s d (Some (x, e)))) as Hvq by (by rewrite Ev2, lookup_insert_ne, lookup_insert_eq).
  assert (fvs s2 !! q2 = Some (found_fv s d (Some (x', e')))) as Hvq2 by (by rewrite Ev2, lookup_insert_eq).
  assert (fvs s2 !! p = Some (set_fv_cls_cache cache' d)) as Hvp by (rewrite Ev2; rewrite !lookup_insert_ne by done; by rewrite lookup_insert_eq).
  eapply wp_lift_call; [by apply wp_get_fv|]. intros ? ? [-> ->].
  eapply wp_lift_call; [by apply wp_get_fv|]. intros ? ? [-> ->].
  rewrite Hty1, Hty2. rewrite !bool_decide_false by done. repeat wp_step.
  eapply wp_mono; [apply (wp_remove_locked s2 _ p (set_fv_cls_cache cache' d)); try done|].
  - by rewrite Hh2, lookup_insert_eq.
  - by rewrite Hfs2.
  - by intros r s3 ->.
Qed.

(** C38: [fat32_rename] onto an existing name never returns where the kernel's
    multi-reader locks are not recursive: with a file of the new name in the
    same directory it asks for the directory's lock in [fat32_remove_common]
    while it holds it for update. *)
Theorem rename_onto_existing_blocks s w p d l bs dvp snm tnm cr st0 st1 st2 x e x' e' :
  mr_grant (Some MrUpdate) MrUpdate = None ->
  ready s -> directory s p d l bs -> held s !! FvLock p = None -> linked w p d dvp ->
  length st0 = 256%nat -> length st1 = 256%nat -> (length snm <= 255)%nat -> (length tnm <= 255)%nat ->
  snm <> tnm -> tnm <> dot -> tnm <> dotdot ->
  fat32_faccess (fsi s) d (Z.lor VWRITE VEXEC) cr = 0 ->
  lookup_name bs st0 snm = Some (x, e) -> lookup_name bs st1 tnm = Some (x', e') ->
  fv_type (found_fv s d (Some (x, e))) = VREG -> fv_type (found_fv s d (Some (x', e'))) = VREG ->
  wp (fat32_rename tb p snm dvp tnm cr st0 st1 st2) (s, w) (fun r _ => r = Blocked).
Proof. apply wp_rename_blocks. Qed.

End search.
