(* ===== verification/DirDemo.v ===== *)
(** * A directory with entries on the small volume

    The root directory of the demonstration volume holds a file with an 8.3 name,
    a deleted slot and a file with a long name.  The theorems about directories
    and names run on it. *)
From S2P Require Import Prelude Layout Time Names Kernel Device Cls Fat Demo Alloc Chain Free Cache File Truncate Access Io IoSpec WriteSpec Dir DirSpec LfnSpec Vnode Nameops Vnops Listing Remove VnodeSpec VnopsSpec.

Definition demo_entry (name : list Z) (attr cluster size : Z) : list Z :=
  set_first_cluster cluster (set83 D83.file_size (WLE32 size) (set83 D83.attr [attr] (set83 D83.name name (zeros 32)))).

(** "README.TXT" in cluster 4 and "Hello world.txt" in the clusters 3, 5, 6. *)
Definition demo_readme : list Z := [82; 69; 65; 68; 77; 69; 46; 84; 88; 84].
Definition demo_readme_entry : list Z := demo_entry [82; 69; 65; 68; 77; 69; 32; 32; 84; 88; 84] 0x20 4 100.
Definition demo_hello_entry : list Z := demo_entry (replicate 11 65) 0x20 3 1300.

Definition demo_slots : list Z :=
  concat (demo_readme_entry :: (0xE5 :: zeros 31) :: all_slots demo_name demo_hello_entry) ++ zeros 352.

(** The root directory in block 4; its vnode has the address 9. *)
Definition demo_root_fv : fat32fs_vnode := set_fv_mode 0x1ED (set_fv_vnode (Some 9%nat) demo_dir_fv).
Definition demo_vol : st device :=
  mkSt (mkDevice ∅ (<[4 := demo_slots]> demo_disk) (mkTimespec 1700000000 0)) demo_fsi
    (<[2%nat := demo_root_fv]> (<[3%nat := demo_dirty_fv]> {[ 1%nat := demo_fv ]})) ∅.

(** One more reference to vnode 9, whose structure is at 2. *)
Definition demo_layer : vntable := mkVntable {[ 9%nat := 1 ]} {[ 9%nat := 2%nat ]}.

Definition demo_stack : list Z := zeros 256.
Definition demo_root_cred : cred := mkCred 0 [].

Lemma demo_vol_ready : ready demo_vol.
Proof.
  assert (forall b, b = 1 \/ b = 2 \/ b = 3 -> is_Some (view (kst demo_vol) b 1)) as Hb.
  { intros b [->|[->| ->]]; (eexists; vm_compute; reflexivity). }
  split; [split|done]; [apply demo_wf| |].
  - intros k c Hk Hc. apply Hb. unfold fat_block. unfold in_range in Hc. cbn in *.
    assert (c * 4 / 512 = 0) as E by (apply Z.div_small; lia). rewrite E. lia.
  - apply Hb. by left.
Qed.

Lemma demo_vol_chain : file_chain demo_vol 3 [3; 5; 6] /\ file_chain demo_vol 4 [4] /\ file_chain demo_vol 2 [2].
Proof.
  assert (fat demo_vol 3 = 5) as E3 by (vm_compute; reflexivity).
  assert (fat demo_vol 5 = 6) as E5 by (vm_compute; reflexivity).
  assert (forall c, 2 <= c <= 21 -> in_range (fsi demo_vol) c) as Hr by (intros; unfold in_range; cbn; lia).
  split_and!.
  - apply chain_link; rewrite ?E3; [apply Hr; lia|apply Hr; lia|].
    apply chain_link; rewrite ?E5; [apply Hr; lia|apply Hr; lia|].
    apply chain_end; [apply Hr; lia|vm_compute; congruence].
  - apply chain_end; [apply Hr; lia|vm_compute; congruence].
  - apply chain_end; [apply Hr; lia|vm_compute; congruence].
Qed.

Lemma demo_vol_contents : contents demo_vol [2] demo_slots.
Proof. exists [demo_slots]. split; [|vm_compute; reflexivity]. repeat constructor. Qed.

Lemma demo_vol_directory : directory demo_vol 2 demo_root_fv [2] demo_slots.
Proof.
  constructor; try reflexivity; [|done|apply demo_vol_contents].
  split; [apply cache_ok_zeros|split; [reflexivity|apply demo_vol_chain]].
Qed.

Lemma demo_vol_locks : locks_live demo_vol.
Proof. intros q _. done. Qed.

Lemma demo_layer_linked : linked demo_layer 2 demo_root_fv 9.
Proof. by constructor. Qed.

(** ** What the directory holds *)

(** The long name is found at slot 2 with its three slots. *)
Example demo_hello_found :
  match lookup_name demo_slots demo_stack demo_name with
  | Some (x, e) => entry_start_offset x = 64 /\ num_slots x = 3 /\ first_cluster e = 3 /\ e = demo_hello_entry
  | None => False
  end.
Proof. vm_compute. done. Qed.

(** ** Witnesses *)

Lemma get_dirent_correct_witness :
  wp (fat32_get_dirent 32 2 32 (replicate 256 0) 256 (Some 3%nat)) demo_vol
    (get_dirent_post 32 demo_vol 2 demo_root_fv [2] (Some 3%nat)
       (scan_dir demo_slots 32 (mkScan 32 (replicate 256 0) 256 false 0))).
Proof.
  apply (get_dirent_correct 32 demo_vol 2 demo_root_fv [2] demo_slots 32 (replicate 256 0) (Some 3%nat));
    [apply demo_vol_ready|apply demo_vol_directory|lia|reflexivity|reflexivity|].
  split; [discriminate|by eexists].
Defined.

Lemma find_dirent_correct_witness :
  wp (fat32_find_dirent 32 2 demo_name demo_stack (Some 3%nat)) demo_vol
    (find_post 32 demo_vol 2 demo_root_fv [2] 3 demo_dirty_fv (lookup_name demo_slots demo_stack demo_name)).
Proof.
  apply (find_dirent_correct 32 demo_vol 2 demo_root_fv [2] demo_slots 3 demo_dirty_fv demo_name demo_stack);
    [apply demo_vol_ready|apply demo_vol_directory|discriminate|reflexivity|reflexivity|cbn; lia].
Defined.

(** The three slots of the long name. *)
Lemma delete_chain_correct_witness :
  wp (fat32_delete_fdentry_chain 2 64 3) demo_vol (fun r s' =>
    if decide (64 < Z.of_nat (length demo_slots)) then
      r = (if decide (64 + 32 * 3 <= Z.of_nat (length demo_slots)) then Ok tt else Err ENOSPC) /\
      dir_change demo_vol 2 [2] (mark_deleted demo_slots 64 (Z.to_nat 3)) s'
    else r = Err ENOSPC /\ demo_vol ≡ s').
Proof.
  apply (delete_chain_correct demo_vol 2 [2] demo_slots 64 3);
    [apply demo_vol_ready|split; [apply demo_vol_chain|apply demo_vol_contents]|lia|reflexivity|lia].
Defined.

Lemma dirempty_correct_witness :
  wp (fat32_dirempty 2) demo_vol (okp (fun r s' => demo_vol ≡ s' /\ r = if occupied demo_slots then ENOTEMPTY else 0)).
Proof.
  apply (dirempty_correct demo_vol 2 demo_root_fv [2] demo_slots);
    [apply demo_vol_ready|reflexivity|reflexivity|apply demo_vol_directory|apply demo_vol_contents].
Defined.

Example demo_vol_occupied : occupied demo_slots = true.
Proof. reflexivity. Qed.

Lemma make_vnode_correct_witness :
  wp (fat32_make_vnode 3 VREG 3 (Some 9%nat)) (demo_vol, demo_layer) (fun r sw =>
    match r with
    | Ok vp =>
        fst sw = set_fvs (<[3%nat := made_vnode (fsi demo_vol) 3 VREG vp (Some (9%nat, 2)) demo_dirty_fv]> (fvs demo_vol)) demo_vol /\
        vnode_linked demo_layer vp 3 (Some 9%nat) (snd sw)
    | Err e => e = ENOMEM /\ fst sw = demo_vol /\ layer_same demo_layer (snd sw)
    | _ => False
    end).
Proof.
  apply (make_vnode_correct demo_vol demo_layer 3 VREG 3 demo_dirty_fv (Some 9%nat) (Some (9%nat, 2)));
    [reflexivity|reflexivity| |intros pvp [= <-]; discriminate].
  split; [reflexivity|]. exists 2%nat, demo_root_fv. by split_and!.
Defined.

Lemma demo_removal cdir cc : cdir_cluster demo_vol demo_layer cdir cc ->
  removal demo_vol demo_layer 2 demo_root_fv [2] demo_slots demo_name demo_stack cdir cc [3; 5; 6] (zeros 1536).
Proof.
  intros Hcd. constructor.
  - apply demo_vol_ready.
  - apply demo_vol_directory.
  - reflexivity.
  - apply demo_vol_locks.
  - exact Hcd.
  - reflexivity.
  - cbn. lia.
  - intros x e H. pose proof demo_hello_found as Hf. rewrite H in Hf. destruct Hf as (_ & _ & E & _).
    right. rewrite E. apply demo_vol_chain.
  - exists [zeros 512; zeros 512; zeros 512]. split; [|reflexivity]. repeat constructor.
  - set_solver.
Qed.

Lemma remove_common_correct_witness :
  let found := lookup_name demo_slots demo_stack demo_name in
  let a := remove_answer 32 demo_vol demo_root_fv demo_name false demo_root_cred None found (occupied (zeros 1536)) in
  wp (fat32_remove_common 32 2 demo_name false None demo_root_cred demo_stack) (demo_vol, demo_layer) (fun r sw =>
    r = (if a =? 0 then Ok tt else Err a) /\ layer_same demo_layer (snd sw) /\
    if a =? 0 then remove_done demo_vol 2 demo_root_fv [2] demo_slots found [3; 5; 6] (fst sw)
    else cache_moved demo_vol 2 demo_root_fv [2] (fst sw)).
Proof.
  apply (remove_common_correct 32 demo_vol demo_layer 2 demo_root_fv [2] demo_slots demo_name false None None
           demo_root_cred demo_stack [3; 5; 6] (zeros 1536)).
  by apply demo_removal.
Defined.

(** Here the removal succeeds. *)
Example demo_remove_answer :
  remove_answer 32 demo_vol demo_root_fv demo_name false demo_root_cred None
    (lookup_name demo_slots demo_stack demo_name) (occupied (zeros 1536)) = 0.
Proof. vm_compute. reflexivity. Qed.

Lemma lookup_correct_witness :
  wp (fat32_lookup 32 2 demo_name demo_stack) (demo_vol, demo_layer)
    (lookup_post 32 demo_vol demo_layer 2 demo_root_fv 9 [2] (lookup_name demo_slots demo_stack demo_name)).
Proof.
  apply (lookup_correct 32 demo_vol demo_layer 2 demo_root_fv 9 [2] demo_slots demo_name demo_stack);
    [apply demo_vol_ready|apply demo_vol_directory|reflexivity|apply demo_vol_locks|apply demo_layer_linked|reflexivity
    |cbn; lia|discriminate|discriminate].
Defined.

Definition demo_find (name : list Z) : scan * list Z :=
  default (mkScan 0 [] 0 false 0, []) (lookup_name demo_slots demo_stack name).

Lemma rename_onto_existing_blocks_witness :
  wp (fat32_rename 32 2 demo_readme 9 demo_name demo_root_cred demo_stack demo_stack demo_stack) (demo_vol, demo_layer)
    (fun r _ => r = Blocked).
Proof.
  apply (rename_onto_existing_blocks 32 demo_vol demo_layer 2 demo_root_fv [2] demo_slots 9 demo_readme demo_name
           demo_root_cred demo_stack demo_stack demo_stack (demo_find demo_readme).1 (demo_find demo_readme).2
           (demo_find demo_name).1 (demo_find demo_name).2);
    [reflexivity|apply demo_vol_ready|apply demo_vol_directory|reflexivity|apply demo_layer_linked|reflexivity|reflexivity
    |cbn; lia|cbn; lia|discriminate|discriminate|discriminate|vm_compute; reflexivity|vm_compute; reflexivity
    |vm_compute; reflexivity|vm_compute; reflexivity|vm_compute; reflexivity].
Defined.

(** ** A long-name slot without the LAST flag *)

(** Two files, the second with such a slot before its entry: its slots start at
    offset 0, so that its removal deletes the first file's slot as well. *)
Definition demo_orphan : list Z :=
  concat [demo_readme_entry; setlfn Lfn.sequence [1] (lfn_entry demo_name 0 2 1); demo_hello_entry] ++ zeros 416.

Example orphan_starts_at_0 :
  match listing demo_orphan demo_stack with
  | [(x1, _); (x2, e2)] => entry_start_offset x1 = 0 /\ num_slots x1 = 1 /\ e2 = demo_hello_entry /\
                           entry_start_offset x2 = 0 /\ num_slots x2 = 3
  | _ => False
  end.
Proof. vm_compute. done. Qed.
