(* ===== verification/AttrSpec.v ===== *)
(** * Attributes and synchronisation of one vnode

    [fat32_getattr] reports the size the chain or the size member has, within
    the widths of its counters; [fat32_fsync] and [fat32_close] write the
    metadata of a dirty vnode under the locks of its directory and its own;
    [fat32_setattr] makes exactly the requested changes and writes them. *)
From S2P Require Import Prelude Layout Time Names Kernel Device Cls Fat Demo Alloc Chain Free Cache File Truncate Access Io IoSpec WriteSpec Dir DirSpec LfnSpec Vnode Nameops Vnops Listing Remove VnodeSpec VnopsSpec DirDemo.

Section getattr.
Context {K : Type} `{!Kernel K, !KernelLaws K}.
Implicit Types s : st K.

(** The count stops at the end of the chain. *)
Lemma wp_count_loop s c l fuel k x s1 :
  ready s -> file_chain s c l -> s ≡ s1 -> l !! k = Some x -> (length l - k <= fuel)%nat ->
  wp (iter fuel count_step (x, Z.of_nat k)) s1 (okp (fun r s' => s ≡ s' /\ r = Z.of_nat (length l))).
Proof.
  intros Hr Hch. pose proof (ready_wf _ Hr) as Hwf. pose proof (chain_length_bound s _ _ Hwf Hch) as Hb.
  pose proof (wf_cluster_count _ Hwf) as Hcc. revert k x s1.
  induction fuel as [|fuel IH]; intros k x s1 Hs Hx Hfuel; apply lookup_lt_Some in Hx as Hlt; [lia|].
  pose proof (chain_range _ _ _ _ Hch) as Hrg. rewrite Forall_lookup in Hrg. specialize (Hrg _ _ Hx).
  pose proof (in_range_not_eoc _ _ Hwf Hrg) as Heoc. cbn [iter]. apply wp_bind. unfold count_step at 1.
  rewrite (proj2 (Z.leb_le FAT32_CLUSTER_MIN x)), (proj2 (Z.ltb_lt _ _)) by (unfold in_range, FAT32_CLUSTER_MIN in *; lia).
  cbn [andb]. rewrite u32_small by lia. replace (Z.of_nat k + 1) with (Z.of_nat (S k)) by lia.
  apply wp_bind, wp_try. eapply wp_mono; [by apply (wp_next_of_chain s1 c l k x); rewrite <- ?Hs|].
  intros r s2 [-> Hs2]. assert (s ≡ s2) as Hs02 by (by rewrite Hs). destruct (l !! S k) as [y|] eqn:Hy; cbn [wpk].
  - apply wp_ret. cbn [wpk]. apply IH; [done|done|lia].
  - apply wp_ret. cbn [wpk]. apply wp_ret. split; [done|]. apply lookup_ge_None in Hy. lia.
Qed.

(** The size and the number of clusters that are reported. *)
Definition reported_size (f : fat32fs_info) (v : fat32fs_vnode) (l : list Z) : Z * Z :=
  if bool_decide (fv_type v = VDIR)
  then let n := Z.max 1 (Z.of_nat (length l)) in (u32 (n * fsi_bytes_per_cluster f), n)
  else (fv_size v, (fv_size v + fsi_bytes_per_cluster f - 1) / fsi_bytes_per_cluster f).

Lemma wp_attr_size s v l :
  ready s -> file_ok s v l -> 0 <= fv_size v < 2 ^ 62 ->
  wp (attr_size (fsi s) v) s (okp (fun r s' => s ≡ s' /\ r = reported_size (fsi s) v l)).
Proof.
  intros Hr Hok Hsz. pose proof (ready_wf _ Hr) as Hwf. destruct (bpc_eq _ Hwf) as [_ Hb]. unfold attr_size, reported_size.
  destruct (bool_decide _).
  - destruct (decide (l = [])) as [->|Hne].
    + destruct Hok as (_ & _ & ->). apply wp_bind. cbn [iter]. by repeat wp_step.
    + apply file_ok_chain in Hok as (_ & _ & Hch); [|done]. destruct (chain_head _ _ _ _ Hch) as [l' El].
      pose proof (chain_length_bound s _ _ Hwf Hch) as Hlen.
      eapply wp_call_ok; [apply (wp_count_loop s (fv_cluster v) l _ 0 (fv_cluster v) s Hr Hch); [done|by rewrite El|lia]|].
      intros r s' [Hs ->]. apply wp_ret. split; [done|]. rewrite El. cbn [length].
      rewrite (proj2 (Z.eqb_neq _ 0)) by lia. by rewrite Z.max_r by lia.
  - apply wp_ret. split; [done|]. f_equal. rewrite swrap_small by lia.
    rewrite Z.shiftr_div_pow2 by (destruct Hwf; lia). f_equal.
    rewrite (wf_bytes_per_cluster _ Hwf), (wf_cluster_shift _ Hwf), (wf_spc _ Hwf).
    rewrite Z.pow_add_r by (destruct Hwf; lia). done.
Qed.

(** C37: [fat32_getattr] changes nothing and reports the members of the vnode;
    the block count is the exact number of clusters that hold the bytes of a
    file, rounded up without overflow, and the length of the chain for a
    directory (at least 1), whose size is that many clusters modulo 2^32.  It
    returns for every chain that ends. *)
Theorem getattr_correct s p v l :
  ready s -> fvs s !! p = Some v -> file_ok s v l -> 0 <= fv_size v < 2 ^ 62 ->
  wp (fat32_getattr p) s (okp (fun a s' => s ≡ s' /\
    (va_size a, va_nblocks a) = reported_size (fsi s) v l /\
    va_type a = fv_type v /\ va_mode a = fv_mode v /\ va_uid a = fv_uid v /\ va_gid a = fv_gid v /\
    va_nodeid a = fv_cluster v /\ va_atime a = fv_atime v /\ va_mtime a = fv_mtime v /\ va_ctime a = fv_ctime v /\
    va_blksize a = fsi_bytes_per_cluster (fsi s))).
Proof.
  intros Hr Hv Hok Hsz. unfold fat32_getattr. eapply wp_call_ok; [by apply wp_get_fv|]. intros ? ? [-> ->]. repeat wp_step.
  eapply wp_call_ok; [by eapply wp_attr_size|]. intros r s' [Hs ->]. apply wp_ret. split; [done|]. cbn [va_size va_nblocks].
  split; [by destruct (reported_size _ _ _)|]. by split_and!.
Qed.

End getattr.

(** ** Synchronisation *)

Section sync.
Context {K V : Type} `{!Kernel K, !KernelLaws K, !Vnodes V, !VnodesLaws V}.
Implicit Types (s : st K) (w : V).

(** Locks do not matter to what is written. *)
Lemma metadata_written_held s h p v l bs s' :
  metadata_written (set_held h s) p v l bs s' -> held s !! FsiLock = None ->
  metadata_written s p v l bs (set_held (held s) s') /\ held s' = h.
Proof.
  intros (e & H1 & H2 & H3 & Hr & Hf & Hv & Hh & Hd & Hk & Hdk) Hfsi. split; [|exact Hh].
  exists e. split; [done|]. split; [done|]. split; [done|]. split; [by apply ready_set_held|].
  split; [exact Hf|]. split; [exact Hv|]. by split_and!.
Qed.

(** The structure of the parent, or none. *)
Definition parent_fv s w (fv : nat) (v : fat32fs_vnode) (p : option nat) : Prop :=
  match fv_parent_vp v, p with
  | Some vp, Some pf => first_bhv w vp = Some pf /\ pf <> fv /\ held s !! FvLock pf = None
  | None, None => True
  | _, _ => False
  end.

(** The locks of the parent and of the vnode, taken in this order. *)
Definition parent_locked (h : gmap lock lkmode) (p : option nat) : gmap lock lkmode :=
  match p with Some pf => <[FvLock pf := MrUpdate]> h | None => h end.
Definition both_locked s (fv : nat) (p : option nat) : st K :=
  set_held (<[FvLock fv := MrUpdate]> (parent_locked (held s) p)) s.

(** [fat32_sync_metadata] gets as far as its own lock. *)
Lemma wp_lock_parent {A} s w h fv v p (k : option nat -> M (st K * V) A) Q :
  parent_fv s w fv v p -> (forall pf, p = Some pf -> h !! FvLock pf = None) ->
  wp (k p) (set_held (parent_locked h p) s, w) Q ->
  wp (let* parent_fv := (match fv_parent_vp v with
                         | Some vp => let* p := VNODE_TO_FV vp in do* lift (mrupdate (FvLock p)) in ret (Some p)
                         | None => ret None
                         end) in k parent_fv) (set_held h s, w) Q.
Proof.
  intros Hp Hh Hk. eapply (wp_call_ok _ _ _ (fun o sw => o = p /\ sw = (set_held (parent_locked h p) s, w))); [clear Hk|by intros ? ? [-> ->]].
  unfold parent_fv, parent_locked in *. destruct (fv_parent_vp v) as [vp|], p as [pf|]; try done.
  destruct Hp as (Hb & _). unfold VNODE_TO_FV. repeat wp_step. cbn [snd]. rewrite Hb. cbn [of_opt]. repeat wp_step.
  eapply wp_lift_call; [apply wp_lock; by apply Hh|]. intros [] ? ->. by apply wp_ret.
Qed.

(** Whatever is done in place of the update is done under both locks. *)
Lemma wp_sync_with s w fv v p update R :
  fvs s !! fv = Some v -> held s !! FvLock fv = None -> parent_fv s w fv v p ->
  wp (update fv) (both_locked s fv p) (fun r s' => held s' = held (both_locked s fv p) /\ R r (set_held (held s) s') /\
    match r with Ok _ | Err _ => True | _ => False end) ->
  wp (sync_metadata_with update fv) (s, w) (fun r sw => snd sw = w /\ R r (fst sw)).
Proof.
  intros Hv Hl Hp Hu. unfold sync_metadata_with. eapply wp_lift_call; [by apply wp_get_fv|]. intros ? ? [-> ->].
  assert (parent_locked (held s) p !! FvLock fv = None /\ forall pf, p = Some pf -> held s !! FvLock pf = None) as [Hf Hpf].
  { unfold parent_fv, parent_locked in *. destruct (fv_parent_vp v), p as [pf|]; try done. destruct Hp as (_ & Hne & Hpl).
    split; [by rewrite lookup_insert_ne by congruence|]. by intros ? [= <-]. }
  replace s with (set_held (held s) s) at 1 by (by destruct s). eapply wp_lock_parent; [done..|].
  eapply wp_lift_call; [by apply wp_lock|]. intros [] ? ->. cbn [held set_held].
  change (set_held _ (set_held _ s)) with (both_locked s fv p). apply wp_bind, wp_try, wp_lift.
  eapply wp_mono; [exact Hu|]. intros r s1 (Hh & HR & Hr). cbn [both_locked held set_held] in Hh.
  assert (wp (do* lift (mrunlock (FvLock fv)) in
    do* match p with Some p0 => lift (mrunlock (FvLock p0)) | None => ret tt end in
    rethrow (match r with Ok a => inr a | Err e => inl e | _ => inl 0 end)) (s1, w) (fun r' sw => r' = r /\ sw = (set_held (held s) s1, w))) as Hend.
  { eapply wp_lift_call; [by eapply wp_unlock|]. intros [] ? ->.
    eapply (wp_call_ok _ _ _ (fun _ sw => sw = (set_held (held s) s1, w))).
    - destruct p as [pf|]; [|by apply wp_ret]. apply wp_lift.
      eapply wp_mono; [eapply (wp_unlock _ _ MrUpdate (held s)); [done|by apply Hpf]|]. by intros [[]| | | |] ? E; cbn in E |- *; subst.
    - intros [] ? ->. destruct r; first [done|by apply wp_ret|by apply wp_throw]. }
  destruct r; try done; cbn [wpk]; eapply wp_mono; try exact Hend; intros ? ? [-> ->]; done.
Qed.

Lemma wp_sync_metadata s w fv v p l bs :
  ready s -> fvs s !! fv = Some v -> held s !! FvLock fv = None -> parent_fv s w fv v p ->
  flag (fv_flags v) FV_DIRTY_MASK = true -> flag (fv_flags v) FV_ROOT = false -> entry_ok s v l bs ->
  wp (fat32_sync_metadata fv) (s, w) (okp (fun _ sw => snd sw = w /\ metadata_written s fv v l bs (fst sw))).
Proof.
  intros Hr Hv Hl Hp Hd Hroot Hok. eapply wp_mono.
  { apply (wp_sync_with s w fv v p _ (fun r s' => match r with Ok _ => metadata_written s fv v l bs s' | _ => False end) Hv Hl Hp).
    assert (held (both_locked s fv p) !! FsiLock = None) as Hh.
    { unfold both_locked. cbn. rewrite lookup_insert_ne by done. destruct p; cbn; rewrite ?lookup_insert_ne by done; apply Hr. }
    eapply wp_mono; [apply (wp_update_fdentry (both_locked s fv p) fv v l bs); try done; [by apply ready_set_held|by destruct Hok]|].
    intros [[]| | | |] s1; try done. cbn [okp]. intros [Hw E]%metadata_written_held; [done|apply Hr]. }
  intros [[]| | | |] sw; naive_solver.
Qed.

(** A lock that is not granted blocks: the parent's is asked for first. *)
Definition not_granted (m : lkmode) : Prop := mr_grant (Some m) MrUpdate = None.

Lemma wp_lock_blocks s l m : held s !! l = Some m -> not_granted m -> wp (lock_acquire l MrUpdate) s (fun r s' => r = Blocked /\ s' = s).
Proof. intros H Hm. unfold lock_acquire. repeat wp_step. by rewrite H, Hm. Qed.

Lemma wp_fsync_blocks s w fv v p update m :
  fvs s !! fv = Some v -> parent_fv s w fv v p -> not_granted m ->
  (forall pf, p = Some pf ->
     let s1 := set_held (<[FvLock pf := m]> (held s)) s in
     wp (sync_metadata_with update fv) (s1, w) (fun r sw => r = Blocked /\ sw = (s1, w))) /\
  let h := <[FvLock fv := m]> (held s) in
  wp (sync_metadata_with update fv) (set_held h s, w) (fun r sw => r = Blocked /\ sw = (set_held (parent_locked h p) s, w)).
Proof.
  intros Hv Hp Hm. split.
  - intros pf -> s1. unfold sync_metadata_with. eapply wp_lift_call; [by apply wp_get_fv|]. intros ? ? [-> ->].
    unfold parent_fv in Hp. destruct (fv_parent_vp v) as [vp|]; [|done]. destruct Hp as (Hb & _).
    unfold VNODE_TO_FV. repeat wp_step. cbn [snd]. rewrite Hb. cbn [of_opt]. repeat wp_step. apply wp_bind, wp_lift.
    eapply wp_mono; [apply (wp_lock_blocks _ _ m); [apply lookup_insert_eq|done]|]. by intros r ? [-> ->].
  - intros h. unfold sync_metadata_with. eapply wp_lift_call; [by apply wp_get_fv|]. intros ? ? [-> ->].
    eapply wp_lock_parent; [done|..].
    + intros pf ->. unfold parent_fv in Hp. destruct (fv_parent_vp v); [|done]. destruct Hp as (_ & Hne & Hl).
      unfold h. by rewrite lookup_insert_ne by congruence.
    + apply wp_bind, wp_lift. eapply wp_mono; [apply (wp_lock_blocks _ _ m); [|done]|by intros r ? [-> ->]].
      unfold h, parent_locked. cbn [held set_held]. destruct p as [pf|]; [|apply lookup_insert_eq].
      unfold parent_fv in Hp. destruct (fv_parent_vp v); [|done]. destruct Hp as (_ & Hne & _).
      rewrite lookup_insert_ne by congruence. apply lookup_insert_eq.
Qed.

(** [fat32_fsync] of a dirty vnode stops where the synchronisation does. *)
Lemma wp_fsync_stops s w fv v sw1 :
  fvs s !! fv = Some v -> flag (fv_flags v) FV_DIRTY_MASK = true ->
  wp (fat32_sync_metadata fv) (s, w) (fun r sw => r = Blocked /\ sw = sw1) ->
  wp (fat32_fsync fv) (s, w) (fun r sw => r = Blocked /\ sw = sw1).
Proof.
  intros Hv Hd H. unfold fat32_fsync. eapply wp_lift_call; [by apply wp_get_fv|]. intros ? ? [-> ->]. rewrite Hd.
  apply wp_bind, wp_try. eapply wp_mono; [exact H|]. by intros r ? [-> ->].
Qed.

Lemma wp_fsync s w fv v p l bs :
  ready s -> fvs s !! fv = Some v -> held s !! FvLock fv = None -> parent_fv s w fv v p ->
  flag (fv_flags v) FV_ROOT = false -> entry_ok s v l bs ->
  wp (fat32_fsync fv) (s, w) (okp (fun _ sw => snd sw = w /\
    if flag (fv_flags v) FV_DIRTY_MASK then metadata_written s fv v l bs (fst sw) else fst sw = s)).
Proof.
  intros Hr Hv Hl Hp Hroot Hok. unfold fat32_fsync. eapply wp_lift_call; [by apply wp_get_fv|]. intros ? ? [-> ->].
  destruct (flag (fv_flags v) FV_DIRTY_MASK) eqn:Hd; [|by apply wp_ret].
  apply wp_bind, wp_try. eapply wp_mono; [by eapply wp_sync_metadata|].
  intros [[]| | | |] sw H; try done; by apply wp_ret.
Qed.

(** C34: [fat32_fsync], like the last [fat32_close], of a dirty vnode other than
    the root writes its metadata: exactly the members the dirty flags name go to
    the entry's 8.3 slot; a clean vnode costs nothing.  The result is success in
    every case.  What [fat32_sync_metadata] runs as the update, whatever it is,
    runs in the state in which exactly the parent's lock and the vnode's own are
    taken in addition, and both are released behind it.  The parent's lock is
    taken first: if it is not granted nothing is taken, and if the vnode's own
    lock is not granted, [fat32_fsync] waits with the parent's lock held. *)
Theorem fsync_correct s w fv v p l bs :
  ready s -> fvs s !! fv = Some v -> held s !! FvLock fv = None -> parent_fv s w fv v p ->
  flag (fv_flags v) FV_ROOT = false -> entry_ok s v l bs ->
  wp (fat32_fsync fv) (s, w) (okp (fun _ sw => snd sw = w /\
    if flag (fv_flags v) FV_DIRTY_MASK then metadata_written s fv v l bs (fst sw) else fst sw = s)) /\
  (forall update R,
     wp (update fv) (both_locked s fv p) (fun r s' => held s' = held (both_locked s fv p) /\ R r (set_held (held s) s') /\
       match r with Ok _ | Err _ => True | _ => False end) ->
     wp (sync_metadata_with update fv) (s, w) (fun r sw => snd sw = w /\ R r (fst sw))) /\
  (flag (fv_flags v) FV_DIRTY_MASK = true -> forall m, not_granted m ->
     (forall pf, p = Some pf ->
        let s1 := set_held (<[FvLock pf := m]> (held s)) s in
        wp (fat32_fsync fv) (s1, w) (fun r sw => r = Blocked /\ sw = (s1, w))) /\
     let h := <[FvLock fv := m]> (held s) in
     wp (fat32_fsync fv) (set_held h s, w) (fun r sw => r = Blocked /\ sw = (set_held (parent_locked h p) s, w))).
Proof.
  intros Hr Hv Hl Hp Hroot Hok. split; [by eapply wp_fsync|]. split; [intros update R; by apply (wp_sync_with s w fv v p)|].
  intros Hd m Hm. destruct (wp_fsync_blocks s w fv v p fat32_update_fdentry m Hv Hp Hm) as [H1 H2].
  split; [intros pf E|]; eapply wp_fsync_stops; try done. by apply H1.
Qed.

End sync.

(** ** Setting attributes *)

(** What the requested members change, as one assignment. *)
Definition new_dos_attr (vap : vattr) (v : fat32fs_vnode) : Z :=
  if flag (va_mask vap) AT_MODE
  then if flag (va_mode vap) S_IWUSR then Z.ldiff (fv_attr v) FAT32_ATTR_READ_ONLY
       else Z.lor (fv_attr v) FAT32_ATTR_READ_ONLY
  else fv_attr v.
Definition attr_dirty (vap : vattr) (v : fat32fs_vnode) : Z :=
  let asked m := flag (va_mask vap) m in
  Z.lor (if bool_decide (new_dos_attr vap v = fv_attr v) then 0 else FV_ATTR_DIRTY)
    (Z.lor (if asked AT_ATIME then FV_ATIME_DIRTY else 0)
      (Z.lor (if asked AT_MTIME then FV_MTIME_DIRTY else 0) (if asked AT_CTIME then FV_CTIME_DIRTY else 0))).
Definition with_attributes (vap : vattr) (v : fat32fs_vnode) : fat32fs_vnode :=
  let pick {A} m (x y : A) := if flag (va_mask vap) m then x else y in
  set_fv_mode (pick AT_MODE (va_mode vap) (fv_mode v))
    (set_fv_uid (pick AT_UID (va_uid vap) (fv_uid v)) (set_fv_gid (pick AT_GID (va_gid vap) (fv_gid v))
      (set_fv_atime (pick AT_ATIME (va_atime vap) (fv_atime v)) (set_fv_mtime (pick AT_MTIME (va_mtime vap) (fv_mtime v))
        (set_fv_ctime (pick AT_CTIME (va_ctime vap) (fv_ctime v))
          (set_fv_attr (new_dos_attr vap v) (or_flags (attr_dirty vap v) v))))))).

Lemma read_only_bit a :
  Z.ldiff a FAT32_ATTR_READ_ONLY = Z.land a (Z.lnot FAT32_ATTR_READ_ONLY) /\
  (Z.ldiff a FAT32_ATTR_READ_ONLY = a <-> flag a FAT32_ATTR_READ_ONLY = false) /\
  (Z.lor a FAT32_ATTR_READ_ONLY = a <-> flag a FAT32_ATTR_READ_ONLY = true).
Proof.
  change FAT32_ATTR_READ_ONLY with (2 ^ 0). rewrite (flag_bit a 0), <- Z.ldiff_land by lia. split; [done|].
  assert (forall i, 0 <= i -> Z.testbit (2 ^ 0) i = bool_decide (i = 0)) as Hb.
  { intros i Hi. rewrite Z.pow2_bits_eqb by lia. case_bool_decide; lia. }
  split; (split; [intros H; rewrite <- H|intros H; apply Z.bits_inj'; intros i Hi]);
    rewrite ?Z.ldiff_spec, ?Z.lor_spec, Hb by lia; try (by rewrite ?andb_false_r, ?orb_true_r);
    case_bool_decide; subst; by rewrite ?H, ?andb_true_r, ?orb_false_r.
Qed.

Lemma set_attr_mode_eq mode v :
  let a := if flag mode S_IWUSR then Z.ldiff (fv_attr v) FAT32_ATTR_READ_ONLY else Z.lor (fv_attr v) FAT32_ATTR_READ_ONLY in
  set_attr_mode mode v = set_fv_mode mode (set_fv_attr a (or_flags (if bool_decide (a = fv_attr v) then 0 else FV_ATTR_DIRTY) v)).
Proof.
  unfold set_attr_mode. destruct (read_only_bit (fv_attr v)) as (E & H1 & H2). cbn [fv_attr set_fv_mode].
  destruct (flag mode S_IWUSR).
  - destruct (flag (fv_attr v) FAT32_ATTR_READ_ONLY); [rewrite bool_decide_false, E by (intros ?%H1; done); done|].
    rewrite bool_decide_true, (proj2 H1 eq_refl) by (by apply H1). unfold or_flags. rewrite Z.lor_0_r. by destruct v.
  - destruct (flag (fv_attr v) FAT32_ATTR_READ_ONLY); cbn [negb]; [|rewrite bool_decide_false by (intros ?%H2; done); done].
    rewrite bool_decide_true, (proj2 H2 eq_refl) by (by apply H2). unfold or_flags. rewrite Z.lor_0_r. by destruct v.
Qed.

Lemma set_attributes_eq vap v : set_attributes vap v = with_attributes vap v.
Proof.
  unfold set_attributes, with_attributes, attr_dirty, new_dos_attr. rewrite set_attr_mode_eq. unfold or_flags.
  destruct v as [x1 x2 x3 x4 x5 x6 x7 x8 x9 x10 x11 x12 x13 x14 x15 x16 x17 x18 x19].
  destruct (flag _ AT_MODE), (flag _ AT_UID), (flag _ AT_GID), (flag _ AT_ATIME), (flag _ AT_MTIME), (flag _ AT_CTIME); cbn;
    f_equal; rewrite ?(bool_decide_true (x13 = x13)) by done; rewrite ?Z.lor_0_r, ?Z.lor_0_l, ?Z.lor_assoc; done.
Qed.

Section setattr.
Context {K V : Type} `{!Kernel K, !KernelLaws K, !Vnodes V, !VnodesLaws V}.
Implicit Types (s : st K) (w : V).

(** Locks do not matter to the truncation. *)
Lemma truncate_done_held s h p v l n size s' :
  truncate_done (set_held h s) p v l n size s' -> held s !! FsiLock = None ->
  truncate_done s p v l n size (set_held (held s) s') /\ held s' = h.
Proof.
  intros (Hr & Hh & Hg & Ho & v' & ext & H) Hfsi. split; [|exact Hh]. split; [by apply ready_set_held|]. split; [done|].
  split; [exact Hg|]. split; [exact Ho|]. exists v', ext. exact H.
Qed.

Lemma truncate_nospace_held s h p v l s' :
  truncate_nospace (set_held h s) p v l s' -> held s !! FsiLock = None ->
  truncate_nospace s p v l (set_held (held s) s') /\ held s' = h.
Proof.
  intros (Hr & Hh & Hg & Ho & v' & ext & H) Hfsi. split; [|exact Hh]. split; [by apply ready_set_held|]. split; [done|].
  split; [exact Hg|]. split; [exact Ho|]. exists v', ext. exact H.
Qed.

(** The state and the structure after the change of the size, if it is asked for. *)
Definition sized s (fv : nat) (v : fat32fs_vnode) (l : list Z) (vap : vattr) s1 (v1 : fat32fs_vnode) : Prop :=
  fvs s1 !! fv = Some v1 /\
  if flag (va_mask vap) AT_SIZE
  then fv_type v <> VDIR /\ truncate_done s fv v l (Z.to_nat (clusters_for (fsi s) (va_size vap))) (va_size vap) s1
  else s1 = s.

(** A refusal by the part under the lock. *)
Definition size_refused s (fv : nat) (v : fat32fs_vnode) (l : list Z) (vap : vattr) (e : Z) s' : Prop :=
  flag (va_mask vap) AT_SIZE = true /\
  if decide (fv_type v = VDIR) then e = EISDIR /\ s' = s else e = ENOSPC /\ truncate_nospace s fv v l s'.

Lemma wp_setattr_locked s fv v l vap :
  ready s -> held s !! CacheLock fv = None -> fvs s !! fv = Some v -> file_ok s v l ->
  0 <= va_size vap -> clusters_for (fsi s) (va_size vap) < 2 ^ 32 ->
  wp (setattr_locked fv vap) s (fun r s' => match r with
    | Ok dirty => exists s1 v1, sized s fv v l vap s1 v1 /\
        s' = set_fvs (<[fv := with_attributes vap v1]> (fvs s1)) s1 /\
        dirty = flag (fv_flags (with_attributes vap v1)) FV_DIRTY_MASK
    | Err e => size_refused s fv v l vap e s'
    | _ => False
    end).
Proof.
  intros Hr Hc Hv Hok Hs1 Hs2. unfold setattr_locked, sized, size_refused. eapply wp_call_ok; [by apply wp_get_fv|]. intros ? ? [-> ->].
  eapply (wp_call _ _ _ (fun r s' => match r with
    | Ok _ => exists v1, sized s fv v l vap s' v1 | Err e => size_refused s fv v l vap e s' | _ => False end)).
  - unfold sized, size_refused. destruct (flag _ AT_SIZE); [|apply wp_ret; by exists v].
    destruct (decide (fv_type v = VDIR)) as [Hd|Hd]; [rewrite bool_decide_true by done; by apply wp_throw|].
    rewrite bool_decide_false by done.
    eapply wp_mono; [by apply wp_truncate|]. intros [[]|e| | |] s1 H; try done. cbn beta iota in *.
    rewrite decide_False in H by done. pose proof H as (_ & _ & _ & _ & v1 & _ & Hv1 & _). by exists v1.
  - intros [[]|e| | |] s1 H; cbn [wpk]; try done. destruct H as [v1 H]. pose proof H as [Hv1 _].
    eapply wp_call_ok; [by apply (wp_upd_fv s1 fv v1)|]. intros [] ? ->.
    eapply wp_call_ok; [apply wp_get_fv, lookup_insert_eq|]. intros ? ? [-> ->]. apply wp_ret.
    exists s1, v1. rewrite set_attributes_eq. done.
Qed.

Lemma sized_held s h fv v l vap s1 v1 :
  sized (set_held h s) fv v l vap s1 v1 -> held s !! FsiLock = None -> sized s fv v l vap (set_held (held s) s1) v1 /\ held s1 = h.
Proof.
  intros [H1 H2] Hf. unfold sized. destruct (flag _ AT_SIZE).
  - destruct H2 as [H2 H3]. apply truncate_done_held in H3 as [H3 H4]; [|done]. done.
  - subst s1. split; [|done]. split; [exact H1|by destruct s].
Qed.

Lemma size_refused_held s h fv v l vap e s' :
  size_refused (set_held h s) fv v l vap e s' -> held s !! FsiLock = None ->
  size_refused s fv v l vap e (set_held (held s) s') /\ held s' = h.
Proof.
  intros [H1 H2] Hf. unfold size_refused. case_decide.
  - destruct H2 as [-> ->]. split; [|done]. split; [done|]. split; [done|by destruct s].
  - destruct H2 as [-> [H2 H3]%truncate_nospace_held]; done.
Qed.

(** The entry of the file is where it was, in a directory that is apart. *)
Lemma sized_entry s fv v l vap s1 v1 w p lp bs :
  sized s fv v l vap s1 v1 -> ready s -> fvs s !! fv = Some v -> entry_ok s v lp bs -> lp ## l -> parent_fv s w fv v p ->
  flag (fv_flags v) FV_ROOT = false -> held s !! FvLock fv = None ->
  let v2 := with_attributes vap v1 in let s2 := set_fvs (<[fv := v2]> (fvs s1)) s1 in
  ready s2 /\ entry_ok s2 v2 lp bs /\ parent_fv s2 w fv v2 p /\ flag (fv_flags v2) FV_ROOT = false /\ held s2 !! FvLock fv = None.
Proof.
  intros [Hv1 H] Hr Hv Hok Hap Hp Hroot Hl. cbn zeta.
  assert (forall v, flag (fv_flags (with_attributes vap v)) FV_ROOT = flag (fv_flags v) FV_ROOT) as Hrt.
  { intros u. cbn. rewrite flag_lor. unfold attr_dirty. rewrite !flag_lor. repeat case_match; by rewrite orb_false_r. }
  rewrite Hrt. destruct (flag (va_mask vap) AT_SIZE).
  - destruct H as (_ & Hr1 & Hh & Hg & _ & v' & ext & Hv' & _ & _ & Hk & Hdk & _ & _ & Hrs & _).
    rewrite Hv1 in Hv'. apply (inj Some) in Hv' as <-. rewrite (resized_flag v v1 Hrs). pose proof Hrs as (c & n & cache & mask & -> & _).
    destruct Hok as [Ho1 [Hch Hc] Ho3 Ho4]. destruct (Hk _ _ Hch Hap) as [Hch1 Hap1].
    assert (fsi_root_cluster (fsi s1) = fsi_root_cluster (fsi s)) as Er by exact (f_equal fsi_root_cluster Hg).
    split; [by apply ready_set_fvs|]. split; [|split; [|by rewrite <- Hh in Hl]].
    + constructor; [exact Ho1| |exact Ho3|exact Ho4]. unfold entry_dir. cbn. rewrite Er. split; [exact Hch1|].
      change (contents s1 lp bs). apply (contents_keeps s ext s1); try done; [by eapply chain_range|].
      intros x Hx Hy. apply (Hap1 x Hx), elem_of_app. by right.
    + unfold parent_fv in *. cbn. destruct (fv_parent_vp v), p; try done. by rewrite Hh.
  - subst s1. rewrite Hv in Hv1. apply (inj Some) in Hv1 as <-. split; [by apply ready_set_fvs|]. split; [|done].
    destruct Hok as [H1 H2 H3 H4]. constructor; [exact H1|exact H2|exact H3|exact H4].
Qed.

(** What [fat32_setattr] does. *)
Definition setattr_done s (fv : nat) (v : fat32fs_vnode) (l lp bs : list Z) (vap : vattr) (r : res unit) s' : Prop :=
  let rdonly := flag (fsi_vfs_flag (fsi s)) VFS_RDONLY in
  match r with
  | Ok _ => rdonly = false /\ exists s1 v1, sized s fv v l vap s1 v1 /\
      let v2 := with_attributes vap v1 in
      let s2 := set_fvs (<[fv := v2]> (fvs s1)) s1 in
      if flag (fv_flags v2) FV_DIRTY_MASK then metadata_written s2 fv v2 lp bs s' else s' = s2
  | Err e => if rdonly then e = EROFS /\ s' = s else size_refused s fv v l vap e s'
  | _ => False
  end.

(** C35: [fat32_setattr] makes exactly the requested changes: it refuses a mount
    that is read-only (EROFS) and a size for a directory (EISDIR) without any
    effect, and a size for which there is no space (ENOSPC) with the old size;
    else the chain gets the requested size, mode, owner and times get the
    requested values, the read-only attribute becomes the opposite of the
    owner's write permission, and all that has changed and has a member in the
    entry is on disk when it returns.  The locks of the vnode and its parent are
    released in every case. *)
Theorem setattr_correct s w fv v p l lp bs vap :
  ready s -> fvs s !! fv = Some v -> held s !! FvLock fv = None -> held s !! CacheLock fv = None ->
  parent_fv s w fv v p -> flag (fv_flags v) FV_ROOT = false -> file_ok s v l -> entry_ok s v lp bs -> lp ## l ->
  0 <= va_size vap -> clusters_for (fsi s) (va_size vap) < 2 ^ 32 ->
  wp (fat32_setattr fv vap) (s, w) (fun r sw => snd sw = w /\ held (fst sw) = held s /\
    setattr_done s fv v l lp bs vap r (fst sw)).
Proof.
  intros Hr Hv Hl Hc Hp Hroot Hok Hen Hap Hs1 Hs2. unfold fat32_setattr, setattr_done.
  eapply (wp_lift_call _ _ _ _ (fun a s' => a = fsi s /\ s' = s)); [by apply wp_gets|]. intros ? ? [-> ->].
  destruct (flag (fsi_vfs_flag _) _); [by apply wp_throw|].
  eapply wp_lift_call; [by apply wp_lock|]. intros [] ? ->. set (h := <[FvLock fv := _]> (held s)).
  assert (held s !! FsiLock = None) as Hf0 by apply Hr.
  assert (h !! FsiLock = None) as Hf by (unfold h; by rewrite lookup_insert_ne).
  apply wp_bind, wp_try, wp_lift. eapply wp_mono.
  { apply (wp_setattr_locked (set_held h s) fv v l vap); try done; [by apply ready_set_held|]. unfold h. cbn. by rewrite lookup_insert_ne. }
  intros [dirty|e| | |] s' H; try done; cbn [wpk] in *.
  - destruct H as (s1 & v1 & [Hsz Hh]%sized_held & -> & ->); [|done].
    eapply wp_lift_call; [apply (wp_unlock _ _ MrUpdate (held s)); [exact Hh|done]|]. intros [] ? ->.
    destruct (sized_entry s fv v l vap _ v1 w p lp bs Hsz Hr Hv Hen Hap Hp Hroot Hl) as (Hr2 & Hen2 & Hp2 & Hroot2 & Hl2).
    destruct (flag (fv_flags (with_attributes vap v1)) FV_DIRTY_MASK) eqn:Hd.
    + eapply wp_mono; [eapply wp_sync_metadata; [exact Hr2|apply lookup_insert_eq|exact Hl2|exact Hp2|exact Hd|exact Hroot2|exact Hen2]|].
      intros [[]| | | |] [s3 w3]; try done. cbn [okp fst snd]. intros [-> Hw]. split; [done|].
      split; [by destruct Hw as (e & _ & _ & _ & _ & _ & _ & Hh3 & _)|]. split; [done|].
      exists (set_held (held s) s1), v1. split; [done|]. cbn zeta. by rewrite Hd.
    + apply wp_ret. split; [done|]. split; [done|]. split; [done|]. exists (set_held (held s) s1), v1. split; [done|]. cbn zeta. by rewrite Hd.
  - apply size_refused_held in H as [H Hh]; [|done].
    eapply wp_lift_call; [apply (wp_unlock _ _ MrUpdate (held s)); [exact Hh|done]|]. intros [] ? ->. by apply wp_throw.
Qed.

End setattr.

(** ** Witnesses *)

Lemma getattr_correct_witness :
  wp (fat32_getattr 1) demo (okp (fun a s' => demo ≡ s' /\
    (va_size a, va_nblocks a) = reported_size (fsi demo) demo_fv [3; 5; 6] /\
    va_type a = fv_type demo_fv /\ va_mode a = fv_mode demo_fv /\ va_uid a = fv_uid demo_fv /\ va_gid a = fv_gid demo_fv /\
    va_nodeid a = fv_cluster demo_fv /\ va_atime a = fv_atime demo_fv /\ va_mtime a = fv_mtime demo_fv /\
    va_ctime a = fv_ctime demo_fv /\ va_blksize a = fsi_bytes_per_cluster (fsi demo))).
Proof.
  apply (getattr_correct demo 1 demo_fv [3; 5; 6]); [apply demo_ready|reflexivity| |split; [discriminate|reflexivity]].
  split; [apply cache_ok_zeros|split; [reflexivity|apply demo_chain]].
Defined.

(** The structure 3 is dirty; its parent is vnode 9 with the structure 2. *)
Definition child_fv : fat32fs_vnode := set_fv_parent_vp (Some 9%nat) (set_fv_parent_cluster 2 demo_dirty_fv).
Definition child_vol : st device := set_fvs (<[3%nat := child_fv]> (fvs demo_vol)) demo_vol.

Lemma child_entry_ok : entry_ok child_vol child_fv [2] demo_slots.
Proof.
  constructor; [discriminate|split; [apply demo_vol_chain|apply demo_vol_contents]|vm_compute; split_and!; congruence|split; reflexivity].
Qed.

Lemma fsync_correct_witness :
  wp (fat32_fsync 3) (child_vol, demo_layer) (okp (fun _ sw => snd sw = demo_layer /\
    metadata_written child_vol 3 child_fv [2] demo_slots (fst sw))) /\
  (let locked := <[FvLock 3 := MrUpdate]> (<[FvLock 2 := MrUpdate]> ∅) in
   wp (sync_metadata_with (fun _ => let* h := gets held in if decide (h = locked) then throw EIO else fault) 3) (child_vol, demo_layer)
     (fun r sw => snd sw = demo_layer /\ (r = Err EIO /\ fst sw = child_vol))) /\
  (let s1 := set_held {[FvLock 2 := MrUpdate]} child_vol in
   wp (fat32_fsync 3) (s1, demo_layer) (fun r sw => r = Blocked /\ sw = (s1, demo_layer))) /\
  (let h := {[FvLock 3 := MrAccess]} in
   wp (fat32_fsync 3) (set_held h child_vol, demo_layer) (fun r sw => r = Blocked /\
     sw = (set_held (<[FvLock 2 := MrUpdate]> h) child_vol, demo_layer))).
Proof.
  destruct (fsync_correct child_vol demo_layer 3 child_fv (Some 2%nat) [2] demo_slots) as (H1 & H2 & H3);
    [apply ready_set_fvs, demo_vol_ready|reflexivity|reflexivity|split; [reflexivity|split; [discriminate|reflexivity]]|reflexivity|apply child_entry_ok|].
  split; [exact H1|]. split; [|split].
  - apply (H2 _ (fun r s' => r = Err EIO /\ s' = child_vol)).
    split; [reflexivity|]. split; [split; reflexivity|exact I].
  - by apply (H3 eq_refl MrUpdate eq_refl).
  - by apply (H3 eq_refl MrAccess eq_refl).
Defined.

(** The file of the structure 3 is cut to 600 bytes and made read-only. *)
Definition demo_chattr : vattr :=
  mkVattr (Z.lor AT_SIZE AT_MODE) VREG 0x124 0 0 0 0 0 600 (mkTimespec 0 0) (mkTimespec 0 0) (mkTimespec 0 0) 0 0 0.

Lemma setattr_correct_witness :
  wp (fat32_setattr 3 demo_chattr) (demo_dir, demo_layer) (fun r sw => snd sw = demo_layer /\ held (fst sw) = held demo_dir /\
    setattr_done demo_dir 3 demo_dirty_fv [3; 5; 6] [2] (zeros 512) demo_chattr r (fst sw)).
Proof.
  apply (setattr_correct demo_dir demo_layer 3 demo_dirty_fv None [3; 5; 6] [2] (zeros 512) demo_chattr);
    [apply demo_dir_ready|reflexivity|reflexivity|reflexivity|exact I|reflexivity|exact demo_file_ok|apply demo_entry_ok|set_solver by lia|cbn; lia|reflexivity].
Defined.

(** The size and the attributes that are on disk then. *)
Example demo_chattr_written :
  match fat32_setattr 3 demo_chattr (demo_dir, demo_layer) with
  | ((s', _), Ok _) =>
      option_map (fun bs => let e := slice bs 96 32 in (RLE32 (get83 e D83.file_size), get83 e D83.attr)) (cluster_bytes s' 2) =
        Some (600, [0x01]) /\ fat s' 6 = FAT32_CLUSTER_FREE
  | _ => False
  end.
Proof. by vm_compute. Qed.
