(* ===== verification/Mount.v ===== *)
(** * Mounting and unmounting ([fat32_mount], [fat32_unmount], [fat32_root] of
    [fat32_vfs.c])

    The VFS layer of IRIX (name lookup of the device, the list of mounted
    devices, the behaviours of a [vfs_t]) and the memory of the mount structure
    are the operations of the class [Vfs].  The model has one mount: its
    [fat32fs_info_t] is [fsi] of the driver state. *)
From S2P Require Import Prelude Layout Time Names Kernel Cls File Dir Vnode Boot.

(** The members of [vfs_t] that the mount sets. *)
Record vfs_params : Type := mkVfs {
  vfs_bcount : Z;
  vfs_bsize : Z;
  vfs_fstype : Z;
  vfs_dev : Z;
  vfs_fsid : Z * Z
}.

Class Vfs (V : Type) := {
  (** The result holds a reference to the vnode. *)
  lookupname : list Z -> V -> V * (Z + nat);
  (** [v_type == VBLK] *)
  v_is_blk : V -> nat -> bool;
  v_rdev : V -> nat -> Z;
  vfs_devsearch : Z -> Z -> V -> bool;
  (** [kmem_zalloc(sizeof(fat32fs_info_t), KM_SLEEP)]: whether there was memory. *)
  fsi_zalloc : V -> V * bool;
  fsi_free : V -> V;
  (** [VN_RELE] of a vnode of another file system *)
  dev_rele : nat -> V -> V;
  (** [bhv_insert_initial] and [bhv_remove] on [VFS_BHVHEAD(vfsp)] *)
  vfs_bhv_insert : V -> V;
  vfs_bhv_remove : V -> V;
  vfs_set : vfs_params -> V -> V;
  vfs_remove : V -> V;
  (** [VFS_NOTRUNC | VFS_LOCAL] *)
  vfs_mount_flags : Z;
  (** Set when the module is initialised. *)
  fat32fstype : Z
}.

(** The mount options in user space: none, not readable, or some bytes. *)
Inductive user_data : Type :=
| NoData
| BadAddress
| UserData (d : list Z).

Definition mount_options (data : user_data) : res mount_opts :=
  match data with
  | NoData => Ok (mkOpts (-1) 0 0)
  | BadAddress => Err EFAULT
  | UserData d => parse_options d
  end.

(** The mount structure before the boot record is read. *)
Definition new_fsi (vfs_flag dev : Z) (devvp : nat) (o : mount_opts) : fat32fs_info :=
  mkFsi vfs_flag dev (Some devvp) None 0 (mo_partition o) (mo_uid o) (mo_gid o) 0 0 0 0 0 0 0 0 0 0 0 0 0 0 0 0 0 0 0.

Definition set_fsi_rootvp (vp : option nat) (v : fat32fs_info) : fat32fs_info :=
  mkFsi (fsi_vfs_flag v) (fsi_dev v) (fsi_devvp v) vp (fsi_partition_offset v) (fsi_partition_num v) (fsi_uid v) (fsi_gid v)
    (fsi_fsinfo_sector v) (fsi_fat_start v) (fsi_bytes_per_sector v) (fsi_sectors_per_cluster v) (fsi_bytes_per_cluster v)
    (fsi_reserved_sectors v) (fsi_sector_shift v) (fsi_sector_mask v) (fsi_cluster_shift v) (fsi_cluster_mask v)
    (fsi_spc_shift v) (fsi_num_fats v) (fsi_fat_size v) (fsi_root_cluster v) (fsi_total_sectors v) (fsi_data_start v)
    (fsi_cluster_count v) (fsi_free_count v) (fsi_next_free v).
Definition set_fsi_vfs_flag (x : Z) (v : fat32fs_info) : fat32fs_info :=
  mkFsi x (fsi_dev v) (fsi_devvp v) (fsi_rootvp v) (fsi_partition_offset v) (fsi_partition_num v) (fsi_uid v) (fsi_gid v)
    (fsi_fsinfo_sector v) (fsi_fat_start v) (fsi_bytes_per_sector v) (fsi_sectors_per_cluster v) (fsi_bytes_per_cluster v)
    (fsi_reserved_sectors v) (fsi_sector_shift v) (fsi_sector_mask v) (fsi_cluster_shift v) (fsi_cluster_mask v)
    (fsi_spc_shift v) (fsi_num_fats v) (fsi_fat_size v) (fsi_root_cluster v) (fsi_total_sectors v) (fsi_data_start v)
    (fsi_cluster_count v) (fsi_free_count v) (fsi_next_free v).

Section mount.
Context {K V : Type} `{!Kernel K, !Vnodes V, !Vfs V}.

Definition of_res {S A} (r : res A) : M S A := fun s => (s, r).

Definition do_lookupname (spec : list Z) : M (st K * V) nat := fun sw =>
  let '(w', r) := lookupname spec (snd sw) in
  ((fst sw, w'), match r with inl error => Err error | inr vp => Ok vp end).

Definition do_fsi_zalloc : M (st K * V) bool := fun sw =>
  let '(w', ok) := fsi_zalloc (snd sw) in ((fst sw, w'), Ok ok).

(** The error returns after the lock of the mount structure is initialised. *)
Definition mount_fails (devvp : nat) (error : Z) : M (st K * V) unit :=
  do* lift (mrfree FsiLock) in
  do* vn_op fsi_free in
  do* vn_op (dev_rele devvp) in
  throw error.

(** The part of [fat32_mount] that sets up the [vfs_t] and the root vnode. *)
Definition mount_root (devvp : nat) (dev : Z) : M (st K * V) unit :=
  do* vn_op vfs_bhv_insert in
  let* f := lift (gets fsi) in
  do* vn_op (vfs_set (mkVfs 0 (fsi_bytes_per_cluster f) fat32fstype dev (dev, fat32fstype))) in
  do* lift (modify (set_fsi (set_fsi_vfs_flag (Z.lor (fsi_vfs_flag f) vfs_mount_flags) f))) in
  let* o := fat32_vnode_new in
  match o with
  | None => mount_fails devvp ENOMEM
  | Some root_fv =>
      let* r := try (fat32_make_vnode (fsi_root_cluster f) VDIR root_fv None) in
      match r with
      | inl error => do* fat32_vnode_delete root_fv in mount_fails devvp error
      | inr rootvp =>
          let* f := lift (gets fsi) in
          do* lift (modify (set_fsi (set_fsi_rootvp (Some rootvp) f))) in
          do* vn_op (vn_flagset rootvp true) in
          vn_op (vn_hold rootvp)
      end
  end.

Definition fat32_mount (vfs_flag : Z) (spec : list Z) (data : user_data) : M (st K * V) unit :=
  let* o := of_res (mount_options data) in
  let* devvp := do_lookupname spec in
  let* w := gets snd in
  if negb (v_is_blk w devvp) then do* vn_op (dev_rele devvp) in throw ENOTBLK else
  let dev := v_rdev w devvp in
  if vfs_devsearch dev fat32fstype w then do* vn_op (dev_rele devvp) in throw EBUSY else
  let* ok := do_fsi_zalloc in
  if negb ok then do* vn_op (dev_rele devvp) in throw ENOMEM else
  do* lift (modify (set_fsi (new_fsi vfs_flag dev devvp o))) in
  do* lift (mrinit FsiLock) in
  let* r := try (lift fat32_read_boot) in
  match r with
  | inl error => mount_fails devvp error
  | inr _ => mount_root devvp dev
  end.

Definition fat32_unmount : M (st K * V) unit :=
  let* f := lift (gets fsi) in
  do* (match fsi_rootvp f with Some vp => FAT32_VN_RELE vp | None => ret tt end) in
  do* vn_op vfs_remove in
  do* lift (mrfree FsiLock) in
  do* (match fsi_devvp f with Some vp => vn_op (dev_rele vp) | None => ret tt end) in
  do* vn_op vfs_bhv_remove in
  vn_op fsi_free.

Definition fat32_root : M (st K * V) nat :=
  let* f := lift (gets fsi) in
  let* vp := of_opt (fsi_rootvp f) in
  do* vn_op (vn_hold vp) in
  ret vp.

End mount.

(** [bflush] writes the dirty buffers of a device. *)
Section sync.
Context {K : Type} `{!Kernel K} (bflush : Z -> K -> K).

Definition fat32_sync : M (st K) unit :=
  let* f := gets fsi in modify (fun s => set_kst (bflush (fsi_dev f) (kst s)) s).

End sync.

(** The operations that are not implemented. *)
Inductive vfs_stub_op : Type := fat32_rootinit | fat32_mntupdate | fat32_statvfs | fat32_vget | fat32_mountroot.
Definition vfs_stub {S} (op : vfs_stub_op) : M S unit := throw ENOSYS.
