(* ===== verification/Command.v ===== *)
(** * The mount command ([mount_fat32.c])

    The calls of the operating system are parameters; those with an effect are
    recorded in the order in which the command makes them. *)
From S2P Require Import Prelude Layout Time Names Kernel Cls Boot Mount.

(** What [getopt] returns for "ro:", in order; the arguments are C strings
    without their NUL. *)
Inductive cmd_arg : Type :=
| ArgR
| ArgO (optarg : list Z)
| ArgOther.                    (* an unknown option *)

(** The operating system: constants of its headers and the answers of its calls. *)
Class Os := {
  MS_RDONLY : Z;
  MS_FSS : Z;
  MS_DATA : Z;
  realpath : list Z -> option (list Z);
  sysfs_getfsind : list Z -> Z;
  (** [st_mode] *)
  stat_mode : list Z -> option Z;
  S_ISDIR : Z -> bool;
  (** [mount(special, dir, flags, fstype, data, datalen)] *)
  os_mount : list Z -> list Z -> Z -> list Z -> list Z -> Z -> Z;
  setmntent_ok : bool
}.

(** The constants are separate bits. *)
Class OsLaws `{!Os} : Prop := {
  rdonly_bit : exists b, 0 <= b /\ MS_RDONLY = 2 ^ b;
  rdonly_apart : Z.land MS_FSS MS_RDONLY = 0 /\ Z.land MS_DATA MS_RDONLY = 0
}.

Inductive os_call : Type :=
| CallMount (special dir : list Z) (flags : Z) (fstype data : list Z) (datalen : Z)
| CallLock                                                             (* [lockf] on the table *)
| CallAddmntent (fsname dir type opts : list Z) (freq passno : Z)
| CallEndmntent.

Definition emit (c : os_call) : M (list os_call) unit := modify (fun t => t ++ [c]).

(** [strstr(s, needle) != NULL] *)
Definition strstr (s needle : list Z) : bool :=
  existsb (fun i => bool_decide (take (length needle) (drop i s) = needle)) (seq 0 (S (length s))).

Definition key_ro : list Z := [114; 111].
Definition key_rw : list Z := [114; 119].
Definition FSTYPE_FAT32 : list Z := [102; 97; 116; 51; 50].

(** [flags], [mount_data] and [options], which is NULL at first. *)
Record command : Type := mkCommand { cmd_flags : Z; mount_data : list Z; cmd_opts : option (list Z) }.

Section command.
Context `{Hos : !Os}.

(** One option; the answer [None] is [usage()]. *)
Definition cmd_step (x : command) (a : cmd_arg) : option command :=
  match a with
  | ArgR => Some (mkCommand (Z.lor (cmd_flags x) MS_RDONLY) (mount_data x) (cmd_opts x))
  | ArgO s =>
      let flags := if strstr s key_ro then Z.lor (cmd_flags x) MS_RDONLY else cmd_flags x in
      let flags := if strstr s key_rw then Z.land flags (Z.lnot MS_RDONLY) else flags in
      Some (mkCommand flags (take 255 s) (Some s))
  | ArgOther => None
  end.

Fixpoint cmd_parse (args : list cmd_arg) (x : command) : option command :=
  match args with
  | [] => Some x
  | a :: args' => match cmd_step x a with Some x' => cmd_parse args' x' | None => None end
  end.

(** [opts], an array of 64 characters. *)
Definition mtab_opts (x : command) : list Z :=
  let mode := if flag (cmd_flags x) MS_RDONLY then key_ro else key_rw in
  match cmd_opts x with
  | Some (c :: s) => take 63 (mode ++ [44] ++ c :: s)
  | _ => mode
  end.

Definition update_mtab (special mountpoint : list Z) (x : command) : M (list os_call) unit :=
  if setmntent_ok then
    do* emit CallLock in
    do* emit (CallAddmntent special mountpoint FSTYPE_FAT32 (mtab_opts x) 0 0) in
    emit CallEndmntent
  else ret tt.

(** [operands] are the arguments behind the options; the result is the exit
    status. *)
Definition main (args : list cmd_arg) (operands : list (list Z)) : M (list os_call) Z :=
  match cmd_parse args (mkCommand 0 [] None) with
  | None => ret 1
  | Some x =>
      match operands with
      | [special; mountpoint] =>
          match realpath mountpoint with
          | None => ret 1
          | Some mountpoint =>
              if sysfs_getfsind FSTYPE_FAT32 <? 0 then ret 1 else
              match stat_mode mountpoint with
              | None => ret 1
              | Some mode =>
                  if negb (S_ISDIR mode) then ret 1 else
                  let flags := Z.lor (Z.lor (cmd_flags x) MS_FSS) MS_DATA in
                  let len := Z.of_nat (length (mount_data x)) in
                  do* emit (CallMount special mountpoint flags FSTYPE_FAT32 (mount_data x) len) in
                  if os_mount special mountpoint flags FSTYPE_FAT32 (mount_data x) len <? 0 then ret 1 else
                  do* update_mtab special mountpoint x in
                  ret 0
              end
          end
      | _ => ret 1
      end
  end.

(** What the kernel gets: it copies the options when [datalen] is not 0. *)
Definition kernel_data (x : command) : user_data :=
  match mount_data x with [] => NoData | d => UserData d end.

End command.

(** ** What the command does *)

(** An option decides on read-only or leaves it open; "rw" wins over "ro". *)
Definition decides (a : cmd_arg) : option bool :=
  match a with
  | ArgR => Some true
  | ArgO s => if strstr s key_rw then Some false else if strstr s key_ro then Some true else None
  | ArgOther => None
  end.
Definition read_only (args : list cmd_arg) : bool := default false (last (omap decides args)).

(** The options of the last "-o". *)
Definition options_of (a : cmd_arg) : option (list Z) := match a with ArgO s => Some s | _ => None end.
Definition options (args : list cmd_arg) : option (list Z) := last (omap options_of args).

Section spec.
Context `{Hos : !Os, Hlaws : !OsLaws}.

Lemma flag_set f : flag (Z.lor f MS_RDONLY) MS_RDONLY = true.
Proof.
  destruct rdonly_bit as (b & Hb & E). unfold flag. apply negb_true_iff, Z.eqb_neq. intros H.
  assert (Z.testbit (Z.land (Z.lor f MS_RDONLY) MS_RDONLY) b = true) as Ht.
  { rewrite Z.land_spec, Z.lor_spec, E, Z.pow2_bits_true by done. by rewrite orb_true_r. }
  by rewrite H, Z.bits_0 in Ht.
Qed.

Lemma flag_cleared f : flag (Z.land f (Z.lnot MS_RDONLY)) MS_RDONLY = false.
Proof. unfold flag. by rewrite <- Z.land_assoc, (Z.land_comm (Z.lnot _)), Z.land_lnot_diag, Z.land_0_r. Qed.

Lemma flag_more f g : Z.land g MS_RDONLY = 0 -> flag (Z.lor f g) MS_RDONLY = flag f MS_RDONLY.
Proof. unfold flag. intros H. by rewrite Z.land_lor_distr_l, H, Z.lor_0_r. Qed.

Lemma last_cons_default {A} (a : A) l : last (a :: l) = Some (default a (last l)).
Proof. by rewrite last_cons; destruct (last l). Qed.

Lemma cmd_parse_spec args x x' :
  cmd_parse args x = Some x' -> ArgOther ∉ args /\
  flag (cmd_flags x') MS_RDONLY = default (flag (cmd_flags x) MS_RDONLY) (last (omap decides args)) /\
  match options args with
  | Some s => cmd_opts x' = Some s /\ mount_data x' = take 255 s
  | None => cmd_opts x' = cmd_opts x /\ mount_data x' = mount_data x
  end.
Proof.
  revert x. unfold options. induction args as [|a args IH]; intros x Hp; cbn [cmd_parse] in Hp.
  { injection Hp as <-. split; [apply not_elem_of_nil|done]. }
  destruct (cmd_step x a) as [y|] eqn:Ha; [|done]. destruct (IH y Hp) as (H1 & H2 & H3).
  assert (a <> ArgOther) as Hao by (by intros ->). split; [by apply not_elem_of_cons|]. rewrite H2.
  destruct a as [|s|]; [..|done]; cbn [cmd_step] in Ha; apply (inj Some) in Ha as <-; cbn [omap list_omap decides options_of cmd_flags cmd_opts mount_data] in *.
  - split; [|done]. rewrite last_cons_default, flag_set. by destruct (last _).
  - split.
    + destruct (strstr s key_rw), (strstr s key_ro); rewrite ?last_cons_default, ?flag_cleared, ?flag_set; by destruct (last (omap decides args)).
    + rewrite last_cons_default. by destruct (last (omap options_of args)).
Qed.

(** The options in the table of mounted file systems. *)
Definition mtab_ok (args : list cmd_arg) (opts : list Z) : Prop :=
  let mode := if read_only args then key_ro else key_rw in
  (length opts <= 63)%nat /\
  opts = match options args with Some (c :: s) => take 63 (mode ++ [44] ++ c :: s) | _ => mode end.

(** The calls of a command that gets as far as the mount. *)
Record mounts (args : list cmd_arg) (operands : list (list Z)) (special dir : list Z) (flags : Z) (data : list Z) : Prop := {
  mt_known : ArgOther ∉ args;
  mt_operands : exists mountpoint, operands = [special; mountpoint] /\ realpath mountpoint = Some dir;
  mt_registered : 0 <= sysfs_getfsind FSTYPE_FAT32;
  mt_dir : exists mode, stat_mode dir = Some mode /\ S_ISDIR mode = true;
  mt_rdonly : flag flags MS_RDONLY = read_only args;
  mt_data : data = take 255 (default [] (options args))
}.

Definition command_done (args : list cmd_arg) (operands : list (list Z)) (code : Z) (t : list os_call) : Prop :=
  match t with
  | [] => code = 1
  | CallMount special dir flags fstype data len :: rest =>
      mounts args operands special dir flags data /\ fstype = FSTYPE_FAT32 /\ len = Z.of_nat (length data) /\
      if os_mount special dir flags fstype data len <? 0 then code = 1 /\ rest = []
      else code = 0 /\ if setmntent_ok then exists opts, mtab_ok args opts /\
                         rest = [CallLock; CallAddmntent special dir FSTYPE_FAT32 opts 0 0; CallEndmntent]
                       else rest = []
  | _ => False
  end.

Lemma mtab_opts_ok args x :
  cmd_parse args (mkCommand 0 [] None) = Some x -> mtab_ok args (mtab_opts x).
Proof.
  intros Hx. destruct (cmd_parse_spec args _ x Hx) as (_ & Hf & Ho). unfold mtab_ok, mtab_opts. change (flag _ MS_RDONLY) with (flag (cmd_flags x) MS_RDONLY).
  rewrite Hf. change (flag (cmd_flags (mkCommand 0 [] None)) MS_RDONLY) with false. fold (read_only args).
  destruct (options args) as [[|c s]|]; destruct Ho as [-> _]; cbn [cmd_opts].
  - split; [by destruct (read_only args); cbn; lia|done].
  - split; [rewrite length_take; lia|done].
  - split; [by destruct (read_only args); cbn; lia|done].
Qed.

(** C33: The mount command makes at most one mount, and only with known options,
    two operands, a registered file system and a mount point that is a directory:
    read-only as the last option that decides it says, with the first 255
    characters of the last "-o" as options.  It enters the file system into the
    table of mounted file systems after a mount that succeeded and only then, as
    at most 63 characters; its exit status is 0 in this case and 1 in all
    others. *)
Theorem main_correct args operands :
  wp (main args operands) [] (okp (command_done args operands)).
Proof.
  unfold main. destruct (cmd_parse args _) as [x|] eqn:Hx; [|by apply wp_ret].
  destruct (cmd_parse_spec args _ x Hx) as (Hk & Hf & Ho). pose proof (mtab_opts_ok args x Hx) as Hm.
  destruct operands as [|special [|mountpoint [|? ?]]]; [by apply wp_ret..| |by apply wp_ret].
  destruct (realpath mountpoint) as [dir|] eqn:Hdir; [|by apply wp_ret].
  destruct (sysfs_getfsind _ <? 0) eqn:Hreg; [by apply wp_ret|]. apply Z.ltb_ge in Hreg.
  destruct (stat_mode dir) as [mode|] eqn:Hst; [|by apply wp_ret]. destruct (S_ISDIR mode) eqn:Hd; cbn [negb]; [|by apply wp_ret].
  set (flags := Z.lor (Z.lor (cmd_flags x) MS_FSS) MS_DATA). set (len := Z.of_nat _).
  assert (mounts args [special; mountpoint] special dir flags (mount_data x)) as Hmt.
  { split; [done|by exists mountpoint|done|by exists mode| |].
    - unfold flags. destruct rdonly_apart as [Ha1 Ha2]. rewrite !flag_more by done. rewrite Hf. done.
    - destruct (options args); by destruct Ho as [_ ->]. }
  unfold emit at 1. repeat wp_step. cbn [app]. destruct (os_mount _ _ _ _ _ _ <? 0) eqn:Hmo.
  - apply wp_ret. cbn [okp command_done]. by rewrite Hmo.
  - unfold update_mtab. destruct setmntent_ok eqn:Hs; unfold emit; repeat wp_step; cbn [okp command_done app]; rewrite Hmo, Hs.
    + split_and!; try done. by exists (mtab_opts x).
    + done.
Qed.

(** The kernel reads the options as they are written when they fit. *)
Lemma kernel_options args x s :
  cmd_parse args (mkCommand 0 [] None) = Some x -> options args = Some s -> (length s <= 255)%nat ->
  mount_options (kernel_data x) = parse_options s.
Proof.
  intros Hx Ho Hl. destruct (cmd_parse_spec args _ x Hx) as (_ & _ & H). rewrite Ho in H. destruct H as [_ H].
  unfold kernel_data. rewrite H, take_ge by done. by destruct s.
Qed.

End spec.

(** ** Witnesses *)

Definition demo_os : Os := {|
  MS_RDONLY := 1; MS_FSS := 2; MS_DATA := 4; realpath p := Some (47 :: p); sysfs_getfsind _ := 3;
  stat_mode _ := Some 0x41ED; S_ISDIR m := Z.land m 0xF000 =? 0x4000; os_mount _ _ _ _ _ _ := 0; setmntent_ok := true |}.

Lemma demo_os_laws : @OsLaws demo_os.
Proof. split; [by exists 0|done]. Qed.

(** mount_fat32 -r -o uid=5 d m *)
Definition demo_args : list cmd_arg := [ArgR; ArgO [117; 105; 100; 61; 53]].

Lemma main_correct_witness :
  wp (@main demo_os demo_args [[100]; [109]]) [] (okp (@command_done demo_os demo_args [[100]; [109]])).
Proof. apply (@main_correct demo_os demo_os_laws demo_args [[100]; [109]]). Defined.

Example demo_main :
  snd (@main demo_os demo_args [[100]; [109]] []) = Ok 0 /\ read_only demo_args = true.
Proof. by vm_compute. Qed.

(** "errors=continue" contains "ro". *)
Example errors_mean_read_only :
  read_only [ArgO [101; 114; 114; 111; 114; 115; 61; 99; 111; 110; 116; 105; 110; 117; 101]] = true.
Proof. reflexivity. Qed.
