(* ===== verification/MountSpec.v ===== *)
(** * What mounting and unmounting do

    [VfsLaws] states what the mount relies on of the VFS layer.  A mount of a
    well-formed volume makes the root vnode; an unmount gives up one of its two
    references. *)
From S2P Require Import Prelude Layout Time Names Kernel Device Cls Fat Demo Alloc Chain Free Cache File Truncate Access Boot Io IoSpec WriteSpec Dir DirSpec LfnSpec Vnode VnodeSpec Mount.

Class VfsLaws (V : Type) `{!Vnodes V, !Vfs V} : Prop := {
  lookupname_ok spec w w' vp : lookupname spec w = (w', inr vp) ->
    others_same vp w w' /\ 0 <= v_count w vp /\ v_count w' vp = v_count w vp + 1;
  (** A [KM_SLEEP] allocation waits for memory. *)
  fsi_zalloc_ok w w' ok : fsi_zalloc w = (w', ok) -> ok = true /\ layer_same w w';
  fsi_free_ok w : layer_same w (fsi_free w);
  dev_rele_ok vp w : others_same vp w (dev_rele vp w) /\ v_count (dev_rele vp w) vp = v_count w vp - 1;
  vfs_bhv_insert_ok w : layer_same w (vfs_bhv_insert w);
  vfs_bhv_remove_ok w : layer_same w (vfs_bhv_remove w);
  vfs_set_ok x w : layer_same w (vfs_set x w);
  vfs_remove_ok w : layer_same w (vfs_remove w)
}.

(** ** A concrete VFS layer: one block device, whose vnode is 7 *)

#[global] Instance vntable_vfs : Vfs vntable := {
  lookupname _ w := (mkVntable (<[7%nat := default 0 (vt_count w !! 7%nat) + 1]> (vt_count w)) (vt_bhv w),
                     if decide (0 <= default 0 (vt_count w !! 7%nat)) then inr 7%nat else inl ENOENT);
  v_is_blk _ vp := bool_decide (vp = 7%nat);
  v_rdev _ _ := 100;
  vfs_devsearch _ _ _ := false;
  fsi_zalloc w := (w, true);
  fsi_free w := w;
  dev_rele vp w := mkVntable (<[vp := default 0 (vt_count w !! vp) - 1]> (vt_count w)) (vt_bhv w);
  vfs_bhv_insert w := w;
  vfs_bhv_remove w := w;
  vfs_set _ w := w;
  vfs_remove w := w;
  vfs_mount_flags := 0x30;
  fat32fstype := 5
}.

#[global] Instance vntable_vfs_laws : VfsLaws vntable.
Proof.
  split; try done.
  - intros spec w w' vp. cbn. destruct (decide _) as [H|]; [|done]. intros [= <- <-]. cbn. rewrite lookup_insert_eq.
    split_and!; try done. intros q Hq. cbn. by rewrite lookup_insert_ne.
  - by intros w w' ok [= <- <-].
  - intros vp w. cbn. rewrite lookup_insert_eq. split; [|done]. intros q Hq. cbn. by rewrite lookup_insert_ne.
Qed.

Section mount.
Context {K V : Type} `{!Kernel K, !KernelLaws K, !Vnodes V, !VnodesLaws V, !Vfs V, !VfsLaws V}.
Implicit Types (s : st K) (w : V).

(** Only the device's vnode may differ. *)
Lemma others_same_trans vp w1 w2 w3 : others_same vp w1 w2 -> others_same vp w2 w3 -> others_same vp w1 w3.
Proof. intros H1 H2 q Hq. destruct (H1 q Hq), (H2 q Hq). split; congruence. Qed.
Lemma layer_others vp w1 w2 : layer_same w1 w2 -> others_same vp w1 w2.
Proof. intros H q _. apply H. Qed.

(** The mount structure and the root's vnode structure of a mounted volume. *)
Definition mounted_fsi (f : fat32fs_info) (rootvp : nat) : fat32fs_info :=
  set_fsi_rootvp (Some rootvp) (set_fsi_vfs_flag (Z.lor (fsi_vfs_flag f) vfs_mount_flags) f).
Definition root_vnode (f : fat32fs_info) (rootvp : nat) : fat32fs_vnode :=
  made_vnode f (fsi_root_cluster f) VDIR rootvp None (fresh_fv f).

(** The layer in which the root's vnode is made: the [vfs_t] has the behaviour and
    its members; [rfv] is the new structure and [o] the vnode, if there is one. *)
Definition vfs_made (f0 f : fat32fs_info) (w : V) : V :=
  vfs_set (mkVfs 0 (fsi_bytes_per_cluster f) fat32fstype (fsi_dev f0) (fsi_dev f0, fat32fstype)) (vfs_bhv_insert w).
Definition root_made s (w : V) (f0 f : fat32fs_info) (rfv : nat) (o : option nat) (w' : V) : Prop :=
  exists w1, kmem_zalloc (dom (fvs s)) (vfs_made f0 f w) = (w1, Some rfv) /\ vn_alloc VDIR w1 = (w', o).

(** What the mount adds: the boot record's geometry in [f], and the root's vnode
    [rootvp] with the structure [rfv]; [wz] is the layer when the mount structure
    is allocated.  The device's reference is kept. *)
Record mounted s w wz (devvp : nat) (f0 : fat32fs_info) (off : Z) (br : list Z) (rootvp rfv : nat) (sw : st K * V) : Prop := {
  mt_fsi : exists f, fs_wf f /\ geometry_of f0 off br f /\ fsi (fst sw) = mounted_fsi f rootvp /\
             fvs (fst sw) = <[rfv := root_vnode f rootvp]> (fvs s) /\
             exists w', root_made s wz f0 f rfv (Some rootvp) w' /\
               snd sw = vn_hold rootvp (vn_flagset rootvp true (vn_flagset rootvp false (bhv_insert rootvp rfv w')));
  mt_held : held (fst sw) = held s;
  mt_view b n : view (kst (fst sw)) b n = view (kst s) b n;
  mt_new : fvs s !! rfv = None /\ rootvp <> devvp /\ first_bhv w rootvp = None;
  mt_root : first_bhv (snd sw) rootvp = Some rfv /\ v_count (snd sw) rootvp = 2;
  mt_dev : v_count (snd sw) devvp = v_count w devvp + 1;
  mt_layer q : q <> devvp -> q <> rootvp ->
    v_count (snd sw) q = v_count w q /\ first_bhv (snd sw) q = first_bhv w q
}.

(** A mount that fails for want of a vnode leaves no structure behind and gives
    the mount structure and the reference to the device back.  These are its only
    calls: the behaviour and the members of the [vfs_t] stay as they are. *)
Definition not_mounted s w wz (devvp : nat) (f0 : fat32fs_info) (off : Z) (br : list Z) (r : res unit) (sw : st K * V) : Prop :=
  r = Err ENOMEM /\ same_but_fsi s (fst sw) /\ others_same devvp w (snd sw) /\ v_count (snd sw) devvp = v_count w devvp /\
  exists f rfv w', geometry_of f0 off br f /\ root_made s wz f0 f rfv None w' /\ snd sw = dev_rele devvp (fsi_free w').

Lemma wp_mount_fails s w devvp error :
  held s !! FsiLock = None ->
  wp (mount_fails devvp error) (s, w) (fun r sw => r = Err error /\ sw = (s, dev_rele devvp (fsi_free w))).
Proof.
  intros Hl. unfold mount_fails, vn_op. eapply wp_lift_call; [by apply wp_lock_unheld|]. intros [] ? ->. by repeat wp_step.
Qed.

(** [mount_root] is called with one reference to the device. *)
Lemma wp_mount_root s w w0 devvp f0 off br :
  fs_wf (fsi s) -> geometry_of f0 off br (fsi s) -> held s !! FsiLock = None -> locks_live s ->
  others_same devvp w0 w -> v_count w devvp = v_count w0 devvp + 1 -> 0 <= v_count w0 devvp ->
  wp (mount_root devvp (fsi_dev f0)) (s, w) (fun r sw =>
    match r with
    | Ok _ => exists rootvp rfv, mounted s w0 w devvp f0 off br rootvp rfv sw
    | _ => not_mounted s w0 w devvp f0 off br r sw
    end).
Proof.
  intros Hwf Hg Hl Hlv Hw0 Hdev Hdev0. unfold mount_root, vn_op. repeat wp_step. cbn [fst snd].
  apply wp_bind, wp_lift. repeat wp_step. apply wp_bind, wp_lift. repeat wp_step. fold (vfs_made f0 (fsi s) w).
  lazymatch goal with |- wp _ (?x, _) _ => set (s1 := x) end. set (w1 := vfs_made f0 (fsi s) w).
  assert (layer_same w w1) as Hw1 by (etrans; [apply vfs_bhv_insert_ok|apply vfs_set_ok]).
  eapply wp_call_ok; [eapply wp_both; [apply wp_vnode_new|apply wp_vnode_new_layer]|].
  intros ? [s2 w2] [(q & -> & Hq & E & Hw2) Hz]. cbn [fst snd] in E, Hw2, Hz. subst s2.
  apply wp_bind, wp_try. cbn [fvs s1 set_fsi] in Hq. destruct (Hlv q Hq) as [Hq1 Hq2].
  assert (layer_same w w2) as Hw by (by etrans). assert (v_count w2 devvp <> 0) as Hd2 by (destruct (Hw devvp) as [-> _]; lia).
  eapply wp_mono; [eapply wp_and; [apply (wp_make_vnode _ w2 _ VDIR q (fresh_fv (fsi s1)) None None); [cbn; apply lookup_insert_eq|done..]
    |apply (wp_make_vnode_layer _ w2 _ VDIR q (fresh_fv (fsi s1))); [cbn; apply lookup_insert_eq|done]]|].
  intros [rootvp|e| | |] [s3 w3]; try (by intros [[] _]); cbn [fst snd wpk].
  - intros [[-> (C0 & B0 & C1 & B1 & Ho)] (w4 & ? & Ha & -> & E4)]. repeat wp_step. apply wp_bind, wp_lift. repeat wp_step.
    apply wp_bind, wp_lift. repeat wp_step.
    destruct (vn_flagset_ok rootvp true w3 rootvp) as [F1 F2]. destruct (vn_hold_ok rootvp (vn_flagset rootvp true w3)) as (H1 & H2 & H3).
    destruct (Hw rootvp) as [Ec Eb]. assert (rootvp <> devvp) as Hne by (intros ->; done).
    assert (forall p, p <> rootvp -> v_count (vn_hold rootvp (vn_flagset rootvp true w3)) p = v_count w p /\
      first_bhv (vn_hold rootvp (vn_flagset rootvp true w3)) p = first_bhv w p) as Hoth.
    { intros p Hp. destruct (H3 p Hp) as [-> ->]. destruct (vn_flagset_ok rootvp true w3 p) as [-> ->].
      destruct (Ho p Hp) as [-> ->]. destruct (Hw p) as [-> ->]. rewrite decide_False by done. split; [lia|done]. }
    exists rootvp, q. constructor; cbn [fst snd].
    + exists (fsi s). split; [done|]. split; [done|]. split; [done|]. cbn. rewrite insert_insert_eq. split; [done|].
      exists w4. split; [by exists w2|]. by rewrite E4.
    + done.
    + done.
    + split; [done|]. split; [done|]. destruct (Hw0 rootvp Hne) as [_ <-]. by rewrite <- Eb.
    + by rewrite H1, H2, F1, F2, C1, B1.
    + destruct (Hoth devvp) as [-> _]; [done|lia].
    + intros p Hp1 Hp2. destruct (Hoth p Hp2) as [-> ->]. by apply Hw0.
  - intros [(-> & -> & Hw3) (w4 & ? & Ha & -> & ->)]. eapply wp_call_ok.
    { apply (wp_vnode_delete _ _ q (fresh_fv (fsi s1))); [cbn; apply lookup_insert_eq|done..]. }
    intros [] ? ->. eapply wp_mono; [by apply wp_mount_fails|]. intros r sw (-> & ->). cbn [fst snd].
    destruct (dev_rele_ok devvp (fsi_free w4)) as [D1 D2].
    assert (layer_same w (fsi_free w4)) as Hw4 by (do 2 (etrans; [eassumption|]); apply fsi_free_ok).
    split; [done|]. split; [split_and!; cbn; try done; by rewrite delete_insert_id|]. split; [|split].
    + eapply others_same_trans; [exact Hw0|]. eapply others_same_trans; [apply layer_others; exact Hw4|exact D1].
    + cbn [fst snd]. rewrite D2. destruct (Hw4 devvp) as [-> _]. lia.
    + exists (fsi s), q, w4. split; [done|]. split; [by exists w2|done].
Qed.

(** What [fat32_mount] is called with: a block device that is not mounted, with a
    well-formed boot record [br] in block [off]. *)
Record mountable s w (vfs_flag : Z) (spec : list Z) (data : user_data) (o : mount_opts) (w1 : V) (devvp : nat)
    (off : Z) (br : list Z) : Prop := {
  mo_options : mount_options data = Ok o;
  mo_lookup : lookupname spec w = (w1, inr devvp);
  mo_block : v_is_blk w1 devvp = true;
  mo_search : vfs_devsearch (v_rdev w1 devvp) fat32fstype w1 = false;
  mo_lock : held s !! FsiLock = None;
  mo_live : locks_live s;
  mo_boot : boot_at (set_fsi (new_fsi vfs_flag (v_rdev w1 devvp) devvp o) s) off br;
  mo_valid : valid_br off br
}.

Lemma root_made_from s s2 wz f0 f rfv o w' : root_made s2 wz f0 f rfv o w' -> same_but_fsi s s2 -> root_made s wz f0 f rfv o w'.
Proof. intros H (Ev & _). unfold root_made. by rewrite <- Ev. Qed.

Lemma not_mounted_from s w wz devvp f0 off br s2 r sw :
  not_mounted s2 w wz devvp f0 off br r sw -> same_but_fsi s s2 -> not_mounted s w wz devvp f0 off br r sw.
Proof.
  intros (-> & H1 & H2 & H3 & f & rfv & w' & Hg & Hm & E) Hs. split; [done|]. split; [by eapply same_but_fsi_trans|].
  split; [done|]. split; [done|]. exists f, rfv, w'. split; [done|]. split; [by eapply root_made_from|done].
Qed.

Lemma mounted_from s w wz devvp f0 off br rootvp rfv s2 sw :
  mounted s2 w wz devvp f0 off br rootvp rfv sw -> same_but_fsi s s2 -> mounted s w wz devvp f0 off br rootvp rfv sw.
Proof.
  intros [(f & H1 & H2 & H3 & Hv & w' & Hm & E) H4 H5 (H6 & H7 & H8) H9 H10 H11] Hs. pose proof Hs as (Ev & Eh & Ew).
  constructor; try done.
  - exists f. rewrite <- Ev. split_and!; try done. exists w'. split; [by eapply root_made_from|done].
  - congruence.
  - intros b n. by rewrite H5.
  - by rewrite <- Ev.
Qed.

Lemma wp_mount s w vfs_flag spec data o w1 devvp off br :
  mountable s w vfs_flag spec data o w1 devvp off br ->
  let f0 := new_fsi vfs_flag (v_rdev w1 devvp) devvp o in
  wp (fat32_mount vfs_flag spec data) (s, w) (fun r sw => exists wz, fsi_zalloc w1 = (wz, true) /\
    match r with
    | Ok _ => exists rootvp rfv, mounted s w wz devvp f0 off br rootvp rfv sw
    | _ => not_mounted s w wz devvp f0 off br r sw
    end).
Proof.
  intros [Ho Hlk Hblk Hsr Hl Hlv Hboot Hvalid]. cbn zeta. destruct (lookupname_ok _ _ _ _ Hlk) as (Hw1 & Hc0 & Hc1).
  unfold fat32_mount. eapply (wp_call_ok _ _ _ (fun x sw => x = o /\ sw = (s, w))); [unfold wp, of_res; by rewrite Ho|].
  intros ? ? [-> ->]. eapply (wp_call_ok _ _ _ (fun x sw => x = devvp /\ sw = (s, w1))).
  { unfold wp, do_lookupname. cbn [fst snd]. by rewrite Hlk. }
  intros ? ? [-> ->]. repeat wp_step. cbn [snd]. rewrite Hblk, Hsr. cbn [negb].
  destruct (fsi_zalloc w1) as [w2 ok] eqn:Hz. destruct (fsi_zalloc_ok _ _ _ Hz) as [-> Hw2].
  eapply (wp_call_ok _ _ _ (fun x sw => x = true /\ sw = (s, w2))).
  { unfold wp, do_fsi_zalloc. cbn [fst snd]. by rewrite Hz. }
  intros ? ? [-> ->]. cbn [negb]. apply wp_bind, wp_lift. repeat wp_step.
  eapply wp_lift_call; [by apply wp_lock_unheld|]. intros [] ? ->. apply wp_bind, wp_try, wp_lift.
  eapply wp_mono; [by apply wp_read_boot|]. intros [[]| | | |] s3; try done. cbn [okp wpk]. intros (Hwf & Hg & _ & Hsame).
  assert (same_but_fsi s s3) as Hs3 by exact Hsame.
  assert (locks_live s3) as Hlv3.
  { intros q Hq. destruct Hs3 as (Ev & Eh & _). rewrite Eh. apply Hlv. by rewrite <- Ev. }
  assert (held s3 !! FsiLock = None) as Hl3 by (destruct Hs3 as (_ & -> & _); exact Hl).
  eapply wp_mono; [apply (wp_mount_root s3 w2 w devvp (new_fsi vfs_flag (v_rdev w1 devvp) devvp o) off br Hwf Hg Hl3 Hlv3)|].
  - eapply others_same_trans; [exact Hw1|by apply layer_others].
  - destruct (Hw2 devvp) as [-> _]. exact Hc1.
  - exact Hc0.
  - intros [[]|e| | |] sw H; exists w2; split; try done; try (by destruct H).
    + destruct H as (rootvp & rfv & H). exists rootvp, rfv. by eapply mounted_from.
    + by eapply not_mounted_from.
Qed.

(** C32: [fat32_mount] of a block device that is not mounted, with readable
    options and a well-formed boot record, makes the mount structure with the
    geometry of that record, and one vnode structure: that of the root
    directory, linked with a new root vnode that has two references; it keeps one
    reference to the device, attaches the behaviour and sets the members of the
    [vfs_t].  It writes nothing and releases every lock.  If the kernel has no
    vnode left the error is ENOMEM: the new structure and the mount structure are
    freed and the reference to the device is dropped, so that every reference
    count is what it was; these are all its calls, so that the behaviour, whose
    mount structure is freed, stays attached to the [vfs_t]. *)
Theorem mount_correct s w vfs_flag spec data o w1 devvp off br :
  mountable s w vfs_flag spec data o w1 devvp off br ->
  let f0 := new_fsi vfs_flag (v_rdev w1 devvp) devvp o in
  wp (fat32_mount vfs_flag spec data) (s, w) (fun r sw => exists wz, fsi_zalloc w1 = (wz, true) /\
    match r with
    | Ok _ => exists rootvp rfv, mounted s w wz devvp f0 off br rootvp rfv sw
    | _ => not_mounted s w wz devvp f0 off br r sw
    end).
Proof. apply wp_mount. Qed.

(** The reference that is dropped is not the last one. *)
Lemma wp_vn_rele_more s w vp n :
  v_count w vp = n -> 1 < n ->
  wp (FAT32_VN_RELE vp) (s, w) (okp (fun _ sw => fst sw = s /\ v_count (snd sw) vp = n - 1 /\
    first_bhv (snd sw) vp = first_bhv w vp /\ others_same vp w (snd sw))).
Proof.
  intros Hc Hn. unfold FAT32_VN_RELE. repeat wp_step. cbn [vn_release].
  destruct (vn_rele vp w) as [w' b] eqn:E. destruct (vn_rele_ok _ _ _ _ E) as (-> & H1 & H2 & H3).
  eapply (wp_call_ok _ _ _ (fun x sw => x = false /\ sw = (s, w'))).
  { unfold wp, do_vn_rele. cbn [fst snd]. rewrite E. split; [|done]. rewrite Hc. by apply Z.eqb_neq; lia. }
  intros ? ? [-> ->]. apply wp_ret. cbn. split_and!; try done. lia.
Qed.

Lemma wp_unmount s w rootvp rfv devvp n :
  fsi_rootvp (fsi s) = Some rootvp -> fsi_devvp (fsi s) = Some devvp -> rootvp <> devvp ->
  first_bhv w rootvp = Some rfv -> v_count w rootvp = n -> 1 < n -> held s !! FsiLock = None ->
  wp fat32_unmount (s, w) (okp (fun _ sw => fst sw = s /\
    first_bhv (snd sw) rootvp = Some rfv /\ v_count (snd sw) rootvp = n - 1)).
Proof.
  intros Hroot Hdevvp Hne Hb Hc Hn Hl. unfold fat32_unmount, vn_op. apply wp_bind, wp_lift. repeat wp_step.
  rewrite Hroot, Hdevvp. eapply wp_call_ok; [by apply wp_vn_rele_more|].
  intros [] [s1 w1] (E & C1 & B1 & _). cbn [fst snd] in E, C1, B1. subst s1. repeat wp_step. cbn [fst snd].
  eapply wp_lift_call; [by apply wp_lock_unheld|]. intros [] ? ->. repeat wp_step. cbn [okp fst snd].
  set (w2 := vfs_remove w1). destruct (vfs_remove_ok w1 rootvp) as [E1 E2]. fold w2 in E1, E2.
  destruct (proj1 (dev_rele_ok devvp w2) rootvp Hne) as [E3 E4].
  destruct (vfs_bhv_remove_ok (dev_rele devvp w2) rootvp) as [E5 E6].
  destruct (fsi_free_ok (vfs_bhv_remove (dev_rele devvp w2)) rootvp) as [E7 E8].
  split; [done|]. rewrite E7, E8, E5, E6, E3, E4, E1, E2. split; congruence.
Qed.

(** C39: mounting and then unmounting a volume does not free the root directory:
    its vnode keeps one reference and its structure stays allocated, for the
    mount takes two references and the unmount gives up one. *)
Theorem unmount_keeps_root s w vfs_flag spec data o w1 devvp off br :
  mountable s w vfs_flag spec data o w1 devvp off br ->
  wp (do* fat32_mount vfs_flag spec data in fat32_unmount) (s, w) (fun r sw =>
    match r with
    | Ok _ => exists rootvp rfv v, fvs s !! rfv = None /\ fvs (fst sw) = <[rfv := v]> (fvs s) /\
                fv_vnode v = Some rootvp /\ first_bhv (snd sw) rootvp = Some rfv /\ v_count (snd sw) rootvp = 1
    | _ => exists wz, not_mounted s w wz devvp (new_fsi vfs_flag (v_rdev w1 devvp) devvp o) off br r sw
    end).
Proof.
  intros Hm. eapply wp_call; [by apply wp_mount|]. intros [[]|e| | |] [s1 w2] (wz & _ & H); try (by destruct H).
  2:{ by exists wz. }
  destruct H as (rootvp & rfv & [(f & _ & Hg & Hf & Hv & _) Hh _ (Hnew & Hne & _) [Hb Hc] _ _]). cbn [wpk fst snd] in *.
  pose proof (mo_lock _ _ _ _ _ _ _ _ _ _ Hm) as Hl.
  eapply wp_mono; [apply (wp_unmount s1 w2 rootvp rfv devvp 2); try done|].
  - by rewrite Hf.
  - rewrite Hf. destruct Hg as (_ & _ & _ & _ & _ & _ & _ & _ & _ & _ & _ & _ & _ & Hd). exact Hd.
  - by rewrite Hh.
  - intros [[]| | | |] [s3 w3]; try done. cbn [okp fst snd]. intros (-> & H1 & H2).
    exists rootvp, rfv, (root_vnode f rootvp). split_and!; try done.
    unfold root_vnode, made_vnode. by rewrite Z.eqb_refl, bool_decide_true.
Qed.

End mount.

(** ** Witnesses *)

(** A volume in partition 0 of the device: [demo_boot] before the mount. *)
Lemma demo_mountable :
  mountable demo_boot (mkVntable ∅ ∅) 0 [] NoData (mkOpts (-1) 0 0) (mkVntable {[ 7%nat := 1 ]} ∅) 7 8 demo_br.
Proof.
  constructor; try reflexivity.
  - by intros q _.
  - exists demo_mbr. repeat split; vm_compute; congruence.
  - apply demo_valid_br.
Qed.

Lemma mount_correct_witness :
  let f0 := new_fsi 0 (v_rdev (mkVntable {[ 7%nat := 1 ]} ∅) 7) 7 (mkOpts (-1) 0 0) in
  wp (fat32_mount 0 [] NoData) (demo_boot, mkVntable ∅ ∅) (fun r sw =>
    exists wz, fsi_zalloc (mkVntable {[ 7%nat := 1 ]} ∅) = (wz, true) /\
    match r with
    | Ok _ => exists rootvp rfv, mounted demo_boot (mkVntable ∅ ∅) wz 7 f0 8 demo_br rootvp rfv sw
    | _ => not_mounted demo_boot (mkVntable ∅ ∅) wz 7 f0 8 demo_br r sw
    end).
Proof.
  apply (mount_correct demo_boot (mkVntable ∅ ∅) 0 [] NoData (mkOpts (-1) 0 0) (mkVntable {[ 7%nat := 1 ]} ∅) 7 8 demo_br).
  apply demo_mountable.
Defined.

Lemma unmount_keeps_root_witness :
  wp (do* fat32_mount 0 [] NoData in fat32_unmount) (demo_boot, mkVntable ∅ ∅) (fun r sw =>
    match r with
    | Ok _ => exists rootvp rfv v, fvs demo_boot !! rfv = None /\ fvs (fst sw) = <[rfv := v]> (fvs demo_boot) /\
                fv_vnode v = Some rootvp /\ first_bhv (snd sw) rootvp = Some rfv /\ v_count (snd sw) rootvp = 1
    | _ => exists wz, not_mounted demo_boot (mkVntable ∅ ∅) wz 7 (new_fsi 0 (v_rdev (mkVntable {[ 7%nat := 1 ]} ∅) 7) 7 (mkOpts (-1) 0 0)) 8 demo_br r sw
    end).
Proof.
  apply (unmount_keeps_root demo_boot (mkVntable ∅ ∅) 0 [] NoData (mkOpts (-1) 0 0) (mkVntable {[ 7%nat := 1 ]} ∅) 7 8 demo_br).
  apply demo_mountable.
Defined.
