(* ===== verification/Slots.v ===== *)
(** * Space for new entries

    [fat32_alloc_fdentry] looks for a run of free slots in a directory.  The
    slots it returns hold no entry, no end marker lies before them, and the
    chain is extended as far as they need. *)
From S2P Require Import Prelude Layout Time Names Kernel Device Cls Fat Demo Alloc Chain Free Cache File Truncate Access Io IoSpec WriteSpec Dir DirSpec LfnSpec Vnode Nameops Vnops Listing Remove VnodeSpec VnopsSpec DirDemo.

(** ** The scan of the slots *)

(** The first byte of slot [m]. *)
Definition slot_mark (bs : list Z) (m : nat) : Z := nth (32 * m) bs 0.

(** After the slots before [m]: none is an end marker, and [consecutive_free]
    counts the deleted ones just before [m]. *)
Record scanned (bs : list Z) (n : Z) (m : nat) (x : alloc_scan) : Prop := {
  sc_live j : (j < m)%nat -> slot_mark bs j <> 0;
  sc_free : 0 <= consecutive_free x <= Z.of_nat m /\ consecutive_free x < n;
  sc_run j : Z.of_nat m - consecutive_free x <= Z.of_nat j < Z.of_nat m -> slot_mark bs j = 0xE5;
  sc_start : consecutive_free x <> 0 -> start_free_offset x = 32 * (Z.of_nat m - consecutive_free x)
}.

(** What the scan has found: slot [m] is the end marker. *)
Definition ended (bs : list Z) (n : Z) (x : alloc_scan) : Prop :=
  exists m, scanned bs n m x /\ (32 * m < length bs)%nat /\ slot_mark bs m = 0 /\
    start_free_offset x = 32 * (Z.of_nat m - consecutive_free x) /\ end_found x = true.

(** Slots [off / 32] and up, [n] of them, hold no entry: each is deleted or behind an
    end marker; before them there is no end marker. *)
Definition free_place (bs : list Z) (off n : Z) : Prop :=
  0 <= off <= Z.of_nat (length bs) /\ off mod 32 = 0 /\
  (forall j, off <= 32 * Z.of_nat j < off + 32 * n -> (32 * j < length bs)%nat ->
     slot_mark bs j = 0xE5 \/ exists i, (i <= j)%nat /\ slot_mark bs i = 0) /\
  (forall j, 32 * Z.of_nat j < off -> slot_mark bs j <> 0).

Lemma free_place_run bs n m x :
  scanned bs n m x -> (32 * m <= length bs)%nat -> 1 <= n ->
  free_place bs (32 * (Z.of_nat m - consecutive_free x)) (consecutive_free x).
Proof.
  intros [H1 [H2 H3] H4 H5] Hm Hn. split; [lia|]. split; [rewrite Z.mul_comm; by apply Z.mod_mul|]. split.
  - intros j Hj _. left. apply H4. lia.
  - intros j Hj. apply H1. lia.
Qed.

Lemma free_place_end bs n x : ended bs n x -> 1 <= n -> free_place bs (start_free_offset x) n.
Proof.
  intros (m & Hs & Hm & Hz & -> & _) Hn.
  destruct (free_place_run bs n m x Hs ltac:(lia) Hn) as (H1 & H2 & H3 & H4). split_and!; try done; try lia.
  intros j Hj Hjl. destruct (decide (Z.of_nat j < Z.of_nat m)) as [Hlt|Hge]; [apply H3; [lia|done]|].
  right. exists m. split; [lia|done].
Qed.

(** One slot. *)
Lemma scanned_step bs n m x e :
  scanned bs n m x -> slot_mark bs m <> 0 -> 1 <= n -> slot_mark bs m <> 0xE5 ->
  scanned bs n (S m) (mkAlloc 0 (start_free_offset x) e).
Proof.
  intros [H1 [H2 H3] H4 H5] Hz Hn He. constructor; cbn [consecutive_free start_free_offset].
  - intros j Hj. destruct (decide (j = m)) as [->|]; [done|apply H1; lia].
  - lia.
  - intros j Hj. lia.
  - done.
Qed.

Lemma scanned_deleted bs n m x e start :
  scanned bs n m x -> slot_mark bs m = 0xE5 -> consecutive_free x + 1 <> n ->
  start = (if consecutive_free x =? 0 then 32 * Z.of_nat m else start_free_offset x) ->
  scanned bs n (S m) (mkAlloc (consecutive_free x + 1) start e).
Proof.
  intros [H1 [H2 H3] H4 H5] He Hn ->. constructor; cbn [consecutive_free start_free_offset].
  - intros j Hj. destruct (decide (j = m)) as [->|]; [rewrite He; done|apply H1; lia].
  - lia.
  - intros j Hj. destruct (decide (j = m)) as [->|]; [done|apply H4; lia].
  - intros _. destruct (Z.eqb_spec (consecutive_free x) 0) as [E|E]; [lia|rewrite H5 by done; lia].
Qed.

Lemma scan_start_eq bs n m x :
  scanned bs n m x ->
  (if consecutive_free x =? 0 then 32 * Z.of_nat m else start_free_offset x) = 32 * (Z.of_nat m - consecutive_free x).
Proof. intros [_ _ _ H]. destruct (Z.eqb_spec (consecutive_free x) 0) as [->|]; [lia|by apply H]. Qed.

(** What the scan of a cluster that ends before slot [m] returns. *)
Definition scan_outcome (bs : list Z) (n : Z) (m : nat) (r : alloc_scan + Z) : Prop :=
  match r with
  | inl x => scanned bs n m x /\ end_found x = false \/ ended bs n x
  | inr off => free_place bs off n /\ off + 32 * n <= Z.of_nat (length bs)
  end.

(** The slots of one cluster: those from [m] to [M], slot [m] at [eo]. *)
Lemma alloc_scan_entries_ok fuel d bs n base m eo x :
  (forall o, 0 <= o -> o + 32 <= Z.of_nat (length d) -> bget d o = Some (nth (Z.to_nat (base + o)) bs 0)) ->
  scanned bs n m x -> end_found x = false -> 1 <= n < 2 ^ 32 -> base + eo = 32 * Z.of_nat m -> 0 <= eo -> 0 <= base ->
  eo + 32 * Z.of_nat fuel <= Z.of_nat (length d) -> base + Z.of_nat (length d) <= Z.of_nat (length bs) ->
  Z.of_nat (length bs) < 2 ^ 32 ->
  exists r, alloc_scan_entries fuel d n base eo x = Some r /\ scan_outcome bs n (m + fuel) r.
Proof.
  intros Hd Hsc Hend Hn Hm Heo Hbase Hfuel Hlen Hw. revert m eo x Hsc Hend Hm Heo Hfuel.
  induction fuel as [|fuel IH]; intros m eo x Hsc Hend Hm Heo Hfuel; cbn [alloc_scan_entries].
  { exists (inl x). split; [done|]. rewrite Nat.add_0_r. by left. }
  rewrite Hd by lia. rewrite Hm, (u32_small (32 * _)) by lia. replace (Z.to_nat (32 * Z.of_nat m)) with (32 * m)%nat by lia.
  fold (slot_mark bs m). rewrite (scan_start_eq bs n m x Hsc).
  destruct (Z.eqb_spec (slot_mark bs m) 0) as [Hz|Hz].
  - eexists. split; [done|]. right. exists m. split_and!; [|lia|done|done|done].
    destruct Hsc as [H1 H2 H3 H4]. constructor; cbn [consecutive_free start_free_offset]; try done.
  - replace (m + S fuel)%nat with (S m + fuel)%nat by lia. destruct (Z.eqb_spec (slot_mark bs m) 0xE5) as [He|He].
    + pose proof (sc_free _ _ _ _ Hsc) as [Hf1 Hf2]. rewrite u32_small by lia.
      destruct (Z.eqb_spec (consecutive_free x + 1) n) as [Hfull|Hnot].
      * eexists. split; [done|]. cbn [scan_outcome].
        destruct (free_place_run bs n m x Hsc ltac:(lia) ltac:(lia)) as (P1 & P2 & P3 & P4). split; [|lia].
        split; [done|]. split; [done|]. split; [|done]. intros j Hj Hjl.
        destruct (decide (j = m)) as [->|]; [by left|]. apply P3; [lia|done].
      * apply IH; [|done|lia..]. apply scanned_deleted; try done. symmetry. by apply (scan_start_eq bs n m x).
    + apply IH; [|done|lia..]. apply scanned_step; try done. lia.
Qed.

(** The scan of a whole directory. *)
Definition scan_slots (bs : list Z) (n : Z) : option (alloc_scan + Z) :=
  alloc_scan_entries (length bs / 32) bs n 0 0 (mkAlloc 0 0 false).

(** Where [n] slots are found in a directory with the bytes [bs]. *)
Definition slot_place (bs : list Z) (n : Z) : Z :=
  match scan_slots bs n with
  | Some (inr off) => off
  | Some (inl x) => if negb (end_found x) && (consecutive_free x =? 0) then Z.of_nat (length bs) else start_free_offset x
  | None => 0
  end.

Lemma scan_slots_ok bs n :
  Z.of_nat (length bs) mod 32 = 0 -> Z.of_nat (length bs) < 2 ^ 32 -> 1 <= n < 2 ^ 32 ->
  exists r, scan_slots bs n = Some r /\ scan_outcome bs n (length bs / 32) r.
Proof.
  intros Hal Hw Hn. destruct (alloc_scan_entries_ok (length bs / 32) bs bs n 0 0 0 (mkAlloc 0 0 false)) as (r & H1 & H2);
    try done; try lia.
  - intros o Ho Ho32. unfold bget. rewrite decide_True by lia.
    destruct (lookup_lt_is_Some_2 bs (Z.to_nat o) ltac:(lia)) as [v Hv]. by rewrite Hv, Z.add_0_l, (nth_lookup_Some _ _ _ _ Hv).
  - constructor; cbn [consecutive_free start_free_offset]; try done; lia.
  - pose proof (Nat.mul_div_le (length bs) 32). lia.
  - by exists r.
Qed.

(** The rest of a place at the end lies behind the directory. *)
Lemma free_place_tail bs n x :
  scanned bs n (length bs / 32) x -> Z.of_nat (length bs) mod 32 = 0 -> 1 <= n ->
  free_place bs (if consecutive_free x =? 0 then Z.of_nat (length bs) else start_free_offset x) n.
Proof.
  intros Hs Hal Hn. assert (32 * (length bs / 32) = length bs)%nat as E.
  { rewrite Nat.mul_comm. pose proof (Nat.div_exact (length bs) 32 ltac:(lia)) as [_ H]. rewrite Nat.mul_comm, <- H; [done|].
    rewrite <- (Nat2Z.inj_iff _ 0), Nat2Z.inj_mod. exact Hal. }
  replace (Z.of_nat (length bs)) with (32 * Z.of_nat (length bs / 32)) by lia. rewrite (scan_start_eq bs n) by done.
  destruct (free_place_run bs n _ x Hs ltac:(lia) Hn) as (H1 & H2 & H3 & H4). split_and!; try done; try lia.
  intros j Hj Hjl. apply H3; [lia|done].
Qed.

Lemma slot_place_free bs n :
  Z.of_nat (length bs) mod 32 = 0 -> Z.of_nat (length bs) < 2 ^ 32 -> 1 <= n < 2 ^ 32 ->
  free_place bs (slot_place bs n) n.
Proof.
  intros Hal Hw Hn. unfold slot_place. destruct (scan_slots_ok bs n Hal Hw Hn) as (r & -> & Ho).
  destruct r as [x|off]; [|apply Ho]. destruct Ho as [[Hsc He]|Hend].
  - rewrite He. apply free_place_tail; (done || lia).
  - pose proof Hend as (m & _ & _ & _ & _ & E). rewrite E. apply free_place_end; (done || lia).
Qed.

(** A byte of a part is a byte of the whole. *)
Lemma slice_1 (l : list Z) i : (i < length l)%nat -> slice l i 1 = [nth i l 0].
Proof.
  intros Hi. unfold slice. destruct (lookup_lt_is_Some_2 l i Hi) as [v Hv].
  rewrite (drop_S _ _ _ Hv). cbn. by rewrite (nth_lookup_Some _ _ _ _ Hv).
Qed.

Lemma bget_slice bs d i o :
  0 <= o < Z.of_nat (length d) -> (i < length bs)%nat -> slice bs i 1 = slice d (Z.to_nat o) 1 ->
  bget d o = Some (nth i bs 0).
Proof.
  intros Ho Hi. rewrite !slice_1 by lia. intros [= ->]. unfold bget. rewrite decide_True by lia.
  destruct (lookup_lt_is_Some_2 d (Z.to_nat o) ltac:(lia)) as [v Hv]. by rewrite Hv, (nth_lookup_Some _ _ _ _ Hv).
Qed.

(** The scan of a cluster is a part of the scan of the directory. *)
Lemma alloc_scan_entries_embed f1 f2 d bs n base eo x :
  (forall o, 0 <= o -> o + 32 <= Z.of_nat (length d) -> bget bs (base + o) = bget d o) ->
  end_found x = false -> 0 <= eo -> eo + 32 * Z.of_nat f1 <= Z.of_nat (length d) ->
  alloc_scan_entries (f1 + f2) bs n 0 (base + eo) x =
  match alloc_scan_entries f1 d n base eo x with
  | Some (inl x') => if end_found x' then Some (inl x')
                     else alloc_scan_entries f2 bs n 0 (base + eo + 32 * Z.of_nat f1) x'
  | r => r
  end.
Proof.
  intros Hd. revert eo x. induction f1 as [|f1 IH]; intros eo x He H0 Hlen.
  - cbn [alloc_scan_entries]. rewrite He. by replace (base + eo + 32 * Z.of_nat 0) with (base + eo) by lia.
  - cbn [Nat.add alloc_scan_entries]. rewrite Hd by lia. destruct (bget d eo) as [b|]; [|done]. rewrite Z.add_0_l.
    destruct (b =? 0); [done|]. replace (base + eo + 32 * Z.of_nat (S f1)) with (base + (eo + 32) + 32 * Z.of_nat f1) by lia.
    replace (base + eo + 32) with (base + (eo + 32)) by lia.
    destruct (b =? 0xE5); [destruct (_ =? n); [done|]|]; by rewrite IH by (done || lia).
Qed.

Lemma alloc_scan_entries_total f d n base eo x :
  0 <= eo -> eo + 32 * Z.of_nat f <= Z.of_nat (length d) -> is_Some (alloc_scan_entries f d n base eo x).
Proof.
  revert eo x. induction f as [|f IH]; intros eo x H0 Hlen; cbn [alloc_scan_entries]; [by eexists|].
  unfold bget. rewrite decide_True by lia. destruct (lookup_lt_is_Some_2 d (Z.to_nat eo) ltac:(lia)) as [b ->].
  destruct (b =? 0); [by eexists|]. destruct (b =? 0xE5); [destruct (_ =? n); [by eexists|]|]; apply IH; lia.
Qed.

(** Zeros behind the directory do not change the place. *)
Lemma slot_place_zeros bs m n :
  Z.of_nat (length bs) mod 32 = 0 -> Z.of_nat (length bs) < 2 ^ 32 -> (m mod 32 = 0)%nat ->
  slot_place (bs ++ zeros m) n = slot_place bs n.
Proof.
  intros Hal Hw Hm. assert (length bs = 32 * (length bs / 32))%nat as El.
  { assert (length bs mod 32 = 0)%nat by (apply Nat2Z.inj; rewrite Nat2Z.inj_mod; exact Hal). pose proof (Nat.div_mod_eq (length bs) 32). lia. }
  unfold slot_place, scan_slots. rewrite length_app. unfold zeros at 1 3. rewrite length_replicate.
  assert ((length bs + m) / 32 = length bs / 32 + m / 32)%nat as ->.
  { rewrite El at 1. rewrite (Nat.mul_comm 32), Nat.div_add_l by lia. done. }
  pose proof (alloc_scan_entries_embed (length bs / 32) (m / 32) bs (bs ++ zeros m) n 0 0 (mkAlloc 0 0 false)) as Hemb.
  rewrite Z.add_0_r in Hemb. rewrite Hemb; [|..|done|lia|lia].
  2:{ intros o Ho Ho32. unfold bget. rewrite !decide_True by lia. by rewrite Z.add_0_l, lookup_app_l by lia. }
  destruct (alloc_scan_entries_total (length bs / 32) bs n 0 0 (mkAlloc 0 0 false)) as [[x|off] Hx]; [lia|lia| |]; rewrite Hx; [|done].
  destruct (end_found x) eqn:He; [cbn; by rewrite He|]. cbn [negb andb].
  destruct (m / 32)%nat as [|k] eqn:Ek.
  { assert (m = 0)%nat as -> by (pose proof (Nat.div_mod_eq m 32); lia). cbn [alloc_scan_entries]. rewrite He. cbn [negb andb].
    by rewrite Nat.add_0_r. }
  cbn [alloc_scan_entries]. unfold bget. rewrite decide_True by lia.
  rewrite lookup_app_r by lia. unfold zeros. rewrite lookup_replicate_2 by (pose proof (Nat.div_mod_eq m 32); lia). cbn [Z.eqb].
  rewrite u32_small by lia. cbn [end_found negb andb start_free_offset consecutive_free].
  destruct (consecutive_free x =? 0); [lia|done].
Qed.

(** ** The loop over the clusters *)

Section alloc.
Context {K : Type} `{!Kernel K, !KernelLaws K}.
Implicit Types s : st K.

(** The rest of the scan from slot [m]. *)
Definition scan_rest (bs : list Z) (n : Z) (m : nat) (x : alloc_scan) : option (alloc_scan + Z) :=
  if end_found x then Some (inl x) else alloc_scan_entries (length bs / 32 - m) bs n 0 (32 * Z.of_nat m) x.

Lemma wp_alloc_scan_loop s c l bs n fuel k x cl s1 :
  ready s -> dir_at s c l bs -> s ≡ s1 -> l !! k = Some cl -> (length l - k <= fuel)%nat ->
  Z.of_nat (length bs) < 2 ^ 32 ->
  wp (iter fuel (alloc_scan_step n) (x, cl, Z.of_nat (k * bpc (fsi s)))) s1 (okp (fun r s' => s ≡ s' /\
    match r with
    | inl off => scan_rest bs n (k * (bpc (fsi s) / 32)) x = Some (inr off)
    | inr (last_cluster, current_offset, x') =>
        last l = Some last_cluster /\ current_offset = Z.of_nat (length bs) /\
        scan_rest bs n (k * (bpc (fsi s) / 32)) x = Some (inl x')
    end)).
Proof.
  intros Hr [Hch Hc] Hs Hx Hfuel Hw. pose proof (ready_wf _ Hr) as Hwf. destruct (bpc_eq _ Hwf) as [Hb Hb0].
  pose proof (bpc_aligned _ Hwf) as Hba. pose proof (contents_length _ _ _ Hwf Hc) as Hlen.
  assert (exists u, bpc (fsi s) = 32 * u)%nat as [u Hu].
  { exists (Z.to_nat (fsi_bytes_per_cluster (fsi s) / 32)). Z.div_mod_to_equations. lia. }
  assert (bpc (fsi s) / 32 = u)%nat as Hbu by (rewrite Hu, Nat.mul_comm; by apply Nat.div_mul). rewrite Hbu.
  assert (length bs / 32 = length l * u)%nat as Hlu.
  { rewrite Hlen, Hu. replace (length l * (32 * u))%nat with (length l * u * 32)%nat by lia. by apply Nat.div_mul. }
  revert k x cl s1 Hs Hx Hfuel.
  induction fuel as [|fuel IH]; intros k x cl s1 Hs Hx Hfuel; apply lookup_lt_Some in Hx as Hlt; [lia|].
  destruct (contents_slice s l bs k cl Hwf Hc Hx) as (d & Hd & Hdl & Hsl). pose proof Hs as (Ef & _).
  cbn [iter]. apply wp_bind. unfold alloc_scan_step at 1. repeat wp_step. rewrite Ef.
  eapply (wp_call_ok _ _ _ (fun r s' => s ≡ s' /\ scan_rest bs n (k * u) x =
    match r with inl x' => scan_rest bs n (S k * u) x' | inr off => Some (inr off) end)).
  { unfold scan_rest at 1. destruct (end_found x) eqn:He.
    { apply wp_ret. split; [done|]. unfold scan_rest. by rewrite He. }
    eapply wp_call_ok; [apply (wp_read_cluster s1 cl d); by rewrite <- Hs|].
    intros bp s2 (_ & _ & Ee & -> & Hs2 & Hcl). eapply wp_call_ok; [by apply wp_check_buf_ok|]. intros [] ? ->.
    replace (Z.to_nat ((fsi_bytes_per_cluster (fsi s) + 31) / 32)) with u by (Z.div_mod_to_equations; lia).
    destruct (alloc_scan_entries_total u d n (Z.of_nat (k * bpc (fsi s))) 0 x) as [r Hscan]; [lia|lia|].
    rewrite Hscan. cbn [of_opt]. repeat wp_step.
    eapply wp_call_ok; [by apply wp_do_brelse|]. intros [] s3 Hs3. apply wp_ret. split; [by rewrite Hs, Hs2|].
    rewrite Hlu. replace (length l * u - k * u)%nat with (u + (length l * u - S k * u))%nat by nia.
    replace (32 * Z.of_nat (k * u)) with (Z.of_nat (k * bpc (fsi s)) + 0) by lia.
    rewrite (alloc_scan_entries_embed u _ d); [|..|done|lia|lia].
    - rewrite Hscan. destruct r as [x'|off]; [|done]. unfold scan_rest. destruct (end_found x'); [done|].
      rewrite Hlu. f_equal. lia.
    - intros o Ho Ho32. rewrite (bget_slice bs d (Z.to_nat (Z.of_nat (k * bpc (fsi s)) + o)) o); [|lia|nia|].
      + unfold bget. rewrite decide_True by lia.
        destruct (lookup_lt_is_Some_2 bs (Z.to_nat (Z.of_nat (k * bpc (fsi s)) + o)) ltac:(nia)) as [v Hv].
        by rewrite Hv, (nth_lookup_Some _ _ _ _ Hv).
      + replace (Z.to_nat (Z.of_nat (k * bpc (fsi s)) + o)) with (k * bpc (fsi s) + Z.to_nat o)%nat by lia. apply Hsl. lia. }
  intros [x2|off] s2 [Hs2 Hrest]; rewrite Hrest; [|by apply wp_ret].
  apply wp_bind, wp_try. eapply wp_mono; [by apply (wp_next_of_chain s2 c l k cl); rewrite <- ?Hs2|].
  intros r s3 [-> Hs3]. assert (s ≡ s3) as Hs03 by (by rewrite Hs2).
  rewrite u32_small by nia. destruct (l !! S k) as [y|] eqn:Hy; cbn [wpk].
  - apply wp_ret. cbn [wpk]. replace (Z.of_nat (k * bpc (fsi s)) + fsi_bytes_per_cluster (fsi s))
      with (Z.of_nat (S k * bpc (fsi s))) by lia. by apply IH; [|done|lia].
  - apply wp_ret. cbn [okp]. split; [done|]. apply lookup_ge_None in Hy. assert (S k = length l) as Hk by lia.
    split; [|split].
    + by rewrite last_lookup, <- Hk.
    + rewrite Hlen. nia.
    + unfold scan_rest. destruct (end_found x2); [done|]. rewrite Hlu, <- Hk, Nat.sub_diag. done.
Qed.

(** ** The extension of the chain *)

(** [fat32_clear_cluster] writes a cluster block by block, all others access it
    as one chunk.  In a kernel with coherent chunks a chunk of zero blocks holds
    zeros. *)
Definition coherent : Prop := forall (k : K) b n,
  0 < n -> (forall i, 0 <= i < n -> view k (b + i) 1 = Some zero_block) -> view k b n = Some (zeros (Z.to_nat (512 * n))).

(** The blocks of the data area can be read, and clearing a cluster is seen in its
    chunk: with clusters of one block this holds for every kernel. *)
Record clearable s : Prop := {
  cl_blocks x i : in_range (fsi s) x -> 0 <= i < fsi_sectors_per_cluster (fsi s) ->
    is_Some (view (kst s) (fat32_cluster_to_sector (fsi s) x + i) 1);
  cl_chunk : fsi_sectors_per_cluster (fsi s) = 1 \/ coherent
}.

Lemma clearable_same s s1 :
  fsi s1 = fsi s -> (forall b n, view (kst s1) b n = view (kst s) b n) -> clearable s -> clearable s1.
Proof. intros Ef Hw [H1 H2]. split; rewrite !Ef; [|done]. intros. rewrite Hw. auto. Qed.

(** Zeros in the blocks of a cluster are zeros in its chunk. *)
Lemma zero_cluster s (k : K) b :
  clearable s -> fs_wf (fsi s) ->
  (forall i, 0 <= i < fsi_sectors_per_cluster (fsi s) -> view k (b + i) 1 = Some zero_block) ->
  view k b (fsi_sectors_per_cluster (fsi s)) = Some (zeros (bpc (fsi s))).
Proof.
  intros [_ [H1|Hco]] Hwf Hz; pose proof (wf_bytes_per_cluster _ Hwf) as Hb; unfold bpc; rewrite Hb.
  - rewrite H1 in *. specialize (Hz 0 ltac:(lia)). by rewrite Z.add_0_r in Hz.
  - apply Hco; [|done]. rewrite (wf_spc _ Hwf). apply Z.pow_pos_nonneg; [lia|apply Hwf].
Qed.

Definition GROW : Z := Z.lor NC_ALLOC NC_CLEAR.

Lemma wp_alloc_extend s c l k n x s0 :
  wp (seek_loop n x GROW) s0 (extend_result s c l k GROW) ->
  wp (alloc_extend n x) s0 (fun r s' => match r with
    | Ok _ => exists y, extend_result s c l k GROW (Ok y) s'
    | Err e => extend_result s c l k GROW (Err e) s'
    | _ => False
    end).
Proof.
  revert x s0. induction n as [|n IH]; intros x s0; cbn [seek_loop alloc_extend].
  - unfold wp. cbn. eauto.
  - unfold wp, bind. change (Z.lor NC_ALLOC NC_CLEAR) with GROW. destruct (fat32_next_cluster x GROW s0) as [s1 [y|e| | |]]; cbn.
    + apply IH.
    + done.
    + by intros (_ & _ & _ & _ & ext & _ & _ & _ & _ & H).
    + by intros (_ & _ & _ & _ & ext & _ & _ & _ & _ & H).
    + by intros (_ & _ & _ & _ & ext & _ & _ & _ & _ & H).
Qed.

(** The directory with the clusters [l] has the clusters [ext] as well, whose
    blocks are zero; its bytes and all other files are as before. *)
Definition grown s (c : Z) (l bs ext : list Z) s' : Prop :=
  ready s' /\ fvs s' = fvs s /\ held s' = held s /\ geom (fsi s') = geom (fsi s) /\
  file_chain s' c (l ++ ext) /\ contents s' l bs /\ keeps s l s' (l ++ ext) /\ data_keeps s ext s' /\
  blocks_after s ext s' /\
  (clearable s -> contents s' (l ++ ext) (bs ++ zeros (length ext * bpc (fsi s)))).

Lemma grown_refl s c l bs s' : ready s -> dir_at s c l bs -> s ≡ s' -> grown s c l bs [] s'.
Proof.
  intros Hr [Hch Hc] Hs. pose proof Hs as (Hf & Hv & Hh & Hw). unfold grown. rewrite app_nil_r.
  split_and!; [by rewrite <- Hs|done|done|by rewrite Hf|by rewrite <- Hs|by rewrite <- Hs|by apply keeps_equiv|..].
  - intros y _ _. by rewrite Hw.
  - intros x i _ _. split; intros Hx; [by rewrite Hw|by apply not_elem_of_nil in Hx].
  - intros _. unfold zeros. cbn [length Nat.mul replicate]. rewrite app_nil_r. by rewrite <- Hs.
Qed.

(** The contents of new clusters. *)
Lemma blocks_after_contents s ext s' :
  clearable s -> fs_wf (fsi s) -> geom (fsi s') = geom (fsi s) -> blocks_after s ext s' -> Forall (in_range (fsi s)) ext ->
  contents s' ext (zeros (length ext * bpc (fsi s))).
Proof.
  intros Hcl Hwf Hg Hb Hext. exists (map (fun _ => zeros (bpc (fsi s))) ext). split.
  - apply Forall2_fmap_r. apply Forall_Forall2_diag. rewrite Forall_forall in Hext |- *. intros x Hx.
    unfold cluster_bytes. change (fat32_cluster_to_sector (fsi s') x) with (fat32_cluster_to_sector (geom (fsi s')) x).
    change (fsi_sectors_per_cluster (fsi s')) with (fsi_sectors_per_cluster (geom (fsi s'))). rewrite Hg.
    apply zero_cluster; [done|done|]. intros i Hi. apply (Hb x i (Hext x Hx) Hi); [done|]. apply Hcl; [by apply Hext|done].
  - clear. induction ext as [|x ext IH]; [done|]. cbn [map concat length Nat.mul]. rewrite <- IH. unfold zeros. by rewrite replicate_add.
Qed.

Lemma extend_grown s c l bs k r s1 s' :
  ready s -> dir_at s c l bs -> s ≡ s1 -> extend_result s1 c l k GROW r s' ->
  exists ext, grown s c l bs ext s' /\
    match r with
    | Ok _ => length (l ++ ext) = Nat.max (length l) (S k)
    | Err e => e = ENOSPC /\ (length (l ++ ext) <= k)%nat
    | _ => False
    end.
Proof.
  intros Hr [Hch Hc] Hs H. apply (extend_result_equiv s) in H; [|done].
  destruct H as (Hr' & Hv & Hh & Hg & ext & Hch' & Hk & Hd & Hb & H). exists ext. split; [|destruct r as [y|e| | |]; try done; by destruct H].
  change (fresh GROW ext) with ext in Hd, Hb.
  assert (contents s' l bs) as Hc'.
  { apply (contents_keeps s ext s'); try done; [by eapply chain_range|].
    pose proof (chain_NoDup _ _ _ _ (ready_wf _ Hr') Hch') as Hnd. apply NoDup_app in Hnd as (_ & Hdis & _).
    intros y Hy1 Hy2. by apply (Hdis y). }
  split_and!; try done. intros Hcl. apply contents_app. eexists _, _. split; [exact Hc'|]. split; [|done].
  apply (blocks_after_contents s ext s'); try done; [by apply ready_wf|].
  pose proof (chain_range _ _ _ _ Hch') as Hrg. rewrite Forall_app in Hrg. eapply Forall_impl; [apply Hrg|].
  intros y. rewrite (geom_in_range (fsi s)) by done. done.
Qed.

(** The clusters for the slots behind the end. *)
Lemma wp_alloc_grow s s1 c l bs last_cluster start n :
  ready s -> dir_at s c l bs -> s ≡ s1 -> last l = Some last_cluster -> 1 <= n -> 0 <= start <= Z.of_nat (length bs) ->
  Z.of_nat (length bs) < start + n * 32 -> Z.of_nat (length bs) + 32 * n + fsi_bytes_per_cluster (fsi s) < 2 ^ 32 ->
  wp (do* alloc_extend (Z.to_nat (Z.shiftr (u32 (u32 (start + n * 32 - Z.of_nat (length bs)) +
            fsi_bytes_per_cluster (fsi s) - 1)) (fsi_cluster_shift (fsi s)))) last_cluster in
      ret start) s1 (fun r s' => exists ext, grown s c l bs ext s' /\ Z.of_nat (length (l ++ ext) * bpc (fsi s)) < 2 ^ 32 /\
    match r with
    | Ok off' => off' = start /\ start + 32 * n <= Z.of_nat (length (l ++ ext) * bpc (fsi s))
    | Err e => e = ENOSPC
    | _ => False
    end).
Proof.
  intros Hr Hat Hs1 Hlast Hn Hst Hmore Hw. pose proof Hat as [Hch Hc]. pose proof (ready_wf _ Hr) as Hwf.
  destruct (bpc_eq _ Hwf) as [Hb Hb0]. pose proof (contents_length _ _ _ Hwf Hc) as Hlen.
  destruct (chain_head _ _ _ _ Hch) as [l' El].
  rewrite (u32_small (start + n * 32 - _)), u32_small by lia. set (m := Z.to_nat (Z.shiftr _ _)).
  assert (start + n * 32 <= Z.of_nat ((length l + m) * bpc (fsi s)) < 2 ^ 32) as [Hm Hm32].
  { assert (fsi_bytes_per_cluster (fsi s) = 2 ^ fsi_cluster_shift (fsi s)) as Epow.
    { rewrite (wf_bytes_per_cluster _ Hwf), (wf_cluster_shift _ Hwf), (wf_spc _ Hwf), Z.pow_add_r by (destruct Hwf; lia). done. }
    unfold m. rewrite Z.shiftr_div_pow2 by (destruct Hwf; lia). rewrite <- Epow.
    set (y := start + n * 32 - Z.of_nat (length bs) + fsi_bytes_per_cluster (fsi s) - 1).
    pose proof (Z.mul_succ_div_gt y (fsi_bytes_per_cluster (fsi s)) ltac:(lia)).
    pose proof (Z.mul_div_le y (fsi_bytes_per_cluster (fsi s)) ltac:(lia)).
    pose proof (Z.div_pos y (fsi_bytes_per_cluster (fsi s)) ltac:(lia) ltac:(lia)). rewrite Nat2Z.inj_mul, Nat2Z.inj_add, Z2Nat.id, Hb by lia.
    rewrite Hlen, Nat2Z.inj_mul, Hb in *. nia. }
  assert (l !! (length l - 1)%nat = Some last_cluster) as Hl by (by rewrite last_lookup in Hlast; replace (length l - 1)%nat with (pred (length l)) by lia).
  eapply wp_call.
  { apply (wp_alloc_extend s1 c l (length l - 1 + m)).
    apply wp_seek_loop_alloc; [by rewrite <- Hs1|by rewrite <- Hs1|reflexivity|exact Hl]. }
  assert (0 < length l)%nat as Hl0 by (rewrite El; cbn; lia).
  intros [[]|e| | |] s2 H; try done; cbn [wpk].
  - destruct H as [y H]. destruct (extend_grown s _ _ _ _ _ _ _ Hr Hat Hs1 H) as (ext & Hg & Hext).
    apply wp_ret. exists ext. split; [done|]. rewrite Hext. replace (Nat.max (length l) (S (length l - 1 + m))) with (length l + m)%nat by lia.
    split; [exact Hm32|]. split; [done|lia].
  - destruct (extend_grown s _ _ _ _ _ _ _ Hr Hat Hs1 H) as (ext & Hg & -> & Hext). exists ext. split; [done|]. split; [|done]. nia.
Qed.

Lemma wp_alloc_fdentry s p v l bs n :
  ready s -> fvs s !! p = Some v -> dir_at s (fv_cluster v) l bs -> 1 <= n ->
  Z.of_nat (length bs) + 32 * n + fsi_bytes_per_cluster (fsi s) < 2 ^ 32 ->
  let off := slot_place bs n in
  wp (fat32_alloc_fdentry p n) s (fun r s' =>
    if decide (off + 32 * n <= Z.of_nat (length bs)) then r = Ok off /\ s ≡ s'
    else exists ext, grown s (fv_cluster v) l bs ext s' /\ Z.of_nat (length (l ++ ext) * bpc (fsi s)) < 2 ^ 32 /\
      match r with
      | Ok off' => off' = off /\ off + 32 * n <= Z.of_nat (length (l ++ ext) * bpc (fsi s))
      | Err e => e = ENOSPC
      | _ => False
      end).
Proof.
  intros Hr Hp Hat Hn Hw. cbn zeta. pose proof Hat as [Hch Hc]. pose proof (ready_wf _ Hr) as Hwf.
  destruct (bpc_eq _ Hwf) as [Hb Hb0]. destruct (chain_head _ _ _ _ Hch) as [l' El]. pose proof (chain_range _ _ _ _ Hch) as Hrg.
  assert (in_range (fsi s) (fv_cluster v)) as Hin by (rewrite El in Hrg; by inversion Hrg).
  pose proof (chain_length_bound _ _ _ Hwf Hch) as Hlb. pose proof (contents_length _ _ _ Hwf Hc) as Hlen.
  pose proof (dir_length_aligned _ _ _ _ Hr Hat) as Hal.
  destruct (slot_place_free bs n Hal ltac:(lia) ltac:(lia)) as (P1 & _).
  destruct (scan_slots_ok bs n Hal ltac:(lia) ltac:(lia)) as (rs & Hrs & Hout).
  unfold fat32_alloc_fdentry. repeat wp_step. eapply wp_call_ok; [by apply wp_get_fv|]. intros ? ? [-> ->].
  rewrite (in_range_nonzero (fsi s)) by done.
  eapply wp_call_ok.
  { apply (wp_alloc_scan_loop s (fv_cluster v) l bs n _ 0 (mkAlloc 0 0 false) (fv_cluster v) s); try done; try lia. by rewrite El. }
  unfold scan_rest. cbn [end_found Nat.mul]. rewrite Nat.sub_0_r. change (alloc_scan_entries (length bs / 32) bs n 0 (32 * Z.of_nat 0) (mkAlloc 0 0 false)) with (scan_slots bs n). rewrite Hrs.
  intros [off|[[last_cluster cur] x]] s1 [Hs1 Hdone].
  { injection Hdone as ->. destruct Hout as [_ H2]. apply wp_ret. unfold slot_place. rewrite Hrs. by rewrite decide_True. }
  destruct Hdone as (Hlast & -> & [= ->]). set (start := if negb (end_found x) && (consecutive_free x =? 0) then _ else _).
  assert (slot_place bs n = start) as Eplace by (unfold slot_place; by rewrite Hrs). rewrite Eplace in *.
  rewrite (u32_small (n * 32)), (u32_small (start + _)) by lia.
  destruct (Z.ltb_spec (Z.of_nat (length bs)) (start + n * 32)) as [Hmore|Hfit].
  2:{ repeat wp_step. by rewrite decide_True by lia. }
  eapply wp_mono; [apply (wp_alloc_grow s s1 (fv_cluster v) l bs last_cluster start n); (done || lia)|].
  intros r s2 H. by rewrite decide_False by lia.
Qed.

(** The new place is free in the directory that has grown. *)
Lemma grown_place s c l bs ext s' n :
  ready s -> dir_at s c l bs -> grown s c l bs ext s' -> Z.of_nat (length (l ++ ext) * bpc (fsi s)) < 2 ^ 32 -> 1 <= n < 2 ^ 32 ->
  let bs' := bs ++ zeros (length ext * bpc (fsi s)) in
  Z.of_nat (length bs') = Z.of_nat (length (l ++ ext) * bpc (fsi s)) /\
  slot_place bs' n = slot_place bs n /\ free_place bs' (slot_place bs n) n.
Proof.
  cbn zeta. intros Hr Hat Hg Hw Hn. pose proof (ready_wf _ Hr) as Hwf. destruct (bpc_eq _ Hwf) as [Hb Hb0].
  pose proof (contents_length _ _ _ Hwf (proj2 Hat)) as Hlen. pose proof (dir_length_aligned _ _ _ _ Hr Hat) as Hal.
  assert (length (bs ++ zeros (length ext * bpc (fsi s))) = (length (l ++ ext) * bpc (fsi s))%nat) as Hl.
  { rewrite !length_app. unfold zeros. rewrite length_replicate, Hlen. lia. }
  assert ((length ext * bpc (fsi s)) mod 32 = 0)%nat as Hm.
  { apply Nat2Z.inj. rewrite Nat2Z.inj_mod, Nat2Z.inj_mul, Hb. change (Z.of_nat 32) with 32. pose proof (bpc_aligned _ Hwf) as Ha.
    by rewrite Z.mul_mod, Ha, Z.mul_0_r by lia. }
  rewrite length_app in Hw. assert (Z.of_nat (length bs) < 2 ^ 32) by nia.
  split; [by rewrite Hl|]. rewrite <- (slot_place_zeros bs (length ext * bpc (fsi s)) n) by done. split; [done|].
  apply slot_place_free; [|rewrite Hl, length_app; lia|done]. rewrite Hl, Nat2Z.inj_mul, Hb. by rewrite Z.mul_mod, (bpc_aligned _ Hwf), Z.mul_0_r by lia.
Qed.

(** C23: [fat32_alloc_fdentry] finds [num_entries] adjacent slots that hold no
    entry, each deleted or behind the end marker and with no end marker before
    the first, so that every scan will reach them.  If they lie inside the
    directory nothing changes.  Else the chain is extended by enough clusters,
    whose blocks are cleared: the directory has its old bytes and zeros behind
    them, in which the slots hold no entry either, whatever the clusters held
    before (in a kernel where clearing the blocks of a cluster clears its chunk,
    as for clusters of one block).  If there is no space the error is ENOSPC.  The
    entries of the directory and all other files stay as they are.  It returns
    for every directory. *)
Theorem alloc_fdentry_correct s p v l bs n :
  ready s -> fvs s !! p = Some v -> dir_at s (fv_cluster v) l bs -> 1 <= n ->
  Z.of_nat (length bs) + 32 * n + fsi_bytes_per_cluster (fsi s) < 2 ^ 32 ->
  let off := slot_place bs n in
  free_place bs off n /\
  wp (fat32_alloc_fdentry p n) s (fun r s' =>
    if decide (off + 32 * n <= Z.of_nat (length bs)) then r = Ok off /\ s ≡ s'
    else exists ext, grown s (fv_cluster v) l bs ext s' /\
      match r with
      | Ok off' => off' = off /\ off + 32 * n <= Z.of_nat (length (l ++ ext) * bpc (fsi s)) /\
          let bs' := bs ++ zeros (length ext * bpc (fsi s)) in
          free_place bs' off n /\ (clearable s -> dir_at s' (fv_cluster v) (l ++ ext) bs')
      | Err e => e = ENOSPC
      | _ => False
      end).
Proof.
  intros Hr Hp Hat Hn Hw. cbn zeta. pose proof (bpc_eq _ (ready_wf _ Hr)) as [_ ?]. split.
  { apply slot_place_free; [by eapply dir_length_aligned|lia|lia]. }
  eapply wp_mono; [by apply (wp_alloc_fdentry s p v l bs n)|]. intros r s'. cbn beta. case_decide; [done|].
  intros (ext & Hg & Hl & Hoff). exists ext. split; [done|]. destruct r as [off| | | |]; try done. destruct Hoff as [-> Hoff].
  split; [done|]. split; [done|]. destruct (grown_place s (fv_cluster v) l bs ext s' n) as (_ & _ & Hf); try done; [lia|].
  split; [done|]. intros Hcl. destruct Hg as (_ & _ & _ & _ & Hch & _ & _ & _ & _ & Hz). split; [done|by apply Hz].
Qed.

End alloc.

(** In the directory of the demonstration volume three slots fit behind the
    end marker; a hundred do not, so that the directory has to grow. *)
Lemma alloc_fdentry_correct_witness :
  let off := slot_place demo_slots 100 in
  free_place demo_slots off 100 /\
  wp (fat32_alloc_fdentry 2 100) demo_vol (fun r s' =>
    if decide (off + 32 * 100 <= Z.of_nat (length demo_slots)) then r = Ok off /\ demo_vol ≡ s'
    else exists ext, grown demo_vol (fv_cluster demo_root_fv) [2] demo_slots ext s' /\
      match r with
      | Ok off' => off' = off /\ off + 32 * 100 <= Z.of_nat (length ([2] ++ ext) * bpc (fsi demo_vol)) /\
          let bs' := demo_slots ++ zeros (length ext * bpc (fsi demo_vol)) in
          free_place bs' off 100 /\ (clearable demo_vol -> dir_at s' (fv_cluster demo_root_fv) ([2] ++ ext) bs')
      | Err e => e = ENOSPC
      | _ => False
      end).
Proof.
  apply (alloc_fdentry_correct demo_vol 2 demo_root_fv [2] demo_slots 100);
    [apply demo_vol_ready|reflexivity|split; [apply demo_vol_chain|apply demo_vol_contents]|lia|reflexivity].
Defined.

Example demo_slot_places : (slot_place demo_slots 3, slot_place demo_slots 100) = (160, 160).
Proof. vm_compute. reflexivity. Qed.
