(* ===== verification/Insert.v ===== *)
(** * A new entry in a directory

    The slots that are written for a name, as a function of the name and the 8.3
    entry, and the search in a directory that holds them: wherever the slots lie,
    also across clusters, [fat32_find_dirent] finds the new entry under its name. *)
From S2P Require Import Prelude Layout Time Names Kernel Device Cls Fat Demo Alloc Chain Free Cache File Truncate Access Io IoSpec WriteSpec Dir DirSpec LfnSpec Vnode Nameops Vnops Listing Remove VnodeSpec VnopsSpec DirDemo Slots.

(** ** Short names *)

Lemma until_blank_app cs rest : 32 ∉ cs -> until_blank (cs ++ rest) = cs ++ until_blank rest.
Proof.
  induction cs as [|c cs IH]; intros Hn; [done|]. apply not_elem_of_cons in Hn as [Hc Hn]. cbn.
  rewrite (proj2 (Z.eqb_neq c 32)) by done. by rewrite IH.
Qed.

Lemma until_blank_blanks n : until_blank (replicate n 32) = [].
Proof. by destruct n. Qed.

Lemma before_dot_app cs rest : 46 ∉ cs -> before_dot (cs ++ rest) = cs ++ before_dot rest.
Proof.
  induction cs as [|c cs IH]; intros Hn; [done|]. apply not_elem_of_cons in Hn as [Hc Hn]. cbn.
  rewrite (proj2 (Z.eqb_neq c 46)) by done. by rewrite IH.
Qed.

(** The characters of a short name are neither dots nor blanks. *)
Lemma short_ok_chars cs : Forall short_ok cs -> 46 ∉ cs /\ 32 ∉ cs.
Proof. intros H. rewrite Forall_forall in H. split; intros Hin; by destruct (H _ Hin). Qed.

(** A base and an extension, padded with blanks. *)
Definition padded (base ext : list Z) : list Z :=
  base ++ replicate (8 - length base) 32 ++ ext ++ replicate (3 - length ext) 32.

Lemma padded_length base ext : (length base <= 8)%nat -> (length ext <= 3)%nat -> length (padded base ext) = 11%nat.
Proof. intros. unfold padded. rewrite !length_app, !length_replicate. lia. Qed.

Lemma splice_padded base ext :
  (length base <= 8)%nat -> (length ext <= 3)%nat ->
  splice (splice (replicate 11 32) 0 base) 8 ext = padded base ext.
Proof.
  intros Hb He. apply list_eq. intros i.
  assert (length (splice (replicate 11 32) 0 base) = 11%nat) as Hl by (rewrite length_splice; rewrite ?length_replicate; lia).
  rewrite lookup_splice by lia. rewrite lookup_splice by (rewrite length_replicate; lia). unfold padded.
  destruct (decide (i < length base)%nat).
  { rewrite decide_False, decide_True, lookup_app_l by lia. f_equal. lia. }
  rewrite (lookup_app_r base) by lia. destruct (decide (i < 8)%nat).
  { rewrite decide_False, decide_False, lookup_app_l by (rewrite ?length_replicate; lia). rewrite !lookup_replicate_2; [done|lia..]. }
  rewrite (lookup_app_r (replicate _ _)) by (rewrite length_replicate; lia). rewrite length_replicate.
  destruct (decide (i < 8 + length ext)%nat).
  { rewrite decide_True, lookup_app_l by lia. f_equal. lia. }
  rewrite decide_False, decide_False, lookup_app_r by lia. destruct (decide (i < 11)%nat).
  - rewrite !lookup_replicate_2; [done|lia..].
  - rewrite !lookup_ge_None_2; [done|rewrite length_replicate; lia..].
Qed.

Lemma splice_padded_base base :
  (length base <= 8)%nat -> splice (replicate 11 32) 0 base = padded base [].
Proof. intros Hb. rewrite <- splice_padded by (cbn; lia). by rewrite splice_nil. Qed.

(** Reading a padded name back. *)
Lemma short_to_name_padded base ext :
  Forall short_ok base -> Forall short_ok ext -> (length base <= 8)%nat -> (length ext <= 3)%nat ->
  short_to_name (padded base ext) 256 = base ++ match ext with [] => [] | _ => 46 :: ext end.
Proof.
  intros [_ Hb]%short_ok_chars He Hbl Hel. pose proof (short_ok_chars _ He) as [_ Heb]. unfold short_to_name.
  assert (take 8 (padded base ext) = base ++ replicate (8 - length base) 32) as ->.
  { unfold padded. rewrite app_assoc, take_app_length'; [done|rewrite length_app, length_replicate; lia]. }
  assert (drop 8 (padded base ext) = ext ++ replicate (3 - length ext) 32) as Hd.
  { unfold padded. rewrite app_assoc, drop_app_length'; [done|rewrite length_app, length_replicate; lia]. }
  rewrite Hd, (take_ge (ext ++ _)) by (rewrite length_app, length_replicate; lia).
  rewrite !until_blank_app, !until_blank_blanks, !app_nil_r by done.
  replace (nth 8 (padded base ext) 0) with (nth 0 (drop 8 (padded base ext)) 0).
  2:{ rewrite !nth_lookup, lookup_drop. done. }
  rewrite Hd. change (u32 (256 - 1)) with 255. destruct ext as [|c ext]; cbn [app nth replicate length Nat.sub].
  - rewrite Z.eqb_refl, take_ge by (rewrite app_nil_r; lia). done.
  - apply not_elem_of_cons in Heb as [Hc _]. rewrite (proj2 (Z.eqb_neq c 32)) by done.
    rewrite take_ge; [done|]. rewrite length_app. cbn [length] in *. lia.
Qed.

(** A name the driver can store and find again. *)
Record storable (name : list Z) : Prop := {
  st_chars : Forall name_char name;
  st_length : (1 <= length name <= 255)%nat;
  st_dots : name <> dot /\ name <> dotdot
}.

(** The 8.3 form of a short name is read back as the name. *)
Lemma format_short_roundtrip name :
  storable name -> fat32_name_is_short name = true ->
  exists n83, format_short name = Some n83 /\ length n83 = 11%nat /\ Forall is_byte n83 /\
    nth 0 n83 0 = nth 0 name 0 /\ short_to_name n83 256 = name.
Proof.
  intros [Hc Hl [Hd1 Hd2]] [->|[->|[[Hf Hn]|(base & ext & -> & Hb & He & Hbl & Hel)]]]%name_is_short_spec; [done..| |].
  - exists (padded name []). unfold format_short. pose proof (short_ok_chars _ Hf) as [Hdot _].
    assert (before_dot name = name) as -> by (rewrite <- (app_nil_r name) at 1; rewrite before_dot_app by done; by rewrite app_nil_r).
    rewrite splice_bput, drop_all by (rewrite ?length_replicate; lia). rewrite splice_padded_base by done.
    split_and!; try done.
    + apply padded_length; cbn; lia.
    + unfold padded. rewrite !Forall_app. split_and!; try apply Forall_replicate; try (split; lia); try constructor.
      apply (Forall_impl _ _ _ Hc). unfold name_char, is_byte. lia.
    + destruct name; [cbn in Hl; lia|done].
    + rewrite short_to_name_padded by (done || cbn; lia). apply app_nil_r.
  - exists (padded base ext). unfold format_short. pose proof (short_ok_chars _ Hb) as [Hdot _].
    rewrite before_dot_app by done. cbn [before_dot Z.eqb Pos.eqb]. rewrite app_nil_r.
    rewrite splice_bput, drop_app_length by (rewrite ?length_replicate; lia).
    rewrite splice_bput by (rewrite ?length_splice by (rewrite length_replicate; lia); rewrite ?length_replicate; lia).
    rewrite Z2Nat.inj_0. rewrite splice_padded by lia. apply Forall_app in Hc as [Hc1 Hc2]. apply Forall_cons_1 in Hc2 as [_ Hc2].
    assert (forall cs, Forall name_char cs -> Forall is_byte cs) as Hbyte.
    { intros cs H. apply (Forall_impl _ _ _ H). unfold name_char, is_byte. lia. }
    split_and!; try done.
    + apply padded_length; lia.
    + unfold padded. rewrite !Forall_app. split_and!; try apply Forall_replicate; try (split; lia); by apply Hbyte.
    + destruct base; [cbn in Hbl; lia|done].
    + rewrite short_to_name_padded by (done || lia). destruct ext; [cbn in Hel; lia|done].
Qed.

(** ** The slots of a name *)

Definition entry_slots (name d83 : list Z) : list (list Z) :=
  if fat32_name_is_short name then [d83] else all_slots name d83.

Lemma dirsz_bounds name : storable name -> 1 <= dirsz_of name <= 21.
Proof.
  intros Hs. unfold dirsz_of. destruct (fat32_name_is_short name); [lia|].
  destruct (num_lfn_bounds name (st_length _ Hs)) as [Hn _]. lia.
Qed.

Lemma entry_slots_length name d83 : length d83 = 32%nat ->
  Forall (fun e => length e = 32%nat) (entry_slots name d83) /\ Z.of_nat (length (entry_slots name d83)) = dirsz_of name.
Proof.
  intros Hl. unfold entry_slots, dirsz_of. destruct (fat32_name_is_short name).
  - split; [by repeat constructor|done].
  - destruct (all_slots_length name d83 Hl) as [H1 H2]. split; [done|]. rewrite H2. lia.
Qed.

(** An 8.3 entry in use that holds the name as far as it is a short one. *)
Record entry_named (name d83 : list Z) : Prop := {
  en_length : length d83 = 32%nat;
  en_bytes : Forall is_byte d83;
  en_use : in_use d83;
  en_short : fat32_name_is_short name = true -> format_short name = Some (get83 d83 D83.name)
}.

Lemma concat_length_32 (ss : list (list Z)) :
  Forall (fun e => length e = 32%nat) ss -> length (concat ss) = (32 * length ss)%nat.
Proof. induction 1 as [|e ss He _ IH]; [done|]. cbn [concat length]. rewrite length_app, He, IH. lia. Qed.

Lemma concat_slot (ss : list (list Z)) k e :
  Forall (fun e => length e = 32%nat) ss -> ss !! k = Some e -> slice (concat ss) (32 * k) 32 = e.
Proof.
  intros Hss Hk. replace (32 * k)%nat with (k * 32 + 0)%nat by lia. rewrite (slice_concat 32 ss k e 0 32) by (done || lia).
  unfold slice. rewrite drop_0. apply take_ge. rewrite Forall_forall in Hss. by rewrite (Hss e) by by eapply list_elem_of_lookup_2.
Qed.

(** The bytes [bs] hold the slots [ss] at [off]. *)
Definition slots_here (bs : list Z) (off : Z) (ss : list (list Z)) : Prop :=
  forall k e, ss !! k = Some e -> bsub bs (off + 32 * Z.of_nat k) 32 = Some e.

Lemma bsub_slice l i n : 0 <= i -> 0 <= n -> i + n <= Z.of_nat (length l) -> bsub l i n = Some (slice l (Z.to_nat i) (Z.to_nat n)).
Proof. intros. unfold bsub. by rewrite decide_True by lia. Qed.

Lemma slots_spliced bs off ss :
  Forall (fun e => length e = 32%nat) ss -> 0 <= off -> off + 32 * Z.of_nat (length ss) <= Z.of_nat (length bs) ->
  slots_here (splice bs (Z.to_nat off) (concat ss)) off ss.
Proof.
  intros Hss Hoff Hle k e Hk. pose proof (concat_length_32 _ Hss) as Hcl. apply lookup_lt_Some in Hk as Hlt.
  rewrite bsub_slice by (rewrite ?length_splice by lia; lia). f_equal.
  replace (Z.to_nat (off + 32 * Z.of_nat k)) with (Z.to_nat off + 32 * k)%nat by lia.
  rewrite slice_splice_in by lia. by apply concat_slot.
Qed.

(** ** The scan of the new slots *)

(** The scan is at [off] and has collected nothing. *)
Definition clean (off : Z) (x : scan) : Prop :=
  exists buf, length buf = 255%nat /\ x = mkScan off (0 :: buf) 256 false 0.

(** It has found the name in the slots from [off]. *)
Record stored (name : list Z) (off : Z) (y : scan) : Prop := {
  so_name : agrees name (d_name y) 0;
  so_size : name_size y = Z.of_nat (length name);
  so_start : entry_start_offset y = off;
  so_offset : current_offset y = off + 32 * (dirsz_of name - 1)
}.

Lemma scan_new_long name d83 bs off x fuel :
  storable name -> fat32_name_is_short name = false -> entry_named name d83 -> clean off x -> 0 <= off ->
  slots_here bs off (entry_slots name d83) -> off + 32 * dirsz_of name <= Z.of_nat (length bs) ->
  Z.of_nat (length bs) < 2 ^ 32 -> dirsz_of name <= Z.of_nat fuel ->
  exists y, scan_cluster fuel (Z.of_nat (length bs)) 256 bs off x = Some (ScanFound y d83) /\ stored name off y.
Proof.
  intros [Hc Hl _] Hsh [E1 E2 E3 _] (buf & Hb & ->) Hoff Hat Hle Hw Hfuel. unfold dirsz_of, entry_slots in *. rewrite Hsh in *.
  destruct (num_lfn_bounds name Hl) as [Hn _]. set (ck := fat32_checksum (get83 d83 D83.name)).
  assert (slots_at name ck d83 bs (Z.of_nat (length bs)) off) as Hs.
  { constructor; [|..|lia].
    - intros i Hi. apply Hat. unfold all_slots, lfn_slots. rewrite lookup_app_l by (rewrite length_map, length_rev, length_seq; lia).
      rewrite list_lookup_fmap, rev_seq_lookup by done. done.
    - apply Hat. unfold all_slots, lfn_slots. rewrite lookup_app_r; rewrite length_map, length_rev, length_seq; [|lia].
      by rewrite Nat.sub_diag. }
  destruct (scan_name name Hc Hl ck fuel d83 bs (Z.of_nat (length bs)) off off (0 :: buf)) as (y & Hy & H1 & H2 & H3 & H4);
    try done; try lia; [by cbn; rewrite Hb|].
  exists y. split; [done|]. constructor; try done. rewrite H4. unfold dirsz_of. rewrite Hsh. lia.
Qed.

Lemma agrees_splice name b : length b = 256%nat -> (length name <= 255)%nat -> agrees name (splice b 0 (name ++ [0])) 0.
Proof.
  intros Hb Hl. assert (length (name ++ [0]) = S (length name)) as Hn by (rewrite length_app; cbn; lia).
  split; [rewrite length_splice by lia; done|]. intros j Hj. rewrite lookup_splice, decide_True by lia. f_equal. lia.
Qed.

Lemma scan_new_short name d83 bs off x fuel :
  storable name -> fat32_name_is_short name = true -> entry_named name d83 -> clean off x -> 0 <= off ->
  slots_here bs off (entry_slots name d83) -> off + 32 * dirsz_of name <= Z.of_nat (length bs) -> dirsz_of name <= Z.of_nat fuel ->
  exists y, scan_cluster fuel (Z.of_nat (length bs)) 256 bs off x = Some (ScanFound y d83) /\ stored name off y.
Proof.
  intros Hst Hsh [E1 E2 [[U1 U2] U3 U4] E4] (buf & Hb & ->) Hoff Hat Hle Hfuel. unfold dirsz_of, entry_slots in *. rewrite Hsh in *.
  destruct (format_short_roundtrip name Hst Hsh) as (n83 & Hf & _ & _ & _ & Hn). rewrite (E4 eq_refl) in Hf. injection Hf as <-.
  specialize (Hat 0%nat d83 eq_refl). rewrite Z.add_0_r in Hat. destruct fuel as [|fuel]; [lia|].
  rewrite scan_cluster_unfold, (proj2 (Z.ltb_lt _ _)), Hat by lia. cbn [negb]. unfold scan_entry.
  rewrite (proj2 (Z.eqb_neq _ _) U1), (proj2 (Z.eqb_neq _ _) U2), (proj2 (Z.eqb_neq _ _) U3), U4.
  unfold found_entry. cbn [d_name has_lfn current_offset]. rewrite Z.eqb_refl, Hn. pose proof (st_length _ Hst).
  assert (length (name ++ [0]) = S (length name)) as Hnl by (rewrite length_app; cbn; lia).
  rewrite splice_bput by (cbn [length]; lia). cbn [fmap option_fmap option_map].
  eexists. split; [done|]. constructor; cbn [d_name name_size entry_start_offset current_offset]; try done.
  - apply agrees_splice; [cbn; by rewrite Hb|lia].
  - unfold dirsz_of. rewrite Hsh. lia.
Qed.

Lemma scan_new name d83 bs off x fuel :
  storable name -> entry_named name d83 -> clean off x -> 0 <= off ->
  slots_here bs off (entry_slots name d83) -> off + 32 * dirsz_of name <= Z.of_nat (length bs) ->
  Z.of_nat (length bs) < 2 ^ 32 -> dirsz_of name <= Z.of_nat fuel ->
  exists y, scan_cluster fuel (Z.of_nat (length bs)) 256 bs off x = Some (ScanFound y d83) /\ stored name off y.
Proof.
  intros. destruct (fat32_name_is_short name) eqn:E; [by apply scan_new_short|by apply scan_new_long].
Qed.

(** The search accepts it, and knows its slots. *)
Lemma stored_has_name name off y d83 :
  storable name -> stored name off y -> 0 <= off -> off + 32 * dirsz_of name < 2 ^ 32 ->
  has_name name (y, d83) = true /\ num_slots y = dirsz_of name.
Proof.
  intros Hst [[Hl Hag] Hs Ho Hc] Hoff Hw. pose proof (dirsz_bounds _ Hst). split.
  - unfold has_name. cbn [fst]. rewrite Hs, Z.eqb_refl. cbn [andb]. unfold names_match. apply forallb_forall.
    intros j Hj%in_seq. unfold fat32_chrcmp. cbn [snd fst] in *. specialize (Hag j ltac:(lia)). rewrite lookup_app_l in Hag by lia.
    rewrite !nth_lookup, Hag. by rewrite Z.eqb_refl.
  - unfold num_slots, FAT32_DENTRY_SIZE. rewrite Hc, Ho, (u32_small (_ - _)) by lia.
    replace (off + 32 * (dirsz_of name - 1) - off) with ((dirsz_of name - 1) * 32) by lia. rewrite Z.div_mul by lia.
    rewrite u32_small; lia.
Qed.

(** ** Long-name slots without an entry *)

(** The slots of a directory, and whether the last ones that are not deleted
    are long-name slots: a scan that goes on behind them takes their characters
    for the name of the next entry. *)
Definition slot_list (bs : list Z) : list (list Z) := map (fun j => slice bs (32 * j) 32) (seq 0 (length bs / 32)).
Definition orphan_step (b : bool) (e : list Z) : bool :=
  if nth 0 (get83 e D83.name) 0 =? 0xE5 then b else nth 0 (get83 e D83.attr) 0 =? FAT32_ATTR_LONG_NAME.
Definition orphans (bs : list Z) : bool := foldl orphan_step false (slot_list bs).
Definition no_end (bs : list Z) : Prop := Forall (fun e => nth 0 (get83 e D83.name) 0 <> 0) (slot_list bs).

Lemma slot_list_lookup bs k : (32 * S k <= length bs)%nat -> slot_list bs !! k = Some (slice bs (32 * k) 32).
Proof.
  intros Hk. unfold slot_list. rewrite list_lookup_fmap, lookup_seq_lt; [done|].
  pose proof (Nat.div_mod (length bs) 32). pose proof (Nat.mod_upper_bound (length bs) 32). lia.
Qed.

Lemma slot_list_drop bs k :
  (32 * S k <= length bs)%nat -> drop k (slot_list bs) = slice bs (32 * k) 32 :: drop (S k) (slot_list bs).
Proof. intros Hk. apply drop_S. by apply slot_list_lookup. Qed.

Lemma slot_list_end bs k : Z.of_nat (length bs) = 32 * Z.of_nat k -> drop k (slot_list bs) = [].
Proof.
  intros Hk. apply drop_ge. unfold slot_list. rewrite length_map, length_seq.
  replace (length bs) with (k * 32)%nat by lia. by rewrite Nat.div_mul.
Qed.

(** A scan without a long-name slot behind it has collected nothing. *)
Definition tidy (x : scan) : Prop :=
  scan_ok x /\ (has_lfn x = false -> name_size x = 256 /\ entry_start_offset x = 0 /\ exists buf, d_name x = 0 :: buf).

Lemma tidy_clean x off : tidy x -> has_lfn x = false -> current_offset x = off -> clean off x.
Proof.
  intros [[Hl _] H] Hx Ho. destruct (H Hx) as (H1 & H2 & buf & H3). exists buf. rewrite H3 in Hl. cbn in Hl.
  split; [lia|]. destruct x. cbn in *. by subst.
Qed.

(** What an entry that does not end the scan does to that. *)
Lemma tidy_step e x x' :
  tidy x -> scan_entry 256 e x = Some (inl x') -> tidy x' /\ has_lfn x' = orphan_step (has_lfn x) e.
Proof.
  intros [Hx Ht] Hs. destruct (scan_entry_total e x Hx) as (r & Hr & Hok). rewrite Hs in Hr. injection Hr as <-.
  destruct Hok as [Hx' _]. unfold scan_entry in Hs. unfold orphan_step.
  destruct (_ =? 0x00); [done|]. destruct (_ =? 0xE5); [injection Hs as <-; by split|].
  destruct (_ =? FAT32_ATTR_LONG_NAME).
  { unfold lfn_scan in Hs. destruct (if _ && _ then _ else _) as [name|]; [|done].
    destruct (set_dnames _ _ _ _) as [[name' size']|]; [|done]. injection Hs as <-. split; [|done]. by split. }
  destruct (flag _ _).
  { unfold volume_scan in Hs. destruct Hx as [Hl _]. destruct (d_name x) as [|c buf] eqn:E; [done|].
    rewrite splice_bput in Hs by (cbn [length] in *; lia). injection Hs as <-. split; [|done]. split; [done|]. intros _.
    cbn. split_and!; [done..|by eexists]. }
  by destruct (found_entry 256 e x).
Qed.

(** The result of a scan from slot [k] of the bytes [pre]. *)
Definition tail_result (pre : list Z) (k : nat) (x : scan) (r : option scan_result) : Prop :=
  match r with
  | Some (ScanNext x') => tidy x' /\ has_lfn x' = foldl orphan_step (has_lfn x) (drop k (slot_list pre)) /\
      current_offset x' = Z.of_nat (length pre)
  | Some (ScanFound y e) => exists m, (k <= m)%nat /\ (32 * S m <= length pre)%nat /\ scan_ok y /\
      current_offset y = 32 * Z.of_nat m /\
      foldl orphan_step (has_lfn x) (drop k (slot_list pre)) = foldl orphan_step false (drop (S m) (slot_list pre))
  | _ => False
  end.

Lemma found_not_orphan e x y e' b :
  scan_entry 256 e x = Some (inr (ScanFound y e')) -> orphan_step b e = false.
Proof.
  unfold scan_entry, orphan_step. destruct (_ =? 0x00); [done|]. destruct (_ =? 0xE5); [done|].
  destruct (_ =? FAT32_ATTR_LONG_NAME); [|done]. by destruct (lfn_scan 256 e x).
Qed.

Lemma scan_tail pre : Z.of_nat (length pre) mod 32 = 0 -> Z.of_nat (length pre) < 2 ^ 32 -> no_end pre ->
  forall n k x, tidy x -> current_offset x = 32 * Z.of_nat k -> (32 * k <= length pre)%nat ->
    Z.of_nat (length pre) - 32 * Z.of_nat k <= 32 * Z.of_nat n ->
    tail_result pre k x (scan_cluster n (Z.of_nat (length pre)) 256 pre (32 * Z.of_nat k) x).
Proof.
  intros Hal Hw Hne n. induction n as [|n IH]; intros k x Hx Hc Hk Hn.
  all: destruct (decide (32 * k = length pre)%nat) as [Hend|Hend];
    [rewrite scan_cluster_end by lia; cbn [tail_result]; rewrite slot_list_end by lia; split; [done|split; [done|lia]]|].
  { lia. }
  assert (32 * S k <= length pre)%nat as HSk by (Z.div_mod_to_equations; lia).
  rewrite scan_cluster_unfold, (proj2 (Z.ltb_lt _ _)), bsub_slice by lia. cbn [negb].
  replace (Z.to_nat (32 * Z.of_nat k)) with (32 * k)%nat by lia. change (Z.to_nat 32) with 32%nat.
  pose proof (slot_list_drop pre k HSk) as Hdrop. pose proof (slot_list_lookup pre k HSk) as Hlk.
  set (e := slice pre (32 * k) 32) in *. pose proof (Forall_lookup_1 _ _ _ _ Hne Hlk) as He0. cbn beta in He0.
  destruct Hx as [Hok Ht]. destruct (scan_entry_total e x Hok) as (r & Hr & Hstep). rewrite Hr. destruct r as [x'|r].
  - destruct (tidy_step e x x' (conj Hok Ht) Hr) as [Hx' Hl']. destruct Hstep as [_ Hc'].
    unfold FAT32_DENTRY_SIZE in *. rewrite u32_small in Hc' by lia.
    replace (32 * Z.of_nat k + 32) with (32 * Z.of_nat (S k)) in * by lia.
    specialize (IH (S k) x' Hx' ltac:(lia) HSk ltac:(lia)). unfold tail_result in *.
    rewrite Hdrop. cbn [foldl]. rewrite <- Hl'.
    destruct (scan_cluster n _ 256 pre _ x') as [[|y|y e']|]; try done.
    destruct IH as (m & H1 & H2). exists m. split; [lia|done].
  - unfold scan_entry in Hr. rewrite (proj2 (Z.eqb_neq _ _) He0) in Hr.
    destruct r as [|y|y e']; cbn [entry_step_ok] in Hstep.
    + exfalso. destruct (_ =? 0xE5); [done|]. destruct (_ =? FAT32_ATTR_LONG_NAME); [by destruct (lfn_scan 256 e x)|].
      destruct (flag _ _); [by destruct (volume_scan 256 x)|by destruct (found_entry 256 e x)].
    + done.
    + destruct Hstep as (-> & Hy & Hcy). exists k. split_and!; try done; [lia|].
      rewrite Hdrop. cbn [foldl]. rewrite (found_not_orphan e x y e); [done|]. unfold scan_entry.
      by rewrite (proj2 (Z.eqb_neq _ _) He0).
Qed.

(** ** The search for the new entry *)

Lemma scan_dir_app pre rest off x :
  0 <= off <= Z.of_nat (length pre) -> (Z.of_nat (length pre) - off) mod 32 = 0 ->
  scan_dir (pre ++ rest) off x =
  match scan_dir pre off x with
  | Some (ScanNext x') => scan_cluster (length (pre ++ rest)) (Z.of_nat (length (pre ++ rest))) 256 (pre ++ rest)
                            (Z.of_nat (length pre)) x'
  | r => r
  end.
Proof.
  intros Hoff Hal. unfold scan_dir. assert (length (pre ++ rest) = (length pre + length rest)%nat) as Hl by apply length_app.
  pose proof (scan_cluster_embed (length (pre ++ rest)) (Z.of_nat (length pre)) (Z.of_nat (length (pre ++ rest))) 256 pre
    (pre ++ rest) 0 off x) as He. rewrite !Z.add_0_l in He. rewrite He; [|..|lia|lia]; [|intros o Ho1 Ho2|lia|done].
  - rewrite (scan_cluster_fuel _ (length pre)) by lia. done.
  - rewrite Z.add_0_l, !bsub_slice by lia. f_equal. unfold slice. rewrite drop_app_le by lia. apply take_app_le.
    rewrite length_drop. lia.
Qed.

(** The scan for one entry of a directory that begins with [pre]. *)
Lemma scan_dir_tail pre k buf :
  Z.of_nat (length pre) mod 32 = 0 -> Z.of_nat (length pre) < 2 ^ 32 -> no_end pre -> (32 * k <= length pre)%nat ->
  length buf = 256%nat ->
  exists buf', bput buf 0 [0] = Some buf' /\
    tail_result pre k (mkScan (32 * Z.of_nat k) buf' 256 false 0)
      (scan_dir pre (32 * Z.of_nat k) (mkScan (32 * Z.of_nat k) buf' 256 false 0)).
Proof.
  intros Hal Hw Hne Hk Hb. destruct buf as [|c buf]; [done|]. rewrite splice_bput by (cbn; lia). eexists. split; [done|].
  apply scan_tail; try done; try lia. split; [split; [by cbn in *|cbn; lia]|]. intros _. cbn. split_and!; [done..|by eexists].
Qed.

Lemma find_new pre rest name d83 n k buf :
  let bs := pre ++ rest in
  Z.of_nat (length pre) mod 32 = 0 -> Z.of_nat (length bs) < 2 ^ 32 -> no_end pre -> (32 * k <= length pre)%nat ->
  length buf = 256%nat -> Z.of_nat (length pre) - 32 * Z.of_nat k <= 32 * Z.of_nat n ->
  (forall x, clean (Z.of_nat (length pre)) x -> exists y,
     scan_cluster (length bs) (Z.of_nat (length bs)) 256 bs (Z.of_nat (length pre)) x = Some (ScanFound y d83) /\
     stored name (Z.of_nat (length pre)) y /\ has_name name (y, d83) = true) ->
  foldl orphan_step false (drop k (slot_list pre)) = false ->
  List.find (has_name name) (entries n pre (32 * Z.of_nat k) buf) = None ->
  exists y, List.find (has_name name) (entries (S n) bs (32 * Z.of_nat k) buf) = Some (y, d83) /\
    stored name (Z.of_nat (length pre)) y.
Proof.
  cbn zeta. intros Hal Hw Hne Hk Hb Hn Hnew. rewrite length_app in Hw. revert k buf Hk Hb Hn. induction n as [|n IH];
    intros k buf Hk Hb Hn Horph Hnone; destruct (scan_dir_tail pre k buf) as (buf' & Hput & Htail); (done || lia || idtac);
    cbn [entries] in *; rewrite Hput in *; rewrite scan_dir_app by (Z.div_mod_to_equations; lia);
    destruct (scan_dir pre _ _) as [[|x'|y e]|]; try done; cbn [tail_result has_lfn] in Htail.
  1,3: destruct Htail as (Hx' & Hl' & Hc'); rewrite Horph in Hl';
    destruct (Hnew x' (tidy_clean _ _ Hx' Hl' Hc')) as (y & -> & Hy & Hh); exists y; cbn [List.find]; rewrite Hh; by split.
  - destruct Htail as (m & H1 & H2 & _). lia.
  - destruct Htail as (m & H1 & H2 & Hy & Hcy & Ho). unfold FAT32_DENTRY_SIZE in *. rewrite u32_small in * by lia.
    replace (current_offset y + 32) with (32 * Z.of_nat (S m)) in * by lia. cbn [List.find] in Hnone |- *.
    destruct (has_name name (y, e)); [done|]. destruct Hy as [Hyl _].
    apply (IH (S m) (d_name y)); try done; try lia. by rewrite <- Ho.
Qed.

(** The entries of the first part of a directory are entries of it. *)
Lemma find_none_prefix pre rest name n m k buf :
  Z.of_nat (length pre) mod 32 = 0 -> Z.of_nat (length pre) < 2 ^ 32 -> no_end pre -> (32 * k <= length pre)%nat ->
  length buf = 256%nat -> (m <= n)%nat ->
  List.find (has_name name) (entries n (pre ++ rest) (32 * Z.of_nat k) buf) = None ->
  List.find (has_name name) (entries m pre (32 * Z.of_nat k) buf) = None.
Proof.
  intros Hal Hw Hne. revert n k buf. induction m as [|m IH]; intros n k buf Hk Hb Hmn Hnone; [done|].
  destruct n as [|n]; [lia|]. destruct (scan_dir_tail pre k buf) as (buf' & Hput & Htail); try done.
  cbn [entries] in *. rewrite Hput in *. rewrite scan_dir_app in Hnone by (Z.div_mod_to_equations; lia).
  destruct (scan_dir pre _ _) as [[|x'|y e]|]; try done. cbn [tail_result has_lfn] in Htail.
  destruct Htail as (i & H1 & H2 & [Hyl _] & Hcy & _). unfold FAT32_DENTRY_SIZE in *. rewrite u32_small in * by lia.
  replace (current_offset y + 32) with (32 * Z.of_nat (S i)) in * by lia. cbn [List.find] in *.
  destruct (has_name name (y, e)); [done|]. apply (IH n (S i)); try done; lia.
Qed.

Lemma slot_mark_slice bs j : (32 * S j <= length bs)%nat -> nth 0 (get83 (slice bs (32 * j) 32) D83.name) 0 = slot_mark bs j.
Proof.
  intros Hj. unfold slot_mark. change (get83 (slice bs (32 * j) 32) D83.name) with (take 11 (slice bs (32 * j) 32)).
  rewrite nth_0_take. unfold slice. rewrite nth_0_take. rewrite !nth_lookup, lookup_drop. by rewrite Nat.add_0_r.
Qed.

(** No end marker lies before a free place. *)
Lemma free_place_no_end bs off n : free_place bs off n -> no_end (take (Z.to_nat off) bs).
Proof.
  intros ([H1 H2] & H3 & _ & H5). apply Forall_lookup_2. intros j e Hj. pose proof Hj as Hlt.
  apply lookup_lt_Some in Hlt. unfold slot_list in Hlt. rewrite length_map, length_seq in Hlt.
  assert (length (take (Z.to_nat off) bs) = Z.to_nat off) as Hl by (rewrite length_take; lia). rewrite Hl in Hlt.
  pose proof (Nat.div_mod (Z.to_nat off) 32). pose proof (Nat.mod_upper_bound (Z.to_nat off) 32).
  assert (32 * S j <= Z.to_nat off)%nat as Hjo by lia. rewrite slot_list_lookup in Hj by (rewrite Hl; lia).
  apply (inj Some) in Hj. rewrite <- Hj, slot_mark_slice by (rewrite Hl; lia). specialize (H5 j ltac:(lia)).
  unfold slot_mark in *. rewrite nth_lookup, lookup_take_lt, <- nth_lookup by lia. done.
Qed.

Lemma new_entry_lookup bs off name d83 buf :
  Z.of_nat (length bs) mod 32 = 0 -> Z.of_nat (length bs) < 2 ^ 32 -> length buf = 256%nat ->
  storable name -> entry_named name d83 ->
  free_place bs off (dirsz_of name) -> off + 32 * dirsz_of name <= Z.of_nat (length bs) ->
  orphans (take (Z.to_nat off) bs) = false -> lookup_name bs buf name = None ->
  exists y, lookup_name (splice bs (Z.to_nat off) (concat (entry_slots name d83))) buf name = Some (y, d83) /\
    entry_start_offset y = off /\ num_slots y = dirsz_of name.
Proof.
  intros Hal Hw Hb Hst He Hfree Hle Horph Hnone. pose proof (dirsz_bounds _ Hst) as Hdz. pose proof Hfree as ([H1 H2] & H3 & _).
  destruct (entry_slots_length name d83 (en_length _ _ He)) as [Hss Hsl]. pose proof (concat_length_32 _ Hss) as Hcl.
  set (ss := entry_slots name d83) in *. set (pre := take (Z.to_nat off) bs).
  assert (length pre = Z.to_nat off) as Hpl by (unfold pre; rewrite length_take; lia).
  assert (length (splice bs (Z.to_nat off) (concat ss)) = length bs) as Hbl by (apply length_splice; lia).
  assert (Z.of_nat (length pre) = off) as Hpz by lia. pose proof (free_place_no_end _ _ _ Hfree) as Hne. fold pre in Hne.
  assert (exists rest, splice bs (Z.to_nat off) (concat ss) = pre ++ rest) as [rest Er] by (by eexists).
  assert (exists rest0, bs = pre ++ rest0) as [rest0 E0] by (exists (drop (Z.to_nat off) bs); symmetry; apply take_drop).
  assert (forall n, Z.of_nat (length (splice bs (Z.to_nat off) (concat ss))) - 0 <= 32 * Z.of_nat n ->
    forall b, length b = 256%nat -> entries n (splice bs (Z.to_nat off) (concat ss)) 0 b = entries (length bs) (splice bs (Z.to_nat off) (concat ss)) 0 b) as Hfuel.
  { intros n Hn b Hbb. apply entries_fuel; rewrite ?Hbl in *; (done || lia). }
  destruct (find_new pre rest name d83 (length bs) 0 buf) as (y & Hy & Hsy).
  - by rewrite Hpz.
  - rewrite <- Er, Hbl. done.
  - done.
  - lia.
  - done.
  - lia.
  - intros x Hx. rewrite <- Er. rewrite Hpz in *.
    destruct (scan_new name d83 (splice bs (Z.to_nat off) (concat ss)) off x (length (splice bs (Z.to_nat off) (concat ss))))
      as (y & Hy & Hsy); try done; rewrite ?Hbl; try lia; [by apply slots_spliced; [|lia|fold ss; lia]|].
    exists y. rewrite Hbl in Hy. split; [done|]. split; [done|]. eapply stored_has_name; (done || lia).
  - exact Horph.
  - apply (find_none_prefix pre rest0 name (length bs)); rewrite <- ?E0; try done; try lia; by rewrite ?Hpz.
  - rewrite <- Er in Hy. change (32 * Z.of_nat 0) with 0 in Hy. rewrite Hfuel in Hy by (done || lia).
    exists y. unfold lookup_name, listing. rewrite Hbl. split; [done|]. rewrite Hpz in Hsy.
    split; [by destruct Hsy|]. eapply (stored_has_name name off y d83); (done || lia).
Qed.

(** A name that begins with the character 0xE5 is accepted as a short name and
    stored as it is: its slot counts as deleted. *)
Example short_name_e5 :
  fat32_name_is_short [0xE5; 65] = true /\ option_map (fun n83 => nth 0 n83 0) (format_short [0xE5; 65]) = Some FAT32_LFN_DELETED.
Proof. by vm_compute. Qed.
