(* ===== verification/CreateSpec.v ===== *)
(** * Creating entries

    [fat32_create_fdentry] writes the slots of a name at a free place of the
    directory; [fat32_create] of a new name makes an empty file that a search
    finds. *)
From S2P Require Import Prelude Layout Time Names Kernel Device Cls Fat Demo Alloc Chain Free Cache File Truncate Access Io IoSpec WriteSpec Dir DirSpec LfnSpec Vnode Nameops Vnops Listing Remove VnodeSpec VnopsSpec DirDemo Slots Insert.

(** ** The 8.3 entry *)

(** The 11 characters of the name; [slot] is the place of the entry. *)
Definition name83_of (name : list Z) (cluster slot : Z) : list Z :=
  if fat32_name_is_short name then default [] (format_short name) else fat32_generate_short_name cluster slot.

(** The members of a new entry, the last one assigned first; all others are 0. *)
Definition new_members (cluster : Z) (v : fat32fs_vnode) (name : list Z) (flags start : Z) (now : timespec)
  : list (D83.field * list Z) :=
  let stamp sel := fat_stamp (if flag flags FAT32_CRE_RENAME then sel v else now) in
  [(D83.first_cluster_lo, WLE16 (Z.land start 0xFFFF)); (D83.first_cluster_hi, WLE16 (u16 (Z.shiftr start 16)));
   (D83.last_access_date, WLE16 (stamp fv_atime).1.1);
   (D83.write_time, WLE16 (stamp fv_mtime).1.2); (D83.write_date, WLE16 (stamp fv_mtime).1.1);
   (D83.create_time_tenth, [(stamp fv_ctime).2]);
   (D83.create_time, WLE16 (stamp fv_ctime).1.2); (D83.create_date, WLE16 (stamp fv_ctime).1.1);
   (D83.attr, [u8 (entry_attr flags v)]); (D83.name, name83_of name cluster (fv_diroff v))].

Definition new_d83 (cluster : Z) (v : fat32fs_vnode) (name : list Z) (flags start : Z) (now : timespec) : list Z :=
  assign D83.fat32_dirent83 (new_members cluster v name flags start now) (replicate 32 0).

Lemma name83_ok name cluster slot :
  storable name -> length (name83_of name cluster slot) = 11%nat /\ Forall is_byte (name83_of name cluster slot) /\
    nth 0 (name83_of name cluster slot) 0 <> 0 /\ nth 0 (name83_of name cluster slot) 0 <> 0xE5.
Proof.
  intros Hst. unfold name83_of. destruct (fat32_name_is_short name) eqn:Hsh.
  - destruct (format_short_roundtrip name Hst Hsh) as (n83 & -> & Hl & Hb & H0 & _). change (default [] (Some n83)) with n83. rewrite H0.
    destruct Hst as [Hc Hn _]. destruct name as [|c nm]; [cbn in Hn; lia|]. apply Forall_cons_1 in Hc as [Hc _].
    unfold name_char in Hc. cbn [nth]. split_and!; (done || lia).
  - assert (forall r, 0 <= r < 16 -> 48 <= hex_digit r < 71) as Hh.
    { intros r Hr. assert (Forall (fun r => 48 <= hex_digit r < 71) (map Z.of_nat (seq 0 16))) as H
        by (repeat constructor; vm_compute; congruence).
      rewrite Forall_forall in H. apply H, list_elem_of_fmap. exists (Z.to_nat r). split; [lia|]. apply elem_of_seq. lia. }
    pose proof (short_name_nibs_range cluster (slot / 32)) as Hnib. split; [done|].
    assert (Forall (fun c => 48 <= c < 71) (fat32_generate_short_name cluster slot)) as Hc.
    { unfold fat32_generate_short_name. rewrite Forall_map. apply (Forall_impl _ _ _ Hnib), Hh. }
    split; [apply (Forall_impl _ _ _ Hc); unfold is_byte; lia|].
    unfold fat32_generate_short_name, short_name_nibs in *. cbn [map] in Hc |- *. apply Forall_cons_1 in Hc as [Hc _].
    cbn [nth]. lia.
Qed.

Lemma new_members_ok cluster v name flags start now :
  storable name ->
  sized D83.fat32_dirent83 (new_members cluster v name flags start now) /\
  Forall (fun a => Forall is_byte a.2) (new_members cluster v name flags start now).
Proof.
  intros Hst. destruct (name83_ok name cluster (fv_diroff v) Hst) as (Hl & Hb & _).
  assert (forall ts, is_byte (fat_stamp ts).2) as Hc.
  { intros ts. unfold fat_stamp. destruct (unix_to_fat_some ts) as [[[d t] c] E]. rewrite E. by eapply unix_to_fat_tenths. }
  split; unfold sized, new_members; rewrite !Forall_cons; split_and!; try done; try apply WLE16_bytes.
  - by apply Forall_singleton.
  - apply Forall_singleton, u8_range.
Qed.

Lemma new_d83_get cluster v name flags start now fl :
  storable name ->
  get83 (new_d83 cluster v name flags start now) fl =
    default (get83 (replicate 32 0) fl) (assigned (new_members cluster v name flags start now) fl).
Proof. intros Hst. apply (assign_spec D83.fat32_dirent83); [done|by apply new_members_ok]. Qed.

(** The attributes of a renamed file are those of an entry. *)
Definition attr_ok (flags : Z) (v : fat32fs_vnode) : Prop :=
  flag flags FAT32_CRE_RENAME = true -> is_byte (fv_attr v) /\ flag (fv_attr v) FAT32_ATTR_VOLUME_ID = false.

Lemma entry_attr_ok flags v :
  attr_ok flags v -> u8 (entry_attr flags v) <> FAT32_ATTR_LONG_NAME /\
    flag (u8 (entry_attr flags v)) FAT32_ATTR_VOLUME_ID = false.
Proof.
  intros Hok. assert (flag (u8 (entry_attr flags v)) FAT32_ATTR_VOLUME_ID = false) as H.
  { unfold entry_attr. destruct (flag flags FAT32_CRE_RENAME) eqn:E.
    - destruct (Hok E) as [Hb Ha]. by rewrite u8_small.
    - by destruct (flag flags FAT32_CRE_DIR), (negb (flag (fv_mode v) S_IWUSR)). }
  split; [|done]. intros Ha. by rewrite Ha in H.
Qed.

Lemma new_d83_named cluster v name flags start now :
  storable name -> attr_ok flags v -> entry_named name (new_d83 cluster v name flags start now).
Proof.
  intros Hst Ha. destruct (name83_ok name cluster (fv_diroff v) Hst) as (Hl & Hb & H0 & HE5).
  destruct (new_members_ok cluster v name flags start now Hst) as [Hs Hby]. destruct (entry_attr_ok _ _ Ha) as [Ha1 Ha2].
  constructor.
  - by apply (assign_spec D83.fat32_dirent83 _ (replicate 32 0) D83.name eq_refl).
  - apply assign_bytes; [|done]. apply Forall_replicate. split; lia.
  - constructor; rewrite !new_d83_get by done; done.
  - intros Hsh. rewrite new_d83_get by done. cbn. unfold name83_of. rewrite Hsh.
    by destruct (format_short_roundtrip name Hst Hsh) as (n83 & -> & _).
Qed.

(** The cluster it points to, and its size, which is 0 also for a renamed file. *)
Lemma new_d83_cluster cluster v name flags start now :
  storable name -> 0 <= start < 2 ^ 32 ->
  first_cluster (new_d83 cluster v name flags start now) = start /\
  RLE32 (get83 (new_d83 cluster v name flags start now) D83.file_size) = 0.
Proof.
  intros Hst Hs. split.
  - unfold first_cluster. rewrite !new_d83_get by done. cbn [new_members assigned fst snd].
    rewrite (decide_True (P := D83.first_cluster_lo = _)), (decide_False (P := D83.first_cluster_hi = _)), (decide_True (P := D83.first_cluster_hi = _)) by done.
    cbn [default from_option id].
    rewrite !RLE16_WLE16. change 0xFFFF with (2 ^ 16 - 1). rewrite land_ones_mod, shiftr_div by lia. unfold u16.
    rewrite !Z.mod_mod by lia. rewrite lor_shiftl_add by (try apply Z.mod_pos_bound; lia).
    rewrite (Z.mod_small (start / 2 ^ 16)) by (split; [apply Z.div_pos|apply Z.div_lt_upper_bound]; lia).
    rewrite u32_small; Z.div_mod_to_equations; lia.
  - rewrite new_d83_get by done. reflexivity.
Qed.

(** ** Writing the slots *)

Section entry.
Context {K : Type} `{!Kernel K, !KernelLaws K}.
Implicit Types s : st K.

Lemma dir_change_from s1 s2 c l bs' s' : s1 ≡ s2 -> dir_change s2 c l bs' s' -> dir_change s1 c l bs' s'.
Proof.
  intros Hs (H1 & H2 & H3 & H4 & H5 & H6 & H7). pose proof Hs as (E1 & E2 & E3 & _).
  do 4 (split; [congruence || done|]). split; [done|]. split; [by eapply keeps_from_equiv|by eapply data_keeps_from_equiv].
Qed.

(** Vnodes do not matter to the volume. *)
Lemma dir_change_set_fvs s c l bs' m m' s' :
  dir_change (set_fvs m s) c l bs' s' -> dir_change (set_fvs m' s) c l bs' (set_fvs m' s').
Proof. intros (H1 & H2 & H3 & H4 & H5 & H6 & H7). split; [by apply ready_set_fvs|]. by split_and!. Qed.

Lemma wp_write_slots s c l bs off name d83 :
  ready s -> dir_at s c l bs -> 0 <= off -> off mod 32 = 0 -> off + 32 * dirsz_of name <= Z.of_nat (length bs) ->
  Z.of_nat (length bs) < 2 ^ 32 -> storable name -> entry_named name d83 ->
  wp (if fat32_name_is_short name then fat32_write_fdentry c off d83 else fat32_write_lfn_fdentry c off d83 name) s
    (okp (fun _ s' => dir_change s c l (splice bs (Z.to_nat off) (concat (entry_slots name d83))) s')).
Proof.
  intros Hr Hat Hoff Hal Hle Hw Hst [E1 E2 _ _]. unfold dirsz_of, entry_slots in *.
  destruct (fat32_name_is_short name).
  - eapply wp_mono; [by apply (wp_write_fdentry s c l bs)|]. intros r s'. cbn beta. rewrite decide_True by lia.
    intros [-> H]. cbn [okp concat]. rewrite app_nil_r. exact H.
  - apply wp_write_lfn; try done; try lia. apply (Forall_impl _ _ _ (st_chars _ Hst)). unfold name_char, is_byte. lia.
Qed.

Lemma wp_build_entry s p q d v name flags start :
  fvs s !! p = Some d -> fvs s !! q = Some v -> storable name ->
  wp (build_entry p q name flags start) s (okp (fun e s' =>
    exists now, e = new_d83 (fv_cluster d) v name flags start now /\ s ≡ s')).
Proof.
  intros Hp Hq Hst. unfold build_entry.
  eapply wp_call_ok; [by apply wp_get_fv|]. intros ? ? [-> ->].
  eapply wp_call_ok; [by apply wp_get_fv|]. intros ? ? [-> ->].
  eapply (wp_call_ok _ _ _ (fun n s' => n = name83_of name (fv_cluster d) (fv_diroff v) /\ s' = s)).
  { unfold name83_of. destruct (fat32_name_is_short name) eqn:Hsh; [|by apply wp_ret].
    destruct (format_short_roundtrip name Hst Hsh) as (n83 & -> & _). by eapply wp_of_opt. }
  intros ? ? [-> ->].
  eapply (wp_call_ok _ _ _ (fun _ s' => s ≡ s')).
  { destruct (flag flags FAT32_CRE_RENAME); [by apply wp_ret|].
    eapply wp_mono; [apply wp_do_nanotime|]. intros [now| | | |] s' H; try done. apply H. }
  intros now s1 Hs1. unfold entry_times.
  set (ts sel := if flag flags FAT32_CRE_RENAME then sel v else now).
  destruct (unix_to_fat_some (ts fv_ctime)) as [[[cd ct] cc] Ec]. destruct (unix_to_fat_some (ts fv_mtime)) as [[[md mt] mc] Em].
  destruct (unix_to_fat_some (ts fv_atime)) as [[[ad at_] ac] Ea]. unfold ts in *. rewrite Ec, Em, Ea.
  eapply wp_call_ok; [by eapply (wp_of_opt _ _ _ (okp (fun e' s' => e' = _ /\ s' = s1)))|]. intros ? ? [-> ->].
  apply wp_ret. exists now. split; [|done]. unfold new_d83, new_members, fat_stamp. by rewrite Ec, Em, Ea.
Qed.

End entry.

(** ** [fat32_create_fdentry] *)

Section create.
Context {K V : Type} `{!Kernel K, !KernelLaws K, !Vnodes V, !VnodesLaws V}.
Context (tb : Z).
Implicit Types (s : st K) (w : V).

(** Where the slots go. *)
Definition entry_place (bs : list Z) (v : fat32fs_vnode) (name : list Z) (flags : Z) : Z :=
  if flag flags FAT32_CRE_REUSE then fv_diroff v else slot_place bs (dirsz_of name).

(** The cluster the entry points to, when no directory is made. *)
Definition entry_start (v : fat32fs_vnode) (flags : Z) : Z :=
  if flag flags FAT32_CRE_RENAME then fv_cluster v else 0.

(** What [fat32_create_fdentry] is called with, for a new file or a rename, when
    the slots lie inside the directory. *)
Record creation s w (p : nat) (d : fat32fs_vnode) (dvp : nat) (l bs : list Z) (q : nat) (v : fat32fs_vnode)
    (name : list Z) (flags : Z) : Prop := {
  cn_ready : ready s;
  cn_dir : fvs s !! p = Some d;
  cn_at : dir_at s (fv_cluster d) l bs;
  cn_fv : fvs s !! q = Some v;
  cn_ne : q <> p;
  cn_lock : held s !! FvLock q = None;
  cn_linked : linked w p d dvp;
  cn_name : storable name;
  cn_attr : attr_ok flags v;
  cn_cluster : 0 <= entry_start v flags < 2 ^ 32;
  cn_place : 0 <= entry_place bs v name flags /\ entry_place bs v name flags mod 32 = 0;
  cn_room : entry_place bs v name flags + 32 * dirsz_of name <= Z.of_nat (length bs);
  cn_width : Z.of_nat (length bs) + 32 * dirsz_of name + fsi_bytes_per_cluster (fsi s) < 2 ^ 32
}.

(** What is known once the slots have a place. *)
Record placing s w (p : nat) (d : fat32fs_vnode) (dvp : nat) (l bs : list Z) (q : nat) (v : fat32fs_vnode)
    (name : list Z) (flags : Z) : Prop := {
  pl_ready : ready s;
  pl_dir : fvs s !! p = Some d;
  pl_at : dir_at s (fv_cluster d) l bs;
  pl_fv : fvs s !! q = Some v;
  pl_ne : q <> p;
  pl_lock : held s !! FvLock q = None;
  pl_linked : linked w p d dvp;
  pl_name : storable name;
  pl_attr : attr_ok flags v;
  pl_cluster : 0 <= entry_start v flags < 2 ^ 32;
  pl_place : 0 <= entry_place bs v name flags /\ entry_place bs v name flags mod 32 = 0;
  pl_room : entry_place bs v name flags + 32 * dirsz_of name <= Z.of_nat (length bs);
  pl_width : Z.of_nat (length bs) < 2 ^ 32
}.

Lemma creation_placing s w p d dvp l bs q v name flags :
  creation s w p d dvp l bs q v name flags -> placing s w p d dvp l bs q v name flags.
Proof.
  intros [Hr ? ? ? ? ? ? Hst ? ? ? ? Hw]. pose proof (dirsz_bounds _ Hst). pose proof (bpc_eq _ (ready_wf _ Hr)) as [_ ?].
  constructor; (done || lia).
Qed.

(** The structure with its place, and the bytes of the directory. *)
Definition placed (bs : list Z) (v : fat32fs_vnode) (name : list Z) (flags : Z) : fat32fs_vnode :=
  set_fv_diroff (entry_place bs v name flags) (set_fv_dirsz (dirsz_of name) v).
Definition with_entry (bs : list Z) (off : Z) (name e : list Z) : list Z :=
  splice bs (Z.to_nat off) (concat (entry_slots name e)).

Definition create_post s w (d : fat32fs_vnode) (dvp : nat) (l bs : list Z) (q : nat) (v : fat32fs_vnode)
    (name : list Z) (flags : Z) (r : res unit) (sw : st K * V) : Prop :=
  exists now, let v1 := placed bs v name flags in
    let e := new_d83 (fv_cluster d) v1 name flags (entry_start v flags) now in
    let written v' := dir_change (set_fvs (<[q := v']> (fvs s)) s) (fv_cluster d) l
                        (with_entry bs (fv_diroff v1) name e) (fst sw) in
    if flag flags FAT32_CRE_RENAME then r = Ok tt /\ written v1 /\ snd sw = w else
    match r with
    | Ok _ => exists vp, written (made_vnode (fsi s) 0 VREG vp (Some (dvp, fv_cluster d)) v1) /\
        vnode_linked w vp q (Some dvp) (snd sw)
    | Err err => err = ENOMEM /\ written v1 /\ layer_same w (snd sw)
    | _ => False
    end.

(** The place, in [fv_diroff] and [fv_dirsz]. *)
Lemma wp_place s w p d dvp l bs q v name flags {A} (k : M (st K * V) A) Q :
  creation s w p d dvp l bs q v name flags ->
  (forall s1, set_fvs (<[q := placed bs v name flags]> (fvs s)) s ≡ s1 -> wp k (s1, w) Q) ->
  wp (do* lift (upd_fv q (set_fv_dirsz (dirsz_of name))) in
      do* (if flag flags FAT32_CRE_REUSE then ret tt else
             lift (let* offset := fat32_alloc_fdentry p (dirsz_of name) in upd_fv q (set_fv_diroff offset))) in k) (s, w) Q.
Proof.
  intros [Hr Hp Hat Hq Hqp _ _ Hst _ _ _ Hroom Hw] Hk. pose proof (dirsz_bounds _ Hst) as Hdz.
  pose proof (bpc_eq _ (ready_wf _ Hr)) as [Hb Hb0].
  eapply wp_lift_call; [by apply (wp_upd_fv _ _ v)|]. intros [] ? ->. unfold placed, entry_place in *.
  destruct (flag flags FAT32_CRE_REUSE).
  - apply wp_bind, wp_ret. cbn [wpk]. apply Hk. by destruct v.
  - set (s1 := set_fvs _ s). apply wp_bind, wp_lift. apply wp_bind.
    eapply wp_mono; [apply (wp_alloc_fdentry s1 p d l bs (dirsz_of name)); try done; cbn; try lia|].
    + by apply ready_set_fvs.
    + by rewrite lookup_insert_ne.
    + intros r s2. cbn beta. rewrite decide_True by lia. intros [-> Hs2]. cbn [wpk]. pose proof Hs2 as (_ & Ev2 & _).
      assert (fvs s2 !! q = Some (set_fv_dirsz (dirsz_of name) v)) as Hq2 by (rewrite Ev2; cbn; by rewrite lookup_insert_eq).
      eapply wp_mono; [by apply (wp_upd_fv _ _ (set_fv_dirsz (dirsz_of name) v))|]. intros [[]| | | |] s3 H; try done.
      cbn [okp wpk] in *. subst s3. apply Hk. rewrite Ev2. cbn. rewrite insert_insert_eq.
      exact (set_fvs_equiv _ _ _ Hs2).
Qed.

Lemma wp_entry_cluster s p q v flags :
  fvs s !! q = Some v -> flag flags FAT32_CRE_RENAME = true \/ flag flags FAT32_CRE_DIR = false ->
  wp (entry_cluster p q flags) s (okp (fun c s' => c = entry_start v flags /\ s' = s)).
Proof.
  intros Hq Hfl. unfold entry_cluster, entry_start. destruct (flag flags FAT32_CRE_RENAME).
  - eapply wp_call_ok; [by apply wp_get_fv|]. intros ? ? [-> ->]. by apply wp_ret.
  - destruct Hfl as [?| ->]; [done|]. by apply wp_ret.
Qed.

(** The 8.3 entry is built and the slots are written. *)
Lemma wp_write_new s w p d q v l bs name flags start {A} (k : fat32fs_vnode -> M (st K * V) A) Q :
  ready s -> fvs s !! p = Some d -> fvs s !! q = Some v -> dir_at s (fv_cluster d) l bs -> storable name -> attr_ok flags v ->
  0 <= fv_diroff v -> fv_diroff v mod 32 = 0 -> fv_diroff v + 32 * dirsz_of name <= Z.of_nat (length bs) ->
  Z.of_nat (length bs) < 2 ^ 32 ->
  (forall s2 now, dir_change s (fv_cluster d) l
     (with_entry bs (fv_diroff v) name (new_d83 (fv_cluster d) v name flags start now)) s2 -> wp (k d) (s2, w) Q) ->
  wp (let* d83 := lift (build_entry p q name flags start) in
      let* d := lift (get_fv p) in
      let* v := lift (get_fv q) in
      do* lift (if fat32_name_is_short name
                then fat32_write_fdentry (fv_cluster d) (fv_diroff v) d83
                else fat32_write_lfn_fdentry (fv_cluster d) (fv_diroff v) d83 name) in k d) (s, w) Q.
Proof.
  intros Hr Hp Hq Hat Hst Hattr Hp0 Hpal Hroom Hw Hk.
  eapply wp_lift_call; [by apply (wp_build_entry s p q d v)|]. intros ? s2 (now & -> & Hs2). pose proof Hs2 as (_ & Ev2 & _).
  eapply wp_lift_call; [apply (wp_get_fv _ _ d); by rewrite Ev2|]. intros ? ? [-> ->].
  eapply wp_lift_call; [apply (wp_get_fv _ _ v); by rewrite Ev2|]. intros ? ? [-> ->].
  eapply wp_lift_call.
  { apply (wp_write_slots s2 (fv_cluster d) l bs (fv_diroff v) name); try done.
    - by rewrite <- Hs2.
    - split; rewrite <- Hs2; apply Hat.
    - apply new_d83_named; done. }
  intros [] s3 H3. apply (Hk s3 now). by eapply dir_change_from.
Qed.

(** The vnode of a new file. *)
Lemma wp_create_vnode s w p d dvp l bs q v name flags s1 s2 now :
  placing s w p d dvp l bs q v name flags -> flag flags FAT32_CRE_RENAME = true \/ flag flags FAT32_CRE_DIR = false ->
  let v1 := placed bs v name flags in
  let e := new_d83 (fv_cluster d) v1 name flags (entry_start v flags) now in
  set_fvs (<[q := v1]> (fvs s)) s ≡ s1 ->
  dir_change s1 (fv_cluster d) l (with_entry bs (fv_diroff v1) name e) s2 ->
  wp (if flag flags FAT32_CRE_RENAME then ret tt else
      do* fat32_make_vnode (entry_start v flags) (if flag flags FAT32_CRE_DIR then VDIR else VREG) q (fv_vnode d) in
      ret tt) (s2, w) (create_post s w d dvp l bs q v name flags).
Proof.
  cbn zeta. intros Hcn Hfl Hs1 H2. pose proof Hcn as [Hr Hp Hat Hq Hqp Hlk [L1 L2 L3] Hst _ _ _ _ _].
  set (v1 := placed bs v name flags) in *. apply (dir_change_from _ _ _ _ _ _ Hs1) in H2. unfold create_post, entry_start in *.
  destruct (flag flags FAT32_CRE_RENAME).
  { apply wp_ret. exists now. by split_and!. }
  destruct Hfl as [?| ->]; [done|]. rewrite L1. pose proof H2 as (_ & Ef2 & Ev2 & Eh2 & _). cbn in Ef2, Ev2, Eh2.
  eapply wp_call; [apply (wp_make_vnode s2 w 0 VREG q v1 (Some dvp) (Some (dvp, fv_cluster d)))|].
  - by rewrite Ev2, lookup_insert_eq.
  - by rewrite Eh2.
  - split; [done|]. exists p, d. by rewrite Ev2, lookup_insert_ne.
  - by intros ? [= <-].
  - intros [vp|err| | |] sw; try done; cbn [wpk].
    + intros [Es Hlinked]. apply wp_ret. exists now. exists vp. split; [|done]. rewrite Es, Ef2, Ev2, insert_insert_eq.
      by eapply dir_change_set_fvs.
    + intros (-> & Es & Hsame). exists now. by rewrite Es.
Qed.

(** [fat32_create_fdentry] after the place has been found. *)
Definition create_placed (p q : nat) (name : list Z) (flags : Z) : M (st K * V) unit :=
  let* start_cluster := lift (entry_cluster p q flags) in
  let* d83 := lift (build_entry p q name flags start_cluster) in
  let* d := lift (get_fv p) in
  let* v := lift (get_fv q) in
  do* lift (if fat32_name_is_short name
            then fat32_write_fdentry (fv_cluster d) (fv_diroff v) d83
            else fat32_write_lfn_fdentry (fv_cluster d) (fv_diroff v) d83 name) in
  if flag flags FAT32_CRE_RENAME then ret tt else
  do* fat32_make_vnode start_cluster (if flag flags FAT32_CRE_DIR then VDIR else VREG) q (fv_vnode d) in ret tt.

Lemma wp_create_placed s w p d dvp l bs q v name flags s1 :
  placing s w p d dvp l bs q v name flags -> flag flags FAT32_CRE_RENAME = true \/ flag flags FAT32_CRE_DIR = false ->
  set_fvs (<[q := placed bs v name flags]> (fvs s)) s ≡ s1 ->
  wp (create_placed p q name flags) (s1, w) (create_post s w d dvp l bs q v name flags).
Proof.
  intros Hcn Hfl Hs1. unfold create_placed.
  pose proof Hcn as [Hr Hp Hat Hq Hqp _ _ Hst Hattr _ [Hp0 Hpal] Hroom Hw]. set (v1 := placed bs v name flags) in *.
  pose proof Hs1 as (_ & Ev1 & _). cbn in Ev1.
  assert (fvs s1 !! q = Some v1) as Hq1 by (by rewrite Ev1, lookup_insert_eq).
  eapply wp_lift_call; [by apply (wp_entry_cluster _ _ _ v1)|]. intros ? ? [-> ->].
  change (entry_start v1 flags) with (entry_start v flags).
  apply (wp_write_new s1 w p d q v1 l bs); try done; try lia.
  - rewrite <- Hs1. by apply ready_set_fvs.
  - by rewrite Ev1, lookup_insert_ne.
  - split; rewrite <- Hs1; apply Hat.
  - intros s2 now H2. by eapply wp_create_vnode.
Qed.

Lemma wp_create_fdentry s w p d dvp l bs q v name flags :
  creation s w p d dvp l bs q v name flags -> flag flags FAT32_CRE_RENAME = true \/ flag flags FAT32_CRE_DIR = false ->
  wp (fat32_create_fdentry p q name flags) (s, w) (create_post s w d dvp l bs q v name flags).
Proof.
  intros Hcn Hfl. unfold fat32_create_fdentry. apply (wp_place s w p d dvp l bs q v name flags); [done|].
  intros s1 Hs1. apply (wp_create_placed s w p d dvp l bs q v name flags s1); [by apply creation_placing|done|done].
Qed.

(** C22: [fat32_create_fdentry] for a new file or a rename writes the slots of
    the name, long or short, at the place that [fat32_alloc_fdentry] finds or
    that the vnode has already, across clusters; the 8.3 entry has the members
    [new_members] says, all others 0.  No other byte of the directory, no chain
    and no other file changes.  For a new file the structure becomes an empty
    regular file with a vnode that holds the directory; without a free vnode the
    error is ENOMEM and the entry stays in the directory. *)
Theorem create_fdentry_correct s w p d dvp l bs q v name flags :
  creation s w p d dvp l bs q v name flags -> flag flags FAT32_CRE_RENAME = true \/ flag flags FAT32_CRE_DIR = false ->
  wp (fat32_create_fdentry p q name flags) (s, w) (create_post s w d dvp l bs q v name flags).
Proof. apply wp_create_fdentry. Qed.

(** ** [fat32_create] of a new name *)

(** The times of a new file. *)
Definition touched (now : timespec) (v : fat32fs_vnode) : fat32fs_vnode :=
  or_flags (Z.lor FV_ATIME_DIRTY (Z.lor FV_MTIME_DIRTY FV_MODIFIED))
    (set_fv_atime now (set_fv_mtime now (set_fv_ctime now v))).

Lemma wp_touch_new s p v :
  fvs s !! p = Some v ->
  wp (fat32_touch p 0) s (okp (fun _ s' => exists now, set_fvs (<[p := touched now v]> (fvs s)) s ≡ s')).
Proof.
  intros Hv. eapply wp_mono; [by apply wp_touch|]. intros [[]| | | |] s' H; try done. cbn [okp] in *.
  by exists (snd (nanotime (kst s))).
Qed.

(** A change of a directory, seen from a state with other locks and vnodes. *)
Lemma dir_change_rebase s h m s1 c l bs' s' h' m' :
  set_held h (set_fvs m s) ≡ s1 -> dir_change s1 c l bs' s' -> h' !! FsiLock = None ->
  dir_change (set_held h' (set_fvs m' s)) c l bs' (set_held h' (set_fvs m' s')).
Proof.
  intros Hs (H1 & H2 & _ & _ & H5 & H6 & H7) Hh. pose proof Hs as (E1 & _). cbn in E1.
  split; [apply ready_set_held, Hh; by apply ready_set_fvs|]. split; [by cbn; rewrite H2|]. do 2 (split; [done|]).
  split; [exact H5|]. split.
  - exact (keeps_from_equiv _ _ _ _ _ Hs H6).
  - exact (data_keeps_from_equiv _ _ _ _ Hs H7).
Qed.

(** What [fat32_create] is called with: a name that is not there, the right to
    write, and room for its slots in the directory. *)
Record new_file s w (p : nat) (d : fat32fs_vnode) (dvp : nat) (l bs : list Z) (name stack : list Z) (cr : cred) : Prop := {
  nw_ready : ready s;
  nw_dir : directory s p d l bs;
  nw_lock : held s !! FvLock p = None;
  nw_live : locks_live s;
  nw_linked : linked w p d dvp;
  nw_stack : length stack = 256%nat;
  nw_name : storable name;
  nw_access : fat32_faccess (fsi s) d (Z.lor VWRITE VEXEC) cr = 0;
  nw_absent : lookup_name bs stack name = None;
  nw_room : slot_place bs (dirsz_of name) + 32 * dirsz_of name <= Z.of_nat (length bs);
  nw_width : Z.of_nat (length bs) + 32 * dirsz_of name + fsi_bytes_per_cluster (fsi s) < 2 ^ 32
}.

(** The structure of the new file before it has a vnode. *)
Definition new_fv s (d : fat32fs_vnode) (bs name : list Z) (mode : Z) : fat32fs_vnode :=
  placed bs (set_fv_mode mode (found_fv tb s d None)) name 0.

(** The new entry is in the directory; the vnodes are [m]. *)
Definition entry_added s (d : fat32fs_vnode) (l bs name : list Z) (mode : Z) (e : list Z) (m : gmap nat fat32fs_vnode)
    s' : Prop :=
  (exists now, e = new_d83 (fv_cluster d) (new_fv s d bs name mode) name 0 0 now) /\
  dir_change (set_fvs m s) (fv_cluster d) l (with_entry bs (slot_place bs (dirsz_of name)) name e) s'.

Definition created s w (p : nat) (d : fat32fs_vnode) (dvp : nat) (l bs name : list Z) (mode : Z)
    (r : res nat) (sw : st K * V) : Prop :=
  exists cache e, cache_ok l cache /\ length cache = 16%nat /\
    match r with
    | Ok vp => exists q now now', fvs s !! q = None /\ vnode_linked w vp q (Some dvp) (snd sw) /\
        entry_added s d l bs name mode e
          (<[p := modified now' (set_fv_cls_cache cache d)]>
            (<[q := touched now (made_vnode (fsi s) 0 VREG vp (Some (dvp, fv_cluster d)) (new_fv s d bs name mode))]> (fvs s)))
          (fst sw)
    | Err err => err = ENOMEM /\ layer_same w (snd sw) /\
        entry_added s d l bs name mode e (<[p := set_fv_cls_cache cache d]> (fvs s)) (fst sw)
    | _ => False
    end.

Lemma made_vnode_vnode f cluster type vp parent v : fv_vnode (made_vnode f cluster type vp parent v) = Some vp.
Proof. unfold made_vnode. destruct parent as [[? ?]|]; destruct (_ && _); cbn; try done; by destruct (_ =? 0). Qed.

(** The structure and the directory are touched, the directory is unlocked. *)
Lemma wp_touch_finish s2 w p q d v vp h :
  fvs s2 !! q = Some v -> fvs s2 !! p = Some d -> q <> p -> held s2 = <[FvLock p := MrUpdate]> h -> h !! FvLock p = None ->
  fv_vnode v = Some vp ->
  wp (do* (do* lift (fat32_touch q 0) in lift (fat32_touch p FV_MTIME_DIRTY)) in
      do* lift (mrunlock (FvLock p)) in
      let* v := lift (get_fv q) in of_opt (fv_vnode v)) (s2, w) (okp (fun r sw => r = vp /\ snd sw = w /\
    exists now now', set_held h (set_fvs (<[p := modified now' d]> (<[q := touched now v]> (fvs s2))) s2) ≡ fst sw)).
Proof.
  intros Hq Hp Hqp Hh Hl Hvp. apply wp_bind. eapply wp_lift_call; [by apply wp_touch_new|].
  intros [] s3 (now & Hs3). pose proof Hs3 as (Ef3 & Ev3 & Eh3 & _). cbn in Ef3, Ev3, Eh3.
  assert (fvs s3 !! p = Some d) as Hp3 by (by rewrite Ev3, lookup_insert_ne).
  apply wp_lift. eapply wp_mono; [by apply wp_touch_mtime|]. intros [[]| | | |] s4 Hs4; try done. cbn [okp wpk] in *.
  pose proof Hs4 as (Ef4 & Ev4 & Eh4 & _). cbn in Ef4, Ev4, Eh4.
  eapply wp_lift_call; [apply (wp_unlock _ _ MrUpdate h); [congruence|done]|]. intros [] ? ->.
  eapply wp_lift_call; [apply (wp_get_fv _ _ (touched now v)); cbn; by rewrite Ev4, lookup_insert_ne, Ev3, lookup_insert_eq|].
  intros ? ? [-> ->]. apply (wp_of_opt _ vp); [done|]. split; [done|]. split; [done|]. cbn [fst].
  exists now, (snd (nanotime (kst s3))). rewrite <- Ev3, <- Ev4.
  assert (set_fvs (fvs s4) s2 ≡ s4) as (E1 & E2 & _ & E4); [|by split_and!].
  rewrite Ev4. etrans; [|exact Hs4]. exact (set_fvs_again _ _ _ _ Hs3).
Qed.

Lemma wp_create_finish s w p d dvp l bs name mode q cache vp e s1 s2 :
  directory s p d l bs -> ready s -> fvs s !! q = None -> cache_ok l cache -> length cache = 16%nat ->
  let v := made_vnode (fsi s) 0 VREG vp (Some (dvp, fv_cluster d)) (new_fv s d bs name mode) in
  (exists now, e = new_d83 (fv_cluster d) (new_fv s d bs name mode) name 0 0 now) ->
  set_held (<[FvLock p := MrUpdate]> (held s)) (set_fvs (<[q := v]> (<[p := set_fv_cls_cache cache d]> (fvs s))) s) ≡ s1 ->
  held s !! FvLock p = None ->
  dir_change s1 (fv_cluster d) l (with_entry bs (slot_place bs (dirsz_of name)) name e) s2 ->
  forall w', vnode_linked w vp q (Some dvp) w' ->
  wp (do* (do* lift (fat32_touch q 0) in lift (fat32_touch p FV_MTIME_DIRTY)) in
      do* lift (mrunlock (FvLock p)) in
      let* v := lift (get_fv q) in of_opt (fv_vnode v)) (s2, w') (created s w p d dvp l bs name mode).
Proof.
  cbn zeta. intros Hd Hr Hq Hca Hcl He Hs1 Hl H2 w' Hlk. pose proof (dir_fv _ _ _ _ _ Hd) as Hp. assert (q <> p) as Hqp by congruence.
  set (v := made_vnode _ _ _ _ _ _) in *. pose proof Hs1 as (Ef1 & Ev1 & Eh1 & _). cbn in Ef1, Ev1, Eh1.
  pose proof H2 as (_ & Ef2 & Ev2 & Eh2 & _).
  eapply wp_mono; [apply (wp_touch_finish s2 w' p q (set_fv_cls_cache cache d) v vp (held s)); try done|].
  - by rewrite Ev2, Ev1, lookup_insert_eq.
  - by rewrite Ev2, Ev1, lookup_insert_ne, lookup_insert_eq.
  - congruence.
  - apply made_vnode_vnode.
  - intros [r| | | |] [s4 w4]; try done. cbn [okp fst snd]. intros (-> & -> & now & now' & H4).
    exists cache, e. split; [done|]. split; [done|]. exists q, now, now'. split; [done|]. split; [done|]. split; [done|]. cbn [fst].
    rewrite Ev2, Ev1, insert_insert_eq, (insert_insert_ne _ q p), insert_insert_eq in H4 by done.
    set (m := <[p := _]> (<[q := _]> (fvs s))) in *. apply (dir_change_equiv _ _ _ _ _ _ H4).
    replace (set_fvs m s) with (set_held (held s) (set_fvs m s)) by (by destruct s).
    by eapply dir_change_rebase; [| |apply Hr].
Qed.

(** The error return of [create_new]: unlock and free the structure. *)
Lemma wp_drop_new s s4 w4 p q v d err (Q : res nat -> st K * V -> Prop) :
  fvs s !! q = None -> q <> p -> held s !! FvLock p = None -> held s !! FvLock q = None -> held s !! CacheLock q = None ->
  held s4 = <[FvLock p := MrUpdate]> (held s) -> fvs s4 = <[q := v]> (<[p := d]> (fvs s)) -> fv_parent_vp v = None ->
  Q (Err err) (set_held (held s) (set_fvs (<[p := d]> (fvs s)) s4), w4) ->
  wp (do* (ret tt) in do* lift (mrunlock (FvLock p)) in do* fat32_vnode_delete q in throw err) (s4, w4) Q.
Proof.
  intros Hq Hqp Hl Hq1 Hq2 Eh Ev Hpar HQ. apply wp_bind, wp_ret. cbn [wpk].
  eapply wp_lift_call; [by apply (wp_unlock _ _ MrUpdate (held s))|]. intros [] ? ->.
  eapply wp_call_ok; [apply (wp_vnode_delete _ _ q v); cbn; [by rewrite Ev, lookup_insert_eq|done..]|].
  intros [] ? ->. apply wp_throw. cbn [fvs set_held].
  replace (delete q (fvs s4)) with (<[p := d]> (fvs s)); [exact HQ|].
  rewrite Ev, delete_insert_id; [done|]. by rewrite lookup_insert_ne.
Qed.

(** The state in which the creation starts, seen from [s]. *)
Lemma searched_set s p d mode q v cache s1 v' :
  searched s p d mode q v cache s1 -> q <> p ->
  set_held (<[FvLock p := mode]> (held s)) (set_fvs (<[q := v']> (<[p := set_fv_cls_cache cache d]> (fvs s))) s)
    ≡ set_fvs (<[q := v']> (fvs s1)) s1.
Proof.
  intros Hs Hqp. pose proof Hs as (_ & Ev & _). cbn [fvs set_held set_fvs] in Ev.
  replace (<[q := v']> (<[p := set_fv_cls_cache cache d]> (fvs s))) with (<[q := v']> (fvs s1)) by (by rewrite Ev, insert_insert_eq).
  exact (set_fvs_equiv _ _ _ Hs).
Qed.

(** What the creation is called with: the structure [v] that the search has left,
    with the requested mode. *)
Lemma new_file_creation s w w0 p d dvp l bs name stack cr mode q cache s1 flags :
  new_file s w p d dvp l bs name stack cr -> layer_same w w0 -> fvs s !! q = None -> cache_ok l cache ->
  searched s p d MrUpdate q (found_fv tb s d None) cache s1 -> flags = 0 \/ flags = FAT32_CRE_DIR ->
  let v := set_fv_mode mode (found_fv tb s d None) in
  creation (set_fvs (<[q := v]> (fvs s1)) s1) w0 p (set_fv_cls_cache cache d) dvp l bs q v name flags.
Proof.
  cbn zeta. intros Hnw Hw0 Hq Hca Hs1 Hfl. pose proof Hnw as [Hr Hd Hl Hlv [L1 L2 L3] _ Hst _ _ Hroom Hw].
  pose proof (dir_fv _ _ _ _ _ Hd) as Hp. assert (q <> p) as Hqp by congruence. destruct (Hlv q Hq) as [Hq1 Hq2].
  pose proof (dir_ok _ _ _ _ _ Hd) as Hok. apply file_ok_chain in Hok as (_ & _ & Hch); [|by destruct Hd].
  assert (dir_at s (fv_cluster d) l bs) as Hat by (split; [exact Hch|by destruct Hd]).
  destruct (dirsz_bounds _ Hst) as [Hdz1 Hdz2]. pose proof (bpc_eq _ (ready_wf _ Hr)) as [_ Hb].
  destruct (slot_place_free bs (dirsz_of name)) as ([Hp0 _] & Hpal & _); [by apply (dir_length_aligned s (fv_cluster d) l)|lia|lia|].
  pose proof (searched_set _ _ _ _ _ _ _ _ (set_fv_mode mode (found_fv tb s d None)) Hs1 Hqp) as Hs2.
  pose proof Hs1 as (Ef1 & Ev1 & Eh1 & _). cbn [fsi fvs held set_fvs set_held] in Ef1, Ev1, Eh1.
  assert (flag flags FAT32_CRE_RENAME = false /\ flag flags FAT32_CRE_REUSE = false) as [F1 F2] by (by destruct Hfl as [-> | ->]).
  constructor; try done; unfold entry_place, entry_start, attr_ok; rewrite ?F1, ?F2; try done.
  - rewrite <- Hs2. apply ready_set_held; [by apply ready_set_fvs|]. rewrite lookup_insert_ne by done. apply Hr.
  - cbn. by rewrite Ev1, insert_insert_eq, lookup_insert_ne, lookup_insert_eq.
  - split; rewrite <- Hs2; apply Hat.
  - cbn. by rewrite lookup_insert_eq.
  - cbn. by rewrite Eh1, lookup_insert_ne by congruence.
  - constructor; [done|by rewrite (proj2 (Hw0 dvp))|by rewrite (proj1 (Hw0 dvp))].
  - cbn. by rewrite Ef1.
Qed.

(** The creation in the locked directory, where the search has left an empty
    structure. *)
Lemma wp_create_new s w w0 p d dvp l bs name stack cr vap q cache s1 :
  new_file s w p d dvp l bs name stack cr -> layer_same w w0 -> fvs s !! q = None ->
  cache_ok l cache -> length cache = 16%nat -> searched s p d MrUpdate q (found_fv tb s d None) cache s1 ->
  wp (create_new p q name vap 0) (s1, w0) (created s w p d dvp l bs name (va_mode vap)).
Proof.
  intros Hnw Hw0 Hq Hca Hcl Hs1. pose proof Hnw as [Hr Hd Hl Hlv _ _ _ _ _ _ _].
  pose proof (dir_fv _ _ _ _ _ Hd) as Hp. assert (q <> p) as Hqp by congruence. destruct (Hlv q Hq) as [Hq1 Hq2].
  pose proof (new_file_creation _ _ _ _ _ _ _ _ _ _ _ (va_mode vap) _ _ _ 0 Hnw Hw0 Hq Hca Hs1 (or_introl eq_refl)) as Hcn.
  cbn zeta in Hcn. set (v := set_fv_mode (va_mode vap) _) in *. set (d' := set_fv_cls_cache cache d) in *.
  assert (forall v', set_held (<[FvLock p := MrUpdate]> (held s)) (set_fvs (<[q := v']> (<[p := d']> (fvs s))) s) ≡
            set_fvs (<[q := v']> (fvs s1)) s1) as Hs3 by (intros v'; exact (searched_set _ _ _ _ _ _ _ _ v' Hs1 Hqp)).
  pose proof Hs1 as (Ef1 & Ev1 & Eh1 & _). cbn [fsi fvs held set_fvs set_held] in Ef1, Ev1, Eh1.
  unfold create_new. eapply wp_lift_call; [apply (wp_upd_fv _ _ (found_fv tb s d None)); by rewrite Ev1, lookup_insert_eq|].
  intros [] ? ->. fold v. set (s2 := set_fvs _ s1) in *.
  apply wp_bind, wp_try. eapply wp_mono; [apply (wp_create_fdentry s2 w0 p d' dvp l bs q v name 0); [exact Hcn|by right]|].
  intros r sw (now & Hpost). cbn zeta in Hpost. change (flag 0 FAT32_CRE_RENAME) with false in Hpost. cbn iota in Hpost.
  change (fv_cluster d') with (fv_cluster d) in Hpost. change (placed bs v name 0) with (new_fv s d bs name (va_mode vap)) in Hpost.
  change (fsi s2) with (fsi s1) in Hpost. rewrite Ef1 in Hpost.
  set (e := new_d83 _ _ name 0 _ now) in *.
  change (fv_diroff (new_fv s d bs name (va_mode vap))) with (slot_place bs (dirsz_of name)) in Hpost.
  assert (forall v', set_fvs (<[q := v']> (fvs s2)) s2 = set_fvs (<[q := v']> (fvs s1)) s1) as E2.
  { intros v'. cbn. by rewrite insert_insert_eq. }
  destruct sw as [s4 w4]. destruct r as [[]|err| | |]; try done; cbn [wpk fst snd] in *.
  - destruct Hpost as (vp & H4 & Hlk). rewrite E2 in H4. eapply (wp_create_finish s w p d dvp l bs name _ q cache vp e _ s4 Hd Hr Hq Hca Hcl);
      [by eexists|apply Hs3|exact Hl|exact H4|]. by eapply vnode_linked_layer.
  - destruct Hpost as (-> & H4 & Hw4). rewrite E2 in H4. pose proof H4 as (_ & _ & Ev4 & Eh4 & _). cbn in Ev4, Eh4.
    rewrite Ev1, insert_insert_eq in Ev4. rewrite Eh1 in Eh4.
    eapply (wp_drop_new s s4 w4 p q _ d'); try done. exists cache, e. do 3 (split; [done|]). split; [by etrans|]. split; [by eexists|].
    cbn [fst]. replace (set_fvs (<[p := d']> (fvs s)) s) with (set_held (held s) (set_fvs (<[p := d']> (fvs s)) s)) by (by destruct s).
    eapply (dir_change_rebase _ _ _ _ _ _ _ s4 (held s) (<[p := d']> (fvs s))
      (Hs3 (new_fv s d bs name (va_mode vap)))); [exact H4|apply Hr].
Qed.

Lemma wp_dir_writable s p d cr :
  fvs s !! p = Some d -> fat32_faccess (fsi s) d (Z.lor VWRITE VEXEC) cr = 0 ->
  wp (dir_writable p cr) s (okp (fun _ s' => s' = s)).
Proof.
  intros Hp Hacc. unfold dir_writable. repeat wp_step. eapply wp_call_ok; [by apply wp_get_fv|]. intros ? ? [-> ->].
  rewrite Hacc. by apply wp_ret.
Qed.

Lemma wp_create s w p d dvp l bs name stack cr vap excl mode :
  new_file s w p d dvp l bs name stack cr ->
  wp (fat32_create tb p name vap excl mode cr stack) (s, w) (created s w p d dvp l bs name (va_mode vap)).
Proof.
  intros Hnw. pose proof Hnw as [Hr Hd Hl Hlv Hlk Hstk Hst Hacc Hnone _ _]. pose proof (dir_fv _ _ _ _ _ Hd) as Hp.
  unfold fat32_create. eapply wp_lift_call; [by apply wp_get_fv|]. intros ? ? [-> ->].
  rewrite bool_decide_true by by destruct Hd. cbn [negb].
  eapply wp_lift_call; [by apply (wp_dir_writable _ _ d)|]. intros [] ? ->.
  eapply wp_call_ok; [apply wp_vnode_new|]. intros ? [s0 w0] (q & -> & Hq & E & Hw). cbn [fst snd] in E, Hw. subst s0.
  apply (wp_search tb s w0 p d l bs); try done; [apply Hst|]. intros cache s1 Hca Hcl Hs1. rewrite Hnone in Hs1 |- *.
  cbn [search_result]. by eapply wp_create_new.
Qed.

(** C11: [fat32_create] of a name that the directory does not hold writes the
    slots of the name and an 8.3 entry without clusters and of size 0 at the
    first free place, and returns a new vnode for it: its structure has the
    place, the requested mode and new times, and holds the directory.  Nothing
    else on the volume changes; the directory gets a new modification time and
    its lock is released.  If the kernel has no vnode left the error is ENOMEM
    and the temporary structure is freed, but the entry stays in the directory.
    This is for a directory that has room for the slots. *)
Theorem create_correct s w p d dvp l bs name stack cr vap excl mode :
  new_file s w p d dvp l bs name stack cr ->
  wp (fat32_create tb p name vap excl mode cr stack) (s, w) (created s w p d dvp l bs name (va_mode vap)).
Proof. apply wp_create. Qed.

(** ** The new file is found *)

(** The structure that a lookup makes for the entry at [off]. *)
Definition empty_file_at (c off n : Z) (v : fat32fs_vnode) : Prop :=
  fv_type v = VREG /\ fv_cluster v = 0 /\ fv_size v = 0 /\ fv_diroff v = off /\ fv_dirsz v = n /\ fv_parent_cluster v = c.

Lemma with_entry_length bs off name e :
  length e = 32%nat -> 0 <= off -> off + 32 * dirsz_of name <= Z.of_nat (length bs) ->
  length (with_entry bs off name e) = length bs.
Proof.
  intros He Hoff Hle. destruct (entry_slots_length name e He) as [H1 H2]. pose proof (concat_length_32 _ H1).
  apply length_splice. lia.
Qed.

(** The directory after the creation. *)
Lemma created_directory s w p d dvp l bs name stack cr cache now mode e m s' :
  new_file s w p d dvp l bs name stack cr -> cache_ok l cache -> length cache = 16%nat ->
  m !! p = Some (modified now (set_fv_cls_cache cache d)) -> entry_added s d l bs name mode e m s' ->
  ready s' /\ directory s' p (modified now (set_fv_cls_cache cache d)) l
    (with_entry bs (slot_place bs (dirsz_of name)) name e).
Proof.
  intros [Hr Hd _ _ _ _ Hst _ _ Hroom Hw] Hca Hcl Hm [[t ->] (H1 & H2 & H3 & H4 & [Hch Hc] & _)].
  destruct (dirsz_bounds _ Hst) as [Hz1 Hz2]. pose proof (bpc_eq _ (ready_wf _ Hr)) as [_ ?].
  pose proof (dir_ok _ _ _ _ _ Hd) as Hok. apply file_ok_chain in Hok as (_ & _ & Hch0); [|by destruct Hd].
  destruct (slot_place_free bs (dirsz_of name)) as ([Hp0 _] & _);
    [apply (dir_length_aligned s (fv_cluster d) l); [done|split; [done|by destruct Hd]]|lia|lia|].
  assert (entry_named name (new_d83 (fv_cluster d) (new_fv s d bs name mode) name 0 0 t)) as Hnm by (by apply new_d83_named).
  split; [done|]. constructor.
  - by rewrite H3.
  - by destruct Hd.
  - split; [done|]. split; [done|]. destruct l; [by destruct Hd|]. exact Hch.
  - by destruct Hd.
  - done.
  - rewrite with_entry_length by (try lia; apply Hnm). by destruct Hd.
  - rewrite H4. by destruct Hd.
Qed.

(** The scan finds it. *)
Lemma created_lookup s w p d dvp l bs name stack cr mode e stack2 :
  new_file s w p d dvp l bs name stack cr -> length stack2 = 256%nat -> lookup_name bs stack2 name = None ->
  orphans (take (Z.to_nat (slot_place bs (dirsz_of name))) bs) = false ->
  (exists now, e = new_d83 (fv_cluster d) (new_fv s d bs name mode) name 0 0 now) ->
  exists y, lookup_name (with_entry bs (slot_place bs (dirsz_of name)) name e) stack2 name = Some (y, e) /\
    entry_start_offset y = slot_place bs (dirsz_of name) /\ num_slots y = dirsz_of name /\
    first_cluster e = 0 /\ RLE32 (get83 e D83.file_size) = 0 /\
    flag (nth 0 (get83 e D83.attr) 0) FAT32_ATTR_DIRECTORY = false.
Proof.
  intros [Hr Hd _ _ _ _ Hst _ _ Hroom Hw] Hst2 Hnone Horph [t ->].
  destruct (dirsz_bounds _ Hst) as [Hz1 Hz2]. pose proof (bpc_eq _ (ready_wf _ Hr)) as [_ ?].
  pose proof (dir_ok _ _ _ _ _ Hd) as Hok. apply file_ok_chain in Hok as (_ & _ & Hch); [|by destruct Hd].
  assert (Z.of_nat (length bs) mod 32 = 0) as Hal by (apply (dir_length_aligned s (fv_cluster d) l); [done|split; [done|by destruct Hd]]).
  assert (free_place bs (slot_place bs (dirsz_of name)) (dirsz_of name)) as Hfree by (apply slot_place_free; (done || lia)).
  destruct (new_entry_lookup bs (slot_place bs (dirsz_of name)) name
    (new_d83 (fv_cluster d) (new_fv s d bs name mode) name 0 0 t) stack2) as (y & H1 & H2 & H3); try done; try lia;
    [by apply new_d83_named|].
  exists y. split; [done|]. split; [done|]. split; [done|].
  destruct (new_d83_cluster (fv_cluster d) (new_fv s d bs name mode) name 0 0 t Hst) as [H4 H5]; [lia|].
  split; [done|]. split; [done|]. rewrite new_d83_get by done. cbn. unfold entry_attr. by destruct (negb _).
Qed.

Lemma made_vnode_members f cluster type vp dvp c v :
  let v' := made_vnode f cluster type vp (Some (dvp, c)) v in
  fv_type v' = type /\ fv_cluster v' = cluster /\ fv_size v' = fv_size v /\ fv_diroff v' = fv_diroff v /\
  fv_dirsz v' = fv_dirsz v /\ fv_parent_cluster v' = c.
Proof. cbn zeta. unfold made_vnode. destruct (_ && _); cbn; [done|]. by destruct (_ =? 0). Qed.

Lemma created_linked w w' p d dvp vp q v :
  linked w p d dvp -> 0 < v_count w dvp -> vnode_linked w vp q (Some dvp) w' -> fv_vnode v = fv_vnode d -> linked w' p v dvp.
Proof.
  intros [L1 L2 L3] Hc (H1 & _ & _ & _ & H5) Hv. destruct (H5 dvp) as [E1 E2]; [intros ->; lia|].
  constructor; [congruence|congruence|]. rewrite E2. case_decide; lia.
Qed.

Lemma wp_create_lookup s w p d dvp l bs name stack cr vap excl mode stack2 :
  new_file s w p d dvp l bs name stack cr -> 0 < v_count w dvp ->
  length stack2 = 256%nat -> lookup_name bs stack2 name = None ->
  orphans (take (Z.to_nat (slot_place bs (dirsz_of name))) bs) = false ->
  wp (do* fat32_create tb p name vap excl mode cr stack in fat32_lookup tb p name stack2) (s, w) (fun r sw =>
    match r with
    | Ok o => exists vp q v, o = Some vp /\ first_bhv (snd sw) vp = Some q /\ fvs (fst sw) !! q = Some v /\
        empty_file_at (fv_cluster d) (slot_place bs (dirsz_of name)) (dirsz_of name) v
    | Err e => e = ENOMEM
    | _ => False
    end).
Proof.
  intros Hnw Hcnt Hst2 Hnone Horph. pose proof Hnw as [Hr Hd Hl Hlv Hlk _ Hst _ _ _ _].
  eapply wp_call; [by apply (wp_create s w p d dvp l bs name stack cr)|].
  intros r [s1 w1] (cache & e & Hca & Hcl & H). destruct r as [vp|err| | |]; try done; [|by destruct H].
  destruct H as (q & now & now' & Hq & Hvl & Hadd). cbn [wpk fst snd] in *. pose proof (dir_fv _ _ _ _ _ Hd) as Hp.
  set (m := <[p := _]> _) in Hadd. set (d1 := modified now' (set_fv_cls_cache cache d)) in *.
  destruct (created_directory s w p d dvp l bs name stack cr cache now' (va_mode vap) e m s1) as [Hr1 Hd1]; try done;
    [by apply lookup_insert_eq|].
  destruct (created_lookup s w p d dvp l bs name stack cr (va_mode vap) e stack2) as (y & Hy & Y1 & Y2 & Y3 & Y4 & Y5);
    try done; [apply Hadd|].
  pose proof Hadd as [_ (_ & _ & Ev1 & Eh1 & _)]. cbn in Ev1, Eh1.
  eapply wp_mono.
  { apply (wp_lookup tb s1 w1 p d1 dvp l _ name stack2 Hr1 Hd1); try done; try apply Hst.
    - by rewrite Eh1.
    - intros q' Hq'. rewrite Eh1. apply Hlv. rewrite Ev1 in Hq'. unfold m in Hq'.
      apply lookup_insert_None in Hq' as [Hq' _]. by apply lookup_insert_None in Hq' as [Hq' _].
    - eapply (created_linked w w1 p d dvp vp q d1); done. }
  intros r [s2 w2]. rewrite Hy. unfold lookup_post. destruct r as [[vp2|]|err| | |]; try done.
  - intros (q2 & cache2 & _ & _ & _ & (_ & Ev2 & _) & (_ & _ & _ & Hb & _)). cbn in Ev2, Hb.
    set (v2 := made_vnode _ _ _ _ _ _) in Ev2. exists vp2, q2, v2. split; [done|]. split; [done|]. cbn [fst].
    split; [by rewrite Ev2, lookup_insert_eq|]. unfold empty_file_at, v2.
    edestruct made_vnode_members as (-> & -> & -> & -> & -> & ->). 
    split; [change ((if flag (nth 0 (get83 e D83.attr) 0) FAT32_ATTR_DIRECTORY then VDIR else VREG) = VREG); by rewrite Y5|].
    by split_and!.
  - by intros (-> & _).
Qed.

(** C12: a file that [fat32_create] has made is what [fat32_lookup] finds under
    its name afterwards, for short names and for long ones whose slots may span
    clusters: an empty regular file with the place where the slots were written.
    The directory has no long-name slots without an entry just before the place
    and no entry of that name.  The lookup makes a second vnode and structure for
    the file. *)
Theorem create_then_lookup s w p d dvp l bs name stack cr vap excl mode stack2 :
  new_file s w p d dvp l bs name stack cr -> 0 < v_count w dvp ->
  length stack2 = 256%nat -> lookup_name bs stack2 name = None ->
  orphans (take (Z.to_nat (slot_place bs (dirsz_of name))) bs) = false ->
  wp (do* fat32_create tb p name vap excl mode cr stack in fat32_lookup tb p name stack2) (s, w) (fun r sw =>
    match r with
    | Ok o => exists vp q v, o = Some vp /\ first_bhv (snd sw) vp = Some q /\ fvs (fst sw) !! q = Some v /\
        empty_file_at (fv_cluster d) (slot_place bs (dirsz_of name)) (dirsz_of name) v
    | Err e => e = ENOMEM
    | _ => False
    end).
Proof. apply wp_create_lookup. Qed.

End create.

(** ** Witnesses *)

(** "notes.txt" takes two slots behind the entries of the demonstration volume. *)
Definition demo_new : list Z := [110; 111; 116; 101; 115; 46; 116; 120; 116].

Lemma demo_new_storable : storable demo_new.
Proof.
  constructor; [|cbn; lia|done]. unfold demo_new, name_char. repeat constructor; lia.
Qed.

Lemma demo_creation : creation demo_vol demo_layer 2 demo_root_fv 9 [2] demo_slots 3 demo_dirty_fv demo_new 0.
Proof.
  constructor; try reflexivity;
    [apply demo_vol_ready|split; [apply demo_vol_chain|apply demo_vol_contents]|done|apply demo_layer_linked
    |apply demo_new_storable|done|by split|split; by vm_compute|by vm_compute].
Qed.

Lemma create_fdentry_correct_witness :
  wp (fat32_create_fdentry 2 3 demo_new 0) (demo_vol, demo_layer)
    (create_post demo_vol demo_layer demo_root_fv 9 [2] demo_slots 3 demo_dirty_fv demo_new 0).
Proof.
  apply (create_fdentry_correct demo_vol demo_layer 2 demo_root_fv 9 [2] demo_slots 3 demo_dirty_fv demo_new 0);
    [apply demo_creation|by right].
Defined.

Definition demo_vattr : vattr :=
  let t := mkTimespec 0 0 in mkVattr AT_MODE VREG 0x1A4 0 0 0 0 0 0 t t t 0 0 0.

Lemma demo_new_file : new_file demo_vol demo_layer 2 demo_root_fv 9 [2] demo_slots demo_new demo_stack demo_root_cred.
Proof.
  constructor; try reflexivity;
    [apply demo_vol_ready|apply demo_vol_directory|apply demo_vol_locks|apply demo_layer_linked|apply demo_new_storable
    |by vm_compute].
Qed.

Lemma create_correct_witness :
  wp (fat32_create 32 2 demo_new demo_vattr false VWRITE demo_root_cred demo_stack) (demo_vol, demo_layer)
    (created 32 demo_vol demo_layer 2 demo_root_fv 9 [2] demo_slots demo_new (va_mode demo_vattr)).
Proof.
  apply (create_correct 32 demo_vol demo_layer 2 demo_root_fv 9 [2] demo_slots demo_new demo_stack demo_root_cred).
  apply demo_new_file.
Defined.

Lemma create_then_lookup_witness :
  wp (do* fat32_create 32 2 demo_new demo_vattr false VWRITE demo_root_cred demo_stack in
      fat32_lookup 32 2 demo_new demo_stack) (demo_vol, demo_layer) (fun r sw =>
    match r with
    | Ok o => exists vp q v, o = Some vp /\ first_bhv (snd sw) vp = Some q /\ fvs (fst sw) !! q = Some v /\
        empty_file_at (fv_cluster demo_root_fv) (slot_place demo_slots (dirsz_of demo_new)) (dirsz_of demo_new) v
    | Err e => e = ENOMEM
    | _ => False
    end).
Proof.
  apply (create_then_lookup 32 demo_vol demo_layer 2 demo_root_fv 9 [2] demo_slots demo_new demo_stack demo_root_cred).
  - apply demo_new_file.
  - reflexivity.
  - reflexivity.
  - vm_compute. reflexivity.
  - vm_compute. reflexivity.
Defined.

(** Here the creation succeeds. *)
Example demo_create_ok :
  match fat32_create 32 2 demo_new demo_vattr false VWRITE demo_root_cred demo_stack (demo_vol, demo_layer) with
  | (_, Ok vp) => vp = 10%nat
  | _ => False
  end.
Proof. vm_compute. reflexivity. Qed.
