(* ===== verification/RenameSpec.v ===== *)
(** * Renaming within a directory

    [fat32_rename] to a name that the directory does not hold: the entry keeps
    its slots when the new name needs no more of them, else it gets new ones. *)
From S2P Require Import Prelude Layout Time Names Kernel Device Cls Fat Demo Alloc Chain Free Cache File Truncate Access Io IoSpec WriteSpec Dir DirSpec LfnSpec Vnode Nameops Vnops Listing Remove VnodeSpec VnopsSpec DirDemo Slots Insert CreateSpec.

(** ** Found entries *)

Lemma scan_found_attr n bytes_per_cluster data co x y e :
  scan_cluster n bytes_per_cluster 256 data co x = Some (ScanFound y e) ->
  flag (nth 0 (get83 e D83.attr) 0) FAT32_ATTR_VOLUME_ID = false.
Proof.
  revert co x. induction n as [|n IH]; intros co x Hs; [cbn [scan_cluster] in Hs; by destruct (negb _)|].
  rewrite scan_cluster_unfold in Hs. destruct (negb _); [done|]. destruct (bsub data co 32) as [e'|]; [|done].
  destruct (scan_entry 256 e' x) as [[x'|r]|] eqn:E; [by apply (IH _ _ Hs)| |done]. injection Hs as ->.
  unfold scan_entry in E. destruct (_ =? 0x00); [done|]. destruct (_ =? 0xE5); [done|].
  destruct (_ =? FAT32_ATTR_LONG_NAME); [by destruct (lfn_scan 256 e' x)|].
  destruct (flag (nth 0 (get83 e' D83.attr) 0) FAT32_ATTR_VOLUME_ID) eqn:Ef; [by destruct (volume_scan 256 x)|].
  destruct (found_entry 256 e' x); [|done]. cbn in E. by injection E as _ <-.
Qed.

Lemma entries_attr n bs off buf x e :
  (x, e) ∈ entries n bs off buf -> flag (nth 0 (get83 e D83.attr) 0) FAT32_ATTR_VOLUME_ID = false.
Proof.
  revert off buf. induction n as [|n IH]; intros off buf Hin; [by apply not_elem_of_nil in Hin|]. cbn [entries] in Hin.
  destruct (bput buf 0 [0]) as [buf'|]; [|by apply not_elem_of_nil in Hin].
  destruct (scan_dir bs off _) as [[|y|y e']|] eqn:Hs; try by apply not_elem_of_nil in Hin.
  apply elem_of_cons in Hin as [[= -> ->]|Hin]; [by eapply scan_found_attr|by eapply IH].
Qed.

Lemma lookup_name_attr bs buf name x e :
  Forall is_byte bs -> 0 <= current_offset x -> lookup_name bs buf name = Some (x, e) -> bsub bs (current_offset x) 32 = Some e ->
  is_byte (nth 0 (get83 e D83.attr) 0) /\ flag (nth 0 (get83 e D83.attr) 0) FAT32_ATTR_VOLUME_ID = false.
Proof.
  intros Hb Hc Hf He. split.
  - assert (length e = 32%nat /\ Forall is_byte e) as [Hl Hbe].
    { unfold bsub in He. case_decide as Hd; [|done]. injection He as <-. split; [|by apply Forall_take, Forall_drop].
      rewrite length_take, length_drop. lia. }
    rewrite nth_lookup. destruct (get83 e D83.attr !! 0%nat) as [b|] eqn:Eb; [|by cbn; split; lia]. cbn.
    eapply Forall_lookup_1; [|exact Eb]. by apply get_field_bytes.
  - apply List.find_some in Hf as [Hin%list_elem_of_In _]. by eapply entries_attr.
Qed.

(** ** Composing changes of a directory *)

Section rename.
Context {K V : Type} `{!Kernel K, !KernelLaws K, !Vnodes V, !VnodesLaws V}.
Context (tb : Z).
Implicit Types (s : st K) (w : V).

Lemma dir_change_trans s1 s2 s3 c l bs1 bs2 m :
  dir_change s1 c l bs1 s2 -> dir_change (set_fvs m s2) c l bs2 s3 -> dir_change (set_fvs m s1) c l bs2 s3.
Proof.
  intros (A1 & A2 & A3 & A4 & A5 & A6 & A7) (B1 & B2 & B3 & B4 & B5 & B6 & B7). cbn in B2, B3, B4.
  split; [done|]. split; [cbn; congruence|]. split; [done|]. split; [cbn; congruence|]. split; [done|]. split.
  - exact (keeps_trans _ _ _ _ _ _ A6 B6).
  - intros x Hx Hn. cbn in Hx |- *. rewrite <- A2. transitivity (view (kst s2) (fat32_cluster_to_sector (fsi s2) x) (fsi_sectors_per_cluster (fsi s2))).
    + apply B7; [by cbn; rewrite A2|done].
    + rewrite A2. by apply A7.
Qed.

Lemma wp_finally_ok {S A} (m : M S A) (cleanup : M S unit) x (P Q : A -> S -> Prop) :
  wp m x (okp P) -> (forall a y, P a y -> wp cleanup y (okp (fun _ z => Q a z))) -> wp (finally m cleanup) x (okp Q).
Proof.
  intros Hm Hc. unfold finally. apply wp_bind, wp_try. eapply wp_mono; [exact Hm|]. intros [a| | | |] y; try done. cbn [okp wpk].
  intros HP. eapply wp_call_ok; [by apply Hc|]. intros [] z HQ. by apply wp_ret.
Qed.

(** ** The new entry *)

(** The slots from [start] on are used again, or there are new ones. *)
Definition old_deleted (bs : list Z) (v : fat32fs_vnode) : list Z := mark_deleted bs (fv_diroff v) (Z.to_nat (fv_dirsz v)).
Definition rename_place (bs : list Z) (v : fat32fs_vnode) (name : list Z) : Z :=
  if dirsz_of name <=? fv_dirsz v then fv_diroff v else slot_place (old_deleted bs v) (dirsz_of name).
Definition renamed (bs : list Z) (v : fat32fs_vnode) (name e : list Z) : list Z :=
  if dirsz_of name <=? fv_dirsz v
  then mark_deleted (with_entry bs (fv_diroff v) name e) (fv_diroff v + 32 * dirsz_of name)
         (Z.to_nat (fv_dirsz v - dirsz_of name))
  else with_entry (old_deleted bs v) (rename_place bs v name) name e.

(** The vnode structure with the place of the new entry. *)
Definition moved (bs : list Z) (v : fat32fs_vnode) (name : list Z) : fat32fs_vnode :=
  set_fv_diroff (rename_place bs v name) (set_fv_dirsz (dirsz_of name) v).

(** A rename of the entry in [v], in the directory [p]. *)
Record renaming s w (p : nat) (d : fat32fs_vnode) (dvp : nat) (l bs : list Z) (q : nat) (v : fat32fs_vnode)
    (name : list Z) : Prop := {
  rn_ready : ready s;
  rn_dir : fvs s !! p = Some d;
  rn_at : dir_at s (fv_cluster d) l bs;
  rn_fv : fvs s !! q = Some v;
  rn_ne : q <> p;
  rn_lock : held s !! FvLock q = None;
  rn_linked : linked w p d dvp;
  rn_name : storable name;
  rn_attr : is_byte (fv_attr v) /\ flag (fv_attr v) FAT32_ATTR_VOLUME_ID = false;
  rn_cluster : 0 <= fv_cluster v < 2 ^ 32;
  rn_old : 0 <= fv_diroff v /\ fv_diroff v mod 32 = 0 /\ 1 <= fv_dirsz v /\
           fv_diroff v + 32 * fv_dirsz v <= Z.of_nat (length bs);
  rn_room : rename_place bs v name + 32 * dirsz_of name <= Z.of_nat (length bs);
  rn_width : Z.of_nat (length bs) + 32 * dirsz_of name + fsi_bytes_per_cluster (fsi s) < 2 ^ 32
}.

(** All renames store the same entry. *)
Lemma new_d83_rename cluster v name flags start now :
  flag flags FAT32_CRE_RENAME = true ->
  new_d83 cluster v name flags start now = new_d83 cluster v name FAT32_CRE_RENAME start now.
Proof. intros Hf. unfold new_d83, new_members, entry_attr. by rewrite Hf. Qed.

(** [fat32_create_fdentry] in a rename. *)
Lemma wp_create_rename s w p d dvp l bs q v name flags :
  creation s w p d dvp l bs q v name flags -> flag flags FAT32_CRE_RENAME = true ->
  wp (fat32_create_fdentry p q name flags) (s, w) (okp (fun _ sw => snd sw = w /\ exists now,
    let v1 := placed bs v name flags in
    dir_change (set_fvs (<[q := v1]> (fvs s)) s) (fv_cluster d) l
      (with_entry bs (fv_diroff v1) name (new_d83 (fv_cluster d) v1 name FAT32_CRE_RENAME (fv_cluster v) now)) (fst sw))).
Proof.
  intros Hcn Hf. eapply wp_mono; [by eapply wp_create_fdentry; [|left]|]. intros r sw (now & H). cbn zeta in H. rewrite Hf in H.
  destruct H as (-> & H & Hw). cbn [okp]. split; [done|]. exists now. unfold entry_start in H. rewrite Hf in H.
  by rewrite new_d83_rename in H.
Qed.

(** The slots are used again. *)
Lemma wp_rename_reuse s w p d dvp l bs q v name flags :
  renaming s w p d dvp l bs q v name -> dirsz_of name <= fv_dirsz v ->
  flag flags FAT32_CRE_RENAME = true -> flag flags FAT32_CRE_REUSE = true ->
  wp (do* fat32_create_fdentry p q name flags in
      if dirsz_of name <? fv_dirsz v then
        let* s := lift (get_fv p) in
        do* lift (try (fat32_delete_fdentry_chain (fv_cluster s)
                    (u32 (fv_diroff v + dirsz_of name * FAT32_DENTRY_SIZE)) (u32 (fv_dirsz v - dirsz_of name)))) in ret tt
      else ret tt) (s, w) (okp (fun _ sw => snd sw = w /\ exists now, let v1 := moved bs v name in
    dir_change (set_fvs (<[q := v1]> (fvs s)) s) (fv_cluster d) l
      (renamed bs v name (new_d83 (fv_cluster d) v1 name FAT32_CRE_RENAME (fv_cluster v) now)) (fst sw))).
Proof.
  intros [Hr Hp Hat Hq Hqp Hlk Hli Hst [Ha1 Ha2] Hcl (H0 & Hal & H1 & Hold) Hroom Hw] Hle Hf1 Hf2.
  pose proof (dirsz_bounds _ Hst) as [Hz1 Hz2]. pose proof (bpc_eq _ (ready_wf _ Hr)) as [_ Hb].
  assert (moved bs v name = placed bs v name flags) as Em.
  { unfold moved, placed, rename_place, entry_place. by rewrite Hf2, (proj2 (Z.leb_le _ _)) by lia. }
  eapply wp_call_ok.
  { apply (wp_create_rename s w p d dvp l bs q v name flags); [|done]. constructor; try done.
    - unfold entry_start. by rewrite Hf1.
    - unfold entry_place. by rewrite Hf2.
    - unfold entry_place. rewrite Hf2. lia. }
  intros [] [s1 w1] (Ew & now & H). cbn [fst snd] in *. subst w1. cbn zeta in H. rewrite <- Em in H.
  assert (fv_diroff (moved bs v name) = fv_diroff v) as Eo.
  { unfold moved, rename_place. cbn. by rewrite (proj2 (Z.leb_le _ _)). }
  rewrite Eo in H. set (e := new_d83 _ (moved bs v name) _ _ _ _) in *. unfold renamed. rewrite (proj2 (Z.leb_le _ _)) by lia.
  assert (length e = 32%nat) as He by (apply (new_d83_named (fv_cluster d) (moved bs v name) name FAT32_CRE_RENAME); done).
  assert (length (with_entry bs (fv_diroff v) name e) = length bs) as Hel by (apply with_entry_length; (done || lia)).
  destruct (Z.ltb_spec (dirsz_of name) (fv_dirsz v)) as [Hlt|Hge].
  2:{ apply wp_ret. split; [done|]. exists now. replace (fv_dirsz v - dirsz_of name) with 0 by lia. by rewrite mark_deleted_0. }
  pose proof H as (Hr1 & Ef1 & Ev1 & Eh1 & Hat1 & _). cbn in Ef1, Ev1, Eh1. unfold FAT32_DENTRY_SIZE.
  rewrite (u32_small (fv_diroff v + _)), (u32_small (fv_dirsz v - _)) by lia.
  eapply wp_lift_call; [apply (wp_get_fv _ _ d); by rewrite Ev1, lookup_insert_ne|]. intros ? ? [-> ->].
  eapply (wp_lift_call _ _ _ _ (fun _ s2 => dir_change s1 (fv_cluster d) l (mark_deleted (with_entry bs (fv_diroff v) name e)
    (fv_diroff v + dirsz_of name * 32) (Z.to_nat (fv_dirsz v - dirsz_of name))) s2)).
  { apply wp_try. eapply wp_mono; [apply (wp_delete_chain s1 (fv_cluster d) l (with_entry bs (fv_diroff v) name e)); try done; try lia|].
    - rewrite Z.add_mod, Hal, Z.mod_mul by lia. done.
    - intros r s2. cbn beta. rewrite !decide_True by lia. intros [-> H2]. exact H2. }
  intros _ s2 H2. apply wp_ret. split; [done|]. exists now. replace (32 * dirsz_of name) with (dirsz_of name * 32) by lia.
  refine (dir_change_trans _ _ _ _ _ _ _ _ H _); rewrite <- Ev1; replace (set_fvs (fvs s1) s1) with s1 by (by destruct s1); exact H2.
Qed.

(** New slots, after the old ones have been deleted. *)
Lemma wp_rename_move s w p d dvp l bs q v name flags :
  renaming s w p d dvp l bs q v name -> fv_dirsz v < dirsz_of name ->
  flag flags FAT32_CRE_RENAME = true -> flag flags FAT32_CRE_REUSE = false ->
  wp (do* lift (fat32_delete_fdentry_chain (fv_cluster d) (fv_diroff v) (fv_dirsz v)) in
      fat32_create_fdentry p q name flags) (s, w) (okp (fun _ sw => snd sw = w /\ exists now, let v1 := moved bs v name in
    dir_change (set_fvs (<[q := v1]> (fvs s)) s) (fv_cluster d) l
      (renamed bs v name (new_d83 (fv_cluster d) v1 name FAT32_CRE_RENAME (fv_cluster v) now)) (fst sw))).
Proof.
  intros [Hr Hp Hat Hq Hqp Hlk Hli Hst [Ha1 Ha2] Hcl (H0 & Hal & H1 & Hold) Hroom Hw] Hlt Hf1 Hf2.
  pose proof (dirsz_bounds _ Hst) as [Hz1 Hz2]. pose proof (bpc_eq _ (ready_wf _ Hr)) as [_ Hb].
  assert (length (old_deleted bs v) = length bs) as Hol by apply mark_deleted_length.
  assert (moved bs v name = placed (old_deleted bs v) v name flags) as Em.
  { unfold moved, placed, rename_place, entry_place. by rewrite Hf2, (proj2 (Z.leb_gt _ _)) by lia. }
  assert (rename_place bs v name = slot_place (old_deleted bs v) (dirsz_of name)) as Ep.
  { unfold rename_place. by rewrite (proj2 (Z.leb_gt _ _)) by lia. }
  eapply (wp_lift_call _ _ _ _ (fun _ s1 => dir_change s (fv_cluster d) l (old_deleted bs v) s1)).
  { eapply wp_mono; [apply (wp_delete_chain s (fv_cluster d) l bs); (done || lia)|].
    intros r s1. cbn beta. rewrite !decide_True by lia. by intros [-> H]. }
  intros [] s1 Hs1. pose proof Hs1 as (Hr1 & Ef1 & Ev1 & Eh1 & Hat1 & _).
  destruct (slot_place_free (old_deleted bs v) (dirsz_of name)) as ([Hp0 _] & Hpal & _);
    [rewrite Hol; by apply (dir_length_aligned s (fv_cluster d) l)|lia|lia|].
  eapply wp_mono.
  { apply (wp_create_rename s1 w p d dvp l (old_deleted bs v) q v name flags); [|done]. constructor; try done.
    - by rewrite Ev1.
    - by rewrite Ev1.
    - by rewrite Eh1.
    - unfold entry_start. by rewrite Hf1.
    - unfold entry_place. by rewrite Hf2.
    - unfold entry_place. rewrite Hf2, Hol, <- Ep. lia.
    - rewrite Hol, Ef1. lia. }
  intros [[]| | | |] [s2 w2]; try done. cbn [okp fst snd]. intros (-> & now & H2). split; [done|]. exists now.
  cbn zeta in H2 |- *. rewrite <- Em in H2. unfold renamed. rewrite (proj2 (Z.leb_gt _ _)) by lia.
  change (fv_diroff (moved bs v name)) with (rename_place bs v name) in H2. rewrite Ev1 in H2.
  exact (dir_change_trans _ _ _ _ _ _ _ _ Hs1 H2).
Qed.

Lemma wp_rename_entry s w p d dvp l bs q v name :
  renaming s w p d dvp l bs q v name ->
  wp (rename_entry p p q name true) (s, w) (okp (fun _ sw => snd sw = w /\ exists now, let v1 := moved bs v name in
    dir_change (set_fvs (<[q := v1]> (fvs s)) s) (fv_cluster d) l
      (renamed bs v name (new_d83 (fv_cluster d) v1 name FAT32_CRE_RENAME (fv_cluster v) now)) (fst sw))).
Proof.
  intros Hrn. unfold rename_entry. eapply wp_lift_call; [by apply wp_get_fv, Hrn|]. intros ? ? [-> ->].
  eapply wp_lift_call; [by apply wp_get_fv, Hrn|]. intros ? ? [-> ->]. cbn [andb].
  destruct (Z.leb_spec (dirsz_of name) (fv_dirsz v)).
  - apply (wp_rename_reuse s w p d dvp l bs q v name); [done|done|by destruct (bool_decide _)..].
  - apply (wp_rename_move s w p d dvp l bs q v name); [done|done|by destruct (bool_decide _)..].
Qed.

(** ** [fat32_rename] to a new name in the same directory *)

(** What it is called with.  There is no condition on the rights of the caller:
    [fat32_rename] does not look at them. *)
Record rename_new s w (p : nat) (d : fat32fs_vnode) (dvp : nat) (l bs : list Z) (snm tnm st0 st1 : list Z)
    (x : scan) (e : list Z) : Prop := {
  rw_ready : ready s;
  rw_dir : directory s p d l bs;
  rw_lock : held s !! FvLock p = None;
  rw_live : locks_live s;
  rw_linked : linked w p d dvp;
  rw_stacks : length st0 = 256%nat /\ length st1 = 256%nat;
  rw_source : (length snm <= 255)%nat;
  rw_target : storable tnm;
  rw_differ : snm <> tnm;
  rw_found : lookup_name bs st0 snm = Some (x, e);
  rw_absent : lookup_name bs st1 tnm = None;
  rw_room : rename_place bs (found_fv tb s d (Some (x, e))) tnm + 32 * dirsz_of tnm <= Z.of_nat (length bs);
  rw_width : Z.of_nat (length bs) + 32 * dirsz_of tnm + fsi_bytes_per_cluster (fsi s) < 2 ^ 32
}.

Lemma contents_bytes s l bs : contents s l bs -> Forall is_byte bs.
Proof.
  intros (ds & Hf & ->). apply Forall_concat. apply Forall_lookup_2. intros i d Hd.
  destruct (Forall2_lookup_r _ _ _ _ _ Hf Hd) as (c & _ & Hc). by eapply view_bytes.
Qed.

(** The entry that is renamed. *)
Lemma rename_source s w w1 p d dvp l bs snm tnm st0 st1 x e q q2 cache s2 t :
  rename_new s w p d dvp l bs snm tnm st0 st1 x e -> layer_same w w1 -> fvs s !! q = None -> q <> p -> q2 <> p -> q2 <> q ->
  searched_twice s p d MrUpdate q (found_fv tb s d (Some (x, e))) q2 t cache s2 ->
  renaming s2 w1 p (set_fv_cls_cache cache d) dvp l bs q (found_fv tb s d (Some (x, e))) tnm.
Proof.
  intros [Hr Hd Hl Hlv [L1 L2 L3] [Hstk _] _ Hst _ Hf _ Hroom Hw] Hw1 Hq Hqp Hq2p Hq2q Hs2.
  pose proof Hs2 as (Ef2 & Ev2 & Eh2 & _). cbn in Ef2, Eh2. cbn [fvs set_fvs] in Ev2.
  pose proof (dir_ok _ _ _ _ _ Hd) as Hok. apply file_ok_chain in Hok as (_ & _ & Hch); [|by destruct Hd].
  assert (dir_at s (fv_cluster d) l bs) as Hat by (split; [exact Hch|by destruct Hd]).
  pose proof (dir_length_aligned _ _ _ _ Hr Hat) as Hal.
  destruct (lookup_name_place bs st0 snm x e) as ([Hx1 Hx2] & Hx3 & Hx4 & Hx5 & Hx6); [done|by destruct Hd|done..|].
  destruct (lookup_name_attr bs st0 snm x e) as [Ha1 Ha2]; [by eapply contents_bytes; apply Hat|lia|done|done|].
  constructor; try done.
  - unfold searched_twice in Hs2. rewrite <- Hs2. apply ready_set_fvs, ready_set_held; [done|].
    rewrite lookup_insert_ne by done. apply Hr.
  - rewrite Ev2. rewrite !lookup_insert_ne by done. by rewrite lookup_insert_eq.
  - unfold searched_twice in Hs2. split; rewrite <- Hs2; apply Hat.
  - rewrite Ev2. rewrite lookup_insert_ne by done. by rewrite lookup_insert_eq.
  - rewrite Eh2, lookup_insert_ne by congruence. by apply Hlv.
  - constructor; [done|by rewrite (proj2 (Hw1 dvp))|by rewrite (proj1 (Hw1 dvp))].
  - apply u32_range.
  - cbn. lia.
  - by rewrite Ef2.
Qed.

(** The entry has its new name; the directory's vnode has a new modification
    time and another cluster cache. *)
Definition rename_done s (p : nat) (d : fat32fs_vnode) (l bs : list Z) (v : fat32fs_vnode) (name e : list Z) s' : Prop :=
  exists cache now now', let e' := new_d83 (fv_cluster d) (moved bs v name) name FAT32_CRE_RENAME (first_cluster e) now in
    cache_ok l cache /\ length cache = 16%nat /\
    first_cluster e' = first_cluster e /\ RLE32 (get83 e' D83.file_size) = 0 /\
    dir_change (set_fvs (<[p := modified now' (set_fv_cls_cache cache d)]> (fvs s)) s) (fv_cluster d) l
      (renamed bs v name e') s'.

(** The part between the two searches and the end. *)
Lemma wp_rename_found s w w1 p d dvp l bs snm tnm st0 st1 st2 x e cr q q2 cache s1 :
  rename_new s w p d dvp l bs snm tnm st0 st1 x e -> layer_same w w1 -> fvs s !! q = None -> q <> p -> q2 <> p -> q2 <> q ->
  cache_ok l cache -> length cache = 16%nat ->
  let v := found_fv tb s d (Some (x, e)) in
  searched s p d MrUpdate q v cache s1 ->
  wp (rename_found tb p p q q2 tnm true cr st1 st2) (set_fvs (<[q2 := fresh_fv (fsi s1)]> (fvs s1)) s1, w1)
    (okp (fun _ sw => snd sw = w1 /\ exists cache' now now',
      let e' := new_d83 (fv_cluster d) (moved bs v tnm) tnm FAT32_CRE_RENAME (first_cluster e) now in
      cache_ok l cache' /\ length cache' = 16%nat /\
      dir_change (set_held (<[FvLock p := MrUpdate]> (held s)) (set_fvs
        (<[p := modified now' (set_fv_cls_cache cache' d)]> (<[q2 := found_fv tb s d None]> (<[q := moved bs v tnm]> (fvs s)))) s))
        (fv_cluster d) l (renamed bs v tnm e') (fst sw))).
Proof.
  cbn zeta. intros Hrw Hw1 Hq Hqp Hq2p Hq2q Hca Hcl Hs1. pose proof Hrw as [Hr Hd Hl Hlv Hlk [_ Hst1] _ Hst _ _ Hnone _ _].
  set (v := found_fv tb s d (Some (x, e))) in *. unfold rename_found. apply wp_bind. unfold rename_target. apply wp_bind, wp_try, wp_lift.
  eapply wp_mono; [eapply (wp_find_locked tb s p d l bs MrUpdate q v cache s1 tnm st1 q2); try done; apply Hst|].
  rewrite Hnone. intros r s2 (-> & cache' & Hca' & Hcl' & Hs2). cbn [wpk]. change (ENOENT =? ENOENT) with true. cbn [negb].
  apply wp_ret. cbn [wpk].
  pose proof (rename_source _ _ _ _ _ _ _ _ _ _ _ _ _ _ _ _ _ _ _ Hrw Hw1 Hq Hqp Hq2p Hq2q Hs2) as Hrn. fold v in Hrn.
  eapply wp_call_ok; [by apply (wp_rename_entry s2 w1 p (set_fv_cls_cache cache' d) dvp l bs q v tnm)|].
  intros [] [s3 w3] (Ew & now & H3). cbn [fst snd] in Ew, H3. subst w3. cbn zeta in H3. change (fv_cluster (set_fv_cls_cache cache' d)) with (fv_cluster d) in H3.
  change (fv_cluster v) with (first_cluster e) in H3.
  pose proof Hs2 as (Ef2 & Ev2 & Eh2 & _). cbn in Ef2, Eh2. cbn [fvs set_fvs] in Ev2.
  pose proof H3 as (_ & _ & Ev3 & _). cbn [fvs set_fvs] in Ev3.
  eapply wp_lift_call; [apply (wp_get_fv _ _ (moved bs v tnm)); by rewrite Ev3, lookup_insert_eq|]. intros ? ? [-> ->].
  rewrite andb_false_r. repeat wp_step.
  eapply wp_lift_call; [apply (wp_touch_mtime _ _ (set_fv_cls_cache cache' d))|].
  { rewrite Ev3, lookup_insert_ne, Ev2 by done. rewrite !lookup_insert_ne by done. by rewrite lookup_insert_eq. }
  intros [] s4 H4. apply wp_ret. split; [done|]. cbn [fst].
  exists cache', now, (snd (nanotime (kst s3))). split; [done|]. split; [done|].
  set (m := <[p := modified _ _]> (<[q2 := _]> _)). set (h := <[FvLock p := MrUpdate]> (held s)) in *.
  pose proof H4 as (Ef4 & Ev4 & Eh4 & Ew4). cbn in Ef4, Eh4, Ew4. cbn [fvs set_fvs] in Ev4.
  pose proof H3 as (_ & _ & _ & Eh3 & _). cbn in Eh3.
  assert (fvs s4 = m) as Em.
  { rewrite Ev4, Ev3, Ev2. rewrite (insert_insert_ne _ q q2), insert_insert_eq by done.
    rewrite (insert_insert_ne _ q p), (insert_insert_ne _ q2 p), insert_insert_eq by done. done. }
  apply (dir_change_equiv _ _ _ _ (set_held h (set_fvs m s3))).
  { split; [exact Ef4|]. split; [exact Em|]. split; [cbn; congruence|exact Ew4]. }
  eapply (dir_change_rebase s h (<[q := moved bs v tnm]> (fvs s2)) (set_fvs (<[q := moved bs v tnm]> (fvs s2)) s2)); [|exact H3|].
  - exact (set_fvs_again _ _ _ _ Hs2).
  - unfold h. rewrite lookup_insert_ne by done. apply Hr.
Qed.

(** The directory is locked and changed, and the structures are [m] but for the
    directory's. *)
Definition rename_state s w (p : nat) (d : fat32fs_vnode) (l bs : list Z) (v : fat32fs_vnode) (name e : list Z)
    (m : gmap nat fat32fs_vnode) (sw : st K * V) : Prop :=
  layer_same w (snd sw) /\ exists cache now now',
    let e' := new_d83 (fv_cluster d) (moved bs v name) name FAT32_CRE_RENAME (first_cluster e) now in
    cache_ok l cache /\ length cache = 16%nat /\
    dir_change (set_held (<[FvLock p := MrUpdate]> (held s)) (set_fvs
      (<[p := modified now' (set_fv_cls_cache cache d)]> m) s)) (fv_cluster d) l (renamed bs v name e') (fst sw).

(** A temporary structure is freed. *)
Lemma wp_rename_cleanup s w p d l bs v name e m q u sw :
  rename_state s w p d l bs v name e (<[q := u]> m) sw -> m !! q = None -> q <> p -> fv_parent_vp u = None ->
  held s !! FvLock q = None -> held s !! CacheLock q = None ->
  wp (fat32_vnode_delete q) sw (okp (fun _ sw' => rename_state s w p d l bs v name e m sw')).
Proof.
  intros (Hw & cache & now & now' & Hca & Hcl & H) Hm Hqp Hu Hq1 Hq2. destruct sw as [s1 w1]. cbn [fst snd] in *.
  pose proof H as (_ & _ & Ev & Eh & _). cbn in Eh. cbn [fvs set_held set_fvs] in Ev.
  eapply wp_mono; [apply (wp_vnode_delete s1 w1 q u); [|done|..]|].
  - by rewrite Ev, lookup_insert_ne, lookup_insert_eq.
  - by rewrite Eh, lookup_insert_ne by congruence.
  - by rewrite Eh, lookup_insert_ne by congruence.
  - intros [[]| | | |] sw; try done. cbn [okp]. intros ->. split; [done|]. exists cache, now, now'. split; [done|]. split; [done|].
    cbn [fst]. set (M := <[p := modified _ _]> m).
    assert (delete q (fvs s1) = M) as ->.
    { rewrite Ev, delete_insert_ne by done. rewrite delete_insert_id; done. }
    exact (dir_change_set_fvs (set_held (<[FvLock p := MrUpdate]> (held s)) s) _ _ _ _ M _ H).
Qed.

(** The directory is unlocked. *)
Lemma rename_state_done s w p d l bs v name e sw :
  ready s -> rename_state s w p d l bs v name e (fvs s) sw ->
  0 <= first_cluster e < 2 ^ 32 -> storable name ->
  layer_same w (snd sw) /\ rename_done s p d l bs v name e (set_held (held s) (fst sw)).
Proof.
  intros Hr (Hw & cache & now & now' & Hca & Hcl & H) He Hst. split; [done|]. exists cache, now, now'.
  destruct (new_d83_cluster (fv_cluster d) (moved bs v name) name FAT32_CRE_RENAME (first_cluster e) now Hst He) as [E1 E2].
  split; [done|]. split; [done|]. split; [done|]. split; [done|]. destruct sw as [s1 w1]. cbn [fst].
  pose proof H as (_ & _ & Ev & _). cbn [fvs set_held set_fvs] in Ev. set (M := <[p := _]> (fvs s)) in *.
  replace (set_held (held s) s1) with (set_held (held s) (set_fvs M s1)) by (rewrite <- Ev; by destruct s1).
  replace (set_fvs M s) with (set_held (held s) (set_fvs M s)) by (by destruct s).
  eapply dir_change_rebase; [reflexivity|exact H|apply Hr].
Qed.

Lemma wp_rename_new s w p d dvp l bs snm tnm st0 st1 st2 x e cr :
  rename_new s w p d dvp l bs snm tnm st0 st1 x e ->
  wp (fat32_rename tb p snm dvp tnm cr st0 st1 st2) (s, w) (okp (fun _ sw =>
    layer_same w (snd sw) /\ rename_done s p d l bs (found_fv tb s d (Some (x, e))) tnm e (fst sw))).
Proof.
  intros Hrw. pose proof Hrw as [Hr Hd Hl Hlv [L1 L2 L3] [Hst0 Hst1] Hsn Hst Hne Hf Hnone _ _].
  pose proof (dir_fv _ _ _ _ _ Hd) as Hp. set (v := found_fv tb s d (Some (x, e))) in *.
  unfold fat32_rename, VNODE_TO_FV. repeat wp_step. cbn [snd]. rewrite L2. cbn [of_opt]. repeat wp_step.
  eapply wp_lift_call; [by apply wp_get_fv|]. intros ? ? [-> ->]. eapply wp_lift_call; [by apply wp_get_fv|]. intros ? ? [-> ->].
  rewrite Z.eqb_refl, bool_decide_false by done. cbn [andb].
  eapply wp_lift_call; [by apply wp_lock|]. intros [] ? ->. repeat wp_step.
  eapply wp_call_ok; [apply wp_vnode_new|]. intros ? [s0 w0] (q & -> & Hq & E & Hw). cbn [fst snd] in E, Hw. subst s0.
  cbn [of_opt]. repeat wp_step. cbn [fvs fsi set_held] in Hq |- *. assert (q <> p) as Hqp by congruence.
  destruct (Hlv q Hq) as [Hq1 Hq2].
  apply (wp_finally_ok _ _ _ (fun _ sw => rename_state s w p d l bs v tnm e (fvs s) sw)).
  { apply (wp_finally_ok _ _ _ (fun _ sw => rename_state s w p d l bs v tnm e (<[q := moved bs v tnm]> (fvs s)) sw)).
    2:{ cbn beta. intros [] sw H. by apply (wp_rename_cleanup s w p d l bs v tnm e (fvs s) q _ sw H). }
    apply wp_bind, wp_lift. eapply wp_mono; [by apply (wp_find_new tb s p d l bs MrUpdate q snm st0)|].
    intros r s1 (-> & cache & Hca & Hcl & Hs1). rewrite Hf in Hs1 |- *. cbn [wpk]. fold v in Hs1.
    pose proof Hs1 as (_ & Ev1 & _). cbn [fvs set_held set_fvs] in Ev1.
    eapply wp_call_ok; [apply wp_vnode_new|]. intros ? [s0 w1] (q2 & -> & Hn2 & E & Hw1). cbn [fst snd] in E, Hw1. subst s0.
    rewrite Ev1 in Hn2. apply lookup_insert_None in Hn2 as [Hn2 Hqq]. apply lookup_insert_None in Hn2 as [Hn2 Hqp2].
    destruct (Hlv q2 Hn2) as [Hl1 Hl2]. cbn [of_opt]. repeat wp_step.
    eapply wp_finally_ok; [eapply (wp_rename_found s w w1 p d dvp l bs snm tnm st0 st1 st2 x e cr q q2 cache s1); try done; by etrans|].
    cbn beta. intros [] sw (Ew & cache' & now & now' & Hca' & Hcl' & H3).
    apply (wp_rename_cleanup s w p d l bs v tnm e (<[q := moved bs v tnm]> (fvs s)) q2 (found_fv tb s d None) sw); try done.
    - split; [rewrite Ew; by etrans|]. exists cache', now, now'. by split_and!.
    - by rewrite lookup_insert_ne. }
  cbn beta. intros [] [s3 w3] H. repeat wp_step. pose proof H as (_ & cache & now & now' & _ & _ & (_ & _ & _ & Eh3 & _)). cbn in Eh3.
  apply wp_lift. eapply wp_mono; [by apply (wp_unlock _ _ MrUpdate (held s))|]. intros [[]| | | |] s4; try done. cbn [okp]. intros ->.
  apply (rename_state_done s w p d l bs v tnm e (s3, w3)); [done|done|apply u32_range|done].
Qed.

(** C15: [fat32_rename] to a name that the directory does not hold, within one
    directory, returns without error whatever the rights of the caller.  When
    the new name needs no more slots than the old one, the entry is written
    where the old one was and the slots left over are deleted; else the old
    slots are deleted and the entry is written at the first free place.  The new
    entry has the first cluster, the attributes and the times of the old one but
    the size 0.  No other byte of the directory, no chain and no other file
    changes; the directory gets a new modification time, the locks are released
    and the temporary structures are freed. *)
Theorem rename_correct s w p d dvp l bs snm tnm st0 st1 st2 x e cr :
  rename_new s w p d dvp l bs snm tnm st0 st1 x e ->
  wp (fat32_rename tb p snm dvp tnm cr st0 st1 st2) (s, w) (okp (fun _ sw =>
    layer_same w (snd sw) /\ rename_done s p d l bs (found_fv tb s d (Some (x, e))) tnm e (fst sw))).
Proof. apply wp_rename_new. Qed.

End rename.

(** ** Witnesses *)

(** "Hello world.txt" becomes "notes.txt", which needs one slot less. *)
Lemma demo_rename :
  rename_new 32 demo_vol demo_layer 2 demo_root_fv 9 [2] demo_slots demo_name demo_new demo_stack demo_stack
    (demo_find demo_name).1 (demo_find demo_name).2.
Proof.
  constructor;
    [apply demo_vol_ready|apply demo_vol_directory|reflexivity|apply demo_vol_locks|apply demo_layer_linked|by split|cbn; lia
    |apply demo_new_storable|discriminate|by vm_compute|by vm_compute|by vm_compute|reflexivity].
Qed.

Lemma rename_correct_witness :
  wp (fat32_rename 32 2 demo_name 9 demo_new demo_root_cred demo_stack demo_stack demo_stack) (demo_vol, demo_layer)
    (okp (fun _ sw => layer_same demo_layer (snd sw) /\
      rename_done demo_vol 2 demo_root_fv [2] demo_slots
        (found_fv 32 demo_vol demo_root_fv (Some ((demo_find demo_name).1, (demo_find demo_name).2))) demo_new
        (demo_find demo_name).2 (fst sw))).
Proof.
  apply (rename_correct 32 demo_vol demo_layer 2 demo_root_fv 9 [2] demo_slots demo_name demo_new demo_stack demo_stack
           demo_stack (demo_find demo_name).1 (demo_find demo_name).2 demo_root_cred).
  apply demo_rename.
Defined.

(** Run on the volume: the entry had the size 1300 and has the size 0. *)
Example demo_rename_size :
  RLE32 (get83 (demo_find demo_name).2 D83.file_size) = 1300 /\
  match fat32_rename 32 2 demo_name 9 demo_new demo_root_cred demo_stack demo_stack demo_stack (demo_vol, demo_layer) with
  | ((s', _), Ok _) =>
      match cluster_bytes s' 2 with
      | Some bs => option_map (fun y => RLE32 (get83 y.2 D83.file_size)) (lookup_name bs demo_stack demo_new) = Some 0
      | None => False
      end
  | _ => False
  end.
Proof. by vm_compute. Qed.
