(* ===== verification/ReaddirSpec.v ===== *)
(** * Reading a directory

    [fat32_readdir] gives the user the records of the entries of the directory,
    in their order, as many as fit. *)
From S2P Require Import Prelude Layout Time Names Kernel Device Cls Fat Demo Alloc Chain Free Cache File Truncate Access Io IoSpec WriteSpec Dir DirSpec LfnSpec Vnode Nameops Vnops Readdir Listing Remove VnodeSpec VnopsSpec DirDemo.

(** The record of an entry holds the header, the name with its terminator and
    less than 8 bytes of padding; the ABI of the caller does not change. *)
Class DirentAbiLaws (U : Type) `{!Uio U, !DirentAbi U} : Prop := {
  direntbasesize_pos irix5 : 0 < direntbasesize irix5;
  direntsize_ok irix5 n : 0 <= n ->
    direntbasesize irix5 + n + 1 <= direntsize irix5 n <= direntbasesize irix5 + n + 8;
  dirent_header_length irix5 d n : Z.of_nat (length (dirent_header irix5 d n)) = direntbasesize irix5;
  is_irix5_move u bs : is_irix5 (fst (uiomove_read bs u)) = is_irix5 u
}.

(** ** The records *)

Section records.
Context {U : Type} `{!Uio U, !DirentAbi U}.

Definition record (irix5 : bool) (d : dirent) (name : list Z) (size : Z) : list Z :=
  dirent_header irix5 d (u16 (direntsize irix5 size)) ++ take (Z.to_nat (size + 1)) name ++
  zeros (Z.to_nat (direntsize irix5 size - (direntbasesize irix5 + size + 1))).

(** A record with the offset behind it. *)
Definition item : Type := Z * list Z.
Definition entry_item (irix5 : bool) (c : Z) (y : scan * list Z) : item :=
  let '(next, d, name, size) := dirent_answer c y.1 in (next, record irix5 d name size).

(** The two entries that the root directory has no slots for. *)
Definition dot_item (irix5 : bool) : item := (1, record irix5 (mkDirent 0 1) [46; 0] 1).
Definition dotdot_item (irix5 : bool) : item := (2, record irix5 (mkDirent 0 2) [46; 46; 0] 2).

(** The records of a directory with the bytes [bs] from the offset [off]. *)
Definition dots (irix5 root : bool) (off : Z) : list item :=
  if root then
    if off =? 0 then [dot_item irix5; dotdot_item irix5] else if off =? 1 then [dotdot_item irix5] else []
  else [].
Definition dir_entries (root : bool) (bs : list Z) (off : Z) (buf : list Z) : list (scan * list Z) :=
  entries (length bs) bs (if root && (off <? 32) then 0 else off)
    (if root && ((off =? 0) || (off =? 1)) then splice buf 0 [46; 46; 0] else buf).
Definition dir_items (irix5 root : bool) (c : Z) (bs : list Z) (off : Z) (buf : list Z) : list item :=
  dots irix5 root off ++ map (entry_item irix5 c) (dir_entries root bs off buf).

(** Reading a list of records into a buffer of [resid] bytes: what the user
    gets, the offset behind it, the error and the end-of-file flag.  When not
    even the first record fits, the error is EINVAL. *)
Fixpoint give (items : list item) (resid off : Z) (emitted : bool) : list Z * Z * option Z * bool :=
  if negb (0 <? resid) then ([], off, if emitted then Some 0 else None, false) else
  match items with
  | [] => ([], off, Some 0, true)
  | (next, r) :: items' =>
      if resid <? Z.of_nat (length r) then ([], off, Some (if emitted then 0 else EINVAL), false)
      else let '(out, off', error, eof) := give items' (resid - Z.of_nat (length r)) next true in
           (r ++ out, off', error, eof)
  end.

End records.

Section readdir.
Context {K U : Type} `{!Kernel K, !KernelLaws K, !Uio U, !UioLaws U, !DirentAbi U, !DirentAbiLaws U}.
Context (tb : Z).
Implicit Types (s : st K) (u : U).

Lemma record_length irix5 d name size :
  0 <= size -> size + 1 <= Z.of_nat (length name) ->
  Z.of_nat (length (record irix5 d name size)) = direntsize irix5 size.
Proof.
  intros H0 Hl. pose proof (direntsize_ok irix5 size H0). pose proof (dirent_header_length irix5 d (u16 (direntsize irix5 size))).
  unfold record. rewrite !length_app, length_take. unfold zeros. rewrite length_replicate. lia.
Qed.

(** [u1] has received [bs] after [u]. *)
Definition given u (bs : list Z) u1 : Prop :=
  user_ok u1 /\ uio_resid u1 = uio_resid u - Z.of_nat (length bs) /\ user_got u1 = user_got u ++ bs /\ is_irix5 u1 = is_irix5 u.

Lemma given_app u bs u1 bs' u2 : given u bs u1 -> given u1 bs' u2 -> given u (bs ++ bs') u2.
Proof.
  intros (A1 & A2 & A3 & A4) (B1 & B2 & B3 & B4). split; [done|]. rewrite B2, B3, B4, A2, A3, A4, length_app, app_assoc.
  split_and!; (done || lia).
Qed.

Lemma wp_move_out s u bs :
  user_ok u -> Z.of_nat (length bs) <= uio_resid u ->
  wp (move_out bs) (s, u) (okp (fun _ su => fst su = s /\ given u bs (snd su))).
Proof.
  intros Hok Hle. unfold move_out. apply wp_bind. unfold wp, do_uio_read. cbn.
  pose proof (is_irix5_move u bs) as Habi. destruct (uiomove_read bs u) as [u' e] eqn:E. cbn in *.
  destruct (uiomove_read_ok _ _ _ _ Hok Hle E) as (-> & H1 & H2 & _ & H3). cbn. split; [done|]. by split_and!.
Qed.

Lemma wp_emit s u d name size :
  user_ok u -> 0 <= size -> size + 1 <= Z.of_nat (length name) ->
  wp (fat32_emit_dirent d name size) (s, u) (fun r su => fst su = s /\
    let rec := record (is_irix5 u) d name size in
    if uio_resid u <? Z.of_nat (length rec) then r = Err EINVAL /\ snd su = u
    else r = Ok tt /\ given u rec (snd su)).
Proof.
  intros Hok H0 Hl. cbn zeta. rewrite record_length by done. unfold fat32_emit_dirent. repeat wp_step. cbn [snd].
  destruct (Z.ltb_spec (uio_resid u) (direntsize (is_irix5 u) size)) as [Hlt|Hge]; [by apply wp_throw|].
  pose proof (direntsize_ok (is_irix5 u) size H0). pose proof (direntbasesize_pos (is_irix5 u)).
  pose proof (dirent_header_length (is_irix5 u) d (u16 (direntsize (is_irix5 u) size))) as Hh.
  eapply wp_call_ok; [apply wp_move_out; [done|lia]|]. intros [] [s1 u1] (E & G1). cbn [fst snd] in *. subst s1.
  rewrite bsub_Some by lia. cbn [of_opt]. repeat wp_step. rewrite Z2Nat.inj_0, drop_0.
  pose proof (length_take name (Z.to_nat (size + 1))) as Ht. pose proof G1 as (K1 & R1 & _ & A1).
  eapply wp_call_ok; [apply wp_move_out; [done|lia]|]. intros [] [s2 u2] (E & G2). cbn [fst snd] in *. subst s2.
  set (pad := direntsize (is_irix5 u) size - (direntbasesize (is_irix5 u) + size + 1)).
  pose proof G2 as (K2 & R2 & _ & A2). pose proof (given_app _ _ _ _ _ G1 G2) as G12. unfold record. fold pad.
  destruct (Z.eqb_spec pad 0) as [Hp|Hp].
  - rewrite Hp. apply wp_ret. split; [done|]. split; [done|]. cbn. by rewrite app_nil_r.
  - rewrite bsub_Some by (cbn; lia). cbn [of_opt]. repeat wp_step.
    assert (take (Z.to_nat pad) (drop (Z.to_nat 0) (replicate 8 0)) = zeros (Z.to_nat pad)) as ->.
    { rewrite Z2Nat.inj_0, drop_0, take_replicate. unfold zeros. f_equal. lia. }
    assert (length (zeros (Z.to_nat pad)) = Z.to_nat pad) as Hz by apply length_replicate.
    eapply wp_mono; [apply wp_move_out; [done|lia]|]. intros [[]| | | |] [s3 u3]; try done. cbn [okp fst snd].
    intros (-> & G3). split; [done|]. split; [done|]. rewrite app_assoc. by eapply given_app.
Qed.

(** ** The loop *)

Lemma wp_emit_step s u x d name size next :
  user_ok u -> 0 <= size -> size + 1 <= Z.of_nat (length name) ->
  wp (emit_step x d name size next) (s, u) (okp (fun r su => fst su = s /\
    let rec := record (is_irix5 u) d name size in
    if uio_resid u <? Z.of_nat (length rec)
    then r = inr (mkRd (rd_offset x) name (rd_emitted x) (rd_eof x) (Some (if rd_emitted x then 0 else EINVAL))) /\ snd su = u
    else r = inl (mkRd next name true (rd_eof x) (Some 0)) /\ given u rec (snd su))).
Proof.
  intros Hok H0 Hl. cbn zeta. unfold emit_step. apply wp_bind, wp_try.
  eapply wp_mono; [by apply wp_emit|]. intros r [s1 u1] (E & H). cbn [fst snd] in *. subst s1.
  destruct (uio_resid u <? _); destruct H as [-> H]; cbn [wpk].
  - apply wp_ret. subst u1. split; [done|]. split; [|done]. by destruct (rd_emitted x).
  - by apply wp_ret.
Qed.

(** The state of the loop has the outcome of [give]. *)
Definition loop_post (g : list Z * Z * option Z * bool) u (y : rdpos) u' : Prop :=
  let '(out, off, error, eof) := g in given u out u' /\ rd_offset y = off /\ rd_error y = error /\ rd_eof y = eof.

Definition loop_inv (x : rdpos) u : Prop :=
  length (rd_name x) = 256%nat /\ rd_eof x = false /\ rd_error x = (if rd_emitted x then Some 0 else None) /\ user_ok u.

Lemma given_refl u : user_ok u -> given u [] u.
Proof. intros H. split; [done|]. rewrite app_nil_r. cbn. split_and!; (done || lia). Qed.

(** A record is emitted, and the rest of the loop follows. *)
Lemma wp_emit_round s p x u d name size next items fuel (Qs : st K -> Prop) :
  loop_inv x u -> length name = 256%nat -> 0 <= size <= 255 -> 0 < uio_resid u -> Qs s ->
  (forall u', user_ok u' -> given u (record (is_irix5 u) d name size) u' -> 0 <= uio_resid u' < uio_resid u ->
     wp (iter fuel (readdir_step tb p) (mkRd next name true false (Some 0))) (s, u')
       (okp (fun y su => Qs (fst su) /\ loop_post (give items (uio_resid u') next true) u' y (snd su)))) ->
  wp (emit_step x d name size next) (s, u)
    (wpk (fun r => match r with inl x' => iter fuel (readdir_step tb p) x' | inr y => ret y end)
    (okp (fun y su => Qs (fst su) /\
      loop_post (give ((next, record (is_irix5 u) d name size) :: items) (uio_resid u) (rd_offset x) (rd_emitted x)) u y (snd su)))).
Proof.
  intros (Hn & Heof & Herr & Hok) Hl Hsz Hres HQ Hrest. eapply wp_mono; [apply wp_emit_step; (done || lia)|].
  intros [r| | | |] [s1 u1] H; try done. destruct H as (E & H). cbn [fst snd] in *. subst s1. cbn [wpk give].
  rewrite (proj2 (Z.ltb_lt 0 _)) by done. cbn [negb].
  pose proof (record_length (is_irix5 u) d name size ltac:(lia) ltac:(lia)) as Hrl.
  pose proof (direntsize_ok (is_irix5 u) size ltac:(lia)). pose proof (direntbasesize_pos (is_irix5 u)).
  destruct (Z.ltb_spec (uio_resid u) (Z.of_nat (length (record (is_irix5 u) d name size)))); destruct H as [-> H].
  - subst u1. apply wp_ret. split; [done|]. cbn. split; [by apply given_refl|done].
  - rewrite Heof. pose proof H as (K1 & R1 & G1 & A1). eapply wp_mono; [apply Hrest; (done || lia)|].
    intros [y| | | |] [s2 u2]; try done. cbn [okp fst snd]. intros [HQ2 Hp]. split; [done|]. rewrite R1 in Hp.
    destruct (give items _ next true) as [[[out off'] error] eof]. destruct Hp as (Hg & Hrest').
    split; [|done]. by eapply given_app.
Qed.

Lemma iter_readdir fuel p x : iter (S fuel) (readdir_step tb p) x =
  (let* r := readdir_step tb p x in match r with inl x' => iter fuel (readdir_step tb p) x' | inr y => ret y end).
Proof. reflexivity. Qed.

(** The loop ends when the buffer is full. *)
Lemma wp_readdir_full s p x u fuel items (Qs : st K -> Prop) :
  loop_inv x u -> ~ 0 < uio_resid u -> Qs s ->
  wp (iter (S fuel) (readdir_step tb p) x) (s, u) (okp (fun y su => Qs (fst su) /\
    loop_post (give items (uio_resid u) (rd_offset x) (rd_emitted x)) u y (snd su))).
Proof.
  intros (Hn & Heof & Herr & Hok) Hres HQ. rewrite iter_readdir. unfold readdir_step. repeat wp_step. cbn [snd].
  rewrite (proj2 (Z.ltb_ge _ _)) by lia. cbn [negb]. repeat wp_step. split; [done|].
  assert (give items (uio_resid u) (rd_offset x) (rd_emitted x) = ([], rd_offset x, if rd_emitted x then Some 0 else None, false)) as ->.
  { destruct items as [|[] ]; cbn [give]; by rewrite (proj2 (Z.ltb_ge _ _)) by lia. }
  split; [by apply given_refl|done].
Qed.

(** ** The slots of the directory *)

(** One more entry of the listing. *)
Lemma entries_next n bs off buf buf' :
  0 <= off -> off mod 32 = 0 -> Z.of_nat (length bs) mod 32 = 0 -> Z.of_nat (length bs) < 2 ^ 32 -> length buf = 256%nat ->
  Z.of_nat (length bs) - off <= 32 * Z.of_nat n -> bput buf 0 [0] = Some buf' ->
  entries n bs off buf =
  match scan_dir bs off (mkScan off buf' 256 false 0) with
  | Some (ScanFound y e) => (y, e) :: entries (n - 1) bs (u32 (current_offset y + FAT32_DENTRY_SIZE)) (d_name y)
  | _ => []
  end.
Proof.
  intros Hoff Hal Hlen Hw Hb Hn Hput. pose proof (bput_length _ _ _ _ Hput) as Hl. rewrite Hb in Hl.
  destruct n as [|n]; [|cbn [entries]; by rewrite Hput, Nat.sub_1_r].
  destruct (scan_dir bs off _) as [[|y|y e]|] eqn:E; try done.
  destruct (scan_dir_found _ _ _ _ _ Hoff Hal Hlen Hw Hl E) as (_ & H1 & H2 & _). lia.
Qed.

(** Every name that the scan finds is shorter than the buffer. *)
Definition names_fit (es : list (scan * list Z)) : Prop := Forall (fun y => name_size y.1 <= 255) es.

(** The offset on the disk. *)
Definition disk_off (root : bool) (x : rdpos) : Z := if root && (rd_offset x <? FAT32_DENTRY_SIZE) then 0 else rd_offset x.

(** The directory is as in [s] but for the cluster cache of its vnode. *)
Lemma cache_moved_directory s p v l bs s1 :
  ready s -> directory s p v l bs -> cache_moved s p v l s1 ->
  ready s1 /\ exists cache, cache_ok l cache /\ length cache = 16%nat /\
    set_fvs (<[p := set_fv_cls_cache cache v]> (fvs s)) s ≡ s1 /\ directory s1 p (set_fv_cls_cache cache v) l bs.
Proof.
  intros Hr Hd (cache & Hca & Hcl & Hs1). split; [rewrite <- Hs1; by apply ready_set_fvs|].
  exists cache. do 3 (split; [done|]). apply (directory_equiv _ _ _ _ _ _ Hs1). apply directory_set_fvs; try done.
  by rewrite lookup_insert_eq.
Qed.

Lemma wp_readdir_slots s p v l bs fuel n x s1 u :
  ready s -> directory s p v l bs -> cache_moved s p v l s1 -> loop_inv x u ->
  let root := flag (fv_flags v) FV_ROOT in
  (root = true -> rd_offset x <> 0 /\ rd_offset x <> 1) -> 0 <= rd_offset x < 2 ^ 32 -> disk_off root x mod 32 = 0 ->
  Z.of_nat (length bs) - disk_off root x <= 32 * Z.of_nat n -> 0 <= uio_resid u < Z.of_nat fuel ->
  names_fit (entries n bs (disk_off root x) (rd_name x)) ->
  wp (iter fuel (readdir_step tb p) x) (s1, u) (okp (fun y su => cache_moved s p v l (fst su) /\
    loop_post (give (map (entry_item (is_irix5 u) (fv_cluster v)) (entries n bs (disk_off root x) (rd_name x)))
                 (uio_resid u) (rd_offset x) (rd_emitted x)) u y (snd su))).
Proof.
  cbn zeta. intros Hr Hd. revert n x s1 u. induction fuel as [|fuel IH]; intros n x s1 u Hs1 Hinv Hroot Hoff Hal Hn Hfuel Hfit.
  { lia. }
  destruct (decide (0 < uio_resid u)) as [Hres|Hres]; [|by apply wp_readdir_full].
  pose proof Hinv as (Hnl & Heof & Herr & Hok). set (root := flag (fv_flags v) FV_ROOT) in *. set (off := disk_off root x) in *.
  destruct (cache_moved_directory s p v l bs s1 Hr Hd Hs1) as (Hr1 & cache & Hca & Hcl & He1 & Hd1).
  set (v1 := set_fv_cls_cache cache v) in *. assert (0 <= off < 2 ^ 32) as Hoff2 by (unfold off, disk_off; destruct (_ && _); lia).
  assert (Z.of_nat (length bs) mod 32 = 0) as Hlen.
  { pose proof (dir_ok _ _ _ _ _ Hd) as Hfo. apply file_ok_chain in Hfo as (_ & _ & Hch); [|by destruct Hd].
    apply (dir_length_aligned s (fv_cluster v) l); [done|]. split; [exact Hch|by destruct Hd]. }
  destruct (rd_name x) as [|c0 nm] eqn:Enm; [done|]. rewrite <- Enm in *. set (buf := splice (rd_name x) 0 [0]).
  assert (bput (rd_name x) 0 [0] = Some buf) as Hput by (rewrite splice_bput; [done|lia|rewrite Hnl; cbn; lia]).
  assert (length buf = 256%nat) as Hbl by (by rewrite (bput_length _ _ _ _ Hput)).
  rewrite (entries_next n bs off (rd_name x) buf) in Hfit |- * by (try done; try lia; by destruct Hd).
  rewrite iter_readdir. apply wp_bind. unfold readdir_step at 1. repeat wp_step. cbn [snd].
  rewrite (proj2 (Z.ltb_lt _ _)) by done. cbn [negb].
  eapply wp_lift_call; [by apply wp_get_fv, Hd1|]. intros ? ? [-> ->]. change (flag (fv_flags v1) FV_ROOT) with root.
  assert ((rd_offset x =? 0) && root = false /\ (rd_offset x =? 1) && root = false) as [-> ->].
  { destruct root; [|by rewrite !andb_false_r]. destruct (Hroot eq_refl) as [H0 H1].
    by rewrite (proj2 (Z.eqb_neq _ _) H0), (proj2 (Z.eqb_neq _ _) H1). }
  fold (disk_off root x). fold off. rewrite Hput. cbn [of_opt]. apply wp_bind, wp_ret. cbn [wpk]. apply wp_bind, wp_try, wp_lift.
  eapply wp_mono; [by apply (wp_get_dirent tb s1 p v1 l bs off buf None)|].
  intros r s2 (cache2 & Hca2 & Hcl2 & H). cbn zeta in H.
  assert (forall s2, set_fvs (<[p := set_fv_cls_cache cache2 v1]> (fvs s1)) s1 ≡ s2 -> cache_moved s p v l s2) as Hmv.
  { intros s3 H3. exists cache2. split; [done|]. split; [done|]. pose proof He1 as (_ & Ev1 & _). cbn in Ev1.
    rewrite Ev1, insert_insert_eq in H3. etrans; [|exact H3]. exact (set_fvs_again _ _ _ _ He1). }
  destruct (scan_dir bs off (mkScan off buf 256 false 0)) as [[|y|y e]|] eqn:Escan; destruct H as [-> H]; cbn [wpk].
  1,2,4: change (ENOENT =? ENOENT) with true; cbn iota; apply wp_ret; cbn [wpk map]; apply wp_ret; split; [by apply Hmv|];
    cbn [give]; rewrite (proj2 (Z.ltb_lt _ _)) by done; split; [by apply given_refl|done].
  destruct (scan_dir_found bs off buf y e) as ([Hyl Hys] & Hy1 & Hy2 & Hy3 & _); try done; [lia|by destruct Hd|].
  assert (Z.of_nat (length bs) < 2 ^ 32) as Hw by by destruct Hd.
  apply Forall_cons in Hfit as [Hyn Hfit]. cbn [fst] in Hyn. unfold dirent_answer. cbn iota beta zeta. cbn [map].
  unfold FAT32_DENTRY_SIZE in *. rewrite (u32_small (current_offset y + 32)) in * by lia.
  change (entry_item (is_irix5 u) (fv_cluster v) (y, e)) with
    (u32 (current_offset y + 32), record (is_irix5 u) (mkDirent (fat32_pack_ino (fv_cluster v) (entry_start_offset y) (num_slots y))
       (u32 (current_offset y + 32))) (d_name y) (name_size y)). rewrite (u32_small (current_offset y + 32)) by lia.
  apply wp_emit_round; try done; try lia; [by apply Hmv|]. intros u' Hok' Hg Hrs. pose proof Hg as (_ & Hres' & _ & Habi). rewrite <- Habi.
  set (x' := mkRd (current_offset y + 32) (d_name y) true false (Some 0)).
  assert (disk_off root x' = current_offset y + 32) as Ed.
  { unfold disk_off, FAT32_DENTRY_SIZE. cbn [rd_offset x']. rewrite (proj2 (Z.ltb_ge _ _)) by lia. by rewrite andb_false_r. }
  specialize (IH (n - 1)%nat x' s2 u' (Hmv _ H)). rewrite Ed in IH. apply IH.
  - by split_and!.
  - intros _. cbn. lia.
  - cbn. lia.
  - Z.div_mod_to_equations. lia.
  - lia.
  - lia.
  - done.
Qed.

(** ** The whole function *)

Lemma record_head irix5 d name size cs :
  Z.of_nat (length cs) = size + 1 -> length cs <> 0%nat -> (length cs <= length name)%nat ->
  record irix5 d (splice name 0 cs) size = record irix5 d cs size.
Proof.
  intros Hc H0 Hl. unfold record. assert (Z.to_nat (size + 1) = length cs) as -> by lia.
  assert (take (length cs) (splice name 0 cs) = cs) as ->; [|by rewrite take_ge by lia].
  unfold splice. rewrite take_0, app_nil_l. apply take_app_length.
Qed.

Lemma splice_head cs cs' (name : list Z) :
  (length cs <= length cs')%nat -> (length cs' <= length name)%nat -> splice (splice name 0 cs) 0 cs' = splice name 0 cs'.
Proof.
  intros H1 H2. apply list_eq. intros i. assert (length (splice name 0 cs) = length name) by (apply length_splice; lia).
  rewrite lookup_splice, (lookup_splice name 0 cs') by lia. case_decide; [done|]. rewrite lookup_splice by lia.
  by rewrite decide_False by lia.
Qed.

(** The step at the offset of one of the two entries without slots. *)
Lemma wp_dot_step s p v x u fuel items (Qs : st K -> Prop) k :
  fvs s !! p = Some v -> flag (fv_flags v) FV_ROOT = true -> loop_inv x u -> rd_offset x = k -> k = 0 \/ k = 1 -> Qs s ->
  let name := if k =? 0 then [46; 0] else [46; 46; 0] in
  (forall u', user_ok u' -> is_irix5 u' = is_irix5 u -> 0 <= uio_resid u' < uio_resid u ->
     wp (iter fuel (readdir_step tb p) (mkRd (k + 1) (splice (rd_name x) 0 name) true false (Some 0))) (s, u')
       (okp (fun y su => Qs (fst su) /\ loop_post (give items (uio_resid u') (k + 1) true) u' y (snd su)))) ->
  wp (iter (S fuel) (readdir_step tb p) x) (s, u) (okp (fun y su => Qs (fst su) /\
    loop_post (give ((if k =? 0 then dot_item (is_irix5 u) else dotdot_item (is_irix5 u)) :: items)
                 (uio_resid u) (rd_offset x) (rd_emitted x)) u y (snd su))).
Proof.
  cbn zeta. intros Hp Hroot Hinv Hoff Hk HQ Hrest. destruct (decide (0 < uio_resid u)) as [Hres|Hres]; [|by apply wp_readdir_full].
  pose proof Hinv as (Hnl & _). rewrite iter_readdir. apply wp_bind. unfold readdir_step at 1. repeat wp_step. cbn [snd].
  rewrite (proj2 (Z.ltb_lt _ _)) by done. cbn [negb]. eapply wp_lift_call; [by apply wp_get_fv|]. intros ? ? [-> ->].
  rewrite Hroot. replace (rd_offset x =? 0) with (k =? 0) by (by rewrite Hoff).
  replace (rd_offset x =? 1) with (k =? 1) by (by rewrite Hoff). destruct Hk as [-> | ->]; cbn [Z.eqb Pos.eqb andb] in *.
  - rewrite splice_bput by (rewrite ?Hnl; cbn; lia). cbn [of_opt]. apply wp_bind, wp_ret. cbn [wpk Z.to_nat].
    unfold dot_item. rewrite <- (record_head (is_irix5 u) (mkDirent 0 1) (rd_name x) 1 [46; 0]) by (rewrite ?Hnl; cbn; lia).
    apply wp_emit_round; try done; [by rewrite length_splice by (rewrite Hnl; cbn; lia)|].
    intros u' Hok' (_ & _ & _ & Habi) Hrs. by apply Hrest.
  - rewrite splice_bput by (rewrite ?Hnl; cbn; lia). cbn [of_opt]. apply wp_bind, wp_ret. cbn [wpk Z.to_nat].
    unfold dotdot_item. rewrite <- (record_head (is_irix5 u) (mkDirent 0 2) (rd_name x) 2 [46; 46; 0]) by (rewrite ?Hnl; cbn; lia).
    apply wp_emit_round; try done; [by rewrite length_splice by (rewrite Hnl; cbn; lia)|].
    intros u' Hok' (_ & _ & _ & Habi) Hrs. by apply Hrest.
Qed.

Lemma wp_readdir_loop s p v l bs fuel stack off u :
  ready s -> directory s p v l bs -> user_ok u -> length stack = 256%nat -> 0 <= off < 2 ^ 32 ->
  let root := flag (fv_flags v) FV_ROOT in
  (if root && (off <? 32) then 0 else off) mod 32 = 0 -> 0 <= uio_resid u < Z.of_nat fuel ->
  names_fit (dir_entries root bs off stack) ->
  wp (iter fuel (readdir_step tb p) (mkRd off stack false false None)) (s, u) (okp (fun y su => cache_moved s p v l (fst su) /\
    loop_post (give (dir_items (is_irix5 u) root (fv_cluster v) bs off stack) (uio_resid u) off false) u y (snd su))).
Proof.
  cbn zeta. intros Hr Hd Hok Hst Hoff Hal Hfuel Hfit. set (root := flag (fv_flags v) FV_ROOT) in *.
  pose proof (cache_moved_refl s p v l bs Hd) as Hcm. pose proof (dir_fv _ _ _ _ _ Hd) as Hp.
  set (x0 := mkRd off stack false false None). assert (loop_inv x0 u) as Hinv by (by split_and!).
  unfold dir_items, dir_entries, dots in *. set (buf2 := splice stack 0 [46; 46; 0]) in *.
  assert (length buf2 = 256%nat) as Hb2 by (unfold buf2; by rewrite length_splice by (cbn; lia)).
  (* behind the two entries of the root *)
  assert (root = true -> names_fit (entries (length bs) bs 0 buf2) -> forall u' fuel', user_ok u' -> is_irix5 u' = is_irix5 u ->
    0 <= uio_resid u' < Z.of_nat fuel' ->
    wp (iter fuel' (readdir_step tb p) (mkRd 2 buf2 true false (Some 0))) (s, u') (okp (fun y su => cache_moved s p v l (fst su) /\
      loop_post (give (map (entry_item (is_irix5 u) (fv_cluster v)) (entries (length bs) bs 0 buf2)) (uio_resid u') 2 true) u' y (snd su)))) as H2.
  { intros Hroot Hf u' fuel' Hok' Habi Hres'. set (x2 := mkRd 2 buf2 true false (Some 0)).
    assert (disk_off root x2 = 0) as Ed by (unfold disk_off; by rewrite Hroot). rewrite <- Habi.
    pose proof (wp_readdir_slots s p v l bs fuel' (length bs) x2 s u' Hr Hd Hcm) as H. cbn zeta in H. fold root in H. rewrite Ed in H.
    apply H; try done; cbn; lia. }
  destruct root eqn:Hroot; cbn [andb orb] in *.
  2:{ pose proof (wp_readdir_slots s p v l bs fuel (length bs) x0 s u Hr Hd Hcm Hinv) as H. cbn zeta in H. fold root in H.
      unfold disk_off in H. rewrite Hroot in H. cbn [andb rd_offset rd_name rd_emitted x0] in H. apply H; (done || lia). }
  destruct (Z.eqb_spec off 0) as [E0|E0]; [|destruct (Z.eqb_spec off 1) as [E1|E1]]; cbn [orb app] in *.
  - destruct fuel as [|fuel]; [lia|]. apply (wp_dot_step s p v x0 u fuel _ _ 0 Hp Hroot Hinv E0); [by left|done|].
    cbn [Z.eqb Z.add rd_name x0]. intros u1 Hok1 Habi1 Hres1. destruct fuel as [|fuel]; [lia|].
    set (x1 := mkRd 1 (splice stack 0 [46; 0]) true false (Some 0)). rewrite <- Habi1.
    assert (loop_inv x1 u1) as Hinv1 by (split_and!; try done; cbn; by rewrite length_splice by (cbn; lia)).
    apply (wp_dot_step s p v x1 u1 fuel _ _ 1 Hp Hroot Hinv1 eq_refl); [by right|done|].
    cbn [Z.eqb Pos.eqb Z.add Pos.add rd_name x1]. rewrite splice_head by (cbn; lia). fold buf2. intros u2 Hok2 Habi2 Hres2.
    rewrite Habi1. rewrite E0 in Hfit |- *. cbn [Z.ltb Z.compare] in Hfit |- *. apply H2; try done; [congruence|lia].
  - destruct fuel as [|fuel]; [lia|]. apply (wp_dot_step s p v x0 u fuel _ _ 1 Hp Hroot Hinv E1); [by right|done|].
    cbn [Z.eqb Pos.eqb Z.add Pos.add rd_name x0]. fold buf2. intros u1 Hok1 Habi1 Hres1. rewrite E1 in Hfit |- *. cbn [Z.ltb Z.compare] in Hfit |- *. apply H2; try done. lia.
  - pose proof (wp_readdir_slots s p v l bs fuel (length bs) x0 s u Hr Hd Hcm Hinv) as H. cbn zeta in H. fold root in H.
    unfold disk_off in H. rewrite Hroot in H. cbn [andb rd_offset rd_name rd_emitted x0] in H. apply H; try done.
    destruct (off <? FAT32_DENTRY_SIZE); lia.
Qed.

(** With room for at least a byte the loop has assigned [error]. *)
Lemma give_error items resid off : 0 < resid -> exists e, (give items resid off false).1.2 = Some e.
Proof.
  intros Hres. assert (forall items resid off, exists e, (give items resid off true).1.2 = Some e) as Ht.
  { clear. induction items as [|[next r] items IH]; intros resid off; cbn [give]; destruct (negb _); try by eexists.
    destruct (resid <? _); [by eexists|]. destruct (IH (resid - Z.of_nat (length r)) next) as [e He].
    destruct (give items _ next true) as [[[out o] er] eof]. by exists e. }
  destruct items as [|[next r] items]; cbn [give]; rewrite (proj2 (Z.ltb_lt _ _)) by done; cbn [negb]; [by eexists|].
  destruct (resid <? _); [by eexists|]. destruct (Ht items (resid - Z.of_nat (length r)) next) as [e He].
  destruct (give items _ next true) as [[[out o] er] eof]. by exists e.
Qed.

Lemma wp_readdir s u p v l bs stack :
  ready s -> directory s p v l bs -> held s !! FvLock p = None -> user_ok u -> 0 < uio_resid u -> length stack = 256%nat ->
  let root := flag (fv_flags v) FV_ROOT in
  let off := u32 (uio_offset u) in
  (if root && (off <? 32) then 0 else off) mod 32 = 0 -> names_fit (dir_entries root bs off stack) ->
  let '(out, off', error, eof) := give (dir_items (is_irix5 u) root (fv_cluster v) bs off stack) (uio_resid u) off false in
  wp (fat32_readdir tb p stack) (s, u) (fun r su =>
    cache_moved s p v l (fst su) /\ user_got (snd su) = user_got u ++ out /\
    uio_resid (snd su) = uio_resid u - Z.of_nat (length out) /\ uio_offset (snd su) = off' /\
    r = if bool_decide (error = Some 0) then Ok eof else Err (default 0 error)).
Proof.
  cbn zeta. intros Hr Hd Hl Hok Hres Hst Hal Hfit. pose proof (u32_range (uio_offset u)) as Hoff.
  set (off := u32 (uio_offset u)) in *. set (items := dir_items _ _ _ _ _ _).
  pose proof (give_error items (uio_resid u) off Hres) as [e0 He0].
  destruct (give items (uio_resid u) off false) as [[[out off'] error] eof] eqn:Eg. cbn in He0. subst error.
  unfold fat32_readdir. eapply wp_lift_call; [by apply wp_get_fv, Hd|]. intros ? ? [-> ->].
  rewrite bool_decide_true by by destruct Hd. cbn [negb]. eapply wp_lift_call; [by apply wp_lock|]. intros [] ? ->.
  repeat wp_step. cbn [snd fst]. fold off. set (s1 := set_held _ s).
  assert (ready s1) as Hr1 by (apply ready_set_held; [done|rewrite lookup_insert_ne by done; apply Hr]).
  assert (directory s1 p v l bs) as Hd1.
  { destruct Hd. constructor; try done. cbn. by rewrite lookup_insert_ne. }
  eapply wp_call_ok; [apply (wp_readdir_loop s1 p v l bs _ stack off u); try done; lia|].
  intros y [s2 u2] [(cache & Hca & Hcl & Hs2) Hp]. cbn [fst snd] in *. fold items in Hp. rewrite Eg in Hp.
  destruct Hp as ((K2 & R2 & G2 & A2) & Ho & He & Hf). pose proof Hs2 as (E1 & E2 & E3 & E4). cbn in E1, E2, E3, E4.
  eapply wp_lift_call; [by apply (wp_unlock _ _ MrAccess (held s))|]. intros [] ? ->. repeat wp_step. cbn [fst snd].
  assert (cache_moved s p v l (set_held (held s) s2)) as Hcm.
  { exists cache. split; [done|]. split; [done|]. split; [exact E1|]. split; [exact E2|]. split; [done|exact E4]. }
  rewrite He. cbn [of_opt]. repeat wp_step. rewrite Hf.
  assert (forall r : res bool, cache_moved s p v l (set_held (held s) s2) /\
    user_got (set_uio_offset (rd_offset y) u2) = user_got u ++ out /\
    uio_resid (set_uio_offset (rd_offset y) u2) = uio_resid u - Z.of_nat (length out) /\
    uio_offset (set_uio_offset (rd_offset y) u2) = off' /\ r = r) as Hall.
  { intros r. rewrite set_uio_offset_got, set_uio_offset_resid, set_uio_offset_get. by split_and!. }
  destruct (Z.eqb_spec e0 0) as [-> |Hne].
  - rewrite bool_decide_true by done. apply wp_ret. apply (Hall (Ok eof)).
  - rewrite bool_decide_false by congruence. apply wp_throw. apply (Hall (Err e0 : res bool)).
Qed.

(** C17: [fat32_readdir] gives the user the records of the directory's entries
    from the offset of the request, in their order: for the root "." and ".."
    first, then the entries that a scan of the directory's bytes yields.  It
    stops before the first record that does not fit, at the end of the
    directory, which it reports, or when the buffer is full; the new offset is
    behind the last record.  EINVAL means that not even the first record fits.
    Nothing but the cluster cache of the directory changes, and the lock is
    released.  The names have at most 255 characters; without this condition see
    [readdir_overrun]. *)
Theorem readdir_correct s u p v l bs stack :
  ready s -> directory s p v l bs -> held s !! FvLock p = None -> user_ok u -> 0 < uio_resid u -> length stack = 256%nat ->
  let root := flag (fv_flags v) FV_ROOT in
  let off := u32 (uio_offset u) in
  (if root && (off <? 32) then 0 else off) mod 32 = 0 -> names_fit (dir_entries root bs off stack) ->
  let '(out, off', error, eof) := give (dir_items (is_irix5 u) root (fv_cluster v) bs off stack) (uio_resid u) off false in
  wp (fat32_readdir tb p stack) (s, u) (fun r su =>
    cache_moved s p v l (fst su) /\ user_got (snd su) = user_got u ++ out /\
    uio_resid (snd su) = uio_resid u - Z.of_nat (length out) /\ uio_offset (snd su) = off' /\
    r = if bool_decide (error = Some 0) then Ok eof else Err (default 0 error)).
Proof. apply wp_readdir. Qed.

End readdir.

(** ** The small volume *)

(** The 64-bit records: inode number, offset and length, then the name, padded
    to a multiple of 8 bytes. *)
Definition be (n : nat) (x : Z) : list Z := map (fun i => Z.land (Z.shiftr x (8 * Z.of_nat (n - 1 - i))) 255) (seq 0 n).
#[global] Instance demo_abi : DirentAbi demo_uio := {
  is_irix5 _ := false;
  direntbasesize _ := 18;
  direntsize _ x := (18 + x + 1 + 7) / 8 * 8;
  dirent_header _ d reclen := be 8 (d_ino d) ++ be 8 (d_off d) ++ be 2 reclen
}.

#[global] Instance demo_abi_laws : DirentAbiLaws demo_uio.
Proof.
  constructor; cbn.
  - lia.
  - intros _ n Hn. Z.div_mod_to_equations. lia.
  - done.
  - done.
Qed.

(** The directory is the root of the file system. *)
Definition demo_top_fv : fat32fs_vnode := set_fv_flags FV_ROOT demo_root_fv.
Definition demo_top : st device := set_fvs (<[2%nat := demo_top_fv]> (fvs demo_vol)) demo_vol.
Definition demo_getdents : demo_uio := demo_request 0 1000 [].

Lemma demo_top_ready : ready demo_top.
Proof. apply ready_set_fvs, demo_vol_ready. Qed.

Lemma demo_top_directory : directory demo_top 2 demo_top_fv [2] demo_slots.
Proof. destruct demo_vol_directory. constructor; try done. Qed.

Lemma readdir_correct_witness :
  let root := flag (fv_flags demo_top_fv) FV_ROOT in
  let off := u32 (uio_offset demo_getdents) in
  let '(out, off', error, eof) :=
    give (dir_items (is_irix5 demo_getdents) root (fv_cluster demo_top_fv) demo_slots off demo_stack)
      (uio_resid demo_getdents) off false in
  wp (fat32_readdir 32 2 demo_stack) (demo_top, demo_getdents) (fun r su =>
    cache_moved demo_top 2 demo_top_fv [2] (fst su) /\ user_got (snd su) = user_got demo_getdents ++ out /\
    uio_resid (snd su) = uio_resid demo_getdents - Z.of_nat (length out) /\ uio_offset (snd su) = off' /\
    r = if bool_decide (error = Some 0) then Ok eof else Err (default 0 error)).
Proof.
  apply (readdir_correct 32 demo_top demo_getdents 2 demo_top_fv [2] demo_slots demo_stack);
    [apply demo_top_ready|apply demo_top_directory|reflexivity|reflexivity|reflexivity|reflexivity|reflexivity|].
  unfold names_fit. vm_compute. repeat constructor; discriminate.
Defined.

(** The whole listing fits: four records, the second file at the offset 160. *)
Example demo_getdents_result :
  let '(su, r) := fat32_readdir 32 2 demo_stack (demo_top, demo_getdents) in
  r = Ok true /\ uio_offset su.2 = 160 /\
  user_got su.2 =
    concat [record false (mkDirent 0 1) [46; 0] 1; record false (mkDirent 0 2) [46; 46; 0] 2;
            record false (mkDirent (fat32_pack_ino 2 0 1) 32) (demo_readme ++ [0]) 10;
            record false (mkDirent (fat32_pack_ino 2 64 3) 160) (demo_name ++ [0]) 15].
Proof. vm_compute. done. Qed.

(** ** A name of 256 characters

    In the directory of [DirDemo.demo_orphan] a long-name slot without the LAST
    flag stands before the second entry.  The name's size is then the size of
    the buffer, and [fat32_emit_dirent] copies one byte more than the buffer
    has. *)
Definition demo_orphaned : st device :=
  set_kst (mkDevice ∅ (<[4 := demo_orphan]> demo_disk) (mkTimespec 1700000000 0)) demo_vol.

Example readdir_overrun :
  snd (fat32_readdir 32 2 demo_stack (demo_orphaned, demo_getdents)) = Fault /\
  match entries (length demo_orphan) demo_orphan 32 demo_stack with
  | (x, _) :: _ => name_size x = 256 /\ length (d_name x) = 256%nat
  | [] => False
  end.
Proof. vm_compute. done. Qed.
