(* ===== verification/MkdirSpec.v ===== *)
(** * Making directories

    [fat32_mkdir] allocates a cluster for the new directory, writes the entries
    "." and ".." into it and enters its name in the parent. *)
From S2P Require Import Prelude Layout Time Names Kernel Device Cls Fat Demo Alloc Chain Free Cache File Truncate Access Io IoSpec WriteSpec Dir DirSpec LfnSpec Vnode Nameops Vnops Listing Remove VnodeSpec VnopsSpec DirDemo Slots Insert CreateSpec.

(** ** The first bytes of a directory *)

(** The entries "." and "..", made at [now], in the directory at cluster [c] with
    the parent at [parent]; 0 stands for the root. *)
Definition dot_slot (c : Z) (now : timespec) : list Z :=
  let '(date, time, tenths) := fat_stamp now in dot_entry date time tenths c.
Definition dotdot_slot (f : fat32fs_info) (c parent : Z) (now : timespec) : list Z :=
  set_first_cluster (if parent =? fsi_root_cluster f then 0 else parent) (set83 D83.name dotdot_name (dot_slot c now)).
Definition new_dir (f : fat32fs_info) (c parent : Z) (now : timespec) : list Z :=
  splice (splice (zeros (bpc f)) 0 (dot_slot c now)) 32 (dotdot_slot f c parent now).

Definition dot_members (c : Z) (name : list Z) (now : timespec) : list (D83.field * list Z) :=
  let '(date, time, tenths) := fat_stamp now in
  [(D83.first_cluster_lo, WLE16 (Z.land c 0xFFFF)); (D83.first_cluster_hi, WLE16 (u16 (Z.shiftr c 16)));
   (D83.last_access_date, WLE16 date); (D83.write_time, WLE16 time); (D83.write_date, WLE16 date);
   (D83.create_time_tenth, [tenths]); (D83.create_time, WLE16 time); (D83.create_date, WLE16 date);
   (D83.attr, [FAT32_ATTR_DIRECTORY]); (D83.name, name)].

Lemma dot_members_ok c name now :
  length name = 11%nat -> Forall is_byte name ->
  sized D83.fat32_dirent83 (dot_members c name now) /\ Forall (fun a => Forall is_byte a.2) (dot_members c name now).
Proof.
  intros Hl Hb. unfold dot_members, fat_stamp. destruct (unix_to_fat_some now) as [[[d t] h] E]. rewrite E. cbn [default from_option id].
  split; unfold sized; rewrite !Forall_cons; split_and!; try done; try apply WLE16_bytes.
  - apply Forall_singleton. by eapply unix_to_fat_tenths.
  - by apply Forall_singleton.
Qed.

(** An entry of a directory that is not its own: a name of dots, a cluster. *)
Record dot_entry_ok (c : Z) (name e : list Z) : Prop := {
  de_length : length e = 32%nat;
  de_bytes : Forall is_byte e;
  de_name : get83 e D83.name = name;
  de_attr : get83 e D83.attr = [FAT32_ATTR_DIRECTORY];
  de_size : RLE32 (get83 e D83.file_size) = 0;
  de_cluster : first_cluster e = c
}.

Lemma split_cluster_get e c :
  0 <= c < 2 ^ 32 -> get83 e D83.first_cluster_lo = WLE16 (Z.land c 0xFFFF) ->
  get83 e D83.first_cluster_hi = WLE16 (u16 (Z.shiftr c 16)) -> first_cluster e = c.
Proof.
  intros Hc H1 H2. unfold first_cluster. rewrite H1, H2, !RLE16_WLE16. change 0xFFFF with (2 ^ 16 - 1).
  rewrite land_ones_mod, shiftr_div by lia. unfold u16.
  rewrite !Z.mod_mod by lia. rewrite lor_shiftl_add by (try apply Z.mod_pos_bound; lia).
  rewrite (Z.mod_small (c / 2 ^ 16)) by (split; [apply Z.div_pos|apply Z.div_lt_upper_bound]; lia).
  rewrite u32_small; Z.div_mod_to_equations; lia.
Qed.

(** Same members, same values: a dot entry in any order of its assignments. *)
Lemma dot_entry_intro ms c name now :
  0 <= c < 2 ^ 32 -> sized D83.fat32_dirent83 ms -> Forall (fun a => Forall is_byte a.2) ms ->
  (forall fl, assigned ms fl = assigned (dot_members c name now) fl) ->
  dot_entry_ok c name (assign D83.fat32_dirent83 ms (replicate 32 0)).
Proof.
  intros Hc Hs Hb He. pose proof (fun fl => assign_spec D83.fat32_dirent83 ms (replicate 32 0) fl eq_refl Hs) as Hg.
  assert (forall fl, get83 (assign D83.fat32_dirent83 ms (replicate 32 0)) fl =
            default (get83 (replicate 32 0) fl) (assigned (dot_members c name now) fl)) as Hget.
  { intros fl. rewrite <- He. apply Hg. }
  unfold dot_members in Hget. destruct (fat_stamp now) as [[date time] tenths].
  constructor; try (rewrite Hget; reflexivity).
  - apply (Hg D83.name).
  - apply assign_bytes; [|done]. apply Forall_replicate. split; lia.
  - apply split_cluster_get; [done|rewrite Hget; reflexivity..].
Qed.

Lemma dot_slot_ok c now : 0 <= c < 2 ^ 32 -> dot_entry_ok c dot_name (dot_slot c now).
Proof.
  intros Hc. destruct (dot_members_ok c dot_name now) as [Hs Hb]; [done|by repeat constructor|].
  replace (dot_slot c now) with (assign D83.fat32_dirent83 (dot_members c dot_name now) (replicate 32 0)).
  - by eapply dot_entry_intro.
  - unfold dot_members, dot_slot. by destruct (fat_stamp now) as [[date time] tenths].
Qed.

Lemma dotdot_slot_ok f c parent now :
  0 <= parent < 2 ^ 32 ->
  dot_entry_ok (if parent =? fsi_root_cluster f then 0 else parent) dotdot_name (dotdot_slot f c parent now).
Proof.
  intros Hp. set (pc := if parent =? _ then _ else _). assert (0 <= pc < 2 ^ 32) as Hpc by (unfold pc; case_match; lia).
  destruct (dot_members_ok c dot_name now) as [Hs Hb]; [done|by repeat constructor|].
  replace (dotdot_slot f c parent now) with (assign D83.fat32_dirent83
    ((D83.first_cluster_lo, WLE16 (Z.land pc 0xFFFF)) :: (D83.first_cluster_hi, WLE16 (u16 (Z.shiftr pc 16))) ::
     (D83.name, dotdot_name) :: dot_members c dot_name now) (replicate 32 0)).
  - apply (dot_entry_intro _ pc dotdot_name now Hpc).
    + repeat constructor. exact Hs.
    + do 2 (apply Forall_cons; split; [apply WLE16_bytes|]). apply Forall_cons. split; [by repeat constructor|exact Hb].
    + intros fl. unfold dot_members. destruct (fat_stamp now) as [[date time] tenths]. by destruct fl.
  - unfold dot_members, dotdot_slot, dot_slot. by destruct (fat_stamp now) as [[date time] tenths].
Qed.

Lemma bpc_512 f : fs_wf f -> (512 <= bpc f)%nat.
Proof.
  intros []. unfold bpc. rewrite wf_bytes_per_cluster, wf_spc. assert (0 < 2 ^ fsi_spc_shift f) by (apply Z.pow_pos_nonneg; lia). lia.
Qed.

Lemma new_dir_bytes f c parent now :
  fs_wf f -> 0 <= c < 2 ^ 32 -> 0 <= parent < 2 ^ 32 ->
  (512 <= bpc f)%nat /\ new_dir f c parent now = dot_slot c now ++ dotdot_slot f c parent now ++ zeros (bpc f - 64).
Proof.
  intros Hwf Hc Hp. destruct (dot_slot_ok c now Hc) as [Hl1 _ _ _ _ _]. destruct (dotdot_slot_ok f c parent now Hp) as [Hl2 _ _ _ _ _].
  split; [by apply bpc_512|].
  unfold new_dir, splice. rewrite take_0, app_nil_l, Hl1, Hl2. cbn [Nat.add].
  rewrite (take_app_length' (dot_slot c now)) by done. f_equal. f_equal. rewrite drop_app_ge by lia. rewrite Hl1, drop_drop. unfold zeros.
  rewrite drop_replicate. done.
Qed.

(** A new directory: the two entries, no other, and nothing that counts. *)
Lemma new_dir_slots f c parent now :
  fs_wf f -> 0 <= c < 2 ^ 32 -> 0 <= parent < 2 ^ 32 ->
  length (new_dir f c parent now) = bpc f /\ dir_slots (new_dir f c parent now) = [dot_slot c now; dotdot_slot f c parent now] /\
  occupied (new_dir f c parent now) = false.
Proof.
  intros Hwf Hc Hp. destruct (dot_slot_ok c now Hc) as [Hl1 _ Hn1 Ha1 _ _].
  destruct (dotdot_slot_ok f c parent now Hp) as [Hl2 _ Hn2 Ha2 _ _].
  destruct (new_dir_bytes f c parent now Hwf Hc Hp) as [Hb E].
  set (e1 := dot_slot c now) in *. set (e2 := dotdot_slot f c parent now) in *.
  assert (length (new_dir f c parent now) = bpc f) as Hlen.
  { rewrite E, !length_app, Hl1, Hl2. unfold zeros. rewrite length_replicate. lia. }
  assert (dir_slots (new_dir f c parent now) = [e1; e2]) as Hs.
  { unfold dir_slots. rewrite Hlen. pose proof (Nat.div_le_mono 512 (bpc f) 32 ltac:(lia) Hb) as Hn. change (512 / 32)%nat with 16%nat in Hn.
    replace (bpc f / 32)%nat with (S (S (S (bpc f / 32 - 3)))) by lia. rewrite E. cbn [live_slots]. unfold slice.
    rewrite drop_0, (take_app_length' e1), Hn1 by done. cbn [dot_name nth Z.eqb Pos.eqb]. f_equal.
    rewrite (drop_app_length' e1), (take_app_length' e2), Hn2 by done. cbn [dotdot_name nth Z.eqb Pos.eqb]. f_equal.
    rewrite (drop_app_ge e1) by (rewrite Hl1; cbn; lia). rewrite Hl1, (drop_app_length' e2) by (rewrite Hl2; done).
    unfold zeros. rewrite take_replicate. replace (32 `min` (bpc f - 64))%nat with 32%nat by lia. done. }
  split; [done|]. split; [done|]. unfold occupied. rewrite Hs. cbn [existsb]. unfold counts. by rewrite Hn1, Hn2, Ha1, Ha2.
Qed.

(** ** [fat32_init_dir] *)

Section init_dir.
Context {K : Type} `{!Kernel K, !KernelLaws K}.
Implicit Types s : st K.

Lemma wp_clear_zero s c :
  ready s -> in_range (fsi s) c -> clearable s ->
  wp (fat32_clear_cluster c) s (okp (fun _ s' => cluster_put s c (zeros (bpc (fsi s))) s')).
Proof.
  intros Hr Hc Hcl. eapply wp_mono; [apply wp_clear_cluster; [by apply ready_wf|done]|].
  intros [[]| | | |] s' H; try done. cbn [okp] in *. destruct H as (Ef & Ev & Eh & Hz & Hw).
  split; [done|]. split; [done|]. split; [done|]. split; [|done]. unfold cluster_bytes. rewrite Ef.
  apply zero_cluster; [done|by apply ready_wf|]. intros i Hi. apply Hz; [done|]. by apply Hcl.
Qed.

Lemma dir_at_single s c d : file_chain s c [c] -> cluster_bytes s c = Some d -> dir_at s c [c] d.
Proof. intros Hch Hd. split; [done|]. exists [d]. split; [by repeat constructor|]. cbn. by rewrite app_nil_r. Qed.

Lemma put_dir_change s c d s' :
  ready s -> file_chain s c [c] -> cluster_put s c d s' -> dir_change s c [c] d s'.
Proof.
  intros Hr Hch Hput. pose proof (chain_range _ _ _ _ Hch) as Hc. rewrite Forall_singleton in Hc.
  pose proof Hput as (Ef & Ev & Eh & Hd & _).
  split; [by eapply put_ready|]. do 3 (split; [done|]). split; [apply dir_at_single; [by eapply put_chain|done]|].
  split; [by eapply put_keeps|by eapply put_data].
Qed.

(** An entry written into a directory that has been changed. *)
Lemma wp_write_change s s1 c l bs off e :
  dir_change s c l bs s1 -> 0 <= off < Z.of_nat (length bs) -> off mod 32 = 0 -> length e = 32%nat -> Forall is_byte e ->
  wp (fat32_write_fdentry c off e) s1 (okp (fun _ s2 => dir_change s c l (splice bs (Z.to_nat off) e) s2)).
Proof.
  intros H Hoff Hal Hl Hb. pose proof H as (Hr & _ & _ & _ & Hat & _).
  eapply wp_mono; [apply (wp_write_fdentry s1 c l bs off e); (done || lia)|]. intros r s2. cbn beta.
  rewrite decide_True by lia. intros [-> H2]. cbn [okp]. by eapply dir_change_step.
Qed.

Lemma wp_init_dir s c parent :
  ready s -> file_chain s c [c] -> clearable s -> 0 <= parent < 2 ^ 32 ->
  wp (fat32_init_dir c parent) s (okp (fun _ s' => exists now, dir_change s c [c] (new_dir (fsi s) c parent now) s')).
Proof.
  intros Hr Hch Hcl Hp. pose proof (chain_range _ _ _ _ Hch) as Hc. rewrite Forall_singleton in Hc.
  assert (0 <= c < 2 ^ 32) as Hc32 by (pose proof (wf_cluster_count _ (ready_wf _ Hr)); unfold in_range in Hc; lia).
  pose proof (ready_wf _ Hr) as Hwf. destruct (bpc_eq _ Hwf) as [Hb _].
  pose proof (bpc_512 _ Hwf) as Hb512.
  unfold fat32_init_dir. eapply wp_call_ok; [by apply wp_clear_zero|]. intros [] s1 H1. apply put_dir_change in H1; [|done|done].
  eapply wp_call_ok; [apply wp_do_nanotime|]. intros now s2 (_ & Hs2). apply (dir_change_equiv _ _ _ _ _ _ Hs2) in H1.
  destruct (unix_to_fat_some now) as [[[date time] tenths] E].
  eapply (wp_call_ok _ _ _ (fun t s' => t = (date, time, tenths) /\ s' = s2)); [by apply (wp_of_opt _ (date, time, tenths))|].
  intros ? ? [-> ->]. cbn iota.
  replace (dot_entry date time tenths c) with (dot_slot c now) by (unfold dot_slot, fat_stamp; by rewrite E).
  destruct (dot_slot_ok c now Hc32) as [Hl1 Hy1 _ _ _ _]. destruct (dotdot_slot_ok (fsi s) c parent now Hp) as [Hl2 Hy2 _ _ _ _].
  assert (length (zeros (bpc (fsi s))) = bpc (fsi s)) as Hz by apply length_replicate.
  eapply wp_call_ok; [by apply (wp_write_change s s2 c [c] _ 0 _ H1); try done; lia|]. intros [] s3 H3. repeat wp_step.
  pose proof H3 as (_ & Ef3 & _). rewrite Ef3. fold (dotdot_slot (fsi s) c parent now).
  eapply wp_mono; [apply (wp_write_change s s3 c [c] _ 32 _ H3); try done|].
  - rewrite length_splice by (cbn; lia). lia.
  - intros [[]| | | |] s4 H4; try done. by exists now.
Qed.

(** ** The cluster of a new directory *)

Definition allocated (f : fat32fs_info) (n : Z) : fat32fs_info :=
  set_fsi_next_free (alloc_pos f n 1) (set_fsi_free_count (u32 (fsi_free_count f - 1)) f).

(** The first free cluster [n] has become a directory with the parent [parent]. *)
Record dir_made s (parent n : Z) s' : Prop := {
  dm_free : first_free s (alloc_hint (fsi s)) n;
  dm_ready : ready s';
  dm_fsi : fsi s' = allocated (fsi s) n;
  dm_fvs : fvs s' = fvs s;
  dm_held : held s' = held s;
  dm_new : exists now, dir_at s' n [n] (new_dir (fsi s) n parent now);
  dm_keeps : keeps s [] s' [n];
  dm_data : data_keeps s [n] s'
}.

(** The blocks of the data area stay readable. *)
Lemma alloc_clearable s n s1 :
  ready s -> clearable s -> alloc_post s 0 GROW n s1 -> clearable s1.
Proof.
  intros Hr Hcl Ha. pose proof (ready_wf _ Hr) as Hwf. pose proof Ha as (Hff & Ef & _ & _ & _ & _ & _ & Hv & Hz & _).
  assert (in_range (fsi s) n) as Hn by (eapply alloc_post_range; [|done]; by eapply alloc_post_count).
  assert (geom (fsi s1) = geom (fsi s)) as Hg by (by rewrite Ef).
  split; [|destruct Hcl as [_ Hc]; by rewrite Ef]. intros x i Hx Hi.
  assert (in_range (fsi s) x /\ 0 <= i < fsi_sectors_per_cluster (fsi s)) as [Hx' Hi'] by (rewrite Ef in Hx, Hi; done).
  replace (fat32_cluster_to_sector (fsi s1) x) with (fat32_cluster_to_sector (fsi s) x) by (by rewrite Ef).
  destruct (decide (x = n)) as [->|Hne].
  - rewrite Hz; [by eexists|done|done|]. by apply Hcl.
  - rewrite Hv; [by apply Hcl| | |].
    + pose proof (cluster_chunk _ _ Hwf Hx'). unfold outside_fat, chunks_disjoint. lia.
    + pose proof (cluster_chunk _ _ Hwf Hx'). destruct Hwf. unfold chunks_disjoint. nia.
    + intros _. pose proof (clusters_disjoint _ _ _ Hwf Hn Hx') as Hd. unfold chunks_disjoint in *.
      specialize (Hd (not_eq_sym Hne)). lia.
Qed.

Lemma wp_entry_cluster_dir s p q d flags :
  ready s -> clearable s -> fvs s !! p = Some d -> 0 <= fv_cluster d < 2 ^ 32 ->
  flag flags FAT32_CRE_RENAME = false -> flag flags FAT32_CRE_DIR = true ->
  wp (entry_cluster p q flags) s (fun r s' => match r with
    | Ok n => dir_made s (fv_cluster d) n s'
    | Err e => e = ENOSPC /\ s ≡ s'
    | _ => False
    end).
Proof.
  intros Hr Hcl Hp Hc Hf1 Hf2. unfold entry_cluster. rewrite Hf1, Hf2. fold GROW.
  pose proof Hr as [[Hwf Hfat Hinfo] Hl].
  eapply wp_call; [apply (wp_next_grow s 0 GROW); [done|done|done|done|done|by left]|].
  intros [n|e| | |] s1; try done; cbn [alloc_result wpk]; [|by intros (-> & Hs1 & _)].
  intros (_ & _ & Ha). pose proof (alloc_post_ready _ _ _ _ _ Hr Ha) as Hr1. pose proof Ha as (Hff & Ef & Ev & Eh & _).
  destruct (alloc_post_new s GROW n s1 (ready_usable _ Hr) Ha) as [Hch Hk].
  pose proof (alloc_post_data _ _ _ _ _ (ready_usable _ Hr) Ha) as Hdk. change (fresh GROW [n]) with [n] in Hdk.
  eapply wp_call_ok; [apply (wp_get_fv _ _ d); by rewrite Ev|]. intros ? ? [-> ->].
  eapply wp_call_ok; [apply (wp_init_dir s1 n (fv_cluster d) Hr1 Hch); [by apply (alloc_clearable s n)|done]|].
  intros [] s2 (now & Hr2 & Ef2 & Ev2 & Eh2 & Hat2 & Hk2 & Hd2). apply wp_ret. constructor; try done; try congruence.
  - by rewrite Ef2, Ef.
  - exists now. rewrite Ef in Hat2. exact Hat2.
  - by eapply keeps_trans.
  - eapply (data_keeps_weaken _ ([n] ++ [n])); [|eapply data_keeps_trans; [by rewrite Ef|exact Hdk|exact Hd2]].
    intros x. rewrite elem_of_app. tauto.
Qed.

End init_dir.

(** ** The entry of a new directory *)

Section subdir.
Context {K : Type} `{!Kernel K, !KernelLaws K}.
Implicit Types s : st K.

(** What making a directory does to the volume: the first free cluster [n] is a
    directory with the entries "." and "..", and the entry [e] is in the parent
    with the clusters [l].  Nothing else changes. *)
Record subdir s (c : Z) (l bs : list Z) (off : Z) (name e : list Z) (n : Z) s' : Prop := {
  sd_free : first_free s (alloc_hint (fsi s)) n;
  sd_ready : ready s';
  sd_fsi : fsi s' = allocated (fsi s) n;
  sd_entry : dir_at s' c l (with_entry bs off name e);
  sd_new : exists now, dir_at s' n [n] (new_dir (fsi s) n c now);
  sd_apart : n ∉ l;
  sd_keeps : keeps s l s' (n :: l);
  sd_data : data_keeps s (n :: l) s'
}.

(** First the cluster, then the entry. *)
Lemma subdir_intro s c l bs off name e n s1 s2 :
  ready s -> dir_at s c l bs -> dir_made s c n s1 ->
  dir_change s1 c l (with_entry bs off name e) s2 -> subdir s c l bs off name e n s2.
Proof.
  intros Hr [Hch Hc] [Hff Hr1 Ef1 Ev1 Eh1 [now [Hchn Hcn]] Hk1 Hd1] (Hr2 & Ef2 & _ & _ & Hat2 & Hk2 & Hd2).
  destruct (Hk1 _ _ Hch) as [Hch1 Hdis]; [set_solver|]. assert (n ∉ l) as Hnl by set_solver.
  destruct (Hk2 n [n] Hchn) as [Hchn2 _]; [set_solver|].
  constructor; try done.
  - congruence.
  - exists now. split; [done|]. apply (contents_keeps s1 l s2 [n]); try done; [by rewrite Ef2| |set_solver].
    by eapply chain_range.
  - intros c2 l2 H2 Hl2. destruct (Hk1 c2 l2 H2) as [H2' Hn2]; [set_solver|]. destruct (Hk2 c2 l2 H2' Hl2). split; [done|set_solver].
  - eapply (data_keeps_trans s [n] s1 l); [by rewrite Ef1|done|done].
Qed.

Lemma subdir_rebase s h m s1 c l bs off name e n s2 h' m' :
  set_held h (set_fvs m s) ≡ s1 -> subdir s1 c l bs off name e n s2 -> h' !! FsiLock = None ->
  subdir s c l bs off name e n (set_held h' (set_fvs m' s2)).
Proof.
  intros Hs [H1 H2 H3 H4 H5 H6 H7 H8] Hh. pose proof Hs as (Ef & _). cbn in Ef. constructor; try done.
  - rewrite Ef in H1. exact (first_free_equiv _ _ _ _ Hs H1).
  - apply ready_set_held; [by apply ready_set_fvs|done].
  - by rewrite <- Ef.
  - by rewrite <- Ef.
  - exact (keeps_from_equiv _ _ _ _ _ Hs H7).
  - exact (data_keeps_from_equiv _ _ _ _ Hs H8).
Qed.

Lemma subdir_equiv s c l bs off name e n s1 s2 :
  s1 ≡ s2 -> subdir s c l bs off name e n s1 -> subdir s c l bs off name e n s2.
Proof.
  intros Hs [H1 H2 H3 [H4 H4'] [now [H5 H5']] H6 H7 H8]. pose proof Hs as (Ef & _ & _ & Hw). constructor; try done.
  - by rewrite <- Hs.
  - congruence.
  - split; by rewrite <- Hs.
  - exists now. split; by rewrite <- Hs.
  - intros c2 l2 Hc Hl. destruct (H7 c2 l2 Hc Hl). split; [by rewrite <- Hs|done].
  - intros x Hx Hn. rewrite Hw. by apply H8.
Qed.

End subdir.

(** ** [fat32_create_fdentry] for a directory *)

Section mkdir.
Context {K V : Type} `{!Kernel K, !KernelLaws K, !Vnodes V, !VnodesLaws V}.
Context (tb : Z).
Implicit Types (s : st K) (w : V).

(** The place is [fv_diroff v1]; the vnode structures of the result are [m]. *)
Definition subdir_fvs s d l bs (v1 : fat32fs_vnode) (name : list Z) (n : Z) (m : gmap nat fat32fs_vnode) s' : Prop :=
  fvs s' = m /\ held s' = held s /\ exists now,
    subdir s (fv_cluster d) l bs (fv_diroff v1) name (new_d83 (fv_cluster d) v1 name FAT32_CRE_DIR n now) n s'.

Definition create_dir_post s w (d : fat32fs_vnode) (dvp : nat) (l bs : list Z) (q : nat) (v : fat32fs_vnode)
    (name : list Z) (r : res unit) (sw : st K * V) : Prop :=
  let v1 := placed bs v name FAT32_CRE_DIR in
  match r with
  | Ok _ => exists n vp, vnode_linked w vp q (Some dvp) (snd sw) /\
      subdir_fvs s d l bs v1 name n
        (<[q := made_vnode (allocated (fsi s) n) n VDIR vp (Some (dvp, fv_cluster d)) v1]> (fvs s)) (fst sw)
  | Err err =>
      err = ENOSPC /\ snd sw = w /\ set_fvs (<[q := v1]> (fvs s)) s ≡ fst sw \/
      err = ENOMEM /\ layer_same w (snd sw) /\ exists n, subdir_fvs s d l bs v1 name n (<[q := v1]> (fvs s)) (fst sw)
  | _ => False
  end.

Lemma wp_create_dir_placed s w p d dvp l bs q v name s1 :
  placing s w p d dvp l bs q v name FAT32_CRE_DIR -> clearable s -> 0 <= fv_cluster d < 2 ^ 32 ->
  set_fvs (<[q := placed bs v name FAT32_CRE_DIR]> (fvs s)) s ≡ s1 ->
  wp (create_placed p q name FAT32_CRE_DIR) (s1, w) (create_dir_post s w d dvp l bs q v name).
Proof.
  intros Hcn Hcl Hdc Hs1. unfold create_placed.
  pose proof Hcn as [Hr Hp Hat Hq Hqp Hlk [L1 L2 L3] Hst Hattr _ [Hp0 Hpal] Hroom Hw].
  set (v1 := placed bs v name FAT32_CRE_DIR) in *.
  pose proof Hs1 as (Ef1 & Ev1 & Eh1 & _). cbn in Ef1, Ev1, Eh1.
  assert (fvs s1 !! p = Some d) as Hp1 by (by rewrite Ev1, lookup_insert_ne).
  assert (ready s1) as Hr1 by (rewrite <- Hs1; by apply ready_set_fvs).
  assert (dir_at s1 (fv_cluster d) l bs) as Hat1 by (split; rewrite <- Hs1; apply Hat).
  assert (clearable s1) as Hcl1 by (apply (clearable_same s); [done|apply Hs1|done]).
  apply wp_bind, wp_lift. eapply wp_mono; [by apply (wp_entry_cluster_dir s1 p q d FAT32_CRE_DIR)|].
  intros [n|err| | |] s2; try done; cbn [wpk]; [intros Hmade|intros [-> Hs2]; left; split_and!; [done|done|by etrans]].
  pose proof Hmade as [_ Hr2 Ef2 Ev2 Eh2 _ Hk2 Hd2]. destruct (Hk2 _ _ (proj1 Hat1)) as [Hch2 Hdis]; [set_solver|].
  assert (dir_at s2 (fv_cluster d) l bs) as Hat2.
  { split; [done|]. apply (contents_keeps s1 [n] s2 l); [by rewrite Ef2|done| |set_solver|apply Hat1].
    eapply chain_range, Hat1. }
  apply (wp_write_new s2 w p d q v1 l bs); try done; [congruence|by rewrite Ev2, Ev1, lookup_insert_eq|].
  intros s3 now H3. pose proof H3 as (_ & Ef3 & Ev3 & Eh3 & _).
  pose proof (subdir_intro _ _ _ _ _ _ _ _ _ _ Hr1 Hat1 Hmade H3) as Hsub.
  assert (forall m s', fvs s' = m -> held s' = held s -> s' = set_held (held s) (set_fvs m s3) ->
    subdir_fvs s d l bs v1 name n m s') as Hdone.
  { intros m s' Hm Hh ->. split; [done|]. split; [done|]. exists now.
    apply (subdir_rebase s (held s) (<[q := v1]> (fvs s)) s1); [|done|apply Hr].
    replace (set_held (held s) (set_fvs (<[q := v1]> (fvs s)) s)) with (set_fvs (<[q := v1]> (fvs s)) s) by by destruct s. done. }
  change (flag FAT32_CRE_DIR FAT32_CRE_RENAME) with false. change (flag FAT32_CRE_DIR FAT32_CRE_DIR) with true. cbn iota. rewrite L1.
  assert (fvs s3 = <[q := v1]> (fvs s)) as Ev by congruence. assert (held s3 = held s) as Eh by congruence.
  eapply wp_call; [apply (wp_make_vnode s3 w n VDIR q v1 (Some dvp) (Some (dvp, fv_cluster d)))|].
  - by rewrite Ev, lookup_insert_eq.
  - by rewrite Eh.
  - split; [done|]. exists p, d. by rewrite Ev, lookup_insert_ne.
  - by intros ? [= <-].
  - intros [vp|err| | |] [s4 w4]; try done; cbn [wpk fst snd].
    + intros [Es Hlinked]. apply wp_ret. exists n, vp. split; [done|]. cbn [fst]. subst s4.
      replace (fsi s3) with (allocated (fsi s) n) by congruence. rewrite Ev, insert_insert_eq.
      apply Hdone; [done|done|]. rewrite <- Eh. by destruct s3.
    + intros (-> & -> & Hsame). right. split; [done|]. split; [done|]. exists n. apply Hdone; [done|done|].
      transitivity (set_held (held s3) (set_fvs (fvs s3) s3)); [by destruct s3|by rewrite Ev, Eh].
Qed.

Lemma wp_create_dir s w p d dvp l bs q v name :
  creation s w p d dvp l bs q v name FAT32_CRE_DIR -> clearable s -> 0 <= fv_cluster d < 2 ^ 32 ->
  wp (fat32_create_fdentry p q name FAT32_CRE_DIR) (s, w) (create_dir_post s w d dvp l bs q v name).
Proof.
  intros Hcn Hcl Hdc. unfold fat32_create_fdentry. apply (wp_place s w p d dvp l bs q v name FAT32_CRE_DIR); [done|].
  intros s1 Hs1. apply (wp_create_dir_placed s w p d dvp l bs q v name s1); [by apply creation_placing|done..].
Qed.

(** ** [fat32_mkdir] *)

(** [v1] is the structure of the new directory before it has a vnode. *)
Definition mkdir_done s w (p : nat) (d : fat32fs_vnode) (dvp : nat) (l bs name : list Z) (mode : Z)
    (r : res nat) (sw : st K * V) : Prop :=
  let v1 := new_fv tb s d bs name mode in
  match r with
  | Ok vp => exists cache q n now now', cache_ok l cache /\ length cache = 16%nat /\ fvs s !! q = None /\
      vnode_linked w vp q (Some dvp) (snd sw) /\
      subdir_fvs s d l bs v1 name n
        (<[p := modified now' (set_fv_cls_cache cache d)]>
          (<[q := touched now (made_vnode (allocated (fsi s) n) n VDIR vp (Some (dvp, fv_cluster d)) v1)]> (fvs s))) (fst sw)
  | Err err => layer_same w (snd sw) /\
      (err = ENOSPC /\ cache_moved s p d l (fst sw) \/
       err = ENOMEM /\ exists cache n, cache_ok l cache /\ length cache = 16%nat /\
         subdir_fvs s d l bs v1 name n (<[p := set_fv_cls_cache cache d]> (fvs s)) (fst sw))
  | _ => False
  end.

Lemma wp_create_new_dir s w w0 p d dvp l bs name stack cr vap q cache s1 :
  new_file s w p d dvp l bs name stack cr -> clearable s -> 0 <= fv_cluster d < 2 ^ 32 -> layer_same w w0 -> fvs s !! q = None ->
  cache_ok l cache -> length cache = 16%nat -> searched s p d MrUpdate q (found_fv tb s d None) cache s1 ->
  wp (create_new p q name vap FAT32_CRE_DIR) (s1, w0) (mkdir_done s w p d dvp l bs name (va_mode vap)).
Proof.
  intros Hnw Hcb Hdc Hw0 Hq Hca Hcl Hs1. pose proof Hnw as [Hr Hd Hl Hlv _ _ _ _ _ _ _].
  pose proof (dir_fv _ _ _ _ _ Hd) as Hp. assert (q <> p) as Hqp by congruence. destruct (Hlv q Hq) as [Hq1 Hq2].
  pose proof (new_file_creation _ _ _ _ _ _ _ _ _ _ _ _ (va_mode vap) _ _ _ FAT32_CRE_DIR Hnw Hw0 Hq Hca Hs1 (or_intror eq_refl)) as Hcn.
  cbn zeta in Hcn. set (v := set_fv_mode (va_mode vap) _) in *. set (d' := set_fv_cls_cache cache d) in *.
  pose proof (searched_set _ _ _ _ _ _ _ _ v Hs1 Hqp) as Hs2.
  pose proof Hs1 as (Ef1 & Ev1 & Eh1 & Ew1). cbn [fsi fvs held set_fvs set_held kst] in Ef1, Ev1, Eh1, Ew1.
  unfold create_new. eapply wp_lift_call; [apply (wp_upd_fv _ _ (found_fv tb s d None)); by rewrite Ev1, lookup_insert_eq|].
  intros [] ? ->. fold v. set (s2 := set_fvs _ s1) in *.
  assert (fvs s2 = <[q := v]> (<[p := d']> (fvs s))) as Ev2 by (cbn; by rewrite Ev1, insert_insert_eq).
  apply wp_bind, wp_try. eapply wp_mono; [apply (wp_create_dir s2 w0 p d' dvp l bs q v name Hcn)|].
  { by apply (clearable_same s). }
  { exact Hdc. }
  change (placed bs v name FAT32_CRE_DIR) with (new_fv tb s d bs name (va_mode vap)).
  assert (forall n m' s4, subdir_fvs s2 d' l bs (new_fv tb s d bs name (va_mode vap)) name n m' s4 -> forall m,
    subdir_fvs s d l bs (new_fv tb s d bs name (va_mode vap)) name n m (set_held (held s) (set_fvs m s4))) as Hdone.
  { intros n m' s4 (_ & _ & now & Hsub) m. split; [done|]. split; [done|]. exists now. eapply subdir_rebase; [exact Hs2|exact Hsub|apply Hr]. }
  assert (forall n m' s4, subdir_fvs s2 d' l bs (new_fv tb s d bs name (va_mode vap)) name n m' s4 ->
    fvs s4 = m' /\ held s4 = <[FvLock p := MrUpdate]> (held s)) as Hst4.
  { intros n m' s4 (-> & -> & _). by rewrite <- Eh1. }
  intros [[]|err| | |] [s4 w4]; try done; unfold create_dir_post; cbn [wpk]; [intros (n & vp & Hlk & H4)|].
  - destruct (Hst4 _ _ _ H4) as [Ev4 Eh4]. rewrite Ev2, insert_insert_eq in Ev4. cbn [fst snd] in *.
    change (fsi s2) with (fsi s1) in Ev4. rewrite Ef1 in Ev4. change (fv_cluster d') with (fv_cluster d) in Ev4.
    set (vn := made_vnode _ _ _ _ _ _) in Ev4.
    eapply wp_mono; [apply (wp_touch_finish s4 w4 p q d' vn vp (held s)); try done|].
    + by rewrite Ev4, lookup_insert_eq.
    + by rewrite Ev4, lookup_insert_ne, lookup_insert_eq.
    + apply made_vnode_vnode.
    + intros [r| | | |] [s5 w5]; try done. cbn [okp fst snd]. intros (-> & -> & now & now' & H5).
      exists cache, q, n, now, now'. split; [done|]. split; [done|]. split; [done|]. split; [by eapply vnode_linked_layer|]. cbn [fst].
      rewrite Ev4, insert_insert_eq, (insert_insert_ne _ q p), insert_insert_eq in H5 by done. fold vn.
      set (m := <[p := _]> (<[q := _]> (fvs s))) in *. destruct (Hdone _ _ _ H4 m) as (E1 & E2 & t & Hsub).
      pose proof H5 as (_ & E3 & E4 & _). split; [by rewrite E3|]. split; [by rewrite E4|]. exists t. by eapply subdir_equiv.
  - intros [(-> & Ew & Hs4)|(-> & Hw4 & n & H4)]; cbn [fst snd] in *.
    + subst w4. pose proof Hs4 as (Ef4 & Ev4 & Eh4 & _). cbn [fsi fvs held set_fvs] in Ef4, Ev4, Eh4.
      rewrite Ev2, insert_insert_eq in Ev4. change (held s2) with (held s1) in Eh4. rewrite Eh1 in Eh4.
      change (fsi s2) with (fsi s1) in Ef4. rewrite Ef1 in Ef4.
      eapply (wp_drop_new s s4 w0 p q _ d'); try done. split; [done|]. left. split; [done|]. exists cache. split; [done|]. split; [done|].
      cbn [fst]. fold d'. split; [exact Ef4|]. split; [done|]. split; [done|].
      intros b k. pose proof Hs4 as (_ & _ & _ & Hv4). pose proof Hs2 as (_ & _ & _ & Hv2). cbn [kst set_held set_fvs] in *.
      by rewrite Hv4, Hv2.
    + destruct (Hst4 _ _ _ H4) as [Ev4 Eh4]. rewrite Ev2, insert_insert_eq in Ev4.
      eapply (wp_drop_new s s4 w4 p q _ d'); try done. split; [by etrans|]. right. split; [done|]. exists cache, n.
      split; [done|]. split; [done|]. by eapply Hdone.
Qed.

Lemma wp_mkdir s w p d dvp l bs name stack cr vap :
  new_file s w p d dvp l bs name stack cr -> clearable s ->
  wp (fat32_mkdir tb p name vap cr stack) (s, w) (mkdir_done s w p d dvp l bs name (va_mode vap)).
Proof.
  intros Hnw Hcb. pose proof Hnw as [Hr Hd Hl Hlv Hlk Hstk Hst Hacc Hnone _ _]. pose proof (dir_fv _ _ _ _ _ Hd) as Hp.
  assert (0 <= fv_cluster d < 2 ^ 32) as Hdc.
  { pose proof (dir_ok _ _ _ _ _ Hd) as Hok. apply file_ok_chain in Hok as (_ & _ & Hch); [|by destruct Hd].
    destruct (chain_head _ _ _ _ Hch) as [l' ->]. pose proof (chain_range _ _ _ _ Hch) as Hh. apply Forall_cons in Hh as [Hh _]. pose proof (wf_cluster_count _ (ready_wf _ Hr)). unfold in_range in Hh. lia. }
  unfold fat32_mkdir. eapply wp_lift_call; [by apply wp_get_fv|]. intros ? ? [-> ->].
  rewrite bool_decide_true by by destruct Hd. cbn [negb].
  eapply wp_lift_call; [by apply (wp_dir_writable _ _ d)|]. intros [] ? ->.
  eapply wp_call_ok; [apply wp_vnode_new|]. intros ? [s0 w0] (q & -> & Hq & E & Hw). cbn [fst snd] in E, Hw. subst s0.
  apply (wp_search tb s w0 p d l bs); try done; [apply Hst|]. intros cache s1 Hca Hcl Hs1. rewrite Hnone in Hs1 |- *.
  cbn [search_result]. by eapply wp_create_new_dir.
Qed.

(** C14: [fat32_mkdir] of a name that the directory does not hold takes the first
    free cluster, writes "." and ".." into it, which point to itself and to the
    parent (0 for the root), enters the name with the directory attribute and
    this cluster at the first free place of the parent, and returns a vnode for
    it that holds the parent.  No other byte of the parent, no other chain and no
    other file changes.  ENOSPC leaves the volume as it was; ENOMEM leaves the
    new directory behind.  Clusters have one block, or the buffer cache is
    coherent: see [new_directory_stale]. *)
Theorem mkdir_correct s w p d dvp l bs name stack cr vap :
  new_file s w p d dvp l bs name stack cr -> clearable s ->
  wp (fat32_mkdir tb p name vap cr stack) (s, w) (mkdir_done s w p d dvp l bs name (va_mode vap)).
Proof. apply wp_mkdir. Qed.

End mkdir.

(** ** Witnesses *)

Lemma demo_vol_clearable : clearable demo_vol.
Proof.
  split; [|by left]. intros x i Hx Hi.
  assert (forallb (fun b => match view (kst demo_vol) b 1 with Some _ => true | None => false end) (seqZ 4 20) = true)
    as Hall by (vm_compute; reflexivity).
  rewrite forallb_forall in Hall. specialize (Hall (fat32_cluster_to_sector demo_fsi x + i)).
  change (fsi demo_vol) with demo_fsi in *. unfold in_range in Hx.
  rewrite cluster_to_sector_eq in Hall |- * by (apply demo_wf || exact Hx).
  cbn [fsi_data_start fsi_sectors_per_cluster fsi_cluster_count demo_fsi] in *.
  destruct (view (kst demo_vol) _ 1); [by eexists|]. assert (false = true); [|done]. apply Hall, list_elem_of_In, elem_of_seqZ. lia.
Qed.

Lemma mkdir_correct_witness :
  wp (fat32_mkdir 32 2 demo_new demo_vattr demo_root_cred demo_stack) (demo_vol, demo_layer)
    (mkdir_done 32 demo_vol demo_layer 2 demo_root_fv 9 [2] demo_slots demo_new (va_mode demo_vattr)).
Proof.
  apply (mkdir_correct 32 demo_vol demo_layer 2 demo_root_fv 9 [2] demo_slots demo_new demo_stack demo_root_cred);
    [apply demo_new_file|apply demo_vol_clearable].
Defined.

(** Here it succeeds, and the new directory can be removed again. *)
Example demo_mkdir_rmdir :
  match (do* fat32_mkdir 32 2 demo_new demo_vattr demo_root_cred demo_stack in
         fat32_rmdir 32 2 demo_new None demo_root_cred demo_stack) (demo_vol, demo_layer) with
  | ((s', _), Ok _) => lookup_name (default [] (cluster_bytes s' 2)) demo_stack demo_new = None
  | _ => False
  end.
Proof. by vm_compute. Qed.

(** ** Clusters of two blocks

    The device caches chunks separately, like the one the driver is written for.
    Cluster 5 holds what a removed directory has left; the zeros that
    [fat32_clear_cluster] writes to its blocks are not seen in its chunk, and the
    new directory has the old entries behind "." and "..". *)
Definition wide_fsi : fat32fs_info :=
  mkFsi 0 0 None None 0 0 0 0 1 2 512 2 1024 2 9 511 10 1023 1 2 1 2 24 4 10 15 7.
Definition wide : st device :=
  mkSt (mkDevice ∅ (<[10 := demo_slots]> demo_disk) (mkTimespec 1700000000 0)) wide_fsi ∅ ∅.

Lemma wide_wf : fs_wf (fsi wide).
Proof. constructor; cbn; lia. Qed.

Example new_directory_stale :
  match fat32_init_dir 5 2 wide with
  | (s', Ok _) => match cluster_bytes s' 5 with
                  | Some bs => occupied bs = true /\ is_Some (lookup_name bs demo_stack demo_name)
                  | None => False
                  end
  | _ => False
  end.
Proof. vm_compute. split; [done|by eexists]. Qed.
