(* ===== verification/Grow.v ===== *)
(** * Entries in a directory that has to grow

    [fat32_create_fdentry] extends the directory when its free slots are too few:
    the slots of the name then lie in the cleared clusters, in part or all of
    them.  Without space for the clusters no slot is written. *)
From S2P Require Import Prelude Layout Time Names Kernel Device Cls Fat Demo Alloc Chain Free Cache File Truncate Access Io IoSpec WriteSpec Dir DirSpec LfnSpec Vnode Nameops Vnops Listing Remove VnodeSpec VnopsSpec DirDemo Slots Insert CreateSpec RenameSpec MkdirSpec.

Section grow.
Context {K V : Type} `{!Kernel K, !KernelLaws K, !Vnodes V, !VnodesLaws V}.
Implicit Types (s : st K) (w : V).

(** The bytes of a directory with the new clusters [ext]. *)
Definition longer s (bs ext : list Z) : list Z := bs ++ zeros (length ext * bpc (fsi s)).

Definition addressable s (l : list Z) : Prop := Z.of_nat (length l * bpc (fsi s)) < 2 ^ 32.

Lemma grown_dir s c l bs ext s0 : clearable s -> grown s c l bs ext s0 -> dir_at s0 c (l ++ ext) (longer s bs ext).
Proof. intros Hcl (_ & _ & _ & _ & Hch & _ & _ & _ & _ & Hz). split; [done|by apply Hz]. Qed.

Lemma longer_length s c l bs ext :
  ready s -> dir_at s c l bs -> Z.of_nat (length (longer s bs ext)) = Z.of_nat (length (l ++ ext) * bpc (fsi s)).
Proof.
  intros Hr [_ Hc]. unfold longer, zeros. rewrite !length_app, length_replicate, (contents_length _ _ _ (ready_wf _ Hr) Hc). lia.
Qed.

Lemma wp_alloc_room s p v l bs n :
  ready s -> fvs s !! p = Some v -> dir_at s (fv_cluster v) l bs -> 1 <= n ->
  Z.of_nat (length bs) + 32 * n + fsi_bytes_per_cluster (fsi s) < 2 ^ 32 ->
  wp (fat32_alloc_fdentry p n) s (fun r s' => exists ext, grown s (fv_cluster v) l bs ext s' /\ addressable s (l ++ ext) /\
    match r with
    | Ok off => off = slot_place bs n /\ off + 32 * n <= Z.of_nat (length (longer s bs ext))
    | Err e => e = ENOSPC
    | _ => False
    end).
Proof.
  intros Hr Hp Hat Hn Hw. pose proof (bpc_eq _ (ready_wf _ Hr)) as [_ Hb0]. pose proof (fun ext => longer_length s _ l bs ext Hr Hat) as Hl.
  unfold addressable. eapply wp_mono; [by apply (wp_alloc_fdentry s p v l bs n)|]. intros r s'. cbn beta. case_decide.
  - intros [-> Hs]. exists []. split; [apply grown_refl; done|]. rewrite <- Hl. unfold longer. cbn. rewrite app_nil_r. split; [lia|]. done.
  - intros (ext & Hg & Hl32 & Hr'). exists ext. split; [done|]. split; [done|]. destruct r; try done. destruct Hr' as [-> ?]. by rewrite Hl.
Qed.

(** What [fat32_create_fdentry] is called with, whether there is room or not. *)
Record creating s w (p : nat) (d : fat32fs_vnode) (dvp : nat) (l bs : list Z) (q : nat) (v : fat32fs_vnode)
    (name : list Z) (flags : Z) : Prop := {
  cg_ready : ready s;
  cg_dir : fvs s !! p = Some d;
  cg_at : dir_at s (fv_cluster d) l bs;
  cg_fv : fvs s !! q = Some v;
  cg_ne : q <> p;
  cg_lock : held s !! FvLock q = None;
  cg_linked : linked w p d dvp;
  cg_name : storable name;
  cg_attr : attr_ok flags v;
  cg_cluster : 0 <= entry_start v flags < 2 ^ 32;
  cg_new : flag flags FAT32_CRE_REUSE = false;
  cg_width : Z.of_nat (length bs) + 32 * dirsz_of name + fsi_bytes_per_cluster (fsi s) < 2 ^ 32;
  cg_clear : clearable s
}.

Lemma grown_set_fvs s m c l bs ext s' : grown (set_fvs m s) c l bs ext s' -> grown s c l bs ext (set_fvs (fvs s) s').
Proof.
  intros (H1 & H2 & H3 & H4 & H5 & H6 & H7 & H8 & H9 & H10). split_and!; try done; [by apply ready_set_fvs|].
  intros Hcl. apply H10. by apply (clearable_same s).
Qed.

Lemma creating_placing s w p d dvp l bs q v name flags ext s0 :
  creating s w p d dvp l bs q v name flags -> grown s (fv_cluster d) l bs ext s0 -> addressable s (l ++ ext) ->
  slot_place bs (dirsz_of name) + 32 * dirsz_of name <= Z.of_nat (length (longer s bs ext)) ->
  placing s0 w p d dvp (l ++ ext) (longer s bs ext) q v name flags /\
  slot_place (longer s bs ext) (dirsz_of name) = slot_place bs (dirsz_of name) /\
  free_place (longer s bs ext) (slot_place bs (dirsz_of name)) (dirsz_of name).
Proof.
  intros [Hr Hp Hat Hq Hne Hlk Hli Hst Ha Hcl Hnew Hw Hclr] Hg Hl Hroom. pose proof (dirsz_bounds _ Hst) as [Hz1 Hz2].
  pose proof (bpc_eq _ (ready_wf _ Hr)) as [_ Hb0].
  destruct (grown_place s (fv_cluster d) l bs ext s0 (dirsz_of name) Hr Hat Hg Hl) as (E1 & E2 & Hfree); [lia|].
  fold (longer s bs ext) in E1, E2, Hfree. pose proof Hg as (Hr0 & Ev0 & Eh0 & _). pose proof Hfree as ([H1 _] & H2 & _).
  split; [|done]. constructor; try done; unfold entry_place; rewrite ?Hnew, ?E2; try done.
  - by rewrite Ev0.
  - by apply (grown_dir s).
  - by rewrite Ev0.
  - by rewrite Eh0.
  - rewrite E1. exact Hl.
Qed.

(** The place is found, in a directory that may have grown. *)
Lemma wp_place_grow {A} s w p d dvp l bs q v name flags (k : M (st K * V) A) Q :
  creating s w p d dvp l bs q v name flags ->
  (forall ext s0 s1, grown s (fv_cluster d) l bs ext s0 -> addressable s (l ++ ext) ->
     placing s0 w p d dvp (l ++ ext) (longer s bs ext) q v name flags ->
     set_fvs (<[q := placed (longer s bs ext) v name flags]> (fvs s0)) s0 ≡ s1 -> wp k (s1, w) Q) ->
  (forall ext s0, grown s (fv_cluster d) l bs ext s0 -> addressable s (l ++ ext) ->
     Q (Err ENOSPC) (set_fvs (<[q := set_fv_dirsz (dirsz_of name) v]> (fvs s)) s0, w)) ->
  wp (do* lift (upd_fv q (set_fv_dirsz (dirsz_of name))) in
      do* (if flag flags FAT32_CRE_REUSE then ret tt else
             lift (let* offset := fat32_alloc_fdentry p (dirsz_of name) in upd_fv q (set_fv_diroff offset))) in k) (s, w) Q.
Proof.
  intros Hcr Hk Hno. pose proof Hcr as [Hr Hp Hat Hq Hqp Hlk Hli Hst Ha Hcl Hnew Hw Hclr]. pose proof (dirsz_bounds _ Hst) as [Hz1 Hz2].
  eapply wp_lift_call; [by apply (wp_upd_fv _ _ v)|]. intros [] ? ->. rewrite Hnew. set (s1 := set_fvs _ s).
  apply wp_bind, wp_lift, wp_bind.
  eapply wp_mono; [apply (wp_alloc_room s1 p d l bs (dirsz_of name)); [by apply ready_set_fvs|cbn; by rewrite lookup_insert_ne|done|done|done]|].
  intros r s2 (ext & Hg & Hl & Hres). pose proof (grown_set_fvs _ _ _ _ _ _ _ Hg) as Hg0. pose proof Hg as (_ & Ev & _). cbn [fvs s1 set_fvs] in Ev.
  destruct r as [off|err| | |]; try done; cbn [wpk].
  - destruct Hres as [-> Hroom].
    destruct (creating_placing _ _ _ _ _ _ _ _ _ _ _ _ _ Hcr Hg0 Hl Hroom) as (Hpl & E & _).
    eapply wp_mono; [apply (wp_upd_fv _ _ (set_fv_dirsz (dirsz_of name) v)); by rewrite Ev, lookup_insert_eq|].
    intros [[]| | | |] s3 H; try done. cbn [okp wpk] in *. subst s3. apply (Hk ext (set_fvs (fvs s) s2)); try done.
    unfold placed, entry_place. rewrite Hnew, E, Ev. cbn [fvs set_fvs]. rewrite insert_insert_eq. by split.
  - subst err. specialize (Hno ext _ Hg0 Hl). cbn in Hno. rewrite <- Ev in Hno. by replace (set_fvs (fvs s2) _) with s2 in Hno by (by destruct s2).
Qed.

(** ** New files and renames *)

(** The entry is written in the directory [s0] that has grown, or there is no
    space. *)
Definition create_grow s w p d dvp l bs q v name flags (post : st K -> list Z -> list Z -> res unit -> st K * V -> Prop)
    (r : res unit) (sw : st K * V) : Prop :=
  exists ext s0, grown s (fv_cluster d) l bs ext s0 /\ addressable s (l ++ ext) /\
    (placing s0 w p d dvp (l ++ ext) (longer s bs ext) q v name flags /\ post s0 (l ++ ext) (longer s bs ext) r sw \/
     r = Err ENOSPC /\ sw = (set_fvs (<[q := set_fv_dirsz (dirsz_of name) v]> (fvs s)) s0, w)).

Lemma wp_create_grow s w p d dvp l bs q v name flags :
  creating s w p d dvp l bs q v name flags -> flag flags FAT32_CRE_RENAME = true \/ flag flags FAT32_CRE_DIR = false ->
  wp (fat32_create_fdentry p q name flags) (s, w)
    (create_grow s w p d dvp l bs q v name flags (fun s0 l0 bs0 => create_post s0 w d dvp l0 bs0 q v name flags)).
Proof.
  intros Hcr Hfl. unfold fat32_create_fdentry. apply (wp_place_grow s w p d dvp l bs q v name flags); [done|..].
  - intros ext s0 s1 Hg Hl Hpl Hs1. eapply wp_mono; [by apply (wp_create_placed s0 w p d dvp (l ++ ext) (longer s bs ext) q v name flags s1)|].
    intros r sw H. exists ext, s0. split; [done|]. split; [done|]. by left.
  - intros ext s0 Hg Hl. exists ext, s0. split; [done|]. split; [done|]. by right.
Qed.

Lemma grown_clearable s c l bs ext s0 : clearable s -> fs_wf (fsi s) -> grown s c l bs ext s0 -> clearable s0.
Proof.
  intros [Hb Hc] Hwf (Hr & _ & _ & Hg & _ & _ & _ & _ & Hblk & _). split.
  - intros x i Hx Hi. rewrite (geom_in_range (fsi s)) in Hx by done.
    change (fsi_sectors_per_cluster (fsi s0)) with (fsi_sectors_per_cluster (geom (fsi s0))) in Hi. rewrite Hg in Hi.
    change (fat32_cluster_to_sector (fsi s0) x) with (fat32_cluster_to_sector (geom (fsi s0)) x). rewrite Hg.
    destruct (Hblk x i Hx Hi) as [H1 H2]. pose proof (Hb x i Hx Hi) as Hsome. cbn zeta in *.
    change (fat32_cluster_to_sector (geom (fsi s)) x) with (fat32_cluster_to_sector (fsi s) x).
    destruct (decide (x ∈ ext)) as [Hin|Hin]; [rewrite H2 by done; by eexists|by rewrite H1].
  - change (fsi_sectors_per_cluster (fsi s0)) with (fsi_sectors_per_cluster (geom (fsi s0))). by rewrite Hg.
Qed.

Lemma wp_create_dir_grow s w p d dvp l bs q v name :
  creating s w p d dvp l bs q v name FAT32_CRE_DIR -> 0 <= fv_cluster d < 2 ^ 32 ->
  wp (fat32_create_fdentry p q name FAT32_CRE_DIR) (s, w)
    (create_grow s w p d dvp l bs q v name FAT32_CRE_DIR (fun s0 l0 bs0 => create_dir_post s0 w d dvp l0 bs0 q v name)).
Proof.
  intros Hcr Hdc. unfold fat32_create_fdentry. apply (wp_place_grow s w p d dvp l bs q v name FAT32_CRE_DIR); [done|..].
  - intros ext s0 s1 Hg Hl Hpl Hs1. eapply wp_mono; [apply (wp_create_dir_placed s0 w p d dvp (l ++ ext) (longer s bs ext) q v name s1); try done|].
    { eapply grown_clearable; [apply Hcr|apply Hcr|done]. }
    intros r sw H. exists ext, s0. split; [done|]. split; [done|]. by left.
  - intros ext s0 Hg Hl. exists ext, s0. split; [done|]. split; [done|]. by right.
Qed.

End grow.
