(* ===== verification/MoveSpec.v ===== *)
(** * Renaming from one directory to another

    [fat32_rename] between two directories deletes the slots of the entry in the
    one and writes new ones in the other; a directory that has moved gets another
    entry "..". *)
From S2P Require Import Prelude Layout Time Names Kernel Device Cls Fat Demo Alloc Chain Free Cache File Truncate Access Io IoSpec WriteSpec Dir DirSpec LfnSpec Vnode Nameops Vnops Listing Remove VnodeSpec VnopsSpec DirDemo Slots Insert CreateSpec RenameSpec MkdirSpec.

(** ** Changes of several directories *)

Section changes.
Context {K : Type} `{!Kernel K, !KernelLaws K}.
Implicit Types s : st K.

(** Directories: first cluster, clusters, bytes. *)
Definition chains (L : list (Z * list Z * list Z)) : list Z := concat (map (fun x => x.1.2) L).

(** The directories of [L] have the given bytes, no other chain and no other
    cluster has changed. *)
Record changes s (L : list (Z * list Z * list Z)) s' : Prop := {
  cg_usable : usable s';
  cg_fsi : fsi s' = fsi s;
  cg_dirs : Forall (fun x => dir_at s' x.1.1 x.1.2 x.2) L;
  cg_keeps : keeps s (chains L) s' (chains L);
  cg_data : data_keeps s (chains L) s'
}.

(** The volumes are the same, whatever the locks and the structures are. *)
Definition same_volume s s1 : Prop := fsi s1 = fsi s /\ forall b n, view (kst s1) b n = view (kst s) b n.

Lemma same_volume_equiv s s1 : same_volume s s1 -> set_held (held s1) (set_fvs (fvs s1) s) ≡ s1.
Proof. by intros [H1 H2]. Qed.

Lemma same_volume_of h m s s1 : set_held h (set_fvs m s) ≡ s1 -> same_volume s s1.
Proof. intros (H1 & _ & _ & H4). by split. Qed.

Lemma same_volume_dir s s1 c l bs : same_volume s s1 -> dir_at s c l bs <-> dir_at s1 c l bs.
Proof.
  intros Hs. pose proof (same_volume_equiv _ _ Hs) as He.
  assert (dir_at (set_held (held s1) (set_fvs (fvs s1) s)) c l bs <-> dir_at s1 c l bs) as H by (unfold dir_at; by rewrite He). exact H.
Qed.

Lemma changes_from s s1 L s2 : same_volume s s1 -> changes s1 L s2 -> changes s L s2.
Proof.
  intros Hs [H1 H2 H3 H4 H5]. pose proof (same_volume_equiv _ _ Hs) as He. split; [done| |done|..].
  - by rewrite H2; apply Hs.
  - exact (keeps_from_equiv _ _ _ _ _ He H4).
  - exact (data_keeps_from_equiv _ _ _ _ He H5).
Qed.

Lemma changes_to s L s1 s2 : same_volume s1 s2 -> changes s L s1 -> changes s L s2.
Proof.
  intros Hs [H1 H2 H3 H4 H5]. pose proof (same_volume_equiv _ _ Hs) as He. split.
  - rewrite <- He. by destruct H1.
  - by rewrite (proj1 Hs).
  - eapply Forall_impl; [exact H3|]. intros x Hx. by apply (same_volume_dir s1 s2).
  - intros c2 l2 Hc Hd. destruct (H4 c2 l2 Hc Hd). split; [|done]. by rewrite <- He.
  - intros x Hx Hn. rewrite (proj2 Hs). by apply H5.
Qed.

Lemma changes_nil s : ready s -> changes s [] s.
Proof. intros [Hu _]. split; [done|done|constructor|by apply keeps_equiv|by intros x _ _]. Qed.

(** One more directory, apart from the others. *)
Lemma changes_step s L s1 c l bs' s2 :
  changes s L s1 -> dir_change s1 c l bs' s2 -> Forall (fun x => x.1.2 ## l) L -> changes s ((c, l, bs') :: L) s2.
Proof.
  intros [H1 H2 H3 H4 H5] (R & F & _ & _ & D & Kp & Dk) Hap. split; [apply R|congruence| |..].
  - constructor; [exact D|]. apply Forall_forall. intros x Hx. rewrite Forall_forall in H3, Hap. destruct (H3 x Hx) as [Hch Hc].
    split; [by apply Kp, Hap|]. apply (contents_keeps s1 l s2); [by rewrite F|done|by eapply chain_range|by apply Hap|done].
  - unfold chains in *. cbn [map concat]. intros c2 l2 Hc Hd. destruct (H4 c2 l2 Hc) as [Hc1 Hd1]; [set_solver|].
    destruct (Kp c2 l2 Hc1) as [Hc2 Hd2]; [set_solver|]. split; [done|]. set_solver.
  - unfold chains in *. cbn [map concat] in *. eapply data_keeps_weaken; [|eapply data_keeps_trans; [by rewrite H2|exact H5|exact Dk]]. set_solver.
Qed.

(** A directory that is apart from those that have changed. *)
Lemma changes_other s L s' c l bs : changes s L s' -> dir_at s c l bs -> l ## chains L -> dir_at s' c l bs.
Proof.
  intros [H1 H2 H3 H4 H5] [Hch Hc] Hd. split; [by apply H4|].
  apply (contents_keeps s (chains L) s'); [by rewrite H2|done|by eapply chain_range|done|done].
Qed.

End changes.

(** ** The entry *)

Section move.
Context {K V : Type} `{!Kernel K, !KernelLaws K, !Vnodes V, !VnodesLaws V}.
Context (tb : Z).
Implicit Types (s : st K) (w : V).

(** The entry in [v] moves from the directory [p] to the directory [p2]. *)
Record moving s w (p : nat) (d : fat32fs_vnode) (l bs : list Z) (p2 : nat) (d2 : fat32fs_vnode) (dvp2 : nat)
    (l2 bs2 : list Z) (q : nat) (v : fat32fs_vnode) (name : list Z) : Prop := {
  mv_ready : ready s;
  mv_dir : fvs s !! p = Some d;
  mv_at : dir_at s (fv_cluster d) l bs;
  mv_dir2 : fvs s !! p2 = Some d2;
  mv_at2 : dir_at s (fv_cluster d2) l2 bs2;
  mv_apart : l2 ## l;
  mv_fv : fvs s !! q = Some v;
  mv_ne : q <> p /\ q <> p2;
  mv_lock : held s !! FvLock q = None;
  mv_linked : linked w p2 d2 dvp2;
  mv_name : storable name;
  mv_attr : is_byte (fv_attr v) /\ flag (fv_attr v) FAT32_ATTR_VOLUME_ID = false;
  mv_cluster : 0 <= fv_cluster v < 2 ^ 32;
  mv_old : 0 <= fv_diroff v /\ fv_diroff v mod 32 = 0 /\ 1 <= fv_dirsz v /\
           fv_diroff v + 32 * fv_dirsz v <= Z.of_nat (length bs);
  mv_room : slot_place bs2 (dirsz_of name) + 32 * dirsz_of name <= Z.of_nat (length bs2);
  mv_width : Z.of_nat (length bs2) + 32 * dirsz_of name + fsi_bytes_per_cluster (fsi s) < 2 ^ 32
}.

(** The structure with the place in the new directory, and the new entry. *)
Definition moved_to (bs2 : list Z) (v : fat32fs_vnode) (name : list Z) : fat32fs_vnode :=
  placed bs2 v name FAT32_CRE_RENAME.
Definition moved_entry (c2 : Z) (bs2 : list Z) (v : fat32fs_vnode) (name : list Z) (now : timespec) : list Z :=
  new_d83 c2 (moved_to bs2 v name) name FAT32_CRE_RENAME (fv_cluster v) now.

(** The two directories after the move. *)
Definition moved_dirs (c : Z) (l bs : list Z) (c2 : Z) (l2 bs2 : list Z) (v : fat32fs_vnode) (name : list Z)
    (now : timespec) : list (Z * list Z * list Z) :=
  [(c2, l2, with_entry bs2 (slot_place bs2 (dirsz_of name)) name (moved_entry c2 bs2 v name now)); (c, l, old_deleted bs v)].

Lemma wp_move_entry s w p d l bs p2 d2 dvp2 l2 bs2 q v name :
  moving s w p d l bs p2 d2 dvp2 l2 bs2 q v name ->
  wp (rename_entry p p2 q name false) (s, w) (okp (fun _ sw => snd sw = w /\ exists now,
    fvs (fst sw) = <[q := moved_to bs2 v name]> (fvs s) /\ held (fst sw) = held s /\
    changes s (moved_dirs (fv_cluster d) l bs (fv_cluster d2) l2 bs2 v name now) (fst sw))).
Proof.
  intros [Hr Hp Hat Hp2 Hat2 Hap Hq [Hqp Hqp2] Hlk Hli Hst [Ha1 Ha2] Hcl (H0 & Hal & H1 & Hold) Hroom Hw].
  pose proof (dirsz_bounds _ Hst) as [Hz1 Hz2]. pose proof (bpc_eq _ (ready_wf _ Hr)) as [_ Hb].
  unfold rename_entry. eapply wp_lift_call; [by apply wp_get_fv|]. intros ? ? [-> ->].
  eapply wp_lift_call; [by apply wp_get_fv|]. intros ? ? [-> ->]. cbn [andb]. set (flags := Z.lor FAT32_CRE_RENAME _).
  assert (flag flags FAT32_CRE_RENAME = true /\ flag flags FAT32_CRE_REUSE = false) as [Hf1 Hf2] by (unfold flags; by destruct (bool_decide _)).
  eapply (wp_lift_call _ _ _ _ (fun _ s1 => dir_change s (fv_cluster d) l (old_deleted bs v) s1)).
  { eapply wp_mono; [apply (wp_delete_chain s (fv_cluster d) l bs); (done || lia)|].
    intros r s1. cbn beta. rewrite !decide_True by lia. by intros [-> H]. }
  intros [] s1 Hs1. pose proof (changes_step s [] s _ _ _ _ (changes_nil _ Hr) Hs1 (Forall_nil_2 _)) as Hc1.
  pose proof Hs1 as (Hr1 & Ef1 & Ev1 & Eh1 & _).
  assert (dir_at s1 (fv_cluster d2) l2 bs2) as Hat1.
  { apply (changes_other _ _ _ _ _ _ Hc1 Hat2). unfold chains. cbn. by rewrite app_nil_r. }
  destruct (slot_place_free bs2 (dirsz_of name)) as ([Hp0 _] & Hpal & _);
    [by apply (dir_length_aligned s (fv_cluster d2) l2)|lia|lia|].
  eapply wp_mono.
  { apply (wp_create_rename s1 w p2 d2 dvp2 l2 bs2 q v name flags); [|done]. constructor; try done.
    - by rewrite Ev1.
    - by rewrite Ev1.
    - by rewrite Eh1.
    - unfold entry_start. by rewrite Hf1.
    - unfold entry_place. by rewrite Hf2.
    - unfold entry_place. by rewrite Hf2.
    - by rewrite Ef1. }
  intros [[]| | | |] [s2 w2]; try done. cbn [okp fst snd]. intros (-> & now & H2). split; [done|]. exists now. cbn zeta in H2.
  assert (placed bs2 v name flags = moved_to bs2 v name) as Em.
  { unfold moved_to, placed, entry_place. by rewrite Hf2. }
  rewrite Em in H2. pose proof H2 as (_ & _ & Ev2 & Eh2 & _). cbn in Eh2. cbn [fvs set_fvs] in Ev2.
  split; [by rewrite Ev2, Ev1|]. split; [congruence|].
  apply (changes_step s _ (set_fvs (<[q := moved_to bs2 v name]> (fvs s1)) s1)); [|exact H2|apply Forall_singleton; intros y ? ?; by apply (Hap y)].
  apply (changes_to s _ s1); [|exact Hc1]. by split.
Qed.

End move.

(** ** The entry ".." *)

Lemma set_first_cluster_ok x e :
  length e = 32%nat -> Forall is_byte e -> 0 <= x < 2 ^ 32 ->
  length (set_first_cluster x e) = 32%nat /\ Forall is_byte (set_first_cluster x e) /\ first_cluster (set_first_cluster x e) = x /\
  forall fl, fl <> D83.first_cluster_lo -> fl <> D83.first_cluster_hi -> get83 (set_first_cluster x e) fl = get83 e fl.
Proof.
  intros Hl Hb Hx.
  set (ms := [(D83.first_cluster_lo, WLE16 (Z.land x 0xFFFF)); (D83.first_cluster_hi, WLE16 (u16 (Z.shiftr x 16)))]).
  change (set_first_cluster x e) with (assign D83.fat32_dirent83 ms e).
  assert (sized D83.fat32_dirent83 ms) as Hs by (by repeat constructor).
  pose proof (fun fl => assign_spec D83.fat32_dirent83 ms e fl Hl Hs) as Hg.
  assert (forall fl, get83 (assign D83.fat32_dirent83 ms e) fl = default (get83 e fl) (assigned ms fl)) as Hget by apply Hg.
  split_and!.
  - apply (Hg D83.name).
  - apply assign_bytes; [done|]. apply Forall_cons. split; [apply WLE16_bytes|]. apply Forall_singleton, WLE16_bytes.
  - apply split_cluster_get; [done|rewrite Hget; reflexivity..].
  - intros fl H1 H2. rewrite Hget. cbn [assigned ms fst snd]. by rewrite !decide_False.
Qed.

(** The entry ".." in the second slot points to the cluster [c2], 0 for the root. *)
Definition with_dotdot (f : fat32fs_info) (c2 : Z) (fbs : list Z) : list Z :=
  splice fbs 32 (set_first_cluster (if c2 =? fsi_root_cluster f then 0 else c2) (slice fbs 32 32)).

Section dotdot.
Context {K : Type} `{!Kernel K, !KernelLaws K}.
Implicit Types s : st K.

Lemma wp_move_dotdot s p2 d2 q v lf fbs :
  ready s -> fvs s !! p2 = Some d2 -> fvs s !! q = Some v -> dir_at s (fv_cluster v) lf fbs -> 0 <= fv_cluster d2 < 2 ^ 32 ->
  wp (rename_dotdot p2 q) s (okp (fun _ s' => dir_change s (fv_cluster v) lf (with_dotdot (fsi s) (fv_cluster d2) fbs) s')).
Proof.
  intros Hr Hp2 Hq Hat Hc2. pose proof (ready_wf _ Hr) as Hwf. pose proof Hat as [Hch Hc].
  destruct (chain_head _ _ _ _ Hch) as [lf' El]. pose proof (chain_range _ _ _ _ Hch) as Hrg. rewrite El in Hrg.
  inversion Hrg as [|? ? Hin _]. pose proof (contents_length _ _ _ Hwf Hc) as Hlen. pose proof (bpc_512 _ Hwf) as Hb.
  rewrite El in Hlen. cbn [length Nat.mul] in Hlen. unfold rename_dotdot. repeat wp_step.
  eapply wp_call_ok; [by apply wp_get_fv|]. intros ? ? [-> ->]. eapply wp_call_ok; [by apply wp_get_fv|]. intros ? ? [-> ->].
  assert ((fv_cluster v <? FAT32_CLUSTER_MIN) || (fv_cluster v =? FAT32_CLUSTER_BAD) = false) as ->.
  { apply orb_false_iff. split; [apply Z.ltb_ge; unfold in_range, FAT32_CLUSTER_MIN in *; lia|]. by apply Z.eqb_neq, (in_range_not_bad (fsi s)). }
  set (parent := if _ =? _ then 0 else _). assert (0 <= parent < 2 ^ 32) as Hpar by (unfold parent; destruct (_ =? _); lia).
  apply wp_bind, wp_try. eapply wp_mono; [by apply (wp_read_fdentry s (fv_cluster v) lf fbs 32)|].
  intros r s1 (Hs1 & ->). rewrite decide_True by lia. cbn [wpk]. change (Z.to_nat 32) with 32%nat.
  assert (length (slice fbs 32 32) = 32%nat /\ Forall is_byte (slice fbs 32 32)) as [Hsl Hsb].
  { split; [apply slice_length; lia|]. unfold slice. by apply Forall_take, Forall_drop, (contents_bytes s lf). }
  destruct (set_first_cluster_ok parent _ Hsl Hsb Hpar) as (Hl' & Hb' & _).
  eapply (wp_call_ok _ _ _ (fun _ s2 => dir_change s (fv_cluster v) lf (with_dotdot (fsi s) (fv_cluster d2) fbs) s2)).
  { apply wp_try. eapply wp_mono; [apply (wp_write_change s s1 (fv_cluster v) lf fbs 32 (set_first_cluster parent (slice fbs 32 32))); try done; try lia|].
    - by apply (dir_change_equiv _ _ _ _ s), dir_change_refl.
    - intros [[]| | | |] s2; try done. }
  intros _ s2 H2. by apply wp_ret.
Qed.

End dotdot.

(** ** The part between the two searches and the end *)

Section found.
Context {K V : Type} `{!Kernel K, !KernelLaws K, !Vnodes V, !VnodesLaws V}.
Context (tb : Z).
Implicit Types (s : st K) (w : V).

(** A search with a new structure. *)
Lemma wp_find_fresh s p d l bs q name stack :
  ready s -> directory s p d l bs -> q <> p -> fvs s !! q = Some (fresh_fv (fsi s)) -> length stack = 256%nat -> (length name <= 255)%nat ->
  wp (fat32_find_dirent tb p name stack (Some q)) s (fun r s' =>
    r = match lookup_name bs stack name with Some _ => Ok tt | None => Err ENOENT end /\
    exists cache, cache_ok l cache /\ length cache = 16%nat /\
      set_fvs (<[q := found_fv tb s d (lookup_name bs stack name)]> (<[p := set_fv_cls_cache cache d]> (fvs s))) s ≡ s').
Proof.
  intros Hr Hd Hqp Hq Hst Hn. eapply wp_mono; [by apply (wp_find_dirent tb s p d l bs q (fresh_fv (fsi s)) name stack)|].
  intros r s' (cache & Hc1 & Hc2 & H). unfold found_fv. destruct (lookup_name bs stack name) as [[x e]|]; destruct H as [-> H];
    (split; [done|]); by exists cache.
Qed.

Lemma moving_searched s w p d l bs p2 d2 dvp2 l2 bs2 q v name q2 t cache s2 :
  moving s w p d l bs p2 d2 dvp2 l2 bs2 q v name -> p <> p2 -> q2 <> p -> q2 <> p2 -> q2 <> q ->
  set_fvs (<[q2 := t]> (<[p2 := set_fv_cls_cache cache d2]> (fvs s))) s ≡ s2 ->
  moving s2 w p d l bs p2 (set_fv_cls_cache cache d2) dvp2 l2 bs2 q v name.
Proof.
  intros [Hr Hp Hat Hp2 Hat2 Hap Hq [Hqp Hqp2] Hlk Hli Hst Ha Hcl Hold Hroom Hw] Hpp H1 H2 H3 Hs2.
  pose proof Hs2 as (Ef & Ev & Eh & _). cbn in Ef, Eh. cbn [fvs set_fvs] in Ev.
  assert (same_volume s s2) as Hvol by (by apply (same_volume_of (held s) (fvs s2)); destruct Hs2 as (? & ? & ? & ?)).
  constructor; try done.
  - rewrite <- Hs2. by apply ready_set_fvs.
  - by rewrite Ev, !lookup_insert_ne.
  - by apply (same_volume_dir s s2).
  - by rewrite Ev, lookup_insert_ne, lookup_insert_eq.
  - by apply (same_volume_dir s s2).
  - by rewrite Ev, !lookup_insert_ne.
  - by rewrite Eh.
  - by destruct Hli.
  - by rewrite Ef.
Qed.

(** A directory that moves: its clusters, apart from those of the two others. *)
Definition child s (v : fat32fs_vnode) (l l2 lf fbs : list Z) : Prop :=
  fv_type v = VDIR -> dir_at s (fv_cluster v) lf fbs /\ lf ## l /\ lf ## l2.

Definition dotdot_dirs (f : fat32fs_info) (c2 : Z) (v : fat32fs_vnode) (lf fbs : list Z) : list (Z * list Z * list Z) :=
  if decide (fv_type v = VDIR) then [(fv_cluster v, lf, with_dotdot f c2 fbs)] else [].

Definition all_dirs (f : fat32fs_info) (c : Z) (l bs : list Z) (c2 : Z) (l2 bs2 : list Z) (v : fat32fs_vnode) (name : list Z)
    (lf fbs : list Z) (now : timespec) : list (Z * list Z * list Z) :=
  dotdot_dirs f c2 v lf fbs ++ moved_dirs c l bs c2 l2 bs2 v name now.

(** The entry ".." and the times of the directories. *)
Lemma wp_move_finish s w p d c l bs p2 d2 l2 bs2 q v name now lf fbs s1 :
  changes s (moved_dirs c l bs (fv_cluster d2) l2 bs2 v name now) s1 -> child s v l l2 lf fbs -> p <> p2 ->
  held s1 !! FsiLock = None -> fvs s1 !! p = Some d -> fvs s1 !! p2 = Some d2 -> fvs s1 !! q = Some (moved_to bs2 v name) ->
  0 <= fv_cluster d2 < 2 ^ 32 ->
  wp (do* (if bool_decide (fv_type v = VDIR) && negb false then lift (rename_dotdot p2 q) else ret tt) in
      do* lift (fat32_touch p FV_MTIME_DIRTY) in lift (fat32_touch p2 FV_MTIME_DIRTY)) (s1, w) (okp (fun _ sw => snd sw = w /\
    exists n1 n2, fvs (fst sw) = <[p2 := modified n2 d2]> (<[p := modified n1 d]> (fvs s1)) /\ held (fst sw) = held s1 /\
      changes s (all_dirs (fsi s) c l bs (fv_cluster d2) l2 bs2 v name lf fbs now) (fst sw))).
Proof.
  intros Hch Hchild Hpp Hfl Hp Hp2 Hq Hc2. rewrite andb_true_r.
  eapply (wp_call_ok _ _ _ (fun _ sw => snd sw = w /\ fvs (fst sw) = fvs s1 /\ held (fst sw) = held s1 /\
    changes s (all_dirs (fsi s) c l bs (fv_cluster d2) l2 bs2 v name lf fbs now) (fst sw))).
  { unfold all_dirs, dotdot_dirs. destruct (decide (fv_type v = VDIR)) as [Hty|Hty].
    - rewrite bool_decide_true by done. destruct (Hchild Hty) as (Hat & Hd1 & Hd2). apply wp_lift.
      eapply wp_mono; [apply (wp_move_dotdot s1 p2 d2 q (moved_to bs2 v name) lf fbs); try done|].
      + by split; [apply Hch|].
      + apply (changes_other _ _ _ _ _ _ Hch Hat). unfold chains. cbn. set_solver.
      + intros [[]| | | |] s2; try done. cbn [okp fst snd]. intros H2. pose proof H2 as (_ & _ & Ev2 & Eh2 & _). split_and!; try done.
        rewrite (cg_fsi _ _ _ Hch) in H2. apply (changes_step _ _ _ _ _ _ _ Hch H2). repeat constructor; intros y ? ?; [by apply (Hd2 y)|by apply (Hd1 y)].
    - rewrite bool_decide_false by done. by apply wp_ret. }
  intros [] [s2 w2] (E & Ev2 & Eh2 & Hch2). cbn [fst snd] in *. subst w2.
  eapply wp_lift_call; [apply (wp_touch_mtime _ _ d); by rewrite Ev2|]. intros [] s3 H3.
  pose proof H3 as (_ & Ev3 & Eh3 & _). cbn in Eh3. cbn [fvs set_fvs] in Ev3.
  apply wp_lift. eapply wp_mono; [apply (wp_touch_mtime _ _ d2); by rewrite Ev3, lookup_insert_ne, Ev2|].
  intros [[]| | | |] s4; try done. cbn [okp fst snd]. intros H4. pose proof H4 as (_ & Ev4 & Eh4 & _). cbn in Eh4. cbn [fvs set_fvs] in Ev4.
  split; [done|]. exists (snd (nanotime (kst s2))), (snd (nanotime (kst s3))). split; [by rewrite Ev4, Ev3, Ev2|]. split; [congruence|].
  apply (changes_to s _ s3); [destruct H4 as (? & _ & _ & ?); by split|]. apply (changes_to s _ s2); [destruct H3 as (? & _ & _ & ?); by split|done].
Qed.

Lemma wp_move_found s w p d l bs p2 d2 dvp2 l2 bs2 q v q2 tnm cr st1 st2 lf fbs :
  moving s w p d l bs p2 d2 dvp2 l2 bs2 q v tnm -> directory s p2 d2 l2 bs2 -> child s v l l2 lf fbs ->
  p <> p2 -> fvs s !! q2 = None -> length st1 = 256%nat -> lookup_name bs2 st1 tnm = None -> 0 <= fv_cluster d2 < 2 ^ 32 ->
  wp (rename_found tb p p2 q q2 tnm false cr st1 st2) (set_fvs (<[q2 := fresh_fv (fsi s)]> (fvs s)) s, w)
    (okp (fun _ sw => snd sw = w /\ exists cache now n1 n2, cache_ok l2 cache /\ length cache = 16%nat /\
      fvs (fst sw) = <[q2 := found_fv tb s d2 None]> (<[q := moved_to bs2 v tnm]>
        (<[p2 := modified n2 (set_fv_cls_cache cache d2)]> (<[p := modified n1 d]> (fvs s)))) /\ held (fst sw) = held s /\
      changes s (all_dirs (fsi s) (fv_cluster d) l bs (fv_cluster d2) l2 bs2 v tnm lf fbs now) (fst sw))).
Proof.
  intros Hmv Hd2 Hchild Hpp Hq2 Hst1 Hnone Hc2. pose proof Hmv as [Hr Hp Hat Hp2 Hat2 Hap Hq [Hqp Hqp2] Hlk Hli Hst Ha Hcl Hold Hroom Hw].
  assert (q2 <> p /\ q2 <> p2 /\ q2 <> q) as (H1 & H2 & H3) by (split_and!; congruence).
  set (s0 := set_fvs _ s). assert (directory s0 p2 d2 l2 bs2) as Hd0.
  { destruct Hd2. constructor; try done. cbn. by rewrite lookup_insert_ne. }
  unfold rename_found. apply wp_bind. unfold rename_target. apply wp_bind, wp_try, wp_lift.
  eapply wp_mono; [apply (wp_find_fresh s0 p2 d2 l2 bs2 q2 tnm st1); try done; [by apply ready_set_fvs|apply lookup_insert_eq|apply Hst]|].
  rewrite Hnone. intros r s2 (-> & cache & Hca & Hclen & Hs2). cbn [wpk]. change (ENOENT =? ENOENT) with true. cbn [negb].
  apply wp_ret. cbn [wpk]. change (found_fv tb s0 d2 None) with (found_fv tb s d2 None) in Hs2. set (t := found_fv tb s d2 None) in *.
  cbn [fvs s0 set_fvs] in Hs2. rewrite (insert_insert_ne _ p2 q2), insert_insert_eq in Hs2 by done.
  pose proof (moving_searched s w p d l bs p2 d2 dvp2 l2 bs2 q v tnm q2 t cache s2 Hmv Hpp H1 H2 H3 Hs2) as Hmv2.
  pose proof Hs2 as (Ef2 & Ev2 & Eh2 & Ek2). cbn in Ef2, Eh2. cbn [fvs s0 set_fvs] in Ev2.
  assert (same_volume s s2) as Hvol by (by split).
  eapply wp_call_ok; [by apply (wp_move_entry s2 w p d l bs p2 (set_fv_cls_cache cache d2) dvp2 l2 bs2 q v tnm)|].
  intros [] [s3 w3] (E & now & Ev3 & Eh3 & Hch3). cbn [fst snd] in *. subst w3.
  change (fv_cluster (set_fv_cls_cache cache d2)) with (fv_cluster d2) in Hch3. apply (changes_from s) in Hch3; [|done].
  eapply wp_lift_call; [apply (wp_get_fv _ _ (moved_to bs2 v tnm)); by rewrite Ev3, lookup_insert_eq|]. intros ? ? [-> ->].
  change (fv_type (moved_to bs2 v tnm)) with (fv_type v). cbn iota.
  eapply wp_mono; [apply (wp_move_finish s w p d (fv_cluster d) l bs p2 (set_fv_cls_cache cache d2) l2 bs2 q v tnm now lf fbs s3 Hch3 Hchild Hpp)|].
  - rewrite Eh3, Eh2. apply Hr.
  - by rewrite Ev3, Ev2, !lookup_insert_ne.
  - by rewrite Ev3, Ev2, lookup_insert_ne, lookup_insert_ne, lookup_insert_eq.
  - by rewrite Ev3, lookup_insert_eq.
  - done.
  - intros [[]| | | |] [s4 w4]; try done. cbn [okp fst snd]. intros (-> & n1 & n2 & Ev4 & Eh4 & Hch4). split; [done|].
    exists cache, now, n1, n2. split; [done|]. split; [done|]. split; [|split; [congruence|done]].
    rewrite Ev4, Ev3, Ev2. apply map_eq. intros i. rewrite !lookup_insert. repeat case_decide; congruence.
Qed.

End found.

(** ** [fat32_rename] to a new name in another directory *)

Section rename.
Context {K V : Type} `{!Kernel K, !KernelLaws K, !Vnodes V, !VnodesLaws V}.
Context (tb : Z).
Implicit Types (s : st K) (w : V).

(** What it is called with: the target directory has room and not the name, the
    clusters of the two directories, and of a directory that moves, are apart. *)
Record relocation s w (p : nat) (d : fat32fs_vnode) (l bs : list Z) (p2 : nat) (d2 : fat32fs_vnode) (dvp2 : nat)
    (l2 bs2 snm tnm st0 st1 : list Z) (x : scan) (e lf fbs : list Z) : Prop := {
  rl_ready : ready s;
  rl_dir : directory s p d l bs;
  rl_dir2 : directory s p2 d2 l2 bs2;
  rl_apart : l2 ## l;
  rl_locks : held s !! FvLock p = None /\ held s !! FvLock p2 = None;
  rl_live : locks_live s;
  rl_linked : linked w p2 d2 dvp2;
  rl_stacks : length st0 = 256%nat /\ length st1 = 256%nat;
  rl_source : (length snm <= 255)%nat;
  rl_target : storable tnm;
  rl_found : lookup_name bs st0 snm = Some (x, e);
  rl_absent : lookup_name bs2 st1 tnm = None;
  rl_child : child s (found_fv tb s d (Some (x, e))) l l2 lf fbs;
  rl_room : slot_place bs2 (dirsz_of tnm) + 32 * dirsz_of tnm <= Z.of_nat (length bs2);
  rl_width : Z.of_nat (length bs2) + 32 * dirsz_of tnm + fsi_bytes_per_cluster (fsi s) < 2 ^ 32
}.

(** The directories have changed, they are locked still, and the structures are
    [add] of those without temporary ones. *)
Definition relocating s w p d l bs p2 d2 l2 bs2 (v : fat32fs_vnode) (name lf fbs : list Z)
    (add : gmap nat fat32fs_vnode -> gmap nat fat32fs_vnode) (h : gmap lock lkmode) (sw : st K * V) : Prop :=
  layer_same w (snd sw) /\ exists cache cache2 now n1 n2,
    cache_ok l cache /\ length cache = 16%nat /\ cache_ok l2 cache2 /\ length cache2 = 16%nat /\
    fvs (fst sw) = add (<[p2 := modified n2 (set_fv_cls_cache cache2 d2)]> (<[p := modified n1 (set_fv_cls_cache cache d)]> (fvs s))) /\
    held (fst sw) = h /\
    changes s (all_dirs (fsi s) (fv_cluster d) l bs (fv_cluster d2) l2 bs2 v name lf fbs now) (fst sw).

(** A temporary structure is freed. *)
Lemma wp_relocation_cleanup s w p d l bs p2 d2 l2 bs2 v name lf fbs add h q u sw :
  relocating s w p d l bs p2 d2 l2 bs2 v name lf fbs (fun m => <[q := u]> (add m)) h sw ->
  (forall m, m !! q = None -> add m !! q = None) -> fvs s !! q = None -> q <> p -> q <> p2 -> fv_parent_vp u = None ->
  h !! FvLock q = None -> h !! CacheLock q = None ->
  wp (fat32_vnode_delete q) sw (okp (fun _ sw' => relocating s w p d l bs p2 d2 l2 bs2 v name lf fbs add h sw')).
Proof.
  intros (Hw & cache & cache2 & now & n1 & n2 & Hc1 & Hc2 & Hc3 & Hc4 & Ev & Eh & Hch) Hadd Hq Hqp Hqp2 Hu Hq1 Hq2.
  destruct sw as [s1 w1]. cbn [fst snd] in *.
  eapply wp_mono; [apply (wp_vnode_delete s1 w1 q u); [by rewrite Ev, lookup_insert_eq|done|by rewrite Eh|by rewrite Eh]|].
  intros [[]| | | |] sw; try done. cbn [okp]. intros ->. split; [done|]. exists cache, cache2, now, n1, n2. do 4 (split; [done|]).
  cbn [fst fvs held set_fvs]. split; [|split; [done|]].
  - rewrite Ev. apply delete_insert_id, Hadd. by rewrite !lookup_insert_ne.
  - apply (changes_to s _ s1); [by split|done].
Qed.

(** The place and the attributes of the entry that is found. *)
Lemma relocation_moving s w w1 p d l bs p2 d2 dvp2 l2 bs2 snm tnm st0 st1 x e lf fbs q cache h s1 :
  relocation s w p d l bs p2 d2 dvp2 l2 bs2 snm tnm st0 st1 x e lf fbs -> layer_same w w1 -> p <> p2 ->
  fvs s !! q = None -> h !! FsiLock = None -> h !! FvLock q = None ->
  let v := found_fv tb s d (Some (x, e)) in
  set_held h (set_fvs (<[q := v]> (<[p := set_fv_cls_cache cache d]> (fvs s))) s) ≡ s1 ->
  moving s1 w1 p (set_fv_cls_cache cache d) l bs p2 d2 dvp2 l2 bs2 q v tnm.
Proof.
  cbn zeta. intros [Hr Hd Hd2 Hap _ _ [L1 L2 L3] [Hst0 _] _ Hst Hf _ _ Hroom Hw] Hw1 Hpp Hq Hh Hhq Hs1.
  pose proof (dir_fv _ _ _ _ _ Hd) as Hp. pose proof (dir_fv _ _ _ _ _ Hd2) as Hp2.
  assert (q <> p /\ q <> p2) as [Hqp Hqp2] by (split; congruence).
  pose proof (directory_at _ _ _ _ _ Hd) as Hat. pose proof (directory_at _ _ _ _ _ Hd2) as Hat2.
  pose proof (dir_length_aligned _ _ _ _ Hr Hat) as Hal.
  destruct (lookup_name_place bs st0 snm x e) as ([Hx1 Hx2] & Hx3 & Hx4 & Hx5 & Hx6); [done|by destruct Hd|done..|].
  destruct (lookup_name_attr bs st0 snm x e) as [Ha1 Ha2]; [by eapply contents_bytes; apply Hat|lia|done|done|].
  pose proof Hs1 as (Ef & Ev & Eh & _). cbn in Ef, Eh. cbn [fvs set_held set_fvs] in Ev.
  pose proof (same_volume_of _ _ _ _ Hs1) as Hvol. constructor; try done.
  - rewrite <- Hs1. by apply ready_set_held; [apply ready_set_fvs|].
  - by rewrite Ev, lookup_insert_ne, lookup_insert_eq.
  - by apply (same_volume_dir s s1).
  - by rewrite Ev, !lookup_insert_ne.
  - by apply (same_volume_dir s s1).
  - by rewrite Ev, lookup_insert_eq.
  - by rewrite Eh.
  - constructor; [done|by rewrite (proj2 (Hw1 dvp2))|by rewrite (proj1 (Hw1 dvp2))].
  - apply u32_range.
  - cbn. lia.
  - by rewrite Ef.
Qed.

Lemma directory_same s s1 p d l bs :
  same_volume s s1 -> fvs s1 !! p = Some d -> held s1 !! CacheLock p = None -> directory s p d l bs -> directory s1 p d l bs.
Proof.
  intros Hs Hv Hh Hd. destruct (directory_at _ _ _ _ _ Hd) as [Hch Hc]. destruct (proj1 (same_volume_dir s s1 (fv_cluster d) l bs Hs) (conj Hch Hc)).
  destruct Hd as [H1 H2 (H3 & H4 & _) H5 H6 H7 H8]. constructor; try done. split; [done|]. split; [done|]. by destruct l.
Qed.

Lemma heads_apart s c l c2 l2 : file_chain s c l -> file_chain s c2 l2 -> l2 ## l -> c <> c2.
Proof.
  intros H1 H2 Hd ->. destruct (chain_head _ _ _ _ H1) as [l' ->]. destruct (chain_head _ _ _ _ H2) as [l2' ->].
  apply (Hd c2); apply list_elem_of_here.
Qed.

(** What a move has done to the volume and the structures. *)
Definition relocated s w p d l bs p2 d2 l2 bs2 v name lf fbs (sw : st K * V) : Prop :=
  relocating s w p d l bs p2 d2 l2 bs2 v name lf fbs id (held s) sw.

(** The part that runs with both directories locked. *)
Lemma wp_relocate_locked s w p d l bs p2 d2 dvp2 l2 bs2 snm tnm st0 st1 st2 x e lf fbs cr h w0 q :
  relocation s w p d l bs p2 d2 dvp2 l2 bs2 snm tnm st0 st1 x e lf fbs -> p <> p2 -> layer_same w w0 ->
  (forall lk, lk <> FvLock p -> lk <> FvLock p2 -> h !! lk = held s !! lk) -> fvs s !! q = None ->
  let v := found_fv tb s d (Some (x, e)) in
  wp (finally
       (do* lift (fat32_find_dirent tb p snm st0 (Some q)) in
        let* o := fat32_vnode_new in
        let* target_fv := of_opt o in
        finally (rename_found tb p p2 q target_fv tnm false cr st1 st2) (fat32_vnode_delete target_fv))
       (fat32_vnode_delete q)) (set_fvs (<[q := fresh_fv (fsi s)]> (fvs s)) (set_held h s), w0)
    (okp (fun _ sw => relocating s w p d l bs p2 d2 l2 bs2 v tnm lf fbs id h sw)).
Proof.
  cbn zeta. intros Hrl Hpp Hw0 Hh Hq. pose proof Hrl as [Hr Hd Hd2 Hap _ Hlv _ [Hst0 Hst1] Hsn Hst Hf Hnone Hchild _ _].
  pose proof (dir_fv _ _ _ _ _ Hd) as Hp. pose proof (dir_fv _ _ _ _ _ Hd2) as Hp2. set (v := found_fv tb s d (Some (x, e))) in *.
  assert (q <> p /\ q <> p2) as [Hqp Hqp2] by (split; congruence). destruct (Hlv q Hq) as [Hq1 Hq2].
  assert (h !! FsiLock = None) as HhF by (rewrite Hh by done; apply Hr).
  assert (h !! FvLock q = None /\ h !! CacheLock q = None) as [HhQ HhC] by (split; by rewrite Hh by congruence).
  set (s0 := set_fvs _ _). assert (directory s0 p d l bs) as Hd0.
  { destruct Hd. constructor; try done; cbn; [by rewrite lookup_insert_ne|by rewrite Hh]. }
  eapply (wp_finally_ok _ _ _ (fun _ sw => relocating s w p d l bs p2 d2 l2 bs2 v tnm lf fbs
    (fun m => <[q := moved_to bs2 v tnm]> (id m)) h sw)).
  2:{ cbn beta. intros [] sw H. by apply (wp_relocation_cleanup s w p d l bs p2 d2 l2 bs2 v tnm lf fbs id h q _ sw H). }
  apply wp_bind, wp_lift. eapply wp_mono.
  { apply (wp_find_fresh tb s0 p d l bs q snm st0); try done; [|apply lookup_insert_eq]. apply ready_set_fvs, ready_set_held; done. }
  intros r s1 (-> & cache & Hca & Hcl & Hs1). rewrite Hf in Hs1 |- *. cbn [wpk]. change (found_fv tb s0 d (Some (x, e))) with v in Hs1.
  cbn [fvs s0 set_fvs set_held] in Hs1. rewrite (insert_insert_ne _ p q), insert_insert_eq in Hs1 by done.
  change (set_fvs (<[q := v]> (<[p := set_fv_cls_cache cache d]> (fvs s))) s0) with
    (set_held h (set_fvs (<[q := v]> (<[p := set_fv_cls_cache cache d]> (fvs s))) s)) in Hs1.
  pose proof Hs1 as (Ef1 & Ev1 & Eh1 & _). cbn in Ef1, Eh1. cbn [fvs set_held set_fvs] in Ev1.
  pose proof (same_volume_of _ _ _ _ Hs1) as Hvol.
  eapply wp_call_ok; [apply wp_vnode_new|]. intros ? [s2 w1] (q2 & -> & Hn2 & E & Hw1). cbn [fst snd] in E, Hw1. subst s2.
  pose proof Hn2 as Hn2'. rewrite Ev1 in Hn2'. apply lookup_insert_None in Hn2' as [Hn2' Hqq]. apply lookup_insert_None in Hn2' as [Hn2' Hqp3].
  destruct (Hlv q2 Hn2') as [Hl1 Hl2]. assert (q2 <> p2) as Hqp4 by congruence. cbn [of_opt]. repeat wp_step.
  assert (layer_same w w1) as Hww by (by etrans).
  pose proof (relocation_moving s w w1 p d l bs p2 d2 dvp2 l2 bs2 snm tnm st0 st1 x e lf fbs q cache h s1 Hrl Hww Hpp Hq HhF HhQ Hs1) as Hmv.
  eapply wp_finally_ok.
  - apply (wp_move_found tb s1 w1 p (set_fv_cls_cache cache d) l bs p2 d2 dvp2 l2 bs2 q v q2 tnm cr st1 st2 lf fbs Hmv); try done.
    + apply (directory_same s s1); try done; [by rewrite Ev1, !lookup_insert_ne|]. rewrite Eh1, Hh by done. by destruct Hd2.
    + intros Hty. destruct (Hchild Hty) as (Hc & ? & ?). split; [by apply (same_volume_dir s s1)|done].
    + eapply chain_u32; [exact Hr|apply (directory_at _ _ _ _ _ Hd2)].
  - cbn beta. intros [] sw (Ew & cache2 & now & n1 & n2 & Hc3 & Hc4 & Ev & Eh & Hch).
    eapply (wp_relocation_cleanup s w p d l bs p2 d2 l2 bs2 v tnm lf fbs (fun m => <[q := moved_to bs2 v tnm]> (id m)) h q2 (found_fv tb s1 d2 None) sw); try done.
    + split; [by rewrite Ew|]. exists cache, cache2, now, n1, n2. do 4 (split; [done|]). split; [|split; [congruence|]].
      * rewrite Ev, Ev1. apply map_eq. intros i. unfold id. rewrite !lookup_insert. repeat case_decide; congruence.
      * rewrite Ef1 in Hch. by apply (changes_from s s1).
    + intros m Hm. cbn. by rewrite lookup_insert_ne.
    + by rewrite Hh by congruence.
    + by rewrite Hh by congruence.
Qed.

Lemma relocation_ne s w p d l bs p2 d2 dvp2 l2 bs2 snm tnm st0 st1 x e lf fbs :
  relocation s w p d l bs p2 d2 dvp2 l2 bs2 snm tnm st0 st1 x e lf fbs -> fv_cluster d <> fv_cluster d2 /\ p <> p2.
Proof.
  intros [_ Hd Hd2 Hap _ _ _ _ _ _ _ _ _ _ _]. pose proof (dir_fv _ _ _ _ _ Hd). pose proof (dir_fv _ _ _ _ _ Hd2).
  assert (fv_cluster d <> fv_cluster d2); [|by split; congruence].
  eapply heads_apart; [apply (directory_at _ _ _ _ _ Hd)|apply (directory_at _ _ _ _ _ Hd2)|exact Hap].
Qed.

Lemma wp_relocate s w p d l bs p2 d2 dvp2 l2 bs2 snm tnm st0 st1 st2 x e lf fbs cr :
  relocation s w p d l bs p2 d2 dvp2 l2 bs2 snm tnm st0 st1 x e lf fbs ->
  wp (fat32_rename tb p snm dvp2 tnm cr st0 st1 st2) (s, w) (okp (fun _ sw =>
    relocated s w p d l bs p2 d2 l2 bs2 (found_fv tb s d (Some (x, e))) tnm lf fbs sw)).
Proof.
  intros Hrl. pose proof Hrl as [Hr Hd Hd2 Hap [Hl1 Hl2] Hlv [L1 L2 L3] _ _ _ _ _ _ _ _].
  pose proof (dir_fv _ _ _ _ _ Hd) as Hp. pose proof (dir_fv _ _ _ _ _ Hd2) as Hp2.
  destruct (relocation_ne _ _ _ _ _ _ _ _ _ _ _ _ _ _ _ _ _ _ _ Hrl) as [Hcc Hpp].
  unfold fat32_rename, VNODE_TO_FV. repeat wp_step. cbn [snd]. rewrite L2. cbn [of_opt]. repeat wp_step.
  eapply wp_lift_call; [by apply wp_get_fv|]. intros ? ? [-> ->]. eapply wp_lift_call; [by apply wp_get_fv|]. intros ? ? [-> ->].
  rewrite (proj2 (Z.eqb_neq _ _) Hcc). cbn [andb].
  eapply wp_lift_call; [by apply wp_lock|]. intros [] ? ->. repeat wp_step.
  eapply wp_lift_call; [apply wp_lock; cbn; by rewrite lookup_insert_ne by congruence|]. intros [] ? ->. repeat wp_step.
  cbn [held set_held]. set (h := <[FvLock p2 := MrUpdate]> _).
  assert (forall lk, lk <> FvLock p -> lk <> FvLock p2 -> h !! lk = held s !! lk) as Hh.
  { intros lk H1 H2. unfold h. by rewrite !lookup_insert_ne by done. }
  eapply wp_call_ok; [apply wp_vnode_new|]. intros ? [s0 w0] (q & -> & Hq & E & Hw). cbn [fst snd] in E, Hw. subst s0.
  cbn [of_opt]. repeat wp_step. cbn [fvs fsi set_held] in Hq |- *.
  eapply wp_finally_ok; [by apply (wp_relocate_locked s w p d l bs p2 d2 dvp2 l2 bs2 snm tnm st0 st1 st2 x e lf fbs cr h w0 q)|].
  cbn beta. intros [] [s3 w3] (Hw3 & cache & cache2 & now & n1 & n2 & Hc1 & Hc2 & Hc3 & Hc4 & Ev & Eh & Hch). cbn [fst snd] in *.
  repeat wp_step. eapply wp_lift_call; [apply (wp_unlock _ _ MrUpdate (<[FvLock p := MrUpdate]> (held s))); [done|]|].
  { by rewrite lookup_insert_ne by congruence. }
  intros [] s4 ->. apply wp_lift. eapply wp_mono; [by apply (wp_unlock _ _ MrUpdate (held s))|].
  intros [[]| | | |] s4; try done. cbn [okp]. intros ->. split; [done|]. exists cache, cache2, now, n1, n2. do 4 (split; [done|]).
  split; [done|]. split; [done|]. apply (changes_to s _ s3); [by split|done].
Qed.

(** C16: [fat32_rename] to a name that another directory does not hold deletes
    exactly the slots of the entry in the first directory and writes the slots of
    the new name at the first free place of the second, with the first cluster,
    the attributes and the times of the old entry but the size 0.  If the entry
    is a directory, its entry ".." points to the new parent (0 for the root) and
    nothing else in it changes.  No other chain and no other file changes; both
    directories get new modification times, the locks are released and the
    temporary structures are freed. *)
Theorem rename_across_correct s w p d l bs p2 d2 dvp2 l2 bs2 snm tnm st0 st1 st2 x e lf fbs cr :
  relocation s w p d l bs p2 d2 dvp2 l2 bs2 snm tnm st0 st1 x e lf fbs ->
  wp (fat32_rename tb p snm dvp2 tnm cr st0 st1 st2) (s, w) (okp (fun _ sw =>
    relocated s w p d l bs p2 d2 l2 bs2 (found_fv tb s d (Some (x, e))) tnm lf fbs sw)).
Proof. apply wp_relocate. Qed.

End rename.

(** ** Witness

    The root holds the directories "A" in cluster 4 and "SUB" in the clusters 3,
    5, 6; "A" moves into "SUB" and is called "notes.txt". *)
Definition demo_time : timespec := mkTimespec 1700000000 0.
Definition demo_a : list Z := [65].
Definition tree_root : list Z :=
  concat [demo_entry (padded [65] []) 0x10 4 0; demo_entry (padded [83; 85; 66] []) 0x10 3 0] ++ zeros 448.
Definition tree_a : list Z := new_dir demo_fsi 4 2 demo_time.
Definition tree_sub : list Z := new_dir demo_fsi 3 2 demo_time ++ zeros 1024.
Definition demo_sub_fv : fat32fs_vnode := set_fv_cluster 3 (set_fv_vnode (Some 11%nat) demo_root_fv).
Definition demo_tree : st device :=
  mkSt (mkDevice ∅ (<[4 := tree_root]> (<[5 := take 512 tree_sub]> (<[6 := tree_a]> demo_disk))) demo_time) demo_fsi
    (<[2%nat := demo_root_fv]> {[ 4%nat := demo_sub_fv ]}) ∅.
Definition tree_layer : vntable := mkVntable {[ 9%nat := 1; 11%nat := 1 ]} {[ 9%nat := 2%nat; 11%nat := 4%nat ]}.

Lemma demo_tree_ready : ready demo_tree.
Proof.
  assert (forall b, b = 1 \/ b = 2 \/ b = 3 -> is_Some (view (kst demo_tree) b 1)) as Hb.
  { intros b [->|[->| ->]]; (eexists; vm_compute; reflexivity). }
  split; [split|done]; [apply demo_wf| |apply Hb; by left].
  intros k c Hk Hc. apply Hb. unfold fat_block. unfold in_range in Hc. cbn in *.
  assert (c * 4 / 512 = 0) as E by (apply Z.div_small; lia). rewrite E. lia.
Qed.

Lemma demo_tree_chain : file_chain demo_tree 3 [3; 5; 6] /\ file_chain demo_tree 4 [4] /\ file_chain demo_tree 2 [2].
Proof.
  assert (fat demo_tree 3 = 5) as E3 by (vm_compute; reflexivity).
  assert (fat demo_tree 5 = 6) as E5 by (vm_compute; reflexivity).
  assert (forall c, 2 <= c <= 21 -> in_range (fsi demo_tree) c) as Hr by (intros; unfold in_range; cbn; lia).
  split_and!.
  - apply chain_link; rewrite ?E3; [apply Hr; lia|apply Hr; lia|].
    apply chain_link; rewrite ?E5; [apply Hr; lia|apply Hr; lia|].
    apply chain_end; [apply Hr; lia|vm_compute; congruence].
  - apply chain_end; [apply Hr; lia|vm_compute; congruence].
  - apply chain_end; [apply Hr; lia|vm_compute; congruence].
Qed.

Lemma demo_tree_contents : contents demo_tree [2] tree_root /\ contents demo_tree [4] tree_a /\ contents demo_tree [3; 5; 6] tree_sub.
Proof.
  split_and!.
  - exists [tree_root]. split; [repeat constructor|vm_compute; reflexivity].
  - exists [tree_a]. split; [repeat constructor|vm_compute; reflexivity].
  - exists [take 512 tree_sub; zeros 512; zeros 512]. split; [repeat constructor|vm_compute; reflexivity].
Qed.

Definition tree_found : scan * list Z :=
  default (mkScan 0 [] 0 false 0, []) (lookup_name tree_root demo_stack demo_a).

Lemma demo_tree_dirs :
  directory demo_tree 2 demo_root_fv [2] tree_root /\ directory demo_tree 4 demo_sub_fv [3; 5; 6] tree_sub.
Proof.
  split; (constructor; [reflexivity|reflexivity| |discriminate|apply demo_tree_contents|vm_compute; reflexivity|reflexivity]);
    (split; [apply cache_ok_zeros|split; [reflexivity|apply demo_tree_chain]]).
Qed.

Lemma demo_relocation :
  relocation 32 demo_tree tree_layer 2 demo_root_fv [2] tree_root 4 demo_sub_fv 11 [3; 5; 6] tree_sub demo_a demo_new
    demo_stack demo_stack tree_found.1 tree_found.2 [4] tree_a.
Proof.
  constructor; [apply demo_tree_ready|apply demo_tree_dirs|apply demo_tree_dirs| |by split|intros q _; done|by constructor|by split
    |cbn; lia|apply demo_new_storable|by vm_compute|by vm_compute| |by vm_compute|by vm_compute].
  - intros y Hy ->%list_elem_of_singleton. rewrite !elem_of_cons in Hy. destruct Hy as [?|[?|[?|Hy]]]; [done..|by apply not_elem_of_nil in Hy].
  - intros _. replace (fv_cluster (found_fv 32 demo_tree demo_root_fv (Some (tree_found.1, tree_found.2)))) with 4 by (vm_compute; reflexivity).
    split; [split; [apply demo_tree_chain|apply demo_tree_contents]|].
    split; intros y ->%list_elem_of_singleton Hy; [by apply list_elem_of_singleton in Hy|].
    rewrite !elem_of_cons in Hy. destruct Hy as [?|[?|[?|Hy]]]; [done..|by apply not_elem_of_nil in Hy].
Qed.

Lemma rename_across_correct_witness :
  wp (fat32_rename 32 2 demo_a 11 demo_new demo_root_cred demo_stack demo_stack demo_stack) (demo_tree, tree_layer) (okp (fun _ sw =>
    relocated demo_tree tree_layer 2 demo_root_fv [2] tree_root 4 demo_sub_fv [3; 5; 6] tree_sub
      (found_fv 32 demo_tree demo_root_fv (Some (tree_found.1, tree_found.2))) demo_new [4] tree_a sw)).
Proof.
  apply (rename_across_correct 32 demo_tree tree_layer 2 demo_root_fv [2] tree_root 4 demo_sub_fv 11 [3; 5; 6] tree_sub demo_a
    demo_new demo_stack demo_stack demo_stack tree_found.1 tree_found.2 [4] tree_a demo_root_cred).
  exact demo_relocation.
Defined.

(** The entry ".." of the directory that has moved points to cluster 3. *)
Example demo_tree_moved :
  match fat32_rename 32 2 demo_a 11 demo_new demo_root_cred demo_stack demo_stack demo_stack (demo_tree, tree_layer) with
  | ((s', _), Ok _) => option_map (fun bs => first_cluster (slice bs 32 32)) (cluster_bytes s' 4) = Some 3
  | _ => False
  end.
Proof. by vm_compute. Qed.

(** There is no test that a directory does not move into itself: "A" moves into
    "A" and can no longer be reached from the root. *)
Definition demo_a_fv : fat32fs_vnode := set_fv_cluster 4 (set_fv_vnode (Some 11%nat) demo_root_fv).
Definition demo_tree_a : st device := set_fvs (<[2%nat := demo_root_fv]> {[ 4%nat := demo_a_fv ]}) demo_tree.

Example directory_into_itself :
  match fat32_rename 32 2 demo_a 11 demo_a demo_root_cred demo_stack demo_stack demo_stack (demo_tree_a, tree_layer) with
  | ((s', _), Ok _) =>
      option_map (fun bs => lookup_name bs demo_stack demo_a) (cluster_bytes s' 2) = Some None /\
      option_map (fun bs => option_map (fun y => first_cluster y.2) (lookup_name bs demo_stack demo_a)) (cluster_bytes s' 4) = Some (Some 4)
  | _ => False
  end.
Proof. by vm_compute. Qed.
