(* ===== verification/OpenSpec.v ===== *)
(** * Creating a name that exists

    [fat32_create] of a name that exists opens the entry: it refuses what the
    caller may not do, cuts the file if a size is given and makes a new vnode.
    The entry on disk is not changed, and the new structure is clean. *)
From S2P Require Import Prelude Layout Time Names Kernel Device Cls Fat Demo Alloc Chain Free Cache File Truncate Access Io IoSpec WriteSpec Dir DirSpec LfnSpec Vnode Nameops Vnops Listing Remove VnodeSpec VnopsSpec DirDemo AttrSpec Slots Insert CreateSpec RenameSpec MkdirSpec MoveSpec.

Section open.
Context {K V : Type} `{!Kernel K, !KernelLaws K, !Vnodes V, !VnodesLaws V}.
Context (tb : Z).
Implicit Types (s : st K) (w : V).

(** ** The steps *)

Lemma wp_drop_at {A} s w p q v h e :
  held s = <[FvLock p := MrUpdate]> h -> h !! FvLock p = None -> fvs s !! q = Some v -> fv_parent_vp v = None ->
  h !! FvLock q = None -> h !! CacheLock q = None ->
  wp (A := A) (drop_fv p q e) (s, w) (fun r sw => r = Err e /\ sw = (set_held h (set_fvs (delete q (fvs s)) s), w)).
Proof.
  intros Hh Hp Hq Hpar H1 H2. unfold drop_fv. eapply wp_lift_call; [by apply (wp_unlock _ _ MrUpdate h)|]. intros [] ? ->.
  eapply wp_call_ok; [by apply (wp_vnode_delete _ _ q v)|]. intros [] ? ->. by apply wp_throw.
Qed.

(** The new vnode, and what is left if there is none. *)
Lemma wp_open_existing s w p d dvp q v h :
  held s = <[FvLock p := MrUpdate]> h -> h !! FvLock p = None -> fvs s !! p = Some d -> linked w p d dvp ->
  fvs s !! q = Some v -> q <> p -> fv_parent_vp v = None -> h !! FvLock q = None -> h !! CacheLock q = None ->
  wp (open_existing p q) (s, w) (fun r sw => match r with
    | Ok vp => fst sw = set_held h (set_fvs (<[q := made_vnode (fsi s) (fv_cluster v) (fv_type v) vp
                   (Some (dvp, fv_cluster d)) v]> (fvs s)) s) /\ vnode_linked w vp q (Some dvp) (snd sw)
    | Err e => e = ENOMEM /\ fst sw = set_held h (set_fvs (delete q (fvs s)) s) /\ layer_same w (snd sw)
    | _ => False
    end).
Proof.
  intros Hh Hp Hd [L1 L2 L3] Hq Hqp Hpar H1 H2. unfold open_existing.
  eapply wp_lift_call; [by apply wp_get_fv|]. intros ? ? [-> ->]. eapply wp_lift_call; [by apply wp_get_fv|]. intros ? ? [-> ->].
  rewrite L1. apply wp_bind, wp_try. eapply wp_mono; [apply (wp_make_vnode s w _ _ q v (Some dvp) (Some (dvp, fv_cluster d)))|].
  - done.
  - rewrite Hh. by rewrite lookup_insert_ne by congruence.
  - split; [done|]. by exists p, d.
  - by intros ? [= <-].
  - intros [vp|err| | |] [s2 w2]; try done; cbn [wpk fst snd].
    + intros [-> Hlk]. eapply wp_lift_call; [by apply (wp_unlock _ _ MrUpdate h)|]. intros [] ? ->. by apply wp_ret.
    + intros (-> & -> & Hw2). eapply wp_lift_call; [by apply (wp_unlock _ _ MrUpdate h)|]. intros [] ? ->.
      eapply wp_call_ok; [by apply (wp_vnode_delete _ _ q v)|]. intros [] ? ->. by apply wp_throw.
Qed.

(** ** The size *)

Definition cuts (vap : vattr) (v : fat32fs_vnode) : bool :=
  flag (va_mask vap) AT_SIZE && negb (bool_decide (fv_type v = VDIR)).

(** The clusters [l] of the file [v] have become those of [v1], if a size is
    given; else the volume is the same. *)
Definition size_set s (v : fat32fs_vnode) (l : list Z) (vap : vattr) (v1 : fat32fs_vnode) s' : Prop :=
  if cuts vap v then
    let n := Z.to_nat (clusters_for (fsi s) (va_size vap)) in
    geom (fsi s') = geom (fsi s) /\ exists ext, file_ok s' v1 (take n l ++ ext) /\ length (take n l ++ ext) = n /\
      keeps s l s' (take n l ++ ext) /\ data_keeps s ext s' /\ (forall x, x ∈ drop n l -> fat s' x = FAT32_CLUSTER_FREE) /\
      fv_size v1 = va_size vap /\ resized v v1
  else v1 = v /\ same_volume s s'.

(** There is no space for the size: the chain may have grown. *)
Definition size_nospace s (l : list Z) s' : Prop :=
  geom (fsi s') = geom (fsi s) /\ exists ext, keeps s l s' (l ++ ext) /\ data_keeps s ext s'.

Lemma size_set_from s s1 v l vap v1 s2 : same_volume s s1 -> size_set s1 v l vap v1 s2 -> size_set s v l vap v1 s2.
Proof.
  intros Hs. pose proof (same_volume_equiv _ _ Hs) as He. pose proof Hs as [Hf Hw]. unfold size_set. rewrite Hf. destruct (cuts vap v).
  - intros (Hg & ext & H1 & H2 & H3 & H4 & H5). split; [done|]. exists ext. do 2 (split; [done|]).
    split; [exact (keeps_from_equiv _ _ _ _ _ He H3)|]. split; [|done]. intros x Hx Hne. rewrite <- Hw, <- Hf. apply H4; [by rewrite Hf|done].
  - intros [-> [Hf2 Hw2]]. split; [done|]. split; [congruence|]. intros b n. by rewrite Hw2.
Qed.

Lemma size_set_to s v l vap v1 s2 s3 : size_set s v l vap v1 s2 -> same_volume s2 s3 -> size_set s v l vap v1 s3.
Proof.
  intros H Hs. pose proof (same_volume_equiv _ _ Hs) as He. pose proof Hs as [Hf Hw]. unfold size_set in *. destruct (cuts vap v).
  - destruct H as (Hg & ext & H1 & H2 & H3 & H4 & H5 & H6). split; [by rewrite Hf|]. exists ext.
    split; [by apply (file_ok_proper _ _ He v1 v1 eq_refl _ _ eq_refl)|]. split; [done|].
    split; [exact (keeps_trans _ _ _ _ _ _ H3 (keeps_equiv _ _ _ He))|]. split; [|split; [|done]].
    + intros x Hx Hne. rewrite Hw. by apply H4.
    + intros x Hx. rewrite <- (H5 x Hx). symmetry. exact (fat_proper _ _ He x x eq_refl).
  - destruct H as [-> [Hf2 Hw2]]. split; [done|]. split; [congruence|]. intros b n. by rewrite Hw, Hw2.
Qed.

Lemma size_nospace_from s s1 l s2 : same_volume s s1 -> size_nospace s1 l s2 -> size_nospace s l s2.
Proof.
  intros Hs (Hg & ext & H1 & H2). pose proof (same_volume_equiv _ _ Hs) as He. pose proof Hs as [Hf Hw]. split; [by rewrite <- Hf|].
  exists ext. split; [exact (keeps_from_equiv _ _ _ _ _ He H1)|]. intros x Hx Hne. rewrite <- Hw, <- Hf. apply H2; [by rewrite Hf|done].
Qed.

(** The directory is on disk as it was. *)
Lemma size_set_dir s v l vap v1 s' c lp bs :
  size_set s v l vap v1 s' -> (cuts vap v = true -> lp ## l) -> dir_at s c lp bs -> fs_wf (fsi s) -> dir_at s' c lp bs.
Proof.
  unfold size_set. destruct (cuts vap v).
  - intros (Hg & ext & _ & _ & Hk & Hdk & _) Hap [Hch Hc] Hwf. destruct (Hk _ _ Hch (Hap eq_refl)) as [Hch' Hap']. split; [done|].
    apply (contents_keeps s ext s'); try done; [by eapply chain_range|]. intros x Hx Hy. apply (Hap' x Hx), elem_of_app. by right.
  - intros [_ Hs] _ Hat _. by apply (same_volume_dir _ _ _ _ _ Hs).
Qed.

Lemma size_nospace_dir s l s' c lp bs :
  size_nospace s l s' -> lp ## l -> dir_at s c lp bs -> dir_at s' c lp bs.
Proof.
  intros (Hg & ext & Hk & Hdk) Hap [Hch Hc]. destruct (Hk _ _ Hch Hap) as [Hch' Hap']. split; [done|].
  apply (contents_keeps s ext s'); try done; [by eapply chain_range|]. intros x Hx Hy. apply (Hap' x Hx), elem_of_app. by right.
Qed.

Lemma only_fv_eq s s' q v v' : only_fv q s s' -> fvs s !! q = Some v -> fvs s' !! q = Some v' -> fvs s' = <[q := v']> (fvs s).
Proof.
  intros Ho Hv Hv'. apply map_eq. intros i. destruct (decide (i = q)) as [->|Hne]; [by rewrite Hv', lookup_insert_eq|].
  by rewrite lookup_insert_ne, Ho.
Qed.

Lemma wp_cut s w q v l vap :
  ready s -> held s !! CacheLock q = None -> fvs s !! q = Some v -> fv_type v <> VDIR ->
  (cuts vap v = true -> file_ok s v l /\ 0 <= va_size vap /\ clusters_for (fsi s) (va_size vap) < 2 ^ 32) ->
  wp (if flag (va_mask vap) AT_SIZE then lift (fat32_truncate q (va_size vap)) else ret tt) (s, w) (fun r sw =>
    snd sw = w /\ ready (fst sw) /\ held (fst sw) = held s /\ exists v1, fvs (fst sw) = <[q := v1]> (fvs s) /\ resized v v1 /\
    match r with
    | Ok _ => size_set s v l vap v1 (fst sw)
    | Err e => e = ENOSPC /\ cuts vap v = true /\ size_nospace s l (fst sw)
    | _ => False
    end).
Proof.
  intros Hr Hc Hv Hty Hcut. unfold size_set. assert (cuts vap v = flag (va_mask vap) AT_SIZE) as E by
    (unfold cuts; rewrite bool_decide_false by done; apply andb_true_r). rewrite E in *.
  destruct (flag (va_mask vap) AT_SIZE).
  - destruct (Hcut eq_refl) as (Hok & Hs1 & Hs2). apply wp_lift. eapply wp_mono; [by apply wp_truncate|].
    intros [[]|e| | |] s' H; try done; cbn [fst snd].
    + destruct H as (Hr1 & Hh & Hg & Ho & v1 & ext & Hv1 & H1 & H2 & H3 & H4 & H5 & H6 & H7 & _). rewrite decide_False in H6 by done.
      split; [done|]. split; [done|]. split; [done|]. exists v1. split; [by eapply only_fv_eq|]. split; [done|]. split; [done|].
      exists ext. by split_and!.
    + destruct H as (-> & Hr1 & Hh & Hg & Ho & v1 & ext & Hv1 & H1 & H2 & H3 & H4 & H5).
      split; [done|]. split; [done|]. split; [done|]. exists v1. split; [by eapply only_fv_eq|]. split; [done|].
      split; [done|]. split; [done|]. split; [done|]. by exists ext.
  - apply wp_ret. cbn [fst snd]. split; [done|]. split; [done|]. split; [done|]. exists v. split; [by rewrite insert_id|]. split; [apply resized_id|]. done.
Qed.

(** ** Opening *)

Lemma wp_touch_open s w p d dvp q v h :
  held s = <[FvLock p := MrUpdate]> h -> h !! FvLock p = None -> fvs s !! p = Some d -> linked w p d dvp ->
  fvs s !! q = Some v -> q <> p -> fv_parent_vp v = None -> h !! FvLock q = None -> h !! CacheLock q = None ->
  wp (do* lift (fat32_touch q 0) in do* lift (fat32_touch p FV_MTIME_DIRTY) in open_existing p q) (s, w) (fun r sw =>
    same_volume s (fst sw) /\ held (fst sw) = h /\ exists now now', match r with
    | Ok vp => fvs (fst sw) = <[q := made_vnode (fsi s) (fv_cluster v) (fv_type v) vp (Some (dvp, fv_cluster d)) (touched now v)]>
                 (<[p := modified now' d]> (fvs s)) /\ vnode_linked w vp q (Some dvp) (snd sw)
    | Err e => e = ENOMEM /\ fvs (fst sw) = delete q (<[p := modified now' d]> (fvs s)) /\ layer_same w (snd sw)
    | _ => False
    end).
Proof.
  intros Hh Hp Hd [L1 L2 L3] Hq Hqp Hpar H1 H2. eapply wp_lift_call; [by apply wp_touch_new|].
  intros [] s3 (now & Hs3). pose proof Hs3 as (Ef3 & Ev3 & Eh3 & Ew3). cbn in Ef3, Ev3, Eh3, Ew3.
  eapply wp_lift_call; [apply (wp_touch_mtime _ _ d); by rewrite Ev3, lookup_insert_ne|].
  intros [] s4 Hs4. pose proof Hs4 as (Ef4 & Ev4 & Eh4 & Ew4). cbn in Ef4, Ev4, Eh4, Ew4. set (now' := snd _) in *.
  rewrite Ev3 in Ev4.
  assert (same_volume s s4) as Hsv by (split; [congruence|]; intros b n; by rewrite Ew4, Ew3).
  eapply wp_mono; [apply (wp_open_existing s4 w p (modified now' d) dvp q (touched now v) h); try done|].
  - congruence.
  - by rewrite Ev4, lookup_insert_eq.
  - by rewrite Ev4, lookup_insert_ne, lookup_insert_eq.
  - intros [vp|e| | |] [s5 w5]; try done; cbn [fst snd]; rewrite Ev4.
    + rewrite Ef4, Ef3. intros [-> Hlk]. split; [exact Hsv|]. split; [done|]. exists now, now'. split; [|done]. cbn.
      apply map_eq. intros i. rewrite !lookup_insert. repeat case_decide; congruence.
    + intros (-> & -> & Hw). split; [exact Hsv|]. split; [done|]. exists now, now'. split; [done|]. split; [|done]. cbn.
      apply map_eq. intros i. rewrite !lookup_delete, !lookup_insert. repeat case_decide; congruence.
Qed.

(** Why the entry is not opened, as an error code. *)
Definition open_refusal (f : fat32fs_info) (v : fat32fs_vnode) (excl : bool) (mode : Z) (cr : cred) : Z :=
  if bool_decide (fv_type v = VDIR) then if flag mode VWRITE then EISDIR else 0
  else if excl then EEXIST else fat32_faccess f v mode cr.

(** The new structure: a directory is opened as it is. *)
Definition opened_fv (f : fat32fs_info) (vp dvp : nat) (c : Z) (now : timespec) (v1 : fat32fs_vnode) : fat32fs_vnode :=
  made_vnode f (fv_cluster v1) (fv_type v1) vp (Some (dvp, c)) (if bool_decide (fv_type v1 = VDIR) then v1 else touched now v1).
Definition opened_dir (now : timespec) (v d : fat32fs_vnode) : fat32fs_vnode :=
  if bool_decide (fv_type v = VDIR) then d else modified now d.

(** What [fat32_create] of an entry that exists ends in. *)
Definition opened s w (p : nat) (d : fat32fs_vnode) (dvp : nat) (l bs : list Z) (v : fat32fs_vnode) (lf : list Z) (vap : vattr)
    (refused : Z) (r : res nat) (sw : st K * V) : Prop :=
  if negb (refused =? 0) then r = Err refused /\ cache_moved s p d l (fst sw) /\ layer_same w (snd sw) else
  ready (fst sw) /\ held (fst sw) = held s /\ dir_at (fst sw) (fv_cluster d) l bs /\
  exists cache now now', cache_ok l cache /\ length cache = 16%nat /\
    let d1 := set_fv_cls_cache cache d in
    match r with
    | Ok vp => exists q v1, fvs s !! q = None /\ size_set s v lf vap v1 (fst sw) /\ vnode_linked w vp q (Some dvp) (snd sw) /\
        fvs (fst sw) = <[q := opened_fv (fsi (fst sw)) vp dvp (fv_cluster d) now v1]> (<[p := opened_dir now' v d1]> (fvs s))
    | Err e => layer_same w (snd sw) /\
        ((e = ENOMEM /\ (exists v1, size_set s v lf vap v1 (fst sw)) /\ fvs (fst sw) = <[p := opened_dir now' v d1]> (fvs s)) \/
         (e = ENOSPC /\ cuts vap v = true /\ size_nospace s lf (fst sw) /\ fvs (fst sw) = <[p := d1]> (fvs s)))
    | _ => False
    end.

(** An entry that exists, in a directory that may be written; the clusters of a
    file that is cut are apart from those of the directory. *)
Record openable s w (p : nat) (d : fat32fs_vnode) (dvp : nat) (l bs : list Z) (name stack : list Z) (cr : cred)
    (v : fat32fs_vnode) (lf : list Z) (vap : vattr) : Prop := {
  on_ready : ready s;
  on_dir : directory s p d l bs;
  on_lock : held s !! FvLock p = None;
  on_live : locks_live s;
  on_linked : linked w p d dvp;
  on_stack : length stack = 256%nat;
  on_name : (length name <= 255)%nat;
  on_access : fat32_faccess (fsi s) d (Z.lor VWRITE VEXEC) cr = 0;
  on_found : exists x e, lookup_name bs stack name = Some (x, e) /\ v = found_fv tb s d (Some (x, e));
  on_file : cuts vap v = true -> file_ok s v lf /\ l ## lf /\ 0 <= va_size vap /\ clusters_for (fsi s) (va_size vap) < 2 ^ 32
}.

Lemma ready_same_volume s s' : ready s -> same_volume s s' -> held s' !! FsiLock = None -> ready s'.
Proof. intros Hr Hs Hh. rewrite <- (same_volume_equiv _ _ Hs). by apply ready_set_held; [apply ready_set_fvs|]. Qed.

Lemma linked_layer w w0 p d dvp cache : layer_same w w0 -> linked w p d dvp -> linked w0 p (set_fv_cls_cache cache d) dvp.
Proof. intros Hw [L1 L2 L3]. constructor; [done|by rewrite (proj2 (Hw dvp))|by rewrite (proj1 (Hw dvp))]. Qed.

(** The file is as long as it shall be; the structure [q] is not linked yet. *)
Lemma wp_open_file s w w0 p d dvp l bs name stack cr v lf vap q cache s2 v1 :
  openable s w p d dvp l bs name stack cr v lf vap -> layer_same w w0 -> fvs s !! q = None -> cache_ok l cache -> length cache = 16%nat ->
  ready s2 -> held s2 = <[FvLock p := MrUpdate]> (held s) -> fvs s2 = <[q := v1]> (<[p := set_fv_cls_cache cache d]> (fvs s)) ->
  size_set s v lf vap v1 s2 -> resized v v1 -> fv_type v <> VDIR -> fv_parent_vp v = None ->
  wp (do* lift (fat32_touch q 0) in do* lift (fat32_touch p FV_MTIME_DIRTY) in open_existing p q) (s2, w0)
    (opened s w p d dvp l bs v lf vap 0).
Proof.
  intros Ho Hw0 Hq Hca Hcl Hr2 Hh2 Hv2 Hsz Hrs Hty Hpar. pose proof Ho as [Hr Hd Hl Hlv Hlk _ _ _ _ Hfile].
  pose proof (dir_fv _ _ _ _ _ Hd) as Hp. assert (q <> p) as Hqp by congruence. destruct (Hlv q Hq) as [Hq1 Hq2].
  assert (fv_parent_vp v1 = None /\ fv_type v1 = fv_type v) as [Hpar1 Hty1] by (by destruct Hrs as (? & ? & ? & ? & -> & _)).
  eapply wp_mono; [apply (wp_touch_open s2 w0 p (set_fv_cls_cache cache d) dvp q v1 (held s)); try done|].
  - by rewrite Hv2, lookup_insert_ne, lookup_insert_eq.
  - by eapply linked_layer.
  - by rewrite Hv2, lookup_insert_eq.
  - intros r [s5 w5] (Hsv & Hh5 & now & now' & H). cbn [fst snd] in *. pose proof (size_set_to _ _ _ _ _ _ _ Hsz Hsv) as Hsz5.
    unfold opened. cbn [Z.eqb negb fst snd].
    assert (forall now d, opened_dir now v d = modified now d) as Ed by (intros; unfold opened_dir; by rewrite bool_decide_false).
    split; [apply (ready_same_volume s2); [done|done|rewrite Hh5; apply Hr]|]. split; [done|].
    split; [apply (size_set_dir _ _ _ _ _ _ _ _ _ Hsz5); [by intros H1; apply Hfile in H1 as (_ & H1 & _)|by apply (directory_at _ _ _ _ _ Hd)|apply Hr]|].
    exists cache, now, now'. split; [done|]. split; [done|]. destruct r as [vp|e| | |]; try done.
    + destruct H as [Hv5 Hlk5]. exists q, v1. split; [done|]. split; [done|]. split; [by eapply vnode_linked_layer|].
      rewrite Hv5, Hv2, (proj1 Hsv), Ed. unfold opened_fv. rewrite Hty1, bool_decide_false by done.
      change (fv_cluster (set_fv_cls_cache cache d)) with (fv_cluster d). apply map_eq. intros i. rewrite !lookup_insert. repeat case_decide; congruence.
    + destruct H as (-> & Hv5 & Hw5). split; [by etrans|]. left. split; [done|]. split; [by exists v1|].
      rewrite Hv5, Hv2, Ed. apply map_eq. intros i. rewrite lookup_delete, !lookup_insert. repeat case_decide; congruence.
Qed.

(** A directory. *)
Lemma wp_open_dir s w w0 p d dvp l bs name stack cr v lf vap q cache s1 :
  openable s w p d dvp l bs name stack cr v lf vap -> layer_same w w0 -> fvs s !! q = None -> cache_ok l cache -> length cache = 16%nat ->
  searched s p d MrUpdate q v cache s1 -> fv_type v = VDIR -> fv_parent_vp v = None ->
  wp (open_existing p q) (s1, w0) (opened s w p d dvp l bs v lf vap 0).
Proof.
  intros Ho Hw0 Hq Hca Hcl Hs1 Hty Hpar. pose proof Ho as [Hr Hd Hl Hlv Hlk _ _ _ _ _].
  pose proof (dir_fv _ _ _ _ _ Hd) as Hp. assert (q <> p) as Hqp by congruence. destruct (Hlv q Hq) as [Hq1 Hq2].
  pose proof (same_volume_of _ _ _ _ Hs1) as Hsv. destruct Hs1 as (Ef1 & Ev1 & Eh1 & _). cbn in Ef1, Ev1, Eh1.
  assert (size_set s v lf vap v s1) as Hsz by (unfold size_set, cuts; rewrite bool_decide_true, andb_false_r by done; done).
  eapply wp_mono; [apply (wp_open_existing s1 w0 p (set_fv_cls_cache cache d) dvp q v (held s)); try done|].
  - by rewrite Ev1, lookup_insert_ne, lookup_insert_eq.
  - by eapply linked_layer.
  - by rewrite Ev1, lookup_insert_eq.
  - intros r [s5 w5] H. unfold opened. cbn [Z.eqb negb fst snd] in *.
    assert (forall now d, opened_dir now v d = d) as Ed by (intros; unfold opened_dir; by rewrite bool_decide_true).
    assert (forall m, same_volume s (set_held (held s) (set_fvs m s1))) as Hsv5 by (intros m; exact Hsv).
    assert (forall m, ready (set_held (held s) (set_fvs m s1)) /\ dir_at (set_held (held s) (set_fvs m s1)) (fv_cluster d) l bs) as Hrd.
    { intros m. split; [apply (ready_same_volume s); [done|apply Hsv5|apply Hr]|]. apply (same_volume_dir s); [apply Hsv5|].
      by apply (directory_at _ _ _ _ _ Hd). }
    destruct r as [vp|e| | |]; try done.
    + destruct H as [-> Hlk5]. split; [apply Hrd|]. split; [done|]. split; [apply Hrd|].
      exists cache, (mkTimespec 0 0), (mkTimespec 0 0). split; [done|]. split; [done|]. exists q, v. split; [done|].
      split; [exact Hsz|]. split; [by eapply vnode_linked_layer|]. rewrite Ed. unfold opened_fv. cbn. rewrite Ev1, Hty, bool_decide_true by done. by rewrite insert_insert_eq.
    + destruct H as (-> & -> & Hw5). split; [apply Hrd|]. split; [done|]. split; [apply Hrd|].
      exists cache, (mkTimespec 0 0), (mkTimespec 0 0). split; [done|]. split; [done|]. split; [by etrans|]. left. split; [done|].
      split; [by exists v|]. rewrite Ed. cbn. rewrite Ev1, delete_insert_id; [done|]. by rewrite lookup_insert_ne.
Qed.

Lemma wp_create_existing s w w0 p d dvp l bs name stack cr v lf vap q cache s1 excl mode :
  openable s w p d dvp l bs name stack cr v lf vap -> layer_same w w0 -> fvs s !! q = None -> cache_ok l cache -> length cache = 16%nat ->
  searched s p d MrUpdate q v cache s1 -> fv_parent_vp v = None ->
  wp (create_existing p q vap excl mode cr) (s1, w0) (opened s w p d dvp l bs v lf vap (open_refusal (fsi s) v excl mode cr)).
Proof.
  intros Ho Hw0 Hq Hca Hcl Hs1 Hpar. pose proof Ho as [Hr Hd Hl Hlv Hlk _ _ _ _ Hfile].
  pose proof (dir_fv _ _ _ _ _ Hd) as Hp. assert (q <> p) as Hqp by congruence. destruct (Hlv q Hq) as [Hq1 Hq2].
  pose proof (same_volume_of _ _ _ _ Hs1) as Hsv. pose proof Hs1 as (Ef1 & Ev1 & Eh1 & _). cbn in Ef1, Ev1, Eh1.
  assert (forall e, e <> 0 -> wp (drop_fv p q e) (s1, w0) (opened s w p d dvp l bs v lf vap e)) as Hdrop.
  { intros e He. eapply wp_mono; [by eapply wp_drop_fv|]. intros r [s5 w5] (-> & E & H). cbn [fst snd] in *. subst w5. unfold opened.
    rewrite (proj2 (Z.eqb_neq _ _) He). split; [done|]. split; [by exists cache|done]. }
  unfold create_existing, open_refusal.
  eapply (wp_lift_call _ _ _ _ (fun a s' => a = fsi s /\ s' = s1)); [by apply wp_gets|]. intros ? ? [-> ->].
  eapply wp_lift_call; [apply (wp_get_fv _ _ v); by rewrite Ev1, lookup_insert_eq|]. intros ? ? [-> ->].
  destruct (bool_decide_reflect (fv_type v = VDIR)) as [Hty|Hty].
  { destruct (flag mode VWRITE); [by apply Hdrop|by eapply wp_open_dir]. }
  destruct excl; [by apply Hdrop|]. destruct (Z.eqb_spec (fat32_faccess (fsi s) v mode cr) 0) as [->|He]; cbn [negb]; [|by apply Hdrop].
  apply wp_bind, wp_try. eapply wp_mono.
  { apply (wp_cut s1 w0 q v lf vap); [|by rewrite Eh1, lookup_insert_ne|by rewrite Ev1, lookup_insert_eq|done|].
    - apply (ready_same_volume s); [done|done|]. rewrite Eh1, lookup_insert_ne by done. apply Hr.
    - intros Hc. destruct (Hfile Hc) as (H1 & _ & H2 & H3). rewrite Ef1. split; [|done].
      exact (proj1 (file_ok_proper _ _ Hs1 v v eq_refl lf lf eq_refl) H1). }
  intros r [s2 w2] (E2 & Hr2 & Hh2 & v1 & Hv2 & Hrs & H). cbn [fst snd] in *. subst w2. rewrite Ev1, insert_insert_eq in Hv2. rewrite Eh1 in Hh2.
  assert (fv_parent_vp v1 = None) as Hpar1 by (by destruct Hrs as (? & ? & ? & ? & -> & _)).
  destruct r as [[]|e| | |]; try done; cbn [wpk].
  - eapply (wp_open_file s w w0 p d dvp l bs name stack cr v lf vap q cache s2 v1); try done. by eapply size_set_from.
  - destruct H as (-> & Hc & Hn). pose proof (size_nospace_from _ _ _ _ Hsv Hn) as Hn1.
    eapply wp_mono; [apply (wp_drop_at s2 w0 p q v1 (held s)); try done; by rewrite Hv2, lookup_insert_eq|]. intros r sw [-> ->].
    unfold opened. cbn [Z.eqb negb fst snd]. split; [apply ready_set_held; [by apply ready_set_fvs|apply Hr]|]. split; [done|].
    split; [apply (size_nospace_dir s lf _ _ _ _ Hn1); [by apply Hfile|by apply (directory_at _ _ _ _ _ Hd)]|].
    exists cache, (mkTimespec 0 0), (mkTimespec 0 0). split; [done|]. split; [done|]. split; [done|]. right.
    split; [done|]. split; [done|]. split; [exact Hn1|]. cbn. rewrite Hv2, delete_insert_id; [done|]. by rewrite lookup_insert_ne.
Qed.

Lemma wp_create_open s w p d dvp l bs name stack cr v lf vap excl mode :
  openable s w p d dvp l bs name stack cr v lf vap ->
  wp (fat32_create tb p name vap excl mode cr stack) (s, w) (opened s w p d dvp l bs v lf vap (open_refusal (fsi s) v excl mode cr)).
Proof.
  intros Ho. pose proof Ho as [Hr Hd Hl Hlv Hlk Hstk Hn Hacc (x & e & Hf & Ev) _]. pose proof (dir_fv _ _ _ _ _ Hd) as Hp.
  unfold fat32_create. eapply wp_lift_call; [by apply wp_get_fv|]. intros ? ? [-> ->].
  rewrite bool_decide_true by by destruct Hd. cbn [negb].
  eapply wp_lift_call; [by apply (wp_dir_writable _ _ d)|]. intros [] ? ->.
  eapply wp_call_ok; [apply wp_vnode_new|]. intros ? [s0 w0] (q & -> & Hq & E & Hw). cbn [fst snd] in E, Hw. subst s0.
  apply (wp_search tb s w0 p d l bs); try done. intros cache s1 Hca Hcl Hs1. rewrite Hf in Hs1 |- *. rewrite <- Ev in Hs1.
  cbn [search_result]. eapply wp_create_existing; try done. by rewrite Ev.
Qed.

(** C13: [fat32_create] of a name that exists refuses a directory that is opened
    for writing (EISDIR), an exclusive creation (EEXIST) and what the permissions
    of the file forbid, in this order and without any effect; else it cuts or
    extends the file to the size that is given, if one is, and returns a new
    vnode for the entry that holds the directory.  The bytes of the directory
    are those before, also when the size and the first cluster have changed; no
    other chain and no contents that remain change.  Without space (ENOSPC) or
    without a vnode (ENOMEM) the new structure is freed.  The lock of the
    directory is released in every case. *)
Theorem create_existing_correct s w p d dvp l bs name stack cr v lf vap excl mode :
  openable s w p d dvp l bs name stack cr v lf vap ->
  wp (fat32_create tb p name vap excl mode cr stack) (s, w) (opened s w p d dvp l bs v lf vap (open_refusal (fsi s) v excl mode cr)).
Proof. apply wp_create_open. Qed.

End open.

(** ** Witness

    "Hello world.txt" is created again with the size 0. *)
Definition demo_cut : vattr :=
  mkVattr AT_SIZE VREG 0 0 0 0 0 0 0 (mkTimespec 0 0) (mkTimespec 0 0) (mkTimespec 0 0) 0 0 0.
Definition demo_hello_fv : fat32fs_vnode := found_fv 32 demo_vol demo_root_fv (lookup_name demo_slots demo_stack demo_name).

Lemma demo_openable :
  openable 32 demo_vol demo_layer 2 demo_root_fv 9 [2] demo_slots demo_name demo_stack demo_root_cred demo_hello_fv [3; 5; 6] demo_cut.
Proof.
  constructor; try reflexivity; [apply demo_vol_ready|apply demo_vol_directory|apply demo_vol_locks|apply demo_layer_linked|cbn; lia| |].
  - destruct (lookup_name demo_slots demo_stack demo_name) as [[x e]|] eqn:E; [|by vm_compute in E].
    exists x, e. split; [done|]. unfold demo_hello_fv. by rewrite E.
  - intros _. split; [|split; [set_solver by lia|split; [cbn; lia|by vm_compute]]].
    apply file_ok_chain; [done|]. split; [apply cache_ok_zeros|]. split; [by vm_compute|].
    change (file_chain demo_vol 3 [3; 5; 6]). apply demo_vol_chain.
Qed.

Lemma create_existing_correct_witness :
  wp (fat32_create 32 2 demo_name demo_cut false VWRITE demo_root_cred demo_stack) (demo_vol, demo_layer)
    (opened demo_vol demo_layer 2 demo_root_fv 9 [2] demo_slots demo_hello_fv [3; 5; 6] demo_cut
      (open_refusal (fsi demo_vol) demo_hello_fv false VWRITE demo_root_cred)).
Proof.
  apply (create_existing_correct 32 demo_vol demo_layer 2 demo_root_fv 9 [2] demo_slots demo_name demo_stack demo_root_cred
    demo_hello_fv [3; 5; 6] demo_cut false VWRITE demo_openable).
Defined.

(** The entry on disk still has the cluster 3 and the size 1300, but the cluster
    is free, and the new structure has nothing that would be written. *)
Example demo_open_stale :
  match fat32_create 32 2 demo_name demo_cut false VWRITE demo_root_cred demo_stack (demo_vol, demo_layer) with
  | ((s', w'), Ok vp) =>
      fat s' 3 = FAT32_CLUSTER_FREE /\
      option_map (fun bs => option_map (fun y => (first_cluster y.2, RLE32 (get83 y.2 D83.file_size))) (lookup_name bs demo_stack demo_name))
        (cluster_bytes s' 2) = Some (Some (3, 1300)) /\
      option_map (fun q => option_map (fun v => (fv_size v, fv_flags v)) (fvs s' !! q)) (first_bhv w' vp) = Some (Some (0, 0))
  | _ => False
  end.
Proof. by vm_compute. Qed.
