(* ===== verification/ReleaseSpec.v ===== *)
(** * The end of a vnode

    When the last reference to a vnode goes away, [fat32_inactive] writes its
    metadata, frees its structure and releases its parent, whose end this may be
    in turn: the whole path up to the first vnode that is still in use. *)
From S2P Require Import Prelude Layout Time Names Kernel Device Cls Fat Demo Alloc Chain Free Cache File Truncate Access Io IoSpec WriteSpec Dir DirSpec LfnSpec Vnode Nameops Vnops Listing Remove VnodeSpec VnopsSpec DirDemo AttrSpec Slots Insert CreateSpec RenameSpec MkdirSpec MoveSpec.

Section release.
Context {K V : Type} `{!Kernel K, !KernelLaws K, !Vnodes V, !VnodesLaws V}.
Implicit Types (s : st K) (w : V).

(** ** Paths *)

(** A vnode, its structure, and the directory with its entry: the clusters and
    the bytes. *)
Record level : Type := mkLevel {
  lv_vp : nat;
  lv_p : nat;
  lv_fv : fat32fs_vnode;
  lv_dir : list Z;
  lv_bs : list Z
}.

Definition dirty (x : level) : bool := flag (fv_flags (lv_fv x)) FV_DIRTY_MASK.

(** A vnode with [n] references, that is not the root and is not locked. *)
Record level_ok s w (n : Z) (x : level) : Prop := {
  lk_bhv : first_bhv w (lv_vp x) = Some (lv_p x);
  lk_fv : fvs s !! lv_p x = Some (lv_fv x);
  lk_vnode : fv_vnode (lv_fv x) = Some (lv_vp x);
  lk_count : v_count w (lv_vp x) = n;
  lk_locks : held s !! FvLock (lv_p x) = None /\ held s !! CacheLock (lv_p x) = None;
  lk_root : flag (fv_flags (lv_fv x)) FV_ROOT = false;
  lk_entry : dirty x = true -> entry_ok s (lv_fv x) (lv_dir x) (lv_bs x)
}.

(** The vnode above the path, if there is one, is used otherwise, too. *)
Definition top_ok s w (top : option nat) : Prop :=
  match top with
  | Some vp => 1 < v_count w vp /\ exists pf v, first_bhv w vp = Some pf /\ fvs s !! pf = Some v /\ fv_vnode v = Some vp /\
                 held s !! FvLock pf = None
  | None => True
  end.

Definition next_vp (path : list level) (top : option nat) : option nat :=
  match path with x :: _ => Some (lv_vp x) | [] => top end.

(** The vnode [x] is not in the path of its parent, whose entries are elsewhere. *)
Definition below (x : level) (path : list level) (top : option nat) : Prop :=
  fv_parent_vp (lv_fv x) = next_vp path top /\ top <> Some (lv_vp x) /\
  Forall (fun y => lv_vp y <> lv_vp x /\ lv_dir y ## lv_dir x) path.

(** From a vnode with one reference up to [top]: each is held by the one before. *)
Fixpoint path_ok s w (path : list level) (top : option nat) : Prop :=
  match path with
  | [] => top_ok s w top
  | x :: path => level_ok s w 1 x /\ below x path top /\ path_ok s w path top
  end.

(** ** The result *)

(** What the slot of a dirty vnode holds after it was written. *)
Definition synced (v : fat32fs_vnode) (bs e : list Z) : Prop :=
  length e = 32%nat /\ Forall is_byte e /\
  forall fl, get83 e fl = default (get83 (slice bs (Z.to_nat (entry_off v)) 32) fl) (assigned (dirty_members v) fl).

Definition entry_flushed s s' (x : level) : Prop :=
  dirty x = true -> exists e, synced (lv_fv x) (lv_bs x) e /\
    dir_at s' (entry_dir s (lv_fv x)) (lv_dir x) (splice (lv_bs x) (Z.to_nat (entry_off (lv_fv x))) e).

Definition dirs (path : list level) : list Z := concat (map lv_dir path).

Record released s w (path : list level) (top : option nat) (sw : st K * V) : Prop := {
  rs_ready : ready (fst sw);
  rs_fsi : fsi (fst sw) = fsi s;
  rs_held : held (fst sw) = held s;
  rs_fvs : fvs (fst sw) = foldr (fun x m => delete (lv_p x) m) (fvs s) path;
  rs_entries : Forall (entry_flushed s (fst sw)) path;
  rs_keeps : keeps s (dirs path) (fst sw) (dirs path);
  rs_data : data_keeps s (dirs path) (fst sw);
  rs_layer q : Forall (fun x => lv_vp x <> q) path ->
    first_bhv (snd sw) q = first_bhv w q /\ v_count (snd sw) q = v_count w q - (if decide (top = Some q) then 1 else 0)
}.

(** ** One vnode *)

(** The metadata is written, if it is dirty. *)
Record flushed s (x : level) s' : Prop := {
  fl_ready : ready s';
  fl_fsi : fsi s' = fsi s;
  fl_held : held s' = held s;
  fl_fvs : exists v, fvs s' = <[lv_p x := v]> (fvs s) /\ fv_parent_vp v = fv_parent_vp (lv_fv x);
  fl_entry : entry_flushed s s' x;
  fl_keeps : keeps s (lv_dir x) s' (lv_dir x);
  fl_data : data_keeps s (lv_dir x) s'
}.

(** The vnode that comes next. *)
Lemma next_ok s w path top vp :
  path_ok s w path top -> next_vp path top = Some vp ->
  exists pf v, first_bhv w vp = Some pf /\ fvs s !! pf = Some v /\ fv_vnode v = Some vp /\ held s !! FvLock pf = None.
Proof.
  destruct path as [|x path]; cbn.
  - intros H ->. by destruct H as [_ H].
  - intros ([H1 H2 H3 _ [H4 _] _ _] & _) [= <-]. by exists (lv_p x), (lv_fv x).
Qed.

Lemma next_ne x path top vp : below x path top -> next_vp path top = Some vp -> vp <> lv_vp x.
Proof.
  intros (_ & Ht & Hne) Hn. destruct path as [|y path]; cbn in Hn; [congruence|].
  apply Forall_cons_1 in Hne as [[Hne _] _]. congruence.
Qed.

Lemma wp_flush s w n x path top :
  ready s -> level_ok s w n x -> below x path top -> path_ok s w path top ->
  wp (if dirty x then do* try (fat32_sync_metadata (lv_p x)) in ret tt else ret tt) (s, w)
    (okp (fun _ sw => snd sw = w /\ flushed s x (fst sw))).
Proof.
  intros Hr Hx Hb Hp. pose proof Hx as [H1 H2 H3 H4 [H5 H6] H7 H8]. destruct (dirty x) eqn:Hd.
  - assert (exists p, parent_fv s w (lv_p x) (lv_fv x) p) as [p Hpar].
    { unfold parent_fv. pose proof Hb as (Hpv & _). rewrite Hpv. destruct (next_vp path top) as [vp|] eqn:Hn; [|by exists None].
      destruct (next_ok _ _ _ _ _ Hp Hn) as (pf & v & Hb1 & Hb2 & Hb3 & Hb4). exists (Some pf). split; [done|]. split; [|done].
      intros ->. pose proof (next_ne x path top vp Hb Hn). congruence. }
    apply wp_bind, wp_try. eapply wp_mono; [by eapply wp_sync_metadata; [..|by apply H8]|].
    intros [[]| | | |] [s1 w1]; try done. cbn [okp fst snd]. intros [-> (e & He1 & He2 & He3 & Hr1 & Hf & Hv & Hh & Hat & Hk & Hdk)].
    apply wp_ret. split; [done|]. split; try done.
    + by exists (clear_flags FV_DIRTY_MASK (lv_fv x)).
    + intros _. exists e. split; [by split_and!|exact Hat].
  - apply wp_ret. split; [done|]. cbn [fst]. split; try done.
    + exists (lv_fv x). by rewrite insert_id.
    + intros Hd2. congruence.
Qed.

Lemma level_p_ne s w w' n n' x y : level_ok s w n x -> level_ok s w' n' y -> lv_vp y <> lv_vp x -> lv_p y <> lv_p x.
Proof. intros [_ H1 H2 _ _ _ _] [_ H3 H4 _ _ _ _] Hne E. rewrite E, H1 in H3. congruence. Qed.

Lemma flushed_dir s x s1 c l bs : flushed s x s1 -> l ## lv_dir x -> dir_at s c l bs -> dir_at s1 c l bs.
Proof.
  intros [_ Hf _ _ _ Hk Hdk] Hap [Hch Hc]. split; [by apply Hk|].
  apply (contents_keeps s (lv_dir x) s1); [by rewrite Hf|done|by eapply chain_range|done|done].
Qed.

(** What concerns the rest of the path. *)
Record kept s (x : level) s1 : Prop := {
  kp_fsi : fsi s1 = fsi s;
  kp_held : held s1 = held s;
  kp_fvs q : q <> lv_p x -> fvs s1 !! q = fvs s !! q;
  kp_dirs c l bs : l ## lv_dir x -> dir_at s c l bs -> dir_at s1 c l bs
}.

Lemma flushed_kept s x s1 : flushed s x s1 -> kept s x s1.
Proof.
  intros Hfl. split; [apply Hfl|apply Hfl| |intros c l bs; exact (flushed_dir _ _ _ c l bs Hfl)].
  intros q Hq. pose proof Hfl as [_ _ _ (v & -> & _) _ _ _]. by rewrite lookup_insert_ne.
Qed.

Lemma level_after s w x s1 w1 m y n :
  kept s x s1 -> others_same (lv_vp x) w w1 -> level_ok s w m x -> level_ok s w n y -> lv_vp y <> lv_vp x -> lv_dir y ## lv_dir x ->
  level_ok s1 w1 n y.
Proof.
  intros [Hf Hh Hv Hat] Hw Hx Hy Hne Hap. pose proof (level_p_ne _ _ _ _ _ _ _ Hx Hy Hne) as Hp.
  destruct (Hw _ Hne) as [E1 E2]. pose proof Hy as [H1 H2 H3 H4 H5 H6 H7].
  split; try done; [by rewrite E2|by rewrite Hv|by rewrite E1|by rewrite Hh|].
  intros Hd. destruct (H7 Hd) as [O1 O2 O3 O4]. constructor; try done. unfold entry_dir. rewrite Hf. by apply Hat.
Qed.

Lemma path_after s w x s1 w1 n path top :
  kept s x s1 -> others_same (lv_vp x) w w1 -> level_ok s w n x -> below x path top -> path_ok s w path top -> path_ok s1 w1 path top.
Proof.
  intros Hkp Hw Hx (_ & Ht & Hap). induction Hap as [|y path [Hne Hap] _ IH]; cbn.
  - destruct top as [vp|]; [|done]. intros (Hc & pf & v & H1 & H2 & H3 & H4). assert (vp <> lv_vp x) as Hne by congruence.
    destruct (Hw _ Hne) as [E1 E2]. pose proof Hkp as [_ Hh Hv _]. pose proof Hx as [_ X1 X2 _ _ _ _].
    split; [by rewrite E1|]. exists pf, v. rewrite E2, Hh. split; [done|]. split; [|done]. rewrite Hv; [done|].
    intros ->. rewrite X1 in H2. congruence.
  - intros (Hy & Hb & Hp). split; [by eapply level_after|]. split; [done|by apply IH].
Qed.

(** ** The path *)

Lemma deleted_insert path p v (m : gmap nat fat32fs_vnode) :
  delete p (foldr (fun x m => delete (lv_p x) m) (<[p := v]> m) path) = delete p (foldr (fun x m => delete (lv_p x) m) m path).
Proof.
  induction path as [|x path IH]; cbn; [apply delete_insert_eq|]. rewrite !(delete_delete _ p). by f_equal.
Qed.

Lemma deleted_lookup path p (m : gmap nat fat32fs_vnode) :
  Forall (fun y => lv_p y <> p) path -> foldr (fun x m => delete (lv_p x) m) m path !! p = m !! p.
Proof. induction 1 as [|x path Hx _ IH]; cbn; [done|]. by rewrite lookup_delete_ne. Qed.

Lemma path_p_ne s w path top x n :
  path_ok s w path top -> level_ok s w n x -> Forall (fun y => lv_vp y <> lv_vp x /\ lv_dir y ## lv_dir x) path ->
  Forall (fun y => lv_p y <> lv_p x) path.
Proof.
  intros Hp Hx. induction 1 as [|y path [Hne _] _ IH]; cbn in *; [constructor|]. destruct Hp as (Hy & _ & Hp).
  constructor; [by eapply level_p_ne|by apply IH].
Qed.

Lemma released_nil s w : ready s -> released s w [] None (s, w).
Proof.
  intros Hr. split; [done|done|done|done|by constructor|by apply keeps_equiv|by intros ? _ _|]. intros q _. cbn [fst snd]. rewrite decide_False by done. split; [done|]. by rewrite Z.sub_0_r.
Qed.

Lemma dirs_apart x path : Forall (fun y => lv_vp y <> lv_vp x /\ lv_dir y ## lv_dir x) path -> lv_dir x ## dirs path.
Proof.
  intros H c Hc Hin. apply list_elem_of_In, in_concat in Hin as (l & Hl & Hcl). apply in_map_iff in Hl as (y & <- & Hy).
  rewrite List.Forall_forall in H. apply (proj2 (H y Hy) c); [by apply list_elem_of_In|done].
Qed.

Lemma disjoint_app_iff (l a b : list Z) : l ## a ++ b <-> l ## a /\ l ## b.
Proof.
  split; [intros H; split; intros c Hc Hx; apply (H c Hc), elem_of_app; tauto|].
  intros [H1 H2] c Hc [Hx|Hx]%elem_of_app; [by apply (H1 c)|by apply (H2 c)].
Qed.

Lemma released_cons s w x path top s1 w1 s2 w2 :
  flushed s x s1 -> others_same (lv_vp x) w w1 -> Forall (fun y => lv_vp y <> lv_vp x /\ lv_dir y ## lv_dir x) path ->
  released s1 w1 path top (s2, w2) -> released s w (x :: path) top (set_fvs (delete (lv_p x) (fvs s2)) s2, w2).
Proof.
  intros [Hr1 Hf1 Hh1 (v & Hv1 & _) He1 Hk1 Hd1] Hw Hap [Hr2 Hf2 Hh2 Hv2 He2 Hk2 Hd2 Hl2]. cbn [fst snd] in *.
  pose proof (dirs_apart x path Hap) as Hax. split; cbn [fst snd].
  - by apply ready_set_fvs.
  - cbn. congruence.
  - cbn. congruence.
  - cbn. rewrite Hv2, Hv1. apply deleted_insert.
  - constructor.
    + intros Hd. destruct (He1 Hd) as (e & He & [Hch Hc]). exists e. split; [done|].
      change (dir_at s2 (entry_dir s (lv_fv x)) (lv_dir x) (splice (lv_bs x) (Z.to_nat (entry_off (lv_fv x))) e)).
      split; [by apply Hk2|]. apply (contents_keeps s1 (dirs path) s2); [by rewrite Hf2|done|by eapply chain_range|done|done].
    + eapply Forall_impl; [exact He2|]. intros y Hy Hd. destruct (Hy Hd) as (e & He & Hat). exists e. split; [done|].
      unfold entry_dir in Hat. rewrite Hf1 in Hat. exact Hat.
  - intros c2 l2 Hc2 Hl. unfold dirs in Hl. cbn [map concat] in Hl. apply disjoint_app_iff in Hl as [Ha Hb].
    destruct (Hk1 _ _ Hc2 Ha) as [Hc1 _]. destruct (Hk2 _ _ Hc1 Hb) as [Hc3 _]. split; [exact Hc3|].
    unfold dirs. cbn [map concat]. by apply disjoint_app_iff.
  - intros c Hc Hn. unfold dirs in Hn. cbn [map concat] in Hn. apply not_elem_of_app in Hn as [Ha Hb].
    rewrite <- (Hd1 c Hc Ha). rewrite <- Hf1 in *. by apply Hd2.
  - intros q [Hq Hq2]%Forall_cons_1. destruct (Hw q) as [E1 E2]; [done|]. rewrite <- E1, <- E2. by apply Hl2.
Qed.

(** The structure is freed, after its parent was released. *)
Lemma wp_delete_with s1 w1 x v path top rele :
  ready s1 -> fvs s1 !! lv_p x = Some v -> fv_parent_vp v = next_vp path top -> path_ok s1 w1 path top ->
  Forall (fun y => lv_p y <> lv_p x) path -> held s1 !! FvLock (lv_p x) = None -> held s1 !! CacheLock (lv_p x) = None ->
  (forall vp, next_vp path top = Some vp -> wp (rele vp) (s1, w1) (okp (fun _ sw => released s1 w1 path top sw))) ->
  wp (vnode_delete_with rele (lv_p x)) (s1, w1) (okp (fun _ sw => exists s2, released s1 w1 path top (s2, snd sw) /\
    fst sw = set_fvs (delete (lv_p x) (fvs s2)) s2)).
Proof.
  intros Hr Hv Hpar Hp Hne H1 H2 Hrele. unfold vnode_delete_with. eapply wp_lift_call; [by apply wp_get_fv|]. intros ? ? [-> ->].
  eapply (wp_call_ok _ _ _ (fun _ sw => exists s2 v2, released s1 w1 path top (s2, snd sw) /\ fvs (fst sw) = <[lv_p x := v2]> (fvs s2) /\
    fst sw = set_fvs (fvs (fst sw)) s2)).
  - rewrite Hpar. destruct (next_vp path top) as [vp|] eqn:Hn.
    + eapply wp_call_ok; [by apply Hrele|]. intros [] [s2 w2] Hrel. pose proof (rs_fvs _ _ _ _ _ Hrel) as Hf. cbn [fst] in Hf.
      apply wp_lift. eapply wp_mono; [apply (wp_upd_fv s2 _ v); by rewrite Hf, deleted_lookup|].
      intros [[]| | | |] s3; try done. cbn [okp fst snd]. intros ->. by exists s2, (set_fv_parent_vp None v).
    + destruct path as [|y path]; [|done]. cbn in Hn. subst top. apply wp_ret. cbn [okp fst snd]. exists s1, v. split; [by apply released_nil|].
      rewrite insert_id by done. split; [done|by destruct s1].
  - intros [] [s3 w2] (s2 & v2 & Hrel & Hf & E). cbn [fst snd] in *. pose proof (rs_held _ _ _ _ _ Hrel) as Hh. cbn [fst] in Hh.
    assert (held s3 = held s1) as Hh3 by (by rewrite E).
    eapply wp_lift_call; [apply wp_lock_unheld; by rewrite Hh3|]. intros [] ? ->.
    eapply wp_lift_call; [apply wp_lock_unheld; by rewrite Hh3|]. intros [] ? ->.
    eapply wp_lift_call; [apply (wp_upd_fv _ _ v2); by rewrite Hf, lookup_insert_eq|]. intros [] ? ->.
    apply wp_lift. unfold kmem_free. eapply wp_call_ok; [apply wp_get_fv; cbn; apply lookup_insert_eq|].
    intros ? ? [-> ->]. repeat wp_step. cbn [okp fst snd]. exists s2. split; [done|]. cbn. rewrite delete_insert_eq, E, Hf. cbn.
    by rewrite delete_insert_eq.
Qed.

Lemma wp_inactive_with s w x path top rele :
  ready s -> level_ok s w 0 x -> below x path top -> path_ok s w path top ->
  (forall s1 w1 vp, ready s1 -> path_ok s1 w1 path top -> next_vp path top = Some vp ->
     wp (rele vp) (s1, w1) (okp (fun _ sw => released s1 w1 path top sw))) ->
  wp (inactive_with rele (lv_p x)) (s, w) (okp (fun b sw => b = true /\ released s w (x :: path) top sw)).
Proof.
  intros Hr Hx Hb Hp Hrele. pose proof Hx as [X1 X2 X3 X4 [X5 X6] X7 _]. pose proof Hb as (B1 & B2 & B3). unfold inactive_with.
  eapply wp_lift_call; [by apply wp_get_fv|]. intros ? ? [-> ->]. rewrite X3. cbn [of_opt]. repeat wp_step. cbn [snd]. rewrite X4.
  cbn [Z.ltb Z.compare]. eapply wp_call_ok; [by apply (wp_flush s w 0 x path top)|].
  intros [] [s1 w'] [E Hfl]. cbn [fst snd] in E, Hfl. subst w'. unfold vn_op. repeat wp_step. cbn [fst snd].
  destruct (bhv_remove_ok (lv_vp x) (lv_p x) w) as (_ & _ & Hoth). set (w1 := bhv_remove _ _ w) in *.
  pose proof (path_after _ _ _ _ _ _ _ _ (flushed_kept _ _ _ Hfl) Hoth Hx Hb Hp) as Hp1. pose proof Hfl as [Hr1 _ Hh1 (v & Hv1 & Hpv) _ _ _].
  eapply wp_call_ok; [apply (wp_delete_with s1 w1 x v path top rele); try done|].
  - by rewrite Hv1, lookup_insert_eq.
  - by rewrite Hpv.
  - exact (path_p_ne _ _ _ _ _ _ Hp Hx B3).
  - by rewrite Hh1.
  - by rewrite Hh1.
  - intros vp Hvp. by apply Hrele.
  - intros [] [s3 w2] (s2 & Hrel & E). cbn [fst snd] in *. subst s3. apply wp_ret. split; [done|]. by eapply released_cons.
Qed.

(** A reference is dropped. *)
Lemma wp_do_rele s w vp :
  wp (do_vn_rele vp) (s, w) (okp (fun b sw => b = (v_count w vp =? 1) /\ fst sw = s /\
    v_count (snd sw) vp = v_count w vp - 1 /\ first_bhv (snd sw) vp = first_bhv w vp /\ others_same vp w (snd sw))).
Proof. unfold wp, do_vn_rele. cbn [fst snd]. destruct (vn_rele vp w) as [w' b] eqn:E. exact (conj (proj1 (vn_rele_ok _ _ _ _ E)) (conj eq_refl (proj2 (vn_rele_ok _ _ _ _ E)))). Qed.

Lemma level_renamed s w w' n n' x :
  level_ok s w n x -> first_bhv w' (lv_vp x) = first_bhv w (lv_vp x) -> v_count w' (lv_vp x) = n' -> level_ok s w' n' x.
Proof. intros [H1 H2 H3 H4 H5 H6 H7] E1 E2. split; try done. by rewrite E1. Qed.

(** [VN_RELE] of the first vnode, with fuel for the path. *)
Lemma wp_vn_release path : forall s w n vp top,
  ready s -> path_ok s w path top -> next_vp path top = Some vp -> (length path < n)%nat ->
  wp (vn_release n vp) (s, w) (okp (fun _ sw => released s w path top sw)).
Proof.
  induction path as [|x path IH]; intros s w n vp top Hr Hp Hn Hlen; (destruct n as [|n]; [cbn in Hlen; lia|]); cbn [vn_release].
  - cbn in Hn, Hp. subst top. destruct Hp as [Hc _]. eapply wp_call_ok; [apply wp_do_rele|].
    intros b [s1 w1] (-> & E0 & E1 & E2 & E3). cbn [fst snd] in *. subst s1. rewrite (proj2 (Z.eqb_neq _ 1)) by lia. apply wp_ret.
    split; [done|done|done|done|by constructor|by apply keeps_equiv|by intros ? _ _|]. cbn [fst snd]. intros q _. destruct (decide (q = vp)) as [->|Hq].
    + rewrite decide_True by done. done.
    + rewrite decide_False by congruence. destruct (E3 q Hq) as [-> ->]. split; [done|lia].
  - cbn in Hn. injection Hn as <-. cbn in Hp. destruct Hp as (Hx & Hb & Hp). eapply wp_call_ok; [apply wp_do_rele|].
    intros b [s1 w1] (-> & E0 & E1 & E2 & E3). cbn [fst snd] in *. subst s1. rewrite (lk_count _ _ _ _ Hx) in *. cbn [Z.eqb Pos.eqb].
    assert (level_ok s w1 0 x) as Hx1 by (by eapply level_renamed).
    assert (path_ok s w1 path top) as Hp1 by (eapply (path_after s w x s w1); [by split|done..]).
    unfold VNODE_TO_FV. repeat wp_step. cbn [snd]. rewrite (lk_bhv _ _ _ _ Hx1). cbn [of_opt]. repeat wp_step.
    eapply wp_call_ok; [apply (wp_inactive_with s w1 x path top); try done|].
    { intros s2 w2 vp Hr2 Hp2 Hn. apply IH; try done. cbn in Hlen. lia. }
    intros b [s2 w2] [-> [R1 R2 R3 R4 R5 R6 R7 R8]]. unfold vn_op. repeat wp_step. cbn [fst snd okp] in *. split; try done. cbn [snd].
    intros q Hq. pose proof (R8 q Hq) as [E4 E5]. apply Forall_cons_1 in Hq as [Hq _].
    assert (q <> lv_vp x) as Hqx by congruence. destruct (vn_inactive_ok (lv_vp x) true w2 q Hqx) as [-> ->].
    destruct (E3 q Hqx) as [<- <-]. done.
Qed.

(** The depth of the path is bounded by the structures there are. *)
Lemma path_length s w path top : path_ok s w path top -> (length path <= size (fvs s))%nat.
Proof.
  intros Hp. assert (NoDup (map lv_p path) /\ forall p, p ∈ map lv_p path -> p ∈ dom (fvs s)) as [Hnd Hin].
  { induction path as [|x path IH]; cbn; [split; [constructor|by intros p ?%not_elem_of_nil]|].
    destruct Hp as (Hx & Hb & Hp). destruct (IH Hp) as [H1 H2]. split.
    - constructor; [|done]. intros (y & E & Hy)%list_elem_of_fmap. destruct Hb as (_ & _ & Hb).
      pose proof (path_p_ne _ _ _ _ _ _ Hp Hx Hb) as Hne. rewrite Forall_forall in Hne. by apply (Hne y Hy).
    - intros p [->|Hq]%elem_of_cons; [|by apply H2]. apply elem_of_dom. exists (lv_fv x). apply Hx. }
  rewrite <- size_dom, <- (length_map lv_p path), <- (size_list_to_set (C := gset nat) _ Hnd).
  apply subseteq_size. intros p Hp2%elem_of_list_to_set. by apply Hin.
Qed.

Lemma wp_inactive s w x path top :
  ready s -> level_ok s w 0 x -> below x path top -> path_ok s w path top ->
  wp (fat32_inactive (lv_p x)) (s, w) (okp (fun b sw => b = true /\ released s w (x :: path) top sw)).
Proof.
  intros Hr Hx Hb Hp. apply wp_inactive_with; try done. intros s1 w1 vp Hr1 Hp1 Hn. unfold FAT32_VN_RELE. repeat wp_step.
  cbn [fst]. pose proof (path_length _ _ _ _ Hp1). apply wp_vn_release; try done. lia.
Qed.

(** C36: [fat32_inactive] of a vnode without references always returns, however
    long the path to the root is: it writes the metadata of the vnode if it is
    dirty and frees its structure; then it releases the parent, whose last
    reference this may be, and so on up to the first vnode that is used
    otherwise, which has one reference less.  On disk exactly the entries of the
    dirty vnodes of this path have changed, each to the members of its
    structure; the lock of every parent that was taken is free again. *)
Theorem inactive_correct s w x path top :
  ready s -> level_ok s w 0 x -> below x path top -> path_ok s w path top ->
  wp (fat32_inactive (lv_p x)) (s, w) (okp (fun b sw => b = true /\ released s w (x :: path) top sw)).
Proof. apply wp_inactive. Qed.

End release.

(** ** Witness

    A file in the directory "SUB" and, with it, this directory; the root is in
    use. *)
Definition leaf_fv : fat32fs_vnode :=
  set_fv_parent_vp (Some 11%nat) (set_fv_parent_cluster 3 (set_fv_diroff 64 (set_fv_dirsz 1
    (set_fv_vnode (Some 12%nat) (set_fv_flags FV_SIZE_DIRTY demo_fv))))).
Definition inner_fv : fat32fs_vnode :=
  set_fv_parent_vp (Some 9%nat) (set_fv_diroff 32 (set_fv_flags FV_MTIME_DIRTY demo_sub_fv)).
Definition demo_path : st device :=
  set_fvs (<[5%nat := leaf_fv]> (<[4%nat := inner_fv]> (<[2%nat := demo_root_fv]> ∅))) demo_tree.
Definition path_layer : vntable :=
  mkVntable (<[9%nat := 2]> (<[11%nat := 1]> (<[12%nat := 0]> ∅))) (<[9%nat := 2%nat]> (<[11%nat := 4%nat]> (<[12%nat := 5%nat]> ∅))).
Definition leaf : level := mkLevel 12 5 leaf_fv [3; 5; 6] tree_sub.
Definition inner : level := mkLevel 11 4 inner_fv [2] tree_root.

Lemma demo_leaf_ok : level_ok demo_path path_layer 0 leaf.
Proof.
  split; try reflexivity; [by split|]. intros _. constructor.
  - vm_compute. congruence.
  - change (dir_at demo_tree 3 [3; 5; 6] tree_sub). split; [apply demo_tree_chain|apply demo_tree_contents].
  - vm_compute. split_and!; congruence.
  - vm_compute. split; congruence.
Qed.

Lemma demo_inner_ok : level_ok demo_path path_layer 1 inner.
Proof.
  split; try reflexivity; [by split|]. intros _. constructor.
  - vm_compute. congruence.
  - change (dir_at demo_tree 2 [2] tree_root). split; [apply demo_tree_chain|apply demo_tree_contents].
  - vm_compute. split_and!; congruence.
  - vm_compute. split; congruence.
Qed.

Lemma inactive_correct_witness :
  wp (fat32_inactive (lv_p leaf)) (demo_path, path_layer)
    (okp (fun b sw => b = true /\ released demo_path path_layer [leaf; inner] (Some 9%nat) sw)).
Proof.
  apply (inactive_correct demo_path path_layer leaf [inner] (Some 9%nat)).
  - apply ready_set_fvs, demo_tree_ready.
  - apply demo_leaf_ok.
  - split; [reflexivity|split; [done|]]. constructor; [|constructor]. split; [done|]. cbn. set_solver by lia.
  - split; [apply demo_inner_ok|split].
    + split; [reflexivity|split; [done|constructor]].
    + split; [reflexivity|]. by exists 2%nat, demo_root_fv.
Defined.

(** Both structures are free, the root has one reference, and the size of the
    file is in its slot. *)
Example demo_released :
  match fat32_inactive 5 (demo_path, path_layer) with
  | ((s', w'), Ok true) =>
      fvs s' !! 5%nat = None /\ fvs s' !! 4%nat = None /\ v_count w' 9 = 1 /\
      option_map (fun bs => RLE32 (get83 (slice bs 64 32) D83.file_size)) (cluster_bytes s' 3) = Some (fv_size demo_fv)
  | _ => False
  end.
Proof. by vm_compute. Qed.
