(* ===== verification/Integrity.v ===== *)
(** * The integrity check of a directory ([fat32_check_dir_integrity])

    The check is compiled with [FAT32_DBG_DIRENT]; it is the driver's own
    definition of a directory that is well formed. *)
From S2P Require Import Prelude Layout Time Names Kernel Cls File Dir.

(** The variables of the scan: whether a long-name sequence is open, the number
    and the checksum its next slot must have. *)
Record check : Type := mkCheck {
  in_lfn_sequence : bool;
  expected_lfn_seq : Z;
  expected_checksum : Z
}.

Inductive check_result : Type :=
| CheckPassed                 (* the end marker *)
| CheckFailed                 (* a violation: EINVAL *)
| CheckMore (x : check).      (* the next slot *)

(** A long-name slot. *)
Definition check_lfn (e : list Z) (x : check) : check_result :=
  let sequence := nth 0 (getlfn e Lfn.sequence) 0 in
  let checksum := nth 0 (getlfn e Lfn.checksum) 0 in
  let seq := Z.land sequence FAT32_LFN_SEQ_MASK in
  if (if flag sequence FAT32_LFN_LAST then in_lfn_sequence x else negb (in_lfn_sequence x)) then CheckFailed else
  let x := if flag sequence FAT32_LFN_LAST then mkCheck true seq checksum else x in
  if negb (seq =? expected_lfn_seq x) then CheckFailed
  else if negb (checksum =? expected_checksum x) then CheckFailed
  else CheckMore (mkCheck (in_lfn_sequence x) (u8 (expected_lfn_seq x - 1)) (expected_checksum x)).

(** An 8.3 entry; a sequence that is open must be complete. *)
Definition check_83 (e : list Z) (x : check) : check_result :=
  let attr := nth 0 (get83 e D83.attr) 0 in
  if in_lfn_sequence x && negb (expected_lfn_seq x =? 0) then CheckFailed
  else if in_lfn_sequence x && negb (fat32_checksum (get83 e D83.name) =? expected_checksum x) then CheckFailed
  else if flag attr FAT32_ATTR_DIRECTORY && negb (RLE32 (get83 e D83.file_size) =? 0) then CheckFailed
  else CheckMore (mkCheck false (expected_lfn_seq x) (expected_checksum x)).

(** One slot of 32 bytes. *)
Definition check_slot (e : list Z) (x : check) : check_result :=
  let first := nth 0 (get83 e D83.name) 0 in
  let attr := nth 0 (get83 e D83.attr) 0 in
  if first =? 0x00 then (if in_lfn_sequence x then CheckFailed else CheckPassed)
  else if first =? 0xE5 then (if in_lfn_sequence x then CheckFailed else CheckMore x)
  else if attr =? FAT32_ATTR_LONG_NAME then check_lfn e x
  else if flag attr FAT32_ATTR_VOLUME_ID then (if in_lfn_sequence x then CheckFailed else CheckMore x)
  else check_83 e x.

(** The slots of one cluster from [cluster_offset]. *)
Fixpoint check_cluster (n : nat) (bytes_per_cluster : Z) (data : list Z) (cluster_offset : Z) (x : check)
  : option check_result :=
  if negb (cluster_offset <? bytes_per_cluster) then Some (CheckMore x) else
  match n with
  | O => None
  | S n' =>
      match bsub data cluster_offset 32 with
      | None => None
      | Some e =>
          match check_slot e x with
          | CheckMore x' => check_cluster n' bytes_per_cluster data (cluster_offset + FAT32_DENTRY_SIZE) x'
          | r => Some r
          end
      end
  end.

Section check.
Context {K : Type} `{!Kernel K}.

(** One cluster; the loop ends with the error code. *)
Definition check_step (a : check * Z) : M (st K) (check * Z + Z) :=
  let '(x, current_cluster) := a in
  let* f := gets fsi in
  let* bp := fat32_read_cluster current_cluster in
  do* check_buf bp in
  let* r := of_opt (check_cluster (Z.to_nat (fsi_bytes_per_cluster f)) (fsi_bytes_per_cluster f) (b_addr bp) 0 x) in
  do* do_brelse bp in
  match r with
  | CheckPassed => ret (inr 0)
  | CheckFailed => ret (inr EINVAL)
  | CheckMore x' =>
      let* next := try (fat32_next_cluster current_cluster 0) in
      match next with
      | inl _ => ret (inr (if in_lfn_sequence x' then EINVAL else 0))
      | inr next_cluster => ret (inl (x', next_cluster))
      end
  end.

(** A chain of [cluster_count] clusters is the longest that ends. *)
Definition fat32_check_dir_integrity (fv : nat) : M (st K) unit :=
  let* f := gets fsi in
  let* v := get_fv fv in
  if negb (bool_decide (fv_type v = VDIR)) then throw ENOTDIR else
  if fv_cluster v =? 0 then ret tt else
  let* error := iter (S (Z.to_nat (fsi_cluster_count f))) check_step (mkCheck false 0 0, fv_cluster v) in
  if error =? 0 then ret tt else throw error.

End check.
