(* ===== verification/IntegritySpec.v ===== *)
(** * Directories that are well formed

    [fat32_check_dir_integrity] decides a property of the slots of a directory;
    the operations that create, delete and rename entries keep it. *)
From S2P Require Import Prelude Layout Time Names Kernel Device Cls Fat Demo Alloc Chain Free Cache File Truncate Access Io IoSpec WriteSpec Dir DirSpec LfnSpec Vnode Nameops Vnops Listing Remove VnodeSpec VnopsSpec DirDemo Slots Insert CreateSpec RenameSpec MkdirSpec Integrity.

(** ** The check on a list of slots *)

Fixpoint check_slots (es : list (list Z)) (x : check) : check_result :=
  match es with
  | [] => CheckMore x
  | e :: es' => match check_slot e x with CheckMore x' => check_slots es' x' | r => r end
  end.

(** The end of the chain is an end of the directory as well. *)
Definition passes (r : check_result) : bool :=
  match r with CheckPassed => true | CheckFailed => false | CheckMore x => negb (in_lfn_sequence x) end.

Definition no_check : check := mkCheck false 0 0.
Definition integral (bs : list Z) : bool := passes (check_slots (slot_list bs) no_check).

Lemma check_slots_app es1 es2 x :
  check_slots (es1 ++ es2) x = match check_slots es1 x with CheckMore x' => check_slots es2 x' | r => r end.
Proof. revert x. induction es1 as [|e es1 IH]; intros x; [done|]. cbn. by destruct (check_slot e x). Qed.

(** Outside a sequence only that matters. *)
Definition idle (x : check) : Prop := in_lfn_sequence x = false.

Lemma check_slot_idle e x y : idle x -> idle y ->
  match check_slot e x, check_slot e y with
  | CheckMore x', CheckMore y' => idle x' /\ idle y' \/ x' = y'
  | r, r' => r = r'
  end.
Proof.
  unfold idle. destruct x as [xi xs xc], y as [yi ys yc]. cbn. intros -> ->. unfold check_slot. cbn [in_lfn_sequence].
  destruct (_ =? 0x00); [done|]. destruct (_ =? 0xE5); [by left|]. destruct (_ =? FAT32_ATTR_LONG_NAME).
  - unfold check_lfn. cbn [in_lfn_sequence expected_lfn_seq expected_checksum negb]. destruct (flag _ FAT32_LFN_LAST); [|done].
    cbn [expected_lfn_seq expected_checksum in_lfn_sequence]. destruct (negb _); [done|]. destruct (negb _); [done|]. by right.
  - destruct (flag _ FAT32_ATTR_VOLUME_ID); [by left|]. unfold check_83. cbn [in_lfn_sequence andb].
    destruct (_ && _); [done|]. by left.
Qed.

Lemma check_slots_idle es x y : idle x -> idle y -> passes (check_slots es x) = passes (check_slots es y).
Proof.
  revert x y. induction es as [|e es IH]; intros x y Hx Hy; [by cbn; rewrite Hx, Hy|]. cbn.
  pose proof (check_slot_idle e x y Hx Hy) as H. destruct (check_slot e x), (check_slot e y); try done.
  destruct H as [[H1 H2]| ->]; [by apply IH|done].
Qed.

(** ** The format of a directory

    What the check decides, said without its variables: bytes 0 (marker or
    sequence number), 11 (attributes), 13 (checksum) and 28 to 31 (size) of the
    slots, as the FAT specification lays them out. *)

Definition unused_slot (e : list Z) : Prop := nth 0 e 0 = 0 \/ nth 0 e 0 = 0xE5.
Definition long_slot (e : list Z) : Prop := ~ unused_slot e /\ nth 11 e 0 = 0x0F.
Definition label_slot (e : list Z) : Prop :=
  ~ unused_slot e /\ nth 11 e 0 <> 0x0F /\ Z.land (nth 11 e 0) 0x08 <> 0.
(** A file or a directory; a directory has the size 0. *)
Definition short_slot (e : list Z) : Prop :=
  ~ unused_slot e /\ nth 11 e 0 <> 0x0F /\ Z.land (nth 11 e 0) 0x08 = 0 /\
  (Z.land (nth 11 e 0) 0x10 <> 0 -> RLE32 (take 4 (drop 28 e)) = 0).

(** Slot [n] of a long name: its number is in the low five bits; bit 6 marks the
    first slot on the disk. *)
Definition numbered (e : list Z) (first : bool) (n sum : Z) : Prop :=
  long_slot e /\ Z.land (nth 0 e 0) 0x1F = n /\ (Z.land (nth 0 e 0) 0x40 <> 0 <-> first = true) /\ nth 13 e 0 = sum.

(** The slots [n], ..., 1. *)
Inductive run : list (list Z) -> Z -> Z -> Prop :=
| run_end sum : run [] 0 sum
| run_slot e es n sum : 1 <= n -> numbered e false n sum -> run es (n - 1) sum -> run (e :: es) n sum.

Inductive sound_slots : list (list Z) -> Prop :=
| sound_end : sound_slots []
| sound_marker e es : nth 0 e 0 = 0 -> sound_slots (e :: es)
| sound_deleted e es : nth 0 e 0 = 0xE5 -> sound_slots es -> sound_slots (e :: es)
| sound_label e es : label_slot e -> sound_slots es -> sound_slots (e :: es)
| sound_short e es : short_slot e -> sound_slots es -> sound_slots (e :: es)
| sound_long e1 lfns e es n :
    1 <= n -> numbered e1 true n (fat32_checksum (take 11 e)) -> run lfns (n - 1) (fat32_checksum (take 11 e)) ->
    short_slot e -> sound_slots es -> sound_slots (e1 :: lfns ++ e :: es).

(** *** The check against the format *)

(** What [check_slot] reads of a slot. *)
Lemma slot_fields e :
  nth 0 (get83 e D83.name) 0 = nth 0 e 0 /\ nth 0 (get83 e D83.attr) 0 = nth 11 e 0 /\
  nth 0 (getlfn e Lfn.sequence) 0 = nth 0 e 0 /\ nth 0 (getlfn e Lfn.checksum) 0 = nth 13 e 0 /\
  get83 e D83.file_size = take 4 (drop 28 e) /\ get83 e D83.name = take 11 e.
Proof.
  do 32 (destruct e as [|? e]; [by vm_compute|]). repeat split.
Qed.

Lemma flag_spec x b : flag x b = true <-> Z.land x b <> 0.
Proof. unfold flag. rewrite negb_true_iff, Z.eqb_neq. done. Qed.
Lemma flag_clear x b : flag x b = false <-> Z.land x b = 0.
Proof. unfold flag. rewrite negb_false_iff, Z.eqb_eq. done. Qed.

(** The five kinds of slots. *)
Lemma slot_kinds e :
  nth 0 e 0 = 0 \/ nth 0 e 0 = 0xE5 \/ long_slot e \/ label_slot e \/
  (~ unused_slot e /\ nth 11 e 0 <> 0x0F /\ Z.land (nth 11 e 0) 0x08 = 0).
Proof.
  unfold long_slot, label_slot, unused_slot. destruct (decide (nth 0 e 0 = 0)), (decide (nth 0 e 0 = 0xE5)); [tauto..|].
  destruct (decide (nth 11 e 0 = 0x0F)), (decide (Z.land (nth 11 e 0) 0x08 = 0)); tauto.
Qed.

Ltac check_case :=
  unfold check_slot, FAT32_ATTR_LONG_NAME, FAT32_ATTR_VOLUME_ID in *;
  repeat match goal with
  | H : ~ unused_slot ?e |- _ => apply Decidable.not_or in H; destruct H
  | H : flag _ _ = _ |- _ => rewrite H
  | |- context [nth 0 (get83 ?e D83.name) 0] => rewrite (proj1 (slot_fields e))
  | |- context [nth 0 (get83 ?e D83.attr) 0] => rewrite (proj1 (proj2 (slot_fields e)))
  | H : nth 0 ?e 0 = _ |- _ => rewrite H
  | H : nth 0 ?e 0 <> ?c |- context [nth 0 ?e 0 =? ?c] => rewrite (proj2 (Z.eqb_neq _ _) H)
  | H : nth 11 ?e 0 = _ |- _ => rewrite H
  | H : nth 11 ?e 0 <> ?c |- context [nth 11 ?e 0 =? ?c] => rewrite (proj2 (Z.eqb_neq _ _) H)
  end.

Lemma check_marker e x : nth 0 e 0 = 0 -> check_slot e x = if in_lfn_sequence x then CheckFailed else CheckPassed.
Proof. intros H. by check_case. Qed.
Lemma check_deleted e x : nth 0 e 0 = 0xE5 -> check_slot e x = if in_lfn_sequence x then CheckFailed else CheckMore x.
Proof. intros H. by check_case. Qed.
Lemma check_label e x : label_slot e -> check_slot e x = if in_lfn_sequence x then CheckFailed else CheckMore x.
Proof. intros (H & H1 & H2%flag_spec). by check_case. Qed.
Lemma check_long e x : long_slot e -> check_slot e x = check_lfn e x.
Proof. intros (H & H1). by check_case. Qed.
Lemma check_other e x :
  ~ unused_slot e -> nth 11 e 0 <> 0x0F -> Z.land (nth 11 e 0) 0x08 = 0 -> check_slot e x = check_83 e x.
Proof. intros H H1 H2%flag_clear. by check_case. Qed.

(** A long-name slot passes if it opens a sequence or is the next one. *)
Definition awaited (x : check) (first : bool) (n sum : Z) : Prop :=
  if first then idle x else in_lfn_sequence x = true /\ expected_lfn_seq x = n /\ expected_checksum x = sum.

Lemma check_lfn_numbered e x first n sum :
  numbered e first n sum -> awaited x first n sum -> check_lfn e x = CheckMore (mkCheck true (u8 (n - 1)) sum).
Proof.
  intros (_ & Hn & Hf & Hs) Ha. unfold check_lfn. destruct (slot_fields e) as (_ & _ & -> & -> & _).
  change FAT32_LFN_SEQ_MASK with 0x1F. rewrite Hn, Hs. destruct first; cbn [awaited] in Ha.
  - rewrite (proj2 (flag_spec _ _)) by (by apply Hf). unfold idle in Ha. rewrite Ha.
    cbn [expected_lfn_seq expected_checksum in_lfn_sequence]. by rewrite !Z.eqb_refl.
  - rewrite (proj2 (flag_clear _ _)).
    2: { destruct (decide (Z.land (nth 0 e 0) FAT32_LFN_LAST = 0)) as [|H]; [done|]. by apply Hf in H. }
    cbn zeta. destruct Ha as (-> & -> & ->). cbn [negb]. by rewrite !Z.eqb_refl.
Qed.

Lemma check_lfn_passed e x y :
  long_slot e -> check_lfn e x = CheckMore y ->
  exists first n sum, numbered e first n sum /\ awaited x first n sum /\ y = mkCheck true (u8 (n - 1)) sum.
Proof.
  intros Hl. unfold check_lfn. destruct (slot_fields e) as (_ & _ & -> & -> & _). intros H.
  exists (flag (nth 0 e 0) FAT32_LFN_LAST), (Z.land (nth 0 e 0) FAT32_LFN_SEQ_MASK), (nth 13 e 0).
  split; [split; [done|split; [done|split; [|done]]]; by rewrite flag_spec|].
  unfold awaited, idle. destruct (flag _ FAT32_LFN_LAST), (in_lfn_sequence x) eqn:Hi; cbn [negb] in H; try done;
    cbn [expected_lfn_seq expected_checksum in_lfn_sequence] in H; rewrite ?Z.eqb_refl in H; cbn [negb] in H.
  - by injection H as <-.
  - destruct (_ =? expected_lfn_seq x) eqn:E1; [|done]. destruct (_ =? expected_checksum x) eqn:E2; [|done].
    apply Z.eqb_eq in E1, E2. cbn [negb] in H. injection H as <-. by rewrite <- E1, <- E2.
Qed.

(** What the 8.3 entry behind the slots must satisfy. *)
Definition closes (e : list Z) (x : check) : Prop :=
  in_lfn_sequence x = true -> expected_lfn_seq x = 0 /\ expected_checksum x = fat32_checksum (take 11 e).

Lemma check_83_short e x : short_slot e -> closes e x -> exists y, check_83 e x = CheckMore y /\ idle y.
Proof.
  intros (_ & _ & _ & Hs) Hc. unfold check_83, closes in *. destruct (slot_fields e) as (_ & -> & _ & _ & -> & ->).
  assert (flag (nth 11 e 0) FAT32_ATTR_DIRECTORY && negb (RLE32 (take 4 (drop 28 e)) =? 0) = false) as ->.
  { destruct (flag _ _) eqn:Ef; [|done]. apply flag_spec in Ef. by rewrite Hs. }
  destruct (in_lfn_sequence x); [|by eexists]. destruct (Hc eq_refl) as [-> ->]. cbn [andb]. rewrite !Z.eqb_refl. by eexists.
Qed.

Lemma check_83_passed e x y :
  ~ unused_slot e -> nth 11 e 0 <> 0x0F -> Z.land (nth 11 e 0) 0x08 = 0 ->
  check_83 e x = CheckMore y -> short_slot e /\ closes e x /\ idle y.
Proof.
  intros H1 H2 H3. unfold check_83, closes. destruct (slot_fields e) as (_ & -> & _ & _ & -> & ->). intros H.
  destruct (in_lfn_sequence x && negb (expected_lfn_seq x =? 0)) eqn:E1; [done|].
  destruct (in_lfn_sequence x && negb (_ =? expected_checksum x)) eqn:E2; [done|].
  destruct (flag _ _ && _) eqn:E3; [done|]. injection H as <-. split; [|split; [|done]].
  - split_and!; try done. intros H4%flag_spec. change 0x10 with FAT32_ATTR_DIRECTORY in H4. rewrite H4 in E3.
    by apply negb_false_iff, Z.eqb_eq in E3.
  - intros Hi. rewrite Hi in E1, E2. apply negb_false_iff, Z.eqb_eq in E1, E2. done.
Qed.

Lemma run_number lfns n sum : run lfns n sum -> 0 <= n < 32.
Proof.
  intros [|e es n' sum' Hn (_ & Hl & _) _]; [lia|]. split; [lia|]. rewrite <- Hl. change 0x1F with (Z.ones 5).
  rewrite Z.land_ones by lia. by apply Z.mod_pos_bound.
Qed.

(** A sequence that is open, and its entry. *)
Lemma run_passes lfns n sum es : run lfns n sum ->
  check_slots (lfns ++ es) (mkCheck true n sum) = check_slots es (mkCheck true 0 sum).
Proof.
  induction 1 as [|e es' n sum Hn Hnum Hrun IH]; [done|]. cbn [app check_slots]. pose proof (run_number _ _ _ Hrun).
  rewrite check_long by apply Hnum. rewrite (check_lfn_numbered e _ false n sum Hnum) by done.
  rewrite <- IH. f_equal. by rewrite u8_small by lia.
Qed.

Lemma sound_passes es : sound_slots es -> forall x, idle x -> passes (check_slots es x) = true.
Proof.
  unfold idle. induction 1 as [|e es H|e es H _ IH|e es H _ IH|e es H _ IH|e1 lfns e es n Hn H1 Hrun H _ IH];
    intros x Hx; cbn [check_slots].
  - cbn. by rewrite Hx.
  - by rewrite check_marker, Hx.
  - rewrite check_deleted, Hx by done. by apply IH.
  - rewrite check_label, Hx by done. by apply IH.
  - destruct (check_83_short e x H) as (y & Hy & Hi); [intros ?; congruence|]. rewrite check_other, Hy by apply H. by apply IH.
  - rewrite check_long by apply H1. rewrite (check_lfn_numbered e1 _ _ _ _ H1) by done.
    pose proof (run_number _ _ _ Hrun). rewrite u8_small by lia.
    rewrite (run_passes _ _ _ _ Hrun). cbn [check_slots].
    destruct (check_83_short e (mkCheck true 0 (fat32_checksum (take 11 e))) H) as (y & Hy & Hi); [done|].
    rewrite check_other, Hy by apply H. by apply IH.
Qed.

(** The number expected next is below 32, or 255 behind a slot 0. *)
Lemma passes_sound es :
  (forall x, idle x -> passes (check_slots es x) = true -> sound_slots es) /\
  (forall n sum, 0 <= n < 256 -> passes (check_slots es (mkCheck true n sum)) = true ->
     exists lfns e es', es = lfns ++ e :: es' /\ run lfns n sum /\ short_slot e /\ sum = fat32_checksum (take 11 e) /\ sound_slots es').
Proof.
  induction es as [|e es [IH1 IH2]]; [by split; [constructor|]|]. cbn [check_slots].
  assert (forall first n sum, numbered e first n sum -> 0 <= u8 (n - 1) < 256) as Hu.
  { intros first n sum _. apply u8_range. }
  assert (forall first n sum, numbered e first n sum -> 0 <= n < 32) as Hnum.
  { intros first n sum (_ & <- & _). change 0x1F with (Z.ones 5). rewrite Z.land_ones by lia. by apply Z.mod_pos_bound. }
  assert (forall first n sum, numbered e first n sum -> passes (check_slots es (mkCheck true (u8 (n - 1)) sum)) = true ->
    exists lfns e' es', es = lfns ++ e' :: es' /\ 1 <= n /\ run lfns (n - 1) sum /\ short_slot e' /\
      sum = fat32_checksum (take 11 e') /\ sound_slots es') as Hopen.
  { intros first n sum Hn Hp. destruct (IH2 _ _ (Hu _ _ _ Hn) Hp) as (lfns & e' & es' & -> & Hrun & Hs).
    pose proof (run_number _ _ _ Hrun) as Hr. pose proof (Hnum _ _ _ Hn). 
    assert (1 <= n). { destruct (decide (n = 0)) as [->|]; [change (u8 (0 - 1)) with 255 in Hr; lia|lia]. }
    rewrite u8_small in Hrun by lia. by exists lfns, e', es'. }
  split.
  - intros x Hx Hp. destruct (slot_kinds e) as [H|[H|[H|[H|(H1 & H2 & H3)]]]].
    + by apply sound_marker.
    + rewrite check_deleted, Hx in Hp by done. apply sound_deleted; [done|]. by apply (IH1 x).
    + rewrite check_long in Hp by done. destruct (check_lfn e x) as [| |y] eqn:E; [|done|].
      { unfold check_lfn in E. repeat case_match; done. }
      destruct (check_lfn_passed e x y H E) as (first & n & sum & Hn & Ha & ->).
      destruct first; [|destruct Ha; unfold idle in Hx; congruence].
      destruct (Hopen _ _ _ Hn Hp) as (lfns & e' & es' & -> & Hn1 & Hrun & Hs & -> & Hss). by apply (sound_long e lfns e' es' n).
    + rewrite check_label, Hx in Hp by done. apply sound_label; [done|]. by apply (IH1 x).
    + rewrite check_other in Hp by done. destruct (check_83 e x) as [| |y] eqn:E; [|done|].
      { unfold check_83 in E. repeat case_match; done. }
      destruct (check_83_passed e x y H1 H2 H3 E) as (Hs & _ & Hi). apply sound_short; [done|]. by apply (IH1 y).
  - intros n sum Hrange Hp. destruct (slot_kinds e) as [H|[H|[H|[H|(H1 & H2 & H3)]]]].
    1,2,4: by rewrite ?check_marker, ?check_deleted, ?check_label in Hp by done.
    + rewrite check_long in Hp by done. destruct (check_lfn e _) as [| |y] eqn:E; [|done|].
      { unfold check_lfn in E. repeat case_match; done. }
      destruct (check_lfn_passed e _ y H E) as (first & n' & sum' & Hn & Ha & ->).
      destruct first; [done|]. cbn in Ha. destruct Ha as (_ & <- & <-).
      destruct (Hopen _ _ _ Hn Hp) as (lfns & e' & es' & -> & Hn1 & Hrun & Hs & Hsum & Hss).
      exists (e :: lfns), e', es'. split; [done|]. split; [by constructor|]. done.
    + rewrite check_other in Hp by done. destruct (check_83 e _) as [| |y] eqn:E; [|done|].
      { unfold check_83 in E. repeat case_match; done. }
      destruct (check_83_passed e _ y H1 H2 H3 E) as (Hs & Hc & Hi). destruct (Hc eq_refl) as [E1 E2]. cbn in E1, E2. subst n.
      exists [], e, es. split; [done|]. split; [constructor|]. split; [done|]. split; [done|]. by apply (IH1 y).
Qed.

Lemma integral_sound bs : integral bs = true <-> sound_slots (slot_list bs).
Proof.
  unfold integral. split; [by apply (proj1 (passes_sound _))|]. intros H. by apply sound_passes.
Qed.

(** ** [fat32_check_dir_integrity] *)

Lemma check_cluster_slots data n j x :
  Z.of_nat (length data) mod 32 = 0 -> (32 * j <= length data)%nat -> (length data - 32 * j <= 32 * n)%nat ->
  check_cluster n (Z.of_nat (length data)) data (32 * Z.of_nat j) x = Some (check_slots (drop j (slot_list data)) x).
Proof.
  intros Hal. revert j x. induction n as [|n IH]; intros j x Hj Hn.
  all: destruct (decide (32 * j = length data)%nat) as [Hend|Hend].
  1,3: rewrite slot_list_end by lia; cbn [check_cluster]; rewrite (proj2 (Z.ltb_ge _ _)) by lia; done.
  - lia.
  - assert (32 * S j <= length data)%nat as HSj by (Z.div_mod_to_equations; lia).
    cbn [check_cluster]. rewrite (proj2 (Z.ltb_lt _ _)), bsub_slice by lia. cbn [negb]. rewrite (slot_list_drop data j HSj).
    cbn [check_slots]. replace (Z.to_nat (32 * Z.of_nat j)) with (32 * j)%nat by lia. change (Z.to_nat 32) with 32%nat.
    destruct (check_slot _ x); [done|done|]. unfold FAT32_DENTRY_SIZE. rewrite <- IH by lia. f_equal. lia.
Qed.

(** The slots of one cluster among those of the directory. *)
Lemma slot_list_cluster bs d k u :
  length d = (32 * u)%nat -> (32 * (k * u + u) <= length bs)%nat ->
  (forall o, (o + 32 <= length d)%nat -> slice bs (32 * (k * u) + o) 32 = slice d o 32) ->
  drop (k * u) (slot_list bs) = slot_list d ++ drop (S k * u) (slot_list bs).
Proof.
  intros Hd Hbs Hsl. rewrite <- (take_drop u (drop (k * u) (slot_list bs))). rewrite drop_drop. f_equal; [|f_equal; lia].
  apply list_eq. intros j. destruct (decide (j < u)%nat) as [Hj|Hj].
  - rewrite lookup_take_lt, lookup_drop by done. rewrite !slot_list_lookup by nia. f_equal.
    rewrite <- Hsl by lia. f_equal. lia.
  - rewrite lookup_take_ge by lia. symmetry. apply lookup_ge_None. unfold slot_list. rewrite length_map, length_seq, Hd.
    rewrite Nat.mul_comm, Nat.div_mul by lia. lia.
Qed.

Section check.
Context {K : Type} `{!Kernel K, !KernelLaws K}.
Implicit Types s : st K.

Lemma wp_check_loop s c l bs fuel k x y s1 :
  ready s -> dir_at s c l bs -> s ≡ s1 -> l !! k = Some x -> (length l - k <= fuel)%nat ->
  wp (iter fuel check_step (y, x)) s1 (okp (fun r s' => s ≡ s' /\
    r = if passes (check_slots (drop (k * (bpc (fsi s) / 32)) (slot_list bs)) y) then 0 else EINVAL)).
Proof.
  intros Hr [Hch Hc]. pose proof (ready_wf _ Hr) as Hwf. destruct (bpc_eq _ Hwf) as [Hb Hb0].
  pose proof (bpc_aligned _ Hwf) as Hba. pose proof (contents_length _ _ _ Hwf Hc) as Hlen.
  assert (exists u, bpc (fsi s) = 32 * u)%nat as [u Hu].
  { exists (Z.to_nat (fsi_bytes_per_cluster (fsi s) / 32)). Z.div_mod_to_equations. lia. }
  assert (bpc (fsi s) / 32 = u)%nat as -> by (rewrite Hu, Nat.mul_comm; by apply Nat.div_mul).
  revert k x y s1. induction fuel as [|fuel IH]; intros k x y s1 Hs Hx Hfuel; apply lookup_lt_Some in Hx as Hlt; [lia|].
  destruct (contents_slice s l bs k x Hwf Hc Hx) as (d & Hd & Hdl & Hsl).
  assert (fsi_bytes_per_cluster (fsi s) = Z.of_nat (length d)) as Hbd by lia. pose proof Hs as (Ef & _).
  rewrite (slot_list_cluster bs d k u), check_slots_app; [|lia|nia|intros o Ho; rewrite <- (Hsl o 32%nat) by lia; f_equal; nia].
  cbn [iter]. apply wp_bind. unfold check_step at 1. repeat wp_step.
  eapply wp_call_ok; [apply (wp_read_cluster s1 x d); by rewrite <- Hs|].
  intros bp s2 (_ & _ & Ee & -> & Hs2 & Hcl). unfold check_buf. rewrite Ee. apply wp_bind, wp_ret. cbn [wpk].
  pose proof (check_cluster_slots d (Z.to_nat (Z.of_nat (length d))) 0 y) as Hck.
  change (32 * Z.of_nat 0) with 0 in Hck. rewrite Ef, Hbd, Hck by (try lia; replace (Z.of_nat (length d)) with (Z.of_nat u * 32) by lia; by apply Z.mod_mul). cbn [of_opt]. rewrite drop_0. repeat wp_step.
  eapply wp_call_ok; [by apply wp_do_brelse|]. intros [] s3 Hs3. assert (s ≡ s3) as Hs03 by (by rewrite Hs, Hs2).
  destruct (check_slots (slot_list d) y) as [| |y']; [by apply wp_ret|by apply wp_ret|]. apply wp_bind, wp_try.
  eapply wp_mono; [by apply (wp_next_of_chain s3 c l k x); rewrite <- ?Hs03|].
  intros r s4 [-> Hs4]. assert (s ≡ s4) as Hs04 by (by rewrite Hs03). destruct (l !! S k) as [z|] eqn:Hz; cbn [wpk].
  - apply wp_ret. cbn [wpk]. apply IH; [done|done|lia].
  - apply wp_ret. cbn [okp]. split; [done|]. apply lookup_ge_None in Hz.
    rewrite drop_ge; [cbn; by destruct (in_lfn_sequence y')|]. unfold slot_list. rewrite length_map, length_seq, Hlen, Hu.
    replace (length l * (32 * u))%nat with (length l * u * 32)%nat by lia. rewrite Nat.div_mul by lia. nia.
Qed.

Lemma wp_check_dir s p v l bs :
  ready s -> fvs s !! p = Some v -> fv_type v = VDIR -> file_ok s v l -> contents s l bs ->
  wp (fat32_check_dir_integrity p) s (fun r s' => s ≡ s' /\ r = if integral bs then Ok tt else Err EINVAL).
Proof.
  intros Hr Hv Hty Hok Hc. pose proof (ready_wf _ Hr) as Hwf. unfold fat32_check_dir_integrity. repeat wp_step.
  eapply wp_call_ok; [by apply wp_get_fv|]. intros ? ? [-> ->]. rewrite Hty, bool_decide_true by done. cbn [negb].
  pose proof (contents_length _ _ _ Hwf Hc) as Hlen. destruct (decide (l = [])) as [->|Hne].
  - destruct Hok as (_ & _ & ->). apply wp_ret. split; [done|]. destruct bs; [done|done].
  - apply file_ok_chain in Hok as (_ & _ & Hch); [|done]. destruct (chain_head _ _ _ _ Hch) as [l' El].
    pose proof (chain_range _ _ _ _ Hch) as Hrg. rewrite El in Hrg. inversion Hrg as [|? ? Hx _].
    rewrite (in_range_nonzero (fsi s)) by done. pose proof (chain_length_bound s _ _ Hwf Hch).
    eapply wp_call_ok; [apply (wp_check_loop s (fv_cluster v) l bs _ 0 (fv_cluster v) no_check s Hr (conj Hch Hc)); [done|by rewrite El|lia]|].
    intros r s' [Hs ->]. rewrite Nat.mul_0_l, drop_0. fold (integral bs). destruct (integral bs); [by apply wp_ret|by apply wp_throw].
Qed.

(** C31: [fat32_check_dir_integrity] decides [sound_slots] of the slots of the
    directory, over all its clusters up to the end marker: every long-name slot
    belongs to a run that starts with a slot marked as the first, is numbered
    downwards to 1, carries in each slot the checksum of one 8.3 name, and is
    followed at once by the entry with that name; directories have the size 0.
    It reports a violation as EINVAL and changes nothing; it returns for every
    directory. *)
Theorem check_dir_correct s p v l bs :
  ready s -> fvs s !! p = Some v -> fv_type v = VDIR -> file_ok s v l -> contents s l bs ->
  wp (fat32_check_dir_integrity p) s (fun r s' => s ≡ s' /\
    (r = Ok tt /\ sound_slots (slot_list bs) \/ r = Err EINVAL /\ ~ sound_slots (slot_list bs))).
Proof.
  intros Hr Hv Hty Hok Hc. eapply wp_mono; [by eapply wp_check_dir|]. intros r s' [Hs ->]. split; [done|].
  rewrite <- integral_sound. destruct (integral bs); [by left|by right].
Qed.

End check.

(** ** The slots of a new entry *)

Lemma lfn_entry_first name sum num i : nth 0 (get83 (lfn_entry name sum num i) D83.name) 0 = lfn_seq num i.
Proof.
  destruct (lfn_entry_fields name sum num i) as (_ & Hseq & _). set (e := lfn_entry name sum num i) in *.
  change (get83 e D83.name) with (take 11 (drop 0 e)). rewrite nth_0_take.
  change (getlfn e Lfn.sequence) with (take 1 (drop 0 e)) in Hseq. by rewrite <- (nth_0_take (drop 0 e) 0), Hseq.
Qed.

(** Slot [i] of a sequence of [num]. *)
Lemma check_lfn_slot name sum num i x :
  (1 <= i <= num)%nat -> (num <= 20)%nat -> (if decide (i = num) then idle x else x = mkCheck true (Z.of_nat i) sum) ->
  check_slot (lfn_entry name sum num i) x = CheckMore (mkCheck true (Z.of_nat (i - 1)) sum).
Proof.
  intros Hi Hn Hx. destruct (lfn_seq_spec num i) as (Hs1 & Hs2 & H0 & HE5); [lia|].
  destruct (lfn_entry_fields name sum num i) as (_ & Hseq & Hattr & _).
  unfold check_slot. rewrite lfn_entry_first, (proj2 (Z.eqb_neq _ _) H0), (proj2 (Z.eqb_neq _ _) HE5).
  change (get83 (lfn_entry name sum num i) D83.attr) with (getlfn (lfn_entry name sum num i) Lfn.attr).
  rewrite Hattr. cbn [nth]. rewrite Z.eqb_refl. unfold check_lfn.
  rewrite Hseq, (proj2 (lfn_entry_get name sum num i Lfn.checksum)).
  change (assigned (lfn_members name sum num i) Lfn.checksum) with (Some [sum]). cbn [default from_option id nth].
  rewrite Hs1, Hs2. assert (u8 (Z.of_nat i - 1) = Z.of_nat (i - 1)) as Hu by (rewrite u8_small; unfold is_byte; lia).
  destruct (decide (i = num)) as [->|Hne].
  - rewrite bool_decide_true by done. rewrite Hx. cbn. by rewrite !Z.eqb_refl, Hu.
  - rewrite bool_decide_false by done. subst x. cbn. by rewrite !Z.eqb_refl, Hu.
Qed.

Lemma check_lfn_slots name sum num i x :
  (1 <= i <= num)%nat -> (num <= 20)%nat -> (if decide (i = num) then idle x else x = mkCheck true (Z.of_nat i) sum) ->
  check_slots (map (lfn_entry name sum num) (rev (seq 1 i))) x = CheckMore (mkCheck true 0 sum).
Proof.
  intros Hi Hn. revert x Hi. induction i as [|i IH]; intros x Hi Hx; [lia|].
  rewrite seq_S, rev_app_distr. cbn [rev app map check_slots]. change (1 + i)%nat with (S i).
  rewrite check_lfn_slot by (done || lia). rewrite Nat.sub_1_r. cbn [Nat.pred]. destruct i as [|i]; [done|].
  apply IH; [lia|]. by rewrite decide_False by lia.
Qed.

(** A directory has the size 0. *)
Definition dir_size_ok (e : list Z) : Prop :=
  flag (nth 0 (get83 e D83.attr) 0) FAT32_ATTR_DIRECTORY = true -> RLE32 (get83 e D83.file_size) = 0.

Lemma check_slot_83 e x :
  in_use e -> dir_size_ok e -> (in_lfn_sequence x = true -> expected_lfn_seq x = 0 /\ expected_checksum x = fat32_checksum (get83 e D83.name)) ->
  exists y, check_slot e x = CheckMore y /\ idle y.
Proof.
  intros [[H0 HE5] Ha Hl] Hsz Hx. unfold check_slot.
  rewrite (proj2 (Z.eqb_neq _ _) H0), (proj2 (Z.eqb_neq _ _) HE5), (proj2 (Z.eqb_neq _ _) Ha), Hl. unfold check_83.
  assert (flag (nth 0 (get83 e D83.attr) 0) FAT32_ATTR_DIRECTORY && negb (RLE32 (get83 e D83.file_size) =? 0) = false) as Hd.
  { unfold dir_size_ok in Hsz. destruct (flag _ FAT32_ATTR_DIRECTORY); [|done]. by rewrite Hsz. }
  destruct (in_lfn_sequence x); cbn [andb].
  - destruct (Hx eq_refl) as [-> ->]. rewrite !Z.eqb_refl. cbn [negb]. rewrite Hd. by eexists.
  - rewrite Hd. by eexists.
Qed.

Lemma check_entry_slots name e x :
  storable name -> entry_named name e -> dir_size_ok e -> idle x ->
  exists y, check_slots (entry_slots name e) x = CheckMore y /\ idle y.
Proof.
  intros Hst He Hsz Hx. unfold entry_slots. destruct (fat32_name_is_short name).
  - destruct (check_slot_83 e x (en_use _ _ He) Hsz) as (y & Hy & Hi); [by rewrite Hx|]. exists y. cbn. by rewrite Hy.
  - unfold all_slots, lfn_slots. destruct (num_lfn_bounds name (st_length _ Hst)) as [Hn _].
    rewrite check_slots_app, check_lfn_slots by (try lia; by rewrite decide_True).
    destruct (check_slot_83 e (mkCheck true 0 (fat32_checksum (get83 e D83.name))) (en_use _ _ He) Hsz) as (y & Hy & Hi); [done|].
    exists y. cbn [check_slots]. by rewrite Hy.
Qed.

(** ** Well-formed lists of slots *)

Definition mark (e : list Z) : Z := nth 0 (get83 e D83.name) 0.
Definition live (es : list (list Z)) : Prop := Forall (fun e => mark e <> 0) es.

(** Behind an end marker there are only end markers.  [fat32_create_fdentry]
    writes no end marker behind new slots: it relies on this. *)
Definition tail_zero (es : list (list Z)) : Prop := forall i j e e',
  (i <= j)%nat -> es !! i = Some e -> es !! j = Some e' -> mark e = 0 -> mark e' = 0.

Record wf_slots (es : list (list Z)) : Prop := {
  ws_check : passes (check_slots es no_check) = true;
  ws_tail : tail_zero es
}.

(** The check gets behind [es] outside a sequence. *)
Definition quiet (es : list (list Z)) : Prop := live es /\ exists y, check_slots es no_check = CheckMore y /\ idle y.

(** Slots that can stand anywhere between entries. *)
Definition inert (es : list (list Z)) : Prop :=
  live es /\ forall x, idle x -> exists y, check_slots es x = CheckMore y /\ idle y.

Lemma inert_app es1 es2 : inert es1 -> inert es2 -> inert (es1 ++ es2).
Proof.
  intros [L1 H1] [L2 H2]. split; [by apply Forall_app|]. intros x Hx. destruct (H1 x Hx) as (y & Hy & Hi).
  rewrite check_slots_app, Hy. by apply H2.
Qed.

Lemma quiet_app es1 es2 : quiet es1 -> inert es2 -> quiet (es1 ++ es2).
Proof.
  intros [L1 (x & H1 & Hx)] [L2 H2]. split; [by apply Forall_app|]. destruct (H2 x Hx) as (y & Hy & Hi).
  exists y. by rewrite check_slots_app, H1.
Qed.

Lemma deleted_inert es : Forall (fun e => mark e = 0xE5) es -> inert es.
Proof.
  intros H. split; [eapply Forall_impl; [exact H|]; intros e ->; lia|]. induction H as [|e es He _ IH]; intros x Hx; [by exists x|].
  cbn [check_slots]. unfold check_slot. fold (mark e). rewrite He. cbn [Z.eqb Pos.eqb]. rewrite Hx. by apply IH.
Qed.

Lemma entry_slots_inert name e : storable name -> entry_named name e -> dir_size_ok e -> inert (entry_slots name e).
Proof.
  intros Hst He Hsz. split; [|intros x Hx; by apply check_entry_slots]. unfold entry_slots.
  assert (mark e <> 0) as H0 by apply (en_use _ _ He).
  destruct (fat32_name_is_short name); [by apply Forall_singleton|]. unfold all_slots, lfn_slots.
  apply Forall_app. split; [|by apply Forall_singleton]. apply Forall_map, Forall_forall. intros i Hi.
  apply list_elem_of_In, in_rev, list_elem_of_In, elem_of_seq in Hi. unfold mark. rewrite lfn_entry_first.
  destruct (num_lfn_bounds name (st_length _ Hst)). apply lfn_seq_spec. lia.
Qed.

(** The check of live slots does not end. *)
Lemma check_live es x : live es -> check_slots es x <> CheckPassed.
Proof.
  intros H. revert x. induction H as [|e es He _ IH]; intros x; [done|]. cbn.
  destruct (check_slot e x) as [| |x'] eqn:E; [|done|apply IH]. unfold check_slot in E. fold (mark e) in E.
  rewrite (proj2 (Z.eqb_neq _ _) He) in E. unfold check_lfn, check_83 in E. by repeat (case_match; try done).
Qed.

(** Before a free slot the check is outside a sequence. *)
Lemma quiet_before es e rest :
  live es -> passes (check_slots (es ++ e :: rest) no_check) = true -> mark e = 0 \/ mark e = 0xE5 -> quiet es.
Proof.
  intros Hl Hp He. split; [done|]. rewrite check_slots_app in Hp. pose proof (check_live es no_check Hl) as Hne.
  destruct (check_slots es no_check) as [| |y]; [done|done|]. exists y. split; [done|]. unfold idle.
  destruct (in_lfn_sequence y) eqn:Hy; [|done]. cbn [check_slots] in Hp. unfold check_slot in Hp. fold (mark e) in Hp. rewrite Hy in Hp.
  by destruct He as [He|He]; rewrite He in Hp.
Qed.

Lemma tail_zero_app es1 es2 es1' : live es1' -> tail_zero (es1 ++ es2) -> tail_zero (es1' ++ es2).
Proof.
  intros Hl Ht i j e e' Hij Hi Hj H0. destruct (decide (i < length es1')%nat) as [Hlt|Hge].
  { rewrite lookup_app_l in Hi by done. by apply (Forall_lookup_1 _ _ _ _ Hl) in Hi. }
  rewrite lookup_app_r in Hi, Hj by lia.
  apply (Ht (length es1 + (i - length es1'))%nat (length es1 + (j - length es1'))%nat e e'); [lia|..|done];
    rewrite lookup_app_r by lia; [rewrite <- Hi|rewrite <- Hj]; f_equal; lia.
Qed.

(** Replacing slots between two quiet places. *)
Lemma wf_replace pre old new rest :
  wf_slots (pre ++ old ++ rest) -> quiet pre -> quiet (pre ++ old) -> inert new -> wf_slots (pre ++ new ++ rest).
Proof.
  intros [Hp Ht] Hq [Ho (y & Hy & Hyi)] Hn. destruct (quiet_app _ _ Hq Hn) as [Hl (z & Hz & Hzi)].
  rewrite app_assoc in *. split; [|by eapply tail_zero_app].
  rewrite check_slots_app, Hz. rewrite check_slots_app, Hy in Hp. by rewrite (check_slots_idle rest z y).
Qed.

(** Writing over free slots. *)
Lemma wf_insert pre old new rest :
  wf_slots (pre ++ old ++ rest) -> quiet pre -> Forall (fun e => mark e = 0 \/ mark e = 0xE5) old -> inert new ->
  wf_slots (pre ++ new ++ rest).
Proof.
  intros [Hp Ht] Hq Ho Hn. destruct (quiet_app _ _ Hq Hn) as [Hl (z & Hz & Hzi)]. pose proof Hq as [_ (x & Hx & Hxi)].
  assert (tail_zero (old ++ rest)) as Ht2 by (apply (tail_zero_app pre _ []); [apply Forall_nil_2|done]).
  rewrite check_slots_app, Hx in Hp. split.
  - rewrite app_assoc, check_slots_app, Hz. clear Hq Hx Hz Ht. revert x Hxi Hp. induction Ho as [|e old He _ IH]; intros x Hxi Hp.
    { by rewrite (check_slots_idle rest z x). }
    destruct He as [He|He].
    + destruct rest as [|r rest]; [cbn; by rewrite Hzi|]. assert (mark r = 0) as Hr.
      { apply (Ht2 0%nat (S (length old)) e r); [lia|done| |done].
        rewrite lookup_app_r by (cbn; lia). by rewrite Nat.sub_diag. }
      cbn [check_slots]. unfold check_slot. fold (mark r). rewrite Hr. cbn. by rewrite Hzi.
    + cbn [app check_slots] in Hp. unfold check_slot in Hp. fold (mark e) in Hp. rewrite He, Hxi in Hp. cbn [Z.eqb Pos.eqb] in Hp.
      refine (IH _ x Hxi Hp). apply (tail_zero_app [e] _ []); [apply Forall_nil_2|done].
  - rewrite app_assoc. eapply (tail_zero_app (pre ++ old)); [done|]. by rewrite <- app_assoc.
Qed.

(** ** The slots of a changed directory *)

Lemma slot_list_length bs : length (slot_list bs) = (length bs / 32)%nat.
Proof. unfold slot_list. by rewrite length_map, length_seq. Qed.

Lemma slot_list_beyond bs j : (length bs < 32 * S j)%nat -> slot_list bs !! j = None.
Proof. intros H. apply lookup_ge_None. rewrite slot_list_length. apply Nat.lt_succ_r, Nat.Div0.div_lt_upper_bound. lia. Qed.

(** Directories of the same size with the same slots outside [k], ..., [k + n - 1]. *)
Lemma slot_list_parts bs bs' k n :
  length bs' = length bs -> (32 * (k + n) <= length bs)%nat ->
  (forall j, (j < k)%nat \/ (k + n <= j)%nat -> (32 * S j <= length bs)%nat -> slice bs' (32 * j) 32 = slice bs (32 * j) 32) ->
  slot_list bs' = take k (slot_list bs) ++ take n (drop k (slot_list bs')) ++ drop (k + n) (slot_list bs).
Proof.
  intros Hl Hle Heq. rewrite <- (take_drop k (slot_list bs')) at 1. f_equal.
  - apply list_eq. intros j. destruct (decide (j < k)%nat); [|by rewrite !lookup_take_ge by lia].
    rewrite !lookup_take_lt by done. rewrite !slot_list_lookup by lia. f_equal. apply Heq; lia.
  - rewrite <- (take_drop n (drop k (slot_list bs'))) at 1. f_equal. rewrite drop_drop. apply list_eq. intros j.
    rewrite !lookup_drop. destruct (decide (32 * S (k + n + j) <= length bs)%nat) as [Hj|Hj].
    + rewrite !slot_list_lookup by lia. f_equal. apply Heq; lia.
    + by rewrite !slot_list_beyond by lia.
Qed.

Lemma slot_list_splice bs k ss :
  Forall (fun e => length e = 32%nat) ss -> (32 * (k + length ss) <= length bs)%nat ->
  slot_list (splice bs (32 * k) (concat ss)) = take k (slot_list bs) ++ ss ++ drop (k + length ss) (slot_list bs).
Proof.
  intros Hss Hle. pose proof (concat_length_32 _ Hss) as Hc.
  assert (length (splice bs (32 * k) (concat ss)) = length bs) as Hl by (apply length_splice; lia).
  rewrite (slot_list_parts bs (splice bs (32 * k) (concat ss)) k (length ss)) by
    (try done; intros j Hj Hjl; apply slice_splice_other; lia).
  f_equal. f_equal. apply list_eq. intros j. destruct (decide (j < length ss)%nat) as [Hj|Hj].
  - rewrite lookup_take_lt, lookup_drop, slot_list_lookup by lia. destruct (lookup_lt_is_Some_2 _ _ Hj) as [e He]. rewrite He. f_equal.
    pose proof (slots_spliced bs (32 * Z.of_nat k) ss Hss) as Hs. replace (Z.to_nat (32 * Z.of_nat k)) with (32 * k)%nat in Hs by lia.
    specialize (Hs ltac:(lia) ltac:(lia) j e He). rewrite bsub_slice in Hs by lia. injection Hs as Hs.
    etrans; [|exact Hs]. f_equal; lia.
  - rewrite lookup_take_ge by lia. symmetry. apply lookup_ge_None. lia.
Qed.

Lemma slot_list_deleted bs k n :
  (32 * (k + n) <= length bs)%nat ->
  exists dels, length dels = n /\ Forall (fun e => mark e = 0xE5) dels /\
    slot_list (mark_deleted bs (32 * Z.of_nat k) n) = take k (slot_list bs) ++ dels ++ drop (k + n) (slot_list bs).
Proof.
  intros Hle. pose proof (mark_deleted_length bs (32 * Z.of_nat k) n) as Hl. set (bs' := mark_deleted _ _ _) in *.
  exists (take n (drop k (slot_list bs'))). split_and!.
  - rewrite length_take, length_drop, slot_list_length, Hl. pose proof (Nat.Div0.div_le_mono (32 * (k + n)) (length bs) 32 Hle) as H.
    rewrite Nat.mul_comm, Nat.div_mul in H by lia. lia.
  - apply Forall_lookup_2. intros j e He. apply lookup_take_Some in He as [He Hj]. rewrite lookup_drop in He.
    assert (32 * S (k + j) <= length bs)%nat as Hkj by lia. rewrite slot_list_lookup in He by lia. apply (inj Some) in He as <-.
    cbn beta. unfold mark. rewrite slot_mark_slice by lia. unfold slot_mark. apply nth_lookup_Some.
    unfold bs', mark_deleted. rewrite list_lookup_imap. destruct (lookup_lt_is_Some_2 bs (32 * (k + j)) ltac:(lia)) as [b ->].
    cbn. rewrite decide_True; [done|]. split; [lia|]. replace (_ - _) with (Z.of_nat j * 32) by lia. by apply Z.mod_mul.
  - apply slot_list_parts; [done|done|]. intros j Hj Hjl. apply list_eq. intros i. unfold slice.
    destruct (decide (i < 32)%nat); [|by rewrite !lookup_take_ge by lia]. rewrite !lookup_take_lt, !lookup_drop by lia.
    unfold bs', mark_deleted. rewrite list_lookup_imap. destruct (bs !! (32 * j + i)%nat); [|done]. cbn.
    rewrite decide_False; [done|]. intros [H1 H2]. lia.
Qed.

(** ** New entries *)

Definition well_formed (bs : list Z) : Prop := wf_slots (slot_list bs).

Lemma slot_list_mark bs j e : slot_list bs !! j = Some e -> (32 * S j <= length bs)%nat /\ mark e = slot_mark bs j.
Proof.
  intros He. destruct (decide (32 * S j <= length bs)%nat) as [Hj|Hj]; [|by rewrite slot_list_beyond in He by lia].
  split; [done|]. rewrite slot_list_lookup in He by done. apply (inj Some) in He as <-. by apply slot_mark_slice.
Qed.

Lemma free_place_slots bs k n :
  well_formed bs -> free_place bs (32 * Z.of_nat k) n -> 1 <= n -> 32 * Z.of_nat k + 32 * n <= Z.of_nat (length bs) ->
  quiet (take k (slot_list bs)) /\
  Forall (fun e => mark e = 0 \/ mark e = 0xE5) (take (Z.to_nat n) (drop k (slot_list bs))).
Proof.
  intros [Hp Ht] (_ & _ & Hfree & Hbefore) Hn Hle.
  assert (Forall (fun e => mark e = 0 \/ mark e = 0xE5) (take (Z.to_nat n) (drop k (slot_list bs)))) as Hold.
  { apply Forall_lookup_2. intros j e He. apply lookup_take_Some in He as [He Hj]. rewrite lookup_drop in He.
    destruct (slot_list_mark _ _ _ He) as [Hl Hm]. destruct (Hfree (k + j)%nat) as [H|(i & Hi & H0)]; [lia|lia|right; by rewrite Hm|].
    left. assert (32 * S i <= length bs)%nat as Hil by lia. pose proof (slot_list_lookup bs i Hil) as Hli.
    destruct (slot_list_mark _ _ _ Hli) as [_ Hmi]. eapply (Ht i (k + j)%nat); [exact Hi|exact Hli|exact He|by rewrite Hmi]. }
  split; [|done]. assert (32 * S k <= length bs)%nat as Hk by lia. pose proof (slot_list_drop bs k Hk) as Hd.
  apply (quiet_before _ (slice bs (32 * k) 32) (drop (S k) (slot_list bs))).
  - apply Forall_lookup_2. intros j e He. apply lookup_take_Some in He as [He Hj].
    destruct (slot_list_mark _ _ _ He) as [_ ->]. apply Hbefore. lia.
  - by rewrite <- Hd, take_drop.
  - apply (Forall_lookup_1 _ _ 0%nat _ Hold). rewrite Hd. by destruct (Z.to_nat n) eqn:E; [lia|].
Qed.

(** A new entry in a free place keeps the directory well formed. *)
Lemma with_entry_wf bs off name e :
  well_formed bs -> Z.of_nat (length bs) mod 32 = 0 -> storable name -> entry_named name e -> dir_size_ok e ->
  free_place bs off (dirsz_of name) -> off + 32 * dirsz_of name <= Z.of_nat (length bs) ->
  well_formed (with_entry bs off name e).
Proof.
  intros Hwf Hal Hst He Hsz Hfree Hle. pose proof (dirsz_bounds _ Hst) as Hdz. pose proof Hfree as ([H0 _] & Hmod & _).
  assert (off = 32 * Z.of_nat (Z.to_nat (off / 32))) as Eo by (Z.div_mod_to_equations; lia).
  set (k := Z.to_nat (off / 32)) in *. rewrite Eo in Hfree, Hle |- *.
  destruct (free_place_slots bs k (dirsz_of name) Hwf Hfree) as [Hq Hold]; [lia|done|].
  destruct (entry_slots_length name e (en_length _ _ He)) as [Hss Hsl].
  unfold well_formed, with_entry. replace (Z.to_nat (32 * Z.of_nat k)) with (32 * k)%nat by lia.
  rewrite slot_list_splice by (done || lia). eapply (wf_insert _ (take (Z.to_nat (dirsz_of name)) (drop k (slot_list bs)))).
  - replace (drop (k + length (entry_slots name e)) (slot_list bs)) with (drop (Z.to_nat (dirsz_of name)) (drop k (slot_list bs)))
      by (rewrite drop_drop; f_equal; lia). by rewrite !take_drop.
  - done.
  - done.
  - by apply entry_slots_inert.
Qed.

(** An entry of [fat32_create_fdentry] has the size 0. *)
Lemma new_d83_size cluster v name flags start now : storable name -> dir_size_ok (new_d83 cluster v name flags start now).
Proof. intros Hst _. rewrite new_d83_get by done. reflexivity. Qed.

(** ** Deleted entries *)

(** The check gets behind the slots before [k] in the state [y]. *)
Definition reached (es : list (list Z)) (k : nat) (y : check) : Prop :=
  live (take k es) /\ check_slots (take k es) no_check = CheckMore y.

Lemma reached_next es k e y :
  passes (check_slots es no_check) = true -> reached es k y -> es !! k = Some e -> mark e <> 0 ->
  exists y', check_slot e y = CheckMore y' /\ reached es (S k) y'.
Proof.
  intros Hp [Hl Hy] He H0. assert (live (take (S k) es)) as Hl'.
  { rewrite (take_S_r _ _ _ He). apply Forall_app. split; [done|by apply Forall_singleton]. }
  pose proof (check_live _ no_check Hl') as Hne. unfold reached. rewrite <- (take_drop (S k) es), check_slots_app in Hp.
  assert (check_slots (take (S k) es) no_check = check_slot e y) as E.
  { rewrite (take_S_r _ _ _ He), check_slots_app, Hy. cbn. by destruct (check_slot e y). }
  rewrite E in *. destruct (check_slot e y) as [| |y']; [done|done|]. by exists y'.
Qed.

Lemma reached_quiet es k y : reached es k y -> in_lfn_sequence y = false -> quiet (take k es).
Proof. intros [Hl Hy] Hi. split; [done|]. by exists y. Qed.

(** The scan and the check at slot [k]: both have seen long-name slots, from the
    same place on, or neither has. *)
Record in_step (es : list (list Z)) (k : nat) (x : scan) (y : check) : Prop := {
  is_offset : current_offset x = 32 * Z.of_nat k;
  is_reached : reached es k y;
  is_lfn : has_lfn x = in_lfn_sequence y;
  is_start : has_lfn x = true -> exists j, (j <= k)%nat /\ entry_start_offset x = 32 * Z.of_nat j /\ quiet (take j es)
}.

(** The slots of a found entry can be cut out. *)
Definition cuttable (es : list (list Z)) (x : scan) : Prop := exists j k,
  (j <= k < length es)%nat /\ entry_start_offset x = 32 * Z.of_nat j /\ current_offset x = 32 * Z.of_nat k /\
  quiet (take j es) /\ quiet (take (S k) es).

Lemma lfn_scan_start size e x x' :
  lfn_scan size e x = Some x' -> has_lfn x' = true /\ current_offset x' = u32 (current_offset x + FAT32_DENTRY_SIZE) /\
    entry_start_offset x' = (if flag (nth 0 (getlfn e Lfn.sequence) 0) FAT32_LFN_LAST then current_offset x else entry_start_offset x).
Proof.
  unfold lfn_scan. destruct (if _ && _ then _ else _); [|done]. destruct (set_dnames _ _ _ _) as [[name' size']|]; [|done].
  by intros [= <-].
Qed.

Lemma found_entry_start size e x x' :
  found_entry size e x = Some x' -> current_offset x' = current_offset x /\
    entry_start_offset x' = (if has_lfn x then entry_start_offset x else current_offset x).
Proof. unfold found_entry. repeat (case_match; try done); by intros [= <-]. Qed.

Lemma check_lfn_start e y y' :
  check_lfn e y = CheckMore y' -> in_lfn_sequence y' = true /\
    in_lfn_sequence y = negb (flag (nth 0 (getlfn e Lfn.sequence) 0) FAT32_LFN_LAST).
Proof.
  unfold check_lfn. destruct (flag _ FAT32_LFN_LAST), (in_lfn_sequence y) eqn:Ey; cbn [negb]; try done;
    repeat (case_match; try done); intros [= <-]; by cbn.
Qed.

Lemma check_83_ends e y y' : check_83 e y = CheckMore y' -> in_lfn_sequence y' = false.
Proof. unfold check_83. repeat (case_match; try done). by intros [= <-]. Qed.

Lemma in_step_next es k e x y r :
  passes (check_slots es no_check) = true -> in_step es k x y -> es !! k = Some e -> 32 * Z.of_nat (S k) < 2 ^ 32 ->
  scan_entry 256 e x = Some r ->
  match r with
  | inl x' => exists y', in_step es (S k) x' y'
  | inr (ScanFound x' _) => cuttable es x'
  | _ => True
  end.
Proof.
  intros Hp [Ho Hy Hl Hs] He Hw Hr. pose proof (lookup_lt_Some _ _ _ He) as Hk. destruct (decide (mark e = 0)) as [H0|H0].
  { unfold scan_entry in Hr. fold (mark e) in Hr. rewrite H0 in Hr. by injection Hr as <-. }
  destruct (reached_next es k e y Hp Hy He H0) as (y' & Hy' & Hre). unfold scan_entry in Hr. unfold check_slot in Hy'.
  fold (mark e) in Hr, Hy'. rewrite (proj2 (Z.eqb_neq _ _) H0) in Hr, Hy'.
  assert (u32 (current_offset x + FAT32_DENTRY_SIZE) = 32 * Z.of_nat (S k)) as Hnext by (unfold FAT32_DENTRY_SIZE; rewrite u32_small; lia).
  assert (forall x', current_offset x' = 32 * Z.of_nat (S k) -> has_lfn x' = false -> in_lfn_sequence y' = false -> in_step es (S k) x' y') as Hout.
  { intros x' H1 H2 H3. split; [done|done|congruence|congruence]. }
  destruct (_ =? 0xE5).
  { injection Hr as <-. destruct (in_lfn_sequence y) eqn:Ey; [done|]. injection Hy' as <-. exists y. by apply Hout. }
  destruct (_ =? FAT32_ATTR_LONG_NAME).
  { destruct (lfn_scan 256 e x) as [x'|] eqn:Ex; [|done]. injection Hr as <-. apply lfn_scan_start in Ex as (E1 & E2 & E3).
    apply check_lfn_start in Hy' as (E4 & E5). exists y'. split; [congruence|done|congruence|]. intros _. rewrite E3.
    destruct (flag _ FAT32_LFN_LAST); [|rewrite <- Hl in E5; destruct (Hs E5) as (j & Hj & ?); exists j; split; [lia|done]].
    exists k. split_and!; [lia|done|by apply (reached_quiet _ _ y)]. }
  destruct (flag _ FAT32_ATTR_VOLUME_ID).
  { destruct (volume_scan 256 x) as [x'|] eqn:Ex; [|done]. injection Hr as <-. unfold volume_scan in Ex.
    destruct (bput _ _ _); [|done]. injection Ex as <-. destruct (in_lfn_sequence y) eqn:Ey; [done|]. injection Hy' as <-.
    exists y. by apply Hout. }
  destruct (found_entry 256 e x) as [x'|] eqn:Ex; [|done]. injection Hr as <-. apply found_entry_start in Ex as [E1 E2].
  apply check_83_ends in Hy'. pose proof (reached_quiet _ _ _ Hre Hy') as Hq. destruct (has_lfn x) eqn:Ehas.
  - destruct (Hs eq_refl) as (j & Hj & Hsj & Hqj). exists j, k. split_and!; [lia|lia|congruence|congruence|done|done].
  - exists k, k. split_and!; [lia|lia|congruence|congruence|apply (reached_quiet _ _ y); [done|congruence]|done].
Qed.

Lemma scan_cuttable bs n k x y x' e :
  passes (check_slots (slot_list bs) no_check) = true -> Z.of_nat (length bs) mod 32 = 0 -> Z.of_nat (length bs) < 2 ^ 32 ->
  in_step (slot_list bs) k x y -> (32 * k <= length bs)%nat ->
  scan_cluster n (Z.of_nat (length bs)) 256 bs (32 * Z.of_nat k) x = Some (ScanFound x' e) -> cuttable (slot_list bs) x'.
Proof.
  intros Hp Hal Hw. revert k x y. induction n as [|n IH]; intros k x y Hst Hk Hsc.
  all: destruct (decide (32 * k = length bs)%nat) as [Hend|Hend]; [by rewrite scan_cluster_end in Hsc by lia|].
  { cbn in Hsc. by rewrite (proj2 (Z.ltb_lt _ _)) in Hsc by lia. }
  assert (32 * S k <= length bs)%nat as HSk by (Z.div_mod_to_equations; lia).
  rewrite scan_cluster_unfold, (proj2 (Z.ltb_lt _ _)), bsub_slice in Hsc by lia. cbn [negb] in Hsc.
  replace (Z.to_nat (32 * Z.of_nat k)) with (32 * k)%nat in Hsc by lia. change (Z.to_nat 32) with 32%nat in Hsc.
  destruct (scan_entry 256 _ x) as [r|] eqn:Hr; [|done].
  pose proof (in_step_next _ k _ x y r Hp Hst (slot_list_lookup bs k HSk) ltac:(lia) Hr) as Hn. destruct r as [x1|r].
  - destruct Hn as [y' Hst']. eapply (IH (S k)); [exact Hst'|done|]. rewrite <- Hsc. f_equal. unfold FAT32_DENTRY_SIZE. lia.
  - injection Hsc as ->. done.
Qed.

(** The entries of a well-formed directory can be cut out. *)
Lemma entries_cuttable bs n k buf x e :
  well_formed bs -> Z.of_nat (length bs) mod 32 = 0 -> Z.of_nat (length bs) < 2 ^ 32 -> (32 * k <= length bs)%nat ->
  quiet (take k (slot_list bs)) -> (x, e) ∈ entries n bs (32 * Z.of_nat k) buf -> cuttable (slot_list bs) x.
Proof.
  intros [Hp _] Hal Hw. revert k buf. induction n as [|n IH]; intros k buf Hk [Hl (y & Hy & Hi)] Hin; [by apply not_elem_of_nil in Hin|].
  cbn [entries] in Hin. destruct (bput buf 0 [0]) as [buf'|]; [|by apply not_elem_of_nil in Hin].
  destruct (scan_dir bs _ _) as [[| |x1 e1]|] eqn:Hsc; try by apply not_elem_of_nil in Hin.
  assert (cuttable (slot_list bs) x1) as Hc.
  { eapply (scan_cuttable bs _ k _ y _ _ Hp Hal Hw _ Hk Hsc). Unshelve. by split. }
  apply elem_of_cons in Hin as [[= -> ->]|Hin]; [done|]. destruct Hc as (j & m & Hj & _ & Em & _ & Hq).
  rewrite slot_list_length in Hj. assert (32 * S m <= length bs)%nat as Hm by (pose proof (Nat.Div0.mul_div_le (length bs) 32); lia).
  apply (IH (S m) (d_name x1)); [done|done|]. unfold FAT32_DENTRY_SIZE in Hin. rewrite Em, u32_small in Hin by lia.
  by replace (32 * Z.of_nat (S m)) with (32 * Z.of_nat m + 32) by lia.
Qed.

Lemma lookup_name_cuttable bs buf name x e :
  well_formed bs -> Z.of_nat (length bs) mod 32 = 0 -> Z.of_nat (length bs) < 2 ^ 32 ->
  lookup_name bs buf name = Some (x, e) -> cuttable (slot_list bs) x.
Proof.
  intros Hwf Hal Hw Hf. apply List.find_some in Hf as [Hin _]. apply list_elem_of_In in Hin.
  apply (entries_cuttable bs (length bs) 0 buf x e); [done|done|done|lia| |done]. rewrite take_0. split; [apply Forall_nil_2|by exists no_check].
Qed.

(** Replacing the slots of a found entry. *)
Lemma well_formed_cut bs x :
  well_formed bs -> cuttable (slot_list bs) x -> exists j n, (j + n <= length (slot_list bs))%nat /\ (1 <= n)%nat /\
    entry_start_offset x = 32 * Z.of_nat j /\ current_offset x + 32 = entry_start_offset x + 32 * Z.of_nat n /\
    forall new, inert new -> wf_slots (take j (slot_list bs) ++ new ++ drop (j + n) (slot_list bs)).
Proof.
  intros Hwf (j & k & Hjk & Hj & Hk & Hq1 & Hq2). exists j, (S k - j)%nat. split_and!; [lia..|]. intros new Hn.
  replace (j + (S k - j))%nat with (S k) by lia. eapply (wf_replace _ (drop j (take (S k) (slot_list bs)))).
  - rewrite app_assoc. replace (take j (slot_list bs)) with (take j (take (S k) (slot_list bs))) by (rewrite take_take; f_equal; lia).
    by rewrite !take_drop.
  - done.
  - replace (take j (slot_list bs)) with (take j (take (S k) (slot_list bs))) by (rewrite take_take; f_equal; lia).
    by rewrite take_drop.
  - done.
Qed.

(** Deleting an entry keeps the directory well formed. *)
Lemma mark_deleted_wf bs x n :
  well_formed bs -> cuttable (slot_list bs) x -> entry_start_offset x + 32 * n = current_offset x + 32 ->
  well_formed (mark_deleted bs (entry_start_offset x) (Z.to_nat n)).
Proof.
  intros Hwf Hc En. destruct (well_formed_cut bs x Hwf Hc) as (j & m & Hm & _ & Ej & Em & Hcut). rewrite slot_list_length in Hm.
  assert (Z.to_nat n = m) as -> by lia. rewrite Ej.
  destruct (slot_list_deleted bs j m) as (dels & _ & Hd & E); [pose proof (Nat.Div0.mul_div_le (length bs) 32); lia|].
  unfold well_formed. rewrite E. by apply Hcut, deleted_inert.
Qed.

(** Renaming an entry keeps the directory well formed. *)
Lemma renamed_wf bs v x name e :
  well_formed bs -> cuttable (slot_list bs) x -> Z.of_nat (length bs) mod 32 = 0 -> Z.of_nat (length bs) < 2 ^ 32 ->
  fv_diroff v = entry_start_offset x -> entry_start_offset x + 32 * fv_dirsz v = current_offset x + 32 ->
  storable name -> entry_named name e -> dir_size_ok e -> rename_place bs v name + 32 * dirsz_of name <= Z.of_nat (length bs) ->
  well_formed (renamed bs v name e).
Proof.
  intros Hwf Hc Hal Hw Eo En Hst He Hsz Hroom. pose proof (dirsz_bounds _ Hst) as Hdz. unfold renamed, rename_place in *.
  destruct (dirsz_of name <=? fv_dirsz v) eqn:Hle.
  2: { unfold old_deleted in *. apply with_entry_wf; try done.
    - rewrite Eo. by apply mark_deleted_wf.
    - by rewrite (mark_deleted_length bs).
    - apply slot_place_free; rewrite ?(mark_deleted_length bs); (done || lia).
    - by rewrite (mark_deleted_length bs). }
  apply Z.leb_le in Hle. destruct (well_formed_cut bs x Hwf Hc) as (j & m & Hm & _ & Ej & Em & Hcut).
  destruct (entry_slots_length name e (en_length _ _ He)) as [Hss Hsl]. set (ss := entry_slots name e) in *.
  rewrite slot_list_length in Hm. pose proof (Nat.Div0.mul_div_le (length bs) 32) as Hdiv.
  assert (slot_list (with_entry bs (fv_diroff v) name e) = take j (slot_list bs) ++ ss ++ drop (j + length ss) (slot_list bs)) as E.
  { rewrite Eo, Ej. unfold with_entry. replace (Z.to_nat (32 * Z.of_nat j)) with (32 * j)%nat by lia. apply slot_list_splice; [done|lia]. }
  assert (length (with_entry bs (fv_diroff v) name e) = length bs) as Hlen by (apply with_entry_length; [apply He|lia|lia]).
  set (bs1 := with_entry _ _ _ _) in *. replace (fv_diroff v + 32 * dirsz_of name) with (32 * Z.of_nat (j + length ss)) by lia.
  destruct (slot_list_deleted bs1 (j + length ss) (Z.to_nat (fv_dirsz v - dirsz_of name))) as (dels & Hdl & Hd & E1); [lia|].
  assert (length (take j (slot_list bs) ++ ss) = (j + length ss)%nat) as Hpl by (rewrite length_app, length_take, slot_list_length; lia).
  rewrite app_assoc in E. unfold well_formed. rewrite E1, E, take_app_length', drop_app_ge, drop_drop by (done || lia). rewrite Hpl.
  replace (j + length ss + _)%nat with (j + m)%nat by lia. rewrite <- app_assoc, (app_assoc ss).
  apply Hcut, inert_app; [by apply entry_slots_inert|by apply deleted_inert].
Qed.

(** ** A new directory *)

Lemma single_inert e : in_use e -> dir_size_ok e -> inert [e].
Proof.
  intros He Hsz. split; [apply Forall_singleton, He|]. intros x Hx. destruct (check_slot_83 e x He Hsz) as (y & Hy & Hi); [by rewrite Hx|].
  exists y. cbn. by rewrite Hy.
Qed.

Lemma dot_inert c name e : dot_entry_ok c name e -> nth 0 name 0 = 46 -> inert [e].
Proof.
  intros [_ _ Hn Ha Hs _] H0. apply single_inert; [|by intros _].
  constructor; rewrite ?Hn, ?Ha, ?H0; done.
Qed.

Lemma zeros_slot n j e : slot_list (zeros n) !! j = Some e -> mark e = 0.
Proof.
  intros He. apply slot_list_mark in He as [Hj ->]. unfold slot_mark, zeros in *. rewrite length_replicate in Hj.
  apply nth_lookup_Some, lookup_replicate_2. lia.
Qed.

Lemma zeros_wf n : wf_slots (slot_list (zeros n)).
Proof.
  split; [|intros i j e e' _ _ He' _; by apply zeros_slot in He'].
  pose proof (zeros_slot n 0) as H0. destruct (slot_list (zeros n)) as [|e es]; [done|]. cbn. unfold check_slot. fold (mark e).
  by rewrite (H0 e).
Qed.

Lemma new_dir_wf f c parent now :
  fs_wf f -> 0 <= c < 2 ^ 32 -> 0 <= parent < 2 ^ 32 -> well_formed (new_dir f c parent now).
Proof.
  intros Hwf Hc Hp. pose proof (dot_slot_ok c now Hc) as H1. pose proof (dotdot_slot_ok f c parent now Hp) as H2.
  destruct (new_dir_bytes f c parent now Hwf Hc Hp) as [Hb ->]. set (e1 := dot_slot c now) in *. set (e2 := dotdot_slot f c parent now) in *.
  pose proof (de_length _ _ _ H1) as L1. pose proof (de_length _ _ _ H2) as L2.
  assert (e1 ++ e2 ++ zeros (bpc f - 64) = splice (zeros (bpc f)) (32 * 0) (concat [e1; e2])) as ->.
  { cbn [concat]. rewrite app_nil_r. unfold splice. rewrite take_0, app_nil_l, length_app, L1, L2, <- app_assoc. unfold zeros.
    by rewrite drop_replicate. }
  unfold well_formed. rewrite slot_list_splice; [|by repeat constructor|cbn [length]; unfold zeros; rewrite length_replicate; lia].
  rewrite take_0. apply (wf_insert [] (take 2 (slot_list (zeros (bpc f))))).
  - rewrite app_nil_l, take_drop. apply zeros_wf.
  - split; [apply Forall_nil_2|by exists no_check].
  - apply Forall_lookup_2. intros j e He. left. apply lookup_take_Some in He as [He _]. by apply zeros_slot in He.
  - apply (inert_app [e1] [e2]); [by apply (dot_inert _ _ _ H1)|by apply (dot_inert _ _ _ H2)].
Qed.
