(* ===== verification/OpenDirs.v ===== *)
(** * The open directories

    What the operations on names keep: every open directory is well formed and
    has clusters of its own.  An operation runs from one such state to another,
    with temporary structures in between; [walk] describes how far it is. *)
From S2P Require Import Prelude Layout Time Names Kernel Device Cls Fat Demo Alloc Chain Free Cache File Truncate Access Io IoSpec WriteSpec Dir DirSpec LfnSpec Vnode Nameops Vnops Listing Remove VnodeSpec VnopsSpec DirDemo Slots Insert CreateSpec RenameSpec MkdirSpec Grow MoveSpec Integrity IntegritySpec.

(** ** One directory *)

Section directory.
Context {K : Type} `{!Kernel K, !KernelLaws K}.
Implicit Types s : st K.

(** The bytes of clusters are determined. *)
Lemma contents_fun s l bs bs' : contents s l bs -> contents s l bs' -> bs = bs'.
Proof.
  intros (ds & H & ->) (ds' & H' & ->). f_equal. revert ds' H'. induction H as [|x d l ds Hx H IH]; intros ds' H'.
  - by inversion H'.
  - inversion H' as [|? d' ? ds2 Hx' H2]; subst. f_equal; [congruence|by apply IH].
Qed.

(** And so are the clusters of a chain. *)
Lemma chain_fun s c l l' : fs_wf (fsi s) -> file_chain s c l -> file_chain s c l' -> l = l'.
Proof.
  intros Hwf H. revert l'. induction H as [c Hc He|c l Hc Hn _ IH]; intros l' H'; inversion H' as [? Hc' He'|? l2 Hc' Hn' H2]; subst.
  - done.
  - pose proof (in_range_not_eoc _ _ Hwf Hn'). lia.
  - pose proof (in_range_not_eoc _ _ Hwf Hn). lia.
  - f_equal. by apply IH.
Qed.

Lemma directory_fun s p d l bs d' l' bs' :
  ready s -> directory s p d l bs -> directory s p d' l' bs' -> d' = d /\ l' = l /\ bs' = bs.
Proof.
  intros Hr H H'. pose proof (ready_wf _ Hr) as Hwf. assert (d' = d) as -> by (destruct H, H'; congruence).
  destruct (directory_at _ _ _ _ _ H) as [H1 H2]. destruct (directory_at _ _ _ _ _ H') as [H1' H2'].
  pose proof (chain_fun _ _ _ _ Hwf H1 H1') as <-. split; [done|]. split; [done|]. by eapply contents_fun.
Qed.

(** The structure of a directory after a change of its bytes. *)
Record recached (l : list Z) (d d' : fat32fs_vnode) : Prop := {
  rc_type : fv_type d' = fv_type d;
  rc_cluster : fv_cluster d' = fv_cluster d;
  rc_cache : cache_ok l (fv_cls_cache d') /\ length (fv_cls_cache d') = 16%nat
}.

Lemma recached_cache l d cache : cache_ok l cache -> length cache = 16%nat -> recached l d (set_fv_cls_cache cache d).
Proof. by constructor. Qed.

Lemma recached_modified l d cache now :
  cache_ok l cache -> length cache = 16%nat -> recached l d (modified now (set_fv_cls_cache cache d)).
Proof. by constructor. Qed.

Lemma directory_changed s s' p d d' l l' bs bs' :
  directory s p d l bs -> recached l' d d' -> fvs s' !! p = Some d' -> held s' = held s ->
  dir_at s' (fv_cluster d) l' bs' -> Z.of_nat (length bs') < 2 ^ 32 -> directory s' p d' l' bs'.
Proof.
  intros [_ Hty _ _ _ _ Hl] [Hty' Hcl' [Hca Hcl]] Hv Hh [Hch Hc] Hlen. destruct (chain_head _ _ _ _ Hch) as [l2 El].
  constructor; try done.
  - by rewrite Hty'.
  - split; [done|]. split; [done|]. rewrite El in *. by rewrite Hcl'.
  - by rewrite El.
  - by rewrite Hh.
Qed.

Lemma directory_recached s p d l bs : directory s p d l bs -> recached l d d.
Proof. intros [_ _ (H1 & H2 & _) _ _ _ _]. by constructor. Qed.

(** A directory in which nothing has changed. *)
Lemma directory_after s s' p d l bs :
  directory s p d l bs -> fvs s' !! p = Some d -> held s' = held s -> dir_at s' (fv_cluster d) l bs -> directory s' p d l bs.
Proof. intros Hd Hv Hh Hat. eapply directory_changed; [exact Hd|by eapply directory_recached|done|done|done|apply Hd]. Qed.

(** ** All of them *)

Record sound s (O : gset nat) : Prop := {
  so_ready : ready s;
  so_dirs p : p ∈ O -> exists d l bs, directory s p d l bs /\ well_formed bs;
  so_apart p q d l bs d' l' bs' :
    p ∈ O -> q ∈ O -> p <> q -> directory s p d l bs -> directory s q d' l' bs' -> l ## l'
}.

Lemma sound_at s O p d l bs : sound s O -> p ∈ O -> directory s p d l bs -> well_formed bs.
Proof.
  intros Hs Hp Hd. destruct (so_dirs _ _ Hs p Hp) as (d' & l' & bs' & Hd' & Hwf).
  by destruct (directory_fun _ _ _ _ _ _ _ _ (so_ready _ _ Hs) Hd Hd') as (_ & _ & <-).
Qed.

(** It is enough to know one description of each directory. *)
Lemma sound_intro s O :
  ready s -> (forall p, p ∈ O -> exists d l bs, directory s p d l bs /\ well_formed bs) ->
  (forall p q, p ∈ O -> q ∈ O -> p <> q -> exists d l bs d' l' bs', directory s p d l bs /\ directory s q d' l' bs' /\ l ## l') ->
  sound s O.
Proof.
  intros Hr Hd Ha. split; [done|done|]. intros p q d l bs d' l' bs' Hp Hq Hne H H'.
  destruct (Ha p q Hp Hq Hne) as (e & m & cs & e' & m' & cs' & H1 & H1' & Hap).
  destruct (directory_fun _ _ _ _ _ _ _ _ Hr H H1) as (_ & <- & _). by destruct (directory_fun _ _ _ _ _ _ _ _ Hr H' H1') as (_ & <- & _).
Qed.

(** Another state with the same volume and directories. *)
Lemma sound_same s s1 O :
  sound s O -> same_volume s s1 -> held s1 !! FsiLock = None -> (forall p, p ∈ O -> fvs s1 !! p = fvs s !! p) ->
  (forall p, p ∈ O -> held s1 !! CacheLock p = None) -> sound s1 O.
Proof.
  intros Hs Hv Hf Hfv Hl.
  assert (forall p d l bs, p ∈ O -> directory s p d l bs -> directory s1 p d l bs) as Hdir.
  { intros p d l bs Hp Hd. apply (directory_same s s1); try done; [|by apply Hl]. rewrite Hfv by done. apply Hd. }
  apply sound_intro.
  - rewrite <- (same_volume_equiv _ _ Hv). apply ready_set_held; [apply ready_set_fvs, Hs|done].
  - intros p Hp. destruct (so_dirs _ _ Hs p Hp) as (d & l & bs & Hd & Hwf). exists d, l, bs. split; [by apply Hdir|done].
  - intros p q Hp Hq Hne. destruct (so_dirs _ _ Hs p Hp) as (d & l & bs & Hd & _). destruct (so_dirs _ _ Hs q Hq) as (d' & l' & bs' & Hd' & _).
    exists d, l, bs, d', l', bs'. split; [by apply Hdir|]. split; [by apply Hdir|]. by eapply (so_apart _ _ Hs p q).
Qed.

(** The directory at [p] has changed: what is apart from [lx] is kept, and apart
    from the clusters [lz] that may have changed. *)
Record evolved s (p : nat) (lx lz : list Z) s' (d' : fat32fs_vnode) (l' bs' : list Z) : Prop := {
  ev_ready : ready s';
  ev_geom : geom (fsi s') = geom (fsi s);
  ev_held : held s' = held s;
  ev_fvs q : q <> p -> fvs s' !! q = fvs s !! q;
  ev_dir : directory s' p d' l' bs';
  ev_keeps : keeps s lx s' lz;
  ev_data : data_keeps s lz s';
  ev_part x : x ∈ l' -> x ∈ lz
}.

(** Nothing changes for the others. *)
Lemma evolved_other s p lx lz s' d' l' bs' q d l bs :
  evolved s p lx lz s' d' l' bs' -> q <> p -> directory s q d l bs -> l ## lx -> directory s' q d l bs /\ l ## l'.
Proof.
  intros [Hr Hg Hh Hv _ Hk Hd Hp] Hq Hdir Hx. destruct (directory_at _ _ _ _ _ Hdir) as [Hch Hc].
  destruct (Hk _ _ Hch Hx) as [Hch' Hz]. split; [|intros y Hy1 Hy2; by apply (Hz y Hy1), Hp].
  apply (directory_after s s' q d l bs); [done|rewrite Hv by done; apply Hdir|done|]. split; [done|].
  by apply (contents_keeps s lz s'); [| |eapply chain_range| |].
Qed.

Lemma sound_evolved s O p d l bs lx lz s' d' l' bs' :
  sound s O -> p ∈ O -> directory s p d l bs -> evolved s p lx lz s' d' l' bs' -> well_formed bs' ->
  (forall q d2 l2 bs2, q ∈ O -> q <> p -> directory s q d2 l2 bs2 -> l2 ## lx) -> sound s' O.
Proof.
  intros Hs Hp Hd He Hwf Hap. pose proof (ev_ready _ _ _ _ _ _ _ _ He) as Hr. pose proof (ev_dir _ _ _ _ _ _ _ _ He) as Hd'.
  assert (forall q, q ∈ O -> q <> p -> exists d2 l2 bs2, directory s q d2 l2 bs2 /\ directory s' q d2 l2 bs2 /\ well_formed bs2 /\ l2 ## l') as Ho.
  { intros q Hq Hne. destruct (so_dirs _ _ Hs q Hq) as (d2 & l2 & bs2 & Hd2 & Hwf2).
    destruct (evolved_other _ _ _ _ _ _ _ _ q d2 l2 bs2 He Hne Hd2) as [? ?]; [by eapply Hap|]. by exists d2, l2, bs2. }
  apply sound_intro; [done|..].
  - intros q Hq. destruct (decide (q = p)) as [->|Hne]; [by exists d', l', bs'|].
    destruct (Ho q Hq Hne) as (d2 & l2 & bs2 & _ & H2 & H3 & _). by exists d2, l2, bs2.
  - intros q1 q2 H1 H2 Hne. destruct (decide (q1 = p)) as [->|N1], (decide (q2 = p)) as [->|N2]; [done|..].
    + destruct (Ho q2 H2 N2) as (d2 & l2 & bs2 & _ & E2 & _ & A2). exists d', l', bs', d2, l2, bs2. split; [done|]. split; [done|].
      intros x ? ?. by apply (A2 x).
    + destruct (Ho q1 H1 N1) as (d2 & l2 & bs2 & _ & E2 & _ & A2). by exists d2, l2, bs2, d', l', bs'.
    + destruct (Ho q1 H1 N1) as (d1 & l1 & bs1 & D1 & E1 & _ & _). destruct (Ho q2 H2 N2) as (d2 & l2 & bs2 & D2 & E2 & _ & _).
      exists d1, l1, bs1, d2, l2, bs2. split_and!; [done|done|]. by eapply (so_apart _ _ Hs q1 q2).
Qed.

(** A change that concerns no open directory. *)
Record aside s (lx lz : list Z) s' : Prop := {
  as_ready : ready s';
  as_geom : geom (fsi s') = geom (fsi s);
  as_held : held s' = held s;
  as_fvs : fvs s' = fvs s;
  as_keeps : keeps s lx s' lz;
  as_data : data_keeps s lz s'
}.

Lemma aside_other s lx lz s' q d l bs :
  aside s lx lz s' -> directory s q d l bs -> l ## lx -> directory s' q d l bs.
Proof.
  intros [Hr Hg Hh Hv Hk Hd] Hdir Hx. destruct (directory_at _ _ _ _ _ Hdir) as [Hch Hc]. destruct (Hk _ _ Hch Hx) as [Hch' Hz].
  apply (directory_after s s' q d l bs); [done|rewrite Hv; apply Hdir|done|]. split; [done|].
  by apply (contents_keeps s lz s'); [| |eapply chain_range| |].
Qed.

Lemma sound_aside s O lx lz s' :
  sound s O -> aside s lx lz s' -> (forall q d2 l2 bs2, q ∈ O -> directory s q d2 l2 bs2 -> l2 ## lx) -> sound s' O.
Proof.
  intros Hs Ha Hap. apply sound_intro; [apply Ha|..].
  - intros q Hq. destruct (so_dirs _ _ Hs q Hq) as (d2 & l2 & bs2 & Hd2 & Hwf2). exists d2, l2, bs2. split; [|done].
    eapply aside_other; [done|done|by eapply Hap].
  - intros p q Hp Hq Hne. destruct (so_dirs _ _ Hs p Hp) as (d & l & bs & Hd & _). destruct (so_dirs _ _ Hs q Hq) as (d' & l' & bs' & Hd' & _).
    exists d, l, bs, d', l', bs'. split; [eapply aside_other; [done|done|by eapply (Hap p)]|].
    split; [eapply aside_other; [done|done|by eapply (Hap q)]|]. by eapply (so_apart _ _ Hs p q).
Qed.

(** A directory more. *)
Lemma sound_open s O q d l bs :
  sound s O -> directory s q d l bs -> well_formed bs ->
  (forall p d2 l2 bs2, p ∈ O -> directory s p d2 l2 bs2 -> l2 ## l) -> sound s ({[q]} ∪ O).
Proof.
  intros Hs Hd Hwf Hap. apply sound_intro; [apply Hs|..].
  - intros p [->%elem_of_singleton|Hp]%elem_of_union; [by exists d, l, bs|by apply Hs].
  - intros p1 p2 H1 H2 Hne.
    assert (forall p, p ∈ ({[q]} ∪ O : gset nat) -> p = q \/ p <> q /\ p ∈ O) as Hc by (intros p; destruct (decide (p = q)); set_solver).
    destruct (Hc p1 H1) as [->|[N1 O1]], (Hc p2 H2) as [->|[N2 O2]]; [done|..].
    + destruct (so_dirs _ _ Hs p2 O2) as (d2 & l2 & bs2 & Hd2 & _). exists d, l, bs, d2, l2, bs2. split_and!; [done|done|].
      intros x Hx Hx2. by eapply (Hap p2 d2 l2 bs2 O2 Hd2 x).
    + destruct (so_dirs _ _ Hs p1 O1) as (d1 & l1 & bs1 & Hd1 & _). exists d1, l1, bs1, d, l, bs. split_and!; [done|done|by eapply Hap].
    + destruct (so_dirs _ _ Hs p1 O1) as (d1 & l1 & bs1 & Hd1 & _). destruct (so_dirs _ _ Hs p2 O2) as (d2 & l2 & bs2 & Hd2 & _).
      exists d1, l1, bs1, d2, l2, bs2. split_and!; [done|done|]. by eapply (so_apart _ _ Hs p1 p2).
Qed.

End directory.

(** ** Changes of one directory *)

Section evolving.
Context {K : Type} `{!Kernel K, !KernelLaws K}.
Implicit Types s : st K.

(** Its bytes, with its structure. *)
Lemma evolved_change s p d d' l bs bs' m s' :
  ready s -> directory s p d l bs -> recached l d d' -> m !! p = Some d' -> (forall q, q <> p -> m !! q = fvs s !! q) ->
  dir_change (set_fvs m s) (fv_cluster d) l bs' s' -> evolved s p l l s' d' l bs'.
Proof.
  intros Hr Hd Hc Hp Hq Hch. pose proof (directory_at _ _ _ _ _ Hd) as Hat.
  assert (length bs' = length bs) as Hlen by (eapply (dir_change_length (set_fvs m s)); [by apply ready_set_fvs|exact Hat|exact Hch]).
  destruct Hch as (H1 & H2 & H3 & H4 & H5 & H6 & H7). cbn in H2, H3, H4. split; try done.
  - by rewrite H2.
  - intros q Hqp. rewrite H3. by apply Hq.
  - apply (directory_changed s s' p d d' l l bs bs' Hd Hc); [by rewrite H3|done|done|]. rewrite Hlen. apply Hd.
Qed.

Lemma evolved_bytes s p d l bs bs' s' :
  ready s -> directory s p d l bs -> dir_change s (fv_cluster d) l bs' s' -> evolved s p l l s' d l bs'.
Proof.
  intros Hr Hd Hch. apply (evolved_change s p d d l bs bs' (fvs s) s'); try done; [by eapply directory_recached|apply Hd].
Qed.

(** Its structure only. *)
Lemma evolved_cache s p d d' l bs s' :
  ready s -> directory s p d l bs -> recached l d d' -> set_fvs (<[p := d']> (fvs s)) s ≡ s' -> evolved s p l l s' d' l bs.
Proof.
  intros Hr Hd Hc Hs. apply (evolved_change s p d d' l bs bs (<[p := d']> (fvs s)) s'); try done.
  - by apply lookup_insert_eq.
  - intros q Hq. by rewrite lookup_insert_ne.
  - apply (dir_change_equiv _ _ _ _ _ _ Hs). apply dir_change_refl; [by apply ready_set_fvs|exact (directory_at _ _ _ _ _ Hd)].
Qed.

(** New clusters at its end. *)
Lemma evolved_grown s p d l bs ext s0 :
  ready s -> clearable s -> directory s p d l bs -> grown s (fv_cluster d) l bs ext s0 -> addressable s (l ++ ext) ->
  evolved s p l (l ++ ext) s0 d (l ++ ext) (longer s bs ext).
Proof.
  intros Hr Hcl Hd Hg Ha. pose proof (grown_dir _ _ _ _ _ _ Hcl Hg) as Hat.
  pose proof (longer_length s _ l bs ext Hr (directory_at _ _ _ _ _ Hd)) as Hl.
  destruct Hg as (H1 & H2 & H3 & H4 & H5 & H6 & H7 & H8 & _). split; try done.
  - intros q _. by rewrite H2.
  - apply (directory_changed s s0 p d d l (l ++ ext) bs (longer s bs ext) Hd); [|rewrite H2; apply Hd|done|done|by rewrite Hl].
    destruct (directory_recached _ _ _ _ _ Hd) as [? ? [? ?]]. constructor; try done. split; [by apply cache_ok_app|done].
  - eapply data_keeps_weaken; [|exact H8]. intros x Hx. rewrite elem_of_app. by right.
Qed.

(** A directory in it. *)
Lemma evolved_subdir s p d d' l bs v1 name n m s' :
  ready s -> directory s p d l bs -> recached l d d' -> m !! p = Some d' -> (forall q, q <> p -> m !! q = fvs s !! q) ->
  0 <= fv_diroff v1 -> storable name -> fv_diroff v1 + 32 * dirsz_of name <= Z.of_nat (length bs) ->
  subdir_fvs s d l bs v1 name n m s' ->
  exists now, evolved s p l (n :: l) s' d' l (with_entry bs (fv_diroff v1) name (new_d83 (fv_cluster d) v1 name FAT32_CRE_DIR n now)).
Proof.
  intros Hr Hd Hc Hp Hq H0 Hst Hroom (Hm & Hh & now & [Hfree Hr' Hf Hat Hnew Hapart Hk Hdk]). exists now. split; try done.
  - by rewrite Hf.
  - intros q Hqp. rewrite Hm. by apply Hq.
  - apply (directory_changed s s' p d d' l l bs _ Hd Hc); [by rewrite Hm|done|done|].
    rewrite with_entry_length; [apply Hd| |done|done].
    apply (new_d83_named (fv_cluster d) v1 name FAT32_CRE_DIR n now Hst). done.
  - intros x Hx. by apply list_elem_of_further.
Qed.

End evolving.


(** Slots of zeros behind those of a directory. *)
Lemma slot_list_app bs bs' :
  Z.of_nat (length bs) mod 32 = 0 -> slot_list (bs ++ bs') = slot_list bs ++ slot_list bs'.
Proof.
  intros Hal. assert (exists u, length bs = u * 32)%nat as [u Hu] by (exists (Z.to_nat (Z.of_nat (length bs) / 32)); Z.div_mod_to_equations; lia).
  unfold slot_list. rewrite length_app, Hu, Nat.div_add_l, Nat.div_mul, seq_app, map_app by done. f_equal.
  - apply map_ext_in. intros j Hj%in_seq. unfold slice. rewrite drop_app_le, take_app_le; [done|rewrite length_drop; lia|lia].
  - pose proof (fmap_add_seq u 0 (length bs' / 32)) as Es. rewrite Nat.add_0_r in Es. rewrite Nat.add_0_l, <- Es.
    change (Nat.add u <$> ?l) with (map (Nat.add u) l). rewrite map_map. apply map_ext. intros j. unfold slice. rewrite drop_app_ge by lia. repeat f_equal. lia.
Qed.

Lemma well_formed_longer bs n : Z.of_nat (length bs) mod 32 = 0 -> well_formed bs -> well_formed (bs ++ zeros n).
Proof.
  intros Hal [Hp Hend]. unfold well_formed. rewrite (slot_list_app _ _ Hal). split.
  - rewrite check_slots_app. destruct (check_slots (slot_list bs) no_check) as [| |y]; [done|done|]. cbn in Hp.
    pose proof (zeros_slot n 0) as Hz. destruct (slot_list (zeros n)) as [|e es]; [done|]. cbn [check_slots].
    unfold check_slot. fold (mark e). rewrite (Hz e eq_refl). cbn. by destruct (in_lfn_sequence y).
  - intros i j e e' Hij He He' H0. destruct (decide (j < length (slot_list bs))%nat) as [Hj|Hj].
    + rewrite lookup_app_l in He, He' by lia. by apply (Hend i j e e').
    + rewrite lookup_app_r in He' by lia. by apply zeros_slot in He'.
Qed.

(** ** Structures and vnodes *)

Section typed.
Context {K V : Type} `{!Kernel K, !Vnodes V}.
Implicit Types (s : st K) (w : V).

(** A structure between [fat32_vnode_init] and [fat32_vnode_delete]. *)
Definition valid_fv (v : fat32fs_vnode) : Prop := fv_magic v = fv_magic_bytes /\ fv_structsize v = fv_sizeof.

Record typed s w : Prop := {
  ty_valid p v : fvs s !! p = Some v -> valid_fv v;
  ty_linked vp p : first_bhv w vp = Some p -> exists v, fvs s !! p = Some v /\ fv_vnode v = Some vp
}.

End typed.

(** The members that make the identity of a structure. *)
Definition same_id (v v' : fat32fs_vnode) : Prop :=
  fv_magic v' = fv_magic v /\ fv_structsize v' = fv_structsize v /\ fv_vnode v' = fv_vnode v.

Lemma same_id_trans v1 v2 v3 : same_id v1 v2 -> same_id v2 v3 -> same_id v1 v3.
Proof. unfold same_id. intuition congruence. Qed.

(** ** The way of an operation

    From [s], where the directories in [O] are open, to [s1]: they are well
    formed again and are the same structures, there are the temporary structures
    [T] in addition, and the locks are [h]. *)
Section walk.
Context {K : Type} `{!Kernel K, !KernelLaws K}.
Implicit Types (s : st K) (O : gset nat) (T : gmap nat fat32fs_vnode) (h : gmap lock lkmode).

Record walk s O T h s1 : Prop := {
  wk_sound : sound s1 O;
  wk_geom : geom (fsi s1) = geom (fsi s);
  wk_held : held s1 = h;
  wk_fresh q v : T !! q = Some v -> fvs s !! q = None;
  wk_temp q : fvs s !! q = None -> fvs s1 !! q = T !! q;
  wk_old q v : q ∉ O -> fvs s !! q = Some v -> fvs s1 !! q = Some v;
  wk_dirs p : p ∈ O -> exists d d', fvs s !! p = Some d /\ fvs s1 !! p = Some d' /\ same_id d d'
}.

Lemma walk_start s O : sound s O -> walk s O ∅ (held s) s.
Proof.
  intros Hs. split; try done. intros p Hp. destruct (so_dirs _ _ Hs p Hp) as (d & l & bs & Hd & _). exists d, d. split; [apply Hd|]. split; [apply Hd|done].
Qed.

Lemma walk_ready s O T h s1 : walk s O T h s1 -> ready s1.
Proof. intros H. apply H. Qed.

(** A structure that is not in [s] is not that of an open directory. *)
Lemma walk_apart s O T h s1 q : walk s O T h s1 -> fvs s !! q = None -> q ∉ O.
Proof. intros H Hq Hin. destruct (wk_dirs _ _ _ _ _ H q Hin) as (d & _ & Hd & _). congruence. Qed.

Lemma walk_unused s O T h s1 q : walk s O T h s1 -> fvs s1 !! q = None -> fvs s !! q = None /\ T !! q = None.
Proof.
  intros H Hq. destruct (fvs s !! q) as [v|] eqn:E; [|by rewrite <- (wk_temp _ _ _ _ _ H q E)].
  destruct (decide (q ∈ O)) as [Hin|Hin].
  - destruct (wk_dirs _ _ _ _ _ H q Hin) as (d & d' & _ & Hd & _). congruence.
  - by rewrite (wk_old _ _ _ _ _ H q v Hin E) in Hq.
Qed.

Lemma walk_lookup s O T h s1 q v : walk s O T h s1 -> T !! q = Some v -> fvs s1 !! q = Some v.
Proof. intros H Hq. rewrite (wk_temp _ _ _ _ _ H q); [done|]. by eapply wk_fresh. Qed.

(** The same volume, other structures and locks. *)
Lemma walk_same s O T h s1 T' h' s2 :
  walk s O T h s1 -> same_volume s1 s2 -> held s2 = h' -> h' !! FsiLock = None -> (forall p, p ∈ O -> h' !! CacheLock p = None) ->
  (forall p, is_Some (fvs s !! p) -> fvs s2 !! p = fvs s1 !! p) ->
  (forall q v, T' !! q = Some v -> fvs s !! q = None) -> (forall q, fvs s !! q = None -> fvs s2 !! q = T' !! q) ->
  walk s O T' h' s2.
Proof.
  intros [H1 H2 H3 H4 H5 H6 H7] Hv Hh Hf Hc Hold Hfr Ht. split; try done.
  - apply (sound_same s1 s2 O H1 Hv); [by rewrite Hh| |by rewrite Hh].
    intros p Hp. apply Hold. destruct (H7 p Hp) as (d & _ & -> & _). by eexists.
  - by rewrite (proj1 Hv).
  - intros q v Hq Hsq. rewrite Hold by by eexists. by apply H6.
  - intros p Hp. destruct (H7 p Hp) as (d & d' & E1 & E2 & Hid). exists d, d'. rewrite Hold by by eexists. done.
Qed.

Lemma walk_fsi s O T h s1 : walk s O T h s1 -> h !! FsiLock = None.
Proof. intros [H1 _ <- _ _ _ _]. apply H1. Qed.
Lemma walk_cache s O T h s1 p : walk s O T h s1 -> p ∈ O -> h !! CacheLock p = None.
Proof. intros [H1 _ <- _ _ _ _] Hp. destruct (so_dirs _ _ H1 p Hp) as (d & l & bs & Hd & _). apply Hd. Qed.

Lemma walk_equiv s O T h s1 s2 : walk s O T h s1 -> s1 ≡ s2 -> walk s O T h s2.
Proof.
  intros Hw (Ef & Ev & Eh & Ek). apply (walk_same s O T h s1); try done.
  - by rewrite Eh; apply Hw.
  - by eapply walk_fsi.
  - intros p. by eapply walk_cache.
  - intros p _. by rewrite Ev.
  - by eapply wk_fresh.
  - intros q Hq. rewrite Ev. by eapply wk_temp.
Qed.

(** A temporary structure is made or changed. *)
Lemma walk_temp s O T h s1 q v : walk s O T h s1 -> fvs s !! q = None -> walk s O (<[q := v]> T) h (set_fvs (<[q := v]> (fvs s1)) s1).
Proof.
  intros Hw Hq. apply (walk_same s O T h s1); try done; try apply Hw.
  - by eapply walk_fsi.
  - intros p. by eapply walk_cache.
  - intros p [x Hp]. cbn. rewrite lookup_insert_ne; [done|congruence].
  - intros q2 v2 [[<- _]|[_ H2]]%lookup_insert_Some; [done|by eapply wk_fresh].
  - intros q2 H2. cbn. rewrite !lookup_insert. case_decide; [done|by eapply wk_temp].
Qed.

Lemma walk_delete s O T h s1 q : walk s O T h s1 -> fvs s !! q = None -> walk s O (delete q T) h (set_fvs (delete q (fvs s1)) s1).
Proof.
  intros Hw Hq. apply (walk_same s O T h s1); try done; try apply Hw.
  - by eapply walk_fsi.
  - intros p. by eapply walk_cache.
  - intros p [x Hp]. cbn. rewrite lookup_delete_ne; [done|congruence].
  - intros q2 v2 [_ H2]%lookup_delete_Some. by eapply wk_fresh.
  - intros q2 H2. cbn. rewrite !lookup_delete. case_decide; [done|by eapply wk_temp].
Qed.

(** Locks of directories are taken and released. *)
Lemma walk_held s O T h s1 h' :
  walk s O T h s1 -> (forall l, (forall p, l <> FvLock p) -> h' !! l = h !! l) -> walk s O T h' (set_held h' s1).
Proof.
  intros Hw Hh. apply (walk_same s O T h s1); try done; try apply Hw.
  - rewrite Hh by done. by eapply walk_fsi.
  - intros p Hp. rewrite Hh by done. by eapply walk_cache.
Qed.

(** A directory changes. *)
Lemma walk_evolved s O T h s1 p d l bs lz s2 d' l' bs' :
  walk s O T h s1 -> p ∈ O -> directory s1 p d l bs -> same_id d d' -> evolved s1 p l lz s2 d' l' bs' -> well_formed bs' ->
  walk s O T h s2.
Proof.
  intros Hw Hp Hd Hid He Hwf. pose proof Hw as [H1 H2 H3 H4 H5 H6 H7]. pose proof He as [_ Eg Eh Ev Ed _ _ _]. split.
  - apply (sound_evolved s1 O p d l bs l lz s2 d' l' bs' H1 Hp Hd He Hwf). intros q d2 l2 bs2 Hq Hne Hd2. by eapply (so_apart _ _ H1 q p).
  - by rewrite Eg.
  - by rewrite Eh.
  - done.
  - intros q Hq. rewrite Ev by (intros ->; by apply (walk_apart _ _ _ _ _ _ Hw Hq)). by apply H5.
  - intros q v Hq Hsq. rewrite Ev by (intros ->; done). by apply H6.
  - intros q Hq. destruct (H7 q Hq) as (d0 & d1 & E0 & E1 & Hid1). destruct (decide (q = p)) as [->|Hne].
    + exists d0, d'. split; [done|]. split; [apply Ed|]. eapply same_id_trans; [exact Hid1|].
      rewrite (dir_fv _ _ _ _ _ Hd) in E1. by apply (inj Some) in E1 as <-.
    + exists d0, d1. by rewrite Ev.
Qed.

(** Something else changes. *)
Lemma walk_aside s O T h s1 lx lz s2 :
  walk s O T h s1 -> aside s1 lx lz s2 -> (forall q d2 l2 bs2, q ∈ O -> directory s1 q d2 l2 bs2 -> l2 ## lx) -> walk s O T h s2.
Proof.
  intros [H1 H2 H3 H4 H5 H6 H7] Ha Hap. pose proof Ha as [_ Eg Eh Ev _ _]. split; try done.
  - by eapply sound_aside.
  - by rewrite Eg.
  - by rewrite Eh.
  - intros q Hq. rewrite Ev. by apply H5.
  - intros q v Hq Hsq. rewrite Ev. by apply H6.
  - intros q Hq. rewrite Ev. by apply H7.
Qed.

End walk.

(** ** The end of an operation *)

Section outcome.
Context {K V : Type} `{!Kernel K, !KernelLaws K, !Vnodes V, !VnodesLaws V}.
Implicit Types (s : st K) (w : V) (O : gset nat).

(** No vnode more, or one with a new structure. *)
Inductive outcome s w O s' w' : Prop :=
| out_same : walk s O ∅ (held s) s' -> (forall vp, first_bhv w' vp = first_bhv w vp) -> outcome s w O s' w'
| out_new q v vp parent :
    walk s O {[q := v]} (held s) s' -> vnode_linked w vp q parent w' -> valid_fv v -> fv_vnode v = Some vp -> outcome s w O s' w'.

Lemma outcome_sound s w O s' w' : outcome s w O s' w' -> sound s' O.
Proof. by intros [[]|???? []]. Qed.

Lemma walk_valid s O T h s1 : walk s O T h s1 -> (forall p v, fvs s !! p = Some v -> valid_fv v) ->
  (forall q v, T !! q = Some v -> valid_fv v) -> forall p v, fvs s1 !! p = Some v -> valid_fv v.
Proof.
  intros Hw Hv Ht p v Hp. destruct (fvs s !! p) as [v0|] eqn:E.
  - destruct (decide (p ∈ O)) as [Hin|Hin].
    + destruct (wk_dirs _ _ _ _ _ Hw p Hin) as (d & d' & E1 & E2 & (I1 & I2 & _)). rewrite Hp in E2. apply (inj Some) in E2 as <-.
      unfold valid_fv. rewrite I1, I2. by apply (Hv p).
    + rewrite (wk_old _ _ _ _ _ Hw p v0 Hin E) in Hp. apply (inj Some) in Hp as <-. by eapply Hv.
  - rewrite (wk_temp _ _ _ _ _ Hw p E) in Hp. by eapply Ht.
Qed.

Lemma walk_vnode s O T h s1 p v vp :
  walk s O T h s1 -> fvs s !! p = Some v -> fv_vnode v = Some vp -> exists v', fvs s1 !! p = Some v' /\ fv_vnode v' = Some vp.
Proof.
  intros Hw Hp Hvp. destruct (decide (p ∈ O)) as [Hin|Hin]; [|exists v; split; [by eapply wk_old|done]].
  destruct (wk_dirs _ _ _ _ _ Hw p Hin) as (d & d' & E1 & E2 & (_ & _ & I3)). exists d'. split; [done|]. congruence.
Qed.

Lemma outcome_typed s w O s' w' : outcome s w O s' w' -> typed s w -> typed s' w'.
Proof.
  intros Ho [Hv Hl]. destruct Ho as [Hw Hb|q v vp parent Hw (_ & _ & _ & Hb & Hoth) Hval Hvp].
  - split; [by apply (walk_valid _ _ _ _ _ Hw Hv)|]. intros vp p Hp. rewrite Hb in Hp. destruct (Hl vp p Hp) as (v & H1 & H2).
    by eapply walk_vnode.
  - split; [apply (walk_valid _ _ _ _ _ Hw Hv); by intros q2 v2 [_ <-]%lookup_singleton_Some|]. intros vp2 p Hp.
    destruct (decide (vp2 = vp)) as [->|Hne].
    + rewrite Hb in Hp. apply (inj Some) in Hp as <-. exists v. split; [|done]. eapply walk_lookup; [exact Hw|apply lookup_singleton_eq].
    + rewrite (proj1 (Hoth vp2 Hne)) in Hp. destruct (Hl vp2 p Hp) as (v2 & H1 & H2). by eapply walk_vnode.
Qed.

End outcome.
