(* ===== verification/WalkOps.v ===== *)
(** * Creations in open directories, whatever their results

    The rules by which the steps of an operation keep a [walk] going, and from
    them what [fat32_create] of a new name and [fat32_mkdir] of any name do to
    the open directories: with and without the right to write, with room in the
    directory, with clusters that are added to it, and without space for them. *)
From S2P Require Import Prelude Layout Time Names Kernel Device Cls Fat Demo Alloc Chain Free Cache File Truncate Access Io IoSpec WriteSpec Dir DirSpec LfnSpec Vnode Nameops Vnops Listing Remove VnodeSpec VnopsSpec DirDemo Slots Insert CreateSpec RenameSpec MkdirSpec Grow MoveSpec Integrity IntegritySpec OpenDirs.

Section walk.
Context {K V : Type} `{!Kernel K, !KernelLaws K, !Vnodes V, !VnodesLaws V}.
Context (tb : Z).
Implicit Types (s : st K) (w : V) (O : gset nat) (T : gmap nat fat32fs_vnode) (h : gmap lock lkmode).

(** ** Clusters of no open directory *)

Definition aparted s O (lf : list Z) : Prop := forall p d l bs, p ∈ O -> directory s p d l bs -> l ## lf.

(** A directory apart from the open ones stays as it is. *)
Definition spares s O s' : Prop := forall c lf fbs,
  dir_at s c lf fbs -> aparted s O lf -> dir_at s' c lf fbs /\ aparted s' O lf.

Lemma spares_trans s1 O s2 s3 : spares s1 O s2 -> spares s2 O s3 -> spares s1 O s3.
Proof. intros H1 H2 c lf fbs Hat Hap. destruct (H1 c lf fbs Hat Hap). by apply H2. Qed.

Lemma spares_same s O s' :
  sound s O -> same_volume s s' -> (forall p, p ∈ O -> fvs s' !! p = fvs s !! p) -> spares s O s'.
Proof.
  intros Hs Hv Hf c lf fbs Hat Hap. split; [by apply (same_volume_dir s s')|]. intros p d l bs Hp Hd.
  apply (Hap p d l bs Hp). apply (directory_same s' s); [by split; [rewrite (proj1 Hv)|intros b n; rewrite (proj2 Hv)]| | |done].
  - rewrite <- Hf by done. apply Hd.
  - destruct (so_dirs _ _ Hs p Hp) as (d0 & l0 & bs0 & Hd0 & _). apply Hd0.
Qed.

Lemma spares_evolved s O p d l bs lz s' d' l' bs' :
  sound s O -> p ∈ O -> directory s p d l bs -> evolved s p l lz s' d' l' bs' -> spares s O s'.
Proof.
  intros Hs Hp Hd He c lf fbs [Hch Hc] Hap. pose proof (Hap p d l bs Hp Hd) as Hl.
  assert (lf ## l) as Hl' by (intros x ? ?; by apply (Hl x)).
  pose proof He as [Hr Hg _ _ _ Hk Hdk Hpart]. destruct (Hk c lf Hch Hl') as [Hch' Hz]. split.
  - split; [done|]. by apply (contents_keeps s lz s'); [| |eapply chain_range| |].
  - intros q d2 l2 bs2 Hq Hd2. destruct (decide (q = p)) as [->|Hne].
    + destruct (directory_fun _ _ _ _ _ _ _ _ Hr (ev_dir _ _ _ _ _ _ _ _ He) Hd2) as (_ & -> & _).
      intros x Hx1 Hx2. by apply (Hz x Hx2), Hpart.
    + destruct (so_dirs _ _ Hs q Hq) as (d3 & l3 & bs3 & Hd3 & _).
      destruct (evolved_other _ _ _ _ _ _ _ _ q d3 l3 bs3 He Hne Hd3) as [Hd3' _]; [by eapply (so_apart _ _ Hs q p)|].
      destruct (directory_fun _ _ _ _ _ _ _ _ Hr Hd3' Hd2) as (_ & -> & _). by eapply Hap.
Qed.

(** ** The steps *)

Lemma made_vnode_id f c type vp parent v :
  fv_magic (made_vnode f c type vp parent v) = fv_magic v /\ fv_structsize (made_vnode f c type vp parent v) = fv_structsize v /\
  fv_vnode (made_vnode f c type vp parent v) = Some vp.
Proof. unfold made_vnode. destruct parent as [[pvp pc]|], (_ && _); [..|]; try done; by destruct (fv_mode _ =? 0). Qed.

(** A directory of which neither the clusters nor the structure change. *)
Lemma walk_directory s O T h s1 s2 p d l bs :
  walk s O T h s2 -> p ∈ O -> same_volume s1 s2 -> fvs s2 !! p = fvs s1 !! p -> directory s1 p d l bs -> directory s2 p d l bs.
Proof.
  intros Hw Hp Hv Hf Hd. apply (directory_same s1); [done|rewrite Hf; apply Hd| |done].
  rewrite (wk_held _ _ _ _ _ Hw). by eapply walk_cache.
Qed.

Lemma wp_walk_new {A} s O T h s1 w1 (k : option nat -> M (st K * V) A) Q :
  walk s O T h s1 ->
  (forall q w2, fvs s !! q = None -> T !! q = None -> layer_same w1 w2 ->
     let s2 := set_fvs (<[q := fresh_fv (fsi s1)]> (fvs s1)) s1 in
     walk s O (<[q := fresh_fv (fsi s1)]> T) h s2 -> wp (k (Some q)) (s2, w2) Q) ->
  wp (let* o := fat32_vnode_new in k o) (s1, w1) Q.
Proof.
  intros Hw Hk. eapply wp_call_ok; [apply wp_vnode_new|]. intros ? [s2 w2] (q & -> & Hq & E & Hl). cbn [fst snd] in E, Hl. subst s2.
  destruct (walk_unused _ _ _ _ _ _ Hw Hq) as [H1 H2]. apply Hk; try done. by apply walk_temp.
Qed.

Lemma wp_walk_lock {A} s O T h s1 w p mode (k : M (st K * V) A) Q :
  walk s O T h s1 -> h !! FvLock p = None ->
  (walk s O T (<[FvLock p := mode]> h) (set_held (<[FvLock p := mode]> h) s1) -> wp k (set_held (<[FvLock p := mode]> h) s1, w) Q) ->
  wp (do* lift (lock_acquire (FvLock p) mode) in k) (s1, w) Q.
Proof.
  intros Hw Hl Hk. pose proof (wk_held _ _ _ _ _ Hw) as Hh. eapply wp_lift_call; [apply wp_lock; by rewrite Hh|].
  intros [] ? ->. rewrite Hh. apply Hk. apply (walk_held _ _ _ _ _ _ Hw). intros l Hne. by rewrite lookup_insert_ne by done.
Qed.

Lemma wp_walk_unlock {A} s O T h s1 w p mode (k : M (st K * V) A) Q :
  walk s O T (<[FvLock p := mode]> h) s1 -> h !! FvLock p = None ->
  (walk s O T h (set_held h s1) -> wp k (set_held h s1, w) Q) ->
  wp (do* lift (lock_release (FvLock p)) in k) (s1, w) Q.
Proof.
  intros Hw Hl Hk. eapply wp_lift_call; [eapply wp_unlock; [apply (wk_held _ _ _ _ _ Hw)|done]|].
  intros [] ? ->. apply Hk. apply (walk_held _ _ _ _ _ _ Hw). intros l Hne. by rewrite lookup_insert_ne by done.
Qed.

Lemma wp_walk_find s O T h s1 p d l bs q name stack :
  walk s O T h s1 -> p ∈ O -> directory s1 p d l bs -> T !! q = Some (fresh_fv (fsi s1)) ->
  length stack = 256%nat -> (length name <= 255)%nat ->
  wp (fat32_find_dirent tb p name stack (Some q)) s1 (fun r s2 =>
    r = match lookup_name bs stack name with Some _ => Ok tt | None => Err ENOENT end /\
    same_volume s1 s2 /\ (forall p2, p2 <> p -> p2 <> q -> fvs s2 !! p2 = fvs s1 !! p2) /\
    walk s O (<[q := found_fv tb s1 d (lookup_name bs stack name)]> T) h s2 /\ spares s1 O s2 /\
    exists cache, directory s2 p (set_fv_cls_cache cache d) l bs).
Proof.
  intros Hw Hp Hd Hq Hst Hn. pose proof (wk_fresh _ _ _ _ _ Hw q _ Hq) as Hqn.
  assert (q <> p) as Hqp by (intros ->; by apply (walk_apart _ _ _ _ _ _ Hw Hqn)).
  eapply wp_mono; [apply (wp_find_fresh tb s1 p d l bs q name stack); try done; [by eapply walk_ready|by eapply walk_lookup]|].
  intros r s2 (-> & cache & Hca & Hcl & Hs2). set (v := found_fv _ _ _ _) in *. set (d' := set_fv_cls_cache cache d) in *.
  pose proof (walk_temp _ _ _ _ _ q v Hw Hqn) as Hw1. set (s1' := set_fvs (<[q := v]> (fvs s1)) s1) in *.
  assert (directory s1' p d l bs) as Hd1 by (apply (walk_directory _ _ _ _ s1 _ _ _ _ _ Hw1 Hp); [done|cbn; by rewrite lookup_insert_ne|done]).
  assert (evolved s1' p l l s2 d' l bs) as He.
  { apply (evolved_cache s1' p d d'); [by eapply walk_ready|done|by apply recached_cache|]. cbn [fvs s1' set_fvs]. by rewrite insert_insert_ne in Hs2. }
  split; [done|]. pose proof Hs2 as (Ef & Ev & _ & Ek). split; [by split|]. split; [|split; [|split]].
  - intros p2 H1 H2. rewrite Ev. cbn. by rewrite !lookup_insert_ne.
  - apply (walk_evolved _ _ _ _ s1' p d l bs l s2 d' l bs); try done. by apply (sound_at s1' O p d l bs); [apply Hw1|..].
  - apply (spares_trans _ _ s1'); [|by eapply (spares_evolved s1' O p); [apply Hw1|..]].
    apply spares_same; [apply Hw|done|]. intros p2 Hp2. cbn. rewrite lookup_insert_ne; [done|]. intros ->. by apply (walk_apart _ _ _ _ _ _ Hw Hqn).
  - exists cache. apply He.
Qed.

Lemma wp_walk_delete s O T h s1 w q v :
  walk s O T h s1 -> T !! q = Some v -> fv_parent_vp v = None -> h !! FvLock q = None -> h !! CacheLock q = None ->
  wp (fat32_vnode_delete q) (s1, w) (okp (fun _ sw => snd sw = w /\ walk s O (delete q T) h (fst sw))).
Proof.
  intros Hw Hq Hpar H1 H2. pose proof (wk_held _ _ _ _ _ Hw) as Hh. pose proof (wk_fresh _ _ _ _ _ Hw q v Hq) as Hqn.
  eapply wp_mono; [apply (wp_vnode_delete s1 w q v); [by eapply walk_lookup|done|by rewrite Hh|by rewrite Hh]|].
  intros [[]| | | |] sw; try done. cbn [okp]. intros ->. split; [done|]. by apply walk_delete.
Qed.

Lemma wp_walk_drop {A} s O T h s1 w p q v mode e :
  walk s O T (<[FvLock p := mode]> h) s1 -> h !! FvLock p = None -> T !! q = Some v -> fv_parent_vp v = None ->
  h !! FvLock q = None -> h !! CacheLock q = None ->
  wp (drop_fv (A := A) p q e) (s1, w) (fun r sw => r = Err e /\ snd sw = w /\ walk s O (delete q T) h (fst sw)).
Proof.
  intros Hw Hl Hq Hpar H1 H2. unfold drop_fv. eapply wp_walk_unlock; [done|done|]. intros Hw2.
  eapply wp_call_ok; [by eapply wp_walk_delete|]. intros [] [s3 w3] [E Hw3]. cbn [fst snd] in E, Hw3. by apply wp_throw.
Qed.

(** The times and flags of a directory change. *)
Lemma walk_touch s O T h s1 p d d' :
  walk s O T h s1 -> p ∈ O -> fvs s1 !! p = Some d -> fv_type d' = fv_type d -> fv_cluster d' = fv_cluster d ->
  fv_cls_cache d' = fv_cls_cache d -> same_id d d' -> walk s O T h (set_fvs (<[p := d']> (fvs s1)) s1).
Proof.
  intros Hw Hp Hpd H1 H2 H3 Hid. destruct (so_dirs _ _ (wk_sound _ _ _ _ _ Hw) p Hp) as (d0 & l & bs & Hd & Hwf).
  assert (d0 = d) as -> by (rewrite (dir_fv _ _ _ _ _ Hd) in Hpd; by apply (inj Some) in Hpd).
  apply (walk_evolved _ _ _ _ s1 p d l bs l _ d' l bs); try done.
  apply (evolved_cache s1 p d d'); [by eapply walk_ready|done| |done].
  destruct (directory_recached _ _ _ _ _ Hd) as [? ? [? ?]]. constructor; [done|done|by rewrite H3].
Qed.

(** ** The entry of a creation *)

(** The directory gets new clusters. *)
Lemma walk_grown s O T h s1 p d l bs ext s2 :
  walk s O T h s1 -> p ∈ O -> directory s1 p d l bs -> clearable s1 -> grown s1 (fv_cluster d) l bs ext s2 ->
  addressable s1 (l ++ ext) -> walk s O T h s2 /\ directory s2 p d (l ++ ext) (longer s1 bs ext) /\ spares s1 O s2.
Proof.
  intros Hw Hp Hd Hcl Hg Ha. pose proof (walk_ready _ _ _ _ _ Hw) as Hr.
  pose proof (evolved_grown s1 p d l bs ext s2 Hr Hcl Hd Hg Ha) as He.
  split; [|split; [apply He|by eapply spares_evolved; [apply Hw|..]]].
  apply (walk_evolved _ _ _ _ s1 p d l bs (l ++ ext) s2 d (l ++ ext) (longer s1 bs ext)); try done.
  apply well_formed_longer; [by apply (dir_length_aligned s1 (fv_cluster d) l), (directory_at _ _ _ _ _ Hd)|].
  by apply (sound_at s1 O p d l bs); [apply Hw|..].
Qed.

(** Slots of the directory change, together with a temporary structure. *)
Lemma walk_entry s O T h s1 p d l bs q v' bs' s2 :
  walk s O T h s1 -> p ∈ O -> directory s1 p d l bs -> fvs s !! q = None ->
  dir_change (set_fvs (<[q := v']> (fvs s1)) s1) (fv_cluster d) l bs' s2 -> well_formed bs' ->
  walk s O (<[q := v']> T) h s2 /\ directory s2 p d l bs' /\ spares s1 O s2.
Proof.
  intros Hw Hp Hd Hq Hch Hwf. pose proof (walk_temp _ _ _ _ _ q v' Hw Hq) as Hw1. set (s1' := set_fvs _ s1) in *.
  assert (q <> p) as Hqp by (intros ->; by apply (walk_apart _ _ _ _ _ _ Hw Hq)).
  assert (directory s1' p d l bs) as Hd1 by (apply (walk_directory _ _ _ _ s1 _ _ _ _ _ Hw1 Hp); [done|cbn; by rewrite lookup_insert_ne|done]).
  pose proof (evolved_bytes s1' p d l bs bs' s2 (walk_ready _ _ _ _ _ Hw1) Hd1 Hch) as He.
  split; [|split; [apply He|eapply (spares_trans _ _ s1'); [|by eapply spares_evolved; [apply Hw1|..]]]].
  2:{ apply spares_same; [apply Hw|done|]. intros p2 Hp2. cbn. rewrite lookup_insert_ne; [done|]. intros ->. by apply (walk_apart _ _ _ _ _ _ Hw Hq). }
  by apply (walk_evolved _ _ _ _ s1' p d l bs l s2 d l bs').
Qed.

Lemma entry_wf bs name cluster v flags start now :
  well_formed bs -> Z.of_nat (length bs) mod 32 = 0 -> Z.of_nat (length bs) < 2 ^ 32 -> storable name -> attr_ok flags v ->
  slot_place bs (dirsz_of name) + 32 * dirsz_of name <= Z.of_nat (length bs) ->
  well_formed (with_entry bs (slot_place bs (dirsz_of name)) name (new_d83 cluster v name flags start now)).
Proof.
  intros Hwf Hal Hw Hst Ha Hroom. destruct (dirsz_bounds _ Hst). apply with_entry_wf; try done.
  - by apply new_d83_named.
  - by apply new_d83_size.
  - apply slot_place_free; [done|done|lia].
Qed.

(** What a creation in the directory [p] with the structure [q] leaves behind. *)
Definition entry_result s O T h w (p : nat) (d : fat32fs_vnode) (dvp q : nat) (v : fat32fs_vnode) (dir : bool)
    (r : res unit) (sw : st K * V) : Prop :=
  exists v', walk s O (<[q := v']> T) h (fst sw) /\ fvs (fst sw) !! p = Some d /\
    fv_magic v' = fv_magic v /\ fv_structsize v' = fv_structsize v /\
    match r with
    | Ok _ => exists vp, fv_vnode v' = Some vp /\ vnode_linked w vp q (Some dvp) (snd sw) /\
                (dir = true -> sound (fst sw) ({[q]} ∪ O))
    | Err _ => fv_parent_vp v' = fv_parent_vp v /\ layer_same w (snd sw)
    | _ => False
    end.

Lemma creating_walk s O T h s1 w p d dvp l bs q v name flags :
  walk s O T h s1 -> p ∈ O -> directory s1 p d l bs -> T !! q = Some v -> linked w p d dvp -> storable name ->
  flag flags FAT32_CRE_RENAME = false -> flag flags FAT32_CRE_REUSE = false -> h !! FvLock q = None ->
  Z.of_nat (length bs) + 32 * dirsz_of name + fsi_bytes_per_cluster (fsi s1) < 2 ^ 32 -> clearable s1 ->
  creating s1 w p d dvp l bs q v name flags.
Proof.
  intros Hw Hp Hd Hq Hli Hst Hf1 Hf2 Hl Hwd Hcl. constructor; try done.
  - by eapply walk_ready.
  - apply Hd.
  - exact (directory_at _ _ _ _ _ Hd).
  - by eapply walk_lookup.
  - intros ->. apply (walk_apart _ _ _ _ _ p Hw); [by eapply wk_fresh|done].
  - by rewrite (wk_held _ _ _ _ _ Hw).
  - intros ?. congruence.
  - unfold entry_start. by rewrite Hf1.
Qed.

(** A file. *)
Lemma wp_walk_create s O T h s1 w p d dvp l bs q v name :
  walk s O T h s1 -> p ∈ O -> directory s1 p d l bs -> T !! q = Some v -> creating s1 w p d dvp l bs q v name 0 ->
  wp (fat32_create_fdentry p q name 0) (s1, w) (entry_result s O T h w p d dvp q v false).
Proof.
  intros Hw Hp Hd Hq Hcr. pose proof (wk_fresh _ _ _ _ _ Hw q v Hq) as Hqn.
  eapply wp_mono; [apply (wp_create_grow s1 w p d dvp l bs q v name 0 Hcr); by right|].
  intros r [s2 w2] (ext & s0 & Hg & Ha & Hres).
  destruct (walk_grown _ _ _ _ _ _ _ _ _ _ _ Hw Hp Hd (cg_clear _ _ _ _ _ _ _ _ _ _ _ Hcr) Hg Ha) as (Hw0 & Hd0 & _).
  destruct Hres as [[Hpl (now & Hpost)]|[-> [= -> ->]]].
  - cbn zeta in Hpost. change (flag 0 FAT32_CRE_RENAME) with false in Hpost. cbn iota in Hpost.
    set (bs0 := longer s1 bs ext) in *. set (v1 := placed bs0 v name 0) in *.
    pose proof (dir_length_aligned _ _ _ _ (walk_ready _ _ _ _ _ Hw0) (directory_at _ _ _ _ _ Hd0)) as Hal.
    pose proof (entry_wf bs0 name (fv_cluster d) v1 0 (entry_start v 0) now (sound_at _ _ _ _ _ _ (wk_sound _ _ _ _ _ Hw0) Hp Hd0)
      Hal (dir_width _ _ _ _ _ Hd0) (pl_name _ _ _ _ _ _ _ _ _ _ _ Hpl)) as Hwf.
    specialize (Hwf ltac:(done) (pl_room _ _ _ _ _ _ _ _ _ _ _ Hpl)).
    destruct r as [[]|err| | |]; try done.
    + destruct Hpost as (vp & H4 & Hlk). destruct (walk_entry _ _ _ _ _ _ _ _ _ _ _ _ _ Hw0 Hp Hd0 Hqn H4 Hwf) as (Hw4 & Hd4 & _).
      eexists. split; [exact Hw4|]. split; [apply Hd4|]. destruct (made_vnode_id (fsi s0) 0 VREG vp (Some (dvp, fv_cluster d)) v1) as (-> & -> & E).
      split; [done|]. split; [done|]. by exists vp.
    + destruct Hpost as (-> & H4 & Hlk). destruct (walk_entry _ _ _ _ _ _ _ _ _ _ _ _ _ Hw0 Hp Hd0 Hqn H4 Hwf) as (Hw4 & Hd4 & _).
      exists v1. split; [exact Hw4|]. split; [apply Hd4|]. done.
  - exists (set_fv_dirsz (dirsz_of name) v). pose proof Hg as (_ & Ev & _). cbn [fst snd]. split; [rewrite <- Ev; by apply walk_temp|].
    split; [|done]. cbn. rewrite lookup_insert_ne; [apply Hd|]. intros ->. by apply (walk_apart _ _ _ _ _ _ Hw Hqn).
Qed.

(** A directory. *)
Lemma walk_subdir s O T h s1 p d l bs q v' v1 name n s2 :
  walk s O T h s1 -> p ∈ O -> directory s1 p d l bs -> fvs s !! q = None -> storable name ->
  fv_diroff v1 = slot_place bs (dirsz_of name) -> slot_place bs (dirsz_of name) + 32 * dirsz_of name <= Z.of_nat (length bs) ->
  subdir_fvs s1 d l bs v1 name n (<[q := v']> (fvs s1)) s2 ->
  walk s O (<[q := v']> T) h s2 /\ fvs s2 !! p = Some d /\
    (forall p2 d2 l2 bs2, p2 ∈ O -> directory s2 p2 d2 l2 bs2 -> l2 ## [n]).
Proof.
  intros Hw Hp Hd Hq Hst Eo Hroom (Hm & Hh & now & Hsub). pose proof (walk_temp _ _ _ _ _ q v' Hw Hq) as Hw1. set (s1' := set_fvs _ s1) in *.
  assert (q <> p) as Hqp by (intros ->; by apply (walk_apart _ _ _ _ _ _ Hw Hq)).
  assert (directory s1' p d l bs) as Hd1 by (apply (walk_directory _ _ _ _ s1 _ _ _ _ _ Hw1 Hp); [done|cbn; by rewrite lookup_insert_ne|done]).
  pose proof (walk_ready _ _ _ _ _ Hw1) as Hr1. pose proof (dir_width _ _ _ _ _ Hd1) as Hwd.
  pose proof (dir_length_aligned _ _ _ _ Hr1 (directory_at _ _ _ _ _ Hd1)) as Hal. destruct (dirsz_bounds _ Hst) as [Hz1 Hz2].
  destruct (slot_place_free bs (dirsz_of name)) as ([Hp0 _] & _); [done|done|lia|].
  assert (subdir_fvs s1' d l bs v1 name n (fvs s1') s2) as Hsub1.
  { split; [exact Hm|]. split; [exact Hh|]. exists now.
    assert (set_held (held s1) (set_fvs (fvs s1) s1') ≡ s1) as He by done.
    pose proof (subdir_rebase s1' _ _ s1 _ _ _ _ _ _ _ s2 (held s2) (fvs s2) He Hsub) as H. destruct s2. apply H. cbn in *. rewrite Hh. apply Hr1. }
  destruct (evolved_subdir s1' p d d l bs v1 name n (fvs s1') s2 Hr1 Hd1) as [now2 He]; try done.
  - by eapply directory_recached.
  - apply Hd1.
  - by rewrite Eo.
  - by rewrite Eo.
  - rewrite Eo in He.
    assert (walk s O (<[q := v']> T) h s2) as Hw2.
    { eapply (walk_evolved _ _ _ _ s1' p d l bs _ s2 d l _ Hw1 Hp Hd1); [done|exact He|].
      apply entry_wf; try done. by apply (sound_at s1' O p d l bs); [apply Hw1|..]. }
    split; [exact Hw2|]. split; [apply He|]. intros p2 d2 l2 bs2 Hp2 Hd2. destruct (decide (p2 = p)) as [->|Hne].
    + destruct (directory_fun _ _ _ _ _ _ _ _ (walk_ready _ _ _ _ _ Hw2) (ev_dir _ _ _ _ _ _ _ _ He) Hd2) as (_ & -> & _).
      destruct Hsub as [_ _ _ _ _ Hn _ _]. by intros x Hx ->%list_elem_of_singleton.
    + destruct (so_dirs _ _ (wk_sound _ _ _ _ _ Hw1) p2 Hp2) as (d3 & l3 & bs3 & Hd3 & _).
      assert (l3 ## l) as Hap by (by eapply (so_apart _ _ (wk_sound _ _ _ _ _ Hw1) p2 p)).
      destruct (evolved_other _ _ _ _ _ _ _ _ p2 d3 l3 bs3 He Hne Hd3 Hap) as [Hd3' _].
      destruct (directory_fun _ _ _ _ _ _ _ _ (walk_ready _ _ _ _ _ Hw2) Hd3' Hd2) as (_ & -> & _).
      destruct (ev_keeps _ _ _ _ _ _ _ _ He _ _ (proj1 (directory_at _ _ _ _ _ Hd3)) Hap) as [_ Hn].
      intros x Hx ->%list_elem_of_singleton. by apply (Hn n Hx), list_elem_of_here.
Qed.

Lemma made_vnode_place f c type vp parent v :
  fv_type (made_vnode f c type vp parent v) = type /\ fv_cluster (made_vnode f c type vp parent v) = c /\
  fv_cls_cache (made_vnode f c type vp parent v) = fv_cls_cache v.
Proof. unfold made_vnode. destruct parent as [[pvp pc]|], (_ && _); [..|]; try done; by destruct (fv_mode _ =? 0). Qed.

(** The new directory is open. *)
Lemma new_directory s1 d l bs v1 name n m s2 q v vp parent :
  ready s1 -> dir_at s1 (fv_cluster d) l bs -> subdir_fvs s1 d l bs v1 name n m s2 ->
  fvs s2 !! q = Some (made_vnode (allocated (fsi s1) n) n VDIR vp parent v) -> fv_cls_cache v = replicate 16 (0, 0) ->
  held s2 !! CacheLock q = None -> exists nd, directory s2 q (made_vnode (allocated (fsi s1) n) n VDIR vp parent v) [n] nd /\ well_formed nd.
Proof.
  intros Hr Hat (_ & _ & now & [_ Hr2 Hf _ [now2 [Hch Hc]] _ _ _]) Hv Hca Hl. set (u := made_vnode _ _ _ _ _ _) in *.
  destruct (made_vnode_place (allocated (fsi s1) n) n VDIR vp parent v) as (T1 & T2 & T3). fold u in T1, T2, T3.
  pose proof (ready_wf _ Hr) as Hwf. pose proof (bpc_eq _ Hwf) as [Hb Hb0].
  pose proof (chain_u32 _ _ _ Hr2 Hch) as Hn32. pose proof (chain_u32 _ _ _ Hr (proj1 Hat)) as Hc32.
  destruct (new_dir_slots (fsi s1) n (fv_cluster d) now2 Hwf Hn32 Hc32) as [Hln _].
  exists (new_dir (fsi s1) n (fv_cluster d) now2). split; [|by apply new_dir_wf]. constructor; try done; [|lia].
  split; [rewrite T3, Hca; apply cache_ok_zeros|]. split; [by rewrite T3, Hca|by rewrite T2].
Qed.

Lemma wp_walk_create_dir s O T h s1 w p d dvp l bs q v name :
  walk s O T h s1 -> p ∈ O -> directory s1 p d l bs -> T !! q = Some v -> creating s1 w p d dvp l bs q v name FAT32_CRE_DIR ->
  fv_cls_cache v = replicate 16 (0, 0) -> h !! CacheLock q = None ->
  wp (fat32_create_fdentry p q name FAT32_CRE_DIR) (s1, w) (entry_result s O T h w p d dvp q v true).
Proof.
  intros Hw Hp Hd Hq Hcr Hca Hl. pose proof (wk_fresh _ _ _ _ _ Hw q v Hq) as Hqn.
  pose proof (chain_u32 _ _ _ (walk_ready _ _ _ _ _ Hw) (proj1 (directory_at _ _ _ _ _ Hd))) as Hc32.
  eapply wp_mono; [by apply (wp_create_dir_grow s1 w p d dvp l bs q v name Hcr)|].
  intros r [s2 w2] (ext & s0 & Hg & Ha & Hres).
  destruct (walk_grown _ _ _ _ _ _ _ _ _ _ _ Hw Hp Hd (cg_clear _ _ _ _ _ _ _ _ _ _ _ Hcr) Hg Ha) as (Hw0 & Hd0 & _).
  assert (p <> q) as Hpq by (intros ->; by apply (walk_apart _ _ _ _ _ _ Hw Hqn)).
  destruct Hres as [[Hpl Hpost]|[-> [= -> ->]]].
  - unfold create_dir_post in Hpost. set (bs0 := longer s1 bs ext) in *. set (v1 := placed bs0 v name FAT32_CRE_DIR) in *.
    pose proof (fun v' n sx H => walk_subdir _ _ _ _ _ _ _ _ _ _ v' v1 name n sx Hw0 Hp Hd0 Hqn (pl_name _ _ _ _ _ _ _ _ _ _ _ Hpl)
      eq_refl (pl_room _ _ _ _ _ _ _ _ _ _ _ Hpl) H) as Hws.
    destruct r as [[]|err| | |]; try done.
    + destruct Hpost as (n & vp & Hlk & Hsub). destruct (Hws _ _ _ Hsub) as (Hw4 & Hp4 & Hap). eexists. split; [exact Hw4|]. split; [exact Hp4|].
      destruct (made_vnode_id (allocated (fsi s0) n) n VDIR vp (Some (dvp, fv_cluster d)) v1) as (-> & -> & E).
      split; [done|]. split; [done|]. exists vp. split; [done|]. split; [done|]. intros _. cbn [fst].
      destruct (new_directory s0 d (l ++ ext) bs0 v1 name n _ s2 q v1 vp (Some (dvp, fv_cluster d)) (walk_ready _ _ _ _ _ Hw0)
        (directory_at _ _ _ _ _ Hd0) Hsub) as (nd & Hnd & Hwf); [|done| |].
      * eapply walk_lookup; [exact Hw4|apply lookup_insert_eq].
      * cbn [fst] in Hw4. by rewrite (wk_held _ _ _ _ _ Hw4).
      * eapply sound_open; [apply Hw4|exact Hnd|done|exact Hap].
    + destruct Hpost as [(-> & Ew & Hs)|(-> & Hlw & n & Hsub)]; cbn [fst snd] in *.
      * pose proof (walk_temp _ _ _ _ _ q v1 Hw0 Hqn) as Hw1. exists v1. split; [by eapply walk_equiv|]. destruct Hs as (_ & Ev & _).
        cbn [fvs set_fvs] in Ev. split; [cbn [fst]; rewrite Ev, lookup_insert_ne by done; apply Hd0|]. do 3 (split; [done|]). by rewrite Ew.
      * destruct (Hws _ _ _ Hsub) as (Hw4 & Hp4 & _). exists v1. by split_and!.
  - exists (set_fv_dirsz (dirsz_of name) v). pose proof Hg as (_ & Ev & _). cbn [fst snd]. split; [rewrite <- Ev; by apply walk_temp|].
    split; [|done]. cbn. rewrite lookup_insert_ne by done. apply Hd.
Qed.

(** ** [fat32_create] and [fat32_mkdir] *)

(** An operation is called with the open directory at [p]. *)
Record here s w O (p : nat) (d : fat32fs_vnode) (dvp : nat) (l bs : list Z) : Prop := {
  hr_in : p ∈ O;
  hr_dir : directory s p d l bs;
  hr_lock : held s !! FvLock p = None;
  hr_live : locks_live s;
  hr_linked : linked w p d dvp
}.

(** A name can be entered into it. *)
Record enterable s (bs name stack : list Z) : Prop := {
  et_stack : length stack = 256%nat;
  et_name : storable name;
  et_width : Z.of_nat (length bs) + 32 * dirsz_of name + fsi_bytes_per_cluster (fsi s) < 2 ^ 32;
  et_clear : clearable s
}.

(** A new directory is the structure of the vnode that is returned. *)
Definition made s w O (dir : bool) (r : res nat) (sw : st K * V) : Prop :=
  outcome s w O (fst sw) (snd sw) /\
  match r with
  | Ok vp => dir = true -> exists q, first_bhv (snd sw) vp = Some q /\ sound (fst sw) ({[q]} ∪ O)
  | Err _ => True
  | _ => False
  end.

(** The state behind the search, in the locked directory. *)
Record in_dir s w O (p : nat) (d : fat32fs_vnode) (l bs : list Z) (q : nat) (v : fat32fs_vnode) w0 s1 : Prop := {
  id_walk : walk s O {[q := v]} (<[FvLock p := MrUpdate]> (held s)) s1;
  id_layer : layer_same w w0;
  id_dir : exists cache, directory s1 p (set_fv_cls_cache cache d) l bs;
  id_fv : valid_fv v /\ fv_parent_vp v = None /\ fv_cls_cache v = replicate 16 (0, 0);
  id_volume : same_volume s s1
}.

(** The vnode is made: the times are set and the directory is unlocked. *)
Lemma wp_walk_finish s w O p d q v vp s1 w1 dir :
  walk s O {[q := v]} (<[FvLock p := MrUpdate]> (held s)) s1 -> p ∈ O -> fvs s1 !! p = Some d -> held s !! FvLock p = None ->
  valid_fv v -> fv_vnode v = Some vp -> vnode_linked w vp q (fv_vnode d) w1 ->
  (dir = true -> sound s1 ({[q]} ∪ O)) ->
  wp (do* (do* lift (fat32_touch q 0) in lift (fat32_touch p FV_MTIME_DIRTY)) in
      do* lift (mrunlock (FvLock p)) in
      let* v := lift (get_fv q) in of_opt (fv_vnode v)) (s1, w1) (made s w O dir).
Proof.
  intros Hw Hp Hpd Hl Hval Hvp Hlk Hdir. pose proof (walk_lookup _ _ _ _ _ _ _ Hw (lookup_singleton_eq q v)) as Hq.
  pose proof (wk_fresh _ _ _ _ _ Hw q v (lookup_singleton_eq q v)) as Hqn.
  assert (q <> p) as Hqp by (intros ->; by apply (walk_apart _ _ _ _ _ _ Hw Hqn)).
  eapply wp_mono; [apply (wp_touch_finish s1 w1 p q d v vp (held s)); try done; apply Hw|].
  intros [r| | | |] [s4 w4]; try done. cbn [okp fst snd]. intros (-> & -> & now & now' & H4).
  set (s2 := set_fvs (<[q := touched now v]> (fvs s1)) s1).
  assert (forall s0 O' T h, p ∈ O' -> walk s0 O' T h s2 ->
    (forall l0, (forall p0, l0 <> FvLock p0) -> held s !! l0 = h !! l0) -> walk s0 O' T (held s) s4) as Hend.
  { intros s0 O' T h Hp' Hw1 Hh. apply (walk_equiv _ _ _ _ _ _ (walk_held _ _ _ _ _ _ (walk_touch _ _ _ _ s2 p d (modified now' d) Hw1 Hp'
      ltac:(cbn; by rewrite lookup_insert_ne) eq_refl eq_refl eq_refl ltac:(done)) Hh)). exact H4. }
  split.
  - apply (out_new _ _ _ _ _ q (touched now v) vp (fv_vnode d)); [|exact Hlk|exact Hval|exact Hvp].
    eapply Hend; [exact Hp|rewrite <- (insert_singleton_eq q (touched now v) v); by apply walk_temp|]. intros l0 Hl0. by rewrite lookup_insert_ne.
  - intros E. exists q. cbn [fst snd]. split; [apply Hlk|]. pose proof (walk_start _ _ (Hdir E)) as Hw1.
    eapply (wk_sound s1 _ ∅ (held s)), (Hend s1 _ _ (held s1)).
    + set_solver.
    + apply (walk_touch _ _ _ _ s1 q v); try done. set_solver.
    + intros l0 Hl0. rewrite (wk_held _ _ _ _ _ Hw). by rewrite lookup_insert_ne.
Qed.

(** The temporary structure is freed: nothing is left of the operation. *)
Lemma wp_walk_fails {A} s w O p q v e s1 w1 :
  walk s O {[q := v]} (<[FvLock p := MrUpdate]> (held s)) s1 -> held s !! FvLock p = None -> locks_live s -> fv_parent_vp v = None ->
  layer_same w w1 ->
  wp (drop_fv (A := A) p q e) (s1, w1) (fun r sw => r = Err e /\ outcome s w O (fst sw) (snd sw)).
Proof.
  intros Hw Hl Hlv Hpar Hlw. pose proof (wk_fresh _ _ _ _ _ Hw q v (lookup_singleton_eq q v)) as Hqn. destruct (Hlv q Hqn) as [H1 H2].
  eapply wp_mono; [eapply (wp_walk_drop s O {[q := v]} (held s)); [exact Hw|done|apply lookup_singleton_eq|done..]|].
  intros r [s2 w2] (-> & E & Hw2). cbn [fst snd] in *. subst w2. split; [done|]. rewrite delete_singleton_eq in Hw2.
  apply out_same; [done|]. intros vp. by apply Hlw.
Qed.

Lemma wp_walk_create_new s w O p d dvp l bs name stack vap flags q w0 s1 :
  sound s O -> here s w O p d dvp l bs -> enterable s bs name stack -> flags = 0 \/ flags = FAT32_CRE_DIR ->
  in_dir s w O p d l bs q (found_fv tb s d None) w0 s1 ->
  wp (create_new p q name vap flags) (s1, w0) (made s w O (flag flags FAT32_CRE_DIR)).
Proof.
  intros Hs [Hp Hd Hl Hlv [L1 L2 L3]] [Hstk Hst Hwd Hcl] Hfl [Hw Hlw [cache Hd1] (Hval & Hpar & Hca) Hvol].
  set (v0 := found_fv tb s d None) in *. set (d1 := set_fv_cls_cache cache d) in *. set (h := <[FvLock p := MrUpdate]> (held s)) in *.
  pose proof (wk_fresh _ _ _ _ _ Hw q v0 (lookup_singleton_eq q v0)) as Hqn. destruct (Hlv q Hqn) as [Hq1 Hq2].
  assert (q <> p) as Hqp by (intros ->; by apply (walk_apart _ _ _ _ _ _ Hw Hqn)).
  unfold create_new. eapply wp_lift_call; [apply (wp_upd_fv _ _ v0); eapply walk_lookup; [exact Hw|apply lookup_singleton_eq]|].
  intros [] ? ->. set (v := set_fv_mode (va_mode vap) v0). pose proof (walk_temp _ _ _ _ _ q v Hw Hqn) as Hw2.
  rewrite insert_singleton_eq in Hw2. set (s2 := set_fvs _ s1) in *.
  assert (directory s2 p d1 l bs) as Hd2 by (apply (walk_directory _ _ _ _ s1 _ _ _ _ _ Hw2 Hp); [done|cbn; by rewrite lookup_insert_ne|done]).
  assert (creating s2 w0 p d1 dvp l bs q v name flags) as Hcr.
  { apply (creating_walk s O {[q := v]} h); try done; [apply lookup_singleton_eq|split; [done|by rewrite (proj2 (Hlw dvp))|by rewrite (proj1 (Hlw dvp))]
      |by destruct Hfl as [-> | ->]|by destruct Hfl as [-> | ->]|unfold h; by rewrite lookup_insert_ne by congruence|..].
    - change (fsi s2) with (fsi s1). by rewrite (proj1 Hvol).
    - apply (clearable_same s); [apply Hvol|apply Hvol|done]. }
  apply wp_bind, wp_try. eapply (wp_mono _ _ (entry_result s O {[q := v]} h w0 p d1 dvp q v (flag flags FAT32_CRE_DIR))).
  { destruct Hfl as [-> | ->]; [by eapply wp_walk_create; [..|apply lookup_singleton_eq|]|].
    eapply wp_walk_create_dir; try done; [apply lookup_singleton_eq|unfold h; by rewrite lookup_insert_ne]. }
  intros r [s3 w3] (v' & Hw3 & Hp3 & E1 & E2 & Hr). rewrite insert_singleton_eq in Hw3. cbn [fst snd] in *.
  destruct r as [[]|err| | |]; try done; cbn [wpk].
  - destruct Hr as (vp & Hvp & Hlk & Hdir). apply (wp_walk_finish s w O p d1 q v' vp); try done.
    change (fv_vnode d1) with (fv_vnode d). rewrite L1. by eapply vnode_linked_layer.
  - destruct Hr as [Hpar' Hlw3]. apply wp_bind, wp_ret. cbn [wpk].
    eapply wp_mono; [apply (wp_walk_fails s w O p q v' err s3 w3); try done; by etrans|]. by intros r sw [-> H].
Qed.

(** Without the right to write nothing happens. *)
Lemma wp_refused s p d cr :
  fvs s !! p = Some d -> fat32_faccess (fsi s) d (Z.lor VWRITE VEXEC) cr <> 0 ->
  wp (dir_writable p cr) s (fun r s' => r = Err (fat32_faccess (fsi s) d (Z.lor VWRITE VEXEC) cr) /\ s' = s).
Proof.
  intros Hp Hacc. unfold dir_writable. repeat wp_step. eapply wp_call_ok; [by apply wp_get_fv|]. intros ? ? [-> ->].
  rewrite (proj2 (Z.eqb_neq _ _) Hacc). cbn [negb]. by apply wp_throw.
Qed.

Lemma outcome_refl s w O : sound s O -> outcome s w O s w.
Proof. intros Hs. apply out_same; [by apply walk_start|done]. Qed.

(** The common start: the rights, a new structure, the lock and the search. *)
Lemma wp_walk_enter {A} s w O p d dvp l bs name stack cr (k : nat -> Z + unit -> M (st K * V) A) Q :
  sound s O -> here s w O p d dvp l bs -> length stack = 256%nat -> (length name <= 255)%nat ->
  (forall e, Q (Err e) (s, w)) ->
  (forall q s1 w0, fat32_faccess (fsi s) d (Z.lor VWRITE VEXEC) cr = 0 ->
     in_dir s w O p d l bs q (found_fv tb s d (lookup_name bs stack name)) w0 s1 ->
     wp (k q (search_result (lookup_name bs stack name))) (s1, w0) Q) ->
  wp (do* lift (dir_writable p cr) in
      let* o := fat32_vnode_new in
      match o with
      | None => throw ENOMEM
      | Some fv => do* lift (mrupdate (FvLock p)) in
                   let* r := try (lift (fat32_find_dirent tb p name stack (Some fv))) in k fv r
      end) (s, w) Q.
Proof.
  intros Hs [Hp Hd Hl Hlv Hli] Hstk Hn Hrefused Hk. pose proof (dir_fv _ _ _ _ _ Hd) as Hpd.
  destruct (decide (fat32_faccess (fsi s) d (Z.lor VWRITE VEXEC) cr = 0)) as [Hacc|Hacc].
  2:{ apply wp_bind, wp_lift. eapply wp_mono; [by apply (wp_refused _ _ d)|]. intros ? ? [-> ->]. apply Hrefused. }
  eapply wp_lift_call; [by apply (wp_dir_writable _ _ d)|]. intros [] ? ->.
  apply (wp_walk_new s O ∅ (held s)); [by apply walk_start|]. intros q w0 Hqn _ Hlw. cbn zeta. rewrite insert_empty. intros Hw0.
  assert (q <> p) as Hqp by (intros ->; by apply (walk_apart _ _ _ _ _ _ Hw0 Hqn)).
  apply (wp_walk_lock _ _ _ _ _ _ _ _ _ _ Hw0 Hl). intros Hw1. set (s1 := set_held _ _) in *.
  assert (directory s1 p d l bs) as Hd1 by (apply (walk_directory _ _ _ _ s _ _ _ _ _ Hw1 Hp); [done|cbn; by rewrite lookup_insert_ne|done]).
  apply wp_bind, wp_try, wp_lift. eapply wp_mono; [by apply (wp_walk_find s O _ _ s1 p d l bs q name stack Hw1 Hp Hd1); [apply lookup_singleton_eq|..]|].
  intros r s2 (-> & Hvol & _ & Hw2 & _ & Hd2). rewrite insert_singleton_eq in Hw2.
  specialize (Hk q s2 w0 Hacc). destruct (lookup_name bs stack name) as [found|]; cbn [wpk search_result] in *; apply Hk; constructor; try done; by destruct found.
Qed.

(** [fat32_create] of a name that is not there, or without the right to write. *)
Lemma wp_create_any s w O p d dvp l bs name stack cr vap excl mode :
  sound s O -> here s w O p d dvp l bs -> enterable s bs name stack ->
  lookup_name bs stack name = None \/ fat32_faccess (fsi s) d (Z.lor VWRITE VEXEC) cr <> 0 ->
  wp (fat32_create tb p name vap excl mode cr stack) (s, w) (made s w O false).
Proof.
  intros Hs Hh He Hnone. pose proof (hr_dir _ _ _ _ _ _ _ _ Hh) as Hd. pose proof He as [Hstk Hst _ _].
  unfold fat32_create. eapply wp_lift_call; [by apply wp_get_fv, Hd|]. intros ? ? [-> ->].
  rewrite bool_decide_true by (by destruct Hd). cbn [negb].
  apply (wp_walk_enter s w O p d dvp l bs name stack cr (fun fv r => match r with
    | inr _ => create_existing p fv vap excl mode cr
    | inl error => if negb (error =? ENOENT) then drop_fv p fv error else create_new p fv name vap 0 end)); try done; [apply Hst| |].
  - intros e. split; [by apply outcome_refl|done].
  - intros q s1 w0 Hacc Hin. destruct Hnone as [Hnone|Hne]; [|done]. rewrite Hnone in *. cbn [search_result].
    change (negb (ENOENT =? ENOENT)) with false. cbn iota. eapply (wp_walk_create_new s w O p d dvp l bs name stack vap 0); try done. by left.
Qed.

(** [fat32_mkdir] of any name. *)
Lemma wp_mkdir_any s w O p d dvp l bs name stack cr vap :
  sound s O -> here s w O p d dvp l bs -> enterable s bs name stack ->
  wp (fat32_mkdir tb p name vap cr stack) (s, w) (made s w O true).
Proof.
  intros Hs Hh He. pose proof (hr_dir _ _ _ _ _ _ _ _ Hh) as Hd. pose proof He as [Hstk Hst _ _].
  unfold fat32_mkdir. eapply wp_lift_call; [by apply wp_get_fv, Hd|]. intros ? ? [-> ->].
  rewrite bool_decide_true by (by destruct Hd). cbn [negb].
  apply (wp_walk_enter s w O p d dvp l bs name stack cr (fun fv r => match r with
    | inr _ => let* v := lift (get_fv fv) in drop_fv p fv (if bool_decide (fv_type v = VDIR) then EEXIST else ENOTDIR)
    | inl error => if negb (error =? ENOENT) then drop_fv p fv error else create_new p fv name vap FAT32_CRE_DIR end)); try done; [apply Hst| |].
  - intros e. split; [by apply outcome_refl|done].
  - intros q s1 w0 Hacc Hin. destruct (lookup_name bs stack name) as [found|] eqn:Hf; cbn [search_result].
    + pose proof Hin as [Hw Hlw _ (_ & Hpar & _) _].
      eapply wp_lift_call; [apply wp_get_fv; eapply walk_lookup; [exact Hw|apply lookup_singleton_eq]|]. intros ? ? [-> ->].
      eapply wp_mono; [by apply (wp_walk_fails s w O p q _ _ s1 w0 Hw); [apply Hh|apply Hh|..]|]. by intros r sw [-> H].
    + change (negb (ENOENT =? ENOENT)) with false. cbn iota.
      eapply (wp_walk_create_new s w O p d dvp l bs name stack vap FAT32_CRE_DIR); try done. by right.
Qed.

(** [fat32_lookup] of "." and "..": only reference counts change. *)
Lemma wp_lookup_dots s w O p d dvp l bs name stack :
  sound s O -> here s w O p d dvp l bs -> name = dot \/ name = dotdot ->
  wp (fat32_lookup tb p name stack) (s, w) (fun r sw => fst sw = s /\ outcome s w O (fst sw) (snd sw) /\
    match r with Ok _ | Err _ => True | _ => False end).
Proof.
  intros Hs [Hp Hd Hl Hlv [L1 L2 L3]] Hname. unfold fat32_lookup. eapply wp_lift_call; [by apply wp_get_fv, Hd|]. intros ? ? [-> ->].
  rewrite bool_decide_true by (by destruct Hd). cbn [negb].
  assert (forall vp, outcome s w O s (vn_hold vp w)) as Hhold.
  { intros vp. apply out_same; [by apply walk_start|]. intros q. destruct (vn_hold_ok vp w) as (_ & H2 & H3).
    destruct (decide (q = vp)) as [->|Hne]; [exact H2|by apply H3]. }
  destruct Hname as [-> | ->].
  - rewrite bool_decide_true by done. rewrite L1. cbn [of_opt]. unfold vn_op. repeat wp_step. split; [done|]. split; [apply Hhold|done].
  - rewrite bool_decide_false, bool_decide_true by done. destruct (flag (fv_flags d) FV_ROOT).
    { apply wp_ret. split; [done|]. split; [by apply outcome_refl|done]. }
    destruct (fv_parent_vp d) as [vp|].
    + unfold vn_op. repeat wp_step. split; [done|]. split; [apply Hhold|done].
    + apply wp_throw. split; [done|]. split; [by apply outcome_refl|done].
Qed.

End walk.
