(* ===== verification/WalkRename.v ===== *)
(** * Renames between open directories, whatever their results

    [fat32_rename] within a directory and from one to another: of a name that is
    not there, to a name that is, with room in the target directory, with
    clusters that are added to it, and without space for them.  A rename that
    returns, with or without an error, leaves the open directories well formed. *)
From S2P Require Import Prelude Layout Time Names Kernel Device Cls Fat Demo Alloc Chain Free Cache File Truncate Access Io IoSpec WriteSpec Dir DirSpec LfnSpec Vnode Nameops Vnops Listing Remove VnodeSpec VnopsSpec DirDemo AttrSpec Slots Insert CreateSpec RenameSpec MkdirSpec Grow MoveSpec Integrity IntegritySpec OpenDirs WalkOps.

(** ** Clearing after a deletion *)

Section clearing.
Context {K : Type} `{!Kernel K, !KernelLaws K}.
Implicit Types s : st K.

(** The clusters can be read and cleared; with clusters of more than one block
    the blocks of a readable chunk can be read, too. *)
Record clearing s : Prop := {
  cl_readable : data_readable s;
  cl_chunks : fsi_sectors_per_cluster (fsi s) = 1 \/
    coherent (K := K) /\ forall (k : K) b n i, is_Some (view k b n) -> 0 <= i < n -> is_Some (view k (b + i) 1)
}.

Lemma clearing_clearable s : clearing s -> clearable s.
Proof.
  intros [Hd Hc]. split; [|by destruct Hc as [?|[? _]]; [left|right]]. intros x i Hx Hi. specialize (Hd x Hx). unfold cluster_bytes in Hd.
  destruct Hc as [H1|[_ Hc]]; [|by apply (Hc _ _ _ i) in Hd]. rewrite H1 in *. replace i with 0 by lia. by rewrite Z.add_0_r.
Qed.

Lemma clearing_same s s' : same_volume s s' -> clearing s -> clearing s'.
Proof.
  intros [Ef Ek] [Hd Hc]. split; [|by rewrite Ef]. intros x Hx. rewrite Ef in Hx. unfold cluster_bytes. rewrite Ef, Ek. by apply Hd.
Qed.

Lemma clearing_change s c l bs' s' : clearing s -> dir_change s c l bs' s' -> clearing s'.
Proof.
  intros [Hd Hc] (_ & Ef & _ & _ & [_ (ds & Hcs & _)] & _ & Hdk). split; [|by rewrite Ef]. intros x Hx.
  destruct (decide (x ∈ l)) as [Hin|Hin].
  - apply list_elem_of_lookup in Hin as [i Hi]. destruct (Forall2_lookup_l _ _ _ _ _ Hcs Hi) as (b & _ & Hb). by rewrite Hb.
  - rewrite Ef in Hx. unfold cluster_bytes. rewrite Ef, Hdk by done. by apply Hd.
Qed.

End clearing.

(** ** The entry that is renamed *)

Section source.
Context {K V : Type} `{!Kernel K, !KernelLaws K, !Vnodes V, !VnodesLaws V}.
Context (tb : Z).
Implicit Types (s : st K) (w : V) (O : gset nat) (T : gmap nat fat32fs_vnode) (h : gmap lock lkmode).

(** What the first search leaves in [v]. *)
Record source (bs : list Z) (v : fat32fs_vnode) (x : scan) : Prop := {
  sr_attr : is_byte (fv_attr v) /\ flag (fv_attr v) FAT32_ATTR_VOLUME_ID = false;
  sr_cluster : 0 <= fv_cluster v < 2 ^ 32;
  sr_old : 0 <= fv_diroff v /\ fv_diroff v mod 32 = 0 /\ 1 <= fv_dirsz v /\ fv_diroff v + 32 * fv_dirsz v <= Z.of_nat (length bs);
  sr_place : fv_diroff v = entry_start_offset x /\ entry_start_offset x + 32 * fv_dirsz v = current_offset x + 32;
  sr_cut : cuttable (slot_list bs) x
}.

Lemma source_found s d l bs stack name x e :
  ready s -> dir_at s (fv_cluster d) l bs -> Z.of_nat (length bs) < 2 ^ 32 -> well_formed bs -> length stack = 256%nat ->
  lookup_name bs stack name = Some (x, e) -> source bs (found_fv tb s d (Some (x, e))) x.
Proof.
  intros Hr Hat Hw Hwf Hst Hf. pose proof (dir_length_aligned _ _ _ _ Hr Hat) as Hal.
  destruct (lookup_name_place bs stack name x e Hal Hw Hst Hf) as ([Hx1 Hx2] & Hx3 & Hpl & Hx5 & Hx6).
  destruct (lookup_name_attr bs stack name x e) as [Ha1 Ha2]; [by eapply contents_bytes; apply Hat|lia|done|done|].
  constructor; try done; [apply u32_range|cbn; lia|by eapply lookup_name_cuttable].
Qed.

(** Its old slots are deleted. *)
Lemma wp_walk_old_deleted s O T h s1 p d l bs v x :
  walk s O T h s1 -> p ∈ O -> directory s1 p d l bs -> source bs v x -> clearing s1 ->
  wp (fat32_delete_fdentry_chain (fv_cluster d) (fv_diroff v) (fv_dirsz v)) s1 (okp (fun _ s2 =>
    walk s O T h s2 /\ directory s2 p d l (old_deleted bs v) /\ fvs s2 = fvs s1 /\ fsi s2 = fsi s1 /\ clearing s2 /\ spares s1 O s2 /\
    forall q d2 l2 bs2, q ∈ O -> q <> p -> directory s1 q d2 l2 bs2 -> directory s2 q d2 l2 bs2)).
Proof.
  intros Hw Hp Hd [_ _ (H0 & Hal & H1 & Hend) [E1 E2] Hcut] Hcl. pose proof (walk_ready _ _ _ _ _ Hw) as Hr.
  pose proof (directory_at _ _ _ _ _ Hd) as Hat. pose proof (wk_sound _ _ _ _ _ Hw) as Hs.
  eapply wp_mono; [by apply (wp_delete_chain s1 (fv_cluster d) l bs (fv_diroff v) (fv_dirsz v)); try done; lia|].
  intros r s2. cbn beta. rewrite !decide_True by lia. intros [-> Hch]. cbn [okp]. fold (old_deleted bs v) in Hch.
  pose proof (evolved_bytes s1 p d l bs _ s2 Hr Hd Hch) as He. split.
  { eapply (walk_evolved _ _ _ _ s1 p d l bs l s2 d l _ Hw Hp Hd); [done|exact He|].
    unfold old_deleted. rewrite E1. apply mark_deleted_wf; [by apply (sound_at s1 O p d l bs)|done|lia]. }
  split; [apply He|]. split; [apply Hch|]. split; [apply Hch|]. split; [by eapply clearing_change|].
  split; [by eapply (spares_evolved s1 O p)|]. intros q d2 l2 bs2 Hq Hne Hd2.
  destruct (evolved_other _ _ _ _ _ _ _ _ q d2 l2 bs2 He Hne Hd2) as [H _]; [|done]. by eapply (so_apart _ _ Hs q p).
Qed.

End source.

(** ** The target of a rename *)

Section target.
Context {K V : Type} `{!Kernel K, !KernelLaws K, !Vnodes V, !VnodesLaws V}.
Context (tb : Z).
Implicit Types (s : st K) (w : V) (O : gset nat) (T : gmap nat fat32fs_vnode) (h : gmap lock lkmode).

(** The removal of the target asks for the lock that the rename holds: it ends
    with an error before that or waits for ever. *)
Lemma wp_target_locked s w p d name dir cr stack :
  not_granted (K := K) MrUpdate -> held s !! FvLock p = Some MrUpdate -> fvs s !! p = Some d ->
  wp (fat32_remove_common tb p name dir None cr stack) (s, w) (fun r sw =>
    match r with Err _ => sw = (s, w) | Blocked => True | _ => False end).
Proof.
  intros Hng Hl Hd. unfold fat32_remove_common. destruct (_ || _); [by apply wp_throw|].
  destruct (decide (fat32_faccess (fsi s) d (Z.lor VWRITE VEXEC) cr = 0)) as [Hacc|Hacc].
  2:{ apply wp_bind, wp_lift. eapply wp_mono; [by apply (wp_refused _ _ d)|]. by intros ? ? [-> ->]. }
  eapply wp_lift_call; [by apply (wp_dir_writable _ _ d)|]. intros [] ? ->.
  eapply wp_call_ok; [apply wp_vnode_new|]. intros ? [s1 w1] (q & -> & Hq & E & _). cbn [fst snd] in E. subst s1.
  apply wp_bind, wp_lift. eapply wp_mono; [by apply (wp_lock_blocks _ _ MrUpdate)|]. by intros ? ? [-> _].
Qed.

(** A directory that is the target of a rename can be read. *)
Definition target_readable s (bs name stack : list Z) : Prop := forall y e,
  lookup_name bs stack name = Some (y, e) -> flag (nth 0 (get83 e D83.attr) 0) FAT32_ATTR_DIRECTORY = true ->
  first_cluster e = 0 \/ exists l tbs, dir_at s (first_cluster e) l tbs.

Lemma found_file_ok s d y e l :
  first_cluster e = 0 /\ l = [] \/ file_chain s (first_cluster e) l -> file_ok s (found_fv tb s d (Some (y, e))) l.
Proof.
  intros H. split; [apply cache_ok_zeros|]. split; [done|]. destruct H as [[H ->]|H]; [exact H|]. by destruct (chain_head _ _ _ _ H) as [l' ->].
Qed.

Lemma wp_target_empty s q d y e :
  ready s -> fvs s !! q = Some (found_fv tb s d (Some (y, e))) -> fv_type (found_fv tb s d (Some (y, e))) = VDIR ->
  (first_cluster e = 0 \/ exists l tbs, dir_at s (first_cluster e) l tbs) ->
  wp (fat32_dirempty q) s (okp (fun _ s' => s ≡ s')).
Proof.
  intros Hr Hq Hty [H0|(l & tbs & Hch & Hc)].
  - eapply wp_mono; [apply (wp_dirempty s q _ [] [] Hr Hq Hty); [apply found_file_ok; by left|by exists []]|]. intros [r| | | |] s'; try done. by intros [? _].
  - eapply wp_mono; [apply (wp_dirempty s q _ l tbs Hr Hq Hty); [apply found_file_ok; by right|done]|]. intros [r| | | |] s'; try done. by intros [? _].
Qed.

(** What [rename_target] does: the search, and an error if it finds the name. *)
Definition target_result s O T h w s1 p d l bs q (absent : Prop) (r : res unit) (sw : st K * V) : Prop :=
  match r with
  | Ok _ => absent /\ snd sw = w /\ same_volume s1 (fst sw) /\ walk s O (<[q := found_fv tb s1 d None]> T) h (fst sw) /\
      spares s1 O (fst sw) /\
      (exists cache, directory (fst sw) p (set_fv_cls_cache cache d) l bs) /\
      (forall p2, p2 <> p -> p2 <> q -> fvs (fst sw) !! p2 = fvs s1 !! p2)
  | Err _ => exists t, fv_parent_vp t = None /\ walk s O (<[q := t]> T) h (fst sw) /\ snd sw = w
  | Blocked => True
  | _ => False
  end.

Lemma wp_walk_target s O T h s1 w p d l bs fv v q tnm cr st1 st2 :
  not_granted (K := K) MrUpdate ->
  walk s O T h s1 -> p ∈ O -> directory s1 p d l bs -> h !! FvLock p = Some MrUpdate ->
  T !! fv = Some v -> T !! q = Some (fresh_fv (fsi s1)) -> fv <> q -> length st1 = 256%nat -> (length tnm <= 255)%nat ->
  target_readable s1 bs tnm st1 ->
  wp (rename_target tb p fv q tnm cr st1 st2) (s1, w) (target_result s O T h w s1 p d l bs q (lookup_name bs st1 tnm = None)).
Proof.
  intros Hng Hw Hp Hd Hl Hv Hq Hne Hst Hn Htr. unfold rename_target. apply wp_bind, wp_try, wp_lift.
  eapply wp_mono; [by apply (wp_walk_find tb s O T h s1 p d l bs q tnm st1)|].
  intros r s2 (-> & Hvol & Hoth & Hw2 & Hsp & cache & Hd2). destruct (lookup_name bs st1 tnm) as [[y e]|] eqn:Hf; cbn [wpk].
  2:{ change (negb (ENOENT =? ENOENT)) with false. apply wp_ret. do 5 (split; [done|]). split; [by exists cache|done]. }
  set (t := found_fv tb s1 d (Some (y, e))) in *.
  assert (fvs s2 !! fv = Some v) as Hfv by (eapply walk_lookup; [exact Hw2|by rewrite lookup_insert_ne]).
  assert (fvs s2 !! q = Some t) as Ht by (eapply walk_lookup; [exact Hw2|apply lookup_insert_eq]).
  assert (forall e' s3, s2 ≡ s3 -> target_result s O T h w s1 p d l bs q False (Err e') (s3, w)) as Herr.
  { intros e' s3 Hs3. exists t. split; [done|]. split; [by eapply walk_equiv|done]. }
  eapply wp_lift_call; [by apply wp_get_fv|]. intros ? ? [-> ->]. eapply wp_lift_call; [by apply wp_get_fv|]. intros ? ? [-> ->].
  eapply (wp_call _ _ _ (fun r sw => snd sw = w /\ s2 ≡ fst sw /\ match r with Ok _ | Err _ => True | _ => False end)).
  { destruct (bool_decide (fv_type t = VDIR)) eqn:Hty; [|destruct (bool_decide (fv_type v = VDIR)); [by apply wp_throw|by apply wp_ret]].
    apply bool_decide_eq_true in Hty. destruct (negb _); [by apply wp_throw|].
    assert (t = found_fv tb s2 d (Some (y, e))) as Et by (unfold t, found_fv; by rewrite (proj1 Hvol)).
    eapply wp_lift_call.
    - apply (wp_target_empty s2 q d y e); [by eapply walk_ready|by rewrite <- Et|by rewrite <- Et|].
      destruct (Htr y e Hf) as [H0|(lt & tbs & Hat)]; [|by left|right; exists lt, tbs; by apply (same_volume_dir s1 s2)].
      unfold t in Hty. cbn in Hty. by destruct (flag _ FAT32_ATTR_DIRECTORY).
    - intros a s3 Hs3. destruct (a =? 0); [by apply wp_throw|by apply wp_ret]. }
  intros [[]|e'| | |] [s3 w3] (E & Hs3 & Hres); try done; cbn [fst snd wpk] in *; subst w3; [|exact (Herr e' s3 Hs3)].
  pose proof (walk_equiv _ _ _ _ _ _ Hw2 Hs3) as Hw3. pose proof Hs3 as (_ & Ev3 & _).
  eapply wp_mono; [apply (wp_target_locked s3 w p (set_fv_cls_cache cache d)); [done|by rewrite (wk_held _ _ _ _ _ Hw3)|rewrite Ev3; apply Hd2]|].
  intros [[]|e'| | |] sw H; try done. subst sw. exact (Herr e' s3 Hs3).
Qed.

End target.

(** ** The new entry *)

Section entry.
Context {K V : Type} `{!Kernel K, !KernelLaws K, !Vnodes V, !VnodesLaws V}.
Context (tb : Z).
Implicit Types (s : st K) (w : V) (O : gset nat) (T : gmap nat fat32fs_vnode) (h : gmap lock lkmode).

(** The structure of the entry keeps what it points to. *)
Definition same_target (v v' : fat32fs_vnode) : Prop :=
  fv_parent_vp v' = fv_parent_vp v /\ fv_type v' = fv_type v /\ fv_cluster v' = fv_cluster v.

Definition rename_result s O T h w s1 (q : nat) (v : fat32fs_vnode) (r : res unit) (sw : st K * V) : Prop :=
  snd sw = w /\ match r with
  | Ok _ | Err _ => exists v', same_target v v' /\ walk s O (<[q := v']> T) h (fst sw) /\ spares s1 O (fst sw)
  | _ => False
  end.

Lemma wp_walk_create_rename s O T h s1 w p d dvp l bs q v x bs0 name flags :
  walk s O T h s1 -> p ∈ O -> directory s1 p d l bs -> T !! q = Some v -> linked w p d dvp -> storable name -> source bs0 v x ->
  flag flags FAT32_CRE_RENAME = true -> flag flags FAT32_CRE_REUSE = false -> h !! FvLock q = None ->
  Z.of_nat (length bs) + 32 * dirsz_of name + fsi_bytes_per_cluster (fsi s1) < 2 ^ 32 -> clearable s1 ->
  wp (fat32_create_fdentry p q name flags) (s1, w) (rename_result s O T h w s1 q v).
Proof.
  intros Hw Hp Hd Hq Hli Hst [Ha Hc _ _ _] Hf1 Hf2 Hl Hwd Hcl. pose proof (wk_fresh _ _ _ _ _ Hw q v Hq) as Hqn.
  assert (creating s1 w p d dvp l bs q v name flags) as Hcr.
  { constructor; try done; [by eapply walk_ready|apply Hd|exact (directory_at _ _ _ _ _ Hd)|by eapply walk_lookup| | |intros _; exact Ha|].
    - intros ->. by apply (walk_apart _ _ _ _ _ p Hw).
    - by rewrite (wk_held _ _ _ _ _ Hw).
    - unfold entry_start. by rewrite Hf1. }
  eapply wp_mono; [apply (wp_create_grow s1 w p d dvp l bs q v name flags Hcr); by left|].
  intros r [s2 w2] (ext & s0 & Hg & Hadr & Hres).
  destruct (walk_grown _ _ _ _ _ _ _ _ _ _ _ Hw Hp Hd Hcl Hg Hadr) as (Hw0 & Hd0 & Hsp0).
  destruct Hres as [[Hpl (now & Hpost)]|[-> [= -> ->]]].
  - cbn zeta in Hpost. rewrite Hf1 in Hpost. destruct Hpost as (-> & H4 & Ew). split; [done|]. cbn [fst] in *.
    pose proof (pl_room _ _ _ _ _ _ _ _ _ _ _ Hpl) as Hroom. set (bs1 := longer s1 bs ext) in *. set (v1 := placed bs1 v name flags) in *.
    assert (entry_place bs1 v name flags = slot_place bs1 (dirsz_of name)) as Ep by (unfold entry_place; by rewrite Hf2). rewrite Ep in Hroom.
    assert (fv_diroff v1 = slot_place bs1 (dirsz_of name)) as Eo by exact Ep. rewrite Eo in H4.
    pose proof (dir_length_aligned _ _ _ _ (walk_ready _ _ _ _ _ Hw0) (directory_at _ _ _ _ _ Hd0)) as Hal.
    pose proof (entry_wf bs1 name (fv_cluster d) v1 flags (entry_start v flags) now (sound_at _ _ _ _ _ _ (wk_sound _ _ _ _ _ Hw0) Hp Hd0)
      Hal (dir_width _ _ _ _ _ Hd0) Hst (fun _ => Ha) Hroom) as Hwf.
    destruct (walk_entry _ _ _ _ _ _ _ _ _ _ _ _ _ Hw0 Hp Hd0 Hqn H4 Hwf) as (Hw4 & _ & Hsp4).
    exists v1. split; [done|]. split; [exact Hw4|]. by eapply spares_trans.
  - split; [done|]. exists (set_fv_dirsz (dirsz_of name) v). pose proof Hg as (_ & Ev & _). split; [done|]. cbn [fst]. rewrite <- Ev.
    split; [by apply walk_temp|]. eapply spares_trans; [exact Hsp0|]. apply spares_same; [apply Hw0|done|].
    intros p2 Hp2. cbn. rewrite lookup_insert_ne; [done|]. intros ->. by apply (walk_apart _ _ _ _ _ _ Hw Hqn).
Qed.

(** In the same slots. *)
Lemma wp_walk_reuse s O T h s1 w p d dvp l bs q v x name flags :
  walk s O T h s1 -> p ∈ O -> directory s1 p d l bs -> T !! q = Some v -> linked w p d dvp -> storable name -> source bs v x ->
  flag flags FAT32_CRE_RENAME = true -> flag flags FAT32_CRE_REUSE = true -> h !! FvLock q = None -> dirsz_of name <= fv_dirsz v ->
  Z.of_nat (length bs) + 32 * dirsz_of name + fsi_bytes_per_cluster (fsi s1) < 2 ^ 32 ->
  wp (do* fat32_create_fdentry p q name flags in
      if dirsz_of name <? fv_dirsz v then
        let* s := lift (get_fv p) in
        do* lift (try (fat32_delete_fdentry_chain (fv_cluster s)
                    (u32 (fv_diroff v + dirsz_of name * FAT32_DENTRY_SIZE)) (u32 (fv_dirsz v - dirsz_of name)))) in ret tt
      else ret tt) (s1, w) (rename_result s O T h w s1 q v).
Proof.
  intros Hw Hp Hd Hq Hli Hst [Ha Hc Hold [E1 E2] Hcut] Hf1 Hf2 Hl Hle Hwd. pose proof (wk_fresh _ _ _ _ _ Hw q v Hq) as Hqn.
  pose proof Hold as (_ & _ & _ & Hend).
  assert (rename_place bs v name = fv_diroff v) as Ep by (unfold rename_place; by rewrite (proj2 (Z.leb_le _ _))).
  assert (renaming s1 w p d dvp l bs q v name) as Hrn.
  { constructor; try done; [by eapply walk_ready|apply Hd|exact (directory_at _ _ _ _ _ Hd)|by eapply walk_lookup| | |rewrite Ep; lia].
    - intros ->. by apply (walk_apart _ _ _ _ _ p Hw).
    - by rewrite (wk_held _ _ _ _ _ Hw). }
  eapply wp_mono; [by apply (wp_rename_reuse s1 w p d dvp l bs q v name flags)|].
  intros [[]| | | |] [s2 w2]; try done. cbn [okp fst snd]. intros (-> & now & H2). split; [done|]. cbn [fst].
  pose proof (dir_length_aligned _ _ _ _ (walk_ready _ _ _ _ _ Hw) (directory_at _ _ _ _ _ Hd)) as Hal.
  destruct (walk_entry _ _ _ _ _ _ _ _ _ _ _ _ _ Hw Hp Hd Hqn H2) as (Hw2 & _ & Hsp2).
  - apply (renamed_wf bs v x); try done; [by apply (sound_at s1 O p d l bs); [apply Hw|..]|apply Hd| | |rewrite Ep; lia].
    + apply new_d83_named; [done|]. by intros _.
    + by apply new_d83_size.
  - by exists (moved bs v name).
Qed.

End entry.

(** ** The part behind the searches *)

Section found.
Context {K V : Type} `{!Kernel K, !KernelLaws K, !Vnodes V, !VnodesLaws V}.
Context (tb : Z).
Implicit Types (s : st K) (w : V) (O : gset nat) (T : gmap nat fat32fs_vnode) (h : gmap lock lkmode).

(** The old slots are deleted, new ones are written in the directory [p2]. *)
Lemma wp_walk_move s O T h s1 w p d l bs p2 d2 dvp2 l2 bs2 q v x name flags :
  walk s O T h s1 -> p ∈ O -> directory s1 p d l bs -> p2 ∈ O -> directory s1 p2 d2 l2 bs2 -> T !! q = Some v ->
  linked w p2 d2 dvp2 -> storable name -> source bs v x -> flag flags FAT32_CRE_RENAME = true -> flag flags FAT32_CRE_REUSE = false ->
  h !! FvLock q = None -> Z.of_nat (length bs2) + 32 * dirsz_of name + fsi_bytes_per_cluster (fsi s1) < 2 ^ 32 -> clearing s1 ->
  wp (do* lift (fat32_delete_fdentry_chain (fv_cluster d) (fv_diroff v) (fv_dirsz v)) in
      fat32_create_fdentry p2 q name flags) (s1, w) (rename_result s O T h w s1 q v).
Proof.
  intros Hw Hp Hd Hp2 Hd2 Hq Hli Hst Hsrc Hf1 Hf2 Hl Hwd Hcl.
  eapply wp_lift_call; [by apply (wp_walk_old_deleted s O T h s1 p d l bs v x)|].
  intros [] s2 (Hw2 & Hdel & _ & Ef & Hcl2 & Hsp & Hoth).
  assert (exists bs2', directory s2 p2 d2 l2 bs2' /\ length bs2' = length bs2) as (bs2' & Hd2' & Elen).
  { destruct (decide (p2 = p)) as [->|Hne]; [|exists bs2; split; [by apply Hoth|done]].
    destruct (directory_fun _ _ _ _ _ _ _ _ (walk_ready _ _ _ _ _ Hw) Hd Hd2) as (-> & -> & ->).
    exists (old_deleted bs v). split; [done|apply mark_deleted_length]. }
  eapply wp_mono; [eapply (wp_walk_create_rename s O T h s2 w p2 d2 dvp2 l2 bs2' q v x bs); try done; [by rewrite Elen, Ef|by apply clearing_clearable]|].
  intros r sw [Ew H]. split; [done|]. destruct r; try done; destruct H as (v' & H1 & H2 & H3); exists v'; (split; [done|]; split; [done|]);
    by eapply spares_trans.
Qed.

Lemma wp_walk_rename_entry s O T h s1 w p d l bs p2 d2 dvp2 l2 bs2 q v x name same :
  walk s O T h s1 -> p ∈ O -> directory s1 p d l bs -> p2 ∈ O -> directory s1 p2 d2 l2 bs2 -> T !! q = Some v ->
  linked w p2 d2 dvp2 -> storable name -> source bs v x -> (same = true -> p2 = p) ->
  h !! FvLock q = None -> Z.of_nat (length bs2) + 32 * dirsz_of name + fsi_bytes_per_cluster (fsi s1) < 2 ^ 32 -> clearing s1 ->
  wp (rename_entry p p2 q name same) (s1, w) (rename_result s O T h w s1 q v).
Proof.
  intros Hw Hp Hd Hp2 Hd2 Hq Hli Hst Hsrc Hsame Hl Hwd Hcl. unfold rename_entry.
  eapply wp_lift_call; [apply wp_get_fv; by eapply walk_lookup|]. intros ? ? [-> ->].
  eapply wp_lift_call; [apply wp_get_fv, Hd|]. intros ? ? [-> ->].
  destruct (same && (dirsz_of name <=? fv_dirsz v)) eqn:E.
  - apply andb_true_iff in E as [Es Hle%Z.leb_le]. pose proof (Hsame Es) as ->.
    destruct (directory_fun _ _ _ _ _ _ _ _ (walk_ready _ _ _ _ _ Hw) Hd Hd2) as (-> & -> & ->).
    by eapply (wp_walk_reuse s O T h s1 w p d dvp2 l bs q v x name); [..|by destruct (bool_decide _)|by destruct (bool_decide _)| | |].
  - by eapply (wp_walk_move s O T h s1 w p d l bs p2 d2 dvp2 l2 bs2 q v x name); [..|by destruct (bool_decide _)|by destruct (bool_decide _)| | |].
Qed.

(** The entry ".." of a directory that is not open. *)
Lemma wp_walk_dotdot s O T h s1 p q v lf fbs :
  walk s O T h s1 -> p ∈ O -> T !! q = Some v -> dir_at s1 (fv_cluster v) lf fbs -> aparted s1 O lf ->
  wp (rename_dotdot p q) s1 (okp (fun _ s2 => walk s O T h s2)).
Proof.
  intros Hw Hp Hq Hat Hap. destruct (so_dirs _ _ (wk_sound _ _ _ _ _ Hw) p Hp) as (d & l & bs & Hd & _).
  pose proof (walk_ready _ _ _ _ _ Hw) as Hr.
  eapply wp_mono; [apply (wp_move_dotdot s1 p d q v lf fbs); try done; [apply Hd|by eapply walk_lookup|]|].
  { by apply (chain_u32 _ _ _ Hr (proj1 (directory_at _ _ _ _ _ Hd))). }
  intros [[]| | | |] s2; try done. cbn [okp]. intros (H1 & H2 & H3 & H4 & H5 & H6 & H7).
  eapply (walk_aside _ _ _ _ s1 lf lf); [done| |exact Hap]. split; try done. by rewrite H2.
Qed.

Lemma wp_walk_mtime s O T h s1 w p :
  walk s O T h s1 -> p ∈ O -> wp (lift (fat32_touch p FV_MTIME_DIRTY)) (s1, w) (okp (fun _ sw => snd sw = w /\ walk s O T h (fst sw))).
Proof.
  intros Hw Hp. destruct (so_dirs _ _ (wk_sound _ _ _ _ _ Hw) p Hp) as (d & l & bs & Hd & _). apply wp_lift.
  eapply wp_mono; [apply (wp_touch_mtime s1 p d), Hd|]. intros [[]| | | |] s2; try done. cbn [okp fst snd]. intros Hs2. split; [done|].
  eapply walk_equiv; [|exact Hs2]. apply (walk_touch s O T h s1 p d); try done. apply Hd.
Qed.

(** The structures [D] are there, without parents. *)
Definition going s O (D : gset nat) h w (r : res unit) (sw : st K * V) : Prop :=
  match r with
  | Ok _ | Err _ => exists T, dom T = D /\ (forall q v, T !! q = Some v -> fv_parent_vp v = None) /\ walk s O T h (fst sw) /\
      layer_same w (snd sw)
  | Blocked => True
  | _ => False
  end.

(** A directory that moves to another. *)
Definition movable s O (v : fat32fs_vnode) (same : bool) : Prop :=
  fv_type v = VDIR -> same = false -> exists lf fbs, dir_at s (fv_cluster v) lf fbs /\ aparted s O lf.

Lemma wp_walk_moved s O T h s1 w p p2 q v same :
  walk s O T h s1 -> p ∈ O -> p2 ∈ O -> T !! q = Some v -> movable s1 O v same ->
  wp (let* v := lift (get_fv q) in
      do* (if bool_decide (fv_type v = VDIR) && negb same then lift (rename_dotdot p2 q) else ret tt) in
      do* lift (fat32_touch p FV_MTIME_DIRTY) in
      if same then ret tt else lift (fat32_touch p2 FV_MTIME_DIRTY)) (s1, w) (okp (fun _ sw => snd sw = w /\ walk s O T h (fst sw))).
Proof.
  intros Hw Hp Hp2 Hq Hmv. eapply wp_lift_call; [apply wp_get_fv; by eapply walk_lookup|]. intros ? ? [-> ->].
  eapply (wp_call_ok _ _ _ (fun _ sw => snd sw = w /\ walk s O T h (fst sw))).
  { destruct (bool_decide (fv_type v = VDIR)) eqn:Hty; [|by apply wp_ret]. destruct same; [by apply wp_ret|]. cbn [andb negb].
    apply bool_decide_eq_true in Hty. destruct (Hmv Hty eq_refl) as (lf & fbs & Hat & Hap). apply wp_lift.
    eapply wp_mono; [by apply (wp_walk_dotdot s O T h s1 p2 q v lf fbs)|]. by intros [[]| | | |] s2. }
  intros [] [s2 w2] [E Hw2]. cbn [fst snd] in *. subst w2.
  eapply wp_call_ok; [by apply (wp_walk_mtime s O T h)|]. intros [] [s3 w3] [E Hw3]. cbn [fst snd] in *. subst w3.
  destruct same; [by apply wp_ret|by apply wp_walk_mtime].
Qed.

End found.

(** ** [fat32_rename] *)

Section rename.
Context {K V : Type} `{!Kernel K, !KernelLaws K, !Vnodes V, !VnodesLaws V}.
Context (tb : Z).
Implicit Types (s : st K) (w : V) (O : gset nat) (T : gmap nat fat32fs_vnode) (h : gmap lock lkmode).

Lemma movable_spares s O v same s' v' :
  movable s O v same -> spares s O s' -> fv_type v' = fv_type v -> fv_cluster v' = fv_cluster v -> movable s' O v' same.
Proof.
  intros Hm Hsp E1 E2 Hty Hs. rewrite E1 in Hty. destruct (Hm Hty Hs) as (lf & fbs & Hat & Hap).
  destruct (Hsp _ _ _ Hat Hap). exists lf, fbs. by rewrite E2.
Qed.

Lemma wp_walk_rename_found s O h s1 w p d l bs p2 d2 dvp2 l2 bs2 fv v q x tnm same cr st1 st2 :
  not_granted (K := K) MrUpdate ->
  walk s O (<[q := fresh_fv (fsi s1)]> {[fv := v]}) h s1 -> fv <> q -> p ∈ O -> directory s1 p d l bs -> p2 ∈ O ->
  directory s1 p2 d2 l2 bs2 -> h !! FvLock p2 = Some MrUpdate -> h !! FvLock fv = None -> source bs v x -> fv_parent_vp v = None ->
  linked w p2 d2 dvp2 -> target_readable s1 bs2 tnm st1 -> enterable s1 bs2 tnm st1 -> clearing s1 -> movable s1 O v same ->
  (same = true -> p2 = p) ->
  wp (rename_found tb p p2 fv q tnm same cr st1 st2) (s1, w) (going s O {[fv; q]} h w).
Proof.
  intros Hng Hw Hne Hp Hd Hp2 Hd2 Hl Hlf Hsrc Hpar [L1 L2 L3] Htr [Hst1 Hst Hwd _] Hcl Hmv Hsame. unfold rename_found.
  assert (forall t v', dom (<[q := t]> ({[fv := v']} : gmap nat fat32fs_vnode)) = {[fv; q]}) as Hdom by (intros; set_solver).
  assert (forall t v', fv_parent_vp t = None -> fv_parent_vp v' = None -> forall q2 u,
    <[q := t]> ({[fv := v']} : gmap nat fat32fs_vnode) !! q2 = Some u -> fv_parent_vp u = None) as Hpars.
  { by intros t v' Ht Hv' q2 u [[_ <-]|[_ [_ <-]%lookup_singleton_Some]]%lookup_insert_Some. }
  assert (fv <> p /\ q <> p /\ q <> p2) as (N1 & N2 & N3).
  { assert (fvs s !! q = None) as Hq by (eapply (wk_fresh _ _ _ _ _ Hw q); apply lookup_insert_eq).
    assert (fvs s !! fv = None) as Hf by (eapply (wk_fresh _ _ _ _ _ Hw fv v); rewrite lookup_insert_ne by done; apply lookup_singleton_eq).
    split_and!; intros ->.
    - by apply (walk_apart _ _ _ _ _ _ Hw Hf).
    - by apply (walk_apart _ _ _ _ _ _ Hw Hq).
    - by apply (walk_apart _ _ _ _ _ _ Hw Hq). }
  eapply wp_call; [eapply (wp_walk_target tb s O _ h s1 w p2 d2 l2 bs2 fv v q tnm cr st1 st2); try done;
    [by rewrite lookup_insert_ne, lookup_singleton_eq|apply lookup_insert_eq|apply Hst]|].
  intros [[]|e| | |] [s2 w2] H; try done; cbn [wpk fst snd] in *.
  2:{ destruct H as (t & Ht & Hw2 & Ew). rewrite insert_insert_eq in Hw2. exists (<[q := t]> {[fv := v]}). cbn [fst snd] in *.
      split; [apply Hdom|]. split; [by apply Hpars|]. split; [done|]. by rewrite Ew. }
  destruct H as (_ & Ew & Hvol & Hw2 & Hsp & [cache Hd2'] & Hoth). cbn [fst snd] in *. subst w2. rewrite insert_insert_eq in Hw2.
  set (t := found_fv tb s1 d2 None) in *.
  assert (exists d', directory s2 p d' l bs) as [d' Hd'].
  { destruct (decide (p = p2)) as [->|Hpp].
    - destruct (directory_fun _ _ _ _ _ _ _ _ (walk_ready _ _ _ _ _ Hw) Hd2 Hd) as (_ & -> & ->). by eexists.
    - exists d. apply (walk_directory _ _ _ _ s1 _ _ _ _ _ Hw2 Hp Hvol); [by apply Hoth; [|apply not_eq_sym]|done]. }
  eapply wp_call; [apply (wp_walk_rename_entry s O (<[q := t]> {[fv := v]}) h s2 w p d' l bs p2 (set_fv_cls_cache cache d2) dvp2 l2 bs2 fv v x tnm same); try done|].
  { by rewrite lookup_insert_ne, lookup_singleton_eq. }
  { by rewrite (proj1 Hvol). }
  { by eapply clearing_same. }
  intros r [s3 w3] [Ew Hres]. cbn [fst snd] in *. subst w3.
  destruct r as [[]|e| | |]; try done; destruct Hres as (v' & (E1 & E2 & E3) & Hw3 & Hsp3); cbn [wpk fst] in *;
    rewrite insert_insert_ne, insert_singleton_eq in Hw3 by done.
  - eapply wp_mono; [apply (wp_walk_moved s O (<[q := t]> {[fv := v']}) h s3 w p p2 fv v' same Hw3 Hp Hp2)|].
    + by rewrite lookup_insert_ne, lookup_singleton_eq.
    + eapply movable_spares; [exact Hmv|by eapply spares_trans|done|done].
    + intros [[]| | | |] [s4 w4]; try done. cbn [okp fst snd]. intros [-> Hw4]. exists (<[q := t]> {[fv := v']}).
      split; [apply Hdom|]. split; [apply Hpars; [done|by rewrite E1]|done].
  - exists (<[q := t]> {[fv := v']}). split; [apply Hdom|]. split; [apply Hpars; [done|by rewrite E1]|done].
Qed.

(** The cleanup after the label [out] frees one structure. *)
Lemma wp_finally_any {S A} (m : M S A) (cleanup : M S unit) x (P Q : res A -> S -> Prop) :
  wp m x P ->
  (forall r y, P r y -> match r with Ok _ | Err _ => wp cleanup y (okp (fun _ z => Q r z)) | _ => Q r y end) ->
  wp (finally m cleanup) x Q.
Proof.
  intros Hm Hc. unfold finally. apply wp_bind, wp_try. eapply wp_mono; [exact Hm|]. intros r y HP. specialize (Hc r y HP).
  destruct r as [a|e| | |]; cbn [wpk]; try done; (eapply wp_call_ok; [exact Hc|]); intros [] z HQ; [by apply wp_ret|by apply wp_throw].
Qed.

Lemma wp_walk_cleanup s O D h w m x q :
  wp m x (going s O D h w) -> q ∈ D -> h !! FvLock q = None -> h !! CacheLock q = None ->
  wp (finally m (fat32_vnode_delete q)) x (going s O (D ∖ {[q]}) h w).
Proof.
  intros Hm Hq H1 H2. apply (wp_finally_any _ _ _ _ _ Hm). intros r [s1 w1] Hg.
  assert (match r with Ok _ | Err _ => True | _ => False end -> wp (fat32_vnode_delete q) (s1, w1)
    (okp (fun _ sw => exists T, dom T = D ∖ {[q]} /\ (forall q v, T !! q = Some v -> fv_parent_vp v = None) /\ walk s O T h (fst sw) /\
      layer_same w (snd sw)))) as Hdel.
  { intros Hr. assert (exists T, dom T = D /\ (forall q v, T !! q = Some v -> fv_parent_vp v = None) /\ walk s O T h s1 /\ layer_same w w1)
      as (T & <- & Hpar & Hw & Hlw) by (by destruct r).
    apply elem_of_dom in Hq as [v Hv]. eapply wp_mono; [by apply (wp_walk_delete s O T h s1 w1 q v Hw Hv); [eapply Hpar|..]|].
    intros [[]| | | |] [s2 w2]; try done. cbn [okp fst snd]. intros [-> Hw2]. exists (delete q T). split; [apply dom_delete_L|].
    split; [|done]. intros q2 u [_ Hu]%lookup_delete_Some. by eapply Hpar. }
  destruct r; try done; apply Hdel; exact I.
Qed.

(** The locks of a rename. *)
Definition rename_locks (p p2 : nat) (same : bool) h : gmap lock lkmode :=
  let h1 := <[FvLock p := MrUpdate]> h in if same then h1 else <[FvLock p2 := MrUpdate]> h1.

Lemma rename_locks_other p p2 same h l : l <> FvLock p -> l <> FvLock p2 -> rename_locks p p2 same h !! l = h !! l.
Proof. intros H1 H2. unfold rename_locks. destruct same; by rewrite ?lookup_insert_ne. Qed.

Lemma rename_locks_target p p2 same h : (same = true -> p2 = p) -> rename_locks p p2 same h !! FvLock p2 = Some MrUpdate.
Proof. intros H. unfold rename_locks. destruct same; [rewrite H by done|]; by rewrite lookup_insert_eq. Qed.

Lemma wp_walk_unlock_both s O T h s1 w p p2 same :
  walk s O T (rename_locks p p2 same h) s1 -> h !! FvLock p = None -> h !! FvLock p2 = None -> (same = false -> p2 <> p) ->
  wp (do* (if same then ret tt else lift (mrunlock (FvLock p2))) in lift (mrunlock (FvLock p))) (s1, w)
    (okp (fun _ sw => walk s O T h (fst sw) /\ snd sw = w)).
Proof.
  intros Hw H1 H2 Hne. unfold rename_locks, mrunlock in *.
  assert (forall s2, walk s O T (<[FvLock p := MrUpdate]> h) s2 ->
    wp (lift (lock_release (FvLock p))) (s2, w) (okp (fun _ sw => walk s O T h (fst sw) /\ snd sw = w))) as Hlast.
  { intros s2 Hw2. apply wp_lift. eapply wp_mono; [eapply wp_unlock; [apply (wk_held _ _ _ _ _ Hw2)|done]|].
    intros [[]| | | |] s3; try done. cbn [okp fst snd]. intros ->. split; [|done]. apply (walk_held _ _ _ _ _ _ Hw2).
    intros l Hl. by rewrite lookup_insert_ne by done. }
  destruct same; [repeat wp_step; by apply Hlast|].
  eapply (wp_walk_unlock s O T (<[FvLock p := MrUpdate]> h)); [exact Hw| |apply Hlast].
  rewrite lookup_insert_ne; [done|]. injection 1 as E. by apply Hne.
Qed.

End rename.

(** ** The whole operation *)

Section renames.
Context {K V : Type} `{!Kernel K, !KernelLaws K, !Vnodes V, !VnodesLaws V}.
Context (tb : Z).
Implicit Types (s : st K) (w : V) (O : gset nat).

(** A rename from the open directory at [p] to the one at [p2], which may be the
    same. *)
Record between s w O (p : nat) (d : fat32fs_vnode) (l bs : list Z) (p2 : nat) (d2 : fat32fs_vnode) (dvp2 : nat) (l2 bs2 : list Z)
    (snm tnm st0 st1 : list Z) : Prop := {
  bt_target : here s w O p2 d2 dvp2 l2 bs2;
  bt_in : p ∈ O;
  bt_dir : directory s p d l bs;
  bt_lock : held s !! FvLock p = None;
  bt_source : length st0 = 256%nat /\ (length snm <= 255)%nat;
  bt_entry : enterable s bs2 tnm st1;
  bt_readable : target_readable s bs2 tnm st1;
  bt_clear : clearing s;
  bt_locks : not_granted (K := K) MrUpdate;
  bt_moved x e : lookup_name bs st0 snm = Some (x, e) -> movable s O (found_fv tb s d (Some (x, e))) (bool_decide (p = p2))
}.

(** A structure that is not in [s] has no lock of the rename. *)
Lemma rename_locks_fresh s O h0 T s1 p p2 same q :
  walk s O T h0 s1 -> p ∈ O -> p2 ∈ O -> locks_live s -> fvs s !! q = None ->
  (forall p', p' ∈ O -> p' <> q) /\ rename_locks p p2 same (held s) !! FvLock q = None /\ rename_locks p p2 same (held s) !! CacheLock q = None.
Proof.
  intros Hw Hp Hp2 Hlv Hq. assert (forall p', p' ∈ O -> p' <> q) as Hne by (intros p' Hin ->; by apply (walk_apart _ _ _ _ _ _ Hw Hq)).
  destruct (Hlv q Hq). pose proof (Hne p Hp). pose proof (Hne p2 Hp2). split; [done|]. split; rewrite rename_locks_other; congruence.
Qed.

(** Both directories are locked and the entry is found. *)
Lemma wp_walk_rename_source s w O p d l bs p2 d2 dvp2 l2 bs2 snm tnm st0 st1 st2 cr same x e s2 w1 q cache :
  sound s O -> between s w O p d l bs p2 d2 dvp2 l2 bs2 snm tnm st0 st1 -> same = bool_decide (p = p2) ->
  lookup_name bs st0 snm = Some (x, e) ->
  let h := rename_locks p p2 same (held s) in let v := found_fv tb s d (Some (x, e)) in
  walk s O {[q := v]} h s2 -> same_volume s s2 -> spares s O s2 -> directory s2 p (set_fv_cls_cache cache d) l bs ->
  (p2 <> p -> fvs s2 !! p2 = fvs s !! p2) -> layer_same w w1 ->
  wp (let* o := fat32_vnode_new in
      let* target_fv := of_opt o in
      finally (rename_found tb p p2 q target_fv tnm same cr st1 st2) (fat32_vnode_delete target_fv)) (s2, w1) (going s O {[q]} h w).
Proof.
  intros Hs [[Hp2 Hd2 Hl2 Hlv [L1 L2 L3]] Hp Hd Hl [Hst0 Hsn] Hent Htr Hcl Hng Hmv] Es Hf. cbn zeta. set (h := rename_locks _ _ _ _).
  set (v := found_fv _ _ _ _). intros Hw2 Hvol Hsp Hd2' Hoth Hlw. pose proof (wk_fresh _ _ _ _ _ Hw2 q _ (lookup_singleton_eq q _)) as Hqn.
  destruct (rename_locks_fresh _ _ _ _ _ p p2 same _ Hw2 Hp Hp2 Hlv Hqn) as (Hne & Eq1 & _). fold h in Eq1.
  apply (wp_walk_new s O _ h s2 w1 _ _ Hw2). intros q2 w2 Hq2n Hq2T Hlw2. cbn zeta. intros Hw3. set (s3 := set_fvs _ s2) in *.
  cbn [of_opt]. repeat wp_step. apply lookup_singleton_None in Hq2T.
  destruct (rename_locks_fresh _ _ _ _ _ p p2 same _ Hw2 Hp Hp2 Hlv Hq2n) as (Hne2 & Eq3 & Eq4). fold h in Eq3, Eq4.
  replace ({[q]} : gset nat) with ({[q; q2]} ∖ {[q2]} : gset nat) by set_solver.
  apply wp_walk_cleanup; [|set_solver|done|done].
  assert (forall p', p' ∈ O -> fvs s3 !! p' = fvs s2 !! p') as Hfv3 by (intros p' Hin; cbn; rewrite lookup_insert_ne; [done|by apply not_eq_sym, Hne2]).
  assert (same_volume s s3) as Hvs3 by exact Hvol.
  assert (spares s O s3) as Hsp3 by (apply (spares_trans s O s2); [done|apply spares_same; [apply Hw2|done|done]]).
  assert (exists d2', directory s3 p2 d2' l2 bs2 /\ fv_vnode d2' = fv_vnode d2) as (d2' & Hd2'' & Ed2).
  { destruct (decide (p2 = p)) as [->|Hpp].
    - destruct (directory_fun _ _ _ _ _ _ _ _ (so_ready _ _ Hs) Hd Hd2) as (-> & -> & ->). exists (set_fv_cls_cache cache d). split; [|done].
      apply (walk_directory _ _ _ _ s2 _ _ _ _ _ Hw3 Hp); [done|by apply Hfv3|exact Hd2'].
    - exists d2. split; [|done]. apply (walk_directory _ _ _ _ s _ _ _ _ _ Hw3 Hp2 Hvs3); [|done]. rewrite Hfv3 by done. by apply Hoth. }
  assert (layer_same w w2) as Hlw3 by (by etrans).
  eapply wp_mono; [apply (wp_walk_rename_found tb s O h s3 w2 p (set_fv_cls_cache cache d) l bs p2 d2' dvp2 l2 bs2 q v q2 x tnm same cr st1 st2); try done|].
  - apply (walk_directory _ _ _ _ s2 _ _ _ _ _ Hw3 Hp); [done|by apply Hfv3|exact Hd2'].
  - apply rename_locks_target. rewrite Es. by intros ->%bool_decide_eq_true.
  - apply (source_found tb s d l bs st0 snm); try done; [apply Hs|exact (directory_at _ _ _ _ _ Hd)|apply Hd|by apply (sound_at s O p d l bs)].
  - destruct (Hlw3 dvp2) as [E1 E2]. split; [by rewrite Ed2|by rewrite E2|by rewrite E1].
  - intros y e' Hy Hfl. destruct (Htr y e' Hy Hfl) as [?|(lt & tbs & Hat)]; [by left|]. right. exists lt, tbs. by apply (same_volume_dir s s3).
  - destruct Hent as [? ? ? Hc]. constructor; try done; [by rewrite (proj1 Hvs3)|by apply clearing_clearable, (clearing_same s)].
  - by apply (clearing_same s).
  - eapply movable_spares; [|exact Hsp3|done|done]. rewrite Es. by eapply Hmv.
  - rewrite Es. by intros ->%bool_decide_eq_true.
  - intros r sw Hg. assert (forall w', layer_same w2 w' -> layer_same w w') as Ht by (intros w' ?; by etrans).
    destruct r; try done; destruct Hg as (T & H1 & H2 & H3 & H4); exists T; by eauto.
Qed.

(** Both directories are locked and there is a structure for the entry. *)
Lemma wp_walk_rename_locked s w O p d l bs p2 d2 dvp2 l2 bs2 snm tnm st0 st1 st2 cr same s1 w1 q :
  sound s O -> between s w O p d l bs p2 d2 dvp2 l2 bs2 snm tnm st0 st1 -> same = bool_decide (p = p2) ->
  let h := rename_locks p p2 same (held s) in
  walk s O {[q := fresh_fv (fsi s1)]} h s1 -> same_volume s s1 -> (forall p', p' <> q -> fvs s1 !! p' = fvs s !! p') -> layer_same w w1 ->
  wp (finally
       (do* lift (fat32_find_dirent tb p snm st0 (Some q)) in
        let* o := fat32_vnode_new in
        let* target_fv := of_opt o in
        finally (rename_found tb p p2 q target_fv tnm same cr st1 st2) (fat32_vnode_delete target_fv))
       (fat32_vnode_delete q)) (s1, w1) (going s O ∅ h w).
Proof.
  intros Hs Hb Es. pose proof Hb as [[Hp2 Hd2 Hl2 Hlv Hli] Hp Hd Hl [Hst0 Hsn] _ _ _ _ _]. cbn zeta. set (h := rename_locks _ _ _ _).
  intros Hw Hvol Hfv Hlw. pose proof (wk_fresh _ _ _ _ _ Hw q _ (lookup_singleton_eq q _)) as Hqn.
  destruct (rename_locks_fresh _ _ _ _ _ p p2 same _ Hw Hp Hp2 Hlv Hqn) as (Hne & Eq1 & Eq2). fold h in Eq1, Eq2.
  replace (∅ : gset nat) with ({[q]} ∖ {[q]} : gset nat) by set_solver.
  apply wp_walk_cleanup; [|set_solver|done|done].
  assert (directory s1 p d l bs) as Hd1 by (apply (walk_directory _ _ _ _ s _ _ _ _ _ Hw Hp Hvol); [by apply Hfv, Hne|done]).
  apply wp_bind, wp_lift. eapply wp_mono; [apply (wp_walk_find tb s O _ h s1 p d l bs q snm st0 Hw Hp Hd1); [apply lookup_singleton_eq|done..]|].
  intros r s2 (-> & Hvol2 & Hoth2 & Hw2 & Hsp & cache & Hd2'). rewrite insert_singleton_eq in Hw2.
  assert (found_fv tb s1 d (lookup_name bs st0 snm) = found_fv tb s d (lookup_name bs st0 snm)) as Ev by (unfold found_fv; by rewrite (proj1 Hvol)).
  rewrite Ev in Hw2. destruct (lookup_name bs st0 snm) as [[x e]|] eqn:Hf; cbn [wpk].
  - apply (wp_walk_rename_source s w O p d l bs p2 d2 dvp2 l2 bs2 snm tnm st0 st1 st2 cr same x e s2 w1 q cache); try done.
    + destruct Hvol as [E1 E2], Hvol2 as [E3 E4]; split; [congruence|]; intros b n; by rewrite E4.
    + apply (spares_trans s O s1); [apply spares_same; [done|done|]; intros p' Hin; by apply Hfv, Hne|done].
    + intros Hpp. rewrite Hoth2; [by apply Hfv, Hne|done|by apply Hne].
  - exists {[q := found_fv tb s d None]}. cbn [fst snd]. split; [apply dom_singleton_L|]. split; [|done].
    by intros u v [_ <-]%lookup_singleton_Some.
Qed.

(** [fat32_rename] of any name, to any name: it returns with the open directories
    well formed, or it waits for the lock of the target for ever. *)
Lemma wp_rename_any s w O p d l bs p2 d2 dvp2 l2 bs2 snm tnm st0 st1 st2 cr :
  sound s O -> between s w O p d l bs p2 d2 dvp2 l2 bs2 snm tnm st0 st1 ->
  wp (fat32_rename tb p snm dvp2 tnm cr st0 st1 st2) (s, w) (fun r sw =>
    match r with Ok _ | Err _ => outcome s w O (fst sw) (snd sw) | Blocked => True | _ => False end).
Proof.
  intros Hs Hb. pose proof Hb as [[Hp2 Hd2 Hl2 Hlv [L1 L2 L3]] Hp Hd Hl _ _ _ _ _ _].
  unfold fat32_rename, VNODE_TO_FV. repeat wp_step. cbn [snd]. rewrite L2. cbn [of_opt]. repeat wp_step.
  eapply wp_lift_call; [by apply wp_get_fv, Hd|]. intros ? ? [-> ->]. eapply wp_lift_call; [by apply wp_get_fv, Hd2|]. intros ? ? [-> ->].
  assert ((fv_cluster d =? fv_cluster d2) = bool_decide (p = p2)) as Esame.
  { destruct (decide (p = p2)) as [->|Hne].
    - destruct (directory_fun _ _ _ _ _ _ _ _ (so_ready _ _ Hs) Hd Hd2) as (-> & _ & _). by rewrite Z.eqb_refl, bool_decide_true.
    - rewrite bool_decide_false by done. apply Z.eqb_neq, (heads_apart s _ l _ l2); [apply (directory_at _ _ _ _ _ Hd)|apply (directory_at _ _ _ _ _ Hd2)|].
      apply not_eq_sym in Hne. by eapply (so_apart _ _ Hs p2 p). }
  rewrite Esame. set (same := bool_decide (p = p2)) in *.
  destruct (same && bool_decide (snm = tnm)); [apply wp_ret; by apply outcome_refl|].
  apply (wp_walk_lock _ _ _ _ _ _ _ _ _ _ (walk_start s O Hs) Hl). intros Hw1.
  eapply (wp_call_ok _ _ _ (fun _ sw => snd sw = w /\ let h := rename_locks p p2 same (held s) in fst sw = set_held h s /\ walk s O ∅ h (fst sw))).
  { unfold rename_locks. destruct (decide (p = p2)) as [E|Hne]; unfold same.
    - rewrite bool_decide_true by done. by apply wp_ret.
    - rewrite bool_decide_false by done. apply wp_lift. eapply wp_mono; [apply wp_lock; cbn; rewrite lookup_insert_ne by congruence; done|].
      intros [[]| | | |] s2; try done. cbn [okp fst snd]. intros ->. split; [done|]. split; [done|]. cbn [held set_held].
      apply (walk_held _ _ _ _ _ _ Hw1). intros l' Hl'. by rewrite lookup_insert_ne by done. }
  intros [] [s1 w1] (E1 & E2 & Hw2). cbn [fst snd] in E1, E2, Hw2. subst s1 w1. set (h := rename_locks _ _ _ _) in *.
  apply (wp_walk_new s O ∅ h _ w _ _ Hw2). intros q w2 Hqn _ Hlw. cbn zeta. rewrite insert_empty. intros Hw3. cbn [of_opt]. repeat wp_step.
  eapply wp_finally_any.
  - apply (wp_walk_rename_locked s w O p d l bs p2 d2 dvp2 l2 bs2 snm tnm st0 st1 st2 cr same _ w2 q Hs Hb); try done.
    intros p' Hne. cbn. by rewrite lookup_insert_ne.
  - assert (forall T s4 w4, dom T = ∅ -> walk s O T h s4 -> layer_same w w4 ->
      wp (do* (if same then ret tt else lift (mrunlock (FvLock p2))) in lift (mrunlock (FvLock p))) (s4, w4)
        (okp (fun _ sw => outcome s w O (fst sw) (snd sw)))) as Hend.
    { intros T s4 w4 ->%dom_empty_inv_L Hw4 Hlw4. eapply wp_mono; [apply (wp_walk_unlock_both s O ∅ (held s) s4 w4 p p2 same Hw4 Hl Hl2)|].
      - unfold same. intros E ->. by apply bool_decide_eq_false in E.
      - intros [[]| | | |] sw; try done. cbn [okp]. intros [Hw5 ->]. apply out_same; [done|]. intros vp. by apply Hlw4. }
    intros [[]|e| | |] [s4 w4]; try done; cbn [fst snd]; intros (T & HT & _ & Hw4 & Hlw4); by eapply Hend.
Qed.

End renames.
