(* ===== verification/VolumeSpec.v ===== *)
(** * Open directories stay well formed

    The invariant of a mounted volume: every open directory is well formed and
    has clusters of its own.  The operations on names keep it, in any order and
    whatever they return; [OpenDirs] has the invariant, [WalkOps] and
    [WalkRename] the operations that make entries. *)
From S2P Require Import Prelude Layout Time Names Kernel Device Cls Fat Demo Alloc Chain Free Cache File Truncate Access Io IoSpec WriteSpec Dir DirSpec LfnSpec Vnode Nameops Vnops Listing Remove VnodeSpec VnopsSpec DirDemo AttrSpec Slots Insert CreateSpec RenameSpec MkdirSpec Grow MoveSpec OpenSpec Integrity IntegritySpec OpenDirs WalkOps WalkRename.

Section operations.
Context {K V : Type} `{!Kernel K, !KernelLaws K, !Vnodes V, !VnodesLaws V}.
Context (tb : Z).
Implicit Types (s : st K) (w : V) (O : gset nat) (T : gmap nat fat32fs_vnode).

(** ** Lookups, openings and removals *)

(** An operation that has ended, in the directory at [p] and with the new
    structures [T]. *)
Record settled s O (p : nat) (d : fat32fs_vnode) (l : list Z) T s' (d' : fat32fs_vnode) (bs' : list Z) : Prop := {
  se_ready : ready s';
  se_geom : geom (fsi s') = geom (fsi s);
  se_held : held s' = held s;
  se_dir : recached l d d' /\ same_id d d' /\ fvs s' !! p = Some d';
  se_old q : q <> p -> is_Some (fvs s !! q) -> fvs s' !! q = fvs s !! q;
  se_new q : fvs s !! q = None -> fvs s' !! q = T !! q;
  se_fresh q v : T !! q = Some v -> fvs s !! q = None;
  se_bytes : dir_at s' (fv_cluster d) l bs' /\ Z.of_nat (length bs') < 2 ^ 32 /\ well_formed bs';
  se_others q d2 l2 bs2 : q ∈ O -> q <> p -> directory s q d2 l2 bs2 -> dir_at s' (fv_cluster d2) l2 bs2
}.

Lemma settled_walk s O p d l bs T s' d' bs' :
  sound s O -> p ∈ O -> directory s p d l bs -> settled s O p d l T s' d' bs' -> walk s O T (held s) s'.
Proof.
  intros Hs Hp Hd [Hr Hg Hh (Hrc & Hid & Hp') Hold Hnew Hfr (Hat & Hlen & Hwf) Hoth].
  assert (forall q, q ∈ O -> exists d1 l1 bs1 d2 bs2, directory s q d1 l1 bs1 /\ directory s' q d2 l1 bs2 /\ well_formed bs2 /\ same_id d1 d2) as H.
  { intros q Hq. destruct (decide (q = p)) as [->|Hne]; [exists d, l, bs, d', bs'; split_and!; [done|by eapply directory_changed|done..]|].
    destruct (so_dirs _ _ Hs q Hq) as (d1 & l1 & bs1 & Hd1 & Hwf1). exists d1, l1, bs1, d1, bs1. split_and!; [done| |done..].
    pose proof (dir_fv _ _ _ _ _ Hd1) as Hq1. apply (directory_after s s' q d1 l1 bs1 Hd1); [|done|by apply (Hoth q)].
    rewrite Hold; [done|done|by eexists]. }
  split; try done.
  - apply sound_intro; [done|..].
    + intros q Hq. destruct (H q Hq) as (_ & l1 & _ & d2 & bs2 & _ & ? & ? & _). by exists d2, l1, bs2.
    + intros q1 q2 H1 H2 Hne. destruct (H q1 H1) as (d1 & l1 & bs1 & d1' & bs1' & E1 & E1' & _). destruct (H q2 H2) as (d2 & l2 & bs2 & d2' & bs2' & E2 & E2' & _).
      exists d1', l1, bs1', d2', l2, bs2'. split_and!; [done|done|by eapply (so_apart _ _ Hs q1 q2)].
  - intros q v Hq Hv. rewrite Hold; [done|intros ->; done|by eexists].
  - intros q Hq. destruct (H q Hq) as (d1 & l1 & bs1 & d2 & bs2 & [E1 _ _ _ _ _ _] & [E2 _ _ _ _ _ _] & _ & Hid2). by exists d1, d2.
Qed.

(** The structures after an operation with a new structure and without. *)
Lemma settled_fvs s O p d l T s' d' bs' :
  fvs s !! p = Some d -> recached l d d' -> same_id d d' -> ready s' -> geom (fsi s') = geom (fsi s) -> held s' = held s ->
  T = ∅ \/ (exists q v, fvs s !! q = None /\ T = {[q := v]}) -> fvs s' = T ∪ <[p := d']> (fvs s) ->
  dir_at s' (fv_cluster d) l bs' -> Z.of_nat (length bs') < 2 ^ 32 -> well_formed bs' ->
  (forall q d2 l2 bs2, q ∈ O -> q <> p -> directory s q d2 l2 bs2 -> dir_at s' (fv_cluster d2) l2 bs2) ->
  settled s O p d l T s' d' bs'.
Proof.
  intros Hp Hrc Hid Hr Hg Hh HT Hf Hat Hlen Hwf Hoth.
  assert (forall q v, T !! q = Some v -> fvs s !! q = None) as Hfr.
  { destruct HT as [->|(q & v & Hq & ->)]; [done|]. by intros q2 u [<- _]%lookup_singleton_Some. }
  assert (forall q, is_Some (fvs s !! q) -> T !! q = None) as Hno.
  { intros q [u Hu]. destruct (T !! q) as [v|] eqn:E; [|done]. apply Hfr in E. congruence. }
  constructor; try done.
  - split; [done|]. split; [done|]. rewrite Hf, lookup_union_r by (apply Hno; by eexists). apply lookup_insert_eq.
  - intros q Hne Hq. rewrite Hf, lookup_union_r by (by apply Hno). by rewrite lookup_insert_ne.
  - intros q Hq. rewrite Hf. destruct (T !! q) as [v|] eqn:E; [by rewrite (lookup_union_Some_l _ _ _ _ E)|].
    rewrite lookup_union_r by done. rewrite lookup_insert_ne; [done|]. intros ->. congruence.
Qed.

(** Only the cluster cache of the directory is another, and there may be a new
    structure. *)
Lemma cache_walk s O p d l bs T cache s' :
  sound s O -> p ∈ O -> directory s p d l bs -> cache_ok l cache -> length cache = 16%nat ->
  T = ∅ \/ (exists q v, fvs s !! q = None /\ T = {[q := v]}) ->
  set_fvs (T ∪ <[p := set_fv_cls_cache cache d]> (fvs s)) s ≡ s' -> walk s O T (held s) s'.
Proof.
  intros Hs Hp Hd Hca Hcl HT He. eapply walk_equiv; [|exact He]. pose proof (directory_at _ _ _ _ _ Hd) as Hat.
  eapply (settled_walk s O p d l bs T _ (set_fv_cls_cache cache d) bs Hs Hp Hd), (settled_fvs s O p d l T); try done.
  - apply Hd.
  - apply ready_set_fvs, Hs.
  - apply Hd.
  - by eapply sound_at.
  - intros q d2 l2 bs2 _ _ Hd2. exact (directory_at _ _ _ _ _ Hd2).
Qed.

Lemma cache_moved_outcome s w O p d l bs s' w' :
  sound s O -> p ∈ O -> directory s p d l bs -> cache_moved s p d l s' -> layer_same w w' -> outcome s w O s' w'.
Proof.
  intros Hs Hp Hd (cache & Hca & Hcl & He) Hlw. apply out_same; [|intros vp; apply Hlw].
  eapply (cache_walk s O p d l bs ∅ cache); try done; [by left|]. by rewrite map_empty_union.
Qed.

Lemma found_valid s d found : valid_fv (found_fv tb s d found).
Proof. by destruct found as [[x e]|]. Qed.

Lemma made_valid f c type vp parent v :
  valid_fv v -> valid_fv (made_vnode f c type vp parent v) /\ fv_vnode (made_vnode f c type vp parent v) = Some vp.
Proof. intros [H1 H2]. destruct (made_vnode_id f c type vp parent v) as (E1 & E2 & E3). split; [split; congruence|done]. Qed.

Lemma lookup_outcome s w O p d dvp l bs found r sw :
  sound s O -> p ∈ O -> directory s p d l bs -> lookup_post tb s w p d dvp l found r sw -> outcome s w O (fst sw) (snd sw).
Proof.
  intros Hs Hp Hd Hr. destruct r as [[vp|]|err| | |]; try done; [|by eapply cache_moved_outcome; [..|apply Hr|apply Hr]].
  destruct found as [[x e]|]; [|done]. destruct Hr as (q & cache & Hq & Hca & Hcl & He & Hlk). cbv zeta in He.
  set (v := found_fv tb s d (Some (x, e))) in *.
  destruct (made_valid (fsi s) (fv_cluster v) (fv_type v) vp (Some (dvp, fv_cluster d)) v (found_valid s d _)) as [Hv1 Hv2].
  eapply out_new; [|exact Hlk|exact Hv1|exact Hv2]. eapply (cache_walk s O p d l bs _ cache); try done; [right; by eexists _, _|].
  by rewrite <- insert_union_singleton_l.
Qed.

(** A removal, of an entry whose clusters belong to no open directory. *)
Lemma remove_outcome s w O p d l bs name stack lf s' w' :
  sound s O -> p ∈ O -> directory s p d l bs -> aparted s O lf -> length stack = 256%nat -> layer_same w w' ->
  remove_done s p d l bs (lookup_name bs stack name) lf s' -> outcome s w O s' w'.
Proof.
  intros Hs Hp Hd Hlf Hst Hlw (x & e & cache & now & Hf & Hca & Hcl & (Hr & Hg & Hat & _ & Hk & Hdk) & Hh & Hv).
  pose proof (sound_at _ _ _ _ _ _ Hs Hp Hd) as Hwf. pose proof (dir_width _ _ _ _ _ Hd) as Hw.
  pose proof (dir_length_aligned _ _ _ _ (so_ready _ _ Hs) (directory_at _ _ _ _ _ Hd)) as Hal.
  destruct (lookup_name_place bs stack name x e Hal Hw Hst Hf) as (_ & _ & Hpl & _).
  apply out_same; [|intros vp; apply Hlw].
  eapply (settled_walk s O p d l bs ∅ s' (modified now (set_fv_cls_cache cache d)) _ Hs Hp Hd), (settled_fvs s O p d l ∅); try done.
  - apply Hd.
  - by left.
  - by rewrite map_empty_union.
  - by rewrite mark_deleted_length.
  - apply mark_deleted_wf; [done|by eapply lookup_name_cuttable|done].
  - intros q d2 l2 bs2 Hq Hne Hd2. destruct (directory_at _ _ _ _ _ Hd2) as [Hch Hc].
    assert (l2 ## l) as H1 by (by eapply (so_apart _ _ Hs q p)). pose proof (Hlf q d2 l2 bs2 Hq Hd2) as H2.
    destruct (Hk _ _ Hch) as [Hch' _]; [set_solver|]. split; [done|].
    by apply (contents_keeps s l s'); [| |eapply chain_range| |].
Qed.

(** A name that exists is opened. *)
Lemma opened_dir_recached l now v d cache :
  cache_ok l cache -> length cache = 16%nat -> recached l d (opened_dir now v (set_fv_cls_cache cache d)).
Proof. intros H1 H2. unfold opened_dir. destruct (bool_decide _); [by apply recached_cache|by apply recached_modified]. Qed.

Lemma opened_dir_id now v d cache : same_id d (opened_dir now v (set_fv_cls_cache cache d)).
Proof. unfold opened_dir. by destruct (bool_decide _). Qed.

Lemma size_set_kept s v l vap v1 s' : size_set s v l vap v1 s' -> geom (fsi s') = geom (fsi s) /\ resized v v1.
Proof.
  unfold size_set. destruct (cuts vap v).
  - by intros (Hg & ext & _ & _ & _ & _ & _ & _ & H).
  - intros [-> [-> _]]. split; [done|apply resized_id].
Qed.

Lemma opened_valid f vp dvp c now v v1 :
  valid_fv v -> resized v v1 -> valid_fv (opened_fv f vp dvp c now v1) /\ fv_vnode (opened_fv f vp dvp c now v1) = Some vp.
Proof. intros Hv (c2 & n & cache & mask & -> & _). unfold opened_fv. apply made_valid. by destruct (bool_decide _). Qed.

(** What an opening that is not refused does to the volume. *)
Lemma opened_walk s w O p d dvp l bs name stack cr v lf vap T d' s' :
  sound s O -> p ∈ O -> openable tb s w p d dvp l bs name stack cr v lf vap -> (cuts vap v = true -> aparted s O lf) ->
  ready s' -> held s' = held s -> dir_at s' (fv_cluster d) l bs -> recached l d d' -> same_id d d' ->
  (exists v1, size_set s v lf vap v1 s') \/ cuts vap v = true /\ size_nospace s lf s' ->
  T = ∅ \/ (exists q v, fvs s !! q = None /\ T = {[q := v]}) -> fvs s' = T ∪ <[p := d']> (fvs s) -> walk s O T (held s) s'.
Proof.
  intros Hs Hp Hn Hlf Hr Hh Hat Hrc Hid Hsz HT Hf. pose proof (on_dir _ _ _ _ _ _ _ _ _ _ _ _ _ _ Hn) as Hd.
  assert (geom (fsi s') = geom (fsi s)) as Hg by (destruct Hsz as [[v1 H]|[_ H]]; [by eapply size_set_kept|apply H]).
  eapply (settled_walk s O p d l bs T s' d' bs Hs Hp Hd), (settled_fvs s O p d l T); try done; [apply Hd|apply Hd|by eapply sound_at|].
  intros q d2 l2 bs2 Hq Hne Hd2. pose proof (directory_at _ _ _ _ _ Hd2) as Hat2. destruct Hsz as [[v1 Hsz]|[Hc Hsz]].
  - apply (size_set_dir _ _ _ _ _ _ _ _ _ Hsz); [intros Hc; by eapply Hlf|done|apply ready_wf, Hs].
  - apply (size_nospace_dir s lf s' _ _ _ Hsz); [by eapply Hlf|done].
Qed.

Lemma open_outcome s w O p d dvp l bs name stack cr v lf vap refused r sw :
  sound s O -> p ∈ O -> openable tb s w p d dvp l bs name stack cr v lf vap -> (cuts vap v = true -> aparted s O lf) ->
  opened s w p d dvp l bs v lf vap refused r sw -> outcome s w O (fst sw) (snd sw).
Proof.
  intros Hs Hp Hn Hlf Ho. pose proof (on_dir _ _ _ _ _ _ _ _ _ _ _ _ _ _ Hn) as Hd. unfold opened in Ho.
  destruct (negb (refused =? 0)); [by eapply cache_moved_outcome; [..|apply Ho|apply Ho]|].
  destruct Ho as (Hr & Hh & Hat & cache & now & now' & Hca & Hcl & H).
  pose proof (fun T d' => opened_walk s w O p d dvp l bs name stack cr v lf vap T d' (fst sw) Hs Hp Hn Hlf Hr Hh Hat) as Hwalk.
  destruct r as [vp|e| | |]; try done.
  - destruct H as (q & v1 & Hq & Hsz & Hlk & Hf). destruct (on_found _ _ _ _ _ _ _ _ _ _ _ _ _ _ Hn) as (x & e & _ & Ev).
    destruct (opened_valid (fsi (fst sw)) vp dvp (fv_cluster d) now v v1) as [Hv1 Hv2]; [rewrite Ev; apply found_valid|by eapply size_set_kept|].
    eapply out_new; [|exact Hlk|exact Hv1|exact Hv2].
    eapply Hwalk; [by apply (opened_dir_recached l now' v d cache)|apply opened_dir_id|left; by eexists|right; by eexists _, _|].
    by rewrite <- insert_union_singleton_l.
  - destruct H as [Hlw H]. apply out_same; [|intros vp; apply Hlw]. destruct H as [(_ & Hsz & Hf)|(_ & Hc & Hsz & Hf)].
    + eapply Hwalk; [by apply (opened_dir_recached l now' v d cache)|apply opened_dir_id|by left|by left|by rewrite map_empty_union].
    + eapply Hwalk; [by apply (recached_cache l d cache)|done|by right|by left|by rewrite map_empty_union].
Qed.

(** ** Sequences of operations *)

(** The structures of the open directories, the file system and the vnode layer. *)
Definition volume : Type := gset nat * st K * V.

Definition returned {A} (r : res A) : Prop := match r with Ok _ | Err _ => True | _ => False end.

(** One operation in an open directory.  A directory that is made is open. *)
Inductive dir_step : volume -> volume -> Prop :=
| step_lookup O s w p d dvp l bs name stack r s' w' :
    here s w O p d dvp l bs -> length stack = 256%nat -> (length name <= 255)%nat ->
    fat32_lookup tb p name stack (s, w) = ((s', w'), r) -> dir_step (O, s, w) (O, s', w')
| step_create O s w p d dvp l bs name stack cr vap excl mode r s' w' :
    here s w O p d dvp l bs -> enterable s bs name stack ->
    lookup_name bs stack name = None \/ fat32_faccess (fsi s) d (Z.lor VWRITE VEXEC) cr <> 0 ->
    fat32_create tb p name vap excl mode cr stack (s, w) = ((s', w'), r) -> dir_step (O, s, w) (O, s', w')
| step_open O s w p d dvp l bs name stack cr v lf vap excl mode r s' w' :
    p ∈ O -> openable tb s w p d dvp l bs name stack cr v lf vap -> (cuts vap v = true -> aparted s O lf) ->
    fat32_create tb p name vap excl mode cr stack (s, w) = ((s', w'), r) -> dir_step (O, s, w) (O, s', w')
| step_mkdir O s w p d dvp l bs name stack cr vap vp q s' w' :
    here s w O p d dvp l bs -> enterable s bs name stack ->
    fat32_mkdir tb p name vap cr stack (s, w) = ((s', w'), Ok vp) -> first_bhv w' vp = Some q ->
    dir_step (O, s, w) ({[q]} ∪ O, s', w')
| step_mkdir_fails O s w p d dvp l bs name stack cr vap e s' w' :
    here s w O p d dvp l bs -> enterable s bs name stack ->
    fat32_mkdir tb p name vap cr stack (s, w) = ((s', w'), Err e) -> dir_step (O, s, w) (O, s', w')
| step_remove O s w p d l bs name stack is_dir cdir cc cr lf fbs r s' w' :
    p ∈ O -> removal s w p d l bs name stack cdir cc lf fbs ->
    (remove_answer tb s d name is_dir cr cc (lookup_name bs stack name) (occupied fbs) = 0 -> aparted s O lf) ->
    fat32_remove_common tb p name is_dir cdir cr stack (s, w) = ((s', w'), r) -> dir_step (O, s, w) (O, s', w')
| step_rename O s w p d l bs p2 d2 dvp2 l2 bs2 snm tnm st0 st1 st2 cr r s' w' :
    between tb s w O p d l bs p2 d2 dvp2 l2 bs2 snm tnm st0 st1 ->
    fat32_rename tb p snm dvp2 tnm cr st0 st1 st2 (s, w) = ((s', w'), r) -> returned r -> dir_step (O, s, w) (O, s', w')
| step_enter O s w q d l bs :
    directory s q d l bs -> well_formed bs -> aparted s O l -> dir_step (O, s, w) ({[q]} ∪ O, s, w)
| step_leave O O' s w :
    O' ⊆ O -> dir_step (O, s, w) (O', s, w).

(** What a run ends in satisfies its postcondition. *)
Lemma wp_run {S A} (m : M S A) x (Q : res A -> S -> Prop) x' r : wp m x Q -> m x = (x', r) -> Q r x'.
Proof. unfold wp. intros H E. by rewrite E in H. Qed.

Lemma mkdir_made s w O p d dvp l bs name stack cr vap r s' w' :
  sound s O -> here s w O p d dvp l bs -> enterable s bs name stack ->
  fat32_mkdir tb p name vap cr stack (s, w) = ((s', w'), r) -> made s w O true r (s', w').
Proof. intros Hs Hh He Hrun. eapply wp_run in Hrun; [exact Hrun|]. by apply (wp_mkdir_any tb s w O p d dvp l bs name stack). Qed.

(** Every step is the end of an operation; the open directories afterwards. *)
Lemma dir_step_outcome O s w O' s' w' :
  dir_step (O, s, w) (O', s', w') -> sound s O -> outcome s w O s' w' /\ sound s' O'.
Proof.
  intros Hst Hs. remember (O, s, w) as y eqn:Ey. remember (O', s', w') as y' eqn:Ey'.
  assert (forall s1 w1, outcome s w O s1 w1 -> outcome s w O s1 w1 /\ sound s1 O) as Hend by (intros s1 w1 H; split; [done|by eapply outcome_sound]).
  destruct Hst as [? ? ? p d dvp l bs name stack r ? ? Hh Hstk Hn Hrun
    |? ? ? p d dvp l bs name stack cr vap excl mode r ? ? Hh He Hno Hrun
    |? ? ? p d dvp l bs name stack cr v lf vap excl mode r ? ? Hp Hon Hlf Hrun
    |? ? ? p d dvp l bs name stack cr vap vp q ? ? Hh He Hrun Hq
    |? ? ? p d dvp l bs name stack cr vap e ? ? Hh He Hrun
    |? ? ? p d l bs name stack is_dir cdir cc cr lf fbs r ? ? Hp Hrm Hlf Hrun
    |? ? ? p d l bs p2 d2 dvp2 l2 bs2 snm tnm st0 st1 st2 cr r ? ? Hb Hrun Hret
    |? ? ? q d l bs Hd Hwf Hap
    |? ? ? ? Hsub]; simplify_eq.
  - apply Hend. destruct (decide (name = dot \/ name = dotdot)) as [Hdots|Hnd].
    + eapply wp_run in Hrun; [|by apply (wp_lookup_dots tb s w O p d dvp l bs name stack)]. apply Hrun.
    + apply Decidable.not_or in Hnd as [H1 H2]. destruct Hh as [Hp Hd Hl Hlv Hli].
      eapply wp_run in Hrun; [|by apply (wp_lookup tb s w p d dvp l bs name stack); [apply Hs|..]].
      by eapply (lookup_outcome s w O p d dvp l bs _ r (s', w')).
  - apply Hend. eapply wp_run in Hrun; [|by apply (wp_create_any tb s w O p d dvp l bs name stack)]. apply Hrun.
  - apply Hend. eapply wp_run in Hrun; [|by eapply wp_create_open]. by eapply (open_outcome s w O p d dvp l bs name stack cr v lf vap _ r (s', w')).
  - eapply mkdir_made in Hrun; try done. destruct Hrun as [Ho Hq2]. destruct (Hq2 eq_refl) as (q2 & E & Hs2). cbn [fst snd] in *.
    rewrite Hq in E. apply (inj Some) in E as <-. done.
  - eapply mkdir_made in Hrun; try done. apply Hend, Hrun.
  - apply Hend. pose proof Hrm as [_ Hd _ _ _ Hstk _ _ _ _]. eapply wp_run in Hrun; [|by apply wp_remove_common].
    destruct Hrun as (_ & Hlw & Hrun). cbn [fst snd] in *. destruct (Z.eqb_spec (remove_answer tb s d name is_dir cr cc (lookup_name bs stack name) (occupied fbs)) 0).
    + eapply remove_outcome; try done. by apply Hlf.
    + by eapply cache_moved_outcome.
  - apply Hend. eapply wp_run in Hrun; [|by apply (wp_rename_any tb s w O p d l bs p2 d2 dvp2 l2 bs2 snm tnm st0 st1)]. by destruct r.
  - split; [by apply outcome_refl|by eapply sound_open].
  - split; [by apply outcome_refl|]. destruct Hs as [Hr Hdirs Hap]. split; [done|by intros p Hp%Hsub; apply Hdirs|].
    intros p q d l bs d' l' bs' Hp%Hsub Hq%Hsub. by apply Hap.
Qed.

Lemma volume_reach x x' : rtc dir_step x x' ->
  sound x.1.2 x.1.1 -> sound x'.1.2 x'.1.1 /\ (typed x.1.2 x.2 -> typed x'.1.2 x'.2).
Proof.
  induction 1 as [|[[O s] w] [[O' s'] w'] z Hxy _ IH]; [done|]. intros Hx. destruct (dir_step_outcome _ _ _ _ _ _ Hxy Hx) as [Ho Hs].
  destruct (IH Hs) as [H1 H2]. split; [done|]. intros Ht. apply H2. by eapply outcome_typed.
Qed.

(** C3: The integrity check finds no error in any open directory, after any
    sequence of lookups (of "." and ".." too), creations of new and of existing
    names, makings of directories, removals and renames, within a directory or
    to another, in the open directories, whatever each call returns: refused,
    failed for want of clusters or vnodes, with room in the directory or with
    clusters added to it.  If the open directories are well formed and share no
    cluster at first, they and the directories that are made or opened since
    then satisfy the format of slots, and the check says so and changes nothing.
    A call ([dir_step]) is made with the directory unlocked and its vnode in use;
    the name fits, for a new name it is storable ([enterable]) and the directory
    stays below 4 GB; clusters can be read and cleared (they have one block, or the
    kernel keeps overlapping chunks coherent); and the clusters of an entry that
    is removed or cut, or of a directory that moves to another, can be followed
    and belong to no open directory.  A rename that never returns (it
    finds the new name and waits for a lock it holds) is the end of a sequence. *)
Theorem directories_stay_sound O s w O' s' w' p :
  sound s O -> rtc dir_step (O, s, w) (O', s', w') -> p ∈ O' ->
  exists d l bs, directory s' p d l bs /\ sound_slots (slot_list bs) /\
    wp (fat32_check_dir_integrity p) s' (fun r s2 => r = Ok tt /\ s' ≡ s2).
Proof.
  intros Hs Hst Hp. destruct (volume_reach _ _ Hst Hs) as [Hs' _]. cbn [fst snd] in Hs'.
  destruct (so_dirs _ _ Hs' p Hp) as (d & l & bs & Hd & [Hwf _]). exists d, l, bs. split; [done|].
  assert (integral bs = true) as Hi by (unfold integral; by rewrite Hwf). split; [by apply integral_sound|].
  destruct Hd as [H1 H2 H3 _ H5 _ _]. eapply wp_mono; [by apply (wp_check_dir s' p d l bs); [apply Hs'|..]|].
  intros r s2 [Hs2 ->]. by rewrite Hi.
Qed.

End operations.

(** ** Witnesses *)

Lemma tail_zero_split es1 es2 : live es1 -> Forall (fun e => mark e = 0) es2 -> tail_zero (es1 ++ es2).
Proof.
  intros Hl Hz i j e e' Hij Hi Hj H0. destruct (decide (j < length es1)%nat).
  - rewrite lookup_app_l in Hi by lia. by apply (Forall_lookup_1 _ _ _ _ Hl) in Hi.
  - rewrite lookup_app_r in Hj by lia. by apply (Forall_lookup_1 _ _ _ _ Hz) in Hj.
Qed.

Lemma demo_slots_wf : well_formed demo_slots.
Proof.
  split; [by vm_compute|]. rewrite <- (take_drop 5 (slot_list demo_slots)). apply tail_zero_split.
  - unfold live. eapply bool_decide_unpack. by vm_compute.
  - eapply bool_decide_unpack. by vm_compute.
Qed.

(** The root is the open directory of the demonstration volume. *)
Definition demo_open : gset nat := {[ 2%nat ]}.

Lemma demo_sound : sound demo_vol demo_open.
Proof.
  split; [apply demo_vol_ready|..].
  - intros p ->%elem_of_singleton. exists demo_root_fv, [2], demo_slots. split; [apply demo_vol_directory|apply demo_slots_wf].
  - by intros p q d l bs d' l' bs' ->%elem_of_singleton ->%elem_of_singleton.
Qed.

Lemma demo_here : here demo_vol demo_layer demo_open 2 demo_root_fv 9 [2] demo_slots.
Proof.
  constructor; [by apply elem_of_singleton|apply demo_vol_directory|reflexivity|apply demo_vol_locks|apply demo_layer_linked].
Qed.

Lemma demo_enterable name :
  storable name -> dirsz_of name <= 21 -> enterable demo_vol demo_slots name demo_stack.
Proof.
  intros Hst Hz. constructor; [reflexivity|done| |apply demo_vol_clearable].
  change (Z.of_nat (length demo_slots)) with 512. change (fsi_bytes_per_cluster (fsi demo_vol)) with 512. lia.
Qed.

(** The directory "notes.txt" is made and checked. *)
Definition demo_made : (st device * vntable) * res nat :=
  fat32_mkdir 32 2 demo_new demo_vattr demo_root_cred demo_stack (demo_vol, demo_layer).

Lemma demo_made_step :
  rtc (dir_step 32) (demo_open, demo_vol, demo_layer) ({[4%nat]} ∪ demo_open, fst (fst demo_made), snd (fst demo_made)).
Proof.
  apply rtc_once. apply (step_mkdir 32 demo_open demo_vol demo_layer 2 demo_root_fv 9 [2] demo_slots demo_new demo_stack
    demo_root_cred demo_vattr 10 4 (fst (fst demo_made)) (snd (fst demo_made)) demo_here).
  - apply demo_enterable; [apply demo_new_storable|by vm_compute].
  - vm_compute. reflexivity.
  - vm_compute. reflexivity.
Qed.

Lemma directories_stay_sound_witness :
  exists d l bs, directory (fst (fst demo_made)) 4 d l bs /\ sound_slots (slot_list bs) /\
    wp (fat32_check_dir_integrity 4) (fst (fst demo_made)) (fun r s2 => r = Ok tt /\ fst (fst demo_made) ≡ s2).
Proof.
  apply (directories_stay_sound 32 demo_open demo_vol demo_layer ({[4%nat]} ∪ demo_open) (fst (fst demo_made)) (snd (fst demo_made)) 4);
    [apply demo_sound|exact demo_made_step|set_solver].
Defined.

Lemma check_dir_correct_witness :
  wp (fat32_check_dir_integrity 2) demo_vol (fun r s' => demo_vol ≡ s' /\
    (r = Ok tt /\ sound_slots (slot_list demo_slots) \/ r = Err EINVAL /\ ~ sound_slots (slot_list demo_slots))).
Proof.
  apply (check_dir_correct demo_vol 2 demo_root_fv [2] demo_slots);
    [apply demo_vol_ready|reflexivity|reflexivity|apply demo_vol_directory|apply demo_vol_contents].
Defined.

(** A long-name slot without its entry is an error. *)
Example demo_orphan : integral demo_slots = true /\ integral (take 128 demo_slots ++ zeros 384) = false.
Proof. by vm_compute. Qed.

(** ** Slots behind the end marker

    [well_formed] asks for end markers only behind an end marker, like the FAT
    specification; the check does not look there.  [fat32_create_fdentry]
    overwrites the marker and writes no other, so that on a volume that breaks
    the rule an entry behind it reappears. *)
Definition stale_slots : list Z := splice demo_slots (32 * 7) (demo_entry [79; 76; 68; 32; 32; 32; 32; 32; 32; 32; 32] 0x20 4 100).
Definition stale_vol : st device :=
  mkSt (mkDevice ∅ (<[4 := stale_slots]> demo_disk) (mkTimespec 1700000000 0)) demo_fsi (fvs demo_vol) ∅.

Example stale_entry_reappears :
  integral stale_slots = true /\ lookup_name stale_slots demo_stack [79; 76; 68] = None /\
  match fat32_create 32 2 demo_new demo_vattr false VWRITE demo_root_cred demo_stack (stale_vol, demo_layer) with
  | ((s', _), Ok _) => match cluster_bytes s' 2 with
                       | Some bs => is_Some (lookup_name bs demo_stack [79; 76; 68])
                       | None => False
                       end
  | _ => False
  end.
Proof. vm_compute. split_and!; [done..|by eexists]. Qed.
