(* ===== verification/PersistSpec.v ===== *)
(** * What is written and synced is on disk

    The functions of reading, writing, synchronising and looking up a file,
    composed: after a write and [fat32_fsync] a new look-up of the name leads to
    another vnode, with another structure, through which the bytes that were
    written are read. *)
From S2P Require Import Prelude Layout Time Names Kernel Device Cls Fat Demo Alloc Chain Free Cache File Truncate Access Io IoSpec WriteSpec Dir DirSpec LfnSpec Vnode Nameops Vnops Listing Remove VnodeSpec VnopsSpec DirDemo AttrSpec Slots Insert CreateSpec RenameSpec MkdirSpec MoveSpec OpenSpec Integrity IntegritySpec OpenDirs.

(** ** A search after an entry was updated *)

(** The scan of a directory treats both entries alike. *)
Record same_kind (e e' : list Z) : Prop := {
  sk_name : get83 e' D83.name = get83 e D83.name;
  sk_entry : flag (nth 0 (get83 e D83.attr) 0) FAT32_ATTR_VOLUME_ID = false;
  sk_entry' : flag (nth 0 (get83 e' D83.attr) 0) FAT32_ATTR_VOLUME_ID = false
}.

Lemma not_long a : flag a FAT32_ATTR_VOLUME_ID = false -> (a =? FAT32_ATTR_LONG_NAME) = false.
Proof. intros H. apply Z.eqb_neq. by intros ->. Qed.

Lemma scan_entry_swap size e e' x :
  same_kind e e' -> scan_entry size e' x = scan_entry size e x \/
    exists y, scan_entry size e x = Some (inr (ScanFound y e)) /\ scan_entry size e' x = Some (inr (ScanFound y e')).
Proof.
  intros [Hn H1 H2]. unfold scan_entry. rewrite Hn, H1, H2, !not_long by done.
  destruct (nth 0 (get83 e D83.name) 0 =? 0); [by left|]. destruct (nth 0 (get83 e D83.name) 0 =? 0xE5); [by left|].
  replace (found_entry size e' x) with (found_entry size e x) by (unfold found_entry; by rewrite Hn).
  destruct (found_entry size e x) as [y|]; [|by left]. right. by exists y.
Qed.

Section swap.
Context (bs bs' e e' : list Z) (off : Z).
Context (Hkind : same_kind e e') (He : bsub bs off 32 = Some e) (Hlen : length bs' = length bs).
Context (Hbs : forall co, 0 <= co -> co mod 32 = 0 -> bsub bs' co 32 = if co =? off then Some e' else bsub bs co 32).
Context (Hal : Z.of_nat (length bs) mod 32 = 0) (Hw : Z.of_nat (length bs) < 2 ^ 32).

Lemma scan_cluster_swap n total : forall co x, 0 <= co -> co mod 32 = 0 ->
  scan_cluster n total 256 bs' co x = scan_cluster n total 256 bs co x \/
  exists y, scan_cluster n total 256 bs co x = Some (ScanFound y e) /\ scan_cluster n total 256 bs' co x = Some (ScanFound y e').
Proof.
  induction n as [|n IH]; intros co x Hco Hmod; [by left|]. rewrite !scan_cluster_unfold, Hbs by done.
  destruct (negb (co <? total)); [by left|].
  assert (forall x', scan_cluster n total 256 bs' (co + FAT32_DENTRY_SIZE) x' = scan_cluster n total 256 bs (co + FAT32_DENTRY_SIZE) x' \/
    exists y, scan_cluster n total 256 bs (co + FAT32_DENTRY_SIZE) x' = Some (ScanFound y e) /\
      scan_cluster n total 256 bs' (co + FAT32_DENTRY_SIZE) x' = Some (ScanFound y e')) as Hrec.
  { intros x'. unfold FAT32_DENTRY_SIZE. apply IH; [lia|]. Z.div_mod_to_equations. lia. }
  destruct (Z.eqb_spec co off) as [->|_].
  - rewrite He. destruct (scan_entry_swap 256 e e' x Hkind) as [->|(y & -> & ->)]; [|right; by exists y].
    destruct (scan_entry 256 e x) as [[x'|r]|]; [apply Hrec|by left|by left].
  - destruct (bsub bs co 32) as [f|]; [|by left]. destruct (scan_entry 256 f x) as [[x'|r]|]; [apply Hrec|by left|by left].
Qed.

(** The entries are the same but for the one that was updated. *)
Definition same_entry (y y' : scan * list Z) : Prop := y'.1 = y.1 /\ (y'.2 = y.2 \/ y.2 = e /\ y'.2 = e').

Lemma entries_swap n : forall o buf, 0 <= o -> o mod 32 = 0 -> length buf = 256%nat ->
  Forall2 same_entry (entries n bs o buf) (entries n bs' o buf).
Proof.
  induction n as [|n IH]; intros o buf Ho Hmod Hbuf; cbn [entries]; [constructor|].
  destruct (bput buf 0 [0]) as [buf'|] eqn:Hb; [|constructor]. apply bput_length in Hb.
  destruct (scan_cluster_swap (length bs) (Z.of_nat (length bs)) o (mkScan o buf' 256 false 0) Ho Hmod) as [E|(y & E & E')];
    unfold scan_dir; rewrite Hlen.
  - rewrite E. destruct (scan_cluster _ _ _ bs o _) as [[|y|y f]|] eqn:Hs; try constructor; [by split; [|left]|].
    destruct (scan_dir_found bs o buf' y f Ho Hmod Hal Hw (eq_trans Hb Hbuf) Hs) as ([Hy _] & H1 & H2 & H3 & _).
    unfold FAT32_DENTRY_SIZE. rewrite u32_small by lia. apply IH; [lia| |done]. Z.div_mod_to_equations. lia.
  - destruct (scan_dir_found bs o buf' y e Ho Hmod Hal Hw (eq_trans Hb Hbuf) E) as ([Hy _] & H1 & H2 & H3 & _).
    rewrite E, E'. constructor; [by split; [|right]|].
    unfold FAT32_DENTRY_SIZE. rewrite u32_small by lia. apply IH; [lia| |done]. Z.div_mod_to_equations. lia.
Qed.

Lemma find_swap name l l' x f :
  Forall2 same_entry l l' -> List.find (has_name name) l = Some (x, f) ->
  exists f', List.find (has_name name) l' = Some (x, f').
Proof.
  induction 1 as [|[y g] [y' g'] l l' [E _] _ IH]; cbn [List.find]; [done|]. cbn in E. subst y'.
  change (has_name name (y, g')) with (has_name name (y, g)). destruct (has_name name (y, g)); [|done].
  intros [= -> ->]. by exists g'.
Qed.

Lemma lookup_swap buf name x :
  lookup_name bs buf name = Some (x, e) -> current_offset x = off -> length buf = 256%nat ->
  lookup_name bs' buf name = Some (x, e').
Proof.
  intros Hf Hoff Hbuf. unfold lookup_name, listing in *. rewrite Hlen.
  destruct (find_swap name _ _ x e (entries_swap (length bs) 0 buf (Z.le_refl 0) eq_refl Hbuf) Hf) as [f Hf'].
  assert (f = e') as ->; [|done].
  destruct (lookup_name_place bs' buf name x f) as (Hst & _ & _ & _ & Hx); try (by rewrite Hlen); try done.
  { unfold lookup_name, listing. by rewrite Hlen. }
  rewrite Hbs in Hx.
  - rewrite Hoff, Z.eqb_refl in Hx. by apply (inj Some) in Hx.
  - unfold bsub in Hx. case_decide; [lia|done].
  - destruct (lookup_name_place bs buf name x e Hal Hw Hbuf Hf) as ([H1 H2] & _ & H3 & _). Z.div_mod_to_equations. lia.
Qed.

End swap.

(** ** The members of the updated entry *)

(** The structure [v] of a file is open for the entry [e] that the scan [x] has
    found in the directory [d]: what differs from the entry is marked dirty. *)
Record entry_of (d v : fat32fs_vnode) (x : scan) (e : list Z) : Prop := {
  ef_dir : fv_parent_cluster v = fv_cluster d;
  ef_slots : fv_diroff v = entry_start_offset x /\ fv_dirsz v = num_slots x;
  ef_size : flag (fv_flags v) FV_SIZE_DIRTY = true \/ RLE32 (get83 e D83.file_size) = fv_size v;
  ef_cluster : flag (fv_flags v) FV_CLUSTER_DIRTY = true \/ first_cluster e = fv_cluster v;
  ef_attr : flag (u8 (fv_attr v)) FAT32_ATTR_VOLUME_ID = false /\ flag (u8 (fv_attr v)) FAT32_ATTR_DIRECTORY = false;
  ef_file : flag (nth 0 (get83 e D83.attr) 0) FAT32_ATTR_DIRECTORY = false
}.

Lemma dirty_assigned v :
  let dirty m x := if flag (fv_flags v) m then Some x else None in
  assigned (dirty_members v) D83.name = None /\
  assigned (dirty_members v) D83.file_size = dirty FV_SIZE_DIRTY (WLE32 (fv_size v)) /\
  assigned (dirty_members v) D83.attr = dirty FV_ATTR_DIRTY [u8 (fv_attr v)] /\
  assigned (dirty_members v) D83.first_cluster_lo = dirty FV_CLUSTER_DIRTY (WLE16 (Z.land (fv_cluster v) 0xFFFF)) /\
  assigned (dirty_members v) D83.first_cluster_hi = dirty FV_CLUSTER_DIRTY (WLE16 (u16 (Z.shiftr (fv_cluster v) 16))).
Proof.
  unfold dirty_members. destruct (flag _ FV_CLUSTER_DIRTY), (flag _ FV_SIZE_DIRTY), (flag _ FV_ATTR_DIRTY), (flag _ FV_CTIME_DIRTY),
    (flag _ FV_MTIME_DIRTY), (flag _ FV_ATIME_DIRTY); by split_and!.
Qed.

Lemma updated_entry d v x e e' :
  entry_of d v x e -> flag (nth 0 (get83 e D83.attr) 0) FAT32_ATTR_VOLUME_ID = false -> 0 <= fv_size v < 2 ^ 32 -> 0 <= fv_cluster v < 2 ^ 32 ->
  (forall fl, get83 e' fl = default (get83 e fl) (assigned (dirty_members v) fl)) ->
  same_kind e e' /\ RLE32 (get83 e' D83.file_size) = fv_size v /\ first_cluster e' = fv_cluster v /\
  flag (nth 0 (get83 e' D83.attr) 0) FAT32_ATTR_DIRECTORY = false.
Proof.
  intros [_ _ Hsz Hcl [Ha1 Ha2] Hf] Hv Hs Hc Hget. destruct (dirty_assigned v) as (A1 & A2 & A3 & A4 & A5).
  assert (flag (nth 0 (get83 e' D83.attr) 0) FAT32_ATTR_VOLUME_ID = false /\
    flag (nth 0 (get83 e' D83.attr) 0) FAT32_ATTR_DIRECTORY = false) as [B1 B2].
  { rewrite Hget, A3. by destruct (flag (fv_flags v) FV_ATTR_DIRTY). }
  split; [split; [by rewrite Hget, A1|done|done]|]. split; [|split; [|done]].
  - rewrite Hget, A2. destruct (flag (fv_flags v) FV_SIZE_DIRTY); [|by destruct Hsz].
    change (RLE32 (WLE32 (fv_size v)) = fv_size v). rewrite RLE32_WLE32. by apply u32_small.
  - destruct (flag (fv_flags v) FV_CLUSTER_DIRTY).
    + apply split_cluster_get; [done|by rewrite Hget, A4|by rewrite Hget, A5].
    + destruct Hcl as [?|Hcl]; [done|]. rewrite <- Hcl. unfold first_cluster. by rewrite !Hget, A4, A5.
Qed.

(** ** Synchronisation, then a search *)

Section persist.
Context {K V : Type} `{!Kernel K, !KernelLaws K, !Vnodes V, !VnodesLaws V}.
Context (tb : Z).
Implicit Types (s : st K) (w : V).

(** The file at [p] is open for the entry [(x, e)] of the directory at [dp], in
    which its name leads to this entry. *)
Record open_file s w (p : nat) (v : fat32fs_vnode) (dp : nat) (d : fat32fs_vnode) (dvp : nat) (ld bs name stack : list Z)
    (x : scan) (e : list Z) : Prop := {
  of_ready : ready s;
  of_fv : fvs s !! p = Some v;
  of_dir : directory s dp d ld bs;
  of_ne : p <> dp;
  of_locks : held s !! FvLock p = None /\ held s !! FvLock dp = None;
  of_live : locks_live s;
  of_linked : linked w dp d dvp;
  of_parent : fv_parent_vp v = Some dvp;
  of_root : flag (fv_flags v) FV_ROOT = false;
  of_name : (length name <= 255)%nat /\ name <> dot /\ name <> dotdot;
  of_stack : length stack = 256%nat;
  of_found : lookup_name bs stack name = Some (x, e);
  of_entry : entry_of d v x e
}.

(** The entry lies where the structure says. *)
Lemma open_file_place s w p v dp d dvp ld bs name stack x e :
  open_file s w p v dp d dvp ld bs name stack x e ->
  entry_ok s v ld bs /\ entry_dir s v = fv_cluster d /\ entry_off v = current_offset x /\
  0 <= current_offset x /\ current_offset x mod 32 = 0 /\ current_offset x + 32 <= Z.of_nat (length bs) /\
  slice bs (Z.to_nat (entry_off v)) 32 = e /\ bsub bs (current_offset x) 32 = Some e /\
  flag (nth 0 (get83 e D83.attr) 0) FAT32_ATTR_VOLUME_ID = false.
Proof.
  intros [Hr _ Hd _ _ _ _ _ _ _ Hst Hf [E1 [E2 E3] _ _ _ _]]. pose proof (directory_at _ _ _ _ _ Hd) as Hat.
  pose proof (dir_length_aligned _ _ _ _ Hr Hat) as Hal. pose proof (dir_width _ _ _ _ _ Hd) as Hw.
  destruct (lookup_name_place bs stack name x e Hal Hw Hst Hf) as ([H1 H2] & H3 & H4 & H5 & H6).
  destruct (lookup_name_attr bs stack name x e) as [_ Ha]; [by eapply contents_bytes; apply Hat|lia|done|done|].
  pose proof (ready_wf _ Hr) as Hwf. destruct (chain_head _ _ _ _ (proj1 Hat)) as [l' El].
  pose proof (chain_range _ _ _ _ (proj1 Hat)) as Hrg. rewrite El in Hrg. apply Forall_cons_1 in Hrg as [Hrg _].
  assert (entry_dir s v = fv_cluster d) as Edir by (unfold entry_dir; rewrite E1, (in_range_nonzero (fsi s)) by done; done).
  assert (entry_off v = current_offset x) as Eoff by (unfold entry_off; rewrite E2, E3; lia).
  assert (0 <= entry_start_offset x /\ entry_start_offset x mod 32 = 0) as [Hs0 Hsal] by (split; [lia|done]).
  assert (current_offset x mod 32 = 0) as Hcal by (Z.div_mod_to_equations; lia).
  split; [|split; [done|split; [done|]]].
  - constructor; [|rewrite Edir; exact Hat|rewrite E2, E3; done|rewrite Eoff; lia].
    rewrite E1. by apply (in_range_not_bad (fsi s)).
  - split; [lia|]. split; [done|]. split; [done|]. rewrite Eoff. split; [|done].
    unfold bsub in H6. case_decide; [|done]. by apply (inj Some) in H6.
Qed.

(** The new structure is another view of the file. *)
Definition same_file (v v2 : fat32fs_vnode) : Prop :=
  fv_type v2 = VREG /\ fv_size v2 = fv_size v /\ fv_cluster v2 = fv_cluster v /\ fv_cls_cache v2 = replicate 16 (0, 0).

Lemma bsub_splice_slot (bs e' : list Z) off co :
  length e' = 32%nat -> 0 <= off -> off mod 32 = 0 -> off + 32 <= Z.of_nat (length bs) -> 0 <= co -> co mod 32 = 0 ->
  bsub (splice bs (Z.to_nat off) e') co 32 = if co =? off then Some e' else bsub bs co 32.
Proof.
  intros He H1 H2 H3 H4 H5. assert (length (splice bs (Z.to_nat off) e') = length bs) as Hl by (apply length_splice; lia).
  unfold bsub. rewrite Hl. destruct (Z.eqb_spec co off) as [->|Hne].
  - rewrite decide_True by lia. f_equal. change (slice (splice bs (Z.to_nat off) e') (Z.to_nat off) 32 = e').
    rewrite <- He. apply slice_splice. lia.
  - case_decide; [|done]. f_equal.
    apply (slice_splice_other bs (Z.to_nat off) e' (Z.to_nat co) 32); [lia|]. rewrite He. Z.div_mod_to_equations. lia.
Qed.

(** The synchronised directory. *)
Lemma synced_directory s w p v dp d dvp ld bs name stack x e s2 :
  open_file s w p v dp d dvp ld bs name stack x e -> 0 <= fv_size v < 2 ^ 32 -> 0 <= fv_cluster v < 2 ^ 32 ->
  metadata_written s p v ld bs s2 ->
  exists e' bs2, directory s2 dp d ld bs2 /\ lookup_name bs2 stack name = Some (x, e') /\
    RLE32 (get83 e' D83.file_size) = fv_size v /\ first_cluster e' = fv_cluster v /\
    flag (nth 0 (get83 e' D83.attr) 0) FAT32_ATTR_DIRECTORY = false.
Proof.
  intros Ho Hs Hc (e' & He1 & He2 & He3 & Hr2 & Hf2 & Hv2 & Hh2 & Hat2 & _).
  destruct (open_file_place _ _ _ _ _ _ _ _ _ _ _ _ _ Ho) as (_ & Edir & Eoff & H1 & H2 & H3 & H4 & H5 & H6).
  pose proof Ho as [Hr Hfv Hd Hne _ _ _ _ _ _ Hst Hf Hen]. rewrite H4 in He3. rewrite Edir, Eoff in Hat2.
  destruct (updated_entry d v x e e' Hen H6 Hs Hc He3) as (Hk & E1 & E2 & E3).
  pose proof (directory_at _ _ _ _ _ Hd) as Hat. pose proof (dir_length_aligned _ _ _ _ Hr Hat) as Hal.
  assert (length (splice bs (Z.to_nat (current_offset x)) e') = length bs) as Hlen by (apply length_splice; lia).
  exists e', (splice bs (Z.to_nat (current_offset x)) e'). split; [|split; [|done]].
  - pose proof Hd as [Hdp _ (Hca & Hcl & _) _ _ _ _]. cbn in Hv2, Hh2.
    apply (directory_changed s s2 dp d d ld ld bs _ Hd); try done; [by rewrite Hv2, lookup_insert_ne|rewrite Hlen; apply Hd].
  - apply (lookup_swap bs _ e e' (current_offset x) Hk H5 Hlen); try done; [|by eapply dir_width].
    intros co Hco Hcal. by apply bsub_splice_slot.
Qed.

Lemma found_members s d x e :
  flag (nth 0 (get83 e D83.attr) 0) FAT32_ATTR_DIRECTORY = false ->
  let v := found_fv tb s d (Some (x, e)) in
  fv_type v = VREG /\ fv_size v = RLE32 (get83 e D83.file_size) /\ fv_cluster v = first_cluster e /\ fv_cls_cache v = replicate 16 (0, 0).
Proof.
  intros H. cbn zeta. split; [|done].
  change ((if flag (nth 0 (get83 e D83.attr) 0) FAT32_ATTR_DIRECTORY then VDIR else VREG) = VREG). by rewrite H.
Qed.

Lemma made_cache f c type vp parent v : fv_cls_cache (made_vnode f c type vp parent v) = fv_cls_cache v.
Proof. unfold made_vnode. destruct parent as [[pvp pc]|], (_ && _); [..|]; try done; by destruct (fv_mode _ =? 0). Qed.

Lemma keeps_to s l s1 s2 : keeps s l s1 l -> same_volume s1 s2 -> keeps s l s2 l.
Proof. intros Hk Hs. exact (keeps_trans _ _ _ _ _ _ Hk (keeps_equiv _ _ _ (same_volume_equiv _ _ Hs))). Qed.

Lemma data_keeps_to s l s1 s2 : data_keeps s l s1 -> same_volume s1 s2 -> data_keeps s l s2.
Proof. intros Hd [_ Hw] x Hx Hn. rewrite Hw. by apply Hd. Qed.

Lemma wp_sync_lookup s w p v dp d dvp ld bs name stack x e :
  open_file s w p v dp d dvp ld bs name stack x e -> flag (fv_flags v) FV_DIRTY_MASK = true ->
  0 <= fv_size v < 2 ^ 32 -> 0 <= fv_cluster v < 2 ^ 32 ->
  wp (do* fat32_fsync p in fat32_lookup tb dp name stack) (s, w) (fun r sw =>
    ready (fst sw) /\ held (fst sw) = held s /\ fsi (fst sw) = fsi s /\ keeps s ld (fst sw) ld /\ data_keeps s ld (fst sw) /\
    match r with
    | Ok o => exists vp q v2, o = Some vp /\ first_bhv (snd sw) vp = Some q /\ fvs s !! q = None /\
        fvs (fst sw) !! q = Some v2 /\ same_file v v2
    | Err e => e = ENOMEM
    | _ => False
    end).
Proof.
  intros Ho Hdirty Hs Hc. pose proof Ho as [Hr Hfv Hd Hne [Hl1 Hl2] Hlv Hlk Hpar Hroot (Hn1 & Hn2 & Hn3) Hst Hf Hen].
  destruct (open_file_place _ _ _ _ _ _ _ _ _ _ _ _ _ Ho) as (Heok & _).
  eapply wp_call_ok; [apply (wp_fsync s w p v (Some dp) ld bs); try done|].
  { unfold parent_fv. rewrite Hpar. split; [by destruct Hlk|]. by split. }
  intros [] [s2 w'] [E Hmw]. cbn [fst snd] in E, Hmw. subst w'. rewrite Hdirty in Hmw.
  destruct (synced_directory _ _ _ _ _ _ _ _ _ _ _ _ _ s2 Ho Hs Hc Hmw) as (e' & bs2 & Hd2 & Hf2 & E1 & E2 & E3).
  destruct Hmw as (e1 & _ & _ & _ & Hr2 & Hfs2 & Hv2 & Hh2 & _ & Hk2 & Hdk2). cbn in Hfs2, Hv2, Hh2.
  assert (forall q, fvs s2 !! q = None -> fvs s !! q = None) as Hold.
  { intros q Hq. rewrite Hv2 in Hq. by apply lookup_insert_None in Hq as [Hq _]. }
  eapply wp_mono.
  { apply (wp_lookup tb s2 w dp d dvp ld bs2 name stack); try done; [by rewrite Hh2|].
    intros q Hq. rewrite Hh2. by apply Hlv, Hold. }
  intros r [s3 w3]. rewrite Hf2. unfold lookup_post. cbn [fst snd].
  assert (forall m, set_fvs m s2 ≡ s3 -> ready s3 /\ held s3 = held s /\ fsi s3 = fsi s /\ keeps s ld s3 ld /\ data_keeps s ld s3) as Hst3.
  { intros m (F1 & F2 & F3 & F4). cbn in F1, F2, F3, F4. assert (same_volume s2 s3) as Hsv by (by split).
    split; [apply (ready_same_volume s2); [done|done|]; rewrite F3; apply Hr2|]. split; [congruence|]. split; [congruence|].
    split; [by eapply keeps_to|by eapply data_keeps_to]. }
  destruct r as [[vp|]|err| | |]; try done.
  - intros (q & cache & Hq & _ & _ & Hs3 & (_ & _ & _ & Hb & _)). destruct (Hst3 _ Hs3) as (S1 & S2 & S3 & S4 & S5).
    split; [done|]. split; [done|]. split; [done|]. split; [done|]. split; [done|]. destruct Hs3 as (_ & Ev3 & _). cbn [fvs set_fvs fst snd] in Ev3, Hb.
    set (vf := found_fv tb s2 d (Some (x, e'))) in *. set (v2 := made_vnode _ _ _ _ _ _) in Ev3. exists vp, q, v2. split; [done|]. split; [done|]. split; [by apply Hold|].
    split; [by rewrite Ev3, lookup_insert_eq|]. destruct (found_members s2 d x e' E3) as (M1 & M2 & M3 & M4). unfold same_file, v2.
    destruct (made_vnode_members (fsi s2) (fv_cluster vf) (fv_type vf) vp dvp (fv_cluster d) vf) as (A1 & A2 & A3 & _).
    rewrite A1, A2, A3, made_cache. fold vf in M1, M2, M3, M4. by rewrite M1, M2, M3, M4.
  - intros (-> & (cache & _ & _ & Hs3) & _). destruct (Hst3 _ Hs3) as (S1 & S2 & S3 & S4 & S5). done.
Qed.
End persist.

(** ** From one open file to the next *)

(** A part of a program that does not know the vnode layer. *)
Definition with_user {S W U A} (m : M (S * U) A) : M (S * W * U) A :=
  fun x => let '((s', u'), r) := m (fst (fst x), snd x) in ((s', snd (fst x), u'), r).

Lemma wp_with_user {S W U A} (m : M (S * U) A) s (w : W) u (Q : res A -> S * W * U -> Prop) :
  wp m (s, u) (fun r su => Q r (fst su, w, snd su)) -> wp (with_user m) (s, w, u) Q.
Proof. unfold wp, with_user. cbn [fst snd]. by destruct (m (s, u)) as [[s' u'] r]. Qed.

Lemma flag_part x a m : Z.land m a = a -> flag x a = true -> flag x m = true.
Proof.
  unfold flag. intros <-. destruct (Z.eqb_spec (Z.land x m) 0) as [E|E]; [|done].
  by rewrite Z.land_assoc, E, Z.land_0_l.
Qed.

Section persistence.
Context {K V U : Type} `{!Kernel K, !KernelLaws K, !Vnodes V, !VnodesLaws V, !Uio U, !UioLaws U}.
Context (tb : Z).
Implicit Types (s : st K) (w : V) (u : U).

(** Write and synchronise through the structure [p], then look the name up and
    read through what is found, with the descriptor [u2]. *)
Definition write_sync_read (p : nat) (append : bool) (dp : nat) (name stack : list Z) (u2 : U) : M (st K * V * U) unit :=
  do* with_user (fat32_write p append) in
  let* o := lift (do* fat32_fsync p in fat32_lookup tb dp name stack) in
  let* vp := of_opt o in
  let* q := lift (VNODE_TO_FV vp) in
  do* modify (fun x => (fst x, u2)) in
  with_user (fat32_read q).

(** The file after a successful write. *)
Lemma open_after_write s u w p v dp d dvp ld bs name stack x e l append ext bs0 s1 u1 :
  open_file s w p v dp d dvp ld bs name stack x e -> ld ## l ->
  write_post s u p v l (write_at v u append) (uio_resid u) ext bs0 (s1, u1) ->
  exists v1, open_file s1 w p v1 dp d dvp ld bs name stack x e /\ file_ok s1 v1 (l ++ ext) /\ ld ## l ++ ext /\
    fv_size v1 = (if 0 <? uio_resid u then Z.max (fv_size v) (write_at v u append + uio_resid u) else fv_size v) /\
    flag (fv_flags v1) FV_DIRTY_MASK = true.
Proof.
  intros [Hr Hfv Hd Hne [Hl1 Hl2] Hlv Hlk Hpar Hroot Hn Hst Hf [F1 F2 F3 F4 F5 F6]] Hap
    [Hr1 Hh1 Hg1 (v1 & Hv1 & Hok1 & Hsz1 & Hty1 & _ & Hmt1 & Hsd & Hcd & (P1 & P2 & P3 & P4 & P5 & P6 & P7 & P8)) Hk1 Hdk1 _ _ _ _].
  cbn [fst snd] in *. pose proof (directory_at _ _ _ _ _ Hd) as [Hch Hc]. destruct (Hk1 _ _ Hch Hap) as [Hch1 Hap1].
  pose proof (dir_fv _ _ _ _ _ Hd) as Hdp.
  exists v1. split; [|split; [done|split; [done|split; [done|by apply (flag_part _ FV_MTIME_DIRTY)]]]]. constructor; try done.
  - by rewrite Hv1, lookup_insert_eq.
  - apply (directory_after s s1 dp d ld bs Hd); [by rewrite Hv1, lookup_insert_ne|done|]. split; [done|].
    by apply (contents_keeps s (l ++ ext) s1); [| |eapply chain_range| |].
  - by rewrite Hh1.
  - intros q Hq. rewrite Hh1. apply Hlv. rewrite Hv1 in Hq. by apply lookup_insert_None in Hq as [Hq _].
  - congruence.
  - congruence.
  - constructor; [congruence|by rewrite P4, P5| | |by rewrite P6|done].
    + destruct (decide (fv_size v1 = fv_size v)) as [->|Hne1]; [|by left; apply Hsd]. destruct F3 as [F3|F3]; [|by right]. left. by apply P8.
    + destruct (decide (fv_cluster v1 = fv_cluster v)) as [->|Hne1]; [|by left; apply Hcd]. destruct F4 as [F4|F4]; [|by right]. left. by apply P8.
Qed.

(** The other structure leads to the same bytes. *)
Lemma same_file_readable s1 s3 v1 v2 ld l2 bytes u2 :
  file_ok s1 v1 l2 -> l2 <> [] -> contents s1 l2 bytes -> fsi s3 = fsi s1 -> keeps s1 ld s3 ld -> data_keeps s1 ld s3 -> l2 ## ld ->
  same_file v1 v2 -> fv_size v1 <= Z.of_nat (length bytes) -> fv_size v1 < 2 ^ 32 -> 0 <= uio_offset u2 < 2 ^ 62 ->
  0 <= uio_resid u2 < 2 ^ 62 -> user_ok u2 -> readable s3 u2 v2 l2 bytes.
Proof.
  intros Hok Hne Hc Hf Hk Hdk Hap (T1 & T2 & T3 & T4) Hs1 Hs2 Ho Hres Hu. apply file_ok_chain in Hok as (_ & _ & Hch); [|done].
  constructor; try done; [| |by rewrite T2].
  - apply file_ok_chain; [done|]. rewrite T3, T4. split; [apply cache_ok_zeros|]. split; [done|]. by apply Hk.
  - by apply (contents_keeps s1 ld s3); [by rewrite Hf| |eapply chain_range| |].
Qed.

Lemma wp_write_sync_read s u u2 w p v dp d dvp ld bs name stack x e l append :
  open_file s w p v dp d dvp ld bs name stack x e -> held s !! CacheLock p = None -> fv_type v = VREG ->
  writable s u v l (write_at v u append) -> ld ## l ->
  0 <= fv_size v <= Z.of_nat (length l) * fsi_bytes_per_cluster (fsi s) -> fv_size v < 2 ^ 32 ->
  user_ok u2 -> uio_offset u2 = write_at v u append -> uio_resid u2 = uio_resid u ->
  wp (write_sync_read p append dp name stack u2) (s, w, u) (fun r x => held x.1.1 = held s /\ match r with
    | Ok _ => user_got (snd x) = user_got u2 ++ take (Z.to_nat (uio_resid u)) (user_data u)
    | Err err => err = ENOSPC \/ err = ENOMEM
    | _ => False
    end).
Proof.
  intros Ho Hcl Hty Hwr Hap [Hs0 Hsl] Hs32 Hu2 Ho2 Hr2. pose proof Ho as [Hr Hfv Hd Hne [Hl1 Hl2] Hlv _ _ _ _ _ _ _].
  pose proof (ready_wf _ Hr) as Hwf. unfold write_sync_read. apply wp_bind, wp_with_user.
  eapply wp_mono; [by apply wp_write|]. intros r [s1 u1] (m & ext & bs0 & Hpost & Hres). cbn [fst snd].
  destruct r as [[]|err| | |]; try done; cbn [wpk]; [|split; [exact (wo_held _ _ _ _ _ _ _ _ _ _ Hpost)|left; by destruct Hres]]. subst m.
  destruct (open_after_write s u w p v dp d dvp ld bs name stack x e l append ext bs0 s1 u1 Ho Hap Hpost)
    as (v1 & Ho1 & Hok1 & Hap1 & Hsz1 & Hdirty).
  destruct (write_readable s u p v l append ext bs0 s1 u1 u2) as (v1' & Hv1' & _ & Hcnt & Hrd); try done.
  pose proof (of_fv _ _ _ _ _ _ _ _ _ _ _ _ _ Ho1) as Hv1. rewrite Hv1 in Hv1'. apply (inj Some) in Hv1' as <-.
  destruct Hrd as [_ Hcon [Hb1 Hb2] Hob Hrb Hub]. pose proof Hwr as [_ _ Hoff Hpos Hend _ [Hul _]].
  pose proof (wo_room _ _ _ _ _ _ _ _ _ _ Hpost Hpos) as Hroom. pose proof (wo_before _ _ _ _ _ _ _ _ _ _ Hpost) as Hbef.
  assert (l ++ ext <> []) as Hne1.
  { intros E. rewrite E in Hbef. destruct Hbef as (ds & HF & Eb). inversion HF; subst ds. rewrite Eb in Hroom. cbn in Hroom. lia. }
  pose proof Hok1 as Hok1'. apply file_ok_chain in Hok1' as (_ & _ & Hch1); [|done].
  pose proof (chain_u32 _ _ _ (of_ready _ _ _ _ _ _ _ _ _ _ _ _ _ Ho1) Hch1) as Hc32.
  assert (0 <= fv_size v1) as Hs1 by (rewrite Hsz1; case_match; lia).
  apply wp_bind, wp_lift. eapply wp_mono; [by apply (wp_sync_lookup tb s1 w p v1 dp d dvp ld bs name stack x e)|].
  intros r [s3 w3] (Hr3 & Hh3 & Hf3 & Hk3 & Hdk3 & H). cbn [fst snd] in *.
  assert (held s3 = held s) as Hh by (rewrite Hh3; exact (wo_held _ _ _ _ _ _ _ _ _ _ Hpost)).
  destruct r as [o|err| | |]; try done; cbn [wpk]; [|by split; [|right]].
  destruct H as (vp & q & v2 & -> & Hb & Hq & Hv2 & Hsame). cbn [of_opt].
  repeat wp_step. apply wp_bind, wp_lift. unfold VNODE_TO_FV. repeat wp_step. cbn [snd]. rewrite Hb. cbn [of_opt]. repeat wp_step. cbn [fst].
  apply wp_with_user.
  destruct (of_live _ _ _ _ _ _ _ _ _ _ _ _ _ Ho1 q Hq) as [Hlq1 Hlq2]. rewrite <- Hh3 in Hlq1, Hlq2.
  assert (read_count v2 u2 = uio_resid u) as Hcnt2 by (destruct Hsame as (_ & E & _); unfold read_count in *; by rewrite E).
  eapply wp_mono; [apply (wp_read s3 u2 q v2 (l ++ ext)); try done|].
  - apply Hsame.
  - apply (same_file_readable s1 s3 v1 v2 ld); try done. intros y ? ?. by apply (Hap1 y).
  - intros [[]| | | |] [s4 u4]; try done. cbn [okp fst snd]. intros [(_ & _ & _ & ->) (? & _ & _ & _ & _ & Hh4 & _)].
    split; [cbn in Hh4; congruence|]. f_equal. rewrite Hcnt2, Ho2.
    assert (length (take (Z.to_nat (uio_resid u)) (user_data u)) = Z.to_nat (uio_resid u)) as Hlen by (rewrite length_take; lia).
    rewrite <- Hlen at 2. apply slice_splice. lia.
Qed.

(** C4: what [fat32_write] has stored and [fat32_fsync] has synchronised is on
    disk under the file's name: a look-up of the name then makes another vnode
    with its own structure, filled from the directory entry alone, and a read
    through this vnode from the position of the write delivers exactly the bytes
    that were written, also when the write has extended the file or given it its
    first cluster.  The sequence fails only with ENOSPC of the write or ENOMEM of
    the look-up; the locks that are held are those held before. *)
Theorem written_data_persists s u u2 w p v dp d dvp ld bs name stack x e l append :
  open_file s w p v dp d dvp ld bs name stack x e -> held s !! CacheLock p = None -> fv_type v = VREG ->
  writable s u v l (write_at v u append) -> ld ## l ->
  0 <= fv_size v <= Z.of_nat (length l) * fsi_bytes_per_cluster (fsi s) -> fv_size v < 2 ^ 32 ->
  user_ok u2 -> uio_offset u2 = write_at v u append -> uio_resid u2 = uio_resid u ->
  wp (write_sync_read p append dp name stack u2) (s, w, u) (fun r x => held x.1.1 = held s /\ match r with
    | Ok _ => user_got (snd x) = user_got u2 ++ take (Z.to_nat (uio_resid u)) (user_data u)
    | Err err => err = ENOSPC \/ err = ENOMEM
    | _ => False
    end).
Proof. apply wp_write_sync_read. Qed.

End persistence.

(** ** Witness

    "Hello world.txt" of the root directory is open in the structure 5; 2000
    bytes are written at 1000, so that its chain grows. *)
Definition hello_fv : fat32fs_vnode :=
  set_fv_parent_vp (Some 9%nat) (set_fv_parent_cluster 2 (set_fv_diroff 64 (set_fv_dirsz 3 (set_fv_vnode (Some 12%nat) demo_fv)))).
Definition hello_vol : st device := set_fvs (<[5%nat := hello_fv]> (fvs demo_vol)) demo_vol.

Lemma hello_data : data_readable hello_vol.
Proof.
  intros x Hx. assert (x ∈ seqZ 2 20) as Hin by (apply elem_of_seqZ; unfold in_range in Hx; cbn in Hx; lia).
  assert (forallb (fun x => match cluster_bytes hello_vol x with Some _ => true | None => false end) (seqZ 2 20) = true)
    as Hall by (vm_compute; reflexivity).
  rewrite forallb_forall in Hall. apply list_elem_of_In, Hall in Hin. by destruct (cluster_bytes hello_vol x).
Qed.

Lemma hello_writable : writable hello_vol demo_write hello_fv [3; 5; 6] (write_at hello_fv demo_write false).
Proof.
  constructor; [|apply hello_data|cbn; lia..|reflexivity|apply demo_writable].
  split; [apply cache_ok_zeros|split; [reflexivity|apply demo_vol_chain]].
Qed.

Lemma hello_open : open_file hello_vol demo_layer 5 hello_fv 2 demo_root_fv 9 [2] demo_slots demo_name demo_stack
  (demo_find demo_name).1 (demo_find demo_name).2.
Proof.
  constructor; try reflexivity.
  - apply ready_set_fvs, demo_vol_ready.
  - destruct demo_vol_directory. by constructor.
  - discriminate.
  - by split.
  - intros q _. done.
  - apply demo_layer_linked.
  - split; [cbn; lia|split; discriminate].
  - constructor; try reflexivity; [by split|by right; vm_compute|by right; vm_compute|by split].
Qed.

Lemma written_data_persists_witness :
  wp (write_sync_read 32 5 false 2 demo_name demo_stack demo_reread) (hello_vol, demo_layer, demo_write) (fun r x =>
    held x.1.1 = held hello_vol /\ match r with
    | Ok _ => user_got (snd x) = user_got demo_reread ++ take (Z.to_nat (uio_resid demo_write)) (user_data demo_write)
    | Err err => err = ENOSPC \/ err = ENOMEM
    | _ => False
    end).
Proof.
  apply (written_data_persists 32 hello_vol demo_write demo_reread demo_layer 5 hello_fv 2 demo_root_fv 9 [2] demo_slots demo_name
    demo_stack (demo_find demo_name).1 (demo_find demo_name).2 [3; 5; 6] false);
    [exact hello_open|reflexivity|reflexivity|exact hello_writable|set_solver by lia|cbn; lia|cbn; lia|reflexivity|reflexivity|reflexivity].
Defined.

(** Here the sequence succeeds; the new structure is another one, and the entry
    has the new size. *)
Example hello_persisted :
  match write_sync_read 32 5 false 2 demo_name demo_stack demo_reread (hello_vol, demo_layer, demo_write) with
  | ((s', w', u'), Ok _) =>
      du_got u' = replicate 2000 7 /\
      option_map (fun bs => option_map (fun y => (first_cluster y.2, RLE32 (get83 y.2 D83.file_size))) (lookup_name bs demo_stack demo_name))
        (cluster_bytes s' 2) = Some (Some (3, 3000))
  | _ => False
  end.
Proof. by vm_compute. Qed.
