(* ===== verification/ValidSpec.v ===== *)
(** * Vnodes and their structures

    The link between the vnodes of the kernel and the structures of the driver,
    and the marks that debugging builds check: every structure in use is a valid
    one, and the behaviour of a vnode leads to a structure that leads back. *)
From S2P Require Import Prelude Layout Time Names Kernel Device Cls Fat Demo Alloc Chain Free Cache File Truncate Access Io IoSpec WriteSpec Dir DirSpec LfnSpec Vnode Nameops Vnops Listing Remove VnodeSpec VnopsSpec DirDemo Slots Insert CreateSpec RenameSpec MkdirSpec MoveSpec AttrSpec OpenSpec Integrity IntegritySpec OpenDirs WalkOps VolumeSpec.

Section valid.
Context {K V : Type} `{!Kernel K, !KernelLaws K, !Vnodes V, !VnodesLaws V}.
Context (tb : Z).
Implicit Types (s : st K) (w : V) (O : gset nat).

Lemma wp_checked s w p v :
  fvs s !! p = Some v -> valid_fv v ->
  wp (fat32_bhv_to_fv_checked (Some p)) (s, w) (fun r sw => r = Ok p /\ sw = (s, w)).
Proof.
  intros Hv [H1 H2]. unfold fat32_bhv_to_fv_checked. eapply wp_lift_call; [by apply wp_get_fv|]. intros ? ? [-> ->].
  rewrite H1, H2, bool_decide_true, Z.eqb_refl by done. pose proof fv_sizeof_pos. by rewrite (proj2 (Z.eqb_neq _ _)) by lia.
Qed.

(** C8: The structure behind a vnode is always the right one: after any sequence
    of the operations on names of [dir_step], in any order and whatever each call
    returns (lookups of any name, creations and makings of directories under new
    and existing names, removals and renames, refused, failed or not, with
    clusters added to the directory or not), the behaviour of every vnode leads
    to a structure of the driver that is initialised, not deleted and belongs to
    this vnode, so that the conversion [BHV_TO_FV] of a debugging build does not
    panic.  The conditions of a call are those of [directories_stay_sound]. *)
Theorem vnodes_stay_typed O s w O' s' w' vp :
  sound s O -> typed s w -> rtc (dir_step tb) (O, s, w) (O', s', w') -> is_Some (first_bhv w' vp) ->
  wp (fat32_bhv_to_fv_checked (first_bhv w' vp)) (s', w') (fun r sw => exists p v,
    r = Ok p /\ sw = (s', w') /\ first_bhv w' vp = Some p /\ fvs s' !! p = Some v /\ fv_vnode v = Some vp).
Proof.
  intros Hs Ht Hst [p Hp]. destruct (volume_reach tb _ _ Hst Hs) as [_ Hty]. destruct (Hty Ht) as [Hval Hl]. cbn [fst snd] in *.
  destruct (Hl vp p Hp) as (v & Hv1 & Hv2).
  rewrite Hp. eapply wp_mono; [by apply (wp_checked s' w' p v); [|eapply Hval]|]. intros r sw [-> ->]. by exists p, v.
Qed.

End valid.

(** ** Witnesses *)

Lemma demo_typed : typed demo_vol demo_layer.
Proof.
  split.
  - intros p v Hv. cbn in Hv. apply lookup_insert_Some in Hv as [[_ <-]|[_ [[_ <-]|[_ [_ <-]%lookup_singleton_Some]]%lookup_insert_Some]]; done.
  - intros vp p Hb. change (({[9%nat := 2%nat]} : gmap nat nat) !! vp = Some p) in Hb. apply lookup_singleton_Some in Hb as [<- <-]. by exists demo_root_fv.
Qed.

(** A directory is asked for under a name that is there: the vnode of the root
    still leads to its structure. *)
Definition demo_refused : (st device * vntable) * res nat :=
  fat32_mkdir 32 2 demo_name demo_vattr demo_root_cred demo_stack (demo_vol, demo_layer).

Lemma demo_name_storable : storable demo_name.
Proof.
  constructor; [|cbn; lia|done]. unfold demo_name, name_char. repeat constructor; lia.
Qed.

Lemma demo_refused_step :
  rtc (dir_step 32) (demo_open, demo_vol, demo_layer) (demo_open, fst (fst demo_refused), snd (fst demo_refused)).
Proof.
  apply rtc_once. apply (step_mkdir_fails 32 demo_open demo_vol demo_layer 2 demo_root_fv 9 [2] demo_slots demo_name demo_stack
    demo_root_cred demo_vattr ENOTDIR (fst (fst demo_refused)) (snd (fst demo_refused)) demo_here).
  - apply demo_enterable; [apply demo_name_storable|by vm_compute].
  - vm_compute. reflexivity.
Qed.

Lemma vnodes_stay_typed_witness :
  wp (fat32_bhv_to_fv_checked (first_bhv (snd (fst demo_refused)) 9%nat)) (fst (fst demo_refused), snd (fst demo_refused)) (fun r sw => exists p v,
    r = Ok p /\ sw = (fst (fst demo_refused), snd (fst demo_refused)) /\ first_bhv (snd (fst demo_refused)) 9%nat = Some p /\
    fvs (fst (fst demo_refused)) !! p = Some v /\ fv_vnode v = Some 9%nat).
Proof.
  apply (vnodes_stay_typed 32 demo_open demo_vol demo_layer demo_open (fst (fst demo_refused)) (snd (fst demo_refused)) 9%nat);
    [apply demo_sound|apply demo_typed|exact demo_refused_step|eexists; vm_compute; reflexivity].
Defined.
